(* ===== verification/_CoqProject ===== *)
-Q . S2P
RustPrelude.v
Crc32.v
SrfsLayout.v
LayoutProps.v
BlockDevice.v
BlockCache.v
CacheProps.v
SrfsFs.v
SrfsState.v
SrfsDir.v
SrfsDirAdd.v
SrfsMount.v
SrfsNode.v
SrfsDirRemove.v
SrfsRemove.v
SrfsFile.v
SrfsFileWrite.v
SrfsFileAppend.v
SrfsTree.v
SrfsTreeOps.v
SrfsTruncate.v
SrfsMove.v
SrfsSample.v
SrfsProps.v
SrfsLimits.v
FlatFs.v
FlatFsProps.v
IoChannel.v
IoQueue.v
IoChannelProps.v
Timers.v
TimersProps.v
PhysMem.v
PhysFrames.v
PhysInit.v
PhysProps.v
PageTable.v
PageWalk.v
PageMem.v
PageTableProps.v
PageSpaces.v
Slab.v
SlabProps.v
Vmem.v
VmemSpace.v
VmemSegs.v
VmemRegions.v
UserSpace.v
UserInv.v
UserOps.v
UserCopy.v
UserLife.v
UserProps.v
Pipe.v
PipeProps.v
