(* ===== verification/RustPrelude.v ===== *)
(** * Verification of Motor OS components

    Motor OS (src/) is an operating system for virtual machines written in Rust: a microkernel
    (src/src/bin/kernel), an I/O server and other system programs (src/src/bin), and the libraries they
    share (src/src/lib).  This development translates eight parts whose correctness the rest depends on into
    Rocq functions and proves theorems about them.

    ** The parts and how they interact

    - SRFS (src/src/lib/srfs-core) is the filesystem of the data partition.  [SyncFileSystem] (fs_sync.rs)
      works on blocks through a write-through cache (block_cache.rs) over a block device
      (file_block_device.rs or a virtio disk); the structures in the blocks are in layout.rs.
    - FlatFS (src/src/lib/flatfs) is the read-only archive the image builder writes for the boot partition
      and the I/O server unpacks.
    - The I/O channel (src/src/lib/moto-ipc/src/io_channel.rs) is the shared memory through which programs
      talk to the I/O server: two lock-free queues of messages and two bitmaps of data pages.
    - The pipe (src/src/lib/moto-ipc/src/sync_pipe.rs) is a ring of bytes in shared memory between one writer
      and one reader, which carries the standard streams of a program.
    - The frame allocator (src/src/bin/kernel/src/mm/phys.rs, with the memory segments of mm/mod.rs) owns the
      physical memory that every address space is made of.
    - The page tables (src/src/bin/kernel/src/arch/x64/paging.rs) map frames into the address spaces of the
      programs and of the kernel; they take the frames for themselves from the frame allocator.
    - The memory of programs (src/src/bin/kernel/src/mm/user.rs, virt.rs, virt_intrusive.rs and slab.rs): an
      address space has two regions, a region has segments and a segment has pages; a page that has memory
      refers to a frame object, which is kept in a slab with the number of references to it.  Everything is
      mapped through the page table of the address space.
    - The timers (src/src/bin/kernel/src/sched/timers.rs) and the loop of the scheduler that runs them.

    ** How the code is translated

    A Rust [uN] is a [Z] in its range; [+], [-], [*] wrap as in the release profile and the wrap-around is
    written out ([u64 (a + b)]).  A method on [&mut self] is a program of type [eff S E A := S -> S * result E
    A]: it returns the new state, also with an error, and [Ok], [Err] or [Panic], the last for a failed
    [assert!], [unwrap], index or [todo!].  [debug_assert!] is not part of a release build.  Structures that
    live in raw bytes (disk blocks, archives) are lists of bytes with the offsets of the [repr(C)] types.  A
    [BTreeMap] is a list in the order of its keys; a map whose order is not observed is a [gmap].  Shared
    words that threads change with atomic instructions are fields of a state, and concurrency is an
    interleaving of steps.  Logging is left out.

    Code outside src/ is a parameter: the digest of the [crc] crate (class [Crc32] with [Crc32Laws], which the
    bitwise reference algorithm in Crc32.v satisfies), the block device (class [SyncBlockDevice] with its
    laws, which the file-backed device of BlockDevice.v satisfies), the clock and the content of
    uninitialised buffers (classes [Clock] and [Uninit] in SrfsFs.v), page-table addresses and the state of
    the random number generator (arguments in PhysMem.v).

    ** Files

    - RustPrelude.v: machine integers, bit sets, the effect type with its rules ([wp]), bounded loops, byte
      lists, little-endian structures, UTF-8.
    - Crc32.v, SrfsLayout.v, LayoutProps.v: the digest and layout.rs.  Round trips of metadata, superblock and
      directory entries; a changed byte of sealed metadata is detected.
    - BlockDevice.v, BlockCache.v, CacheProps.v: the device and block_cache.rs.  Any use of the cache behaves
      as an array of blocks that the device holds too; a block stays cached while 15 others are used.
    - SrfsFs.v: fs_sync.rs, one definition per method and per branch of the large ones.
      SrfsState.v states what an open filesystem is and gives one rule per primitive; SrfsDir.v,
      SrfsDirAdd.v, SrfsDirRemove.v (directories in three storage shapes), SrfsFile.v, SrfsFileWrite.v,
      SrfsFileAppend.v (files in four), SrfsNode.v, SrfsRemove.v (whole transactions) and SrfsMount.v
      ([format], [open_fs]) build on it.  SrfsTree.v and SrfsTreeOps.v relate the blocks to a tree of nodes;
      SrfsTruncate.v and SrfsMove.v add [set_file_size] and [move_rename] on top of it.
      SrfsProps.v: creation, writing, truncation, moving, reading, removal, lookup and listing refine
      operations on the tree, and the tree survives a remount.  SrfsSample.v has concrete filesystems;
      SrfsLimits.v what goes wrong on a full device, after a removal, at the end of a large file and when a
      directory is moved into itself.
    - FlatFs.v, FlatFsProps.v: the archive.  Packing and unpacking gives every file back at its path; names
      that are refused; archives on which [unpack] panics or leaves the buffer.
    - IoChannel.v, IoQueue.v, IoChannelProps.v: the channel.  IoQueue.v proves, for every interleaving of any
      number of threads, that messages are neither lost, duplicated, reordered nor torn, that the plain
      accesses to a message do not race, when [NotReady] is reported, and that a call on its own ends;
      IoChannelProps.v that between calls a connection is a pair of bounded queues, that no data page is
      handed out twice, and two comparisons that are wrong.
    - Pipe.v, PipeProps.v: the pipe.  Between calls it is a bounded byte queue; as long as no write times
      out, and for every interleaving of the two ends, the bytes read are those written, in order, a write reports the number of bytes it made
      visible, plain accesses do not race, and undisturbed calls end; a write that times out takes back bytes
      the reader may already have.
    - Timers.v, TimersProps.v: [pop] gives the earliest timer, cancelling removes one timer, and a pass of the
      scheduler runs exactly the expired ones in order.
    - PhysMem.v: the allocator.  PhysFrames.v: its invariant and what each method does to the frames in use;
      PhysInit.v: start-up.  PhysProps.v: the methods refine operations on a set of frames, held memory never
      overlaps, runs of frames, the counter of used pages, [minus] on segments.
    - PageTable.v: the page tables, as words of physical memory over the allocator of PhysMem.v.  PageWalk.v:
      the walk of the processor, which is the specification, and the shape of the tables: a tree of four
      levels per address space whose nodes are frames, the kernel's part shared by all.  PageMem.v: what each
      step of the code does to memory, shape and walk.  PageTableProps.v: [map_page] and [unmap_page] change
      the translation of exactly one page, [virt_to_phys] is the walk of the processor, and a page that is
      mapped and unmapped leaves no trace.  PageSpaces.v: the address spaces of all programs as a state
      machine; programs never reach the kernel's memory or a page table, the kernel is mapped alike in all of
      them, and no page table outlives its program.
    - Slab.v: slabs of reference-counted objects and the frames kept in them, over the memory of PageTable.v.
      SlabProps.v: the invariant that ties the references that are held to the counts, the frames in use and
      the page tables ([mm_inv]), and what each operation does to it.
    - Vmem.v: pages, segments, the map of segments and regions.  VmemSpace.v, VmemSegs.v, VmemRegions.v: the
      same invariant for an address space, for the pages of a segment and for a region, with one rule per
      operation.
    - UserSpace.v: the address space of a program.  UserInv.v, UserOps.v, UserCopy.v, UserLife.v: its
      invariant, allocation, unmapping and page faults, copies, and its creation and end.  UserProps.v: for
      every sequence of operations since the program started (with free frames, and [unmap] only where it does not
      panic), no operation panics or exceeds the limit, new
      memory is zeroed and shared with nobody, faults map what the options allow, copies read back, the lists
      of the kernel agree with the processor, and the end of a program gives all its memory back; a frame is
      freed with its last reference.  [unmap] panics at an address in a region where no segment starts, and a
      program that frees the last segment of its normal memory gets no heap, lazy or unmapped memory any more.

    ** Bounds and fuel

    - [loop] takes the largest number of rounds a loop can make (2^53 blocks of a file in [set_file_size], 2^64
      files in [unpack]) as a binary number, so it is not a restriction; [loop_loopn] lets a proof count only
      the rounds that are used ([set_file_size] needs one more than the file has data blocks).
    - [add_file] of FlatFS recurses on a shorter name: the length of the name is enough.  [pad] adds at most 7
      bytes.
    - A call of [send] or [recv] that is not disturbed makes at most 8 accesses ([solo_terminates]).  The
      theorems on the queue are about channels that carried fewer than 2^64 - 128 messages, so that the 64-bit
      positions have not wrapped.
    - A pipe has 2^k bytes with k at most 60, and the theorems are about pipes through which fewer than 2^63
      bytes were made visible.  An undisturbed read makes at most 6 accesses, a write 7.  Blocking is a system
      call whose result is an input of the step; it fails only when the other end has gone, or by a time-out
      where the theorem says so.
    - [mark_used_loop] and [mark_unused_loop] walk over at most 64 pages; [owner_search] halves its range in
      each of 64 rounds; [split_rounds] is the number of whole pages and three more ([split_terminates]).
    - [run_expired] has the limit of the code, a million timers, after which the code panics.
    - Physical addresses are below 2^63 in the theorems on memory maps; x86-64 has at most 52 bits.  The theorems
      on page tables are about frames below 2^46, which the kernel's direct map covers, and virtual addresses
      of 48 bits, which is what four levels translate; [map_page] takes at most three frames.
    - The theorems on the memory of programs are about requests of at most 2^32 pages and ask for enough free
      frames and room in the slabs ([enough]: a page takes at most five frames), since the kernel panics when
      a frame object cannot be allocated.  [copy_loop] and [read_loop] have a round per byte, which is enough
      because each round copies one at least; [region_clear_loop] one per segment; [mmslab_alloc] the 100
      rounds of the code.

    ** Not modelled

    The kernel heap, processes, system calls and the rest of the scheduler: they work through raw pointers,
    context switches and reference-counted objects, which a shallow embedding does not capture without a
    memory model.  Of the memory of programs: stacks and their caches, sharing between processes, 2 MB,
    contiguous and device memory, and the kernel's own address space; fixed addresses, [map_bytes] and the
    sharing of two segments are translated without theorems.  The
    drivers (virtio), boot loaders and the start-up code are hardware access.  The runtime, the I/O server and
    the programs are input and output over system calls.  The std front end of SRFS, the synchronous
    channels of moto-ipc (sync.rs), the allocator frusa and the channels of mpmc are left for later.  In the
    modelled parts: memory accesses of the channel and the pipe are sequentially consistent, the frame
    allocator's methods and the operations on a page table, a slab or an address space are atomic and the
    processor sees their writes at once (the translation cache is a list of the invalidations requested);
    the intrusive red-black trees of the segments and pages (third_party/intrusive-rs) are the sequences of
    their elements in key order, and the elements, which the code keeps in frames of their own, are values
    with their addresses; jobs run by the timer loop have no effect on the timers, and [stat]
    of SRFS is translated without theorems. *)

From stdpp Require Import base numbers list option gmap.
From coqutil Require Import Byte Word.LittleEndianList.

#[export] Set Default Goal Selector "!".
Open Scope Z_scope.

(** ** Machine integers

    A Rust [uN] value is a [Z] in [0, 2^N).  The release profile (the default
    of [src/Makefile.toml]) compiles [+], [-], [*] to wrapping instructions;
    [u64 (a + b)] writes that wrap-around out. *)

Definition u8 (z : Z) : Z := z mod 2 ^ 8.
Definition u16 (z : Z) : Z := z mod 2 ^ 16.
Definition u32 (z : Z) : Z := z mod 2 ^ 32.
Definition u64 (z : Z) : Z := z mod 2 ^ 64.

Definition U64_MAX : Z := 2 ^ 64 - 1.

Definition is_u8 (z : Z) : Prop := 0 <= z < 2 ^ 8.
Definition is_u16 (z : Z) : Prop := 0 <= z < 2 ^ 16.
Definition is_u32 (z : Z) : Prop := 0 <= z < 2 ^ 32.
Definition is_u64 (z : Z) : Prop := 0 <= z < 2 ^ 64.

(** Rust's [!x] on [u64]. *)
Definition u64_not (z : Z) : Z := Z.lxor z U64_MAX.

(** [lia] with division and remainder by constants. *)
Ltac dlia := Z.to_euclidean_division_equations; lia.

Create HintDb machine.

Lemma u64_id z : is_u64 z -> u64 z = z.
Proof. intros. by apply Z.mod_small. Qed.

Lemma u32_id z : is_u32 z -> u32 z = z.
Proof. intros. by apply Z.mod_small. Qed.

Lemma u16_id z : is_u16 z -> u16 z = z.
Proof. intros. by apply Z.mod_small. Qed.

Lemma u8_id z : is_u8 z -> u8 z = z.
Proof. intros. by apply Z.mod_small. Qed.

Lemma u64_range z : is_u64 (u64 z).
Proof. by apply Z.mod_pos_bound. Qed.

Lemma u32_range z : is_u32 (u32 z).
Proof. by apply Z.mod_pos_bound. Qed.

Lemma u16_range z : is_u16 (u16 z).
Proof. by apply Z.mod_pos_bound. Qed.

Lemma u8_range z : is_u8 (u8 z).
Proof. by apply Z.mod_pos_bound. Qed.

Lemma is_u64_0 : is_u64 0.
Proof. unfold is_u64. lia. Qed.

#[export] Hint Resolve u64_range u32_range u16_range u8_range is_u64_0 : machine.

(** Masking with the complement of [2^k - 1] rounds down to a multiple of
    [2^k]: the idiom [x & !(SIZE - 1)] of the sources. *)
Lemma land_not_mask x k :
  is_u64 x -> 0 <= k < 64 ->
  Z.land x (u64_not (2 ^ k - 1)) = 2 ^ k * (x / 2 ^ k).
Proof.
  intros Hx Hk.
  assert (Hn : u64_not (2 ^ k - 1) = Z.ldiff U64_MAX (Z.ones k)).
  { unfold u64_not. replace (2 ^ k - 1) with (Z.ones k) by (rewrite Z.ones_equiv; lia).
    unfold U64_MAX. replace (2 ^ 64 - 1) with (Z.ones 64) by reflexivity.
    apply Z.bits_inj'. intros n Hn.
    rewrite Z.lxor_spec, Z.ldiff_spec, !Z.testbit_ones_nonneg by lia.
    destruct (Z.ltb_spec n k), (Z.ltb_spec n 64); simpl; done || lia. }
  rewrite Hn.
  assert (Hx' : x = Z.land x U64_MAX).
  { unfold U64_MAX. replace (2 ^ 64 - 1) with (Z.ones 64) by reflexivity.
    rewrite Z.land_ones by lia. symmetry. apply Z.mod_small. exact Hx. }
  replace (Z.land x (Z.ldiff U64_MAX (Z.ones k))) with (Z.ldiff x (Z.ones k)).
  2:{ rewrite Hx' at 1. apply Z.bits_inj'. intros n Hn'.
      rewrite Z.land_spec, !Z.ldiff_spec, Z.land_spec.
      by rewrite andb_assoc. }
  rewrite Z.ldiff_ones_r by lia.
  rewrite Z.shiftl_mul_pow2, Z.shiftr_div_pow2 by lia. lia.
Qed.

(** ** Results and effects

    [Err] is a Rust [Err] value, [Panic] an [assert!], [unwrap], [todo!] or
    explicit [panic!] that fires.  State changes made before an [Err] stay. *)

Inductive result (E A : Type) : Type :=
| Ok (a : A)
| Err (e : E)
| Panic.
Arguments Ok {E A} a.
Arguments Err {E A} e.
Arguments Panic {E A}.

Definition eff (S E A : Type) : Type := S -> S * result E A.

Section Eff.
Context {S E : Type}.

Definition ret {A} (a : A) : eff S E A := fun s => (s, Ok a).
Definition throw {A} (e : E) : eff S E A := fun s => (s, Err e).
Definition panic {A} : eff S E A := fun s => (s, Panic).

Definition bind {A B} (m : eff S E A) (k : A -> eff S E B) : eff S E B :=
  fun s => match m s with
           | (s', Ok a) => k a s'
           | (s', Err e) => (s', Err e)
           | (s', Panic) => (s', Panic)
           end.

(** Rust's [r?] on a pure result. *)
Definition lift {A} (r : result E A) : eff S E A := fun s => (s, r).

Definition assert (b : bool) : eff S E unit := if b then ret tt else panic.

Definition get_state : eff S E S := fun s => (s, Ok s).
Definition modify (f : S -> S) : eff S E unit := fun s => (f s, Ok tt).

(** [m.map_err(|e| { let _ = h(); e })]. *)
Definition on_err {A} (m : eff S E A) (h : eff S E unit) : eff S E A :=
  fun s => match m s with
           | (s', Err e) => match h s' with
                            | (s'', Panic) => (s'', Panic)
                            | (s'', _) => (s'', Err e)
                            end
           | r => r
           end.

(** [for idx in from..from+n { body(idx)?; }]. *)
Fixpoint for_range (n : nat) (from : Z) (body : Z -> eff S E unit) : eff S E unit :=
  match n with
  | O => ret tt
  | Datatypes.S n' => bind (body from) (fun _ => for_range n' (from + 1) body)
  end.

(** Weakest precondition: the run does not panic, an [Ok] result satisfies
    [Q] and an [Err] result satisfies [X]. *)
Definition wp {A} (m : eff S E A) (s : S) (Q : A -> S -> Prop) (X : E -> S -> Prop) : Prop :=
  match m s with
  | (s', Ok a) => Q a s'
  | (s', Err e) => X e s'
  | (_, Panic) => False
  end.

Lemma wp_bind {A B} (m : eff S E A) (k : A -> eff S E B) s Q X :
  wp m s (fun a s' => wp (k a) s' Q X) X -> wp (bind m k) s Q X.
Proof. unfold wp, bind. destruct (m s) as [s' [a|e|]]; auto. Qed.

Lemma wp_bind_inv {A B} (m : eff S E A) (k : A -> eff S E B) s Q X :
  wp (bind m k) s Q X -> wp m s (fun a s' => wp (k a) s' Q X) X.
Proof. unfold wp, bind. destruct (m s) as [s' [a|e|]]; auto. Qed.

Lemma wp_mono {A} (m : eff S E A) s (Q Q' : A -> S -> Prop) (X X' : E -> S -> Prop) :
  wp m s Q X -> (forall a s', Q a s' -> Q' a s') -> (forall e s', X e s' -> X' e s') ->
  wp m s Q' X'.
Proof. unfold wp. destruct (m s) as [s' [a|e|]]; auto. Qed.

Lemma wp_ret {A} (a : A) s (Q : A -> S -> Prop) X : Q a s -> wp (ret a) s Q X.
Proof. done. Qed.

Lemma wp_throw {A} (e : E) s (Q : A -> S -> Prop) (X : E -> S -> Prop) :
  X e s -> wp (throw e) s Q X.
Proof. done. Qed.

Lemma wp_assert (b : bool) s (Q : unit -> S -> Prop) X :
  b = true -> Q tt s -> wp (assert b) s Q X.
Proof. by intros ->. Qed.

Lemma wp_lift_ok {A} (a : A) s (Q : A -> S -> Prop) X : Q a s -> wp (lift (Ok a)) s Q X.
Proof. done. Qed.

Lemma wp_get s (Q : S -> S -> Prop) X : Q s s -> wp get_state s Q X.
Proof. done. Qed.

Lemma wp_modify f s (Q : unit -> S -> Prop) X : Q tt (f s) -> wp (modify f) s Q X.
Proof. done. Qed.

Lemma wp_on_err {A} (m : eff S E A) h s (Q : A -> S -> Prop) X :
  wp m s Q (fun e s' => wp h s' (fun _ s'' => X e s'') (fun _ s'' => X e s'')) ->
  wp (on_err m h) s Q X.
Proof.
  unfold wp, on_err. destruct (m s) as [s' [a|e|]]; auto.
  destruct (h s') as [s'' [?|?|]]; auto.
Qed.

(** A triple with an impossible error case gives the run itself. *)
Lemma wp_run {A} (m : eff S E A) s Q :
  wp m s Q (fun _ _ => False) -> exists a s', m s = (s', Ok a) /\ Q a s'.
Proof. unfold wp. destruct (m s) as [s' [a|e|]]; [eauto|done|done]. Qed.

Lemma wp_for_range n from body (I : Z -> S -> Prop) s X :
  I from s ->
  (forall i t, from <= i < from + Z.of_nat n -> I i t ->
     wp (body i) t (fun _ t' => I (i + 1) t') X) ->
  wp (for_range n from body) s (fun _ t => I (from + Z.of_nat n) t) X.
Proof.
  revert from s. induction n as [|n IH]; intros from s Hs Hbody; simpl.
  - apply wp_ret. by rewrite Z.add_0_r.
  - apply wp_bind. eapply wp_mono; [apply Hbody; [lia|done]| |done].
    intros [] t Ht. replace (from + Z.of_nat (Datatypes.S n)) with (from + 1 + Z.of_nat n) by lia.
    apply IH; [done|]. intros i t' Hi. apply Hbody. lia.
Qed.
End Eff.

Declare Scope rust_scope.
Delimit Scope rust_scope with rust.
Notation "'let*' x ':=' m 'in' k" := (bind m (fun x => k))
  (at level 10, x name, m at level 100, k at level 200) : rust_scope.
Notation "'let*' ' p ':=' m 'in' k" := (bind m (fun p => k))
  (at level 10, p strict pattern, m at level 100, k at level 200) : rust_scope.
Notation "m ';;;' k" := (bind m (fun _ => k))
  (at level 199, right associativity) : rust_scope.
Open Scope rust_scope.

#[export] Hint Resolve wp_ret wp_throw : machine.

(** ** Loops

    [loop { .. }] with at most [p] iterations ([Some] leaves the loop); [p] is
    binary so that a bound such as [2^64] can be written down.  [loopn] is the
    same by structural recursion, for proofs. *)
Section Loop.
Context {S E A : Type} (body : eff S E (option A)).

Fixpoint loop (p : positive) : eff S E (option A) :=
  match p with
  | xH => body
  | xO q => let* r := loop q in match r with Some a => ret (Some a) | None => loop q end
  | xI q => let* r := body in
            match r with
            | Some a => ret (Some a)
            | None => let* r := loop q in
                      match r with Some a => ret (Some a) | None => loop q end
            end
  end.

Fixpoint loopn (n : nat) : eff S E (option A) :=
  match n with
  | O => ret None
  | Datatypes.S n' => let* r := body in match r with Some a => ret (Some a) | None => loopn n' end
  end.

Lemma loopn_S n s :
  loopn (Datatypes.S n) s = match body s with (s', Ok None) => loopn n s' | r => r end.
Proof. cbn [loopn]. unfold bind. by destruct (body s) as [s' [[a|]|e|]]. Qed.

Lemma loopn_add m n s :
  loopn (m + n) s = (let* r := loopn m in match r with Some a => ret (Some a) | None => loopn n end) s.
Proof.
  revert s. induction m as [|m IH]; intros s; [done|]. simpl. unfold bind in *.
  destruct (body s) as [s' [[a|]|e|]]; [done| |done|done]. apply IH.
Qed.

Lemma loop_loopn p s : loop p s = loopn (Pos.to_nat p) s.
Proof.
  revert s. induction p as [q IH|q IH|]; intros s; cbn [loop].
  - rewrite Pos2Nat.inj_xI. replace (Datatypes.S (2 * Pos.to_nat q)) with (Datatypes.S (Pos.to_nat q + Pos.to_nat q)) by lia.
    cbn [loopn]. unfold bind. destruct (body s) as [s' [[a|]|e|]]; [done| |done|done]. rewrite loopn_add. unfold bind.
    rewrite IH. destruct (loopn _ s') as [s2 [[a|]|e|]]; [done|apply IH|done|done].
  - rewrite Pos2Nat.inj_xO. replace (2 * Pos.to_nat q)%nat with (Pos.to_nat q + Pos.to_nat q)%nat by lia.
    rewrite loopn_add. unfold bind. rewrite IH. destruct (loopn _ s) as [s2 [[a|]|e|]]; [done|apply IH|done|done].
  - change (Pos.to_nat 1) with 1%nat. simpl. unfold bind. by destruct (body s) as [s' [[a|]|e|]].
Qed.

(** A loop that is over after [n] rounds does not need a larger bound. *)
Lemma loopn_stop n m s s' r : (n <= m)%nat -> loopn n s = (s', r) -> r <> Ok None -> loopn m s = (s', r).
Proof.
  intros Hle H Hr. replace m with (n + (m - n))%nat by lia. rewrite loopn_add. unfold bind. rewrite H.
  by destruct r as [[a|]|e|].
Qed.

Lemma loopn_enough n m s s' a : (n <= m)%nat -> loopn n s = (s', Ok (Some a)) -> loopn m s = (s', Ok (Some a)).
Proof. intros Hle H. by eapply loopn_stop. Qed.

Lemma wp_loop_enough n p s (Q : option A -> S -> Prop) X :
  (n <= Pos.to_nat p)%nat -> wp (loopn n) s (fun r s' => exists a, r = Some a /\ Q r s') X -> wp (loop p) s Q X.
Proof.
  intros Hn. unfold wp. rewrite loop_loopn. destruct (loopn n s) as [s' r] eqn:Er. intros H.
  rewrite (loopn_stop _ _ _ _ _ Hn Er) by (destruct r as [[a|]|e|]; try done; by destruct H as (? & ? & _)).
  destruct r as [r|e|]; [|done|done]. by destruct H as (a & _ & H).
Qed.
End Loop.

(** One step of symbolic execution of an [eff] program. *)
Ltac wp_step :=
  lazymatch goal with
  | |- wp (bind _ _) _ _ _ => apply wp_bind
  | |- wp (ret _) _ _ _ => apply wp_ret
  | |- wp (lift (Ok _)) _ _ _ => apply wp_lift_ok
  | |- wp (throw _) _ _ _ => apply wp_throw
  | |- wp get_state _ _ _ => apply wp_get
  | |- wp (modify _) _ _ _ => apply wp_modify
  | |- wp (on_err _ _) _ _ _ => apply wp_on_err
  end.
Ltac wp_steps := repeat (wp_step; cbv beta).

(** ** Byte strings *)

Abbreviation bytes := (list byte).

Section Slices.
Context {A : Type}.
Implicit Types (l src : list A) (off n : nat).

(** [&l[off..off+n]]. *)
Definition slice off n l : list A := take n (drop off l).

(** [copy_nonoverlapping(src, &mut l[off], src.len())]: every element of
    [src] that lands inside [l] replaces what was there. *)
Definition blit off src l : list A :=
  take off l ++ take (length l - off) src ++ drop (off + length src) l.

Lemma length_slice off n l : (off + n <= length l)%nat -> length (slice off n l) = n.
Proof. intros. unfold slice. rewrite length_take, length_drop. lia. Qed.

Lemma length_blit off src l : length (blit off src l) = length l.
Proof.
  unfold blit. rewrite !length_app, !length_take, length_drop.
  destruct (decide (off <= length l)%nat); lia.
Qed.

Lemma blit_in off src l :
  (off + length src <= length l)%nat ->
  blit off src l = take off l ++ src ++ drop (off + length src) l.
Proof. intros. unfold blit. by rewrite (take_ge src) by lia. Qed.

Lemma lookup_blit_out off src l i :
  (i < off \/ off + length src <= i)%nat -> blit off src l !! i = l !! i.
Proof.
  intros Hi. unfold blit.
  destruct (decide (i < length l)%nat) as [Hl|Hl].
  2:{ rewrite (lookup_ge_None_2 l) by lia. apply lookup_ge_None_2.
      pose proof (length_blit off src l) as Hb. unfold blit in Hb. lia. }
  destruct Hi as [Hi|Hi].
  - rewrite lookup_app_l by (rewrite length_take; lia). by rewrite lookup_take_lt by lia.
  - rewrite lookup_app_r by (rewrite length_take; lia).
    rewrite lookup_app_r by (rewrite !length_take; lia).
    rewrite lookup_drop, !length_take. f_equal. lia.
Qed.

Lemma lookup_blit_in off src l i :
  (off <= i < off + length src)%nat -> (i < length l)%nat ->
  blit off src l !! i = src !! (i - off)%nat.
Proof.
  intros Hi Hl. unfold blit.
  rewrite lookup_app_r by (rewrite length_take; lia).
  rewrite length_take, Nat.min_l by lia.
  rewrite lookup_app_l by (rewrite length_take; lia).
  by rewrite lookup_take_lt by lia.
Qed.

Lemma lookup_slice off n l i :
  (i < n)%nat -> slice off n l !! i = l !! (off + i)%nat.
Proof. intros. unfold slice. by rewrite lookup_take_lt, lookup_drop by lia. Qed.

Lemma slice_blit_same off src l n :
  n = length src -> (off + length src <= length l)%nat -> slice off n (blit off src l) = src.
Proof.
  intros -> H. apply list_eq_same_length with (length src); [done| |].
  - rewrite length_slice; [done|by rewrite length_blit].
  - intros i x y Hi. rewrite lookup_slice by lia.
    rewrite lookup_blit_in by lia. replace (off + i - off)%nat with i by lia. congruence.
Qed.

Lemma slice_blit_other off off' n src l :
  (off' + n <= off \/ off + length src <= off')%nat ->
  slice off' n (blit off src l) = slice off' n l.
Proof.
  intros H. apply list_eq. intros i.
  destruct (decide (i < n)%nat).
  - rewrite !lookup_slice by lia. apply lookup_blit_out. lia.
  - unfold slice. rewrite !lookup_take_ge by lia. done.
Qed.

Lemma slice_slice off n off' n' l :
  (off' + n' <= n)%nat -> slice off' n' (slice off n l) = slice (off + off') n' l.
Proof.
  intros H. apply list_eq. intros i. destruct (decide (i < n')%nat).
  - rewrite !lookup_slice by lia. f_equal. lia.
  - unfold slice. rewrite !lookup_take_ge by lia. done.
Qed.

Lemma slice_blit_inside off n src l off' :
  (off <= off')%nat -> (off' + length src <= off + n)%nat -> (off + n <= length l)%nat ->
  slice off n (blit off' src l) = blit (off' - off) src (slice off n l).
Proof.
  intros H1 H2 H3. apply list_eq. intros i. destruct (decide (i < n)%nat) as [Hn|Hn].
  - rewrite lookup_slice by lia.
    destruct (decide (off' <= off + i < off' + length src)%nat).
    + rewrite lookup_blit_in by lia.
      rewrite lookup_blit_in by (rewrite ?length_slice; lia). f_equal. lia.
    + rewrite lookup_blit_out by lia.
      rewrite lookup_blit_out by lia. by rewrite lookup_slice by lia.
  - rewrite !lookup_ge_None_2; [done| |].
    + rewrite length_blit, length_slice; lia.
    + rewrite length_slice; [lia|by rewrite length_blit].
Qed.

Lemma slice_full l n : n = length l -> slice 0 n l = l.
Proof. intros ->. unfold slice. by rewrite drop_0, firstn_all. Qed.

Lemma slice_app_l off n l1 l2 :
  (off + n <= length l1)%nat -> slice off n (l1 ++ l2) = slice off n l1.
Proof.
  intros H. apply list_eq. intros i. destruct (decide (i < n)%nat).
  - rewrite !lookup_slice by lia. by rewrite lookup_app_l by lia.
  - unfold slice. rewrite !lookup_take_ge by lia. done.
Qed.

Lemma slice_app_r off n l1 l2 :
  (length l1 <= off)%nat -> slice off n (l1 ++ l2) = slice (off - length l1) n l2.
Proof.
  intros H. apply list_eq. intros i. destruct (decide (i < n)%nat).
  - rewrite !lookup_slice by lia. rewrite lookup_app_r by lia. f_equal. lia.
  - unfold slice. rewrite !lookup_take_ge by lia. done.
Qed.
End Slices.

(** Little-endian fields: [le n z] is the [n]-byte in-memory form of [z] on
    x86-64, [unle] reads it back. *)
Definition le (n : nat) (z : Z) : bytes := le_split n z.
Definition unle (l : bytes) : Z := le_combine l.

Lemma length_le n z : length (le n z) = n.
Proof. apply length_le_split. Qed.

Lemma unle_le n z : unle (le n z) = z mod 2 ^ (8 * Z.of_nat n).
Proof. unfold unle, le. rewrite le_combine_split. by rewrite Z.mul_comm. Qed.

Lemma le_unle n l : length l = n -> le n (unle l) = l.
Proof. intros. by apply split_le_combine'. Qed.

Lemma unle_range l : 0 <= unle l < 2 ^ (8 * Z.of_nat (length l)).
Proof. apply le_combine_bound. Qed.

Lemma unle_le8 z : is_u64 z -> unle (le 8 z) = z.
Proof. intros. rewrite unle_le. by apply Z.mod_small. Qed.

Lemma unle_le4 z : is_u32 z -> unle (le 4 z) = z.
Proof. intros. rewrite unle_le. by apply Z.mod_small. Qed.

Lemma unle_le1 z : is_u8 z -> unle (le 1 z) = z.
Proof. intros. rewrite unle_le. by apply Z.mod_small. Qed.

Create Rewrite HintDb bytes.
#[export] Hint Rewrite @length_blit @length_app @length_take @length_drop length_le : bytes.

Global Opaque le unle.

(** [len] computes list lengths and finishes with linear arithmetic. *)
Ltac len := autorewrite with bytes; simpl; try lia.

(** ** Bit sets

    The kernel keeps allocation state in [AtomicU64] bitmaps. *)

(** [x.trailing_ones()] for a [w]-bit value. *)
Fixpoint trailing_ones (w : nat) (x : Z) : nat :=
  match w with
  | O => O
  | S w' => if Z.odd x then S (trailing_ones w' (x / 2)) else O
  end.

Lemma trailing_ones_le w x : (trailing_ones w x <= w)%nat.
Proof.
  revert x. induction w as [|w IH]; intros x; simpl; [lia|].
  destruct (Z.odd x); [|lia]. specialize (IH (x / 2)). lia.
Qed.

Lemma trailing_ones_below w x i :
  (i < trailing_ones w x)%nat -> Z.testbit x (Z.of_nat i) = true.
Proof.
  revert x i. induction w as [|w IH]; intros x i Hi; cbn [trailing_ones] in Hi; [lia|].
  destruct (Z.odd x) eqn:Hodd; [|lia].
  destruct i as [|i]; [by rewrite Z.bit0_odd|].
  replace (Z.of_nat (S i)) with (Z.succ (Z.of_nat i)) by lia.
  rewrite <- Z.div2_bits by lia. apply IH. lia.
Qed.

Lemma trailing_ones_at w x :
  (trailing_ones w x < w)%nat -> Z.testbit x (Z.of_nat (trailing_ones w x)) = false.
Proof.
  revert x. induction w as [|w IH]; intros x Hlt; cbn [trailing_ones] in *; [lia|].
  destruct (Z.odd x) eqn:Hodd; [|by rewrite Z.bit0_odd].
  replace (Z.of_nat (S (trailing_ones w (x / 2))))
    with (Z.succ (Z.of_nat (trailing_ones w (x / 2)))) by lia.
  rewrite <- Z.div2_bits by lia. apply IH. lia.
Qed.

(** The number of set bits among the [w] lowest ([count_ones]). *)
Fixpoint count_ones (w : nat) (x : Z) : Z :=
  match w with
  | O => 0
  | S w' => (if Z.testbit x (Z.of_nat w') then 1 else 0) + count_ones w' x
  end.

Lemma count_ones_range w x : 0 <= count_ones w x <= Z.of_nat w.
Proof. induction w as [|w IH]; simpl; [lia|]. destruct (Z.testbit _ _); lia. Qed.

Lemma count_ones_ext w x y :
  (forall i, (i < w)%nat -> Z.testbit x (Z.of_nat i) = Z.testbit y (Z.of_nat i)) ->
  count_ones w x = count_ones w y.
Proof.
  induction w as [|w IH]; intros H; simpl; [done|].
  rewrite H by lia. f_equal. apply IH. intros. apply H. lia.
Qed.

Definition bit (i : Z) : Z := Z.shiftl 1 i.

Lemma testbit_bit i j : 0 <= i -> 0 <= j -> Z.testbit (bit i) j = bool_decide (i = j).
Proof.
  intros. unfold bit. rewrite Z.shiftl_1_l, Z.pow2_bits_eqb by lia.
  case_bool_decide; [by apply Z.eqb_eq|by apply Z.eqb_neq].
Qed.

Lemma testbit_set x i j :
  0 <= i -> 0 <= j -> Z.testbit (Z.lor x (bit i)) j = Z.testbit x j || bool_decide (i = j).
Proof. intros. by rewrite Z.lor_spec, testbit_bit. Qed.

Lemma testbit_flip x i j :
  0 <= i -> 0 <= j -> Z.testbit (Z.lxor x (bit i)) j = xorb (Z.testbit x j) (bool_decide (i = j)).
Proof. intros. by rewrite Z.lxor_spec, testbit_bit. Qed.

Lemma count_ones_update w x y i :
  (i < w)%nat ->
  Z.testbit x (Z.of_nat i) = false -> Z.testbit y (Z.of_nat i) = true ->
  (forall j, j <> i -> (j < w)%nat -> Z.testbit y (Z.of_nat j) = Z.testbit x (Z.of_nat j)) ->
  count_ones w y = count_ones w x + 1.
Proof.
  induction w as [|w IH]; intros Hi Hx Hy Hj; [lia|]. simpl.
  destruct (decide (i = w)) as [->|Hne].
  - rewrite Hx, Hy. rewrite (count_ones_ext w y x) by (intros; apply Hj; lia). lia.
  - rewrite Hj by lia. rewrite IH by (try done; try lia; intros; apply Hj; lia). lia.
Qed.

Lemma count_ones_set w x i :
  (i < w)%nat -> Z.testbit x (Z.of_nat i) = false ->
  count_ones w (Z.lor x (bit (Z.of_nat i))) = count_ones w x + 1.
Proof.
  intros Hi Hx. apply count_ones_update with i; try done.
  - rewrite testbit_set by lia. rewrite bool_decide_eq_true_2 by done. by rewrite orb_true_r.
  - intros j Hj Hw. rewrite testbit_set by lia.
    rewrite bool_decide_eq_false_2 by lia. by rewrite orb_false_r.
Qed.

Lemma count_ones_clear w x i :
  (i < w)%nat -> Z.testbit x (Z.of_nat i) = true ->
  count_ones w (Z.lxor x (bit (Z.of_nat i))) = count_ones w x - 1.
Proof.
  intros Hi Hx. enough (count_ones w x = count_ones w (Z.lxor x (bit (Z.of_nat i))) + 1) by lia.
  apply count_ones_update with i; try done.
  - rewrite testbit_flip by lia. rewrite bool_decide_eq_true_2 by done. by rewrite Hx.
  - intros j Hj Hw. rewrite testbit_flip by lia.
    rewrite bool_decide_eq_false_2 by lia. by rewrite xorb_false_r.
Qed.

Lemma count_ones_all w x : (forall j, 0 <= j < Z.of_nat w -> Z.testbit x j = true) -> count_ones w x = Z.of_nat w.
Proof.
  induction w as [|w IH]; intros H; [done|]. cbn [count_ones]. rewrite H by lia. rewrite IH; [lia|]. intros. apply H. lia.
Qed.

Lemma count_ones_full w x : count_ones w x = Z.of_nat w -> forall j, 0 <= j < Z.of_nat w -> Z.testbit x j = true.
Proof.
  induction w as [|w IH]; intros H j Hj; [lia|]. cbn [count_ones] in H. pose proof (count_ones_range w x).
  destruct (Z.testbit x (Z.of_nat w)) eqn:E; [|lia]. destruct (decide (j = Z.of_nat w)) as [->|]; [done|]. apply IH; lia.
Qed.

Lemma count_ones_high w n x : (n <= w)%nat -> (forall j, Z.of_nat n <= j -> Z.testbit x j = false) -> count_ones w x = count_ones n x.
Proof.
  intros Hle H. induction w as [|w IH]; [by replace n with 0%nat by lia|].
  destruct (decide (n = S w)) as [->|]; [done|]. cbn [count_ones]. rewrite H by lia. rewrite IH by lia. lia.
Qed.

Lemma count_ones_pos w x : (0 < w)%nat -> Z.testbit x 0 = true -> 1 <= count_ones w x.
Proof.
  intros Hw Ht. destruct w as [|w]; [lia|]. clear Hw. induction w as [|w IH].
  - cbn [count_ones]. change (Z.of_nat 0) with 0. rewrite Ht. lia.
  - change (count_ones (S (S w)) x) with ((if Z.testbit x (Z.of_nat (S w)) then 1 else 0) + count_ones (S w) x).
    destruct (Z.testbit x (Z.of_nat (S w))); lia.
Qed.

(** Their unary widths must not be unfolded by accident. *)
Lemma count_ones_filter w x :
  count_ones w x = Z.of_nat (length (filter (fun k => Z.testbit x k = true) (Z.of_nat <$> seq 0 w))).
Proof.
  induction w as [|w IH]; [done|]. cbn [count_ones].
  rewrite seq_S, fmap_app, filter_app, length_app, Nat2Z.inj_add, <- IH. cbn [fmap list_fmap Nat.add].
  rewrite filter_cons, filter_nil. destruct (Z.testbit x (Z.of_nat w)); simpl; lia.
Qed.

Global Opaque trailing_ones count_ones.

(** [x & (1 << i) != 0] is the bit test. *)
Lemma land_bit_test x i :
  0 <= i -> (Z.land x (bit i) =? 0) = negb (Z.testbit x i).
Proof.
  intros Hi. destruct (Z.testbit x i) eqn:Ht; simpl.
  - apply Z.eqb_neq. intros H. apply (f_equal (fun z => Z.testbit z i)) in H.
    rewrite Z.land_spec, testbit_bit, Z.bits_0, Ht in H by lia.
    by rewrite bool_decide_eq_true_2 in H.
  - apply Z.eqb_eq. apply Z.bits_inj'. intros j Hj.
    rewrite Z.land_spec, testbit_bit, Z.bits_0 by lia.
    case_bool_decide; [by subst; rewrite Ht|by rewrite andb_false_r].
Qed.

(** ** Finite functions *)

Definition fupd {A} (f : Z -> A) (k : Z) (v : A) : Z -> A :=
  fun x => if x =? k then v else f x.

Lemma fupd_eq {A} (f : Z -> A) k v : fupd f k v k = v.
Proof. unfold fupd. by rewrite Z.eqb_refl. Qed.

Lemma fupd_ne {A} (f : Z -> A) k v x : x <> k -> fupd f k v x = f x.
Proof. intros. unfold fupd. by rewrite (proj2 (Z.eqb_neq _ _)). Qed.


(** ** [repr(C)] structures

    A structure of integers is laid out as the concatenation of its
    little-endian fields; [ws] lists the field widths in bytes. *)

Definition struct_enc (ws : list nat) (vs : list Z) : bytes := concat (zip_with le ws vs).

Fixpoint struct_dec (ws : list nat) (l : bytes) : list Z :=
  match ws with
  | [] => []
  | w :: ws' => unle (take w l) :: struct_dec ws' (drop w l)
  end.

Definition fits (w : nat) (v : Z) : Prop := 0 <= v < 2 ^ (8 * Z.of_nat w).

Lemma length_struct_enc ws vs :
  length ws = length vs -> length (struct_enc ws vs) = sum_list ws.
Proof.
  revert vs. induction ws as [|w ws IH]; intros [|v vs] H; try done.
  unfold struct_enc in *. simpl in *. rewrite length_app, length_le, IH; lia.
Qed.

Lemma struct_dec_enc ws vs tl :
  Forall2 fits ws vs -> struct_dec ws (struct_enc ws vs ++ tl) = vs.
Proof.
  intros H. induction H as [|w v ws vs Hv H IH]; [done|].
  unfold struct_enc in *. simpl. rewrite <- app_assoc.
  rewrite take_app_length', drop_app_length' by (by rewrite length_le).
  rewrite IH, unle_le. f_equal. by apply Z.mod_small.
Qed.

Lemma struct_enc_dec ws l :
  (sum_list ws <= length l)%nat -> struct_enc ws (struct_dec ws l) = take (sum_list ws) l.
Proof.
  revert l. induction ws as [|w ws IH]; intros l H; [done|].
  unfold struct_enc in *. simpl in *. rewrite le_unle by (rewrite length_take; lia).
  rewrite IH by (rewrite length_drop; lia). rewrite <- take_take_drop. done.
Qed.

Lemma struct_dec_fits ws l : (sum_list ws <= length l)%nat -> Forall2 fits ws (struct_dec ws l).
Proof.
  revert l. induction ws as [|w ws IH]; intros l H; simpl in *; constructor.
  - unfold fits. pose proof (unle_range (take w l)) as Hr.
    rewrite length_take, Nat.min_l in Hr by lia. done.
  - apply IH. rewrite length_drop. lia.
Qed.

Lemma struct_dec_take ws n l :
  (sum_list ws <= n)%nat -> struct_dec ws (take n l) = struct_dec ws l.
Proof.
  revert n l. induction ws as [|w ws IH]; intros n l H; [done|]. simpl in *.
  rewrite take_take, Nat.min_l by lia. f_equal.
  rewrite <- (IH (n - w)%nat (drop w l)) by lia. f_equal.
  rewrite firstn_skipn_comm. f_equal. f_equal. lia.
Qed.

(** ** Strings

    A [&str] is its UTF-8 bytes.  [utf8_valid] is the check of
    [core::str::from_utf8]: well-formed sequences of the Unicode standard
    (shortest form, no surrogates, at most U+10FFFF). *)

Definition in_range (lo hi : Z) (b : byte) : bool :=
  (lo <=? byte.unsigned b) && (byte.unsigned b <=? hi).

Fixpoint utf8_valid_fuel (fuel : nat) (l : bytes) : bool :=
  match fuel with
  | O => match l with [] => true | _ => false end
  | S fuel' =>
    match l with
    | [] => true
    | b0 :: l0 =>
      let u := byte.unsigned b0 in
      let cont := in_range 0x80 0xBF in
      if u <? 0x80 then utf8_valid_fuel fuel' l0
      else match l0 with
      | [] => false
      | b1 :: l1 =>
        if (0xC2 <=? u) && (u <=? 0xDF) then cont b1 && utf8_valid_fuel fuel' l1
        else match l1 with
        | [] => false
        | b2 :: l2 =>
          if (0xE0 <=? u) && (u <=? 0xEF) then
            (if u =? 0xE0 then in_range 0xA0 0xBF b1
             else if u =? 0xED then in_range 0x80 0x9F b1
             else cont b1) && cont b2 && utf8_valid_fuel fuel' l2
          else match l2 with
          | [] => false
          | b3 :: l3 =>
            if (0xF0 <=? u) && (u <=? 0xF4) then
              (if u =? 0xF0 then in_range 0x90 0xBF b1
               else if u =? 0xF4 then in_range 0x80 0x8F b1
               else cont b1) && cont b2 && cont b3 && utf8_valid_fuel fuel' l3
            else false
          end
        end
      end
    end
  end.

(** Every step consumes at least one byte, so the length is enough fuel. *)
Definition utf8_valid (l : bytes) : bool := utf8_valid_fuel (length l) l.

Definition from_utf8 (l : bytes) : option bytes := if utf8_valid l then Some l else None.

#[export] Instance byte_eq_dec : EqDecision byte := Byte.byte_eq_dec.

Definition bytes_eqb (a b : bytes) : bool := bool_decide (a = b).

Lemma bytes_eqb_eq a b : bytes_eqb a b = true <-> a = b.
Proof. apply bool_decide_eq_true. Qed.

(** ASCII literals. *)
Definition ascii (l : list Z) : bytes := map byte.of_Z l.
