(* ===== verification/Crc32.v ===== *)
(** * CRC-32/ISO-HDLC

    [srfs-core] checksums its on-disk headers with the [crc] crate's
    [CRC_32_ISO_HDLC] (src/src/lib/srfs-core/src/layout.rs, [crc32_hash],
    [crc32_verify]).  The crate is not part of the repository, so the
    filesystem model is parametric in the digest: the class [Crc32] is the
    digest and [Crc32Laws] is what the crate documents about it: the range of a
    32-bit digest and the residue property (a message followed by its own
    little-endian digest has a constant digest, [CRC32_VERIFY] in the source).

    This file also gives the reference bitwise algorithm of the standard and
    proves that it satisfies both laws, for every message. *)

From stdpp Require Import base numbers list.
From coqutil Require Import Byte Word.LittleEndianList.
From S2P Require Import RustPrelude.

Open Scope Z_scope.

Class Crc32 : Type := crc32_digest : bytes -> Z.

Definition CRC32_VERIFY : Z := 0x2144DF1C.

Class Crc32Laws (C : Crc32) : Prop := {
  crc32_range : forall l, is_u32 (crc32_digest l);
  crc32_residue : forall l, crc32_digest (l ++ le 4 (crc32_digest l)) = CRC32_VERIFY;
}.

Module IsoHdlc.
(** Reflected polynomial 0x04C11DB7. *)
Definition POLY : Z := 0xEDB88320.
Definition ONES : Z := 0xFFFFFFFF.

Definition step (s : Z) : Z :=
  if Z.odd s then Z.lxor (Z.shiftr s 1) POLY else Z.shiftr s 1.

Definition steps (n : nat) (s : Z) : Z := Nat.iter n step s.

Definition update (s : Z) (b : byte) : Z := steps 8 (Z.lxor s (byte.unsigned b)).

Definition crc32 (l : bytes) : Z := Z.lxor (fold_left update l ONES) ONES.

Example check_value :
  crc32 (map byte.of_Z [49; 50; 51; 52; 53; 54; 55; 56; 57]) = 0xCBF43926.
Proof. reflexivity. Qed.

Lemma step_lxor a b : step (Z.lxor a b) = Z.lxor (step a) (step b).
Proof.
  unfold step. rewrite <- !Z.bit0_odd, Z.lxor_spec, Z.shiftr_lxor.
  destruct (Z.testbit a 0), (Z.testbit b 0); simpl; apply Z.bits_inj'; intros n Hn;
    rewrite ?Z.lxor_spec;
    destruct (Z.testbit (Z.shiftr a 1) n), (Z.testbit (Z.shiftr b 1) n), (Z.testbit POLY n); done.
Qed.

Lemma steps_lxor n a b : steps n (Z.lxor a b) = Z.lxor (steps n a) (steps n b).
Proof. induction n as [|n IH]; [done|]. unfold steps in *. simpl. by rewrite IH, step_lxor. Qed.

Lemma steps_add m n s : steps (m + n) s = steps m (steps n s).
Proof. apply Nat.iter_add. Qed.

Lemma steps_shiftl n x : steps n (Z.shiftl x (Z.of_nat n)) = x.
Proof.
  revert x. induction n as [|n IH]; intros x; [by rewrite Z.shiftl_0_r|].
  replace (S n) with (n + 1)%nat by lia. rewrite steps_add.
  replace (steps 1 (Z.shiftl x (Z.of_nat (n + 1)))) with (Z.shiftl x (Z.of_nat n)); [apply IH|].
  unfold steps, step. simpl Nat.iter.
  replace (Z.shiftl x (Z.of_nat (n + 1))) with (2 * Z.shiftl x (Z.of_nat n)).
  - rewrite Z.odd_mul. simpl. rewrite Z.shiftr_div_pow2 by lia.
    change (2 ^ 1) with 2. rewrite Z.mul_comm, Z.div_mul by lia. done.
  - rewrite !Z.shiftl_mul_pow2 by lia.
    replace (Z.of_nat (n + 1)) with (Z.of_nat n + 1) by lia.
    rewrite Z.pow_add_r by lia. lia.
Qed.

Lemma step_range s : is_u32 s -> is_u32 (step s).
Proof.
  intros Hs. unfold is_u32, step in *.
  assert (Hr : 0 <= Z.shiftr s 1 < 2 ^ 31).
  { rewrite Z.shiftr_div_pow2 by lia. change (2 ^ 1) with 2. split; [apply Z.div_pos; lia|].
    apply Z.div_lt_upper_bound; lia. }
  destruct (Z.odd s); [|lia].
  assert (Hx : 0 <= Z.lxor (Z.shiftr s 1) POLY) by (apply Z.lxor_nonneg; unfold POLY; lia).
  split; [done|].
  destruct (decide (Z.lxor (Z.shiftr s 1) POLY = 0)) as [->|Hn]; [lia|].
  apply Z.log2_lt_pow2; [lia|].
  eapply Z.le_lt_trans; [apply Z.log2_lxor; unfold POLY; lia|].
  apply Z.max_lub_lt; [|reflexivity].
  destruct (decide (Z.shiftr s 1 = 0)) as [->|]; [simpl; lia|].
  apply Z.log2_lt_pow2; lia.
Qed.

Lemma steps_range n s : is_u32 s -> is_u32 (steps n s).
Proof. intros. unfold steps. induction n; simpl; [done|by apply step_range]. Qed.

Lemma lxor_range_u32 a b : is_u32 a -> is_u32 b -> is_u32 (Z.lxor a b).
Proof.
  intros [Ha Ha'] [Hb Hb']. split; [apply Z.lxor_nonneg; lia|].
  destruct (decide (Z.lxor a b = 0)) as [->|Hn]; [lia|].
  assert (0 <= Z.lxor a b) by (apply Z.lxor_nonneg; lia).
  apply Z.log2_lt_pow2; [lia|].
  eapply Z.le_lt_trans; [apply Z.log2_lxor; lia|].
  apply Z.max_lub_lt.
  - destruct (decide (a = 0)) as [->|]; [simpl; lia|]. apply Z.log2_lt_pow2; lia.
  - destruct (decide (b = 0)) as [->|]; [simpl; lia|]. apply Z.log2_lt_pow2; lia.
Qed.

Lemma fold_update_range l s : is_u32 s -> is_u32 (fold_left update l s).
Proof.
  revert s. induction l as [|b l IH]; intros s Hs; [done|]. simpl. apply IH.
  apply steps_range, lxor_range_u32; [done|].
  pose proof (byte.unsigned_range b). unfold is_u32. lia.
Qed.

(** Feeding the [n] little-endian bytes of [w] is the same as adding [w] to
    the register and shifting [8 n] times. *)
Lemma fold_update_le n w s :
  0 <= w < 2 ^ (8 * Z.of_nat n) ->
  fold_left update (le_split n w) s = steps (8 * n) (Z.lxor s w).
Proof.
  revert w s. induction n as [|n IH]; intros w s Hw.
  - simpl in *. assert (w = 0) as -> by lia. by rewrite Z.lxor_0_r.
  - change (le_split (S n) w) with (byte.of_Z w :: le_split n (Z.shiftr w 8)).
    cbn [fold_left]. rewrite IH.
    2:{ rewrite Z.shiftr_div_pow2 by lia. split; [apply Z.div_pos; lia|].
        apply Z.div_lt_upper_bound; [lia|]. rewrite <- Z.pow_add_r by lia.
        replace (8 + 8 * Z.of_nat n) with (8 * Z.of_nat (S n)) by lia. lia. }
    replace (8 * S n)%nat with (8 * n + 8)%nat by lia. rewrite steps_add. f_equal.
    unfold update. rewrite byte.unsigned_of_Z. unfold byte.wrap.
    rewrite <- (steps_shiftl 8 (Z.shiftr w 8)) at 1.
    rewrite <- steps_lxor. f_equal. rewrite Z.lxor_assoc. f_equal.
    change (Z.of_nat 8) with 8. apply Z.bits_inj'. intros i Hi.
    rewrite Z.lxor_spec. destruct (decide (i < 8)).
    + rewrite Z.mod_pow2_bits_low, Z.shiftl_spec_low by lia. by rewrite xorb_false_r.
    + rewrite Z.mod_pow2_bits_high by lia. rewrite Z.shiftl_spec, Z.shiftr_spec by lia.
      rewrite xorb_false_l. f_equal. lia.
Qed.

(** The register update loses nothing: two different states, or two different
    bytes, give different states. *)
Lemma step_inj a b : is_u32 a -> is_u32 b -> step a = step b -> a = b.
Proof.
  assert (Hbit : forall s, is_u32 s -> Z.testbit (step s) 31 = Z.odd s).
  { intros s Hs. unfold step. assert (Hz : Z.testbit (Z.shiftr s 1) 31 = false).
    { rewrite Z.shiftr_spec by lia. rewrite <- (Z.mod_small s (2 ^ 32)) by exact Hs.
      apply Z.mod_pow2_bits_high. lia. }
    destruct (Z.odd s); [rewrite Z.lxor_spec, Hz; done|done]. }
  intros Ha Hb H. assert (Ho : Z.odd a = Z.odd b) by (rewrite <- !Hbit by done; by rewrite H).
  unfold step in H. rewrite Ho in H.
  assert (Hs : Z.shiftr a 1 = Z.shiftr b 1).
  { destruct (Z.odd b); [|done]. apply (f_equal (fun z => Z.lxor z POLY)) in H.
    by rewrite !Z.lxor_assoc, !Z.lxor_nilpotent, !Z.lxor_0_r in H. }
  rewrite (Z.div2_odd a), (Z.div2_odd b). rewrite Ho. rewrite !Z.div2_spec, Hs. done.
Qed.

Lemma steps_inj n a b : is_u32 a -> is_u32 b -> steps n a = steps n b -> a = b.
Proof.
  induction n as [|n IH]; intros Ha Hb H; [done|]. apply IH; [done|done|].
  apply step_inj; [by apply steps_range|by apply steps_range|exact H].
Qed.

Lemma byte_u32 b : is_u32 (byte.unsigned b).
Proof. pose proof (byte.unsigned_range b). unfold is_u32. lia. Qed.

Lemma lxor_cancel_r a b x : Z.lxor a x = Z.lxor b x -> a = b.
Proof.
  intros H. apply (f_equal (fun z => Z.lxor z x)) in H.
  by rewrite !Z.lxor_assoc, !Z.lxor_nilpotent, !Z.lxor_0_r in H.
Qed.

Lemma fold_update_inj l a b :
  is_u32 a -> is_u32 b -> fold_left update l a = fold_left update l b -> a = b.
Proof.
  revert a b. induction l as [|x l IH]; intros a b Ha Hb H; [done|]. simpl in H.
  pose proof (byte_u32 x).
  apply IH in H; [|by apply steps_range, lxor_range_u32|by apply steps_range, lxor_range_u32].
  apply steps_inj in H; [|by apply lxor_range_u32|by apply lxor_range_u32].
  by apply lxor_cancel_r in H.
Qed.

Lemma crc32_one_byte l1 x y l2 : x <> y -> crc32 (l1 ++ x :: l2) <> crc32 (l1 ++ y :: l2).
Proof.
  intros Hne H. unfold crc32 in H. apply lxor_cancel_r in H.
  rewrite !fold_left_app in H. simpl in H.
  assert (Hs : is_u32 (fold_left update l1 ONES)) by (apply fold_update_range; unfold is_u32, ONES; lia).
  pose proof (byte_u32 x). pose proof (byte_u32 y).
  apply fold_update_inj in H; [|by apply steps_range, lxor_range_u32|by apply steps_range, lxor_range_u32].
  apply steps_inj in H; [|by apply lxor_range_u32|by apply lxor_range_u32].
  rewrite !(Z.lxor_comm (fold_left _ _ _)) in H. apply lxor_cancel_r, byte.unsigned_inj in H. done.
Qed.

#[export] Instance iso_hdlc : Crc32 := crc32.

#[export] Instance iso_hdlc_laws : Crc32Laws iso_hdlc.
Proof.
  assert (Hones : is_u32 ONES) by (unfold is_u32, ONES; lia).
  split; intros l; unfold crc32_digest, iso_hdlc.
  - unfold crc32. apply lxor_range_u32; [by apply fold_update_range|done].
  - assert (Hr : is_u32 (crc32 l)).
    { unfold crc32. apply lxor_range_u32; [by apply fold_update_range|done]. }
    unfold crc32 at 1. rewrite fold_left_app.
    change (le 4 (crc32 l)) with (le_split 4 (crc32 l)).
    rewrite fold_update_le by exact Hr. unfold crc32.
    rewrite <- Z.lxor_assoc, Z.lxor_nilpotent, Z.lxor_0_l. reflexivity.
Qed.
End IsoHdlc.
