(* ===== verification/SrfsLayout.v ===== *)
(** * SRFS on-disk layout

    Model of src/src/lib/srfs-core/src/layout.rs and of the constants of
    src/src/lib/srfs-core/src/lib.rs: the structures a filesystem block can hold
    ([SuperblockHeader], [EntryMetadata], [DirEntryInternal], block links, file
    bytes), kept as the 4096 raw bytes of the block, with the accessors of
    [Block] that reinterpret them, and the checksum validation.

    A block is a byte list; the accessors are the [get::<T>()]/[get_mut::<T>()]
    casts of the source written as reads ([slice]) and writes ([blit]) at the
    field offsets of the [repr(C)] structures. *)

From stdpp Require Import base numbers list.
From coqutil Require Import Byte.
From S2P Require Import RustPrelude Crc32.

Open Scope Z_scope.

(** ** Constants and plain data *)

Definition BLOCK_SIZE : Z := 4096.
Definition BLOCK_SIZE_LOG2 : Z := Z.log2 BLOCK_SIZE.
Definition MAX_DIR_ENTRIES : Z := 65536.

Definition SIZE_OF_DIR_ENTRY : Z := 272.
Definition SIZE_OF_METADATA : Z := 128.

Definition MAX_ENTRIES_IN_DATA_BLOCK : Z := BLOCK_SIZE / SIZE_OF_DIR_ENTRY.
Definition MAX_ENTRIES_IN_META_BLOCK : Z := MAX_ENTRIES_IN_DATA_BLOCK - 1.
Definition MAX_BYTES_IN_META_BLOCK : Z := BLOCK_SIZE - SIZE_OF_METADATA.
Definition MAX_LINKS_IN_META_BLOCK : Z := MAX_BYTES_IN_META_BLOCK / 8.
Definition MAX_ENTRIES_ONLY_DATA_BLOCKS : Z := MAX_LINKS_IN_META_BLOCK * MAX_ENTRIES_IN_DATA_BLOCK.
Definition MAX_ENTRIES_COVERED_BY_FIRST_LEVEL_BLOCKLIST : Z := MAX_ENTRIES_IN_DATA_BLOCK * 512.
Definition MAX_BYTES_ONLY_DATA_BLOCKS : Z := MAX_LINKS_IN_META_BLOCK * BLOCK_SIZE.
Definition BYTES_COVERED_BY_FIRST_LEVEL_BLOCKLIST : Z := BLOCK_SIZE * BLOCK_SIZE / 8.
Definition MAX_BYTES_SINGLE_LEVEL_LIST_BLOCKS : Z :=
  MAX_LINKS_IN_META_BLOCK * BYTES_COVERED_BY_FIRST_LEVEL_BLOCKLIST.
Definition BYTES_COVERED_BY_SECOND_LEVEL_BLOCKLIST : Z := BYTES_COVERED_BY_FIRST_LEVEL_BLOCKLIST * 512.
Definition MAX_BYTES_LIST_OF_LISTS_BLOCKS : Z :=
  MAX_LINKS_IN_META_BLOCK * BYTES_COVERED_BY_SECOND_LEVEL_BLOCKLIST.
Definition MAX_FILE_SIZE : Z := MAX_BYTES_LIST_OF_LISTS_BLOCKS.

(** The compile-time [assert!]s of the source. *)
Example const_entries_data : MAX_ENTRIES_IN_DATA_BLOCK = 15. Proof. reflexivity. Qed.
Example const_entries_meta : MAX_ENTRIES_IN_META_BLOCK = 14. Proof. reflexivity. Qed.
Example const_entries_only : MAX_ENTRIES_ONLY_DATA_BLOCKS = 7440. Proof. reflexivity. Qed.
Example const_entries_list : MAX_ENTRIES_COVERED_BY_FIRST_LEVEL_BLOCKLIST = 7680. Proof. reflexivity. Qed.
Example const_bytes_meta : MAX_BYTES_IN_META_BLOCK = 3968. Proof. reflexivity. Qed.
Example const_links_meta : MAX_LINKS_IN_META_BLOCK = 496. Proof. reflexivity. Qed.
Example const_bytes_only : MAX_BYTES_ONLY_DATA_BLOCKS = 2031616. Proof. reflexivity. Qed.
Example const_bytes_l1 : BYTES_COVERED_BY_FIRST_LEVEL_BLOCKLIST = 4096 * 512. Proof. reflexivity. Qed.
Example const_bytes_single : MAX_BYTES_SINGLE_LEVEL_LIST_BLOCKS = 1040187392. Proof. reflexivity. Qed.
Example const_bytes_l2 : BYTES_COVERED_BY_SECOND_LEVEL_BLOCKLIST = 1024 * 1024 * 1024. Proof. reflexivity. Qed.
Example const_bytes_lol : MAX_BYTES_LIST_OF_LISTS_BLOCKS = 532575944704. Proof. reflexivity. Qed.

Inductive FsError : Type :=
| AlreadyExists | FsFull | InvalidArgument | IoError | NotFound | TooLarge
| UnsupportedVersion | Utf8Error | ValidationFailed.

#[export] Instance FsError_eq_dec : EqDecision FsError.
Proof. solve_decision. Defined.

Inductive EntryKind : Type := Directory | File.

#[export] Instance EntryKind_eq_dec : EqDecision EntryKind.
Proof. solve_decision. Defined.

Record EntryId : Type := mkEntryId { block_no : Z; generation : Z }.

#[export] Instance EntryId_eq_dec : EqDecision EntryId.
Proof. solve_decision. Defined.

Definition ROOT_DIR_ID : EntryId := mkEntryId 1 1.

Definition kind (id : EntryId) : EntryKind :=
  if Z.land (generation id) 1 =? 1 then Directory else File.

Record Timestamp : Type := mkTimestamp { secs : Z; ns : Z; ts_pad : Z }.
Definition Timestamp_zero : Timestamp := mkTimestamp 0 0 0.

Record EntryMetadata : Type := mkMeta {
  m_id : EntryId;
  parent_id : EntryId;
  size : Z;
  created : Timestamp;
  modified : Timestamp;
  accessed : Timestamp;
  user_data : list Z;
  reserved_2 : Z;
  m_crc32 : Z;
}.

Record DirEntryInternal : Type := mkDirEntry {
  de_id : EntryId;
  de_name : bytes;
  name_len : Z;
}.

Record DirEntry : Type := mkOwnedEntry { o_id : EntryId; o_name : bytes }.

Record Attr : Type := mkAttr {
  a_id : EntryId; a_size : Z; a_created : Timestamp; a_modified : Timestamp;
  a_accessed : Timestamp; a_user_data : list Z;
}.

Definition attr_of_meta (m : EntryMetadata) : Attr :=
  mkAttr (m_id m) (size m) (created m) (modified m) (accessed m) (user_data m).

Definition MAGIC : Z := 0x0c51a0bbb1083d14.
Definition TXN_TYPE_NONE : Z := 0.
Definition TXN_TYPE_ADD_NODE : Z := 1.
Definition TXN_TYPE_ADD_BYTES : Z := 2.
Definition TXN_TYPE_REMOVE_NODE : Z := 3.
Definition TXN_TYPE_REMOVE_BYTES : Z := 4.
Definition TXN_TYPE_MOVE : Z := 5.

Record SuperblockHeader : Type := mkSb {
  magic : Z;
  version : Z;
  sb_num_blocks : Z;
  free_blocks : Z;
  sb_generation : Z;
  freelist_head : Z;
  empty_area_start : Z;
  txn_meta_block : Z;
  txn_data_block : Z;
  txn_link_block : Z;
  txn_list_of_links_block : Z;
  txn_blocks_owner : Z;
  txn_type : Z;
  sb_crc32 : Z;
}.

(** ** Structure codecs *)

Definition meta_widths : list nat :=
  [8; 8; 8; 8; 8; 8; 4; 4; 8; 4; 4; 8; 4; 4; 8; 8; 8; 8; 4; 4]%nat.

Definition meta_fields (m : EntryMetadata) : list Z :=
  [block_no (m_id m); generation (m_id m); block_no (parent_id m); generation (parent_id m); size m;
   secs (created m); ns (created m); ts_pad (created m);
   secs (modified m); ns (modified m); ts_pad (modified m);
   secs (accessed m); ns (accessed m); ts_pad (accessed m);
   nth 0 (user_data m) 0; nth 1 (user_data m) 0; nth 2 (user_data m) 0; nth 3 (user_data m) 0;
   reserved_2 m; m_crc32 m].

Definition meta_of_fields (l : list Z) : EntryMetadata :=
  let f i := nth i l 0 in
  mkMeta (mkEntryId (f 0%nat) (f 1%nat)) (mkEntryId (f 2%nat) (f 3%nat)) (f 4%nat)
    (mkTimestamp (f 5%nat) (f 6%nat) (f 7%nat)) (mkTimestamp (f 8%nat) (f 9%nat) (f 10%nat))
    (mkTimestamp (f 11%nat) (f 12%nat) (f 13%nat))
    [f 14%nat; f 15%nat; f 16%nat; f 17%nat] (f 18%nat) (f 19%nat).

Definition meta_enc (m : EntryMetadata) : bytes := struct_enc meta_widths (meta_fields m).
Definition meta_dec (l : bytes) : EntryMetadata := meta_of_fields (struct_dec meta_widths l).

Definition sb_widths : list nat := [8; 8; 8; 8; 8; 8; 8; 8; 8; 8; 8; 8; 4; 4]%nat.

Definition sb_fields (h : SuperblockHeader) : list Z :=
  [magic h; version h; sb_num_blocks h; free_blocks h; sb_generation h; freelist_head h;
   empty_area_start h; txn_meta_block h; txn_data_block h; txn_link_block h;
   txn_list_of_links_block h; txn_blocks_owner h; txn_type h; sb_crc32 h].

Definition sb_of_fields (l : list Z) : SuperblockHeader :=
  let f i := nth i l 0 in
  mkSb (f 0%nat) (f 1%nat) (f 2%nat) (f 3%nat) (f 4%nat) (f 5%nat) (f 6%nat) (f 7%nat) (f 8%nat)
    (f 9%nat) (f 10%nat) (f 11%nat) (f 12%nat) (f 13%nat).

Definition sb_enc (h : SuperblockHeader) : bytes := struct_enc sb_widths (sb_fields h).
Definition sb_dec (l : bytes) : SuperblockHeader := sb_of_fields (struct_dec sb_widths l).

Definition dir_entry_enc (e : DirEntryInternal) : bytes :=
  struct_enc [8; 8]%nat [block_no (de_id e); generation (de_id e)] ++ de_name e ++ le 1 (name_len e).

Definition dir_entry_dec (l : bytes) : DirEntryInternal :=
  mkDirEntry (mkEntryId (unle (slice 0 8 l)) (unle (slice 8 8 l))) (slice 16 255 l) (unle (slice 271 1 l)).

(** Well-typed values: every integer fits its field. *)
Definition id_ok (id : EntryId) : Prop := is_u64 (block_no id) /\ is_u64 (generation id).
Definition meta_ok (m : EntryMetadata) : Prop :=
  Forall2 fits meta_widths (meta_fields m) /\ length (user_data m) = 4%nat.
Definition sb_ok (h : SuperblockHeader) : Prop := Forall2 fits sb_widths (sb_fields h).
Definition dir_entry_ok (e : DirEntryInternal) : Prop :=
  id_ok (de_id e) /\ length (de_name e) = 255%nat /\ is_u8 (name_len e).

(** A literal value fits its fields. *)
Ltac solve_fits :=
  repeat (apply List.Forall2_cons; [vm_compute; split; [discriminate|reflexivity]|]);
  apply List.Forall2_nil.

(** ** Field updates *)

Definition set_size (v : Z) (m : EntryMetadata) : EntryMetadata :=
  mkMeta (m_id m) (parent_id m) v (created m) (modified m) (accessed m) (user_data m)
    (reserved_2 m) (m_crc32 m).
Definition set_parent (p : EntryId) (m : EntryMetadata) : EntryMetadata :=
  mkMeta (m_id m) p (size m) (created m) (modified m) (accessed m) (user_data m)
    (reserved_2 m) (m_crc32 m).
Definition set_m_crc (v : Z) (m : EntryMetadata) : EntryMetadata :=
  mkMeta (m_id m) (parent_id m) (size m) (created m) (modified m) (accessed m) (user_data m)
    (reserved_2 m) v.

Definition EntryMetadata_new (now : Timestamp) (id parent : EntryId) : EntryMetadata :=
  mkMeta id parent 0 now now Timestamp_zero [0; 0; 0; 0] 0 0.

Section Checksums.
Context `{Crc : Crc32}.

Definition crc32_hash (l : bytes) : Z := crc32_digest l.

Definition crc32_verify (l : bytes) : result FsError unit :=
  if CRC32_VERIFY =? crc32_hash l then Ok tt else Err ValidationFailed.

Definition meta_set_crc32 (m : EntryMetadata) : EntryMetadata :=
  set_m_crc (crc32_hash (take (Z.to_nat SIZE_OF_METADATA - 4) (meta_enc m))) m.

Definition validate_basic (m : EntryMetadata) (id : EntryId) : result FsError unit :=
  match crc32_verify (meta_enc m) with
  | Ok _ => if decide (m_id m = id) then Ok tt else Err ValidationFailed
  | r => r
  end.

Definition validate_dir (m : EntryMetadata) (id : EntryId) : result FsError unit :=
  match validate_basic m id with
  | Ok _ =>
    if decide (kind (m_id m) = Directory) then
      if MAX_DIR_ENTRIES <? size m then Err ValidationFailed else Ok tt
    else Err ValidationFailed
  | r => r
  end.

Definition validate_file (m : EntryMetadata) (id : EntryId) : result FsError unit :=
  match validate_basic m id with
  | Ok _ => if decide (kind (m_id m) = File) then Ok tt else Err ValidationFailed
  | r => r
  end.

Definition validate (m : EntryMetadata) (id : EntryId) : result FsError unit :=
  match kind id with
  | Directory => validate_dir m id
  | File => validate_file m id
  end.

Definition set_sb_crc (v : Z) (h : SuperblockHeader) : SuperblockHeader :=
  mkSb (magic h) (version h) (sb_num_blocks h) (free_blocks h) (sb_generation h)
    (freelist_head h) (empty_area_start h) (txn_meta_block h) (txn_data_block h)
    (txn_link_block h) (txn_list_of_links_block h) (txn_blocks_owner h) (txn_type h) v.

Definition sb_set_crc32 (h : SuperblockHeader) : SuperblockHeader :=
  set_sb_crc (crc32_hash (take (104 - 4) (sb_enc h))) h.

Definition sb_validate (h : SuperblockHeader) : result FsError unit :=
  match crc32_verify (sb_enc h) with
  | Ok _ =>
    if negb (version h =? 1) then Err UnsupportedVersion
    else if magic h =? MAGIC then Ok tt else Err ValidationFailed
  | r => r
  end.
End Checksums.

(** ** Blocks *)

Definition Block : Type := bytes.
Definition block_ok (b : Block) : Prop := length b = 4096%nat.
Definition Block_new_zeroed : Block := replicate 4096 Byte.x00.

Definition get_meta (b : Block) : EntryMetadata := meta_dec (take 128 b).
Definition put_meta (m : EntryMetadata) (b : Block) : Block := blit 0 (meta_enc m) b.

Definition get_u64_at (off : Z) (b : Block) : Z := unle (slice (Z.to_nat off) 8 b).
Definition put_u64_at (off v : Z) (b : Block) : Block := blit (Z.to_nat off) (le 8 v) b.

(** [as_data_bytes_in_meta]: the bytes after the metadata. *)
Definition as_data_bytes_in_meta (b : Block) : bytes := drop 128 b.

Definition dir_entry_offset (pos : Z) : nat := Z.to_nat (pos * SIZE_OF_DIR_ENTRY).

Definition get_dir_entry (b : Block) (pos : Z) : result FsError DirEntryInternal :=
  if pos <=? MAX_ENTRIES_IN_DATA_BLOCK
  then Ok (dir_entry_dec (slice (dir_entry_offset pos) 272 b)) else Panic.

(** [*get_dir_entry_mut(pos) = e]. *)
Definition put_dir_entry (b : Block) (pos : Z) (e : DirEntryInternal) : result FsError Block :=
  if pos <=? MAX_ENTRIES_IN_DATA_BLOCK
  then Ok (blit (dir_entry_offset pos) (dir_entry_enc e) b) else Panic.

(** [DirEntryInternal::set_name]: the bytes after the new name stay. *)
Definition set_name (name : bytes) (e : DirEntryInternal) : result FsError DirEntryInternal :=
  if Z.of_nat (length name) <=? 255
  then Ok (mkDirEntry (de_id e) (blit 0 name (de_name e)) (Z.of_nat (length name))) else Panic.

Definition set_dir_entry (b : Block) (pos : Z) (id : EntryId) (name : bytes) : result FsError Block :=
  match get_dir_entry b pos with
  | Ok e =>
    match set_name name (mkDirEntry id (de_name e) (name_len e)) with
    | Ok e' => put_dir_entry b pos e'
    | Err x => Err x
    | Panic => Panic
    end
  | Err x => Err x
  | Panic => Panic
  end.

(** [&self.name[0..name_len]]; the field has 255 bytes, so a length byte of 255
    is still in range. *)
Definition name_bytes (e : DirEntryInternal) : bytes := slice 0 (Z.to_nat (name_len e)) (de_name e).

Definition to_owned (e : DirEntryInternal) : result FsError DirEntry :=
  match from_utf8 (name_bytes e) with
  | Some s => Ok (mkOwnedEntry (de_id e) s)
  | None => Err Utf8Error
  end.

Definition link_in_meta_offset (idx : Z) : Z := SIZE_OF_METADATA + Z.shiftl idx 3.

Definition get_datablock_no_in_meta (b : Block) (idx : Z) : result FsError Z :=
  if idx <=? MAX_LINKS_IN_META_BLOCK then Ok (get_u64_at (link_in_meta_offset idx) b) else Panic.

Definition set_datablock_no_in_meta (b : Block) (idx v : Z) : result FsError Block :=
  if (idx <=? MAX_LINKS_IN_META_BLOCK) && (link_in_meta_offset idx <? BLOCK_SIZE)
  then Ok (put_u64_at (link_in_meta_offset idx) v b) else Panic.

Definition get_datablock_no_in_link (b : Block) (idx : Z) : result FsError Z :=
  if idx <? 512 then Ok (get_u64_at (Z.shiftl idx 3) b) else Panic.

Definition set_datablock_no_in_link (b : Block) (idx v : Z) : result FsError Block :=
  if idx <? 512 then Ok (put_u64_at (Z.shiftl idx 3) v b) else Panic.

Definition SLASH : byte := byte.of_Z 47.
Definition DOT : byte := byte.of_Z 46.

Definition validate_filename (name : bytes) : result FsError unit :=
  if (255 <? Z.of_nat (length name)) || bool_decide (SLASH ∈ name)
     || bytes_eqb name [DOT] || bytes_eqb name [DOT; DOT]
  then Err InvalidArgument else Ok tt.

Definition align_up (what how : Z) : Z :=
  Z.land (u64 (u64 (what + how) - 1)) (u64_not (how - 1)).

(** The superblock kept in memory: its header and the rest of block 0. *)
Record Superblock : Type := mkSuperblock { header : SuperblockHeader; sb_rest : bytes }.

Definition Superblock_block (s : Superblock) : Block := sb_enc (header s) ++ sb_rest s.

Definition Superblock_from `{Crc : Crc32} (b : Block) : result FsError Superblock :=
  let h := sb_dec (take 104 b) in
  match sb_validate h with
  | Ok _ => Ok (mkSuperblock h (drop 104 b))
  | Err e => Err e
  | Panic => Panic
  end.

(** ** Codec lemmas *)

Lemma struct_enc_app ws1 ws2 vs1 vs2 :
  length ws1 = length vs1 ->
  struct_enc (ws1 ++ ws2) (vs1 ++ vs2) = struct_enc ws1 vs1 ++ struct_enc ws2 vs2.
Proof. intros H. unfold struct_enc. rewrite zip_with_app by done. by rewrite concat_app. Qed.

Lemma length_meta_enc m : length (meta_enc m) = 128%nat.
Proof. unfold meta_enc. by rewrite length_struct_enc. Qed.

Lemma length_sb_enc h : length (sb_enc h) = 104%nat.
Proof. unfold sb_enc. by rewrite length_struct_enc. Qed.

Lemma length_dir_entry_enc e : dir_entry_ok e -> length (dir_entry_enc e) = 272%nat.
Proof.
  intros (_ & Hn & _). unfold dir_entry_enc.
  rewrite !length_app, length_struct_enc, length_le by done. rewrite Hn. done.
Qed.

#[export] Hint Rewrite length_meta_enc length_sb_enc : bytes.

Lemma meta_of_fields_fields m : length (user_data m) = 4%nat -> meta_of_fields (meta_fields m) = m.
Proof.
  intros H. destruct m as [[] [] ? [] [] [] ud ? ?]. simpl in *.
  do 5 (destruct ud as [|? ud]; try discriminate). done.
Qed.

Lemma meta_dec_enc m tl : meta_ok m -> meta_dec (meta_enc m ++ tl) = m.
Proof.
  intros [Hf Hl]. unfold meta_dec, meta_enc. rewrite struct_dec_enc by done.
  by apply meta_of_fields_fields.
Qed.

Lemma meta_fields_of_fields l : length l = 20%nat -> meta_fields (meta_of_fields l) = l.
Proof. intros H. do 21 (destruct l as [|? l]; try discriminate). done. Qed.

Lemma length_struct_dec ws l : length (struct_dec ws l) = length ws.
Proof. revert l. induction ws as [|w ws IH]; intros; simpl; [done|by rewrite IH]. Qed.

Lemma meta_enc_dec l : (128 <= length l)%nat -> meta_enc (meta_dec l) = take 128 l.
Proof.
  intros H. unfold meta_enc, meta_dec. rewrite meta_fields_of_fields by (by rewrite length_struct_dec).
  by rewrite struct_enc_dec.
Qed.

Lemma meta_dec_ok l : (128 <= length l)%nat -> meta_ok (meta_dec l).
Proof.
  intros H. split; [|done]. unfold meta_dec.
  rewrite meta_fields_of_fields by (by rewrite length_struct_dec). by apply struct_dec_fits.
Qed.

Lemma get_meta_ok b : block_ok b -> meta_ok (get_meta b).
Proof. intros H. apply meta_dec_ok. rewrite length_take, H. lia. Qed.

Lemma get_put_meta m b : meta_ok m -> block_ok b -> get_meta (put_meta m b) = m.
Proof.
  intros Hm Hb. unfold get_meta, put_meta. rewrite blit_in by (rewrite length_meta_enc, Hb; lia).
  rewrite take_0, app_nil_l, take_app_length' by (by rewrite length_meta_enc).
  rewrite <- (app_nil_r (meta_enc m)). by apply meta_dec_enc.
Qed.

Lemma put_meta_block_ok m b : block_ok b -> block_ok (put_meta m b).
Proof. intros H. unfold block_ok, put_meta. by rewrite length_blit. Qed.

Lemma sb_fields_of_fields l : length l = 14%nat -> sb_fields (sb_of_fields l) = l.
Proof. intros H. do 15 (destruct l as [|? l]; try discriminate). done. Qed.

Lemma sb_dec_enc h tl : sb_ok h -> sb_dec (sb_enc h ++ tl) = h.
Proof. intros Hf. unfold sb_dec, sb_enc. rewrite struct_dec_enc by done. by destruct h. Qed.

Lemma sb_enc_dec l : (104 <= length l)%nat -> sb_enc (sb_dec l) = take 104 l.
Proof.
  intros H. unfold sb_enc, sb_dec. rewrite sb_fields_of_fields by (by rewrite length_struct_dec).
  by rewrite struct_enc_dec.
Qed.

Lemma sb_dec_ok l : (104 <= length l)%nat -> sb_ok (sb_dec l).
Proof.
  intros H. unfold sb_ok, sb_dec. rewrite sb_fields_of_fields by (by rewrite length_struct_dec).
  by apply struct_dec_fits.
Qed.

Lemma slice_take_eq (n : nat) (l : bytes) : slice 0 n l = take n l.
Proof. unfold slice. by rewrite drop_0. Qed.

Lemma dir_entry_dec_enc e : dir_entry_ok e -> dir_entry_dec (dir_entry_enc e) = e.
Proof.
  intros ((Hb & Hg) & Hn & Hl). unfold dir_entry_dec, dir_entry_enc.
  assert (Hs : struct_enc [8; 8]%nat [block_no (de_id e); generation (de_id e)]
               = le 8 (block_no (de_id e)) ++ le 8 (generation (de_id e))).
  { unfold struct_enc. simpl. by rewrite app_nil_r. }
  rewrite Hs, <- !app_assoc.
  rewrite (slice_app_l 0 8) by len. rewrite slice_full by len.
  rewrite (slice_app_r 8 8) by len. autorewrite with bytes.
  rewrite (slice_app_l (8 - 8) 8) by len. rewrite slice_full by len.
  rewrite (slice_app_r 16 255) by len. autorewrite with bytes.
  rewrite (slice_app_r (16 - 8) 255) by len. autorewrite with bytes.
  rewrite (slice_app_l _ 255) by (simpl; lia). rewrite slice_full by lia.
  rewrite (slice_app_r 271 1) by len. autorewrite with bytes.
  rewrite (slice_app_r _ 1) by len. autorewrite with bytes.
  rewrite (slice_app_r _ 1) by (simpl; lia). rewrite Hn, slice_full by len.
  rewrite !unle_le8, unle_le1 by done. by destruct e as [[]].
Qed.

Lemma dir_entry_dec_ok l : length l = 272%nat -> dir_entry_ok (dir_entry_dec l).
Proof.
  intros H. unfold dir_entry_dec.
  pose proof (unle_range (slice 0 8 l)) as H1. rewrite length_slice in H1 by lia.
  pose proof (unle_range (slice 8 8 l)) as H2. rewrite length_slice in H2 by lia.
  pose proof (unle_range (slice 271 1 l)) as H3. rewrite length_slice in H3 by lia.
  split; [done|]. split; [|done]. simpl. rewrite length_slice by lia. done.
Qed.

(** ** Checksum seal *)

Section Seal.
Context `{CL : Crc32Laws}.

Lemma crc32_verify_seal l : crc32_verify (l ++ le 4 (crc32_hash l)) = Ok tt.
Proof.
  unfold crc32_verify, crc32_hash. rewrite crc32_residue. by rewrite Z.eqb_refl.
Qed.

Lemma meta_enc_set_crc m c :
  meta_enc (set_m_crc c m) = take 124 (meta_enc m) ++ le 4 c.
Proof.
  set (ws := [8; 8; 8; 8; 8; 8; 4; 4; 8; 4; 4; 8; 4; 4; 8; 8; 8; 8; 4]%nat).
  set (vs := take 19 (meta_fields m)).
  assert (E : forall x, struct_enc meta_widths (vs ++ [x]) = struct_enc ws vs ++ le 4 x).
  { intros x. change meta_widths with (ws ++ [4%nat]). rewrite struct_enc_app by done.
    f_equal. }
  unfold meta_enc. change (meta_fields (set_m_crc c m)) with (vs ++ [c]).
  change (meta_fields m) with (vs ++ [m_crc32 m]). rewrite !E.
  rewrite take_app_length' by (by rewrite length_struct_enc). done.
Qed.

Lemma set_m_crc_ok c m : is_u32 c -> meta_ok m -> meta_ok (set_m_crc c m).
Proof.
  intros Hc [Hf Hl]. split; [|done].
  change meta_widths with (take 19 meta_widths ++ [4%nat]) in *.
  change (meta_fields m) with (take 19 (meta_fields m) ++ [m_crc32 m]) in Hf.
  change (meta_fields (set_m_crc c m)) with (take 19 (meta_fields m) ++ [c]).
  apply Forall2_app_inv in Hf as [H1 H2]; [|done].
  apply Forall2_app; [done|]. apply List.Forall2_cons; [exact Hc|apply List.Forall2_nil].
Qed.

Lemma meta_set_crc32_ok m : meta_ok m -> meta_ok (meta_set_crc32 m).
Proof. intros. apply set_m_crc_ok; [apply crc32_range|done]. Qed.

Lemma validate_basic_seal m : validate_basic (meta_set_crc32 m) (m_id m) = Ok tt.
Proof.
  unfold validate_basic, meta_set_crc32. rewrite meta_enc_set_crc.
  change (Z.to_nat SIZE_OF_METADATA - 4)%nat with 124%nat.
  rewrite crc32_verify_seal. by rewrite decide_True.
Qed.

Lemma validate_dir_seal m :
  kind (m_id m) = Directory -> size m <= MAX_DIR_ENTRIES ->
  validate_dir (meta_set_crc32 m) (m_id m) = Ok tt.
Proof.
  intros Hk Hs. unfold validate_dir. rewrite validate_basic_seal. simpl.
  rewrite decide_True by done. by rewrite (proj2 (Z.ltb_ge _ _)).
Qed.

Lemma validate_file_seal m :
  kind (m_id m) = File -> validate_file (meta_set_crc32 m) (m_id m) = Ok tt.
Proof.
  intros Hk. unfold validate_file. rewrite validate_basic_seal. simpl. by rewrite decide_True.
Qed.

Lemma validate_dir_inv m id :
  validate_dir m id = Ok tt ->
  m_id m = id /\ kind id = Directory /\ size m <= MAX_DIR_ENTRIES.
Proof.
  unfold validate_dir, validate_basic, crc32_verify. intros H.
  repeat case_match; simplify_eq. split; [done|]. split; [done|]. by apply Z.ltb_ge.
Qed.

Lemma validate_file_inv m id : validate_file m id = Ok tt -> m_id m = id /\ kind id = File.
Proof.
  unfold validate_file, validate_basic, crc32_verify. intros H.
  repeat case_match; simplify_eq. done.
Qed.

Lemma sb_enc_set_crc h c : sb_enc (set_sb_crc c h) = take 100 (sb_enc h) ++ le 4 c.
Proof.
  set (ws := [8; 8; 8; 8; 8; 8; 8; 8; 8; 8; 8; 8; 4]%nat).
  set (vs := take 13 (sb_fields h)).
  assert (E : forall x, struct_enc sb_widths (vs ++ [x]) = struct_enc ws vs ++ le 4 x).
  { intros x. change sb_widths with (ws ++ [4%nat]). rewrite struct_enc_app by done.
    f_equal. }
  unfold sb_enc. change (sb_fields (set_sb_crc c h)) with (vs ++ [c]).
  change (sb_fields h) with (vs ++ [sb_crc32 h]). rewrite !E.
  rewrite take_app_length' by (by rewrite length_struct_enc). done.
Qed.

Lemma sb_set_crc32_ok h : sb_ok h -> sb_ok (sb_set_crc32 h).
Proof.
  intros Hf. unfold sb_ok in *.
  change sb_widths with (take 13 sb_widths ++ [4%nat]) in *.
  change (sb_fields h) with (take 13 (sb_fields h) ++ [sb_crc32 h]) in Hf.
  apply Forall2_app_inv in Hf as [H1 H2]; [|done].
  change (sb_fields (sb_set_crc32 h)) with
    (take 13 (sb_fields h) ++ [crc32_hash (take (104 - 4) (sb_enc h))]).
  apply Forall2_app; [done|]. apply List.Forall2_cons; [apply crc32_range|apply List.Forall2_nil].
Qed.

Lemma sb_validate_seal h :
  version h = 1 -> magic h = MAGIC -> sb_validate (sb_set_crc32 h) = Ok tt.
Proof.
  intros Hv Hm. unfold sb_validate, sb_set_crc32. rewrite sb_enc_set_crc.
  change (104 - 4)%nat with 100%nat. rewrite crc32_verify_seal. simpl.
  by rewrite Hv, Hm.
Qed.

Lemma sb_set_crc32_idem h : sb_set_crc32 (sb_set_crc32 h) = sb_set_crc32 h.
Proof.
  unfold sb_set_crc32 at 1. unfold sb_set_crc32 at 1. rewrite sb_enc_set_crc.
  change (104 - 4)%nat with 100%nat. rewrite take_app_length' by (rewrite length_take, length_sb_enc; lia). done.
Qed.
End Seal.

(** ** Block accessor lemmas *)

Lemma dir_entry_offset_eq pos : 0 <= pos -> Z.of_nat (dir_entry_offset pos) = 272 * pos.
Proof. intros. unfold dir_entry_offset, SIZE_OF_DIR_ENTRY. lia. Qed.

(** The positions whose entry lies inside the block. *)
Definition entry_pos_ok (pos : Z) : Prop := 0 <= pos < MAX_ENTRIES_IN_DATA_BLOCK.

Lemma entry_pos_assert pos : entry_pos_ok pos -> (pos <=? MAX_ENTRIES_IN_DATA_BLOCK) = true.
Proof. unfold entry_pos_ok. intros. apply Z.leb_le. lia. Qed.

Lemma entry_pos_in pos : entry_pos_ok pos -> (dir_entry_offset pos + 272 <= 4096)%nat.
Proof.
  intros [H1 H2]. change MAX_ENTRIES_IN_DATA_BLOCK with 15 in H2.
  pose proof (dir_entry_offset_eq pos H1). lia.
Qed.

Definition entry_at (b : Block) (pos : Z) : DirEntryInternal :=
  dir_entry_dec (slice (dir_entry_offset pos) 272 b).

Lemma get_dir_entry_at b pos : entry_pos_ok pos -> get_dir_entry b pos = Ok (entry_at b pos).
Proof. intros. unfold get_dir_entry. by rewrite entry_pos_assert. Qed.

Lemma entry_at_ok b pos : block_ok b -> entry_pos_ok pos -> dir_entry_ok (entry_at b pos).
Proof.
  intros Hb Hp. apply dir_entry_dec_ok, length_slice. pose proof (entry_pos_in pos Hp).
  rewrite Hb. lia.
Qed.

Definition write_entry (b : Block) (pos : Z) (e : DirEntryInternal) : Block :=
  blit (dir_entry_offset pos) (dir_entry_enc e) b.

Lemma put_dir_entry_at b pos e : entry_pos_ok pos -> put_dir_entry b pos e = Ok (write_entry b pos e).
Proof. intros. unfold put_dir_entry. by rewrite entry_pos_assert. Qed.

Lemma write_entry_ok b pos e : block_ok b -> block_ok (write_entry b pos e).
Proof. intros H. unfold block_ok, write_entry. by rewrite length_blit. Qed.

Lemma entry_at_write_same b pos e :
  block_ok b -> entry_pos_ok pos -> dir_entry_ok e -> entry_at (write_entry b pos e) pos = e.
Proof.
  intros Hb Hp He. unfold entry_at, write_entry.
  rewrite slice_blit_same.
  - by apply dir_entry_dec_enc.
  - by rewrite length_dir_entry_enc.
  - rewrite length_dir_entry_enc by done. pose proof (entry_pos_in pos Hp). rewrite Hb. lia.
Qed.

Lemma entry_at_write_other b pos pos' e :
  0 <= pos -> 0 <= pos' -> pos <> pos' -> dir_entry_ok e ->
  entry_at (write_entry b pos e) pos' = entry_at b pos'.
Proof.
  intros Hp Hp' Hne He. unfold entry_at, write_entry. f_equal. apply slice_blit_other.
  rewrite length_dir_entry_enc by done.
  pose proof (dir_entry_offset_eq pos Hp). pose proof (dir_entry_offset_eq pos' Hp'). lia.
Qed.

Lemma take_blit_other (n off : nat) (src l : bytes) : (n <= off)%nat -> take n (blit off src l) = take n l.
Proof. intros. rewrite <- !slice_take_eq. apply slice_blit_other. lia. Qed.

Lemma get_meta_write_entry b pos e : 1 <= pos -> get_meta (write_entry b pos e) = get_meta b.
Proof.
  intros Hp. unfold get_meta, write_entry. f_equal. apply take_blit_other.
  pose proof (dir_entry_offset_eq pos ltac:(lia)). lia.
Qed.

Lemma entry_at_put_meta b m pos : 1 <= pos -> entry_at (put_meta m b) pos = entry_at b pos.
Proof.
  intros Hp. unfold entry_at, put_meta. f_equal. apply slice_blit_other.
  rewrite length_meta_enc. pose proof (dir_entry_offset_eq pos ltac:(lia)). lia.
Qed.

(** The entry [set_dir_entry] stores: the new id and name over the old name
    bytes. *)
Definition renamed (id : EntryId) (name : bytes) (e : DirEntryInternal) : DirEntryInternal :=
  mkDirEntry id (blit 0 name (de_name e)) (Z.of_nat (length name)).

Lemma renamed_ok id name e :
  id_ok id -> (length name <= 255)%nat -> dir_entry_ok e -> dir_entry_ok (renamed id name e).
Proof.
  intros Hid Hn (_ & Hl & _). split; [done|]. split.
  - unfold renamed. simpl. by rewrite length_blit.
  - unfold renamed, is_u8. simpl. lia.
Qed.

Lemma name_bytes_renamed id name e :
  (length name <= 255)%nat -> dir_entry_ok e -> name_bytes (renamed id name e) = name.
Proof.
  intros Hn (_ & Hl & _). unfold name_bytes, renamed. simpl. rewrite Nat2Z.id.
  apply slice_blit_same; [done|]. rewrite Hl. lia.
Qed.

Lemma set_dir_entry_at b pos id name :
  entry_pos_ok pos -> (length name <= 255)%nat ->
  set_dir_entry b pos id name = Ok (write_entry b pos (renamed id name (entry_at b pos))).
Proof.
  intros Hp Hn. unfold set_dir_entry. rewrite get_dir_entry_at by done. unfold set_name.
  rewrite (proj2 (Z.leb_le _ _)) by lia. by rewrite put_dir_entry_at.
Qed.

(** Links. *)
Definition link_ok (idx : Z) : Prop := 0 <= idx < 512.
Definition meta_link_ok (idx : Z) : Prop := 0 <= idx < MAX_LINKS_IN_META_BLOCK.

Lemma shiftl3 x : 0 <= x -> Z.shiftl x 3 = 8 * x.
Proof. intros. rewrite Z.shiftl_mul_pow2 by lia. lia. Qed.

Lemma get_link_meta b idx :
  meta_link_ok idx ->
  get_datablock_no_in_meta b idx = Ok (get_u64_at (128 + 8 * idx) b).
Proof.
  unfold meta_link_ok, get_datablock_no_in_meta, link_in_meta_offset. intros [H1 H2].
  rewrite (proj2 (Z.leb_le _ _)) by lia. by rewrite shiftl3.
Qed.

Lemma set_link_meta b idx v :
  meta_link_ok idx ->
  set_datablock_no_in_meta b idx v = Ok (put_u64_at (128 + 8 * idx) v b).
Proof.
  unfold meta_link_ok, set_datablock_no_in_meta, link_in_meta_offset. intros [H1 H2].
  rewrite (proj2 (Z.leb_le _ _)) by lia. rewrite shiftl3 by done.
  change MAX_LINKS_IN_META_BLOCK with 496 in *. change SIZE_OF_METADATA with 128.
  rewrite (proj2 (Z.ltb_lt _ _)) by (unfold BLOCK_SIZE; lia). done.
Qed.

Lemma get_link b idx : link_ok idx -> get_datablock_no_in_link b idx = Ok (get_u64_at (8 * idx) b).
Proof.
  unfold link_ok, get_datablock_no_in_link. intros [H1 H2].
  rewrite (proj2 (Z.ltb_lt _ _)) by lia. by rewrite shiftl3.
Qed.

Lemma set_link b idx v : link_ok idx -> set_datablock_no_in_link b idx v = Ok (put_u64_at (8 * idx) v b).
Proof.
  unfold link_ok, set_datablock_no_in_link. intros [H1 H2].
  rewrite (proj2 (Z.ltb_lt _ _)) by lia. by rewrite shiftl3.
Qed.

Lemma get_put_u64_same b off v :
  block_ok b -> 0 <= off <= 4088 -> is_u64 v -> get_u64_at off (put_u64_at off v b) = v.
Proof.
  intros Hb Ho Hv. unfold get_u64_at, put_u64_at.
  rewrite slice_blit_same by (rewrite ?Hb; len). by apply unle_le8.
Qed.

Lemma get_put_u64_other b off off' v :
  0 <= off -> 0 <= off' -> (off + 8 <= off' \/ off' + 8 <= off) ->
  get_u64_at off' (put_u64_at off v b) = get_u64_at off' b.
Proof.
  intros Ho Ho' Hd. unfold get_u64_at, put_u64_at. f_equal. apply slice_blit_other.
  rewrite length_le. lia.
Qed.

Lemma put_u64_block_ok off v b : block_ok b -> block_ok (put_u64_at off v b).
Proof. intros H. unfold block_ok, put_u64_at. by rewrite length_blit. Qed.

Lemma get_u64_at_range off b : block_ok b -> 0 <= off <= 4088 -> is_u64 (get_u64_at off b).
Proof.
  intros Hb Ho. unfold get_u64_at. pose proof (unle_range (slice (Z.to_nat off) 8 b)) as H.
  rewrite length_slice in H by (rewrite Hb; lia). done.
Qed.

Lemma get_meta_put_u64 off v b : 128 <= off -> get_meta (put_u64_at off v b) = get_meta b.
Proof. intros. unfold get_meta, put_u64_at. f_equal. apply take_blit_other. lia. Qed.

Lemma get_u64_put_meta off m b : 128 <= off -> get_u64_at off (put_meta m b) = get_u64_at off b.
Proof.
  intros. unfold get_u64_at, put_meta. f_equal. apply slice_blit_other. rewrite length_meta_enc. lia.
Qed.

Create HintDb srfs.
#[export] Hint Resolve put_meta_block_ok write_entry_ok put_u64_block_ok get_meta_ok : srfs.

Lemma align_up_spec x k :
  is_u64 x -> 0 <= k < 64 -> x + 2 ^ k <= 2 ^ 64 -> 0 < x + 2 ^ k - 1 ->
  align_up x (2 ^ k) = 2 ^ k * ((x + 2 ^ k - 1) / 2 ^ k).
Proof.
  intros Hx Hk Hle Hpos. unfold align_up.
  assert (0 < 2 ^ k) by (apply Z.pow_pos_nonneg; lia).
  replace (u64 (u64 (x + 2 ^ k) - 1)) with (x + 2 ^ k - 1).
  - apply land_not_mask; [|done]. unfold is_u64 in *. lia.
  - unfold u64. rewrite Zminus_mod_idemp_l. symmetry. apply Z.mod_small. unfold is_u64 in *. lia.
Qed.
