(* ===== verification/LayoutProps.v ===== *)
(** * Properties of the SRFS on-disk layout

    Round trips of the structures a block holds, the checksum seal, and what the
    checksum detects. *)

From stdpp Require Import base numbers list.
From S2P Require Import RustPrelude Crc32 SrfsLayout.

Open Scope Z_scope.

Section Layout.
Context {Crc : Crc32} {CL : Crc32Laws Crc}.

(** Metadata stored in a block with [set_crc32] is read back unchanged and
    passes [validate] under its own id, and the bytes after the metadata
    (entries, links or file bytes) stay. *)
Theorem metadata_seal_roundtrip m b :
  meta_ok m -> block_ok b -> (kind (m_id m) = Directory -> size m <= MAX_DIR_ENTRIES) ->
  let b' := put_meta (meta_set_crc32 m) b in
  get_meta b' = meta_set_crc32 m /\ validate (get_meta b') (m_id m) = Ok tt /\
  as_data_bytes_in_meta b' = as_data_bytes_in_meta b.
Proof.
  intros Hm Hb Hsz. cbv zeta. rewrite get_put_meta by (try apply meta_set_crc32_ok; done).
  split; [done|]. split.
  - unfold validate. destruct (kind (m_id m)) eqn:Hk.
    + apply validate_dir_seal; auto.
    + by apply validate_file_seal.
  - unfold as_data_bytes_in_meta, put_meta. rewrite blit_in by (rewrite length_meta_enc, Hb; lia).
    rewrite take_0, app_nil_l. rewrite drop_app_length' by (by rewrite length_meta_enc).
    by rewrite length_meta_enc.
Qed.

(** A superblock saved with its checksum, then read from its block, is the
    same superblock. *)
Theorem superblock_roundtrip s :
  sb_ok (header s) -> version (header s) = 1 -> magic (header s) = MAGIC ->
  let s' := mkSuperblock (sb_set_crc32 (header s)) (sb_rest s) in
  Superblock_from (Superblock_block s') = Ok s'.
Proof.
  intros Hok Hv Hm. cbv zeta. unfold Superblock_from, Superblock_block. simpl header. simpl sb_rest.
  rewrite take_app_length' by (by rewrite length_sb_enc).
  pose proof (sb_dec_enc (sb_set_crc32 (header s)) [] (sb_set_crc32_ok _ Hok)) as Hd.
  rewrite app_nil_r in Hd. rewrite Hd, sb_validate_seal by done.
  by rewrite drop_app_length' by (by rewrite length_sb_enc).
Qed.
End Layout.

#[local] Existing Instances IsoHdlc.iso_hdlc IsoHdlc.iso_hdlc_laws.

(** [set_dir_entry] then [get_dir_entry] and [to_owned] gives the id and the
    name back; every other position of the block, and the metadata of a metadata
    block (positions from 1), stay. *)
Theorem dir_entry_roundtrip b pos id name :
  block_ok b -> 0 <= pos < MAX_ENTRIES_IN_DATA_BLOCK -> id_ok id ->
  (length name <= 255)%nat -> utf8_valid name = true ->
  exists b' e, set_dir_entry b pos id name = Ok b' /\ block_ok b' /\
    get_dir_entry b' pos = Ok e /\ to_owned e = Ok (mkOwnedEntry id name) /\
    (forall pos', 0 <= pos' < MAX_ENTRIES_IN_DATA_BLOCK -> pos' <> pos ->
       get_dir_entry b' pos' = get_dir_entry b pos') /\
    (1 <= pos -> get_meta b' = get_meta b).
Proof.
  intros Hb Hp Hid Hn Hu.
  pose proof (renamed_ok id name (entry_at b pos) Hid Hn (entry_at_ok b pos Hb Hp)) as Hok.
  exists (write_entry b pos (renamed id name (entry_at b pos))), (renamed id name (entry_at b pos)).
  split; [by apply set_dir_entry_at|]. split; [by apply write_entry_ok|].
  split; [by rewrite get_dir_entry_at, entry_at_write_same|]. split; [|split].
  - unfold to_owned. rewrite name_bytes_renamed by (try apply entry_at_ok; done).
    unfold from_utf8. by rewrite Hu.
  - intros pos' Hp' Hne. rewrite !get_dir_entry_at by done. rewrite entry_at_write_other; try done; lia.
  - intros. by apply get_meta_write_entry.
Qed.

Lemma crc32_verify_one_byte l i x y :
  crc32_verify l = Ok tt -> l !! i = Some x -> x <> y ->
  crc32_verify (<[i := y]> l) = Err ValidationFailed.
Proof.
  intros Hv Hl Hne. apply list_elem_of_split_length in Hl as (l1 & l2 & -> & ->).
  rewrite insert_app_r_alt, Nat.sub_diag by lia. simpl.
  unfold crc32_verify in *. destruct (Z.eqb_spec CRC32_VERIFY (crc32_hash (l1 ++ x :: l2))) as [E|]; [|done].
  destruct (Z.eqb_spec CRC32_VERIFY (crc32_hash (l1 ++ y :: l2))) as [E'|]; [|done].
  exfalso. apply (IsoHdlc.crc32_one_byte l1 x y l2 Hne). change (crc32_hash (l1 ++ x :: l2) = crc32_hash (l1 ++ y :: l2)). congruence.
Qed.

(** C38: with CRC-32/ISO-HDLC, a metadata block that validates no longer does
    after any one byte of its 128 metadata bytes changed. *)
Theorem corrupted_metadata_rejected (b : bytes) id i x y :
  block_ok b -> validate (get_meta b) id = Ok tt ->
  (i < 128)%nat -> b !! i = Some x -> x <> y ->
  validate (get_meta (<[i := y]> b)) id = Err ValidationFailed.
Proof.
  intros Hb Hv Hi Hx Hne.
  assert (Hver : crc32_verify (meta_enc (get_meta b)) = Ok tt).
  { unfold validate, validate_dir, validate_file, validate_basic in Hv.
    destruct (crc32_verify (meta_enc (get_meta b))) as [[]|e|]; [done| |]; by destruct (kind id). }
  unfold get_meta in *. rewrite meta_enc_dec in Hver by (rewrite length_take, Hb; lia).
  rewrite take_take in Hver.
  assert (Hc : crc32_verify (meta_enc (meta_dec (take 128 (<[i := y]> b))))
               = Err ValidationFailed).
  { rewrite meta_enc_dec by (rewrite length_take, length_insert, Hb; lia).
    rewrite take_take, take_insert_lt by done.
    eapply crc32_verify_one_byte; [exact Hver| |exact Hne]. by rewrite lookup_take_lt. }
  unfold validate, validate_dir, validate_file, validate_basic. rewrite Hc. by destruct (kind id).
Qed.

(** ** Witnesses *)

Definition sample_dir_meta : EntryMetadata :=
  EntryMetadata_new (mkTimestamp 1700000000 5 0) (mkEntryId 7 3) ROOT_DIR_ID.

Lemma sample_dir_meta_ok : meta_ok sample_dir_meta.
Proof. split; [|reflexivity]. solve_fits. Qed.

Lemma zeroed_ok : block_ok Block_new_zeroed.
Proof. apply length_replicate. Qed.

Lemma metadata_seal_roundtrip_witness :
  validate
    (get_meta (put_meta (meta_set_crc32 sample_dir_meta) Block_new_zeroed))
    (mkEntryId 7 3) = Ok tt.
Proof.
  apply (metadata_seal_roundtrip sample_dir_meta Block_new_zeroed).
  - exact sample_dir_meta_ok.
  - exact zeroed_ok.
  - intros _. vm_compute. discriminate.
Defined.

Definition sample_superblock : Superblock :=
  mkSuperblock (mkSb MAGIC 1 64 60 9 0 4 0 0 0 0 0 0 0) (replicate 3992 Byte.x00).

Lemma superblock_roundtrip_witness :
  exists s, Superblock_from (Superblock_block s) = Ok s /\
    sb_num_blocks (header s) = 64.
Proof.
  eexists. split.
  - apply (superblock_roundtrip sample_superblock).
    + solve_fits.
    + reflexivity.
    + reflexivity.
  - reflexivity.
Defined.

Lemma dir_entry_roundtrip_witness :
  exists b' e, set_dir_entry Block_new_zeroed 14 (mkEntryId 9 4) (ascii [97; 46; 99]) = Ok b' /\
    get_dir_entry b' 14 = Ok e /\ to_owned e = Ok (mkOwnedEntry (mkEntryId 9 4) (ascii [97; 46; 99])).
Proof.
  destruct (dir_entry_roundtrip Block_new_zeroed 14 (mkEntryId 9 4) (ascii [97; 46; 99]))
    as (b' & e & H1 & _ & H2 & H3 & _).
  - exact zeroed_ok.
  - vm_compute. split; [discriminate|reflexivity].
  - split; split; vm_compute; try discriminate; reflexivity.
  - simpl. lia.
  - reflexivity.
  - exists b', e. done.
Defined.

Definition sample_meta_block : Block :=
  put_meta (meta_set_crc32 sample_dir_meta) Block_new_zeroed.

Lemma corrupted_metadata_rejected_witness :
  validate (get_meta (<[32%nat := Byte.x01]> (sample_meta_block : bytes))) (mkEntryId 7 3)
  = Err ValidationFailed.
Proof.
  apply (corrupted_metadata_rejected sample_meta_block (mkEntryId 7 3) 32 Byte.x00 Byte.x01).
  - vm_compute. reflexivity.
  - vm_compute. reflexivity.
  - lia.
  - vm_compute. reflexivity.
  - discriminate.
Defined.
