(* ===== verification/BlockDevice.v ===== *)
(** * Block devices

    The trait [SyncBlockDevice] of src/src/lib/srfs-core/src/lib.rs as a class:
    the operations, and the laws a client of the trait relies on.  The
    filesystem is proved against the laws; [FileBlockDevice]
    (src/src/lib/srfs-core/src/file_block_device.rs) is an instance. *)

From stdpp Require Import base numbers list gmap.
From S2P Require Import RustPrelude SrfsLayout.

Open Scope Z_scope.

(** [read_block] fills the caller's buffer; a failed read may have changed it.
    [None] is [Ok(())]. *)
Class SyncBlockDevice (D : Type) : Type := {
  dev_num_blocks : D -> Z;
  dev_read_block : D -> Z -> Block -> D * (Block * option FsError);
  dev_write_block : D -> Z -> Block -> D * option FsError;
}.

Class SyncBlockDeviceLaws (D : Type) `{SyncBlockDevice D} : Type := {
  (** What a read of a block would return. *)
  dev_contents : D -> Z -> Block;
  (** No I/O error will be reported for blocks in range. *)
  dev_healthy : D -> Prop;

  dev_read_ok : forall d b buf d' buf',
    dev_read_block d b buf = (d', (buf', None)) -> buf' = dev_contents d b;
  dev_read_frame : forall d b buf d' r,
    dev_read_block d b buf = (d', r) ->
    dev_num_blocks d' = dev_num_blocks d /\ forall c, dev_contents d' c = dev_contents d c;
  dev_read_len : forall d b buf d' buf' e,
    dev_read_block d b buf = (d', (buf', e)) -> length buf' = length buf;
  dev_write_frame : forall d b data d' e,
    dev_write_block d b data = (d', e) ->
    dev_num_blocks d' = dev_num_blocks d /\ forall c, c <> b -> dev_contents d' c = dev_contents d c;
  dev_write_ok : forall d b data d',
    dev_write_block d b data = (d', None) -> dev_contents d' b = data;
  dev_healthy_read : forall d b buf,
    dev_healthy d -> 0 <= b < dev_num_blocks d -> length buf = 4096%nat ->
    exists d', dev_read_block d b buf = (d', (dev_contents d b, None)) /\ dev_healthy d';
  dev_healthy_write : forall d b data,
    dev_healthy d -> 0 <= b < dev_num_blocks d -> length data = 4096%nat ->
    exists d', dev_write_block d b data = (d', None) /\ dev_healthy d';
}.

(** ** A file of blocks

    The backing file is a block map (blocks never written read as zeros, as
    after [set_len]).  [fd_script] scripts the operating-system call made by each
    transfer: [None] is a reported I/O error (of [seek], [read] or [write]),
    [Some n] a transfer of at most [n] bytes; after the script transfers are
    whole.  The alignment test of the buffer address always passes: [Block] is
    [repr(C, align(4096))]. *)

Module FileBlockDevice.
Record t : Type := mk { file : gmap Z Block; fd_num_blocks : Z; fd_script : list (option nat) }.

(** [open] on a file of [len] bytes; [None] is [ErrorKind::InvalidData]. *)
Definition open (f : gmap Z Block) (len : Z) : option t :=
  if Z.land len (BLOCK_SIZE - 1) =? 0 then Some (mk f (Z.shiftr len BLOCK_SIZE_LOG2) []) else None.

Definition create (num_blocks : Z) : t := mk ∅ num_blocks [].

Definition contents (d : t) (b : Z) : Block := take 4096 (default Block_new_zeroed (file d !! b)).

Definition next_call (d : t) : option nat * t :=
  match fd_script d with
  | [] => (Some 4096%nat, d)
  | f :: fs => (f, mk (file d) (fd_num_blocks d) fs)
  end.

Definition read_block (d : t) (b : Z) (buf : Block) : t * (Block * option FsError) :=
  if (fd_num_blocks d <=? b) || negb (Nat.eqb (length buf) 4096)
  then (d, (buf, Some InvalidArgument))
  else match next_call d with
       | (None, d') => (d', (buf, Some IoError))
       | (Some n, d') =>
         let got := take n (contents d b) in
         (d', (blit 0 got buf, if Nat.eqb (length got) 4096 then None else Some InvalidArgument))
       end.

Definition write_block (d : t) (b : Z) (data : Block) : t * option FsError :=
  if (fd_num_blocks d <=? b) || negb (Nat.eqb (length data) 4096)
  then (d, Some InvalidArgument)
  else match next_call d with
       | (None, d') => (d', Some IoError)
       | (Some n, d') =>
         let put := take n data in
         (mk (<[b := put ++ drop (length put) (contents d b)]> (file d')) (fd_num_blocks d') (fd_script d'),
          if Nat.eqb (length put) 4096 then None else Some InvalidArgument)
       end.
End FileBlockDevice.

Import FileBlockDevice.

#[export] Instance file_block_device : SyncBlockDevice FileBlockDevice.t := {
  dev_num_blocks := fd_num_blocks;
  dev_read_block := read_block;
  dev_write_block := write_block;
}.

(** Healthy: no scripted fault, and every stored block is a whole block. *)
Definition file_healthy (d : FileBlockDevice.t) : Prop :=
  fd_script d = [] /\ map_Forall (fun _ b => length b = 4096%nat) (file d).

Lemma contents_len d b :
  map_Forall (fun _ x => length x = 4096%nat) (file d) -> length (contents d b) = 4096%nat.
Proof.
  intros H. unfold contents. rewrite length_take. destruct (file d !! b) eqn:E.
  - simpl. rewrite (H _ _ E). done.
  - unfold Block_new_zeroed. cbv beta iota delta [default from_option]. by rewrite length_replicate.
Qed.

Lemma next_call_spec d f d' :
  next_call d = (f, d') -> file d' = file d /\ fd_num_blocks d' = fd_num_blocks d.
Proof. unfold next_call. destruct (fd_script d); intros; by simplify_eq. Qed.

Lemma blit_all {A} (l l' : list A) : length l = length l' -> blit 0 l l' = l.
Proof.
  intros H. rewrite blit_in by lia. rewrite take_0, app_nil_l, drop_ge by lia. apply app_nil_r.
Qed.

Lemma guard_false (d : FileBlockDevice.t) b (buf : Block) :
  (fd_num_blocks d <=? b) || negb (Nat.eqb (length buf) 4096) = false -> length buf = 4096%nat.
Proof. intros [_ H]%orb_false_iff. by apply negb_false_iff, Nat.eqb_eq in H. Qed.

Lemma take_full {A} n (l : list A) : length (take n l) = length l -> take n l = l.
Proof. rewrite length_take. intros. apply take_ge. lia. Qed.

#[export, refine] Instance file_block_device_laws : SyncBlockDeviceLaws FileBlockDevice.t := {
  dev_contents := contents;
  dev_healthy := file_healthy;
}.
Proof.
  - intros d b buf d' buf'. simpl. unfold read_block. destruct (_ || _) eqn:G; [done|].
    apply guard_false in G. destruct (next_call d) as [[n|] dn]; [|done].
    destruct (Nat.eqb_spec (length (take n (contents d b))) 4096) as [E|]; intros; simplify_eq.
    rewrite blit_all by lia. apply take_full. rewrite E.
    unfold contents in *. rewrite !length_take in *. lia.
  - intros d b buf d' r. simpl. unfold read_block.
    destruct (next_call d) as [f dn] eqn:E. apply next_call_spec in E as [E1 E2].
    repeat case_match; intros; simplify_eq; (split; [done|]); intros; unfold contents; by rewrite ?E1.
  - intros d b buf d' buf' e. simpl. unfold read_block. destruct (next_call d) as [f dn].
    repeat case_match; intros; simplify_eq; by rewrite ?length_blit.
  - intros d b data d' e. simpl. unfold write_block.
    destruct (next_call d) as [f dn] eqn:E. apply next_call_spec in E as [E1 E2].
    repeat case_match; intros; simplify_eq; (split; [done|]); intros c Hc; unfold contents; simpl;
      rewrite ?lookup_insert_ne by done; by rewrite ?E1.
  - intros d b data d'. simpl. unfold write_block. destruct (_ || _) eqn:G; [done|].
    apply guard_false in G. destruct (next_call d) as [[n|] dn]; [|done].
    destruct (Nat.eqb_spec (length (take n data)) 4096) as [E|]; intros; simplify_eq.
    unfold contents at 1. simpl. rewrite lookup_insert_eq. simpl.
    rewrite take_app_length' by done. apply take_full. lia.
  - intros d b buf [Hf Hl] Hb Hlen. exists d. simpl. unfold read_block, next_call. rewrite Hf.
    rewrite (proj2 (Z.leb_gt _ _)) by (simpl in Hb; lia).
    rewrite (proj2 (Nat.eqb_eq (length buf) _) Hlen). simpl orb.
    pose proof (contents_len d b Hl) as Hc. rewrite take_ge by lia.
    rewrite (proj2 (Nat.eqb_eq (length (contents d b)) _) Hc), blit_all by lia. done.
  - intros d b data [Hf Hl] Hb Hlen. simpl. unfold write_block, next_call. rewrite Hf.
    rewrite (proj2 (Z.leb_gt _ _)) by (simpl in Hb; lia).
    rewrite (proj2 (Nat.eqb_eq (length data) _) Hlen). simpl orb.
    rewrite take_ge by lia. rewrite (proj2 (Nat.eqb_eq (length data) _) Hlen).
    eexists. split; [done|]. split; [done|]. simpl. apply map_Forall_insert_2; [|done].
    rewrite length_app, length_drop, contents_len by done. lia.
Defined.
