(* ===== verification/BlockCache.v ===== *)
(** * The SRFS block cache

    Model of src/src/lib/srfs-core/src/block_cache.rs: a 16-slot, most recently
    used first cache of device blocks.  The operations return the content of
    the slot they leave on top; a [&mut CachedBlock] is written through with
    [set_top].

    [cache_rep n c V dirty] is the abstract state a client sees: block [b] of
    the [n] blocks reads as [V b], and [dirty] is the block (always the top slot)
    that was modified and not yet written.  Each operation is specified by its
    effect on [V]; [recent] bounds how deep a block can be, which is what makes
    [get], [get_mut] and [write] (which panic on a miss) safe. *)

From stdpp Require Import base numbers list.
From S2P Require Import RustPrelude SrfsLayout BlockDevice.

Open Scope Z_scope.

Definition CACHE_SIZE : nat := 16.

Record CachedBlock : Type := mkCached { cb_no : Z; dirty : bool; cb_block : Block }.

Record BlockCache (D : Type) : Type := mkCache {
  blocks : list CachedBlock;
  block_device : D;
  block_reads : Z;
  block_writes : Z;
}.
Arguments mkCache {D} _ _ _ _.
Arguments blocks {D} _.
Arguments block_device {D} _.
Arguments block_reads {D} _.
Arguments block_writes {D} _.

(** ** List primitives *)

(** [for idx in 0..CACHE_SIZE { if self.blocks[idx].block_no == block_no ..]. *)
Fixpoint find_idx (b : Z) (l : list CachedBlock) : option nat :=
  match l with
  | [] => None
  | e :: l' => if cb_no e =? b then Some O else S <$> find_idx b l'
  end.

(** The slot that loop finds. *)
Fixpoint cached (b : Z) (l : list CachedBlock) : option CachedBlock :=
  match l with
  | [] => None
  | e :: l' => if cb_no e =? b then Some e else cached b l'
  end.

Definition swap {A} (i j : nat) (l : list A) : list A :=
  match l !! i, l !! j with
  | Some x, Some y => <[i := y]> (<[j := x]> l)
  | _, _ => l
  end.

(** [while pos > 0 { swap(pos - 1, pos); pos -= 1 }]. *)
Fixpoint push_top_loop {A} (pos : nat) (l : list A) : list A :=
  match pos with
  | O => l
  | S p => push_top_loop p (swap p (S p) l)
  end.

Section Ops.
Context {D : Type} `{Dev : SyncBlockDevice D}.
Abbreviation cache := (BlockCache D).
Abbreviation M := (eff cache FsError).

Definition BlockCache_new (junk : Block) (d : D) : cache :=
  mkCache (replicate CACHE_SIZE (mkCached U64_MAX false junk)) d 0 0.

Definition set_blocks (l : list CachedBlock) (c : cache) : cache :=
  mkCache l (block_device c) (block_reads c) (block_writes c).

Definition push_top (idx : nat) : M unit := modify (fun c => set_blocks (push_top_loop idx (blocks c)) c).

(** [&self.blocks[0]]. *)
Definition top : M Block :=
  let* c := get_state in
  match blocks c with
  | e :: _ => ret (cb_block e)
  | [] => panic
  end.

(** Writing through [&mut self.blocks[0]]. *)
Definition on_top (f : CachedBlock -> CachedBlock) : M unit :=
  modify (fun c => match blocks c with
                   | e :: l => set_blocks (f e :: l) c
                   | [] => c
                   end).
Definition set_top (b : Block) : M unit := on_top (fun e => mkCached (cb_no e) (dirty e) b).
Definition mark_dirty (v : bool) : M unit := on_top (fun e => mkCached (cb_no e) v (cb_block e)).

Definition last_slot : nat := CACHE_SIZE - 1.

Definition assert_last_clean : M unit :=
  let* c := get_state in
  match blocks c !! last_slot with
  | Some e => assert (negb (dirty e))
  | None => panic
  end.

Definition set_last_no (b : Z) : M unit :=
  modify (fun c => match blocks c !! last_slot with
                   | Some e => set_blocks (<[last_slot := mkCached b (dirty e) (cb_block e)]> (blocks c)) c
                   | None => c
                   end).

(** [self.block_reads += 1; self.block_device.read_block(block_no, last)?]. *)
Definition read_into_last (b : Z) : M unit :=
  fun c => match blocks c !! last_slot with
           | Some e =>
             let '(d', (buf, err)) := dev_read_block (block_device c) b (cb_block e) in
             (mkCache (<[last_slot := mkCached (cb_no e) (dirty e) buf]> (blocks c)) d'
                (u64 (block_reads c + 1)) (block_writes c),
              match err with None => Ok tt | Some x => Err x end)
           | None => (c, Panic)
           end.

Definition load (b : Z) : M unit :=
  assert_last_clean;;;
  set_last_no b;;;
  read_into_last b;;;
  push_top last_slot.

Definition read (b : Z) : M Block :=
  let* c := get_state in
  match find_idx b (blocks c) with
  | Some idx => push_top idx;;; top
  | None => load b;;; top
  end.

Definition read_mut (b : Z) : M Block :=
  let* c := get_state in
  match find_idx b (blocks c) with
  | Some idx => push_top idx;;; mark_dirty true;;; top
  | None => load b;;; mark_dirty true;;; top
  end.

Definition get (b : Z) : M Block :=
  let* c := get_state in
  match find_idx b (blocks c) with
  | Some idx => push_top idx;;; top
  | None => panic
  end.

Definition get_mut (b : Z) : M Block :=
  let* c := get_state in
  match find_idx b (blocks c) with
  | Some idx => push_top idx;;; mark_dirty true;;; top
  | None => panic
  end.

Definition get_block_uninit (b : Z) : M Block :=
  set_last_no b;;;
  assert_last_clean;;;
  push_top last_slot;;;
  mark_dirty true;;;
  top.

(** [self.block_writes += 1; self.block_device.write_block(b, data)?]. *)
Definition dev_write (b : Z) (data : Block) : M unit :=
  fun c => let '(d', err) := dev_write_block (block_device c) b data in
           (mkCache (blocks c) d' (block_reads c) (u64 (block_writes c + 1)),
            match err with None => Ok tt | Some x => Err x end).

Definition write (b : Z) : M unit :=
  let* c := get_state in
  match find_idx b (blocks c) with
  | Some idx =>
    push_top idx;;;
    let* data := top in
    dev_write b data;;;
    mark_dirty false
  | None => panic
  end.

Definition write_uncached_block (b : Z) (data : Block) : M unit := dev_write b data.
End Ops.

#[global] Arguments last_slot : simpl never.
#[global] Arguments push_top_loop : simpl never.

(** ** The list view of the cache *)

Lemma find_idx_cached b l : find_idx b l = None <-> cached b l = None.
Proof.
  induction l as [|e l IH]; simpl; [done|]. destruct (cb_no e =? b); [done|].
  rewrite <- IH. by destruct (find_idx b l).
Qed.

Lemma find_idx_Some b l i :
  find_idx b l = Some i -> exists e, l !! i = Some e /\ cached b l = Some e /\ cb_no e = b.
Proof.
  revert i. induction l as [|e l IH]; intros i; simpl; [done|].
  destruct (cb_no e =? b) eqn:E.
  - intros [= <-]. exists e. apply Z.eqb_eq in E. done.
  - destruct (find_idx b l) as [j|] eqn:Ef; simpl; [|done]. intros [= <-]. by apply IH.
Qed.

Lemma cached_In b l : (exists e, cached b l = Some e) <-> b ∈ cb_no <$> l.
Proof.
  induction l as [|e l IH]; simpl.
  - split; [by intros [? ?]|by intros ?%not_elem_of_nil].
  - rewrite elem_of_cons. destruct (Z.eqb_spec (cb_no e) b) as [E|E].
    + split; eauto.
    + rewrite IH. split; [eauto|]. intros [?|?]; [congruence|done].
Qed.

Lemma cached_no b l e : cached b l = Some e -> cb_no e = b /\ e ∈ l.
Proof.
  induction l as [|x l IH]; simpl; [done|]. destruct (Z.eqb_spec (cb_no x) b).
  - intros [= ->]. split; [done|]. apply elem_of_cons. by left.
  - intros [? ?]%IH. split; [done|]. apply elem_of_cons. by right.
Qed.

Lemma push_top_spec {A} idx (l : list A) e :
  l !! idx = Some e -> push_top_loop idx l = e :: delete idx l.
Proof.
  revert l. induction idx as [|p IH]; intros l Hl.
  - destruct l as [|x l]; [done|]. by simplify_eq/=.
  - change (push_top_loop (S p) l) with (push_top_loop p (swap p (S p) l)).
    assert (Hp : (p < length l)%nat) by (apply lookup_lt_Some in Hl; lia).
    destruct (lookup_lt_is_Some_2 l p Hp) as [x Hx].
    unfold swap. rewrite Hx, Hl. rewrite IH.
    2:{ apply list_lookup_insert_eq. by rewrite length_insert. }
    f_equal. apply list_eq. intros i. apply lookup_lt_Some in Hl.
    destruct (decide (i < p)%nat).
    + rewrite !list_lookup_delete_lt by lia.
      rewrite list_lookup_insert_ne by lia. by rewrite list_lookup_insert_ne by lia.
    + rewrite list_lookup_delete_ge by lia. rewrite list_lookup_insert_ne by lia.
      destruct (decide (i = p)) as [->|].
      * rewrite list_lookup_insert_eq by done. by rewrite list_lookup_delete_lt by lia.
      * rewrite list_lookup_insert_ne by lia. by rewrite list_lookup_delete_ge by lia.
Qed.

Lemma cached_delete b i l e :
  find_idx b l = Some i -> l !! i = Some e ->
  forall b', cached b' (e :: delete i l) = cached b' l.
Proof.
  intros Hf Hl b'. revert i Hf Hl. induction l as [|x l IH]; intros i Hf Hl; [done|].
  simpl in Hf. destruct (Z.eqb_spec (cb_no x) b) as [E|E].
  - simplify_eq/=. done.
  - destruct (find_idx b l) as [j|] eqn:Ej; simplify_eq/=.
    specialize (IH j eq_refl Hl). simpl in IH.
    assert (cb_no e = b) as He.
    { apply find_idx_Some in Ej as (e' & He' & _ & <-). congruence. }
    destruct (Z.eqb_spec (cb_no e) b'), (Z.eqb_spec (cb_no x) b'); congruence.
Qed.

Lemma cached_app b l1 l2 :
  cached b (l1 ++ l2) = match cached b l1 with Some e => Some e | None => cached b l2 end.
Proof. induction l1 as [|x l1 IH]; simpl; [done|]. by destruct (cb_no x =? b). Qed.

(** ** Abstract state *)

Section Spec.
Context {D : Type} {Dev : SyncBlockDevice D} {DL : SyncBlockDeviceLaws D}.
Abbreviation cache := (BlockCache D).

Definition order (c : cache) : list Z := cb_no <$> blocks c.

(** Block numbers the filesystem may pass: not the superblock (which is read
    and written around the cache), not the empty-slot marker. *)
Definition cacheable (b : Z) : Prop := 0 < b < U64_MAX.

Definition view (c : cache) (b : Z) : Block :=
  match cached b (blocks c) with
  | Some e => cb_block e
  | None => dev_contents (block_device c) b
  end.

(** A clean slot holds what the device holds. *)
Definition coherent (l : list CachedBlock) (d : D) : Prop :=
  forall b e, cacheable b -> cached b l = Some e -> dirty e = false -> cb_block e = dev_contents d b.

Definition clean (e : CachedBlock) : Prop := dirty e = false.

Definition dirty_shape (l : list CachedBlock) (dt : option Z) : Prop :=
  match dt with
  | None => Forall clean l
  | Some b => exists e r, l = e :: r /\ cb_no e = b /\ dirty e = true /\ Forall clean r
  end.

Record cache_rep (n : Z) (c : cache) (V : Z -> Block) (dt : option Z) : Prop := {
  cr_len : length (blocks c) = CACHE_SIZE;
  cr_blocks : Forall (fun e => block_ok (cb_block e)) (blocks c);
  cr_num : dev_num_blocks (block_device c) = n;
  cr_healthy : dev_healthy (block_device c);
  cr_view : forall b, cacheable b -> view c b = V b;
  cr_super : dev_contents (block_device c) 0 = V 0;
  cr_coherent : coherent (blocks c) (block_device c);
  cr_dirty : dirty_shape (blocks c) dt;
}.

(** [b] is among the [k] most recently used slots. *)
Definition recent (c : cache) (b : Z) (k : nat) : Prop := b ∈ take k (order c).

(** [c'] is [c] after using block [b]. *)
Definition touched (b : Z) (c c' : cache) : Prop :=
  recent c' b 1 /\ forall b' k, (k < CACHE_SIZE)%nat -> recent c b' k -> recent c' b' (S k).

(** With nothing dirty, the device holds exactly the abstract state. *)
Lemma cache_rep_device n c V b :
  cache_rep n c V None -> cacheable b -> dev_contents (block_device c) b = V b.
Proof.
  intros R Hb. rewrite <- (cr_view _ _ _ _ R b Hb). unfold view.
  destruct (cached b (blocks c)) as [e|] eqn:E; [|done].
  symmetry. apply (cr_coherent _ _ _ _ R b e Hb E).
  pose proof (cr_dirty _ _ _ _ R) as Hd. simpl in Hd. rewrite Forall_forall in Hd.
  apply Hd. by apply (cached_no b).
Qed.

Lemma recent_find c b k : recent c b k -> exists i, find_idx b (blocks c) = Some i.
Proof.
  intros H. unfold recent, order in H.
  destruct (find_idx b (blocks c)) as [i|] eqn:E; [eauto|].
  apply find_idx_cached in E. exfalso.
  assert (exists e, cached b (blocks c) = Some e) as [e He]; [|congruence].
  apply cached_In. apply list_elem_of_lookup in H as [j Hj].
  apply list_elem_of_lookup. exists j. by apply lookup_take_Some in Hj as [? ?].
Qed.

Lemma elem_of_take_delete {A} (x : A) (l : list A) i k y :
  x ∈ take k l -> l !! i = Some y -> x <> y -> x ∈ take k (delete i l).
Proof.
  intros [j Hj]%list_elem_of_lookup Hi Hne. apply lookup_take_Some in Hj as [Hj Hk].
  apply list_elem_of_lookup. destruct (decide (j < i)%nat).
  - exists j. apply lookup_take_Some. by rewrite list_lookup_delete_lt.
  - assert (j <> i) by (intros ->; congruence).
    exists (j - 1)%nat. apply lookup_take_Some. rewrite list_lookup_delete_ge by lia.
    split; [|lia]. by replace (S (j - 1)) with j by lia.
Qed.

Lemma order_push c i e :
  blocks c !! i = Some e ->
  order (set_blocks (push_top_loop i (blocks c)) c) = cb_no e :: delete i (order c).
Proof.
  intros H. unfold order, set_blocks. simpl. rewrite (push_top_spec _ _ e) by done. simpl.
  f_equal. apply list_fmap_delete.
Qed.

Lemma touched_hit b c i :
  find_idx b (blocks c) = Some i ->
  touched b c (set_blocks (push_top_loop i (blocks c)) c).
Proof.
  intros Hf. apply find_idx_Some in Hf as (e & He & _ & Hb).
  assert (Ho : order c !! i = Some (cb_no e)) by (unfold order; by rewrite list_lookup_fmap, He).
  unfold touched, recent. rewrite (order_push _ _ e) by done. rewrite Hb. split.
  - simpl. apply elem_of_cons. by left.
  - intros b' k Hk Hr. simpl. apply elem_of_cons.
    destruct (decide (b' = b)) as [->|Hne]; [by left|]. right.
    apply (elem_of_take_delete _ _ _ _ (cb_no e)); [done|done|congruence].
Qed.

Lemma cache_rep_push n c V i b :
  find_idx b (blocks c) = Some i ->
  cache_rep n c V None -> cache_rep n (set_blocks (push_top_loop i (blocks c)) c) V None.
Proof.
  intros Hf R. destruct (find_idx_Some _ _ _ Hf) as (e & He & Hc & Hb).
  assert (Hp : push_top_loop i (blocks c) = e :: delete i (blocks c)) by (by apply push_top_spec).
  assert (Hperm : e :: delete i (blocks c) ≡ₚ blocks c) by (symmetry; by apply delete_Permutation).
  destruct R as [Hlen Hok Hn Hh Hv Hs Hco Hd]. split; simpl; rewrite ?Hp.
  - rewrite <- Hlen. by apply Permutation_length.
  - by rewrite Hperm.
  - done.
  - done.
  - intros b' Hb'. unfold view. simpl blocks. rewrite (cached_delete b) by done. by apply Hv.
  - done.
  - intros b' e' Hb'. rewrite (cached_delete b) by done. by apply Hco.
  - simpl in *. by rewrite Hperm.
Qed.

(** *** Replacing the last slot *)

Lemma push_last {A} (l : list A) y :
  length l = CACHE_SIZE ->
  push_top_loop last_slot (<[last_slot := y]> l) = y :: take last_slot l.
Proof.
  intros H. rewrite (push_top_spec _ _ y).
  2:{ apply list_lookup_insert_eq. rewrite H. unfold last_slot, CACHE_SIZE. lia. }
  f_equal. apply list_eq. intros i. unfold last_slot, CACHE_SIZE in *. simpl.
  destruct (decide (i < 15)%nat).
  - rewrite list_lookup_delete_lt by lia. rewrite list_lookup_insert_ne by lia.
    by rewrite lookup_take_lt by lia.
  - rewrite list_lookup_delete_ge by lia. rewrite list_lookup_insert_ne by lia.
    rewrite lookup_take_ge by lia. apply lookup_ge_None_2. lia.
Qed.

Lemma cached_take n c V b :
  cache_rep n c V None -> cacheable b ->
  match cached b (take last_slot (blocks c)) with
  | Some e => cached b (blocks c) = Some e
  | None => view c b = dev_contents (block_device c) b
  end.
Proof.
  intros R Hb. rewrite (cr_view _ _ _ _ R b Hb), (cache_rep_device n c V b R Hb).
  destruct (cached b (take last_slot (blocks c))) as [e|] eqn:E; [|done].
  rewrite <- (take_drop last_slot (blocks c)), cached_app, E. done.
Qed.

Lemma view_take n c V b :
  cache_rep n c V None -> cacheable b ->
  match cached b (take last_slot (blocks c)) with
  | Some e => cb_block e
  | None => dev_contents (block_device c) b
  end = V b.
Proof.
  intros R Hb. pose proof (cached_take n c V b R Hb) as H.
  rewrite <- (cr_view _ _ _ _ R b Hb).
  destruct (cached b (take last_slot (blocks c))) eqn:E; [|done].
  unfold view. by rewrite H.
Qed.

Lemma cache_rep_replace n c V b (blk : Block) d' r w dt (v : bool) :
  cache_rep n c V None -> block_ok blk -> dt = (if v then Some b else None) ->
  (v = false -> blk = dev_contents (block_device c) b) ->
  dev_healthy d' -> dev_num_blocks d' = n ->
  (forall x, dev_contents d' x = dev_contents (block_device c) x) ->
  (b = 0 -> blk = V 0) ->
  cache_rep n (mkCache (mkCached b v blk :: take last_slot (blocks c)) d' r w) (fupd V b blk) dt.
Proof.
  intros R Hblk -> Hv Hh Hn Hd H0. pose proof R as [Hlen Hok _ _ Hview Hs Hco Hcl]. split; simpl.
  - rewrite length_take, Hlen. done.
  - constructor; [done|]. by apply Forall_take.
  - done.
  - done.
  - intros b' Hb'. unfold view. simpl.
    destruct (Z.eqb_spec b b') as [->|Hne]; [by rewrite fupd_eq|].
    rewrite fupd_ne by done. rewrite Hd. by apply (view_take n).
  - rewrite Hd, Hs. destruct (decide (b = 0)) as [->|].
    + rewrite fupd_eq. symmetry. by apply H0.
    + by rewrite fupd_ne.
  - intros b' e Hb'. simpl. rewrite Hd. destruct (Z.eqb_spec b b') as [->|Hne].
    + intros [= <-]. simpl. exact Hv.
    + intros Hc Hdt. pose proof (cached_take n c V b' R Hb') as Ht. rewrite Hc in Ht.
      by apply Hco.
  - simpl in Hcl. destruct v; simpl.
    + eexists _, _. split; [done|]. repeat split. by apply Forall_take.
    + constructor; [done|]. by apply Forall_take.
Qed.

Lemma touched_replace b v blk (c : cache) d' r w :
  length (blocks c) = CACHE_SIZE ->
  touched b c (mkCache (mkCached b v blk :: take last_slot (blocks c)) d' r w).
Proof.
  intros Hlen. unfold touched, recent, order. simpl. split; [apply elem_of_cons; by left|].
  intros b' k Hk Hr. apply elem_of_cons. right.
  rewrite fmap_take, take_take. rewrite Nat.min_l; [done|].
  unfold last_slot, CACHE_SIZE in *. lia.
Qed.

Lemma last_slot_full (c : cache) : length (blocks c) = CACHE_SIZE -> exists e, blocks c !! last_slot = Some e.
Proof. intros H. apply lookup_lt_is_Some_2. rewrite H. unfold last_slot, CACHE_SIZE. lia. Qed.

Lemma fupd_id (V : Z -> Block) b blk x : blk = V b -> fupd V b blk x = V x.
Proof. intros ->. unfold fupd. destruct (Z.eqb_spec x b); by subst. Qed.

Lemma cache_rep_ext n c V V' dt : (forall x, V x = V' x) -> cache_rep n c V dt -> cache_rep n c V' dt.
Proof.
  intros E [? ? ? ? Hv Hs ? ?]. split; try done.
  - intros b Hb. rewrite <- E. by apply Hv.
  - by rewrite <- E.
Qed.

Lemma load_spec n c V b :
  cache_rep n c V None -> cacheable b -> b < n ->
  wp (load b) c
    (fun _ c' => exists d' r w,
       c' = mkCache (mkCached b false (V b) :: take last_slot (blocks c)) d' r w /\
       cache_rep n c' V None /\ touched b c c')
    (fun _ _ => False).
Proof.
  intros R Hb Hn. pose proof R as [Hlen Hok Hnum Hh Hview Hs Hco Hcl].
  destruct (last_slot_full c Hlen) as [e He].
  assert (Hce : dirty e = false).
  { simpl in Hcl. rewrite Forall_lookup in Hcl. by apply (Hcl last_slot). }
  assert (Hbe : length (cb_block e) = 4096%nat).
  { rewrite Forall_lookup in Hok. by apply (Hok last_slot). }
  destruct (dev_healthy_read (block_device c) b (cb_block e) Hh) as (d' & Hrd & Hh').
  { unfold cacheable in Hb. rewrite Hnum. lia. }
  { done. }
  pose proof (dev_read_frame _ _ _ _ _ Hrd) as [Hn' Hfr].
  pose proof (dev_read_len _ _ _ _ _ _ Hrd) as Hbl.
  pose proof (cache_rep_device n c V b R Hb) as Hdv.
  unfold load, assert_last_clean, set_last_no, push_top. wp_steps. rewrite He.
  apply wp_assert; [by rewrite Hce|]. wp_steps. rewrite He.
  unfold wp at 1, read_into_last. simpl.
  rewrite list_lookup_insert_eq by (rewrite Hlen; unfold last_slot, CACHE_SIZE; lia).
  simpl. rewrite Hrd. apply wp_modify. unfold set_blocks. simpl blocks. simpl block_device.
  rewrite list_insert_insert_eq, Hce. rewrite push_last by done. rewrite Hdv.
  eexists _, _, _. split; [done|]. split; [|by apply touched_replace].
  eapply cache_rep_ext; [intros x; by apply (fupd_id V b (V b))|].
  apply cache_rep_replace; try done.
  - rewrite Hdv in Hbl. unfold block_ok. by rewrite Hbl.
  - by rewrite Hn'.
  - unfold cacheable in Hb. lia.
Qed.

(** *** Operation specifications *)

Lemma wp_top (c : cache) e r (Q : Block -> cache -> Prop) X :
  blocks c = e :: r -> Q (cb_block e) c -> wp top c Q X.
Proof. intros H HQ. unfold top. wp_steps. by rewrite H. Qed.

Lemma cache_rep_top n c V dt e r :
  cache_rep n c V dt -> blocks c = e :: r -> cacheable (cb_no e) -> cb_block e = V (cb_no e).
Proof.
  intros R H Hb. rewrite <- (cr_view _ _ _ _ R _ Hb). unfold view. rewrite H. simpl.
  by rewrite Z.eqb_refl.
Qed.

Lemma push_top_head b (c : cache) i :
  find_idx b (blocks c) = Some i ->
  exists e r, push_top_loop i (blocks c) = e :: r /\ cb_no e = b.
Proof.
  intros Hf. apply find_idx_Some in Hf as (e & He & _ & Hb).
  rewrite (push_top_spec _ _ e) by done. eauto.
Qed.

Lemma read_spec n c V b :
  cache_rep n c V None -> cacheable b -> b < n ->
  wp (read b) c (fun blk c' => blk = V b /\ cache_rep n c' V None /\ touched b c c')
    (fun _ _ => False).
Proof.
  intros R Hb Hn. unfold read. wp_steps. destruct (find_idx b (blocks c)) as [i|] eqn:Hf.
  - unfold push_top. wp_steps.
    pose proof (cache_rep_push n c V i b Hf R) as R'.
    destruct (push_top_head b c i Hf) as (e & r & Hp & He).
    eapply wp_top; [exact Hp|]. split; [|split; [done|by apply touched_hit]].
    rewrite <- He. eapply cache_rep_top; [exact R'|done|by rewrite He].
  - wp_steps. eapply wp_mono; [by apply load_spec| |done].
    intros [] c' (d' & r & w & -> & R' & Ht). eapply wp_top; [done|]. done.
Qed.

Lemma get_spec n c V b :
  cache_rep n c V None -> cacheable b -> recent c b CACHE_SIZE ->
  wp (get b) c (fun blk c' => blk = V b /\ cache_rep n c' V None /\ touched b c c')
    (fun _ _ => False).
Proof.
  intros R Hb [i Hf]%recent_find. unfold get. wp_steps. rewrite Hf.
  unfold push_top. wp_steps.
  pose proof (cache_rep_push n c V i b Hf R) as R'.
  destruct (push_top_head b c i Hf) as (e & r & Hp & He).
  eapply wp_top; [exact Hp|]. split; [|split; [done|by apply touched_hit]].
  rewrite <- He. eapply cache_rep_top; [exact R'|done|by rewrite He].
Qed.

Lemma cache_rep_mark n c V dt e r :
  cache_rep n c V dt -> blocks c = e :: r -> Forall clean r ->
  cache_rep n (set_blocks (mkCached (cb_no e) true (cb_block e) :: r) c) V (Some (cb_no e)).
Proof.
  intros [Hlen Hok Hn Hh Hv Hs Hco Hd] Hl Hr. rewrite Hl in *.
  split; simpl; try done.
  - apply Forall_cons in Hok as [H1 H2]. by constructor.
  - intros b Hb. rewrite <- Hv by done. unfold view. rewrite Hl. simpl.
    by destruct (cb_no e =? b).
  - intros b x Hb. simpl. destruct (cb_no e =? b) eqn:E.
    + by intros [= <-].
    + intros Hc. apply Hco; [done|]. simpl. by rewrite E.
  - eexists _, _. done.
Qed.

Lemma touched_mark b (c c' : cache) e r v :
  touched b c c' -> blocks c' = e :: r ->
  touched b c (set_blocks (mkCached (cb_no e) v (cb_block e) :: r) c').
Proof.
  intros Ht Hl. unfold touched, recent, order in *. by rewrite Hl in Ht.
Qed.

Lemma mark_top_spec n b c c' e r V :
  cache_rep n c' V None -> blocks c' = e :: r -> cb_no e = b -> cacheable b -> touched b c c' ->
  wp (let* _ := mark_dirty true in top) c'
    (fun blk c'' => blk = V b /\ cache_rep n c'' V (Some b) /\ touched b c c'')
    (fun _ _ => False).
Proof.
  intros R Hl He Hb Ht. pose proof (cr_dirty _ _ _ _ R) as Hd. simpl in Hd. rewrite Hl in Hd.
  apply Forall_cons in Hd as [_ Hr].
  unfold mark_dirty, on_top. wp_steps. rewrite Hl.
  eapply wp_top; [done|]. split; [|split].
  - simpl. rewrite <- He. eapply cache_rep_top; [exact R|done|by rewrite He].
  - rewrite <- He. by eapply cache_rep_mark.
  - by apply touched_mark.
Qed.

Lemma read_mut_spec n c V b :
  cache_rep n c V None -> cacheable b -> b < n ->
  wp (read_mut b) c (fun blk c' => blk = V b /\ cache_rep n c' V (Some b) /\ touched b c c')
    (fun _ _ => False).
Proof.
  intros R Hb Hn. unfold read_mut. wp_steps. destruct (find_idx b (blocks c)) as [i|] eqn:Hf.
  - unfold push_top. wp_step. wp_step.
    destruct (push_top_head b c i Hf) as (e & r & Hp & He).
    eapply mark_top_spec; [by apply (cache_rep_push n c V i b)|exact Hp|done|done|by apply touched_hit].
  - wp_step. eapply wp_mono; [by apply load_spec| |done].
    intros [] c' (d' & r & w & -> & R' & Ht). eapply mark_top_spec; done.
Qed.

Lemma get_mut_spec n c V b :
  cache_rep n c V None -> cacheable b -> recent c b CACHE_SIZE ->
  wp (get_mut b) c (fun blk c' => blk = V b /\ cache_rep n c' V (Some b) /\ touched b c c')
    (fun _ _ => False).
Proof.
  intros R Hb [i Hf]%recent_find. unfold get_mut. wp_step. wp_step. rewrite Hf.
  unfold push_top. wp_step. wp_step.
  destruct (push_top_head b c i Hf) as (e & r & Hp & He).
  eapply mark_top_spec; [by apply (cache_rep_push n c V i b)|exact Hp|done|done|by apply touched_hit].
Qed.

(** Taking the dirty block again. *)
Lemma get_mut_again n c V b :
  cache_rep n c V (Some b) -> cacheable b ->
  wp (get_mut b) c (fun blk c' => blk = V b /\ c' = c) (fun _ _ => False).
Proof.
  intros R Hb. pose proof (cr_dirty _ _ _ _ R) as (e & r & Hl & He & Hdt & Hr).
  unfold get_mut. wp_step. wp_step. rewrite Hl. simpl. rewrite He, Z.eqb_refl.
  unfold push_top, mark_dirty, on_top. wp_steps. rewrite Hl.
  unfold push_top_loop, set_blocks. simpl.
  eapply wp_top; [done|]. simpl. split.
  - rewrite <- He. eapply cache_rep_top; [exact R|done|by rewrite He].
  - destruct c as [l d rr w]. simpl in *. rewrite Hl. f_equal. f_equal.
    destruct e. simpl in *. by subst.
Qed.

Lemma get_block_uninit_spec n c V b :
  cache_rep n c V None -> cacheable b ->
  wp (get_block_uninit b) c
    (fun junk c' => block_ok junk /\ cache_rep n c' (fupd V b junk) (Some b) /\ touched b c c')
    (fun _ _ => False).
Proof.
  intros R Hb. pose proof R as [Hlen Hok Hnum Hh Hview Hs Hco Hcl].
  destruct (last_slot_full c Hlen) as [e He].
  assert (Hce : dirty e = false).
  { simpl in Hcl. rewrite Forall_lookup in Hcl. by apply (Hcl last_slot). }
  assert (Hbe : block_ok (cb_block e)).
  { rewrite Forall_lookup in Hok. by apply (Hok last_slot). }
  unfold get_block_uninit, set_last_no, assert_last_clean, push_top, mark_dirty, on_top.
  wp_steps. rewrite He. simpl.
  rewrite list_lookup_insert_eq by (rewrite Hlen; unfold last_slot, CACHE_SIZE; lia).
  apply wp_assert; [simpl; by rewrite Hce|]. wp_steps.
  unfold set_blocks. simpl blocks. rewrite push_last by done. simpl.
  eapply wp_top; [done|]. simpl. split; [done|]. split; [|by apply touched_replace].
  apply cache_rep_replace; try done. unfold cacheable in Hb. lia.
Qed.

Lemma set_top_spec n c V b blk :
  cache_rep n c V (Some b) -> cacheable b -> block_ok blk ->
  wp (set_top blk) c
    (fun _ c' => cache_rep n c' (fupd V b blk) (Some b) /\ order c' = order c)
    (fun _ _ => False).
Proof.
  intros [Hlen Hok Hn Hh Hv Hs Hco Hd] Hb Hblk.
  simpl in Hd. destruct Hd as (e & r & Hl & He & Hdt & Hr).
  unfold set_top, on_top. apply wp_modify. rewrite Hl. split.
  2:{ unfold order. rewrite Hl. done. }
  rewrite Hl in *. split; simpl; try done.
  - apply Forall_cons in Hok as [H1 H2]. by constructor.
  - intros x Hx. unfold view. simpl. rewrite He. destruct (Z.eqb_spec b x) as [->|Hne].
    + by rewrite fupd_eq.
    + rewrite fupd_ne by done. rewrite <- Hv by done. unfold view. rewrite Hl. simpl.
      rewrite He. by rewrite (proj2 (Z.eqb_neq _ _)).
  - rewrite fupd_ne; [done|]. unfold cacheable in Hb. lia.
  - intros x y Hx. simpl. destruct (cb_no e =? x) eqn:E.
    + intros [= <-]. simpl. rewrite Hdt. done.
    + intros Hc. apply Hco; [done|]. simpl. by rewrite E.
  - eexists _, _. done.
Qed.

Lemma write_spec n c V b :
  cache_rep n c V (Some b) -> cacheable b -> b < n ->
  wp (write b) c
    (fun _ c' => cache_rep n c' V None /\ order c' = order c)
    (fun _ _ => False).
Proof.
  intros R Hb Hbn. pose proof R as [Hlen Hok Hn Hh Hv Hs Hco Hd].
  simpl in Hd. destruct Hd as (e & r & Hl & He & Hdt & Hr).
  assert (Hbe : block_ok (cb_block e)) by (rewrite Hl in Hok; by apply Forall_cons in Hok as [? ?]).
  unfold write. wp_step. wp_step. rewrite Hl. simpl. rewrite He, Z.eqb_refl.
  unfold push_top. wp_steps. eapply wp_top; [by rewrite Hl|].
  destruct (dev_healthy_write (block_device c) b (cb_block e) Hh) as (d' & Hw & Hh').
  { unfold cacheable in Hb. lia. }
  { done. }
  pose proof (dev_write_frame _ _ _ _ _ Hw) as [Hn' Hfr].
  pose proof (dev_write_ok _ _ _ _ Hw) as Hok'.
  wp_step. unfold wp at 1, dev_write. simpl. rewrite Hw.
  unfold mark_dirty, on_top. apply wp_modify. unfold push_top_loop. simpl. rewrite Hl. split.
  2:{ unfold order. rewrite Hl. done. }
  unfold set_blocks. simpl. rewrite Hl in *. split; simpl; try done.
  - apply Forall_cons in Hok as [H1 H2]. by constructor.
  - by rewrite Hn'.
  - intros x Hx. rewrite <- Hv by done. unfold view. rewrite Hl. simpl. rewrite He.
    destruct (Z.eqb_spec b x); [done|]. by rewrite Hfr.
  - rewrite Hfr; [done|]. unfold cacheable in Hb. lia.
  - intros x y Hx. simpl. rewrite He. destruct (Z.eqb_spec b x) as [->|Hne].
    + intros [= <-] _. simpl. by rewrite Hok'.
    + intros Hc Hy. rewrite Hfr by done. apply Hco; [done| |done]. simpl.
      rewrite He. by rewrite (proj2 (Z.eqb_neq _ _)).
  - by constructor.
Qed.

Lemma write_uncached_spec n c V dt data :
  cache_rep n c V dt -> 0 < n -> block_ok data ->
  wp (write_uncached_block 0 data) c
    (fun _ c' => cache_rep n c' (fupd V 0 data) dt /\ order c' = order c)
    (fun _ _ => False).
Proof.
  intros [Hlen Hok Hn Hh Hv Hs Hco Hd] Hpos Hdata.
  destruct (dev_healthy_write (block_device c) 0 data Hh) as (d' & Hw & Hh').
  { lia. }
  { done. }
  pose proof (dev_write_frame _ _ _ _ _ Hw) as [Hn' Hfr].
  pose proof (dev_write_ok _ _ _ _ Hw) as Hok'.
  unfold wp, write_uncached_block, dev_write. simpl. rewrite Hw. split; [|done].
  split; simpl; try done.
  - by rewrite Hn'.
  - intros x Hx. assert (x <> 0) by (unfold cacheable in Hx; lia).
    rewrite fupd_ne by done. rewrite <- Hv by done. unfold view. simpl.
    destruct (cached x (blocks c)); [done|]. by rewrite Hfr.
  - intros x y Hx Hc Hy. assert (x <> 0) by (unfold cacheable in Hx; lia).
    rewrite Hfr by done. by apply Hco.
Qed.

(** A new cache over a device. *)
Lemma cached_replicate n b x : cb_no x <> b -> cached b (replicate n x) = None.
Proof. intros H. induction n; simpl; [done|]. by rewrite (proj2 (Z.eqb_neq _ _)). Qed.

Lemma BlockCache_new_rep (d : D) junk :
  dev_healthy d -> block_ok junk ->
  cache_rep (dev_num_blocks d) (BlockCache_new junk d) (dev_contents d) None.
Proof.
  intros Hh Hu.
  assert (Hnone : forall b, cacheable b ->
            cached b (blocks (BlockCache_new junk d)) = None).
  { intros b Hb. apply cached_replicate. simpl. unfold cacheable in Hb. lia. }
  split; try done.
  - by apply Forall_replicate.
  - intros b Hb. unfold view. by rewrite Hnone.
  - intros b e Hb. by rewrite Hnone.
  - by apply Forall_replicate.
Qed.
End Spec.
