(* ===== verification/CacheProps.v ===== *)
(** * Properties of the block cache

    The cache is write-through with a least-recently-used order of 16 slots: any
    sequence of reads and updates gives what the bare device would give, and a
    block stays cached while fewer than 16 others are used. *)

From stdpp Require Import base numbers list gmap.
From S2P Require Import RustPrelude SrfsLayout BlockDevice BlockCache.

Open Scope Z_scope.

(** What a client does with the cache: it reads a block, changes what it reads in place, or overwrites it. *)
Inductive cache_op : Type :=
| CRead (b : Z)
| CUpdate (b : Z) (change : Block -> Block)
| COverwrite (b : Z) (blk : Block).

Definition op_block (o : cache_op) : Z :=
  match o with CRead b => b | CUpdate b _ => b | COverwrite b _ => b end.

Definition op_ok (n : Z) (o : cache_op) : Prop :=
  cacheable (op_block o) /\ op_block o < n /\
  match o with
  | CRead _ => True
  | CUpdate _ change => forall blk, block_ok blk -> block_ok (change blk)
  | COverwrite _ blk => block_ok blk
  end.

Lemma find_idx_insert b i e l :
  find_idx b l = None -> (i < length l)%nat -> cb_no e = b -> find_idx b (<[i := e]> l) = Some i.
Proof.
  intros Hn Hi He. revert i Hi. induction l as [|x l IH]; intros i Hi; simpl in *; [lia|].
  destruct (Z.eqb_spec (cb_no x) b) as [|Hx]; [done|]. destruct (find_idx b l); [done|].
  destruct i as [|i]; simpl.
  - by rewrite (proj2 (Z.eqb_eq _ _) He).
  - rewrite (proj2 (Z.eqb_neq _ _) Hx). rewrite (IH eq_refl i) by lia. done.
Qed.

Section Props.
Context {D : Type} {Dev : SyncBlockDevice D} {DL : SyncBlockDeviceLaws D}.
Abbreviation cache := (BlockCache D).
Abbreviation M := (eff cache FsError).

(** [read]; [read_mut], a change of the block it returns and [write]; [get_block_uninit] and [write]. *)
Definition run_op (o : cache_op) : M (option Block) :=
  match o with
  | CRead b => let* blk := BlockCache.read b in ret (Some blk)
  | CUpdate b change =>
    let* blk := BlockCache.read_mut b in
    BlockCache.set_top (change blk);;; BlockCache.write b;;; ret (Some blk)
  | COverwrite b blk => let* _ := BlockCache.get_block_uninit b in BlockCache.set_top blk;;; BlockCache.write b;;; ret None
  end.

Fixpoint run_ops (l : list cache_op) : M (list (option Block)) :=
  match l with
  | [] => ret []
  | o :: l' => let* r := run_op o in let* rs := run_ops l' in ret (r :: rs)
  end.

(** The same on a plain array of blocks. *)
Definition abs_op (o : cache_op) (V : Z -> Block) : (Z -> Block) * option Block :=
  match o with
  | CRead b => (V, Some (V b))
  | CUpdate b change => (fupd V b (change (V b)), Some (V b))
  | COverwrite b blk => (fupd V b blk, None)
  end.

Fixpoint abs_ops (l : list cache_op) (V : Z -> Block) : (Z -> Block) * list (option Block) :=
  match l with
  | [] => (V, [])
  | o :: l' => let '(V1, r) := abs_op o V in let '(V2, rs) := abs_ops l' V1 in (V2, r :: rs)
  end.

Lemma touched_order b (c c1 c2 : cache) : touched b c c1 -> order c2 = order c1 -> touched b c c2.
Proof. intros [H1 H2] E. unfold touched, recent in *. rewrite E. done. Qed.

(** The block that is being changed is a whole block. *)
Lemma dirty_block_ok n c V b : cache_rep n c V (Some b) -> cacheable b -> block_ok (V b).
Proof.
  intros R Hb. rewrite <- (cr_view _ _ _ _ R b Hb). unfold view. destruct (cr_dirty _ _ _ _ R) as (e & r & El & En & _).
  pose proof (cr_blocks _ _ _ _ R) as F. rewrite El in *. cbn [cached]. rewrite (proj2 (Z.eqb_eq _ _) En). by inversion F.
Qed.

Lemma run_op_rep n c V o :
  cache_rep n c V None -> op_ok n o ->
  wp (run_op o) c (fun r c' => r = (abs_op o V).2 /\ cache_rep n c' (abs_op o V).1 None /\ touched (op_block o) c c')
    (fun _ _ => False).
Proof.
  intros R (Hc & Hn & Ho). destruct o as [b|b change|b blk]; simpl in *.
  - apply wp_bind. eapply wp_mono; [by apply (read_spec n)| |done]. intros r c' (-> & R' & Ht). apply wp_ret. done.
  - apply wp_bind. eapply wp_mono; [by apply (read_mut_spec n)| |done]. intros r c1 (-> & R1 & Ht1).
    apply wp_bind. eapply wp_mono; [apply (set_top_spec n c1 V b); [done|done|by eapply Ho, dirty_block_ok]| |done]. intros _ c2 (R2 & E2).
    apply wp_bind. eapply wp_mono; [by apply (write_spec n)| |done]. intros _ c3 (R3 & E3). apply wp_ret.
    split; [done|]. split; [done|]. by apply (touched_order b c c1); [|congruence].
  - apply wp_bind. eapply wp_mono; [by apply (get_block_uninit_spec n)| |done]. intros r c1 (_ & R1 & Ht1).
    apply wp_bind. eapply wp_mono; [by apply (set_top_spec n c1 (fupd V b r) b)| |done]. intros _ c2 (R2 & E2).
    apply wp_bind. eapply wp_mono; [by apply (write_spec n)| |done]. intros _ c3 (R3 & E3). apply wp_ret.
    split; [done|]. split; [|by apply (touched_order b c c1); [|congruence]].
    eapply cache_rep_ext; [|exact R3]. intros x. unfold fupd. by destruct (x =? b).
Qed.

Lemma run_ops_rep n l c V :
  cache_rep n c V None -> Forall (op_ok n) l ->
  wp (run_ops l) c (fun r c' => r = (abs_ops l V).2 /\ cache_rep n c' (abs_ops l V).1 None /\
      forall b k, (k + length l <= CACHE_SIZE)%nat -> recent c b k -> recent c' b (k + length l))
    (fun _ _ => False).
Proof.
  revert c V. induction l as [|o l IH]; intros c V R F; simpl.
  - apply wp_ret. split; [done|]. split; [done|]. intros b k _ H. by rewrite Nat.add_0_r.
  - inversion F as [|? ? Ho F']; subst. apply wp_bind. eapply wp_mono; [by apply (run_op_rep n)| |done].
    intros r c1 (Er & R1 & [_ Ht]). apply wp_bind. eapply wp_mono; [by apply (IH c1)| |done].
    intros rs c2 (Ers & R2 & Hk). apply wp_ret. destruct (abs_op o V) as [V1 r1]. simpl in *.
    destruct (abs_ops l V1) as [V2 rs1]. simpl in *. split; [congruence|]. split; [done|].
    intros b k Hle Hr. rewrite <- Nat.add_succ_comm. apply Hk; [lia|]. apply Ht; [lia|done].
Qed.

(** C11: any sequence of reads, updates ([read_mut], a change that depends on the
    block it returns, [write]) and overwrites ([get_block_uninit], fill, [write])
    of cacheable blocks on a healthy device succeeds, returns what an array of
    blocks would, and leaves the device holding exactly that array. *)
Theorem cache_refines_device n c V l :
  cache_rep n c V None -> Forall (op_ok n) l ->
  exists c', run_ops l c = (c', Ok (abs_ops l V).2) /\
    forall b, cacheable b -> dev_contents (block_device c') b = (abs_ops l V).1 b.
Proof.
  intros R F. destruct (wp_run _ _ _ (run_ops_rep n l c V R F)) as (rs & c' & E & -> & R' & _).
  exists c'. split; [done|]. intros b Hb. by apply (cache_rep_device n).
Qed.

(** after [read b], [get b] does not panic as long as at most 15 blocks
    were used in between, and returns the current content of [b]: the filesystem
    relies on this each time it calls [get] or [get_mut]. *)
Theorem lru_keeps_block n c V b l :
  cache_rep n c V None -> cacheable b -> b < n -> Forall (op_ok n) l -> (length l <= 15)%nat ->
  exists c1 c2 c3 rs, BlockCache.read b c = (c1, Ok (V b)) /\ run_ops l c1 = (c2, Ok rs) /\
    BlockCache.get b c2 = (c3, Ok ((abs_ops l V).1 b)).
Proof.
  intros R Hb Hn F Hl.
  destruct (wp_run _ _ _ (read_spec n c V b R Hb Hn)) as (blk & c1 & E1 & -> & R1 & [Ht _]).
  destruct (wp_run _ _ _ (run_ops_rep n l c1 V R1 F)) as (rs & c2 & E2 & _ & R2 & Hk).
  assert (Hr : recent c2 b CACHE_SIZE).
  { specialize (Hk b 1%nat ltac:(unfold CACHE_SIZE; lia) Ht). unfold recent in *.
    apply list_elem_of_lookup in Hk as [j Hj]. apply lookup_take_Some in Hj as [Hj Hlt].
    apply list_elem_of_lookup. exists j. apply lookup_take_Some. unfold CACHE_SIZE. split; [done|lia]. }
  destruct (wp_run _ _ _ (get_spec n c2 _ b R2 Hb Hr)) as (blk & c3 & E3 & -> & _).
  by exists c1, c2, c3, rs.
Qed.

(** A failed device read leaves the wanted block number on the slot it
    was to fill, so the next read of that block succeeds without touching the
    device and returns whatever the slot holds. *)
Theorem failed_read_is_served_stale (c : cache) b e d' buf x :
  length (blocks c) = CACHE_SIZE -> cached b (blocks c) = None -> blocks c !! last_slot = Some e -> dirty e = false ->
  dev_read_block (block_device c) b (cb_block e) = (d', (buf, Some x)) ->
  exists c1 c2, BlockCache.read b c = (c1, Err x) /\ BlockCache.read b c1 = (c2, Ok buf) /\
    block_device c2 = block_device c1 /\ block_reads c2 = block_reads c1.
Proof.
  intros Hlen Hno He Hd Hr. apply find_idx_cached in Hno as Hf.
  assert (Hsl : (last_slot < length (blocks c))%nat) by (by eapply lookup_lt_Some).
  set (c1 := mkCache (<[last_slot := mkCached b false buf]> (blocks c)) d' (u64 (block_reads c + 1)) (block_writes c)).
  assert (E1 : BlockCache.read b c = (c1, Err x)).
  { unfold BlockCache.read, load, assert_last_clean, set_last_no, read_into_last, bind, get_state, modify, assert.
    rewrite Hf, He, Hd. simpl. rewrite He, Hd. simpl. rewrite list_lookup_insert_eq by done. simpl. rewrite Hr. unfold c1.
    by rewrite list_insert_insert_eq. }
  assert (Hfi : find_idx b (blocks c1) = Some last_slot).
  { by apply find_idx_insert. }
  eexists c1, _. split; [exact E1|]. unfold BlockCache.read, push_top, top, bind, get_state, modify, set_blocks.
  rewrite Hfi. simpl. rewrite (push_top_spec last_slot _ (mkCached b false buf)) by (by apply list_lookup_insert_eq).
  simpl. done.
Qed.
End Props.

(** Instances: a file of 8 blocks. *)
Module CacheSample.
Definition junk : Block := Block_new_zeroed.
Definition ones : Block := replicate 4096 Byte.x01.
Definition dev : FileBlockDevice.t := FileBlockDevice.create 8.
Definition start : BlockCache FileBlockDevice.t := BlockCache_new junk dev.

Lemma start_rep : cache_rep 8 start (dev_contents dev) None.
Proof.
  change 8 with (dev_num_blocks dev). apply BlockCache_new_rep; [|apply length_replicate].
  split; [done|]. apply map_Forall_empty.
Qed.

(** The first byte is cleared. *)
Definition clear_first (blk : Block) : Block := Byte.x00 :: drop 1 blk.
Definition sample_ops : list cache_op := [COverwrite 3 ones; CUpdate 3 clear_first; CRead 3].

Lemma ops_ok : Forall (op_ok 8) sample_ops.
Proof.
  assert (H : block_ok ones) by apply length_replicate.
  assert (H' : forall blk, block_ok blk -> block_ok (clear_first blk)).
  { intros blk. unfold block_ok, clear_first. cbn [length]. rewrite length_drop. lia. }
  repeat (apply List.Forall_cons; [split; [unfold cacheable, U64_MAX; simpl; lia|split; [simpl; lia|done]]|]). done.
Qed.

Lemma cache_refines_device_witness :
  exists c', run_ops sample_ops start = (c', Ok [None; Some ones; Some (clear_first ones)]) /\
    dev_contents (block_device c') 3 = clear_first ones.
Proof.
  destruct (cache_refines_device 8 start (dev_contents dev) sample_ops start_rep ops_ok) as (c' & E & H).
  exists c'. cbn [abs_ops abs_op sample_ops fst snd] in E, H. rewrite !fupd_eq in E. split; [exact E|].
  rewrite H by (unfold cacheable, U64_MAX; lia). by rewrite !fupd_eq.
Defined.

Lemma lru_keeps_block_witness :
  exists c1 c2 c3 rs, BlockCache.read 3 start = (c1, Ok (dev_contents dev 3)) /\
    run_ops sample_ops c1 = (c2, Ok rs) /\ BlockCache.get 3 c2 = (c3, Ok (clear_first ones)).
Proof.
  destruct (lru_keeps_block 8 start (dev_contents dev) 3 sample_ops start_rep) as (c1 & c2 & c3 & rs & E1 & E2 & E3);
    [unfold cacheable, U64_MAX; lia|lia|apply ops_ok|simpl; lia|].
  exists c1, c2, c3, rs. split; [exact E1|]. split; [exact E2|]. cbn [abs_ops abs_op sample_ops fst snd] in E3.
  by rewrite !fupd_eq in E3.
Defined.

(** The first transfer fails. *)
Definition faulty : BlockCache FileBlockDevice.t :=
  BlockCache_new ones (FileBlockDevice.mk ∅ 8 [None]).

Lemma failed_read_is_served_stale_witness :
  exists c1 c2, BlockCache.read 3 faulty = (c1, Err IoError) /\ BlockCache.read 3 c1 = (c2, Ok ones) /\
    block_device c2 = block_device c1 /\ block_reads c2 = block_reads c1.
Proof.
  apply (failed_read_is_served_stale faulty 3 (mkCached U64_MAX false ones) (FileBlockDevice.mk ∅ 8 []) ones IoError);
    try reflexivity.
Defined.
End CacheSample.
