(* ===== verification/SrfsFs.v ===== *)
(** * The SRFS filesystem

    Model of src/src/lib/srfs-core/src/fs_sync.rs: [SyncFileSystem], its
    superblock transactions and block allocator, directories (entries in the
    metadata block, in data blocks, in data blocks listed by link blocks) and
    files (bytes in the metadata block, in data blocks, one and two levels of
    link blocks).

    Every method is an [eff] program over the whole filesystem object; a Rust
    [Err] keeps the changes made so far, a failed [assert!], [unwrap] or
    [todo!] is [Panic].  The clock ([Timestamp::now]) and the content of
    uninitialised buffers are parameters. *)

From stdpp Require Import base numbers list.
From S2P Require Import RustPrelude Crc32 SrfsLayout BlockDevice BlockCache.

Open Scope Z_scope.

Class Clock : Type := now : Timestamp.
Class Uninit : Type := uninit_block : Block.

Inductive BlockType : Type := Metadata | Data | Links | ListOfLinks.

Record SyncFileSystem (D : Type) : Type := mkFs {
  superblock : Superblock;
  blockcache : BlockCache D;
  num_blocks : Z;
  fs_error : option FsError;
}.
Arguments mkFs {D} _ _ _ _.
Arguments superblock {D} _.
Arguments blockcache {D} _.
Arguments num_blocks {D} _.
Arguments fs_error {D} _.

(** ** Header field updates *)

Definition upd_free (v : Z) (h : SuperblockHeader) : SuperblockHeader :=
  mkSb (magic h) (version h) (sb_num_blocks h) v (sb_generation h) (freelist_head h)
    (empty_area_start h) (txn_meta_block h) (txn_data_block h) (txn_link_block h)
    (txn_list_of_links_block h) (txn_blocks_owner h) (txn_type h) (sb_crc32 h).
Definition upd_generation (v : Z) (h : SuperblockHeader) : SuperblockHeader :=
  mkSb (magic h) (version h) (sb_num_blocks h) (free_blocks h) v (freelist_head h)
    (empty_area_start h) (txn_meta_block h) (txn_data_block h) (txn_link_block h)
    (txn_list_of_links_block h) (txn_blocks_owner h) (txn_type h) (sb_crc32 h).
Definition upd_freelist (v : Z) (h : SuperblockHeader) : SuperblockHeader :=
  mkSb (magic h) (version h) (sb_num_blocks h) (free_blocks h) (sb_generation h) v
    (empty_area_start h) (txn_meta_block h) (txn_data_block h) (txn_link_block h)
    (txn_list_of_links_block h) (txn_blocks_owner h) (txn_type h) (sb_crc32 h).
Definition upd_empty (v : Z) (h : SuperblockHeader) : SuperblockHeader :=
  mkSb (magic h) (version h) (sb_num_blocks h) (free_blocks h) (sb_generation h)
    (freelist_head h) v (txn_meta_block h) (txn_data_block h) (txn_link_block h)
    (txn_list_of_links_block h) (txn_blocks_owner h) (txn_type h) (sb_crc32 h).
Definition upd_txn (owner ty : Z) (h : SuperblockHeader) : SuperblockHeader :=
  mkSb (magic h) (version h) (sb_num_blocks h) (free_blocks h) (sb_generation h)
    (freelist_head h) (empty_area_start h) (txn_meta_block h) (txn_data_block h)
    (txn_link_block h) (txn_list_of_links_block h) owner ty (sb_crc32 h).

(** [header.txn_<type>_block] and its assignment. *)
Definition txn_block (t : BlockType) (h : SuperblockHeader) : Z :=
  match t with
  | Metadata => txn_meta_block h
  | Data => txn_data_block h
  | Links => txn_link_block h
  | ListOfLinks => txn_list_of_links_block h
  end.

Definition upd_txn_block (t : BlockType) (v : Z) (h : SuperblockHeader) : SuperblockHeader :=
  let m := match t with Metadata => v | _ => txn_meta_block h end in
  let d := match t with Data => v | _ => txn_data_block h end in
  let l := match t with Links => v | _ => txn_link_block h end in
  let ll := match t with ListOfLinks => v | _ => txn_list_of_links_block h end in
  mkSb (magic h) (version h) (sb_num_blocks h) (free_blocks h) (sb_generation h)
    (freelist_head h) (empty_area_start h) m d l ll (txn_blocks_owner h) (txn_type h) (sb_crc32 h).

(** ** Pure helpers for block edits *)

(** [for idx in idx..idx+n { body(idx, block) }]. *)
Fixpoint edit_range (n : nat) (idx : Z) (body : Z -> Block -> result FsError Block) (b : Block)
  : result FsError Block :=
  match n with
  | O => Ok b
  | S n' =>
    match body idx b with
    | Ok b' => edit_range n' (idx + 1) body b'
    | Err e => Err e
    | Panic => Panic
    end
  end.

(** Metadata with a new size and checksum. *)
Definition resize `{Crc : Crc32} (v : Z) (b : Block) : Block :=
  put_meta (meta_set_crc32 (set_size v (get_meta b))) b.

(** [*dst.get_dir_entry_mut(idx + dst_shift) = *src.get_dir_entry(idx + src_shift)]. *)
Definition copy_entry (src : Block) (src_shift dst_shift : Z) (idx : Z) (dst : Block)
  : result FsError Block :=
  match get_dir_entry src (idx + src_shift) with
  | Ok e => put_dir_entry dst (idx + dst_shift) e
  | Err e => Err e
  | Panic => Panic
  end.

(** [link.set_datablock_no_in_link(idx, meta.get_datablock_no_in_meta(idx))]. *)
Definition copy_link_out (meta : Block) (idx : Z) (link : Block) : result FsError Block :=
  match get_datablock_no_in_meta meta idx with
  | Ok v => set_datablock_no_in_link link idx v
  | Err e => Err e
  | Panic => Panic
  end.

(** [meta.set_datablock_no_in_meta(idx, link.get_datablock_no_in_link(idx))]. *)
Definition copy_link_in (link : Block) (idx : Z) (meta : Block) : result FsError Block :=
  match get_datablock_no_in_link link idx with
  | Ok v => set_datablock_no_in_meta meta idx v
  | Err e => Err e
  | Panic => Panic
  end.

(** [for pos in pos..15 { if pred(entry) { return Some(pos) } curr += 1;
    if curr >= num_entries { break } }]: the position found and [curr]. *)
Fixpoint scan_entries (n : nat) (pred : DirEntryInternal -> bool) (b : Block) (pos curr num : Z)
  : result FsError (option Z * Z) :=
  match n with
  | O => Ok (None, curr)
  | S n' =>
    match get_dir_entry b pos with
    | Ok e =>
      if pred e then Ok (Some pos, curr)
      else if num <=? curr + 1 then Ok (None, curr + 1)
      else scan_entries n' pred b (pos + 1) (curr + 1) num
    | Err x => Err x
    | Panic => Panic
    end
  end.

(** [for pos in pos..num { let entry = get_dir_entry(pos + 1); if pred(entry)
    { return pos + 1 } }]. *)
Fixpoint scan_meta (n : nat) (pred : DirEntryInternal -> bool) (b : Block) (pos : Z)
  : result FsError (option Z) :=
  match n with
  | O => Ok None
  | S n' =>
    match get_dir_entry b (pos + 1) with
    | Ok e => if pred e then Ok (Some (pos + 1)) else scan_meta n' pred b (pos + 1)
    | Err x => Err x
    | Panic => Panic
    end
  end.

Definition pred_by_id (id : EntryId) (e : DirEntryInternal) : bool := bool_decide (de_id e = id).

Definition pred_by_name (name : bytes) (e : DirEntryInternal) : bool :=
  match from_utf8 (name_bytes e) with
  | Some s => bytes_eqb s name
  | None => false
  end.

Section Fs.
Context {D : Type} {Dev : SyncBlockDevice D} {Crc : Crc32} {Clk : Clock} {Unin : Uninit}.
Abbreviation fs := (SyncFileSystem D).
Abbreviation M := (eff fs FsError).

(** ** Plumbing *)

(** A block cache operation on [self.blockcache]. *)
Definition on_cache {A} (m : eff (BlockCache D) FsError A) : M A :=
  fun s => match m (blockcache s) with
           | (c, r) => (mkFs (superblock s) c (num_blocks s) (fs_error s), r)
           end.

Definition c_read (b : Z) : M Block := on_cache (BlockCache.read b).
Definition c_read_mut (b : Z) : M Block := on_cache (BlockCache.read_mut b).
Definition c_get (b : Z) : M Block := on_cache (BlockCache.get b).
Definition c_get_mut (b : Z) : M Block := on_cache (BlockCache.get_mut b).
Definition c_uninit (b : Z) : M Block := on_cache (BlockCache.get_block_uninit b).
Definition c_set (blk : Block) : M unit := on_cache (BlockCache.set_top blk).
Definition c_write (b : Z) : M unit := on_cache (BlockCache.write b).

Definition hdr : M SuperblockHeader := let* s := get_state in ret (header (superblock s)).

Definition upd_hdr (f : SuperblockHeader -> SuperblockHeader) : M unit :=
  modify (fun s => mkFs (mkSuperblock (f (header (superblock s))) (sb_rest (superblock s)))
                     (blockcache s) (num_blocks s) (fs_error s)).

(** [self.error?]. *)
Definition check_error : M unit :=
  let* s := get_state in
  match fs_error s with None => ret tt | Some e => throw e end.

(** [m.ok()]: an [Err] becomes [None], the state changes stay. *)
Definition try_ok {A} (m : M A) : M (option A) :=
  fun s => match m s with
           | (s', Ok a) => (s', Ok (Some a))
           | (s', Err _) => (s', Ok None)
           | (s', Panic) => (s', Panic)
           end.

(** ** Error state and superblock *)

Definition make_error : M unit :=
  let* s := get_state in
  assert (bool_decide (fs_error s = None));;;
  modify (fun s => mkFs (superblock s) (blockcache s) (num_blocks s) (Some ValidationFailed));;;
  throw ValidationFailed.

Definition save_superblock : M unit :=
  let* s := get_state in
  assert (bool_decide (fs_error s = None));;;
  upd_hdr sb_set_crc32;;;
  let* s := get_state in
  on_err (on_cache (BlockCache.write_uncached_block 0 (Superblock_block (superblock s)))) make_error.

Definition plus_one (b : Z) : M unit :=
  let* blk := c_get_mut b in
  c_set (resize (u64 (size (get_meta blk) + 1)) blk);;;
  on_err (c_write b) make_error.

(** ** Transactions and block allocation *)

Definition start_txn (ty : Z) (owner : EntryId) : M unit :=
  let* h := hdr in
  assert (txn_type h =? TXN_TYPE_NONE);;;
  assert (txn_blocks_owner h =? 0);;;
  assert (txn_meta_block h =? 0);;;
  assert (txn_data_block h =? 0);;;
  assert (txn_link_block h =? 0);;;
  assert (txn_list_of_links_block h =? 0);;;
  upd_hdr (upd_txn (block_no owner) ty);;;
  save_superblock.

Definition clear_txn (h : SuperblockHeader) : SuperblockHeader :=
  upd_txn 0 TXN_TYPE_NONE
    (upd_txn_block ListOfLinks 0 (upd_txn_block Links 0 (upd_txn_block Data 0 (upd_txn_block Metadata 0 h)))).

Definition commit_txn : M unit := upd_hdr clear_txn;;; save_superblock.

(** The part of [allocate_txn_block] that picks the block. *)
Definition pick_free_block : M Z :=
  let* h := hdr in
  if freelist_head h =? 0 then
    let n := empty_area_start h in
    upd_hdr (upd_empty (u64 (n + 1)));;; ret n
  else
    let n := freelist_head h in
    let* blk := c_read n in
    upd_hdr (upd_freelist (get_u64_at 0 blk));;;
    let* h := hdr in
    if sb_num_blocks h <=? freelist_head h then make_error;;; panic else ret n.

Definition allocate_txn_block (t : BlockType) : M Z :=
  let* h := hdr in
  assert (negb (txn_blocks_owner h =? 0));;;
  if free_blocks h =? 0 then throw FsFull
  else
    let* n := pick_free_block in
    assert (negb (n =? 0));;;
    let* h := hdr in
    if sb_num_blocks h <=? n then make_error;;; panic
    else
      upd_hdr (fun h => upd_free (u64 (free_blocks h - 1)) h);;;
      upd_hdr (upd_txn_block t n);;;
      save_superblock;;;
      ret n.

Definition free_txn_block (t : BlockType) : M unit :=
  let* h := hdr in
  let b := txn_block t h in
  assert (negb (b =? 0));;;
  (if empty_area_start h =? u64 (b + 1) then
     upd_hdr (fun h => upd_empty (u64 (empty_area_start h - 1)) h)
   else
     let prev_head := freelist_head h in
     let* blk := c_uninit b in
     c_set (put_u64_at 0 prev_head blk);;;
     c_write b);;;
  upd_hdr (upd_txn_block t 0);;;
  upd_hdr (fun h => upd_free (u64 (free_blocks h + 1)) h);;;
  save_superblock.

(** ** Directory lookup *)

(** One data block of the directory: its links are in [links]. *)
Fixpoint scan_data_blocks (n : nat) (pred : DirEntryInternal -> bool) (links : Block)
    (idx curr num : Z) : M (option (Z * Z)) :=
  match n with
  | O => ret None
  | S n' =>
    let* b := lift (get_datablock_no_in_meta links idx) in
    let* blk := c_read b in
    let* '(found, curr') := lift (scan_entries 15 pred blk 0 curr num) in
    match found with
    | Some pos => ret (Some (b, pos))
    | None => scan_data_blocks n' pred links (idx + 1) curr' num
    end
  end.

(** [for pos_block in pos_block..512 { .. }] over one link block: what was
    found, and [curr_entry_idx], [curr_block_idx]. *)
Fixpoint scan_link_block (n : nat) (pred : DirEntryInternal -> bool) (links : Block)
    (idx curr curr_block num num_blk : Z) : M (option (Z * Z) * Z * Z) :=
  match n with
  | O => ret (None, curr, curr_block)
  | S n' =>
    let* b := lift (get_datablock_no_in_link links idx) in
    let* blk := c_read b in
    let* '(found, curr') := lift (scan_entries 15 pred blk 0 curr num) in
    match found with
    | Some pos => ret (Some (b, pos), curr', curr_block)
    | None =>
      if num_blk <=? curr_block + 1 then ret (None, curr', curr_block + 1)
      else scan_link_block n' pred links (idx + 1) curr' (curr_block + 1) num num_blk
    end
  end.

Fixpoint scan_link_blocks (n : nat) (pred : DirEntryInternal -> bool) (meta : Block)
    (idx curr curr_block num num_blk : Z) : M (option (Z * Z)) :=
  match n with
  | O => ret None
  | S n' =>
    let* lb := lift (get_datablock_no_in_meta meta idx) in
    let* links := c_read lb in
    let* '(found, curr', curr_block') :=
      scan_link_block 512 pred links 0 curr curr_block num num_blk in
    match found with
    | Some r => ret (Some r)
    | None => scan_link_blocks n' pred meta (idx + 1) curr' curr_block' num num_blk
    end
  end.

Definition div_ceil (a b : Z) : Z := u64 (a + b - 1) / b.

Definition or_not_found {A} (m : M (option A)) : M A :=
  let* r := m in match r with Some a => ret a | None => throw NotFound end.

Definition find_entry (parent : EntryId) (pred : DirEntryInternal -> bool) : M (Z * Z) :=
  check_error;;;
  let* blk := c_read (block_no parent) in
  let meta := get_meta blk in
  on_err (lift (validate_dir meta parent)) make_error;;;
  let num := size meta in
  if num <=? MAX_ENTRIES_IN_META_BLOCK then
    or_not_found (let* r := lift (scan_meta (Z.to_nat num) pred blk 0) in
                  ret ((fun pos => (block_no parent, pos)) <$> r))
  else if num <=? MAX_ENTRIES_ONLY_DATA_BLOCKS then
    let nb := div_ceil num MAX_ENTRIES_IN_DATA_BLOCK in
    assert (nb <=? MAX_LINKS_IN_META_BLOCK);;;
    or_not_found (scan_data_blocks (Z.to_nat nb) pred blk 0 0 num)
  else
    let nl := div_ceil num MAX_ENTRIES_COVERED_BY_FIRST_LEVEL_BLOCKLIST in
    assert (nl <=? MAX_LINKS_IN_META_BLOCK);;;
    let nb := div_ceil num MAX_ENTRIES_IN_DATA_BLOCK in
    or_not_found (scan_link_blocks (Z.to_nat nl) pred blk 0 0 0 num nb).

Definition find_entry_by_id (parent id : EntryId) : M (Z * Z) := find_entry parent (pred_by_id id).
Definition find_entry_by_name (parent : EntryId) (name : bytes) : M (Z * Z) :=
  find_entry parent (pred_by_name name).

Definition get_directory_entry (parent : EntryId) (pos : Z) : M DirEntry :=
  check_error;;;
  let* blk := c_read (block_no parent) in
  let meta := get_meta blk in
  lift (validate_dir meta parent);;;
  let num := size meta in
  if num <=? pos then throw NotFound
  else if num <=? MAX_ENTRIES_IN_META_BLOCK then
    let* e := lift (get_dir_entry blk (pos + 1)) in lift (to_owned e)
  else if num <=? MAX_ENTRIES_ONLY_DATA_BLOCKS then
    let* b := lift (get_datablock_no_in_meta blk (pos / MAX_ENTRIES_IN_DATA_BLOCK)) in
    let* data := c_read b in
    let* e := lift (get_dir_entry data (pos mod MAX_ENTRIES_IN_DATA_BLOCK)) in
    lift (to_owned e)
  else
    let* lb := lift (get_datablock_no_in_meta blk (pos / MAX_ENTRIES_COVERED_BY_FIRST_LEVEL_BLOCKLIST)) in
    let* links := c_read lb in
    let* b := lift (get_datablock_no_in_link links
                      ((pos mod MAX_ENTRIES_COVERED_BY_FIRST_LEVEL_BLOCKLIST) / MAX_ENTRIES_IN_DATA_BLOCK)) in
    let* data := c_read b in
    let* e := lift (get_dir_entry data (pos mod MAX_ENTRIES_IN_DATA_BLOCK)) in
    lift (to_owned e).

(** [.unwrap()]. *)
Definition unwrap {A} (m : M A) : M A :=
  fun s => match m s with (s', Err _) => (s', Panic) | r => r end.

Definition get_directory_entry_by_name (parent : EntryId) (name : bytes) : M DirEntry :=
  check_error;;;
  let* '(b, pos) := find_entry_by_name parent name in
  let* blk := unwrap (c_read b) in
  let* e := lift (get_dir_entry blk pos) in
  lift (to_owned e).

Definition get_num_entries (dir : EntryId) : M Z :=
  check_error;;;
  let* blk := c_read (block_no dir) in
  lift (validate_dir (get_meta blk) dir);;;
  ret (size (get_meta blk)).

Definition get_file_size (file : EntryId) : M Z :=
  check_error;;;
  let* blk := c_read (block_no file) in
  lift (validate_file (get_meta blk) file);;;
  ret (size (get_meta blk)).

Definition stat (entry : EntryId) : M Attr :=
  check_error;;;
  let* blk := c_read (block_no entry) in
  lift (validate (get_meta blk) entry);;;
  ret (attr_of_meta (get_meta blk)).

Definition get_parent (entry : EntryId) : M (option EntryId) :=
  if decide (entry = ROOT_DIR_ID) then ret None
  else
    let* blk := c_read (block_no entry) in
    lift (validate (get_meta blk) entry);;;
    ret (Some (parent_id (get_meta blk))).

Definition get_name (entry : EntryId) : M bytes :=
  if decide (entry = ROOT_DIR_ID) then ret [SLASH]
  else
    let* blk := c_read (block_no entry) in
    lift (validate (get_meta blk) entry);;;
    let* '(b, pos) := find_entry_by_id (parent_id (get_meta blk)) entry in
    let* blk := c_get b in
    let* e := lift (get_dir_entry blk pos) in
    let* o := lift (to_owned e) in
    ret (o_name o).

(** ** Directory updates *)

Definition validate_new_entry (parent : EntryId) (name : bytes) : M unit :=
  check_error;;;
  lift (validate_filename name);;;
  let* s := get_state in
  if (num_blocks s <=? block_no parent) || (block_no parent <? 1) then throw InvalidArgument
  else
    let* found := try_ok (find_entry_by_name parent name) in
    match found with
    | Some _ => throw AlreadyExists
    | None =>
      let* blk := c_read (block_no parent) in
      let meta := get_meta blk in
      lift (validate_dir meta parent);;;
      if size meta =? MAX_DIR_ENTRIES then throw TooLarge else ret tt
    end.

(** [prev_size < MAX_ENTRIES_IN_META_BLOCK]. *)
Definition add_entry_in_meta (parent child : EntryId) (name : bytes) (prev_size : Z) : M unit :=
  let* blk := c_get_mut (block_no parent) in
  let* blk := lift (set_dir_entry (resize (u64 (size (get_meta blk) + 1)) blk) (prev_size + 1) child name) in
  c_set blk;;;
  c_write (block_no parent).

(** The parent's size and its link [idx] to block [b]. *)
Definition add_link_to_parent (parent : EntryId) (idx b : Z) : M unit :=
  let* blk := c_get_mut (block_no parent) in
  let* blk := lift (set_datablock_no_in_meta (resize (u64 (size (get_meta blk) + 1)) blk) idx b) in
  c_set blk;;;
  c_write (block_no parent).

(** [prev_size < MAX_ENTRIES_ONLY_DATA_BLOCKS]. *)
Definition add_entry_in_data_block (parent child : EntryId) (name : bytes) (prev_size : Z) : M unit :=
  if (prev_size =? MAX_ENTRIES_IN_META_BLOCK) || (prev_size mod MAX_ENTRIES_IN_DATA_BLOCK =? 0) then
    let* b := allocate_txn_block Data in
    (if prev_size =? MAX_ENTRIES_IN_META_BLOCK then
       let* source := c_get (block_no parent) in
       let* blk := c_uninit b in
       let* blk := lift (edit_range (Z.to_nat MAX_ENTRIES_IN_META_BLOCK) 0 (copy_entry source 1 0) blk) in
       let* blk := lift (set_dir_entry blk MAX_ENTRIES_IN_META_BLOCK child name) in
       c_set blk
     else
       let* blk := c_uninit b in
       let* blk := lift (set_dir_entry blk 0 child name) in
       c_set blk);;;
    c_write b;;;
    add_link_to_parent parent (prev_size / MAX_ENTRIES_IN_DATA_BLOCK) b
  else
    let* pblk := c_get (block_no parent) in
    let* b := lift (get_datablock_no_in_meta pblk (prev_size / MAX_ENTRIES_IN_DATA_BLOCK)) in
    let* blk := c_read_mut b in
    let* blk := lift (set_dir_entry blk (prev_size mod MAX_ENTRIES_IN_DATA_BLOCK) child name) in
    c_set blk;;;
    c_write b;;;
    plus_one (block_no parent).

(** Data block [b] starts a new link block. *)
Definition add_new_link_block (parent : EntryId) (prev_size b : Z) : M unit :=
  let* lb := allocate_txn_block Links in
  (if prev_size =? MAX_ENTRIES_ONLY_DATA_BLOCKS then
     let* source := c_get (block_no parent) in
     let* blk := c_uninit lb in
     let* blk := lift (edit_range (Z.to_nat MAX_LINKS_IN_META_BLOCK) 0 (copy_link_out source) blk) in
     let* blk := lift (set_datablock_no_in_link blk MAX_LINKS_IN_META_BLOCK b) in
     c_set blk
   else
     let* blk := c_uninit lb in
     let* blk := lift (set_datablock_no_in_link blk 0 b) in
     c_set blk);;;
  c_write lb;;;
  add_link_to_parent parent (prev_size / MAX_ENTRIES_COVERED_BY_FIRST_LEVEL_BLOCKLIST) lb.

(** Data block [b] is linked from the last link block. *)
Definition add_to_link_block (parent : EntryId) (prev_size b : Z) : M unit :=
  let* pblk := c_get (block_no parent) in
  let* lb := lift (get_datablock_no_in_meta pblk (prev_size / MAX_ENTRIES_COVERED_BY_FIRST_LEVEL_BLOCKLIST)) in
  let* blk := c_read_mut lb in
  let* blk := lift (set_datablock_no_in_link blk
                      ((prev_size mod MAX_ENTRIES_COVERED_BY_FIRST_LEVEL_BLOCKLIST) / MAX_ENTRIES_IN_DATA_BLOCK) b) in
  c_set blk;;;
  c_write lb;;;
  plus_one (block_no parent).

(** [prev_size >= MAX_ENTRIES_ONLY_DATA_BLOCKS]. *)
Definition add_entry_in_list (parent child : EntryId) (name : bytes) (prev_size : Z) : M unit :=
  if prev_size mod MAX_ENTRIES_IN_DATA_BLOCK =? 0 then
    let* b := allocate_txn_block Data in
    let* blk := c_uninit b in
    let* blk := lift (set_dir_entry blk 0 child name) in
    c_set blk;;;
    c_write b;;;
    if (prev_size =? MAX_ENTRIES_ONLY_DATA_BLOCKS)
       || (prev_size mod MAX_ENTRIES_COVERED_BY_FIRST_LEVEL_BLOCKLIST =? 0)
    then add_new_link_block parent prev_size b
    else add_to_link_block parent prev_size b
  else
    let* pblk := c_get (block_no parent) in
    let* lb := lift (get_datablock_no_in_meta pblk (prev_size / MAX_ENTRIES_COVERED_BY_FIRST_LEVEL_BLOCKLIST)) in
    let* links := c_read lb in
    let* b := lift (get_datablock_no_in_link links
                      ((prev_size mod MAX_ENTRIES_COVERED_BY_FIRST_LEVEL_BLOCKLIST) / MAX_ENTRIES_IN_DATA_BLOCK)) in
    let* blk := c_read_mut b in
    let* blk := lift (set_dir_entry blk (prev_size mod MAX_ENTRIES_IN_DATA_BLOCK) child name) in
    c_set blk;;;
    c_write b;;;
    plus_one (block_no parent).

Definition add_directory_entry_inner (parent child : EntryId) (name : bytes) : M unit :=
  let* h := hdr in
  assert (negb (txn_type h =? TXN_TYPE_NONE));;;
  let* blk := c_get (block_no parent) in
  let prev_size := size (get_meta blk) in
  if prev_size <? MAX_ENTRIES_IN_META_BLOCK then add_entry_in_meta parent child name prev_size
  else if prev_size <? MAX_ENTRIES_ONLY_DATA_BLOCKS then add_entry_in_data_block parent child name prev_size
  else add_entry_in_list parent child name prev_size.

(** The next generation number: even for files, odd for directories. *)
Definition next_generation (g : Z) (is_file : bool) : Z :=
  let g := u64 (g + 1) in
  let g := if is_file && (Z.land g 1 =? 1) then u64 (g + 1) else g in
  if negb is_file && (Z.land g 1 =? 0) then u64 (g + 1) else g.

Definition add_directory_entry (parent : EntryId) (name : bytes) (is_file : bool) : M EntryId :=
  check_error;;;
  validate_new_entry parent name;;;
  let* h := hdr in
  let g := next_generation (sb_generation h) is_file in
  upd_hdr (upd_generation g);;;
  start_txn TXN_TYPE_ADD_NODE parent;;;
  let* b := allocate_txn_block Metadata in
  let new_id := mkEntryId b g in
  let* blk := c_uninit b in
  c_set (put_meta (meta_set_crc32 (set_size 0 (EntryMetadata_new now new_id parent))) blk);;;
  c_write b;;;
  on_err (add_directory_entry_inner parent new_id name) make_error;;;
  commit_txn;;;
  ret new_id.

Definition add_file (parent : EntryId) (name : bytes) : M EntryId := add_directory_entry parent name true.
Definition add_directory (parent : EntryId) (name : bytes) : M EntryId := add_directory_entry parent name false.

(** [fbh.txn_<t>_block = b], which must be unset, then a superblock save. *)
Definition mark_to_free (t : BlockType) (b : Z) : M unit :=
  let* h := hdr in
  assert (txn_block t h =? 0);;;
  upd_hdr (upd_txn_block t b);;;
  save_superblock.

(** Put the last entry, at [(last_b, last_idx)], over the removed one. *)
Definition move_last_entry (entry_b entry_pos last_b last_idx : Z) : M unit :=
  if bool_decide ((entry_b, entry_pos) = (last_b, last_idx)) then ret tt
  else
    let* lblk := c_read last_b in
    let* e := lift (get_dir_entry lblk last_idx) in
    let* eblk := c_read_mut entry_b in
    let* eblk := lift (put_dir_entry eblk entry_pos e) in
    c_set eblk;;;
    c_write entry_b.

Definition remove_entry_in_meta (parent : EntryId) (entry_b entry_pos num : Z) : M unit :=
  assert (entry_b =? block_no parent);;;
  if entry_pos <? num then
    let* blk := c_get_mut (block_no parent) in
    let* e := lift (get_dir_entry blk num) in
    let* blk := lift (put_dir_entry blk entry_pos e) in
    c_set blk
  else ret tt.

Definition remove_entry_in_data_block (parent : EntryId) (pblk : Block) (entry_b entry_pos num : Z) : M unit :=
  let* last_b := lift (get_datablock_no_in_meta pblk ((num - 1) / MAX_ENTRIES_IN_DATA_BLOCK)) in
  let last_idx := (num - 1) mod MAX_ENTRIES_IN_DATA_BLOCK in
  move_last_entry entry_b entry_pos last_b last_idx;;;
  (if last_idx =? 0 then mark_to_free Data last_b else ret tt);;;
  if num =? MAX_ENTRIES_IN_META_BLOCK + 1 then
    let* eblk := c_get entry_b in
    let* blk := c_get_mut (block_no parent) in
    let* blk := lift (edit_range (Z.to_nat MAX_ENTRIES_IN_META_BLOCK) 0 (copy_entry eblk 0 1) blk) in
    c_set blk;;;
    mark_to_free Data last_b
  else ret tt.

Definition remove_entry_in_list (parent : EntryId) (pblk : Block) (entry_b entry_pos num : Z) : M unit :=
  let* last_lb := lift (get_datablock_no_in_meta pblk
                          ((num - 1) / MAX_ENTRIES_COVERED_BY_FIRST_LEVEL_BLOCKLIST)) in
  let* lblk := c_read last_lb in
  let* last_b := lift (get_datablock_no_in_link lblk
                         (((num - 1) mod MAX_ENTRIES_COVERED_BY_FIRST_LEVEL_BLOCKLIST)
                            / MAX_ENTRIES_IN_DATA_BLOCK)) in
  let last_idx := (num - 1) mod MAX_ENTRIES_IN_DATA_BLOCK in
  move_last_entry entry_b entry_pos last_b last_idx;;;
  (if last_idx =? 0 then mark_to_free Data last_b else ret tt);;;
  (if num =? MAX_ENTRIES_ONLY_DATA_BLOCKS + 1 then
     let* links := c_get last_lb in
     let* blk := c_get_mut (block_no parent) in
     let* blk := lift (edit_range (Z.to_nat MAX_LINKS_IN_META_BLOCK) 0 (copy_link_in links) blk) in
     c_set blk;;;
     mark_to_free Links last_lb
   else ret tt);;;
  if num mod MAX_ENTRIES_COVERED_BY_FIRST_LEVEL_BLOCKLIST =? 1 then mark_to_free Links last_lb
  else ret tt.

Definition remove_directory_entry_inner (parent child : EntryId) : M unit :=
  let* h := hdr in
  assert (negb (txn_type h =? TXN_TYPE_NONE));;;
  let* '(entry_b, entry_pos) := find_entry_by_id parent child in
  let* pblk := c_read (block_no parent) in
  lift (validate_dir (get_meta pblk) parent);;;
  let num := size (get_meta pblk) in
  (if num <=? MAX_ENTRIES_IN_META_BLOCK then remove_entry_in_meta parent entry_b entry_pos num
   else if num <=? MAX_ENTRIES_ONLY_DATA_BLOCKS then
     remove_entry_in_data_block parent pblk entry_b entry_pos num
   else remove_entry_in_list parent pblk entry_b entry_pos num);;;
  let* blk := c_get_mut (block_no parent) in
  c_set (resize (u64 (size (get_meta blk) - 1)) blk);;;
  c_write (block_no parent).

(** [if header.txn_<t>_block != 0 { self.free_txn_block(t)?; }]. *)
Definition free_if_marked (t : BlockType) : M unit :=
  let* h := hdr in
  if txn_block t h =? 0 then ret tt else free_txn_block t.

Definition remove (entry : EntryId) : M unit :=
  check_error;;;
  if block_no entry =? block_no ROOT_DIR_ID then throw InvalidArgument
  else
    let* blk := c_read (block_no entry) in
    let meta := get_meta blk in
    lift (validate meta entry);;;
    if 0 <? size meta then throw TooLarge
    else
      let parent := parent_id meta in
      start_txn TXN_TYPE_REMOVE_NODE parent;;;
      let* h := hdr in
      assert (txn_meta_block h =? 0);;;
      upd_hdr (upd_txn_block Metadata (block_no entry));;;
      on_err (remove_directory_entry_inner parent entry) make_error;;;
      free_if_marked Links;;;
      free_if_marked Data;;;
      free_txn_block Metadata;;;
      commit_txn.

(** Rename in place: the entry keeps its directory. *)
Definition rename_in_dir (parent entry : EntryId) (new_name : bytes) : M unit :=
  let* '(b, pos) := find_entry_by_id parent entry in
  let* blk := c_get_mut b in
  let* e := lift (get_dir_entry blk pos) in
  let* e := lift (set_name new_name e) in
  let* blk := lift (put_dir_entry blk pos e) in
  c_set blk;;;
  c_write b.

Definition move_rename (entry new_parent : EntryId) (new_name : bytes) : M unit :=
  check_error;;;
  validate_new_entry new_parent new_name;;;
  if block_no entry =? block_no ROOT_DIR_ID then throw InvalidArgument
  else
    let* blk := c_read (block_no entry) in
    let meta := get_meta blk in
    lift (validate meta entry);;;
    let old_parent := parent_id meta in
    if decide (old_parent = new_parent) then rename_in_dir old_parent entry new_name
    else
      start_txn TXN_TYPE_MOVE old_parent;;;
      upd_hdr (upd_txn_block Metadata (block_no entry));;;
      save_superblock;;;
      let* blk := c_get_mut (block_no entry) in
      c_set (put_meta (meta_set_crc32 (set_parent new_parent (get_meta blk))) blk);;;
      c_write (block_no entry);;;
      on_err (add_directory_entry_inner new_parent entry new_name) make_error;;;
      upd_hdr (fun h => upd_txn_block ListOfLinks 0 (upd_txn_block Links 0 (upd_txn_block Data 0 h)));;;
      on_err (remove_directory_entry_inner old_parent entry) make_error;;;
      free_if_marked Links;;;
      free_if_marked Data;;;
      commit_txn.

(** ** Files *)

Definition L1_LOG2 : Z := Z.log2 BYTES_COVERED_BY_FIRST_LEVEL_BLOCKLIST.
Definition L2_LOG2 : Z := Z.log2 BYTES_COVERED_BY_SECOND_LEVEL_BLOCKLIST.

(** Index of the data block of [offset] in its first-level link block, and of
    that link block in its second-level block. *)
Definition data_idx_in_link (offset : Z) : Z :=
  Z.shiftr (Z.land offset (BYTES_COVERED_BY_FIRST_LEVEL_BLOCKLIST - 1)) BLOCK_SIZE_LOG2.
Definition link_idx_in_list (offset : Z) : Z :=
  Z.shiftr (Z.land offset (BYTES_COVERED_BY_SECOND_LEVEL_BLOCKLIST - 1)) L1_LOG2.

Definition find_data_block (file : EntryId) (offset : Z) : M Z :=
  let* blk := c_get (block_no file) in
  let file_size := size (get_meta blk) in
  if file_size <=? MAX_BYTES_ONLY_DATA_BLOCKS then
    let* blk := c_get (block_no file) in
    lift (get_datablock_no_in_meta blk (Z.shiftr offset BLOCK_SIZE_LOG2))
  else if file_size <=? MAX_BYTES_SINGLE_LEVEL_LIST_BLOCKS then
    let* blk := c_get (block_no file) in
    let* lb := lift (get_datablock_no_in_meta blk (Z.shiftr offset L1_LOG2)) in
    let* links := c_read lb in
    lift (get_datablock_no_in_link links (data_idx_in_link offset))
  else
    let* blk := c_get (block_no file) in
    let* llb := lift (get_datablock_no_in_meta blk (Z.shiftr offset L2_LOG2)) in
    let* lists := c_read llb in
    let* lb := lift (get_datablock_no_in_link lists (link_idx_in_list offset)) in
    let* links := c_read lb in
    lift (get_datablock_no_in_link links (data_idx_in_link offset)).

(** [offset & (BLOCK_SIZE - 1)]. *)
Definition in_block (offset : Z) : Z := Z.land offset (BLOCK_SIZE - 1).

Definition len (buf : bytes) : Z := Z.of_nat (length buf).

Definition update_file (file : EntryId) (offset : Z) (buf : bytes) : M Z :=
  let* b := find_data_block file offset in
  let block_end := align_up (u64 (offset + 1)) BLOCK_SIZE in
  let new_end := Z.min (u64 (offset + len buf)) block_end in
  let* blk := c_read_mut b in
  c_set (blit (Z.to_nat (in_block offset)) (take (Z.to_nat (new_end - offset)) buf) blk);;;
  c_write b;;;
  ret (new_end - offset).

(** The metadata block's bytes move to the first data block. *)
Definition append_first_block (file : EntryId) (meta_blk : Block) (prev_size new_size : Z) (buf : bytes) : M Z :=
  assert (MAX_BYTES_IN_META_BLOCK <? new_size);;;
  start_txn TXN_TYPE_ADD_BYTES file;;;
  let* b := allocate_txn_block Data in
  let* blk := c_uninit b in
  let blk := blit 0 (take (Z.to_nat prev_size) (as_data_bytes_in_meta meta_blk)) blk in
  c_set (blit (Z.to_nat prev_size) (take (Z.to_nat (new_size - prev_size)) buf) blk);;;
  on_err (c_write b) make_error;;;
  let* mblk := c_get_mut (block_no file) in
  let* mblk := lift (set_datablock_no_in_meta mblk 0 b) in
  c_set (resize new_size mblk);;;
  on_err (c_write (block_no file)) make_error;;;
  commit_txn;;;
  ret (new_size - prev_size).

(** The bytes fit in the last data block. *)
Definition append_in_last_block (file : EntryId) (offset prev_size new_size : Z) (buf : bytes) : M Z :=
  let* b := find_data_block file (prev_size - 1) in
  let* blk := c_read_mut b in
  c_set (blit (Z.to_nat (in_block offset)) (take (Z.to_nat (new_size - prev_size)) buf) blk);;;
  c_write b;;;
  let* mblk := c_get_mut (block_no file) in
  c_set (resize new_size mblk);;;
  c_write (block_no file);;;
  ret (new_size - prev_size).

(** Record data block [b] in the file's single-level lists. *)
Definition link_single_level (file : EntryId) (prev_size b : Z) : M unit :=
  let link_block_idx := Z.shiftr prev_size L1_LOG2 in
  if (prev_size mod BYTES_COVERED_BY_FIRST_LEVEL_BLOCKLIST =? 0)
     || (prev_size =? MAX_BYTES_ONLY_DATA_BLOCKS) then
    let* lb := on_err (allocate_txn_block Links) make_error in
    (if prev_size =? MAX_BYTES_ONLY_DATA_BLOCKS then
       let* mblk := c_get (block_no file) in
       let* blk := c_uninit lb in
       let blk := blit 0 (as_data_bytes_in_meta mblk) blk in
       let* blk := lift (set_datablock_no_in_link blk MAX_LINKS_IN_META_BLOCK b) in
       c_set blk
     else
       let* blk := c_uninit lb in
       let* blk := lift (set_datablock_no_in_link blk 0 b) in
       c_set blk);;;
    on_err (c_write lb) make_error;;;
    let* mblk := c_get_mut (block_no file) in
    let* mblk := lift (set_datablock_no_in_meta mblk link_block_idx lb) in
    c_set mblk
  else
    let* mblk := c_get (block_no file) in
    let* lb := lift (get_datablock_no_in_meta mblk link_block_idx) in
    let* blk := on_err (c_read_mut lb) make_error in
    let* blk := lift (set_datablock_no_in_link blk (data_idx_in_link prev_size) b) in
    c_set blk;;;
    on_err (c_write lb) make_error.

(** Record data block [b] in the file's two-level lists. *)
Definition link_two_level (file : EntryId) (prev_size b : Z) : M unit :=
  let list_idx := Z.shiftr prev_size L2_LOG2 in
  if (prev_size mod BYTES_COVERED_BY_SECOND_LEVEL_BLOCKLIST =? 0)
     || (prev_size =? MAX_BYTES_SINGLE_LEVEL_LIST_BLOCKS) then
    let* lb := on_err (allocate_txn_block Links) make_error in
    let* blk := c_uninit lb in
    let* blk := lift (set_datablock_no_in_link blk 0 b) in
    c_set blk;;;
    on_err (c_write lb) make_error;;;
    let* llb := on_err (allocate_txn_block ListOfLinks) make_error in
    (if prev_size =? MAX_BYTES_SINGLE_LEVEL_LIST_BLOCKS then
       let* mblk := c_get (block_no file) in
       let* blk := c_uninit llb in
       let blk := blit 0 (as_data_bytes_in_meta mblk) blk in
       let* blk := lift (set_datablock_no_in_link blk MAX_LINKS_IN_META_BLOCK lb) in
       c_set blk
     else
       let* blk := c_uninit llb in
       let* blk := lift (set_datablock_no_in_link blk 0 lb) in
       c_set blk);;;
    on_err (c_write llb) make_error;;;
    let* mblk := c_get_mut (block_no file) in
    let* mblk := lift (set_datablock_no_in_meta mblk list_idx llb) in
    c_set mblk
  else
    let* mblk := c_get (block_no file) in
    let* llb := lift (get_datablock_no_in_meta mblk list_idx) in
    let* _ := on_err (c_read llb) make_error in
    if prev_size mod BYTES_COVERED_BY_FIRST_LEVEL_BLOCKLIST =? 0 then
      let* lb := on_err (allocate_txn_block Links) make_error in
      let* blk := c_uninit lb in
      let* blk := lift (set_datablock_no_in_link blk 0 b) in
      c_set blk;;;
      on_err (c_write lb) make_error;;;
      let* blk := c_get_mut llb in
      let* blk := lift (set_datablock_no_in_link blk (link_idx_in_list prev_size) lb) in
      c_set blk;;;
      on_err (c_write llb) make_error
    else
      let* lists := c_get llb in
      let* lb := lift (get_datablock_no_in_link lists (link_idx_in_list prev_size)) in
      let* blk := on_err (c_read_mut lb) make_error in
      let* blk := lift (set_datablock_no_in_link blk (data_idx_in_link prev_size) b) in
      c_set blk;;;
      on_err (c_write lb) make_error.

(** A new data block at the end of the file. *)
Definition append_new_block (file : EntryId) (prev_size new_size : Z) (buf : bytes) : M Z :=
  start_txn TXN_TYPE_ADD_BYTES file;;;
  let* b := allocate_txn_block Data in
  let* blk := c_uninit b in
  c_set (blit 0 (take (Z.to_nat (new_size - prev_size)) buf) blk);;;
  on_err (c_write b) make_error;;;
  (if new_size <=? MAX_BYTES_ONLY_DATA_BLOCKS then
     let* mblk := c_get_mut (block_no file) in
     let* mblk := lift (set_datablock_no_in_meta mblk (Z.shiftr prev_size BLOCK_SIZE_LOG2) b) in
     c_set mblk
   else if new_size <=? MAX_BYTES_SINGLE_LEVEL_LIST_BLOCKS then link_single_level file prev_size b
   else link_two_level file prev_size b);;;
  let* mblk := c_get_mut (block_no file) in
  c_set (resize new_size mblk);;;
  on_err (c_write (block_no file)) make_error;;;
  commit_txn;;;
  ret (new_size - prev_size).

Definition append (file : EntryId) (offset : Z) (buf : bytes) : M Z :=
  check_error;;;
  let* mblk := c_get (block_no file) in
  let prev_size := size (get_meta mblk) in
  assert (prev_size =? offset);;;
  let block_end := align_up (u64 (prev_size + 1)) BLOCK_SIZE in
  let new_size := if u64 (prev_size + len buf) <=? block_end then u64 (prev_size + len buf) else block_end in
  if prev_size <=? MAX_BYTES_IN_META_BLOCK then append_first_block file mblk prev_size new_size buf
  else if new_size <=? align_up prev_size BLOCK_SIZE then
    append_in_last_block file offset prev_size new_size buf
  else append_new_block file prev_size new_size buf.

(** Bytes that stay in the metadata block. *)
Definition write_in_meta (file : EntryId) (offset new_end new_size : Z) (buf : bytes) : M Z :=
  let* blk := c_get_mut (block_no file) in
  c_set (blit (Z.to_nat (SIZE_OF_METADATA + offset)) (take (Z.to_nat (new_end - offset)) buf)
           (resize new_size blk));;;
  on_err (c_write (block_no file)) make_error;;;
  ret (new_end - offset).

Definition write (file : EntryId) (offset : Z) (buf : bytes) : M Z :=
  check_error;;;
  if decide (kind file <> File) then throw InvalidArgument
  else
    let* blk := c_read (block_no file) in
    lift (validate_file (get_meta blk) file);;;
    let prev_size := size (get_meta blk) in
    if prev_size <? offset then throw InvalidArgument
    else
      let new_end := if offset =? prev_size then u64 (offset + len buf)
                     else Z.min prev_size (u64 (offset + len buf)) in
      let new_size := Z.max prev_size new_end in
      if new_size <=? MAX_BYTES_IN_META_BLOCK then write_in_meta file offset new_end new_size buf
      else if new_size =? prev_size then update_file file offset buf
      else append file offset buf.

(** [read] into a buffer of [buf_len] bytes: the bytes copied to its front. *)
Definition read (file : EntryId) (offset buf_len : Z) : M bytes :=
  check_error;;;
  if decide (kind file <> File) then throw InvalidArgument
  else
    let* blk := c_read (block_no file) in
    lift (validate_file (get_meta blk) file);;;
    let file_size := size (get_meta blk) in
    if file_size <=? offset then ret []
    else
      let end_ := Z.min file_size (u64 (offset + buf_len)) in
      if file_size <=? MAX_BYTES_IN_META_BLOCK then
        ret (slice (Z.to_nat offset) (Z.to_nat (end_ - offset)) (as_data_bytes_in_meta blk))
      else
        let* b := find_data_block file offset in
        let block_end := align_up (u64 (offset + 1)) BLOCK_SIZE in
        let new_end := Z.min (u64 (offset + buf_len)) block_end in
        let* blk := c_read b in
        ret (slice (Z.to_nat (in_block offset)) (Z.to_nat (new_end - offset)) blk).

(** ** Truncation *)

(** The size after dropping the last data block. *)
Definition mid_size (prev_size new_size : Z) : Z :=
  let mid := Z.land (u64 (prev_size - 1)) (u64_not (BLOCK_SIZE - 1)) in
  if (MAX_BYTES_IN_META_BLOCK <? prev_size) && (prev_size <=? BLOCK_SIZE)
     && (new_size <=? MAX_BYTES_IN_META_BLOCK) then new_size else mid.

Definition set_meta_size (file : EntryId) (v : Z) : M unit :=
  let* blk := c_get_mut (block_no file) in
  c_set (resize v blk);;;
  c_write (block_no file).

(** [for idx in 0..496 { meta.set_datablock_no_in_meta(idx, links[idx]) }]. *)
Definition links_to_meta (file : EntryId) (lb : Z) : M unit :=
  let* links := c_get lb in
  let* mblk := c_get_mut (block_no file) in
  let* mblk := lift (edit_range (Z.to_nat MAX_LINKS_IN_META_BLOCK) 0 (copy_link_in links) mblk) in
  c_set mblk;;;
  c_write (block_no file).

Definition truncate_data_blocks (file : EntryId) (mid : Z) : M unit :=
  let* mblk := c_get (block_no file) in
  let* b := lift (get_datablock_no_in_meta mblk (Z.shiftr mid BLOCK_SIZE_LOG2)) in
  start_txn TXN_TYPE_REMOVE_BYTES file;;;
  upd_hdr (upd_txn_block Data b);;;
  save_superblock;;;
  set_meta_size file mid;;;
  (if (mid <=? MAX_BYTES_IN_META_BLOCK) && (0 <? mid) then
     let* data := c_read b in
     let* mblk := c_get_mut (block_no file) in
     c_set (blit (Z.to_nat SIZE_OF_METADATA) (take (Z.to_nat MAX_BYTES_IN_META_BLOCK) data) mblk);;;
     c_write (block_no file)
   else ret tt);;;
  free_txn_block Data;;;
  commit_txn.

Definition truncate_single_level (file : EntryId) (mid : Z) : M unit :=
  let* mblk := c_get (block_no file) in
  let* lb := lift (get_datablock_no_in_meta mblk (Z.shiftr mid L1_LOG2)) in
  let* links := c_read lb in
  let data_idx := data_idx_in_link mid in
  let* b := lift (get_datablock_no_in_link links data_idx) in
  let free_link := (data_idx =? 0) || (mid =? MAX_BYTES_ONLY_DATA_BLOCKS) in
  start_txn TXN_TYPE_REMOVE_BYTES file;;;
  upd_hdr (upd_txn_block Data b);;;
  (if free_link then upd_hdr (upd_txn_block Links lb) else ret tt);;;
  save_superblock;;;
  set_meta_size file mid;;;
  (if mid =? MAX_BYTES_ONLY_DATA_BLOCKS then links_to_meta file lb else ret tt);;;
  free_txn_block Data;;;
  (if free_link then free_txn_block Links else ret tt);;;
  commit_txn.

Definition truncate_two_level (file : EntryId) (mid : Z) : M unit :=
  let* mblk := c_get (block_no file) in
  let* llb := lift (get_datablock_no_in_meta mblk (Z.shiftr mid L2_LOG2)) in
  let link_idx := link_idx_in_list mid in
  let* lists := c_read llb in
  let* lb := lift (get_datablock_no_in_link lists link_idx) in
  let* links := c_read lb in
  let data_idx := data_idx_in_link mid in
  let* b := lift (get_datablock_no_in_link links data_idx) in
  let free_link := data_idx =? 0 in
  let free_list := free_link && ((link_idx =? 0) || (mid =? MAX_BYTES_SINGLE_LEVEL_LIST_BLOCKS)) in
  start_txn TXN_TYPE_REMOVE_BYTES file;;;
  upd_hdr (upd_txn_block Data b);;;
  (if free_link then upd_hdr (upd_txn_block Links lb) else ret tt);;;
  (if free_list then upd_hdr (upd_txn_block ListOfLinks llb) else ret tt);;;
  save_superblock;;;
  set_meta_size file mid;;;
  (if mid =? MAX_BYTES_SINGLE_LEVEL_LIST_BLOCKS then links_to_meta file llb else ret tt);;;
  free_txn_block Data;;;
  (if free_link then free_txn_block Links else ret tt);;;
  (if free_list then free_txn_block ListOfLinks else ret tt);;;
  commit_txn.

(** One iteration of [set_file_size]; [Some] is a [return Ok(())]. *)
Definition set_file_size_step (file : EntryId) (new_size : Z) : M (option unit) :=
  let* blk := c_read (block_no file) in
  lift (validate_file (get_meta blk) file);;;
  let prev_size := size (get_meta blk) in
  if prev_size <? new_size then throw InvalidArgument
  else if new_size =? prev_size then ret (Some tt)
  else
    let mid := mid_size prev_size new_size in
    if ((mid <? new_size) && (MAX_BYTES_IN_META_BLOCK <? new_size))
       || (prev_size <=? MAX_BYTES_IN_META_BLOCK) then
      set_meta_size file new_size;;; ret (Some tt)
    else if prev_size <=? MAX_BYTES_ONLY_DATA_BLOCKS then truncate_data_blocks file mid;;; ret None
    else if prev_size <=? MAX_BYTES_SINGLE_LEVEL_LIST_BLOCKS then
      truncate_single_level file mid;;; ret None
    else truncate_two_level file mid;;; ret None.

(** Each iteration but the last drops a data block, so 2^53 bounds the
    iterations for every [u64] size. *)
Definition set_file_size (file : EntryId) (new_size : Z) : M unit :=
  check_error;;;
  let* r := loop (set_file_size_step file new_size) (2 ^ 53) in
  match r with Some _ => ret tt | None => panic end.

(** ** Formatting and opening *)

Definition format_header (n : Z) : SuperblockHeader :=
  sb_set_crc32 (mkSb MAGIC 1 n (n - 2) 1 0 2 0 0 0 0 0 0 0).

Definition dev_write_raw (b : Z) (blk : Block) : eff D FsError unit :=
  fun d => match dev_write_block d b blk with
           | (d', None) => (d', Ok tt)
           | (d', Some e) => (d', Err e)
           end.

Definition format : eff D FsError unit :=
  let* d := get_state in
  if dev_num_blocks d <? 2 then throw InvalidArgument
  else
    let n := Z.min (dev_num_blocks d) (U64_MAX - 1) in
    let h := format_header n in
    let blk := blit 0 (sb_enc h) Block_new_zeroed in
    lift (sb_validate h);;;
    dev_write_raw 0 blk;;;
    dev_write_raw 1 (put_meta (meta_set_crc32 (EntryMetadata_new now ROOT_DIR_ID ROOT_DIR_ID)) blk).

(** [open_fs] on a device; the [todo!] of an interrupted transaction panics. *)
Definition open_fs (d : D) : result FsError fs :=
  match dev_read_block d 0 uninit_block with
  | (_, (_, Some e)) => Err e
  | (d', (blk, None)) =>
    match Superblock_from blk with
    | Err e => Err e
    | Panic => Panic
    | Ok sb =>
      let h := header sb in
      let n := sb_num_blocks h in
      if (n <? 3) || (n =? U64_MAX) || (dev_num_blocks d' <? n) then Err InvalidArgument
      else if negb (txn_meta_block h =? 0) || negb (txn_data_block h =? 0)
              || negb (txn_link_block h =? 0) || negb (txn_list_of_links_block h =? 0) then Panic
      else Ok (mkFs sb (BlockCache_new uninit_block d') n None)
    end
  end.
End Fs.
