(* ===== verification/SrfsState.v ===== *)
(** * Abstract state of an open SRFS filesystem

    [fs_st N s h hd V dt R] relates a [SyncFileSystem] on a healthy device of [N]
    blocks to what a proof needs of it: the in-memory superblock header [h], the
    header [hd] stored in block 0 of the device, the content [V] of every other
    block, the block [dt] modified in the cache and not yet written, and a list
    [R] of recently used blocks, which are certain to be cached.

    Each primitive of fs_sync.rs (cache accesses, superblock saves, transactions,
    block allocation) gets one rule over this predicate; the directory and file
    operations are proved from these rules only. *)

From stdpp Require Import base numbers list.
From S2P Require Import RustPrelude Crc32 SrfsLayout BlockDevice BlockCache SrfsFs.

Open Scope Z_scope.

(** ** Header facts *)

Definition no_txn (h : SuperblockHeader) : Prop :=
  txn_type h = TXN_TYPE_NONE /\ txn_blocks_owner h = 0 /\ txn_meta_block h = 0 /\
  txn_data_block h = 0 /\ txn_link_block h = 0 /\ txn_list_of_links_block h = 0.

Definition no_txnb (h : SuperblockHeader) : bool :=
  (txn_type h =? TXN_TYPE_NONE) && (txn_blocks_owner h =? 0) && (txn_meta_block h =? 0) &&
  (txn_data_block h =? 0) && (txn_link_block h =? 0) && (txn_list_of_links_block h =? 0).

Lemma no_txnb_spec h : no_txnb h = true <-> no_txn h.
Proof. unfold no_txnb, no_txn. rewrite !andb_true_iff, !Z.eqb_eq. tauto. Qed.

Lemma sb_ok_spec h :
  sb_ok h <-> (is_u64 (magic h) /\ is_u64 (version h) /\ is_u64 (sb_num_blocks h) /\
    is_u64 (free_blocks h) /\ is_u64 (sb_generation h) /\ is_u64 (freelist_head h) /\
    is_u64 (empty_area_start h)) /\ (is_u64 (txn_meta_block h) /\ is_u64 (txn_data_block h) /\
    is_u64 (txn_link_block h) /\ is_u64 (txn_list_of_links_block h) /\
    is_u64 (txn_blocks_owner h) /\ is_u32 (txn_type h) /\ is_u32 (sb_crc32 h)).
Proof.
  unfold sb_ok, sb_widths, sb_fields. rewrite !Forall2_cons. unfold fits, is_u64, is_u32. simpl.
  split; [tauto|]. intros. repeat split; try tauto. constructor.
Qed.

Ltac sb_ok_upd :=
  rewrite !sb_ok_spec; simpl; intuition auto with machine.

Lemma upd_free_ok v h : is_u64 v -> sb_ok h -> sb_ok (upd_free v h).
Proof. sb_ok_upd. Qed.
Lemma upd_generation_ok v h : is_u64 v -> sb_ok h -> sb_ok (upd_generation v h).
Proof. sb_ok_upd. Qed.
Lemma upd_freelist_ok v h : is_u64 v -> sb_ok h -> sb_ok (upd_freelist v h).
Proof. sb_ok_upd. Qed.
Lemma upd_empty_ok v h : is_u64 v -> sb_ok h -> sb_ok (upd_empty v h).
Proof. sb_ok_upd. Qed.
Lemma upd_txn_ok o t h : is_u64 o -> is_u32 t -> sb_ok h -> sb_ok (upd_txn o t h).
Proof. sb_ok_upd. Qed.
Lemma upd_txn_block_ok t v h : is_u64 v -> sb_ok h -> sb_ok (upd_txn_block t v h).
Proof. destruct t; sb_ok_upd. Qed.

Lemma clear_txn_ok h : sb_ok h -> sb_ok (clear_txn h).
Proof.
  intros. unfold clear_txn. apply upd_txn_ok; [done|done|]. by repeat apply upd_txn_block_ok.
Qed.

#[export] Hint Resolve upd_free_ok upd_generation_ok upd_freelist_ok upd_empty_ok upd_txn_ok
  upd_txn_block_ok clear_txn_ok sb_set_crc32_ok : srfs.

(** ** The state predicate *)

Section State.
Context {D : Type} {Dev : SyncBlockDevice D} {DL : SyncBlockDeviceLaws D}.
Context {Crc : Crc32} {CL : Crc32Laws Crc} {Clk : Clock} {Unin : Uninit}.
Abbreviation fs := (SyncFileSystem D).

Definition recents (c : BlockCache D) (R : list Z) : Prop :=
  forall i b, R !! i = Some b -> recent c b (S i).

Record fs_st (N : Z) (s : fs) (h hd : SuperblockHeader) (V : Z -> Block) (dt : option Z) (R : list Z)
  : Prop := {
  st_cache : cache_rep N (blockcache s) (fupd V 0 (sb_enc hd ++ sb_rest (superblock s))) dt;
  st_error : fs_error s = None;
  st_header : header (superblock s) = h;
  st_rest : length (sb_rest (superblock s)) = 3992%nat;
  st_ok : sb_ok h;
  st_num : num_blocks s = sb_num_blocks h;
  st_geom : 3 <= sb_num_blocks h <= N /\ sb_num_blocks h < U64_MAX;
  st_recent : recents (blockcache s) R;
}.

Definition blk_in (h : SuperblockHeader) (b : Z) : Prop := 0 < b < sb_num_blocks h.

(** Using block [b]. *)
Definition use (b : Z) (R : list Z) : list Z := b :: take 15 R.

Lemma use_in x k b R : (k <= 15)%nat -> x ∈ take k R -> x ∈ take (S k) (use b R).
Proof.
  intros Hk Hx. unfold use. simpl. apply elem_of_cons. right. rewrite take_take, Nat.min_l by lia. done.
Qed.

Lemma take_mono k k' x (R : list Z) : (k <= k')%nat -> x ∈ take k R -> x ∈ take k' R.
Proof.
  intros Hk [j Hj]%list_elem_of_lookup. apply lookup_take_Some in Hj as [Hj Hj'].
  apply list_elem_of_lookup. exists j. apply lookup_take_Some. split; [done|lia].
Qed.

Lemma in_take x k (R : list Z) : x ∈ take k R -> x ∈ R.
Proof. intros H. rewrite <- (take_drop k R). apply elem_of_app. by left. Qed.

Lemma recents_use (c c' : BlockCache D) b R : recents c R -> touched b c c' -> recents c' (use b R).
Proof.
  intros HR [Hb Ht] [|i] x Hx; simpl in Hx.
  - by simplify_eq.
  - apply lookup_take_Some in Hx as [Hx Hi]. apply Ht; [unfold CACHE_SIZE; lia|]. by apply HR.
Qed.

Lemma recents_order (c c' : BlockCache D) R : order c' = order c -> recents c R -> recents c' R.
Proof. intros Ho HR i b Hb. unfold recent. rewrite Ho. by apply HR. Qed.

Lemma recents_get N (c : BlockCache D) V dt R b :
  cache_rep N c V dt -> recents c R -> b ∈ R -> recent c b CACHE_SIZE.
Proof.
  intros Rp HR [i Hi]%list_elem_of_lookup. specialize (HR i b Hi). unfold recent in *.
  apply list_elem_of_lookup in HR as [j Hj]. apply lookup_take_Some in Hj as [Hj _].
  apply list_elem_of_lookup. exists j. apply lookup_take_Some. split; [done|].
  apply lookup_lt_Some in Hj. unfold order in Hj. rewrite length_fmap, (cr_len _ _ _ _ Rp) in Hj. done.
Qed.

Lemma blk_in_cacheable N s h hd V dt R b : fs_st N s h hd V dt R -> blk_in h b -> cacheable b /\ b < N.
Proof. intros S [H1 H2]. destruct (st_geom _ _ _ _ _ _ _ S). unfold cacheable. lia. Qed.

Lemma st_block_ok N s h hd V dt R b : fs_st N s h hd V dt R -> blk_in h b -> block_ok (V b).
Proof.
  intros S Hb. destruct (blk_in_cacheable _ _ _ _ _ _ _ _ S Hb) as [Hc HN].
  pose proof (st_cache _ _ _ _ _ _ _ S) as C.
  replace (V b) with (fupd V 0 (sb_enc hd ++ sb_rest (superblock s)) b)
    by (apply fupd_ne; unfold blk_in in Hb; lia).
  rewrite <- (cr_view _ _ _ _ C b Hc). unfold view.
  destruct (cached b (blocks (blockcache s))) as [e|] eqn:E.
  - apply cached_no in E as [_ E]. pose proof (cr_blocks _ _ _ _ C) as F.
    rewrite Forall_forall in F. by apply F.
  - destruct (dev_healthy_read (block_device (blockcache s)) b Block_new_zeroed) as (d' & Hr & _).
    + apply (cr_healthy _ _ _ _ C).
    + rewrite (cr_num _ _ _ _ C). unfold blk_in in Hb. lia.
    + apply length_replicate.
    + apply dev_read_len in Hr. unfold block_ok. rewrite Hr. apply length_replicate.
Qed.

(** A cache operation that leaves the abstract content as [V']. *)
Lemma wp_on_cache {A} N s h hd V dt R (m : eff (BlockCache D) FsError A) (Q : A -> fs -> Prop) X
    (P : A -> (Z -> Block) -> option Z -> list Z -> Prop) :
  fs_st N s h hd V dt R ->
  wp m (blockcache s)
    (fun a c' => exists V' dt' R',
       cache_rep N c' (fupd V' 0 (sb_enc hd ++ sb_rest (superblock s))) dt' /\ recents c' R' /\
       P a V' dt' R') (fun _ _ => False) ->
  (forall a s' V' dt' R', P a V' dt' R' -> fs_st N s' h hd V' dt' R' -> Q a s') ->
  wp (on_cache m) s Q X.
Proof.
  intros [Hc He Hh Hr Hok Hn Hg HR] Hm HQ. unfold wp, on_cache in *.
  destruct (m (blockcache s)) as [c' [a|e|]]; [|done|done].
  destruct Hm as (V' & dt' & R' & Hc' & HR' & HP). eapply HQ; [exact HP|]. by split.
Qed.

Lemma fupd_0_ne (V : Z -> Block) x b : 0 < b -> fupd V 0 x b = V b.
Proof. intros. apply fupd_ne. lia. Qed.

Lemma fupd_0_comm (V : Z -> Block) x b y z :
  0 < b -> fupd (fupd V 0 x) b y z = fupd (fupd V b y) 0 x z.
Proof.
  intros. unfold fupd. destruct (Z.eqb_spec z b), (Z.eqb_spec z 0); try done. lia.
Qed.

(** ** Cache accesses *)

Lemma c_read_st N s h hd V R b (Q : Block -> fs -> Prop) X :
  fs_st N s h hd V None R -> blk_in h b ->
  (forall s', fs_st N s' h hd V None (use b R) -> Q (V b) s') -> wp (c_read b) s Q X.
Proof.
  intros S Hb HQ. destruct (blk_in_cacheable _ _ _ _ _ _ _ _ S Hb) as [Hc HN].
  eapply (wp_on_cache _ _ _ _ _ _ _ _ _ _
            (fun a V' dt' R' => a = V b /\ V' = V /\ dt' = None /\ R' = use b R)); [exact S| |].
  - eapply wp_mono; [by eapply read_spec; [apply (st_cache _ _ _ _ _ _ _ S)|..]| |done].
    intros blk c' (-> & C & T). exists V, None, (use b R). split; [done|].
    split; [by eapply recents_use; [apply (st_recent _ _ _ _ _ _ _ S)|]|].
    rewrite fupd_0_ne by apply Hb. done.
  - intros a s' V' dt' R' (-> & -> & -> & ->). apply HQ.
Qed.

Lemma c_get_st N s h hd V R b (Q : Block -> fs -> Prop) X :
  fs_st N s h hd V None R -> blk_in h b -> b ∈ R ->
  (forall s', fs_st N s' h hd V None (use b R) -> Q (V b) s') -> wp (c_get b) s Q X.
Proof.
  intros S Hb Hin HQ. destruct (blk_in_cacheable _ _ _ _ _ _ _ _ S Hb) as [Hc HN].
  pose proof (st_cache _ _ _ _ _ _ _ S) as C0. pose proof (st_recent _ _ _ _ _ _ _ S) as R0.
  eapply (wp_on_cache _ _ _ _ _ _ _ _ _ _
            (fun a V' dt' R' => a = V b /\ V' = V /\ dt' = None /\ R' = use b R)); [exact S| |].
  - eapply wp_mono; [by eapply get_spec; [exact C0|done|eapply recents_get]| |done].
    intros blk c' (-> & C & T). exists V, None, (use b R). split; [done|].
    split; [by eapply recents_use|]. rewrite fupd_0_ne by apply Hb. done.
  - intros a s' V' dt' R' (-> & -> & -> & ->). apply HQ.
Qed.

Lemma c_read_mut_st N s h hd V R b (Q : Block -> fs -> Prop) X :
  fs_st N s h hd V None R -> blk_in h b ->
  (forall s', fs_st N s' h hd V (Some b) (use b R) -> Q (V b) s') -> wp (c_read_mut b) s Q X.
Proof.
  intros S Hb HQ. destruct (blk_in_cacheable _ _ _ _ _ _ _ _ S Hb) as [Hc HN].
  eapply (wp_on_cache _ _ _ _ _ _ _ _ _ _
            (fun a V' dt' R' => a = V b /\ V' = V /\ dt' = Some b /\ R' = use b R)); [exact S| |].
  - eapply wp_mono; [by eapply read_mut_spec; [apply (st_cache _ _ _ _ _ _ _ S)|..]| |done].
    intros blk c' (-> & C & T). exists V, (Some b), (use b R). split; [done|].
    split; [by eapply recents_use; [apply (st_recent _ _ _ _ _ _ _ S)|]|].
    rewrite fupd_0_ne by apply Hb. done.
  - intros a s' V' dt' R' (-> & -> & -> & ->). apply HQ.
Qed.

Lemma c_get_mut_st N s h hd V R b (Q : Block -> fs -> Prop) X :
  fs_st N s h hd V None R -> blk_in h b -> b ∈ R ->
  (forall s', fs_st N s' h hd V (Some b) (use b R) -> Q (V b) s') -> wp (c_get_mut b) s Q X.
Proof.
  intros S Hb Hin HQ. destruct (blk_in_cacheable _ _ _ _ _ _ _ _ S Hb) as [Hc HN].
  pose proof (st_cache _ _ _ _ _ _ _ S) as C0. pose proof (st_recent _ _ _ _ _ _ _ S) as R0.
  eapply (wp_on_cache _ _ _ _ _ _ _ _ _ _
            (fun a V' dt' R' => a = V b /\ V' = V /\ dt' = Some b /\ R' = use b R)); [exact S| |].
  - eapply wp_mono; [by eapply get_mut_spec; [exact C0|done|eapply recents_get]| |done].
    intros blk c' (-> & C & T). exists V, (Some b), (use b R). split; [done|].
    split; [by eapply recents_use|]. rewrite fupd_0_ne by apply Hb. done.
  - intros a s' V' dt' R' (-> & -> & -> & ->). apply HQ.
Qed.

Lemma c_get_mut_again_st N s h hd V R b (Q : Block -> fs -> Prop) X :
  fs_st N s h hd V (Some b) R -> blk_in h b ->
  (forall s', fs_st N s' h hd V (Some b) R -> Q (V b) s') -> wp (c_get_mut b) s Q X.
Proof.
  intros S Hb HQ. destruct (blk_in_cacheable _ _ _ _ _ _ _ _ S Hb) as [Hc HN].
  eapply (wp_on_cache _ _ _ _ _ _ _ _ _ _
            (fun a V' dt' R' => a = V b /\ V' = V /\ dt' = Some b /\ R' = R)); [exact S| |].
  - pose proof (st_cache _ _ _ _ _ _ _ S) as C0.
    eapply wp_mono; [by eapply get_mut_again; [exact C0|]| |done].
    intros blk c' [-> ->]. exists V, (Some b), R. rewrite fupd_0_ne by apply Hb.
    split; [done|]. split; [apply (st_recent _ _ _ _ _ _ _ S)|done].
  - intros a s' V' dt' R' (-> & -> & -> & ->). apply HQ.
Qed.

Lemma c_uninit_st N s h hd V R b (Q : Block -> fs -> Prop) X :
  fs_st N s h hd V None R -> blk_in h b ->
  (forall junk s', block_ok junk -> fs_st N s' h hd (fupd V b junk) (Some b) (use b R) -> Q junk s') ->
  wp (c_uninit b) s Q X.
Proof.
  intros S Hb HQ. destruct (blk_in_cacheable _ _ _ _ _ _ _ _ S Hb) as [Hc HN].
  eapply (wp_on_cache _ _ _ _ _ _ _ _ _ _
            (fun a V' dt' R' => block_ok a /\ V' = fupd V b a /\ dt' = Some b /\ R' = use b R)); [exact S| |].
  - eapply wp_mono; [by eapply get_block_uninit_spec; [apply (st_cache _ _ _ _ _ _ _ S)|]| |done].
    intros blk c' (Hok & C & T). exists (fupd V b blk), (Some b), (use b R). split.
    { eapply cache_rep_ext; [|exact C]. intros x. apply fupd_0_comm, Hb. }
    split; [by eapply recents_use; [apply (st_recent _ _ _ _ _ _ _ S)|]|]. done.
  - intros a s' V' dt' R' (Hok & -> & -> & ->). by apply HQ.
Qed.

Lemma c_set_st N s h hd V R b blk (Q : unit -> fs -> Prop) X :
  fs_st N s h hd V (Some b) R -> blk_in h b -> block_ok blk ->
  (forall s', fs_st N s' h hd (fupd V b blk) (Some b) R -> Q tt s') -> wp (c_set blk) s Q X.
Proof.
  intros S Hb Hok HQ. destruct (blk_in_cacheable _ _ _ _ _ _ _ _ S Hb) as [Hc HN].
  eapply (wp_on_cache _ _ _ _ _ _ _ _ _ _
            (fun a V' dt' R' => V' = fupd V b blk /\ dt' = Some b /\ R' = R)); [exact S| |].
  - eapply wp_mono; [by eapply set_top_spec; [apply (st_cache _ _ _ _ _ _ _ S)|..]| |done].
    intros [] c' (C & T). exists (fupd V b blk), (Some b), R. split.
    { eapply cache_rep_ext; [|exact C]. intros x. apply fupd_0_comm, Hb. }
    split; [by eapply recents_order; [|apply (st_recent _ _ _ _ _ _ _ S)]|]. done.
  - intros [] s' V' dt' R' (-> & -> & ->). by apply HQ.
Qed.

Lemma c_write_st N s h hd V R b (Q : unit -> fs -> Prop) X :
  fs_st N s h hd V (Some b) R -> blk_in h b ->
  (forall s', fs_st N s' h hd V None R -> Q tt s') -> wp (c_write b) s Q X.
Proof.
  intros S Hb HQ. destruct (blk_in_cacheable _ _ _ _ _ _ _ _ S Hb) as [Hc HN].
  eapply (wp_on_cache _ _ _ _ _ _ _ _ _ _
            (fun a V' dt' R' => V' = V /\ dt' = None /\ R' = R)); [exact S| |].
  - eapply wp_mono; [by eapply write_spec; [apply (st_cache _ _ _ _ _ _ _ S)|..]| |done].
    intros [] c' (C & T). exists V, None, R. split; [done|].
    split; [by eapply recents_order; [|apply (st_recent _ _ _ _ _ _ _ S)]|]. done.
  - intros [] s' V' dt' R' (-> & -> & ->). by apply HQ.
Qed.

(** ** Superblock and transactions *)

Lemma wp_hdr N s h hd V dt R (Q : SuperblockHeader -> fs -> Prop) X :
  fs_st N s h hd V dt R -> Q h s -> wp hdr s Q X.
Proof. intros S HQ. unfold hdr. wp_steps. by rewrite (st_header _ _ _ _ _ _ _ S). Qed.

Lemma wp_upd_hdr N s h hd V dt R f (Q : unit -> fs -> Prop) X :
  fs_st N s h hd V dt R -> sb_ok (f h) -> sb_num_blocks (f h) = sb_num_blocks h ->
  (forall s', fs_st N s' (f h) hd V dt R -> Q tt s') -> wp (upd_hdr f) s Q X.
Proof.
  intros [Hc He Hh Hr Hok Hn Hg HR] Hf Hnb HQ. unfold upd_hdr. wp_steps. apply HQ.
  split; simpl; try done; by rewrite ?Hh, ?Hnb.
Qed.

Lemma wp_check_error N s h hd V dt R (Q : unit -> fs -> Prop) X :
  fs_st N s h hd V dt R -> Q tt s -> wp check_error s Q X.
Proof. intros S HQ. unfold check_error. wp_steps. rewrite (st_error _ _ _ _ _ _ _ S). by wp_steps. Qed.

Lemma save_superblock_st N s h hd V dt R (Q : unit -> fs -> Prop) X :
  fs_st N s h hd V dt R ->
  (forall s', fs_st N s' (sb_set_crc32 h) (sb_set_crc32 h) V dt R -> Q tt s') ->
  wp save_superblock s Q X.
Proof.
  intros S HQ. pose proof (st_ok _ _ _ _ _ _ _ S) as Hok. unfold save_superblock.
  wp_step. wp_step. wp_step. apply wp_assert; [by rewrite (st_error _ _ _ _ _ _ _ S)|]. wp_step.
  eapply (wp_upd_hdr _ _ _ _ _ _ _ sb_set_crc32); [exact S|auto with srfs machine|done|].
  intros s1 [Hc He Hh Hr Hok1 Hn Hg HR]. wp_steps.
  assert (Hblk : block_ok (Superblock_block (superblock s1))).
  { unfold block_ok, Superblock_block. rewrite length_app, length_sb_enc, Hr. done. }
  unfold wp, on_cache.
  pose proof (write_uncached_spec N (blockcache s1) _ dt _ Hc ltac:(lia) Hblk) as W. unfold wp in W.
  destruct (BlockCache.write_uncached_block _ _ _) as [c' [[]|e|]]; [|done|done].
  destruct W as [W1 W2]. apply HQ. split; simpl; try done.
  - eapply cache_rep_ext; [|exact W1]. intros x. unfold Superblock_block. rewrite Hh.
    unfold fupd. by destruct (x =? 0).
  - by eapply recents_order.
Qed.

Lemma start_txn_st N s h hd V dt R ty owner (Q : unit -> fs -> Prop) X :
  fs_st N s h hd V dt R -> no_txn h -> is_u64 (block_no owner) -> is_u32 ty ->
  let h' := sb_set_crc32 (upd_txn (block_no owner) ty h) in
  (forall s', fs_st N s' h' h' V dt R -> Q tt s') -> wp (start_txn ty owner) s Q X.
Proof.
  intros S (H1 & H2 & H3 & H4 & H5 & H6) Ho Ht h' HQ. pose proof (st_ok _ _ _ _ _ _ _ S) as Hok.
  unfold start_txn. wp_step. eapply wp_hdr; [exact S|].
  rewrite H1, H2, H3, H4, H5, H6. do 6 (wp_step; apply wp_assert; [done|]). wp_step.
  eapply (wp_upd_hdr _ _ _ _ _ _ _ (upd_txn (block_no owner) ty)); [exact S|auto with srfs machine|done|].
  intros s1 S1. eapply save_superblock_st; [exact S1|]. exact HQ.
Qed.

Lemma commit_txn_st N s h hd V dt R (Q : unit -> fs -> Prop) X :
  fs_st N s h hd V dt R ->
  let h' := sb_set_crc32 (clear_txn h) in
  (forall s', fs_st N s' h' h' V dt R -> Q tt s') -> wp commit_txn s Q X.
Proof.
  intros S h' HQ. pose proof (st_ok _ _ _ _ _ _ _ S) as Hok. unfold commit_txn. wp_step.
  eapply (wp_upd_hdr _ _ _ _ _ _ _ clear_txn); [exact S|auto with srfs machine|done|].
  intros s1 S1. eapply save_superblock_st; [exact S1|]. exact HQ.
Qed.

(** ** Block allocation

    Nothing ever sets [freelist_head] to a block, so on a filesystem made by
    [format] allocation is a bump of [empty_area_start]. *)
Definition bump (h : SuperblockHeader) : Prop :=
  freelist_head h = 0 /\ 2 <= empty_area_start h <= sb_num_blocks h.

(** A block the bump allocator can still hand out. *)
Definition can_alloc (h : SuperblockHeader) : Prop :=
  bump h /\ 0 < free_blocks h /\ empty_area_start h < sb_num_blocks h.

Definition alloc_hdr (t : BlockType) (h : SuperblockHeader) : SuperblockHeader :=
  upd_txn_block t (empty_area_start h)
    (upd_free (free_blocks h - 1) (upd_empty (empty_area_start h + 1) h)).

Lemma allocate_st N s h hd V dt R t (Q : Z -> fs -> Prop) X :
  fs_st N s h hd V dt R -> txn_blocks_owner h <> 0 -> can_alloc h ->
  let h' := sb_set_crc32 (alloc_hdr t h) in
  (forall s', fs_st N s' h' h' V dt R -> Q (empty_area_start h) s') ->
  wp (allocate_txn_block t) s Q X.
Proof.
  intros S Ho ([Hfl He] & Hf & Hlt) h' HQ. pose proof (st_ok _ _ _ _ _ _ _ S) as Hok.
  pose proof Hok as Hok'. rewrite sb_ok_spec in Hok'.
  destruct Hok' as [(_ & _ & Hnb & Hfr & _ & _ & Hes) _].
  assert (E1 : u64 (empty_area_start h + 1) = empty_area_start h + 1)
    by (apply u64_id; unfold is_u64 in *; lia).
  assert (E2 : u64 (free_blocks h - 1) = free_blocks h - 1) by (apply u64_id; unfold is_u64 in *; lia).
  unfold allocate_txn_block, pick_free_block. wp_step. eapply wp_hdr; [exact S|]. wp_step.
  apply wp_assert; [by apply negb_true_iff, Z.eqb_neq|]. rewrite (proj2 (Z.eqb_neq _ 0)) by lia.
  wp_step. wp_step. eapply wp_hdr; [exact S|]. rewrite Hfl. simpl. wp_step.
  eapply (wp_upd_hdr _ _ _ _ _ _ _ (upd_empty _)); [exact S|auto with srfs machine|done|].
  intros s1 S1. rewrite E1 in S1. wp_steps. apply wp_assert; [apply negb_true_iff, Z.eqb_neq; lia|]. wp_step.
  eapply wp_hdr; [exact S1|]. simpl. rewrite (proj2 (Z.leb_gt _ _)) by lia. wp_step.
  pose proof (st_ok _ _ _ _ _ _ _ S1) as Hok1.
  eapply (wp_upd_hdr _ _ _ _ _ _ _ (fun h => upd_free (u64 (free_blocks h - 1)) h));
    [exact S1|auto with srfs machine|done|].
  intros s2 S2. simpl in S2. rewrite E2 in S2. wp_step. pose proof (st_ok _ _ _ _ _ _ _ S2) as Hok2.
  eapply (wp_upd_hdr _ _ _ _ _ _ _ (upd_txn_block t _)); [exact S2|auto with srfs machine|by destruct t|].
  intros s3 S3. wp_step. eapply save_superblock_st; [exact S3|]. intros s4 S4. wp_steps. by apply HQ.
Qed.

(** The header after [free_txn_block]; a block that is not the last one given
    out is written over and never reachable again. *)
Definition freed_last (t : BlockType) (h : SuperblockHeader) : bool :=
  empty_area_start h =? txn_block t h + 1.

Definition free_hdr (t : BlockType) (h : SuperblockHeader) : SuperblockHeader :=
  let h1 := if freed_last t h then upd_empty (empty_area_start h - 1) h else h in
  upd_free (free_blocks h + 1) (upd_txn_block t 0 h1).

(** What a freed block holds. *)
Definition freed_view (t : BlockType) (h : SuperblockHeader) (V V' : Z -> Block) : Prop :=
  forall b, b <> txn_block t h -> V' b = V b.

Lemma free_st N s h hd V R t (Q : unit -> fs -> Prop) X :
  fs_st N s h hd V None R -> blk_in h (txn_block t h) -> free_blocks h < sb_num_blocks h ->
  let h' := sb_set_crc32 (free_hdr t h) in
  (forall s' V' R', fs_st N s' h' h' V' None R' -> freed_view t h V V' -> Q tt s') ->
  wp (free_txn_block t) s Q X.
Proof.
  intros S Hb Hf h' HQ. pose proof (st_ok _ _ _ _ _ _ _ S) as Hok.
  pose proof Hok as Hok'. rewrite sb_ok_spec in Hok'.
  destruct Hok' as [(_ & _ & Hnb & Hfr & _ & _ & Hes) _].
  destruct (st_geom _ _ _ _ _ _ _ S) as [Hg1 Hg2]. unfold blk_in in Hb. unfold U64_MAX in Hg2.
  assert (Ef : u64 (free_blocks h + 1) = free_blocks h + 1) by (apply u64_id; unfold is_u64 in *; lia).
  assert (Eb : u64 (txn_block t h + 1) = txn_block t h + 1) by (apply u64_id; unfold is_u64 in *; lia).
  assert (Tail : forall s1 h1 V1 R1, fs_st N s1 h1 hd V1 None R1 -> free_blocks h1 = free_blocks h ->
     sb_set_crc32 (upd_free (free_blocks h + 1) (upd_txn_block t 0 h1)) = h' -> freed_view t h V V1 ->
     wp (upd_hdr (upd_txn_block t 0);;; upd_hdr (fun h => upd_free (u64 (free_blocks h + 1)) h);;;
         save_superblock) s1 Q X).
  { intros s1 h1 V1 R1 S1 Efr Eh Hv. pose proof (st_ok _ _ _ _ _ _ _ S1) as Hok1. wp_step.
    eapply (wp_upd_hdr _ _ _ _ _ _ _ (upd_txn_block t 0)); [exact S1|auto with srfs machine|by destruct t|].
    intros s2 S2. wp_step. pose proof (st_ok _ _ _ _ _ _ _ S2) as Hok2.
    eapply (wp_upd_hdr _ _ _ _ _ _ _ (fun h => upd_free (u64 (free_blocks h + 1)) h));
      [exact S2|auto with srfs machine|done|].
    intros s3 S3. replace (free_blocks (upd_txn_block t 0 h1)) with (free_blocks h) in S3
      by (rewrite <- Efr; by destruct t). rewrite Ef in S3.
    eapply save_superblock_st; [exact S3|]. rewrite Eh. intros s4 S4. by eapply HQ. }
  unfold free_txn_block. wp_step. eapply wp_hdr; [exact S|]. wp_step.
  apply wp_assert; [apply negb_true_iff, Z.eqb_neq; lia|]. wp_step. rewrite Eb.
  unfold h', free_hdr, freed_last in *. destruct (empty_area_start h =? txn_block t h + 1) eqn:E.
  - apply Z.eqb_eq in E.
    eapply (wp_upd_hdr _ _ _ _ _ _ _ (fun h => upd_empty (u64 (empty_area_start h - 1)) h));
      [exact S|auto with srfs machine|done|].
    intros s1 S1. rewrite u64_id in S1 by (unfold is_u64 in *; lia).
    eapply Tail; [exact S1|done|done|done].
  - wp_step. eapply c_uninit_st; [exact S|exact Hb|]. intros junk s1 Hj S1. wp_step.
    eapply c_set_st; [exact S1|exact Hb|by apply put_u64_block_ok|]. intros s2 S2.
    eapply c_write_st; [exact S2|exact Hb|]. intros s3 S3.
    eapply Tail; [exact S3|done|done|]. intros x Hx. by rewrite !fupd_ne.
Qed.

(** ** Blocks taken by an operation *)

(** [h'] is [h] after some allocations of the open transaction. *)
Record grows (h h' : SuperblockHeader) : Prop := {
  gr_num : sb_num_blocks h' = sb_num_blocks h;
  gr_magic : magic h' = magic h;
  gr_version : version h' = version h;
  gr_generation : sb_generation h' = sb_generation h;
  gr_freelist : freelist_head h' = freelist_head h;
  gr_type : txn_type h' = txn_type h;
  gr_owner : txn_blocks_owner h' = txn_blocks_owner h;
  gr_empty : empty_area_start h <= empty_area_start h';
  gr_free : free_blocks h' + empty_area_start h' = free_blocks h + empty_area_start h;
}.

Lemma grows_refl h : grows h h.
Proof. by split. Qed.

Lemma grows_trans h1 h2 h3 : grows h1 h2 -> grows h2 h3 -> grows h1 h3.
Proof. intros [] []. split; try congruence; lia. Qed.

Lemma grows_alloc t h : grows h (sb_set_crc32 (alloc_hdr t h)).
Proof. destruct t; split; simpl; try done; lia. Qed.

Lemma empty_alloc t h : empty_area_start (sb_set_crc32 (alloc_hdr t h)) = empty_area_start h + 1.
Proof. by destruct t. Qed.

(** Room for [n] more blocks. *)
Definition room (n : Z) (h : SuperblockHeader) : Prop :=
  bump h /\ n <= free_blocks h /\ empty_area_start h + n <= sb_num_blocks h.

Lemma room_can_alloc n h : 0 < n -> room n h -> can_alloc h.
Proof. intros Hn (Hb & Hf & He). split; [done|]. lia. Qed.

Lemma room_alloc n t h : 0 < n -> room n h -> room (n - 1) (sb_set_crc32 (alloc_hdr t h)).
Proof.
  intros Hn ((Hfl & Hb) & Hf & He). unfold room, bump. destruct t; simpl; lia.
Qed.
End State.

#[export] Hint Resolve grows_refl grows_alloc : srfs.

(** Membership in a list of recently used blocks. *)
Ltac in_recent := unfold use; simpl; rewrite ?elem_of_cons; tauto.
