(* ===== verification/SrfsDir.v ===== *)
(** * SRFS directories

    A directory with [num] entries is stored in one of three shapes: in its
    metadata block (up to 14 entries), in data blocks of 15 entries linked from
    the metadata block (up to 7440), or in data blocks linked from link blocks.
    [entry_loc] gives the block and position of each entry in every shape;
    [dir_ok] says that the blocks of a directory are in use and distinct.  The
    lookups and updates of fs_sync.rs are specified by their effect on the
    sequence of entries, whatever the shape, shape changes included. *)

From stdpp Require Import base numbers list.
From S2P Require Import RustPrelude Crc32 SrfsLayout BlockDevice BlockCache SrfsFs SrfsState.

Open Scope Z_scope.

(** ** Shape *)

Definition meta_link (b : Block) (i : Z) : Z := get_u64_at (128 + 8 * i) b.
Definition link (b : Block) (i : Z) : Z := get_u64_at (8 * i) b.

Definition data_blk (V : Z -> Block) (p num k : Z) : Z :=
  if num <=? 7440 then meta_link (V p) k else link (V (meta_link (V p) (k / 512))) (k mod 512).

Definition n_data (num : Z) : Z := if num <=? 14 then 0 else (num + 14) / 15.
Definition n_link (num : Z) : Z := if num <=? 7440 then 0 else (num + 7679) / 7680.

Definition entry_loc (V : Z -> Block) (p num pos : Z) : Z * Z :=
  if num <=? 14 then (p, pos + 1) else (data_blk V p num (pos / 15), pos mod 15).

Definition dir_entry (V : Z -> Block) (p num pos : Z) : DirEntryInternal :=
  entry_at (V (entry_loc V p num pos).1) (entry_loc V p num pos).2.

(** The blocks of the directory lie below [e] and are pairwise distinct. *)
Record dir_shape (V : Z -> Block) (e p num : Z) : Prop := {
  ds_parent : 0 < p < e;
  ds_link : forall i, 0 <= i < n_link num -> 0 < meta_link (V p) i < e;
  ds_data : forall k, 0 <= k < n_data num -> 0 < data_blk V p num k < e;
  ds_parent_link : forall i, 0 <= i < n_link num -> meta_link (V p) i <> p;
  ds_parent_data : forall k, 0 <= k < n_data num -> data_blk V p num k <> p;
  ds_link_data : forall i k, 0 <= i < n_link num -> 0 <= k < n_data num ->
    meta_link (V p) i <> data_blk V p num k;
  ds_link_inj : forall i j, 0 <= i < n_link num -> 0 <= j < n_link num ->
    meta_link (V p) i = meta_link (V p) j -> i = j;
  ds_data_inj : forall k l, 0 <= k < n_data num -> 0 <= l < n_data num ->
    data_blk V p num k = data_blk V p num l -> k = l;
}.

Section Dir.
Context {D : Type} {Dev : SyncBlockDevice D} {DL : SyncBlockDeviceLaws D}.
Context {Crc : Crc32} {CL : Crc32Laws Crc} {Clk : Clock} {Unin : Uninit}.
Abbreviation fs := (SyncFileSystem D).

Record dir_ok (V : Z -> Block) (e : Z) (id : EntryId) (num : Z) : Prop := {
  do_id : id_ok id;
  do_valid : validate_dir (get_meta (V (block_no id))) id = Ok tt;
  do_size : size (get_meta (V (block_no id))) = num;
  do_num : 0 <= num <= MAX_DIR_ENTRIES;
  do_shape : dir_shape V e (block_no id) num;
}.

Lemma loc_in V e p num pos :
  dir_shape V e p num -> 0 <= pos < num ->
  0 < (entry_loc V p num pos).1 < e /\ entry_pos_ok (entry_loc V p num pos).2.
Proof.
  intros S Hp. unfold entry_loc, entry_pos_ok. change MAX_ENTRIES_IN_DATA_BLOCK with 15.
  destruct (Z.leb_spec num 14); simpl.
  - split; [apply (ds_parent _ _ _ _ S)|lia].
  - split; [|dlia]. apply (ds_data _ _ _ _ S). unfold n_data.
    rewrite (proj2 (Z.leb_gt _ _)) by done. dlia.
Qed.

(** The directory does not depend on other blocks. *)
Lemma data_blk_frame V V' p num k :
  V' p = V p -> (7440 < num -> V' (meta_link (V p) (k / 512)) = V (meta_link (V p) (k / 512))) ->
  data_blk V' p num k = data_blk V p num k.
Proof.
  intros Hp Hl. unfold data_blk. rewrite Hp. destruct (Z.leb_spec num 7440); [done|].
  by rewrite Hl.
Qed.

Definition dir_block (V : Z -> Block) (p num b : Z) : Prop :=
  b = p \/ (exists i, 0 <= i < n_link num /\ b = meta_link (V p) i) \/
  (exists k, 0 <= k < n_data num /\ b = data_blk V p num k).

Lemma n_link_data num k : 7440 < num <= 65536 -> 0 <= k < n_data num -> 0 <= k / 512 < n_link num.
Proof.
  intros Hn. unfold n_data, n_link. rewrite !(proj2 (Z.leb_gt _ _)) by lia. dlia.
Qed.

Lemma data_blk_same V V' p num k :
  num <= 65536 -> 0 <= k < n_data num ->
  (forall b, dir_block V p num b -> V' b = V b) -> data_blk V' p num k = data_blk V p num k.
Proof.
  intros Hn Hk H. apply data_blk_frame; [apply H; by left|]. intros Hnum.
  apply H. right. left. exists (k / 512). split; [|done]. by apply n_link_data.
Qed.

Lemma dir_shape_frame V V' e p num :
  num <= 65536 -> dir_shape V e p num -> (forall b, dir_block V p num b -> V' b = V b) ->
  dir_shape V' e p num.
Proof.
  intros Hn [H1 H2 H3 H4 H5 H6 H7 H8] H.
  assert (Hp : V' p = V p) by (apply H; by left).
  assert (Hd : forall k, 0 <= k < n_data num -> data_blk V' p num k = data_blk V p num k)
    by (intros; by apply data_blk_same).
  split; rewrite ?Hp; try done; intros; rewrite ?Hd in * by done; auto.
Qed.

Lemma dir_entry_frame V V' e p num pos :
  num <= 65536 -> dir_shape V e p num -> (forall b, dir_block V p num b -> V' b = V b) ->
  0 <= pos < num ->
  entry_loc V' p num pos = entry_loc V p num pos /\ dir_entry V' p num pos = dir_entry V p num pos.
Proof.
  intros Hn S H Hp.
  assert (L : entry_loc V' p num pos = entry_loc V p num pos).
  { unfold entry_loc. destruct (Z.leb_spec num 14); [done|]. f_equal. apply data_blk_same; try done.
    unfold n_data. rewrite (proj2 (Z.leb_gt _ _)) by lia. dlia. }
  split; [done|]. unfold dir_entry. rewrite L. f_equal. apply H. unfold entry_loc.
  destruct (Z.leb_spec num 14); [by left|]. right. right. exists (pos / 15). split; [|done].
  unfold n_data. rewrite (proj2 (Z.leb_gt _ _)) by lia. dlia.
Qed.

(** ** Lookup *)

(** The first entry that satisfies [pred], or none of the first [num]. *)
Definition first_entry (V : Z -> Block) (p num : Z) (pred : DirEntryInternal -> bool) (pos : Z) : Prop :=
  0 <= pos < num /\ pred (dir_entry V p num pos) = true /\
  forall q, 0 <= q < pos -> pred (dir_entry V p num q) = false.

Definition no_entry (V : Z -> Block) (p num : Z) (pred : DirEntryInternal -> bool) : Prop :=
  forall q, 0 <= q < num -> pred (dir_entry V p num q) = false.

Lemma scan_meta_spec n pred b pos :
  0 <= pos -> pos + Z.of_nat n <= 14 ->
  exists r, scan_meta n pred b pos = Ok r /\
    match r with
    | Some q => pos + 1 <= q <= pos + Z.of_nat n /\ pred (entry_at b q) = true /\
                forall j, pos + 1 <= j < q -> pred (entry_at b j) = false
    | None => forall j, pos + 1 <= j <= pos + Z.of_nat n -> pred (entry_at b j) = false
    end.
Proof.
  revert pos. induction n as [|n IH]; intros pos Hp Hn.
  - exists None. split; [done|]. intros. lia.
  - simpl. rewrite get_dir_entry_at
      by (unfold entry_pos_ok; change MAX_ENTRIES_IN_DATA_BLOCK with 15; lia).
    destruct (pred (entry_at b (pos + 1))) eqn:E.
    + exists (Some (pos + 1)). repeat split; try done; intros; lia.
    + destruct (IH (pos + 1)) as ([q|] & -> & Hr); [lia|lia| |].
      * exists (Some q). destruct Hr as (Hq & Hp' & Hj). repeat split; try done; try lia.
        intros j Hj'. destruct (decide (j = pos + 1)) as [->|]; [done|]. apply Hj. lia.
      * exists None. split; [done|]. intros j Hj'.
        destruct (decide (j = pos + 1)) as [->|]; [done|]. apply Hr. lia.
Qed.

Lemma scan_entries_spec n pred b pos curr num :
  0 <= pos -> pos + Z.of_nat n = 15 -> (0 < Z.of_nat n -> curr < num) ->
  exists r curr', scan_entries n pred b pos curr num = Ok (r, curr') /\
    match r with
    | Some q => pos <= q < 15 /\ q - pos < num - curr /\ pred (entry_at b q) = true /\
                forall j, pos <= j < q -> pred (entry_at b j) = false
    | None => curr' = (if decide (n = O) then curr else Z.min (curr + Z.of_nat n) num) /\
              forall j, pos <= j < 15 -> j - pos < num - curr -> pred (entry_at b j) = false
    end.
Proof.
  revert pos curr. induction n as [|n IH]; intros pos curr Hp Hn Hc.
  - exists None, curr. split; [done|]. split; [done|]. intros. lia.
  - cbn [scan_entries]. rewrite get_dir_entry_at
      by (unfold entry_pos_ok; change MAX_ENTRIES_IN_DATA_BLOCK with 15; lia).
    destruct (pred (entry_at b pos)) eqn:E.
    { exists (Some pos), curr. repeat split; try done; intros; lia. }
    destruct (Z.leb_spec num (curr + 1)) as [Hle|Hgt].
    { exists None, (curr + 1). split; [done|]. split; [rewrite decide_False by done; lia|].
      intros j Hj Hj'. assert (j = pos) as -> by lia. done. }
    destruct (IH (pos + 1) (curr + 1)) as ([q|] & c' & -> & Hr); [lia|lia|lia| |].
    + exists (Some q), c'. destruct Hr as (Hq & Hq' & Hp' & Hj). repeat split; try done; try lia.
      intros j Hj'. destruct (decide (j = pos)) as [->|]; [done|]. apply Hj. lia.
    + exists None, c'. destruct Hr as [-> Hr]. split; [done|]. split.
      * destruct (decide (n = 0%nat)), (decide (S n = 0%nat)); lia.
      * intros j Hj Hj'. destruct (decide (j = pos)) as [->|]; [done|]. apply Hr; lia.
Qed.

(** Scanning data block [k] of a directory kept in data blocks. *)
Lemma scan_block_dir V p num pred k :
  14 < num -> 0 <= k < n_data num ->
  exists r curr', scan_entries 15 pred (V (data_blk V p num k)) 0 (15 * k) num = Ok (r, curr') /\
    match r with
    | Some j => 0 <= j < 15 /\ entry_loc V p num (15 * k + j) = (data_blk V p num k, j) /\
                15 * k + j < num /\ pred (dir_entry V p num (15 * k + j)) = true /\
                forall q, 15 * k <= q < 15 * k + j -> pred (dir_entry V p num q) = false
    | None => curr' = Z.min (15 * (k + 1)) num /\
              forall q, 15 * k <= q < 15 * (k + 1) -> q < num -> pred (dir_entry V p num q) = false
    end.
Proof.
  intros Hn Hk.
  assert (Hk' : 15 * k < num).
  { unfold n_data in Hk. rewrite (proj2 (Z.leb_gt _ _)) in Hk by lia. dlia. }
  assert (Hloc : forall j, 0 <= j < 15 -> entry_loc V p num (15 * k + j) = (data_blk V p num k, j)).
  { intros j Hj. unfold entry_loc. rewrite (proj2 (Z.leb_gt _ _)) by lia. f_equal; [f_equal|]; dlia. }
  assert (Hent : forall q, 15 * k <= q < 15 * (k + 1) ->
            dir_entry V p num q = entry_at (V (data_blk V p num k)) (q - 15 * k)).
  { intros q Hq. unfold dir_entry. replace q with (15 * k + (q - 15 * k)) at 1 2 by lia.
    rewrite Hloc by lia. done. }
  destruct (scan_entries_spec 15 pred (V (data_blk V p num k)) 0 (15 * k) num)
    as ([j|] & c' & -> & Hr); [lia|lia|lia| |].
  - exists (Some j), c'. destruct Hr as (Hj & Hj' & Hp & Hlt). split; [done|]. split; [done|].
    split; [by apply Hloc|]. split; [lia|]. split.
    + rewrite Hent by lia. by replace (15 * k + j - 15 * k) with j by lia.
    + intros q Hq. rewrite Hent by lia. apply Hlt. lia.
  - exists None, c'. destruct Hr as [-> Hr]. split; [done|]. split.
    + rewrite decide_False by done. lia.
    + intros q Hq Hq'. rewrite Hent by lia. apply Hr; lia.
Qed.

Lemma n_data_list num : 14 < num -> n_data num = (num + 14) / 15.
Proof. intros. unfold n_data. by rewrite (proj2 (Z.leb_gt _ _)) by lia. Qed.

Lemma n_link_list num : 7440 < num -> n_link num = (num + 7679) / 7680.
Proof. intros. unfold n_link. by rewrite (proj2 (Z.leb_gt _ _)) by lia. Qed.

Lemma shape_in V e p num h k :
  dir_shape V e p num -> e <= sb_num_blocks h -> 0 <= k < n_data num -> blk_in h (data_blk V p num k).
Proof. intros S He Hk. pose proof (ds_data _ _ _ _ S k Hk). unfold blk_in. lia. Qed.

Section Lookup.
Context {N : Z} {h hd : SuperblockHeader} {V : Z -> Block} {e p num : Z} (pred : DirEntryInternal -> bool).
Context (He : e <= sb_num_blocks h) (Sh : dir_shape V e p num).
Context (Q : option (Z * Z) -> fs -> Prop) (X : FsError -> fs -> Prop).
Hypothesis QSome : forall pos s' R', first_entry V p num pred pos -> fs_st N s' h hd V None R' ->
  (entry_loc V p num pos).1 ∈ take 1 R' -> Q (Some (entry_loc V p num pos)) s'.
Hypothesis QNone : forall s' R', no_entry V p num pred -> fs_st N s' h hd V None R' -> Q None s'.

Lemma scan_data_blocks_st n idx curr s R :
  fs_st N s h hd V None R -> 14 < num <= 7440 -> 0 <= idx -> idx + Z.of_nat n = n_data num ->
  (0 < Z.of_nat n -> curr = 15 * idx) ->
  (forall q, 0 <= q < 15 * idx -> q < num -> pred (dir_entry V p num q) = false) ->
  wp (scan_data_blocks n pred (V p) idx curr num) s Q X.
Proof.
  revert idx curr s R. induction n as [|n IH]; intros idx curr s R S Hn Hi Hin Hc Hno.
  - simpl. wp_steps. eapply QNone; [|exact S]. intros q Hq. apply Hno; [|lia].
    rewrite n_data_list in Hin by lia. dlia.
  - assert (Hk : 0 <= idx < n_data num) by lia. rewrite Hc by lia.
    assert (Hl : meta_link_ok idx).
    { unfold meta_link_ok. change MAX_LINKS_IN_META_BLOCK with 496.
      rewrite n_data_list in Hk by lia. dlia. }
    assert (Hb : get_u64_at (128 + 8 * idx) (V p) = data_blk V p num idx).
    { unfold data_blk. by rewrite (proj2 (Z.leb_le _ _)) by lia. }
    cbn [scan_data_blocks]. rewrite get_link_meta by done. rewrite Hb. wp_step. wp_step. wp_step.
    eapply c_read_st; [exact S|by eapply shape_in|]. intros s1 S1. wp_step.
    destruct (scan_block_dir V p num pred idx) as ([j|] & c' & -> & Hr); [lia|done| |]; wp_step.
    + destruct Hr as (Hj & Hloc & Hlt & Hp & Hall). wp_steps. rewrite <- Hloc.
      eapply QSome; [|exact S1|rewrite Hloc; simpl; apply elem_of_cons; by left].
      split; [lia|]. split; [done|]. intros q Hq. destruct (decide (q < 15 * idx)); [apply Hno|apply Hall]; lia.
    + destruct Hr as [-> Hall]. eapply IH; [exact S1|done|lia|lia| |].
      * intros. rewrite n_data_list in Hin by lia. dlia.
      * intros q Hq Hq'. destruct (decide (q < 15 * idx)); [apply Hno|apply Hall]; lia.
Qed.

Lemma scan_link_block_st i n idx s R (K : option (Z * Z) * Z * Z -> fs -> Prop) :
  fs_st N s h hd V None R -> 7440 < num <= 65536 -> 0 <= i -> 0 <= idx -> idx + Z.of_nat n = 512 ->
  512 * i + idx <= n_data num -> (0 < Z.of_nat n -> 512 * i + idx < n_data num) ->
  (forall q, 0 <= q < 15 * (512 * i + idx) -> q < num -> pred (dir_entry V p num q) = false) ->
  (forall pos c cb s' R', first_entry V p num pred pos -> fs_st N s' h hd V None R' ->
     (entry_loc V p num pos).1 ∈ take 1 R' -> K (Some (entry_loc V p num pos), c, cb) s') ->
  (forall s' R', let cb := Z.min (512 * (i + 1)) (n_data num) in
     (forall q, 0 <= q < 15 * cb -> q < num -> pred (dir_entry V p num q) = false) ->
     fs_st N s' h hd V None R' -> K (None, Z.min (15 * cb) num, cb) s') ->
  wp (scan_link_block n pred (V (meta_link (V p) i)) idx (Z.min (15 * (512 * i + idx)) num)
        (512 * i + idx) num (n_data num)) s K X.
Proof.
  intros S Hn Hi Hx Hin Hle Hlt Hno KS KN. revert idx s R S Hx Hin Hle Hlt Hno.
  induction n as [|n IH]; intros idx s R S Hx Hin Hle Hlt Hno.
  - simpl. wp_steps. replace (512 * i + idx) with (Z.min (512 * (i + 1)) (n_data num)) by lia.
    eapply KN; [|exact S]. intros q Hq. apply Hno. lia.
  - set (k := 512 * i + idx) in *. assert (Hk : 0 <= k < n_data num) by lia.
    assert (Hk15 : 15 * k < num) by (rewrite n_data_list in Hk by lia; dlia).
    assert (Hb : get_u64_at (8 * idx) (V (meta_link (V p) i)) = data_blk V p num k).
    { unfold data_blk. rewrite (proj2 (Z.leb_gt _ _)) by lia. unfold link, k.
      replace ((512 * i + idx) / 512) with i by dlia. f_equal. dlia. }
    replace (Z.min (15 * k) num) with (15 * k) by lia.
    cbn [scan_link_block]. rewrite get_link by (unfold link_ok; lia). rewrite Hb.
    wp_step. wp_step. wp_step. eapply c_read_st; [exact S|by eapply shape_in|]. intros s1 S1. wp_step.
    destruct (scan_block_dir V p num pred k) as ([j|] & c' & -> & Hr); [lia|done| |]; wp_step.
    + destruct Hr as (Hj & Hloc & Hj' & Hp & Hall). wp_steps. rewrite <- Hloc.
      eapply KS; [|exact S1|rewrite Hloc; simpl; apply elem_of_cons; by left].
      split; [lia|]. split; [done|]. intros q Hq. destruct (decide (q < 15 * k)); [apply Hno|apply Hall]; lia.
    + destruct Hr as [-> Hall].
      assert (Hno' : forall q, 0 <= q < 15 * (k + 1) -> q < num -> pred (dir_entry V p num q) = false).
      { intros q Hq Hq'. destruct (decide (q < 15 * k)); [apply Hno|apply Hall]; lia. }
      destruct (Z.leb_spec (n_data num) (k + 1)) as [Hend|Hmore].
      * wp_steps. replace (k + 1) with (Z.min (512 * (i + 1)) (n_data num)) by lia.
        eapply KN; [|exact S1]. intros q Hq. apply Hno'. lia.
      * replace (k + 1) with (512 * i + (idx + 1)) by lia.
        eapply IH; [exact S1|lia|lia|lia|lia|]. intros q Hq. apply Hno'. lia.
Qed.

Lemma scan_link_blocks_st n i s R :
  fs_st N s h hd V None R -> 7440 < num <= 65536 -> 0 <= i -> i + Z.of_nat n = n_link num ->
  (forall q, 0 <= q < 15 * (512 * i) -> q < num -> pred (dir_entry V p num q) = false) ->
  wp (scan_link_blocks n pred (V p) i (Z.min (15 * (512 * i)) num) (Z.min (512 * i) (n_data num))
        num (n_data num)) s Q X.
Proof.
  revert i s R. induction n as [|n IH]; intros i s R S Hn Hi Hin Hno.
  - simpl. wp_steps. eapply QNone; [|exact S]. intros q Hq. apply Hno; [|lia].
    rewrite n_link_list in Hin by lia. dlia.
  - assert (Hil : 0 <= i < n_link num) by lia.
    assert (Hm : meta_link_ok i).
    { unfold meta_link_ok. change MAX_LINKS_IN_META_BLOCK with 496. rewrite n_link_list in Hil by lia. dlia. }
    assert (Hnd : 512 * i + 0 < n_data num).
    { rewrite n_link_list in Hil by lia. rewrite n_data_list by lia. dlia. }
    pose proof (ds_link _ _ _ _ Sh i Hil) as Hlb. cbn [scan_link_blocks].
    rewrite get_link_meta by done. wp_step. wp_step. wp_step.
    eapply c_read_st; [exact S|unfold blk_in, meta_link in *; lia|]. intros s1 S1. wp_step.
    replace (Z.min (512 * i) (n_data num)) with (512 * i + 0) by lia.
    replace (15 * (512 * i)) with (15 * (512 * i + 0)) by lia.
    eapply (scan_link_block_st i 512 0); [exact S1|done|done|lia|lia|lia|lia| | |].
    + intros q Hq. apply Hno. lia.
    + intros pos c cb s2 R2 HF S2 Hin2. wp_steps. by eapply QSome.
    + intros s2 R2 cb Hno2 S2. wp_steps. unfold cb in *.
      replace (Z.min (15 * Z.min (512 * (i + 1)) (n_data num)) num)
        with (Z.min (15 * (512 * (i + 1))) num)
        by (rewrite n_data_list by lia; dlia).
      eapply IH; [exact S2|done|lia|lia|]. intros q Hq Hq'. apply Hno2; [|done].
      rewrite n_data_list by lia. dlia.
Qed.
End Lookup.

Lemma wp_or_not_found {A} (m : eff fs FsError (option A)) s (Q : A -> fs -> Prop) X :
  wp m s (fun r s' => match r with Some a => Q a s' | None => X NotFound s' end) X ->
  wp (or_not_found m) s Q X.
Proof.
  intros H. unfold or_not_found. apply wp_bind. eapply wp_mono; [exact H| |done].
  intros [a|] s' HQ; wp_steps; done.
Qed.

Lemma validate_dir_num V e id num :
  dir_ok V e id num -> 0 < block_no id < e /\ 0 <= num <= 65536.
Proof. intros [_ _ _ Hn [Hp _ _ _ _ _ _ _]]. done. Qed.

Lemma div_ceil_eq a b : 0 <= a <= 65536 -> 0 < b < 10000 -> div_ceil a b = (a + b - 1) / b.
Proof. intros. unfold div_ceil. rewrite u64_id by (unfold is_u64; lia). done. Qed.

Lemma find_entry_st N s h hd V R e id num pred (Q : Z * Z -> fs -> Prop) X :
  fs_st N s h hd V None R -> dir_ok V e id num -> e <= sb_num_blocks h ->
  (forall pos s' R', first_entry V (block_no id) num pred pos -> fs_st N s' h hd V None R' ->
     (entry_loc V (block_no id) num pos).1 ∈ take 1 R' -> Q (entry_loc V (block_no id) num pos) s') ->
  (forall s' R', no_entry V (block_no id) num pred -> fs_st N s' h hd V None R' -> X NotFound s') ->
  wp (find_entry id pred) s Q X.
Proof.
  intros S DO He QS QN. destruct (validate_dir_num _ _ _ _ DO) as [Hp Hn].
  destruct DO as [_ Hv Hsz _ Sh]. unfold find_entry. set (p := block_no id) in *. wp_step. eapply wp_check_error; [exact S|]. wp_step.
  eapply c_read_st; [exact S|unfold blk_in; lia|]. intros s1 S1. wp_step. rewrite Hv. wp_steps.
  rewrite Hsz. change MAX_ENTRIES_IN_META_BLOCK with 14. change MAX_ENTRIES_ONLY_DATA_BLOCKS with 7440.
  change MAX_ENTRIES_IN_DATA_BLOCK with 15. change MAX_ENTRIES_COVERED_BY_FIRST_LEVEL_BLOCKLIST with 7680.
  change MAX_LINKS_IN_META_BLOCK with 496.
  destruct (Z.leb_spec num 14) as [H14|H14]; [|destruct (Z.leb_spec num 7440) as [H7|H7]].
  - apply wp_or_not_found. wp_step.
    destruct (scan_meta_spec (Z.to_nat num) pred (V p) 0) as ([q|] & -> & Hr); [lia|lia| |]; wp_steps; simpl.
    + destruct Hr as (Hq & Hpq & Hlt).
      assert (Hent : forall j, dir_entry V p num j = entry_at (V p) (j + 1)).
      { intros j. unfold dir_entry, entry_loc. by rewrite (proj2 (Z.leb_le _ _)) by lia. }
      replace (p, q) with (entry_loc V p num (q - 1))
        by (unfold entry_loc; rewrite (proj2 (Z.leb_le _ _)) by lia; f_equal; lia).
      eapply QS; [|exact S1|].
      * split; [lia|]. rewrite Hent. replace (q - 1 + 1) with q by lia. split; [done|].
        intros j Hj. rewrite Hent. apply Hlt. lia.
      * unfold entry_loc. rewrite (proj2 (Z.leb_le _ _)) by lia. simpl. apply elem_of_cons. by left.
    + eapply QN; [|exact S1]. intros j Hj. unfold dir_entry, entry_loc.
      rewrite (proj2 (Z.leb_le _ _)) by lia. simpl. apply Hr. lia.
  - rewrite div_ceil_eq by lia. wp_step. apply wp_assert; [apply Z.leb_le; dlia|].
    apply wp_or_not_found.
    eapply (scan_data_blocks_st pred He Sh); [intros; by eapply QS|intros; by eapply QN|exact S1|lia|lia|..].
    + rewrite n_data_list by lia. rewrite Z2Nat.id by dlia. rewrite Z.add_0_l. f_equal. lia.
    + lia.
    + intros. lia.
  - rewrite !div_ceil_eq by lia. wp_step. apply wp_assert; [apply Z.leb_le; dlia|].
    apply wp_or_not_found. replace ((num + 15 - 1) / 15) with (n_data num)
      by (rewrite n_data_list by lia; f_equal; lia).
    pose proof (scan_link_blocks_st (N := N) (hd := hd) pred He Sh
      (fun r s' => match r with Some a => Q a s' | None => X NotFound s' end) X) as L.
    specialize (L ltac:(intros; by eapply QS) ltac:(intros; by eapply QN)
      (Z.to_nat ((num + 7680 - 1) / 7680)) 0 s1 _ S1).
    replace (Z.min (15 * (512 * 0)) num) with 0 in L by lia.
    replace (Z.min (512 * 0) (n_data num)) with 0 in L by (rewrite n_data_list by lia; dlia).
    apply L; [lia|lia| |lia].
    rewrite n_link_list by lia. rewrite Z2Nat.id by dlia. rewrite Z.add_0_l. f_equal. lia.
Qed.

Lemma get_directory_entry_st N s h hd V R e id num pos (Q : DirEntry -> fs -> Prop) (X : FsError -> fs -> Prop) :
  fs_st N s h hd V None R -> dir_ok V e id num -> e <= sb_num_blocks h -> 0 <= pos ->
  (forall s' R', fs_st N s' h hd V None R' ->
     if decide (pos < num)
     then wp (lift (to_owned (dir_entry V (block_no id) num pos))) s' Q X
     else X NotFound s') ->
  wp (get_directory_entry id pos) s Q X.
Proof.
  intros S DO He Hpos HQ. destruct (validate_dir_num _ _ _ _ DO) as [Hp Hn].
  destruct DO as [_ Hv Hsz _ Sh]. unfold get_directory_entry. set (p := block_no id) in *. wp_step. eapply wp_check_error; [exact S|]. wp_step.
  eapply c_read_st; [exact S|unfold blk_in; lia|]. intros s1 S1. wp_step. rewrite Hv. wp_steps.
  rewrite Hsz. change MAX_ENTRIES_IN_META_BLOCK with 14. change MAX_ENTRIES_ONLY_DATA_BLOCKS with 7440.
  change MAX_ENTRIES_IN_DATA_BLOCK with 15. change MAX_ENTRIES_COVERED_BY_FIRST_LEVEL_BLOCKLIST with 7680.
  destruct (Z.leb_spec num pos) as [Hge|Hlt].
  { wp_steps. specialize (HQ _ _ S1). by rewrite decide_False in HQ by lia. }
  destruct (loc_in V e p num pos Sh ltac:(lia)) as [Hl1 Hl2].
  assert (Hk : 14 < num -> 0 <= pos / 15 < n_data num) by (intros; rewrite n_data_list by lia; dlia).
  destruct (Z.leb_spec num 14) as [H14|H14]; [|destruct (Z.leb_spec num 7440) as [H7|H7]];
    unfold dir_entry, entry_loc in *.
  - rewrite (proj2 (Z.leb_le _ _)) in * by lia. simpl in *. rewrite get_dir_entry_at by done.
    wp_steps. specialize (HQ _ _ S1). by rewrite decide_True in HQ by lia.
  - rewrite (proj2 (Z.leb_gt num 14)) in * by lia. simpl in *. unfold data_blk in *.
    rewrite (proj2 (Z.leb_le num 7440)) in * by lia.
    rewrite get_link_meta by (unfold meta_link_ok; change MAX_LINKS_IN_META_BLOCK with 496; dlia).
    wp_step. wp_step. wp_step. eapply c_read_st; [exact S1|unfold blk_in, meta_link in *; lia|].
    intros s2 S2. rewrite get_dir_entry_at by done. wp_steps.
    specialize (HQ _ _ S2). by rewrite decide_True in HQ by lia.
  - rewrite (proj2 (Z.leb_gt num 14)) in * by lia. simpl in *. unfold data_blk in *.
    rewrite (proj2 (Z.leb_gt num 7440)) in * by lia.
    assert (Hi : 0 <= pos / 15 / 512 < n_link num) by (apply n_link_data; [lia|by apply Hk]).
    pose proof (ds_link _ _ _ _ Sh _ Hi) as Hlb.
    replace (pos / 7680) with (pos / 15 / 512) by dlia.
    rewrite get_link_meta by (unfold meta_link_ok; change MAX_LINKS_IN_META_BLOCK with 496; dlia).
    wp_step. wp_step. wp_step. eapply c_read_st; [exact S1|unfold blk_in, meta_link in *; lia|].
    intros s2 S2. replace (pos mod 7680 / 15) with (pos / 15 mod 512) by dlia.
    rewrite get_link by (unfold link_ok; dlia). wp_step. wp_step. wp_step.
    eapply c_read_st; [exact S2|unfold blk_in, link, meta_link in *; lia|].
    intros s3 S3. rewrite get_dir_entry_at by done. wp_steps.
    specialize (HQ _ _ S3). by rewrite decide_True in HQ by lia.
Qed.
End Dir.
