(* ===== verification/SrfsDirAdd.v ===== *)
(** * Adding a directory entry

    [add_directory_entry_inner] appends one entry, in each of the three shapes of
    a directory and across the two shape changes (14 to 15 entries: the entries
    move from the metadata block to a data block; 7440 to 7441: the links move to
    a link block). *)

From stdpp Require Import base numbers list.
From S2P Require Import RustPrelude Crc32 SrfsLayout BlockDevice BlockCache SrfsFs SrfsState SrfsDir.

Open Scope Z_scope.

Section DirAdd.
Context {D : Type} {Dev : SyncBlockDevice D} {DL : SyncBlockDeviceLaws D}.
Context {Crc : Crc32} {CL : Crc32Laws Crc} {Clk : Clock} {Unin : Uninit}.
Abbreviation fs := (SyncFileSystem D).

(** ** Resizing the metadata *)

Lemma set_size_ok v m : is_u64 v -> meta_ok m -> meta_ok (set_size v m).
Proof.
  intros Hv [Hf Hl]. split; [|done].
  change meta_widths with (take 4 meta_widths ++ [8%nat] ++ drop 5 meta_widths) in *.
  change (meta_fields m) with (take 4 (meta_fields m) ++ [size m] ++ drop 5 (meta_fields m)) in Hf.
  change (meta_fields (set_size v m)) with (take 4 (meta_fields m) ++ [v] ++ drop 5 (meta_fields m)).
  apply Forall2_app_inv in Hf as [H1 H2]; [|done]. apply Forall2_app_inv in H2 as [H2 H3]; [|done].
  apply Forall2_app; [done|]. apply Forall2_app; [|done].
  apply List.Forall2_cons; [exact Hv|apply List.Forall2_nil].
Qed.

Lemma get_meta_resize v b :
  is_u64 v -> block_ok b -> get_meta (resize v b) = meta_set_crc32 (set_size v (get_meta b)).
Proof.
  intros Hv Hb. unfold resize. apply get_put_meta; [|done].
  apply meta_set_crc32_ok, set_size_ok; [done|by apply get_meta_ok].
Qed.

Lemma resize_block_ok v b : block_ok b -> block_ok (resize v b).
Proof. apply put_meta_block_ok. Qed.

Lemma entry_at_resize v b pos : 1 <= pos -> entry_at (resize v b) pos = entry_at b pos.
Proof. apply entry_at_put_meta. Qed.

Lemma meta_link_resize v b i : 0 <= i -> meta_link (resize v b) i = meta_link b i.
Proof. intros. apply get_u64_put_meta. lia. Qed.

Lemma validate_dir_resize v b id :
  block_ok b -> validate_dir (get_meta b) id = Ok tt -> 0 <= v <= MAX_DIR_ENTRIES ->
  validate_dir (get_meta (resize v b)) id = Ok tt /\ size (get_meta (resize v b)) = v.
Proof.
  intros Hb Hv Hr. change MAX_DIR_ENTRIES with 65536 in Hr.
  apply validate_dir_inv in Hv as (Hid & Hk & _).
  rewrite get_meta_resize by (try done; unfold is_u64; lia). split; [|done].
  rewrite <- Hid. apply (validate_dir_seal (set_size v (get_meta b))); [|exact (proj2 Hr)].
  change (kind (m_id (get_meta b)) = Directory). by rewrite Hid.
Qed.

(** ** Growing shapes *)

Lemma dir_shape_extend V V' e e' p num num' :
  dir_shape V e p num -> e <= e' <= e + 2 ->
  (forall k, 0 <= k < n_data num' ->
     (k < n_data num /\ data_blk V' p num' k = data_blk V p num k) \/
     (k = n_data num /\ data_blk V' p num' k = e /\ e < e')) ->
  (forall i, 0 <= i < n_link num' ->
     (i < n_link num /\ meta_link (V' p) i = meta_link (V p) i) \/
     (i = n_link num /\ meta_link (V' p) i = e + 1 /\ e + 1 < e')) ->
  dir_shape V' e' p num' /\ e <= e' <= e + 2 /\
  (forall b, dir_block V' p num' b -> dir_block V p num b \/ e <= b < e').
Proof.
  intros [H1 H2 H3 H4 H5 H6 H7 H8] He HD HL. split; [|split; [done|]].
  2:{ intros b [->|[(i & Hi & ->)|(k & Hk & ->)]]; [by left; left|..].
      - destruct (HL i Hi) as [[? ->]|(_ & -> & ?)]; [left; right; left; exists i; lia|right; lia].
      - destruct (HD k Hk) as [[? ->]|(_ & -> & ?)]; [left; right; right; exists k; lia|right; lia]. }
  split.
  - lia.
  - intros i Hi. destruct (HL i Hi) as [[Hl ->]|(_ & -> & ?)]; [specialize (H2 i); lia|lia].
  - intros k Hk. destruct (HD k Hk) as [[Hl ->]|(_ & -> & ?)]; [specialize (H3 k); lia|lia].
  - intros i Hi. destruct (HL i Hi) as [[Hl ->]|(_ & -> & ?)]; [apply H4; lia|lia].
  - intros k Hk. destruct (HD k Hk) as [[Hl ->]|(_ & -> & ?)]; [apply H5; lia|lia].
  - intros i k Hi Hk. destruct (HL i Hi) as [[Hl ->]|(_ & -> & ?)];
      destruct (HD k Hk) as [[Hl' ->]|(_ & -> & ?)].
    + apply H6; lia.
    + specialize (H2 i). lia.
    + specialize (H3 k). lia.
    + lia.
  - intros i j Hi Hj. destruct (HL i Hi) as [[Hl ->]|(-> & -> & ?)];
      destruct (HL j Hj) as [[Hl' ->]|(-> & -> & ?)]; intros E.
    + apply H7; [lia|lia|done].
    + specialize (H2 i). lia.
    + specialize (H2 j). lia.
    + done.
  - intros i j Hi Hj. destruct (HD i Hi) as [[Hl ->]|(-> & -> & ?)];
      destruct (HD j Hj) as [[Hl' ->]|(-> & -> & ?)]; intros E.
    + apply H8; [lia|lia|done].
    + specialize (H3 i). lia.
    + specialize (H3 j). lia.
    + done.
Qed.

Definition is_entry (id : EntryId) (name : bytes) (x : DirEntryInternal) : Prop :=
  de_id x = id /\ name_bytes x = name.

(** What adding an entry achieves: the directory has one more entry, the old
    ones are unchanged, and no block outside the directory changed. *)
Record entry_added (V V' : Z -> Block) (e e' p num : Z) (id : EntryId) (name : bytes) : Prop := {
  ea_grown : dir_shape V' e' p (num + 1) /\ e <= e' <= e + 2 /\
    (forall b, dir_block V' p (num + 1) b -> dir_block V p num b \/ e <= b < e');
  ea_old : forall pos, 0 <= pos < num -> dir_entry V' p (num + 1) pos = dir_entry V p num pos;
  ea_new : is_entry id name (dir_entry V' p (num + 1) num);
  ea_frame : forall b, b < e -> ~ dir_block V p num b -> V' b = V b;
  ea_meta : get_meta (V' p) = meta_set_crc32 (set_size (num + 1) (get_meta (V p)));
}.

Lemma renamed_is_entry b pos id name :
  block_ok b -> entry_pos_ok pos -> id_ok id -> (length name <= 255)%nat ->
  is_entry id name (entry_at (write_entry b pos (renamed id name (entry_at b pos))) pos).
Proof.
  intros Hb Hp Hid Hn. pose proof (entry_at_ok b pos Hb Hp) as Hok.
  rewrite entry_at_write_same by auto using renamed_ok. split; [done|]. by apply name_bytes_renamed.
Qed.

Lemma dir_entry_loc V p num pos b j :
  entry_loc V p num pos = (b, j) -> dir_entry V p num pos = entry_at (V b) j.
Proof. intros H. unfold dir_entry. by rewrite H. Qed.

Lemma loc_meta V p num pos : num <= 14 -> entry_loc V p num pos = (p, pos + 1).
Proof. intros. unfold entry_loc. by rewrite (proj2 (Z.leb_le _ _)) by lia. Qed.

Lemma loc_data V p num pos : 14 < num -> entry_loc V p num pos = (data_blk V p num (pos / 15), pos mod 15).
Proof. intros. unfold entry_loc. by rewrite (proj2 (Z.leb_gt _ _)) by lia. Qed.

Lemma meta_link_put i j v b :
  block_ok b -> is_u64 v -> 0 <= i < 496 -> 0 <= j < 496 ->
  meta_link (put_u64_at (128 + 8 * i) v b) j = if decide (j = i) then v else meta_link b j.
Proof.
  intros Hb Hv Hi Hj. unfold meta_link. destruct (decide (j = i)) as [->|Hne].
  - apply get_put_u64_same; [done|lia|done].
  - apply get_put_u64_other; lia.
Qed.

Lemma link_put i j v b :
  block_ok b -> is_u64 v -> 0 <= i < 512 -> 0 <= j < 512 ->
  link (put_u64_at (8 * i) v b) j = if decide (j = i) then v else link b j.
Proof.
  intros Hb Hv Hi Hj. unfold link. destruct (decide (j = i)) as [->|Hne].
  - apply get_put_u64_same; [done|lia|done].
  - apply get_put_u64_other; lia.
Qed.

Section Pure.
Context {V V' : Z -> Block} {e p num : Z} {id : EntryId} {name : bytes}.
Context (Sh : dir_shape V e p num) (Hmax : num < 65536) (Hid : id_ok id) (Hname : (length name <= 255)%nat).
Context (Hok : block_ok (V p)) (H0 : 0 <= num).

Lemma num_u64 : is_u64 (num + 1).
Proof. unfold is_u64. lia. Qed.

(** *** In the metadata block *)
Lemma added_in_meta :
  num < 14 ->
  V' p = write_entry (resize (num + 1) (V p)) (num + 1)
           (renamed id name (entry_at (resize (num + 1) (V p)) (num + 1))) ->
  (forall b, b <> p -> V' b = V b) -> entry_added V V' e e p num id name.
Proof.
  intros H14 Hp Hfr.
  assert (Hpos : entry_pos_ok (num + 1))
    by (unfold entry_pos_ok; change MAX_ENTRIES_IN_DATA_BLOCK with 15; lia).
  assert (Hrb : block_ok (resize (num + 1) (V p))) by (by apply resize_block_ok).
  pose proof (entry_at_ok _ _ Hrb Hpos) as Heo. pose proof num_u64 as Hu. split.
  - apply (dir_shape_extend V V' e e p num); [done|lia|..]; intros i Hi; exfalso; revert Hi.
    + unfold n_data. rewrite (proj2 (Z.leb_le _ _)) by lia. lia.
    + unfold n_link. rewrite (proj2 (Z.leb_le _ _)) by lia. lia.
  - intros pos Hpp. rewrite !(dir_entry_loc _ _ _ _ p (pos + 1)) by (apply loc_meta; lia).
    rewrite Hp, entry_at_write_other by (try lia; by apply renamed_ok). apply entry_at_resize. lia.
  - rewrite (dir_entry_loc _ _ _ _ p (num + 1)) by (apply loc_meta; lia). rewrite Hp.
    by apply renamed_is_entry.
  - intros b _ Hb. apply Hfr. intros ->. apply Hb. by left.
  - rewrite Hp, get_meta_write_entry by lia. by apply get_meta_resize.
Qed.

(** *** In the last data block *)
Lemma added_in_block b :
  14 < num -> num mod 15 <> 0 -> b = data_blk V p num (num / 15) -> block_ok (V b) ->
  V' p = resize (num + 1) (V p) ->
  V' b = write_entry (V b) (num mod 15) (renamed id name (entry_at (V b) (num mod 15))) ->
  (forall x, x <> p -> x <> b -> V' x = V x) -> entry_added V V' e e p num id name.
Proof.
  intros H14 Hmod -> Hbok Hp Hb Hfr. set (b := data_blk V p num (num / 15)) in *.
  assert (Hk : 0 <= num / 15 < n_data num) by (rewrite n_data_list by lia; dlia).
  assert (Hbp : b <> p) by (by apply (ds_parent_data _ _ _ _ Sh)).
  assert (Hpos : entry_pos_ok (num mod 15))
    by (unfold entry_pos_ok; change MAX_ENTRIES_IN_DATA_BLOCK with 15; dlia).
  pose proof num_u64 as Hu.
  assert (Hml : forall i, 0 <= i -> meta_link (V' p) i = meta_link (V p) i)
    by (intros; rewrite Hp; by apply meta_link_resize).
  assert (Hnd : n_data (num + 1) = n_data num) by (rewrite !n_data_list by lia; dlia).
  assert (Hnl : n_link (num + 1) = n_link num).
  { unfold n_link. destruct (Z.leb_spec (num + 1) 7440), (Z.leb_spec num 7440); dlia. }
  assert (Hdb : forall k, 0 <= k < n_data num -> data_blk V' p (num + 1) k = data_blk V p num k).
  { intros k Hkk. unfold data_blk. rewrite !Hml by dlia.
    destruct (Z.leb_spec (num + 1) 7440), (Z.leb_spec num 7440); try done; try dlia.
    assert (Hi : 0 <= k / 512 < n_link num) by (apply n_link_data; [lia|done]).
    rewrite Hfr; [done|by apply (ds_parent_link _ _ _ _ Sh)|by apply (ds_link_data _ _ _ _ Sh)]. }
  assert (Hloc : forall pos, 0 <= pos <= num ->
            entry_loc V' p (num + 1) pos = (data_blk V p num (pos / 15), pos mod 15)).
  { intros pos Hpp. rewrite loc_data by lia. rewrite Hdb; [done|]. rewrite n_data_list by lia. dlia. }
  split.
  - apply (dir_shape_extend V V' e e p num); [done|lia|..]; intros i Hi; left.
    + rewrite Hnd in Hi. split; [lia|by apply Hdb].
    + rewrite Hnl in Hi. split; [lia|apply Hml; lia].
  - intros pos Hpp. rewrite (dir_entry_loc V p num pos _ _ (loc_data V p num pos ltac:(lia))).
    rewrite (dir_entry_loc _ _ _ _ _ _ (Hloc pos ltac:(lia))).
    assert (Hkp : 0 <= pos / 15 < n_data num) by (rewrite n_data_list by lia; dlia).
    destruct (decide (pos / 15 = num / 15)) as [E|E].
    + rewrite E. fold b. rewrite Hb, entry_at_write_other; [done|dlia|dlia|dlia|].
      apply renamed_ok; [done|done|by apply entry_at_ok].
    + rewrite Hfr; [done|by apply (ds_parent_data _ _ _ _ Sh)|].
      intros E'. apply E. by apply (ds_data_inj _ _ _ _ Sh).
  - rewrite (dir_entry_loc _ _ _ _ _ _ (Hloc num ltac:(lia))). fold b. rewrite Hb.
    by apply renamed_is_entry.
  - intros x _ Hx. apply Hfr; [intros ->; apply Hx; by left|].
    intros ->. apply Hx. right. right. by exists (num / 15).
  - rewrite Hp. by apply get_meta_resize.
Qed.

(** *** In a new data block *)
Lemma added_fresh e' :
  14 < num -> num mod 15 = 0 -> e < e' <= e + 2 ->
  (forall k, 0 <= k < n_data num -> data_blk V' p (num + 1) k = data_blk V p num k) ->
  (forall k, 0 <= k < n_data num -> V' (data_blk V p num k) = V (data_blk V p num k)) ->
  data_blk V' p (num + 1) (n_data num) = e -> is_entry id name (entry_at (V' e) 0) ->
  (forall i, 0 <= i < n_link (num + 1) ->
     (i < n_link num /\ meta_link (V' p) i = meta_link (V p) i) \/
     (i = n_link num /\ meta_link (V' p) i = e + 1 /\ e + 1 < e')) ->
  (forall b, b < e -> ~ dir_block V p num b -> V' b = V b) ->
  get_meta (V' p) = meta_set_crc32 (set_size (num + 1) (get_meta (V p))) ->
  entry_added V V' e e' p num id name.
Proof.
  intros H14 Hmod He' Hdb Hsame Hnew Hent HL Hfr Hmeta.
  assert (Hnd : n_data num = num / 15) by (rewrite n_data_list by lia; dlia).
  assert (Hnd' : n_data (num + 1) = n_data num + 1) by (rewrite !n_data_list by lia; dlia).
  split; [|intros pos Hpp| |done|done].
  - apply (dir_shape_extend V V' e e' p num); [done|lia| |done]. intros k Hk.
    destruct (decide (k < n_data num)); [left; split; [done|apply Hdb; lia]|right].
    assert (k = n_data num) as -> by lia. split; [done|]. split; [done|lia].
  - rewrite (dir_entry_loc V p num pos _ _ (loc_data V p num pos ltac:(lia))).
    rewrite (dir_entry_loc _ _ _ _ _ _ (loc_data V' p (num + 1) pos ltac:(lia))).
    rewrite Hdb, Hsame by dlia. done.
  - rewrite (dir_entry_loc _ _ _ _ _ _ (loc_data V' p (num + 1) num ltac:(lia))).
    rewrite <- Hnd, Hnew, Hmod. done.
Qed.

Lemma n_data_max : 14 < num -> 0 <= n_data num <= 4370.
Proof. intros. rewrite n_data_list by lia. dlia. Qed.

Section Fresh.
Context (H14 : 14 < num) (Hmod : num mod 15 = 0) (He : is_u64 (e + 1)).
Context (Hent : is_entry id name (entry_at (V' e) 0)).

Lemma e_u64 : is_u64 e.
Proof. pose proof (ds_parent _ _ _ _ Sh). unfold is_u64 in *. lia. Qed.

Lemma data_below k : 0 <= k < n_data num -> data_blk V p num k <> e.
Proof. intros Hk. pose proof (ds_data _ _ _ _ Sh k Hk). lia. Qed.

Lemma link_below i : 0 <= i < n_link num -> meta_link (V p) i <> e.
Proof. intros Hk. pose proof (ds_link _ _ _ _ Sh i Hk). lia. Qed.

Lemma parent_below : p <> e.
Proof. pose proof (ds_parent _ _ _ _ Sh). lia. Qed.

(** Linked from the metadata block. *)
Lemma added_new_data :
  num < 7440 ->
  V' p = put_u64_at (128 + 8 * (num / 15)) e (resize (num + 1) (V p)) ->
  (forall x, x <> p -> x <> e -> V' x = V x) -> entry_added V V' e (e + 1) p num id name.
Proof.
  intros H7 Hp Hfr. pose proof e_u64. pose proof num_u64 as Hu. pose proof n_data_max as Hmx.
  assert (Hnd : n_data num = num / 15) by (rewrite n_data_list by lia; dlia).
  assert (Hml : forall i, 0 <= i < 496 ->
            meta_link (V' p) i = if decide (i = num / 15) then e else meta_link (V p) i).
  { intros i Hi. rewrite Hp, meta_link_put by (try done; try (by apply resize_block_ok); dlia).
    destruct (decide (i = num / 15)); [done|]. apply meta_link_resize. lia. }
  assert (Hdb : forall k, 0 <= k < 496 -> data_blk V' p (num + 1) k = meta_link (V' p) k).
  { intros. unfold data_blk. by rewrite (proj2 (Z.leb_le _ _)) by lia. }
  assert (Hdb' : forall k, data_blk V p num k = meta_link (V p) k).
  { intros. unfold data_blk. by rewrite (proj2 (Z.leb_le _ _)) by lia. }
  apply added_fresh; try done; try lia.
  - intros k Hk. rewrite Hdb, Hml, decide_False, Hdb' by dlia. done.
  - intros k Hk. apply Hfr; [by apply (ds_parent_data _ _ _ _ Sh)|by apply data_below].
  - rewrite Hdb, Hml by dlia. by rewrite decide_True.
  - unfold n_link. rewrite (proj2 (Z.leb_le _ _)) by lia. lia.
  - intros b Hb Hnb. apply Hfr; [intros ->; apply Hnb; by left|lia].
  - rewrite Hp, get_meta_put_u64 by dlia. by apply get_meta_resize.
Qed.

(** Linked from an existing link block. *)
Lemma added_in_link_block lb :
  7440 < num -> num mod 7680 <> 0 -> lb = meta_link (V p) (num / 7680) -> block_ok (V lb) ->
  V' p = resize (num + 1) (V p) ->
  V' lb = put_u64_at (8 * (num mod 7680 / 15)) e (V lb) ->
  (forall x, x <> p -> x <> e -> x <> lb -> V' x = V x) -> entry_added V V' e (e + 1) p num id name.
Proof.
  intros H7 Hm7 -> Hlok Hp Hl Hfr. set (lb := meta_link (V p) (num / 7680)) in *.
  pose proof e_u64. pose proof num_u64 as Hu.
  assert (Hnd : n_data num = num / 15) by (rewrite n_data_list by lia; dlia).
  assert (Hnl : n_link (num + 1) = n_link num) by (rewrite !n_link_list by lia; dlia).
  assert (Hil : 0 <= num / 7680 < n_link num) by (rewrite n_link_list by lia; dlia).
  assert (Hml : forall i, 0 <= i -> meta_link (V' p) i = meta_link (V p) i)
    by (intros; rewrite Hp; by apply meta_link_resize).
  assert (Hold : forall k, 0 <= k < n_data num ->
            k / 512 = num / 7680 -> k mod 512 <> num mod 7680 / 15) by (intros; dlia).
  assert (Hlink : forall i, 0 <= i < n_link num -> i <> num / 7680 -> V' (meta_link (V p) i) = V (meta_link (V p) i)).
  { intros i Hi Hne. apply Hfr; [by apply (ds_parent_link _ _ _ _ Sh)|by apply link_below|].
    intros E. by apply Hne, (ds_link_inj _ _ _ _ Sh). }
  apply added_fresh; try done; try lia.
  - intros k Hk. unfold data_blk. rewrite !(proj2 (Z.leb_gt _ _)) by lia. rewrite Hml by dlia.
    pose proof (n_link_data num k ltac:(lia) Hk) as Hki.
    destruct (decide (k / 512 = num / 7680)) as [E|E]; [|by rewrite Hlink].
    rewrite E. fold lb. rewrite Hl, link_put by (try done; dlia). rewrite decide_False; [done|by apply Hold].
  - intros k Hk. apply Hfr; [by apply (ds_parent_data _ _ _ _ Sh)|by apply data_below|].
    intros E. by apply (ds_link_data _ _ _ _ Sh (num / 7680) k).
  - unfold data_blk. rewrite (proj2 (Z.leb_gt _ _)) by lia. rewrite Hnd, Hml by dlia.
    replace (num / 15 / 512) with (num / 7680) by dlia. fold lb.
    rewrite Hl, link_put by (try done; dlia). rewrite decide_True by dlia. done.
  - intros i Hi. left. rewrite Hnl in Hi. split; [lia|apply Hml; lia].
  - intros b Hb Hnb. apply Hfr; [intros ->; apply Hnb; by left|lia|].
    intros ->. apply Hnb. right. left. by exists (num / 7680).
  - rewrite Hp. by apply get_meta_resize.
Qed.

(** Linked from a new link block. *)
Lemma added_new_link_block :
  7440 < num -> num mod 7680 = 0 ->
  V' p = put_u64_at (128 + 8 * (num / 7680)) (e + 1) (resize (num + 1) (V p)) ->
  link (V' (e + 1)) 0 = e ->
  (forall x, x <> p -> x <> e -> x <> e + 1 -> V' x = V x) -> entry_added V V' e (e + 2) p num id name.
Proof.
  intros H7 Hm7 Hp Hl Hfr. pose proof e_u64. pose proof num_u64 as Hu.
  assert (Hnd : n_data num = num / 15) by (rewrite n_data_list by lia; dlia).
  assert (Hnl : n_link num = num / 7680) by (rewrite n_link_list by lia; dlia).
  assert (Hnl' : n_link (num + 1) = n_link num + 1) by (rewrite !n_link_list by lia; dlia).
  assert (Hml : forall i, 0 <= i < 496 ->
            meta_link (V' p) i = if decide (i = num / 7680) then e + 1 else meta_link (V p) i).
  { intros i Hi. rewrite Hp, meta_link_put by (try done; try (by apply resize_block_ok); dlia).
    destruct (decide (i = num / 7680)); [done|]. apply meta_link_resize. lia. }
  apply added_fresh; try done; try lia.
  - intros k Hk. unfold data_blk. rewrite !(proj2 (Z.leb_gt _ _)) by lia.
    pose proof (n_link_data num k ltac:(lia) Hk) as Hki.
    rewrite Hml, decide_False by dlia. pose proof (ds_link _ _ _ _ Sh _ Hki).
    rewrite Hfr; [done|by apply (ds_parent_link _ _ _ _ Sh)|lia|lia].
  - intros k Hk. pose proof (ds_data _ _ _ _ Sh k Hk).
    apply Hfr; [by apply (ds_parent_data _ _ _ _ Sh)|lia|lia].
  - unfold data_blk. rewrite (proj2 (Z.leb_gt _ _)) by lia. rewrite Hnd, Hml by dlia.
    rewrite decide_True by dlia. by replace (num / 15 mod 512) with 0 by dlia.
  - intros i Hi. rewrite Hml by dlia. destruct (decide (i = num / 7680)); [right; lia|left; lia].
  - intros b Hb Hnb. apply Hfr; [intros ->; apply Hnb; by left|lia|lia].
  - rewrite Hp, get_meta_put_u64 by dlia. by apply get_meta_resize.
Qed.
End Fresh.

(** *** Shape changes *)

(** 14 to 15 entries: the entries move to the first data block. *)
Lemma added_leaving_meta :
  num = 14 -> is_u64 e ->
  V' p = put_u64_at (128 + 8 * 0) e (resize (num + 1) (V p)) ->
  (forall j, 0 <= j < 14 -> entry_at (V' e) j = entry_at (V p) (j + 1)) ->
  is_entry id name (entry_at (V' e) 14) ->
  (forall x, x <> p -> x <> e -> V' x = V x) -> entry_added V V' e (e + 1) p num id name.
Proof.
  intros Hn He Hp Hcopy Hent Hfr. pose proof num_u64 as Hu. subst num.
  assert (Hml : meta_link (V' p) 0 = e).
  { rewrite Hp, meta_link_put by (try done; try (by apply resize_block_ok); lia). done. }
  assert (Hloc : forall pos, 0 <= pos < 15 -> entry_loc V' p 15 pos = (e, pos)).
  { intros pos Hpp. rewrite loc_data by lia. unfold data_blk. simpl.
    replace (pos / 15) with 0 by dlia. rewrite Hml. f_equal. dlia. }
  split; change (14 + 1) with 15 in *.
  - apply (dir_shape_extend V V' e (e + 1) p 14); [done|lia|..]; intros i Hi.
    + right. assert (i = 0) as -> by (change (n_data 15) with 1 in Hi; lia). split; [done|].
      split; [|lia]. exact Hml.
    + change (n_link 15) with 0 in Hi. lia.
  - intros pos Hpp. rewrite (dir_entry_loc _ _ _ _ _ _ (Hloc pos ltac:(lia))).
    rewrite (dir_entry_loc _ _ _ _ _ _ (loc_meta V p 14 pos ltac:(lia))). by apply Hcopy.
  - by rewrite (dir_entry_loc _ _ _ _ _ _ (Hloc 14 ltac:(lia))).
  - intros b Hb Hnb. apply Hfr; [intros ->; apply Hnb; by left|lia].
  - rewrite Hp, get_meta_put_u64 by lia. by apply get_meta_resize.
Qed.

(** 7440 to 7441 entries: the links move to the first link block. *)
Lemma added_first_link_block :
  num = 7440 -> is_u64 (e + 1) -> is_entry id name (entry_at (V' e) 0) ->
  V' p = put_u64_at (128 + 8 * 0) (e + 1) (resize (num + 1) (V p)) ->
  (forall i, 0 <= i < 496 -> link (V' (e + 1)) i = meta_link (V p) i) ->
  link (V' (e + 1)) 496 = e ->
  (forall x, x <> p -> x <> e -> x <> e + 1 -> V' x = V x) -> entry_added V V' e (e + 2) p num id name.
Proof.
  intros Hn He Hent Hp Hcopy Hl Hfr. pose proof num_u64 as Hu.
  assert (Hnd : n_data num = 496) by (by rewrite Hn).
  assert (Hnl : n_link num = 0) by (by rewrite Hn).
  assert (Hnl' : n_link (num + 1) = 1) by (by rewrite Hn).
  assert (Hml : meta_link (V' p) 0 = e + 1).
  { rewrite Hp, meta_link_put by (try done; try (by apply resize_block_ok); lia). done. }
  assert (Hdb : forall k, 0 <= k < 497 -> data_blk V' p (num + 1) k = link (V' (e + 1)) k).
  { intros k Hk. unfold data_blk. rewrite (proj2 (Z.leb_gt _ _)) by lia.
    replace (k / 512) with 0 by dlia. rewrite Hml. f_equal. dlia. }
  assert (Hdb' : forall k, data_blk V p num k = meta_link (V p) k).
  { intros k. unfold data_blk. by rewrite (proj2 (Z.leb_le _ _)) by lia. }
  apply added_fresh; rewrite ?Hnd, ?Hnl, ?Hnl'; try done; try lia; try (rewrite Hn; done).
  - intros k Hk. rewrite Hdb, Hcopy, Hdb' by lia. done.
  - intros k Hk. rewrite <- Hnd in Hk. pose proof (ds_data _ _ _ _ Sh k Hk).
    apply Hfr; [by apply (ds_parent_data _ _ _ _ Sh)|lia|lia].
  - by rewrite Hdb by lia.
  - intros i Hi. right. assert (i = 0) as -> by lia. rewrite Hml. lia.
  - intros b Hb Hnb. apply Hfr; [intros ->; apply Hnb; by left|lia|lia].
  - rewrite Hp, get_meta_put_u64 by lia. by apply get_meta_resize.
Qed.
End Pure.

(** ** Copy loops *)

Lemma edit_range_spec n idx body b (I : Z -> Block -> Prop) :
  I idx b ->
  (forall i x, idx <= i < idx + Z.of_nat n -> I i x -> exists x', body i x = Ok x' /\ I (i + 1) x') ->
  exists b', edit_range n idx body b = Ok b' /\ I (idx + Z.of_nat n) b'.
Proof.
  revert idx b. induction n as [|n IH]; intros idx b HI Hs.
  - exists b. split; [done|]. by rewrite Z.add_0_r.
  - cbn [edit_range]. destruct (Hs idx b) as (x' & -> & HI'); [lia|done|].
    destruct (IH (idx + 1) x') as (b' & -> & HI''); [done|intros; apply Hs; [lia|done]|].
    exists b'. split; [done|]. by replace (idx + Z.of_nat (S n)) with (idx + 1 + Z.of_nat n) by lia.
Qed.

(** [n] entries copied from position [from] to position [to]. *)
Lemma copy_entries_spec n src dst from to :
  block_ok src -> block_ok dst -> 0 <= from -> 0 <= to ->
  from + Z.of_nat n <= 15 -> to + Z.of_nat n <= 15 ->
  exists b', edit_range n 0 (copy_entry src from to) dst = Ok b' /\ block_ok b' /\
    (forall j, 0 <= j < Z.of_nat n -> entry_at b' (j + to) = entry_at src (j + from)) /\
    (forall j, 0 <= j < 15 -> j < to \/ to + Z.of_nat n <= j -> entry_at b' j = entry_at dst j) /\
    (1 <= to -> get_meta b' = get_meta dst).
Proof.
  intros Hs Hd Hf Ht Hfn Htn.
  destruct (edit_range_spec n 0 (copy_entry src from to) dst (fun i b => block_ok b /\
    (forall j, 0 <= j < i -> entry_at b (j + to) = entry_at src (j + from)) /\
    (forall j, 0 <= j < 15 -> j < to \/ to + Z.of_nat n <= j -> entry_at b j = entry_at dst j) /\
    (1 <= to -> get_meta b = get_meta dst))) as (b' & -> & H).
  - split; [done|]. split; [intros; lia|done].
  - intros i x Hi (Hx & H1 & H2 & H3). unfold copy_entry.
    assert (Pf : entry_pos_ok (i + from)) by (unfold entry_pos_ok; change MAX_ENTRIES_IN_DATA_BLOCK with 15; lia).
    assert (Pt : entry_pos_ok (i + to)) by (unfold entry_pos_ok; change MAX_ENTRIES_IN_DATA_BLOCK with 15; lia).
    pose proof (entry_at_ok src _ Hs Pf) as Ho.
    rewrite get_dir_entry_at, put_dir_entry_at by done. eexists. split; [done|].
    split; [by apply write_entry_ok|]. split; [|split].
    + intros j Hj. destruct (decide (j = i)) as [->|]; [by apply entry_at_write_same|].
      rewrite entry_at_write_other by (try done; lia). apply H1. lia.
    + intros j Hj Hj'. rewrite entry_at_write_other by (try done; lia). by apply H2.
    + intros. rewrite get_meta_write_entry by lia. by apply H3.
  - rewrite Z.add_0_l in H. by exists b'.
Qed.

Lemma copy_links_out_spec n src dst :
  block_ok src -> block_ok dst -> Z.of_nat n <= 496 ->
  exists b', edit_range n 0 (copy_link_out src) dst = Ok b' /\ block_ok b' /\
    (forall j, 0 <= j < Z.of_nat n -> link b' j = meta_link src j).
Proof.
  intros Hs Hd Hn.
  destruct (edit_range_spec n 0 (copy_link_out src) dst (fun i b => block_ok b /\
    forall j, 0 <= j < i -> link b j = meta_link src j)) as (b' & -> & H).
  - split; [done|]. intros; lia.
  - intros i x Hi (Hx & H1). unfold copy_link_out.
    rewrite get_link_meta by (unfold meta_link_ok; change MAX_LINKS_IN_META_BLOCK with 496; lia).
    rewrite set_link by (unfold link_ok; lia). eexists. split; [done|].
    split; [by apply put_u64_block_ok|]. intros j Hj.
    rewrite link_put by (try done; try lia; (apply get_u64_at_range; [done|lia])).
    destruct (decide (j = i)) as [->|]; [done|]. apply H1. lia.
  - rewrite Z.add_0_l in H. by exists b'.
Qed.

(** ** The operation *)

Lemma entry_added_dir_ok V V' e e' id num child name :
  dir_ok V e id num -> num < MAX_DIR_ENTRIES -> entry_added V V' e e' (block_no id) num child name ->
  dir_ok V' e' id (num + 1).
Proof.
  intros [Hid Hv Hs Hn Sh] Hlt [[Sh' _] _ _ _ Hm]. change MAX_DIR_ENTRIES with 65536 in *.
  apply validate_dir_inv in Hv as (Hi & Hk & _). split; try done.
  - rewrite Hm. set (m := set_size (num + 1) (get_meta (V (block_no id)))).
    replace id with (m_id m) by exact Hi. apply validate_dir_seal.
    + change (kind (m_id (get_meta (V (block_no id)))) = Directory). by rewrite Hi.
    + change (num + 1 <= 65536). lia.
  - by rewrite Hm.
  - change MAX_DIR_ENTRIES with 65536. lia.
Qed.

Section Inner.
Context {N : Z} {parent child : EntryId} {name : bytes} {num : Z} {h : SuperblockHeader} {V : Z -> Block}.
Abbreviation e := (empty_area_start h).
Abbreviation p := (block_no parent).
Context (DO : dir_ok V e parent num) (Hmax : num < 65536) (Hchild : id_ok child) (Hname : (length name <= 255)%nat).
Context (Hown : txn_blocks_owner h <> 0) (Hroom : room 2 h).
Context (Q : unit -> fs -> Prop) (X : FsError -> fs -> Prop).
Hypothesis HQ : forall s' h' hd' V' R', fs_st N s' h' hd' V' None R' -> grows h h' ->
  entry_added V V' e (empty_area_start h') p num child name -> Q tt s'.

Lemma parent_in : blk_in h p.
Proof.
  destruct (validate_dir_num _ _ _ _ DO) as [Hp _]. destruct Hroom as ((_ & Hb) & _). unfold blk_in. lia.
Qed.

Lemma size_plus_one : u64 (size (get_meta (V p)) + 1) = num + 1.
Proof.
  rewrite (do_size _ _ _ _ DO). destruct (validate_dir_num _ _ _ _ DO) as [_ Hn].
  apply u64_id. unfold is_u64. lia.
Qed.

Lemma add_entry_in_meta_st s hd R :
  fs_st N s h hd V None R -> p ∈ R -> num < 14 ->
  wp (add_entry_in_meta parent child name num) s Q X.
Proof.
  intros S Hin H14. pose proof parent_in as Hp. pose proof (st_block_ok _ _ _ _ _ _ _ _ S Hp) as Hok.
  destruct (validate_dir_num _ _ _ _ DO) as [_ Hn].
  unfold add_entry_in_meta. wp_step. eapply c_get_mut_st; [exact S|done|done|]. intros s1 S1.
  rewrite size_plus_one, set_dir_entry_at
    by (try done; unfold entry_pos_ok; change MAX_ENTRIES_IN_DATA_BLOCK with 15; lia).
  wp_step. wp_step. wp_step.
  eapply c_set_st; [exact S1|done|by apply write_entry_ok, resize_block_ok|]. intros s2 S2.
  eapply c_write_st; [exact S2|done|]. intros s3 S3.
  eapply HQ; [exact S3|apply grows_refl|].
  apply added_in_meta; try done; try lia; [apply (do_shape _ _ _ _ DO)|by rewrite fupd_eq|].
  intros b Hb. by rewrite fupd_ne.
Qed.

(** [plus_one] after the entry went to block [b]. *)
Lemma plus_one_st s V' hd h' R (Q' : unit -> fs -> Prop) :
  fs_st N s h' hd V' None R -> blk_in h' p -> p ∈ R -> V' p = V p ->
  (forall s', fs_st N s' h' hd (fupd V' p (resize (num + 1) (V p))) None (use p R) -> Q' tt s') ->
  wp (plus_one p) s Q' X.
Proof.
  intros S Hp Hin E K. pose proof (st_block_ok _ _ _ _ _ _ _ _ S Hp) as Hok. rewrite E in Hok.
  unfold plus_one. wp_step. eapply c_get_mut_st; [exact S|done|done|]. intros s1 S1.
  rewrite E, size_plus_one. wp_step. eapply c_set_st; [exact S1|done|by apply resize_block_ok|].
  intros s2 S2. wp_step. eapply c_write_st; [exact S2|done|]. intros s3 S3. by apply K.
Qed.

Lemma add_link_to_parent_st s V' hd h' R i b (Q' : unit -> fs -> Prop) :
  fs_st N s h' hd V' None R -> blk_in h' p -> p ∈ R -> V' p = V p -> 0 <= i < 496 ->
  (forall s', fs_st N s' h' hd (fupd V' p (put_u64_at (128 + 8 * i) b (resize (num + 1) (V p)))) None (use p R) ->
     Q' tt s') ->
  wp (add_link_to_parent parent i b) s Q' X.
Proof.
  intros S Hp Hin E Hi K. pose proof (st_block_ok _ _ _ _ _ _ _ _ S Hp) as Hok. rewrite E in Hok.
  unfold add_link_to_parent. wp_step. eapply c_get_mut_st; [exact S|done|done|]. intros s1 S1.
  rewrite E, size_plus_one.
  rewrite set_link_meta by (unfold meta_link_ok; change MAX_LINKS_IN_META_BLOCK with 496; lia).
  wp_step. wp_step. wp_step.
  eapply c_set_st; [exact S1|done|by apply put_u64_block_ok, resize_block_ok|].
  intros s2 S2. eapply c_write_st; [exact S2|done|]. intros s3 S3. by apply K.
Qed.

Abbreviation h1 := (sb_set_crc32 (alloc_hdr Data h)).
Abbreviation h2 := (sb_set_crc32 (alloc_hdr Links h1)).

Lemma fresh_in : blk_in h1 e /\ blk_in h1 p /\ p <> e.
Proof.
  destruct (validate_dir_num _ _ _ _ DO) as [Hp _]. destruct Hroom as ((_ & Hb) & _ & He).
  unfold blk_in. simpl. lia.
Qed.

Lemma fresh_in2 : blk_in h2 (e + 1) /\ blk_in h2 e /\ blk_in h2 p /\ p <> e + 1.
Proof.
  destruct (validate_dir_num _ _ _ _ DO) as [Hp _]. destruct Hroom as ((_ & Hb) & _ & He).
  unfold blk_in. simpl. lia.
Qed.

Lemma e_plus_u64 s hd R dt : fs_st N s h hd V dt R -> is_u64 (e + 1) /\ is_u64 e.
Proof.
  intros S. pose proof (st_ok _ _ _ _ _ _ _ S) as Hok. rewrite sb_ok_spec in Hok.
  destruct Hroom as ((_ & Hb) & _ & He). unfold is_u64 in *. lia.
Qed.

Lemma e_plus_u64' s V1 hd R dt : fs_st N s h1 hd V1 dt R -> is_u64 (e + 1) /\ is_u64 e.
Proof.
  intros S. pose proof (st_ok _ _ _ _ _ _ _ S) as Hok. rewrite sb_ok_spec in Hok.
  destruct Hroom as ((_ & Hb) & _ & He). unfold is_u64 in *. simpl in Hok. lia.
Qed.

(** The entry goes to an existing data block [b]. *)
Lemma add_in_block_st s hd R b :
  fs_st N s h hd V None R -> p ∈ take 10 R ->
  14 < num -> num mod 15 <> 0 -> b = data_blk V p num (num / 15) ->
  wp (let* blk := c_read_mut b in
      let* blk := lift (set_dir_entry blk (num mod MAX_ENTRIES_IN_DATA_BLOCK) child name) in
      c_set blk;;; c_write b;;; plus_one p) s Q X.
Proof.
  intros S Hin H14 Hmod ->. set (b := data_blk V p num (num / 15)).
  assert (Hk : 0 <= num / 15 < n_data num) by (rewrite n_data_list by lia; dlia).
  pose proof (do_shape _ _ _ _ DO) as Sh. pose proof parent_in as Hp.
  assert (Hb : blk_in h b).
  { pose proof (ds_data _ _ _ _ Sh _ Hk). destruct Hroom as ((_ & ?) & _). unfold blk_in, b. lia. }
  assert (Hbp : b <> p) by (by apply (ds_parent_data _ _ _ _ Sh)).
  pose proof (st_block_ok _ _ _ _ _ _ _ _ S Hb) as Hbok.
  pose proof (st_block_ok _ _ _ _ _ _ _ _ S Hp) as Hpok.
  wp_step. eapply c_read_mut_st; [exact S|done|]. intros s1 S1.
  rewrite set_dir_entry_at
    by (try done; unfold entry_pos_ok; change MAX_ENTRIES_IN_DATA_BLOCK with 15; dlia).
  change MAX_ENTRIES_IN_DATA_BLOCK with 15. wp_step. wp_step. wp_step.
  eapply c_set_st; [exact S1|done|by apply write_entry_ok|]. intros s2 S2. wp_step.
  eapply c_write_st; [exact S2|done|]. intros s3 S3.
  eapply plus_one_st; [exact S3|done| |by rewrite fupd_ne|].
  - unfold use. apply elem_of_cons. right.
    apply list_elem_of_lookup in Hin as [i Hi]. apply lookup_take_Some in Hi as [Hi Hi10].
    apply list_elem_of_lookup. exists i. apply lookup_take_Some. split; [done|lia].
  - intros s4 S4. eapply HQ; [exact S4|apply grows_refl|].
    apply (added_in_block Sh Hmax Hchild Hname Hpok ltac:(lia) b); try done.
    + by rewrite fupd_eq.
    + by rewrite fupd_ne, fupd_eq.
    + intros x Hx1 Hx2. by rewrite !fupd_ne.
Qed.

Lemma add_entry_in_data_block_st s hd R :
  fs_st N s h hd V None (use p R) -> 14 <= num < 7440 ->
  wp (add_entry_in_data_block parent child name num) s Q X.
Proof.
  intros S Hnum. pose proof parent_in as Hp. pose proof (do_shape _ _ _ _ DO) as Sh.
  pose proof (st_block_ok _ _ _ _ _ _ _ _ S Hp) as Hpok.
  destruct fresh_in as (He1 & Hp1 & Hne). destruct (e_plus_u64 _ _ _ _ S) as [Heu Heu'].
  unfold add_entry_in_data_block. change MAX_ENTRIES_IN_META_BLOCK with 14.
  change MAX_ENTRIES_IN_DATA_BLOCK with 15.
  destruct (Z.eqb_spec num 14) as [E14|N14]; [|destruct (Z.eqb_spec (num mod 15) 0) as [E0|N0]]; cbn [orb].
  - wp_step. eapply allocate_st; [exact S|done|by apply (room_can_alloc 2)|]. intros s1 S1.
    wp_step. wp_step. eapply c_get_st; [exact S1|done|in_recent|]. intros s2 S2.
    wp_step. eapply c_uninit_st; [exact S2|done|]. intros junk s3 Hj S3.
    destruct (copy_entries_spec 14 (V p) junk 1 0) as (blk & Hcp & Hbok & Hcopy & _);
      [exact Hpok|exact Hj|lia|lia|lia|lia|].
    wp_step. change (Z.to_nat 14) with 14%nat. rewrite Hcp. clear Hcp. wp_step. wp_step.
    rewrite set_dir_entry_at by (try done; unfold entry_pos_ok; change MAX_ENTRIES_IN_DATA_BLOCK with 15; lia).
    wp_step. eapply c_set_st; [exact S3|done|by apply write_entry_ok|]. intros s4 S4.
    wp_step. eapply c_write_st; [exact S4|done|]. intros s5 S5.
    replace (num / 15) with 0 by dlia.
    eapply add_link_to_parent_st; [exact S5|done|in_recent|by rewrite !fupd_ne|lia|].
    intros s6 S6. eapply HQ; [exact S6|auto with srfs|].
    assert (P14 : entry_pos_ok 14) by (unfold entry_pos_ok; change MAX_ENTRIES_IN_DATA_BLOCK with 15; lia).
    pose proof (entry_at_ok blk 14 Hbok P14) as Heo.
    apply added_leaving_meta; try done; try lia.
    + by rewrite fupd_eq.
    + intros j Hj'. rewrite fupd_ne, fupd_eq by done.
      rewrite entry_at_write_other by (try lia; by apply renamed_ok).
      rewrite <- (Hcopy j) by lia. f_equal. lia.
    + rewrite fupd_ne, fupd_eq by done. by apply renamed_is_entry.
    + intros x Hx1 Hx2. by rewrite !fupd_ne.
  - wp_step. eapply allocate_st; [exact S|done|by apply (room_can_alloc 2)|]. intros s1 S1.
    wp_step. wp_step. eapply c_uninit_st; [exact S1|done|]. intros junk s3 Hj S3. wp_step.
    rewrite set_dir_entry_at by (try done; unfold entry_pos_ok; change MAX_ENTRIES_IN_DATA_BLOCK with 15; lia).
    wp_step. eapply c_set_st; [exact S3|done|by apply write_entry_ok|]. intros s4 S4.
    wp_step. eapply c_write_st; [exact S4|done|]. intros s5 S5.
    eapply add_link_to_parent_st; [exact S5|done|in_recent|by rewrite !fupd_ne|dlia|].
    intros s6 S6. eapply HQ; [exact S6|auto with srfs|].
    apply added_new_data; try done; try lia.
    + rewrite fupd_ne, fupd_eq by done. apply renamed_is_entry; try done.
    + by rewrite fupd_eq.
    + intros x Hx1 Hx2. by rewrite !fupd_ne.
  - wp_step. eapply c_get_st; [exact S|done|in_recent|]. intros s1 S1. wp_step.
    rewrite get_link_meta by (unfold meta_link_ok; change MAX_LINKS_IN_META_BLOCK with 496; dlia). wp_step.
    replace (get_u64_at (128 + 8 * (num / 15)) (V p)) with (data_blk V p num (num / 15))
      by (unfold data_blk; by rewrite (proj2 (Z.leb_le _ _)) by lia).
    eapply add_in_block_st; [exact S1|in_recent|lia|done|done].
Qed.

(** The directory is in the list shape and the new data block [e] holds the
    entry. *)
Section AfterData.
Context {V1 : Z -> Block} (HV1 : forall x, x <> e -> V1 x = V x).
Context (Hent : is_entry child name (entry_at (V1 e) 0)) (E0 : num mod 15 = 0) (H74 : 7440 <= num).

Lemma add_new_link_block_st s R :
  fs_st N s h1 h1 V1 None (use e (use p R)) -> num = 7440 \/ num mod 7680 = 0 ->
  wp (add_new_link_block parent num e) s Q X.
Proof.
  intros S Hcase. destruct fresh_in as (_ & _ & Hne). destruct fresh_in2 as (He2 & Hd2 & Hp2 & Hne2).
  pose proof (do_shape _ _ _ _ DO) as Sh. pose proof (HV1 p Hne) as Ep.
  pose proof (st_block_ok _ _ _ _ _ _ _ _ S Hp2) as Hpok. rewrite Ep in Hpok.
  destruct (e_plus_u64' _ _ _ _ _ S) as [Heu Heu'].
  unfold add_new_link_block. change MAX_ENTRIES_ONLY_DATA_BLOCKS with 7440.
  change MAX_ENTRIES_COVERED_BY_FIRST_LEVEL_BLOCKLIST with 7680. change MAX_LINKS_IN_META_BLOCK with 496.
  wp_step. eapply allocate_st; [exact S|done|apply (room_can_alloc 1); [lia|by apply (room_alloc 2)]|].
  intros s1 S1. rewrite empty_alloc in *. wp_step. destruct (Z.eqb_spec num 7440) as [E74|N74].
  - wp_step. eapply c_get_st; [exact S1|done|in_recent|]. intros s2 S2. rewrite Ep.
    wp_step. eapply c_uninit_st; [exact S2|done|]. intros junk s3 Hj S3.
    destruct (copy_links_out_spec 496 (V p) junk) as (blk & Hcp & Hbok & Hcopy); [exact Hpok|exact Hj|lia|].
    wp_step. change (Z.to_nat 496) with 496%nat. rewrite Hcp. clear Hcp. wp_step. wp_step.
    rewrite set_link by (unfold link_ok; lia). wp_step.
    eapply c_set_st; [exact S3|done|by apply put_u64_block_ok|]. intros s4 S4.
    wp_step. eapply c_write_st; [exact S4|done|]. intros s5 S5. replace (num / 7680) with 0 by dlia.
    eapply add_link_to_parent_st; [exact S5|done|in_recent|by rewrite !fupd_ne|lia|].
    intros s6 S6. eapply HQ; [exact S6|eapply grows_trans; apply grows_alloc|].
    rewrite !empty_alloc. replace (e + 1 + 1) with (e + 2) by lia.
    apply added_first_link_block; try done; try lia.
    + by rewrite fupd_ne, !fupd_ne by (try done; lia).
    + by rewrite fupd_eq.
    + intros i Hi. rewrite fupd_ne, fupd_eq by done. rewrite link_put by (try done; lia).
      rewrite decide_False by lia. by apply Hcopy.
    + rewrite fupd_ne, fupd_eq by done. rewrite link_put by (try done; lia). by rewrite decide_True.
    + intros x Hx1 Hx2 Hx3. rewrite !fupd_ne by done. by apply HV1.
  - destruct Hcase as [?|E76]; [done|].
    wp_step. eapply c_uninit_st; [exact S1|done|]. intros junk s3 Hj S3.
    wp_step. rewrite set_link by (unfold link_ok; lia). wp_step.
    eapply c_set_st; [exact S3|done|by apply put_u64_block_ok|]. intros s4 S4.
    wp_step. eapply c_write_st; [exact S4|done|]. intros s5 S5.
    eapply add_link_to_parent_st; [exact S5|done|in_recent|by rewrite !fupd_ne|dlia|].
    intros s6 S6. eapply HQ; [exact S6|eapply grows_trans; apply grows_alloc|].
    rewrite !empty_alloc. replace (e + 1 + 1) with (e + 2) by lia.
    apply added_new_link_block; try done; try lia.
    + by rewrite fupd_ne, !fupd_ne by (try done; lia).
    + by rewrite fupd_eq.
    + rewrite fupd_ne, fupd_eq by done. rewrite link_put by (try done; lia). by rewrite decide_True.
    + intros x Hx1 Hx2 Hx3. rewrite !fupd_ne by done. by apply HV1.
Qed.

Lemma add_to_link_block_st s R :
  fs_st N s h1 h1 V1 None (use e (use p R)) -> 7440 < num -> num mod 7680 <> 0 ->
  wp (add_to_link_block parent num e) s Q X.
Proof.
  intros S Hgt N76. destruct fresh_in as (_ & Hp1 & Hne). pose proof (do_shape _ _ _ _ DO) as Sh.
  pose proof (HV1 p Hne) as Ep. destruct (e_plus_u64' _ _ _ _ _ S) as [Heu Heu'].
  pose proof (st_block_ok _ _ _ _ _ _ _ _ S Hp1) as Hpok. rewrite Ep in Hpok.
  set (lb := meta_link (V p) (num / 7680)).
  assert (Hi : 0 <= num / 7680 < n_link num) by (rewrite n_link_list by lia; dlia).
  pose proof (ds_link _ _ _ _ Sh _ Hi) as Hlr. fold lb in Hlr.
  assert (Hl1 : blk_in h1 lb) by (destruct Hroom as ((_ & ?) & _); unfold blk_in; simpl; lia).
  pose proof (st_block_ok _ _ _ _ _ _ _ _ S Hl1) as Hlok. rewrite HV1 in Hlok by lia.
  assert (Hlp : lb <> p) by (by apply (ds_parent_link _ _ _ _ Sh)).
  unfold add_to_link_block. change MAX_ENTRIES_COVERED_BY_FIRST_LEVEL_BLOCKLIST with 7680.
  change MAX_ENTRIES_IN_DATA_BLOCK with 15.
  wp_step. eapply c_get_st; [exact S|done|in_recent|]. intros s1 S1. rewrite Ep. wp_step.
  rewrite get_link_meta by (unfold meta_link_ok; change MAX_LINKS_IN_META_BLOCK with 496; dlia). wp_step.
  fold (meta_link (V p) (num / 7680)). fold lb.
  wp_step. eapply c_read_mut_st; [exact S1|done|]. intros s2 S2. rewrite HV1 by lia. wp_step.
  rewrite set_link by (unfold link_ok; dlia). wp_step. wp_step.
  eapply c_set_st; [exact S2|done|by apply put_u64_block_ok|]. intros s3 S3.
  wp_step. eapply c_write_st; [exact S3|done|]. intros s4 S4.
  eapply plus_one_st; [exact S4|done|in_recent|by rewrite !fupd_ne|].
  intros s5 S5. eapply HQ; [exact S5|apply grows_alloc|]. rewrite empty_alloc.
  apply added_in_link_block with lb; try done; try lia.
  - by rewrite fupd_ne, fupd_ne by (try done; lia).
  - by rewrite fupd_eq.
  - by rewrite fupd_ne, fupd_eq by done.
  - intros x Hx1 Hx2 Hx3. rewrite !fupd_ne by done. by apply HV1.
Qed.
End AfterData.

Lemma add_entry_in_list_st s hd R :
  fs_st N s h hd V None (use p R) -> 7440 <= num ->
  wp (add_entry_in_list parent child name num) s Q X.
Proof.
  intros S Hnum. pose proof parent_in as Hp. pose proof (do_shape _ _ _ _ DO) as Sh.
  destruct fresh_in as (He1 & Hp1 & Hne).
  assert (Hpos0 : entry_pos_ok 0) by (unfold entry_pos_ok; change MAX_ENTRIES_IN_DATA_BLOCK with 15; lia).
  unfold add_entry_in_list. change MAX_ENTRIES_ONLY_DATA_BLOCKS with 7440.
  change MAX_ENTRIES_COVERED_BY_FIRST_LEVEL_BLOCKLIST with 7680. change MAX_ENTRIES_IN_DATA_BLOCK with 15.
  destruct (Z.eqb_spec (num mod 15) 0) as [E0|N0].
  - wp_step. eapply allocate_st; [exact S|done|by apply (room_can_alloc 2)|]. intros s1 S1.
    wp_step. eapply c_uninit_st; [exact S1|done|]. intros junk s2 Hj S2. wp_step.
    rewrite set_dir_entry_at by done.
    wp_step. wp_step. eapply c_set_st; [exact S2|done|by apply write_entry_ok|]. intros s3 S3.
    wp_step. eapply c_write_st; [exact S3|done|]. intros s4 S4.
    assert (HV1 : forall x, x <> e -> fupd (fupd V e junk) e
      (write_entry junk 0 (renamed child name (entry_at junk 0))) x = V x) by (intros; by rewrite !fupd_ne).
    pose proof (renamed_is_entry junk 0 child name Hj Hpos0 Hchild Hname) as Hent.
    destruct (Z.eqb_spec num 7440) as [E74|N74]; [|destruct (Z.eqb_spec (num mod 7680) 0) as [E76|N76]];
      cbn [orb]; [eapply add_new_link_block_st|eapply add_new_link_block_st|eapply add_to_link_block_st];
      try exact S4; try done; rewrite ?fupd_eq; auto; lia.
  - assert (N76 : num mod 7680 <> 0) by dlia. assert (Hgt : 7440 < num) by dlia.
    assert (Hlb : 0 <= num / 7680 < n_link num) by (rewrite n_link_list by lia; dlia).
    pose proof (ds_link _ _ _ _ Sh _ Hlb) as Hlr.
    wp_step. eapply c_get_st; [exact S|done|in_recent|]. intros s1 S1. wp_step.
    rewrite get_link_meta by (unfold meta_link_ok; change MAX_LINKS_IN_META_BLOCK with 496; dlia).
    wp_step. wp_step. eapply c_read_st; [exact S1| |].
    { destruct Hroom as ((_ & ?) & _). unfold blk_in, meta_link in *. lia. }
    intros s2 S2. rewrite get_link by (unfold link_ok; dlia). wp_step. wp_step.
    replace (get_u64_at (8 * (num mod 7680 / 15)) (V (get_u64_at (128 + 8 * (num / 7680)) (V p))))
      with (data_blk V p num (num / 15)).
    2:{ unfold data_blk. rewrite (proj2 (Z.leb_gt _ _)) by lia. unfold link, meta_link.
        replace (num / 15 / 512) with (num / 7680) by dlia.
        by replace (num / 15 mod 512) with (num mod 7680 / 15) by dlia. }
    eapply add_in_block_st; [exact S2|in_recent|lia|done|done].
Qed.

Lemma add_directory_entry_inner_st s hd R :
  fs_st N s h hd V None R -> p ∈ R -> txn_type h <> TXN_TYPE_NONE ->
  wp (add_directory_entry_inner parent child name) s Q X.
Proof.
  intros S Hin Hty. pose proof parent_in as Hp. destruct (validate_dir_num _ _ _ _ DO) as [_ Hn].
  unfold add_directory_entry_inner. wp_step. eapply wp_hdr; [exact S|].
  wp_step. apply wp_assert; [by apply negb_true_iff, Z.eqb_neq|].
  wp_step. eapply c_get_st; [exact S|done|done|]. intros s1 S1. rewrite (do_size _ _ _ _ DO).
  change MAX_ENTRIES_IN_META_BLOCK with 14. change MAX_ENTRIES_ONLY_DATA_BLOCKS with 7440.
  destruct (Z.ltb_spec num 14); [|destruct (Z.ltb_spec num 7440)].
  - eapply add_entry_in_meta_st; [exact S1|in_recent|done].
  - by eapply add_entry_in_data_block_st.
  - by eapply add_entry_in_list_st.
Qed.
End Inner.
End DirAdd.
