(* ===== verification/SrfsMount.v ===== *)
(** * Formatting and mounting

    [format] on a healthy device, then [open_fs], gives a filesystem with an empty
    root directory; [open_fs] on the device of a filesystem that is between
    operations gives back the same header and the same blocks. *)

From stdpp Require Import base numbers list.
From S2P Require Import RustPrelude Crc32 SrfsLayout BlockDevice BlockCache SrfsFs SrfsState SrfsDir.

Open Scope Z_scope.

Section Mount.
Context {D : Type} {Dev : SyncBlockDevice D} {DL : SyncBlockDeviceLaws D}.
Context {Crc : Crc32} {CL : Crc32Laws Crc} {Clk : Clock} {Unin : Uninit}.
Abbreviation fs := (SyncFileSystem D).

(** What the clock and the uninitialised buffers provide. *)
Definition env_ok : Prop :=
  Forall2 fits [8; 4; 4]%nat [secs now; ns now; ts_pad now] /\ block_ok uninit_block.

(** The header of a mountable filesystem. *)
Definition mountable (h : SuperblockHeader) : Prop := no_txn h /\ version h = 1 /\ magic h = MAGIC.

Lemma open_fs_st d h rest :
  dev_healthy d -> block_ok uninit_block -> sb_ok h -> mountable h ->
  3 <= sb_num_blocks h <= dev_num_blocks d -> sb_num_blocks h < U64_MAX ->
  length rest = 3992%nat -> dev_contents d 0 = sb_enc (sb_set_crc32 h) ++ rest ->
  exists s, open_fs d = Ok s /\
    fs_st (dev_num_blocks d) s (sb_set_crc32 h) (sb_set_crc32 h) (dev_contents d) None [].
Proof.
  intros Hh Hu Hok ((_ & _ & T1 & T2 & T3 & T4) & Hv & Hm) Hn Hmax Hrest H0.
  destruct (dev_healthy_read d 0 uninit_block Hh ltac:(lia) Hu) as (d' & Hrd & Hh').
  pose proof (dev_read_frame _ _ _ _ _ Hrd) as [Hnum Hfr].
  unfold open_fs. rewrite Hrd, H0. unfold Superblock_from.
  rewrite take_app_length' by (by rewrite length_sb_enc).
  pose proof (sb_dec_enc (sb_set_crc32 h) [] (sb_set_crc32_ok _ Hok)) as Hd. rewrite app_nil_r in Hd.
  rewrite Hd, sb_validate_seal by done. rewrite drop_app_length' by (by rewrite length_sb_enc).
  cbv beta zeta. change (sb_num_blocks (header _)) with (sb_num_blocks h).
  rewrite (proj2 (Z.ltb_ge _ _)) by lia. rewrite (proj2 (Z.eqb_neq _ _)) by lia.
  rewrite (proj2 (Z.ltb_ge _ _)) by lia. cbn [orb]. simpl header.
  change (txn_meta_block (sb_set_crc32 h)) with (txn_meta_block h).
  change (txn_data_block (sb_set_crc32 h)) with (txn_data_block h).
  change (txn_link_block (sb_set_crc32 h)) with (txn_link_block h).
  change (txn_list_of_links_block (sb_set_crc32 h)) with (txn_list_of_links_block h).
  rewrite T1, T2, T3, T4. cbn [Z.eqb negb orb]. eexists. split; [done|].
  split; simpl; try done; [|by apply sb_set_crc32_ok].
  eapply cache_rep_ext; [|rewrite <- Hnum; by apply BlockCache_new_rep].
  intros x. rewrite Hfr. unfold fupd. destruct (Z.eqb_spec x 0) as [->|]; [exact H0|done].
Qed.

(** *** Formatting *)

Lemma dev_write_raw_st (d : D) b blk (Q : unit -> D -> Prop) X :
  dev_healthy d -> 0 <= b < dev_num_blocks d -> block_ok blk ->
  (forall d', dev_healthy d' -> dev_num_blocks d' = dev_num_blocks d -> dev_contents d' b = blk ->
     (forall c, c <> b -> dev_contents d' c = dev_contents d c) -> Q tt d') ->
  wp (dev_write_raw b blk) d Q X.
Proof.
  intros Hh Hb Hok HQ. destruct (dev_healthy_write d b blk Hh Hb Hok) as (d' & Hw & Hh').
  destruct (dev_write_frame _ _ _ _ _ Hw) as [Hn Hf]. unfold wp, dev_write_raw. rewrite Hw.
  apply HQ; try done. by apply (dev_write_ok _ _ _ _ Hw).
Qed.

Definition fresh_header (n : Z) : SuperblockHeader := mkSb MAGIC 1 n (n - 2) 1 0 2 0 0 0 0 0 0 0.

Lemma fresh_header_ok n : 2 <= n < 2 ^ 64 -> sb_ok (fresh_header n).
Proof.
  intros Hn. apply sb_ok_spec. unfold is_u64, is_u32, fresh_header, MAGIC. simpl. lia.
Qed.

Lemma new_meta_ok id parent :
  env_ok -> id_ok id -> id_ok parent -> meta_ok (EntryMetadata_new now id parent).
Proof.
  intros [Ht _] [H1 H2] [H3 H4]. split; [|done].
  inversion Ht as [|? ? ? ? F1 Ht2]; subst. inversion Ht2 as [|? ? ? ? F2 Ht3]; subst.
  inversion Ht3 as [|? ? ? ? F3 Ht4]; subst.
  assert (Z8 : fits 8 0) by (unfold fits; lia). assert (Z4 : fits 4 0) by (unfold fits; lia).
  unfold meta_fields, meta_widths, EntryMetadata_new. simpl.
  repeat (apply List.Forall2_cons; [assumption|]). apply List.Forall2_nil.
Qed.

Lemma root_id_ok : id_ok ROOT_DIR_ID.
Proof. unfold id_ok, is_u64. simpl. lia. Qed.

Definition root_block (n : Z) : Block :=
  put_meta (meta_set_crc32 (EntryMetadata_new now ROOT_DIR_ID ROOT_DIR_ID))
    (blit 0 (sb_enc (sb_set_crc32 (fresh_header n))) Block_new_zeroed).

Lemma format_st d (Q : unit -> D -> Prop) X :
  dev_healthy d -> 2 <= dev_num_blocks d < U64_MAX ->
  (forall d', dev_healthy d' -> dev_num_blocks d' = dev_num_blocks d ->
     dev_contents d' 0 = sb_enc (sb_set_crc32 (fresh_header (dev_num_blocks d))) ++ replicate 3992 Byte.x00 ->
     dev_contents d' 1 = root_block (dev_num_blocks d) ->
     (forall c, 1 < c -> dev_contents d' c = dev_contents d c) -> Q tt d') ->
  wp format d Q X.
Proof.
  intros Hh Hn HQ. unfold format. wp_steps. rewrite (proj2 (Z.ltb_ge _ _)) by lia.
  replace (Z.min (dev_num_blocks d) (U64_MAX - 1)) with (dev_num_blocks d) by lia.
  assert (Hz : block_ok Block_new_zeroed) by apply length_replicate.
  assert (Hb : block_ok (blit 0 (sb_enc (sb_set_crc32 (fresh_header (dev_num_blocks d)))) Block_new_zeroed))
    by (unfold block_ok; rewrite length_blit; exact Hz).
  change (format_header (dev_num_blocks d)) with (sb_set_crc32 (fresh_header (dev_num_blocks d))).
  cbv zeta. wp_step. rewrite sb_validate_seal by done. wp_step. wp_step.
  apply dev_write_raw_st; [done|lia|done|]. intros d1 Hh1 Hn1 H0 Hf1.
  apply dev_write_raw_st; [done|lia|by apply put_meta_block_ok|]. intros d2 Hh2 Hn2 H1 Hf2.
  apply HQ; [done|lia| |done|].
  - rewrite Hf2 by lia. rewrite H0. rewrite blit_in by (rewrite length_sb_enc, Hz; lia).
    rewrite take_0, app_nil_l, length_sb_enc. f_equal.
  - intros c Hc. rewrite Hf2, Hf1 by lia. done.
Qed.

Lemma root_dir_ok V n :
  env_ok -> V 1 = root_block n -> 2 <= n -> dir_ok V 2 ROOT_DIR_ID 0.
Proof.
  intros He HV Hn. set (m := EntryMetadata_new now ROOT_DIR_ID ROOT_DIR_ID).
  assert (Hz : block_ok (blit 0 (sb_enc (sb_set_crc32 (fresh_header n))) Block_new_zeroed))
    by (unfold block_ok; rewrite length_blit; apply length_replicate).
  assert (Hm : get_meta (V 1) = meta_set_crc32 m).
  { rewrite HV. apply get_put_meta; [|done].
    apply meta_set_crc32_ok, new_meta_ok; [done|apply root_id_ok|apply root_id_ok]. }
  split.
  - apply root_id_ok.
  - simpl block_no. rewrite Hm. change ROOT_DIR_ID with (m_id m). apply validate_dir_seal; done.
  - simpl block_no. by rewrite Hm.
  - done.
  - split; simpl; try lia; intros; exfalso; unfold n_link, n_data in *; simpl in *; lia.
Qed.
End Mount.
