(* ===== verification/SrfsNode.v ===== *)
(** * Creating files and directories

    [add_directory_entry] as one transaction: the name check, the new metadata
    block, the directory entry, the commit. *)

From stdpp Require Import base numbers list.
From S2P Require Import RustPrelude Crc32 SrfsLayout BlockDevice BlockCache SrfsFs SrfsState SrfsDir.
From S2P Require Import SrfsDirAdd SrfsMount.

Open Scope Z_scope.

Section Node.
Context {D : Type} {Dev : SyncBlockDevice D} {DL : SyncBlockDeviceLaws D}.
Context {Crc : Crc32} {CL : Crc32Laws Crc} {Clk : Clock} {Unin : Uninit}.
Abbreviation fs := (SyncFileSystem D).

Lemma wp_try_ok {A} (m : eff fs FsError A) s (Q : option A -> fs -> Prop) X :
  wp m s (fun a s' => Q (Some a) s') (fun _ s' => Q None s') -> wp (try_ok m) s Q X.
Proof. unfold wp, try_ok. destruct (m s) as [s' [a|e|]]; done. Qed.

(** The name checks of a new entry: the outcome in each case. *)
Definition new_entry_check (V : Z -> Block) (p num : Z) (name : bytes) (r : option FsError) : Prop :=
  match r with
  | None => validate_filename name = Ok tt /\ no_entry V p num (pred_by_name name) /\ num < MAX_DIR_ENTRIES
  | Some InvalidArgument => validate_filename name = Err InvalidArgument
  | Some AlreadyExists => validate_filename name = Ok tt /\ exists pos, first_entry V p num (pred_by_name name) pos
  | Some TooLarge => validate_filename name = Ok tt /\ no_entry V p num (pred_by_name name) /\ num = MAX_DIR_ENTRIES
  | Some _ => False
  end.

Lemma validate_filename_cases name :
  validate_filename name = Ok tt \/ validate_filename name = Err InvalidArgument.
Proof. unfold validate_filename. destruct (_ || _); auto. Qed.

Lemma validate_new_entry_st N s h hd V R e parent num name (Q : unit -> fs -> Prop) (X : FsError -> fs -> Prop) :
  fs_st N s h hd V None R -> dir_ok V e parent num -> e <= sb_num_blocks h ->
  (forall s' R', fs_st N s' h hd V None (use (block_no parent) R') ->
     new_entry_check V (block_no parent) num name None -> Q tt s') ->
  (forall x s' R', fs_st N s' h hd V None R' ->
     new_entry_check V (block_no parent) num name (Some x) -> X x s') ->
  wp (validate_new_entry parent name) s Q X.
Proof.
  intros S DO He HQ HX. destruct (validate_dir_num _ _ _ _ DO) as [Hp Hn].
  unfold validate_new_entry. wp_step. eapply wp_check_error; [exact S|]. wp_step.
  destruct (validate_filename_cases name) as [Hv|Hv]; rewrite Hv.
  2:{ by eapply HX. }
  wp_steps. rewrite (st_num _ _ _ _ _ _ _ S). rewrite (proj2 (Z.leb_gt _ _)) by lia.
  rewrite (proj2 (Z.ltb_ge _ _)) by lia. cbn [orb]. wp_step. apply wp_try_ok.
  eapply find_entry_st; [exact S|exact DO|done| |].
  - intros pos s1 R1 HF S1 _. wp_steps. eapply HX; [exact S1|]. simpl. eauto.
  - intros s1 R1 HN S1. wp_step. eapply c_read_st; [exact S1|unfold blk_in; lia|]. intros s2 S2.
    rewrite (do_valid _ _ _ _ DO), (do_size _ _ _ _ DO). wp_steps.
    destruct (Z.eqb_spec num MAX_DIR_ENTRIES) as [E|E]; wp_steps.
    + eapply HX; [exact S2|]. simpl. auto.
    + eapply HQ; [exact S2|]. simpl. change MAX_DIR_ENTRIES with 65536 in *. split; [done|]. split; [done|lia].
Qed.

(** ** Generations *)

Lemma land_1_odd x : Z.land x 1 = if Z.odd x then 1 else 0.
Proof. change 1 with (Z.ones 1) at 1. rewrite Z.land_ones by lia. by rewrite Zmod_odd. Qed.

Lemma next_generation_spec g (is_file : bool) :
  0 <= g < 2 ^ 64 - 2 ->
  g < next_generation g is_file <= g + 2 /\
  (if is_file then Z.odd (next_generation g is_file) = false else Z.odd (next_generation g is_file) = true).
Proof.
  intros Hg. unfold next_generation. rewrite !(u64_id (g + 1)) by (unfold is_u64; lia).
  assert (E2 : u64 (g + 1 + 1) = g + 2) by (rewrite u64_id; [lia|unfold is_u64; lia]).
  assert (O2 : Z.odd (g + 2) = Z.odd g) by (rewrite Z.odd_add; by destruct (Z.odd g)).
  assert (O1 : Z.odd (g + 1) = negb (Z.odd g)) by (rewrite Z.odd_add; by destruct (Z.odd g)).
  rewrite !land_1_odd, !O1. destruct is_file, (Z.odd g) eqn:Eo; simpl; rewrite ?land_1_odd, ?E2, ?O2, ?O1, ?Eo;
    simpl; rewrite ?E2, ?O2, ?O1, ?Eo; simpl; split; try done; lia.
Qed.

Lemma kind_new b g (is_file : bool) :
  (if is_file then Z.odd g = false else Z.odd g = true) ->
  kind (mkEntryId b g) = if is_file then File else Directory.
Proof. intros H. unfold kind. simpl. rewrite land_1_odd. destruct is_file; by rewrite H. Qed.

(** ** The new node *)

Lemma dir_shape_mono V e e' p num : dir_shape V e p num -> e <= e' -> dir_shape V e' p num.
Proof.
  intros [H1 H2 H3 H4 H5 H6 H7 H8] He. split; try done; [lia|intros; specialize (H2 i); lia|].
  intros. specialize (H3 k). lia.
Qed.

Lemma dir_ok_frame V V' e e' id num :
  dir_ok V e id num -> e <= e' -> (forall b, dir_block V (block_no id) num b -> V' b = V b) ->
  dir_ok V' e' id num.
Proof.
  intros [H1 H2 H3 H4 H5] He Hf. assert (E : V' (block_no id) = V (block_no id)) by (apply Hf; by left).
  change MAX_DIR_ENTRIES with 65536 in *.
  split; rewrite ?E; try done. apply dir_shape_mono with e; [|done]. apply dir_shape_frame with V; [lia|done|done].
Qed.

Lemma dir_block_below V e p num b : dir_shape V e p num -> dir_block V p num b -> 0 < b < e.
Proof.
  intros S [->|[(i & Hi & ->)|(k & Hk & ->)]];
    [apply (ds_parent _ _ _ _ S)|by apply (ds_link _ _ _ _ S)|by apply (ds_data _ _ _ _ S)].
Qed.

(** Node [id] was created under [parent], which had [num] entries. *)
Record node_added (V V' : Z -> Block) (e e' : Z) (parent id : EntryId) (num : Z) (name : bytes) : Prop := {
  na_parent : dir_ok V' e' parent (num + 1);
  na_old : forall pos, 0 <= pos < num ->
    dir_entry V' (block_no parent) (num + 1) pos = dir_entry V (block_no parent) num pos;
  na_new : is_entry id name (dir_entry V' (block_no parent) (num + 1) num);
  na_frame : forall b, b < e -> ~ dir_block V (block_no parent) num b -> V' b = V b;
  na_meta : get_meta (V' (block_no id)) = meta_set_crc32 (EntryMetadata_new now id parent);
  na_fresh : block_no id = e /\ e < e' <= e + 3;
  na_blocks : forall b, dir_block V' (block_no parent) (num + 1) b ->
    dir_block V (block_no parent) num b \/ e < b < e';
  na_parent_meta : get_meta (V' (block_no parent)) =
    meta_set_crc32 (set_size (num + 1) (get_meta (V (block_no parent))));
}.

Lemma node_added_intro V V1 V' e e' parent id num name m :
  dir_ok V e parent num -> num < MAX_DIR_ENTRIES -> block_no id = e ->
  (forall x, x <> e -> V1 x = V x) -> get_meta (V1 e) = m -> m = meta_set_crc32 (EntryMetadata_new now id parent) ->
  entry_added V1 V' (e + 1) e' (block_no parent) num id name -> e + 1 <= e' ->
  node_added V V' e e' parent id num name.
Proof.
  intros DO Hlt Hid HV1 Hm1 -> EA He. pose proof (do_shape _ _ _ _ DO) as Sh.
  assert (Hfr : forall b, dir_block V (block_no parent) num b -> V1 b = V b).
  { intros b Hb. apply HV1. pose proof (dir_block_below _ _ _ _ _ Sh Hb). lia. }
  assert (DO1 : dir_ok V1 (e + 1) parent num) by (apply dir_ok_frame with V e; [done|lia|done]).
  pose proof (do_num _ _ _ _ DO) as Hnum. change MAX_DIR_ENTRIES with 65536 in *.
  assert (Hdb : forall b, dir_block V1 (block_no parent) num b -> dir_block V (block_no parent) num b).
  { intros b [->|[(i & Hi & ->)|(k & Hk & ->)]]; [by left|right; left; exists i|right; right; exists k].
    - split; [done|]. rewrite Hfr; [done|by left].
    - split; [done|]. apply data_blk_same; [lia|done|done]. }
  split.
  - by eapply entry_added_dir_ok.
  - intros pos Hpp. rewrite (ea_old _ _ _ _ _ _ _ _ EA) by done.
    apply (dir_entry_frame V V1 e); [lia|done|done|done].
  - apply (ea_new _ _ _ _ _ _ _ _ EA).
  - intros b Hb Hnb. rewrite (ea_frame _ _ _ _ _ _ _ _ EA); [apply HV1; lia|lia|].
    intros ?. apply Hnb. by apply Hdb.
  - rewrite Hid, (ea_frame _ _ _ _ _ _ _ _ EA); [done|lia|]. intros Hb.
    apply Hdb in Hb. pose proof (dir_block_below _ _ _ _ _ Sh Hb). lia.
  - pose proof (ea_grown _ _ _ _ _ _ _ _ EA) as (_ & Hsp & _). split; [done|lia].
  - intros b Hb. destruct (proj2 (proj2 (ea_grown _ _ _ _ _ _ _ _ EA)) b Hb) as [?|?]; [left; by apply Hdb|right; lia].
  - rewrite (ea_meta _ _ _ _ _ _ _ _ EA), Hfr; [done|by left].
Qed.

(** ** The whole operation *)

(** The checksum of the header is up to date. *)
Definition sealed (h : SuperblockHeader) : Prop := sb_set_crc32 h = h.

(** The header between operations, after blocks were taken. *)
Record settled (h h' : SuperblockHeader) (g : Z) : Prop := {
  se_num : sb_num_blocks h' = sb_num_blocks h;
  se_magic : magic h' = magic h;
  se_version : version h' = version h;
  se_generation : sb_generation h' = g;
  se_freelist : freelist_head h' = freelist_head h;
  se_txn : no_txn h';
  se_sealed : sealed h';
  se_empty : empty_area_start h <= empty_area_start h';
  se_free : free_blocks h' + empty_area_start h' = free_blocks h + empty_area_start h;
}.

Lemma settled_commit h h1 h2 g :
  sb_num_blocks h1 = sb_num_blocks h -> magic h1 = magic h -> version h1 = version h ->
  sb_generation h1 = g -> freelist_head h1 = freelist_head h ->
  empty_area_start h <= empty_area_start h1 ->
  free_blocks h1 + empty_area_start h1 = free_blocks h + empty_area_start h ->
  grows h1 h2 -> settled h (sb_set_crc32 (clear_txn h2)) g.
Proof. intros ? ? ? ? ? ? ? []. split; simpl; try congruence; try lia; [done|apply sb_set_crc32_idem]. Qed.

Lemma settled_room n m h h' g :
  settled h h' g -> empty_area_start h' <= empty_area_start h + m -> room n h -> m <= n -> room (n - m) h'.
Proof.
  intros [E1 E2 E3 E4 E5 E6 _ E7 E8] Hm ((Hf & Hb) & Hfr & He) Hn. unfold room, bump. lia.
Qed.

Lemma new_node_meta id parent : set_size 0 (EntryMetadata_new now id parent) = EntryMetadata_new now id parent.
Proof. done. Qed.

Section Add.
Context {N : Z} {h hd : SuperblockHeader} {V : Z -> Block} {parent : EntryId} {num : Z} {name : bytes} {is_file : bool}.
Context (Env : env_ok) (Hno : no_txn h) (DO : dir_ok V (empty_area_start h) parent num) (Hroom : room 3 h).
Context (Hgen : sb_generation h < 2 ^ 64 - 2).

Definition new_id : EntryId := mkEntryId (empty_area_start h) (next_generation (sb_generation h) is_file).

Lemma sb_ok_generation : sb_ok h -> 0 <= sb_generation h.
Proof. rewrite sb_ok_spec. unfold is_u64. lia. Qed.

Lemma new_id_ok : sb_ok h -> id_ok new_id.
Proof.
  intros Hok. pose proof (sb_ok_generation Hok).
  destruct (next_generation_spec (sb_generation h) is_file) as [Hg _]; [lia|].
  rewrite sb_ok_spec in Hok. unfold id_ok, new_id, is_u64 in *. simpl. lia.
Qed.

Lemma add_directory_entry_st s R (Q : EntryId -> fs -> Prop) (X : FsError -> fs -> Prop) :
  fs_st N s h hd V None R ->
  (forall s' h' V' R', fs_st N s' h' h' V' None R' ->
     settled h h' (next_generation (sb_generation h) is_file) ->
     new_entry_check V (block_no parent) num name None ->
     node_added V V' (empty_area_start h) (empty_area_start h') parent new_id num name -> Q new_id s') ->
  (forall x s' R', fs_st N s' h hd V None R' ->
     new_entry_check V (block_no parent) num name (Some x) -> X x s') ->
  wp (add_directory_entry parent name is_file) s Q X.
Proof.
  intros S HQ HX. pose proof (st_ok _ _ _ _ _ _ _ S) as Hok. pose proof (new_id_ok Hok) as Hnid.
  destruct (validate_dir_num _ _ _ _ DO) as [Hp Hn]. pose proof Hroom as ((Hfl & Hb) & Hfr & He).
  pose proof (do_id _ _ _ _ DO) as Hpid.
  unfold add_directory_entry. wp_step. eapply wp_check_error; [exact S|]. wp_step.
  eapply validate_new_entry_st; [exact S|exact DO|lia| |exact HX]. intros s1 R1 S1 Hchk.
  pose proof Hchk as (Hvf & Hne & Hlt). change MAX_DIR_ENTRIES with 65536 in Hlt.
  wp_step. eapply wp_hdr; [exact S1|]. wp_step.
  set (g := next_generation (sb_generation h) is_file) in *.
  eapply (wp_upd_hdr _ _ _ _ _ _ _ (upd_generation g)); [exact S1|apply upd_generation_ok; [apply Hnid|done]|done|].
  intros s2 S2. wp_step. eapply start_txn_st; [exact S2|exact Hno|apply Hpid|done|]. intros s3 S3.
  set (h3 := sb_set_crc32 (upd_txn (block_no parent) TXN_TYPE_ADD_NODE (upd_generation g h))) in *.
  assert (Hown : txn_blocks_owner h3 <> 0) by (simpl; lia).
  assert (R3 : room 3 h3) by exact Hroom.
  wp_step. eapply allocate_st; [exact S3|exact Hown|by apply (room_can_alloc 3)|]. intros s4 S4.
  set (h4 := sb_set_crc32 (alloc_hdr Metadata h3)) in *.
  assert (R4 : room 2 h4) by (by apply (room_alloc 3)).
  change (empty_area_start h3) with (empty_area_start h). set (e := empty_area_start h) in *.
  assert (He4 : blk_in h4 e) by (unfold blk_in; simpl; lia).
  change (mkEntryId e g) with new_id.
  wp_step. eapply c_uninit_st; [exact S4|done|]. intros junk s5 Hj S5. rewrite new_node_meta.
  assert (Hm : meta_ok (meta_set_crc32 (EntryMetadata_new now new_id parent)))
    by (by apply meta_set_crc32_ok, new_meta_ok).
  wp_step. eapply c_set_st; [exact S5|done|by apply put_meta_block_ok|]. intros s6 S6.
  wp_step. eapply c_write_st; [exact S6|done|]. intros s7 S7. wp_step. wp_step.
  set (V1 := fupd (fupd V e junk) e _) in S7.
  assert (HV1 : forall x, x <> e -> V1 x = V x) by (intros; unfold V1; by rewrite !fupd_ne).
  assert (DO1 : dir_ok V1 (e + 1) parent num).
  { apply dir_ok_frame with V e; [done|lia|]. intros b Hbb. apply HV1.
    pose proof (dir_block_below _ _ _ _ _ (do_shape _ _ _ _ DO) Hbb). lia. }
  assert (Hlen : (length name <= 255)%nat).
  { unfold validate_filename in Hvf. destruct (Z.ltb_spec 255 (Z.of_nat (length name))); [done|lia]. }
  eapply (add_directory_entry_inner_st (h := h4) DO1 Hlt Hnid Hlen Hown R4); [|exact S7|in_recent|done].
  intros s8 h8 hd8 V8 R8 S8 G8 EA. wp_step. eapply commit_txn_st; [exact S8|]. intros s9 S9. wp_steps.
  change (empty_area_start h4) with (e + 1) in EA. pose proof (gr_empty _ _ G8) as Hge.
  eapply HQ; [exact S9| |done|].
  - eapply settled_commit; [..|exact G8]; try done; simpl; lia.
  - eapply node_added_intro; [exact DO|done|done|exact HV1| |reflexivity|exact EA|exact Hge].
    unfold V1. rewrite fupd_eq. by apply get_put_meta.
Qed.
End Add.
End Node.
