(* ===== verification/SrfsDirRemove.v ===== *)
(** * Removing a directory entry

    [remove_directory_entry_inner] puts the last entry over the removed one and
    shrinks the directory, in each shape and across the shape changes (15 to 14
    entries, 7441 to 7440), and marks the data and link blocks that became unused
    for [free_txn_block]. *)

From stdpp Require Import base numbers list.
From S2P Require Import RustPrelude Crc32 SrfsLayout BlockDevice BlockCache SrfsFs SrfsState SrfsDir.
From S2P Require Import SrfsDirAdd.

Open Scope Z_scope.

Section DirRemove.
Context {D : Type} {Dev : SyncBlockDevice D} {DL : SyncBlockDeviceLaws D}.
Context {Crc : Crc32} {CL : Crc32Laws Crc} {Clk : Clock} {Unin : Uninit}.
Abbreviation fs := (SyncFileSystem D).

Record entry_removed (V V' : Z -> Block) (p num i : Z) : Prop := {
  er_data : forall k, 0 <= k < n_data (num - 1) ->
    k < n_data num /\ data_blk V' p (num - 1) k = data_blk V p num k;
  er_link : forall j, 0 <= j < n_link (num - 1) ->
    j < n_link num /\ meta_link (V' p) j = meta_link (V p) j;
  er_entry : forall pos, 0 <= pos < num - 1 ->
    dir_entry V' p (num - 1) pos = dir_entry V p num (if decide (pos = i) then num - 1 else pos);
  er_frame : forall b, ~ dir_block V p num b -> V' b = V b;
  er_meta : get_meta (V' p) = meta_set_crc32 (set_size (num - 1) (get_meta (V p)));
}.

Section Pure.
Context {V V' : Z -> Block} {e p num i : Z}.
Context (Sh : dir_shape V e p num) (Hnum : 0 < num <= 65536) (Hi : 0 <= i < num) (Hok : block_ok (V p)).

Lemma num_pred_u64 : is_u64 (num - 1).
Proof. unfold is_u64. lia. Qed.

(** *** In the metadata block *)
Lemma removed_in_meta blk :
  num <= 14 ->
  blk = (if decide (i = num - 1) then V p else write_entry (V p) (i + 1) (entry_at (V p) num)) ->
  V' p = resize (num - 1) blk -> (forall b, b <> p -> V' b = V b) -> entry_removed V V' p num i.
Proof.
  intros H14 Hb Hp Hfr. pose proof num_pred_u64 as Hu.
  assert (Hpos : entry_pos_ok num) by (unfold entry_pos_ok; change MAX_ENTRIES_IN_DATA_BLOCK with 15; lia).
  assert (Hpos1 : entry_pos_ok (i + 1)) by (unfold entry_pos_ok; change MAX_ENTRIES_IN_DATA_BLOCK with 15; lia).
  pose proof (entry_at_ok _ _ Hok Hpos) as Heo.
  assert (Hbok : block_ok blk) by (rewrite Hb; destruct (decide _); [done|by apply write_entry_ok]).
  assert (Hbm : get_meta blk = get_meta (V p)).
  { rewrite Hb. destruct (decide _); [done|]. apply get_meta_write_entry. lia. }
  split.
  - unfold n_data. rewrite (proj2 (Z.leb_le _ _)) by lia. lia.
  - unfold n_link. rewrite (proj2 (Z.leb_le _ _)) by lia. lia.
  - intros pos Hpp. rewrite (dir_entry_loc _ _ _ _ _ _ (loc_meta V' p (num - 1) pos ltac:(lia))).
    rewrite (dir_entry_loc _ _ _ _ _ _ (loc_meta V p num _ H14)).
    rewrite Hp, entry_at_resize by lia. rewrite Hb.
    destruct (decide (i = num - 1)) as [->|Hne].
    { rewrite decide_False by lia. done. }
    destruct (decide (pos = i)) as [->|Hpi].
    + rewrite entry_at_write_same by done. f_equal. lia.
    + by rewrite entry_at_write_other by (try done; lia).
  - intros b Hnb. apply Hfr. intros ->. apply Hnb. by left.
  - rewrite Hp, get_meta_resize by done. by rewrite Hbm.
Qed.

(** *** In data blocks, same shape *)

(** Block content after the last entry went over entry [i]. *)
Definition moved (V1 : Z -> Block) : Prop :=
  (forall x, x <> data_blk V p num (i / 15) -> V1 x = V x) /\
  (i <> num - 1 -> V1 (data_blk V p num (i / 15)) =
     write_entry (V (data_blk V p num (i / 15))) (i mod 15) (dir_entry V p num (num - 1))) /\
  (i = num - 1 -> V1 (data_blk V p num (i / 15)) = V (data_blk V p num (i / 15))).

Lemma moved_entry V1 pos :
  14 < num -> moved V1 -> block_ok (V (data_blk V p num (i / 15))) ->
  block_ok (V (data_blk V p num ((num - 1) / 15))) -> 0 <= pos < num - 1 ->
  entry_at (V1 (data_blk V p num (pos / 15))) (pos mod 15) =
  dir_entry V p num (if decide (pos = i) then num - 1 else pos).
Proof.
  intros H14 (M1 & M2 & M3) Hb Hlb Hpp.
  assert (Hki : 0 <= i / 15 < n_data num) by (rewrite n_data_list by lia; dlia).
  assert (Hkp : 0 <= pos / 15 < n_data num) by (rewrite n_data_list by lia; dlia).
  assert (Hposi : entry_pos_ok (i mod 15)) by (unfold entry_pos_ok; change MAX_ENTRIES_IN_DATA_BLOCK with 15; dlia).
  assert (Hposl : entry_pos_ok ((num - 1) mod 15))
    by (unfold entry_pos_ok; change MAX_ENTRIES_IN_DATA_BLOCK with 15; dlia).
  assert (Heo : dir_entry_ok (dir_entry V p num (num - 1))).
  { rewrite (dir_entry_loc _ _ _ _ _ _ (loc_data V p num (num - 1) ltac:(lia))). by apply entry_at_ok. }
  destruct (decide (i = num - 1)) as [E|E].
  - rewrite decide_False by lia. rewrite (dir_entry_loc _ _ _ _ _ _ (loc_data V p num pos ltac:(lia))).
    f_equal. destruct (decide (data_blk V p num (pos / 15) = data_blk V p num (i / 15))) as [Ed|Ed].
    + rewrite Ed. by apply M3.
    + by apply M1.
  - destruct (decide (pos = i)) as [->|Hpi].
    + rewrite M2 by done. by apply entry_at_write_same.
    + rewrite (dir_entry_loc _ _ _ _ _ _ (loc_data V p num pos ltac:(lia))).
      destruct (decide (pos / 15 = i / 15)) as [Ed|Ed].
      * rewrite Ed, M2 by done. apply entry_at_write_other; [dlia|dlia|dlia|done].
      * rewrite M1; [done|]. intros Ec. apply Ed. by apply (ds_data_inj _ _ _ _ Sh).
Qed.

Lemma removed_same_shape V1 :
  15 < num -> num <> 7441 -> moved V1 -> block_ok (V (data_blk V p num (i / 15))) ->
  block_ok (V (data_blk V p num ((num - 1) / 15))) ->
  V' p = resize (num - 1) (V p) -> (forall b, b <> p -> V' b = V1 b) -> entry_removed V V' p num i.
Proof.
  intros H15 H74 M Hb Hlb Hp Hfr. pose proof num_pred_u64 as Hu. pose proof M as (M1 & _ & _).
  assert (Hki : 0 <= i / 15 < n_data num) by (rewrite n_data_list by lia; dlia).
  assert (Hnd : n_data (num - 1) <= n_data num) by (rewrite !n_data_list by lia; dlia).
  assert (Hnl : n_link (num - 1) <= n_link num).
  { unfold n_link. destruct (Z.leb_spec (num - 1) 7440), (Z.leb_spec num 7440); dlia. }
  assert (Hml : forall j, 0 <= j -> meta_link (V' p) j = meta_link (V p) j)
    by (intros; rewrite Hp; by apply meta_link_resize).
  assert (Hdb : forall k, 0 <= k < n_data num -> data_blk V' p (num - 1) k = data_blk V p num k).
  { intros k Hk. unfold data_blk. rewrite !Hml by dlia.
    destruct (Z.leb_spec (num - 1) 7440), (Z.leb_spec num 7440); try done; try lia.
    assert (Hkl : 0 <= k / 512 < n_link num) by (apply n_link_data; [lia|done]).
    f_equal. rewrite Hfr, M1; [done|by apply (ds_link_data _ _ _ _ Sh)|by apply (ds_parent_link _ _ _ _ Sh)]. }
  split.
  - intros k Hk. split; [lia|apply Hdb; lia].
  - intros j Hj. split; [lia|apply Hml; lia].
  - intros pos Hpp. rewrite (dir_entry_loc _ _ _ _ _ _ (loc_data V' p (num - 1) pos ltac:(lia))).
    rewrite Hdb by (rewrite n_data_list by lia; dlia).
    assert (Hkp : 0 <= pos / 15 < n_data num) by (rewrite n_data_list by lia; dlia).
    rewrite Hfr by (by apply (ds_parent_data _ _ _ _ Sh)). apply moved_entry; try done. lia.
  - intros b Hnb. rewrite Hfr; [apply M1|].
    + intros ->. apply Hnb. right. right. by exists (i / 15).
    + intros ->. apply Hnb. by left.
  - rewrite Hp. by apply get_meta_resize.
Qed.

(** *** Shape changes *)

(** 15 to 14 entries: the entries move to the metadata block. *)
Lemma removed_to_meta V1 blk :
  num = 15 -> moved V1 -> block_ok (V (data_blk V p num 0)) -> block_ok blk ->
  (forall j, 0 <= j < 14 -> entry_at blk (j + 1) = entry_at (V1 (data_blk V p num 0)) j) ->
  get_meta blk = get_meta (V p) -> V' p = resize (num - 1) blk ->
  (forall b, b <> p -> V' b = V1 b) -> entry_removed V V' p num i.
Proof.
  intros H15 M Hb Hbok Hcopy Hbm Hp Hfr. pose proof num_pred_u64 as Hu. pose proof M as (M1 & _ & _).
  split.
  - rewrite H15. change (n_data (15 - 1)) with 0. lia.
  - rewrite H15. change (n_link (15 - 1)) with 0. lia.
  - intros pos Hpp. rewrite (dir_entry_loc _ _ _ _ _ _ (loc_meta V' p (num - 1) pos ltac:(lia))).
    rewrite Hp, entry_at_resize by lia. rewrite Hcopy by lia.
    assert (E0 : forall j, 0 <= j < 15 -> j / 15 = 0) by (intros; dlia).
    rewrite <- moved_entry with (V1 := V1); try done; try lia; rewrite ?E0 by lia; try done.
    f_equal. dlia.
  - intros b Hnb. rewrite Hfr; [apply M1|].
    + intros ->. apply Hnb. right. right. exists (i / 15). split; [rewrite n_data_list by lia; dlia|done].
    + intros ->. apply Hnb. by left.
  - rewrite Hp, get_meta_resize by done. by rewrite Hbm.
Qed.

(** 7441 to 7440 entries: the links move to the metadata block. *)
Lemma removed_to_data V1 blk :
  num = 7441 -> moved V1 -> block_ok (V (data_blk V p num (i / 15))) ->
  block_ok (V (data_blk V p num ((num - 1) / 15))) -> block_ok blk ->
  (forall j, 0 <= j < 496 -> meta_link blk j = link (V (meta_link (V p) 0)) j) ->
  get_meta blk = get_meta (V p) -> V' p = resize (num - 1) blk ->
  (forall b, b <> p -> V' b = V1 b) -> entry_removed V V' p num i.
Proof.
  intros H74 M Hb Hlb Hbok Hcopy Hbm Hp Hfr. pose proof num_pred_u64 as Hu. pose proof M as (M1 & _ & _).
  assert (Hki : 0 <= i / 15 < n_data num) by (rewrite n_data_list by lia; dlia).
  assert (Hnd : n_data (num - 1) = 496) by (by rewrite H74).
  assert (Hnd' : n_data num = 497) by (by rewrite H74).
  assert (Hdb : forall k, 0 <= k < 496 -> data_blk V' p (num - 1) k = data_blk V p num k).
  { intros k Hk. unfold data_blk. rewrite (proj2 (Z.leb_le _ _)), (proj2 (Z.leb_gt _ _)) by lia.
    rewrite Hp, meta_link_resize, Hcopy by lia. replace (k / 512) with 0 by dlia. f_equal. dlia. }
  split.
  - intros k Hk. split; [lia|apply Hdb; lia].
  - rewrite H74. change (n_link (7441 - 1)) with 0. lia.
  - intros pos Hpp. rewrite (dir_entry_loc _ _ _ _ _ _ (loc_data V' p (num - 1) pos ltac:(lia))).
    rewrite Hdb by dlia.
    assert (Hkp : 0 <= pos / 15 < n_data num) by dlia.
    rewrite Hfr by (by apply (ds_parent_data _ _ _ _ Sh)). apply moved_entry; try done. lia.
  - intros b Hnb. rewrite Hfr; [apply M1|].
    + intros ->. apply Hnb. right. right. by exists (i / 15).
    + intros ->. apply Hnb. by left.
  - rewrite Hp, get_meta_resize by done. by rewrite Hbm.
Qed.

(** *** Consequences *)

Context (ER : entry_removed V V' p num i).

Lemma entry_removed_shape : dir_shape V' e p (num - 1).
Proof.
  eapply proj1, (dir_shape_extend V V' e e p num); [done|lia|..]; intros k Hk; left;
    [by apply (er_data _ _ _ _ _ ER)|by apply (er_link _ _ _ _ _ ER)].
Qed.

(** Blocks of the directory that are not in use any more. *)
Definition unused (b : Z) : Prop := dir_block V p num b /\ ~ dir_block V' p (num - 1) b.

Lemma dir_block_smaller b :
  dir_block V' p (num - 1) b ->
  b = p \/ (exists j, 0 <= j < n_link (num - 1) /\ j < n_link num /\ b = meta_link (V p) j) \/
  (exists k, 0 <= k < n_data (num - 1) /\ k < n_data num /\ b = data_blk V p num k).
Proof.
  intros [->|[(j & Hj & ->)|(k & Hk & ->)]]; [by left|right; left|right; right].
  - exists j. split; [done|by apply (er_link _ _ _ _ _ ER)].
  - exists k. split; [done|by apply (er_data _ _ _ _ _ ER)].
Qed.

Lemma unused_data k : 0 <= k -> n_data (num - 1) <= k < n_data num -> unused (data_blk V p num k).
Proof.
  intros Hk0 Hk. split; [right; right; exists k; split; [lia|done]|].
  intros [E|[(j & Hj & Hj' & E)|(k' & Hk' & Hk'' & E)]]%dir_block_smaller.
  - revert E. apply (ds_parent_data _ _ _ _ Sh). lia.
  - symmetry in E. revert E. apply (ds_link_data _ _ _ _ Sh); lia.
  - apply (ds_data_inj _ _ _ _ Sh) in E; lia.
Qed.

Lemma unused_link j : 0 <= j -> n_link (num - 1) <= j < n_link num -> unused (meta_link (V p) j).
Proof.
  intros Hj0 Hj. split; [right; left; exists j; split; [lia|done]|].
  intros [E|[(j' & Hj' & Hj'' & E)|(k' & Hk' & Hk'' & E)]]%dir_block_smaller.
  - revert E. apply (ds_parent_link _ _ _ _ Sh). lia.
  - apply (ds_link_inj _ _ _ _ Sh) in E; lia.
  - revert E. apply (ds_link_data _ _ _ _ Sh); lia.
Qed.
End Pure.

Lemma copy_links_in_spec n src dst :
  block_ok src -> block_ok dst -> Z.of_nat n <= 496 ->
  exists b', edit_range n 0 (copy_link_in src) dst = Ok b' /\ block_ok b' /\
    (forall j, 0 <= j < Z.of_nat n -> meta_link b' j = link src j) /\ get_meta b' = get_meta dst.
Proof.
  intros Hs Hd Hn.
  destruct (edit_range_spec n 0 (copy_link_in src) dst (fun i b => block_ok b /\
    (forall j, 0 <= j < i -> meta_link b j = link src j) /\ get_meta b = get_meta dst)) as (b' & -> & H).
  - split; [done|]. split; [intros; lia|done].
  - intros i x Hi (Hx & H1 & H2). unfold copy_link_in. rewrite get_link by (unfold link_ok; lia).
    rewrite set_link_meta by (unfold meta_link_ok; change MAX_LINKS_IN_META_BLOCK with 496; lia).
    eexists. split; [done|]. split; [by apply put_u64_block_ok|]. split.
    + intros j Hj. rewrite meta_link_put by (try done; try lia; (apply get_u64_at_range; [done|lia])).
      destruct (decide (j = i)) as [->|]; [done|]. apply H1. lia.
    + by rewrite get_meta_put_u64 by lia.
  - rewrite Z.add_0_l in H. by exists b'.
Qed.

(** ** The operation *)

(** [h'] is [h] with data and link blocks marked, each not in use any more. *)
Record marks (V V' : Z -> Block) (p num : Z) (h h' : SuperblockHeader) : Prop := {
  mk_num : sb_num_blocks h' = sb_num_blocks h;
  mk_magic : magic h' = magic h;
  mk_version : version h' = version h;
  mk_generation : sb_generation h' = sb_generation h;
  mk_freelist : freelist_head h' = freelist_head h;
  mk_empty : empty_area_start h' = empty_area_start h;
  mk_free : free_blocks h' = free_blocks h;
  mk_type : txn_type h' = txn_type h;
  mk_owner : txn_blocks_owner h' = txn_blocks_owner h;
  mk_meta : txn_meta_block h' = txn_meta_block h;
  mk_data : txn_data_block h' = 0 \/ unused (V := V) (V' := V') (p := p) (num := num) (txn_data_block h');
  mk_link : txn_link_block h' = 0 \/ unused (V := V) (V' := V') (p := p) (num := num) (txn_link_block h');
  mk_ne : txn_data_block h' <> 0 -> txn_data_block h' <> txn_link_block h';
}.

Lemma dir_block_pos V e p num b : dir_shape V e p num -> dir_block V p num b -> 0 < b.
Proof.
  intros S [->|[(i & Hi & ->)|(k & Hk & ->)]];
    [apply (ds_parent _ _ _ _ S)|by apply (ds_link _ _ _ _ S)|by apply (ds_data _ _ _ _ S)].
Qed.

Lemma mark_to_free_st N s h hd V dt R t b (Q : unit -> fs -> Prop) X :
  fs_st N s h hd V dt R -> txn_block t h = 0 -> is_u64 b ->
  let h' := sb_set_crc32 (upd_txn_block t b h) in
  (forall s', fs_st N s' h' h' V dt R -> Q tt s') -> wp (mark_to_free t b) s Q X.
Proof.
  intros S Ht Hb h' HQ. pose proof (st_ok _ _ _ _ _ _ _ S) as Hok. unfold mark_to_free.
  wp_step. eapply wp_hdr; [exact S|]. wp_step. apply wp_assert; [by rewrite Ht|]. wp_step.
  eapply (wp_upd_hdr _ _ _ _ _ _ _ (upd_txn_block t b)); [exact S|auto with srfs|by destruct t|].
  intros s1 S1. by eapply save_superblock_st.
Qed.

Section Inner.
Context {N : Z} {parent : EntryId} {num i e : Z} {h : SuperblockHeader} {V : Z -> Block}.
Abbreviation p := (block_no parent).
Context (DO : dir_ok V e parent num) (He : e <= sb_num_blocks h) (Hi : 0 <= i < num).
Context (Hm1 : txn_data_block h = 0) (Hm2 : txn_link_block h = 0).

Lemma num_range : 0 < num <= 65536 /\ 0 < p < e.
Proof. destruct (validate_dir_num _ _ _ _ DO) as [Hp Hn]. lia. Qed.

(** Ready for the new size to be stored. *)
Definition ready (s' : fs) : Prop :=
  exists h' hd' V1 dt R, fs_st N s' h' hd' V1 dt R /\ ((dt = None /\ p ∈ R) \/ dt = Some p) /\
    get_meta (V1 p) = get_meta (V p) /\
    let V' := fupd V1 p (resize (num - 1) (V1 p)) in entry_removed V V' p num i /\ marks V V' p num h h'.

Lemma marks_none V' : marks V V' p num h h.
Proof. split; try done; by left. Qed.

Lemma move_last_entry_st s hd R (Q : unit -> fs -> Prop) X :
  fs_st N s h hd V None R -> 14 < num ->
  (forall s' V1 R', fs_st N s' h hd V1 None R' -> moved (V := V) (p := p) (num := num) (i := i) V1 ->
     (forall x, x ∈ take 8 R -> x ∈ take 10 R') -> data_blk V p num (i / 15) ∈ R' \/ R' = R -> Q tt s') ->
  wp (move_last_entry (data_blk V p num (i / 15)) (i mod 15)
        (data_blk V p num ((num - 1) / 15)) ((num - 1) mod 15)) s Q X.
Proof.
  intros S H14 HQ. pose proof (do_shape _ _ _ _ DO) as Sh. destruct num_range as [Hn Hp].
  assert (Hki : 0 <= i / 15 < n_data num) by (rewrite n_data_list by lia; dlia).
  assert (Hkl : 0 <= (num - 1) / 15 < n_data num) by (rewrite n_data_list by lia; dlia).
  pose proof (shape_in _ _ _ _ _ _ Sh He Hki) as Hbi. pose proof (shape_in _ _ _ _ _ _ Sh He Hkl) as Hbl.
  unfold move_last_entry. case_bool_decide as E.
  - apply wp_ret. assert (Ei : i = num - 1).
    { apply (f_equal fst) in E as E1. apply (f_equal snd) in E as E2. simpl in E1, E2.
      apply (ds_data_inj _ _ _ _ Sh) in E1; [dlia|done|done]. }
    eapply HQ; [exact S|by split|intros x [j Hj]%list_elem_of_lookup|by right].
    apply lookup_take_Some in Hj as [Hj Hj8]. apply list_elem_of_lookup. exists j. apply lookup_take_Some.
    split; [done|lia].
  - assert (Hne : i <> num - 1) by (intros ->; by apply E).
    wp_step. eapply c_read_st; [exact S|done|]. intros s1 S1. wp_step.
    rewrite get_dir_entry_at by (unfold entry_pos_ok; change MAX_ENTRIES_IN_DATA_BLOCK with 15; dlia).
    wp_step. wp_step. eapply c_read_mut_st; [exact S1|done|]. intros s2 S2. wp_step.
    rewrite put_dir_entry_at by (unfold entry_pos_ok; change MAX_ENTRIES_IN_DATA_BLOCK with 15; dlia).
    wp_step. wp_step.
    eapply c_set_st; [exact S2|done|by apply write_entry_ok; eapply st_block_ok|]. intros s3 S3.
    eapply c_write_st; [exact S3|done|]. intros s4 S4. eapply HQ; [exact S4| | |].
    + split; [intros x Hx; by rewrite fupd_ne|]. split; [|done]. intros _. rewrite fupd_eq. f_equal.
      by rewrite (dir_entry_loc _ _ _ _ _ _ (loc_data V p num (num - 1) ltac:(lia))).
    + intros x Hx. apply use_in; [lia|]. by apply use_in; [lia|].
    + left. in_recent.
Qed.

Lemma remove_entry_in_meta_st s hd R X :
  fs_st N s h hd V None R -> num <= 14 -> p ∈ R ->
  wp (remove_entry_in_meta parent p (i + 1) num) s (fun _ s' => ready s') X.
Proof.
  intros S H14 Hin. pose proof (do_shape _ _ _ _ DO) as Sh. destruct num_range as [Hn Hp].
  assert (Hpin : blk_in h p) by (unfold blk_in; lia). pose proof (st_block_ok _ _ _ _ _ _ _ _ S Hpin) as Hok.
  unfold remove_entry_in_meta. wp_step. apply wp_assert; [apply Z.eqb_refl|].
  destruct (Z.ltb_spec (i + 1) num) as [Hlt|Hge].
  - wp_step. eapply c_get_mut_st; [exact S|done|done|]. intros s1 S1. wp_step.
    rewrite get_dir_entry_at by (unfold entry_pos_ok; change MAX_ENTRIES_IN_DATA_BLOCK with 15; lia).
    wp_step. wp_step. rewrite put_dir_entry_at by (unfold entry_pos_ok; change MAX_ENTRIES_IN_DATA_BLOCK with 15; lia).
    wp_step. eapply c_set_st; [exact S1|done|by apply write_entry_ok|]. intros s2 S2.
    eexists h, hd, _, (Some p), _. split; [exact S2|]. split; [by right|]. rewrite !fupd_eq.
    split; [apply get_meta_write_entry; lia|]. split; [|apply marks_none].
    apply (removed_in_meta Hn Hi Hok (write_entry (V p) (i + 1) (entry_at (V p) num)));
      [done|by rewrite decide_False by lia|by rewrite fupd_eq|].
    intros b Hb. by rewrite !fupd_ne.
  - apply wp_ret. eexists h, hd, V, None, R. split; [exact S|]. split; [by left|]. split; [done|].
    split; [|apply marks_none].
    apply (removed_in_meta Hn Hi Hok (V p)); [done|by rewrite decide_True by lia|by rewrite fupd_eq|].
    intros b Hb. by rewrite !fupd_ne.
Qed.

Lemma parent_frame V1 : 14 < num -> moved (V := V) (p := p) (num := num) (i := i) V1 -> V1 p = V p.
Proof.
  intros H14 (M1 & _). apply M1. intros E. pose proof (do_shape _ _ _ _ DO) as Sh.
  apply (ds_parent_data _ _ _ _ Sh (i / 15)); [rewrite n_data_list by lia; dlia|done].
Qed.

Lemma marks_data V' b h' :
  h' = sb_set_crc32 (upd_txn_block Data b h) -> unused (V := V) (V' := V') (p := p) (num := num) b ->
  marks V V' p num h h'.
Proof.
  intros -> Hb. pose proof Hb as [Hd _]. pose proof (dir_block_pos _ _ _ _ _ (do_shape _ _ _ _ DO) Hd).
  split; try done; simpl; [by right|by left|intros; lia].
Qed.

Lemma remove_entry_in_data_block_st s hd R X :
  fs_st N s h hd V None R -> 14 < num <= 7440 -> p ∈ take 2 R -> data_blk V p num (i / 15) ∈ take 2 R ->
  wp (remove_entry_in_data_block parent (V p) (data_blk V p num (i / 15)) (i mod 15) num) s
    (fun _ s' => ready s') X.
Proof.
  intros S Hnum Hin Hinb. pose proof (do_shape _ _ _ _ DO) as Sh. destruct num_range as [Hn Hp].
  assert (Hpin : blk_in h p) by (unfold blk_in; lia). pose proof (st_block_ok _ _ _ _ _ _ _ _ S Hpin) as Hok.
  assert (Hki : 0 <= i / 15 < n_data num) by (rewrite n_data_list by lia; dlia).
  assert (Hkl : 0 <= (num - 1) / 15 < n_data num) by (rewrite n_data_list by lia; dlia).
  pose proof (shape_in _ _ _ _ _ _ Sh He Hki) as Hbi. pose proof (shape_in _ _ _ _ _ _ Sh He Hkl) as Hbl.
  pose proof (st_block_ok _ _ _ _ _ _ _ _ S Hbi) as Hoki. pose proof (st_block_ok _ _ _ _ _ _ _ _ S Hbl) as Hokl.
  set (bi := data_blk V p num (i / 15)) in *. set (bl := data_blk V p num ((num - 1) / 15)) in *.
  assert (Hblu : is_u64 bl).
  { pose proof (st_ok _ _ _ _ _ _ _ S) as Ho. rewrite sb_ok_spec in Ho. unfold is_u64, blk_in in *. lia. }
  unfold remove_entry_in_data_block. change MAX_ENTRIES_IN_DATA_BLOCK with 15.
  change (MAX_ENTRIES_IN_META_BLOCK + 1) with 15. change MAX_ENTRIES_IN_META_BLOCK with 14.
  wp_step. rewrite get_link_meta by (unfold meta_link_ok; change MAX_LINKS_IN_META_BLOCK with 496; dlia). wp_step.
  replace (get_u64_at (128 + 8 * ((num - 1) / 15)) (V p)) with bl
    by (unfold bl, data_blk; by rewrite (proj2 (Z.leb_le _ _)) by lia).
  wp_step. eapply move_last_entry_st; [exact S|lia|]. intros s1 V1 R1 S1 M HR1 Hbi1.
  pose proof (parent_frame V1 ltac:(lia) M) as Ep.
  assert (Hin1 : p ∈ R1) by (eapply in_take, HR1, (take_mono 2 8); [lia|done]).
  wp_step. destruct (Z.eqb_spec ((num - 1) mod 15) 0) as [E0|N0]; [|destruct (Z.eqb_spec num 15) as [E15|N15]].
  - eapply mark_to_free_st; [exact S1|done|done|]. intros s2 S2.
    rewrite (proj2 (Z.eqb_neq num 15)) by dlia. apply wp_ret.
    eexists _, _, V1, None, R1. split; [exact S2|]. split; [by left|]. rewrite Ep. split; [done|].
    assert (ER : entry_removed V (fupd V1 p (resize (num - 1) (V p))) p num i).
    { apply (removed_same_shape Sh Hn Hi Hok V1); try done; try dlia; [by rewrite fupd_eq|].
      intros b Hb. by rewrite fupd_ne. }
    split; [done|]. eapply marks_data; [done|]. apply (unused_data Sh ER); [lia|].
    rewrite !n_data_list by dlia. dlia.
  - apply wp_ret.
    assert (Eb : bi = data_blk V p num 0) by (unfold bi; f_equal; dlia).
    assert (Eb' : bl = data_blk V p num 0) by (unfold bl; f_equal; dlia).
    assert (Hinbi : bi ∈ R1).
    { destruct Hbi1 as [?| ->]; [done|]. by eapply in_take. }
    wp_step. eapply c_get_st; [exact S1|done|done|]. intros s2 S2.
    wp_step. eapply c_get_mut_st; [exact S2|done| |].
    { eapply in_take, (use_in _ 15); [lia|].
      eapply (take_mono 10 15); [lia|]. apply HR1.
      by apply (take_mono 2 8); [lia|]. }
    intros s3 S3. rewrite Ep.
    assert (Hok1 : block_ok (V1 bi)) by (by eapply st_block_ok).
    destruct (copy_entries_spec 14 (V1 bi) (V p) 0 1) as (blk & Hcp & Hbok & Hcopy & _ & Hbm);
      [exact Hok1|exact Hok|lia|lia|lia|lia|].
    wp_step. change (Z.to_nat 14) with 14%nat. rewrite Hcp. clear Hcp. wp_step. wp_step.
    eapply c_set_st; [exact S3|done|exact Hbok|]. intros s4 S4.
    eapply mark_to_free_st; [exact S4|done|done|]. intros s5 S5.
    eexists _, _, _, (Some p), _. split; [exact S5|]. split; [by right|]. rewrite !fupd_eq.
    split; [apply Hbm; lia|].
    assert (ER : entry_removed V (fupd (fupd V1 p blk) p (resize (num - 1) blk)) p num i).
    { apply (removed_to_meta Sh Hn Hi V1 blk); try done; rewrite <- ?Eb; try done.
      - intros j Hj. rewrite Hcopy by lia. f_equal. lia.
      - apply Hbm. lia.
      - by rewrite fupd_eq.
      - intros b Hb. by rewrite !fupd_ne. }
    split; [done|]. eapply marks_data; [done|]. rewrite Eb'. apply (unused_data Sh ER); [lia|].
    rewrite E15. change (n_data (15 - 1)) with 0. change (n_data 15) with 1. lia.
  - apply wp_ret. apply wp_ret. eexists _, _, V1, None, R1. split; [exact S1|]. split; [by left|]. rewrite Ep.
    split; [done|]. split; [|apply marks_none].
    apply (removed_same_shape Sh Hn Hi Hok V1); try done; try dlia; [by rewrite fupd_eq|].
    intros b Hb. by rewrite fupd_ne.
Qed.

Lemma marks_both V' b lb h' :
  h' = sb_set_crc32 (upd_txn_block Links lb (sb_set_crc32 (upd_txn_block Data b h))) ->
  unused (V := V) (V' := V') (p := p) (num := num) b ->
  unused (V := V) (V' := V') (p := p) (num := num) lb -> b <> lb -> marks V V' p num h h'.
Proof. intros -> Hb Hlb Hne. split; try done; simpl; by right. Qed.

(** The state after [move_last_entry] in the list shape. *)
Section Moved.
Context {hd : SuperblockHeader} {V1 : Z -> Block} {R1 : list Z} {s1 : fs} (Hbig : 7440 < num).
Abbreviation lb := (meta_link (V p) ((num - 1) / 7680)).
Abbreviation bl := (data_blk V p num ((num - 1) / 15)).
Context (M : moved (V := V) (p := p) (num := num) (i := i) V1).
Context (Hok : block_ok (V p)) (Hokl : block_ok (V lb)).
Context (Hoki : block_ok (V (data_blk V p num (i / 15)))) (Hokb : block_ok (V bl)).
Context (Hpin : p ∈ take 10 R1) (Hlin : lb ∈ take 10 R1).
Context (Hblu : is_u64 bl) (Hlbu : is_u64 lb).

Lemma link_idx_ok : 0 <= (num - 1) / 7680 < n_link num.
Proof. destruct num_range as [Hn _]. rewrite n_link_list by lia. dlia. Qed.

Lemma data_idx_ok : 0 <= (num - 1) / 15 < n_data num.
Proof. destruct num_range as [Hn _]. rewrite n_data_list by lia. dlia. Qed.

Lemma bl_ne_lb : bl <> lb.
Proof.
  intros E. apply (ds_link_data _ _ _ _ (do_shape _ _ _ _ DO) _ _ link_idx_ok data_idx_ok). done.
Qed.

Lemma same_shape_removed : num <> 7441 -> entry_removed V (fupd V1 p (resize (num - 1) (V p))) p num i.
Proof.
  intros Hne. destruct num_range as [Hn _]. pose proof (do_shape _ _ _ _ DO) as Sh.
  apply (removed_same_shape Sh Hn Hi Hok V1); try done; try lia; [by rewrite fupd_eq|].
  intros b Hb. by rewrite fupd_ne.
Qed.

(** Nothing or one data block to free. *)
Lemma list_tail_plain X :
  fs_st N s1 h hd V1 None R1 -> num <> 7441 -> num mod 7680 <> 1 ->
  wp (if (num - 1) mod 15 =? 0 then mark_to_free Data bl else ret tt) s1 (fun _ s' => ready s') X.
Proof.
  intros S Hne Hm. destruct num_range as [Hn _]. pose proof (do_shape _ _ _ _ DO) as Sh.
  pose proof (same_shape_removed Hne) as ER. pose proof (parent_frame V1 ltac:(lia) M) as Ep.
  destruct (Z.eqb_spec ((num - 1) mod 15) 0) as [E0|N0].
  - eapply mark_to_free_st; [exact S|done|done|]. intros s2 S2.
    eexists _, _, V1, None, R1. split; [exact S2|]. split; [left; split; [done|by eapply in_take]|].
    rewrite Ep. split; [done|]. split; [done|]. eapply marks_data; [done|].
    apply (unused_data Sh ER); [apply data_idx_ok|]. rewrite !n_data_list by lia. dlia.
  - apply wp_ret. eexists _, _, V1, None, R1. split; [exact S|]. split; [left; split; [done|by eapply in_take]|].
    rewrite Ep. split; [done|]. split; [done|]. apply marks_none.
Qed.

(** A data block and its link block to free. *)
Lemma list_tail_link X :
  fs_st N s1 h hd V1 None R1 -> num <> 7441 -> num mod 7680 = 1 ->
  wp (mark_to_free Data bl;;; mark_to_free Links lb) s1 (fun _ s' => ready s') X.
Proof.
  intros S Hne Hm. destruct num_range as [Hn _]. pose proof (do_shape _ _ _ _ DO) as Sh.
  pose proof (same_shape_removed Hne) as ER. pose proof (parent_frame V1 ltac:(lia) M) as Ep.
  wp_step. eapply mark_to_free_st; [exact S|done|done|]. intros s2 S2.
  eapply mark_to_free_st; [exact S2|done|done|]. intros s3 S3.
  eexists _, _, V1, None, R1. split; [exact S3|]. split; [left; split; [done|by eapply in_take]|].
  rewrite Ep. split; [done|]. split; [done|]. eapply marks_both; [done| | |apply bl_ne_lb].
  - apply (unused_data Sh ER); [apply data_idx_ok|]. rewrite !n_data_list by lia. dlia.
  - apply (unused_link Sh ER); [apply link_idx_ok|]. rewrite !n_link_list by dlia. dlia.
Qed.

(** Back to links in the metadata block. *)
Lemma list_tail_shape X :
  fs_st N s1 h hd V1 None R1 -> num = 7441 ->
  wp (mark_to_free Data bl;;;
      let* links := c_get lb in
      let* blk := c_get_mut p in
      let* blk := lift (edit_range (Z.to_nat MAX_LINKS_IN_META_BLOCK) 0 (copy_link_in links) blk) in
      c_set blk;;; mark_to_free Links lb) s1 (fun _ s' => ready s') X.
Proof.
  intros S Hm. destruct num_range as [Hn Hp]. pose proof (do_shape _ _ _ _ DO) as Sh.
  pose proof (parent_frame V1 ltac:(lia) M) as Ep. pose proof M as (M1 & _).
  assert (Hki : 0 <= i / 15 < n_data num) by (rewrite n_data_list by lia; dlia).
  assert (El : V1 lb = V lb) by (apply M1; by apply (ds_link_data _ _ _ _ Sh _ _ link_idx_ok Hki)).
  assert (Hlp : lb <> p) by (apply (ds_parent_link _ _ _ _ Sh), link_idx_ok).
  pose proof (ds_link _ _ _ _ Sh _ link_idx_ok) as Hlr.
  wp_step. eapply mark_to_free_st; [exact S|done|done|]. intros s2 S2.
  wp_step. eapply c_get_st; [exact S2|unfold blk_in; simpl; lia|by eapply in_take|]. intros s3 S3. rewrite El.
  wp_step. eapply c_get_mut_st; [exact S3|unfold blk_in; simpl; lia|eapply in_take, (use_in _ 10); [lia|done]|].
  intros s4 S4. rewrite Ep.
  destruct (copy_links_in_spec 496 (V lb) (V p)) as (blk & Hcp & Hbok & Hcopy & Hbm); [exact Hokl|exact Hok|lia|].
  wp_step. change (Z.to_nat MAX_LINKS_IN_META_BLOCK) with 496%nat. rewrite Hcp. clear Hcp. wp_step. wp_step.
  eapply c_set_st; [exact S4|unfold blk_in; simpl; lia|exact Hbok|]. intros s5 S5.
  eapply mark_to_free_st; [exact S5|done|done|]. intros s6 S6.
  eexists _, _, _, (Some p), _. split; [exact S6|]. split; [by right|]. rewrite !fupd_eq. split; [done|].
  assert (ER : entry_removed V (fupd (fupd V1 p blk) p (resize (num - 1) blk)) p num i).
  { apply (removed_to_data Sh Hn Hi V1 blk); try done.
    - intros j Hj. rewrite Hcopy by lia. by replace ((num - 1) / 7680) with 0 by dlia.
    - by rewrite fupd_eq.
    - intros b Hb. by rewrite !fupd_ne. }
  split; [done|]. eapply marks_both; [done| | |apply bl_ne_lb].
  - apply (unused_data Sh ER); [apply data_idx_ok|]. rewrite !n_data_list by lia. dlia.
  - apply (unused_link Sh ER); [apply link_idx_ok|]. rewrite Hm.
    change (n_link (7441 - 1)) with 0. change (n_link 7441) with 1. dlia.
Qed.
End Moved.

Lemma remove_entry_in_list_st s hd R X :
  fs_st N s h hd V None R -> 7440 < num -> p ∈ take 2 R ->
  wp (remove_entry_in_list parent (V p) (data_blk V p num (i / 15)) (i mod 15) num) s
    (fun _ s' => ready s') X.
Proof.
  intros S Hbig Hin. pose proof (do_shape _ _ _ _ DO) as Sh. destruct num_range as [Hn Hp].
  pose proof (link_idx_ok Hbig) as Hli. pose proof (data_idx_ok Hbig) as Hdi.
  assert (Hki : 0 <= i / 15 < n_data num) by (rewrite n_data_list by lia; dlia).
  set (lb := meta_link (V p) ((num - 1) / 7680)). set (bl := data_blk V p num ((num - 1) / 15)).
  pose proof (ds_link _ _ _ _ Sh _ Hli) as Hlr. fold lb in Hlr.
  assert (Hpin : blk_in h p) by (unfold blk_in; lia). assert (Hlin : blk_in h lb) by (unfold blk_in; lia).
  pose proof (shape_in _ _ _ _ _ _ Sh He Hki) as Hbi. pose proof (shape_in _ _ _ _ _ _ Sh He Hdi) as Hbl.
  pose proof (st_block_ok _ _ _ _ _ _ _ _ S Hpin) as Hok. pose proof (st_block_ok _ _ _ _ _ _ _ _ S Hlin) as Hokl.
  pose proof (st_block_ok _ _ _ _ _ _ _ _ S Hbi) as Hoki. pose proof (st_block_ok _ _ _ _ _ _ _ _ S Hbl) as Hokb.
  pose proof (st_ok _ _ _ _ _ _ _ S) as Ho. rewrite sb_ok_spec in Ho.
  assert (Hblu : is_u64 bl) by (unfold is_u64, blk_in in *; lia).
  assert (Hlbu : is_u64 lb) by (unfold is_u64, blk_in in *; lia).
  unfold remove_entry_in_list. change MAX_ENTRIES_COVERED_BY_FIRST_LEVEL_BLOCKLIST with 7680.
  change MAX_ENTRIES_IN_DATA_BLOCK with 15. change (MAX_ENTRIES_ONLY_DATA_BLOCKS + 1) with 7441.
  wp_step. rewrite get_link_meta by (unfold meta_link_ok; change MAX_LINKS_IN_META_BLOCK with 496; dlia). wp_step.
  fold (meta_link (V p) ((num - 1) / 7680)). fold lb.
  wp_step. eapply c_read_st; [exact S|exact Hlin|]. intros s1 S1. wp_step.
  rewrite get_link by (unfold link_ok; dlia). wp_step.
  replace (get_u64_at (8 * ((num - 1) mod 7680 / 15)) (V lb)) with bl.
  2:{ unfold bl, data_blk. rewrite (proj2 (Z.leb_gt _ _)) by lia. unfold link, lb.
      replace ((num - 1) / 15 / 512) with ((num - 1) / 7680) by dlia. f_equal. dlia. }
  wp_step. eapply move_last_entry_st; [exact S1|lia|]. intros s2 V1 R1 S2 M HR1 _.
  assert (Hp10 : p ∈ take 10 R1).
  { apply HR1, (take_mono 3 8); [lia|]. apply use_in; [lia|done]. }
  assert (Hl10 : lb ∈ take 10 R1) by (apply HR1; in_recent).
  destruct (Z.eqb_spec num 7441) as [E74|N74]; [|destruct (Z.eqb_spec (num mod 7680) 1) as [E76|N76]].
  - rewrite (proj2 (Z.eqb_eq ((num - 1) mod 15) 0)) by dlia.
    rewrite (proj2 (Z.eqb_neq (num mod 7680) 1)) by dlia.
    pose proof (list_tail_shape Hbig M Hok Hokl Hoki Hokb Hp10 Hl10 Hblu Hlbu X S2 E74) as T.
    apply wp_bind_inv in T. wp_step. eapply wp_mono; [exact T| |done].
    intros [] s3 T3. wp_step. eapply wp_mono; [exact T3| |done]. intros [] s4 T4. by apply wp_ret.
  - rewrite (proj2 (Z.eqb_eq ((num - 1) mod 15) 0)) by dlia.
    pose proof (list_tail_link Hbig M Hok Hoki Hokb Hp10 Hblu Hlbu X S2 N74 E76) as T.
    apply wp_bind_inv in T. wp_step. eapply wp_mono; [exact T| |done].
    intros [] s3 T3. wp_step. apply wp_ret. exact T3.
  - wp_step. eapply wp_mono; [by apply (list_tail_plain Hbig M Hok Hoki Hokb Hp10 Hblu X S2 N74 N76)| |done].
    intros [] s3 T3. wp_step. apply wp_ret. by apply wp_ret.
Qed.

(** Storing the new size. *)
Lemma finish_remove_st s (Q : unit -> fs -> Prop) X :
  ready s ->
  (forall s' h' hd' V' R', fs_st N s' h' hd' V' None R' -> entry_removed V V' p num i ->
     marks V V' p num h h' -> Q tt s') ->
  wp (let* blk := c_get_mut p in
      c_set (resize (u64 (size (get_meta blk) - 1)) blk);;; c_write p) s Q X.
Proof.
  intros (h' & hd' & V1 & dt & R & S & Hdt & Hm & ER & Hmk) HQ. destruct num_range as [Hn Hp].
  assert (Hpin : blk_in h' p) by (pose proof (mk_num _ _ _ _ _ _ Hmk); unfold blk_in; lia).
  pose proof (st_block_ok _ _ _ _ _ _ _ _ S Hpin) as Hok.
  assert (Hsz : u64 (size (get_meta (V1 p)) - 1) = num - 1).
  { rewrite Hm, (do_size _ _ _ _ DO). apply u64_id. unfold is_u64. lia. }
  assert (K : forall s1 R', fs_st N s1 h' hd' V1 (Some p) R' ->
     wp (c_set (resize (u64 (size (get_meta (V1 p)) - 1)) (V1 p));;; c_write p) s1 Q X).
  { intros s1 R' S1. rewrite Hsz. wp_step.
    eapply c_set_st; [exact S1|done|by apply resize_block_ok|]. intros s2 S2.
    eapply c_write_st; [exact S2|done|]. intros s3 S3. by eapply HQ. }
  wp_step. destruct Hdt as [[-> Hin]| ->].
  - eapply c_get_mut_st; [exact S|done|done|]. intros s1 S1. by eapply K.
  - eapply c_get_mut_again_st; [exact S|done|]. intros s1 S1. by eapply K.
Qed.
End Inner.

Lemma remove_directory_entry_inner_st N s h hd V R e parent child num (Q : unit -> fs -> Prop) (X : FsError -> fs -> Prop) :
  fs_st N s h hd V None R -> dir_ok V e parent num -> e <= sb_num_blocks h ->
  txn_type h <> TXN_TYPE_NONE -> txn_data_block h = 0 -> txn_link_block h = 0 ->
  (forall i s' h' hd' V' R', first_entry V (block_no parent) num (pred_by_id child) i ->
     fs_st N s' h' hd' V' None R' -> entry_removed V V' (block_no parent) num i ->
     marks V V' (block_no parent) num h h' -> Q tt s') ->
  (forall s' R', no_entry V (block_no parent) num (pred_by_id child) -> fs_st N s' h hd V None R' ->
     X NotFound s') ->
  wp (remove_directory_entry_inner parent child) s Q X.
Proof.
  intros S DO He Hty Hm1 Hm2 HQ HX. destruct (validate_dir_num _ _ _ _ DO) as [Hp Hn].
  unfold remove_directory_entry_inner. wp_step. eapply wp_hdr; [exact S|].
  wp_step. apply wp_assert; [by apply negb_true_iff, Z.eqb_neq|]. wp_step.
  eapply find_entry_st; [exact S|exact DO|done| |exact HX]. intros i s1 R1 HF S1 Hloc.
  pose proof HF as (Hi & _ & _).
  destruct (entry_loc V (block_no parent) num i) as [b pos] eqn:El. cbn [fst] in Hloc.
  wp_step. eapply c_read_st; [exact S1|unfold blk_in; lia|]. intros s2 S2. wp_step.
  rewrite (do_valid _ _ _ _ DO). wp_steps. rewrite (do_size _ _ _ _ DO).
  change MAX_ENTRIES_IN_META_BLOCK with 14. change MAX_ENTRIES_ONLY_DATA_BLOCKS with 7440.
  assert (Hready : wp
    (if num <=? 14 then remove_entry_in_meta parent b pos num
     else if num <=? 7440 then remove_entry_in_data_block parent (V (block_no parent)) b pos num
     else remove_entry_in_list parent (V (block_no parent)) b pos num) s2
    (fun _ s' => ready (N := N) (parent := parent) (num := num) (i := i) (h := h) (V := V) s') X).
  { destruct (Z.leb_spec num 14); [|destruct (Z.leb_spec num 7440)].
    - rewrite loc_meta in El by done. injection El as <- <-.
      apply (remove_entry_in_meta_st DO He Hi Hm1 Hm2 _ _ _ X S2); [done|in_recent].
    - rewrite loc_data in El by done. injection El as <- <-.
      apply (remove_entry_in_data_block_st DO He Hi Hm1 Hm2 _ _ _ X S2); [lia|in_recent|].
      by apply use_in; [lia|].
    - rewrite loc_data in El by done. injection El as <- <-.
      apply (remove_entry_in_list_st DO He Hi Hm1 Hm2 _ _ _ X S2); [done|in_recent]. }
  eapply wp_mono; [exact Hready| |done]. intros [] s3 Hr.
  eapply finish_remove_st; [exact DO|exact He|exact Hi|exact Hr|]. intros. by eapply HQ.
Qed.
End DirRemove.
