(* ===== verification/SrfsRemove.v ===== *)
(** * Removing files and directories

    [remove] as one transaction: the directory entry, the blocks the directory
    does not need any more, the metadata block of the node, the commit. *)

From stdpp Require Import base numbers list.
From S2P Require Import RustPrelude Crc32 SrfsLayout BlockDevice BlockCache SrfsFs SrfsState SrfsDir.
From S2P Require Import SrfsDirAdd SrfsNode SrfsDirRemove.

Open Scope Z_scope.

Section Remove.
Context {D : Type} {Dev : SyncBlockDevice D} {DL : SyncBlockDeviceLaws D}.
Context {Crc : Crc32} {CL : Crc32Laws Crc} {Clk : Clock} {Unin : Uninit}.
Abbreviation fs := (SyncFileSystem D).

Lemma dir_block_frame V V' p num b :
  num <= 65536 -> (forall x, dir_block V p num x -> V' x = V x) ->
  dir_block V' p num b <-> dir_block V p num b.
Proof.
  intros Hn H. assert (Ep : V' p = V p) by (apply H; by left).
  assert (Ed : forall k, 0 <= k < n_data num -> data_blk V' p num k = data_blk V p num k)
    by (intros; by apply data_blk_same).
  unfold dir_block. rewrite Ep. split; intros [?|[?|(k & Hk & ->)]]; auto; right; right; exists k;
    (split; [done|]); [|symmetry]; by apply Ed.
Qed.

(** Freeing the last block given out moves the empty area back. *)
Lemma free_hdr_space t h :
  empty_area_start (free_hdr t h) = empty_area_start h \/
  (empty_area_start (free_hdr t h) = empty_area_start h - 1 /\ txn_block t h = empty_area_start h - 1).
Proof.
  unfold free_hdr, freed_last. destruct (Z.eqb_spec (empty_area_start h) (txn_block t h + 1));
    destruct t; simpl in *; lia.
Qed.

(** What freeing block [b] leaves of a directory that does not use it. *)
Lemma dir_ok_free V V' h t id num :
  dir_ok V (empty_area_start h) id num -> ~ dir_block V (block_no id) num (txn_block t h) ->
  freed_view t h V V' -> dir_ok V' (empty_area_start (free_hdr t h)) id num.
Proof.
  intros DO Hnb Hv. pose proof DO as [H1 H2 H3 H4 Sh]. change MAX_DIR_ENTRIES with 65536 in H4.
  assert (Hfr : forall b, dir_block V (block_no id) num b -> V' b = V b).
  { intros b Hb. apply Hv. intros ->. done. }
  pose proof (free_hdr_space t h) as Ee.
  assert (Hlt : forall b, dir_block V (block_no id) num b -> 0 < b < empty_area_start (free_hdr t h)).
  { intros b Hb. pose proof (dir_block_below _ _ _ _ _ Sh Hb).
    assert (b <> txn_block t h) by (intros ->; done). lia. }
  apply dir_ok_frame with V (empty_area_start (free_hdr t h)); [|lia|done].
  split; try done. destruct Sh as [S1 S2 S3 S4 S5 S6 S7 S8]. split; try done.
  - apply Hlt. by left.
  - intros i Hi. apply Hlt. right. left. by exists i.
  - intros k Hk. apply Hlt. right. right. by exists k.
Qed.

(** Blocks being given back since [V0] and [h0]: [dead] are the blocks whose
    content no longer matters. *)
Record gave (N : Z) (V0 : Z -> Block) (h0 : SuperblockHeader) (dead : Z -> Prop)
  (s : fs) (h : SuperblockHeader) (V : Z -> Block) : Prop := {
  ga_state : exists hd R, fs_st N s h hd V None R;
  ga_frame : forall b, ~ dead b -> V b = V0 b;
  ga_bump : freelist_head h = freelist_head h0;
  ga_magic : magic h = magic h0;
  ga_version : version h = version h0;
  ga_generation : sb_generation h = sb_generation h0;
  ga_space : empty_area_start h <= empty_area_start h0 /\
    forall b, empty_area_start h <= b < empty_area_start h0 -> dead b;
}.

Lemma gave_nothing N V h (dead : Z -> Prop) s hd R : fs_st N s h hd V None R -> gave N V h dead s h V.
Proof. intros S. split; try done; [eauto|split; [lia|intros; lia]]. Qed.

Lemma free_gave N V0 h0 (dead : Z -> Prop) s h V t (Q : unit -> fs -> Prop) X :
  gave N V0 h0 dead s h V -> dead (txn_block t h) -> blk_in h (txn_block t h) -> free_blocks h < sb_num_blocks h ->
  (forall s' V', gave N V0 h0 dead s' (sb_set_crc32 (free_hdr t h)) V' -> freed_view t h V V' -> Q tt s') ->
  wp (free_txn_block t) s Q X.
Proof.
  intros [(hd & R & S) Hf Hb Hm Hv Hg [Hsp Hsp']] Hdead Hin Hlt HQ.
  eapply free_st; [exact S|done|done|]. intros s' V' R' S' HV. eapply HQ; [|exact HV]. split.
  - eauto.
  - intros b Hnb. rewrite HV; [by apply Hf|]. intros ->. done.
  - unfold free_hdr. destruct (freed_last t h), t; simpl; exact Hb.
  - unfold free_hdr. destruct (freed_last t h), t; simpl; exact Hm.
  - unfold free_hdr. destruct (freed_last t h), t; simpl; exact Hv.
  - unfold free_hdr. destruct (freed_last t h), t; simpl; exact Hg.
  - change (empty_area_start (sb_set_crc32 (free_hdr t h))) with (empty_area_start (free_hdr t h)).
    destruct (free_hdr_space t h) as [->|[-> E]]; [done|]. split; [lia|]. intros b Hb'.
    destruct (decide (b = txn_block t h)) as [->|]; [done|]. apply Hsp'. lia.
Qed.

Lemma free_hdr_fields t h :
  sb_num_blocks (free_hdr t h) = sb_num_blocks h /\ free_blocks (free_hdr t h) = free_blocks h + 1 /\
  forall t', t' <> t -> txn_block t' (free_hdr t h) = txn_block t' h.
Proof.
  unfold free_hdr. destruct (freed_last t h), t; simpl; (split; [done|]); (split; [done|]);
    intros [] ?; by simpl.
Qed.

(** The directory [id] while blocks are given back. *)
Record giving (N : Z) (id : EntryId) (num : Z) (V0 : Z -> Block) (h0 : SuperblockHeader) (dead : Z -> Prop)
  (s : fs) (h : SuperblockHeader) (V : Z -> Block) : Prop := {
  gv_gave : gave N V0 h0 dead s h V;
  gv_dir : dir_ok V (empty_area_start h) id num;
  gv_free : free_blocks h0 <= free_blocks h;
}.

Lemma giving_entries N id num V0 h0 dead s h V pos :
  dir_ok V0 (empty_area_start h0) id num -> (forall b, dead b -> ~ dir_block V0 (block_no id) num b) ->
  giving N id num V0 h0 dead s h V -> 0 <= pos < num ->
  dir_entry V (block_no id) num pos = dir_entry V0 (block_no id) num pos.
Proof.
  intros DO Hd G Hp. pose proof (do_num _ _ _ _ DO) as Hn. change MAX_DIR_ENTRIES with 65536 in Hn.
  apply (dir_entry_frame V0 V (empty_area_start h0)); [lia|apply (do_shape _ _ _ _ DO)| |done].
  intros b Hb. apply (ga_frame _ _ _ _ _ _ _ (gv_gave _ _ _ _ _ _ _ _ _ G)). intros Hdb. by apply (Hd b).
Qed.

Lemma free_giving N id num V0 h0 (dead : Z -> Prop) s h V t (Q : unit -> fs -> Prop) X :
  giving N id num V0 h0 dead s h V -> dead (txn_block t h) ->
  (forall b, dead b -> ~ dir_block V0 (block_no id) num b) -> num <= 65536 ->
  blk_in h (txn_block t h) -> free_blocks h < sb_num_blocks h ->
  (forall s' V', giving N id num V0 h0 dead s' (sb_set_crc32 (free_hdr t h)) V' -> Q tt s') ->
  wp (free_txn_block t) s Q X.
Proof.
  intros [G DO Hfr] Hdead Hnd Hn Hin Hlt HQ.
  assert (Hfr0 : forall b, dir_block V0 (block_no id) num b -> V b = V0 b).
  { intros b Hdb. apply (ga_frame _ _ _ _ _ _ _ G). intros Hd. by apply (Hnd b). }
  eapply free_gave; [exact G|done|done|done|]. intros s' V' G' HV. eapply HQ. split; [exact G'| |].
  - change (empty_area_start (sb_set_crc32 (free_hdr t h))) with (empty_area_start (free_hdr t h)).
    eapply dir_ok_free; [exact DO| |done]. rewrite (dir_block_frame V0 V) by done. by apply Hnd.
  - change (free_blocks h0 <= free_blocks (free_hdr t h)). rewrite (proj1 (proj2 (free_hdr_fields t h))). lia.
Qed.

Lemma free_if_marked_giving N id num V0 h0 (dead : Z -> Prop) s h V t (Q : unit -> fs -> Prop) X :
  giving N id num V0 h0 dead s h V -> txn_block t h = 0 \/ (dead (txn_block t h) /\ blk_in h (txn_block t h)) ->
  (forall b, dead b -> ~ dir_block V0 (block_no id) num b) -> num <= 65536 ->
  free_blocks h < sb_num_blocks h ->
  (forall s' h' V', giving N id num V0 h0 dead s' h' V' -> (forall t', t' <> t -> txn_block t' h' = txn_block t' h) ->
     sb_num_blocks h' = sb_num_blocks h -> free_blocks h' <= free_blocks h + 1 -> Q tt s') ->
  wp (free_if_marked t) s Q X.
Proof.
  intros G Ht Hnd Hn Hlt HQ. pose proof (ga_state _ _ _ _ _ _ _ (gv_gave _ _ _ _ _ _ _ _ _ G)) as (hd & R & S). unfold free_if_marked.
  wp_step. eapply wp_hdr; [exact S|]. destruct (Z.eqb_spec (txn_block t h) 0) as [E|E].
  - apply wp_ret. eapply HQ; [exact G|done|done|lia].
  - destruct Ht as [?|[Hd Hin]]; [done|]. destruct (free_hdr_fields t h) as (F1 & F2 & F3).
    eapply free_giving; [exact G|done|done|done|done|done|]. intros s' V' G'. eapply HQ; [exact G'| |done|].
    + intros t' Hne. rewrite <- (F3 t' Hne). by destruct t'.
    + change (free_blocks (free_hdr t h) <= free_blocks h + 1). lia.
Qed.

Lemma entry_removed_dir_ok V V' e id num i :
  dir_ok V e id num -> 0 < num -> entry_removed V V' (block_no id) num i -> dir_ok V' e id (num - 1).
Proof.
  intros [Hid Hv Hs Hn Sh] Hpos ER. pose proof (er_meta _ _ _ _ _ ER) as Hm.
  change MAX_DIR_ENTRIES with 65536 in *.
  apply validate_dir_inv in Hv as (Hi & Hk & _). split; try done.
  - rewrite Hm. set (m := set_size (num - 1) (get_meta (V (block_no id)))).
    replace id with (m_id m) by exact Hi. apply validate_dir_seal.
    + change (kind (m_id (get_meta (V (block_no id)))) = Directory). by rewrite Hi.
    + change (num - 1 <= 65536). lia.
  - by rewrite Hm.
  - change MAX_DIR_ENTRIES with 65536. lia.
  - by apply (entry_removed_shape Sh ER).
Qed.

(** Entry [i] of the directory was removed, and the blocks [gone] given back. *)
Record node_removed (V V' : Z -> Block) (e' : Z) (parent : EntryId) (gone : Z -> Prop) (num i : Z) : Prop := {
  nr_parent : dir_ok V' e' parent (num - 1);
  nr_entry : forall pos, 0 <= pos < num - 1 -> dir_entry V' (block_no parent) (num - 1) pos =
    dir_entry V (block_no parent) num (if decide (pos = i) then num - 1 else pos);
  nr_frame : forall b, ~ gone b -> ~ dir_block V (block_no parent) num b -> V' b = V b;
  nr_meta : get_meta (V' (block_no parent)) =
    meta_set_crc32 (set_size (num - 1) (get_meta (V (block_no parent))));
  nr_blocks : forall b, dir_block V' (block_no parent) (num - 1) b -> dir_block V (block_no parent) num b;
}.

(** Only the blocks [gone] and blocks of the directory leave the used area. *)
Definition gives_back (V : Z -> Block) (h h' : SuperblockHeader) (parent : EntryId) (gone : Z -> Prop) (num : Z) : Prop :=
  empty_area_start h' <= empty_area_start h /\
  forall b, empty_area_start h' <= b < empty_area_start h -> gone b \/ dir_block V (block_no parent) num b.

(** An empty node, linked from its directory. *)
Record removable (V : Z -> Block) (h : SuperblockHeader) (parent entry : EntryId) (num i : Z) : Prop := {
  rm_dir : dir_ok V (empty_area_start h) parent num;
  rm_id : id_ok entry;
  rm_not_root : block_no entry <> block_no ROOT_DIR_ID;
  rm_block : 0 < block_no entry < empty_area_start h;
  rm_valid : validate (get_meta (V (block_no entry))) entry = Ok tt;
  rm_empty : size (get_meta (V (block_no entry))) = 0;
  rm_parent : parent_id (get_meta (V (block_no entry))) = parent;
  rm_apart : ~ dir_block V (block_no parent) num (block_no entry);
  rm_entry : first_entry V (block_no parent) num (pred_by_id entry) i;
}.

Section Finish.
Context {N : Z} {h : SuperblockHeader} {V : Z -> Block} {parent : EntryId} {num i : Z} {gone : Z -> Prop}.
Context (DO : dir_ok V (empty_area_start h) parent num) (Hi : 0 <= i < num).
Context (He : empty_area_start h <= sb_num_blocks h).
Context (Hgone : forall b, gone b -> 0 < b < empty_area_start h /\ ~ dir_block V (block_no parent) num b).
Context {V4 : Z -> Block} {h3 h4 : SuperblockHeader}.
Context (ER : entry_removed V V4 (block_no parent) num i) (MK : marks V V4 (block_no parent) num h3 h4).
Context (E1 : sb_num_blocks h3 = sb_num_blocks h) (E3 : empty_area_start h3 = empty_area_start h).
Abbreviation unused_b := (unused (V := V) (V' := V4) (p := block_no parent) (num := num)).

(** The blocks given back. *)
Definition dead (b : Z) : Prop := gone b \/ unused_b b.

Lemma smaller_block b : dir_block V4 (block_no parent) (num - 1) b -> dir_block V (block_no parent) num b.
Proof.
  intros Hb. destruct (dir_block_smaller ER _ Hb) as [->|[(j & Hj & Hj' & ->)|(k & Hk & Hk' & ->)]]; [by left|..].
  - right. left. exists j. lia.
  - right. right. exists k. lia.
Qed.

Lemma dead_apart b : dead b -> ~ dir_block V4 (block_no parent) (num - 1) b.
Proof. intros [Hg|[_ Hu]]; [|done]. intros Hb%smaller_block. by apply (Hgone b). Qed.

Lemma dead_in h' b : sb_num_blocks h' = sb_num_blocks h -> dead b -> blk_in h' b.
Proof.
  unfold blk_in. intros -> [Hg|[Hb _]]; [pose proof (Hgone b Hg); lia|].
  pose proof (dir_block_below _ _ _ _ _ (do_shape _ _ _ _ DO) Hb). lia.
Qed.

Lemma removed_dir_ok : dir_ok V4 (empty_area_start h4) parent (num - 1).
Proof. rewrite (mk_empty _ _ _ _ _ _ MK), E3. apply (entry_removed_dir_ok V V4 _ parent num i); [done|lia|done]. Qed.

(** Freeing what is marked. *)
Lemma give_marked_st s R hd4 (k : eff fs FsError unit) (Q : unit -> fs -> Prop) X :
  fs_st N s h4 hd4 V4 None R -> free_blocks h3 + 2 <= sb_num_blocks h ->
  (forall s' h' V', giving N parent (num - 1) V4 h4 dead s' h' V' -> sb_num_blocks h' = sb_num_blocks h ->
     free_blocks h' <= free_blocks h3 + 2 -> txn_meta_block h' = txn_meta_block h3 -> wp k s' Q X) ->
  wp (free_if_marked Links;;; free_if_marked Data;;; k) s Q X.
Proof.
  intros S Hfree HQ. pose proof MK as [K1 K2 K3 K4 K5 K6 K7 K8 K9 K10 K11 K12 K13].
  destruct (validate_dir_num _ _ _ _ DO) as [_ Hn].
  assert (G4 : giving N parent (num - 1) V4 h4 dead s h4 V4)
    by (split; [by eapply gave_nothing|apply removed_dir_ok|lia]).
  wp_step. eapply free_if_marked_giving; [exact G4| |exact dead_apart|lia|lia|].
  { destruct K12 as [?|Hu]; [by left|right]. split; [by right|]. apply dead_in; [congruence|by right]. }
  intros s5 h5 V5 G5 E5 N5 F5. wp_step. eapply free_if_marked_giving; [exact G5| |exact dead_apart|lia|lia|].
  { rewrite (E5 Data) by done. destruct K11 as [?|Hu]; [by left|right].
    split; [by right|]. apply dead_in; [congruence|by right]. }
  intros s6 h6 V6 G6 E6 N6 F6. eapply HQ; [exact G6|congruence|lia|].
  change (txn_block Metadata h6 = txn_meta_block h3). rewrite (E6 Metadata), (E5 Metadata) by done. exact K10.
Qed.

(** What is left after the blocks were given back. *)
Lemma giving_removed s h' V' :
  giving N parent (num - 1) V4 h4 dead s h' V' ->
  node_removed V V' (empty_area_start h') parent gone num i /\ gives_back V h h' parent gone num.
Proof.
  intros G. pose proof G as [[_ Fr B M Ve Ge [Sp Sp']] DO' Fb].
  assert (Hlive : forall b, dir_block V4 (block_no parent) (num - 1) b -> V' b = V4 b).
  { intros b Hb. apply Fr. intros Hd. by apply (dead_apart b). }
  destruct (validate_dir_num _ _ _ _ DO) as [_ Hn]. split; [split; [exact DO'| | | |]|].
  - intros pos Hpos. rewrite (giving_entries _ _ _ _ _ _ _ _ _ pos removed_dir_ok dead_apart G) by lia.
    by apply (er_entry _ _ _ _ _ ER).
  - intros b Hb Hnb. rewrite Fr; [by apply (er_frame _ _ _ _ _ ER)|].
    intros [?|[Hu _]]; [done|]. by apply Hnb.
  - rewrite Hlive by (by left). apply (er_meta _ _ _ _ _ ER).
  - intros b Hb. apply (dir_block_frame V4 V') in Hb; [|lia|done]. by apply smaller_block.
  - rewrite (mk_empty _ _ _ _ _ _ MK), E3 in Sp, Sp'. split; [exact Sp|].
    intros b Hb. destruct (Sp' b Hb) as [?|[? _]]; auto.
Qed.
End Finish.

Lemma first_entry_unique V p num pred i j :
  first_entry V p num pred i -> first_entry V p num pred j -> i = j.
Proof.
  intros (Hi & Ht & Hl) (Hj & Ht' & Hl'). destruct (Z.lt_trichotomy i j) as [L|[->|L]]; [|done|].
  - rewrite Hl' in Ht; [done|lia].
  - rewrite Hl in Ht'; [done|lia].
Qed.

Lemma remove_st N s h hd V R parent entry num i (Q : unit -> fs -> Prop) (X : FsError -> fs -> Prop) :
  fs_st N s h hd V None R -> no_txn h -> removable V h parent entry num i ->
  empty_area_start h <= sb_num_blocks h -> free_blocks h + 3 <= sb_num_blocks h ->
  (forall s' h' V' R', fs_st N s' h' h' V' None R' -> no_txn h' -> sealed h' ->
     freelist_head h' = freelist_head h -> magic h' = magic h -> version h' = version h ->
     sb_generation h' = sb_generation h -> free_blocks h <= free_blocks h' -> sb_num_blocks h' = sb_num_blocks h ->
     gives_back V h h' parent (eq (block_no entry)) num ->
     node_removed V V' (empty_area_start h') parent (eq (block_no entry)) num i -> Q tt s') ->
  wp (remove entry) s Q X.
Proof.
  intros S Hno RM He Hfree HQ. pose proof RM as [DO Hid Hroot Hblk Hval Hsz Hpar Hap HF].
  pose proof HF as (Hi & _ & _). pose proof (do_id _ _ _ _ DO) as [Hpid _].
  destruct (validate_dir_num _ _ _ _ DO) as [Hp Hn]. pose proof Hno as (_ & _ & T1 & T2 & T3 & _).
  assert (Hein : blk_in h (block_no entry)) by (unfold blk_in; lia).
  unfold remove. wp_step. eapply wp_check_error; [exact S|]. rewrite (proj2 (Z.eqb_neq _ _)) by done.
  wp_step. eapply c_read_st; [exact S|done|]. intros s1 S1. rewrite Hval, Hsz, Hpar. wp_steps. cbn [Z.ltb Z.compare].
  wp_step. eapply start_txn_st; [exact S1|done|done|done|]. intros s2 S2.
  set (h2 := sb_set_crc32 _) in S2. wp_step. eapply wp_hdr; [exact S2|].
  wp_step. apply wp_assert; [by apply Z.eqb_eq|]. wp_step.
  eapply (wp_upd_hdr _ _ _ _ _ _ _ (upd_txn_block Metadata (block_no entry)));
    [exact S2|apply upd_txn_block_ok; [apply Hid|exact (st_ok _ _ _ _ _ _ _ S2)]|done|].
  intros s3 S3. set (h3 := upd_txn_block Metadata _ h2) in S3. wp_step. wp_step.
  eapply (remove_directory_entry_inner_st _ _ h3); [exact S3|exact DO|exact He|done|exact T2|exact T3| |].
  2:{ intros s4 R4 Hnone _. exfalso. destruct HF as (Hi' & Ht & _). by rewrite Hnone in Ht. }
  intros i' s4 h4 hd4 V4 R4 HF' S4 ER Hmk. rewrite (first_entry_unique _ _ _ _ _ _ HF' HF) in ER.
  assert (Hgone : forall b, block_no entry = b -> 0 < b < empty_area_start h /\ ~ dir_block V (block_no parent) num b)
    by (intros b <-; done).
  eapply (give_marked_st DO Hi He Hgone ER Hmk eq_refl eq_refl); [exact S4|simpl; lia|]. intros s5 h5 V5 G5 N5 F5 M5.
  change (free_blocks h3) with (free_blocks h) in F5. change (txn_block Metadata h5 = block_no entry) in M5.
  wp_step. eapply free_giving; [exact G5|rewrite M5; by left|exact (dead_apart Hgone ER)|lia| |lia|].
  { apply (dead_in DO He Hgone (V4 := V4)); [done|rewrite M5; by left]. }
  intros s6 V6 G6. pose proof (giving_removed DO Hi Hgone ER Hmk eq_refl _ _ _ G6) as [NR GB].
  pose proof Hmk as [K1 K2 K3 K4 K5 K6 K7 _ _ _ _ _ _].
  pose proof G6 as [[(hd6 & R6 & S6) _ B6 M6 Ve6 Ge6 _] _ Fb6].
  eapply commit_txn_st; [exact S6|]. intros s7 S7.
  eapply HQ; [exact S7|done|apply sb_set_crc32_idem|etransitivity; [exact B6|exact K5]|etransitivity; [exact M6|exact K2]|
    etransitivity; [exact Ve6|exact K3]|etransitivity; [exact Ge6|exact K4]| | |exact GB|exact NR].
  - change (free_blocks h <= free_blocks (sb_set_crc32 (free_hdr Metadata h5))). rewrite K7 in Fb6. exact Fb6.
  - change (sb_num_blocks (free_hdr Metadata h5) = sb_num_blocks h). rewrite (proj1 (free_hdr_fields _ _)). congruence.
Qed.
End Remove.
