(* ===== verification/SrfsFile.v ===== *)
(** * SRFS files

    A file keeps its bytes in its metadata block (up to 3968 bytes) or in data
    blocks found through links in the metadata block, one level of link blocks
    or two.  [file_blk] is the data block of each 4096-byte piece in every shape,
    [file_byte] the byte at each offset. *)

From stdpp Require Import base numbers list.
From coqutil Require Import Byte.
From S2P Require Import RustPrelude Crc32 SrfsLayout BlockDevice BlockCache SrfsFs SrfsState SrfsDir.
From S2P Require Import SrfsDirAdd.

Open Scope Z_scope.

(** ** Shape *)

Definition file_blk (V : Z -> Block) (f size k : Z) : Z :=
  if size <=? 2031616 then meta_link (V f) k
  else if size <=? 1040187392 then link (V (meta_link (V f) (k / 512))) (k mod 512)
  else link (V (link (V (meta_link (V f) (k / 262144))) (k / 512 mod 512))) (k mod 512).

(** The link blocks: [(level, index)] pairs. *)
Definition file_link (V : Z -> Block) (f size i : Z) : Z :=
  if size <=? 1040187392 then meta_link (V f) i else link (V (meta_link (V f) (i / 512))) (i mod 512).

(** Number of data, link and list-of-links blocks. *)
Definition n_blocks (size : Z) : Z := if size <=? 3968 then 0 else (size + 4095) / 4096.
Definition n_l1 (size : Z) : Z := if size <=? 2031616 then 0 else (size + 2097151) / 2097152.
Definition n_l2 (size : Z) : Z := if size <=? 1040187392 then 0 else (size + 1073741823) / 1073741824.

Definition file_byte (V : Z -> Block) (f size pos : Z) : option byte :=
  if size <=? 3968 then (V f : bytes) !! Z.to_nat (128 + pos)
  else (V (file_blk V f size (pos / 4096)) : bytes) !! Z.to_nat (pos mod 4096).

(** The blocks of the file lie below [e] and are pairwise distinct. *)
Record file_shape (V : Z -> Block) (e f size : Z) : Prop := {
  fs_meta : 0 < f < e;
  fs_data : forall k, 0 <= k < n_blocks size -> 0 < file_blk V f size k < e;
  fs_link : forall i, 0 <= i < n_l1 size -> 0 < file_link V f size i < e;
  fs_list : forall i, 0 <= i < n_l2 size -> 0 < meta_link (V f) i < e;
  fs_data_meta : forall k, 0 <= k < n_blocks size -> file_blk V f size k <> f;
  fs_link_meta : forall i, 0 <= i < n_l1 size -> file_link V f size i <> f;
  fs_list_meta : forall i, 0 <= i < n_l2 size -> meta_link (V f) i <> f;
  fs_data_link : forall k i, 0 <= k < n_blocks size -> 0 <= i < n_l1 size ->
    file_blk V f size k <> file_link V f size i;
  fs_data_list : forall k i, 0 <= k < n_blocks size -> 0 <= i < n_l2 size ->
    file_blk V f size k <> meta_link (V f) i;
  fs_link_list : forall i j, 0 <= i < n_l1 size -> 0 <= j < n_l2 size ->
    file_link V f size i <> meta_link (V f) j;
  fs_data_inj : forall k l, 0 <= k < n_blocks size -> 0 <= l < n_blocks size ->
    file_blk V f size k = file_blk V f size l -> k = l;
  fs_link_inj : forall i j, 0 <= i < n_l1 size -> 0 <= j < n_l1 size ->
    file_link V f size i = file_link V f size j -> i = j;
  fs_list_inj : forall i j, 0 <= i < n_l2 size -> 0 <= j < n_l2 size ->
    meta_link (V f) i = meta_link (V f) j -> i = j;
}.

Lemma n_blocks_eq sz : 3968 < sz -> n_blocks sz = (sz + 4095) / 4096.
Proof. intros. unfold n_blocks. by rewrite (proj2 (Z.leb_gt _ _)) by lia. Qed.
Lemma n_l1_eq sz : 2031616 < sz -> n_l1 sz = (sz + 2097151) / 2097152.
Proof. intros. unfold n_l1. by rewrite (proj2 (Z.leb_gt _ _)) by lia. Qed.
Lemma n_l2_eq sz : 1040187392 < sz -> n_l2 sz = (sz + 1073741823) / 1073741824.
Proof. intros. unfold n_l2. by rewrite (proj2 (Z.leb_gt _ _)) by lia. Qed.

Lemma n_l1_data sz k : 2031616 < sz -> 0 <= k < n_blocks sz -> 0 <= k / 512 < n_l1 sz.
Proof. intros H. rewrite n_blocks_eq, n_l1_eq by lia. dlia. Qed.
Lemma n_l2_data sz k : 1040187392 < sz -> 0 <= k < n_blocks sz -> 0 <= k / 262144 < n_l2 sz.
Proof. intros H. rewrite n_blocks_eq, n_l2_eq by lia. dlia. Qed.
Lemma n_l2_link sz i : 1040187392 < sz -> 0 <= i < n_l1 sz -> 0 <= i / 512 < n_l2 sz.
Proof. intros H. rewrite n_l1_eq, n_l2_eq by lia. dlia. Qed.

(** The locations level by level. *)
Lemma blk_l1 W f w k : 2031616 < w <= 1040187392 -> file_blk W f w k = link (W (meta_link (W f) (k / 512))) (k mod 512).
Proof. intros. unfold file_blk. by rewrite (proj2 (Z.leb_gt _ _)), (proj2 (Z.leb_le _ _)) by lia. Qed.
Lemma flink_l1 W f w i : w <= 1040187392 -> file_link W f w i = meta_link (W f) i.
Proof. intros. unfold file_link. by rewrite (proj2 (Z.leb_le _ _)) by lia. Qed.
Lemma n_l2_small w : w <= 1040187392 -> n_l2 w = 0.
Proof. intros. unfold n_l2. by rewrite (proj2 (Z.leb_le _ _)) by lia. Qed.
Lemma flink_l2 W f w i : 1040187392 < w -> file_link W f w i = link (W (meta_link (W f) (i / 512))) (i mod 512).
Proof. intros. unfold file_link. by rewrite (proj2 (Z.leb_gt _ _)) by lia. Qed.
Lemma blk_l2 W f w k : 1040187392 < w -> file_blk W f w k = link (W (file_link W f w (k / 512))) (k mod 512).
Proof.
  intros. rewrite flink_l2 by lia. unfold file_blk. rewrite !(proj2 (Z.leb_gt _ _)) by lia.
  by replace (k / 512 / 512) with (k / 262144) by dlia.
Qed.

Section File.
Context {D : Type} {Dev : SyncBlockDevice D} {DL : SyncBlockDeviceLaws D}.
Context {Crc : Crc32} {CL : Crc32Laws Crc} {Clk : Clock} {Unin : Uninit}.
Abbreviation fs := (SyncFileSystem D).

Record file_ok (V : Z -> Block) (e : Z) (id : EntryId) (sz : Z) : Prop := {
  fo_id : id_ok id;
  fo_valid : validate_file (get_meta (V (block_no id))) id = Ok tt;
  fo_size : size (get_meta (V (block_no id))) = sz;
  fo_max : 0 <= sz <= MAX_FILE_SIZE;
  fo_shape : file_shape V e (block_no id) sz;
}.

(** ** Index arithmetic of [find_data_block] *)

Lemma shiftr_12 x : 0 <= x -> Z.shiftr x BLOCK_SIZE_LOG2 = x / 4096.
Proof. intros. change BLOCK_SIZE_LOG2 with 12. rewrite Z.shiftr_div_pow2 by lia. done. Qed.

Lemma shiftr_l1 x : 0 <= x -> Z.shiftr x L1_LOG2 = x / 4096 / 512.
Proof.
  intros. change L1_LOG2 with 21. rewrite Z.shiftr_div_pow2 by lia. rewrite Z.div_div by lia. done.
Qed.

Lemma shiftr_l2 x : 0 <= x -> Z.shiftr x L2_LOG2 = x / 4096 / 262144.
Proof.
  intros. change L2_LOG2 with 30. rewrite Z.shiftr_div_pow2 by lia. rewrite Z.div_div by lia. done.
Qed.

Lemma data_idx_eq x : 0 <= x -> data_idx_in_link x = x / 4096 mod 512.
Proof.
  intros. unfold data_idx_in_link.
  change (BYTES_COVERED_BY_FIRST_LEVEL_BLOCKLIST - 1) with (Z.ones 21). rewrite Z.land_ones by lia.
  rewrite shiftr_12 by (apply Z.mod_pos_bound; lia). change (2 ^ 21) with 2097152. dlia.
Qed.

Lemma link_idx_eq x : 0 <= x -> link_idx_in_list x = x / 4096 / 512 mod 512.
Proof.
  intros. unfold link_idx_in_list.
  change (BYTES_COVERED_BY_SECOND_LEVEL_BLOCKLIST - 1) with (Z.ones 30). rewrite Z.land_ones by lia.
  rewrite shiftr_l1 by (apply Z.mod_pos_bound; lia). change (2 ^ 30) with 1073741824. dlia.
Qed.

Lemma in_block_eq x : in_block x = x mod 4096.
Proof. unfold in_block. change (BLOCK_SIZE - 1) with (Z.ones 12). by rewrite Z.land_ones by lia. Qed.

Lemma block_end_eq x : 0 <= x < 2 ^ 60 -> align_up (u64 (x + 1)) BLOCK_SIZE = 4096 * (x / 4096 + 1).
Proof.
  intros. rewrite u64_id by (unfold is_u64; lia). change BLOCK_SIZE with (2 ^ 12).
  rewrite align_up_spec by (unfold is_u64; lia). change (2 ^ 12) with 4096. dlia.
Qed.

(** ** [find_data_block] *)

Lemma find_data_block_st N s h hd V R e id sz off (Q : Z -> fs -> Prop) X :
  fs_st N s h hd V None R -> block_no id ∈ R -> file_ok V e id sz -> e <= sb_num_blocks h ->
  3968 < sz -> 0 <= off < 4096 * n_blocks sz ->
  (forall s' R', fs_st N s' h hd V None R' -> block_no id ∈ take 8 R' ->
     Q (file_blk V (block_no id) sz (off / 4096)) s') ->
  wp (find_data_block id off) s Q X.
Proof.
  intros S Hin [Hid Hv Hsz Hmax Sh] He Hbig Hoff HQ. unfold find_data_block. set (f := block_no id) in *.
  change MAX_FILE_SIZE with 532575944704 in Hmax.
  pose proof (fs_meta _ _ _ _ Sh) as Hf. assert (Hfin : blk_in h f) by (unfold blk_in; lia).
  assert (Hk : 0 <= off / 4096 < n_blocks sz) by dlia.
  pose proof (n_blocks_eq sz Hbig) as Hnb.
  wp_step. eapply c_get_st; [exact S|done|done|]. intros s1 S1. rewrite Hsz.
  change MAX_BYTES_ONLY_DATA_BLOCKS with 2031616. change MAX_BYTES_SINGLE_LEVEL_LIST_BLOCKS with 1040187392.
  unfold file_blk in HQ.
  assert (HL : 2031616 < sz -> 0 < file_link V f sz (off / 4096 / 512) < e)
    by (intros; apply (fs_link _ _ _ _ Sh), n_l1_data; [lia|done]).
  assert (HLL : 1040187392 < sz -> 0 < meta_link (V f) (off / 4096 / 262144) < e)
    by (intros; apply (fs_list _ _ _ _ Sh), n_l2_data; [lia|done]).
  unfold file_link in HL.
  destruct (Z.leb_spec sz 2031616) as [H1|H1]; [|destruct (Z.leb_spec sz 1040187392) as [H2|H2]];
    wp_step; (eapply c_get_st; [exact S1|done|in_recent|]); intros s2 S2.
  - rewrite shiftr_12, get_link_meta by (unfold meta_link_ok; change MAX_LINKS_IN_META_BLOCK with 496; dlia).
    wp_step. eapply HQ; [exact S2|in_recent].
  - specialize (HL H1). wp_step.
    rewrite shiftr_l1, get_link_meta by (unfold meta_link_ok; change MAX_LINKS_IN_META_BLOCK with 496; dlia).
    wp_step. wp_step. eapply c_read_st; [exact S2|unfold blk_in, meta_link in *; lia|]. intros s3 S3.
    rewrite data_idx_eq, get_link by (unfold link_ok; dlia). wp_step. eapply HQ; [exact S3|in_recent].
  - specialize (HL H1). specialize (HLL H2). wp_step.
    rewrite shiftr_l2, get_link_meta by (unfold meta_link_ok; change MAX_LINKS_IN_META_BLOCK with 496; dlia).
    wp_step. wp_step. eapply c_read_st; [exact S2|unfold blk_in, meta_link in *; lia|]. intros s3 S3. wp_step.
    rewrite link_idx_eq, get_link by (unfold link_ok; dlia). wp_step.
    replace (off / 4096 / 512 / 512) with (off / 4096 / 262144) in HL by dlia.
    wp_step. eapply c_read_st; [exact S3|unfold blk_in, meta_link, link in *; lia|]. intros s4 S4.
    rewrite data_idx_eq, get_link by (unfold link_ok; dlia). wp_step. eapply HQ; [exact S4|in_recent].
Qed.

(** ** Reading *)

(** The number of bytes [read] copies: up to the end of the file while it is in
    the metadata block, up to the end of the data block otherwise. *)
Definition read_len (sz off buf_len : Z) : Z :=
  if sz <=? off then 0
  else if sz <=? 3968 then Z.min sz (off + buf_len) - off
  else Z.min (off + buf_len) (4096 * (off / 4096 + 1)) - off.

Lemma read_st N s h hd V R e id sz off buf_len (Q : bytes -> fs -> Prop) X :
  fs_st N s h hd V None R -> file_ok V e id sz -> e <= sb_num_blocks h ->
  0 <= off -> 0 <= buf_len < 2 ^ 32 ->
  (forall r s' R', fs_st N s' h hd V None R' -> Z.of_nat (length r) = read_len sz off buf_len ->
     (forall j, 0 <= j < read_len sz off buf_len -> off + j < sz ->
        r !! Z.to_nat j = file_byte V (block_no id) sz (off + j)) -> Q r s') ->
  wp (read id off buf_len) s Q X.
Proof.
  intros S FO He Hoff Hlen HQ. pose proof FO as [Hid Hv Hsz Hmax Sh].
  change MAX_FILE_SIZE with 532575944704 in Hmax. pose proof (fs_meta _ _ _ _ Sh) as Hf.
  assert (Hfin : blk_in h (block_no id)) by (unfold blk_in; lia).
  pose proof (st_block_ok _ _ _ _ _ _ _ _ S Hfin) as Hok. pose proof Hv as [_ Hk]%validate_file_inv.
  unfold read. wp_step. eapply wp_check_error; [exact S|]. rewrite decide_False by (rewrite Hk; auto).
  wp_step. eapply c_read_st; [exact S|done|]. intros s1 S1. rewrite Hv. wp_steps. rewrite Hsz.
  unfold read_len in HQ. destruct (Z.leb_spec sz off) as [Hge|Hlt].
  { wp_steps. eapply HQ; [exact S1|done|]. intros. lia. }
  rewrite u64_id by (unfold is_u64; lia). change MAX_BYTES_IN_META_BLOCK with 3968.
  destruct (Z.leb_spec sz 3968) as [Hin|Hout].
  - wp_steps. eapply HQ; [exact S1| |].
    + rewrite length_slice; [lia|]. unfold as_data_bytes_in_meta. rewrite length_drop, Hok. lia.
    + intros j Hj Hjs. rewrite lookup_slice by lia. unfold as_data_bytes_in_meta, file_byte.
      rewrite lookup_drop, (proj2 (Z.leb_le _ _)) by lia. f_equal. lia.
  - pose proof (n_blocks_eq sz Hout) as Hnb.
    assert (Hkk : 0 <= off / 4096 < n_blocks sz) by (rewrite Hnb; dlia).
    pose proof (fs_data _ _ _ _ Sh _ Hkk) as Hd.
    assert (Hdin : blk_in h (file_blk V (block_no id) sz (off / 4096))) by (unfold blk_in; lia).
    pose proof (st_block_ok _ _ _ _ _ _ _ _ S Hdin) as Hdok.
    wp_step. eapply find_data_block_st; [exact S1|in_recent|exact FO|done|done|rewrite Hnb; dlia|].
    intros s2 R2 S2 _. wp_step. eapply c_read_st; [exact S2|done|]. intros s3 S3. apply wp_ret.
    rewrite block_end_eq by lia. rewrite in_block_eq.
    eapply HQ; [exact S3| |].
    + rewrite length_slice; [dlia|]. rewrite Hdok. dlia.
    + intros j Hj Hjs. rewrite lookup_slice by lia. unfold file_byte. rewrite (proj2 (Z.leb_gt _ _)) by lia.
      replace ((off + j) / 4096) with (off / 4096) by dlia. f_equal. dlia.
Qed.
End File.
