(* ===== verification/SrfsFileWrite.v ===== *)
(** * Writing files

    [write] in every shape of a file: in the metadata block, over existing data
    blocks, at the end of the last data block, and in a new data block, with the
    link blocks and lists of link blocks it needs and the three shape changes. *)

From stdpp Require Import base numbers list.
From coqutil Require Import Byte.
From S2P Require Import RustPrelude Crc32 SrfsLayout BlockDevice BlockCache SrfsFs SrfsState SrfsDir.
From S2P Require Import SrfsDirAdd SrfsFile.

Open Scope Z_scope.

(** The blocks of a file. *)
Definition file_block (V : Z -> Block) (f sz b : Z) : Prop :=
  b = f \/ (exists k, 0 <= k < n_blocks sz /\ b = file_blk V f sz k) \/
  (exists i, 0 <= i < n_l1 sz /\ b = file_link V f sz i) \/
  (exists i, 0 <= i < n_l2 sz /\ b = meta_link (V f) i).

Section FileWrite.
Context {D : Type} {Dev : SyncBlockDevice D} {DL : SyncBlockDeviceLaws D}.
Context {Crc : Crc32} {CL : Crc32Laws Crc} {Clk : Clock} {Unin : Uninit}.
Abbreviation fs := (SyncFileSystem D).

(** [n] bytes of [buf] were written at [off]; the size went from [sz] to [sz']. *)
Record file_written (V V' : Z -> Block) (e e' f sz sz' off n : Z) (buf : bytes) : Prop := {
  fw_grown : file_shape V' e' f sz' /\ e <= e' <= e + 3 /\
    (forall b, file_block V' f sz' b -> file_block V f sz b \/ e <= b < e');
  fw_bytes : forall pos, 0 <= pos < sz' -> file_byte V' f sz' pos =
    if decide (off <= pos < off + n) then buf !! Z.to_nat (pos - off) else file_byte V f sz pos;
  fw_frame : forall b, b < e -> ~ file_block V f sz b -> V' b = V b;
  fw_meta : get_meta (V' f) = get_meta (V f) /\ sz' = sz \/
    get_meta (V' f) = meta_set_crc32 (set_size sz' (get_meta (V f)));
}.

Lemma file_written_ok V V' e e' id sz sz' off n buf :
  file_ok V e id sz -> 0 <= sz' <= MAX_FILE_SIZE ->
  file_written V V' e e' (block_no id) sz sz' off n buf -> file_ok V' e' id sz'.
Proof.
  intros [Hid Hv Hs Hm Sh] Hsz [[Sh' _] _ _ Hmeta]. pose proof (validate_file_inv _ _ Hv) as [Hi Hk].
  destruct Hmeta as [[Em ->]|Em]; split; try done; rewrite Em; try done.
  set (m := set_size sz' (get_meta (V (block_no id)))). replace id with (m_id m) by exact Hi.
  apply validate_file_seal. change (kind (m_id (get_meta (V (block_no id)))) = File). by rewrite Hi.
Qed.

(** ** Growing shapes *)

Lemma file_shape_extend V V' e e' f sz sz' :
  file_shape V e f sz -> e <= e' <= e + 3 ->
  (forall k, 0 <= k < n_blocks sz' ->
     (k < n_blocks sz /\ file_blk V' f sz' k = file_blk V f sz k) \/
     (k = n_blocks sz /\ file_blk V' f sz' k = e /\ e < e')) ->
  (forall i, 0 <= i < n_l1 sz' ->
     (i < n_l1 sz /\ file_link V' f sz' i = file_link V f sz i) \/
     (i = n_l1 sz /\ file_link V' f sz' i = e + 1 /\ e + 1 < e')) ->
  (forall i, 0 <= i < n_l2 sz' ->
     (i < n_l2 sz /\ meta_link (V' f) i = meta_link (V f) i) \/
     (i = n_l2 sz /\ meta_link (V' f) i = e + 2 /\ e + 2 < e')) ->
  file_shape V' e' f sz' /\ e <= e' <= e + 3 /\
  (forall b, file_block V' f sz' b -> file_block V f sz b \/ e <= b < e').
Proof.
  intros [M D0 L0 LL0 DM LM LLM DL' DLL LLL DI LI LLI] He HD HL HLL. split; [|split; [done|]].
  2:{ intros b [->|[(k & Hk & ->)|[(i & Hi & ->)|(i & Hi & ->)]]]; [by left; left|..].
      - destruct (HD k Hk) as [[? ->]|(_ & -> & ?)]; [left; right; left; exists k; lia|right; lia].
      - destruct (HL i Hi) as [[? ->]|(_ & -> & ?)]; [left; right; right; left; exists i; lia|right; lia].
      - destruct (HLL i Hi) as [[? ->]|(_ & -> & ?)]; [left; right; right; right; exists i; lia|right; lia]. }
  split.
  - lia.
  - intros k Hk. destruct (HD k Hk) as [[? ->]|(_ & -> & ?)]; [specialize (D0 k); lia|lia].
  - intros k Hk. destruct (HL k Hk) as [[? ->]|(_ & -> & ?)]; [specialize (L0 k); lia|lia].
  - intros k Hk. destruct (HLL k Hk) as [[? ->]|(_ & -> & ?)]; [specialize (LL0 k); lia|lia].
  - intros k Hk. destruct (HD k Hk) as [[? ->]|(_ & -> & ?)]; [apply DM; lia|lia].
  - intros k Hk. destruct (HL k Hk) as [[? ->]|(_ & -> & ?)]; [apply LM; lia|lia].
  - intros k Hk. destruct (HLL k Hk) as [[? ->]|(_ & -> & ?)]; [apply LLM; lia|lia].
  - intros k i Hk Hi. destruct (HD k Hk) as [[? ->]|(_ & -> & ?)], (HL i Hi) as [[? ->]|(_ & -> & ?)];
      [apply DL'; lia|specialize (D0 k); lia|specialize (L0 i); lia|lia].
  - intros k i Hk Hi. destruct (HD k Hk) as [[? ->]|(_ & -> & ?)], (HLL i Hi) as [[? ->]|(_ & -> & ?)];
      [apply DLL; lia|specialize (D0 k); lia|specialize (LL0 i); lia|lia].
  - intros k i Hk Hi. destruct (HL k Hk) as [[? ->]|(_ & -> & ?)], (HLL i Hi) as [[? ->]|(_ & -> & ?)];
      [apply LLL; lia|specialize (L0 k); lia|specialize (LL0 i); lia|lia].
  - intros k i Hk Hi. destruct (HD k Hk) as [[? ->]|(-> & -> & ?)], (HD i Hi) as [[? ->]|(-> & -> & ?)]; intros E;
      [apply DI; [lia|lia|done]|specialize (D0 k); lia|specialize (D0 i); lia|done].
  - intros k i Hk Hi. destruct (HL k Hk) as [[? ->]|(-> & -> & ?)], (HL i Hi) as [[? ->]|(-> & -> & ?)]; intros E;
      [apply LI; [lia|lia|done]|specialize (L0 k); lia|specialize (L0 i); lia|done].
  - intros k i Hk Hi. destruct (HLL k Hk) as [[? ->]|(-> & -> & ?)], (HLL i Hi) as [[? ->]|(-> & -> & ?)]; intros E;
      [apply LLI; [lia|lia|done]|specialize (LL0 k); lia|specialize (LL0 i); lia|done].
Qed.

(** A byte of the metadata block after the header changed. *)
Lemma lookup_resize v (b : bytes) j : (128 <= j)%nat -> (resize v b : bytes) !! j = b !! j.
Proof. intros. unfold resize, put_meta. apply lookup_blit_out. rewrite length_meta_enc. lia. Qed.

Section Pure.
Context {V V' : Z -> Block} {e f sz sz' off n : Z} {buf : bytes}.
Context (Sh : file_shape V e f sz) (Hsz : 0 <= sz) (Hmax : sz' <= 532575944704) (Hle : sz <= sz').
Context (Hok : block_ok (V f)) (Hn : 0 <= n <= Z.of_nat (length buf)) (Hoff : 0 <= off <= sz).

Lemma sz_u64 : is_u64 sz'.
Proof. unfold is_u64. lia. Qed.

Lemma buf_take j : 0 <= j < n -> take (Z.to_nat n) buf !! Z.to_nat j = buf !! Z.to_nat j.
Proof. intros. apply lookup_take_lt. lia. Qed.

Lemma length_take_n : length (take (Z.to_nat n) buf) = Z.to_nat n.
Proof. rewrite length_take. lia. Qed.

(** *** In the metadata block *)
Lemma written_in_meta :
  sz' = Z.max sz (off + n) -> sz' <= 3968 ->
  V' f = blit (Z.to_nat (128 + off)) (take (Z.to_nat n) buf) (resize sz' (V f)) ->
  (forall b, b <> f -> V' b = V b) -> file_written V V' e e f sz sz' off n buf.
Proof.
  intros Es Hs Hf Hfr. pose proof length_take_n as Hl. split.
  - apply (file_shape_extend V V' e e f sz); [done|lia|..]; intros k Hk; exfalso; revert Hk.
    + unfold n_blocks. rewrite (proj2 (Z.leb_le _ _)) by lia. lia.
    + unfold n_l1. rewrite (proj2 (Z.leb_le _ _)) by lia. lia.
    + unfold n_l2. rewrite (proj2 (Z.leb_le _ _)) by lia. lia.
  - intros pos Hp. unfold file_byte. rewrite !(proj2 (Z.leb_le _ _)) by lia. rewrite Hf.
    destruct (decide (off <= pos < off + n)) as [Hin|Hout].
    + rewrite lookup_blit_in.
      * rewrite <- buf_take by lia. f_equal. lia.
      * rewrite Hl. lia.
      * unfold resize, put_meta. rewrite length_blit, Hok. lia.
    + rewrite lookup_blit_out by (rewrite Hl; lia). apply lookup_resize. lia.
  - intros b _ Hb. apply Hfr. intros ->. apply Hb. by left.
  - right. rewrite Hf. unfold get_meta at 1. rewrite take_blit_other by lia.
    fold (get_meta (resize sz' (V f))). apply get_meta_resize; [apply sz_u64|done].
Qed.

(** *** Over an existing data block *)
Lemma written_in_block b :
  3968 < sz -> n_blocks sz' = n_blocks sz -> b = file_blk V f sz (off / 4096) -> block_ok (V b) ->
  0 <= off / 4096 < n_blocks sz -> off mod 4096 + n <= 4096 ->
  V' b = blit (Z.to_nat (off mod 4096)) (take (Z.to_nat n) buf) (V b) ->
  V' f = V f /\ sz' = sz \/ V' f = resize sz' (V f) /\ sz' = off + n /\ off = sz ->
  (forall x, x <> f -> x <> b -> V' x = V x) -> file_written V V' e e f sz sz' off n buf.
Proof.
  intros Hbig Hnb -> Hbok Hko Hfit Hb Hf Hfr. set (b := file_blk V f sz (off / 4096)) in *.
  pose proof length_take_n as Hl. pose proof sz_u64 as Hu.
  assert (Hml : forall i, 0 <= i -> meta_link (V' f) i = meta_link (V f) i).
  { intros i Hi. destruct Hf as [[-> _]|[-> _]]; [done|]. by apply meta_link_resize. }
  assert (Hlv : (sz' <=? 2031616) = (sz <=? 2031616) /\ (sz' <=? 1040187392) = (sz <=? 1040187392)).
  { rewrite !n_blocks_eq in Hnb by lia.
    destruct (Z.leb_spec sz' 2031616), (Z.leb_spec sz 2031616), (Z.leb_spec sz' 1040187392),
      (Z.leb_spec sz 1040187392); try done; dlia. }
  destruct Hlv as [Hlv1 Hlv2].
  assert (Hn1 : n_l1 sz' = n_l1 sz).
  { rewrite !n_blocks_eq in Hnb by lia. unfold n_l1. rewrite Hlv1. destruct (sz <=? 2031616); dlia. }
  assert (Hn2 : n_l2 sz' = n_l2 sz).
  { rewrite !n_blocks_eq in Hnb by lia. unfold n_l2. rewrite Hlv2. destruct (sz <=? 1040187392); dlia. }
  assert (Hlist : forall i, 0 <= i < n_l2 sz -> V' (meta_link (V f) i) = V (meta_link (V f) i)).
  { intros i Hi. apply Hfr; [by apply (fs_list_meta _ _ _ _ Sh)|].
    intros E. by apply (fs_data_list _ _ _ _ Sh (off / 4096) i). }
  assert (Hlk : forall i, 0 <= i < n_l1 sz -> file_link V' f sz' i = file_link V f sz i).
  { intros i Hi. unfold file_link. rewrite Hlv2. destruct (Z.leb_spec sz 1040187392); [apply Hml; lia|].
    rewrite Hml by dlia. rewrite Hlist; [done|]. by apply n_l2_link. }
  assert (Hlkb : forall i, 0 <= i < n_l1 sz -> V' (file_link V f sz i) = V (file_link V f sz i)).
  { intros i Hi. apply Hfr; [by apply (fs_link_meta _ _ _ _ Sh)|].
    intros E. by apply (fs_data_link _ _ _ _ Sh (off / 4096) i). }
  assert (Hdk : forall k, 0 <= k < n_blocks sz -> file_blk V' f sz' k = file_blk V f sz k).
  { intros k Hk. unfold file_blk. rewrite Hlv1, Hlv2.
    destruct (Z.leb_spec sz 2031616); [apply Hml; lia|].
    pose proof (n_l1_data sz k ltac:(lia) Hk) as Hi. specialize (Hlk _ Hi). specialize (Hlkb _ Hi).
    unfold file_link in Hlk, Hlkb. rewrite Hlv2 in Hlk. destruct (Z.leb_spec sz 1040187392).
    - by rewrite Hlk, Hlkb.
    - replace (k / 512 / 512) with (k / 262144) in Hlk, Hlkb by dlia. by rewrite Hlk, Hlkb. }
  split.
  - apply (file_shape_extend V V' e e f sz); [done|lia|..]; intros k Hk; left; split; try lia.
    + apply Hdk. lia.
    + apply Hlk. lia.
    + apply Hml. lia.
  - intros pos Hp. unfold file_byte. rewrite !(proj2 (Z.leb_gt _ _)) by lia.
    assert (Hkp : 0 <= pos / 4096 < n_blocks sz) by (rewrite <- Hnb, n_blocks_eq by lia; dlia).
    rewrite Hdk by done. destruct (decide (off <= pos < off + n)) as [Hin|Hout].
    + replace (pos / 4096) with (off / 4096) by dlia. fold b. rewrite Hb, lookup_blit_in.
      * rewrite <- buf_take by lia. f_equal. dlia.
      * rewrite Hl. dlia.
      * rewrite Hbok. dlia.
    + destruct (decide (pos / 4096 = off / 4096)) as [E|E].
      * rewrite E. fold b. rewrite Hb, lookup_blit_out; [done|]. rewrite Hl. dlia.
      * rewrite Hfr; [done|by apply (fs_data_meta _ _ _ _ Sh)|].
        intros E'. by apply E, (fs_data_inj _ _ _ _ Sh).
  - intros x _ Hx. apply Hfr; [intros ->; apply Hx; by left|].
    intros ->. apply Hx. right. left. by exists (off / 4096).
  - destruct Hf as [[-> ->]|[-> _]]; [by left|right]. by apply get_meta_resize.
Qed.

(** *** The first data block *)
Lemma written_first_block data :
  sz <= 3968 -> 3968 < sz' <= 4096 -> off = sz -> sz' = sz + n -> is_u64 e -> block_ok data ->
  V' e = blit (Z.to_nat sz) (take (Z.to_nat n) buf) (blit 0 (take (Z.to_nat sz) (as_data_bytes_in_meta (V f))) data) ->
  V' f = resize sz' (put_u64_at (128 + 8 * 0) e (V f)) ->
  (forall x, x <> f -> x <> e -> V' x = V x) -> file_written V V' e (e + 1) f sz sz' off n buf.
Proof.
  intros Hs Hs' -> Es He Hd Hb Hf Hfr. pose proof length_take_n as Hl. pose proof sz_u64 as Hu.
  assert (Hml : meta_link (V' f) 0 = e).
  { rewrite Hf, meta_link_resize by lia. rewrite meta_link_put by (try done; lia). done. }
  assert (Hnb : n_blocks sz' = 1) by (rewrite n_blocks_eq by lia; dlia).
  assert (Hnb0 : n_blocks sz = 0) by (unfold n_blocks; by rewrite (proj2 (Z.leb_le _ _)) by lia).
  assert (Hdk : file_blk V' f sz' 0 = e) by (unfold file_blk; by rewrite (proj2 (Z.leb_le _ _)) by lia).
  assert (Hlen : length (take (Z.to_nat sz) (as_data_bytes_in_meta (V f))) = Z.to_nat sz).
  { unfold as_data_bytes_in_meta. rewrite length_take, length_drop, Hok. lia. }
  split.
  - apply (file_shape_extend V V' e (e + 1) f sz); [done|lia|..]; intros k Hk.
    + right. assert (k = 0) as -> by lia. rewrite Hnb0, Hdk. lia.
    + exfalso. unfold n_l1 in Hk. rewrite (proj2 (Z.leb_le _ _)) in Hk by lia. lia.
    + exfalso. unfold n_l2 in Hk. rewrite (proj2 (Z.leb_le _ _)) in Hk by lia. lia.
  - intros pos Hp. unfold file_byte. rewrite (proj2 (Z.leb_gt sz' _)), (proj2 (Z.leb_le sz _)) by lia.
    replace (pos / 4096) with 0 by dlia. rewrite Hdk, Hb. replace (pos mod 4096) with pos by dlia.
    destruct (decide (sz <= pos < sz + n)) as [Hin|Hout].
    + rewrite lookup_blit_in by (rewrite ?length_blit, ?Hl, ?Hd; lia).
      rewrite <- buf_take by lia. f_equal. lia.
    + rewrite lookup_blit_out by (rewrite Hl; lia). rewrite lookup_blit_in by (rewrite ?Hlen, ?Hd; lia).
      rewrite lookup_take_lt by lia. unfold as_data_bytes_in_meta. rewrite lookup_drop. f_equal. lia.
  - intros b Hb' Hnb'. apply Hfr; [intros ->; apply Hnb'; by left|lia].
  - right. rewrite Hf, get_meta_resize by (try done; by apply put_u64_block_ok). by rewrite get_meta_put_u64 by lia.
Qed.

(** *** A new data block at the end *)
Section NewBlock.
Context (Hbig : 3968 < sz) (Hal : sz mod 4096 = 0) (Hoffs : off = sz) (Hs' : sz' = sz + n) (Hn1 : 0 < n <= 4096).

Lemma n_blocks_grow : n_blocks sz = sz / 4096 /\ n_blocks sz' = sz / 4096 + 1.
Proof. rewrite !n_blocks_eq by lia. dlia. Qed.

Lemma written_new_block e' junk :
  e < e' <= e + 3 -> block_ok junk -> V' e = blit 0 (take (Z.to_nat n) buf) junk ->
  (forall k, 0 <= k < sz / 4096 -> file_blk V' f sz' k = file_blk V f sz k) ->
  (forall k, 0 <= k < sz / 4096 -> V' (file_blk V f sz k) = V (file_blk V f sz k)) ->
  file_blk V' f sz' (sz / 4096) = e ->
  (forall i, 0 <= i < n_l1 sz' ->
     (i < n_l1 sz /\ file_link V' f sz' i = file_link V f sz i) \/
     (i = n_l1 sz /\ file_link V' f sz' i = e + 1 /\ e + 1 < e')) ->
  (forall i, 0 <= i < n_l2 sz' ->
     (i < n_l2 sz /\ meta_link (V' f) i = meta_link (V f) i) \/
     (i = n_l2 sz /\ meta_link (V' f) i = e + 2 /\ e + 2 < e')) ->
  (forall b, b < e -> ~ file_block V f sz b -> V' b = V b) ->
  get_meta (V' f) = meta_set_crc32 (set_size sz' (get_meta (V f))) ->
  file_written V V' e e' f sz sz' off n buf.
Proof.
  intros He Hj Hb Hdk Hsame Hnew HL HLL Hfr Hm. destruct n_blocks_grow as [N1 N2].
  pose proof length_take_n as Hl. split; [| |done|by right].
  - apply (file_shape_extend V V' e e' f sz); [done|lia| |done|done]. intros k Hk.
    destruct (decide (k < n_blocks sz)); [left; split; [done|apply Hdk; lia]|right].
    assert (k = sz / 4096) as -> by lia. rewrite N1, Hnew. lia.
  - intros pos Hp. unfold file_byte. rewrite !(proj2 (Z.leb_gt _ _)) by lia.
    destruct (decide (off <= pos < off + n)) as [Hin|Hout].
    + replace (pos / 4096) with (sz / 4096) by dlia. rewrite Hnew, Hb.
      rewrite lookup_blit_in by (rewrite ?Hl, ?Hj; dlia). rewrite <- buf_take by lia. f_equal. dlia.
    + rewrite Hdk, Hsame by dlia. done.
Qed.

Context {junk : Block} (Hj : block_ok junk) (Hb : V' e = blit 0 (take (Z.to_nat n) buf) junk) (He : is_u64 (e + 2)).

Lemma e_range : 0 < f < e /\ is_u64 e /\ is_u64 (e + 1).
Proof. pose proof (fs_meta _ _ _ _ Sh). unfold is_u64 in *. lia. Qed.

(** Linked from the metadata block. *)
Lemma written_link_meta :
  sz' <= 2031616 ->
  V' f = resize sz' (put_u64_at (128 + 8 * (sz / 4096)) e (V f)) ->
  (forall x, x <> f -> x <> e -> V' x = V x) -> file_written V V' e (e + 1) f sz sz' off n buf.
Proof.
  intros Hs Hf Hfr. destruct e_range as (Hfe & Heu & _). destruct n_blocks_grow as [N1 N2]. pose proof sz_u64 as Hu.
  assert (Hml : forall i, 0 <= i < 496 ->
            meta_link (V' f) i = if decide (i = sz / 4096) then e else meta_link (V f) i).
  { intros i Hi. rewrite Hf, meta_link_resize, meta_link_put by (try done; dlia). done. }
  assert (Hdk' : forall k, file_blk V' f sz' k = meta_link (V' f) k)
    by (intros; unfold file_blk; by rewrite (proj2 (Z.leb_le _ _)) by lia).
  assert (Hdk : forall k, file_blk V f sz k = meta_link (V f) k)
    by (intros; unfold file_blk; by rewrite (proj2 (Z.leb_le _ _)) by lia).
  apply written_new_block with junk; try done; try lia.
  - intros k Hk. rewrite Hdk', Hdk, Hml by dlia. by rewrite decide_False by lia.
  - intros k Hk. rewrite <- N1 in Hk. pose proof (fs_data _ _ _ _ Sh k Hk).
    apply Hfr; [by apply (fs_data_meta _ _ _ _ Sh)|lia].
  - rewrite Hdk', Hml by dlia. by rewrite decide_True.
  - unfold n_l1. rewrite (proj2 (Z.leb_le _ _)) by lia. lia.
  - unfold n_l2. rewrite (proj2 (Z.leb_le _ _)) by lia. lia.
  - intros b Hb' Hnb. apply Hfr; [intros ->; apply Hnb; by left|lia].
  - rewrite Hf, get_meta_resize by (try done; by apply put_u64_block_ok). by rewrite get_meta_put_u64 by dlia.
Qed.

(** *** One level of link blocks *)

Lemma written_link_l1 lb :
  2031616 < sz -> sz' <= 1040187392 -> sz mod 2097152 <> 0 ->
  lb = meta_link (V f) (sz / 2097152) -> block_ok (V lb) ->
  V' lb = put_u64_at (8 * (sz / 4096 mod 512)) e (V lb) -> V' f = resize sz' (V f) ->
  (forall x, x <> f -> x <> e -> x <> lb -> V' x = V x) -> file_written V V' e (e + 1) f sz sz' off n buf.
Proof.
  intros H1 H2 Hm -> Hlok Hlb Hf Hfr. set (lb := meta_link (V f) (sz / 2097152)) in *.
  destruct e_range as (Hfe & Heu & _). destruct n_blocks_grow as [N1 N2]. pose proof sz_u64 as Hu.
  assert (Hn1' : n_l1 sz' = n_l1 sz) by (rewrite !n_l1_eq by lia; dlia).
  assert (Hil : 0 <= sz / 2097152 < n_l1 sz) by (rewrite n_l1_eq by lia; dlia).
  assert (Hml : forall i, 0 <= i -> meta_link (V' f) i = meta_link (V f) i)
    by (intros; rewrite Hf; by apply meta_link_resize).
  pose proof (fs_link _ _ _ _ Sh _ Hil) as Hlr. rewrite flink_l1 in Hlr by lia. fold lb in Hlr.
  assert (Hoth : forall i, 0 <= i < n_l1 sz -> i <> sz / 2097152 -> V' (meta_link (V f) i) = V (meta_link (V f) i)).
  { intros i Hi Hne. pose proof (fs_link _ _ _ _ Sh _ Hi) as Hr. pose proof (fs_link_meta _ _ _ _ Sh _ Hi) as Hr'.
    rewrite flink_l1 in Hr, Hr' by lia. apply Hfr; [done|lia|]. intros E.
    apply Hne, (fs_link_inj _ _ _ _ Sh); [done|done|]. by rewrite !flink_l1 by lia. }
  apply written_new_block with junk; try done; try lia.
  - intros k Hk. rewrite !blk_l1 by lia. rewrite Hml by dlia.
    pose proof (n_l1_data sz k ltac:(lia) ltac:(lia)) as Hki.
    destruct (decide (k / 512 = sz / 2097152)) as [E|E]; [|by rewrite Hoth].
    rewrite E. fold lb. rewrite Hlb, link_put by (try done; dlia). rewrite decide_False; [done|]. dlia.
  - intros k Hk. rewrite <- N1 in Hk. pose proof (fs_data _ _ _ _ Sh k Hk).
    apply Hfr; [by apply (fs_data_meta _ _ _ _ Sh)|lia|]. intros E.
    apply (fs_data_link _ _ _ _ Sh k _ Hk Hil). by rewrite flink_l1 by lia.
  - rewrite blk_l1 by lia. rewrite Hml by dlia. replace (sz / 4096 / 512) with (sz / 2097152) by dlia. fold lb.
    rewrite Hlb, link_put by (try done; dlia). by rewrite decide_True by done.
  - intros i Hi. left. rewrite Hn1' in Hi. rewrite !flink_l1 by lia. split; [lia|apply Hml; lia].
  - rewrite n_l2_small by lia. lia.
  - intros b Hb' Hnb. apply Hfr; [intros ->; apply Hnb; by left|lia|]. intros ->. apply Hnb. right. right. left.
    exists (sz / 2097152). split; [done|]. by rewrite flink_l1 by lia.
  - rewrite Hf. by apply get_meta_resize.
Qed.

Lemma written_new_l1 :
  2031616 < sz' -> sz' <= 1040187392 -> sz mod 2097152 = 0 -> 0 < sz ->
  link (V' (e + 1)) 0 = e -> V' f = resize sz' (put_u64_at (128 + 8 * (sz / 2097152)) (e + 1) (V f)) ->
  (forall x, x <> f -> x <> e -> x <> e + 1 -> V' x = V x) -> file_written V V' e (e + 2) f sz sz' off n buf.
Proof.
  intros H1 H2 Hm Hpos Hl Hf Hfr.
  destruct e_range as (Hfe & Heu & Heu1). destruct n_blocks_grow as [N1 N2]. pose proof sz_u64 as Hu.
  assert (Hs2 : 2031616 < sz) by dlia.
  assert (Hnl : n_l1 sz = sz / 2097152) by (rewrite n_l1_eq by lia; dlia).
  assert (Hnl' : n_l1 sz' = sz / 2097152 + 1) by (rewrite n_l1_eq by lia; dlia).
  assert (Hml : forall i, 0 <= i < 496 ->
            meta_link (V' f) i = if decide (i = sz / 2097152) then e + 1 else meta_link (V f) i).
  { intros i Hi. rewrite Hf, meta_link_resize, meta_link_put by (try done; dlia). done. }
  apply written_new_block with junk; try done; try lia.
  - intros k Hk. rewrite !blk_l1 by lia. pose proof (n_l1_data sz k ltac:(lia) ltac:(lia)) as Hki.
    pose proof (fs_link _ _ _ _ Sh _ Hki) as Hr. pose proof (fs_link_meta _ _ _ _ Sh _ Hki) as Hr'.
    rewrite flink_l1 in Hr, Hr' by lia. rewrite Hml, decide_False by dlia. by rewrite Hfr by (try done; lia).
  - intros k Hk. rewrite <- N1 in Hk. pose proof (fs_data _ _ _ _ Sh k Hk).
    apply Hfr; [by apply (fs_data_meta _ _ _ _ Sh)|lia|lia].
  - rewrite blk_l1 by lia. rewrite Hml, decide_True by dlia. by replace (sz / 4096 mod 512) with 0 by dlia.
  - intros i Hi. rewrite !flink_l1 by lia. rewrite Hml by dlia. destruct (decide (i = sz / 2097152)); [right|left]; lia.
  - rewrite n_l2_small by lia. lia.
  - intros b Hb' Hnb. apply Hfr; [intros ->; apply Hnb; by left|lia|lia].
  - rewrite Hf, get_meta_resize by (try done; by apply put_u64_block_ok). by rewrite get_meta_put_u64 by dlia.
Qed.

(** 496 data blocks to 497: the links move to a link block. *)
Lemma written_first_l1 :
  sz = 2031616 ->
  (forall i, 0 <= i < 496 -> link (V' (e + 1)) i = meta_link (V f) i) -> link (V' (e + 1)) 496 = e ->
  V' f = resize sz' (put_u64_at (128 + 8 * 0) (e + 1) (V f)) ->
  (forall x, x <> f -> x <> e -> x <> e + 1 -> V' x = V x) -> file_written V V' e (e + 2) f sz sz' off n buf.
Proof.
  intros H1 Hcopy Hl Hf Hfr.
  destruct e_range as (Hfe & Heu & Heu1). destruct n_blocks_grow as [N1 N2]. pose proof sz_u64 as Hu.
  assert (Hml : meta_link (V' f) 0 = e + 1).
  { rewrite Hf, meta_link_resize, meta_link_put by (try done; lia). done. }
  assert (Hdk : forall k, file_blk V f sz k = meta_link (V f) k)
    by (intros; unfold file_blk; by rewrite (proj2 (Z.leb_le _ _)) by lia).
  assert (E4 : sz / 4096 = 496) by (by rewrite H1).
  assert (Hdk' : forall k, 0 <= k < 497 -> file_blk V' f sz' k = link (V' (e + 1)) k).
  { intros k Hk. rewrite blk_l1 by lia. replace (k / 512) with 0 by dlia. rewrite Hml. f_equal. dlia. }
  apply written_new_block with junk; try done; try lia; rewrite ?E4 in *.
  - intros k Hk. rewrite Hdk', Hcopy, Hdk by lia. done.
  - intros k Hk. rewrite <- N1 in Hk. pose proof (fs_data _ _ _ _ Sh k Hk).
    apply Hfr; [by apply (fs_data_meta _ _ _ _ Sh)|lia|lia].
  - by rewrite Hdk' by lia.
  - intros i Hi. right. rewrite n_l1_eq in Hi by lia. rewrite flink_l1 by lia.
    assert (i = 0) as -> by dlia. unfold n_l1. rewrite (proj2 (Z.leb_le _ _)) by lia. lia.
  - rewrite n_l2_small by lia. lia.
  - intros b Hb' Hnb. apply Hfr; [intros ->; apply Hnb; by left|lia|lia].
  - rewrite Hf, get_meta_resize by (try done; by apply put_u64_block_ok). by rewrite get_meta_put_u64 by lia.
Qed.

(** *** Two levels of link blocks *)

Section TwoLevels.
Context (H2 : 1040187392 < sz).

(** Growing by one block keeps the number of lists unless [sz] fills them. *)
Lemma lists_kept : sz mod 1073741824 <> 0 -> n_l2 sz' = n_l2 sz.
Proof. intros. rewrite !n_l2_eq by lia. dlia. Qed.

Lemma list_ranges i : 0 <= i < n_l2 sz -> 0 < meta_link (V f) i < e /\ meta_link (V f) i <> f.
Proof. intros Hi. split; [by apply (fs_list _ _ _ _ Sh)|by apply (fs_list_meta _ _ _ _ Sh)]. Qed.

Lemma link_ranges i : 0 <= i < n_l1 sz -> 0 < file_link V f sz i < e /\ file_link V f sz i <> f.
Proof. intros Hi. split; [by apply (fs_link _ _ _ _ Sh)|by apply (fs_link_meta _ _ _ _ Sh)]. Qed.

Lemma written_link_l2 lb :
  sz mod 2097152 <> 0 -> lb = file_link V f sz (sz / 2097152) -> block_ok (V lb) ->
  V' lb = put_u64_at (8 * (sz / 4096 mod 512)) e (V lb) -> V' f = resize sz' (V f) ->
  (forall x, x <> f -> x <> e -> x <> lb -> V' x = V x) -> file_written V V' e (e + 1) f sz sz' off n buf.
Proof.
  intros Hm -> Hlok Hlb Hf Hfr. set (lb := file_link V f sz (sz / 2097152)) in *.
  destruct e_range as (Hfe & Heu & _). destruct n_blocks_grow as [N1 N2]. pose proof sz_u64 as Hu.
  assert (Hn1' : n_l1 sz' = n_l1 sz) by (rewrite !n_l1_eq by lia; dlia).
  assert (Hil : 0 <= sz / 2097152 < n_l1 sz) by (rewrite n_l1_eq by lia; dlia).
  assert (Hml : forall i, 0 <= i -> meta_link (V' f) i = meta_link (V f) i)
    by (intros; rewrite Hf; by apply meta_link_resize).
  assert (Hlist : forall i, 0 <= i < n_l2 sz -> V' (meta_link (V f) i) = V (meta_link (V f) i)).
  { intros i Hi. destruct (list_ranges i Hi). apply Hfr; [done|lia|]. intros E.
    by apply (fs_link_list _ _ _ _ Sh _ _ Hil Hi). }
  assert (Hlk : forall i, 0 <= i < n_l1 sz -> file_link V' f sz' i = file_link V f sz i).
  { intros i Hi. rewrite !flink_l2 by lia. rewrite Hml by dlia. rewrite Hlist; [done|]. apply n_l2_link; [lia|done]. }
  assert (Hoth : forall i, 0 <= i < n_l1 sz -> i <> sz / 2097152 -> V' (file_link V f sz i) = V (file_link V f sz i)).
  { intros i Hi Hne. destruct (link_ranges i Hi). apply Hfr; [done|lia|]. intros E.
    by apply Hne, (fs_link_inj _ _ _ _ Sh). }
  apply written_new_block with junk; try done; try lia.
  - intros k Hk. rewrite !blk_l2 by lia. pose proof (n_l1_data sz k ltac:(lia) ltac:(lia)) as Hki.
    rewrite Hlk by done. destruct (decide (k / 512 = sz / 2097152)) as [E|E]; [|by rewrite Hoth].
    rewrite E. fold lb. rewrite Hlb, link_put by (try done; dlia). rewrite decide_False; [done|]. dlia.
  - intros k Hk. rewrite <- N1 in Hk. pose proof (fs_data _ _ _ _ Sh k Hk).
    apply Hfr; [by apply (fs_data_meta _ _ _ _ Sh)|lia|by apply (fs_data_link _ _ _ _ Sh)].
  - rewrite blk_l2 by lia. replace (sz / 4096 / 512) with (sz / 2097152) by dlia. rewrite Hlk by done. fold lb.
    rewrite Hlb, link_put by (try done; dlia). by rewrite decide_True by done.
  - intros i Hi. left. rewrite Hn1' in Hi. split; [lia|apply Hlk; lia].
  - intros i Hi. left. rewrite lists_kept in Hi by dlia. split; [lia|apply Hml; lia].
  - intros b Hb' Hnb. apply Hfr; [intros ->; apply Hnb; by left|lia|]. intros ->. apply Hnb. right. right. left.
    by exists (sz / 2097152).
  - rewrite Hf. by apply get_meta_resize.
Qed.

Lemma written_new_link_l2 ll :
  sz mod 2097152 = 0 -> sz mod 1073741824 <> 0 -> ll = meta_link (V f) (sz / 1073741824) -> block_ok (V ll) ->
  link (V' (e + 1)) 0 = e -> V' ll = put_u64_at (8 * (sz / 2097152 mod 512)) (e + 1) (V ll) ->
  V' f = resize sz' (V f) ->
  (forall x, x <> f -> x <> e -> x <> e + 1 -> x <> ll -> V' x = V x) ->
  file_written V V' e (e + 2) f sz sz' off n buf.
Proof.
  intros Hm Hm' -> Hlok Hl Hll Hf Hfr. set (ll := meta_link (V f) (sz / 1073741824)) in *.
  destruct e_range as (Hfe & Heu & Heu1). destruct n_blocks_grow as [N1 N2]. pose proof sz_u64 as Hu.
  assert (Hnl : n_l1 sz = sz / 2097152) by (rewrite n_l1_eq by lia; dlia).
  assert (Hnl' : n_l1 sz' = sz / 2097152 + 1) by (rewrite n_l1_eq by lia; dlia).
  assert (Hil : 0 <= sz / 1073741824 < n_l2 sz) by (rewrite n_l2_eq by lia; dlia).
  assert (Hml : forall i, 0 <= i -> meta_link (V' f) i = meta_link (V f) i)
    by (intros; rewrite Hf; by apply meta_link_resize).
  assert (Hlist : forall i, 0 <= i < n_l2 sz -> i <> sz / 1073741824 -> V' (meta_link (V f) i) = V (meta_link (V f) i)).
  { intros i Hi Hne. destruct (list_ranges i Hi). apply Hfr; [done|lia|lia|]. intros E.
    by apply Hne, (fs_list_inj _ _ _ _ Sh). }
  assert (Hlk : forall i, 0 <= i < n_l1 sz -> file_link V' f sz' i = file_link V f sz i).
  { intros i Hi. rewrite !flink_l2 by lia. rewrite Hml by dlia. pose proof (n_l2_link sz i ltac:(lia) Hi).
    destruct (decide (i / 512 = sz / 1073741824)) as [E|E]; [|by rewrite Hlist].
    rewrite E. fold ll. rewrite Hll, link_put by (try done; dlia). rewrite decide_False; [done|]. dlia. }
  assert (Hsame : forall i, 0 <= i < n_l1 sz -> V' (file_link V f sz i) = V (file_link V f sz i)).
  { intros i Hi. destruct (link_ranges i Hi). apply Hfr; [done|lia|lia|by apply (fs_link_list _ _ _ _ Sh)]. }
  assert (Hnew : file_link V' f sz' (sz / 2097152) = e + 1).
  { rewrite flink_l2 by lia. rewrite Hml by dlia. replace (sz / 2097152 / 512) with (sz / 1073741824) by dlia.
    fold ll. rewrite Hll, link_put by (try done; dlia). by rewrite decide_True by done. }
  apply written_new_block with junk; try done; try lia.
  - intros k Hk. rewrite !blk_l2 by lia. pose proof (n_l1_data sz k ltac:(lia) ltac:(lia)) as Hki.
    by rewrite Hlk, Hsame by done.
  - intros k Hk. rewrite <- N1 in Hk. pose proof (fs_data _ _ _ _ Sh k Hk).
    apply Hfr; [by apply (fs_data_meta _ _ _ _ Sh)|lia|lia|by apply (fs_data_list _ _ _ _ Sh)].
  - rewrite blk_l2 by lia. replace (sz / 4096 / 512) with (sz / 2097152) by dlia.
    rewrite Hnew. by replace (sz / 4096 mod 512) with 0 by dlia.
  - intros i Hi. destruct (decide (i = sz / 2097152)) as [->|]; [right; rewrite Hnew; lia|left].
    split; [lia|apply Hlk; lia].
  - intros i Hi. left. rewrite lists_kept in Hi by done. split; [lia|apply Hml; lia].
  - intros b Hb' Hnb. apply Hfr; [intros ->; apply Hnb; by left|lia|lia|]. intros ->. apply Hnb. right. right. right.
    by exists (sz / 1073741824).
  - rewrite Hf. by apply get_meta_resize.
Qed.

Lemma written_new_list :
  sz mod 1073741824 = 0 -> link (V' (e + 1)) 0 = e -> link (V' (e + 2)) 0 = e + 1 ->
  V' f = resize sz' (put_u64_at (128 + 8 * (sz / 1073741824)) (e + 2) (V f)) ->
  (forall x, x <> f -> x <> e -> x <> e + 1 -> x <> e + 2 -> V' x = V x) ->
  file_written V V' e (e + 3) f sz sz' off n buf.
Proof.
  intros Hm Hl Hll Hf Hfr.
  destruct e_range as (Hfe & Heu & Heu1). destruct n_blocks_grow as [N1 N2]. pose proof sz_u64 as Hu.
  assert (Hnl : n_l1 sz = sz / 2097152) by (rewrite n_l1_eq by lia; dlia).
  assert (Hnl' : n_l1 sz' = sz / 2097152 + 1) by (rewrite n_l1_eq by lia; dlia).
  assert (Hnll : n_l2 sz = sz / 1073741824) by (rewrite n_l2_eq by lia; dlia).
  assert (Hnll' : n_l2 sz' = sz / 1073741824 + 1) by (rewrite n_l2_eq by lia; dlia).
  assert (Hml : forall i, 0 <= i < 496 ->
            meta_link (V' f) i = if decide (i = sz / 1073741824) then e + 2 else meta_link (V f) i).
  { intros i Hi. rewrite Hf, meta_link_resize, meta_link_put by (try done; dlia). done. }
  assert (Hlk : forall i, 0 <= i < n_l1 sz -> file_link V' f sz' i = file_link V f sz i).
  { intros i Hi. pose proof (n_l2_link sz i ltac:(lia) Hi) as Hi2. destruct (list_ranges _ Hi2).
    rewrite !flink_l2 by lia. rewrite Hml, decide_False by dlia. by rewrite Hfr by (try done; lia). }
  assert (Hsame : forall i, 0 <= i < n_l1 sz -> V' (file_link V f sz i) = V (file_link V f sz i)).
  { intros i Hi. destruct (link_ranges i Hi). apply Hfr; [done|lia|lia|lia]. }
  assert (Hnew : file_link V' f sz' (sz / 2097152) = e + 1).
  { rewrite flink_l2 by lia. rewrite Hml, decide_True by dlia. by replace (sz / 2097152 mod 512) with 0 by dlia. }
  apply written_new_block with junk; try done; try lia.
  - intros k Hk. rewrite !blk_l2 by lia. pose proof (n_l1_data sz k ltac:(lia) ltac:(lia)) as Hki.
    by rewrite Hlk, Hsame by done.
  - intros k Hk. rewrite <- N1 in Hk. pose proof (fs_data _ _ _ _ Sh k Hk).
    apply Hfr; [by apply (fs_data_meta _ _ _ _ Sh)|lia|lia|lia].
  - rewrite blk_l2 by lia. replace (sz / 4096 / 512) with (sz / 2097152) by dlia.
    rewrite Hnew. by replace (sz / 4096 mod 512) with 0 by dlia.
  - intros i Hi. destruct (decide (i = sz / 2097152)) as [->|]; [right; rewrite Hnew; lia|left].
    split; [lia|apply Hlk; lia].
  - intros i Hi. rewrite Hml by dlia. destruct (decide (i = sz / 1073741824)); [right|left]; lia.
  - intros b Hb' Hnb. apply Hfr; [intros ->; apply Hnb; by left|lia|lia|lia].
  - rewrite Hf, get_meta_resize by (try done; by apply put_u64_block_ok). by rewrite get_meta_put_u64 by dlia.
Qed.
End TwoLevels.

(** 496 link blocks to 497: they move under a list of links. *)
Lemma written_first_list :
  sz = 1040187392 -> link (V' (e + 1)) 0 = e ->
  (forall i, 0 <= i < 496 -> link (V' (e + 2)) i = meta_link (V f) i) -> link (V' (e + 2)) 496 = e + 1 ->
  V' f = resize sz' (put_u64_at (128 + 8 * 0) (e + 2) (V f)) ->
  (forall x, x <> f -> x <> e -> x <> e + 1 -> x <> e + 2 -> V' x = V x) ->
  file_written V V' e (e + 3) f sz sz' off n buf.
Proof.
  intros H1 Hl Hcopy Hll Hf Hfr.
  destruct e_range as (Hfe & Heu & Heu1). destruct n_blocks_grow as [N1 N2]. pose proof sz_u64 as Hu.
  assert (Hml : meta_link (V' f) 0 = e + 2).
  { rewrite Hf, meta_link_resize, meta_link_put by (try done; lia). done. }
  assert (Hlk' : forall i, 0 <= i < 497 -> file_link V' f sz' i = link (V' (e + 2)) i).
  { intros i Hi. rewrite flink_l2 by lia. replace (i / 512) with 0 by dlia. rewrite Hml. f_equal. dlia. }
  assert (Hnl : n_l1 sz = 496) by (by rewrite H1).
  assert (Hnl' : n_l1 sz' = 497) by (rewrite n_l1_eq by lia; dlia).
  assert (Hnll' : n_l2 sz' = 1) by (rewrite n_l2_eq by lia; dlia).
  assert (Hlk : forall i, 0 <= i < n_l1 sz -> file_link V' f sz' i = file_link V f sz i).
  { intros i Hi. rewrite Hlk', Hcopy, flink_l1 by lia. done. }
  assert (Hsame : forall i, 0 <= i < n_l1 sz -> V' (file_link V f sz i) = V (file_link V f sz i)).
  { intros i Hi. pose proof (fs_link _ _ _ _ Sh i Hi). pose proof (fs_link_meta _ _ _ _ Sh i Hi).
    apply Hfr; [done|lia|lia|lia]. }
  assert (E5 : sz / 4096 / 512 = 496) by (by rewrite H1).
  apply written_new_block with junk; try done; try lia.
  - intros k Hk. pose proof (n_l1_data sz k ltac:(lia) ltac:(lia)) as Hki. rewrite blk_l2, blk_l1 by lia.
    rewrite Hlk, Hsame, flink_l1 by (try done; lia). done.
  - intros k Hk. rewrite <- N1 in Hk. pose proof (fs_data _ _ _ _ Sh k Hk).
    apply Hfr; [by apply (fs_data_meta _ _ _ _ Sh)|lia|lia|lia].
  - rewrite blk_l2 by lia. rewrite E5, Hlk', Hll by lia. by replace (sz / 4096 mod 512) with 0 by (by rewrite H1).
  - intros i Hi. destruct (decide (i = 496)) as [->|]; [right; rewrite Hlk' by lia; lia|left].
    split; [lia|apply Hlk; lia].
  - intros i Hi. right. assert (i = 0) as -> by lia. rewrite n_l2_small by lia. lia.
  - intros b Hb' Hnb. apply Hfr; [intros ->; apply Hnb; by left|lia|lia|lia].
  - rewrite Hf, get_meta_resize by (try done; by apply put_u64_block_ok). by rewrite get_meta_put_u64 by lia.
Qed.
End NewBlock.
End Pure.
End FileWrite.
