(* ===== verification/SrfsFileAppend.v ===== *)
(** * [write] on files

    The operations of [SyncFileSystem::write]: each branch performs the change
    described by the lemmas of the previous file and leaves a settled header. *)

From stdpp Require Import base numbers list.
From coqutil Require Import Byte.
From S2P Require Import RustPrelude Crc32 SrfsLayout BlockDevice BlockCache SrfsFs SrfsState SrfsDir.
From S2P Require Import SrfsDirAdd SrfsMount SrfsNode SrfsFile SrfsFileWrite.

Open Scope Z_scope.

(** Index side conditions of the link accessors. *)
Ltac link_side := unfold meta_link_ok, link_ok; change MAX_LINKS_IN_META_BLOCK with 496; dlia.

(** The links of a metadata block copied to the front of a link block. *)
Lemma link_copied b junk i : block_ok b -> block_ok junk -> 0 <= i < 496 ->
  link (blit 0 (as_data_bytes_in_meta b) junk) i = meta_link b i.
Proof.
  intros Hb Hj Hi. unfold link, meta_link, get_u64_at, as_data_bytes_in_meta. f_equal.
  apply list_eq. intros j. destruct (decide (j < 8)%nat) as [Hlt|Hge].
  - rewrite !lookup_slice by lia. rewrite lookup_blit_in by (rewrite ?length_drop, ?Hb, ?Hj; lia).
    rewrite lookup_drop. f_equal. lia.
  - rewrite !lookup_ge_None_2; [done|..]; rewrite length_slice; rewrite ?length_blit, ?Hb, ?Hj; lia.
Qed.

Lemma shiftr_l1' x : 0 <= x -> Z.shiftr x L1_LOG2 = x / 2097152.
Proof. intros. rewrite shiftr_l1, Z.div_div by lia. done. Qed.
Lemma shiftr_l2' x : 0 <= x -> Z.shiftr x L2_LOG2 = x / 1073741824.
Proof. intros. rewrite shiftr_l2, Z.div_div by lia. done. Qed.
Lemma link_idx_eq' x : 0 <= x -> link_idx_in_list x = x / 2097152 mod 512.
Proof. intros. rewrite link_idx_eq, Z.div_div by lia. done. Qed.

Section Append.
Context {D : Type} {Dev : SyncBlockDevice D} {DL : SyncBlockDeviceLaws D}.
Context {Crc : Crc32} {CL : Crc32Laws Crc} {Clk : Clock} {Unin : Uninit}.
Abbreviation fs := (SyncFileSystem D).

(** ** A new data block *)

(** Setting the size is all that is left to do. *)
Definition linked (V V1 : Z -> Block) (e e' f sz sz' off n : Z) (buf : bytes) : Prop :=
  forall V' : Z -> Block, V' f = resize sz' (V1 f) -> (forall x, x <> f -> V' x = V1 x) ->
  file_written V V' e e' f sz sz' off n buf.

Section NewBlock.
Context {N : Z} {V V1 : Z -> Block} {e sz sz' n : Z} {buf : bytes} {id : EntryId} {h : SuperblockHeader} {junk : Block}.
Abbreviation f := (block_no id).
Context (FO : file_ok V e id sz) (Hmax : sz' <= 532575944704) (Hn : 0 < n <= 4096) (Hnb : n <= Z.of_nat (length buf)).
Context (Hbig : 3968 < sz) (Hsz : 0 <= sz <= sz') (Hal : sz mod 4096 = 0) (Hs' : sz' = sz + n).
Context (Hok : block_ok (V f)) (Hj : block_ok junk).
Context (HV1 : forall x, x <> e -> V1 x = V x) (HVe : V1 e = blit 0 (take (Z.to_nat n) buf) junk).
Context (He : empty_area_start h = e + 1) (Hown : txn_blocks_owner h <> 0) (Hroom : room 2 h) (Hh : sb_ok h).

Lemma file_in : blk_in h f /\ f < e /\ V1 f = V f.
Proof.
  pose proof (fs_meta _ _ _ _ (fo_shape _ _ _ _ FO)). destruct Hroom as (_ & _ & ?).
  split; [unfold blk_in; lia|]. split; [lia|]. apply HV1. lia.
Qed.

Lemma space_u64 : is_u64 e /\ is_u64 (e + 1) /\ is_u64 (e + 2).
Proof.
  destruct Hroom as (_ & _ & Hr). rewrite sb_ok_spec in Hh. destruct Hh as [(_ & _ & Hnb' & _) _].
  pose proof (fs_meta _ _ _ _ (fo_shape _ _ _ _ FO)). unfold is_u64 in *. lia.
Qed.

Tactic Notation "written" uconstr(L) :=
  eapply L with (junk := junk);
  lazymatch goal with
  | |- file_shape _ _ _ _ => exact (fo_shape _ _ _ _ FO)
  | |- is_u64 _ => apply space_u64
  | |- _ => try assumption; try done; try lia
  end.

(** The post-condition of the linking step. *)
Definition link_post (Q : unit -> fs -> Prop) : Prop :=
  forall s' h' hd' V2 dt R', fs_st N s' h' hd' V2 dt R' -> grows h h' ->
    dt = Some f \/ dt = None /\ f ∈ R' -> linked V V2 e (empty_area_start h') f sz sz' sz n buf -> Q tt s'.

(** Allocating the next link block. *)
Lemma allocate_link_st s h1 hd V2 dt R t (Q : Z -> fs -> Prop) X :
  fs_st N s h1 hd V2 dt R -> txn_blocks_owner h1 <> 0 -> room 1 h1 ->
  (forall s' h', fs_st N s' h' h' V2 dt R -> h' = sb_set_crc32 (alloc_hdr t h1) ->
     blk_in h' (empty_area_start h1) -> Q (empty_area_start h1) s') ->
  wp (on_err (allocate_txn_block t) make_error) s Q X.
Proof.
  intros S Ho Hr HQ. apply wp_on_err. eapply allocate_st; [exact S|exact Ho|by apply (room_can_alloc 1)|].
  intros s1 S1. eapply HQ; [exact S1|done|]. destruct Hr as ((_ & ?) & _ & ?). unfold blk_in. destruct t; simpl; lia.
Qed.

Lemma link_meta_st s hd R (Q : unit -> fs -> Prop) X :
  fs_st N s h hd V1 None R -> f ∈ take 8 R -> sz' <= 2031616 -> link_post Q ->
  wp (let* mblk := c_get_mut f in
      let* mblk := lift (set_datablock_no_in_meta mblk (Z.shiftr sz BLOCK_SIZE_LOG2) e) in c_set mblk) s Q X.
Proof.
  intros S Hin Hs HQ. destruct file_in as (Hfin & Hfe & HVf). wp_step.
  eapply c_get_mut_st; [exact S|done|by eapply in_take|]. intros s1 S1. rewrite HVf, shiftr_12 by lia.
  rewrite set_link_meta by link_side. wp_steps.
  eapply c_set_st; [exact S1|done|by apply put_u64_block_ok|]. intros s2 S2.
  eapply HQ; [exact S2|apply grows_refl|by left|]. rewrite He. intros V' Hf Hfr. rewrite fupd_eq in Hf.
  written written_link_meta.
  - rewrite Hfr, !fupd_ne by lia. done.
  - intros x H1 H2. rewrite Hfr, !fupd_ne by done. by apply HV1.
Qed.

Section Single.
Context (Hs : 2031616 < sz' <= 1040187392).

Lemma first_link_block_st s hd R (Q : unit -> fs -> Prop) X :
  fs_st N s h hd V1 None R -> f ∈ R -> sz = 2031616 -> link_post Q ->
  wp (link_single_level id sz e) s Q X.
Proof.
  intros S Hin E HQ. destruct file_in as (Hfin & Hfe & HVf). destruct space_u64 as (Heu & Heu1 & Heu2).
  pose proof (fo_shape _ _ _ _ FO) as Sh. pose proof Hroom as (Hb & Hfr0 & Hr).
  unfold link_single_level. change BYTES_COVERED_BY_FIRST_LEVEL_BLOCKLIST with 2097152.
  change MAX_BYTES_ONLY_DATA_BLOCKS with 2031616. rewrite shiftr_l1' by lia.
  rewrite (proj2 (Z.eqb_eq sz 2031616)), orb_true_r by lia. wp_step.
  eapply allocate_link_st; [exact S|exact Hown|split; [done|lia]|]. intros s1 h1 S1 Eh1 Hlb. rewrite He in Hlb |- *.
  assert (Hf1 : blk_in h1 f) by (by rewrite Eh1).
  wp_step. wp_step. eapply c_get_st; [exact S1|done|done|]. intros s2 S2. wp_step.
  eapply c_uninit_st; [exact S2|done|]. intros j2 s3 Hj2 S3. rewrite HVf.
  change MAX_LINKS_IN_META_BLOCK with 496. rewrite set_link by (unfold link_ok; lia). wp_steps.
  assert (Hcp : block_ok (blit 0 (as_data_bytes_in_meta (V f)) j2)) by (unfold block_ok; by rewrite length_blit).
  eapply c_set_st; [exact S3|done|by apply put_u64_block_ok|]. intros s4 S4. wp_steps.
  eapply c_write_st; [exact S4|done|]. intros s5 S5. wp_step.
  eapply c_get_mut_st; [exact S5|done|in_recent|]. intros s6 S6. rewrite !fupd_ne, HVf by lia.
  rewrite set_link_meta by link_side. wp_steps.
  eapply c_set_st; [exact S6|done|by apply put_u64_block_ok|]. intros s7 S7.
  eapply HQ; [exact S7|rewrite Eh1; apply grows_alloc|by left|]. rewrite Eh1, empty_alloc, He.
  intros V' Hf Hfr. replace (e + 1 + 1) with (e + 2) by lia. rewrite fupd_eq in Hf.
  assert (HL : V' (e + 1) = put_u64_at (8 * 496) e (blit 0 (as_data_bytes_in_meta (V f)) j2))
    by (rewrite Hfr, fupd_ne, fupd_eq by lia; done).
  written written_first_l1.
  - rewrite Hfr, !fupd_ne by lia. done.
  - intros i Hi. rewrite HL, link_put by (try done; lia). rewrite decide_False by lia.
    by apply link_copied.
  - rewrite HL, link_put by (try done; lia). done.
  - rewrite Hf. by replace (sz / 2097152) with 0 by (by rewrite E).
  - intros x H1 H2 H3. rewrite Hfr, !fupd_ne by done. by apply HV1.
Qed.

Lemma next_link_block_st s hd R (Q : unit -> fs -> Prop) X :
  fs_st N s h hd V1 None R -> f ∈ take 8 R -> sz mod 2097152 = 0 -> link_post Q ->
  wp (link_single_level id sz e) s Q X.
Proof.
  intros S Hin E HQ. destruct file_in as (Hfin & Hfe & HVf). destruct space_u64 as (Heu & Heu1 & Heu2).
  pose proof Hroom as (Hb & Hfr0 & Hr).
  unfold link_single_level. change BYTES_COVERED_BY_FIRST_LEVEL_BLOCKLIST with 2097152.
  change MAX_BYTES_ONLY_DATA_BLOCKS with 2031616. rewrite shiftr_l1' by lia.
  rewrite (proj2 (Z.eqb_eq _ _) E), (proj2 (Z.eqb_neq sz 2031616)) by (intros ->; done). cbn [orb]. wp_step.
  eapply allocate_link_st; [exact S|exact Hown|split; [done|lia]|]. intros s1 h1 S1 Eh1 Hlb. rewrite He in Hlb |- *.
  assert (Hf1 : blk_in h1 f) by (by rewrite Eh1).
  wp_step. wp_step. eapply c_uninit_st; [exact S1|done|]. intros j2 s3 Hj2 S3.
  rewrite set_link by (unfold link_ok; lia). wp_steps.
  eapply c_set_st; [exact S3|done|by apply put_u64_block_ok|]. intros s4 S4. wp_steps.
  eapply c_write_st; [exact S4|done|]. intros s5 S5. wp_step.
  eapply c_get_mut_st; [exact S5|done|eapply in_take, use_in; [|exact Hin]; lia|]. intros s6 S6.
  rewrite !fupd_ne, HVf by lia. rewrite set_link_meta by link_side. wp_steps.
  eapply c_set_st; [exact S6|done|by apply put_u64_block_ok|]. intros s7 S7.
  eapply HQ; [exact S7|rewrite Eh1; apply grows_alloc|by left|]. rewrite Eh1, empty_alloc, He.
  intros V' Hf Hfr. replace (e + 1 + 1) with (e + 2) by lia. rewrite fupd_eq in Hf.
  written written_new_l1.
  - rewrite Hfr, !fupd_ne by lia. done.
  - rewrite Hfr, fupd_ne, fupd_eq, link_put by (try done; lia). done.
  - intros x H1 H2 H3. rewrite Hfr, !fupd_ne by done. by apply HV1.
Qed.

(** The last link block has a free slot. *)
Lemma old_link_block_st s hd R (Q : unit -> fs -> Prop) X :
  fs_st N s h hd V1 None R -> f ∈ take 8 R -> sz <> 2031616 -> sz mod 2097152 <> 0 -> link_post Q ->
  wp (link_single_level id sz e) s Q X.
Proof.
  intros S Hin E1 E2 HQ. destruct file_in as (Hfin & Hfe & HVf). destruct space_u64 as (Heu & Heu1 & Heu2).
  pose proof (fo_shape _ _ _ _ FO) as Sh. pose proof Hroom as (Hb & Hfr0 & Hr).
  unfold link_single_level. change BYTES_COVERED_BY_FIRST_LEVEL_BLOCKLIST with 2097152.
  change MAX_BYTES_ONLY_DATA_BLOCKS with 2031616. rewrite shiftr_l1' by lia.
  rewrite (proj2 (Z.eqb_neq _ _) E1), (proj2 (Z.eqb_neq _ _) E2). cbn [orb].
  assert (Hs2 : 2031616 < sz) by dlia.
  assert (Hil : 0 <= sz / 2097152 < n_l1 sz) by (rewrite n_l1_eq by lia; dlia).
  pose proof (fs_link _ _ _ _ Sh _ Hil) as Hl. pose proof (fs_link_meta _ _ _ _ Sh _ Hil) as Hlm.
  rewrite flink_l1 in Hl, Hlm by lia. set (lb := meta_link (V f) (sz / 2097152)) in *.
  assert (Hlin : blk_in h lb) by (unfold blk_in; lia).
  wp_step. eapply c_get_st; [exact S|done|by eapply in_take|]. intros s1 S1. rewrite HVf.
  rewrite get_link_meta by link_side. fold (meta_link (V f) (sz / 2097152)). fold lb. wp_steps.
  eapply c_read_mut_st; [exact S1|done|]. intros s2 S2. rewrite data_idx_eq, set_link by (try lia; link_side). wp_steps.
  pose proof (st_block_ok _ _ _ _ _ _ _ _ S2 Hlin) as Hlok. rewrite HV1 in Hlok |- * by lia.
  eapply c_set_st; [exact S2|done|by apply put_u64_block_ok|]. intros s3 S3. wp_steps.
  eapply c_write_st; [exact S3|done|]. intros s4 S4.
  eapply HQ; [exact S4|apply grows_refl|right; split; [done|in_recent]|]. rewrite He.
  intros V' Hf Hfr. rewrite fupd_ne, HVf in Hf by done.
  written written_link_l1.
  - rewrite Hfr, !fupd_ne by lia. done.
  - fold lb. rewrite Hfr, fupd_eq by done. done.
  - fold lb. intros x H1 H2 H3. rewrite Hfr, !fupd_ne by done. by apply HV1.
Qed.

Lemma link_single_level_st s hd R (Q : unit -> fs -> Prop) X :
  fs_st N s h hd V1 None R -> f ∈ take 8 R -> link_post Q -> wp (link_single_level id sz e) s Q X.
Proof.
  intros S Hin HQ. destruct (decide (sz = 2031616)) as [E|E].
  { eapply first_link_block_st; [exact S|by eapply in_take|exact E|exact HQ]. }
  destruct (decide (sz mod 2097152 = 0)) as [E2|E2]; [by eapply next_link_block_st|by eapply old_link_block_st].
Qed.
End Single.

Section Double.
Context (Hs : 1040187392 < sz').

(** The front of [link_two_level] that starts a new list of link blocks: both
    fresh blocks are written, and the metadata block is given the list. *)
Lemma new_list_st s hd R (Q : unit -> fs -> Prop) X :
  fs_st N s h hd V1 None R -> f ∈ take 8 R -> sz mod 1073741824 = 0 \/ sz = 1040187392 ->
  (forall s' h' hd' V2 R', fs_st N s' h' hd' V2 (Some f) R' -> grows h h' -> empty_area_start h' = e + 3 ->
     V2 f = put_u64_at (128 + 8 * (sz / 1073741824)) (e + 2) (V f) -> link (V2 (e + 1)) 0 = e ->
     (if sz =? 1040187392
      then (forall i, 0 <= i < 496 -> link (V2 (e + 2)) i = meta_link (V f) i) /\ link (V2 (e + 2)) 496 = e + 1
      else link (V2 (e + 2)) 0 = e + 1) ->
     (forall x, x <> f -> x <> e + 1 -> x <> e + 2 -> V2 x = V1 x) -> Q tt s') ->
  wp (link_two_level id sz e) s Q X.
Proof.
  intros S Hin E HQ. destruct file_in as (Hfin & Hfe & HVf). destruct space_u64 as (Heu & Heu1 & Heu2).
  pose proof Hroom as (Hb & Hfr0 & Hr).
  unfold link_two_level. change BYTES_COVERED_BY_SECOND_LEVEL_BLOCKLIST with 1073741824.
  change MAX_BYTES_SINGLE_LEVEL_LIST_BLOCKS with 1040187392. rewrite shiftr_l2' by lia.
  replace ((sz mod 1073741824 =? 0) || (sz =? 1040187392)) with true by (destruct E as [->| ->]; done). wp_step.
  eapply allocate_link_st; [exact S|exact Hown|split; [done|lia]|]. intros s1 h1 S1 Eh1 Hlb. rewrite He in Hlb |- *.
  assert (Hf1 : blk_in h1 f) by (by rewrite Eh1).
  wp_step. eapply c_uninit_st; [exact S1|done|]. intros j1 s2 Hj1 S2.
  rewrite set_link by (unfold link_ok; lia). wp_steps.
  eapply c_set_st; [exact S2|done|by apply put_u64_block_ok|]. intros s3 S3. wp_steps.
  eapply c_write_st; [exact S3|done|]. intros s4 S4. wp_step.
  eapply allocate_link_st; [exact S4|by rewrite Eh1|rewrite Eh1; by apply (room_alloc 2)|].
  intros s5 h2 S5 Eh2 Hllb. assert (Ee1 : empty_area_start h1 = e + 2) by (rewrite Eh1, empty_alloc, He; lia).
  rewrite Ee1 in Hllb |- *. assert (Hf2 : blk_in h2 f) by (by rewrite Eh2).
  assert (G : grows h h2) by (rewrite Eh2, Eh1; eapply grows_trans; apply grows_alloc).
  assert (Ee2 : empty_area_start h2 = e + 3) by (rewrite Eh2, empty_alloc, Ee1; lia).
  wp_step. destruct (Z.eqb_spec sz 1040187392) as [Es|Es].
  - wp_step. eapply c_get_st; [exact S5|done|eapply in_take, use_in; [|exact Hin]; lia|]. intros s6 S6. wp_step.
    eapply c_uninit_st; [exact S6|done|]. intros j2 s7 Hj2 S7. rewrite !fupd_ne, HVf by lia.
    change MAX_LINKS_IN_META_BLOCK with 496. rewrite set_link by (unfold link_ok; lia). wp_steps.
    assert (Hcp : block_ok (blit 0 (as_data_bytes_in_meta (V f)) j2)) by (unfold block_ok; by rewrite length_blit).
    eapply c_set_st; [exact S7|done|by apply put_u64_block_ok|]. intros s8 S8. wp_steps.
    eapply c_write_st; [exact S8|done|]. intros s9 S9. wp_step.
    eapply c_get_mut_st; [exact S9|done|in_recent|]. intros s10 S10. rewrite !fupd_ne, HVf by lia.
    rewrite set_link_meta by link_side. wp_steps.
    eapply c_set_st; [exact S10|done|by apply put_u64_block_ok|]. intros s11 S11.
    eapply HQ; [exact S11|done|done|by rewrite fupd_eq|..].
    + rewrite !fupd_ne, fupd_eq, link_put by (try done; lia). done.
    + rewrite !(fupd_ne _ f _ (e + 2)), !fupd_eq by lia. split.
      * intros i Hi. rewrite link_put by (try done; lia). rewrite decide_False by lia. by apply link_copied.
      * rewrite link_put by (try done; lia). done.
    + intros x H1 H2 H3. by rewrite !fupd_ne.
  - wp_step. eapply c_uninit_st; [exact S5|done|]. intros j2 s7 Hj2 S7.
    rewrite set_link by (unfold link_ok; lia). wp_steps.
    eapply c_set_st; [exact S7|done|by apply put_u64_block_ok|]. intros s8 S8. wp_steps.
    eapply c_write_st; [exact S8|done|]. intros s9 S9. wp_step.
    eapply c_get_mut_st; [exact S9|done|eapply in_take, use_in; [|eapply use_in; [|exact Hin]]; lia|].
    intros s10 S10. rewrite !fupd_ne, HVf by lia. rewrite set_link_meta by link_side. wp_steps.
    eapply c_set_st; [exact S10|done|by apply put_u64_block_ok|]. intros s11 S11.
    eapply HQ; [exact S11|done|done|by rewrite fupd_eq|..].
    + rewrite !fupd_ne, fupd_eq, link_put by (try done; lia). done.
    + rewrite !(fupd_ne _ f _ (e + 2)), !fupd_eq, link_put by (try done; lia). done.
    + intros x H1 H2 H3. by rewrite !fupd_ne.
Qed.

(** The last list has a free slot for a new link block. *)
Lemma next_in_list_st s hd R (Q : unit -> fs -> Prop) X :
  fs_st N s h hd V1 None R -> f ∈ take 8 R -> sz mod 1073741824 <> 0 -> sz <> 1040187392 ->
  sz mod 2097152 = 0 -> link_post Q -> wp (link_two_level id sz e) s Q X.
Proof.
  intros S Hin E1 E2 E3 HQ. destruct file_in as (Hfin & Hfe & HVf). destruct space_u64 as (Heu & Heu1 & Heu2).
  pose proof (fo_shape _ _ _ _ FO) as Sh. pose proof Hroom as (Hb & Hfr0 & Hr).
  unfold link_two_level. change BYTES_COVERED_BY_SECOND_LEVEL_BLOCKLIST with 1073741824.
  change MAX_BYTES_SINGLE_LEVEL_LIST_BLOCKS with 1040187392. rewrite shiftr_l2' by lia.
  change BYTES_COVERED_BY_FIRST_LEVEL_BLOCKLIST with 2097152.
  rewrite (proj2 (Z.eqb_neq _ _) E1), (proj2 (Z.eqb_neq _ _) E2), (proj2 (Z.eqb_eq _ _) E3). cbn [orb].
  assert (Hs2 : 1040187392 < sz) by dlia.
  assert (Hil : 0 <= sz / 1073741824 < n_l2 sz) by (rewrite n_l2_eq by lia; dlia).
  pose proof (fs_list _ _ _ _ Sh _ Hil) as Hl. pose proof (fs_list_meta _ _ _ _ Sh _ Hil) as Hlm.
  set (ll := meta_link (V f) (sz / 1073741824)) in *. assert (Hlin : blk_in h ll) by (unfold blk_in; lia).
  wp_step. eapply c_get_st; [exact S|done|by eapply in_take|]. intros s1 S1. rewrite HVf.
  rewrite get_link_meta by link_side. fold (meta_link (V f) (sz / 1073741824)). fold ll. wp_steps.
  eapply c_read_st; [exact S1|done|]. intros s2 S2. wp_step.
  pose proof (st_block_ok _ _ _ _ _ _ _ _ S2 Hlin) as Hlok. rewrite HV1 in Hlok by lia.
  eapply allocate_link_st; [exact S2|exact Hown|split; [done|lia]|]. intros s3 h1 S3 Eh1 Hlb. rewrite He in Hlb |- *.
  assert (Hl1 : blk_in h1 ll) by (by rewrite Eh1).
  wp_step. eapply c_uninit_st; [exact S3|done|]. intros j2 s4 Hj2 S4.
  rewrite set_link by (unfold link_ok; lia). wp_steps.
  eapply c_set_st; [exact S4|done|by apply put_u64_block_ok|]. intros s5 S5. wp_steps.
  eapply c_write_st; [exact S5|done|]. intros s6 S6. wp_step.
  eapply c_get_mut_st; [exact S6|done|in_recent|]. intros s7 S7. rewrite !fupd_ne, HV1 by lia.
  rewrite link_idx_eq', set_link by (try lia; link_side). wp_steps.
  eapply c_set_st; [exact S7|done|by apply put_u64_block_ok|]. intros s8 S8. wp_steps.
  eapply c_write_st; [exact S8|done|]. intros s9 S9.
  eapply HQ; [exact S9|rewrite Eh1; apply grows_alloc|right; split; [done|in_recent]|]. rewrite Eh1, empty_alloc, He.
  intros V' Hf Hfr. replace (e + 1 + 1) with (e + 2) by lia. rewrite !fupd_ne, HVf in Hf by lia.
  written written_new_link_l2.
  - rewrite Hfr, !fupd_ne by lia. done.
  - rewrite Hfr, fupd_ne, fupd_eq, link_put by (try done; lia). done.
  - fold ll. rewrite Hfr, fupd_eq by done. done.
  - fold ll. intros x H1 H2 H3 H4. rewrite Hfr, !fupd_ne by done. by apply HV1.
Qed.

(** The last link block of the last list has a free slot. *)
Lemma old_in_list_st s hd R (Q : unit -> fs -> Prop) X :
  fs_st N s h hd V1 None R -> f ∈ take 8 R -> sz mod 2097152 <> 0 -> sz <> 1040187392 ->
  link_post Q -> wp (link_two_level id sz e) s Q X.
Proof.
  intros S Hin E1 E2 HQ. destruct file_in as (Hfin & Hfe & HVf). destruct space_u64 as (Heu & Heu1 & Heu2).
  pose proof (fo_shape _ _ _ _ FO) as Sh. pose proof Hroom as (Hb & Hfr0 & Hr).
  unfold link_two_level. change BYTES_COVERED_BY_SECOND_LEVEL_BLOCKLIST with 1073741824.
  change MAX_BYTES_SINGLE_LEVEL_LIST_BLOCKS with 1040187392. rewrite shiftr_l2' by lia.
  change BYTES_COVERED_BY_FIRST_LEVEL_BLOCKLIST with 2097152.
  rewrite (proj2 (Z.eqb_neq (sz mod 1073741824) 0)) by dlia.
  rewrite (proj2 (Z.eqb_neq _ _) E2), (proj2 (Z.eqb_neq _ _) E1). cbn [orb].
  assert (Hs2 : 1040187392 < sz) by dlia.
  assert (Hil : 0 <= sz / 1073741824 < n_l2 sz) by (rewrite n_l2_eq by lia; dlia).
  assert (Hik : 0 <= sz / 2097152 < n_l1 sz) by (rewrite n_l1_eq by lia; dlia).
  pose proof (fs_list _ _ _ _ Sh _ Hil) as Hll. pose proof (fs_list_meta _ _ _ _ Sh _ Hil) as Hllm.
  pose proof (fs_link _ _ _ _ Sh _ Hik) as Hl. pose proof (fs_link_meta _ _ _ _ Sh _ Hik) as Hlm.
  set (ll := meta_link (V f) (sz / 1073741824)) in *. assert (Hllin : blk_in h ll) by (unfold blk_in; lia).
  assert (El : file_link V f sz (sz / 2097152) = link (V ll) (sz / 2097152 mod 512)).
  { rewrite flink_l2, Z.div_div by lia. done. }
  set (lb := file_link V f sz (sz / 2097152)) in *. assert (Hlin : blk_in h lb) by (unfold blk_in; lia).
  wp_step. eapply c_get_st; [exact S|done|by eapply in_take|]. intros s1 S1. rewrite HVf.
  rewrite get_link_meta by link_side. fold (meta_link (V f) (sz / 1073741824)). fold ll. wp_steps.
  eapply c_read_st; [exact S1|done|]. intros s2 S2. wp_step.
  eapply c_get_st; [exact S2|done|in_recent|]. intros s3 S3. rewrite HV1 by lia.
  rewrite link_idx_eq', get_link by (try lia; link_side). fold (link (V ll) (sz / 2097152 mod 512)).
  rewrite <- El. clear El. wp_steps. eapply c_read_mut_st; [exact S3|done|]. intros s4 S4.
  rewrite data_idx_eq, set_link by (try lia; link_side). wp_steps.
  pose proof (st_block_ok _ _ _ _ _ _ _ _ S4 Hlin) as Hlok. rewrite HV1 in Hlok |- * by lia.
  eapply c_set_st; [exact S4|done|by apply put_u64_block_ok|]. intros s5 S5. wp_steps.
  eapply c_write_st; [exact S5|done|]. intros s6 S6.
  eapply HQ; [exact S6|apply grows_refl|right; split; [done|in_recent]|]. rewrite He.
  intros V' Hf Hfr. rewrite fupd_ne, HVf in Hf by done.
  written written_link_l2.
  - rewrite Hfr, !fupd_ne by lia. done.
  - fold lb. rewrite Hfr, fupd_eq by done. done.
  - fold lb. intros x H1 H2 H3. rewrite Hfr, !fupd_ne by done. by apply HV1.
Qed.

Lemma link_two_level_st s hd R (Q : unit -> fs -> Prop) X :
  fs_st N s h hd V1 None R -> f ∈ take 8 R -> link_post Q -> wp (link_two_level id sz e) s Q X.
Proof.
  intros S Hin HQ. destruct file_in as (Hfin & Hfe & HVf).
  destruct (decide (sz = 1040187392)) as [E|E]; [|destruct (decide (sz mod 1073741824 = 0)) as [E2|E2]].
  1,2: eapply new_list_st; [exact S|exact Hin|tauto|]; intros s' h' hd' V2 R' S' G Ee Ef El Ell Hfr;
    (eapply HQ; [exact S'|exact G|by left|]); rewrite Ee; intros V' Hf Hfr'; rewrite Ef in Hf.
  - rewrite (proj2 (Z.eqb_eq _ _) E) in Ell. destruct Ell as [Ell1 Ell2].
    written written_first_list.
    + rewrite Hfr', Hfr by lia. done.
    + rewrite Hfr' by lia. done.
    + intros i Hi. rewrite Hfr' by lia. by apply Ell1.
    + rewrite Hfr' by lia. done.
    + rewrite Hf. by replace (sz / 1073741824) with 0 by (by rewrite E).
    + intros x H1 H2 H3 H4. rewrite Hfr', Hfr by done. by apply HV1.
  - rewrite (proj2 (Z.eqb_neq _ _) E) in Ell. assert (1040187392 < sz) by dlia.
    written written_new_list.
    + rewrite Hfr', Hfr by lia. done.
    + rewrite Hfr' by lia. done.
    + rewrite Hfr' by lia. done.
    + intros x H1 H2 H3 H4. rewrite Hfr', Hfr by done. by apply HV1.
  - destruct (decide (sz mod 2097152 = 0)); [by eapply next_in_list_st|by eapply old_in_list_st].
Qed.
End Double.
End NewBlock.

(** ** The branches of [write] *)

Section Write.
Context {N : Z} {V : Z -> Block} {h : SuperblockHeader} {sz off : Z} {buf : bytes} {id : EntryId}.
Abbreviation f := (block_no id).
Abbreviation e := (empty_area_start h).
Context (FO : file_ok V e id sz) (Hno : no_txn h) (Hseal : sealed h) (Hroom : room 3 h) (Hbuf : Z.of_nat (length buf) < 2 ^ 32).

Lemma settled_same : settled h h (sb_generation h).
Proof. split; try done; lia. Qed.

Lemma file_meta_in : blk_in h f /\ 0 < f < e.
Proof.
  pose proof (fs_meta _ _ _ _ (fo_shape _ _ _ _ FO)). destruct Hroom as (_ & _ & ?). unfold blk_in. lia.
Qed.

(** [n] bytes were written and the size is [sz']. *)
Definition write_post (n sz' : Z) (Q : Z -> fs -> Prop) : Prop :=
  forall s' h' V' R', fs_st N s' h' h' V' None R' -> settled h h' (sb_generation h) ->
    file_written V V' e (empty_area_start h') f sz sz' off n buf -> Q n s'.

(** The end of an append: set the size and commit. *)
Lemma finish_append_st s h1 h2 hd V2 dt R sz' n (Q : Z -> fs -> Prop) X :
  fs_st N s h2 hd V2 dt R -> settled h (sb_set_crc32 (clear_txn h2)) (sb_generation h) -> grows h1 h2 ->
  sb_num_blocks h1 = sb_num_blocks h -> dt = Some f \/ dt = None /\ f ∈ R ->
  linked V V2 e (empty_area_start h2) f sz sz' off n buf -> write_post n sz' Q ->
  wp (let* mblk := c_get_mut f in c_set (resize sz' mblk);;; on_err (c_write f) make_error;;; commit_txn;;; ret n) s Q X.
Proof.
  intros S' Hse G Hnum Hdt HL HQ. destruct file_meta_in as [[Hf1 Hf2] _].
  assert (Hf' : blk_in h2 f) by (unfold blk_in; rewrite (gr_num _ _ G), Hnum; done).
  pose proof (st_block_ok _ _ _ _ _ _ _ _ S' Hf') as Hfok'.
  assert (Fin : forall s1 R1, fs_st N s1 h2 hd V2 (Some f) R1 ->
    wp (c_set (resize sz' (V2 f));;; on_err (c_write f) make_error;;; commit_txn;;; ret n) s1 Q X).
  { intros s1 R1 S1. wp_step. eapply c_set_st; [exact S1|done|by apply resize_block_ok|]. intros s6 S6. wp_steps.
    eapply c_write_st; [exact S6|done|]. intros s7 S7. wp_step.
    eapply commit_txn_st; [exact S7|]. intros s8 S8. wp_steps. eapply HQ; [exact S8|exact Hse|].
    apply HL; [by rewrite fupd_eq|]. intros x Hx. by rewrite fupd_ne. }
  wp_step. destruct Hdt as [-> |[-> Hin']].
  - eapply c_get_mut_again_st; [exact S'|done|]. intros s6 S6. by eapply Fin.
  - eapply c_get_mut_st; [exact S'|done|done|]. intros s6 S6. by eapply Fin.
Qed.

(** The header once the transaction is open and the data block is allocated. *)
Definition appending : SuperblockHeader :=
  sb_set_crc32 (alloc_hdr Data (sb_set_crc32 (upd_txn f TXN_TYPE_ADD_BYTES h))).

Lemma appending_settled h2 : grows appending h2 -> settled h (sb_set_crc32 (clear_txn h2)) (sb_generation h).
Proof. intros G. eapply (settled_commit h appending); [done..|simpl; lia|simpl; lia|exact G]. Qed.

Lemma open_append_st s R (Q : Z -> fs -> Prop) X (k : Z -> eff fs FsError Z) :
  fs_st N s h h V None R ->
  (forall s', fs_st N s' appending appending V None R -> room 2 appending -> txn_blocks_owner appending <> 0 ->
     blk_in appending e -> wp (k e) s' Q X) ->
  wp (start_txn TXN_TYPE_ADD_BYTES id;;; let* b := allocate_txn_block Data in k b) s Q X.
Proof.
  intros S HQ. destruct file_meta_in as [Hfin Hfe]. wp_step.
  eapply start_txn_st; [exact S|exact Hno|apply FO|done|]. intros s1 S1.
  set (h1 := sb_set_crc32 (upd_txn f TXN_TYPE_ADD_BYTES h)) in *.
  assert (Hown : txn_blocks_owner h1 <> 0) by (simpl; lia). assert (R1 : room 3 h1) by exact Hroom.
  wp_step. eapply allocate_st; [exact S1|exact Hown|by apply (room_can_alloc 3)|]. intros s2 S2.
  apply HQ; [exact S2|by apply (room_alloc 3)|done|].
  destruct Hroom as (_ & _ & ?). unfold blk_in. simpl. lia.
Qed.

Lemma append_new_block_st s R sz' (Q : Z -> fs -> Prop) X :
  fs_st N s h h V None R -> f ∈ take 4 R -> 3968 < sz -> sz mod 4096 = 0 -> off = sz ->
  sz < sz' <= sz + 4096 -> sz' - sz <= Z.of_nat (length buf) -> sz' <= 532575944704 ->
  write_post (sz' - sz) sz' Q -> wp (append_new_block id sz sz' buf) s Q X.
Proof.
  intros S Hin Hbig Hal Hoff Hs' Hlen Hmax HQ. destruct file_meta_in as [Hfin Hfe].
  pose proof (st_block_ok _ _ _ _ _ _ _ _ S Hfin) as Hfok.
  unfold append_new_block. set (n := sz' - sz) in *.
  eapply open_append_st; [exact S|]. intros s2 S2 R2 Hown Hein.
  wp_step. eapply c_uninit_st; [exact S2|done|]. intros junk s3 Hj S3. wp_step.
  eapply c_set_st; [exact S3|done|unfold block_ok; by rewrite length_blit|]. intros s4 S4. wp_steps.
  eapply c_write_st; [exact S4|done|]. intros s5 S5.
  set (V1 := fupd (fupd V e junk) e _) in S5.
  assert (HV1 : forall x, x <> e -> V1 x = V x) by (intros; unfold V1; by rewrite !fupd_ne).
  assert (HVe : V1 e = blit 0 (take (Z.to_nat n) buf) junk) by (unfold V1; by rewrite fupd_eq).
  pose proof (st_ok _ _ _ _ _ _ _ S5) as Hok2.
  assert (Hin5 : f ∈ take 8 (use e R)) by (apply (take_mono 5); [lia|]; apply use_in; [lia|done]).
  assert (Tail : link_post (N := N) (V := V) (e := e) (sz := sz) (sz' := sz') (n := n) (buf := buf) (id := id)
    (h := appending) (fun _ s => wp (let* mblk := c_get_mut f in c_set (resize sz' mblk);;;
       on_err (c_write f) make_error;;; commit_txn;;; ret n) s Q X)).
  { intros s' h' hd' V2 dt R' S' G Hdt HL. eapply (finish_append_st _ appending); [exact S'|by apply appending_settled
      |exact G|done|exact Hdt|by rewrite Hoff|exact HQ]. }
  change MAX_BYTES_ONLY_DATA_BLOCKS with 2031616. change MAX_BYTES_SINGLE_LEVEL_LIST_BLOCKS with 1040187392.
  wp_step.
  destruct (Z.leb_spec sz' 2031616) as [L0|L0]; [|destruct (Z.leb_spec sz' 1040187392) as [L1|L1]].
  - eapply (link_meta_st (h := appending) FO); [..|exact S5|exact Hin5|exact L0|exact Tail]; try done; lia.
  - eapply (link_single_level_st (h := appending) FO); [..|exact S5|exact Hin5|exact Tail]; try done; lia.
  - eapply (link_two_level_st (h := appending) FO); [..|exact S5|exact Hin5|exact Tail]; try done; lia.
Qed.

Lemma append_first_block_st s R sz' (Q : Z -> fs -> Prop) X :
  fs_st N s h h V None R -> f ∈ take 4 R -> 0 <= sz <= 3968 -> off = sz ->
  3968 < sz' <= 4096 -> sz' - sz <= Z.of_nat (length buf) ->
  write_post (sz' - sz) sz' Q -> wp (append_first_block id (V f) sz sz' buf) s Q X.
Proof.
  intros S Hin Hsz Hoff Hs' Hlen HQ. destruct file_meta_in as [Hfin Hfe].
  pose proof (st_block_ok _ _ _ _ _ _ _ _ S Hfin) as Hfok.
  unfold append_first_block. change MAX_BYTES_IN_META_BLOCK with 3968. set (n := sz' - sz) in *.
  wp_step. apply wp_assert; [apply Z.ltb_lt; lia|].
  eapply open_append_st; [exact S|]. intros s2 S2 R2 Hown Hein.
  assert (Hf2 : blk_in appending f) by exact Hfin.
  wp_step. eapply c_uninit_st; [exact S2|done|]. intros junk s3 Hj S3. wp_step.
  eapply c_set_st; [exact S3|done|unfold block_ok; by rewrite !length_blit|]. intros s4 S4. wp_steps.
  eapply c_write_st; [exact S4|done|]. intros s5 S5. wp_step.
  eapply c_get_mut_st; [exact S5|done|eapply in_take, use_in; [|exact Hin]; lia|]. intros s6 S6.
  rewrite !fupd_ne by lia. rewrite set_link_meta by link_side. wp_steps.
  eapply c_set_st; [exact S6|done|by apply resize_block_ok, put_u64_block_ok|]. intros s7 S7. wp_steps.
  eapply c_write_st; [exact S7|done|]. intros s8 S8. wp_step.
  eapply commit_txn_st; [exact S8|]. intros s9 S9. wp_steps.
  eapply HQ; [exact S9|apply appending_settled, grows_refl|].
  change (empty_area_start (sb_set_crc32 (clear_txn appending))) with (e + 1).
  pose proof (st_ok _ _ _ _ _ _ _ S) as Hok. rewrite sb_ok_spec in Hok.
  eapply written_first_block with (data := junk); try done; try lia.
  - apply FO.
  - apply Hok.
  - by rewrite fupd_ne, fupd_eq by lia.
  - by rewrite fupd_eq.
  - intros x H1 H2. by rewrite !fupd_ne.
Qed.

Lemma append_in_last_block_st s R sz' (Q : Z -> fs -> Prop) X :
  fs_st N s h h V None R -> f ∈ R -> 3968 < sz -> off = sz -> sz mod 4096 <> 0 ->
  sz < sz' <= 4096 * (sz / 4096 + 1) -> sz' - sz <= Z.of_nat (length buf) -> sz' <= 532575944704 ->
  write_post (sz' - sz) sz' Q -> wp (append_in_last_block id off sz sz' buf) s Q X.
Proof.
  intros S Hin Hbig Hoff Hal Hs' Hlen Hmax HQ. destruct file_meta_in as [Hfin Hfe].
  pose proof (st_block_ok _ _ _ _ _ _ _ _ S Hfin) as Hfok. pose proof (fo_shape _ _ _ _ FO) as Sh.
  pose proof Hroom as ((_ & Hb) & _ & Hr).
  assert (Hnb : n_blocks sz = sz / 4096 + 1) by (rewrite n_blocks_eq by lia; dlia).
  assert (Hnb' : n_blocks sz' = sz / 4096 + 1) by (rewrite n_blocks_eq by lia; dlia).
  unfold append_in_last_block. set (n := sz' - sz) in *. wp_step.
  eapply find_data_block_st; [exact S|exact Hin|exact FO|lia|lia|rewrite Hnb; dlia|].
  intros s1 R1 S1 Hin1. replace ((sz - 1) / 4096) with (sz / 4096) by dlia.
  assert (Hk : 0 <= sz / 4096 < n_blocks sz) by dlia.
  pose proof (fs_data _ _ _ _ Sh _ Hk) as Hd. pose proof (fs_data_meta _ _ _ _ Sh _ Hk) as Hdm.
  set (b := file_blk V f sz (sz / 4096)) in *. assert (Hbin : blk_in h b) by (unfold blk_in; lia).
  pose proof (st_block_ok _ _ _ _ _ _ _ _ S Hbin) as Hbok.
  wp_step. eapply c_read_mut_st; [exact S1|done|]. intros s2 S2. wp_step.
  eapply c_set_st; [exact S2|done|unfold block_ok; by rewrite length_blit|]. intros s3 S3. wp_step.
  eapply c_write_st; [exact S3|done|]. intros s4 S4. wp_step.
  eapply c_get_mut_st; [exact S4|done|eapply in_take, use_in; [|exact Hin1]; lia|]. intros s5 S5.
  rewrite !fupd_ne by done. wp_step.
  eapply c_set_st; [exact S5|done|by apply resize_block_ok|]. intros s6 S6. wp_step.
  eapply c_write_st; [exact S6|done|]. intros s7 S7. wp_steps.
  eapply HQ; [exact S7|apply settled_same|].
  eapply written_in_block with (b := b); try done; try lia.
  - by rewrite Hoff.
  - rewrite Hoff. dlia.
  - rewrite Hoff. dlia.
  - rewrite fupd_ne, fupd_eq by done. by rewrite in_block_eq.
  - right. rewrite fupd_eq. split; [done|lia].
  - intros x H1 H2. by rewrite !fupd_ne.
Qed.

Lemma update_file_st s R (Q : Z -> fs -> Prop) X :
  fs_st N s h h V None R -> f ∈ R -> 3968 < sz -> 0 <= off < sz ->
  write_post (Z.min (off + Z.of_nat (length buf)) (4096 * (off / 4096 + 1)) - off) sz Q ->
  wp (update_file id off buf) s Q X.
Proof.
  intros S Hin Hbig Hoff HQ. destruct file_meta_in as [Hfin Hfe].
  pose proof (st_block_ok _ _ _ _ _ _ _ _ S Hfin) as Hfok. pose proof (fo_shape _ _ _ _ FO) as Sh.
  pose proof Hroom as ((_ & Hb) & _ & Hr). pose proof (fo_max _ _ _ _ FO) as Hmax.
  change MAX_FILE_SIZE with 532575944704 in Hmax.
  assert (Hk : 0 <= off / 4096 < n_blocks sz) by (rewrite n_blocks_eq by lia; dlia).
  unfold update_file. wp_step.
  eapply find_data_block_st; [exact S|exact Hin|exact FO|lia|lia|dlia|]. intros s1 R1 S1 Hin1.
  pose proof (fs_data _ _ _ _ Sh _ Hk) as Hd. pose proof (fs_data_meta _ _ _ _ Sh _ Hk) as Hdm.
  set (b := file_blk V f sz (off / 4096)) in *. assert (Hbin : blk_in h b) by (unfold blk_in; lia).
  pose proof (st_block_ok _ _ _ _ _ _ _ _ S Hbin) as Hbok.
  rewrite block_end_eq by lia. unfold len. rewrite u64_id by (unfold is_u64; lia).
  set (n := Z.min (off + Z.of_nat (length buf)) (4096 * (off / 4096 + 1)) - off) in *.
  wp_step. eapply c_read_mut_st; [exact S1|done|]. intros s2 S2. wp_step.
  eapply c_set_st; [exact S2|done|unfold block_ok; by rewrite length_blit|]. intros s3 S3. wp_step.
  eapply c_write_st; [exact S3|done|]. intros s4 S4. wp_steps.
  eapply HQ; [exact S4|apply settled_same|].
  eapply written_in_block with (b := b); try done; try dlia.
  - rewrite fupd_eq. by rewrite in_block_eq.
  - left. by rewrite fupd_ne.
  - intros x H1 H2. by rewrite fupd_ne.
Qed.

Lemma write_in_meta_st s R new_end new_size (Q : Z -> fs -> Prop) X :
  fs_st N s h h V None R -> f ∈ R -> 0 <= off <= sz -> off <= new_end <= off + Z.of_nat (length buf) ->
  new_size = Z.max sz new_end -> new_size <= 3968 -> write_post (new_end - off) new_size Q ->
  wp (write_in_meta id off new_end new_size buf) s Q X.
Proof.
  intros S Hin Hoff He Hs Hle HQ. destruct file_meta_in as [Hfin Hfe].
  pose proof (st_block_ok _ _ _ _ _ _ _ _ S Hfin) as Hfok. unfold write_in_meta. wp_step.
  eapply c_get_mut_st; [exact S|done|done|]. intros s1 S1. wp_step.
  eapply c_set_st; [exact S1|done|unfold block_ok; rewrite length_blit; by apply resize_block_ok|].
  intros s2 S2. wp_steps. eapply c_write_st; [exact S2|done|]. intros s3 S3. wp_steps.
  eapply HQ; [exact S3|apply settled_same|].
  eapply written_in_meta; try done; try lia.
  - apply FO.
  - by rewrite fupd_eq.
  - intros x Hx. by rewrite fupd_ne.
Qed.

(** The size after [write], and the count it returns. *)
Definition write_size (sz off len : Z) : Z :=
  if off <? sz then sz else if sz + len <=? 3968 then sz + len else Z.min (sz + len) (4096 * (sz / 4096 + 1)).

Definition write_len (sz off len : Z) : Z :=
  if off <? sz then (if sz <=? 3968 then Z.min sz (off + len) else Z.min (off + len) (4096 * (off / 4096 + 1))) - off
  else write_size sz off len - sz.

Lemma append_st s R (Q : Z -> fs -> Prop) X :
  let len := Z.of_nat (length buf) in
  fs_st N s h h V None R -> f ∈ take 2 R -> off = sz -> 0 < len -> 3968 < sz + len ->
  Z.min (sz + len) (4096 * (sz / 4096 + 1)) <= 532575944704 ->
  write_post (Z.min (sz + len) (4096 * (sz / 4096 + 1)) - sz) (Z.min (sz + len) (4096 * (sz / 4096 + 1))) Q ->
  wp (append id off buf) s Q X.
Proof.
  intros len S Hin Hoff Hlen Hbig Hmax HQ. destruct file_meta_in as [Hfin Hfe].
  pose proof (fo_max _ _ _ _ FO) as Hsz. change MAX_FILE_SIZE with 532575944704 in Hsz.
  unfold append. wp_step. eapply wp_check_error; [exact S|]. wp_step.
  eapply c_get_st; [exact S|done|by eapply in_take|]. intros s1 S1. rewrite (fo_size _ _ _ _ FO).
  wp_step. apply wp_assert; [by apply Z.eqb_eq|].
  rewrite block_end_eq by lia. unfold SrfsFs.len. fold len. rewrite u64_id by (unfold is_u64; lia).
  replace (if sz + len <=? 4096 * (sz / 4096 + 1) then sz + len else 4096 * (sz / 4096 + 1))
    with (Z.min (sz + len) (4096 * (sz / 4096 + 1))) by (destruct (Z.leb_spec (sz + len) (4096 * (sz / 4096 + 1))); lia).
  set (sz' := Z.min (sz + len) (4096 * (sz / 4096 + 1))) in *.
  assert (Hs' : sz < sz' <= 4096 * (sz / 4096 + 1) /\ sz' - sz <= len) by (subst sz'; dlia).
  assert (Hin1 : f ∈ take 4 (use f R)) by (simpl; apply elem_of_cons; by left).
  change MAX_BYTES_IN_META_BLOCK with 3968.
  destruct (Z.leb_spec sz 3968) as [Hm|Hm].
  { eapply append_first_block_st; [exact S1|exact Hin1|lia|exact Hoff|dlia|lia|exact HQ]. }
  change BLOCK_SIZE with (2 ^ 12). rewrite align_up_spec by (try lia; unfold is_u64; lia).
  change (2 ^ 12) with 4096. destruct (Z.leb_spec sz' (4096 * ((sz + 4096 - 1) / 4096))) as [Hl|Hl].
  - eapply append_in_last_block_st; [exact S1|by eapply in_take|lia|exact Hoff|dlia|dlia|lia|lia|exact HQ].
  - eapply append_new_block_st; [exact S1|exact Hin1|lia|dlia|exact Hoff|dlia|lia|lia|exact HQ].
Qed.

(** [write], every branch.  The last premise excludes an empty write at the end
    of a file that fills its last block, which looks up a link that does not
    exist. *)
Lemma write_st s R (Q : Z -> fs -> Prop) (X : FsError -> fs -> Prop) :
  let len := Z.of_nat (length buf) in
  fs_st N s h h V None R -> 0 <= off -> write_size sz off len <= MAX_FILE_SIZE ->
  off < sz \/ 0 < len \/ sz <= 3968 ->
  (off <= sz -> write_post (write_len sz off len) (write_size sz off len) Q) ->
  (forall s' R', fs_st N s' h h V None R' -> sz < off -> X InvalidArgument s') ->
  wp (write id off buf) s Q X.
Proof.
  intros len S Hoff Hmax Hne HQ HX. destruct file_meta_in as [Hfin Hfe].
  pose proof (fo_max _ _ _ _ FO) as Hsz. change MAX_FILE_SIZE with 532575944704 in Hsz, Hmax.
  pose proof (fo_valid _ _ _ _ FO) as Hv. pose proof Hv as [_ Hk]%validate_file_inv.
  unfold write. wp_step. eapply wp_check_error; [exact S|]. rewrite decide_False by (rewrite Hk; auto).
  wp_step. eapply c_read_st; [exact S|done|]. intros s1 S1. rewrite Hv. wp_steps. rewrite (fo_size _ _ _ _ FO).
  destruct (Z.ltb_spec sz off) as [Hgt|Hle]; [wp_steps; by eapply HX|]. specialize (HQ Hle).
  unfold SrfsFs.len. fold len. rewrite !u64_id by (unfold is_u64; lia). change MAX_BYTES_IN_META_BLOCK with 3968.
  assert (Hin : f ∈ take 2 (use f R)) by (simpl; apply elem_of_cons; by left).
  unfold write_len, write_size in *. destruct (Z.eqb_spec off sz) as [E|E].
  - rewrite (proj2 (Z.ltb_ge off sz)) in HQ, Hmax by lia. rewrite Z.max_r by lia.
    replace (off + len) with (sz + len) by lia.
    destruct (Z.leb_spec (sz + len) 3968) as [Hs|Hs].
    + eapply write_in_meta_st; [exact S1|by eapply in_take|lia|lia|lia|lia|]. by rewrite E.
    + rewrite (proj2 (Z.eqb_neq _ _)) by lia. eapply append_st; [exact S1|exact Hin|exact E|lia|lia|lia|exact HQ].
  - rewrite (proj2 (Z.ltb_lt off sz)) in HQ, Hmax by lia. rewrite Z.max_l by lia.
    destruct (Z.leb_spec sz 3968) as [Hs|Hs].
    + eapply write_in_meta_st; [exact S1|by eapply in_take|lia|lia|lia|lia|exact HQ].
    + rewrite Z.eqb_refl. eapply update_file_st; [exact S1|by eapply in_take|lia|lia|exact HQ].
Qed.
End Write.
End Append.
