(* ===== verification/SrfsTree.v ===== *)
(** * The filesystem as a tree of nodes

    The abstract state is a finite map from entry ids to nodes: a file is its
    bytes, a directory the sequence of its named entries.  [disk_rep] relates it
    to the blocks of the device, whatever shape each node has there, and says
    that no two nodes share a block; [fs_rep] adds the mounted filesystem.  Each
    operation of [SyncFileSystem] is shown to act on the tree alone. *)

From stdpp Require Import base numbers list gmap.
From coqutil Require Import Byte.
From S2P Require Import RustPrelude Crc32 SrfsLayout BlockDevice BlockCache SrfsFs SrfsState SrfsDir.
From S2P Require Import SrfsDirAdd SrfsMount SrfsNode SrfsDirRemove SrfsRemove SrfsFile SrfsFileWrite.
From S2P Require Import SrfsFileAppend.

Open Scope Z_scope.

#[export] Instance EntryId_countable : Countable EntryId :=
  inj_countable' (fun i => (block_no i, generation i)) (fun p => mkEntryId p.1 p.2) ltac:(by intros []).

(** ** The abstract state *)

Inductive node : Type :=
| NFile (data : bytes)
| NDir (entries : list (bytes * EntryId)).

Abbreviation tree := (gmap EntryId node).

Definition zlen {A} (l : list A) : Z := Z.of_nat (length l).

(** The tree conditions: a root directory; names are legal and distinct within a
    directory; every entry leads to a node, and no two entries to the same. *)
Record tree_wf (T : tree) : Prop := {
  tw_root : exists es, T !! ROOT_DIR_ID = Some (NDir es);
  tw_child : forall d es x, T !! d = Some (NDir es) -> x ∈ es -> is_Some (T !! x.2) /\ x.2 <> ROOT_DIR_ID;
  tw_name : forall d es x, T !! d = Some (NDir es) -> x ∈ es ->
    validate_filename x.1 = Ok tt /\ utf8_valid x.1 = true;
  tw_names : forall d es, T !! d = Some (NDir es) -> NoDup es.*1;
  tw_once : forall d1 d2 es1 es2 i1 i2 x1 x2, T !! d1 = Some (NDir es1) -> T !! d2 = Some (NDir es2) ->
    es1 !! i1 = Some x1 -> es2 !! i2 = Some x2 -> x1.2 = x2.2 -> d1 = d2 /\ i1 = i2;
}.

(** ** On the device *)

Definition node_block (V : Z -> Block) (id : EntryId) (n : node) (b : Z) : Prop :=
  match n with
  | NFile data => file_block V (block_no id) (zlen data) b
  | NDir es => dir_block V (block_no id) (zlen es) b
  end.

Section Tree.
Context {D : Type} {Dev : SyncBlockDevice D} {DL : SyncBlockDeviceLaws D}.
Context {Crc : Crc32} {CL : Crc32Laws Crc} {Clk : Clock} {Unin : Uninit}.
Abbreviation fs := (SyncFileSystem D).

Definition node_rep (V : Z -> Block) (e : Z) (id : EntryId) (n : node) : Prop :=
  match n with
  | NFile data => file_ok V e id (zlen data) /\
      forall pos, 0 <= pos < zlen data -> file_byte V (block_no id) (zlen data) pos = data !! Z.to_nat pos
  | NDir es => dir_ok V e id (zlen es) /\
      forall i x, es !! i = Some x -> is_entry x.2 x.1 (dir_entry V (block_no id) (zlen es) (Z.of_nat i))
  end.

Record disk_rep (V : Z -> Block) (e : Z) (T : tree) : Prop := {
  dr_node : forall id n, T !! id = Some n -> node_rep V e id n;
  dr_apart : forall i j n m b, T !! i = Some n -> T !! j = Some m -> i <> j ->
    node_block V i n b -> node_block V j m b -> False;
  dr_parent : forall d es x, T !! d = Some (NDir es) -> x ∈ es ->
    parent_id (get_meta (V (block_no x.2))) = d;
}.

(** The header of a filesystem between operations. *)
Definition idle (h : SuperblockHeader) : Prop := mountable h /\ bump h /\ sealed h.

Definition fs_rep (N : Z) (s : fs) (T : tree) : Prop :=
  tree_wf T /\ exists h V R, fs_st N s h h V None R /\ idle h /\ disk_rep V (empty_area_start h) T.

(** ** Frame *)

Lemma file_link_frame V V' f sz i :
  V' f = V f -> (1040187392 < sz -> V' (meta_link (V f) (i / 512)) = V (meta_link (V f) (i / 512))) ->
  file_link V' f sz i = file_link V f sz i.
Proof. intros Hf Hl. unfold file_link. rewrite Hf. destruct (Z.leb_spec sz 1040187392); [done|]. by rewrite Hl. Qed.

Section FileFrame.
Context {V V' : Z -> Block} {f sz : Z} (H : forall b, file_block V f sz b -> V' b = V b).

Lemma frame_meta : V' f = V f.
Proof. apply H. by left. Qed.

Lemma frame_link i : 0 <= i < n_l1 sz -> file_link V' f sz i = file_link V f sz i.
Proof.
  intros Hi. apply file_link_frame; [apply frame_meta|]. intros Hs. apply H. right. right. right.
  exists (i / 512). split; [|done]. by apply n_l2_link.
Qed.

Lemma frame_data k : 0 <= k < n_blocks sz -> file_blk V' f sz k = file_blk V f sz k.
Proof.
  intros Hk. pose proof frame_meta as Hf.
  destruct (decide (sz <= 2031616)) as [L0|L0].
  { unfold file_blk. rewrite (proj2 (Z.leb_le _ _)) by done. by rewrite Hf. }
  assert (Hi : 0 <= k / 512 < n_l1 sz) by (apply n_l1_data; [lia|done]).
  assert (Hl : V' (file_link V f sz (k / 512)) = V (file_link V f sz (k / 512))).
  { apply H. right. right. left. by exists (k / 512). }
  destruct (decide (sz <= 1040187392)) as [L1|L1].
  - rewrite !blk_l1 by lia. rewrite Hf. rewrite flink_l1 in Hl by lia. by rewrite Hl.
  - rewrite !blk_l2 by lia. rewrite frame_link by done. by rewrite Hl.
Qed.

Lemma file_block_frame b : file_block V' f sz b <-> file_block V f sz b.
Proof.
  pose proof frame_meta as Hf. unfold file_block. rewrite Hf. split.
  - intros [?|[(k & Hk & ->)|[(i & Hi & ->)|?]]]; auto.
    + right. left. exists k. by rewrite frame_data.
    + right. right. left. exists i. by rewrite frame_link.
  - intros [?|[(k & Hk & ->)|[(i & Hi & ->)|?]]]; auto.
    + right. left. exists k. by rewrite frame_data.
    + right. right. left. exists i. by rewrite frame_link.
Qed.

Lemma file_byte_frame pos : 0 <= pos < sz -> file_byte V' f sz pos = file_byte V f sz pos.
Proof.
  intros Hp. unfold file_byte. destruct (Z.leb_spec sz 3968); [by rewrite frame_meta|].
  assert (Hk : 0 <= pos / 4096 < n_blocks sz) by (rewrite n_blocks_eq by lia; dlia).
  rewrite frame_data by done. f_equal. apply H. right. left. by exists (pos / 4096).
Qed.

Lemma file_shape_frame e e' :
  file_shape V e f sz -> (forall b, file_block V f sz b -> b < e') -> file_shape V' e' f sz.
Proof.
  intros [S1 S2 S3 S4 S5 S6 S7 S8 S9 S10 S11 S12 S13] He.
  assert (Hb : forall b, 0 < b < e -> file_block V f sz b -> 0 < b < e') by (intros b ? Hb; specialize (He b Hb); lia).
  pose proof frame_meta as Hf. split; rewrite ?Hf; try done.
  - apply Hb; [done|by left].
  - intros k Hk. rewrite frame_data by done. apply Hb; [by apply S2|]. right. left. by exists k.
  - intros i Hi. rewrite frame_link by done. apply Hb; [by apply S3|]. right. right. left. by exists i.
  - intros i Hi. apply Hb; [by apply S4|]. right. right. right. by exists i.
  - intros k Hk. rewrite frame_data by done. by apply S5.
  - intros i Hi. rewrite frame_link by done. by apply S6.
  - intros k i Hk Hi. rewrite frame_data, frame_link by done. by apply S8.
  - intros k i Hk Hi. rewrite frame_data by done. by apply S9.
  - intros i j Hi Hj. rewrite frame_link by done. by apply S10.
  - intros k l Hk Hl. rewrite !frame_data by done. by apply S11.
  - intros i j Hi Hj. rewrite !frame_link by done. by apply S12.
Qed.
End FileFrame.

Lemma dir_ok_below V V' e e' id num :
  dir_ok V e id num -> (forall b, dir_block V (block_no id) num b -> V' b = V b /\ b < e') -> dir_ok V' e' id num.
Proof.
  intros [H1 H2 H3 H4 Sh] Hf. change MAX_DIR_ENTRIES with 65536 in *.
  assert (Hfr : forall b, dir_block V (block_no id) num b -> V' b = V b) by (intros b Hb; by apply Hf).
  assert (E : V' (block_no id) = V (block_no id)) by (apply Hfr; by left).
  pose proof (dir_shape_frame _ _ _ _ _ (proj2 H4) Sh Hfr) as Sh'.
  assert (Hb : forall b, dir_block V' (block_no id) num b -> b < e').
  { intros b Hb. apply (dir_block_frame V V') in Hb; [|lia|done]. by apply Hf. }
  split; rewrite ?E; try done. destruct Sh' as [S1 S2 S3 S4 S5 S6 S7 S8]. split; try done.
  - assert (block_no id < e') by (apply Hb; by left). lia.
  - intros i Hi. assert (meta_link (V' (block_no id)) i < e') by (apply Hb; right; left; by exists i).
    specialize (S2 i Hi). lia.
  - intros k Hk. assert (data_blk V' (block_no id) num k < e') by (apply Hb; right; right; by exists k).
    specialize (S3 k Hk). lia.
Qed.

Lemma node_below V e id n b : node_rep V e id n -> node_block V id n b -> 0 < b < e.
Proof.
  destruct n; simpl; intros [O _].
  - destruct O as [_ _ _ _ Sh]. intros [->|[(k & Hk & ->)|[(i & Hi & ->)|(i & Hi & ->)]]].
    + apply Sh. + by apply (fs_data _ _ _ _ Sh). + by apply (fs_link _ _ _ _ Sh). + by apply (fs_list _ _ _ _ Sh).
  - apply dir_block_below, (do_shape _ _ _ _ O).
Qed.

Lemma node_block_self V id n : node_block V id n (block_no id).
Proof. destruct n; by left. Qed.

(** A node none of whose blocks changed. *)
Lemma node_rep_frame V V' e e' id n :
  node_rep V e id n -> (forall b, node_block V id n b -> V' b = V b /\ b < e') ->
  node_rep V' e' id n /\ forall b, node_block V' id n b <-> node_block V id n b.
Proof.
  intros Hr Hf. assert (Hfr : forall b, node_block V id n b -> V' b = V b) by (intros b Hb; by apply Hf).
  destruct n as [data|es]; simpl in *; destruct Hr as [O Hc].
  - split; [|by apply file_block_frame]. split.
    + destruct O as [O1 O2 O3 O4 O5]. pose proof (frame_meta Hfr) as E. split; rewrite ?E; try done.
      apply (file_shape_frame Hfr e); [done|]. intros b Hb. by apply Hf.
    + intros pos Hp. rewrite (file_byte_frame Hfr) by done. by apply Hc.
  - pose proof (do_num _ _ _ _ O) as Hn. change MAX_DIR_ENTRIES with 65536 in Hn.
    split; [|intros b; apply dir_block_frame; [lia|done]]. split.
    + by apply (dir_ok_below V V' e).
    + intros i x Hx. pose proof (lookup_lt_Some _ _ _ Hx) as Hlt.
      rewrite (proj2 (dir_entry_frame V V' e (block_no id) (zlen es) (Z.of_nat i) ltac:(lia) (do_shape _ _ _ _ O)
        Hfr ltac:(unfold zlen; lia))).
      by apply Hc.
Qed.

(** Changing the nodes that own the blocks [P]: the others are untouched, and
    the changed ones stay within [P] and the blocks from [e] on. *)
Definition unchanged (V : Z -> Block) (T : tree) (P : Z -> Prop) (id : EntryId) (n : node) : Prop :=
  T !! id = Some n /\ forall b, node_block V id n b -> ~ P b.

Lemma disk_rep_change V V' e e' T T' (P : Z -> Prop) :
  disk_rep V e T -> (forall b, b < e -> ~ P b -> V' b = V b /\ b < e') ->
  (forall id n, T' !! id = Some n -> unchanged V T P id n \/
     (node_rep V' e' id n /\ forall b, node_block V' id n b -> P b \/ e <= b)) ->
  (forall i j n m b, T' !! i = Some n -> T' !! j = Some m -> i <> j -> ~ unchanged V T P i n -> ~ unchanged V T P j m ->
     node_block V' i n b -> node_block V' j m b -> False) ->
  (forall d es x, T' !! d = Some (NDir es) -> x ∈ es -> parent_id (get_meta (V' (block_no x.2))) = d) ->
  disk_rep V' e' T'.
Proof.
  intros [DN DA DP] HP HC HD HPar.
  assert (HU : forall id n, unchanged V T P id n -> node_rep V' e' id n /\
            (forall b, node_block V' id n b -> node_block V id n b /\ b < e /\ ~ P b)).
  { intros id n [Hn Hnp]. pose proof (DN id n Hn) as Hr.
    destruct (node_rep_frame V V' e e' id n Hr) as [Hr' Hb'].
    - intros b Hb. apply HP; [apply (node_below _ _ _ _ _ Hr Hb)|by apply Hnp].
    - split; [done|]. intros b Hb. apply Hb' in Hb. split; [done|].
      split; [apply (node_below _ _ _ _ _ Hr Hb)|by apply Hnp]. }
  split; [|intros i j n m b Hi Hj Hne Hbi Hbj|done].
  - intros id n Hn. destruct (HC id n Hn) as [Hu|[? _]]; [by apply HU|done].
  - destruct (HC i n Hi) as [Ui|[Ri Wi]], (HC j m Hj) as [Uj|[Rj Wj]].
    + apply (DA i j n m b); [apply Ui|apply Uj|done|by apply HU|by apply HU].
    + destruct (proj2 (HU i n Ui) b Hbi) as (_ & ? & ?). destruct (Wj b Hbj); [done|lia].
    + destruct (proj2 (HU j m Uj) b Hbj) as (_ & ? & ?). destruct (Wi b Hbi); [done|lia].
    + destruct (decide (b < e)) as [Hlt|Hge].
      * apply (HD i j n m b Hi Hj Hne); [| |done|done]; intros U.
        -- destruct (proj2 (HU i n U) b Hbi) as (_ & _ & ?). destruct (Wi b Hbi); [done|lia].
        -- destruct (proj2 (HU j m U) b Hbj) as (_ & _ & ?). destruct (Wj b Hbj); [done|lia].
      * apply (HD i j n m b Hi Hj Hne); [| |done|done]; intros U.
        -- destruct (proj2 (HU i n U) b Hbi) as (_ & ? & _). lia.
        -- destruct (proj2 (HU j m U) b Hbj) as (_ & ? & _). lia.
Qed.

(** Distinct nodes have distinct metadata blocks. *)
Lemma disk_rep_meta V e T i j n m :
  disk_rep V e T -> T !! i = Some n -> T !! j = Some m -> block_no i = block_no j -> i = j.
Proof.
  intros [_ DA _] Hi Hj E. destruct (decide (i = j)) as [|Hne]; [done|]. exfalso.
  apply (DA i j n m (block_no i) Hi Hj Hne); [apply node_block_self|rewrite E; apply node_block_self].
Qed.

(** The nodes other than the owner of [P] are untouched. *)
Lemma unchanged_other V e T id n id' n' :
  disk_rep V e T -> T !! id = Some n -> T !! id' = Some n' -> id' <> id -> unchanged V T (node_block V id n) id' n'.
Proof. intros [_ DA _] H H' Hne. split; [done|]. intros b Hb Hb'. by apply (DA id' id n' n b). Qed.

(** ** Lookup *)

Fixpoint lookup_name (name : bytes) (es : list (bytes * EntryId)) : option EntryId :=
  match es with
  | [] => None
  | x :: es' => if decide (x.1 = name) then Some x.2 else lookup_name name es'
  end.

Lemma lookup_name_first name es i x :
  es !! i = Some x -> x.1 = name -> (forall j y, (j < i)%nat -> es !! j = Some y -> y.1 <> name) ->
  lookup_name name es = Some x.2.
Proof.
  revert i. induction es as [|y es IH]; intros i Hx Hn Hlt; [done|]. simpl. destruct i as [|i].
  - simpl in Hx. simplify_eq. by rewrite decide_True.
  - rewrite decide_False by (apply (Hlt 0%nat y); [lia|done]). apply (IH i); [done|done|].
    intros j z Hj Hz. apply (Hlt (S j) z); [lia|done].
Qed.

Lemma lookup_name_none name es :
  (forall j y, es !! j = Some y -> y.1 <> name) -> lookup_name name es = None.
Proof.
  induction es as [|y es IH]; intros H; [done|]. simpl. rewrite decide_False by (by apply (H 0%nat)).
  apply IH. intros j z Hz. by apply (H (S j)).
Qed.

Section Entries.
Context {V : Z -> Block} {e : Z} {d : EntryId} {es : list (bytes * EntryId)}.
Context (NR : node_rep V e d (NDir es)) (Hutf : forall x, x ∈ es -> utf8_valid x.1 = true).

Lemma entry_of i x : es !! i = Some x -> is_entry x.2 x.1 (dir_entry V (block_no d) (zlen es) (Z.of_nat i)).
Proof. intros Hx. by apply (proj2 NR). Qed.

Lemma pred_name_entry name i x :
  es !! i = Some x ->
  pred_by_name name (dir_entry V (block_no d) (zlen es) (Z.of_nat i)) = bool_decide (x.1 = name).
Proof.
  intros Hx. destruct (entry_of i x Hx) as [_ Hn]. unfold pred_by_name, from_utf8. rewrite Hn.
  rewrite Hutf by (by eapply list_elem_of_lookup_2). done.
Qed.

Lemma to_owned_entry i x :
  es !! i = Some x -> to_owned (dir_entry V (block_no d) (zlen es) (Z.of_nat i)) = Ok (mkOwnedEntry x.2 x.1).
Proof.
  intros Hx. destruct (entry_of i x Hx) as [Hi Hn]. unfold to_owned, from_utf8. rewrite Hn, Hi.
  rewrite Hutf by (by eapply list_elem_of_lookup_2). done.
Qed.

Lemma entry_at_pos pos : 0 <= pos < zlen es -> exists x, es !! Z.to_nat pos = Some x.
Proof. intros Hp. apply lookup_lt_is_Some. unfold zlen in Hp. lia. Qed.

Lemma first_name name pos :
  first_entry V (block_no d) (zlen es) (pred_by_name name) pos ->
  exists x, es !! Z.to_nat pos = Some x /\ x.1 = name /\ lookup_name name es = Some x.2.
Proof.
  intros (Hp & Ht & Hlt). destruct (entry_at_pos pos Hp) as [x Hx]. exists x.
  replace pos with (Z.of_nat (Z.to_nat pos)) in Ht by lia. rewrite (pred_name_entry _ _ _ Hx) in Ht.
  apply bool_decide_eq_true in Ht. split; [done|]. split; [done|].
  apply (lookup_name_first _ _ (Z.to_nat pos)); [done|done|]. intros j y Hj Hy E.
  specialize (Hlt (Z.of_nat j) ltac:(lia)). rewrite (pred_name_entry _ _ _ Hy) in Hlt. by case_bool_decide.
Qed.

Lemma no_name name : no_entry V (block_no d) (zlen es) (pred_by_name name) -> lookup_name name es = None.
Proof.
  intros H. apply lookup_name_none. intros j y Hy E. apply lookup_lt_Some in Hy as Hlt.
  specialize (H (Z.of_nat j) ltac:(unfold zlen; lia)). rewrite (pred_name_entry _ _ _ Hy) in H. by case_bool_decide.
Qed.
End Entries.

Lemma idle_space h : idle h -> empty_area_start h <= sb_num_blocks h.
Proof. intros (_ & (_ & ?) & _). lia. Qed.

Lemma wf_utf8 T d es : tree_wf T -> T !! d = Some (NDir es) -> forall x, x ∈ es -> utf8_valid x.1 = true.
Proof. intros W Hd x Hx. by apply (tw_name _ W d es). Qed.

(** A state change that leaves the blocks alone keeps the tree. *)
Lemma fs_rep_same N s h V R T : tree_wf T -> idle h -> disk_rep V (empty_area_start h) T ->
  fs_st N s h h V None R -> fs_rep N s T.
Proof. intros W I Dr S. split; [done|]. by exists h, V, R. Qed.

Lemma wp_unwrap {A} (m : eff fs FsError A) s (Q : A -> fs -> Prop) X :
  wp m s Q (fun _ _ => False) -> wp (unwrap m) s Q X.
Proof. unfold wp, unwrap. by destruct (m s) as [s' [a|x|]]. Qed.

Lemma get_by_name_rep N s T d es name (Q : DirEntry -> fs -> Prop) (X : FsError -> fs -> Prop) :
  fs_rep N s T -> T !! d = Some (NDir es) ->
  (forall s', fs_rep N s' T ->
     match lookup_name name es with Some c => Q (mkOwnedEntry c name) s' | None => X NotFound s' end) ->
  wp (get_directory_entry_by_name d name) s Q X.
Proof.
  intros [W (h & V & R & S & I & Dr)] Hd HQ. pose proof (dr_node _ _ _ Dr d _ Hd) as NR.
  pose proof (wf_utf8 _ _ _ W Hd) as Hutf. pose proof (proj1 NR) as DO. pose proof (idle_space h I) as He.
  unfold get_directory_entry_by_name. wp_step. eapply wp_check_error; [exact S|]. wp_step. unfold find_entry_by_name.
  eapply find_entry_st; [exact S|exact DO|done| |].
  - intros pos s1 R1 HF S1 _. destruct (first_name NR Hutf _ _ HF) as (x & Hx & Hn & Hl). rewrite Hl in HQ.
    destruct HF as (Hp & _). pose proof (loc_in V _ _ _ _ (do_shape _ _ _ _ DO) Hp) as [Hlb Hlp].
    destruct (entry_loc V (block_no d) (zlen es) pos) as [b q] eqn:El. simpl in Hlb, Hlp.
    assert (Hb : blk_in h b) by (unfold blk_in; lia).
    wp_step. apply wp_unwrap. eapply c_read_st; [exact S1|exact Hb|]. intros s2 S2.
    rewrite get_dir_entry_at by done. wp_steps.
    replace (entry_at (V b) q) with (dir_entry V (block_no d) (zlen es) (Z.of_nat (Z.to_nat pos)))
      by (unfold dir_entry; rewrite Z2Nat.id, El by lia; done).
    rewrite (to_owned_entry NR Hutf _ _ Hx), Hn. wp_steps. apply HQ. by eapply fs_rep_same.
  - intros s1 R1 HN S1. rewrite (no_name NR Hutf _ HN) in HQ. apply HQ. by eapply fs_rep_same.
Qed.

Lemma get_entry_rep N s T d es pos (Q : DirEntry -> fs -> Prop) (X : FsError -> fs -> Prop) :
  fs_rep N s T -> T !! d = Some (NDir es) -> 0 <= pos ->
  (forall s', fs_rep N s' T ->
     match es !! Z.to_nat pos with Some x => Q (mkOwnedEntry x.2 x.1) s' | None => X NotFound s' end) ->
  wp (get_directory_entry d pos) s Q X.
Proof.
  intros [W (h & V & R & S & I & Dr)] Hd Hpos HQ. pose proof (dr_node _ _ _ Dr d _ Hd) as NR.
  pose proof (wf_utf8 _ _ _ W Hd) as Hutf.
  eapply get_directory_entry_st; [exact S|exact (proj1 NR)|by apply idle_space|done|]. intros s' R' S'.
  assert (Rp : fs_rep N s' T) by (by eapply fs_rep_same). specialize (HQ s' Rp).
  destruct (decide (pos < zlen es)) as [Hlt|Hge].
  - destruct (entry_at_pos (es := es) pos ltac:(lia)) as [x Hx]. rewrite Hx in HQ.
    rewrite <- (Z2Nat.id pos) by done. rewrite (to_owned_entry NR Hutf _ _ Hx). by apply wp_lift_ok.
  - rewrite lookup_ge_None_2 in HQ by (unfold zlen in Hge; lia). done.
Qed.

Lemma get_num_entries_rep N s T d es (Q : Z -> fs -> Prop) X :
  fs_rep N s T -> T !! d = Some (NDir es) -> (forall s', fs_rep N s' T -> Q (zlen es) s') ->
  wp (get_num_entries d) s Q X.
Proof.
  intros [W (h & V & R & S & I & Dr)] Hd HQ. destruct (dr_node _ _ _ Dr d _ Hd) as [DO _].
  pose proof (idle_space h I). pose proof (ds_parent _ _ _ _ (do_shape _ _ _ _ DO)).
  unfold get_num_entries. wp_step. eapply wp_check_error; [exact S|]. wp_step.
  eapply c_read_st; [exact S|unfold blk_in; lia|]. intros s1 S1. rewrite (do_valid _ _ _ _ DO), (do_size _ _ _ _ DO).
  wp_steps. apply HQ. by eapply fs_rep_same.
Qed.

Lemma get_file_size_rep N s T f data (Q : Z -> fs -> Prop) X :
  fs_rep N s T -> T !! f = Some (NFile data) -> (forall s', fs_rep N s' T -> Q (zlen data) s') ->
  wp (get_file_size f) s Q X.
Proof.
  intros [W (h & V & R & S & I & Dr)] Hf HQ. destruct (dr_node _ _ _ Dr f _ Hf) as [FO _].
  pose proof (idle_space h I). pose proof (fs_meta _ _ _ _ (fo_shape _ _ _ _ FO)).
  unfold get_file_size. wp_step. eapply wp_check_error; [exact S|]. wp_step.
  eapply c_read_st; [exact S|unfold blk_in; lia|]. intros s1 S1. rewrite (fo_valid _ _ _ _ FO), (fo_size _ _ _ _ FO).
  wp_steps. apply HQ. by eapply fs_rep_same.
Qed.

Lemma node_valid V e id n : node_rep V e id n -> validate (get_meta (V (block_no id))) id = Ok tt.
Proof.
  destruct n; simpl; intros [O _]; unfold validate.
  - pose proof (fo_valid _ _ _ _ O) as Hv. by rewrite (proj2 (validate_file_inv _ _ Hv)).
  - pose proof (do_valid _ _ _ _ O) as Hv. destruct (validate_dir_inv _ _ Hv) as (_ & -> & _). done.
Qed.

Lemma get_parent_rep N s T d es x (Q : option EntryId -> fs -> Prop) X :
  fs_rep N s T -> T !! d = Some (NDir es) -> x ∈ es -> (forall s', fs_rep N s' T -> Q (Some d) s') ->
  wp (get_parent x.2) s Q X.
Proof.
  intros [W (h & V & R & S & I & Dr)] Hd Hx HQ. destruct (tw_child _ W d es x Hd Hx) as [[n Hn] Hr].
  pose proof (dr_node _ _ _ Dr _ _ Hn) as NR. pose proof (node_below _ _ _ _ _ NR (node_block_self V _ _)).
  pose proof (idle_space h I). unfold get_parent. rewrite decide_False by done. wp_step.
  eapply c_read_st; [exact S|unfold blk_in; lia|]. intros s1 S1.
  rewrite (node_valid _ _ _ _ NR), (dr_parent _ _ _ Dr d es x Hd Hx). wp_steps. apply HQ. by eapply fs_rep_same.
Qed.

(** ** Reading *)

Lemma read_rep N s T f data off buf_len (Q : bytes -> fs -> Prop) X :
  fs_rep N s T -> T !! f = Some (NFile data) -> 0 <= off -> 0 <= buf_len < 2 ^ 32 ->
  (forall r s', fs_rep N s' T -> zlen r = read_len (zlen data) off buf_len ->
     take (Z.to_nat (zlen data - off)) r = take (length r) (drop (Z.to_nat off) data) -> Q r s') ->
  wp (read f off buf_len) s Q X.
Proof.
  intros [W (h & V & R & S & I & Dr)] Hf Hoff Hlen HQ. destruct (dr_node _ _ _ Dr f _ Hf) as [FO Hc].
  eapply read_st; [exact S|exact FO|by apply idle_space|done|done|].
  intros r s' R' S' Hl Hb. apply HQ; [by eapply fs_rep_same|done|].
  apply list_eq. intros j. destruct (decide (j < length r)%nat) as [Hj|Hj].
  2:{ rewrite (lookup_ge_None_2 (take (length r) _)) by (rewrite length_take; lia).
      apply lookup_ge_None_2. rewrite length_take. lia. }
  rewrite (lookup_take_lt (drop _ _)) by done. rewrite lookup_drop.
  destruct (decide (off + Z.of_nat j < zlen data)) as [Hin|Hout].
  - rewrite lookup_take_lt by lia. rewrite <- (Nat2Z.id j) at 1. rewrite Hb by lia. rewrite Hc by lia. f_equal. lia.
  - unfold zlen in Hout. rewrite !lookup_ge_None_2; [done|lia|]. rewrite length_take. unfold zlen. lia.
Qed.
End Tree.
