(* ===== verification/SrfsTreeOps.v ===== *)
(** * Operations on the tree

    [add_file], [add_directory], [write] and [remove] on the tree of nodes, and
    remounting: the blocks of every other node are untouched, and a filesystem
    between operations can be opened again from its device with the same tree. *)

From stdpp Require Import base numbers list gmap.
From coqutil Require Import Byte.
From S2P Require Import RustPrelude Crc32 SrfsLayout BlockDevice BlockCache SrfsFs SrfsState SrfsDir.
From S2P Require Import SrfsDirAdd SrfsMount SrfsNode SrfsDirRemove SrfsRemove SrfsFile SrfsFileWrite.
From S2P Require Import SrfsFileAppend SrfsTree.

Open Scope Z_scope.

(** ** The abstract operations *)

(** The check of a new name: the error, if any. *)
Definition name_error (name : bytes) (es : list (bytes * EntryId)) : option FsError :=
  match validate_filename name with
  | Ok _ =>
    match lookup_name name es with
    | Some _ => Some AlreadyExists
    | None => if zlen es =? MAX_DIR_ENTRIES then Some TooLarge else None
    end
  | _ => Some InvalidArgument
  end.

Definition empty_node (is_file : bool) : node := if is_file then NFile [] else NDir [].

Definition tree_add (T : tree) (d c : EntryId) (name : bytes) (is_file : bool) (es : list (bytes * EntryId)) : tree :=
  <[c := empty_node is_file]> (<[d := NDir (es ++ [(name, c)])]> T).

(** [n] bytes of [buf] over [data] at [off]. *)
Definition patch (off n : nat) (buf data : bytes) : bytes :=
  take off data ++ take n buf ++ drop (off + n) data.

(** Entry [i] goes away and the last one takes its place. *)
Definition swap_remove {A} (i : nat) (l : list A) : list A :=
  match last l with
  | Some x => if decide (i = length l - 1)%nat then take i l else <[i := x]> (take (length l - 1) l)
  | None => []
  end.

Lemma length_patch off n buf data :
  (off <= length data)%nat -> (n <= length buf)%nat -> length (patch off n buf data) = Nat.max (length data) (off + n).
Proof. intros. unfold patch. rewrite !length_app, !length_take, length_drop. lia. Qed.

Lemma lookup_patch off n buf data j :
  (off <= length data)%nat -> (n <= length buf)%nat ->
  patch off n buf data !! j = if decide (off <= j < off + n)%nat then buf !! (j - off)%nat else data !! j.
Proof.
  intros Ho Hn. unfold patch. destruct (decide (off <= j < off + n)%nat) as [H|H].
  - rewrite lookup_app_r by (rewrite length_take; lia). rewrite length_take, Nat.min_l by lia.
    rewrite lookup_app_l by (rewrite length_take; lia). rewrite lookup_take_lt by lia. done.
  - destruct (decide (j < off)%nat).
    + rewrite lookup_app_l by (rewrite length_take; lia). by rewrite lookup_take_lt by lia.
    + rewrite lookup_app_r by (rewrite length_take; lia). rewrite length_take, Nat.min_l by lia.
      rewrite lookup_app_r by (rewrite length_take; lia). rewrite length_take, Nat.min_l by lia.
      rewrite lookup_drop. f_equal. lia.
Qed.

Lemma length_swap_remove {A} i (l : list A) : (i < length l)%nat -> length (swap_remove i l) = (length l - 1)%nat.
Proof.
  intros Hi. unfold swap_remove. destruct (last l) as [x|] eqn:E.
  - destruct (decide _); rewrite ?length_insert, length_take; lia.
  - apply last_None in E. subst. simpl in Hi. lia.
Qed.

Lemma lookup_swap_remove {A} i (l : list A) j :
  (i < length l)%nat -> (j < length l - 1)%nat ->
  swap_remove i l !! j = l !! (if decide (j = i) then length l - 1 else j)%nat.
Proof.
  intros Hi Hj. unfold swap_remove. destruct (last l) as [x|] eqn:E.
  2:{ apply last_None in E. subst. simpl in Hi. lia. }
  rewrite last_lookup in E. destruct (decide (i = length l - 1)%nat) as [->|Hne].
  - rewrite decide_False by lia. by rewrite lookup_take_lt by lia.
  - destruct (decide (j = i)) as [->|].
    + rewrite list_lookup_insert_eq by (rewrite length_take; lia). rewrite <- E. f_equal. lia.
    + rewrite list_lookup_insert_ne by done. by rewrite lookup_take_lt by lia.
Qed.

Lemma swap_remove_elem {A} i (l : list A) x : (i < length l)%nat -> x ∈ swap_remove i l ->
  exists j, j <> i /\ l !! j = Some x.
Proof.
  intros Hi [j Hj]%list_elem_of_lookup. pose proof (lookup_lt_Some _ _ _ Hj) as Hlt.
  rewrite length_swap_remove in Hlt by done. rewrite lookup_swap_remove in Hj by done.
  destruct (decide (j = i)); [|by exists j]. exists (length l - 1)%nat. split; [lia|done].
Qed.

Section Ops.
Context {D : Type} {Dev : SyncBlockDevice D} {DL : SyncBlockDeviceLaws D}.
Context {Crc : Crc32} {CL : Crc32Laws Crc} {Clk : Clock} {Unin : Uninit}.
Abbreviation fs := (SyncFileSystem D).

(** ** Creating *)

Lemma name_error_check V e d es name r :
  node_rep V e d (NDir es) -> (forall x, x ∈ es -> utf8_valid x.1 = true) ->
  new_entry_check V (block_no d) (zlen es) name r -> name_error name es = r.
Proof.
  intros NR Hutf H. unfold name_error. destruct r as [[]|]; simpl in H; try done.
  - destruct H as [-> [pos HF]]. destruct (first_name NR Hutf _ _ HF) as (x & _ & _ & ->). done.
  - by rewrite H.
  - destruct H as (-> & HN & Hn). by rewrite (no_name NR Hutf _ HN), Hn.
  - destruct H as (-> & HN & Hn). rewrite (no_name NR Hutf _ HN). by rewrite (proj2 (Z.eqb_neq _ _)) by lia.
Qed.

Lemma fresh_id V e T c : disk_rep V e T -> block_no c = e -> T !! c = None.
Proof.
  intros Dr Hc. destruct (T !! c) as [n|] eqn:E; [|done]. pose proof (dr_node _ _ _ Dr _ _ E) as NR.
  pose proof (node_below _ _ _ _ _ NR (node_block_self V c n)). lia.
Qed.

Lemma lookup_name_notin name es : lookup_name name es = None -> name ∉ es.*1.
Proof.
  induction es as [|x es IH]; simpl; [intros _; apply not_elem_of_nil|]. destruct (decide (x.1 = name)); [done|].
  intros H. rewrite elem_of_cons. intros [?|?]; [done|]. by apply IH.
Qed.

Lemma tree_add_wf T d c name is_file es :
  tree_wf T -> T !! d = Some (NDir es) -> T !! c = None -> validate_filename name = Ok tt -> utf8_valid name = true ->
  lookup_name name es = None -> c <> ROOT_DIR_ID -> tree_wf (tree_add T d c name is_file es).
Proof.
  intros [WR WC WN WNs WO] Hd Hc Hv Hu Hl Hr. assert (Hne : c <> d) by (intros ->; congruence).
  assert (Hdir : forall d' es', tree_add T d c name is_file es !! d' = Some (NDir es') ->
    (d' = d /\ es' = es ++ [(name, c)]) \/ (d' <> d /\ (T !! d' = Some (NDir es') \/ es' = []))).
  { intros d' es'. unfold tree_add. destruct (decide (d' = c)) as [->|].
    - rewrite lookup_insert_eq. intros E. right. split; [done|]. right. destruct is_file; by simplify_eq/=.
    - rewrite lookup_insert_ne by done. destruct (decide (d' = d)) as [->|].
      + rewrite lookup_insert_eq. intros [= <-]. by left.
      + rewrite lookup_insert_ne by done. intros. right. auto. }
  assert (Hex : forall i n, T !! i = Some n -> is_Some (tree_add T d c name is_file es !! i)).
  { intros i n Hi. unfold tree_add. destruct (decide (i = c)) as [->|]; [by rewrite lookup_insert_eq|].
    rewrite lookup_insert_ne by done. destruct (decide (i = d)) as [->|]; [by rewrite lookup_insert_eq|].
    by rewrite lookup_insert_ne. }
  assert (Hent : forall d' es' i x, tree_add T d c name is_file es !! d' = Some (NDir es') -> es' !! i = Some x ->
    (d' = d /\ i = length es /\ x = (name, c)) \/ (exists es0, T !! d' = Some (NDir es0) /\ es0 !! i = Some x)).
  { intros d' es' i x H Hx. destruct (Hdir d' es' H) as [[-> ->]|[? [?| ->]]]; [|by right; exists es'|done].
    apply lookup_app_Some in Hx as [?|[? Hx]]; [right; by exists es|left].
    apply list_lookup_singleton_Some in Hx as [? <-]. split; [done|]. split; [lia|done]. }
  split.
  - destruct WR as [es0 HR]. unfold tree_add. rewrite lookup_insert_ne by done.
    destruct (decide (d = ROOT_DIR_ID)) as [->|]; [rewrite lookup_insert_eq|rewrite lookup_insert_ne by done]; eauto.
  - intros d' es' x H [i Hx]%list_elem_of_lookup. destruct (Hent _ _ _ _ H Hx) as [(_ & _ & ->)|(es0 & H0 & Hx0)].
    + split; [|done]. unfold tree_add. simpl. by rewrite lookup_insert_eq.
    + destruct (WC d' es0 x H0 ltac:(by eapply list_elem_of_lookup_2)) as [[n Hn] ?]. split; [by eapply Hex|done].
  - intros d' es' x H [i Hx]%list_elem_of_lookup. destruct (Hent _ _ _ _ H Hx) as [(_ & _ & ->)|(es0 & H0 & Hx0)]; [done|].
    apply (WN d' es0); [done|by eapply list_elem_of_lookup_2].
  - intros d' es' H. destruct (Hdir d' es' H) as [[-> ->]|[? [?| ->]]]; [|by apply (WNs d')|apply NoDup_nil_2].
    rewrite fmap_app. apply NoDup_app. split; [by apply (WNs d)|]. split; [|apply NoDup_singleton].
    intros y Hy. simpl. rewrite list_elem_of_singleton. intros ->. by apply (lookup_name_notin name es).
  - intros d1 d2 es1 es2 i1 i2 x1 x2 H1 H2 Hx1 Hx2 E.
    destruct (Hent _ _ _ _ H1 Hx1) as [(-> & -> & ->)|(e1 & T1 & Y1)],
      (Hent _ _ _ _ H2 Hx2) as [(-> & -> & ->)|(e2 & T2 & Y2)]; [done|..].
    + simpl in E. destruct (WC d2 e2 x2 T2 ltac:(by eapply list_elem_of_lookup_2)) as [[? Hn] _]. congruence.
    + simpl in E. destruct (WC d1 e1 x1 T1 ltac:(by eapply list_elem_of_lookup_2)) as [[? Hn] _]. congruence.
    + by eapply WO.
Qed.

(** A node just created is empty and lives in its metadata block. *)
Lemma fresh_node V e c parent (is_file : bool) :
  id_ok c -> 0 < block_no c < e -> get_meta (V (block_no c)) = meta_set_crc32 (EntryMetadata_new now c parent) ->
  kind c = (if is_file then File else Directory) ->
  node_rep V e c (empty_node is_file) /\
  forall b, node_block V c (empty_node is_file) b -> b = block_no c.
Proof.
  intros Hid Hb Hm Hk. set (m := EntryMetadata_new now c parent) in *. destruct is_file; simpl.
  - split; [|intros b [->|[(k & Hk' & _)|[(i & Hi & _)|(i & Hi & _)]]]; [done|..];
      unfold n_blocks, n_l1, n_l2, zlen in *; simpl in *; lia].
    split; [|unfold zlen; simpl; lia]. split; try done; rewrite ?Hm; try done.
    + change c with (m_id m). by apply validate_file_seal.
    + split; try done; unfold n_blocks, n_l1, n_l2, zlen; simpl; intros; lia.
  - split; [|intros b [->|[(k & Hk' & _)|(i & Hi & _)]]; [done|..];
      unfold n_data, n_link, zlen in *; simpl in *; lia].
    split; [|done]. split; try done; rewrite ?Hm; try done.
    + change c with (m_id m). by apply validate_dir_seal.
    + split; try done; unfold n_data, n_link, zlen; simpl; intros; lia.
Qed.

Lemma zlen_snoc {A} (l : list A) x : zlen (l ++ [x]) = zlen l + 1.
Proof. unfold zlen. rewrite length_app. simpl. lia. Qed.

Lemma tree_add_rep V V' e e' T d c name (is_file : bool) es :
  tree_wf T -> disk_rep V e T -> T !! d = Some (NDir es) -> id_ok c ->
  kind c = (if is_file then File else Directory) ->
  node_added V V' e e' d c (zlen es) name -> disk_rep V' e' (tree_add T d c name is_file es).
Proof.
  intros W Dr Hd Hid Hk [AP AO AN AF AM [AFr AFe] AB APM].
  pose proof (dr_node _ _ _ Dr d _ Hd) as NR. destruct NR as [DO HE].
  assert (Hc : T !! c = None) by (by eapply fresh_id). assert (Hne : c <> d) by (intros ->; congruence).
  destruct (node_below _ _ _ _ _ (dr_node _ _ _ Dr d _ Hd) (node_block_self V d _)) as [Hd0 Hde].
  destruct (fresh_node V' e' c d is_file Hid ltac:(lia) AM Hk) as [FN FB].
  set (P := dir_block V (block_no d) (zlen es)).
  assert (Hlook : forall id n, tree_add T d c name is_file es !! id = Some n ->
    (id = c /\ n = empty_node is_file) \/ (id = d /\ n = NDir (es ++ [(name, c)])) \/
    (id <> c /\ id <> d /\ T !! id = Some n)).
  { intros id n. unfold tree_add. destruct (decide (id = c)) as [->|]; [rewrite lookup_insert_eq; intros [= <-]; auto|].
    rewrite lookup_insert_ne by done. destruct (decide (id = d)) as [->|];
      [rewrite lookup_insert_eq; intros [= <-]; auto|]. rewrite lookup_insert_ne by done. auto. }
  assert (ND : node_rep V' e' d (NDir (es ++ [(name, c)]))).
  { simpl. rewrite zlen_snoc. split; [done|]. intros i x Hx. apply lookup_app_Some in Hx as [Hx|[Hi Hx]].
    - rewrite AO by (apply lookup_lt_Some in Hx; unfold zlen; lia). by apply HE.
    - apply list_lookup_singleton_Some in Hx as [Hi' <-]. replace (Z.of_nat i) with (zlen es) by (unfold zlen; lia). done. }
  assert (BD : forall b, node_block V' d (NDir (es ++ [(name, c)])) b -> P b \/ e < b < e').
  { simpl. rewrite zlen_snoc. apply AB. }
  assert (Hpar : forall id n, T !! id = Some n ->
    parent_id (get_meta (V' (block_no id))) = parent_id (get_meta (V (block_no id)))).
  { intros id n Hn. destruct (decide (id = d)) as [->|Hnd]; [by rewrite APM|].
    destruct (unchanged_other _ _ _ _ _ _ _ Dr Hd Hn Hnd) as [_ Hu].
    rewrite AF; [done| |by apply Hu, node_block_self].
    apply (node_below _ _ _ _ _ (dr_node _ _ _ Dr _ _ Hn) (node_block_self V id n)). }
  eapply (disk_rep_change V V' e e' T _ P Dr).
  - intros b Hb Hnp. split; [by apply AF|lia].
  - intros id n H. destruct (Hlook id n H) as [[-> ->]|[[-> ->]|(_ & Hnd & Hn)]].
    + right. split; [done|]. intros b Hb. rewrite (FB b Hb). lia.
    + right. split; [done|]. intros b Hb. destruct (BD b Hb); [by left|lia].
    + left. by apply (unchanged_other V e T d (NDir es)).
  - intros i j n m b Hi Hj Hij Hui Huj Hbi Hbj.
    assert (Hor : forall k w, tree_add T d c name is_file es !! k = Some w -> ~ unchanged V T P k w -> k = c \/ k = d).
    { intros k w Hw Hu. destruct (Hlook k w Hw) as [[-> _]|[[-> _]|(_ & Hnd & Hn)]]; [auto..|].
      exfalso. apply Hu. by apply (unchanged_other V e T d (NDir es)). }
    assert (Hcd : forall b0, node_block V' c (empty_node is_file) b0 -> node_block V' d (NDir (es ++ [(name, c)])) b0 -> False).
    { intros b0 H1 H2. rewrite (FB b0 H1) in H2. destruct (BD _ H2) as [Hb0|?]; [|lia].
      pose proof (dir_block_below _ _ _ _ _ (do_shape _ _ _ _ DO) Hb0). lia. }
    destruct (Hor i n Hi Hui) as [-> | ->], (Hor j m Hj Huj) as [-> | ->]; [done|..|done];
      destruct (Hlook _ _ Hi) as [[? ->]|[[? ->]|(? & ? & _)]]; try done;
      destruct (Hlook _ _ Hj) as [[? ->]|[[? ->]|(? & ? & _)]]; try done; by apply (Hcd b).
  - intros d' es' x H Hx. destruct (Hlook d' _ H) as [[-> E]|[[-> [= ->]]|(_ & Hnd & Hn)]].
    + destruct is_file; simplify_eq/=. by apply elem_of_nil in Hx.
    + apply elem_of_app in Hx as [Hx|Hx%list_elem_of_singleton].
      * destruct (tw_child _ W d es x Hd Hx) as [[n Hn] _]. rewrite (Hpar _ _ Hn). by apply (dr_parent _ _ _ Dr d es x).
      * rewrite Hx. cbn [snd]. by rewrite AM.
    + destruct (tw_child _ W d' es' x Hn Hx) as [[n Hn'] _]. rewrite (Hpar _ _ Hn'). by apply (dr_parent _ _ _ Dr d' es' x).
Qed.

Lemma settled_idle h h' g n :
  idle h -> settled h h' g -> room n h -> empty_area_start h' <= empty_area_start h + n -> idle h'.
Proof.
  intros ((_ & Hv & Hm) & (Hf & Hb) & _) [E1 E2 E3 E4 E5 E6 E7 E8 E9] (_ & _ & Hr) He.
  split; [|split; [unfold bump; lia|done]]. split; [done|]. split; congruence.
Qed.

(** What an operation that takes at most [m] blocks leaves for the next ones. *)
Definition leaves (m g : Z) (s s' : fs) : Prop :=
  let h := header (superblock s) in
  let h' := header (superblock s') in
  (forall n, m <= n -> room n h -> room (n - m) h') /\ sb_generation h' <= sb_generation h + g /\
  free_blocks h' + empty_area_start h' = free_blocks h + empty_area_start h /\ sb_num_blocks h' = sb_num_blocks h.

Lemma settled_leaves N s s' h h' V V' R R' g m :
  fs_st N s h h V None R -> fs_st N s' h' h' V' None R' -> settled h h' g ->
  empty_area_start h' <= empty_area_start h + m -> leaves m (g - sb_generation h) s s'.
Proof.
  intros S S' Hse He. unfold leaves. rewrite (st_header _ _ _ _ _ _ _ S), (st_header _ _ _ _ _ _ _ S').
  split; [intros n Hn Hr; by eapply settled_room|]. destruct Hse. lia.
Qed.

Lemma fs_rep_used N s T id n :
  fs_rep N s T -> T !! id = Some n -> 0 < block_no id < empty_area_start (header (superblock s)).
Proof.
  intros [_ (h & V & R & S & _ & Dr)] Hn. rewrite (st_header _ _ _ _ _ _ _ S).
  apply (node_below _ _ _ _ _ (dr_node _ _ _ Dr _ _ Hn) (node_block_self V id n)).
Qed.

(** The id [add_file] and [add_directory] give. *)
Definition next_id (s : fs) (is_file : bool) : EntryId :=
  let h := header (superblock s) in
  mkEntryId (empty_area_start h) (next_generation (sb_generation h) is_file).

Lemma create_rep N s T d es name is_file (Q : EntryId -> fs -> Prop) (X : FsError -> fs -> Prop) :
  env_ok -> fs_rep N s T -> T !! d = Some (NDir es) -> utf8_valid name = true ->
  room 3 (header (superblock s)) -> sb_generation (header (superblock s)) < 2 ^ 64 - 2 ->
  match name_error name es with
  | Some x => forall s', fs_rep N s' T -> X x s'
  | None => forall s', fs_rep N s' (tree_add T d (next_id s is_file) name is_file es) ->
      leaves 3 2 s s' -> Q (next_id s is_file) s'
  end -> wp (add_directory_entry d name is_file) s Q X.
Proof.
  intros Env [W (h & V & R & S & I & Dr)] Hd Hu Hroom Hgen HQ. pose proof (dr_node _ _ _ Dr d _ Hd) as NR.
  pose proof (wf_utf8 _ _ _ W Hd) as Hutf. unfold next_id in HQ. rewrite (st_header _ _ _ _ _ _ _ S) in *.
  pose proof (st_ok _ _ _ _ _ _ _ S) as Hok. pose proof I as ((Hno & _) & (_ & Hb) & _).
  eapply (add_directory_entry_st (h := h) Env Hno (proj1 NR) Hroom Hgen); [exact S| |].
  - intros s' h' V' R' S' Hse Hchk HA. rewrite (name_error_check _ _ _ _ _ _ NR Hutf Hchk) in HQ.
    set (c := new_id) in *. pose proof (new_id_ok (is_file := is_file) Hgen Hok) as Hid.
    destruct Hchk as (Hv & HN & _).
    assert (Hk : kind c = if is_file then File else Directory).
    { apply kind_new. apply next_generation_spec. pose proof (sb_ok_generation Hok). lia. }
    destruct (na_fresh _ _ _ _ _ _ _ _ HA) as [_ Hsp].
    apply HQ; [eapply fs_rep_same; [| | |exact S']|].
    + apply tree_add_wf; try done.
      * eapply fresh_id; [exact Dr|done].
      * by apply (no_name NR Hutf).
      * intros E. apply (f_equal block_no) in E. simpl in E. lia.
    + apply (settled_idle h h' (next_generation (sb_generation h) is_file) 3); [done..|]. lia.
    + by eapply tree_add_rep.
    + destruct (next_generation_spec (sb_generation h) is_file) as [Hg _]; [pose proof (sb_ok_generation Hok); lia|].
      destruct (settled_leaves _ _ _ _ _ _ _ _ _ _ 3 S S' Hse ltac:(lia)) as (L1 & L2 & L3).
      split; [done|]. split; [lia|done].
  - intros x s' R' S' Hchk. rewrite (name_error_check _ _ _ _ _ _ NR Hutf Hchk) in HQ. apply HQ. by eapply fs_rep_same.
Qed.

(** ** Writing *)

Lemma tree_file_wf T f data data' : tree_wf T -> T !! f = Some (NFile data) -> tree_wf (<[f := NFile data']> T).
Proof.
  intros [WR WC WN WNs WO] Hf.
  assert (Hdir : forall d es, <[f := NFile data']> T !! d = Some (NDir es) -> T !! d = Some (NDir es)).
  { intros d es. destruct (decide (d = f)) as [->|]; [by rewrite lookup_insert_eq|by rewrite lookup_insert_ne]. }
  split.
  - destruct WR as [es HR]. exists es. rewrite lookup_insert_ne; [done|]. intros ->. congruence.
  - intros d es x H Hx. destruct (WC d es x (Hdir _ _ H) Hx) as [Hs ?]. split; [|done].
    apply lookup_insert_is_Some'. auto.
  - intros d es x H. by apply (WN d), Hdir.
  - intros d es H. by apply (WNs d), Hdir.
  - intros d1 d2 es1 es2 i1 i2 x1 x2 H1 H2. apply WO; by apply Hdir.
Qed.

(** A file with new content in its own blocks and in blocks from [e] on. *)
Lemma tree_file_rep V V' e e' T f data data' :
  tree_wf T -> disk_rep V e T -> T !! f = Some (NFile data) -> node_rep V' e' f (NFile data') ->
  (forall b, node_block V' f (NFile data') b -> file_block V (block_no f) (zlen data) b \/ e <= b) ->
  (forall b, b < e -> ~ file_block V (block_no f) (zlen data) b -> V' b = V b /\ b < e') ->
  parent_id (get_meta (V' (block_no f))) = parent_id (get_meta (V (block_no f))) ->
  disk_rep V' e' (<[f := NFile data']> T).
Proof.
  intros W Dr Hf NR' BN Hfr Hm.
  eapply (disk_rep_change V V' e e' T _ (file_block V (block_no f) (zlen data)) Dr Hfr).
  - intros id n0. destruct (decide (id = f)) as [->|Hne].
    + rewrite lookup_insert_eq. intros [= <-]. right. done.
    + rewrite lookup_insert_ne by done. intros H. left. by apply (unchanged_other V e T f (NFile data)).
  - intros i j n0 m b Hi Hj Hij Hui Huj.
    assert (Hor : forall k w, <[f := NFile data']> T !! k = Some w ->
      ~ unchanged V T (file_block V (block_no f) (zlen data)) k w -> k = f).
    { intros k w Hw Hu. destruct (decide (k = f)) as [|Hne]; [done|]. rewrite lookup_insert_ne in Hw by done.
      exfalso. apply Hu. by apply (unchanged_other V e T f (NFile data)). }
    exfalso. apply Hij. by rewrite (Hor i n0 Hi Hui), (Hor j m Hj Huj).
  - intros d es x H Hx.
    assert (Hd : T !! d = Some (NDir es)).
    { destruct (decide (d = f)) as [->|]; [by rewrite lookup_insert_eq in H|by rewrite lookup_insert_ne in H]. }
    destruct (tw_child _ W d es x Hd Hx) as [[c Hc] _]. rewrite <- (dr_parent _ _ _ Dr d es x Hd Hx).
    destruct (decide (x.2 = f)) as [->|Hne].
    + exact Hm.
    + destruct (unchanged_other _ _ _ _ _ _ _ Dr Hf Hc Hne) as [_ Hu].
      destruct (Hfr (block_no x.2)) as [-> _]; [|by apply Hu, node_block_self|done].
      apply (node_below _ _ _ _ _ (dr_node _ _ _ Dr _ _ Hc) (node_block_self V _ c)).
Qed.

Lemma tree_write_rep V V' e e' T f data sz' off n buf :
  tree_wf T -> disk_rep V e T -> T !! f = Some (NFile data) -> 0 <= off <= zlen data -> 0 <= sz' <= MAX_FILE_SIZE ->
  0 <= n <= zlen buf -> sz' = Z.max (zlen data) (off + Z.min n (sz' - off)) -> e <= e' ->
  file_written V V' e e' (block_no f) (zlen data) sz' off n buf ->
  disk_rep V' e' (<[f := NFile (patch (Z.to_nat off) (Z.to_nat (Z.min n (sz' - off))) buf data)]> T).
Proof.
  intros W Dr Hf Hoff Hmax Hn Hs He FW. destruct (dr_node _ _ _ Dr f _ Hf) as [FO HB].
  set (data' := patch _ _ buf data). unfold zlen in Hn, Hoff, Hs.
  assert (Hl : zlen data' = sz').
  { unfold zlen, data'. rewrite length_patch by lia. unfold zlen in Hs. lia. }
  pose proof (file_written_ok _ _ _ _ _ _ _ _ _ _ FO Hmax FW) as FO'.
  destruct FW as [(Sh & Hsp & Hbl) Hby Hfr Hm].
  assert (NR' : node_rep V' e' f (NFile data')).
  { simpl. rewrite Hl. split; [done|]. intros pos Hp. rewrite Hby by done. unfold data'.
    rewrite lookup_patch by lia. destruct (decide (off <= pos < off + n)) as [Hin|Hout].
    - rewrite decide_True by lia. f_equal. lia.
    - rewrite decide_False by lia. apply HB. unfold zlen. lia. }
  assert (BN : forall b, node_block V' f (NFile data') b -> file_block V (block_no f) (zlen data) b \/ e <= b).
  { simpl. rewrite Hl. intros b Hb. destruct (Hbl b Hb); [by left|lia]. }
  apply (tree_file_rep V V' e e' T f data); try done.
  - intros b Hb Hnp. split; [by apply Hfr|lia].
  - destruct Hm as [[-> _]| ->]; done.
Qed.

(** The file after [write]. *)
Definition write_data (off : Z) (buf data : bytes) : bytes :=
  let n := write_len (zlen data) off (zlen buf) in
  let sz' := write_size (zlen data) off (zlen buf) in
  patch (Z.to_nat off) (Z.to_nat (Z.min n (sz' - off))) buf data.

Lemma write_arith sz off len :
  0 <= off <= sz -> 0 <= len ->
  0 <= write_len sz off len <= len /\
  write_size sz off len = Z.max sz (off + Z.min (write_len sz off len) (write_size sz off len - off)).
Proof.
  intros Ho Hl. unfold write_len, write_size. destruct (Z.ltb_spec off sz).
  - destruct (Z.leb_spec sz 3968); dlia.
  - destruct (Z.leb_spec (sz + len) 3968); dlia.
Qed.

(** The file takes over as many bytes as are reported, unless an overwrite runs over its end in a data block. *)
Lemma write_data_count off buf data :
  0 <= off -> off = zlen data \/ off + zlen buf <= zlen data \/ off <= zlen data <= 3968 ->
  write_data off buf data = patch (Z.to_nat off) (Z.to_nat (write_len (zlen data) off (zlen buf))) buf data.
Proof.
  intros Ho Hc. unfold write_data. do 2 f_equal. unfold write_len, write_size. assert (0 <= zlen buf) by (unfold zlen; lia).
  destruct (Z.ltb_spec off (zlen data)); [destruct (Z.leb_spec (zlen data) 3968)|]; lia.
Qed.

Lemma write_rep N s T f data off buf (Q : Z -> fs -> Prop) (X : FsError -> fs -> Prop) :
  fs_rep N s T -> T !! f = Some (NFile data) -> room 3 (header (superblock s)) ->
  0 <= off -> zlen buf < 2 ^ 32 -> write_size (zlen data) off (zlen buf) <= MAX_FILE_SIZE ->
  off < zlen data \/ 0 < zlen buf \/ zlen data <= 3968 ->
  (forall s', off <= zlen data -> fs_rep N s' (<[f := NFile (write_data off buf data)]> T) -> leaves 3 0 s s' ->
     Q (write_len (zlen data) off (zlen buf)) s') ->
  (forall s', zlen data < off -> fs_rep N s' T -> X InvalidArgument s') ->
  wp (write f off buf) s Q X.
Proof.
  intros [W (h & V & R & S & I & Dr)] Hf Hroom Hoff Hbuf Hmax Hne HQ HX. destruct (dr_node _ _ _ Dr f _ Hf) as [FO HB].
  rewrite (st_header _ _ _ _ _ _ _ S) in *. pose proof I as ((Hno & _) & _ & Hseal).
  eapply (write_st FO Hno Hseal Hroom Hbuf); [exact S|done|exact Hmax|exact Hne| |].
  - intros Hle s' h' V' R' S' Hse FW.
    destruct (write_arith (zlen data) off (zlen buf) ltac:(lia) ltac:(unfold zlen; lia)) as [Hn Hs].
    pose proof (fw_grown _ _ _ _ _ _ _ _ _ _ FW) as (_ & Hsp & _).
    apply HQ; [done|eapply fs_rep_same; [| | |exact S']|].
    + by eapply tree_file_wf.
    + apply (settled_idle h h' (sb_generation h) 3); [done..|lia].
    + apply (tree_write_rep V V' (empty_area_start h)); try done; [|lia].
      split; [|exact Hmax]. unfold zlen in *. lia.
    + destruct (settled_leaves _ _ _ _ _ _ _ _ _ _ 3 S S' Hse ltac:(lia)) as (L1 & L2 & L3).
      split; [done|]. split; [lia|done].
  - intros s' R' S' Hlt. apply HX; [done|]. by eapply fs_rep_same.
Qed.

(** ** Removing *)

(** An entry is the first one, and the only one, with its identifier. *)
Lemma entry_first V e T d c name i es :
  tree_wf T -> T !! d = Some (NDir es) -> es !! i = Some (name, c) -> node_rep V e d (NDir es) ->
  first_entry V (block_no d) (zlen es) (pred_by_id c) (Z.of_nat i).
Proof.
  intros W Hd Hi ND. pose proof (lookup_lt_Some _ _ _ Hi) as Hlt.
  assert (Hp : forall j x, es !! j = Some x ->
    pred_by_id c (dir_entry V (block_no d) (zlen es) (Z.of_nat j)) = bool_decide (x.2 = c)).
  { intros j x Hx. destruct (entry_of ND j x Hx) as [E _]. unfold pred_by_id. by rewrite E. }
  split; [unfold zlen; lia|]. split; [rewrite (Hp _ _ Hi); by apply bool_decide_eq_true|].
  intros q Hq. destruct (entry_at_pos (es := es) q ltac:(unfold zlen; lia)) as [x Hx].
  rewrite <- (Z2Nat.id q) by lia. rewrite (Hp _ _ Hx). apply bool_decide_eq_false. intros E.
  destruct (tw_once _ W d d es es _ _ x (name, c) Hd Hd Hx Hi E). lia.
Qed.

Definition tree_remove (T : tree) (d c : EntryId) (i : nat) (es : list (bytes * EntryId)) : tree :=
  delete c (<[d := NDir (swap_remove i es)]> T).

Lemma tree_remove_lookup T d c i es id n :
  tree_remove T d c i es !! id = Some n ->
  id <> c /\ ((id = d /\ n = NDir (swap_remove i es)) \/ (id <> d /\ T !! id = Some n)).
Proof.
  unfold tree_remove. destruct (decide (id = c)) as [->|Hc]; [by rewrite lookup_delete_eq|].
  rewrite lookup_delete_ne by done. destruct (decide (id = d)) as [->|].
  - rewrite lookup_insert_eq. intros [= <-]. auto.
  - rewrite lookup_insert_ne by done. auto.
Qed.

Section TreeRemove.
Context {T : tree} {d c : EntryId} {name : bytes} {i : nat} {es : list (bytes * EntryId)} {n : node}.
Context (W : tree_wf T) (Hd : T !! d = Some (NDir es)) (Hi : es !! i = Some (name, c)).
Context (Hc : T !! c = Some n) (Hempty : n = NFile [] \/ n = NDir []).

Lemma removed_ne : d <> c.
Proof.
  intros ->. rewrite Hd in Hc. assert (E : n = NDir es) by congruence.
  destruct Hempty as [E0|E0]; rewrite E0 in E; [done|]. assert (es = []) by congruence. subst. done.
Qed.

Lemma index_lt : (i < length es)%nat.
Proof. by eapply lookup_lt_Some. Qed.

(** An entry of the new tree is an entry of the old one, not the removed one. *)
Lemma tree_remove_entry d' es' x :
  tree_remove T d c i es !! d' = Some (NDir es') -> x ∈ es' ->
  exists es0 j, T !! d' = Some (NDir es0) /\ es0 !! j = Some x /\ (d' = d -> es0 = es /\ j <> i) /\ x.2 <> c.
Proof.
  intros H Hx. destruct (tree_remove_lookup _ _ _ _ _ _ _ H) as [_ [[-> [= ->]]|[Hne Ht]]].
  - destruct (swap_remove_elem i es x index_lt Hx) as (j & Hj & Hxj). exists es, j.
    split; [done|]. split; [done|]. split; [done|]. intros E.
    destruct (tw_once _ W d d es es j i x (name, c) Hd Hd Hxj Hi E). done.
  - apply list_elem_of_lookup in Hx as [j Hxj]. exists es', j. split; [done|]. split; [done|]. split; [done|]. intros E.
    destruct (tw_once _ W d' d es' es j i x (name, c) Ht Hd Hxj Hi E). done.
Qed.

Lemma tree_remove_is_Some id : is_Some (T !! id) -> id <> c -> is_Some (tree_remove T d c i es !! id).
Proof.
  intros Hs Hne. unfold tree_remove. rewrite lookup_delete_ne by done. apply lookup_insert_is_Some'. auto.
Qed.

Lemma tree_remove_wf : tree_wf (tree_remove T d c i es).
Proof.
  pose proof W as [WR WC WN WNs WO]. pose proof removed_ne as Hne. pose proof index_lt as Hlt.
  assert (Hroot : c <> ROOT_DIR_ID) by (apply (WC d es (name, c) Hd); by eapply list_elem_of_lookup_2).
  split.
  - destruct WR as [es0 HR]. unfold tree_remove. rewrite lookup_delete_ne by done.
    destruct (decide (d = ROOT_DIR_ID)) as [->|]; [rewrite lookup_insert_eq|rewrite lookup_insert_ne by done]; eauto.
  - intros d' es' x H Hx. destruct (tree_remove_entry d' es' x H Hx) as (es0 & j & Ht & Hxj & _ & Hxc).
    destruct (WC d' es0 x Ht ltac:(by eapply list_elem_of_lookup_2)). split; [by apply tree_remove_is_Some|done].
  - intros d' es' x H Hx. destruct (tree_remove_entry d' es' x H Hx) as (es0 & j & Ht & Hxj & _ & Hxc).
    apply (WN d' es0); [done|by eapply list_elem_of_lookup_2].
  - intros d' es' H. destruct (tree_remove_lookup _ _ _ _ _ _ _ H) as [_ [[-> [= ->]]|[_ Ht]]]; [|by apply (WNs d')].
    apply NoDup_alt. intros j1 j2 y H1 H2.
    rewrite list_lookup_fmap in H1, H2. apply fmap_Some in H1 as (x1 & H1 & ->), H2 as (x2 & H2 & E).
    pose proof (lookup_lt_Some _ _ _ H1) as L1. pose proof (lookup_lt_Some _ _ _ H2) as L2.
    rewrite length_swap_remove in L1, L2 by done. rewrite lookup_swap_remove in H1, H2 by done.
    assert (Ej : (if decide (j1 = i) then length es - 1 else j1)%nat = (if decide (j2 = i) then length es - 1 else j2)%nat).
    { eapply (proj1 (NoDup_alt es.*1) (WNs d es Hd)); rewrite list_lookup_fmap; [by rewrite H1|rewrite H2; simpl; by rewrite E]. }
    destruct (decide (j1 = i)), (decide (j2 = i)); lia.
  - intros d1 d2 es1 es2 i1 i2 x1 x2 H1 H2 Hx1 Hx2 E.
    assert (Hpos : forall d' es' j x, tree_remove T d c i es !! d' = Some (NDir es') -> es' !! j = Some x ->
      exists es0 k, T !! d' = Some (NDir es0) /\ es0 !! k = Some x /\
        (if decide (d' = d) then (j < length es - 1)%nat /\ k = (if decide (j = i) then length es - 1 else j)%nat else k = j)).
    { intros d' es' j x H Hx. destruct (tree_remove_lookup _ _ _ _ _ _ _ H) as [_ [[-> [= ->]]|[Hne' Ht]]].
      - pose proof (lookup_lt_Some _ _ _ Hx) as L. rewrite length_swap_remove in L by done.
        rewrite lookup_swap_remove in Hx by done. eexists _, _. rewrite decide_True by done. done.
      - exists es', j. rewrite decide_False by done. done. }
    destruct (Hpos _ _ _ _ H1 Hx1) as (e1 & k1 & T1 & K1 & J1), (Hpos _ _ _ _ H2 Hx2) as (e2 & k2 & T2 & K2 & J2).
    destruct (WO _ _ _ _ _ _ _ _ T1 T2 K1 K2 E) as [-> ->]. split; [done|]. destruct (decide (d2 = d)); [|congruence].
    destruct J1 as [? J1], J2 as [? J2]. destruct (decide (i1 = i)), (decide (i2 = i)); lia.
Qed.

(** The node as [remove] sees it. *)
Lemma tree_removable V h :
  disk_rep V (empty_area_start h) T -> removable V h d c (zlen es) (Z.of_nat i).
Proof.
  intros Dr. pose proof (dr_node _ _ _ Dr _ _ Hc) as NC. pose proof (dr_node _ _ _ Dr _ _ Hd) as ND.
  pose proof W as [[es0 HR] WC _ _ WO]. pose proof index_lt as Hlt.
  assert (Hin : (name, c) ∈ es) by (by eapply list_elem_of_lookup_2).
  destruct (WC d es _ Hd Hin) as [_ Hnr]. simpl in Hnr. split.
  - apply ND.
  - destruct n; apply NC.
  - intros E. apply Hnr. by eapply disk_rep_meta.
  - eapply node_below; [exact NC|apply node_block_self].
  - by eapply node_valid.
  - destruct Hempty as [E|E]; rewrite E in NC; destruct NC as [O _]; [apply (fo_size _ _ _ _ O)|apply (do_size _ _ _ _ O)].
  - by apply (dr_parent _ _ _ Dr d es (name, c)).
  - intros Hb. apply (dr_apart _ _ _ Dr d c _ _ (block_no c) Hd Hc removed_ne); [done|apply node_block_self].
  - by eapply entry_first.
Qed.

Lemma tree_remove_rep V V' e e' :
  disk_rep V e T -> node_removed V V' e' d (eq (block_no c)) (zlen es) (Z.of_nat i) ->
  (forall b, e' <= b < e -> block_no c = b \/ dir_block V (block_no d) (zlen es) b) ->
  disk_rep V' e' (tree_remove T d c i es).
Proof.
  intros Dr [RP RE RF RM RB] Hsp. pose proof removed_ne as Hne. pose proof index_lt as Hlt.
  destruct (dr_node _ _ _ Dr _ _ Hd) as [DO HE].
  assert (Hl : zlen (swap_remove i es) = zlen es - 1) by (unfold zlen; rewrite length_swap_remove by done; lia).
  set (P := fun b => block_no c = b \/ dir_block V (block_no d) (zlen es) b).
  assert (HP : forall b, b < e -> ~ P b -> V' b = V b /\ b < e').
  { intros b Hb Hnp. split; [apply RF; intros ?; apply Hnp; [by left|by right]|].
    destruct (decide (b < e')); [done|]. exfalso. apply Hnp, Hsp. lia. }
  assert (Hoth : forall id m, T !! id = Some m -> id <> d -> id <> c -> unchanged V T P id m).
  { intros id m Hm Hnd Hnc. split; [done|]. intros b Hb [<-|Hb'].
    - apply (dr_apart _ _ _ Dr id c m n (block_no c) Hm Hc Hnc); [done|apply node_block_self].
    - by apply (dr_apart _ _ _ Dr id d m (NDir es) b Hm Hd Hnd). }
  eapply (disk_rep_change V V' e e' T _ P Dr HP).
  - intros id m H. destruct (tree_remove_lookup _ _ _ _ _ _ _ H) as [Hnc [[-> ->]|[Hnd Hm]]]; [right|left; by apply Hoth].
    simpl. rewrite Hl. split; [split; [done|]|intros b Hb; left; right; by apply RB].
    intros j x Hx. pose proof (lookup_lt_Some _ _ _ Hx) as L. rewrite length_swap_remove in L by done.
    rewrite lookup_swap_remove in Hx by done. rewrite RE by (unfold zlen; lia).
    destruct (decide (j = i)) as [->|].
    + rewrite decide_True by done. specialize (HE _ _ Hx). by replace (zlen es - 1) with (Z.of_nat (length es - 1)) by (unfold zlen; lia).
    + rewrite decide_False by lia. by apply HE.
  - intros i1 j1 n1 m1 b Hi1 Hj1 Hij Hu1 Hu2.
    assert (Hor : forall k w, tree_remove T d c i es !! k = Some w -> ~ unchanged V T P k w -> k = d).
    { intros k w Hw Hu. destruct (tree_remove_lookup _ _ _ _ _ _ _ Hw) as [Hnc [[-> _]|[Hnd Hm]]]; [done|].
      exfalso. by apply Hu, Hoth. }
    exfalso. apply Hij. by rewrite (Hor _ _ Hi1 Hu1), (Hor _ _ Hj1 Hu2).
  - intros d' es' x H Hx. destruct (tree_remove_entry d' es' x H Hx) as (es0 & j & Ht & Hxj & _ & Hxc).
    assert (Hx0 : x ∈ es0) by (by eapply list_elem_of_lookup_2).
    destruct (tw_child _ W d' es0 x Ht Hx0) as [[m Hm] _]. rewrite <- (dr_parent _ _ _ Dr d' es0 x Ht Hx0).
    destruct (decide (x.2 = d)) as [->|Hxd]; [by rewrite RM|].
    destruct (Hoth _ _ Hm Hxd Hxc) as [_ Hu]. destruct (HP (block_no x.2)) as [-> _]; [|by apply Hu, node_block_self|done].
    apply (node_below _ _ _ _ _ (dr_node _ _ _ Dr _ _ Hm) (node_block_self V _ m)).
Qed.
End TreeRemove.

Lemma remove_rep N s T d es i name c n (Q : unit -> fs -> Prop) X :
  fs_rep N s T -> T !! d = Some (NDir es) -> es !! i = Some (name, c) ->
  T !! c = Some n -> n = NFile [] \/ n = NDir [] ->
  free_blocks (header (superblock s)) + 3 <= sb_num_blocks (header (superblock s)) ->
  (forall s', fs_rep N s' (tree_remove T d c i es) -> Q tt s') -> wp (remove c) s Q X.
Proof.
  intros [W (h & V & R & S & I & Dr)] Hd Hi Hc He Hfree HQ. rewrite (st_header _ _ _ _ _ _ _ S) in Hfree.
  pose proof I as ((Hno & Hv & Hm) & (Hf & Hb) & Hseal).
  eapply remove_st; [exact S|exact Hno|by eapply tree_removable|lia|exact Hfree|].
  intros s' h' V' R' S' Hno' Hse' Hf' Hm' Hv' _ _ Hn' [Hsp Hsp'] NR. apply HQ.
  eapply fs_rep_same; [by eapply tree_remove_wf| |by eapply tree_remove_rep|exact S'].
  split; [split; [done|]; split; congruence|]. split; [|done]. split; [congruence|].
  pose proof (ds_parent _ _ _ _ (do_shape _ _ _ _ (nr_parent _ _ _ _ _ _ _ NR))). lia.
Qed.

(** ** Mounting *)

(** The tree depends on the used blocks only. *)
Lemma disk_rep_ext V V' e T : tree_wf T -> disk_rep V e T -> (forall b, 0 < b < e -> V' b = V b) -> disk_rep V' e T.
Proof.
  intros W Dr H.
  assert (HF : forall id n, T !! id = Some n ->
    node_rep V' e id n /\ forall b, node_block V' id n b <-> node_block V id n b).
  { intros id n Hn. pose proof (dr_node _ _ _ Dr _ _ Hn) as NR. apply (node_rep_frame V V' e); [done|].
    intros b Hb. pose proof (node_below _ _ _ _ _ NR Hb). split; [by apply H|lia]. }
  split.
  - intros id n Hn. by apply HF.
  - intros i j n m b Hi Hj Hij Hb1 Hb2. apply (dr_apart _ _ _ Dr i j n m b Hi Hj Hij); by apply HF.
  - intros d es x Hd Hx. rewrite <- (dr_parent _ _ _ Dr d es x Hd Hx).
    destruct (tw_child _ W d es x Hd Hx) as [[n Hn] _]. rewrite H; [done|].
    apply (node_below _ _ _ _ _ (dr_node _ _ _ Dr _ _ Hn) (node_block_self V _ n)).
Qed.

Lemma reopen_rep N s T :
  block_ok uninit_block -> fs_rep N s T ->
  exists s', open_fs (block_device (blockcache s)) = Ok s' /\ fs_rep N s' T.
Proof.
  intros Hu [W (h & V & R & S & I & Dr)]. pose proof I as (Hm & (_ & Hb) & Hseal).
  pose proof (st_cache _ _ _ _ _ _ _ S) as C. pose proof (st_geom _ _ _ _ _ _ _ S) as [Hg Hg'].
  set (d := block_device (blockcache s)) in *. pose proof (cr_num _ _ _ _ C) as HN. fold d in HN.
  destruct (open_fs_st d h (sb_rest (superblock s))) as (s' & Ho & S').
  - apply (cr_healthy _ _ _ _ C).
  - done.
  - apply (st_ok _ _ _ _ _ _ _ S).
  - done.
  - lia.
  - lia.
  - apply (st_rest _ _ _ _ _ _ _ S).
  - unfold d. rewrite (cr_super _ _ _ _ C), fupd_eq, Hseal. done.
  - exists s'. split; [done|]. rewrite Hseal, HN in S'. eapply fs_rep_same; [exact W|exact I| |exact S'].
    apply (disk_rep_ext V); [done|done|]. intros b Hb'. unfold d.
    rewrite (cache_rep_device _ _ _ b C); [by rewrite fupd_ne by lia|]. unfold cacheable. lia.
Qed.

Lemma fresh_tree_wf : tree_wf {[ROOT_DIR_ID := NDir []]}.
Proof.
  assert (H : forall d es, ({[ROOT_DIR_ID := NDir []]} : tree) !! d = Some (NDir es) -> es = []).
  { intros d es [_ E]%lookup_singleton_Some. congruence. }
  split.
  - exists []. apply lookup_singleton_eq.
  - intros d es x Hd Hx. rewrite (H d es Hd) in Hx. by apply elem_of_nil in Hx.
  - intros d es x Hd Hx. rewrite (H d es Hd) in Hx. by apply elem_of_nil in Hx.
  - intros d es Hd. rewrite (H d es Hd). apply NoDup_nil_2.
  - intros d1 d2 es1 es2 i1 i2 x1 x2 H1 _ Hx1. by rewrite (H d1 es1 H1) in Hx1.
Qed.

Lemma format_rep d :
  env_ok -> dev_healthy d -> 3 <= dev_num_blocks d < U64_MAX ->
  exists d' s, format d = (d', Ok tt) /\ open_fs d' = Ok s /\
    fs_rep (dev_num_blocks d) s {[ROOT_DIR_ID := NDir []]} /\
    header (superblock s) = sb_set_crc32 (fresh_header (dev_num_blocks d)).
Proof.
  intros Env Hh Hn. set (n := dev_num_blocks d) in *.
  destruct (wp_run format d (fun _ d' => dev_healthy d' /\ dev_num_blocks d' = n /\
     dev_contents d' 0 = sb_enc (sb_set_crc32 (fresh_header n)) ++ replicate 3992 Byte.x00 /\
     dev_contents d' 1 = root_block n)) as ([] & d' & Hf & Hh' & Hn' & H0 & H1).
  { apply format_st; [done|fold n; lia|]. intros d' ? ? ? ? _. done. }
  destruct (open_fs_st d' (fresh_header n) (replicate 3992 Byte.x00)) as (s & Ho & S); try done.
  - apply Env.
  - apply fresh_header_ok. unfold U64_MAX in *. lia.
  - rewrite Hn'. simpl. lia.
  - simpl. lia.
  - exists d', s. split; [done|]. split; [done|]. rewrite Hn' in S.
    split; [|apply (st_header _ _ _ _ _ _ _ S)]. eapply fs_rep_same; [apply fresh_tree_wf| | |exact S].
    + split; [done|]. split; [|apply sb_set_crc32_idem]. split; [done|]. simpl. lia.
    + assert (DO : dir_ok (dev_contents d') 2 ROOT_DIR_ID 0) by (apply (root_dir_ok _ n); [done|done|lia]).
      split.
      * intros id m [<- <-]%lookup_singleton_Some. split; [exact DO|done].
      * intros i j m m' b [<- <-]%lookup_singleton_Some [<- <-]%lookup_singleton_Some. done.
      * intros d0 es x [<- E]%lookup_singleton_Some Hx. simplify_eq. by apply elem_of_nil in Hx.
Qed.
End Ops.
