(* ===== verification/SrfsTruncate.v ===== *)
(** * Truncating files

    [set_file_size] drops the data blocks of a file one by one from its end, each in a
    transaction of its own, and gives back the link blocks and lists of link blocks that
    become empty; at the sizes where a file changes its shape, the links or the bytes that
    are left move back to the metadata block. *)

From stdpp Require Import base numbers list.
From coqutil Require Import Byte.
From S2P Require Import RustPrelude Crc32 SrfsLayout BlockDevice BlockCache SrfsFs SrfsState SrfsDir.
From S2P Require Import SrfsDirAdd SrfsNode SrfsDirRemove SrfsRemove SrfsFile SrfsFileWrite SrfsFileAppend SrfsTree SrfsTreeOps.

Open Scope Z_scope.

(** The blocks of a file besides its metadata block. *)
Definition n_total (sz : Z) : Z := n_blocks sz + n_l1 sz + n_l2 sz.

(** The blocks of the shorter file are the first ones of the longer file. *)
Record file_part (V V' : Z -> Block) (f sz sz' : Z) : Prop := {
  fp_data : forall k, 0 <= k < n_blocks sz' -> k < n_blocks sz /\ file_blk V' f sz' k = file_blk V f sz k;
  fp_link : forall i, 0 <= i < n_l1 sz' -> i < n_l1 sz /\ file_link V' f sz' i = file_link V f sz i;
  fp_list : forall i, 0 <= i < n_l2 sz' -> i < n_l2 sz /\ meta_link (V' f) i = meta_link (V f) i;
}.

Lemma file_block_below V e f sz b : file_shape V e f sz -> file_block V f sz b -> 0 < b < e.
Proof.
  intros Sh [->|[(k & Hk & ->)|[(i & Hi & ->)|(i & Hi & ->)]]];
    [apply Sh|by apply (fs_data _ _ _ _ Sh)|by apply (fs_link _ _ _ _ Sh)|by apply (fs_list _ _ _ _ Sh)].
Qed.

Section Truncate.
Context {D : Type} {Dev : SyncBlockDevice D} {DL : SyncBlockDeviceLaws D}.
Context {Crc : Crc32} {CL : Crc32Laws Crc} {Clk : Clock} {Unin : Uninit}.
Abbreviation fs := (SyncFileSystem D).

(** The file was cut from [sz] to [sz'] bytes, and the used area from [e] to [e'] blocks. *)
Record file_cut (V V' : Z -> Block) (e e' f sz sz' : Z) : Prop := {
  fc_shape : file_shape V' e' f sz';
  fc_blocks : forall b, file_block V' f sz' b -> file_block V f sz b;
  fc_bytes : forall pos, 0 <= pos < sz' -> file_byte V' f sz' pos = file_byte V f sz pos;
  fc_frame : forall b, ~ file_block V f sz b -> V' b = V b;
  fc_meta : get_meta (V' f) = get_meta (V f) /\ sz' = sz \/
    get_meta (V' f) = meta_set_crc32 (set_size sz' (get_meta (V f)));
  fc_space : e' <= e /\ forall b, e' <= b < e -> file_block V f sz b;
}.

Lemma meta_set_crc32_set_crc c m : meta_set_crc32 (set_m_crc c m) = meta_set_crc32 m.
Proof.
  unfold meta_set_crc32. change (Z.to_nat SIZE_OF_METADATA - 4)%nat with 124%nat. rewrite meta_enc_set_crc.
  by rewrite take_app_length' by (rewrite length_take, length_meta_enc; lia).
Qed.

Lemma file_cut_refl V e f sz : file_shape V e f sz -> file_cut V V e e f sz sz.
Proof. intros Sh. split; try done; [by left|]. split; [lia|]. intros. lia. Qed.

Lemma file_cut_trans V V1 V' e e1 e' f sz sz1 sz' :
  sz' <= sz1 -> file_cut V V1 e e1 f sz sz1 -> file_cut V1 V' e1 e' f sz1 sz' -> file_cut V V' e e' f sz sz'.
Proof.
  intros Hle [A1 A2 A3 A4 A5 [A6 A7]] [B1 B2 B3 B4 B5 [B6 B7]]. split.
  - done.
  - auto.
  - intros pos Hp. rewrite B3, A3 by lia. done.
  - intros b Hb. rewrite B4, A4; [done|done|]. intros H. by apply Hb, A2.
  - destruct B5 as [[-> ->]|B5]; [done|right]. rewrite B5. destruct A5 as [[-> _]| ->]; [done|].
    apply (meta_set_crc32_set_crc _ (set_size sz' (get_meta (V f)))).
  - split; [lia|]. intros b Hb. destruct (decide (b < e1)); [apply A2, B7; lia|apply A7; lia].
Qed.

Lemma file_cut_ok V V' e e' id sz sz' :
  file_ok V e id sz -> 0 <= sz' <= sz -> file_cut V V' e e' (block_no id) sz sz' -> file_ok V' e' id sz'.
Proof.
  intros [Hid Hv Hs Hm Sh] Hsz [Sh' _ _ _ Em _]. pose proof (validate_file_inv _ _ Hv) as [Hi Hk].
  destruct Em as [[Em ->]|Em]; (split; [done| | |lia|done]; rewrite Em; [|done]); [done|].
  set (m := set_size sz' (get_meta (V (block_no id)))). replace id with (m_id m) by exact Hi.
  apply validate_file_seal. change (kind (m_id (get_meta (V (block_no id)))) = File). by rewrite Hi.
Qed.

(** ** Cutting without giving back blocks *)

Section Pure.
Context {V V' : Z -> Block} {e f sz sz' : Z}.
Context (Sh : file_shape V e f sz) (Hsz : 0 <= sz' <= sz) (Hfr : forall b, b <> f -> V' b = V b).

Lemma file_cut_intro :
  get_meta (V' f) = meta_set_crc32 (set_size sz' (get_meta (V f))) -> file_part V V' f sz sz' ->
  (sz' <= 3968 -> forall pos, 0 <= pos < sz' -> file_byte V' f sz' pos = file_byte V f sz pos) ->
  file_cut V V' e e f sz sz'.
Proof.
  intros Hmeta [PD PL PLL] Hby.
  destruct (file_shape_extend V V' e e f sz sz' Sh) as (Sh' & _ & Hbl); [lia|..];
    [intros k Hk; left; by apply PD|intros i Hi; left; by apply PL|intros i Hi; left; by apply PLL|].
  split; [done| | | |by right|].
  - intros b Hb. destruct (Hbl b Hb); [done|lia].
  - intros pos Hp. destruct (Z.le_gt_cases sz' 3968); [by apply Hby|].
    unfold file_byte. rewrite !(proj2 (Z.leb_gt _ _)) by lia.
    assert (Hk : 0 <= pos / 4096 < n_blocks sz') by (rewrite n_blocks_eq by lia; dlia).
    destruct (PD _ Hk) as [Hk' ->]. rewrite Hfr; [done|]. apply (fs_data_meta _ _ _ _ Sh). lia.
  - intros b Hb. apply Hfr. intros ->. apply Hb. by left.
  - split; [lia|]. intros. lia.
Qed.

(** The blocks that are not used any more. *)
Section Dead.
Context (P : file_part V V' f sz sz').

Lemma cut_data k : 0 <= k -> n_blocks sz' <= k < n_blocks sz ->
  file_block V f sz (file_blk V f sz k) /\ ~ file_block V' f sz' (file_blk V f sz k).
Proof.
  intros Hk0 Hk. split; [right; left; exists k; lia|]. destruct P as [PD PL PLL].
  intros [E|[(k' & Hk' & E)|[(i & Hi & E)|(i & Hi & E)]]].
  - revert E. apply (fs_data_meta _ _ _ _ Sh). lia.
  - destruct (PD _ Hk') as [? E']. rewrite E' in E. apply (fs_data_inj _ _ _ _ Sh) in E; lia.
  - destruct (PL _ Hi) as [? E']. rewrite E' in E. revert E. apply (fs_data_link _ _ _ _ Sh); lia.
  - destruct (PLL _ Hi) as [? E']. rewrite E' in E. revert E. apply (fs_data_list _ _ _ _ Sh); lia.
Qed.

Lemma cut_link i : 0 <= i -> n_l1 sz' <= i < n_l1 sz ->
  file_block V f sz (file_link V f sz i) /\ ~ file_block V' f sz' (file_link V f sz i).
Proof.
  intros Hk0 Hk. split; [right; right; left; exists i; lia|]. destruct P as [PD PL PLL].
  intros [E|[(k' & Hk' & E)|[(j & Hi & E)|(j & Hi & E)]]].
  - revert E. apply (fs_link_meta _ _ _ _ Sh). lia.
  - destruct (PD _ Hk') as [? E']. rewrite E' in E. symmetry in E. revert E. apply (fs_data_link _ _ _ _ Sh); lia.
  - destruct (PL _ Hi) as [? E']. rewrite E' in E. apply (fs_link_inj _ _ _ _ Sh) in E; lia.
  - destruct (PLL _ Hi) as [? E']. rewrite E' in E. revert E. apply (fs_link_list _ _ _ _ Sh); lia.
Qed.

Lemma cut_list i : 0 <= i -> n_l2 sz' <= i < n_l2 sz ->
  file_block V f sz (meta_link (V f) i) /\ ~ file_block V' f sz' (meta_link (V f) i).
Proof.
  intros Hk0 Hk. split; [right; right; right; exists i; lia|]. destruct P as [PD PL PLL].
  intros [E|[(k' & Hk' & E)|[(j & Hi & E)|(j & Hi & E)]]].
  - revert E. apply (fs_list_meta _ _ _ _ Sh). lia.
  - destruct (PD _ Hk') as [? E']. rewrite E' in E. symmetry in E. revert E. apply (fs_data_list _ _ _ _ Sh); lia.
  - destruct (PL _ Hi) as [? E']. rewrite E' in E. symmetry in E. revert E. apply (fs_link_list _ _ _ _ Sh); lia.
  - destruct (PLL _ Hi) as [? E']. rewrite E' in E. apply (fs_list_inj _ _ _ _ Sh) in E; lia.
Qed.
End Dead.

Lemma counts_mono : n_blocks sz' <= n_blocks sz /\ n_l1 sz' <= n_l1 sz /\ n_l2 sz' <= n_l2 sz.
Proof.
  unfold n_blocks, n_l1, n_l2. split; [|split];
    repeat match goal with |- context [Z.leb ?a ?b] => destruct (Z.leb_spec a b) end; dlia.
Qed.

(** The shape does not change. *)
Lemma part_same :
  (sz' <=? 2031616) = (sz <=? 2031616) -> (sz' <=? 1040187392) = (sz <=? 1040187392) ->
  (forall i, 0 <= i -> meta_link (V' f) i = meta_link (V f) i) -> file_part V V' f sz sz'.
Proof.
  intros L1 L2 Hml. destruct counts_mono as (C1 & C2 & C3).
  assert (Hlk : forall i, 0 <= i < n_l1 sz -> file_link V' f sz' i = file_link V f sz i).
  { intros i Hi. unfold file_link. rewrite L2. destruct (Z.leb_spec sz 1040187392); [apply Hml; lia|].
    rewrite Hml by dlia. rewrite Hfr; [done|]. apply (fs_list_meta _ _ _ _ Sh), n_l2_link; [lia|done]. }
  split.
  - intros k Hk. split; [lia|]. destruct (Z.leb_spec sz 2031616).
    { unfold file_blk. rewrite L1, (proj2 (Z.leb_le _ _)) by done. apply Hml. lia. }
    apply Z.leb_gt in L1. assert (Hi : 0 <= k / 512 < n_l1 sz) by (apply n_l1_data; lia).
    pose proof (Hlk _ Hi) as E. pose proof (fs_link_meta _ _ _ _ Sh _ Hi) as Hne. destruct (Z.leb_spec sz 1040187392).
    + apply Z.leb_le in L2. rewrite !blk_l1 by lia. rewrite !flink_l1 in * by lia. by rewrite E, Hfr.
    + apply Z.leb_gt in L2. rewrite !blk_l2 by lia. by rewrite E, Hfr.
  - intros i Hi. split; [lia|apply Hlk; lia].
  - intros i Hi. split; [lia|apply Hml; lia].
Qed.

(** 497 data blocks to 496: the links move back to the metadata block. *)
Lemma part_to_data :
  sz' = 2031616 -> 2031616 < sz <= 1040187392 ->
  (forall j, 0 <= j < 496 -> meta_link (V' f) j = link (V (meta_link (V f) 0)) j) -> file_part V V' f sz sz'.
Proof.
  pose proof counts_mono as (C1 & C2 & C3). intros -> Hs Hml. split.
  - intros k Hk. split; [lia|]. change (n_blocks 2031616) with 496 in Hk. rewrite (blk_l1 V f sz) by lia.
    unfold file_blk. simpl. rewrite Hml by lia. replace (k / 512) with 0 by dlia. f_equal. dlia.
  - change (n_l1 2031616) with 0. lia.
  - change (n_l2 2031616) with 0. lia.
Qed.

(** 497 link blocks to 496. *)
Lemma part_to_single :
  sz' = 1040187392 -> 1040187392 < sz ->
  (forall j, 0 <= j < 496 -> meta_link (V' f) j = link (V (meta_link (V f) 0)) j) -> file_part V V' f sz sz'.
Proof.
  pose proof counts_mono as (C1 & C2 & C3). intros -> Hs Hml. change (n_l1 1040187392) with 496 in *.
  assert (Hlk : forall i, 0 <= i < 496 -> meta_link (V' f) i = file_link V f sz i).
  { intros i Hi. rewrite (flink_l2 V f sz), Hml by lia. replace (i / 512) with 0 by dlia. f_equal. dlia. }
  split.
  - intros k Hk. split; [lia|]. change (n_blocks 1040187392) with 253952 in Hk. rewrite blk_l1, (blk_l2 V f sz) by lia.
    rewrite Hlk by dlia. rewrite Hfr; [done|]. apply (fs_link_meta _ _ _ _ Sh). dlia.
  - intros i Hi. change (n_l1 1040187392) with 496 in Hi. split; [lia|]. rewrite flink_l1 by lia. by apply Hlk.
  - change (n_l2 1040187392) with 0. lia.
Qed.

(** The only data block moves back to the metadata block. *)
Lemma part_to_meta : sz' <= 3968 -> file_part V V' f sz sz'.
Proof.
  intros Hs. split; intros i Hi; exfalso; revert Hi; unfold n_blocks, n_l1, n_l2; rewrite (proj2 (Z.leb_le _ _)) by lia; lia.
Qed.

(** The bytes in the metadata block. *)
Lemma bytes_in_meta :
  sz <= 3968 -> V' f = resize sz' (V f) ->
  forall pos, 0 <= pos < sz' -> file_byte V' f sz' pos = file_byte V f sz pos.
Proof.
  intros Hs Hf pos Hp. unfold file_byte. rewrite !(proj2 (Z.leb_le _ _)) by lia. rewrite Hf.
  apply lookup_resize. lia.
Qed.

Lemma bytes_to_meta b :
  sz' <= 3968 -> 3968 < sz <= 4096 -> block_ok (V f) -> block_ok (V (meta_link (V f) 0)) ->
  b = resize sz' (V f) -> V' f = blit 128 (take 3968 (V (meta_link (V f) 0))) b ->
  forall pos, 0 <= pos < sz' -> file_byte V' f sz' pos = file_byte V f sz pos.
Proof.
  intros Hs Hs' Hok Hd -> Hf pos Hp. unfold file_byte, file_blk.
  rewrite (proj2 (Z.leb_le sz' 3968)), (proj2 (Z.leb_gt sz 3968)), (proj2 (Z.leb_le sz 2031616)) by lia.
  rewrite Hf. replace (pos / 4096) with 0 by dlia. replace (pos mod 4096) with pos by dlia.
  rewrite lookup_blit_in by (rewrite ?length_take, ?Hd, ?(resize_block_ok _ _ Hok); lia).
  rewrite lookup_take_lt by lia. f_equal. lia.
Qed.
End Pure.

(** The content of blocks that are not used any more does not matter. *)
Lemma file_cut_free V V1 V' e e' f sz sz' (dead : Z -> Prop) :
  file_cut V V1 e e f sz sz' -> (forall b, dead b -> file_block V f sz b /\ ~ file_block V1 f sz' b) ->
  (forall b, ~ dead b -> V' b = V1 b) -> e' <= e -> (forall b, e' <= b < e -> dead b) ->
  file_cut V V' e e' f sz sz'.
Proof.
  intros [A1 A2 A3 A4 A5 A6] Hd Hfr He He'.
  assert (Hk : forall b, file_block V1 f sz' b -> V' b = V1 b).
  { intros b Hb. apply Hfr. intros H. by apply (Hd b). }
  split.
  - apply (file_shape_frame Hk e); [done|]. intros b Hb. destruct (decide (b < e')); [done|exfalso].
    apply (Hd b); [|done]. apply He'. pose proof (file_block_below _ _ _ _ _ A1 Hb). lia.
  - intros b Hb. apply A2. by apply (file_block_frame Hk).
  - intros pos Hp. rewrite (file_byte_frame Hk) by done. by apply A3.
  - intros b Hb. rewrite Hfr; [by apply A4|]. intros H. by apply Hb, Hd.
  - by rewrite (frame_meta Hk).
  - split; [done|]. intros b Hb. by apply Hd, He'.
Qed.

(** ** Giving back blocks *)

(** The header between operations, after [n] blocks were given back. *)
Record shrunk (h h' : SuperblockHeader) (n : Z) : Prop := {
  sk_num : sb_num_blocks h' = sb_num_blocks h;
  sk_magic : magic h' = magic h;
  sk_version : version h' = version h;
  sk_generation : sb_generation h' = sb_generation h;
  sk_freelist : freelist_head h' = freelist_head h;
  sk_free : free_blocks h' = free_blocks h + n;
  sk_txn : no_txn h';
  sk_sealed : sealed h';
}.

Lemma shrunk_trans h h1 h2 n m : shrunk h h1 n -> shrunk h1 h2 m -> shrunk h h2 (n + m).
Proof. intros [] []. split; try congruence. lia. Qed.

(** [h1] is [h] with a transaction and blocks to free. *)
Record marked (h h1 : SuperblockHeader) : Prop := {
  ma_num : sb_num_blocks h1 = sb_num_blocks h;
  ma_magic : magic h1 = magic h;
  ma_version : version h1 = version h;
  ma_generation : sb_generation h1 = sb_generation h;
  ma_freelist : freelist_head h1 = freelist_head h;
  ma_free : free_blocks h1 = free_blocks h;
  ma_empty : empty_area_start h1 = empty_area_start h;
}.

(** Freeing a marked block, on a condition. *)
Lemma free_opt_gave N V0 h0 (dead : Z -> Prop) s h V (u : bool) t (Q : unit -> fs -> Prop) X :
  gave N V0 h0 dead s h V -> (u = true -> dead (txn_block t h) /\ blk_in h (txn_block t h)) ->
  free_blocks h + Z.b2z u <= sb_num_blocks h ->
  (forall s' h' V', gave N V0 h0 dead s' h' V' -> sb_num_blocks h' = sb_num_blocks h ->
     free_blocks h' = free_blocks h + Z.b2z u -> (forall t', t' <> t -> txn_block t' h' = txn_block t' h) -> Q tt s') ->
  wp (if u then free_txn_block t else ret tt) s Q X.
Proof.
  intros G Hd Hlt HQ. destruct u.
  - destruct (Hd eq_refl) as [Hdead Hin]. destruct (free_hdr_fields t h) as (F1 & F2 & F3).
    eapply free_gave; [exact G|done|done|simpl in Hlt; lia|]. intros s' V' G' _. eapply HQ; [exact G'|done|exact F2|].
    intros t' Hne. rewrite <- (F3 t' Hne). by destruct t'.
  - apply wp_ret. eapply HQ; [exact G|done|simpl; lia|done].
Qed.

(** ** The transactions *)

Lemma n_total_nonneg sz : 0 <= n_total sz.
Proof.
  unfold n_total, n_blocks, n_l1, n_l2.
  destruct (Z.leb_spec sz 3968), (Z.leb_spec sz 2031616), (Z.leb_spec sz 1040187392); dlia.
Qed.

Section Step.
Context {N : Z} {V : Z -> Block} {id : EntryId} {sz : Z} {h : SuperblockHeader}.
Abbreviation f := (block_no id).
Abbreviation e := (empty_area_start h).
Context (FO : file_ok V e id sz) (Hno : no_txn h) (He : e <= sb_num_blocks h).
Context (Hfree : free_blocks h + n_total sz <= sb_num_blocks h).

Definition cut_post (sz' : Z) (Q : unit -> fs -> Prop) : Prop :=
  forall s' h' V' R', fs_st N s' h' h' V' None R' -> shrunk h h' (n_total sz - n_total sz') ->
    file_cut V V' e (empty_area_start h') f sz sz' -> Q tt s'.

Lemma block_in h1 b : sb_num_blocks h1 = sb_num_blocks h -> file_block V f sz b -> blk_in h1 b.
Proof.
  intros E Hb. pose proof (file_block_below _ _ _ _ _ (fo_shape _ _ _ _ FO) Hb). unfold blk_in. lia.
Qed.

(** The end of each transaction: [fl] and [fll] say whether a link block and a
    list of link blocks are freed with the data block. *)
Lemma finish_st s h1 hd V1 R sz' (fl fll : bool) (Q : unit -> fs -> Prop) X :
  fs_st N s h1 hd V1 None R -> marked h h1 -> file_cut V V1 e e f sz sz' ->
  (forall t (u : bool), (t, u) ∈ [(Data, true); (Links, fl); (ListOfLinks, fll)] -> u = true ->
     file_block V f sz (txn_block t h1) /\ ~ file_block V1 f sz' (txn_block t h1)) ->
  1 + Z.b2z fl + Z.b2z fll = n_total sz - n_total sz' -> cut_post sz' Q ->
  wp (free_txn_block Data;;; (if fl then free_txn_block Links else ret tt);;;
      (if fll then free_txn_block ListOfLinks else ret tt);;; commit_txn) s Q X.
Proof.
  intros S [M1 M2 M3 M4 M5 M6 M7] FC Hd Hn HQ. pose proof (n_total_nonneg sz') as Hpos.
  assert (Hb : 0 <= Z.b2z fl /\ 0 <= Z.b2z fll) by (destruct fl, fll; simpl; lia).
  set (dead := fun b => file_block V f sz b /\ ~ file_block V1 f sz' b).
  assert (Hdead : forall h2 t (u : bool), sb_num_blocks h2 = sb_num_blocks h -> txn_block t h2 = txn_block t h1 ->
    (t, u) ∈ [(Data, true); (Links, fl); (ListOfLinks, fll)] -> u = true ->
    dead (txn_block t h2) /\ blk_in h2 (txn_block t h2)).
  { intros h2 t u E Et Hin Hu. rewrite Et. pose proof (Hd t u Hin Hu) as H. split; [exact H|].
    apply block_in; [done|apply H]. }
  wp_step. apply (free_opt_gave N V1 h1 dead s h1 V1 true Data); [by eapply gave_nothing| |simpl; lia|].
  { apply Hdead; [done|done|]. rewrite !elem_of_cons; auto. }
  intros s2 h2 V2 G2 N2 F2 T2. simpl in F2. wp_step.
  eapply free_opt_gave; [exact G2| |lia|].
  { apply Hdead; [congruence|by apply T2|]. rewrite !elem_of_cons; auto. }
  intros s3 h3 V3 G3 N3 F3 T3. wp_step. eapply free_opt_gave; [exact G3| |lia|].
  { apply Hdead; [congruence|rewrite T3 by done; by apply T2|]. rewrite !elem_of_cons; auto. }
  intros s4 h4 V4 G4 N4 F4 T4. pose proof G4 as [(hd4 & R4 & S4) Fr B M Ve Ge [Sp Sp']].
  eapply commit_txn_st; [exact S4|]. intros s5 S5. rewrite M7 in Sp, Sp'.
  eapply HQ; [exact S5| |].
  - split; [change (sb_num_blocks h4 = sb_num_blocks h)|change (magic h4 = magic h)|change (version h4 = version h)|
      change (sb_generation h4 = sb_generation h)|change (freelist_head h4 = freelist_head h)|
      change (free_blocks h4 = free_blocks h + (n_total sz - n_total sz'))|done|apply sb_set_crc32_idem]; try congruence.
    lia.
  - apply (file_cut_free V V1 V4 e _ f sz sz' dead FC); done.
Qed.

Lemma set_meta_size_st s h1 hd V1 R v (Q : unit -> fs -> Prop) X :
  fs_st N s h1 hd V1 None R -> blk_in h1 f -> f ∈ R ->
  (forall s', fs_st N s' h1 hd (fupd V1 f (resize v (V1 f))) None (use f R) -> Q tt s') ->
  wp (set_meta_size id v) s Q X.
Proof.
  intros S Hin HR HQ. unfold set_meta_size. wp_step. eapply c_get_mut_st; [exact S|done|done|]. intros s1 S1. wp_step.
  eapply c_set_st; [exact S1|done|by eapply resize_block_ok, st_block_ok|]. intros s2 S2.
  by eapply c_write_st; [exact S2|done|].
Qed.

(** The beginning of each transaction. *)
Lemma begin_st s hd R b lb llb (fl fll : bool) mid (k : eff fs FsError unit) (Q : unit -> fs -> Prop) X :
  fs_st N s h hd V None R -> f ∈ R -> is_u64 b -> is_u64 lb -> is_u64 llb ->
  (forall s' h1 hd1, fs_st N s' h1 hd1 (fupd V f (resize mid (V f))) None (use f R) -> marked h h1 ->
     txn_block Data h1 = b -> (fl = true -> txn_block Links h1 = lb) ->
     (fll = true -> txn_block ListOfLinks h1 = llb) -> wp k s' Q X) ->
  wp (start_txn TXN_TYPE_REMOVE_BYTES id;;; upd_hdr (upd_txn_block Data b);;;
      (if fl then upd_hdr (upd_txn_block Links lb) else ret tt);;;
      (if fll then upd_hdr (upd_txn_block ListOfLinks llb) else ret tt);;;
      save_superblock;;; set_meta_size id mid;;; k) s Q X.
Proof.
  intros S HR Hb Hlb Hllb HQ. pose proof (fo_id _ _ _ _ FO) as [Hid _]. wp_step.
  eapply start_txn_st; [exact S|exact Hno|exact Hid|done|]. intros s1 S1. wp_step.
  pose proof (st_ok _ _ _ _ _ _ _ S1) as O1.
  eapply (wp_upd_hdr _ _ _ _ _ _ _ (upd_txn_block Data b)); [exact S1|by apply upd_txn_block_ok|done|]. intros s2 S2.
  pose proof (st_ok _ _ _ _ _ _ _ S2) as O2. set (h2 := upd_txn_block Data b _) in S2, O2.
  assert (L3 : forall s3 h3 hd3, fs_st N s3 h3 hd3 V None R -> marked h h3 -> txn_block Data h3 = b ->
     (fl = true -> txn_block Links h3 = lb) -> (fll = true -> txn_block ListOfLinks h3 = llb) ->
     wp (save_superblock;;; set_meta_size id mid;;; k) s3 Q X).
  { intros s3 h3 hd3 S3 M3 E1 E2 E3. wp_step. eapply save_superblock_st; [exact S3|]. intros s4 S4. wp_step.
    eapply set_meta_size_st; [exact S4| |done|].
    { apply block_in; [apply M3|by left]. }
    intros s5 S5. eapply HQ; [exact S5|by destruct M3; split|done|done|done]. }
  wp_step. destruct fl;
    [eapply (wp_upd_hdr _ _ _ _ _ _ _ (upd_txn_block Links lb)); [exact S2|by apply upd_txn_block_ok|done|]; intros s3 S3
    |apply wp_ret];
    (wp_step; destruct fll;
      [eapply (wp_upd_hdr _ _ _ _ _ _ _ (upd_txn_block ListOfLinks llb));
         [eassumption|by repeat apply upd_txn_block_ok|done|]; intros s4 S4
      |apply wp_ret]);
    (eapply L3; [eassumption|by split|done|done|done]).
Qed.

Lemma links_to_meta_st s h1 hd V1 R lb (Q : unit -> fs -> Prop) X :
  fs_st N s h1 hd V1 None R -> blk_in h1 f -> blk_in h1 lb -> lb ∈ R -> f ∈ take 15 R ->
  (forall s' blk R', fs_st N s' h1 hd (fupd V1 f blk) None R' ->
     (forall j, 0 <= j < 496 -> meta_link blk j = link (V1 lb) j) -> get_meta blk = get_meta (V1 f) -> Q tt s') ->
  wp (links_to_meta id lb) s Q X.
Proof.
  intros S Hf Hlb HR HR' HQ. unfold links_to_meta. wp_step. eapply c_get_st; [exact S|done|done|]. intros s1 S1. wp_step.
  eapply c_get_mut_st; [exact S1|done|eapply in_take, (use_in _ 15); [lia|done]|]. intros s2 S2.
  destruct (copy_links_in_spec 496 (V1 lb) (V1 f)) as (blk & Hcp & Hbok & Hcopy & Hbm);
    [by eapply st_block_ok|by eapply st_block_ok|lia|].
  wp_step. change (Z.to_nat MAX_LINKS_IN_META_BLOCK) with 496%nat. rewrite Hcp. clear Hcp. wp_steps.
  eapply c_set_st; [exact S2|done|done|]. intros s3 S3. wp_steps.
  eapply c_write_st; [exact S3|done|]. intros s4 S4. by eapply HQ.
Qed.

Lemma block_u64 s hd R b : fs_st N s h hd V None R -> file_block V f sz b -> is_u64 b.
Proof.
  intros S Hb. destruct (block_in h b eq_refl Hb). destruct (st_geom _ _ _ _ _ _ _ S) as [_ Hg].
  unfold U64_MAX in Hg. unfold is_u64. lia.
Qed.

Lemma freed_cases (P : BlockType -> Prop) (fl fll : bool) :
  P Data -> (fl = true -> P Links) -> (fll = true -> P ListOfLinks) ->
  forall t (u : bool), (t, u) ∈ [(Data, true); (Links, fl); (ListOfLinks, fll)] -> u = true -> P t.
Proof.
  intros H1 H2 H3 t u Hin Hu. rewrite !elem_of_cons in Hin.
  destruct Hin as [[= -> ->]|[[= -> ->]|[[= -> ->]|Hin]]]; [done|auto|auto|by apply elem_of_nil in Hin].
Qed.

(** The metadata block after the new size was set. *)
Lemma resized_meta s hd R mid :
  fs_st N s h hd V None R -> 0 <= mid <= sz ->
  get_meta (fupd V f (resize mid (V f)) f) = meta_set_crc32 (set_size mid (get_meta (V f))).
Proof.
  intros S Hm. pose proof (fo_max _ _ _ _ FO) as Hmax. change MAX_FILE_SIZE with 532575944704 in Hmax. rewrite fupd_eq.
  apply get_meta_resize; [unfold is_u64; lia|]. eapply st_block_ok; [exact S|]. apply block_in; [done|by left].
Qed.

Lemma resized_other mid b : b <> f -> fupd V f (resize mid (V f)) b = V b.
Proof. intros. by apply fupd_ne. Qed.

Lemma resized_links mid i : 0 <= i -> meta_link (fupd V f (resize mid (V f)) f) i = meta_link (V f) i.
Proof. intros. rewrite fupd_eq. by apply meta_link_resize. Qed.

(** Only the size changes. *)
Lemma set_size_st s hd R sz' (Q : unit -> fs -> Prop) X :
  fs_st N s h hd V None R -> f ∈ R -> 0 <= sz' <= sz -> n_blocks sz' = n_blocks sz -> (sz' <= 3968 -> sz <= 3968) ->
  (forall s' V' R', fs_st N s' h hd V' None R' -> n_total sz' = n_total sz -> file_cut V V' e e f sz sz' -> Q tt s') ->
  wp (set_meta_size id sz') s Q X.
Proof.
  intros S HR Hsz Hnb Hm HQ. eapply set_meta_size_st; [exact S|apply block_in; [done|by left]|done|]. intros s1 S1.
  assert (Hc : sz <= 3968 \/ 3968 < sz' /\ (sz' <=? 2031616) = (sz <=? 2031616) /\
                 (sz' <=? 1040187392) = (sz <=? 1040187392) /\ n_total sz' = n_total sz).
  { destruct (Z.le_gt_cases sz 3968); [by left|right]. split; [lia|]. unfold n_total. rewrite Hnb.
    rewrite !n_blocks_eq in Hnb by lia. unfold n_l1, n_l2.
    destruct (Z.leb_spec sz' 2031616), (Z.leb_spec sz 2031616), (Z.leb_spec sz' 1040187392),
      (Z.leb_spec sz 1040187392); try done; dlia. }
  eapply HQ; [exact S1| |].
  - destruct Hc as [Hs|(_ & _ & _ & ?)]; [|done]. unfold n_total, n_blocks, n_l1, n_l2.
    by rewrite !(proj2 (Z.leb_le _ _)) by lia.
  - apply file_cut_intro; [exact (fo_shape _ _ _ _ FO)|done|apply resized_other|by eapply resized_meta| |].
    + destruct Hc as [Hs|(_ & L1 & L2 & _)]; [apply part_to_meta; lia|].
      apply (part_same (fo_shape _ _ _ _ FO)); [done|apply resized_other|done|done|apply resized_links].
    + intros Hs. destruct Hc as [Hc|[Hc _]]; [|lia]. apply bytes_in_meta; [done|done|apply fupd_eq].
Qed.

Section DataBlocks.
Context {mid : Z} (Hs : 3968 < sz <= 2031616).
Context (Hmid : 4096 < sz /\ mid = 4096 * ((sz - 1) / 4096) \/ sz <= 4096 /\ 0 <= mid <= 3968).

Lemma data_counts :
  n_blocks mid = n_blocks sz - 1 /\ mid / 4096 = n_blocks sz - 1 /\ n_total sz - n_total mid = 1.
Proof.
  unfold n_total, n_l1, n_l2. rewrite !(proj2 (Z.leb_le _ _)) by dlia. rewrite (n_blocks_eq sz) by lia.
  assert (E : n_blocks mid = (sz + 4095) / 4096 - 1); [|dlia]. unfold n_blocks.
  destruct (Z.leb_spec mid 3968); dlia.
Qed.

Lemma data_last k : file_blk V f sz k = meta_link (V f) k.
Proof. unfold file_blk. by rewrite (proj2 (Z.leb_le _ _)) by lia. Qed.

(** The bytes left move back to the metadata block. *)
Lemma data_to_meta_st s h1 hd R (Q : unit -> fs -> Prop) X :
  fs_st N s h1 hd (fupd V f (resize mid (V f))) None (use f R) -> sb_num_blocks h1 = sb_num_blocks h ->
  block_ok (V f) ->
  (forall s' V' R', fs_st N s' h1 hd V' None R' -> file_part V V' f sz mid -> file_cut V V' e e f sz mid -> Q tt s') ->
  wp (if (mid <=? MAX_BYTES_IN_META_BLOCK) && (0 <? mid) then
        let* data := c_read (meta_link (V f) (mid / 4096)) in
        let* mblk := c_get_mut f in
        c_set (blit (Z.to_nat SIZE_OF_METADATA) (take (Z.to_nat MAX_BYTES_IN_META_BLOCK) data) mblk);;;
        c_write f
      else ret tt) s Q X.
Proof.
  intros S E Hok HQ. pose proof (fo_shape _ _ _ _ FO) as Sh. destruct data_counts as (C1 & C2 & C3).
  assert (Hu : is_u64 mid) by (unfold is_u64; dlia). set (V1 := fupd V f (resize mid (V f))) in *.
  assert (Hm1 : get_meta (V1 f) = meta_set_crc32 (set_size mid (get_meta (V f))))
    by (unfold V1; rewrite fupd_eq; by apply get_meta_resize).
  assert (Hfr1 : forall b, b <> f -> V1 b = V b) by (intros; by apply fupd_ne).
  change MAX_BYTES_IN_META_BLOCK with 3968. destruct (Z.leb_spec mid 3968) as [Hle|Hgt], (Z.ltb_spec 0 mid) as [Hp|Hz]; simpl.
  - assert (Hb : file_block V f sz (meta_link (V f) 0)).
    { replace 0 with (mid / 4096) by dlia. rewrite <- data_last. right. left. exists (mid / 4096). split; [dlia|done]. }
    replace (mid / 4096) with 0 in * by dlia.
    assert (Hne : meta_link (V f) 0 <> f).
    { pose proof (fs_data_meta _ _ _ _ Sh 0 ltac:(lia)) as H. by rewrite data_last in H. }
    wp_step. eapply c_read_st; [exact S|by apply block_in|]. intros s1 S1. wp_step. rewrite Hfr1 by done.
    eapply c_get_mut_st; [exact S1|apply block_in; [done|by left]|in_recent|]. intros s2 S2. wp_step.
    assert (Hok1 : block_ok (V1 f)) by (unfold V1; rewrite fupd_eq; by apply resize_block_ok).
    assert (Hokd : block_ok (V (meta_link (V f) 0))).
    { rewrite <- Hfr1 by done. eapply st_block_ok; [exact S|by apply block_in]. }
    eapply c_set_st; [exact S2|apply block_in; [done|by left]|unfold block_ok; by rewrite length_blit|].
    intros s3 S3. eapply c_write_st; [exact S3|apply block_in; [done|by left]|]. intros s4 S4.
    eapply HQ; [exact S4|by apply part_to_meta|]. apply file_cut_intro; [exact Sh|dlia| | |by apply part_to_meta|].
    + intros b Hbf. rewrite fupd_ne by done. by apply Hfr1.
    + rewrite fupd_eq. unfold get_meta at 1. rewrite take_blit_other by (change (Z.to_nat SIZE_OF_METADATA) with 128%nat; lia). exact Hm1.
    + intros _. eapply (bytes_to_meta (V1 f)); [done|lia|done|done|unfold V1; by rewrite fupd_eq|by rewrite fupd_eq].
  - apply wp_ret. eapply HQ; [exact S|by apply part_to_meta|].
    apply file_cut_intro; [exact Sh|dlia|done|done|by apply part_to_meta|lia].
  - apply wp_ret. assert (P : file_part V V1 f sz mid).
    { apply (part_same Sh); [dlia|done| | |apply resized_links]; by rewrite !(proj2 (Z.leb_le _ _)) by dlia. }
    eapply HQ; [exact S|exact P|]. apply file_cut_intro; [exact Sh|dlia|done|done|done|lia].
  - lia.
Qed.

Lemma truncate_data_blocks_st s hd R (Q : unit -> fs -> Prop) X :
  fs_st N s h hd V None R -> f ∈ take 14 R -> cut_post mid Q -> wp (truncate_data_blocks id mid) s Q X.
Proof.
  intros S HR HQ. pose proof (fo_shape _ _ _ _ FO) as Sh. destruct data_counts as (C1 & C2 & C3).
  assert (Hf : file_block V f sz f) by (by left). pose proof (in_take _ _ _ HR) as HR'.
  pose proof (fs_data _ _ _ _ Sh (mid / 4096) ltac:(dlia)) as Hb. rewrite data_last in Hb.
  assert (Hb' : file_block V f sz (meta_link (V f) (mid / 4096))).
  { rewrite <- data_last. right. left. exists (mid / 4096). split; [dlia|done]. }
  unfold truncate_data_blocks. wp_step. eapply c_get_st; [exact S|by apply block_in|done|]. intros s1 S1.
  rewrite shiftr_12 by dlia. rewrite get_link_meta by link_side. fold (meta_link (V f) (mid / 4096)). wp_step. wp_step.
  eapply (begin_st _ _ _ _ 0 0 false false); [exact S1|in_recent|by eapply block_u64|done|done|].
  intros s2 h2 hd2 S2 M2 Ed _ _. wp_step.
  eapply data_to_meta_st; [exact S2|apply M2|eapply st_block_ok; [exact S|by apply block_in]|]. intros s3 V3 R3 S3 P FC.
  eapply (finish_st _ _ _ _ _ _ false false); [exact S3|exact M2|exact FC| |simpl; lia|exact HQ].
  apply freed_cases; [|done|done].
  rewrite Ed, <- data_last. apply (cut_data Sh P); dlia.
Qed.
End DataBlocks.

Section Levels.
Context {mid : Z} (Hs : 2031616 < sz) (Hmid : mid = 4096 * ((sz - 1) / 4096)).

Lemma mid_range : 2031616 <= mid < sz /\ sz <= 532575944704.
Proof. pose proof (fo_max _ _ _ _ FO) as H. change MAX_FILE_SIZE with 532575944704 in H. dlia. Qed.

Lemma last_data : 0 <= mid / 4096 < n_blocks sz /\ n_blocks mid = mid / 4096 /\ n_blocks sz = mid / 4096 + 1.
Proof. pose proof mid_range. rewrite !n_blocks_eq by lia. dlia. Qed.

Lemma last_link :
  0 <= mid / 2097152 < n_l1 sz /\
  n_l1 sz - n_l1 mid = Z.b2z ((mid / 4096 mod 512 =? 0) || (mid =? 2031616)) /\
  ((mid / 4096 mod 512 =? 0) || (mid =? 2031616) = true -> n_l1 mid <= mid / 2097152).
Proof.
  pose proof mid_range. rewrite (n_l1_eq sz) by lia. split; [dlia|]. unfold n_l1. destruct (Z.eqb_spec mid 2031616) as [->|].
  - rewrite orb_true_r. simpl. dlia.
  - rewrite orb_false_r, (proj2 (Z.leb_gt _ _)) by lia. destruct (Z.eqb_spec (mid / 4096 mod 512) 0); simpl; dlia.
Qed.

Lemma last_list :
  1040187392 < sz ->
  let last := (mid / 4096 mod 512 =? 0) && ((mid / 2097152 mod 512 =? 0) || (mid =? 1040187392)) in
  0 <= mid / 1073741824 < n_l2 sz /\ n_l2 sz - n_l2 mid = Z.b2z last /\
  (last = true -> n_l2 mid <= mid / 1073741824).
Proof.
  intros H2 last. pose proof mid_range. rewrite (n_l2_eq sz) by lia. split; [dlia|]. subst last. unfold n_l2.
  destruct (Z.eqb_spec mid 1040187392) as [->|].
  - simpl. dlia.
  - rewrite orb_false_r, (proj2 (Z.leb_gt _ _)) by dlia.
    destruct (Z.eqb_spec (mid / 4096 mod 512) 0), (Z.eqb_spec (mid / 2097152 mod 512) 0); simpl; dlia.
Qed.

(** The blocks of the last data block's path. *)
Lemma path_blocks :
  file_block V f sz f /\ file_block V f sz (file_blk V f sz (mid / 4096)) /\
  file_block V f sz (file_link V f sz (mid / 2097152)).
Proof.
  pose proof last_data. pose proof last_link. split; [by left|]. split.
  - right. left. exists (mid / 4096). split; [lia|done].
  - right. right. left. exists (mid / 2097152). split; [lia|done].
Qed.

Lemma single_counts : sz <= 1040187392 ->
  1 + Z.b2z ((mid / 4096 mod 512 =? 0) || (mid =? 2031616)) + Z.b2z false = n_total sz - n_total mid.
Proof.
  intros H. pose proof last_data. pose proof last_link. pose proof mid_range. unfold n_total.
  rewrite !n_l2_small by lia. simpl (Z.b2z false). lia.
Qed.

(** The end of a transaction in a file that keeps its shape, and in one whose
    links move back. *)
Section Ending.
Context {h1 : SuperblockHeader} (M : marked h h1) {s0 : fs} {hd0 : SuperblockHeader} {R0 : list Z}.
Context (S0 : fs_st N s0 h hd0 V None R0).

Lemma levels_same_st s hd1 R (k : eff fs FsError unit) (Q : unit -> fs -> Prop) X :
  fs_st N s h1 hd1 (fupd V f (resize mid (V f))) None R ->
  (mid <=? 2031616) = (sz <=? 2031616) -> (mid <=? 1040187392) = (sz <=? 1040187392) ->
  (forall s' V' R', fs_st N s' h1 hd1 V' None R' -> file_part V V' f sz mid -> file_cut V V' e e f sz mid -> wp k s' Q X) ->
  wp (ret tt;;; k) s Q X.
Proof.
  intros S L1 L2 HQ. pose proof mid_range. wp_steps.
  assert (P : file_part V (fupd V f (resize mid (V f))) f sz mid).
  { apply (part_same (fo_shape _ _ _ _ FO)); [lia|apply resized_other|done|done|apply resized_links]. }
  eapply HQ; [exact S|exact P|].
  apply file_cut_intro; [exact (fo_shape _ _ _ _ FO)|lia|apply resized_other|eapply resized_meta; [exact S0|lia]|exact P|lia].
Qed.

Lemma levels_change_st s hd1 R lb (k : eff fs FsError unit) (Q : unit -> fs -> Prop) X :
  fs_st N s h1 hd1 (fupd V f (resize mid (V f))) None R -> lb = meta_link (V f) 0 -> lb <> f -> file_block V f sz lb ->
  lb ∈ R -> f ∈ take 15 R ->
  sz <= 1040187392 /\ mid = 2031616 \/ 1040187392 < sz /\ mid = 1040187392 ->
  (forall s' V' R', fs_st N s' h1 hd1 V' None R' -> file_part V V' f sz mid -> file_cut V V' e e f sz mid -> wp k s' Q X) ->
  wp (links_to_meta id lb;;; k) s Q X.
Proof.
  intros S El Hne Hlb HR HR' Hc HQ. pose proof mid_range. pose proof (fo_shape _ _ _ _ FO) as Sh. wp_step.
  eapply links_to_meta_st; [exact S|apply block_in; [apply M|by left]|by apply block_in; [apply M|]|done|done|].
  intros s2 blk R2 S2 Hcp Hm. rewrite resized_other in Hcp by done. rewrite (resized_meta _ _ _ mid S0) in Hm by lia.
  set (V2 := fupd _ f blk) in S2.
  assert (Hfr : forall b, b <> f -> V2 b = V b) by (intros; unfold V2; rewrite !fupd_ne by done; done).
  assert (Ef : V2 f = blk) by (unfold V2; apply fupd_eq).
  assert (P : file_part V V2 f sz mid).
  { rewrite <- Ef in Hcp. rewrite El in Hcp. destruct Hc as [[? E]|[? E]].
    - apply (part_to_data (sz' := mid)); [lia|done|lia|done].
    - apply (part_to_single Sh (sz' := mid)); [lia|done|done|lia|done]. }
  eapply HQ; [exact S2|exact P|]. apply file_cut_intro; [exact Sh|lia|done|by rewrite Ef|exact P|lia].
Qed.
End Ending.

(** One level of link blocks. *)
Lemma truncate_single_level_st s hd R (Q : unit -> fs -> Prop) X :
  fs_st N s h hd V None R -> f ∈ take 8 R -> sz <= 1040187392 -> cut_post mid Q ->
  wp (truncate_single_level id mid) s Q X.
Proof.
  intros S HR H1 HQ. pose proof (fo_shape _ _ _ _ FO) as Sh. pose proof mid_range as Hm. pose proof last_data as (Hk & Hn1 & Hn2).
  pose proof last_link as (Hi & Hl1 & Hl2). destruct path_blocks as (Bf & Bd & Bl). pose proof (in_take _ _ _ HR) as HR'.
  pose proof (single_counts H1) as Hcnt.
  assert (Ed : link (V (meta_link (V f) (mid / 2097152))) (mid / 4096 mod 512) = file_blk V f sz (mid / 4096)).
  { rewrite blk_l1 by lia. by replace (mid / 4096 / 512) with (mid / 2097152) by dlia. }
  rewrite flink_l1 in Bl by lia. set (lb := meta_link (V f) (mid / 2097152)) in *.
  unfold truncate_single_level. wp_step. eapply c_get_st; [exact S|by apply block_in|done|]. intros s1 S1.
  rewrite shiftr_l1' by lia. rewrite get_link_meta by link_side. fold (meta_link (V f) (mid / 2097152)). fold lb.
  wp_step. wp_step. wp_step. eapply c_read_st; [exact S1|by apply block_in|]. intros s2 S2.
  rewrite data_idx_eq by lia. rewrite get_link by link_side. fold (link (V lb) (mid / 4096 mod 512)). rewrite Ed.
  change MAX_BYTES_ONLY_DATA_BLOCKS with 2031616. set (fl := (mid / 4096 mod 512 =? 0) || (mid =? 2031616)) in *.
  wp_step. wp_step.
  eapply (begin_st _ _ _ _ _ 0 fl false); [exact S2|in_recent|by eapply block_u64|by eapply block_u64|done|].
  intros s3 h3 hd3 S3 M3 E1 E2 _.
  assert (Hend : forall s' V' R', fs_st N s' h3 hd3 V' None R' -> file_part V V' f sz mid ->
    file_cut V V' e e f sz mid ->
    wp (free_txn_block Data;;; (if fl then free_txn_block Links else ret tt);;; commit_txn) s' Q X).
  { intros s' V' R' S' P FC. eapply (finish_st _ _ _ _ _ _ fl false); [exact S'|exact M3|exact FC| |exact Hcnt|exact HQ].
    apply freed_cases; [| |done].
    - rewrite E1. apply (cut_data Sh P); lia.
    - intros Hfl. rewrite E2 by done. unfold lb. rewrite <- flink_l1 with (w := sz) by lia. apply (cut_link Sh P); [lia|].
      specialize (Hl2 Hfl). lia. }
  destruct (Z.eqb_spec mid 2031616) as [E|E].
  - eapply (levels_change_st M3 S); [exact S3| | |exact Bl|in_recent|in_recent|by left|exact Hend].
    + unfold lb. by rewrite E.
    + pose proof (fs_link_meta _ _ _ _ Sh _ Hi) as Hne. by rewrite flink_l1 in Hne by lia.
  - eapply (levels_same_st S); [exact S3| | |exact Hend]; [rewrite !(proj2 (Z.leb_gt _ _))|rewrite !(proj2 (Z.leb_le _ _))]; lia || done.
Qed.

Lemma two_counts : 1040187392 < sz ->
  let fl := mid / 4096 mod 512 =? 0 in
  let fll := fl && ((mid / 2097152 mod 512 =? 0) || (mid =? 1040187392)) in
  (mid / 4096 mod 512 =? 0) || (mid =? 2031616) = fl /\ 1 + Z.b2z fl + Z.b2z fll = n_total sz - n_total mid.
Proof.
  intros H2 fl fll. pose proof last_data. pose proof last_link as (_ & Hl1 & _). pose proof (last_list H2) as (_ & Hl2 & _).
  pose proof mid_range.
  assert (E : (mid / 4096 mod 512 =? 0) || (mid =? 2031616) = fl).
  { rewrite (proj2 (Z.eqb_neq mid 2031616)) by dlia. apply orb_false_r. }
  split; [exact E|]. rewrite E in Hl1. unfold n_total. fold fl in Hl2. fold fll in Hl2. lia.
Qed.

(** Two levels of link blocks. *)
Lemma truncate_two_level_st s hd R (Q : unit -> fs -> Prop) X :
  fs_st N s h hd V None R -> f ∈ take 8 R -> 1040187392 < sz -> cut_post mid Q ->
  wp (truncate_two_level id mid) s Q X.
Proof.
  intros S HR H2 HQ. pose proof (fo_shape _ _ _ _ FO) as Sh. pose proof mid_range as Hm. pose proof last_data as (Hk & Hn1 & Hn2).
  pose proof last_link as (Hi & _ & Hl2). pose proof (last_list H2) as (Hj & _ & Hll2).
  destruct path_blocks as (Bf & Bd & Bl). pose proof (in_take _ _ _ HR) as HR'. destruct (two_counts H2) as [Efl Hcnt].
  assert (Bll : file_block V f sz (meta_link (V f) (mid / 1073741824))) by (right; right; right; eauto).
  assert (El : link (V (meta_link (V f) (mid / 1073741824))) (mid / 2097152 mod 512) = file_link V f sz (mid / 2097152)).
  { rewrite flink_l2 by lia. by replace (mid / 2097152 / 512) with (mid / 1073741824) by dlia. }
  assert (Ed : link (V (file_link V f sz (mid / 2097152))) (mid / 4096 mod 512) = file_blk V f sz (mid / 4096)).
  { rewrite blk_l2 by lia. by replace (mid / 4096 / 512) with (mid / 2097152) by dlia. }
  set (llb := meta_link (V f) (mid / 1073741824)) in *. set (lb := file_link V f sz (mid / 2097152)) in *.
  unfold truncate_two_level. wp_step. eapply c_get_st; [exact S|by apply block_in|done|]. intros s1 S1.
  rewrite shiftr_l2' by lia. rewrite get_link_meta by link_side. fold (meta_link (V f) (mid / 1073741824)). fold llb.
  wp_step. wp_step. wp_step. eapply c_read_st; [exact S1|by apply block_in|]. intros s2 S2. rewrite link_idx_eq' by lia.
  rewrite get_link by link_side. fold (link (V llb) (mid / 2097152 mod 512)). rewrite El. wp_step. wp_step. wp_step.
  eapply c_read_st; [exact S2|by apply block_in|]. intros s3 S3. rewrite data_idx_eq by lia.
  rewrite get_link by link_side. fold (link (V lb) (mid / 4096 mod 512)). rewrite Ed.
  change MAX_BYTES_SINGLE_LEVEL_LIST_BLOCKS with 1040187392. rewrite Efl in Hl2. set (fl := mid / 4096 mod 512 =? 0) in *.
  set (fll := fl && ((mid / 2097152 mod 512 =? 0) || (mid =? 1040187392))) in *. wp_step. wp_step.
  eapply (begin_st _ _ _ _ _ _ fl fll); [exact S3|in_recent|by eapply block_u64|by eapply block_u64|by eapply block_u64|].
  intros s4 h4 hd4 S4 M4 E1 E2 E3.
  assert (Hend : forall s' V' R', fs_st N s' h4 hd4 V' None R' -> file_part V V' f sz mid ->
    file_cut V V' e e f sz mid ->
    wp (free_txn_block Data;;; (if fl then free_txn_block Links else ret tt);;;
        (if fll then free_txn_block ListOfLinks else ret tt);;; commit_txn) s' Q X).
  { intros s' V' R' S' P FC. eapply (finish_st _ _ _ _ _ _ fl fll); [exact S'|exact M4|exact FC| |exact Hcnt|exact HQ].
    apply freed_cases.
    - rewrite E1. apply (cut_data Sh P); lia.
    - intros Hfl. rewrite E2 by done. apply (cut_link Sh P); [lia|]. specialize (Hl2 Hfl). lia.
    - intros Hfl. rewrite E3 by done. apply (cut_list Sh P); [lia|]. specialize (Hll2 Hfl). lia. }
  destruct (Z.eqb_spec mid 1040187392) as [E|E].
  - eapply (levels_change_st M4 S); [exact S4| | |exact Bll|in_recent|in_recent|by right|exact Hend].
    + unfold llb. by rewrite E.
    + by apply (fs_list_meta _ _ _ _ Sh).
  - eapply (levels_same_st S); [exact S4| | |exact Hend]; rewrite !(proj2 (Z.leb_gt _ _)); dlia || done.
Qed.
End Levels.

(** ** The loop *)

Lemma mid_size_eq new :
  3968 < sz -> 0 <= new < sz ->
  (4096 < sz /\ mid_size sz new = 4096 * ((sz - 1) / 4096) \/
   sz <= 4096 /\ mid_size sz new = if new <=? 3968 then new else 0).
Proof.
  intros Hb Hn. pose proof (fo_max _ _ _ _ FO) as Hmax. change MAX_FILE_SIZE with 532575944704 in Hmax.
  unfold mid_size. change MAX_BYTES_IN_META_BLOCK with 3968. change BLOCK_SIZE with (2 ^ 12).
  rewrite u64_id by (unfold is_u64; lia). rewrite land_not_mask by (unfold is_u64; lia). change (2 ^ 12) with 4096.
  destruct (Z.ltb_spec 3968 sz), (Z.leb_spec sz 4096), (Z.leb_spec new 3968); simpl; try lia; dlia.
Qed.

Lemma round_cases new :
  0 <= new < sz ->
  if ((mid_size sz new <? new) && (3968 <? new)) || (sz <=? 3968)
  then n_blocks new = n_blocks sz /\ (new <= 3968 -> sz <= 3968)
  else 3968 < sz /\ new <= mid_size sz new < sz /\ n_blocks (mid_size sz new) < n_blocks sz /\
    (4096 < sz /\ mid_size sz new = 4096 * ((sz - 1) / 4096) \/ sz <= 4096 /\ 0 <= mid_size sz new <= 3968).
Proof.
  intros Hn. unfold n_blocks. destruct (Z.leb_spec sz 3968) as [Hs|Hs].
  { rewrite orb_true_r. rewrite (proj2 (Z.leb_le _ _)) by lia. done. }
  rewrite orb_false_r. destruct (mid_size_eq new Hs Hn) as [[Hb E]|[Hb E]]; rewrite E; clear E.
  - destruct (Z.ltb_spec (4096 * ((sz - 1) / 4096)) new), (Z.ltb_spec 3968 new); simpl;
      repeat match goal with |- context [Z.leb ?a ?b] => destruct (Z.leb_spec a b) end; dlia.
  - destruct (Z.leb_spec new 3968).
    + rewrite (proj2 (Z.ltb_ge 3968 new)), andb_false_r by lia.
      rewrite (proj2 (Z.leb_le new 3968)) by lia. dlia.
    + rewrite (proj2 (Z.ltb_lt 0 new)), (proj2 (Z.ltb_lt 3968 new)) by lia. simpl. dlia.
Qed.

(** One round: the size is reached, or one data block fewer is left. *)
Lemma set_file_size_step_st s R new (Q : option unit -> fs -> Prop) X :
  sealed h -> fs_st N s h h V None R -> 0 <= new <= sz ->
  (forall r m s' h' V' R', fs_st N s' h' h' V' None R' -> shrunk h h' (n_total sz - n_total m) ->
     file_cut V V' e (empty_area_start h') f sz m -> new <= m <= sz ->
     r = Some tt /\ m = new \/ r = None /\ n_blocks m < n_blocks sz -> Q r s') ->
  wp (set_file_size_step id new) s Q X.
Proof.
  intros Hseal S Hnew HQ. pose proof FO as [_ Hv Hsize _ Sh].
  assert (Hrefl : forall n, n = 0 -> shrunk h h n) by (intros n ->; split; try done; lia).
  unfold set_file_size_step. wp_step. eapply c_read_st; [exact S|apply block_in; [done|by left]|]. intros s1 S1.
  rewrite Hv, Hsize. wp_steps. rewrite (proj2 (Z.ltb_ge _ _)) by lia. destruct (Z.eqb_spec new sz) as [E|E].
  { wp_steps. rewrite <- E in *. eapply (HQ _ new); [exact S1|apply Hrefl; lia|by apply file_cut_refl|lia|by left]. }
  assert (Hcut : forall s' h' V' R' m, fs_st N s' h' h' V' None R' -> shrunk h h' (n_total sz - n_total m) ->
    file_cut V V' e (empty_area_start h') f sz m -> new <= m < sz -> n_blocks m < n_blocks sz -> Q None s').
  { intros s' h' V' R' m S' Sk FC Hm Hb. eapply HQ; [exact S'|exact Sk|exact FC|lia|by right]. }
  change MAX_BYTES_IN_META_BLOCK with 3968. change MAX_BYTES_ONLY_DATA_BLOCKS with 2031616.
  change MAX_BYTES_SINGLE_LEVEL_LIST_BLOCKS with 1040187392.
  pose proof (round_cases new ltac:(lia)) as Hc.
  destruct (((mid_size sz new <? new) && (3968 <? new)) || (sz <=? 3968)).
  { destruct Hc as [Hc1 Hc2]. wp_step. eapply set_size_st; [exact S1|in_recent|lia|done|done|].
    intros s2 V2 R2 S2 Hn FC. apply wp_ret. eapply (HQ _ new); [exact S2|apply Hrefl; lia|exact FC|lia|by left]. }
  destruct Hc as (Hs & Hm & Hnb & Hmid). set (mid := mid_size sz new) in *.
  assert (HQ' : cut_post mid (fun _ s' => wp (ret None) s' Q X)).
  { intros s' h' V' R' S' Sk FC. apply wp_ret. by eapply Hcut. }
  destruct (Z.leb_spec sz 2031616); [wp_step; eapply truncate_data_blocks_st; [lia|exact Hmid|exact S1|in_recent|exact HQ']|].
  assert (Emid : mid = 4096 * ((sz - 1) / 4096)) by lia.
  destruct (Z.leb_spec sz 1040187392); wp_step;
    [eapply truncate_single_level_st|eapply truncate_two_level_st]; try done; in_recent.
Qed.
End Step.

(** Giving back blocks keeps room for the rest of the file. *)
Lemma set_file_size_loop_st N id new n : forall s h V R sz,
  file_ok V (empty_area_start h) id sz -> no_txn h -> sealed h -> empty_area_start h <= sb_num_blocks h ->
  free_blocks h + n_total sz <= sb_num_blocks h -> fs_st N s h h V None R -> 0 <= new <= sz ->
  n_blocks sz < Z.of_nat n ->
  wp (loopn (set_file_size_step id new) n) s
    (fun r s' => r = Some tt /\ exists h' V' R', fs_st N s' h' h' V' None R' /\
       shrunk h h' (n_total sz - n_total new) /\
       file_cut V V' (empty_area_start h) (empty_area_start h') (block_no id) sz new)
    (fun _ _ => False).
Proof.
  induction n as [|n IH]; intros s h V R sz FO Hno Hseal He Hfree S Hnew Hn.
  { unfold n_blocks in Hn. destruct (Z.leb_spec sz 3968); dlia. }
  cbn [loopn]. wp_step. eapply (set_file_size_step_st FO); [done|done|done|done|exact S|done|].
  intros r m s1 h1 V1 R1 S1 Sk FC Hm [[-> ->]|[-> Hlt]].
  { apply wp_ret. split; [done|]. by exists h1, V1, R1. }
  pose proof (fc_space _ _ _ _ _ _ _ FC) as [Hsp _]. pose proof (sk_num _ _ _ Sk) as En. pose proof (sk_free _ _ _ Sk) as Ef.
  eapply wp_mono; [eapply (IH _ h1 V1 R1 m)| |done];
    [eapply file_cut_ok; [exact FO|lia|exact FC]|apply Sk|apply Sk|lia|lia|exact S1|lia|lia|].
  intros r s2 (-> & h2 & V2 & R2 & S2 & Sk2 & FC2). split; [done|]. exists h2, V2, R2. split; [done|]. split.
  - replace (n_total sz - n_total new) with (n_total sz - n_total m + (n_total m - n_total new)) by lia.
    by eapply shrunk_trans.
  - eapply file_cut_trans; [|exact FC|exact FC2]. lia.
Qed.

(** The operation. *)
Lemma set_file_size_st N s h V R id sz new (Q : unit -> fs -> Prop) (X : FsError -> fs -> Prop) :
  file_ok V (empty_area_start h) id sz -> no_txn h -> sealed h -> empty_area_start h <= sb_num_blocks h ->
  free_blocks h + n_total sz <= sb_num_blocks h -> fs_st N s h h V None R -> 0 <= new ->
  (new <= sz -> forall s' h' V' R', fs_st N s' h' h' V' None R' -> shrunk h h' (n_total sz - n_total new) ->
     file_cut V V' (empty_area_start h) (empty_area_start h') (block_no id) sz new -> Q tt s') ->
  (sz < new -> forall s' R', fs_st N s' h h V None R' -> X InvalidArgument s') ->
  wp (set_file_size id new) s Q X.
Proof.
  intros FO Hno Hseal He Hfree S Hnew HQ HX. pose proof FO as [_ Hv Hsize Hmax Sh]. pose proof (fs_meta _ _ _ _ Sh) as Hf.
  change MAX_FILE_SIZE with 532575944704 in Hmax.
  unfold set_file_size. wp_step. eapply wp_check_error; [exact S|]. wp_step.
  destruct (Z.le_gt_cases new sz) as [Hle|Hgt].
  - eapply (wp_loop_enough _ (Datatypes.S (Z.to_nat (n_blocks sz)))).
    { unfold n_blocks. destruct (Z.leb_spec sz 3968); [lia|]. dlia. }
    eapply wp_mono; [eapply set_file_size_loop_st; [exact FO|done|done|done|done|exact S|done|lia]| |done].
    intros r s' (-> & h' & V' & R' & S' & Sk & FC). exists tt. split; [done|]. apply wp_ret. by eapply HQ.
  - eapply (wp_loop_enough _ 1); [lia|]. cbn [loopn]. wp_step. unfold set_file_size_step. wp_step.
    eapply c_read_st; [exact S|unfold blk_in; lia|]. intros s1 S1. rewrite Hv, Hsize. wp_steps.
    rewrite (proj2 (Z.ltb_lt _ _)) by lia. wp_steps. by eapply HX.
Qed.
End Truncate.

(** ** On the tree *)

Section TruncateTree.
Context {D : Type} {Dev : SyncBlockDevice D} {DL : SyncBlockDeviceLaws D}.
Context {Crc : Crc32} {CL : Crc32Laws Crc} {Clk : Clock} {Unin : Uninit}.
Abbreviation fs := (SyncFileSystem D).

Lemma tree_cut_rep V V' e e' T f data new :
  tree_wf T -> disk_rep V e T -> T !! f = Some (NFile data) -> 0 <= new <= zlen data ->
  file_cut V V' e e' (block_no f) (zlen data) new -> disk_rep V' e' (<[f := NFile (take (Z.to_nat new) data)]> T).
Proof.
  intros W Dr Hf Hnew FC. destruct (dr_node _ _ _ Dr f _ Hf) as [FO HB].
  assert (Hl : zlen (take (Z.to_nat new) data) = new) by (unfold zlen in *; rewrite length_take; lia).
  pose proof (file_cut_ok _ _ _ _ _ _ _ FO Hnew FC) as FO'. destruct FC as [Sh Hbl Hby Hfr Hm [He He']].
  apply (tree_file_rep V V' e e' T f data); try done.
  - simpl. rewrite Hl. split; [done|]. intros pos Hp. rewrite Hby, HB by lia. by rewrite lookup_take_lt by lia.
  - simpl. rewrite Hl. intros b Hb. left. by apply Hbl.
  - intros b Hb Hnp. split; [by apply Hfr|]. destruct (decide (b < e')); [done|]. exfalso. apply Hnp, He'. lia.
  - destruct Hm as [[-> _]| ->]; done.
Qed.

Lemma set_file_size_rep N s T f data new (Q : unit -> fs -> Prop) (X : FsError -> fs -> Prop) :
  fs_rep N s T -> T !! f = Some (NFile data) -> 0 <= new ->
  free_blocks (header (superblock s)) + n_total (zlen data) <= sb_num_blocks (header (superblock s)) ->
  (forall s', new <= zlen data -> fs_rep N s' (<[f := NFile (take (Z.to_nat new) data)]> T) ->
     free_blocks (header (superblock s')) = free_blocks (header (superblock s)) + (n_total (zlen data) - n_total new) ->
     freelist_head (header (superblock s')) = freelist_head (header (superblock s)) -> Q tt s') ->
  (forall s', zlen data < new -> fs_rep N s' T -> header (superblock s') = header (superblock s) -> X InvalidArgument s') ->
  wp (set_file_size f new) s Q X.
Proof.
  intros [W (h & V & R & S & I & Dr)] Hf Hnew Hfree HQ HX. destruct (dr_node _ _ _ Dr f _ Hf) as [FO HB].
  rewrite (st_header _ _ _ _ _ _ _ S) in *. pose proof I as ((Hno & Hv & Hm) & (Hfl & Hb) & Hseal).
  eapply set_file_size_st; [exact FO|done|done|lia|done|exact S|done| |].
  - intros Hle s' h' V' R' S' Sk FC. apply HQ; [done| |by rewrite (st_header _ _ _ _ _ _ _ S'), (sk_free _ _ _ Sk)|by rewrite (st_header _ _ _ _ _ _ _ S'), (sk_freelist _ _ _ Sk)].
    pose proof (fs_meta _ _ _ _ (fc_shape _ _ _ _ _ _ _ FC)) as Hpos.
    pose proof (fc_space _ _ _ _ _ _ _ FC) as [Hsp _]. pose proof Sk as [E1 E2 E3 E4 E5 E6 E7 E8].
    eapply fs_rep_same; [by eapply tree_file_wf| |by eapply tree_cut_rep|exact S'].
    split; [split; [done|]; split; congruence|]. split; [|done]. split; [congruence|lia].
  - intros Hlt s' R' S'. apply HX; [done|by eapply fs_rep_same|apply (st_header _ _ _ _ _ _ _ S')].
Qed.
End TruncateTree.
