(* ===== verification/SrfsMove.v ===== *)
(** * Moving and renaming

    [move_rename] stores a new name over the old one when the directory stays the same;
    otherwise it changes the parent in the metadata of the node, adds an entry to the new
    directory and removes the old entry, in one transaction.  Each step changes one node
    of the tree, so the steps are put together on [disk_nodes], the part of [disk_rep]
    that does not mention parents. *)

From stdpp Require Import base numbers list gmap.
From coqutil Require Import Byte.
From S2P Require Import RustPrelude Crc32 SrfsLayout BlockDevice BlockCache SrfsFs SrfsState SrfsDir.
From S2P Require Import SrfsDirAdd SrfsMount SrfsNode SrfsDirRemove SrfsRemove SrfsFile SrfsFileWrite.
From S2P Require Import SrfsTree SrfsTreeOps SrfsTruncate.

Open Scope Z_scope.

(** ** The tree after a move *)

(** Entry [i] of [d] gets a new name. *)
Definition tree_rename (T : tree) (d c : EntryId) (name : bytes) (i : nat) (es : list (bytes * EntryId)) : tree :=
  <[d := NDir (<[i := (name, c)]> es)]> T.

(** Entry [i] of [d] goes to the end of [d']. *)
Definition tree_move (T : tree) (d d' c : EntryId) (name : bytes) (i : nat) (es es' : list (bytes * EntryId)) : tree :=
  <[d := NDir (swap_remove i es)]> (<[d' := NDir (es' ++ [(name, c)])]> T).

Section Move.
Context {D : Type} {Dev : SyncBlockDevice D} {DL : SyncBlockDeviceLaws D}.
Context {Crc : Crc32} {CL : Crc32Laws Crc} {Clk : Clock} {Unin : Uninit}.
Abbreviation fs := (SyncFileSystem D).

(** ** Changing one node *)

Record disk_nodes (V : Z -> Block) (e : Z) (T : tree) : Prop := {
  dn_node : forall id n, T !! id = Some n -> node_rep V e id n;
  dn_apart : forall i j n m b, T !! i = Some n -> T !! j = Some m -> i <> j ->
    node_block V i n b -> node_block V j m b -> False;
}.

Lemma disk_rep_nodes V e T : disk_rep V e T -> disk_nodes V e T.
Proof. intros [A B _]. by split. Qed.

Section Change.
Context {V V' : Z -> Block} {e e' : Z} {T : tree} {id : EntryId} {n : node}.
Context (DN : disk_nodes V e T) (Hn : T !! id = Some n).
Context (Hfr : forall b, b < e -> ~ node_block V id n b -> V' b = V b /\ b < e').

Lemma other_node id' n' : T !! id' = Some n' -> id' <> id -> forall b, node_block V id' n' b -> V' b = V b /\ b < e'.
Proof.
  intros Hn' Hne b Hb. apply Hfr; [apply (node_below _ _ _ _ _ (dn_node _ _ _ DN _ _ Hn') Hb)|].
  intros Hb'. by apply (dn_apart _ _ _ DN id' id n' n b).
Qed.

Lemma disk_nodes_change n' :
  node_rep V' e' id n' -> (forall b, node_block V' id n' b -> node_block V id n b \/ e <= b) ->
  disk_nodes V' e' (<[id := n']> T).
Proof.
  intros NR HB.
  assert (Hoth : forall k m, <[id := n']> T !! k = Some m -> k <> id -> T !! k = Some m /\ node_rep V' e' k m /\
            forall b, node_block V' k m b -> node_block V k m b /\ b < e).
  { intros k m Hm Hne. rewrite lookup_insert_ne in Hm by done. pose proof (dn_node _ _ _ DN _ _ Hm) as Hr.
    destruct (node_rep_frame V V' e e' k m Hr (other_node k m Hm Hne)) as [Hr' Hb']. split; [done|]. split; [done|].
    intros b Hb. apply Hb' in Hb. split; [done|]. apply (node_below _ _ _ _ _ Hr Hb). }
  assert (Hsep : forall k m b, <[id := n']> T !! k = Some m -> k <> id -> node_block V' id n' b -> node_block V' k m b -> False).
  { intros k m b Hm Hne H1 H2. destruct (Hoth k m Hm Hne) as (Hm' & _ & HB'). destruct (HB' b H2) as [H2' ?].
    destruct (HB b H1) as [H1'|]; [by apply (dn_apart _ _ _ DN k id m n b)|lia]. }
  split.
  - intros k m Hm. destruct (decide (k = id)) as [->|Hne]; [|by apply (Hoth k m Hm Hne)].
    rewrite lookup_insert_eq in Hm. by injection Hm as <-.
  - intros i j a m b Hi Hj Hij Hbi Hbj. destruct (decide (i = id)) as [->|Hni].
    + pose proof Hi as Hi'. rewrite lookup_insert_eq in Hi'. injection Hi' as <-. by apply (Hsep j m b).
    + destruct (decide (j = id)) as [->|Hnj].
      * pose proof Hj as Hj'. rewrite lookup_insert_eq in Hj'. injection Hj' as <-. by apply (Hsep i a b).
      * destruct (Hoth i a Hi Hni) as (Hi' & _ & Bi), (Hoth j m Hj Hnj) as (Hj' & _ & Bj).
        apply (dn_apart _ _ _ DN i j a m b); [done|done|done|by apply Bi|by apply Bj].
Qed.

(** The parents of the other nodes. *)
Lemma other_parent id' n' :
  T !! id' = Some n' -> id' <> id -> get_meta (V' (block_no id')) = get_meta (V (block_no id')).
Proof. intros H Hne. by destruct (other_node id' n' H Hne (block_no id') (node_block_self V _ _)) as [-> _]. Qed.
End Change.

(** ** A new parent in the metadata *)

Lemma set_parent_ok q m : id_ok q -> meta_ok m -> meta_ok (set_parent q m).
Proof.
  intros [Hb Hg] [Hf Hu]. split; [|exact Hu].
  change meta_widths with ([8; 8]%nat ++ [8; 8]%nat ++ drop 4 meta_widths) in Hf |- *.
  change (meta_fields m) with (take 2 (meta_fields m) ++ [block_no (parent_id m); generation (parent_id m)] ++
    drop 4 (meta_fields m)) in Hf.
  change (meta_fields (set_parent q m)) with (take 2 (meta_fields m) ++ [block_no q; generation q] ++
    drop 4 (meta_fields m)).
  apply Forall2_app_inv in Hf as [H1 H2]; [|done]. apply Forall2_app_inv in H2 as [H2 H3]; [|done].
  apply Forall2_app; [done|]. apply Forall2_app; [|done].
  apply List.Forall2_cons; [exact Hb|]. apply List.Forall2_cons; [exact Hg|apply List.Forall2_nil].
Qed.

Section Reparent.
Context {V V' : Z -> Block} {e : Z} {id q : EntryId}.
Abbreviation f := (block_no id).
Context (Hf : V' f = put_meta (meta_set_crc32 (set_parent q (get_meta (V f)))) (V f)).
Context (Hfr : forall b, b <> f -> V' b = V b) (Hok : block_ok (V f)) (Hq : id_ok q).

Lemma reparent_meta : get_meta (V' f) = meta_set_crc32 (set_parent q (get_meta (V f))).
Proof.
  rewrite Hf. apply get_put_meta; [|done]. by apply meta_set_crc32_ok, set_parent_ok, get_meta_ok.
Qed.

Lemma reparent_link i : 0 <= i -> meta_link (V' f) i = meta_link (V f) i.
Proof. intros. unfold meta_link. rewrite Hf. apply get_u64_put_meta. lia. Qed.

Lemma reparent_file data :
  node_rep V e id (NFile data) -> node_rep V' e id (NFile data) /\
  forall b, node_block V' id (NFile data) b -> node_block V id (NFile data) b.
Proof.
  intros [[Hid Hv Hs Hm Sh] HB]. set (sz := zlen data) in *.
  pose proof (part_same (sz' := sz) Sh ltac:(lia) Hfr eq_refl eq_refl reparent_link) as [PD PL PLL].
  destruct (file_shape_extend V V' e e f sz sz Sh) as (Sh' & _ & Hbl); [lia|..];
    [intros k Hk; left; by apply PD|intros i Hi; left; by apply PL|intros i Hi; left; by apply PLL|].
  pose proof (validate_file_inv _ _ Hv) as [Hi Hk]. split; [split|].
  - split; try done; rewrite reparent_meta; [|done].
    set (m := set_parent q (get_meta (V f))). replace id with (m_id m) by exact Hi.
    apply validate_file_seal. change (kind (m_id (get_meta (V f))) = File). by rewrite Hi.
  - intros pos Hp. rewrite <- HB by done. fold sz. unfold file_byte. destruct (Z.leb_spec sz 3968).
    + rewrite Hf. unfold put_meta. rewrite lookup_blit_out; [done|]. rewrite length_meta_enc. lia.
    + assert (Hk' : 0 <= pos / 4096 < n_blocks sz) by (rewrite n_blocks_eq by lia; dlia).
      destruct (PD _ Hk') as [_ ->]. rewrite Hfr; [done|]. by apply (fs_data_meta _ _ _ _ Sh).
  - intros b Hb. destruct (Hbl b Hb); [done|lia].
Qed.

Lemma reparent_dir es :
  node_rep V e id (NDir es) -> node_rep V' e id (NDir es) /\
  forall b, node_block V' id (NDir es) b -> node_block V id (NDir es) b.
Proof.
  intros [[Hid Hv Hs Hm Sh] HE]. set (num := zlen es) in *. change MAX_DIR_ENTRIES with 65536 in Hm.
  assert (Hd : forall k, 0 <= k < n_data num -> data_blk V' f num k = data_blk V f num k).
  { intros k Hk. unfold data_blk. destruct (Z.leb_spec num 7440); [apply reparent_link; lia|].
    rewrite reparent_link by dlia. rewrite Hfr; [done|]. apply (ds_parent_link _ _ _ _ Sh), n_link_data; lia. }
  destruct (dir_shape_extend V V' e e f num num Sh) as (Sh' & _ & Hbl); [lia|..];
    [intros k Hk; left; split; [lia|by apply Hd]|intros i Hi; left; split; [lia|apply reparent_link; lia]|].
  apply validate_dir_inv in Hv as (Hi & Hk & Hle). split; [split|].
  - split; try done; rewrite reparent_meta; [|done].
    set (m := set_parent q (get_meta (V f))). replace id with (m_id m) by exact Hi. apply validate_dir_seal.
    + change (kind (m_id (get_meta (V f))) = Directory). by rewrite Hi.
    + change (size (get_meta (V f)) <= 65536). lia.
  - intros i x Hx. pose proof (lookup_lt_Some _ _ _ Hx) as Hlt. specialize (HE i x Hx). fold num in HE |- *.
    revert HE. unfold dir_entry, entry_loc. destruct (Z.leb_spec num 14); cbn [fst snd].
    + rewrite Hf, entry_at_put_meta by lia. done.
    + assert (Hk' : 0 <= Z.of_nat i / 15 < n_data num) by (rewrite n_data_list by lia; unfold num, zlen in *; dlia).
      rewrite Hd by done. rewrite Hfr; [done|]. by apply (ds_parent_data _ _ _ _ Sh).
  - intros b Hb. destruct (Hbl b Hb); [done|lia].
Qed.

Lemma reparent_node n :
  node_rep V e id n -> node_rep V' e id n /\ forall b, node_block V' id n b -> node_block V id n b.
Proof. destruct n; [apply reparent_file|apply reparent_dir]. Qed.
End Reparent.

(** ** Entries of a directory *)

Lemma added_node V V' e e' d es c name :
  node_rep V e d (NDir es) -> zlen es < MAX_DIR_ENTRIES -> entry_added V V' e e' (block_no d) (zlen es) c name ->
  node_rep V' e' d (NDir (es ++ [(name, c)])) /\
  forall b, node_block V' d (NDir (es ++ [(name, c)])) b -> node_block V d (NDir es) b \/ e <= b.
Proof.
  intros [DO HE] Hlt EA. simpl. rewrite zlen_snoc. split; [split; [by eapply entry_added_dir_ok|]|].
  - intros i x Hx. apply lookup_app_Some in Hx as [Hx|[Hi Hx]].
    + rewrite (ea_old _ _ _ _ _ _ _ _ EA) by (apply lookup_lt_Some in Hx; unfold zlen; lia). by apply HE.
    + apply list_lookup_singleton_Some in Hx as [Hi' <-].
      replace (Z.of_nat i) with (zlen es) by (unfold zlen; lia). apply (ea_new _ _ _ _ _ _ _ _ EA).
  - intros b Hb. destruct (proj2 (proj2 (ea_grown _ _ _ _ _ _ _ _ EA)) b Hb); [by left|lia].
Qed.

Lemma removed_node V V' e e' d es i gone :
  node_rep V e d (NDir es) -> (i < length es)%nat -> node_removed V V' e' d gone (zlen es) (Z.of_nat i) ->
  node_rep V' e' d (NDir (swap_remove i es)) /\
  forall b, node_block V' d (NDir (swap_remove i es)) b -> node_block V d (NDir es) b.
Proof.
  intros [DO HE] Hlt [RP RE _ _ RB].
  assert (Hl : zlen (swap_remove i es) = zlen es - 1) by (unfold zlen; rewrite length_swap_remove by done; lia).
  simpl. rewrite Hl. split; [split; [done|]|done].
  intros j x Hx. pose proof (lookup_lt_Some _ _ _ Hx) as L. rewrite length_swap_remove in L by done.
  rewrite lookup_swap_remove in Hx by done. rewrite RE by (unfold zlen; lia). destruct (decide (j = i)) as [->|].
  - rewrite decide_True by done. replace (zlen es - 1) with (Z.of_nat (length es - 1)) by (unfold zlen; lia). by apply HE.
  - rewrite decide_False by lia. by apply HE.
Qed.

(** A new name in place. *)
Section Rename.
Context {V V' : Z -> Block} {e : Z} {d c : EntryId} {es : list (bytes * EntryId)} {i : nat} {name : bytes}.
Abbreviation p := (block_no d).
Abbreviation num := (zlen es).
Abbreviation loc := (entry_loc V p num (Z.of_nat i)).
Context (NR : node_rep V e d (NDir es)) (Hi : (i < length es)%nat) (Hc : id_ok c) (Hname : (length name <= 255)%nat).
Context (Hok : block_ok (V loc.1)).
Context (Hb : V' loc.1 = write_entry (V loc.1) loc.2 (renamed c name (entry_at (V loc.1) loc.2))).
Context (Hfr : forall b, b <> loc.1 -> V' b = V b).

Lemma rename_pos : entry_pos_ok loc.2.
Proof. apply (loc_in V e); [apply (proj1 NR)|unfold zlen; lia]. Qed.

Lemma rename_entry_ok : dir_entry_ok (renamed c name (entry_at (V loc.1) loc.2)).
Proof. apply renamed_ok; [done|done|]. apply entry_at_ok; [done|apply rename_pos]. Qed.

Lemma rename_meta : get_meta (V' p) = get_meta (V p).
Proof.
  destruct NR as [DO _]. destruct (decide (loc.1 = p)) as [E|E]; [|by rewrite Hfr by done].
  rewrite <- E at 1. rewrite Hb, get_meta_write_entry; [by rewrite E|].
  revert E. unfold entry_loc. destruct (Z.leb_spec num 14); simpl; [lia|]. intros E. exfalso. revert E.
  apply (ds_parent_data _ _ _ _ (do_shape _ _ _ _ DO)). rewrite n_data_list by lia. unfold zlen in *. dlia.
Qed.

(** The blocks of the directory stay. *)
Lemma rename_blocks :
  (forall k, 0 <= k < n_data num -> data_blk V' p num k = data_blk V p num k) /\
  (forall j, 0 <= j < n_link num -> meta_link (V' p) j = meta_link (V p) j).
Proof.
  destruct NR as [DO _]. pose proof (do_shape _ _ _ _ DO) as Sh. pose proof (do_num _ _ _ _ DO) as Hn.
  change MAX_DIR_ENTRIES with 65536 in Hn. destruct (Z.le_gt_cases num 14) as [Hs|Hs].
  { unfold n_data, n_link. rewrite !(proj2 (Z.leb_le _ _)) by lia. split; intros; lia. }
  assert (El : loc.1 = data_blk V p num (Z.of_nat i / 15)).
  { unfold entry_loc. by rewrite (proj2 (Z.leb_gt _ _)) by lia. }
  assert (Hk0 : 0 <= Z.of_nat i / 15 < n_data num) by (rewrite n_data_list by lia; unfold zlen in *; dlia).
  assert (Hp : V' p = V p).
  { apply Hfr. rewrite El. intros E. symmetry in E. revert E. by apply (ds_parent_data _ _ _ _ Sh). }
  rewrite Hp. split; [|done]. intros k Hk. apply data_blk_frame; [done|]. intros Hbig. apply Hfr. rewrite El.
  apply (ds_link_data _ _ _ _ Sh); [|done]. apply n_link_data; [lia|done].
Qed.

Lemma rename_entry j : (j < length es)%nat ->
  dir_entry V' p num (Z.of_nat j) =
  if decide (j = i) then renamed c name (entry_at (V loc.1) loc.2) else dir_entry V p num (Z.of_nat j).
Proof.
  intros Hj. destruct NR as [DO _]. pose proof (do_shape _ _ _ _ DO) as Sh. destruct rename_blocks as [HD _].
  assert (Eloc : forall q, (q < length es)%nat -> entry_loc V' p num (Z.of_nat q) = entry_loc V p num (Z.of_nat q)).
  { intros q Hq. unfold entry_loc. destruct (Z.leb_spec num 14); [done|]. f_equal. apply HD.
    rewrite n_data_list by lia. unfold zlen in *. dlia. }
  unfold dir_entry. rewrite Eloc by done. destruct (decide (j = i)) as [->|Hne].
  { rewrite Hb. apply entry_at_write_same; [done|apply rename_pos|apply rename_entry_ok]. }
  set (lj := entry_loc V p num (Z.of_nat j)).
  destruct (decide (lj.1 = loc.1)) as [E|E]; [|by rewrite Hfr].
  rewrite E, Hb. apply entry_at_write_other; [| | |apply rename_entry_ok].
  - pose proof rename_pos as H. unfold entry_pos_ok in H. lia.
  - destruct (loc_in V e p num (Z.of_nat j) Sh ltac:(unfold zlen; lia)) as [_ H]. unfold entry_pos_ok in H. fold lj in H. lia.
  - revert E. unfold lj, entry_loc. destruct (Z.leb_spec num 14); simpl; [lia|]. intros E Ep.
    apply (ds_data_inj _ _ _ _ Sh) in E; [dlia|..]; rewrite n_data_list by lia; unfold zlen in *; dlia.
Qed.

Lemma renamed_node :
  node_rep V' e d (NDir (<[i := (name, c)]> es)) /\
  forall b, node_block V' d (NDir (<[i := (name, c)]> es)) b -> node_block V d (NDir es) b.
Proof.
  pose proof NR as [DO HE]. pose proof (do_shape _ _ _ _ DO) as Sh. destruct rename_blocks as [HD HL].
  destruct (dir_shape_extend V V' e e p num num Sh) as (Sh' & _ & Hbl); [lia|..];
    [intros k Hk; left; split; [lia|by apply HD]|intros j Hj; left; split; [lia|by apply HL]|].
  assert (El : zlen (<[i := (name, c)]> es) = num) by (unfold zlen; by rewrite length_insert).
  simpl. rewrite El. split; [split|].
  - destruct DO as [H1 H2 H3 H4 H5]. split; rewrite ?rename_meta; done.
  - intros j x Hx. assert (Hj : (j < length es)%nat) by (apply lookup_lt_Some in Hx; by rewrite length_insert in Hx).
    rewrite rename_entry by done. destruct (decide (j = i)) as [->|Hne].
    + rewrite list_lookup_insert_eq in Hx by done. injection Hx as <-. split; [done|].
      apply name_bytes_renamed; [done|]. apply entry_at_ok; [done|apply rename_pos].
    + rewrite list_lookup_insert_ne in Hx by done. by apply HE.
  - intros b Hb'. destruct (Hbl b Hb'); [done|lia].
Qed.
End Rename.

(** ** Well-formed trees *)

(** Trees whose entries come from the entries of a well-formed tree, one from each. *)
Lemma tree_wf_map T T' (from : EntryId -> nat -> EntryId * nat) :
  tree_wf T -> (exists es, T' !! ROOT_DIR_ID = Some (NDir es)) -> (forall id, is_Some (T !! id) -> is_Some (T' !! id)) ->
  (forall d es j x, T' !! d = Some (NDir es) -> es !! j = Some x -> exists es0 y,
     T !! (from d j).1 = Some (NDir es0) /\ es0 !! (from d j).2 = Some y /\ y.2 = x.2 /\
     validate_filename x.1 = Ok tt /\ utf8_valid x.1 = true) ->
  (forall d1 d2 es1 es2 j1 j2, T' !! d1 = Some (NDir es1) -> T' !! d2 = Some (NDir es2) ->
     (j1 < length es1)%nat -> (j2 < length es2)%nat -> from d1 j1 = from d2 j2 -> d1 = d2 /\ j1 = j2) ->
  (forall d es, T' !! d = Some (NDir es) -> NoDup es.*1) -> tree_wf T'.
Proof.
  intros [WR WC WN WNs WO] HR HS HF HI HN. split.
  - done.
  - intros d es x Hd [j Hx]%list_elem_of_lookup. destruct (HF d es j x Hd Hx) as (es0 & y & H0 & Hy & E & _).
    rewrite <- E. destruct (WC _ _ y H0 ltac:(by eapply list_elem_of_lookup_2)). auto.
  - intros d es x Hd [j Hx]%list_elem_of_lookup. by destruct (HF d es j x Hd Hx) as (es0 & y & _ & _ & _ & ?).
  - done.
  - intros d1 d2 es1 es2 j1 j2 x1 x2 H1 H2 Hx1 Hx2 E.
    destruct (HF _ _ _ _ H1 Hx1) as (e1 & y1 & A1 & B1 & C1 & _), (HF _ _ _ _ H2 Hx2) as (e2 & y2 & A2 & B2 & C2 & _).
    destruct (WO _ _ _ _ _ _ _ _ A1 A2 B1 B2 ltac:(congruence)) as [Ed Ej].
    apply (HI d1 d2 es1 es2); [done|done|by eapply lookup_lt_Some|by eapply lookup_lt_Some|].
    destruct (from d1 j1), (from d2 j2). simpl in *. congruence.
Qed.

Section TreeWf.
Context {T : tree} {d c : EntryId} {name oldname : bytes} {i : nat} {es : list (bytes * EntryId)}.
Context (W : tree_wf T) (Hd : T !! d = Some (NDir es)) (Hi : es !! i = Some (oldname, c)).
Context (Hv : validate_filename name = Ok tt) (Hu : utf8_valid name = true).

Lemma entry_lt : (i < length es)%nat.
Proof. by eapply lookup_lt_Some. Qed.

Lemma tree_rename_wf : lookup_name name es = None -> tree_wf (tree_rename T d c name i es).
Proof.
  intros Hl%lookup_name_notin. pose proof entry_lt as Hlt. unfold tree_rename.
  apply (tree_wf_map T _ (fun d' j => (d', j)) W).
  - destruct (tw_root _ W) as [es0 HR]. destruct (decide (d = ROOT_DIR_ID)) as [->|];
      [rewrite lookup_insert_eq|rewrite lookup_insert_ne by done]; eauto.
  - intros id Hs. apply lookup_insert_is_Some'. auto.
  - intros d' es' j x H Hx. destruct (decide (d' = d)) as [->|Hne].
    + rewrite lookup_insert_eq in H. injection H as <-. exists es. destruct (decide (j = i)) as [->|Hj].
      * rewrite list_lookup_insert_eq in Hx by done. injection Hx as <-. by eexists.
      * rewrite list_lookup_insert_ne in Hx by done. exists x. split; [done|]. split; [done|]. split; [done|].
        apply (tw_name _ W d es); [done|by eapply list_elem_of_lookup_2].
    + rewrite lookup_insert_ne in H by done. exists es', x. split; [done|]. split; [done|]. split; [done|].
      apply (tw_name _ W d' es'); [done|by eapply list_elem_of_lookup_2].
  - intros d1 d2 es1 es2 j1 j2 _ _ _ _ [= -> ->]. done.
  - intros d' es' H. destruct (decide (d' = d)) as [->|Hne]; [|rewrite lookup_insert_ne in H by done; by apply (tw_names _ W d')].
    rewrite lookup_insert_eq in H. injection H as <-. rewrite list_fmap_insert. simpl.
    pose proof (tw_names _ W d es Hd) as ND. apply NoDup_alt. intros j1 j2 y H1 H2.
    assert (Hin : forall j, es.*1 !! j = Some name -> False) by (intros j Hj; apply Hl; by eapply list_elem_of_lookup_2).
    destruct (decide (j1 = i)) as [->|N1], (decide (j2 = i)) as [->|N2]; [done|..];
      rewrite ?list_lookup_insert_eq in H1 by (by rewrite length_fmap); rewrite ?list_lookup_insert_ne in H1 by done;
      rewrite ?list_lookup_insert_eq in H2 by (by rewrite length_fmap); rewrite ?list_lookup_insert_ne in H2 by done.
    + injection H1 as <-. by destruct (Hin j2).
    + injection H2 as <-. by destruct (Hin j1).
    + by apply (proj1 (NoDup_alt _) ND j1 j2 y).
Qed.

Context {d' : EntryId} {es' : list (bytes * EntryId)} (Hd' : T !! d' = Some (NDir es')) (Hne : d <> d').

Lemma tree_move_lookup id n :
  tree_move T d d' c name i es es' !! id = Some n ->
  (id = d /\ n = NDir (swap_remove i es)) \/ (id = d' /\ n = NDir (es' ++ [(name, c)])) \/
  (id <> d /\ id <> d' /\ T !! id = Some n).
Proof.
  unfold tree_move. destruct (decide (id = d)) as [->|]; [rewrite lookup_insert_eq; intros [= <-]; auto|].
  rewrite lookup_insert_ne by done. destruct (decide (id = d')) as [->|]; [rewrite lookup_insert_eq; intros [= <-]; auto|].
  rewrite lookup_insert_ne by done. auto.
Qed.

Lemma NoDup_swap_remove {A} (l : list A) k : (k < length l)%nat -> NoDup l -> NoDup (swap_remove k l).
Proof.
  intros Hk ND. apply NoDup_alt. intros j1 j2 y H1 H2.
  pose proof (lookup_lt_Some _ _ _ H1) as L1. pose proof (lookup_lt_Some _ _ _ H2) as L2.
  rewrite length_swap_remove in L1, L2 by done. rewrite lookup_swap_remove in H1, H2 by done.
  pose proof (proj1 (NoDup_alt l) ND _ _ _ H1 H2) as E. destruct (decide (j1 = k)), (decide (j2 = k)); lia.
Qed.

Lemma swap_remove_fmap {A B} (g : A -> B) (l : list A) k : (k < length l)%nat -> g <$> swap_remove k l = swap_remove k (g <$> l).
Proof.
  intros Hk. unfold swap_remove. rewrite fmap_last, length_fmap. destruct (last l); simpl; [|done].
  destruct (decide _); [by rewrite fmap_take|]. by rewrite list_fmap_insert, fmap_take.
Qed.

(** Where the entries after a move come from. *)
Definition moved_from (d1 : EntryId) (j : nat) : EntryId * nat :=
  if decide (d1 = d) then (d, if decide (j = i) then length es - 1 else j)%nat
  else if decide (d1 = d' /\ j = length es') then (d, i) else (d1, j).

Lemma moved_from_entry d1 es1 j x :
  tree_move T d d' c name i es es' !! d1 = Some (NDir es1) -> es1 !! j = Some x -> exists es0 y,
    T !! (moved_from d1 j).1 = Some (NDir es0) /\ es0 !! (moved_from d1 j).2 = Some y /\ y.2 = x.2 /\
    validate_filename x.1 = Ok tt /\ utf8_valid x.1 = true.
Proof.
  pose proof entry_lt as Hlt.
  intros H Hx. unfold moved_from.
  assert (Hkeep : forall d0 es0 k, T !! d0 = Some (NDir es0) -> es0 !! k = Some x -> exists es2 y,
    T !! d0 = Some (NDir es2) /\ es2 !! k = Some y /\ y.2 = x.2 /\ validate_filename x.1 = Ok tt /\ utf8_valid x.1 = true).
  { intros d0 es0 k H0 Hk. exists es0, x. split; [done|]. split; [done|]. split; [done|].
    apply (tw_name _ W d0 es0); [done|by eapply list_elem_of_lookup_2]. }
  destruct (tree_move_lookup _ _ H) as [[-> [= ->]]|[[-> [= ->]]|(N1 & N2 & H0)]].
  - rewrite decide_True by done. pose proof (lookup_lt_Some _ _ _ Hx) as L. rewrite length_swap_remove in L by done.
    rewrite lookup_swap_remove in Hx by done. by apply (Hkeep d es).
  - rewrite (decide_False (P := d' = d)) by done. apply lookup_app_Some in Hx as [Hx|[Hj Hx]].
    + pose proof (lookup_lt_Some _ _ _ Hx). rewrite decide_False by lia. by apply (Hkeep d' es').
    + apply list_lookup_singleton_Some in Hx as [Hj' <-]. rewrite decide_True by (split; [done|lia]). by exists es, (oldname, c).
  - rewrite !decide_False by tauto. by apply (Hkeep d1 es1).
Qed.

Lemma moved_from_inj d1 d2 es1 es2 j1 j2 :
  tree_move T d d' c name i es es' !! d1 = Some (NDir es1) -> tree_move T d d' c name i es es' !! d2 = Some (NDir es2) ->
  (j1 < length es1)%nat -> (j2 < length es2)%nat -> moved_from d1 j1 = moved_from d2 j2 -> d1 = d2 /\ j1 = j2.
Proof.
  pose proof entry_lt as Hlt.
  intros H1 H2 L1 L2. unfold moved_from.
  assert (HL : forall es0 j, tree_move T d d' c name i es es' !! d = Some (NDir es0) -> (j < length es0)%nat -> (j < length es - 1)%nat).
  { intros es0 j H L. destruct (tree_move_lookup _ _ H) as [[_ [= ->]]|[[? _]|(? & _)]]; [|done|done].
    by rewrite length_swap_remove in L. }
  destruct (decide (d1 = d)) as [->|D1], (decide (d2 = d)) as [->|D2].
  - pose proof (HL _ _ H1 L1). pose proof (HL _ _ H2 L2).
    intros [= E]. split; [done|]. destruct (decide (j1 = i)), (decide (j2 = i)); lia.
  - pose proof (HL _ _ H1 L1). destruct (decide (d2 = d' /\ j2 = length es')); [|congruence].
    intros [= E]. destruct (decide (j1 = i)); lia.
  - pose proof (HL _ _ H2 L2). destruct (decide (d1 = d' /\ j1 = length es')); [|congruence].
    intros [= E]. destruct (decide (j2 = i)); lia.
  - destruct (decide (d1 = d' /\ j1 = length es')) as [[-> ->]|], (decide (d2 = d' /\ j2 = length es')) as [[-> ->]|];
      [done|congruence|congruence|]. by intros [= -> ->].
Qed.

Lemma tree_move_wf : lookup_name name es' = None -> tree_wf (tree_move T d d' c name i es es').
Proof.
  intros Hl%lookup_name_notin. pose proof entry_lt as Hlt. apply (tree_wf_map T _ moved_from W).
  - destruct (tw_root _ W) as [es0 HR]. unfold tree_move. destruct (decide (d = ROOT_DIR_ID)) as [->|];
      [rewrite lookup_insert_eq; eauto|rewrite lookup_insert_ne by done].
    destruct (decide (d' = ROOT_DIR_ID)) as [->|]; [rewrite lookup_insert_eq|rewrite lookup_insert_ne by done]; eauto.
  - intros id Hs. unfold tree_move. apply lookup_insert_is_Some'. right. apply lookup_insert_is_Some'. auto.
  - apply moved_from_entry.
  - apply moved_from_inj.
  - intros d1 es1 H. destruct (tree_move_lookup _ _ H) as [[-> [= ->]]|[[-> [= ->]]|(N1 & N2 & H0)]].
    + rewrite swap_remove_fmap by done. apply NoDup_swap_remove; [by rewrite length_fmap|]. by apply (tw_names _ W d).
    + rewrite fmap_app. apply NoDup_app. split; [by apply (tw_names _ W d')|]. split; [|apply NoDup_singleton].
      intros y Hy. simpl. rewrite list_elem_of_singleton. intros ->. by apply Hl.
    + by apply (tw_names _ W d1).
Qed.
End TreeWf.

(** ** The operation *)

Section Op.
Context {N : Z} {T : tree} {d d' c : EntryId} {name oldname : bytes} {i : nat} {es es' : list (bytes * EntryId)} {n : node}.
Context (W : tree_wf T) (Hd : T !! d = Some (NDir es)) (Hi : es !! i = Some (oldname, c)).
Context (Hc : T !! c = Some n) (Hv : validate_filename name = Ok tt).

Lemma name_length : (length name <= 255)%nat.
Proof. unfold validate_filename in Hv. destruct (Z.ltb_spec 255 (Z.of_nat (length name))); [done|lia]. Qed.

Lemma node_id_ok V e id m : node_rep V e id m -> id_ok id.
Proof. destruct m; intros [O _]; apply O. Qed.

Lemma loc_block V p num pos : 0 <= pos < num -> dir_block V p num (entry_loc V p num pos).1.
Proof.
  intros Hp. unfold entry_loc. destruct (Z.leb_spec num 14); [by left|]. right. right. exists (pos / 15).
  rewrite n_data_list by lia. split; [dlia|done].
Qed.

Lemma tree_rename_rep V V' e :
  let l := entry_loc V (block_no d) (zlen es) (Z.of_nat i) in
  disk_rep V e T -> block_ok (V l.1) -> V' l.1 = write_entry (V l.1) l.2 (renamed c name (entry_at (V l.1) l.2)) ->
  (forall b, b <> l.1 -> V' b = V b) -> disk_rep V' e (tree_rename T d c name i es).
Proof.
  intros l Dr Hok Hb Hfr. pose proof (disk_rep_nodes _ _ _ Dr) as DN. pose proof (dr_node _ _ _ Dr _ _ Hd) as ND.
  pose proof (node_id_ok _ _ _ _ (dr_node _ _ _ Dr _ _ Hc)) as Hcid. pose proof (lookup_lt_Some _ _ _ Hi) as Hlt.
  destruct (renamed_node ND Hlt Hcid name_length Hok Hb Hfr) as [ND' HB].
  assert (Hfr' : forall b, b < e -> ~ node_block V d (NDir es) b -> V' b = V b /\ b < e).
  { intros b Hbe Hnb. split; [|done]. apply Hfr. intros ->. apply Hnb, loc_block. unfold zlen. lia. }
  destruct (disk_nodes_change DN Hd Hfr' _ ND' ltac:(auto)) as [A B]. split; [exact A|exact B|].
  intros d1 es1 x H Hx.
  assert (Hx' : exists es0 y, T !! d1 = Some (NDir es0) /\ y ∈ es0 /\ y.2 = x.2).
  { unfold tree_rename in H. destruct (decide (d1 = d)) as [->|Hne].
    - rewrite lookup_insert_eq in H. injection H as <-. apply list_elem_of_lookup in Hx as [j Hx]. exists es.
      destruct (decide (j = i)) as [->|Hj].
      + rewrite list_lookup_insert_eq in Hx by done. injection Hx as <-. exists (oldname, c).
        split; [done|]. split; [by eapply list_elem_of_lookup_2|done].
      + rewrite list_lookup_insert_ne in Hx by done. exists x. split; [done|]. split; [by eapply list_elem_of_lookup_2|done].
    - rewrite lookup_insert_ne in H by done. by exists es1, x. }
  destruct Hx' as (es0 & y & H0 & Hy & <-). rewrite <- (dr_parent _ _ _ Dr d1 es0 y H0 Hy).
  destruct (tw_child _ W d1 es0 y H0 Hy) as [[m Hm] _]. f_equal.
  destruct (decide (y.2 = d)) as [->|Hne]; [exact (rename_meta ND Hlt name_length Hb Hfr)|by eapply (other_parent DN Hd Hfr')].
Qed.

Lemma rename_in_dir_st s h V R (Q : unit -> fs -> Prop) X :
  fs_st N s h h V None R -> disk_rep V (empty_area_start h) T -> empty_area_start h <= sb_num_blocks h ->
  (forall s' V' R', fs_st N s' h h V' None R' -> disk_rep V' (empty_area_start h) (tree_rename T d c name i es) -> Q tt s') ->
  wp (rename_in_dir d c name) s Q X.
Proof.
  intros S Dr He HQ. pose proof (dr_node _ _ _ Dr _ _ Hd) as ND. pose proof ND as [DO HE].
  pose proof (node_id_ok _ _ _ _ (dr_node _ _ _ Dr _ _ Hc)) as Hcid. pose proof name_length as Hlen.
  pose proof (entry_first _ _ _ _ _ _ _ _ W Hd Hi ND) as HF. pose proof (lookup_lt_Some _ _ _ Hi) as Hlt.
  unfold rename_in_dir. wp_step. eapply find_entry_st; [exact S|exact DO|done| |].
  2:{ intros s1 R1 Hnone _. exfalso. destruct HF as (Hi' & Ht & _). by rewrite Hnone in Ht. }
  intros pos s1 R1 HF' S1 Hin. rewrite (first_entry_unique _ _ _ _ _ _ HF' HF) in *.
  pose proof (HE _ _ Hi) as [Eid _]. unfold dir_entry in Eid. cbn [snd] in Eid.
  destruct (loc_in _ _ _ _ (Z.of_nat i) (do_shape _ _ _ _ DO) ltac:(unfold zlen; lia)) as [Hb Hpos].
  set (l := entry_loc _ _ _ _) in *. rewrite (surjective_pairing l). cbv beta iota.
  assert (Hbin : blk_in h l.1) by (unfold blk_in; lia). pose proof (st_block_ok _ _ _ _ _ _ _ _ S1 Hbin) as Hok.
  wp_step. eapply c_get_mut_st; [exact S1|done|by eapply in_take|]. intros s2 S2.
  rewrite get_dir_entry_at by done. wp_step. wp_step. unfold set_name. rewrite (proj2 (Z.leb_le _ _)) by lia.
  wp_step. wp_step. wp_step. rewrite put_dir_entry_at by done. wp_step. wp_step. rewrite Eid. fold (renamed c name (entry_at (V l.1) l.2)).
  eapply c_set_st; [exact S2|done|by apply write_entry_ok|]. intros s3 S3.
  eapply c_write_st; [exact S3|done|]. intros s4 S4. eapply HQ; [exact S4|].
  apply (tree_rename_rep V); [done|done|apply fupd_eq|intros; by apply fupd_ne].
Qed.

Section Across.
Context (Hd' : T !! d' = Some (NDir es')) (Hne : d <> d').

(** The entries after a move lead to their parents. *)
Lemma tree_move_parent V V' e :
  disk_rep V e T ->
  (forall id m, T !! id = Some m -> parent_id (get_meta (V' (block_no id))) =
     if decide (id = c) then d' else parent_id (get_meta (V (block_no id)))) ->
  forall d1 es1 x, tree_move T d d' c name i es es' !! d1 = Some (NDir es1) -> x ∈ es1 ->
    parent_id (get_meta (V' (block_no x.2))) = d1.
Proof.
  intros Dr Hm d1 es1 x H Hx. pose proof (lookup_lt_Some _ _ _ Hi) as Hlt.
  assert (Hkeep : forall d0 es0 j, T !! d0 = Some (NDir es0) -> es0 !! j = Some x -> d0 <> d \/ j <> i ->
            parent_id (get_meta (V' (block_no x.2))) = d0).
  { intros d0 es0 j H0 Hj Hn. assert (Hx0 : x ∈ es0) by (by eapply list_elem_of_lookup_2).
    destruct (tw_child _ W d0 es0 x H0 Hx0) as [[m Hxm] _]. rewrite (Hm _ _ Hxm), decide_False.
    - by apply (dr_parent _ _ _ Dr d0 es0).
    - intros E. destruct (tw_once _ W d0 d es0 es j i x (oldname, c) H0 Hd Hj Hi E). tauto. }
  destruct (tree_move_lookup _ _ H) as [[-> [= ->]]|[[-> [= ->]]|(N1 & N2 & H0)]].
  - destruct (swap_remove_elem i es x Hlt Hx) as (j & Hj & Hxj). by apply (Hkeep d es j); auto.
  - apply elem_of_app in Hx as [[j Hx]%list_elem_of_lookup|Hx%list_elem_of_singleton]; [by apply (Hkeep d' es' j); auto|].
    rewrite Hx. cbn [snd]. rewrite (Hm c n Hc). by rewrite decide_True.
  - apply list_elem_of_lookup in Hx as [j Hx]. by apply (Hkeep d1 es1 j); auto.
Qed.

Section Blocks.
Context {V V1 V2 V3 : Z -> Block} {e e2 e3 : Z}.
Context (Dr : disk_rep V e T) (Hok : block_ok (V (block_no c))).
Context (Hf : V1 (block_no c) = put_meta (meta_set_crc32 (set_parent d' (get_meta (V (block_no c))))) (V (block_no c))).
Context (Hfr : forall b, b <> block_no c -> V1 b = V b).

Lemma new_parent_id : id_ok d'.
Proof. eapply node_id_ok, (dr_node _ _ _ Dr _ _ Hd'). Qed.

Lemma reparent_frame b : b < e -> ~ node_block V c n b -> V1 b = V b /\ b < e.
Proof. intros Hb Hnb. split; [|done]. apply Hfr. intros ->. apply Hnb, node_block_self. Qed.

Lemma reparented : disk_nodes V1 e T.
Proof.
  destruct (reparent_node Hf Hfr Hok new_parent_id n (dr_node _ _ _ Dr _ _ Hc)) as [NR HB].
  rewrite <- (insert_id T c n Hc).
  apply (disk_nodes_change (disk_rep_nodes _ _ _ Dr) Hc reparent_frame); auto.
Qed.

Lemma reparented_meta id m : T !! id = Some m ->
  parent_id (get_meta (V1 (block_no id))) = if decide (id = c) then d' else parent_id (get_meta (V (block_no id))).
Proof.
  intros Hm. destruct (decide (id = c)) as [->|Hnc].
  - by rewrite (reparent_meta Hf Hok new_parent_id).
  - by rewrite (other_parent (disk_rep_nodes _ _ _ Dr) Hc reparent_frame id m Hm Hnc).
Qed.

Context (EA : entry_added V1 V2 e e2 (block_no d') (zlen es') c name) (Hmax : zlen es' < MAX_DIR_ENTRIES).

Lemma linked_frame b : b < e -> ~ node_block V1 d' (NDir es') b -> V2 b = V1 b /\ b < e2.
Proof.
  intros Hb Hnb. split; [by apply (ea_frame _ _ _ _ _ _ _ _ EA)|].
  pose proof (ea_grown _ _ _ _ _ _ _ _ EA) as (_ & ? & _). lia.
Qed.

Lemma linked_nodes : disk_nodes V2 e2 (<[d' := NDir (es' ++ [(name, c)])]> T).
Proof.
  destruct (added_node _ _ _ _ _ _ _ _ (dn_node _ _ _ reparented _ _ Hd') Hmax EA) as [NR HB].
  by apply (disk_nodes_change reparented Hd' linked_frame).
Qed.

Lemma linked_meta id m : T !! id = Some m ->
  parent_id (get_meta (V2 (block_no id))) = parent_id (get_meta (V1 (block_no id))).
Proof.
  intros Hm. destruct (decide (id = d')) as [->|Hnd]; [by rewrite (ea_meta _ _ _ _ _ _ _ _ EA)|].
  by rewrite (other_parent reparented Hd' linked_frame id m Hm Hnd).
Qed.

Lemma old_dir : <[d' := NDir (es' ++ [(name, c)])]> T !! d = Some (NDir es).
Proof. by rewrite lookup_insert_ne. Qed.

Context (NR : node_removed V2 V3 e3 d (fun _ => False) (zlen es) (Z.of_nat i)).
Context (Hsp : forall b, e3 <= b < e2 -> False \/ dir_block V2 (block_no d) (zlen es) b).

Lemma unlinked_frame b : b < e2 -> ~ node_block V2 d (NDir es) b -> V3 b = V2 b /\ b < e3.
Proof.
  intros Hb Hnb. split; [apply (nr_frame _ _ _ _ _ _ _ NR); auto|]. destruct (decide (b < e3)); [done|].
  destruct (Hsp b ltac:(lia)); [done|]. by destruct Hnb.
Qed.

Lemma tree_move_rep : disk_rep V3 e3 (tree_move T d d' c name i es es').
Proof.
  pose proof (lookup_lt_Some _ _ _ Hi) as Hlt. pose proof (dn_node _ _ _ linked_nodes _ _ old_dir) as ND.
  destruct (removed_node _ _ _ _ _ _ _ _ ND Hlt NR) as [ND' HB].
  destruct (disk_nodes_change linked_nodes old_dir unlinked_frame _ ND' ltac:(auto)) as [A B].
  split; [exact A|exact B|]. apply (tree_move_parent V V3 e Dr). intros id m Hm.
  rewrite <- (reparented_meta id m Hm), <- (linked_meta id m Hm). destruct (decide (id = d)) as [->|Hnd].
  - by rewrite (nr_meta _ _ _ _ _ _ _ NR).
  - assert (Hm' : exists m', <[d' := NDir (es' ++ [(name, c)])]> T !! id = Some m').
    { destruct (decide (id = d')) as [->|]; [rewrite lookup_insert_eq|rewrite lookup_insert_ne by done]; eauto. }
    destruct Hm' as [m' Hm']. by rewrite (other_parent linked_nodes old_dir unlinked_frame id m' Hm' Hnd).
Qed.
End Blocks.

(** Removing an entry in an open transaction, with the blocks that become empty. *)
Lemma unlink_st s h hd V R dir num k (Q : unit -> fs -> Prop) X :
  fs_st N s h hd V None R -> dir_ok V (empty_area_start h) dir num -> empty_area_start h <= sb_num_blocks h ->
  txn_type h <> TXN_TYPE_NONE -> txn_data_block h = 0 -> txn_link_block h = 0 ->
  free_blocks h + 2 <= sb_num_blocks h -> first_entry V (block_no dir) num (pred_by_id c) k ->
  (forall s' h' V' R', fs_st N s' h' h' V' None R' -> no_txn h' -> sealed h' -> magic h' = magic h ->
     version h' = version h -> freelist_head h' = freelist_head h -> sb_num_blocks h' = sb_num_blocks h ->
     gives_back V h h' dir (fun _ => False) num ->
     node_removed V V' (empty_area_start h') dir (fun _ => False) num k -> Q tt s') ->
  wp (on_err (remove_directory_entry_inner dir c) make_error;;;
      free_if_marked Links;;; free_if_marked Data;;; commit_txn) s Q X.
Proof.
  intros S DO He Hty Hm1 Hm2 Hfree HF HQ. pose proof HF as (Hk & Ht & _). wp_step. wp_step.
  eapply (remove_directory_entry_inner_st _ _ h); [exact S|exact DO|exact He|done|done|done| |].
  2:{ intros s1 R1 Hnone _. exfalso. by rewrite Hnone in Ht. }
  intros k' s1 h1 hd1 V1 R1 HF' S1 ER MK. rewrite (first_entry_unique _ _ _ _ _ _ HF' HF) in ER.
  assert (Hgone : forall b, False -> 0 < b < empty_area_start h /\ ~ dir_block V (block_no dir) num b) by done.
  eapply (give_marked_st DO Hk He Hgone ER MK eq_refl eq_refl); [exact S1|done|]. intros s2 h2 V2 G2 N2 F2 _.
  destruct (giving_removed DO Hk Hgone ER MK eq_refl _ _ _ G2) as [NR GB].
  pose proof MK as [K1 K2 K3 K4 K5 K6 K7 _ _ _ _ _ _]. pose proof G2 as [[(hd2 & R2 & S2) _ B2 M2 Ve2 Ge2 _] _ _].
  eapply commit_txn_st; [exact S2|]. intros s3 S3.
  eapply HQ; [exact S3|done|apply sb_set_crc32_idem|etransitivity; [exact M2|exact K2]|etransitivity; [exact Ve2|exact K3]|
    etransitivity; [exact B2|exact K5]|exact N2|exact GB|exact NR].
Qed.

(** The first step: the new parent. *)
Lemma reparent_st s h V R (k : eff fs FsError unit) (Q : unit -> fs -> Prop) X :
  fs_st N s h h V None R -> no_txn h -> is_u64 (block_no d) -> is_u64 (block_no c) -> blk_in h (block_no c) ->
  block_no c ∈ R ->
  (forall s' V' h', fs_st N s' h' h' V' None (use (block_no c) R) ->
     h' = sb_set_crc32 (upd_txn_block Metadata (block_no c) (sb_set_crc32 (upd_txn (block_no d) TXN_TYPE_MOVE h))) ->
     V' (block_no c) = put_meta (meta_set_crc32 (set_parent d' (get_meta (V (block_no c))))) (V (block_no c)) ->
     (forall b, b <> block_no c -> V' b = V b) -> wp k s' Q X) ->
  wp (start_txn TXN_TYPE_MOVE d;;; upd_hdr (upd_txn_block Metadata (block_no c));;; save_superblock;;;
      let* blk := c_get_mut (block_no c) in
      c_set (put_meta (meta_set_crc32 (set_parent d' (get_meta blk))) blk);;; c_write (block_no c);;; k) s Q X.
Proof.
  intros S Hno Hdid Hcid Hin Hrc HQ. pose proof (st_block_ok _ _ _ _ _ _ _ _ S Hin) as Hok.
  wp_step. eapply start_txn_st; [exact S|exact Hno|exact Hdid|done|]. intros s1 S1. wp_step.
  eapply (wp_upd_hdr _ _ _ _ _ _ _ (upd_txn_block Metadata (block_no c)));
    [exact S1|apply upd_txn_block_ok; [exact Hcid|exact (st_ok _ _ _ _ _ _ _ S1)]|done|]. intros s2 S2.
  wp_step. eapply save_superblock_st; [exact S2|]. intros s3 S3.
  wp_step. eapply c_get_mut_st; [exact S3|done|done|]. intros s4 S4.
  wp_step. eapply c_set_st; [exact S4|done|by apply put_meta_block_ok|]. intros s5 S5.
  wp_step. eapply c_write_st; [exact S5|done|]. intros s6 S6.
  eapply HQ; [exact S6|done|apply fupd_eq|intros; by apply fupd_ne].
Qed.

(** The transaction. *)
Lemma move_across_st s h V R (Q : unit -> fs -> Prop) X :
  fs_st N s h h V None R -> idle h -> disk_rep V (empty_area_start h) T -> room 2 h ->
  free_blocks h + 2 <= sb_num_blocks h -> zlen es' < MAX_DIR_ENTRIES -> block_no c ∈ take 8 R -> block_no d' ∈ take 8 R ->
  (forall s' h' V' R', fs_st N s' h' h' V' None R' -> idle h' ->
     disk_rep V' (empty_area_start h') (tree_move T d d' c name i es es') -> Q tt s') ->
  wp (start_txn TXN_TYPE_MOVE d;;; upd_hdr (upd_txn_block Metadata (block_no c));;; save_superblock;;;
      let* blk := c_get_mut (block_no c) in
      c_set (put_meta (meta_set_crc32 (set_parent d' (get_meta blk))) blk);;; c_write (block_no c);;;
      on_err (add_directory_entry_inner d' c name) make_error;;;
      upd_hdr (fun h => upd_txn_block ListOfLinks 0 (upd_txn_block Links 0 (upd_txn_block Data 0 h)));;;
      on_err (remove_directory_entry_inner d c) make_error;;;
      free_if_marked Links;;; free_if_marked Data;;; commit_txn) s Q X.
Proof.
  intros S I Dr Hroom Hfree Hmax Hrc Hrd HQ. pose proof I as ((Hno & Hver & Hmag) & (Hfl & Hb) & Hseal).
  pose proof (dr_node _ _ _ Dr _ _ Hd) as ND. pose proof (dr_node _ _ _ Dr _ _ Hc) as NC.
  pose proof (node_id_ok _ _ _ _ ND) as [Hdid _]. pose proof (node_id_ok _ _ _ _ NC) as Hcid.
  pose proof (node_below _ _ _ _ _ NC (node_block_self V c n)) as Hcb.
  pose proof (node_below _ _ _ _ _ ND (node_block_self V d _)) as Hdb.
  assert (Hcin : forall h1, sb_num_blocks h1 = sb_num_blocks h -> blk_in h1 (block_no c)) by (unfold blk_in; intros; lia).
  pose proof (st_block_ok _ _ _ _ _ _ _ _ S (Hcin h eq_refl)) as Hok.
  eapply reparent_st; [exact S|exact Hno|exact Hdid|apply Hcid|by apply Hcin|by eapply in_take|].
  intros s6 V1 h3 S6 Eh3 Hf1 Hfr1. subst h3. set (h3 := sb_set_crc32 _) in S6.
  pose proof (dn_node _ _ _ (reparented Dr Hok Hf1 Hfr1) _ _ Hd') as [DO1 _].
  wp_step. wp_step.
  eapply (add_directory_entry_inner_st (h := h3) DO1); [exact Hmax|exact Hcid|exact name_length|simpl; lia|exact Hroom| |
    exact S6|eapply in_take, (use_in _ 8); [lia|exact Hrd]|done].
  intros s7 h7 hd7 V2 R7 S7 G7 EA. change (empty_area_start h3) with (empty_area_start h) in EA. wp_step.
  pose proof G7 as [G1 G2 G3 G4 G5 G6 G8 G9 G10]. pose proof (st_ok _ _ _ _ _ _ _ S7) as O7.
  eapply (wp_upd_hdr _ _ _ _ _ _ _ (fun h => upd_txn_block ListOfLinks 0 (upd_txn_block Links 0 (upd_txn_block Data 0 h))));
    [exact S7|by repeat apply upd_txn_block_ok|done|]. intros s8 S8. set (h8 := upd_txn_block ListOfLinks 0 _) in S8.
  pose proof (linked_nodes Dr Hok Hf1 Hfr1 EA Hmax) as DN2. pose proof (dn_node _ _ _ DN2 _ _ old_dir) as ND2.
  assert (E3 : sb_num_blocks h3 = sb_num_blocks h /\ free_blocks h3 = free_blocks h /\ empty_area_start h3 = empty_area_start h) by done.
  destruct E3 as (E3 & E4 & E5). destruct Hroom as (_ & _ & Hr). pose proof (ea_grown _ _ _ _ _ _ _ _ EA) as (_ & Hsp & _).
  eapply unlink_st; [exact S8|exact (proj1 ND2)|change (empty_area_start h7 <= sb_num_blocks h7); lia|
    by change (txn_type h7 <> TXN_TYPE_NONE); rewrite G6|done|done|change (free_blocks h7 + 2 <= sb_num_blocks h7); lia|
    exact (entry_first _ _ _ _ _ _ _ _ W Hd Hi ND2)|].
  intros s9 h9 V9 R9 S9 No9 Se9 M9 Ve9 Fl9 N9 [Sp9 Sp9'] NR9.
  pose proof (ds_parent _ _ _ _ (do_shape _ _ _ _ (nr_parent _ _ _ _ _ _ _ NR9))) as Hd9.
  eapply HQ; [exact S9| |by apply (tree_move_rep Dr Hok Hf1 Hfr1 EA Hmax NR9)].
  change (magic h9 = magic h7) in M9. change (version h9 = version h7) in Ve9. change (freelist_head h9 = freelist_head h7) in Fl9.
  change (sb_num_blocks h9 = sb_num_blocks h7) in N9. change (empty_area_start h9 <= empty_area_start h7) in Sp9.
  split; [split; [done|]; split; [rewrite Ve9, G3; exact Hver|rewrite M9, G2; exact Hmag]|].
  split; [|done]. split; [rewrite Fl9, G5; exact Hfl|lia].
Qed.
End Across.
End Op.

(** The tree after [move_rename]. *)
Definition tree_moved (T : tree) (d d' c : EntryId) (name : bytes) (i : nat) (es es' : list (bytes * EntryId)) : tree :=
  if decide (d = d') then tree_rename T d c name i es else tree_move T d d' c name i es es'.

Lemma move_rename_rep N s T d d' c name oldname i es es' (Q : unit -> fs -> Prop) (X : FsError -> fs -> Prop) :
  fs_rep N s T -> T !! d = Some (NDir es) -> es !! i = Some (oldname, c) -> T !! d' = Some (NDir es') ->
  utf8_valid name = true -> room 2 (header (superblock s)) ->
  free_blocks (header (superblock s)) + 2 <= sb_num_blocks (header (superblock s)) ->
  match name_error name es' with
  | Some x => forall s', fs_rep N s' T -> X x s'
  | None => forall s', fs_rep N s' (tree_moved T d d' c name i es es') -> Q tt s'
  end -> wp (move_rename c d' name) s Q X.
Proof.
  intros [W (h & V & R & S & I & Dr)] Hd Hi Hd' Hu Hroom Hfree HQ. rewrite (st_header _ _ _ _ _ _ _ S) in *.
  assert (Hin : (oldname, c) ∈ es) by (by eapply list_elem_of_lookup_2).
  destruct (tw_child _ W d es _ Hd Hin) as [[n Hc] Hroot]. simpl in Hc, Hroot. pose proof I as (_ & (_ & He) & _).
  pose proof (dr_node _ _ _ Dr _ _ Hd') as ND'. pose proof (dr_node _ _ _ Dr _ _ Hc) as NC.
  pose proof (node_below _ _ _ _ _ NC (node_block_self V c n)) as Hcb.
  unfold move_rename. wp_step. eapply wp_check_error; [exact S|]. wp_step.
  eapply validate_new_entry_st; [exact S|exact (proj1 ND')|lia| |].
  2:{ intros x s1 R1 S1 Hck. rewrite (name_error_check _ _ _ _ _ _ ND' (wf_utf8 _ _ _ W Hd') Hck) in HQ.
      apply HQ. by eapply fs_rep_same. }
  intros s1 R1 S1 Hck. rewrite (name_error_check _ _ _ _ _ _ ND' (wf_utf8 _ _ _ W Hd') Hck) in HQ.
  pose proof Hck as (Hvf & Hnone & Hmax). pose proof (no_name ND' (wf_utf8 _ _ _ W Hd') _ Hnone) as Hl.
  rewrite (proj2 (Z.eqb_neq _ _)).
  2:{ destruct (tw_root _ W) as [es0 HR]. intros E. by apply Hroot, (disk_rep_meta _ _ _ _ _ _ _ Dr Hc HR). }
  wp_step. eapply c_read_st; [exact S1|unfold blk_in; lia|]. intros s2 S2. rewrite (node_valid _ _ _ _ NC). wp_steps.
  pose proof (dr_parent _ _ _ Dr d es _ Hd Hin) as Ep. cbn [snd] in Ep. rewrite Ep. unfold tree_moved in HQ.
  destruct (decide (d = d')) as [E|Hne].
  - assert (es = es') as <- by congruence.
    eapply (rename_in_dir_st W Hd Hi Hc Hvf); [exact S2|exact Dr|lia|]. intros s3 V3 R3 S3 Dr3. apply HQ.
    eapply fs_rep_same; [by eapply tree_rename_wf|exact I|exact Dr3|exact S3].
  - eapply (move_across_st W Hd Hi Hc Hvf Hd' Hne); [exact S2|exact I|exact Dr|exact Hroom|exact Hfree|exact Hmax|in_recent|in_recent|].
    intros s3 h3 V3 R3 S3 I3 Dr3. apply HQ. eapply fs_rep_same; [by eapply tree_move_wf|exact I3|exact Dr3|exact S3].
Qed.
End Move.
