(* ===== verification/SrfsSample.v ===== *)
(** * Sample filesystems

    Concrete instances of what the filesystem is parameterised by (the checksum,
    a clock that stands still, zeroed buffers, a file of 64 blocks), and states
    reached from them: a mounted empty filesystem, one with a file, one with a
    directory beside it, and one with a file kept in a data block. *)

From stdpp Require Import base numbers list gmap.
From coqutil Require Import Byte.
From S2P Require Import RustPrelude Crc32 SrfsLayout BlockDevice BlockCache SrfsFs SrfsState SrfsDir.
From S2P Require Import SrfsDirAdd SrfsMount SrfsNode SrfsDirRemove SrfsRemove SrfsFile SrfsFileWrite.
From S2P Require Import SrfsFileAppend SrfsTree SrfsTreeOps.

Open Scope Z_scope.

Definition clock : Clock := mkTimestamp 0 0 0.
Definition uninit : Uninit := Block_new_zeroed.
#[local] Existing Instances IsoHdlc.iso_hdlc IsoHdlc.iso_hdlc_laws clock uninit.

Definition sample_dev : FileBlockDevice.t := FileBlockDevice.create 64.
Definition sample_name : bytes := ascii [97].
Definition sample_id : EntryId := mkEntryId 2 2.
Definition root_tree : tree := {[ROOT_DIR_ID := NDir []]}.
Definition file_tree : tree := tree_add root_tree ROOT_DIR_ID sample_id sample_name true [].

Lemma env : env_ok.
Proof. split; [|apply length_replicate]. unfold fits. solve_fits. Qed.

Lemma uninit_ok : block_ok uninit_block.
Proof. apply length_replicate. Qed.

Lemma dev_ok : dev_healthy sample_dev.
Proof. split; [done|]. apply map_Forall_empty. Qed.

Lemma mounted : exists s : SyncFileSystem FileBlockDevice.t, fs_rep 64 s root_tree /\
  header (superblock s) = sb_set_crc32 (fresh_header 64).
Proof.
  destruct (format_rep sample_dev env dev_ok) as (d' & s & _ & _ & H1 & H2); [unfold U64_MAX; simpl; lia|]. by exists s.
Qed.

Lemma with_file : exists s : SyncFileSystem FileBlockDevice.t, fs_rep 64 s file_tree /\
  room 50 (header (superblock s)) /\ sb_generation (header (superblock s)) < 10 /\
  free_blocks (header (superblock s)) + 3 <= sb_num_blocks (header (superblock s)) /\
  free_blocks (header (superblock s)) + empty_area_start (header (superblock s)) = sb_num_blocks (header (superblock s)).
Proof.
  destruct mounted as (s & Rp & Hh).
  assert (Hroom : room 53 (header (superblock s))) by (rewrite Hh; unfold room, bump; simpl; lia).
  destruct (wp_run (add_directory_entry ROOT_DIR_ID sample_name true) s (fun a s' => fs_rep 64 s' file_tree /\ leaves 3 2 s s'))
    as (a & s' & _ & Rp' & L1 & L2 & L3 & L4).
  - eapply (create_rep 64 s root_tree ROOT_DIR_ID []); [apply env|exact Rp|apply lookup_singleton_eq|done| | |].
    + rewrite Hh. unfold room, bump. simpl. lia.
    + rewrite Hh. simpl. lia.
    + change (name_error sample_name []) with (@None FsError). unfold next_id. rewrite Hh. intros s' R' L. done.
  - exists s'. split; [done|]. split; [by apply (L1 53); [lia|]|]. rewrite Hh in L2, L3, L4. simpl in L2, L3, L4.
    pose proof (fs_rep_used 64 s' file_tree sample_id (NFile []) Rp' (lookup_insert_eq _ _ _)) as Hu. simpl in Hu.
    rewrite L4. lia.
Qed.

Lemma root_in_file_tree : file_tree !! ROOT_DIR_ID = Some (NDir [(sample_name, sample_id)]).
Proof. done. Qed.
Lemma file_in_file_tree : file_tree !! sample_id = Some (NFile []).
Proof. done. Qed.


(** A directory beside the file. *)
Definition other_name : bytes := [Byte.x62].
Definition dir_tree (dir : EntryId) : tree :=
  tree_add file_tree ROOT_DIR_ID dir other_name false [(sample_name, sample_id)].

Lemma with_dir : exists (s : SyncFileSystem FileBlockDevice.t) dir, fs_rep 64 s (dir_tree dir) /\
  dir <> ROOT_DIR_ID /\ dir <> sample_id /\ room 40 (header (superblock s)) /\
  free_blocks (header (superblock s)) + 2 <= sb_num_blocks (header (superblock s)).
Proof.
  destruct with_file as (s & Rp & Hr & Hg & _ & Hsum). pose proof (fs_rep_used _ _ _ _ _ Rp file_in_file_tree) as U.
  destruct (wp_run (add_directory_entry ROOT_DIR_ID other_name false) s
    (fun a s' => fs_rep 64 s' (dir_tree (next_id s false)) /\ leaves 3 2 s s')) as (a & s' & _ & Rp' & L1 & _ & L3 & L4).
  - eapply create_rep; [apply env|exact Rp|exact root_in_file_tree|done| |lia|].
    + destruct Hr as (? & ? & ?). split; [done|lia].
    + change (name_error other_name [(sample_name, sample_id)]) with (@None FsError). intros s' R' L. done.
  - exists s', (next_id s false). split; [done|]. change (block_no sample_id) with 2 in U.
    assert (Hb : block_no (next_id s false) = empty_area_start (header (superblock s))) by done.
    split; [intros E; rewrite E in Hb; simpl in Hb; lia|]. split; [intros E; rewrite E in Hb; simpl in Hb; lia|].
    destruct (L1 50 ltac:(lia) Hr) as (? & ? & ?). split; [split; [done|lia]|].
    assert (Hs : dir_tree (next_id s false) !! sample_id = Some (NFile [])).
    { unfold dir_tree, tree_add. rewrite !lookup_insert_ne; [done|done|intros E; rewrite E in Hb; simpl in Hb; lia]. }
    pose proof (fs_rep_used _ _ _ _ _ Rp' Hs) as U'. change (block_no sample_id) with 2 in U'. lia.
Qed.

(** A file of 4000 bytes, kept in a data block. *)
Definition sample_data : bytes := replicate 4000 Byte.x01.
Definition data_tree : tree := <[sample_id := NFile sample_data]> file_tree.

Lemma sample_data_len : zlen sample_data = 4000.
Proof. unfold zlen, sample_data. rewrite length_replicate. lia. Qed.

Lemma with_data : exists s : SyncFileSystem FileBlockDevice.t, fs_rep 64 s data_tree /\
  room 40 (header (superblock s)) /\
  free_blocks (header (superblock s)) + 1 <= sb_num_blocks (header (superblock s)).
Proof.
  destruct with_file as (s & Rp & Hr & _ & _ & Hsum).
  destruct (wp_run (write sample_id 0 sample_data) s (fun _ s' => fs_rep 64 s' data_tree /\ leaves 3 0 s s'))
    as (a & s' & _ & Rp' & L1 & _ & L3 & L4).
  - assert (E0 : zlen (@nil byte) = 0) by done.
    eapply write_rep; [exact Rp|exact file_in_file_tree| |lia|rewrite sample_data_len; lia| |right; left; rewrite sample_data_len; lia| |].
    + destruct Hr as (? & ? & ?). split; [done|lia].
    + rewrite E0, sample_data_len. by vm_compute.
    + intros s' _ R' L. split; [|done].
      replace (write_data 0 sample_data []) with sample_data in R'; [done|].
      unfold write_data, patch. rewrite E0, sample_data_len.
      change (Z.to_nat (Z.min (write_len 0 0 4000) (write_size 0 0 4000 - 0))) with (Z.to_nat 4000).
      rewrite take_nil, drop_nil, app_nil_l, app_nil_r. symmetry. apply take_ge.
      unfold sample_data. rewrite length_replicate. lia.
    + intros s' Hlt. rewrite E0 in Hlt. lia.
  - exists s'. split; [done|]. destruct (L1 50 ltac:(lia) Hr) as (? & ? & ?). split; [split; [done|lia]|].
    pose proof (fs_rep_used 64 s' data_tree sample_id (NFile sample_data) Rp' (lookup_insert_eq _ _ _)) as Hu.
    change (block_no sample_id) with 2 in Hu. lia.
Qed.

(** The mounted filesystem with another header, as if saved. *)
Lemma mounted_with (f : SuperblockHeader -> SuperblockHeader) :
  (forall h, sb_ok h -> sb_ok (f h)) -> (forall h, sb_num_blocks (f h) = sb_num_blocks h) ->
  let h := sb_set_crc32 (f (sb_set_crc32 (fresh_header 64))) in
  exists (s : SyncFileSystem FileBlockDevice.t) V R, fs_st 64 s h h V None R /\ dir_ok V 2 ROOT_DIR_ID 0.
Proof.
  intros Hok Hnum h. destruct mounted as (s & [_ (h0 & V & R & S & _ & Dr)] & Hh).
  rewrite (st_header _ _ _ _ _ _ _ S) in Hh. rewrite Hh in S, Dr.
  destruct (dr_node _ _ _ Dr ROOT_DIR_ID (NDir []) (lookup_singleton_eq _ _)) as [DO _].
  destruct (wp_run (upd_hdr f;;; save_superblock) s (fun _ s' => fs_st 64 s' h h V None R)) as (a & s' & _ & S').
  - wp_step. eapply wp_upd_hdr; [exact S|apply Hok, (st_ok _ _ _ _ _ _ _ S)|done|]. intros s1 S1.
    eapply save_superblock_st; [exact S1|done].
  - by exists s', V, R.
Qed.
