(* ===== verification/SrfsProps.v ===== *)
(** * Properties of SRFS

    The public operations of [SyncFileSystem] against the tree of nodes, then
    the behaviours where the code falls short of it. *)

From stdpp Require Import base numbers list gmap.
From coqutil Require Import Byte.
From S2P Require Import RustPrelude Crc32 SrfsLayout BlockDevice BlockCache SrfsFs SrfsState SrfsDir.
From S2P Require Import SrfsDirAdd SrfsMount SrfsNode SrfsDirRemove SrfsRemove SrfsFile SrfsFileWrite.
From S2P Require Import SrfsFileAppend SrfsTree SrfsTreeOps SrfsTruncate SrfsMove SrfsSample.

Open Scope Z_scope.

Section Props.
Context {D : Type} {Dev : SyncBlockDevice D} {DL : SyncBlockDeviceLaws D}.
Context {Crc : Crc32} {CL : Crc32Laws Crc} {Clk : Clock} {Unin : Uninit}.
Abbreviation fs := (SyncFileSystem D).

Lemma wp_outcome {A} (m : eff fs FsError A) s (Q : A -> fs -> Prop) (X : FsError -> fs -> Prop) :
  wp m s Q X -> exists s' r, m s = (s', r) /\ match r with Ok a => Q a s' | Err x => X x s' | Panic => False end.
Proof. unfold wp. destruct (m s) as [s' r]. intros H. exists s', r. split; [done|]. by destruct r. Qed.

(** [format] of a healthy device of at least three blocks succeeds, and
    [open_fs] of the result gives a filesystem that represents the tree with only
    an empty root directory. *)
Theorem format_gives_empty_tree d :
  env_ok -> dev_healthy d -> 3 <= dev_num_blocks d < U64_MAX ->
  exists d' s, format d = (d', Ok tt) /\ open_fs d' = Ok s /\
    fs_rep (dev_num_blocks d) s {[ROOT_DIR_ID := NDir []]}.
Proof. intros Env Hh Hn. destruct (format_rep d Env Hh Hn) as (d' & s & ? & ? & ? & _). eauto. Qed.

(** C24: durability.  Whatever the filesystem represents, opening its device again
    (with a cold cache, all in-memory state lost) represents the same tree. *)
Theorem reopen_keeps_tree N s T :
  block_ok uninit_block -> fs_rep N s T ->
  exists s', open_fs (block_device (blockcache s)) = Ok s' /\ fs_rep N s' T.
Proof. apply reopen_rep. Qed.

(** C1: [add_file] and [add_directory].  An illegal name, a name in use and a
    full directory are reported, in this order, and change nothing; otherwise the
    directory gains the entry at its end and the new node is empty.  No other
    node is affected, whatever shape change the directory goes through.  There is
    room for three blocks, and the generation counter is not used up. *)
Theorem create_refines_tree N s T d es name is_file :
  env_ok -> fs_rep N s T -> T !! d = Some (NDir es) -> utf8_valid name = true ->
  room 3 (header (superblock s)) -> sb_generation (header (superblock s)) < 2 ^ 64 - 2 ->
  exists s', add_directory_entry d name is_file s =
      (s', match name_error name es with Some x => Err x | None => Ok (next_id s is_file) end) /\
    fs_rep N s' (match name_error name es with
                 | Some _ => T | None => tree_add T d (next_id s is_file) name is_file es end).
Proof.
  intros Env Rp Hd Hu Hr Hg.
  destruct (wp_outcome (add_directory_entry d name is_file) s
    (fun a s' => name_error name es = None /\ a = next_id s is_file /\
       fs_rep N s' (tree_add T d (next_id s is_file) name is_file es))
    (fun x s' => name_error name es = Some x /\ fs_rep N s' T)) as (s' & r & E & H).
  - eapply create_rep; [done|exact Rp|exact Hd|done|done|done|]. destruct (name_error name es); intros; done.
  - exists s'. rewrite E. destruct r as [a|x|]; [destruct H as (-> & -> & ?)|destruct H as (-> & ?)|]; done.
Qed.

(** Lookup by name returns the id of the entry with that name, or [NotFound]
    when the directory has none. *)
Theorem lookup_by_name N s T d es name :
  fs_rep N s T -> T !! d = Some (NDir es) ->
  exists s', get_directory_entry_by_name d name s =
      (s', match lookup_name name es with Some c => Ok (mkOwnedEntry c name) | None => Err NotFound end) /\
    fs_rep N s' T.
Proof.
  intros Rp Hd.
  destruct (wp_outcome (get_directory_entry_by_name d name) s
    (fun a s' => exists c, lookup_name name es = Some c /\ a = mkOwnedEntry c name /\ fs_rep N s' T)
    (fun x s' => lookup_name name es = None /\ x = NotFound /\ fs_rep N s' T)) as (s' & r & E & H).
  - eapply get_by_name_rep; [exact Rp|exact Hd|]. intros s' Rp'. destruct (lookup_name name es); eauto.
  - exists s'. rewrite E. destruct r as [a|x|]; [destruct H as (c & -> & -> & ?)|destruct H as (-> & -> & ?)|]; done.
Qed.

(** listing.  [get_num_entries] is the number of entries and
    [get_directory_entry] at each position returns the entry there, [NotFound]
    past the end. *)
Theorem list_directory N s T d es pos :
  fs_rep N s T -> T !! d = Some (NDir es) -> 0 <= pos ->
  (exists s', get_num_entries d s = (s', Ok (zlen es)) /\ fs_rep N s' T) /\
  exists s', get_directory_entry d pos s =
      (s', match es !! Z.to_nat pos with Some x => Ok (mkOwnedEntry x.2 x.1) | None => Err NotFound end) /\
    fs_rep N s' T.
Proof.
  intros Rp Hd Hpos. split.
  - destruct (wp_run (get_num_entries d) s (fun a s' => a = zlen es /\ fs_rep N s' T)) as (a & s' & E & -> & Rp').
    + eapply get_num_entries_rep; [exact Rp|exact Hd|done].
    + eauto.
  - destruct (wp_outcome (get_directory_entry d pos) s
      (fun a s' => exists x, es !! Z.to_nat pos = Some x /\ a = mkOwnedEntry x.2 x.1 /\ fs_rep N s' T)
      (fun x s' => es !! Z.to_nat pos = None /\ x = NotFound /\ fs_rep N s' T)) as (s' & r & E & H).
    + eapply get_entry_rep; [exact Rp|exact Hd|done|]. intros s' Rp'. destruct (es !! Z.to_nat pos); eauto.
    + exists s'. rewrite E. destruct r as [a|x|]; [destruct H as (c & -> & -> & ?)|destruct H as (-> & -> & ?)|]; done.
Qed.

(** [get_parent] of an entry is the directory that lists it. *)
Theorem parent_of_entry N s T d es x :
  fs_rep N s T -> T !! d = Some (NDir es) -> x ∈ es ->
  exists s', get_parent x.2 s = (s', Ok (Some d)) /\ fs_rep N s' T.
Proof.
  intros Rp Hd Hx.
  destruct (wp_run (get_parent x.2) s (fun a s' => a = Some d /\ fs_rep N s' T)) as (a & s' & E & -> & Rp').
  - eapply get_parent_rep; [exact Rp|exact Hd|exact Hx|done].
  - eauto.
Qed.

(** C29: [read] returns [read_len] bytes, and those of them that lie inside the
    file are the bytes of the file from the offset on, in every shape of file.
    They all do when the file is in its metadata block or the request ends inside
    the file; otherwise bytes behind the end of a file can follow in its last block. *)
Theorem read_refines_tree N s T f data off buf_len :
  fs_rep N s T -> T !! f = Some (NFile data) -> 0 <= off -> 0 <= buf_len < 2 ^ 32 ->
  exists r s', read f off buf_len s = (s', Ok r) /\ fs_rep N s' T /\
    zlen r = read_len (zlen data) off buf_len /\
    take (Z.to_nat (zlen data - off)) r = take (length r) (drop (Z.to_nat off) data) /\
    (zlen data <= 3968 \/ off + buf_len <= zlen data -> r = take (length r) (drop (Z.to_nat off) data)).
Proof.
  intros Rp Hf Ho Hl. apply wp_run. eapply read_rep; [exact Rp|exact Hf|done|done|]. intros r s' R' Hr Ht.
  split; [done|]. split; [done|]. split; [done|]. intros Hin. rewrite <- Ht. rewrite take_ge; [done|].
  revert Hr. unfold read_len, zlen in *. destruct (Z.leb_spec (Z.of_nat (length data)) off); [lia|].
  destruct (Z.leb_spec (Z.of_nat (length data)) 3968); lia.
Qed.

(** C2: [write] inside the file replaces bytes in place, at its end appends at
    most up to the end of the last block (allocating and linking blocks through
    every shape change), and past the end is refused; no other node changes.  The
    count returned is [write_len]: it is the number of bytes the file took over,
    except that an overwrite that runs over the end of a file with data blocks
    counts bytes up to the end of the block, which the file does not keep.  There
    is room for three blocks, the file stays within its maximal size, and an empty
    write is not at the end of a file that has data blocks. *)
Theorem write_refines_tree N s T f data off buf :
  fs_rep N s T -> T !! f = Some (NFile data) -> room 3 (header (superblock s)) ->
  0 <= off -> zlen buf < 2 ^ 32 -> write_size (zlen data) off (zlen buf) <= MAX_FILE_SIZE ->
  off < zlen data \/ 0 < zlen buf \/ zlen data <= 3968 ->
  exists s', write f off buf s =
      (s', if off <=? zlen data then Ok (write_len (zlen data) off (zlen buf)) else Err InvalidArgument) /\
    fs_rep N s' (if off <=? zlen data then <[f := NFile (write_data off buf data)]> T else T) /\
    (off = zlen data \/ off + zlen buf <= zlen data \/ off <= zlen data <= 3968 ->
     write_data off buf data = patch (Z.to_nat off) (Z.to_nat (write_len (zlen data) off (zlen buf))) buf data).
Proof.
  intros Rp Hf Hr Ho Hb Hm Hne.
  destruct (wp_outcome (write f off buf) s
    (fun a s' => off <= zlen data /\ a = write_len (zlen data) off (zlen buf) /\
       fs_rep N s' (<[f := NFile (write_data off buf data)]> T))
    (fun x s' => zlen data < off /\ x = InvalidArgument /\ fs_rep N s' T)) as (s' & r & E & H).
  - eapply write_rep; [exact Rp|exact Hf|done|done|done|exact Hm|exact Hne| |]; auto.
  - exists s'. rewrite E. destruct r as [a|x|]; [destruct H as (Hle & -> & ?)|destruct H as (Hgt & -> & ?)|done].
    + rewrite (proj2 (Z.leb_le _ _) Hle). split; [done|]. split; [done|]. by apply write_data_count.
    + rewrite (proj2 (Z.leb_gt _ _) Hgt). split; [done|]. split; [done|]. by apply write_data_count.
Qed.

(** C3: [remove] of an empty file or directory takes it out of its directory,
    whose last entry moves into the hole, and out of the tree; every other node
    keeps its content. *)
Theorem remove_refines_tree N s T d es i name c n :
  fs_rep N s T -> T !! d = Some (NDir es) -> es !! i = Some (name, c) ->
  T !! c = Some n -> n = NFile [] \/ n = NDir [] ->
  free_blocks (header (superblock s)) + 3 <= sb_num_blocks (header (superblock s)) ->
  exists s', remove c s = (s', Ok tt) /\ fs_rep N s' (tree_remove T d c i es).
Proof.
  intros Rp Hd Hi Hc He Hf.
  destruct (wp_run (remove c) s (fun _ s' => fs_rep N s' (tree_remove T d c i es))) as ([] & s' & E & Rp').
  - eapply remove_rep; [exact Rp|exact Hd|exact Hi|exact Hc|exact He|exact Hf|done].
  - eauto.
Qed.


(** C5: [move_rename] of a node refuses illegal, duplicate and overflowing names and otherwise gives the entry a
    new name in place, or takes it out of its directory, whose last entry moves into the hole, and appends it to
    the new directory, through every shape of both directories; no other node changes.  There is room for two
    blocks. *)
Theorem move_refines_tree N s T d d' c name oldname i es es' :
  fs_rep N s T -> T !! d = Some (NDir es) -> es !! i = Some (oldname, c) -> T !! d' = Some (NDir es') ->
  utf8_valid name = true -> room 2 (header (superblock s)) ->
  free_blocks (header (superblock s)) + 2 <= sb_num_blocks (header (superblock s)) ->
  exists s', move_rename c d' name s =
      (s', match name_error name es' with Some x => Err x | None => Ok tt end) /\
    fs_rep N s' (match name_error name es' with Some _ => T | None => tree_moved T d d' c name i es es' end).
Proof.
  intros Rp Hd Hi Hd' Hu Hr Hf.
  destruct (wp_outcome (move_rename c d' name) s
    (fun _ s' => name_error name es' = None /\ fs_rep N s' (tree_moved T d d' c name i es es'))
    (fun x s' => name_error name es' = Some x /\ fs_rep N s' T)) as (s' & r & E & H).
  - eapply move_rename_rep; [exact Rp|exact Hd|exact Hi|exact Hd'|done|done|done|].
    destruct (name_error name es'); intros; done.
  - exists s'. rewrite E. destruct r as [[]|x|]; [destruct H as (-> & ?)|destruct H as (-> & ?)|]; done.
Qed.

(** Bytes appended to a small file survive a remount: [write] at the end,
    open the device again, and [read] returns the old bytes followed by the new. *)
Theorem append_survives_remount N s T f data buf :
  block_ok uninit_block -> fs_rep N s T -> T !! f = Some (NFile data) -> room 3 (header (superblock s)) ->
  zlen data + zlen buf <= 3968 ->
  exists s1 s2 s3, write f (zlen data) buf s = (s1, Ok (zlen buf)) /\
    open_fs (block_device (blockcache s1)) = Ok s2 /\
    read f 0 (zlen data + zlen buf) s2 = (s3, Ok (data ++ buf)).
Proof.
  intros Hu Rp Hf Hr Hs. assert (H0 : 0 <= zlen data /\ 0 <= zlen buf) by (unfold zlen; lia).
  assert (Es : write_size (zlen data) (zlen data) (zlen buf) = zlen data + zlen buf).
  { unfold write_size. rewrite Z.ltb_irrefl. by rewrite (proj2 (Z.leb_le _ _)) by lia. }
  assert (El : write_len (zlen data) (zlen data) (zlen buf) = zlen buf).
  { unfold write_len. rewrite Z.ltb_irrefl, Es. lia. }
  assert (Ed : write_data (zlen data) buf data = data ++ buf).
  { unfold write_data, patch. rewrite El, Es. unfold zlen. rewrite Z.min_l, !Nat2Z.id by lia.
    rewrite !take_ge by lia. rewrite drop_ge by lia. by rewrite app_nil_r. }
  destruct (wp_run (write f (zlen data) buf) s (fun a s' => a = zlen buf /\ fs_rep N s' (<[f := NFile (data ++ buf)]> T)))
    as (a & s1 & E1 & -> & R1).
  { eapply write_rep; [exact Rp|exact Hf|done|lia|lia|rewrite Es; change MAX_FILE_SIZE with 532575944704; lia|lia| |].
    - intros s' _ R' _. rewrite El. rewrite Ed in R'. done.
    - intros. lia. }
  destruct (reopen_rep N s1 _ Hu R1) as (s2 & E2 & R2).
  destruct (wp_run (read f 0 (zlen data + zlen buf)) s2 (fun r _ => r = data ++ buf)) as (r & s3 & E3 & ->).
  { eapply read_rep; [exact R2|apply lookup_insert_eq|lia|lia|]. intros r s' _ Hlr Ht.
    assert (Hz : zlen (data ++ buf) = zlen data + zlen buf) by (unfold zlen; rewrite length_app; lia).
    assert (Er : zlen r = zlen (data ++ buf)).
    { rewrite Hlr. unfold read_len. rewrite Hz. destruct (Z.leb_spec (zlen data + zlen buf) 0); [lia|].
      rewrite (proj2 (Z.leb_le _ 3968)) by lia. lia. }
    unfold zlen in Er. rewrite drop_0 in Ht. rewrite !take_ge in Ht by (unfold zlen; lia). done. }
  by exists s1, s2, s3.
Qed.
End Props.

(** Instances on a formatted device of 64 blocks, and with one file in its root. *)
Module SrfsWitness.
#[local] Existing Instances IsoHdlc.iso_hdlc IsoHdlc.iso_hdlc_laws clock uninit.

Lemma format_gives_empty_tree_witness :
  exists d' s, format sample_dev = (d', Ok tt) /\ open_fs d' = Ok s /\ fs_rep 64 s root_tree.
Proof. apply (format_gives_empty_tree sample_dev env dev_ok). unfold U64_MAX. simpl. lia. Defined.

Lemma reopen_keeps_tree_witness :
  exists s s' : SyncFileSystem FileBlockDevice.t, fs_rep 64 s file_tree /\
    open_fs (block_device (blockcache s)) = Ok s' /\ fs_rep 64 s' file_tree.
Proof.
  destruct with_file as (s & Rp & _). destruct (reopen_keeps_tree 64 s file_tree uninit_ok Rp) as (s' & ? & ?).
  by exists s, s'.
Defined.

Lemma create_refines_tree_witness :
  exists s s' : SyncFileSystem FileBlockDevice.t, fs_rep 64 s file_tree /\
    add_directory_entry ROOT_DIR_ID sample_name false s = (s', Err AlreadyExists) /\ fs_rep 64 s' file_tree.
Proof.
  destruct with_file as (s & Rp & Hr & Hg & _).
  destruct (create_refines_tree 64 s file_tree ROOT_DIR_ID [(sample_name, sample_id)] sample_name false env Rp root_in_file_tree eq_refl)
    as (s' & E & Rp'); [destruct Hr as (? & ? & ?); unfold room; split; [done|lia]|lia|]. by exists s, s'.
Defined.

Lemma lookup_by_name_witness :
  exists s s' : SyncFileSystem FileBlockDevice.t, fs_rep 64 s file_tree /\
    get_directory_entry_by_name ROOT_DIR_ID sample_name s = (s', Ok (mkOwnedEntry sample_id sample_name)).
Proof.
  destruct with_file as (s & Rp & _).
  destruct (lookup_by_name 64 s file_tree ROOT_DIR_ID [(sample_name, sample_id)] sample_name Rp root_in_file_tree) as (s' & E & _).
  by exists s, s'.
Defined.

Lemma list_directory_witness :
  exists s s1 s2 : SyncFileSystem FileBlockDevice.t, fs_rep 64 s file_tree /\
    get_num_entries ROOT_DIR_ID s = (s1, Ok 1) /\
    get_directory_entry ROOT_DIR_ID 0 s = (s2, Ok (mkOwnedEntry sample_id sample_name)).
Proof.
  destruct with_file as (s & Rp & _).
  destruct (list_directory 64 s file_tree ROOT_DIR_ID [(sample_name, sample_id)] 0 Rp root_in_file_tree ltac:(lia))
    as [(s1 & E1 & _) (s2 & E2 & _)].
  by exists s, s1, s2.
Defined.

Lemma parent_of_entry_witness :
  exists s s' : SyncFileSystem FileBlockDevice.t, fs_rep 64 s file_tree /\
    get_parent sample_id s = (s', Ok (Some ROOT_DIR_ID)).
Proof.
  destruct with_file as (s & Rp & _).
  destruct (parent_of_entry 64 s file_tree ROOT_DIR_ID [(sample_name, sample_id)] (sample_name, sample_id) Rp root_in_file_tree
    (list_elem_of_here _ _)) as (s' & E & _).
  by exists s, s'.
Defined.

Lemma read_refines_tree_witness :
  exists s s' : SyncFileSystem FileBlockDevice.t, fs_rep 64 s data_tree /\
    read sample_id 3990 10 s = (s', Ok (replicate 10 Byte.x01)).
Proof.
  destruct with_data as (s & Rp & _).
  destruct (read_refines_tree 64 s data_tree sample_id sample_data 3990 10 Rp (lookup_insert_eq _ _ _) ltac:(lia) ltac:(lia))
    as (r & s' & E & _ & Hl & _ & Hr); rewrite sample_data_len in *.
  exists s, s'. split; [done|]. rewrite E, (Hr ltac:(lia)). unfold zlen in Hl. change (read_len 4000 3990 10) with 10 in Hl.
  replace (length r) with 10%nat by lia. unfold sample_data. by rewrite drop_replicate, take_replicate.
Defined.

Lemma write_refines_tree_witness :
  exists s s' : SyncFileSystem FileBlockDevice.t, fs_rep 64 s file_tree /\
    write sample_id 0 sample_name s = (s', Ok 1) /\ fs_rep 64 s' (<[sample_id := NFile sample_name]> file_tree).
Proof.
  destruct with_file as (s & Rp & (Hb & Hf & He) & _).
  destruct (write_refines_tree 64 s file_tree sample_id [] 0 sample_name Rp file_in_file_tree) as (s' & E & Rp' & _);
    [split; [done|lia]|lia|done|by vm_compute|right; by left|]. by exists s, s'.
Defined.

Lemma remove_refines_tree_witness :
  exists s s' : SyncFileSystem FileBlockDevice.t, fs_rep 64 s file_tree /\
    remove sample_id s = (s', Ok tt) /\ fs_rep 64 s' (tree_remove file_tree ROOT_DIR_ID sample_id 0 [(sample_name, sample_id)]).
Proof.
  destruct with_file as (s & Rp & _ & _ & Hf & _).
  destruct (remove_refines_tree 64 s file_tree ROOT_DIR_ID [(sample_name, sample_id)] 0 sample_name sample_id (NFile []) Rp root_in_file_tree
    eq_refl file_in_file_tree (or_introl eq_refl) Hf) as (s' & E & Rp').
  by exists s, s'.
Defined.


Lemma move_refines_tree_witness :
  exists (s s' : SyncFileSystem FileBlockDevice.t) dir, fs_rep 64 s (dir_tree dir) /\
    move_rename sample_id dir sample_name s = (s', Ok tt) /\
    fs_rep 64 s' (tree_move (dir_tree dir) ROOT_DIR_ID dir sample_id sample_name 0
                    [(sample_name, sample_id); (other_name, dir)] []).
Proof.
  destruct with_dir as (s & dir & Rp & H1 & H2 & (Hb & Hf & He) & Hfree).
  destruct (move_refines_tree 64 s (dir_tree dir) ROOT_DIR_ID dir sample_id sample_name sample_name 0
    [(sample_name, sample_id); (other_name, dir)] [] Rp) as (s' & E & Rp').
  - unfold dir_tree, tree_add. rewrite lookup_insert_ne by done. apply lookup_insert_eq.
  - reflexivity.
  - apply lookup_insert_eq.
  - reflexivity.
  - split; [done|lia].
  - exact Hfree.
  - exists s, s', dir. unfold tree_moved in Rp'. rewrite decide_False in Rp' by congruence. done.
Defined.

Lemma append_survives_remount_witness :
  exists s s1 s2 s3 : SyncFileSystem FileBlockDevice.t, fs_rep 64 s file_tree /\
    write sample_id 0 sample_name s = (s1, Ok 1) /\ open_fs (block_device (blockcache s1)) = Ok s2 /\
    read sample_id 0 1 s2 = (s3, Ok sample_name).
Proof.
  destruct with_file as (s & Rp & (Hb & Hf & He) & _).
  destruct (append_survives_remount 64 s file_tree sample_id [] sample_name uninit_ok Rp file_in_file_tree)
    as (s1 & s2 & s3 & E1 & E2 & E3); [split; [done|lia]|done|]. by exists s, s1, s2, s3.
Defined.
End SrfsWitness.
