(* ===== verification/SrfsLimits.v ===== *)
(** * Where SRFS falls short

    Theorems about the code as it is, on behaviours its own comments or types
    promise otherwise: freed blocks that are never handed out again, the states a
    full device leaves, reads and writes past the end of a file, and directories
    moved into themselves. *)

From stdpp Require Import base numbers list gmap.
From coqutil Require Import Byte.
From S2P Require Import RustPrelude Crc32 SrfsLayout BlockDevice BlockCache SrfsFs SrfsState SrfsDir.
From S2P Require Import SrfsDirAdd SrfsMount SrfsNode SrfsDirRemove SrfsRemove SrfsFile SrfsFileWrite.
From S2P Require Import SrfsFileAppend SrfsTree SrfsTreeOps SrfsTruncate SrfsMove SrfsSample.

Open Scope Z_scope.

Section Limits.
Context {D : Type} {Dev : SyncBlockDevice D} {DL : SyncBlockDeviceLaws D}.
Context {Crc : Crc32} {CL : Crc32Laws Crc} {Clk : Clock} {Unin : Uninit}.
Abbreviation fs := (SyncFileSystem D).

Lemma bind_run {A B} (m : eff fs FsError A) (k : A -> eff fs FsError B) s s' a : m s = (s', Ok a) -> bind m k s = k a s'.
Proof. unfold bind. by intros ->. Qed.

Lemma wp_fails {A} (m : eff fs FsError A) s (X : FsError -> fs -> Prop) :
  wp m s (fun _ _ => False) X -> exists x s', m s = (s', Err x) /\ X x s'.
Proof. unfold wp. destruct (m s) as [s' [a|x|]]; [done|eauto|done]. Qed.

(** ** Freed blocks *)

(** [free_txn_block] of a block that is not the last one given out counts it
    as free but leaves both allocation sources, the free list and the empty area,
    as they were: the block is written as a list node that nothing points to. *)
Theorem freed_block_leaks N s h hd V R t :
  fs_st N s h hd V None R -> blk_in h (txn_block t h) -> free_blocks h < sb_num_blocks h ->
  txn_block t h + 1 <> empty_area_start h ->
  exists s', free_txn_block t s = (s', Ok tt) /\
    free_blocks (header (superblock s')) = free_blocks h + 1 /\
    freelist_head (header (superblock s')) = freelist_head h /\
    empty_area_start (header (superblock s')) = empty_area_start h.
Proof.
  intros S Hb Hf Hne.
  assert (Efl : freed_last t h = false) by (unfold freed_last; apply Z.eqb_neq; lia).
  destruct (wp_run (free_txn_block t) s (fun _ s' => header (superblock s') = sb_set_crc32 (free_hdr t h)))
    as ([] & s' & E & Hh).
  - eapply free_st; [exact S|done|done|]. intros s' V' R' S' _. apply (st_header _ _ _ _ _ _ _ S').
  - exists s'. split; [done|]. rewrite Hh. unfold free_hdr. rewrite Efl. by destruct t.
Qed.

(** Once the empty area is used up, allocating while blocks are counted as
    free does not report [FsFull]: it puts the filesystem in its error state, in
    which every later operation fails. *)
Theorem leaked_blocks_poison N s h hd V R t :
  fs_st N s h hd V None R -> txn_blocks_owner h <> 0 -> freelist_head h = 0 ->
  empty_area_start h = sb_num_blocks h -> 0 < free_blocks h ->
  exists s', allocate_txn_block t s = (s', Err ValidationFailed) /\ fs_error s' = Some ValidationFailed /\
    forall d, (get_num_entries d s').2 = Err ValidationFailed.
Proof.
  intros S Ho Hfl He Hf. pose proof (st_geom _ _ _ _ _ _ _ S) as [Hg _]. pose proof (st_ok _ _ _ _ _ _ _ S) as Hok.
  destruct (wp_fails (allocate_txn_block t) s
    (fun x s' => x = ValidationFailed /\ fs_error s' = Some ValidationFailed)) as (x & s' & E & -> & Her).
  2:{ exists s'. split; [done|]. split; [done|]. intros d. unfold get_num_entries, check_error, bind, get_state.
      by rewrite Her. }
  unfold allocate_txn_block, pick_free_block. wp_step. eapply wp_hdr; [exact S|]. wp_step.
  apply wp_assert; [by apply negb_true_iff, Z.eqb_neq|]. rewrite (proj2 (Z.eqb_neq _ 0)) by lia.
  wp_step. wp_step. eapply wp_hdr; [exact S|]. rewrite Hfl. simpl. wp_step.
  eapply (wp_upd_hdr _ _ _ _ _ _ _ (upd_empty _)); [exact S|auto with srfs machine|done|]. intros s1 S1. wp_steps.
  apply wp_assert; [apply negb_true_iff, Z.eqb_neq; lia|]. wp_step. eapply wp_hdr; [exact S1|]. simpl.
  rewrite (proj2 (Z.leb_le _ _)) by lia. unfold make_error. wp_steps.
  apply wp_assert; [apply bool_decide_eq_true, (st_error _ _ _ _ _ _ _ S1)|]. wp_steps. done.
Qed.

(** ** A full device *)

(** The header of the transaction that [add_directory_entry] opens. *)
Definition add_txn (h : SuperblockHeader) (d : EntryId) (is_file : bool) : SuperblockHeader :=
  sb_set_crc32 (upd_txn (block_no d) TXN_TYPE_ADD_NODE (upd_generation (next_generation (sb_generation h) is_file) h)).

Lemma create_full_st N s h V R d num name is_file (Q : EntryId -> fs -> Prop) (X : FsError -> fs -> Prop) :
  fs_st N s h h V None R -> no_txn h -> bump h -> dir_ok V (empty_area_start h) d num -> free_blocks h = 0 ->
  validate_filename name = Ok tt -> no_entry V (block_no d) num (pred_by_name name) -> num < MAX_DIR_ENTRIES ->
  (forall s' R', fs_st N s' (add_txn h d is_file) (add_txn h d is_file) V None R' -> X FsFull s') ->
  wp (add_directory_entry d name is_file) s Q X.
Proof.
  intros S Hno Hb DO Hfr Hv HN Hlt HX. pose proof (st_ok _ _ _ _ _ _ _ S) as Hok.
  unfold add_directory_entry. wp_step. eapply wp_check_error; [exact S|]. wp_step.
  destruct Hb as [_ Hb]. eapply validate_new_entry_st; [exact S|exact DO|lia| |].
  2:{ intros x s1 R1 _ Hchk. exfalso. destruct x; simpl in Hchk; try done.
      - destruct Hchk as [_ (pos & Hp & Ht & _)]. by rewrite HN in Ht.
      - congruence.
      - destruct Hchk as (_ & _ & ?). lia. }
  intros s1 R1 S1 _. wp_step. eapply wp_hdr; [exact S1|]. wp_step.
  set (g := next_generation (sb_generation h) is_file) in *.
  eapply (wp_upd_hdr _ _ _ _ _ _ _ (upd_generation g)); [exact S1| |done|].
  { apply upd_generation_ok; [|done]. unfold g, next_generation. repeat case_match; apply u64_range. }
  intros s2 S2. wp_step. eapply start_txn_st; [exact S2|exact Hno|apply DO|done|]. intros s3 S3.
  unfold allocate_txn_block. wp_step. wp_step. eapply wp_hdr; [exact S3|].
  destruct (validate_dir_num _ _ _ _ DO) as [Hp _]. wp_step.
  apply wp_assert; [apply negb_true_iff, Z.eqb_neq; simpl; lia|].
  change (free_blocks (sb_set_crc32 (upd_txn (block_no d) TXN_TYPE_ADD_NODE (upd_generation g h)))) with (free_blocks h).
  rewrite Hfr. simpl. wp_steps. by eapply HX.
Qed.

(** Creating an entry on a full device returns [FsFull] but leaves its
    transaction open, so the next creation panics on the transaction assertion. *)
Theorem full_device_then_panic N s h V R d num name is_file :
  fs_st N s h h V None R -> no_txn h -> bump h -> dir_ok V (empty_area_start h) d num -> free_blocks h = 0 ->
  validate_filename name = Ok tt -> no_entry V (block_no d) num (pred_by_name name) -> num < MAX_DIR_ENTRIES ->
  exists s1 s2, add_directory_entry d name is_file s = (s1, Err FsFull) /\
    add_directory_entry d name is_file s1 = (s2, Panic).
Proof.
  intros S Hno Hb DO Hfr Hv HN Hlt. pose proof Hb as [_ Hb2].
  destruct (wp_fails (add_directory_entry d name is_file) s (fun x s' => x = FsFull /\
    exists R', fs_st N s' (add_txn h d is_file) (add_txn h d is_file) V None R')) as (x & s1 & E1 & -> & R1 & S1).
  { eapply create_full_st; try done. eauto. }
  destruct (wp_run (validate_new_entry d name) s1 (fun _ s' =>
    exists R', fs_st N s' (add_txn h d is_file) (add_txn h d is_file) V None R')) as ([] & s2 & E2 & R2 & S2).
  { eapply validate_new_entry_st; [exact S1|exact DO|simpl; lia|eauto|].
    intros x s2 R2 _ Hchk. destruct x; simpl in Hchk; try done.
    - destruct Hchk as [_ (pos & Hp & Ht & _)]. by rewrite HN in Ht.
    - congruence.
    - destruct Hchk as (_ & _ & ?). lia. }
  exists s1. eexists. split; [done|]. unfold add_directory_entry.
  erewrite bind_run by (unfold check_error, bind, get_state; rewrite (st_error _ _ _ _ _ _ _ S1); reflexivity).
  erewrite bind_run by exact E2. unfold hdr, upd_hdr, modify, start_txn, bind, get_state, ret, assert.
  simpl. rewrite (st_header _ _ _ _ _ _ _ S2). reflexivity.
Qed.

(** ** Past the end of a file *)

(** Reading in the last block of a file kept in data blocks returns bytes up
    to the end of the block, more than the file has: [read] computes the end of
    the file and does not use it. *)
Theorem read_past_end N s T f data off :
  fs_rep N s T -> T !! f = Some (NFile data) -> 3968 < zlen data -> zlen data mod 4096 <> 0 ->
  0 <= off < zlen data -> off / 4096 = zlen data / 4096 ->
  exists r s', read f off 4096 s = (s', Ok r) /\ zlen r = 4096 - off mod 4096 /\ zlen data - off < zlen r.
Proof.
  intros Rp Hf Hbig Hmod Hoff Hlast.
  destruct (wp_run (read f off 4096) s (fun r _ => zlen r = read_len (zlen data) off 4096)) as (r & s' & E & Hr).
  - eapply read_rep; [exact Rp|exact Hf|lia|lia|]. auto.
  - exists r, s'. split; [done|]. unfold read_len in Hr.
    rewrite !(proj2 (Z.leb_gt _ _)) in Hr by lia. rewrite Hr. dlia.
Qed.

(** An overwrite that starts inside the last block and runs past the end of
    the file returns a count larger than the bytes the file keeps: the size does
    not change, yet the caller is told the whole buffer was written. *)
Theorem overwrite_overcounts N s T f data off buf :
  fs_rep N s T -> T !! f = Some (NFile data) -> room 3 (header (superblock s)) ->
  3968 < zlen data <= MAX_FILE_SIZE -> 0 <= off < zlen data -> zlen buf < 2 ^ 32 ->
  zlen data - off < zlen buf -> off + zlen buf <= 4096 * (off / 4096 + 1) ->
  exists s' data', write f off buf s = (s', Ok (zlen buf)) /\
    fs_rep N s' (<[f := NFile data']> T) /\ zlen data' = zlen data.
Proof.
  intros Rp Hf Hr [Hbig Hmax] Hoff Hb Hpast Hfit.
  assert (Hs : write_size (zlen data) off (zlen buf) = zlen data)
    by (unfold write_size; by rewrite (proj2 (Z.ltb_lt _ _)) by lia).
  assert (Hl : write_len (zlen data) off (zlen buf) = zlen buf).
  { unfold write_len. rewrite (proj2 (Z.ltb_lt _ _)), (proj2 (Z.leb_gt _ _)) by lia. lia. }
  destruct (wp_run (write f off buf) s (fun a s' => a = zlen buf /\ fs_rep N s' (<[f := NFile (write_data off buf data)]> T)))
    as (a & s' & E & -> & Rp').
  - eapply write_rep; [exact Rp|exact Hf|done|lia|done|rewrite Hs; lia|lia| |intros; lia].
    intros s' _ R' _. by rewrite Hl.
  - exists s', (write_data off buf data). split; [done|]. split; [done|]. unfold write_data. rewrite Hs, Hl.
    unfold zlen in *. rewrite length_patch by lia. lia.
Qed.

(** ** The smallest device *)

(** [format] accepts a device of two blocks, and [open_fs] then refuses it. *)
Theorem two_blocks_format_not_open d :
  env_ok -> dev_healthy d -> dev_num_blocks d = 2 ->
  exists d', format d = (d', Ok tt) /\ open_fs d' = Err InvalidArgument.
Proof.
  intros Env Hh Hn.
  destruct (wp_run format d (fun _ d' => dev_healthy d' /\ dev_num_blocks d' = 2 /\
     dev_contents d' 0 = sb_enc (sb_set_crc32 (fresh_header 2)) ++ replicate 3992 Byte.x00))
    as ([] & d' & E & Hh' & Hn' & H0).
  { apply format_st; [done|rewrite Hn; by vm_compute|]. rewrite Hn. intros d' ? ? ? _ _. done. }
  exists d'. split; [done|]. unfold open_fs.
  destruct (dev_healthy_read d' 0 uninit_block Hh' ltac:(lia) (proj2 Env)) as (d2 & -> & _).
  rewrite H0. unfold Superblock_from. rewrite take_app_length' by (by rewrite length_sb_enc).
  pose proof (sb_dec_enc (sb_set_crc32 (fresh_header 2)) [] (sb_set_crc32_ok _ (fresh_header_ok 2 ltac:(lia)))) as Hd.
  rewrite app_nil_r in Hd. rewrite Hd, sb_validate_seal by done. done.
Qed.
End Limits.

(** Instances. *)
Module LimitsWitness.
#[local] Existing Instances IsoHdlc.iso_hdlc IsoHdlc.iso_hdlc_laws clock uninit.
Abbreviation fs := (SyncFileSystem FileBlockDevice.t).

(** Headers with other counters. *)
Ltac hdr_ok :=
  intros; repeat first [assumption|apply upd_txn_block_ok|apply upd_txn_ok|apply upd_empty_ok|apply upd_free_ok];
  unfold is_u64, is_u32; lia.

(** Blocks up to 10 are in use; block 5 is about to be freed. *)
Lemma freed_block_leaks_witness :
  exists s s' : fs, txn_block Data (header (superblock s)) = 5 /\ free_txn_block Data s = (s', Ok tt) /\
    freelist_head (header (superblock s')) = 0 /\ empty_area_start (header (superblock s')) = 10.
Proof.
  destruct (mounted_with (fun h => upd_txn_block Data 5 (upd_empty 10 (upd_free 54 h)))) as (s & V & R & S & _);
    [hdr_ok|done|].
  destruct (freed_block_leaks 64 s _ _ V R Data S) as (s' & E & _ & E2 & E3); [unfold blk_in; simpl; lia|done|done|].
  exists s, s'. rewrite (st_header _ _ _ _ _ _ _ S). done.
Defined.

(** All 64 blocks were given out, 3 were freed. *)
Lemma leaked_blocks_poison_witness :
  exists s s' : fs, free_blocks (header (superblock s)) = 3 /\
    allocate_txn_block Data s = (s', Err ValidationFailed) /\ fs_error s' = Some ValidationFailed.
Proof.
  destruct (mounted_with (fun h => upd_txn 1 1 (upd_empty 64 (upd_free 3 h)))) as (s & V & R & S & _);
    [hdr_ok|done|].
  destruct (leaked_blocks_poison 64 s _ _ V R Data S) as (s' & E & E2 & _); [done|done|done|done|].
  exists s, s'. rewrite (st_header _ _ _ _ _ _ _ S). done.
Defined.

Lemma full_device_then_panic_witness :
  exists s s1 s2 : fs, free_blocks (header (superblock s)) = 0 /\
    add_directory_entry ROOT_DIR_ID sample_name true s = (s1, Err FsFull) /\
    add_directory_entry ROOT_DIR_ID sample_name true s1 = (s2, Panic).
Proof.
  destruct (mounted_with (upd_free 0)) as (s & V & R & S & DO); [hdr_ok|done|].
  destruct (full_device_then_panic 64 s _ V R ROOT_DIR_ID 0 sample_name true S) as (s1 & s2 & E1 & E2);
    [done|by vm_compute|exact DO|done|done|unfold no_entry; lia|done|].
  exists s, s1, s2. rewrite (st_header _ _ _ _ _ _ _ S). done.
Defined.

Lemma read_past_end_witness :
  exists r (s s' : fs), fs_rep 64 s data_tree /\ read sample_id 3990 4096 s = (s', Ok r) /\ zlen r = 106.
Proof.
  destruct with_data as (s & Rp & _). pose proof sample_data_len as Hl.
  destruct (read_past_end 64 s data_tree sample_id sample_data 3990 Rp (lookup_insert_eq _ _ _)) as (r & s' & E & Hr & _);
    [rewrite Hl; lia|by rewrite Hl|rewrite Hl; lia|by rewrite Hl|]. by exists r, s, s'.
Defined.

Lemma overwrite_overcounts_witness :
  exists (s s' : fs) data', fs_rep 64 s data_tree /\ write sample_id 3990 (replicate 50 Byte.x02) s = (s', Ok 50) /\
    fs_rep 64 s' (<[sample_id := NFile data']> data_tree) /\ zlen data' = 4000.
Proof.
  destruct with_data as (s & Rp & Hr & _). pose proof sample_data_len as Hl.
  destruct (overwrite_overcounts 64 s data_tree sample_id sample_data 3990 (replicate 50 Byte.x02) Rp (lookup_insert_eq _ _ _))
    as (s' & data' & E & Rp' & Hd); [destruct Hr as (? & ? & ?); split; [done|lia]|rewrite Hl; by vm_compute|rewrite Hl; lia|
      by vm_compute|rewrite Hl; by vm_compute|by vm_compute|].
  rewrite Hl in Hd. by exists s, s', data'.
Defined.

Lemma two_blocks_format_not_open_witness :
  exists d', format (FileBlockDevice.create 2) = (d', Ok tt) /\ open_fs d' = Err InvalidArgument.
Proof.
  apply (two_blocks_format_not_open (FileBlockDevice.create 2) env); [|done]. split; [done|]. apply map_Forall_empty.
Defined.

(** [move_rename] does not check that the new parent lies outside the moved directory: a directory moved into
    itself is accepted, and afterwards the only entry that leads to it is its own. *)
Lemma move_into_itself :
  exists (s s' : fs) dir T, fs_rep 64 s (dir_tree dir) /\ move_rename dir dir sample_name s = (s', Ok tt) /\
    fs_rep 64 s' T /\ T !! dir = Some (NDir [(sample_name, dir)]) /\
    forall d es x, T !! d = Some (NDir es) -> x ∈ es -> x.2 = dir -> d = dir.
Proof.
  destruct with_dir as (s & dir & Rp & H1 & H2 & (Hb & Hf & He) & Hfree).
  assert (Hroot : dir_tree dir !! ROOT_DIR_ID = Some (NDir [(sample_name, sample_id); (other_name, dir)])).
  { unfold dir_tree, tree_add. rewrite lookup_insert_ne by done. apply lookup_insert_eq. }
  destruct (wp_run (move_rename dir dir sample_name) s (fun _ s' => fs_rep 64 s' (tree_moved (dir_tree dir) ROOT_DIR_ID dir dir
    sample_name 1 [(sample_name, sample_id); (other_name, dir)] []))) as ([] & s' & E & Rp').
  { eapply (move_rename_rep _ _ _ ROOT_DIR_ID dir dir _ other_name 1); [exact Rp|exact Hroot|reflexivity|apply lookup_insert_eq|reflexivity|split; [done|lia]|exact Hfree|].
    change (name_error sample_name []) with (@None FsError). intros s' R'. exact R'. }
  unfold tree_moved in Rp'. rewrite decide_False in Rp' by congruence.
  exists s, s', dir. eexists. split; [exact Rp|]. split; [exact E|]. split; [exact Rp'|].
  assert (Hdir : tree_move (dir_tree dir) ROOT_DIR_ID dir dir sample_name 1 [(sample_name, sample_id); (other_name, dir)] [] !! dir =
    Some (NDir [(sample_name, dir)])) by (unfold tree_move; rewrite lookup_insert_ne by done; apply lookup_insert_eq).
  split; [exact Hdir|]. intros d es x Hd [j Hx]%list_elem_of_lookup Ex. destruct Rp' as [W _].
  destruct (tw_once _ W d dir es _ j 0 x (sample_name, dir) Hd Hdir Hx eq_refl Ex). done.
Qed.
End LimitsWitness.
