(* ===== verification/FlatFs.v ===== *)
(** * FlatFS

    The flat archive of src/src/lib/flatfs/src/lib.rs: [Writer] packs named files
    into one buffer, [unpack] checks a buffer and turns the names into a directory
    tree.  A [BTreeMap] keyed by strings is a list sorted by the byte order of the
    keys, which is the order the code iterates in.

    [unpack] reads the buffer through raw pointers.  [OutOfBounds] is the outcome
    of a [from_raw_parts] that leaves the buffer; [Refused] is [Err(())]. *)

From stdpp Require Import base numbers list.
From coqutil Require Import Byte.
From S2P Require Import RustPrelude.

Open Scope Z_scope.

Definition blen (l : bytes) : Z := Z.of_nat (length l).

(** ** [BTreeMap<&str, V>] *)

Fixpoint bytes_ltb (a b : bytes) : bool :=
  match a, b with
  | _, [] => false
  | [], _ :: _ => true
  | x :: a', y :: b' =>
    if byte.unsigned x <? byte.unsigned y then true
    else if byte.unsigned y <? byte.unsigned x then false else bytes_ltb a' b'
  end.

Section BTreeMap.
Context {V : Type}.

Fixpoint bt_insert (k : bytes) (v : V) (l : list (bytes * V)) : list (bytes * V) :=
  match l with
  | [] => [(k, v)]
  | (k', v') :: l' =>
    if bytes_eqb k k' then (k, v) :: l'
    else if bytes_ltb k k' then (k, v) :: l else (k', v') :: bt_insert k v l'
  end.

Fixpoint bt_get (k : bytes) (l : list (bytes * V)) : option V :=
  match l with
  | [] => None
  | (k', v') :: l' => if bytes_eqb k k' then Some v' else bt_get k l'
  end.

Fixpoint bt_sorted (l : list (bytes * V)) : bool :=
  match l with
  | [] => true
  | x :: l' => match l' with [] => true | y :: _ => bytes_ltb x.1 y.1 && bt_sorted l' end
  end.
End BTreeMap.

(** ** Writing *)

Definition MAGIC_V1 : Z := 0xf1a1f1a1f1a1f1a1.
Definition HEADER_SIZE : Z := 32.
Definition ENTRY_SIZE : Z := 40.

Record FlatFsHeader : Type := mkHeader { fh_magic : Z; fh_version : Z; fh_len : Z; fh_num_files : Z }.
Record EntryHeader : Type :=
  mkEntry { name_start : Z; name_len : Z; bytes_start : Z; bytes_len : Z; next_header : Z }.

Definition header_enc (h : FlatFsHeader) : bytes :=
  struct_enc [8; 8; 8; 8]%nat [fh_magic h; fh_version h; fh_len h; fh_num_files h].
Definition header_dec (l : bytes) : FlatFsHeader :=
  match struct_dec [8; 8; 8; 8]%nat l with
  | [a; b; c; d] => mkHeader a b c d
  | _ => mkHeader 0 0 0 0
  end.
Definition entry_enc (e : EntryHeader) : bytes :=
  struct_enc [8; 8; 8; 8; 8]%nat [name_start e; name_len e; bytes_start e; bytes_len e; next_header e].
Definition entry_dec (l : bytes) : EntryHeader :=
  match struct_dec [8; 8; 8; 8; 8]%nat l with
  | [a; b; c; d; e] => mkEntry a b c d e
  | _ => mkEntry 0 0 0 0 0
  end.

(** [Writer]: its map of files. *)
Definition Writer : Type := list (bytes * bytes).
Definition Writer_new : Writer := [].
Definition Writer_add (w : Writer) (filename content : bytes) : Writer := bt_insert filename content w.

(** [(x + 7) & !7]. *)
Definition align8 (x : Z) : Z := Z.land (u64 (x + 7)) (u64_not 7).

Fixpoint pack_size (files : Writer) (size : Z) : Z :=
  match files with
  | [] => size
  | (key, value) :: files' => pack_size files' (align8 (size + ENTRY_SIZE + blen key + blen value))
  end.

(** [while (result.len() & 7) != 0 { result.push(0) }]. *)
Fixpoint pad_loop (fuel : nat) (l : bytes) : bytes :=
  match fuel with
  | O => l
  | S fuel' => if Z.land (blen l) 7 =? 0 then l else pad_loop fuel' (l ++ [Byte.x00])
  end.
Definition pad (l : bytes) : bytes := pad_loop 7 l.

Definition next_of (result_size bytes_end : Z) : Z :=
  if align8 bytes_end =? result_size then 0 else align8 bytes_end.

Fixpoint pack_entries (result_size : Z) (files : Writer) (result : bytes) : RustPrelude.result unit bytes :=
  match files with
  | [] => Ok result
  | (key, value) :: files' =>
    let ns := blen result + ENTRY_SIZE in
    let bs := ns + blen key in
    let next := next_of result_size (bs + blen value) in
    if next <? result_size then
      let header := mkEntry ns (blen key) bs (blen value) next in
      pack_entries result_size files' (pad (result ++ entry_enc header ++ key ++ value))
    else Panic
  end.

Definition pack (files : Writer) : RustPrelude.result unit bytes :=
  let result_size := pack_size files HEADER_SIZE in
  let h := mkHeader MAGIC_V1 1 result_size (Z.of_nat (length files)) in
  match pack_entries result_size files (header_enc h) with
  | Ok result => if blen result =? result_size then Ok result else Panic
  | r => r
  end.

(** ** The directory tree *)

#[local] Unset Elimination Schemes.
Inductive Dir : Type :=
  mkDir (filename path : bytes) (subdirs : list (bytes * Dir)) (files : list (bytes * bytes)).
#[local] Set Elimination Schemes.

Definition SLASH : byte := Byte.x2f.

Fixpoint split_once (l : bytes) : option (bytes * bytes) :=
  match l with
  | [] => None
  | b :: l' =>
    if decide (b = SLASH) then Some ([], l')
    else match split_once l' with Some (x, y) => Some (b :: x, y) | None => None end
  end.

Inductive flat_err : Type := Refused | OutOfBounds.

(** Recursion on the rest of the name: [right] is shorter than [name]. *)
Fixpoint add_file (fuel : nat) (dir : Dir) (name content : bytes) : RustPrelude.result flat_err Dir :=
  match fuel with
  | O => Panic
  | S fuel' =>
    let '(mkDir fname path subdirs files) := dir in
    match split_once name with
    | None => Ok (mkDir fname path subdirs (bt_insert name content files))
    | Some (lft, rgt) =>
      match lft with
      | [] => add_file fuel' dir rgt content
      | _ =>
        match rgt with
        | [] => Err Refused
        | _ =>
          let child := match bt_get lft subdirs with
                       | Some d => d
                       | None => mkDir lft (path ++ [SLASH] ++ lft) [] []
                       end in
          match add_file fuel' child rgt content with
          | Ok child' => Ok (mkDir fname path (bt_insert lft child' subdirs) files)
          | Err e => Err e
          | Panic => Panic
          end
        end
      end
    end
  end.

Definition add (dir : Dir) (name content : bytes) : RustPrelude.result flat_err Dir :=
  add_file (S (length name)) dir name content.

Fixpoint add_all (files : list (bytes * bytes)) (dir : Dir) : RustPrelude.result flat_err Dir :=
  match files with
  | [] => Ok dir
  | (name, content) :: files' =>
    match add dir name content with
    | Ok dir' => add_all files' dir'
    | Err e => Err e
    | Panic => Panic
    end
  end.

(** ** Reading *)

(** [from_raw_parts(&buf[start], len)]. *)
Definition raw_slice (buf : bytes) (start len : Z) : RustPrelude.result flat_err bytes :=
  if start <? blen buf then
    if start + len <=? blen buf then Ok (slice (Z.to_nat start) (Z.to_nat len) buf) else Err OutOfBounds
  else Panic.

Record unpack_st : Type := mkSt { us_files : list (bytes * bytes); us_num : Z; us_pos : Z }.

(** One round of the [while] loop; [Some] when its condition fails. *)
Definition unpack_step (buf : bytes) (h : FlatFsHeader) : eff unpack_st flat_err (option unit) :=
  let* st := get_state in
  if us_num st <? fh_num_files h then
    assert (Z.land (us_pos st) 7 =? 0);;;
    if fh_len h <? u64 (us_pos st + ENTRY_SIZE) then throw Refused
    else if blen buf <=? us_pos st then panic
    else
      let header := entry_dec (slice (Z.to_nat (us_pos st)) 40 buf) in
      if fh_len h <? u64 (name_start header + name_len header) then throw Refused
      else if fh_len h <? u64 (bytes_start header + bytes_len header) then throw Refused
      else
        let* name := lift (raw_slice buf (name_start header) (name_len header)) in
        match from_utf8 name with
        | None => throw Refused
        | Some name =>
          let* content := lift (raw_slice buf (bytes_start header) (bytes_len header)) in
          modify (fun st => mkSt (bt_insert name content (us_files st)) (u64 (us_num st + 1)) (next_header header));;;
          ret None
        end
  else ret (Some tt).

(** The loop runs at most [fh_num_files < 2^64] rounds and one more test. *)
Definition unpack_files (buf : bytes) (h : FlatFsHeader) : RustPrelude.result flat_err (list (bytes * bytes)) :=
  match loop (unpack_step buf h) (2 ^ 64) (mkSt [] 0 HEADER_SIZE) with
  | (st, Ok (Some _)) =>
    if us_pos st =? 0 then
      if Z.of_nat (length (us_files st)) =? fh_num_files h then Ok (us_files st) else Err Refused
    else Panic
  | (_, Ok None) => Panic
  | (_, Err e) => Err e
  | (_, Panic) => Panic
  end.

Definition root_dir : Dir := mkDir [] [] [] [].

(** [unpack]; [aligned] says whether the buffer starts at a multiple of 8. *)
Definition unpack (aligned : bool) (buf : bytes) : RustPrelude.result flat_err Dir :=
  if blen buf <? HEADER_SIZE then Err Refused
  else if negb aligned then Err Refused
  else
    let h := header_dec buf in
    if negb (fh_magic h =? MAGIC_V1) then Err Refused
    else if negb (fh_version h =? 1) then Err Refused
    else if blen buf <? fh_len h then Err Refused
    else
      match unpack_files buf h with
      | Ok files => add_all files root_dir
      | Err e => Err e
      | Panic => Panic
      end.
