(* ===== verification/FlatFsProps.v ===== *)
(** * FlatFS: properties

    What an archive looks like ([laid]), that the loop of [unpack] reads back what [pack]
    wrote, and the directory tree that results: [add_file] stores a file at the path its
    name spells ([add_put]), and looking up a path finds what was stored there last.  The
    size of an archive is bounded by [2^63], which every buffer in memory satisfies. *)

From stdpp Require Import base numbers list.
From coqutil Require Import Byte.
From S2P Require Import RustPrelude FlatFs.
Open Scope Z_scope.

(** ** Ordered maps *)

Lemma bytes_ltb_irrefl a : bytes_ltb a a = false.
Proof. induction a as [|x a IH]; [done|]. simpl. by rewrite Z.ltb_irrefl. Qed.

Lemma bytes_ltb_trans a b c : bytes_ltb a b = true -> bytes_ltb b c = true -> bytes_ltb a c = true.
Proof.
  revert b c. induction a as [|x a IH]; intros [|y b] [|z c]; simpl; try done.
  intros H1 H2. repeat case_match; try done; try lia; eauto.
Qed.

Lemma bytes_ltb_total a b : bytes_ltb a b = false -> a = b \/ bytes_ltb b a = true.
Proof.
  revert b. induction a as [|x a IH]; intros [|y b]; simpl; [by auto|done|by auto|].
  destruct (Z.ltb_spec (byte.unsigned x) (byte.unsigned y)); [done|].
  destruct (Z.ltb_spec (byte.unsigned y) (byte.unsigned x)); [by auto|].
  intros H1. destruct (IH b H1) as [->|]; [|by auto]. left. f_equal.
  apply byte.unsigned_inj. lia.
Qed.

Lemma bytes_eqb_refl a : bytes_eqb a a = true.
Proof. by apply bytes_eqb_eq. Qed.

Lemma bytes_eqb_ne a b : a <> b -> bytes_eqb a b = false.
Proof. intros. by apply bool_decide_eq_false. Qed.

Section BTree.
Context {V : Type}.
Implicit Types (k : bytes) (v : V) (l : list (bytes * V)).

Lemma bt_get_insert k v l : bt_get k (bt_insert k v l) = Some v.
Proof.
  induction l as [|[k' v'] l IH]; simpl; [by rewrite bytes_eqb_refl|].
  destruct (bytes_eqb k k') eqn:E; simpl; [by rewrite bytes_eqb_refl|].
  destruct (bytes_ltb k k'); simpl; [by rewrite bytes_eqb_refl|]. by rewrite E.
Qed.

Lemma bt_get_insert_ne k k' v l : k' <> k -> bt_get k' (bt_insert k v l) = bt_get k' l.
Proof.
  intros Hk. induction l as [|[k1 v1] l IH]; simpl; [by rewrite bytes_eqb_ne|].
  destruct (bytes_eqb k k1) eqn:E; simpl.
  - apply bytes_eqb_eq in E. subst. by rewrite !bytes_eqb_ne.
  - destruct (bytes_ltb k k1); simpl; [by rewrite (bytes_eqb_ne k' k)|]. by rewrite IH.
Qed.

Lemma bt_sorted_cons k v l :
  bt_sorted ((k, v) :: l) = true <-> Forall (fun x => bytes_ltb k x.1 = true) l /\ bt_sorted l = true.
Proof.
  revert k v. induction l as [|[k1 v1] l IH]; intros k v; [by simpl|].
  change (bt_sorted ((k, v) :: (k1, v1) :: l)) with (bytes_ltb k k1 && bt_sorted ((k1, v1) :: l)).
  rewrite andb_true_iff, Forall_cons. split; [|by intros [[? ?] ?]]. intros [H1 H2]. simpl. split_and!; try done.
  apply IH in H2 as [H2 _]. eapply Forall_impl; [done|]. simpl. intros x. by apply bytes_ltb_trans.
Qed.

Lemma bt_insert_Forall (P : bytes -> Prop) k v l :
  P k -> Forall (fun x => P x.1) l -> Forall (fun x => P x.1) (bt_insert k v l).
Proof.
  intros Hk Hl. induction Hl as [|[k1 v1] l H1 Hl IH]; simpl; [by repeat constructor|].
  repeat case_match; repeat constructor; auto.
Qed.

Lemma bt_insert_sorted k v l : bt_sorted l = true -> bt_sorted (bt_insert k v l) = true.
Proof.
  induction l as [|[k1 v1] l IH]; [done|]. intros H. pose proof H as [H1 H2]%bt_sorted_cons. simpl.
  destruct (bytes_eqb k k1) eqn:E; [apply bytes_eqb_eq in E; subst; by apply bt_sorted_cons|].
  destruct (bytes_ltb k k1) eqn:E1.
  - apply bt_sorted_cons. split; [|done]. constructor; [done|].
    eapply Forall_impl; [done|]. simpl. intros x. by apply bytes_ltb_trans.
  - apply bt_sorted_cons. split; [|by apply IH]. apply (bt_insert_Forall (fun k' => bytes_ltb k1 k' = true)); [|done].
    destruct (bytes_ltb_total _ _ E1) as [->|]; [by rewrite bytes_eqb_refl in E|done].
Qed.

(** A key above all others goes to the end. *)
Lemma bt_insert_last k v l : Forall (fun x => bytes_ltb x.1 k = true) l -> bt_insert k v l = l ++ [(k, v)].
Proof.
  induction 1 as [|[k1 v1] l H1 Hl IH]; [done|]. simpl in *. rewrite bytes_eqb_ne.
  2:{ intros ->. by rewrite bytes_ltb_irrefl in H1. }
  destruct (bytes_ltb k k1) eqn:E; [|by rewrite IH].
  pose proof (bytes_ltb_trans _ _ _ H1 E) as Hc. by rewrite bytes_ltb_irrefl in Hc.
Qed.

Lemma bt_sorted_app k v l l' :
  bt_sorted (l ++ (k, v) :: l') = true -> Forall (fun x => bytes_ltb x.1 k = true) l.
Proof.
  induction l as [|[k1 v1] l IH]; [by constructor|]. rewrite <- app_comm_cons.
  intros [H1 H2]%bt_sorted_cons. apply Forall_app in H1 as [_ H1]. apply Forall_cons in H1 as [H1 _].
  constructor; auto.
Qed.
End BTree.

(** ** Paths

    The reading of a name that [add_file] does: the directories on the way and
    the file name; empty components are skipped, except a last one. *)

Fixpoint path_of_fuel (fuel : nat) (name : bytes) : option (list bytes * bytes) :=
  match fuel with
  | O => None
  | S fuel' =>
    match split_once name with
    | None => Some ([], name)
    | Some ([], r) => path_of_fuel fuel' r
    | Some (_, []) => None
    | Some (l, r) => match path_of_fuel fuel' r with Some (ds, f) => Some (l :: ds, f) | None => None end
    end
  end.
Definition path_of (name : bytes) : option (list bytes * bytes) := path_of_fuel (S (length name)) name.

Definition dir_filename (d : Dir) : bytes := let '(mkDir n _ _ _) := d in n.
Definition dir_path (d : Dir) : bytes := let '(mkDir _ p _ _) := d in p.
Definition dir_subdirs (d : Dir) : list (bytes * Dir) := let '(mkDir _ _ s _) := d in s.
Definition dir_files (d : Dir) : list (bytes * bytes) := let '(mkDir _ _ _ f) := d in f.

Definition child_of (d : Dir) (x : bytes) : Dir :=
  default (mkDir x (dir_path d ++ [SLASH] ++ x) [] []) (bt_get x (dir_subdirs d)).

(** Storing a file at a path, by recursion on the path. *)
Fixpoint put (d : Dir) (ds : list bytes) (f c : bytes) : Dir :=
  let '(mkDir n p sub fs) := d in
  match ds with
  | [] => mkDir n p sub (bt_insert f c fs)
  | x :: ds' => mkDir n p (bt_insert x (put (child_of d x) ds' f c) sub) fs
  end.

Fixpoint dir_at (d : Dir) (ds : list bytes) : option Dir :=
  match ds with
  | [] => Some d
  | x :: ds' => match bt_get x (dir_subdirs d) with Some d' => dir_at d' ds' | None => None end
  end.

Definition file_at (d : Dir) (p : list bytes * bytes) : option bytes :=
  match dir_at d p.1 with Some d' => bt_get p.2 (dir_files d') | None => None end.

Lemma split_once_length l x y : split_once l = Some (x, y) -> (length y < length l)%nat.
Proof.
  revert x y. induction l as [|b l IH]; intros x y; simpl; [done|].
  destruct (decide (b = SLASH)); [intros [= <- <-]; lia|].
  destruct (split_once l) as [[x' y']|]; [|done]. intros [= <- <-]. specialize (IH _ _ eq_refl). lia.
Qed.

Lemma add_file_put fuel d name c :
  (length name < fuel)%nat ->
  add_file fuel d name c =
    match path_of_fuel fuel name with Some (ds, f) => Ok (put d ds f c) | None => Err Refused end.
Proof.
  revert d name. induction fuel as [|fuel IH]; intros [n p sub fs] name Hl; [lia|]. simpl.
  destruct (split_once name) as [[l r]|] eqn:Hs; [|done]. apply split_once_length in Hs.
  destruct l as [|b l]; [apply IH; lia|]. destruct r as [|b' r]; [done|].
  rewrite IH by lia. destruct (path_of_fuel fuel (b' :: r)) as [[ds f]|]; [|done].
  cbn [put]. unfold child_of. cbn [dir_subdirs dir_path]. destruct (bt_get (b :: l) sub); reflexivity.
Qed.

Lemma add_put d name c :
  add d name c = match path_of name with Some (ds, f) => Ok (put d ds f c) | None => Err Refused end.
Proof. apply add_file_put. lia. Qed.

Lemma file_at_fresh x p ds f : file_at (mkDir x p [] []) (ds, f) = None.
Proof. by destruct ds. Qed.

Lemma file_at_cons d x ds f :
  file_at d (x :: ds, f) = file_at (child_of d x) (ds, f).
Proof.
  unfold child_of. unfold file_at at 1. simpl. destruct (bt_get x (dir_subdirs d)) as [d'|]; [done|].
  symmetry. apply file_at_fresh.
Qed.

Lemma child_of_put d x y ds f c :
  child_of (put d (x :: ds) f c) y = if decide (y = x) then put (child_of d x) ds f c else child_of d y.
Proof.
  destruct d as [n p sub fs]. unfold child_of. simpl. destruct (decide (y = x)) as [->|Hne].
  - by rewrite bt_get_insert.
  - by rewrite bt_get_insert_ne.
Qed.

Lemma file_at_put d ds f c q :
  file_at (put d ds f c) q = if decide (q = (ds, f)) then Some c else file_at d q.
Proof.
  revert d q. induction ds as [|x ds IH]; intros d [es g].
  - destruct d as [n p sub fs], es as [|y es]; [|done]. unfold file_at. simpl.
    destruct (decide (([], g) = ([], f))) as [E|E]; [simplify_eq; apply bt_get_insert|].
    apply bt_get_insert_ne. congruence.
  - destruct es as [|y es]; [by destruct d|]. rewrite !file_at_cons, child_of_put.
    destruct (decide (y = x)) as [->|Hne].
    + rewrite IH. repeat case_decide; congruence.
    + rewrite decide_False by congruence. done.
Qed.

(** Every directory knows its name and its place. *)
Definition place (d : Dir) (ds : list bytes) : bytes := dir_path d ++ concat (map (cons SLASH) ds).

Definition named (d : Dir) : Prop :=
  forall ds d', dir_at d ds = Some d' -> dir_path d' = place d ds /\ dir_filename d' = List.last ds (dir_filename d).

Lemma named_fresh x p : named (mkDir x p [] []).
Proof. intros [|y ds] d' [= <-]. unfold place. simpl. by rewrite app_nil_r. Qed.

Lemma last_cons_self (x y : bytes) ds : List.last (y :: ds) x = List.last ds y.
Proof.
  revert x y. induction ds as [|z ds IH]; intros x y; [done|].
  change (List.last (y :: z :: ds) x) with (List.last (z :: ds) x). by rewrite !IH.
Qed.

Lemma named_child d x : named d ->
  named (child_of d x) /\ dir_path (child_of d x) = place d [x] /\ dir_filename (child_of d x) = x.
Proof.
  intros Hd. unfold child_of. destruct (bt_get x (dir_subdirs d)) as [d'|] eqn:Hx; simpl.
  - destruct (Hd [x] d') as [Hp Hf]; [simpl; by rewrite Hx|]. split_and!; [|done..].
    intros ds d2 H2. destruct (Hd (x :: ds) d2) as [Hp2 Hf2]; [simpl; by rewrite Hx|].
    rewrite last_cons_self in Hf2. unfold place in *. simpl in *. rewrite Hp, Hp2, Hf, Hf2.
    by rewrite app_nil_r, <- app_assoc.
  - split_and!; [apply named_fresh| |done]. unfold place. simpl. by rewrite app_nil_r.
Qed.

Lemma put_head d ds f c : dir_path (put d ds f c) = dir_path d /\ dir_filename (put d ds f c) = dir_filename d.
Proof. by destruct d, ds. Qed.

Lemma put_named d ds f c : named d -> named (put d ds f c).
Proof.
  revert d. induction ds as [|x ds IH]; intros d Hd.
  - destruct d as [n p sub fs]. intros [|y es] d'; simpl.
    + intros [= <-]. unfold place. simpl. by rewrite app_nil_r.
    + intros H. by apply (Hd (y :: es)).
  - destruct (named_child d x Hd) as (Hc & Hp & Hn). specialize (IH _ Hc).
    destruct (put_head (child_of d x) ds f c) as [Hp' Hn'].
    destruct d as [n p sub fs]. intros [|y es] d'; simpl.
    { intros [= <-]. unfold place. simpl. by rewrite app_nil_r. }
    destruct (decide (y = x)) as [->|Hne].
    + rewrite bt_get_insert. intros H. apply IH in H as [H1 H2].
      change (match es with [] => x | _ :: _ => List.last es n end) with (List.last (x :: es) n).
      rewrite last_cons_self. unfold place in *. simpl in *. rewrite H1, H2, Hp', Hp, Hn', Hn.
      by rewrite app_nil_r, <- app_assoc.
    + rewrite bt_get_insert_ne by done. intros H. by apply (Hd (y :: es)).
Qed.

(** Adding a list of files: later ones win. *)
Fixpoint content_at (files : list (bytes * bytes)) (p : list bytes * bytes) : option bytes :=
  match files with
  | [] => None
  | (name, c) :: files' =>
    match content_at files' p with
    | Some c' => Some c'
    | None => if decide (path_of name = Some p) then Some c else None
    end
  end.

Definition names_ok (files : list (bytes * bytes)) : bool :=
  forallb (fun x => bool_decide (is_Some (path_of x.1))) files.

Lemma add_all_ok files d :
  named d -> names_ok files = true ->
  exists d', add_all files d = Ok d' /\ named d' /\
    forall p, file_at d' p = match content_at files p with Some c => Some c | None => file_at d p end.
Proof.
  revert d. induction files as [|[name c] files IH]; intros d Hd H; [by eauto|]. simpl in *.
  apply andb_true_iff in H as [[[ds f] Hp]%bool_decide_eq_true H].
  rewrite add_put, Hp. simpl in Hp. destruct (IH (put d ds f c)) as (d' & -> & Hn & Hf); [by apply put_named|done|].
  exists d'. split_and!; [done..|]. intros p. rewrite Hf, file_at_put. destruct (content_at files p); [done|].
  repeat case_decide; congruence.
Qed.

Lemma add_all_head files d d' :
  add_all files d = Ok d' -> dir_path d' = dir_path d /\ dir_filename d' = dir_filename d.
Proof.
  revert d. induction files as [|[name c] files IH]; intros d; simpl; [by intros [= ->]|].
  rewrite add_put. destruct (path_of name) as [[ds f]|]; [|done]. intros H. apply IH in H as [-> ->]. apply put_head.
Qed.

Lemma add_all_refused files d : names_ok files = false -> add_all files d = Err Refused.
Proof.
  revert d. induction files as [|[name c] files IH]; intros d H; [done|]. simpl in *.
  rewrite add_put. destruct (path_of name) as [[ds f]|] eqn:Hp; [|done]. apply IH.
  apply andb_false_iff in H as [H|H]; [|done]. apply bool_decide_eq_false in H. by destruct H.
Qed.

(** ** The layout of an archive *)

(** The next multiple of 8. *)
Definition up8 (x : Z) : Z := 8 * ((x + 7) / 8).

Lemma up8_bounds x : x <= up8 x < x + 8 /\ up8 x mod 8 = 0.
Proof. unfold up8. dlia. Qed.

Lemma align8_up8 x : 0 <= x < 2 ^ 63 -> align8 x = up8 x.
Proof.
  intros Hx. unfold align8, up8. rewrite u64_id by (unfold is_u64; lia).
  apply (land_not_mask (x + 7) 3); unfold is_u64; lia.
Qed.

Lemma land7 x : Z.land x 7 = x mod 8.
Proof. apply (Z.land_ones x 3). lia. Qed.

Lemma blen_app a b : blen (a ++ b) = blen a + blen b.
Proof. unfold blen. rewrite length_app. lia. Qed.

Lemma blen_nonneg l : 0 <= blen l.
Proof. unfold blen. lia. Qed.

Lemma pad_loop_spec fuel l :
  up8 (blen l) - blen l <= Z.of_nat fuel ->
  exists z, pad_loop fuel l = l ++ z /\ blen (l ++ z) = up8 (blen l).
Proof.
  revert l. induction fuel as [|fuel IH]; intros l H; simpl.
  - exists []. rewrite app_nil_r. pose proof (up8_bounds (blen l)). split; [done|lia].
  - rewrite land7. destruct (Z.eqb_spec (blen l mod 8) 0) as [E|E].
    + exists []. rewrite app_nil_r. split; [done|]. unfold up8. dlia.
    + assert (Hb : blen (l ++ [Byte.x00]) = blen l + 1) by (by rewrite blen_app).
      assert (Hu : up8 (blen l + 1) = up8 (blen l)) by (unfold up8; dlia).
      destruct (IH (l ++ [Byte.x00])) as (z & -> & Hz); [rewrite Hb, Hu; lia|].
      exists ([Byte.x00] ++ z). rewrite !app_assoc. by rewrite Hz, Hb.
Qed.

Lemma pad_spec l : exists z, pad l = l ++ z /\ blen (l ++ z) = up8 (blen l).
Proof. apply pad_loop_spec. pose proof (up8_bounds (blen l)). lia. Qed.

Definition entry_at (pos : Z) (k v : bytes) (next : Z) : EntryHeader :=
  mkEntry (pos + 40) (blen k) (pos + 40 + blen k) (blen v) next.
Definition entry_end (pos : Z) (k v : bytes) : Z := up8 (pos + 40 + blen k + blen v).

(** Where the last entry ends. *)
Fixpoint archive_end (files : Writer) (pos : Z) : Z :=
  match files with
  | [] => pos
  | (k, v) :: files' => archive_end files' (entry_end pos k v)
  end.

(** [tl] holds the entries of [files] from position [pos] on. *)
Fixpoint laid (files : Writer) (pos : Z) (tl : bytes) : Prop :=
  match files with
  | [] => tl = []
  | (k, v) :: files' =>
    exists z tl', tl = (entry_enc (entry_at pos k v (match files' with [] => 0 | _ => entry_end pos k v end))
                          ++ k ++ v ++ z) ++ tl' /\
      pos + 40 + blen k + blen v + blen z = entry_end pos k v /\ laid files' (entry_end pos k v) tl'
  end.

Lemma entry_end_bounds pos k v :
  pos + 40 + blen k + blen v <= entry_end pos k v < pos + 48 + blen k + blen v /\ entry_end pos k v mod 8 = 0.
Proof. unfold entry_end. pose proof (up8_bounds (pos + 40 + blen k + blen v)). lia. Qed.

Lemma archive_end_ge files pos : pos + 40 * Z.of_nat (length files) <= archive_end files pos.
Proof.
  revert pos. induction files as [|[k v] files IH]; intros pos; simpl; [lia|].
  pose proof (entry_end_bounds pos k v). specialize (IH (entry_end pos k v)).
  pose proof (blen_nonneg k). pose proof (blen_nonneg v). lia.
Qed.

Lemma archive_end_next k v files pos :
  archive_end ((k, v) :: files) pos = archive_end files (entry_end pos k v) /\
  entry_end pos k v + 40 * Z.of_nat (length files) <= archive_end files (entry_end pos k v).
Proof. split; [done|apply archive_end_ge]. Qed.

Lemma pack_size_end files pos :
  0 <= pos -> archive_end files pos < 2 ^ 63 -> pack_size files pos = archive_end files pos.
Proof.
  revert pos. induction files as [|[k v] files IH]; intros pos H0 H; [done|]. simpl in *.
  pose proof (entry_end_bounds pos k v). pose proof (archive_end_ge files (entry_end pos k v)).
  pose proof (blen_nonneg k). pose proof (blen_nonneg v).
  change ENTRY_SIZE with 40. rewrite align8_up8 by lia. apply IH; unfold entry_end in *; lia.
Qed.

Lemma length_entry_enc e : length (entry_enc e) = 40%nat.
Proof. unfold entry_enc. by rewrite length_struct_enc. Qed.

Lemma blen_entry_enc e : blen (entry_enc e) = 40.
Proof. unfold blen. by rewrite length_entry_enc. Qed.

Lemma length_header_enc h : length (header_enc h) = 32%nat.
Proof. unfold header_enc. by rewrite length_struct_enc. Qed.

Lemma next_of_end pos k v files size :
  0 <= pos -> size = archive_end ((k, v) :: files) pos -> size < 2 ^ 63 ->
  next_of size (pos + 40 + blen k + blen v) = match files with [] => 0 | _ => entry_end pos k v end.
Proof.
  intros H0 Hs Hb. destruct (archive_end_next k v files pos) as [He Hn]. rewrite <- Hs in He.
  pose proof (entry_end_bounds pos k v). pose proof (blen_nonneg k). pose proof (blen_nonneg v).
  unfold next_of. rewrite align8_up8 by lia. fold (entry_end pos k v).
  destruct files as [|f files]; simpl in *.
  - by rewrite (proj2 (Z.eqb_eq _ _)) by lia.
  - by rewrite (proj2 (Z.eqb_neq _ _)) by lia.
Qed.

Lemma pack_entries_laid files res size :
  size = archive_end files (blen res) -> size < 2 ^ 63 -> 0 < size ->
  exists tl, pack_entries size files res = Ok (res ++ tl) /\ blen (res ++ tl) = size /\ laid files (blen res) tl.
Proof.
  revert res. induction files as [|[k v] files IH]; intros res Hs Hb Hp.
  { exists []. rewrite app_nil_r. by simpl in *. }
  cbn [pack_entries]. change ENTRY_SIZE with 40.
  pose proof (blen_nonneg res). rewrite (next_of_end (blen res) k v files size) by done.
  destruct (archive_end_next k v files (blen res)) as [He Hn]. rewrite <- Hs in He.
  set (next := match files with [] => 0 | _ => entry_end (blen res) k v end).
  assert (Hlt : next < size) by (unfold next; destruct files; simpl in *; lia).
  rewrite (proj2 (Z.ltb_lt _ _)) by done.
  fold (entry_at (blen res) k v next). set (e := entry_at (blen res) k v next).
  destruct (pad_spec (res ++ entry_enc e ++ k ++ v)) as (z & -> & Hz).
  assert (Hl : blen ((res ++ entry_enc e ++ k ++ v) ++ z) = entry_end (blen res) k v).
  { rewrite Hz, !blen_app, blen_entry_enc. unfold entry_end. f_equal. lia. }
  destruct (IH ((res ++ entry_enc e ++ k ++ v) ++ z)) as (tl & Hpk & Hbl & Hlaid); [by rewrite Hl|done|done|].
  exists ((entry_enc e ++ k ++ v ++ z) ++ tl). rewrite Hl in Hlaid.
  assert (Ha : ((res ++ entry_enc e ++ k ++ v) ++ z) ++ tl = res ++ (entry_enc e ++ k ++ v ++ z) ++ tl)
    by (by rewrite <- !app_assoc).
  rewrite <- Ha. split_and!; [done..|]. exists z, tl. split_and!; [done| |done].
  rewrite <- Hl, !blen_app, blen_entry_enc. lia.
Qed.

Definition archive_header (files : Writer) : FlatFsHeader :=
  mkHeader MAGIC_V1 1 (archive_end files 32) (Z.of_nat (length files)).

Lemma pack_laid files :
  archive_end files 32 < 2 ^ 63 ->
  exists tl, pack files = Ok (header_enc (archive_header files) ++ tl) /\
    32 + blen tl = archive_end files 32 /\ laid files 32 tl.
Proof.
  intros Hb. unfold pack. pose proof (archive_end_ge files 32).
  change HEADER_SIZE with 32. rewrite pack_size_end by lia. fold (archive_header files).
  assert (Hh : blen (header_enc (archive_header files)) = 32) by (unfold blen; by rewrite length_header_enc).
  destruct (pack_entries_laid files (header_enc (archive_header files)) (archive_end files 32)) as (tl & -> & Hl & Ht);
    [by rewrite Hh|done|lia|].
  rewrite Hh in Ht. exists tl. rewrite (proj2 (Z.eqb_eq _ _)) by done. split_and!; [done| |done].
  rewrite blen_app in Hl. lia.
Qed.

(** ** Reading an archive *)

Lemma raw_slice_ok buf pre mid post start len :
  buf = pre ++ mid ++ post -> start = blen pre -> len = blen mid -> start < blen buf ->
  raw_slice buf start len = Ok mid.
Proof.
  intros -> -> -> H. unfold raw_slice. rewrite (proj2 (Z.ltb_lt _ _)) by done.
  rewrite !blen_app. pose proof (blen_nonneg post). rewrite (proj2 (Z.leb_le _ _)) by lia.
  f_equal. unfold blen. rewrite !Nat2Z.id. unfold slice. rewrite drop_app_length. apply take_app_length.
Qed.

Lemma raw_slice_panics buf start len : blen buf <= start -> raw_slice buf start len = Panic.
Proof. intros H. unfold raw_slice. by rewrite (proj2 (Z.ltb_ge _ _)). Qed.

Lemma entry_dec_enc e :
  is_u64 (name_start e) -> is_u64 (name_len e) -> is_u64 (bytes_start e) -> is_u64 (bytes_len e) ->
  is_u64 (next_header e) -> entry_dec (entry_enc e) = e.
Proof.
  intros. unfold entry_dec, entry_enc. rewrite <- (app_nil_r (struct_enc _ _)).
  rewrite struct_dec_enc; [by destruct e|]. by repeat (apply Forall2_cons_2; [done|]).
Qed.

Lemma header_dec_enc h tl :
  is_u64 (fh_magic h) -> is_u64 (fh_version h) -> is_u64 (fh_len h) -> is_u64 (fh_num_files h) ->
  header_dec (header_enc h ++ tl) = h.
Proof.
  intros. unfold header_dec, header_enc. rewrite struct_dec_enc; [by destruct h|]. by repeat (apply Forall2_cons_2; [done|]).
Qed.

Lemma laid_blen files pos tl : laid files pos tl -> pos + blen tl = archive_end files pos.
Proof.
  revert pos tl. induction files as [|[k v] files IH]; intros pos tl; simpl; [intros ->; unfold blen; simpl; lia|].
  intros (z & tl' & -> & Hz & H). apply IH in H. rewrite !blen_app, blen_entry_enc. lia.
Qed.

Section Read.
Variables (all : Writer) (extra : bytes).
Let size : Z := archive_end all 32.
Let h : FlatFsHeader := archive_header all.
Hypothesis Hsize : size < 2 ^ 63.

(** One round of the loop, at the entry of a file. *)
Section Round.
Variables (pre tl : bytes) (k v : bytes) (files : Writer) (acc : list (bytes * bytes)) (num : Z).
Let buf : bytes := pre ++ tl ++ extra.
Let pos : Z := blen pre.
Hypothesis Hlaid : laid ((k, v) :: files) pos tl.
Hypothesis Hend : archive_end ((k, v) :: files) pos = size.
Hypothesis Hpos : pos mod 8 = 0.
Hypothesis Hutf : utf8_valid k = true.
Hypothesis Hnum : 0 <= num < Z.of_nat (length all).

Let next : Z := match files with [] => 0 | _ => entry_end pos k v end.

Lemma round_bounds :
  0 <= pos /\ pos + 40 + blen k + blen v <= entry_end pos k v /\ entry_end pos k v <= size /\
  entry_end pos k v + blen extra <= blen buf /\ 0 <= next <= size.
Proof.
  destruct (archive_end_next k v files pos) as [He Hn]. rewrite Hend in He.
  destruct Hlaid as (z & tl' & -> & Hz & _).
  pose proof (entry_end_bounds pos k v). pose proof (blen_nonneg pre). pose proof (blen_nonneg k).
  pose proof (blen_nonneg v). pose proof (blen_nonneg tl').
  unfold buf, next. rewrite !blen_app, blen_entry_enc. unfold pos in *.
  split_and!; try lia; destruct files; lia.
Qed.

Lemma round_entry : entry_dec (slice (Z.to_nat pos) 40 buf) = entry_at pos k v next.
Proof.
  pose proof round_bounds as (H0 & H1 & H2 & _ & H3). pose proof (blen_nonneg k). pose proof (blen_nonneg v).
  destruct Hlaid as (z & tl' & Htl & _). unfold buf. rewrite Htl.
  unfold slice. replace (Z.to_nat pos) with (length pre) by (unfold pos, blen; lia). rewrite drop_app_length, <- !app_assoc.
  rewrite take_app_length' by (by rewrite length_entry_enc).
  apply entry_dec_enc; unfold entry_at, is_u64; cbn [name_start name_len bytes_start bytes_len next_header]; lia.
Qed.

Lemma round_shape : exists z tl', buf = pre ++ entry_enc (entry_at pos k v next) ++ k ++ v ++ z ++ tl' ++ extra.
Proof.
  destruct Hlaid as (z & tl' & Htl & _). exists z, tl'. unfold buf. rewrite Htl. by rewrite <- !app_assoc.
Qed.

Lemma unpack_step_entry :
  unpack_step buf h (mkSt acc num pos) =
    if pos + 40 + blen k <? blen buf then (mkSt (bt_insert k v acc) (num + 1) next, Ok None)
    else (mkSt acc num pos, Panic).
Proof.
  pose proof round_bounds as (H0 & H1 & H2 & H4 & H3). pose proof (blen_nonneg k). pose proof (blen_nonneg v).
  pose proof (archive_end_ge all 32) as Hge. fold size in Hge. pose proof (blen_nonneg extra).
  unfold unpack_step, bind at 1, get_state. cbn [us_num us_pos us_files].
  change (fh_num_files h) with (Z.of_nat (length all)). change (fh_len h) with size.
  rewrite (proj2 (Z.ltb_lt num _)) by lia. rewrite land7, Hpos, Z.eqb_refl. unfold bind at 1, assert, ret.
  change ENTRY_SIZE with 40. rewrite round_entry. cbn [entry_at name_start name_len bytes_start bytes_len next_header].
  rewrite !u64_id by (unfold is_u64; lia).
  rewrite !(proj2 (Z.ltb_ge size _)) by lia. rewrite (proj2 (Z.leb_gt _ _)) by lia.
  destruct round_shape as (z & tl' & Hbuf).
  destruct (Z.ltb_spec (pos + 40 + blen k) (blen buf)) as [Hin|Hout].
  - unfold bind, lift. rewrite (raw_slice_ok buf (pre ++ entry_enc (entry_at pos k v next)) k (v ++ z ++ tl' ++ extra));
      [|by rewrite Hbuf, <- !app_assoc|rewrite blen_app, blen_entry_enc; done|done|lia].
    unfold from_utf8. rewrite Hutf.
    rewrite (raw_slice_ok buf (pre ++ entry_enc (entry_at pos k v next) ++ k) v (z ++ tl' ++ extra));
      [|by rewrite Hbuf, <- !app_assoc|rewrite !blen_app, blen_entry_enc; fold pos; lia|done|done].
    unfold modify. cbn [us_files us_num]. by rewrite u64_id by (unfold is_u64; lia).
  - unfold bind, lift. destruct (decide (blen buf <= pos + 40)) as [Hn|Hn]; [by rewrite raw_slice_panics|].
    rewrite (raw_slice_ok buf (pre ++ entry_enc (entry_at pos k v next)) k (v ++ z ++ tl' ++ extra));
      [|by rewrite Hbuf, <- !app_assoc|rewrite blen_app, blen_entry_enc; done|done|lia].
    unfold from_utf8. rewrite Hutf. by rewrite raw_slice_panics.
Qed.
End Round.

(** Whether the index of the last file's bytes lies in the buffer. *)
Fixpoint tail_readable (files : Writer) : bool :=
  match files with
  | [] => false
  | [(k, v)] => negb ((blen v =? 0) && (blen k mod 8 =? 0) && (blen extra =? 0))
  | _ :: files' => tail_readable files'
  end.

(** The loop from the first of the remaining [files] on. *)
Lemma unpack_loop files pre tl acc :
  files <> [] -> laid files (blen pre) tl -> archive_end files (blen pre) = size -> blen pre mod 8 = 0 ->
  Forall (fun x => utf8_valid x.1 = true) files -> bt_sorted (acc ++ files) = true -> acc ++ files = all ->
  let num := Z.of_nat (length acc) in
  let buf := pre ++ tl ++ extra in
  if tail_readable files
  then loopn (unpack_step buf h) (S (length files)) (mkSt acc num (blen pre)) =
         (mkSt all (Z.of_nat (length all)) 0, Ok (Some tt))
  else exists st, loopn (unpack_step buf h) (S (length files)) (mkSt acc num (blen pre)) = (st, Panic).
Proof.
  revert pre tl acc. induction files as [|[k v] files IH]; [done|]. intros pre tl acc _ Hlaid Hend Hpos Hu Hs Hall num buf.
  apply Forall_cons in Hu as [Hk Hu].
  assert (Hnum : 0 <= num < Z.of_nat (length all)) by (rewrite <- Hall, length_app; simpl; lia).
  pose proof (round_bounds pre tl k v files Hlaid Hend) as (H0 & H1 & H2 & H3 & _).
  pose proof (unpack_step_entry pre tl k v files acc num Hlaid Hend Hpos Hk Hnum) as Hstep. fold buf in Hstep, H3.
  assert (Hb : blen buf = size + blen extra).
  { unfold buf. apply laid_blen in Hlaid. rewrite !blen_app. lia. }
  pose proof (bt_sorted_app _ _ _ _ Hs) as Hlast. rewrite (bt_insert_last k v acc Hlast) in Hstep.
  change (length ((k, v) :: files)) with (S (length files)). rewrite loopn_S, Hstep.
  destruct Hlaid as (z & tl' & Htl & Hz & Hlaid'). pose proof (entry_end_bounds (blen pre) k v).
  assert (Hacc : Z.of_nat (length (acc ++ [(k, v)])) = num + 1) by (rewrite length_app; simpl; lia).
  destruct files as [|f files].
  - clear IH. simpl in Hend. cbn [tail_readable].
    assert (Hd : (blen pre + 40 + blen k <? blen buf) =
                 negb ((blen v =? 0) && (blen k mod 8 =? 0) && (blen extra =? 0))).
    { pose proof (blen_nonneg v). pose proof (blen_nonneg extra). pose proof (blen_nonneg z).
      destruct (Z.ltb_spec (blen pre + 40 + blen k) (blen buf)), (Z.eqb_spec (blen v) 0),
        (Z.eqb_spec (blen k mod 8) 0), (Z.eqb_spec (blen extra) 0); simpl; try done; try lia;
      unfold entry_end, up8 in *; dlia. }
    rewrite Hd. destruct (negb _); [|by eauto]. rewrite loopn_S.
    unfold unpack_step at 1, bind, get_state. cbn [us_num us_pos us_files].
    change (fh_num_files h) with (Z.of_nat (length all)).
    rewrite <- Hall, Hacc, Z.ltb_irrefl. done.
  - rewrite (proj2 (Z.ltb_lt _ _)).
    2:{ pose proof (archive_end_ge (f :: files) (entry_end (blen pre) k v)) as Hge.
        cbn [length] in Hge. change (archive_end (f :: files) (entry_end (blen pre) k v)) with (archive_end ((k, v) :: f :: files) (blen pre)) in Hge.
        pose proof (blen_nonneg v). pose proof (blen_nonneg extra). lia. }
    assert (Hend' : archive_end (f :: files) (entry_end (blen pre) k v) = size) by exact Hend.
    assert (Hpre : pre ++ tl ++ extra =
      (pre ++ entry_enc (entry_at (blen pre) k v (entry_end (blen pre) k v)) ++ k ++ v ++ z) ++ tl' ++ extra)
      by (by rewrite Htl, <- !app_assoc).
    set (pre' := pre ++ entry_enc _ ++ k ++ v ++ z) in Hpre.
    assert (Hlen : blen pre' = entry_end (blen pre) k v) by (unfold pre'; rewrite !blen_app, blen_entry_enc; lia).
    unfold buf. rewrite Hpre. rewrite <- Hlen in *. rewrite <- Hacc.
    apply (IH pre' tl' (acc ++ [(k, v)])); try done; try lia; by rewrite <- app_assoc.
Qed.

Lemma unpack_all tl :
  laid all 32 tl -> Forall (fun x => utf8_valid x.1 = true) all -> bt_sorted all = true ->
  unpack true (header_enc h ++ tl ++ extra) = if tail_readable all then add_all all root_dir else Panic.
Proof.
  intros Hlaid Hu Hs. pose proof (archive_end_ge all 32) as Hge. fold size in Hge.
  pose proof (laid_blen _ _ _ Hlaid) as Hl. fold size in Hl. pose proof (blen_nonneg extra).
  assert (Hh : blen (header_enc h) = 32) by (unfold blen; by rewrite length_header_enc).
  unfold unpack. rewrite (proj2 (Z.ltb_ge _ HEADER_SIZE)) by (rewrite !blen_app, Hh; unfold HEADER_SIZE; lia).
  rewrite header_dec_enc by (unfold is_u64; simpl; fold size; lia || done). simpl negb.
  change (fh_len h) with size. rewrite (proj2 (Z.ltb_ge _ size)) by (rewrite !blen_app, Hh; lia).
  unfold unpack_files. rewrite loop_loopn.
  destruct (decide (all = [])) as [Hnil|Hne].
  - rewrite (loopn_stop (unpack_step (header_enc h ++ tl ++ extra) h) 1 (Pos.to_nat (2 ^ 64)) (mkSt [] 0 HEADER_SIZE)
      (mkSt [] 0 HEADER_SIZE) (Ok (Some tt))); [by rewrite Hnil|lia| |done].
    simpl. unfold bind, unpack_step, get_state, ret. simpl. by rewrite Hnil.
  - assert (Hfuel : (S (length all) <= Pos.to_nat (2 ^ 64))%nat) by lia.
    pose proof (unpack_loop all (header_enc h) tl []) as Hloop. rewrite Hh in Hloop. simpl app in Hloop.
    specialize (Hloop Hne Hlaid eq_refl eq_refl Hu Hs eq_refl). cbv zeta in Hloop.
    change (mkSt [] 0 HEADER_SIZE) with (mkSt [] (Z.of_nat (@length (bytes * bytes) [])) 32).
    destruct (tail_readable all).
    + rewrite (loopn_stop _ _ _ _ _ _ Hfuel Hloop) by done. cbn [us_pos us_files].
      change (fh_num_files h) with (Z.of_nat (length all)). by rewrite !Z.eqb_refl.
    + destruct Hloop as [st Hloop]. by rewrite (loopn_stop _ _ _ _ _ _ Hfuel Hloop) by done.
Qed.
End Read.

(** ** The archive as a whole *)

Definition add_files (adds : list (bytes * bytes)) : Writer :=
  fold_left (fun w x => Writer_add w x.1 x.2) adds Writer_new.

Lemma add_files_ok (P : bytes -> Prop) adds :
  Forall (fun x => P x.1) adds -> bt_sorted (add_files adds) = true /\ Forall (fun x => P x.1) (add_files adds).
Proof.
  unfold add_files. intros H.
  assert (Hgen : forall w, bt_sorted w = true -> Forall (fun x => P x.1) w ->
    let w' := fold_left (fun w x => Writer_add w x.1 x.2) adds w in bt_sorted w' = true /\ Forall (fun x => P x.1) w').
  2:{ by apply Hgen. }
  induction H as [|[k v] adds Hk H IH]; intros w Hs Hw; [done|]. simpl. apply IH.
  - by apply bt_insert_sorted.
  - by apply bt_insert_Forall.
Qed.

Lemma pack_unpack adds extra :
  let w := add_files adds in
  Forall (fun x => utf8_valid x.1 = true) adds -> archive_end w 32 < 2 ^ 63 ->
  exists buf, pack w = Ok buf /\
    unpack true (buf ++ extra) = if tail_readable extra w then add_all w root_dir else Panic.
Proof.
  intros w Hu Hb. destruct (add_files_ok (fun k => utf8_valid k = true) adds Hu) as [Hs Hf].
  destruct (pack_laid w Hb) as (tl & Hp & _ & Hl). exists (header_enc (archive_header w) ++ tl). split; [done|].
  rewrite <- app_assoc. by apply unpack_all.
Qed.

(** C17: whatever files are added to a [Writer], they are packed, and the buffer (which may be followed by
    other bytes, as in a partition) is unpacked as follows.  When no name ends in a slash after a directory
    and the content of the last file does not start at the end of the bytes, the result is a directory tree
    that holds at every path exactly the content added for it, and in which every directory records its own
    name and its full path.  A name that does is refused, and an archive without files, or whose last file is
    empty and ends the bytes, makes [unpack] panic.  Archives are smaller than 2^63 bytes. *)
Theorem flatfs_roundtrip adds extra :
  let w := add_files adds in
  Forall (fun x => utf8_valid x.1 = true) adds -> archive_end w 32 < 2 ^ 63 ->
  exists buf, pack w = Ok buf /\
    (tail_readable extra w = false -> unpack true (buf ++ extra) = Panic) /\
    (tail_readable extra w = true -> names_ok w = false -> unpack true (buf ++ extra) = Err Refused) /\
    (tail_readable extra w = true -> names_ok w = true ->
     exists d, unpack true (buf ++ extra) = Ok d /\ (forall p, file_at d p = content_at w p) /\
       (forall ds d', dir_at d ds = Some d' ->
          dir_path d' = concat (map (cons SLASH) ds) /\ dir_filename d' = List.last ds [])).
Proof.
  intros w Hu Hb. destruct (pack_unpack adds extra Hu Hb) as (buf & Hp & Hr). fold w in Hp, Hr.
  exists buf. rewrite Hr. split; [done|]. split; [by intros ->|]. split; [intros -> Hn; by rewrite add_all_refused|].
  intros -> Hn. destruct (add_all_ok w root_dir (named_fresh _ _) Hn) as (d & Hd & Hnm & Hf).
  exists d. split_and!; [done| |].
  - intros p. rewrite Hf. destruct (content_at w p); [done|]. by destruct p as [[|] ?].
  - intros ds d' H. destruct (Hnm ds d' H) as [H1 H2]. revert H1 H2. unfold place.
    assert (Hroot : dir_path d = [] /\ dir_filename d = []).
    { by apply (add_all_head w root_dir). }
    destruct Hroot as [-> ->]. done.
Qed.

(** An archive without files, or one whose last file is empty and has a name of a multiple of 8 bytes,
    is packed without complaint but makes [unpack] panic when nothing follows it: the position check after
    the loop and the indexing of the empty content are not covered by the checks before them. *)
Theorem flatfs_empty_tail_panics adds :
  let w := add_files adds in
  Forall (fun x => utf8_valid x.1 = true) adds -> archive_end w 32 < 2 ^ 63 -> tail_readable [] w = false ->
  exists buf, pack w = Ok buf /\ unpack true buf = Panic.
Proof.
  intros w Hu Hb Ht. destruct (pack_unpack adds [] Hu Hb) as (buf & Hp & Hr). fold w in Hp, Hr.
  rewrite Ht, app_nil_r in Hr. by exists buf.
Qed.

(** A header and one entry whose name starts at [s] and whose end wraps around to 0. *)
Definition wrapping_archive (s : Z) : bytes :=
  header_enc (mkHeader MAGIC_V1 1 72 1) ++ entry_enc (mkEntry s (2 ^ 64 - s) 0 0 0).

(** The bound checks of [unpack] add two [u64]s of the buffer without an overflow check, so that an
    entry whose name is longer than the address space passes them and a slice outside the buffer is made. *)
Theorem flatfs_unpack_out_of_bounds s :
  0 < s < 72 -> unpack true (wrapping_archive s) = Err OutOfBounds.
Proof.
  intros Hs. set (e := mkEntry s (2 ^ 64 - s) 0 0 0). set (h := mkHeader MAGIC_V1 1 72 1).
  assert (Hb : blen (wrapping_archive s) = 72).
  { unfold wrapping_archive, blen. rewrite length_app, length_header_enc, length_entry_enc. done. }
  assert (Hd : header_dec (wrapping_archive s) = h) by (apply header_dec_enc; done).
  assert (He : entry_dec (slice 32 40 (wrapping_archive s)) = e).
  { unfold wrapping_archive, slice. rewrite drop_app_length' by (by rewrite length_header_enc).
    rewrite take_ge by (rewrite length_entry_enc; lia). apply entry_dec_enc; unfold is_u64; simpl; lia. }
  assert (Hstep : unpack_step (wrapping_archive s) h (mkSt [] 0 32) = (mkSt [] 0 32, Err OutOfBounds)).
  { unfold unpack_step, bind, get_state, assert, ret, lift. cbn [us_num us_pos us_files].
    change (Z.to_nat 32) with 32%nat. rewrite He, Hb. unfold raw_slice. rewrite Hb.
    unfold e. cbn [name_start name_len bytes_start bytes_len h fh_len fh_num_files].
    replace (s + (2 ^ 64 - s)) with (2 ^ 64) by lia. rewrite (proj2 (Z.ltb_lt s 72)) by lia. reflexivity. }
  unfold unpack. rewrite Hb, Hd. unfold unpack_files. rewrite loop_loopn.
  rewrite (loopn_stop _ 1 (Pos.to_nat (2 ^ 64)) (mkSt [] 0 HEADER_SIZE) (mkSt [] 0 32) (Err OutOfBounds));
    [done|lia| |done].
  rewrite loopn_S. change HEADER_SIZE with 32. by rewrite Hstep.
Qed.

(** A name that ends in a slash after a directory name (a directory without a file) can be packed, but
    [unpack] refuses the whole archive. *)
Theorem flatfs_bad_name_refused adds extra :
  let w := add_files adds in
  Forall (fun x => utf8_valid x.1 = true) adds -> archive_end w 32 < 2 ^ 63 ->
  tail_readable extra w = true -> names_ok w = false ->
  exists buf, pack w = Ok buf /\ unpack true (buf ++ extra) = Err Refused.
Proof.
  intros w Hu Hb Ht Hn. destruct (pack_unpack adds extra Hu Hb) as (buf & Hp & Hr). fold w in Hp, Hr.
  exists buf. by rewrite Hr, Ht, add_all_refused.
Qed.

(** ** Instances

    The archive of the test in lib.rs and small archives for the other cases. *)
Module FlatFsSample.

Definition foo : bytes := ascii [102; 111; 111].
Definition bar : bytes := ascii [98; 97; 114].
Definition baz : bytes := ascii [98; 97; 122].
Definition slash : bytes := [SLASH].

Definition test_files : list (bytes * bytes) :=
  [(slash ++ foo, foo); (slash ++ foo ++ slash ++ bar, bar); (slash ++ baz ++ slash ++ baz, baz)].
Definition empty_tail : list (bytes * bytes) := [(foo, bar); (foo ++ slash ++ bar ++ slash, [])].
Definition bad_name : list (bytes * bytes) := [(foo ++ slash, bar)].

Lemma flatfs_roundtrip_witness :
  content_at (add_files test_files) ([foo], bar) = Some bar /\
  exists buf d, pack (add_files test_files) = Ok buf /\ unpack true (buf ++ []) = Ok d /\
    (forall p, file_at d p = content_at (add_files test_files) p) /\
    (forall ds d', dir_at d ds = Some d' ->
       dir_path d' = concat (map (cons SLASH) ds) /\ dir_filename d' = List.last ds []).
Proof.
  split; [vm_compute; reflexivity|].
  destruct (flatfs_roundtrip test_files []) as (buf & Hp & _ & _ & Hd); [repeat constructor|vm_compute; reflexivity|].
  destruct Hd as (d & Hd); [vm_compute; reflexivity..|]. exists buf, d. split; [exact Hp|exact Hd].
Defined.

Lemma flatfs_empty_tail_panics_witness :
  exists buf, pack (add_files empty_tail) = Ok buf /\ unpack true buf = Panic.
Proof. apply (flatfs_empty_tail_panics empty_tail); [repeat constructor|vm_compute; reflexivity..]. Defined.

Lemma flatfs_unpack_out_of_bounds_witness : unpack true (wrapping_archive 32) = Err OutOfBounds.
Proof. apply (flatfs_unpack_out_of_bounds 32). split; reflexivity. Defined.

Lemma flatfs_bad_name_refused_witness :
  exists buf, pack (add_files bad_name) = Ok buf /\ unpack true (buf ++ []) = Err Refused.
Proof. apply (flatfs_bad_name_refused bad_name []); [repeat constructor|vm_compute; reflexivity..]. Defined.
End FlatFsSample.
