(* ===== verification/IoChannel.v ===== *)
(** * The I/O channel

    The shared-memory channel of src/src/lib/moto-ipc/src/io_channel.rs: two bounded
    queues of messages (client to server and back) and two bitmaps of data pages.  The
    queue procedures are written as one atomic access per step, so that any number of
    threads of the two processes can be interleaved; [solo] is a call that runs
    undisturbed.  Accesses are sequentially consistent: the code orders the plain access
    to a message by the release store and the acquire load of its stamp. *)

From stdpp Require Import base numbers list gmap.
From S2P Require Import RustPrelude.

Open Scope Z_scope.

(** ** Messages and slots *)

Inductive ErrorCode : Type := NotReady | InvalidArgument | BadHandle.

Record Msg : Type := mkMsg {
  m_id : Z; m_handle : Z; m_command : Z; m_status : Z; m_flags : Z; m_wake_handle : Z; m_payload : list Z
}.

(** [ErrorCode::NotReady as u16]. *)
Definition NOT_READY : Z := 3.

Definition Msg_new : Msg := mkMsg 0 0 0 NOT_READY 0 0 [0; 0; 0].

Record MsgSlot : Type := mkSlot { stamp : Z; msg : Msg }.

Definition QUEUE_SIZE : Z := 64.
Definition QUEUE_MASK : Z := QUEUE_SIZE - 1.
Definition CHANNEL_PAGE_COUNT : Z := 64.

Record queue : Type := mkQueue { q_head : Z; q_tail : Z; q_slots : Z -> MsgSlot }.

Definition slot_idx (pos : Z) : Z := Z.land pos QUEUE_MASK.
Definition slot_of (q : queue) (pos : Z) : MsgSlot := q_slots q (slot_idx pos).

Definition set_head (q : queue) (h : Z) : queue := mkQueue h (q_tail q) (q_slots q).
Definition set_tail (q : queue) (t : Z) : queue := mkQueue (q_head q) t (q_slots q).
Definition set_slot (q : queue) (pos : Z) (s : MsgSlot) : queue :=
  mkQueue (q_head q) (q_tail q) (fupd (q_slots q) (slot_idx pos) s).

(** ** The queue procedures, one shared access at a time *)

Inductive pc : Type :=
| SendLoad (m : Msg)
| SendStamp (m : Msg) (pos : Z)
| SendCas (m : Msg) (pos : Z)
| SendWrite (m : Msg) (pos : Z)
| SendPublish (m : Msg) (pos : Z)
| SendDone (r : result ErrorCode unit)
| RecvLoad
| RecvStamp (pos : Z)
| RecvCas (pos : Z)
| RecvRead (pos : Z)
| RecvRelease (pos : Z) (m : Msg)
| RecvDone (pos : Z) (r : result ErrorCode Msg).

(** [send]; [spurious] is a failure of [compare_exchange_weak] without a reason. *)
Definition send_step (spurious : bool) (q : queue) (p : pc) : queue * pc :=
  match p with
  | SendLoad m => (q, SendStamp m (q_head q))
  | SendStamp m pos =>
    let s := stamp (slot_of q pos) in
    if s =? pos then (q, SendCas m pos)
    else if s <? pos then (q, SendDone (Err NotReady))
    else (q, SendLoad m)
  | SendCas m pos =>
    if (q_head q =? pos) && negb spurious then (set_head q (u64 (pos + 1)), SendWrite m pos)
    else (q, SendStamp m (q_head q))
  | SendWrite m pos => (set_slot q pos (mkSlot (stamp (slot_of q pos)) m), SendPublish m pos)
  | SendPublish m pos => (set_slot q pos (mkSlot (u64 (pos + 1)) (msg (slot_of q pos))), SendDone (Ok tt))
  | _ => (q, p)
  end.

(** [recv]. *)
Definition recv_step (spurious : bool) (q : queue) (p : pc) : queue * pc :=
  match p with
  | RecvLoad => (q, RecvStamp (q_tail q))
  | RecvStamp pos =>
    let s := stamp (slot_of q pos) in
    if s =? u64 (pos + 1) then (q, RecvCas pos)
    else if s <? u64 (pos + 1) then (q, RecvDone pos (Err NotReady))
    else (q, RecvLoad)
  | RecvCas pos =>
    if (q_tail q =? pos) && negb spurious then (set_tail q (u64 (pos + 1)), RecvRead pos)
    else (q, RecvStamp (q_tail q))
  | RecvRead pos => (q, RecvRelease pos (msg (slot_of q pos)))
  | RecvRelease pos m =>
    (set_slot q pos (mkSlot (u64 (pos + QUEUE_SIZE)) (msg (slot_of q pos))), RecvDone pos (Ok m))
  | _ => (q, p)
  end.

Definition is_send (p : pc) : bool :=
  match p with
  | SendLoad _ | SendStamp _ _ | SendCas _ _ | SendWrite _ _ | SendPublish _ _ | SendDone _ => true
  | _ => false
  end.

Definition thread_step (spurious : bool) (q : queue) (p : pc) : queue * pc :=
  if is_send p then send_step spurious q p else recv_step spurious q p.

Definition finished (p : pc) : bool :=
  match p with SendDone _ | RecvDone _ _ => true | _ => false end.

(** A call that is not interrupted. *)
Fixpoint solo (n : nat) (q : queue) (p : pc) : queue * pc :=
  match n with
  | O => (q, p)
  | S n' => if finished p then (q, p) else let '(q', p') := thread_step false q p in solo n' q' p'
  end.

(** Eight accesses are enough for a call ([solo_terminates]). *)
Definition enqueue (q : queue) (m : Msg) : queue * result ErrorCode unit :=
  match solo 8 q (SendLoad m) with
  | (q', SendDone r) => (q', r)
  | (q', _) => (q', Panic)
  end.

Definition dequeue (q : queue) : queue * result ErrorCode Msg :=
  match solo 8 q RecvLoad with
  | (q', RecvDone _ r) => (q', r)
  | (q', _) => (q', Panic)
  end.

(** ** The channel *)

Record RawChannel : Type := mkChannel {
  client_queue : queue;
  server_queue : queue;
  client_pages_in_use : Z;
  server_pages_in_use : Z
}.

Definition set_client_queue (c : RawChannel) (q : queue) : RawChannel :=
  mkChannel q (server_queue c) (client_pages_in_use c) (server_pages_in_use c).
Definition set_server_queue (c : RawChannel) (q : queue) : RawChannel :=
  mkChannel (client_queue c) q (client_pages_in_use c) (server_pages_in_use c).

(** The stores of [connect] into a freshly mapped queue: the positions and the stamps. *)
Definition init_queue (q : queue) : queue :=
  mkQueue 0 0 (fun i => mkSlot i (msg (q_slots q i))).

Definition ClientConnection_connect (c : RawChannel) : RawChannel :=
  mkChannel (init_queue (client_queue c)) (init_queue (server_queue c))
    (client_pages_in_use c) (server_pages_in_use c).

Definition RawChannel_is_empty (c : RawChannel) : bool :=
  q_head (client_queue c) =? q_tail (server_queue c).

Definition ClientConnection_send (m : Msg) : eff RawChannel ErrorCode unit := fun c =>
  let '(q, r) := enqueue (client_queue c) m in (set_client_queue c q, r).

Definition ClientConnection_recv : eff RawChannel ErrorCode Msg := fun c =>
  let '(q, r) := dequeue (server_queue c) in (set_server_queue c q, r).

Inductive ServerStatus : Type := Created | Connected | SError (e : ErrorCode).
#[export] Instance ErrorCode_eq_dec : EqDecision ErrorCode.
Proof. solve_decision. Defined.
#[export] Instance ServerStatus_eq_dec : EqDecision ServerStatus.
Proof. solve_decision. Defined.

Definition ServerConnection_recv (status : ServerStatus) : eff RawChannel ErrorCode Msg := fun c =>
  if negb (bool_decide (status = Connected)) then (c, Err InvalidArgument)
  else let '(q, r) := dequeue (client_queue c) in (set_client_queue c q, r).

Definition ServerConnection_send (status : ServerStatus) (m : Msg) : eff RawChannel ErrorCode unit := fun c =>
  if negb (bool_decide (status = Connected)) then (c, Err InvalidArgument)
  else let '(q, r) := enqueue (server_queue c) m in (set_server_queue c q, r).

(** [accept]: the new status; [clear] frees the mapping, which is the kernel's. *)
Definition ServerConnection_accept (status : ServerStatus) (c : RawChannel) : ServerStatus * result ErrorCode unit :=
  if negb (bool_decide (status = Created)) then (status, Panic)
  else if negb (q_head (server_queue c) =? 0) || negb (q_tail (server_queue c) =? 0)
  then (SError BadHandle, Err BadHandle)
  else (Connected, Ok tt).

(** ** Data pages *)

Inductive SubChannelType : Type := Client | Server.
Inductive SubChannel : Type := SubClient (mask : Z) | SubServer (mask : Z).

Definition SubChannel_into (s : SubChannel) : SubChannelType :=
  match s with SubClient _ => Client | SubServer _ => Server end.

Record RawIoPage : Type := mkPage { page_idx : Z; s_type : SubChannelType }.

Definition pages_of (t : SubChannelType) (c : RawChannel) : Z :=
  match t with Client => client_pages_in_use c | Server => server_pages_in_use c end.
Definition set_pages (t : SubChannelType) (c : RawChannel) (b : Z) : RawChannel :=
  match t with
  | Client => mkChannel (client_queue c) (server_queue c) b (server_pages_in_use c)
  | Server => mkChannel (client_queue c) (server_queue c) (client_pages_in_use c) b
  end.

Definition sub_mask (s : SubChannel) : Z := match s with SubClient mask => mask | SubServer mask => mask end.

(** One round of the loop of [alloc_page]: [bitmap] is the value it loaded, the state the
    one the exchange finds; [None] is contention. *)
Definition alloc_page_round (spurious : bool) (s : SubChannel) (bitmap : Z)
    : eff RawChannel ErrorCode (option RawIoPage) := fun c =>
  let t := SubChannel_into s in
  let ones := Z.of_nat (trailing_ones 64 (Z.lor bitmap (u64_not (sub_mask s)))) in
  if ones =? 64 then (c, Err NotReady)
  else if (pages_of t c =? bitmap) && negb spurious
  then (set_pages t c (Z.lor bitmap (bit ones)), Ok (Some (mkPage ones t)))
  else (c, Ok None).

Definition alloc_page (s : SubChannel) : eff RawChannel ErrorCode RawIoPage := fun c =>
  match alloc_page_round false s (pages_of (SubChannel_into s) c) c with
  | (c', Ok (Some p)) => (c', Ok p)
  | (c', Ok None) => (c', Panic)
  | (c', Err e) => (c', Err e)
  | (c', Panic) => (c', Panic)
  end.

Definition free_page (p : RawIoPage) : eff RawChannel ErrorCode unit := fun c =>
  if CHANNEL_PAGE_COUNT <=? page_idx p then (c, Err InvalidArgument)
  else
    let prev := pages_of (s_type p) c in
    let c' := set_pages (s_type p) c (Z.lxor prev (bit (page_idx p))) in
    if Z.land prev (bit (page_idx p)) =? 0 then (c', Panic) else (c', Ok tt).

(** [page_bytes]: which page of which array is meant. *)
Definition page_bytes (p : RawIoPage) : result ErrorCode RawIoPage :=
  if CHANNEL_PAGE_COUNT <=? page_idx p then Err InvalidArgument else Ok p.

Definition SERVER_FLAG : Z := bit 15.
Definition U16_MAX : Z := 2 ^ 16 - 1.
Definition u16_not (z : Z) : Z := Z.lxor z U16_MAX.

Definition into_u16 (p : RawIoPage) : Z :=
  match s_type p with Client => page_idx p | Server => Z.lor (page_idx p) SERVER_FLAG end.

Definition from_u16 (val : Z) : RawIoPage :=
  if Z.land val SERVER_FLAG =? 0 then mkPage val Client
  else mkPage (Z.land val (u16_not SERVER_FLAG)) Server.

Definition get_page (idx : Z) : result ErrorCode RawIoPage :=
  if CHANNEL_PAGE_COUNT <? Z.land idx (u16_not SERVER_FLAG) then Err InvalidArgument else Ok (from_u16 idx).

(** [IoPage::bytes]: [page_bytes(..).unwrap()]. *)
Definition IoPage_bytes (p : RawIoPage) : result ErrorCode RawIoPage :=
  match page_bytes p with Ok x => Ok x | _ => Panic end.

(** [Drop for IoPage]; [into_u16] has set the index of a consumed page to [u16::MAX]. *)
Definition IoPage_drop (p : RawIoPage) : eff RawChannel ErrorCode unit := fun c =>
  if page_idx p =? U16_MAX then (c, Ok tt)
  else match free_page p c with (c', Ok _) => (c', Ok tt) | (c', _) => (c', Panic) end.

Definition ClientConnection_alloc_page (mask : Z) : eff RawChannel ErrorCode RawIoPage := fun c =>
  match alloc_page (SubClient mask) c with
  | (c', Ok p) => (c', Ok p)
  | (c', Err _) => (c', Err NotReady)
  | (c', Panic) => (c', Panic)
  end.
Definition ServerConnection_alloc_page (mask : Z) : eff RawChannel ErrorCode RawIoPage := fun c =>
  match alloc_page (SubServer mask) c with
  | (c', Ok p) => (c', Ok p)
  | (c', Err _) => (c', Err NotReady)
  | (c', Panic) => (c', Panic)
  end.
