(* ===== verification/IoQueue.v ===== *)
(** * The I/O channel: concurrent calls

    Any number of threads call [send] and [recv] of one queue at the same time.  [sent]
    lists the messages in the order in which their positions were claimed, [got] what the
    calls of [recv] that are over returned, with the position they claimed.  The queue
    positions are 64-bit counters: the theorems are about channels that carried fewer than
    [LIMIT] messages, so that the counters have not wrapped. *)

From stdpp Require Import base numbers list gmap.
From S2P Require Import RustPrelude IoChannel.

Open Scope Z_scope.

(** ** Interleaving *)

Record system : Type := mkSys {
  sq : queue;
  threads : gmap nat pc;
  sent : list Msg;
  got : list (Z * Msg)
}.

(** A claim of a position by [send], a completed [recv]. *)
Definition log_sent (p p' : pc) : list Msg :=
  match p, p' with SendCas m _, SendWrite _ _ => [m] | _, _ => [] end.
Definition log_got (p p' : pc) : list (Z * Msg) :=
  match p, p' with RecvRelease pos m, RecvDone _ _ => [(pos, m)] | _, _ => [] end.

Inductive sys_step : system -> system -> Prop :=
| sys_call s k p :
    threads s !! k = None -> p = RecvLoad \/ (exists m, p = SendLoad m) ->
    sys_step s (mkSys (sq s) (<[k := p]> (threads s)) (sent s) (got s))
| sys_run s k p spurious q' p' :
    threads s !! k = Some p -> finished p = false -> thread_step spurious (sq s) p = (q', p') ->
    sys_step s (mkSys q' (<[k := p']> (threads s)) (sent s ++ log_sent p p') (got s ++ log_got p p'))
| sys_return s k p :
    threads s !! k = Some p -> finished p = true ->
    sys_step s (mkSys (sq s) (delete k (threads s)) (sent s) (got s)).

Definition sys_init (q : queue) : system := mkSys (init_queue q) ∅ [] [].

Inductive reachable : system -> Prop :=
| reach_init q : reachable (sys_init q)
| reach_step s s' : reachable s -> sys_step s s' -> reachable s'.

Definition LIMIT : Z := 2 ^ 64 - 128.

(** ** The invariant *)

(** The position a slot serves, and in which phase it is. *)
Inductive phase : Type := Free | Writing (k : nat) | Filled | Reading (k : nat).
Record gslot : Type := mkG { turn : Z; ph : phase }.

Definition nth_sent (l : list Msg) (p : Z) : option Msg := l !! Z.to_nat p.

Definition slot_ok (s : system) (i : Z) (g : gslot) : Prop :=
  let q := sq s in let sl := q_slots q i in
  0 <= turn g /\ turn g mod 64 = i /\ q_head q - 64 <= turn g < q_head q + 64 /\
  match ph g with
  | Free => stamp sl = turn g /\ q_head q <= turn g
  | Writing k =>
    stamp sl = turn g /\ q_tail q <= turn g < q_head q /\
    exists m, nth_sent (sent s) (turn g) = Some m /\
      (threads s !! k = Some (SendWrite m (turn g)) \/
       threads s !! k = Some (SendPublish m (turn g)) /\ msg sl = m)
  | Filled =>
    stamp sl = turn g + 1 /\ q_tail q <= turn g < q_head q /\ nth_sent (sent s) (turn g) = Some (msg sl)
  | Reading k =>
    stamp sl = turn g + 1 /\ turn g < q_tail q /\ nth_sent (sent s) (turn g) = Some (msg sl) /\
    (turn g ∉ (got s).*1) /\
    (threads s !! k = Some (RecvRead (turn g)) \/ threads s !! k = Some (RecvRelease (turn g) (msg sl)))
  end.

Definition thread_ok (G : Z -> gslot) (q : queue) (k : nat) (p : pc) : Prop :=
  match p with
  | SendStamp _ pos => 0 <= pos <= q_head q
  | SendCas _ pos => 0 <= pos <= q_head q /\ pos <= stamp (q_slots q (pos mod 64))
  | SendWrite _ pos | SendPublish _ pos => 0 <= pos /\ G (pos mod 64) = mkG pos (Writing k)
  | RecvStamp pos => 0 <= pos <= q_tail q
  | RecvCas pos => 0 <= pos <= q_tail q /\ pos + 1 <= stamp (q_slots q (pos mod 64))
  | RecvRead pos | RecvRelease pos _ => 0 <= pos /\ G (pos mod 64) = mkG pos (Reading k)
  | _ => True
  end.

Record inv (G : Z -> gslot) (s : system) : Prop := {
  i_slots : forall i, 0 <= i < 64 -> slot_ok s i (G i);
  i_threads : forall k p, threads s !! k = Some p -> thread_ok G (sq s) k p;
  i_bounds : 0 <= q_tail (sq s) <= q_head (sq s);
  i_sent : Z.of_nat (length (sent s)) = q_head (sq s);
  i_window : forall p, q_tail (sq s) <= p < q_head (sq s) -> turn (G (p mod 64)) = p;
  i_got : Forall (fun x => 0 <= x.1 < q_tail (sq s) /\ nth_sent (sent s) x.1 = Some x.2) (got s);
  i_nodup : NoDup (got s).*1;
  i_all : forall p, 0 <= p < q_tail (sq s) -> (p ∈ (got s).*1) \/ exists k, G (p mod 64) = mkG p (Reading k)
}.

Lemma slot_idx_mod pos : slot_idx pos = pos mod 64.
Proof. apply (Z.land_ones pos 6). lia. Qed.

Lemma slot_of_mod q pos : slot_of q pos = q_slots q (pos mod 64).
Proof. unfold slot_of. by rewrite slot_idx_mod. Qed.

Lemma mod64_range p : 0 <= p mod 64 < 64.
Proof. apply Z.mod_pos_bound. lia. Qed.
Hint Resolve mod64_range : core.

(** Two positions of the same slot that are less than a lap apart are equal. *)
Lemma same_slot a b : a mod 64 = b mod 64 -> -64 < a - b < 64 -> a = b.
Proof. intros. dlia. Qed.

Lemma nth_sent_app l l' p x : nth_sent l p = Some x -> nth_sent (l ++ l') p = Some x.
Proof. unfold nth_sent. intros H. by apply lookup_app_l_Some. Qed.

Lemma inv_init q : inv (fun i => mkG i Free) (sys_init q).
Proof.
  split; simpl; try done; try lia.
  - intros i Hi. unfold slot_ok. simpl. rewrite Z.mod_small by lia. lia.
  - constructor.
Qed.

(** The slot a thread has claimed. *)
Definition owner (g : gslot) (k : nat) : Prop := ph g = Writing k \/ ph g = Reading k.

Definition owning (p : pc) : bool :=
  match p with SendWrite _ _ | SendPublish _ _ | RecvRead _ | RecvRelease _ _ => true | _ => false end.

Lemma slot_owner s i g k : slot_ok s i g -> owner g k -> exists p, threads s !! k = Some p /\ owning p = true.
Proof.
  intros (_ & _ & _ & H) [Hp|Hp]; rewrite Hp in H.
  - destruct H as (_ & _ & m & _ & [H|[H _]]); eauto.
  - destruct H as (_ & _ & _ & _ & [H|H]); eauto.
Qed.

(** What a change elsewhere leaves of a slot and of a thread. *)
Lemma slot_ok_frame s s' i g :
  slot_ok s i g -> q_slots (sq s') i = q_slots (sq s) i ->
  (q_head (sq s') = q_head (sq s) \/ q_head (sq s') = q_head (sq s) + 1 /\ i <> q_head (sq s) mod 64) ->
  (q_tail (sq s') = q_tail (sq s) \/ q_tail (sq s') = q_tail (sq s) + 1 /\ i <> q_tail (sq s) mod 64) ->
  (forall p x, nth_sent (sent s) p = Some x -> nth_sent (sent s') p = Some x) ->
  (forall p, p ∈ (got s').*1 -> (p ∈ (got s).*1) \/ p mod 64 <> i) ->
  (forall k, owner g k -> threads s' !! k = threads s !! k) ->
  slot_ok s' i g.
Proof.
  intros (H0 & Hm & Hr & Hs) Hq Hh Ht Hsent Hgot Hth. unfold slot_ok. rewrite Hq.
  assert (turn g = q_head (sq s) -> i = q_head (sq s) mod 64) by congruence.
  assert (turn g = q_tail (sq s) -> i = q_tail (sq s) mod 64) by congruence.
  split; [done|]. split; [done|]. split.
  { destruct Hh as [->|[-> Hi]]; [done|]. split; [|lia].
    destruct (decide (turn g = q_head (sq s) - 64)) as [E|]; [|lia]. exfalso. apply Hi. rewrite <- Hm, E. dlia. }
  destruct (ph g) as [|k| |k] eqn:Hp.
  - destruct Hs as [-> Hs]. split; [done|]. destruct Hh as [->|[-> Hi]]; [done|].
    destruct (decide (turn g = q_head (sq s))); [exfalso; auto|lia].
  - destruct Hs as (-> & Hb & m & Hm' & Ho). split_and!; [done| | |].
    + destruct Ht as [->|[-> Hi]]; [lia|]. destruct (decide (turn g = q_tail (sq s))); [exfalso; auto|lia].
    + destruct Hh as [->|[-> Hi]]; lia.
    + exists m. rewrite Hth by (by left). auto.
  - destruct Hs as (-> & Hb & Hm'). split_and!; [done| | |auto].
    + destruct Ht as [->|[-> Hi]]; [lia|]. destruct (decide (turn g = q_tail (sq s))); [exfalso; auto|lia].
    + destruct Hh as [->|[-> Hi]]; lia.
  - destruct Hs as (-> & Hb & Hm' & Hg & Ho). split_and!; [done| |auto| |].
    + destruct Ht as [->|[-> Hi]]; lia.
    + intros [|]%Hgot; [done|congruence].
    + rewrite Hth by (by right). done.
Qed.

Lemma thread_ok_frame G G' q q' k p :
  thread_ok G q k p -> q_head q <= q_head q' -> q_tail q <= q_tail q' ->
  (forall i, stamp (q_slots q i) <= stamp (q_slots q' i)) ->
  (forall i, owner (G i) k -> G' i = G i) ->
  thread_ok G' q' k p.
Proof.
  intros H Hh Ht Hst HG.
  assert (Ho : forall pos g, G (pos mod 64) = g -> owner g k -> G' (pos mod 64) = g).
  { intros pos g Hg Hk. rewrite HG; [done|by rewrite Hg]. }
  destruct p as [m|m pos|m pos|m pos|m pos|r| |pos|pos|pos|pos m|pos r]; simpl in *; try done; try lia.
  - specialize (Hst (pos mod 64)). lia.
  - destruct H as [? H]. split; [done|]. apply (Ho _ _ H). by left.
  - destruct H as [? H]. split; [done|]. apply (Ho _ _ H). by left.
  - specialize (Hst (pos mod 64)). lia.
  - destruct H as [? H]. split; [done|]. apply (Ho _ _ H). by right.
  - destruct H as [? H]. split; [done|]. apply (Ho _ _ H). by right.
Qed.

(** A step that touches only the thread's own position. *)
Lemma inv_quiet G s th' k :
  inv G s -> (forall p, threads s !! k = Some p -> owning p = false) ->
  (forall k', k' <> k -> th' !! k' = threads s !! k') ->
  (forall p, th' !! k = Some p -> thread_ok G (sq s) k p) ->
  inv G (mkSys (sq s) th' (sent s) (got s)).
Proof.
  intros [Hsl Hth Hb Hs Hw Hg Hn Ha] Hk Hne Hok. split; simpl; try done.
  - intros i Hi. apply (slot_ok_frame s); simpl; auto. intros k' Ho. apply Hne. intros ->.
    destruct (slot_owner _ _ _ _ (Hsl i Hi) Ho) as (p & Hp & Hp'). by rewrite (Hk p Hp) in Hp'.
  - intros k' p Hp. destruct (decide (k' = k)) as [->|]; [by auto|]. rewrite Hne in Hp by done. auto.
Qed.

(** The slot at the head, once its stamp has come round. *)
Lemma head_slot G s : inv G s -> q_head (sq s) <= stamp (q_slots (sq s) (q_head (sq s) mod 64)) ->
  G (q_head (sq s) mod 64) = mkG (q_head (sq s)) Free.
Proof.
  intros HI Hst. pose proof (i_bounds _ _ HI) as Hb.
  destruct (i_slots _ _ HI (q_head (sq s) mod 64)) as (H0 & Hm & Hr & Hp); [done|].
  destruct (G (q_head (sq s) mod 64)) as [t p]. simpl in *.
  destruct p as [|k| |k]; simpl in *; try (exfalso; dlia).
  f_equal. apply same_slot; [congruence|lia].
Qed.

Lemma tail_slot G s : inv G s ->
  q_tail (sq s) + 1 <= stamp (q_slots (sq s) (q_tail (sq s) mod 64)) ->
  q_tail (sq s) < q_head (sq s) /\ G (q_tail (sq s) mod 64) = mkG (q_tail (sq s)) Filled.
Proof.
  intros HI Hst. pose proof (i_bounds _ _ HI) as Hb.
  destruct (i_slots _ _ HI (q_tail (sq s) mod 64)) as (H0 & Hm & Hr & Hp); [done|].
  pose proof (i_window _ _ HI (q_tail (sq s))) as Hw.
  destruct (G (q_tail (sq s) mod 64)) as [t p]. simpl in *.
  destruct (decide (q_tail (sq s) = q_head (sq s))) as [E|E].
  - exfalso. destruct p; simpl in *; try dlia.
  - rewrite Hw in * by lia. destruct p; simpl in *; try (exfalso; lia). split; [lia|done].
Qed.

Definition pos_of (p : pc) : Z :=
  match p with SendWrite _ pos | SendPublish _ pos | RecvRead pos | RecvRelease pos _ => pos | _ => -1 end.

Lemma own_slot G s k p j :
  inv G s -> threads s !! k = Some p -> 0 <= j < 64 -> owner (G j) k -> owning p = true /\ j = pos_of p mod 64.
Proof.
  intros HI Hp Hj Ho. destruct (i_slots _ _ HI j Hj) as (_ & Hm & _ & H).
  destruct Ho as [Ho|Ho]; rewrite Ho in H.
  - destruct H as (_ & _ & m & _ & [H|[H _]]); rewrite Hp in H; by injection H as ->.
  - destruct H as (_ & _ & _ & _ & [H|H]); rewrite Hp in H; by injection H as ->.
Qed.

(** A step that changes slot [i], which no other thread owns. *)
Section Active.
Variables (G : Z -> gslot) (s : system) (k : nat) (p p' : pc) (i : Z) (g' : gslot) (q' : queue).
Variables (snt : list Msg) (gt : list (Z * Msg)).
Let s' : system := mkSys q' (<[k := p']> (threads s)) (sent s ++ snt) (got s ++ gt).

Lemma inv_active :
  inv G s -> threads s !! k = Some p -> 0 <= i < 64 ->
  (forall k', k' <> k -> ~ owner (G i) k') ->
  (owning p = true -> i = pos_of p mod 64) ->
  (forall j, j <> i -> q_slots q' j = q_slots (sq s) j) ->
  stamp (q_slots (sq s) i) <= stamp (q_slots q' i) ->
  (q_head q' = q_head (sq s) \/ q_head q' = q_head (sq s) + 1 /\ i = q_head (sq s) mod 64) ->
  (q_tail q' = q_tail (sq s) \/ q_tail q' = q_tail (sq s) + 1 /\ i = q_tail (sq s) mod 64) ->
  slot_ok s' i g' -> thread_ok (fupd G i g') q' k p' -> q_tail q' <= q_head q' ->
  Z.of_nat (length (sent s ++ snt)) = q_head q' ->
  (forall x, q_tail q' <= x < q_head q' -> x mod 64 = i -> turn g' = x) ->
  Forall (fun x => (0 <= x.1 < q_tail q' /\ nth_sent (sent s ++ snt) x.1 = Some x.2) /\
                   x.1 mod 64 = i /\ (x.1 ∉ (got s).*1)) gt ->
  (length gt <= 1)%nat ->
  (forall x, 0 <= x < q_tail q' -> x mod 64 = i ->
     (x ∈ (got s ++ gt).*1) \/ exists k', g' = mkG x (Reading k')) ->
  inv (fupd G i g') s'.
Proof.
  intros HI Hp Hi Hown Hpos Hsl Hst Hh Ht Hslot Hthr Hth Hsent Hwin Hgt Hlen Hall.
  assert (HG : forall j, 0 <= j < 64 -> j <> i -> ~ owner (G j) k).
  { intros j Hj Hji Ho. destruct (own_slot _ _ _ _ _ HI Hp Hj Ho) as [H1 H2].
    apply Hji. rewrite H2. symmetry. auto. }
  pose proof (i_bounds _ _ HI) as Hb.
  split; subst s'; simpl.
  - intros j Hj. destruct (decide (j = i)) as [->|Hji]; [by rewrite fupd_eq|]. rewrite fupd_ne by done.
    apply (slot_ok_frame s); simpl.
    + by apply (i_slots _ _ HI).
    + by apply Hsl.
    + destruct Hh as [->|[-> Hi']]; [by left|right; split; congruence].
    + destruct Ht as [->|[-> Hi']]; [by left|right; split; congruence].
    + intros x m. apply nth_sent_app.
    + intros x. rewrite fmap_app, elem_of_app. intros [?|Hx]; [by left|]. right.
      apply list_elem_of_fmap in Hx as ([y m] & -> & Hx). rewrite Forall_forall in Hgt.
      apply Hgt in Hx as (_ & Hx & _). simpl in *. congruence.
    + intros k' Ho. rewrite lookup_insert_ne; [done|]. intros ->. by apply (HG j).
  - intros k' p1 H. destruct (decide (k' = k)) as [->|Hk].
    + rewrite lookup_insert_eq in H. by simplify_eq.
    + rewrite lookup_insert_ne in H by done. apply (thread_ok_frame G _ (sq s)).
      * by apply (i_threads _ _ HI).
      * lia.
      * lia.
      * intros j. destruct (decide (j = i)) as [->|]; [done|]. by rewrite Hsl.
      * intros j Ho. apply fupd_ne. intros ->. by apply (Hown k').
  - lia.
  - done.
  - intros x Hx. destruct (decide (x mod 64 = i)) as [E|E].
    + rewrite E, fupd_eq. by apply Hwin.
    + rewrite fupd_ne by done. apply (i_window _ _ HI). destruct Hh as [Hh|[Hh Hi']]; [lia|].
      destruct (decide (x = q_head (sq s))); [congruence|lia].
  - apply Forall_app. split; [|eapply Forall_impl; [exact Hgt|by intros x (Hx & _)]].
    eapply Forall_impl; [exact (i_got _ _ HI)|]. intros [x m] [H1 H2]. simpl in *.
    split; [lia|]. by apply nth_sent_app.
  - rewrite fmap_app. apply NoDup_app. split_and!; [exact (i_nodup _ _ HI)| |].
    + intros x Hx Hx'. apply list_elem_of_fmap in Hx' as ([y m] & -> & Hx'). rewrite Forall_forall in Hgt.
      by apply Hgt in Hx' as (_ & _ & Hx').
    + destruct gt as [|x [|]]; simpl in *; [constructor| |lia]. apply NoDup_singleton.
  - intros x Hx. destruct (decide (x mod 64 = i)) as [E|E].
    + rewrite E, fupd_eq. by apply Hall.
    + rewrite fupd_ne by done. rewrite fmap_app, elem_of_app.
      destruct (i_all _ _ HI x) as [?|?]; [|by auto..]. destruct Ht as [Ht|[Ht Hi']]; [lia|].
      destruct (decide (x = q_tail (sq s))); [congruence|lia].
Qed.
End Active.

(** ** Preservation *)

Lemma not_owned_other G s i k g k' : inv G s -> G i = mkG g (Writing k) \/ G i = mkG g (Reading k) ->
  k' <> k -> ~ owner (G i) k'.
Proof. intros HI [->| ->] Hk [H|H]; simpl in H; congruence. Qed.

Lemma not_owned (G : Z -> gslot) i g f k' : G i = mkG g f -> f = Free \/ f = Filled -> ~ owner (G i) k'.
Proof. intros -> [->| ->] [H|H]; simpl in H; congruence. Qed.

Lemma nth_sent_last l x : nth_sent (l ++ [x]) (Z.of_nat (length l)) = Some x.
Proof. unfold nth_sent. rewrite Nat2Z.id, lookup_app_r, Nat.sub_diag by lia. done. Qed.

Lemma claim_send G s k m :
  inv G s -> threads s !! k = Some (SendCas m (q_head (sq s))) ->
  inv (fupd G (q_head (sq s) mod 64) (mkG (q_head (sq s)) (Writing k)))
    (mkSys (set_head (sq s) (q_head (sq s) + 1)) (<[k := SendWrite m (q_head (sq s))]> (threads s))
       (sent s ++ [m]) (got s ++ [])).
Proof.
  intros HI Hk. pose proof (i_threads _ _ HI _ _ Hk) as [Hb Hst].
  pose proof (head_slot G s HI Hst) as HG. set (h := q_head (sq s)) in *. pose proof (i_bounds _ _ HI) as Hbd. fold h in Hbd.
  destruct (i_slots _ _ HI (h mod 64)) as (H0 & Hm & Hr & Hs); [done|]. rewrite HG in *. simpl in *.
  pose proof (i_sent _ _ HI) as Hlen. fold h in Hlen.
  apply (inv_active G s k (SendCas m h)); simpl; try done; fold h.
  - intros k' _. by apply (not_owned G _ h Free); auto.
  - auto.
  - auto.
  - unfold slot_ok; simpl; fold h. split_and!; try done; try lia. exists m. split; [rewrite <- Hlen; apply nth_sent_last|]. left. apply lookup_insert_eq.
  - split; [lia|]. apply fupd_eq.
  - lia.
  - rewrite length_app. simpl. lia.
  - intros x Hx E. destruct (decide (x = h)) as [|Hne]; [done|].
    pose proof (i_window _ _ HI x) as Hw. rewrite E, HG in Hw. simpl in Hw. fold h in Hw. lia.
  - lia.
  - intros x Hx E. rewrite app_nil_r. destruct (i_all _ _ HI x) as [?|[k' E']]; [done|by left|].
    rewrite E, HG in E'. done.
Qed.

Lemma claim_recv G s k :
  inv G s -> threads s !! k = Some (RecvCas (q_tail (sq s))) ->
  inv (fupd G (q_tail (sq s) mod 64) (mkG (q_tail (sq s)) (Reading k)))
    (mkSys (set_tail (sq s) (q_tail (sq s) + 1)) (<[k := RecvRead (q_tail (sq s))]> (threads s))
       (sent s ++ []) (got s ++ [])).
Proof.
  intros HI Hk. pose proof (i_threads _ _ HI _ _ Hk) as [Hb Hst].
  destruct (tail_slot G s HI Hst) as [Hlt HG]. set (t := q_tail (sq s)) in *. pose proof (i_bounds _ _ HI) as Hbd. fold t in Hbd.
  destruct (i_slots _ _ HI (t mod 64)) as (H0 & Hm & Hr & Hs); [done|]. rewrite HG in *. simpl in *.
  apply (inv_active G s k (RecvCas t)); simpl; try done; fold t.
  - intros k' _. by apply (not_owned G _ t Filled); auto.
  - auto.
  - auto.
  - unfold slot_ok; simpl; fold t. split_and!; try done; try lia; try (rewrite app_nil_r; tauto).
    + rewrite app_nil_r. intros Hg. apply list_elem_of_fmap in Hg as ([y x] & E & Hg).
      pose proof (i_got _ _ HI) as Hgot. rewrite Forall_forall in Hgot. apply Hgot in Hg. simpl in *. fold t in Hg. lia.
    + left. apply lookup_insert_eq.
  - split; [lia|]. apply fupd_eq.
  - lia.
  - rewrite app_nil_r. apply (i_sent _ _ HI).
  - intros x Hx E. pose proof (i_window _ _ HI x) as Hw. rewrite E, HG in Hw. simpl in Hw. fold t in Hw. lia.
  - lia.
  - intros x Hx E. destruct (decide (x = t)) as [->|Hne]; [right; by eauto|]. rewrite app_nil_r.
    destruct (i_all _ _ HI x) as [?|[k' E']]; [fold t; lia|by left|]. rewrite E, HG in E'. done.
Qed.

Lemma window_kept G s i g f :
  inv G s -> G i = mkG g f -> forall x, q_tail (sq s) <= x < q_head (sq s) -> x mod 64 = i -> g = x.
Proof. intros HI HG x Hx E. pose proof (i_window _ _ HI x Hx) as Hw. by rewrite E, HG in Hw. Qed.

Lemma all_kept G s i g f :
  inv G s -> G i = mkG g f -> (forall k, f <> Reading k) -> forall x, 0 <= x < q_tail (sq s) -> x mod 64 = i -> x ∈ (got s).*1.
Proof. intros HI HG Hf x Hx E. destruct (i_all _ _ HI x Hx) as [?|[k' E']]; [done|]. rewrite E, HG in E'. injection E' as _ ->. by destruct (Hf k'). Qed.

Lemma do_write G s k m pos :
  inv G s -> threads s !! k = Some (SendWrite m pos) ->
  exists G', inv G' (mkSys (set_slot (sq s) pos (mkSlot (stamp (slot_of (sq s) pos)) m))
    (<[k := SendPublish m pos]> (threads s)) (sent s ++ []) (got s ++ [])).
Proof.
  intros HI Hk. pose proof (i_threads _ _ HI _ _ Hk) as [Hp HG]. set (i := pos mod 64) in *.
  assert (Hi : 0 <= i < 64) by apply mod64_range.
  destruct (i_slots _ _ HI i Hi) as (H0 & Hm & Hr & Hs). rewrite HG in *. simpl in *.
  destruct Hs as (Hst & Hb & m' & Hm' & [Hk'|[Hk' _]]); rewrite Hk in Hk'; [|done]. injection Hk' as <-.
  exists (fupd G i (mkG pos (Writing k))). rewrite slot_of_mod. unfold set_slot. rewrite slot_idx_mod. fold i.
  apply (inv_active G s k (SendWrite m pos)); simpl; try done; rewrite ?fupd_eq, ?app_nil_r; simpl; auto.
  - intros k'. by apply (not_owned_other G s _ k pos); auto.
  - intros j Hj. by apply fupd_ne.
  - lia.
  - unfold slot_ok; simpl. rewrite fupd_eq. split_and!; try done; try lia. exists m. split; [done|]. right. split; [apply lookup_insert_eq|done].
  - apply (i_bounds _ _ HI).
  - apply (i_sent _ _ HI).
  - by apply (window_kept G s i pos (Writing k)).
  - intros x Hx E. left. by apply (all_kept G s i pos (Writing k)).
Qed.

Lemma do_publish G s k m pos :
  inv G s -> threads s !! k = Some (SendPublish m pos) ->
  exists G', inv G' (mkSys (set_slot (sq s) pos (mkSlot (pos + 1) (msg (slot_of (sq s) pos))))
    (<[k := SendDone (Ok tt)]> (threads s)) (sent s ++ []) (got s ++ [])).
Proof.
  intros HI Hk. pose proof (i_threads _ _ HI _ _ Hk) as [Hp HG]. set (i := pos mod 64) in *.
  assert (Hi : 0 <= i < 64) by apply mod64_range.
  destruct (i_slots _ _ HI i Hi) as (H0 & Hm & Hr & Hs). rewrite HG in *. simpl in *.
  destruct Hs as (Hst & Hb & m' & Hm' & [Hk'|[Hk' Hmsg]]); rewrite Hk in Hk'; [done|]. injection Hk' as <-.
  exists (fupd G i (mkG pos Filled)). rewrite slot_of_mod. unfold set_slot. rewrite slot_idx_mod. fold i.
  apply (inv_active G s k (SendPublish m pos)); simpl; try done; rewrite ?fupd_eq, ?app_nil_r; simpl; auto.
  - intros k'. by apply (not_owned_other G s _ k pos); auto.
  - intros j Hj. by apply fupd_ne.
  - lia.
  - unfold slot_ok; simpl. rewrite fupd_eq. split_and!; try done; try lia. simpl. by rewrite Hmsg.
  - apply (i_bounds _ _ HI).
  - apply (i_sent _ _ HI).
  - by apply (window_kept G s i pos (Writing k)).
  - intros x Hx E. left. by apply (all_kept G s i pos (Writing k)).
Qed.

Lemma do_read G s k pos :
  inv G s -> threads s !! k = Some (RecvRead pos) ->
  exists G', inv G' (mkSys (sq s) (<[k := RecvRelease pos (msg (slot_of (sq s) pos))]> (threads s)) (sent s ++ []) (got s ++ [])).
Proof.
  intros HI Hk. pose proof (i_threads _ _ HI _ _ Hk) as [Hp HG]. set (i := pos mod 64) in *.
  assert (Hi : 0 <= i < 64) by apply mod64_range.
  destruct (i_slots _ _ HI i Hi) as (H0 & Hm & Hr & Hs). rewrite HG in *. simpl in *.
  destruct Hs as (Hst & Hb & Hmsg & Hgot & _).
  exists (fupd G i (mkG pos (Reading k))). rewrite slot_of_mod. fold i.
  apply (inv_active G s k (RecvRead pos)); simpl; try done; rewrite ?fupd_eq, ?app_nil_r; simpl; auto.
  - intros k'. by apply (not_owned_other G s _ k pos); auto.
  - unfold slot_ok; simpl. split_and!; try done; try lia. right. apply lookup_insert_eq.
  - apply (i_bounds _ _ HI).
  - apply (i_sent _ _ HI).
  - by apply (window_kept G s i pos (Reading k)).
  - intros x Hx E. destruct (i_all _ _ HI x Hx) as [?|[k' E']]; [by left|]. right. rewrite E, HG in E'. by eauto.
Qed.

Lemma do_release G s k pos m :
  inv G s -> threads s !! k = Some (RecvRelease pos m) ->
  exists G', inv G' (mkSys (set_slot (sq s) pos (mkSlot (pos + 64) (msg (slot_of (sq s) pos))))
    (<[k := RecvDone pos (Ok m)]> (threads s)) (sent s ++ []) (got s ++ [(pos, m)])).
Proof.
  intros HI Hk. pose proof (i_threads _ _ HI _ _ Hk) as [Hp HG]. set (i := pos mod 64) in *.
  assert (Hi : 0 <= i < 64) by apply mod64_range. pose proof (i_bounds _ _ HI) as Hbd.
  destruct (i_slots _ _ HI i Hi) as (H0 & Hm & Hr & Hs). rewrite HG in *. simpl in *.
  destruct Hs as (Hst & Hb & Hmsg & Hgot & [Hk'|Hk']); rewrite Hk in Hk'; [done|]. injection Hk' as ->.
  exists (fupd G i (mkG (pos + 64) Free)). rewrite slot_of_mod. unfold set_slot. rewrite slot_idx_mod. fold i.
  apply (inv_active G s k (RecvRelease pos (msg (q_slots (sq s) i)))); simpl; try done; rewrite ?fupd_eq, ?app_nil_r; simpl; auto.
  - intros k'. by apply (not_owned_other G s _ k pos); auto.
  - intros j Hj. by apply fupd_ne.
  - lia.
  - unfold slot_ok; simpl. rewrite fupd_eq. split_and!; try done; try lia. unfold i. dlia.
  - lia.
  - apply (i_sent _ _ HI).
  - intros x Hx E. pose proof (i_window _ _ HI x Hx) as Hw. rewrite E, HG in Hw. simpl in Hw. lia.
  - intros x Hx E. left. rewrite fmap_app, elem_of_app. destruct (i_all _ _ HI x Hx) as [?|[k' E']]; [by left|].
    right. rewrite E, HG in E'. injection E' as -> _. simpl. apply list_elem_of_singleton. done.
Qed.

Lemma inv_call G s k p :
  inv G s -> threads s !! k = None -> p = RecvLoad \/ (exists m, p = SendLoad m) ->
  inv G (mkSys (sq s) (<[k := p]> (threads s)) (sent s) (got s)).
Proof.
  intros HI Hk Hp. apply (inv_quiet G s _ k); [done|by rewrite Hk| |].
  - intros k' Hne. by apply lookup_insert_ne.
  - intros p'. rewrite lookup_insert_eq. intros [= <-]. by destruct Hp as [->|[m ->]].
Qed.

Lemma inv_return G s k p :
  inv G s -> threads s !! k = Some p -> finished p = true ->
  inv G (mkSys (sq s) (delete k (threads s)) (sent s) (got s)).
Proof.
  intros HI Hk Hf. apply (inv_quiet G s _ k); [done| | |].
  - intros p'. rewrite Hk. intros [= <-]. by destruct p.
  - intros k' Hne. by apply lookup_delete_ne.
  - intros p'. by rewrite lookup_delete_eq.
Qed.

(** A step that only moves the thread. *)
Lemma inv_move G s k p p' :
  inv G s -> threads s !! k = Some p -> owning p = false -> thread_ok G (sq s) k p' ->
  exists G', inv G' (mkSys (sq s) (<[k := p']> (threads s)) (sent s ++ []) (got s ++ [])).
Proof.
  intros HI Hk Ho Hok. exists G. rewrite !app_nil_r. apply (inv_quiet G s _ k); [done| | |].
  - intros p1. rewrite Hk. by intros [= <-].
  - intros k' Hne. by apply lookup_insert_ne.
  - intros p1. rewrite lookup_insert_eq. by intros [= <-].
Qed.

Lemma pos_u64 n x : 0 <= x < LIMIT -> 0 <= n <= 64 -> u64 (x + n) = x + n.
Proof. unfold LIMIT. intros. apply u64_id. unfold is_u64. lia. Qed.

Lemma owned_below G s k p : inv G s -> threads s !! k = Some p -> owning p = true -> 0 <= pos_of p < q_head (sq s).
Proof.
  intros HI Hk Ho. pose proof (i_threads _ _ HI _ _ Hk) as H. pose proof (i_bounds _ _ HI) as Hb.
  assert (Hx : forall x f, 0 <= x -> G (x mod 64) = mkG x f -> f <> Free -> 0 <= x < q_head (sq s)).
  { intros x f H0 HG Hf. destruct (i_slots _ _ HI (x mod 64)) as (_ & _ & _ & Hs); [done|].
    rewrite HG in Hs. destruct f; simpl in *; try done; lia. }
  destruct p; try done; destruct H as [H0 HG]; by apply (Hx _ _ H0 HG).
Qed.

Lemma inv_run G s k p spurious q' p' :
  inv G s -> q_head (sq s) < LIMIT -> threads s !! k = Some p -> finished p = false ->
  thread_step spurious (sq s) p = (q', p') ->
  exists G', inv G' (mkSys q' (<[k := p']> (threads s)) (sent s ++ log_sent p p') (got s ++ log_got p p')).
Proof.
  intros HI Hlim Hk Hf Hstep. pose proof (i_bounds _ _ HI) as Hb. pose proof (i_threads _ _ HI _ _ Hk) as Hok.
  pose proof (owned_below G s k p HI Hk) as Hown.
  destruct p as [m|m pos|m pos|m pos|m pos|r| |pos|pos|pos|pos m|pos r]; try done;
    unfold thread_step in Hstep; simpl in Hstep, Hok, Hown.
  - injection Hstep as <- <-. apply (inv_move G s k (SendLoad m)); simpl; done || lia.
  - rewrite slot_of_mod in Hstep. destruct (Z.eqb_spec (stamp (q_slots (sq s) (pos mod 64))) pos) as [E|E];
      [|destruct (stamp (q_slots (sq s) (pos mod 64)) <? pos)]; injection Hstep as <- <-;
      apply (inv_move G s k (SendStamp m pos)); simpl; done || lia.
  - destruct (Z.eqb_spec (q_head (sq s)) pos) as [<-|E], spurious; simpl in Hstep; injection Hstep as <- <-;
      try (apply (inv_move G s k (SendCas m _) (SendStamp m _) HI Hk); simpl; done || lia).
    rewrite pos_u64 by lia. eexists. by apply claim_send.
  - injection Hstep as <- <-. by apply (do_write G).
  - injection Hstep as <- <-. rewrite pos_u64 by (specialize (Hown eq_refl); lia). by apply (do_publish G s k m).
  - injection Hstep as <- <-. apply (inv_move G s k RecvLoad); simpl; done || lia.
  - rewrite slot_of_mod, pos_u64 in Hstep by lia.
    destruct (Z.eqb_spec (stamp (q_slots (sq s) (pos mod 64))) (pos + 1)) as [E|E];
      [|destruct (stamp (q_slots (sq s) (pos mod 64)) <? pos + 1)]; injection Hstep as <- <-;
      apply (inv_move G s k (RecvStamp pos)); simpl; done || lia.
  - destruct (Z.eqb_spec (q_tail (sq s)) pos) as [<-|E], spurious; simpl in Hstep; injection Hstep as <- <-;
      try (apply (inv_move G s k (RecvCas _) (RecvStamp _) HI Hk); simpl; done || lia).
    rewrite pos_u64 by lia. eexists. by apply claim_recv.
  - injection Hstep as <- <-. by apply (do_read G).
  - injection Hstep as <- <-. change QUEUE_SIZE with 64. rewrite pos_u64 by (specialize (Hown eq_refl); lia).
    by apply (do_release G).
Qed.

Definition few_sent (s : system) : Prop := Z.of_nat (length (sent s)) < LIMIT.

Lemma inv_reachable s : reachable s -> few_sent s -> exists G, inv G s.
Proof.
  induction 1 as [q|s s' Hr IH Hstep]; intros Hl; [eexists; apply inv_init|].
  assert (Hl0 : few_sent s).
  { unfold few_sent in *. destruct Hstep; simpl in *; rewrite ?length_app in Hl; lia. }
  destruct (IH Hl0) as [G HI]. unfold few_sent in Hl0. rewrite (i_sent _ _ HI) in Hl0. destruct Hstep.
  - exists G. by apply inv_call.
  - by eapply inv_run.
  - exists G. by eapply inv_return.
Qed.

Lemma window_size G s : inv G s -> q_head (sq s) - q_tail (sq s) <= 64.
Proof.
  intros HI. destruct (decide (q_head (sq s) - q_tail (sq s) <= 64)) as [|Hgt]; [done|exfalso].
  pose proof (i_window _ _ HI (q_tail (sq s))) as H1. pose proof (i_window _ _ HI (q_tail (sq s) + 64)) as H2.
  replace ((q_tail (sq s) + 64) mod 64) with (q_tail (sq s) mod 64) in H2 by dlia. lia.
Qed.

(** The stamps at the two ends never run ahead of the positions. *)
Lemma head_stamp G s : inv G s -> stamp (q_slots (sq s) (q_head (sq s) mod 64)) <= q_head (sq s).
Proof.
  intros HI. pose proof (i_bounds _ _ HI). destruct (i_slots _ _ HI (q_head (sq s) mod 64)) as (_ & Hm & Hr & Hs); [done|].
  destruct (G (q_head (sq s) mod 64)) as [t f]. simpl in *. destruct f; dlia.
Qed.

Lemma tail_stamp G s : inv G s -> stamp (q_slots (sq s) (q_tail (sq s) mod 64)) <= q_tail (sq s) + 1.
Proof.
  intros HI. pose proof (i_bounds _ _ HI) as Hb.
  destruct (decide (q_tail (sq s) = q_head (sq s))) as [E|E].
  - pose proof (head_stamp G s HI). rewrite E. lia.
  - pose proof (i_window _ _ HI (q_tail (sq s))) as Hw.
    destruct (i_slots _ _ HI (q_tail (sq s) mod 64)) as (_ & Hm & Hr & Hs); [done|].
    destruct (G (q_tail (sq s) mod 64)) as [t f]. simpl in *. destruct f; lia.
Qed.

(** The thread at work on a position. *)
Definition at_position (s : system) (k : nat) (pos : Z) : Prop :=
  exists p, threads s !! k = Some p /\ owning p = true /\ pos_of p = pos.

(** ** Properties *)

(** C10: no message is lost, duplicated, reordered or torn, whatever the interleaving of any number of
    sending and receiving threads: the call of [recv] that claims position [p] returns the message of the
    [p]-th claim of a [send], every position is returned at most once, at most 64 positions are between
    tail and head, and every position below the tail has been returned or is being read. *)
Theorem queue_fifo s :
  reachable s -> few_sent s ->
  q_head (sq s) = Z.of_nat (length (sent s)) /\
  0 <= q_tail (sq s) <= q_head (sq s) /\ q_head (sq s) - q_tail (sq s) <= 64 /\
  (forall p m, (p, m) ∈ got s -> 0 <= p < q_tail (sq s) /\ sent s !! Z.to_nat p = Some m) /\
  NoDup (got s).*1 /\
  (forall p, 0 <= p < q_tail (sq s) -> (p ∈ (got s).*1) \/ exists k, at_position s k p).
Proof.
  intros Hr Hl. destruct (inv_reachable s Hr Hl) as [G HI].
  split; [symmetry; apply (i_sent _ _ HI)|]. split; [apply (i_bounds _ _ HI)|]. split; [by apply (window_size G)|].
  split_and!.
  - intros p m Hp. pose proof (i_got _ _ HI) as Hg. rewrite Forall_forall in Hg. apply (Hg _ Hp).
  - apply (i_nodup _ _ HI).
  - intros p Hp. destruct (i_all _ _ HI p Hp) as [?|[k HG]]; [by left|right]. exists k.
    destruct (i_slots _ _ HI (p mod 64)) as (_ & _ & _ & Hs); [done|]. rewrite HG in Hs. simpl in Hs.
    destruct Hs as (_ & _ & _ & _ & [H|H]); eexists; eauto.
Qed.

(** C26: the plain (not atomic) accesses to the messages never race: two threads that have claimed a position
    and have not published or released it yet work on different slots. *)
Theorem queue_exclusive s k1 k2 p1 p2 :
  reachable s -> few_sent s -> threads s !! k1 = Some p1 -> threads s !! k2 = Some p2 ->
  owning p1 = true -> owning p2 = true -> slot_idx (pos_of p1) = slot_idx (pos_of p2) -> k1 = k2.
Proof.
  intros Hr Hl H1 H2 Ho1 Ho2 E. destruct (inv_reachable s Hr Hl) as [G HI]. rewrite !slot_idx_mod in E.
  assert (Hown : forall k p, threads s !! k = Some p -> owning p = true -> owner (G (pos_of p mod 64)) k).
  { intros k p Hk Ho. pose proof (i_threads _ _ HI _ _ Hk) as Hok.
    destruct p; try done; simpl in *; destruct Hok as [_ ->]; (by left) || (by right). }
  pose proof (Hown _ _ H1 Ho1) as W1. pose proof (Hown _ _ H2 Ho2) as W2. rewrite E in W1.
  destruct W1 as [W1|W1], W2 as [W2|W2]; congruence.
Qed.

(** [send] reports a full queue only when it is: at the access that decides, 64 messages are waiting,
    or the call of [recv] that took the message from this slot has not finished yet. *)
Theorem send_not_ready_only_if_full s k m pos spurious q' :
  reachable s -> few_sent s -> threads s !! k = Some (SendStamp m pos) ->
  thread_step spurious (sq s) (SendStamp m pos) = (q', SendDone (Err NotReady)) ->
  q_head (sq s) - q_tail (sq s) = 64 \/ exists k', at_position s k' (q_head (sq s) - 64).
Proof.
  intros Hr Hl Hk Hstep. destruct (inv_reachable s Hr Hl) as [G HI].
  pose proof (i_threads _ _ HI _ _ Hk) as Hok. simpl in Hok. pose proof (window_size G s HI) as Hw.
  unfold thread_step in Hstep. simpl in Hstep. rewrite slot_of_mod in Hstep.
  destruct (i_slots _ _ HI (pos mod 64)) as (H0 & Hm & Hb & Hs); [done|].
  destruct (Z.eqb_spec (stamp (q_slots (sq s) (pos mod 64))) pos) as [|_]; [done|].
  destruct (Z.ltb_spec (stamp (q_slots (sq s) (pos mod 64))) pos) as [Hlt|]; [|done].
  destruct (G (pos mod 64)) as [t f]. simpl in *. pose proof (i_bounds _ _ HI).
  assert (Ht : t = q_head (sq s) - 64) by (destruct f; dlia). subst t.
  destruct f as [|k'| |k']; [exfalso; lia|left; lia|left; lia|right].
  exists k'. destruct Hs as (_ & _ & _ & _ & [Hs|Hs]); eexists; eauto.
Qed.

(** [recv] reports an empty queue only when it is, or when the [send] that claimed the next position has
    not published its message yet. *)
Theorem recv_not_ready_only_if_empty s k pos spurious q' :
  reachable s -> few_sent s -> threads s !! k = Some (RecvStamp pos) ->
  thread_step spurious (sq s) (RecvStamp pos) = (q', RecvDone pos (Err NotReady)) ->
  q_head (sq s) = q_tail (sq s) \/ exists k', at_position s k' (q_tail (sq s)).
Proof.
  intros Hr Hl Hk Hstep. destruct (inv_reachable s Hr Hl) as [G HI]. unfold few_sent in Hl.
  rewrite (i_sent _ _ HI) in Hl. pose proof (i_bounds _ _ HI) as Hbd.
  pose proof (i_threads _ _ HI _ _ Hk) as Hok. simpl in Hok.
  destruct (decide (q_head (sq s) = q_tail (sq s))) as [|Hne]; [by left|right].
  unfold thread_step in Hstep. simpl in Hstep. rewrite slot_of_mod, pos_u64 in Hstep by lia.
  destruct (i_slots _ _ HI (pos mod 64)) as (H0 & Hm & Hb & Hs); [done|].
  pose proof (i_window _ _ HI pos) as Hw.
  destruct (Z.eqb_spec (stamp (q_slots (sq s) (pos mod 64))) (pos + 1)) as [|Hn]; [done|].
  destruct (Z.ltb_spec (stamp (q_slots (sq s) (pos mod 64))) (pos + 1)) as [Hlt|]; [|done].
  destruct (G (pos mod 64)) as [t f]. simpl in *.
  destruct (decide (pos = q_tail (sq s))) as [->|Hp]; [|exfalso; destruct f; dlia].
  rewrite Hw in * by lia. destruct f as [|k'| |k']; try (exfalso; lia).
  exists k'. destruct Hs as (_ & _ & m & _ & [Hs|[Hs _]]); eexists; eauto.
Qed.

Lemma solo_finished n q p : finished p = true -> solo n q p = (q, p).
Proof. intros H. destruct n; simpl; [done|]. by rewrite H. Qed.

Lemma solo_step n q p : finished p = false ->
  solo (S n) q p = solo n (thread_step false q p).1 (thread_step false q p).2.
Proof. intros H. simpl. rewrite H. by destruct (thread_step false q p). Qed.

(** A call that runs alone after it has read the current position ends. *)
Lemma solo_send G s n m : inv G s -> finished (solo (4 + n) (sq s) (SendStamp m (q_head (sq s)))).2 = true.
Proof.
  intros HI. pose proof (head_stamp G s HI) as Hst. cbn [Nat.add]. rewrite solo_step by done. unfold thread_step. simpl is_send.
  unfold send_step. rewrite slot_of_mod.
  destruct (Z.eqb_spec (stamp (q_slots (sq s) (q_head (sq s) mod 64))) (q_head (sq s))) as [E|E].
  - simpl. unfold thread_step at 1. simpl. rewrite Z.eqb_refl. simpl. by rewrite solo_finished.
  - rewrite (proj2 (Z.ltb_lt _ _)) by lia. by rewrite solo_finished.
Qed.

Lemma solo_recv G s n : inv G s -> q_tail (sq s) < LIMIT -> finished (solo (4 + n) (sq s) (RecvStamp (q_tail (sq s)))).2 = true.
Proof.
  intros HI Hl. pose proof (tail_stamp G s HI) as Hst. pose proof (i_bounds _ _ HI).
  cbn [Nat.add]. rewrite solo_step by done. unfold thread_step. simpl is_send.
  unfold recv_step. rewrite slot_of_mod, pos_u64 by lia.
  destruct (Z.eqb_spec (stamp (q_slots (sq s) (q_tail (sq s) mod 64))) (q_tail (sq s) + 1)) as [E|E].
  - simpl. unfold thread_step at 1. simpl. rewrite Z.eqb_refl. simpl. by rewrite solo_finished.
  - rewrite (proj2 (Z.ltb_lt _ _)) by lia. by rewrite solo_finished.
Qed.

(** C31: progress without fairness: from every reachable state, wherever in [send] or [recv] a thread has been
    interrupted, the call ends after at most 8 of its own accesses when the others pause. *)
Theorem solo_terminates s k p :
  reachable s -> few_sent s -> threads s !! k = Some p -> finished (solo 8 (sq s) p).2 = true.
Proof.
  intros Hr Hl Hk. destruct (inv_reachable s Hr Hl) as [G HI]. unfold few_sent in Hl. rewrite (i_sent _ _ HI) in Hl.
  pose proof (i_bounds _ _ HI) as Hb. pose proof (i_threads _ _ HI _ _ Hk) as Hok.
  assert (HS : forall n m, finished (solo (4 + n) (sq s) (SendStamp m (q_head (sq s)))).2 = true)
    by (intros n m; by apply (solo_send G)).
  assert (HR : forall n, finished (solo (4 + n) (sq s) (RecvStamp (q_tail (sq s)))).2 = true)
    by (intros n; apply (solo_recv G); [done|lia]).
  assert (HC : forall n m pos, finished (solo (5 + n) (sq s) (SendCas m pos)).2 = true).
  { intros n m pos. cbn [Nat.add]. rewrite solo_step by done. unfold thread_step. simpl is_send. unfold send_step.
    destruct (Z.eqb_spec (q_head (sq s)) pos) as [E|E]; [done|apply (HS n)]. }
  assert (HD : forall n pos, finished (solo (5 + n) (sq s) (RecvCas pos)).2 = true).
  { intros n pos. cbn [Nat.add]. rewrite solo_step by done. unfold thread_step. simpl is_send. unfold recv_step.
    destruct (Z.eqb_spec (q_tail (sq s)) pos) as [E|E]; [done|apply (HR n)]. }
  destruct p as [m|m pos|m pos|m pos|m pos|r| |pos|pos|pos|pos m|pos r]; try done.
  - apply (HS 3%nat).
  - cbn [Nat.add]. rewrite solo_step by done. unfold thread_step. simpl is_send. unfold send_step. destruct (_ =? _); [apply (HC 2%nat)|].
    destruct (_ <? _); [done|]. apply (HS 2%nat).
  - apply (HC 3%nat).
  - apply (HR 3%nat).
  - cbn [Nat.add]. rewrite solo_step by done. unfold thread_step. simpl is_send. unfold recv_step. destruct (_ =? _); [apply (HD 2%nat)|].
    destruct (_ <? _); [done|]. apply (HR 2%nat).
  - apply (HD 3%nat).
Qed.
