(* ===== verification/IoChannelProps.v ===== *)
(** * The I/O channel: pages, undisturbed calls and limits

    A queue on which no call is in progress holds a list of messages ([queue_rep]); the
    four methods of the connections are its operations.  The page bitmaps are shared by the
    threads of a process: [page_step] interleaves the loads and exchanges of [alloc_page]
    with the releases of pages that were handed out. *)

From stdpp Require Import base numbers list gmap.
From S2P Require Import RustPrelude IoChannel IoQueue.

Open Scope Z_scope.

(** ** Undisturbed calls: a bounded queue *)

Record queue_rep (q : queue) (l : list Msg) : Prop := {
  qr_tail : 0 <= q_tail q;
  qr_head : q_head q = q_tail q + Z.of_nat (length l);
  qr_len : (length l <= 64)%nat;
  qr_full : forall j m, l !! j = Some m ->
    q_slots q ((q_tail q + Z.of_nat j) mod 64) = mkSlot (q_tail q + Z.of_nat j + 1) m;
  qr_free : forall j, Z.of_nat (length l) <= j < 64 ->
    stamp (q_slots q ((q_tail q + j) mod 64)) = q_tail q + j
}.

Lemma queue_rep_init q : queue_rep (init_queue q) [].
Proof.
  split; simpl; try done; try lia. intros j Hj. apply Z.mod_small. lia.
Qed.

Lemma fupd_fupd {A} (f : Z -> A) k v w x : fupd (fupd f k v) k w x = fupd f k w x.
Proof. unfold fupd. by destruct (x =? k). Qed.

Lemma enqueue_ok q m (h := q_head q) : stamp (slot_of q h) = h ->
  exists q', enqueue q m = (q', Ok tt) /\ q_head q' = u64 (h + 1) /\ q_tail q' = q_tail q /\
    forall x, q_slots q' x = fupd (q_slots q) (slot_idx h) (mkSlot (u64 (h + 1)) m) x.
Proof.
  intros Hs. unfold enqueue. rewrite solo_step by done. unfold thread_step at 1 2. simpl is_send. cbn [send_step fst snd].
  fold h. rewrite solo_step by done. unfold thread_step. simpl is_send. unfold send_step.
  rewrite Hs, Z.eqb_refl. cbn [fst snd]. rewrite solo_step by done. unfold thread_step. simpl is_send. unfold send_step.
  fold h. rewrite Z.eqb_refl. simpl. unfold slot_of. simpl. rewrite fupd_eq. simpl.
  eexists. split_and!; [done|done|done|]. intros x. simpl. apply fupd_fupd.
Qed.

Lemma enqueue_full q m : stamp (slot_of q (q_head q)) < q_head q -> enqueue q m = (q, Err NotReady).
Proof.
  intros Hs. unfold enqueue. rewrite solo_step by done. unfold thread_step at 1 2. simpl is_send. cbn [send_step fst snd].
  rewrite solo_step by done. unfold thread_step. simpl is_send. unfold send_step.
  rewrite (proj2 (Z.eqb_neq _ _)), (proj2 (Z.ltb_lt _ _)) by lia. done.
Qed.

Lemma dequeue_ok q (t := q_tail q) : stamp (slot_of q t) = u64 (t + 1) ->
  exists q', dequeue q = (q', Ok (msg (slot_of q t))) /\ q_head q' = q_head q /\ q_tail q' = u64 (t + 1) /\
    forall x, q_slots q' x = fupd (q_slots q) (slot_idx t) (mkSlot (u64 (t + QUEUE_SIZE)) (msg (slot_of q t))) x.
Proof.
  intros Hs. unfold dequeue. rewrite solo_step by done. unfold thread_step at 1 2. simpl is_send. cbn [recv_step fst snd].
  fold t. rewrite solo_step by done. unfold thread_step. simpl is_send. unfold recv_step.
  rewrite Hs, Z.eqb_refl. cbn [fst snd]. rewrite solo_step by done. unfold thread_step. simpl is_send. unfold recv_step.
  fold t. rewrite Z.eqb_refl. simpl. unfold slot_of. simpl. by eexists.
Qed.

Lemma dequeue_empty q : stamp (slot_of q (q_tail q)) < u64 (q_tail q + 1) -> dequeue q = (q, Err NotReady).
Proof.
  intros Hs. unfold dequeue. rewrite solo_step by done. unfold thread_step at 1 2. simpl is_send. cbn [recv_step fst snd].
  rewrite solo_step by done. unfold thread_step. simpl is_send. unfold recv_step.
  rewrite (proj2 (Z.eqb_neq _ _)), (proj2 (Z.ltb_lt _ _)) by lia. done.
Qed.

(** Positions of the window that are not [n] steps away have other slots. *)
Lemma other_slot t a b : 0 <= a < 64 -> 0 <= b < 64 -> a <> b -> (t + a) mod 64 <> (t + b) mod 64.
Proof. intros Ha Hb Hab E. dlia. Qed.

Lemma enqueue_rep q l m :
  queue_rep q l -> q_head q < LIMIT ->
  if decide (length l < 64)%nat
  then exists q', enqueue q m = (q', Ok tt) /\ queue_rep q' (l ++ [m])
  else enqueue q m = (q, Err NotReady).
Proof.
  intros [H0 Hh Hl Hf He] Hlim. destruct (decide (length l < 64)%nat) as [Hlt|Hge].
  - assert (Hst : stamp (slot_of q (q_head q)) = q_head q) by (rewrite slot_of_mod, Hh; apply He; lia).
    destruct (enqueue_ok q m Hst) as (q' & -> & Hh' & Ht' & Hs'). exists q'. split; [done|].
    rewrite pos_u64 in Hh', Hs' by lia. rewrite slot_idx_mod in Hs'.
    split; rewrite ?Ht', ?Hh', ?length_app; simpl; try lia.
    + intros j x Hj. rewrite Hs'. destruct (decide (j = length l)) as [->|Hne].
      * rewrite lookup_app_r, Nat.sub_diag in Hj by lia. injection Hj as ->. rewrite <- Hh. apply fupd_eq.
      * assert (j < length l)%nat by (apply lookup_lt_Some in Hj; rewrite length_app in Hj; simpl in Hj; lia).
        rewrite lookup_app_l in Hj by lia. rewrite fupd_ne; [by apply Hf|]. rewrite Hh. apply other_slot; lia.
    + intros j Hj. rewrite Hs', fupd_ne; [apply He; lia|]. rewrite Hh. apply other_slot; lia.
  - apply enqueue_full. rewrite slot_of_mod, Hh.
    destruct l as [|x l]; [simpl in *; lia|]. pose proof (Hf 0%nat x eq_refl) as H1.
    replace ((q_tail q + Z.of_nat (length (x :: l))) mod 64) with ((q_tail q + Z.of_nat 0) mod 64).
    + rewrite H1. simpl in *. lia.
    + replace (Z.of_nat (length (x :: l))) with 64 by (simpl in *; lia). dlia.
Qed.

Lemma dequeue_rep q l :
  queue_rep q l -> q_tail q < LIMIT ->
  match l with
  | [] => dequeue q = (q, Err NotReady)
  | m :: l' => exists q', dequeue q = (q', Ok m) /\ queue_rep q' l'
  end.
Proof.
  intros [H0 Hh Hl Hf He] Hlim. destruct l as [|m l].
  - apply dequeue_empty. rewrite slot_of_mod, pos_u64 by lia. specialize (He 0). rewrite Z.add_0_r in He.
    rewrite He by (simpl; lia). lia.
  - pose proof (Hf 0%nat m eq_refl) as Hs. rewrite Z.add_0_r in Hs.
    assert (Hst : stamp (slot_of q (q_tail q)) = u64 (q_tail q + 1)) by (rewrite slot_of_mod, Hs, pos_u64 by lia; done).
    destruct (dequeue_ok q Hst) as (q' & -> & Hh' & Ht' & Hs'). rewrite slot_of_mod, Hs. exists q'. split; [done|].
    change QUEUE_SIZE with 64 in Hs'. rewrite !pos_u64 in * by lia. rewrite slot_idx_mod in Hs'.
    split; rewrite ?Ht', ?Hh'; simpl in *; try lia.
    + intros j x Hj. rewrite Hs', fupd_ne.
      * specialize (Hf (S j) x Hj). replace (q_tail q + 1 + Z.of_nat j) with (q_tail q + Z.of_nat (S j)) by lia. done.
      * apply lookup_lt_Some in Hj. replace (q_tail q mod 64) with ((q_tail q + 0) mod 64) by (f_equal; lia).
        replace (q_tail q + 1 + Z.of_nat j) with (q_tail q + (1 + Z.of_nat j)) by lia. apply other_slot; lia.
    + intros j Hj. rewrite Hs'. destruct (decide (j = 63)) as [->|Hne].
      * replace ((q_tail q + 1 + 63) mod 64) with (q_tail q mod 64) by dlia. rewrite fupd_eq. simpl. lia.
      * rewrite fupd_ne.
        -- replace (q_tail q + 1 + j) with (q_tail q + (1 + j)) by lia. apply He. lia.
        -- replace (q_tail q mod 64) with ((q_tail q + 0) mod 64) by (f_equal; lia).
           replace (q_tail q + 1 + j) with (q_tail q + (1 + j)) by lia. apply other_slot; lia.
Qed.

(** A channel between calls: the messages under way in the two directions. *)
Definition channel_rep (c : RawChannel) (to_server to_client : list Msg) : Prop :=
  queue_rep (client_queue c) to_server /\ queue_rep (server_queue c) to_client.

Definition channel_young (c : RawChannel) : Prop :=
  q_head (client_queue c) < LIMIT /\ q_head (server_queue c) < LIMIT.

Lemma set_client_queue_id c : set_client_queue c (client_queue c) = c.
Proof. by destruct c. Qed.
Lemma set_server_queue_id c : set_server_queue c (server_queue c) = c.
Proof. by destruct c. Qed.

(** C16: between calls the channel is two bounded first-in first-out queues of 64 messages: a connected pair
    of connections can send in either direction until 64 messages wait, receives the oldest message first,
    and a refused call changes nothing. *)
Theorem channel_refines c ls lc :
  channel_rep c ls lc -> channel_young c ->
  (forall m, if decide (length ls < 64)%nat
             then exists c', ClientConnection_send m c = (c', Ok tt) /\ channel_rep c' (ls ++ [m]) lc
             else ClientConnection_send m c = (c, Err NotReady)) /\
  (forall m, if decide (length lc < 64)%nat
             then exists c', ServerConnection_send Connected m c = (c', Ok tt) /\ channel_rep c' ls (lc ++ [m])
             else ServerConnection_send Connected m c = (c, Err NotReady)) /\
  match ls with
  | [] => ServerConnection_recv Connected c = (c, Err NotReady)
  | m :: ls' => exists c', ServerConnection_recv Connected c = (c', Ok m) /\ channel_rep c' ls' lc
  end /\
  match lc with
  | [] => ClientConnection_recv c = (c, Err NotReady)
  | m :: lc' => exists c', ClientConnection_recv c = (c', Ok m) /\ channel_rep c' ls lc'
  end.
Proof.
  intros [H1 H2] [L1 L2]. pose proof (qr_head _ _ H1). pose proof (qr_head _ _ H2).
  unfold ClientConnection_send, ServerConnection_send, ServerConnection_recv, ClientConnection_recv.
  rewrite bool_decide_eq_true_2 by done. simpl negb. cbv iota. split_and!.
  - intros m. pose proof (enqueue_rep _ _ m H1 L1) as He. case_decide.
    + destruct He as (q' & -> & Hr). eexists. by split; [done|split].
    + rewrite He. by rewrite set_client_queue_id.
  - intros m. pose proof (enqueue_rep _ _ m H2 L2) as He. case_decide.
    + destruct He as (q' & -> & Hr). eexists. by split; [done|split].
    + rewrite He. by rewrite set_server_queue_id.
  - pose proof (dequeue_rep _ _ H1) as He. destruct ls as [|m ls].
    + rewrite He by lia. by rewrite set_client_queue_id.
    + destruct He as (q' & -> & Hr); [lia|]. eexists. by split; [done|split].
  - pose proof (dequeue_rep _ _ H2) as He. destruct lc as [|m lc].
    + rewrite He by lia. by rewrite set_server_queue_id.
    + destruct He as (q' & -> & Hr); [lia|]. eexists. by split; [done|split].
Qed.

(** ** Pages under interleaving *)

Record page_sys : Type := mkPages {
  ps_chan : RawChannel;
  ps_loads : gmap nat (SubChannel * Z);
  ps_held : list RawIoPage
}.

#[export] Instance SubChannelType_eq_dec : EqDecision SubChannelType.
Proof. solve_decision. Defined.
#[export] Instance RawIoPage_eq_dec : EqDecision RawIoPage.
Proof. solve_decision. Defined.

(** Thread [k] loads a bitmap, tries the exchange with what it loaded, or a page that is held is freed. *)
Inductive page_step : page_sys -> page_sys -> Prop :=
| page_load s k sub :
    ps_loads s !! k = None ->
    page_step s (mkPages (ps_chan s) (<[k := (sub, pages_of (SubChannel_into sub) (ps_chan s))]> (ps_loads s)) (ps_held s))
| page_round s k sub b spurious c' r :
    ps_loads s !! k = Some (sub, b) -> alloc_page_round spurious sub b (ps_chan s) = (c', r) ->
    page_step s (mkPages c' (delete k (ps_loads s))
                   (match r with Ok (Some p) => p :: ps_held s | _ => ps_held s end))
| page_free s p c' r :
    p ∈ ps_held s -> free_page p (ps_chan s) = (c', r) ->
    page_step s (mkPages c' (ps_loads s) (filter (fun x => x <> p) (ps_held s))).

Inductive page_reachable : page_sys -> Prop :=
| page_init c : client_pages_in_use c = 0 -> server_pages_in_use c = 0 -> page_reachable (mkPages c ∅ [])
| page_next s s' : page_reachable s -> page_step s s' -> page_reachable s'.

(** The bitmaps say exactly which pages are held. *)
Record pages_inv (s : page_sys) : Prop := {
  pi_nodup : NoDup (ps_held s);
  pi_range : Forall (fun p => 0 <= page_idx p < 64) (ps_held s);
  pi_bits : forall t i, 0 <= i < 64 -> Z.testbit (pages_of t (ps_chan s)) i = bool_decide (mkPage i t ∈ ps_held s)
}.

Lemma pages_of_set t t' c b : pages_of t (set_pages t' c b) = if decide (t = t') then b else pages_of t c.
Proof. by destruct t, t', c. Qed.

Lemma pages_inv_alloc s k sub b spurious c' p :
  pages_inv s -> alloc_page_round spurious sub b (ps_chan s) = (c', Ok (Some p)) ->
  (p ∉ ps_held s) /\ s_type p = SubChannel_into sub /\ Z.testbit (sub_mask sub) (page_idx p) = true /\
  pages_inv (mkPages c' (delete k (ps_loads s)) (p :: ps_held s)).
Proof.
  intros [Hn Hr Hb]. unfold alloc_page_round. set (t := SubChannel_into sub).
  set (w := Z.lor b (u64_not (sub_mask sub))). pose proof (trailing_ones_le 64 w) as Hle.
  destruct (Z.eqb_spec (Z.of_nat (trailing_ones 64 w)) 64) as [|Hne]; [done|].
  destruct (Z.eqb_spec (pages_of t (ps_chan s)) b) as [E|]; [|done]. destruct spurious; [done|]. simpl.
  set (n := trailing_ones 64 w) in *. intros [= <- <-]. simpl.
  pose proof (trailing_ones_at 64 w) as Hat. fold n in Hat. specialize (Hat ltac:(lia)).
  unfold w in Hat. rewrite Z.lor_spec in Hat. apply orb_false_iff in Hat as [Hf Hm].
  assert (Hfree : mkPage (Z.of_nat n) t ∉ ps_held s).
  { rewrite <- E, Hb in Hf by lia. by apply bool_decide_eq_false in Hf. }
  split_and!; [done|done| |].
  { unfold u64_not in Hm. rewrite Z.lxor_spec in Hm. unfold U64_MAX in Hm.
    change (2 ^ 64 - 1) with (Z.ones 64) in Hm. rewrite Z.testbit_ones_nonneg in Hm by lia.
    rewrite (proj2 (Z.ltb_lt _ _)) in Hm by lia. by destruct (Z.testbit (sub_mask sub) (Z.of_nat n)). }
  split; simpl.
  - by constructor.
  - constructor; [simpl; lia|done].
  - intros t' i Hi. rewrite pages_of_set. destruct (decide (t' = t)) as [->|Ht].
    + rewrite testbit_set by lia. rewrite <- E, Hb by lia.
      apply Bool.eq_true_iff_eq. rewrite orb_true_iff, !bool_decide_eq_true, elem_of_cons.
      split; [intros [?| <-]; auto|]. intros [[= ->]|?]; auto.
    + rewrite Hb by lia. apply bool_decide_ext. rewrite elem_of_cons. split; [auto|].
      intros [[= ? ?]|?]; [done|done].
Qed.

Lemma pages_inv_free s p c' r :
  pages_inv s -> p ∈ ps_held s -> free_page p (ps_chan s) = (c', r) ->
  r = Ok tt /\ pages_inv (mkPages c' (ps_loads s) (filter (fun x => x <> p) (ps_held s))).
Proof.
  intros [Hn Hr Hb] Hp. pose proof Hr as Hrange. rewrite Forall_forall in Hrange. specialize (Hrange p Hp).
  unfold free_page. change CHANNEL_PAGE_COUNT with 64. rewrite (proj2 (Z.leb_gt _ _)) by lia.
  rewrite land_bit_test by lia. rewrite Hb by lia.
  assert (E : mkPage (page_idx p) (s_type p) = p) by (by destruct p). rewrite E, bool_decide_eq_true_2 by done.
  simpl. intros [= <- <-]. split; [done|]. split; simpl.
  - by apply NoDup_filter.
  - apply Forall_forall. intros x [_ Hx]%list_elem_of_filter. rewrite Forall_forall in Hr. auto.
  - intros t i Hi. rewrite pages_of_set. destruct (decide (t = s_type p)) as [->|Ht].
    + rewrite testbit_flip by lia. rewrite Hb by lia.
      destruct (decide (page_idx p = i)) as [<-|Hne].
      * rewrite E, !bool_decide_eq_true_2 by done. simpl. symmetry. apply bool_decide_eq_false_2.
        rewrite list_elem_of_filter. by intros [? _].
      * rewrite (bool_decide_eq_false_2 (page_idx p = i)) by done. rewrite xorb_false_r.
        apply bool_decide_ext. rewrite list_elem_of_filter. split; [|by intros [_ ?]]. intros ?. split; [|done].
        intros Ep. apply Hne. by rewrite <- Ep.
    + rewrite Hb by lia. apply bool_decide_ext. rewrite list_elem_of_filter. split; [|by intros [_ ?]]. intros ?.
      split; [|done]. intros Ep. apply Ht. by rewrite <- Ep.
Qed.

Lemma alloc_page_round_same spurious sub b c c' r :
  alloc_page_round spurious sub b c = (c', r) -> (forall p, r <> Ok (Some p)) -> c' = c.
Proof.
  unfold alloc_page_round. repeat case_match; intros [= <- <-] Hr; try done. by destruct (Hr _ eq_refl).
Qed.

Lemma pages_reachable s : page_reachable s -> pages_inv s.
Proof.
  induction 1 as [c H1 H2|s s' Hr IH Hstep].
  - split; cbn [ps_held ps_chan]; [constructor|constructor|]. intros t i Hi. rewrite bool_decide_eq_false_2 by apply not_elem_of_nil.
    destruct t; unfold pages_of; rewrite ?H1, ?H2; apply Z.bits_0.
  - destruct Hstep as [s k sub Hk|s k sub b sp c' r Hk Hround|s p c' r Hp Hf].
    + destruct IH. by split.
    + destruct r as [[p|]|e|].
      * by eapply pages_inv_alloc.
      * apply alloc_page_round_same in Hround as ->; [|done]. destruct IH. by split.
      * apply alloc_page_round_same in Hround as ->; [|done]. destruct IH. by split.
      * apply alloc_page_round_same in Hround as ->; [|done]. destruct IH. by split.
    + by eapply pages_inv_free.
Qed.

(** Whatever the interleaving of the loads, exchanges and releases of any number of threads, no page is
    handed out twice: a page that an exchange returns belongs to the requested subchannel and was not held,
    and freeing a page that is held succeeds. *)
Theorem pages_exclusive s k sub b spurious c' p :
  page_reachable s -> ps_loads s !! k = Some (sub, b) ->
  alloc_page_round spurious sub b (ps_chan s) = (c', Ok (Some p)) ->
  (p ∉ ps_held s) /\ s_type p = SubChannel_into sub /\ Z.testbit (sub_mask sub) (page_idx p) = true /\
  (forall p', p' ∈ ps_held s -> exists c2, free_page p' (ps_chan s) = (c2, Ok tt)).
Proof.
  intros Hr Hk Hround. pose proof (pages_reachable s Hr) as HI.
  destruct (pages_inv_alloc s k sub b spurious c' p HI Hround) as (H1 & H2 & H3 & _). split_and!; try done.
  intros p' Hp'. destruct (free_page p' (ps_chan s)) as [c2 r] eqn:Hf. exists c2. f_equal.
  by apply (pages_inv_free s p' c2 r HI Hp' Hf).
Qed.

(** ** Page numbers in messages *)

(** A page travels in a message as a 16-bit number: reading the number back gives the same page, client
    or server, and [get_page] accepts it. *)
Theorem page_number_roundtrip p :
  0 <= page_idx p < CHANNEL_PAGE_COUNT ->
  is_u16 (into_u16 p) /\ from_u16 (into_u16 p) = p /\ get_page (into_u16 p) = Ok p.
Proof.
  intros Hp. unfold CHANNEL_PAGE_COUNT in Hp.
  assert (H : forallb (fun n => let i := Z.of_nat n in
     (0 <=? into_u16 (mkPage i Client)) && (into_u16 (mkPage i Client) <? 2 ^ 16) &&
     (0 <=? into_u16 (mkPage i Server)) && (into_u16 (mkPage i Server) <? 2 ^ 16) &&
     bool_decide (from_u16 (into_u16 (mkPage i Client)) = mkPage i Client) &&
     bool_decide (from_u16 (into_u16 (mkPage i Server)) = mkPage i Server) &&
     (Z.land (into_u16 (mkPage i Client)) (u16_not SERVER_FLAG) <=? 64) &&
     (Z.land (into_u16 (mkPage i Server)) (u16_not SERVER_FLAG) <=? 64)) (seq 0 64) = true) by (vm_compute; reflexivity).
  rewrite forallb_forall in H. specialize (H (Z.to_nat (page_idx p)) ltac:(apply in_seq; lia)). cbv zeta in H.
  rewrite Z2Nat.id in H by lia. rewrite !andb_true_iff, !bool_decide_eq_true in H.
  destruct H as [[[[[[[H1 H2] H3] H4] H5] H6] H7] H8]. destruct p as [i [|]]; cbn [page_idx] in *; unfold is_u16, get_page.
  - rewrite H5. unfold CHANNEL_PAGE_COUNT. rewrite (proj2 (Z.ltb_ge _ _)) by lia. split_and!; done || lia.
  - rewrite H6. unfold CHANNEL_PAGE_COUNT. rewrite (proj2 (Z.ltb_ge _ _)) by lia. split_and!; done || lia.
Qed.

(** ** Limits *)

(** [get_page] compares with [>] instead of [>=]: a peer that sends the number 64, one past the last
    page, gets a page object whose use and whose release both panic. *)
Theorem get_page_past_end c :
  get_page CHANNEL_PAGE_COUNT = Ok (mkPage CHANNEL_PAGE_COUNT Client) /\
  IoPage_bytes (mkPage CHANNEL_PAGE_COUNT Client) = Panic /\
  (IoPage_drop (mkPage CHANNEL_PAGE_COUNT Client) c).2 = Panic.
Proof. split_and!; reflexivity. Qed.

(** [is_empty] compares the head of one queue with the tail of the other: on a new channel, after one
    message from the server has been received and one from the client has been sent, it reports an empty
    channel although the client's message is waiting. *)
Theorem is_empty_misses_message c0 m1 m2 :
  let c := ClientConnection_connect c0 in
  exists c1 c2 c3, ServerConnection_send Connected m1 c = (c1, Ok tt) /\ ClientConnection_recv c1 = (c2, Ok m1) /\
    ClientConnection_send m2 c2 = (c3, Ok tt) /\
    RawChannel_is_empty c3 = true /\ exists c4, ServerConnection_recv Connected c3 = (c4, Ok m2).
Proof.
  intros c. do 3 eexists. split_and!; [reflexivity|reflexivity|reflexivity|reflexivity|].
  eexists. reflexivity.
Qed.

(** ** Runs of interleaved calls *)

Inductive act : Type := Call (p : pc) | Run (spurious : bool) | Return.

(** What thread [k] does next; an action that is not possible does nothing. *)
Definition sched (s : system) (ka : nat * act) : system :=
  let '(k, a) := ka in
  match a, threads s !! k with
  | Call (SendLoad m), None => mkSys (sq s) (<[k := SendLoad m]> (threads s)) (sent s) (got s)
  | Call RecvLoad, None => mkSys (sq s) (<[k := RecvLoad]> (threads s)) (sent s) (got s)
  | Run spurious, Some p =>
    if finished p then s
    else let '(q', p') := thread_step spurious (sq s) p in
         mkSys q' (<[k := p']> (threads s)) (sent s ++ log_sent p p') (got s ++ log_got p p')
  | Return, Some p => if finished p then mkSys (sq s) (delete k (threads s)) (sent s) (got s) else s
  | _, _ => s
  end.

Lemma sched_reachable s ka : reachable s -> reachable (sched s ka).
Proof.
  intros Hr. destruct ka as [k a]. unfold sched. destruct (threads s !! k) as [p|] eqn:Hk.
  - destruct a as [p1|spurious|]; [by destruct p1| |].
    + destruct (finished p) eqn:Hf; [done|]. destruct (thread_step spurious (sq s) p) as [q' p'] eqn:Hs.
      eapply reach_step; [done|]. by eapply sys_run.
    + destruct (finished p) eqn:Hf; [|done]. eapply reach_step; [done|]. by eapply sys_return.
  - destruct a as [p1|spurious|]; try done. destruct p1; try done; (eapply reach_step; [done|]).
    + apply sys_call; [done|]. right. by eexists.
    + apply sys_call; [done|]. by left.
Qed.

Definition run_sched (l : list (nat * act)) (s : system) : system := fold_left sched l s.

Lemma run_reachable l s : reachable s -> reachable (run_sched l s).
Proof. revert s. induction l as [|ka l IH]; intros s Hr; [done|]. simpl. apply IH. by apply sched_reachable. Qed.

(** ** Instances *)
Module IoSample.

Definition blank : queue := mkQueue 0 0 (fun _ => mkSlot 0 Msg_new).
Definition number (n : Z) : Msg := mkMsg n 0 1 NOT_READY 0 0 [0; 0; 0].

(** Thread 0 sends; threads 1 and 2 start to receive and claim, thread 3 sends and has not published yet. *)
Definition busy : list (nat * act) :=
  [(0, Call (SendLoad (number 7))); (0, Run false); (0, Run false); (1, Call RecvLoad); (0, Run true);
   (0, Run false); (0, Run false); (0, Run false); (0, Run false); (0, Return);
   (1, Run false); (2, Call RecvLoad); (2, Run false); (1, Run false); (1, Run false);
   (3, Call (SendLoad (number 8))); (3, Run false); (3, Run false); (3, Run false); (2, Run false); (2, Run false)]%nat.
Definition busy_sys : system := run_sched busy (sys_init blank).

Lemma busy_reachable : reachable busy_sys.
Proof. apply run_reachable. constructor. Qed.

Lemma busy_few : few_sent busy_sys.
Proof. vm_compute. reflexivity. Qed.

Lemma queue_fifo_witness :
  q_tail (sq busy_sys) = 1 /\ q_head (sq busy_sys) - q_tail (sq busy_sys) <= 64 /\ NoDup (got busy_sys).*1.
Proof.
  destruct (queue_fifo busy_sys busy_reachable busy_few) as (_ & _ & H1 & _ & H2 & _).
  split_and!; [vm_compute; reflexivity|exact H1|exact H2].
Defined.

Lemma queue_exclusive_witness :
  threads busy_sys !! 1%nat = Some (RecvRead 0) /\ threads busy_sys !! 3%nat = Some (SendWrite (number 8) 1) /\
  (slot_idx 0 = slot_idx 0 -> 1%nat = 1%nat).
Proof.
  split_and!; [vm_compute; reflexivity|vm_compute; reflexivity|].
  apply (queue_exclusive busy_sys 1%nat 1%nat (RecvRead 0) (RecvRead 0) busy_reachable busy_few); vm_compute; reflexivity.
Defined.

Lemma solo_terminates_witness : finished (solo 8 (sq busy_sys) (SendWrite (number 8) 1)).2 = true.
Proof. apply (solo_terminates busy_sys 3%nat _ busy_reachable busy_few). vm_compute. reflexivity. Defined.

(** A reader that finds a position claimed but not published. *)
Definition waiting : system := run_sched [(1, Run false); (1, Run false); (1, Return); (1, Call RecvLoad); (1, Run false)]%nat busy_sys.

Lemma recv_not_ready_only_if_empty_witness :
  q_head (sq waiting) = q_tail (sq waiting) \/ exists k', at_position waiting k' (q_tail (sq waiting)).
Proof.
  apply (recv_not_ready_only_if_empty waiting 1%nat 1 false (sq waiting)).
  - apply run_reachable, busy_reachable.
  - vm_compute. reflexivity.
  - vm_compute. reflexivity.
  - vm_compute. reflexivity.
Defined.

(** 64 messages and a sender that looks for room. *)
Definition fill : list (nat * act) :=
  List.concat (map (fun n => [(n, Call (SendLoad (number (Z.of_nat n)))); (n, Run false); (n, Run false); (n, Run false);
                         (n, Run false); (n, Run false); (n, Return)]) (seq 0 64)).
Definition full_sys : system := run_sched (fill ++ [(70, Call (SendLoad (number 70))); (70, Run false)]%nat) (sys_init blank).

Lemma send_not_ready_only_if_full_witness :
  q_head (sq full_sys) - q_tail (sq full_sys) = 64 \/ exists k', at_position full_sys k' (q_head (sq full_sys) - 64).
Proof.
  apply (send_not_ready_only_if_full full_sys 70%nat (number 70) 64 false (sq full_sys)).
  - apply run_reachable. constructor.
  - vm_compute. reflexivity.
  - vm_compute. reflexivity.
  - vm_compute. reflexivity.
Defined.

Definition fresh : RawChannel := ClientConnection_connect (mkChannel blank blank 0 0).

Lemma channel_refines_witness :
  exists c', ClientConnection_send (number 1) fresh = (c', Ok tt) /\ channel_rep c' [number 1] [].
Proof.
  pose proof (channel_refines fresh [] []) as H.
  apply H; [split; apply queue_rep_init|split; vm_compute; reflexivity].
Defined.

(** Thread 2 has loaded the bitmap before thread 1 took page 0. *)
Definition pages0 : page_sys := mkPages fresh ∅ [].
Definition pages1 : page_sys :=
  mkPages fresh (<[2%nat := (SubClient 6, 0)]> ∅) [].

Lemma pages_exclusive_witness :
  (mkPage 1 Client ∉ ps_held pages1) /\ Z.testbit 6 1 = true.
Proof.
  destruct (pages_exclusive pages1 2%nat (SubClient 6) 0 false
              (set_pages Client fresh 2) (mkPage 1 Client)) as (H1 & _ & H3 & _).
  - apply (page_next pages0); [by constructor|].
    apply (page_load pages0 2%nat (SubClient 6)). reflexivity.
  - reflexivity.
  - reflexivity.
  - split; [exact H1|exact H3].
Defined.

Lemma page_number_roundtrip_witness : from_u16 (into_u16 (mkPage 63 Server)) = mkPage 63 Server.
Proof. apply (page_number_roundtrip (mkPage 63 Server)). split; [discriminate|reflexivity]. Defined.
End IoSample.
