(* ===== verification/Timers.v ===== *)
(** * Kernel timers

    src/src/bin/kernel/src/sched/timers.rs and the loop of the scheduler that runs expired
    timers (scheduler.rs).  A [BTreeMap] with integer keys and a [BTreeSet] of integers are
    lists in increasing order; the lock around the structure makes each method one step. *)

From stdpp Require Import base numbers list gmap sorting.
From S2P Require Import RustPrelude.

Open Scope Z_scope.

(** ** Ordered maps and sets of integers *)

Fixpoint zs_insert (x : Z) (l : list Z) : list Z :=
  match l with
  | [] => [x]
  | y :: l' => if x <? y then x :: l else if x =? y then l else y :: zs_insert x l'
  end.

(** [set.remove(&x)]: whether it was there, and the rest. *)
Fixpoint zs_remove (x : Z) (l : list Z) : bool * list Z :=
  match l with
  | [] => (false, [])
  | y :: l' => if x =? y then (true, l') else let '(b, r) := zs_remove x l' in (b, y :: r)
  end.

Section Zmap.
Context {V : Type}.

Fixpoint zm_get (k : Z) (m : list (Z * V)) : option V :=
  match m with
  | [] => None
  | (k', v) :: m' => if k =? k' then Some v else zm_get k m'
  end.

Fixpoint zm_insert (k : Z) (v : V) (m : list (Z * V)) : list (Z * V) :=
  match m with
  | [] => [(k, v)]
  | (k', v') :: m' =>
    if k <? k' then (k, v) :: m else if k =? k' then (k, v) :: m' else (k', v') :: zm_insert k v m'
  end.

Fixpoint zm_remove (k : Z) (m : list (Z * V)) : list (Z * V) :=
  match m with
  | [] => []
  | (k', v) :: m' => if k =? k' then m' else (k', v) :: zm_remove k m'
  end.

Definition zm_ok (m : list (Z * V)) : Prop := StronglySorted Z.lt m.*1.

Lemma zm_get_above k m : Forall (Z.lt k) m.*1 -> zm_get k m = None.
Proof.
  induction m as [|[k' v] m IH]; [done|]. simpl. intros [H1 H2]%Forall_cons.
  rewrite (proj2 (Z.eqb_neq _ _)) by lia. auto.
Qed.

Lemma zm_get_insert k k' v m : zm_get k' (zm_insert k v m) = if decide (k' = k) then Some v else zm_get k' m.
Proof.
  induction m as [|[k1 v1] m IH]; simpl.
  { destruct (decide (k' = k)), (Z.eqb_spec k' k); done || lia. }
  destruct (Z.ltb_spec k k1); simpl; [destruct (decide (k' = k)), (Z.eqb_spec k' k); done || lia|].
  destruct (Z.eqb_spec k k1) as [->|Hne]; simpl.
  { destruct (decide (k' = k1)), (Z.eqb_spec k' k1); done || lia. }
  rewrite IH. destruct (Z.eqb_spec k' k1); [|done]. rewrite decide_False by lia. done.
Qed.

Lemma zm_insert_keys (P : Z -> Prop) k v m : P k -> Forall P m.*1 -> Forall P (zm_insert k v m).*1.
Proof.
  intros Hk. induction m as [|[k1 v1] m IH]; simpl; [by repeat constructor|]. intros [H1 H2]%Forall_cons.
  destruct (k <? k1); simpl; [by repeat constructor|]. destruct (Z.eqb_spec k k1); simpl; constructor; auto.
Qed.

Lemma zm_insert_ok k v m : zm_ok m -> zm_ok (zm_insert k v m).
Proof.
  unfold zm_ok. induction m as [|[k1 v1] m IH]; simpl; intros H; [by repeat constructor|].
  apply StronglySorted_inv in H as [H1 H2]. destruct (Z.ltb_spec k k1); simpl.
  { constructor; [by constructor|]. constructor; [done|]. eapply Forall_impl; [done|]. simpl. lia. }
  destruct (Z.eqb_spec k k1) as [->|]; simpl; constructor; auto. apply zm_insert_keys; [lia|done].
Qed.

Lemma zm_remove_keys (P : Z -> Prop) k m : Forall P m.*1 -> Forall P (zm_remove k m).*1.
Proof.
  induction m as [|[k1 v1] m IH]; simpl; [done|]. intros [H1 H2]%Forall_cons.
  destruct (k =? k1); simpl; [done|]. constructor; auto.
Qed.

Lemma zm_remove_ok k m : zm_ok m -> zm_ok (zm_remove k m).
Proof.
  unfold zm_ok. induction m as [|[k1 v1] m IH]; simpl; intros H; [done|].
  apply StronglySorted_inv in H as [H1 H2]. destruct (k =? k1); simpl; [done|]. constructor; auto.
  by apply zm_remove_keys.
Qed.

Lemma zm_get_remove k k' m : zm_ok m -> zm_get k' (zm_remove k m) = if decide (k' = k) then None else zm_get k' m.
Proof.
  unfold zm_ok. induction m as [|[k1 v1] m IH]; simpl; intros H; [by destruct (decide (k' = k))|].
  apply StronglySorted_inv in H as [H1 H2]. destruct (Z.eqb_spec k k1) as [->|Hne]; simpl.
  - destruct (decide (k' = k1)) as [->|]; [by apply zm_get_above|]. by rewrite (proj2 (Z.eqb_neq _ _)).
  - rewrite IH by done. destruct (Z.eqb_spec k' k1); [|done]. rewrite decide_False by lia. done.
Qed.

Lemma zm_get_In k v m : zm_ok m -> (k, v) ∈ m -> zm_get k m = Some v.
Proof.
  unfold zm_ok. induction m as [|[k1 v1] m IH]; simpl; intros H; [by intros ?%not_elem_of_nil|].
  apply StronglySorted_inv in H as [H1 H2]. intros [[= -> ->]|Hin]%elem_of_cons; [by rewrite Z.eqb_refl|].
  rewrite (proj2 (Z.eqb_neq _ _)); [auto|]. intros ->. rewrite Forall_forall in H2.
  specialize (H2 k1). assert (k1 < k1); [|lia]. apply H2. by apply (list_elem_of_fmap_2 fst _ (k1, v)).
Qed.

Lemma zm_get_elem k v m : zm_get k m = Some v -> (k, v) ∈ m.
Proof.
  induction m as [|[k1 v1] m IH]; simpl; [done|]. destruct (Z.eqb_spec k k1) as [->|].
  - intros [= ->]. apply list_elem_of_here.
  - intros H. apply list_elem_of_further. auto.
Qed.
End Zmap.

Definition zs_ok (l : list Z) : Prop := StronglySorted Z.lt l.

Lemma zs_insert_elem x y l : (y ∈ zs_insert x l) <-> y = x \/ y ∈ l.
Proof.
  induction l as [|z l IH]; simpl; [rewrite elem_of_cons; tauto|].
  destruct (Z.ltb_spec x z); [by rewrite elem_of_cons|].
  destruct (Z.eqb_spec x z) as [->|]; rewrite !elem_of_cons; [tauto|]. rewrite IH. tauto.
Qed.

Lemma zs_insert_ok x l : zs_ok l -> zs_ok (zs_insert x l).
Proof.
  unfold zs_ok. induction l as [|z l IH]; simpl; intros H; [by repeat constructor|].
  pose proof H as [H1 H2]%StronglySorted_inv. destruct (Z.ltb_spec x z).
  { constructor; [done|]. constructor; [done|]. eapply Forall_impl; [done|]. simpl. lia. }
  destruct (Z.eqb_spec x z) as [->|]; [done|]. constructor; [auto|]. apply Forall_forall. intros y.
  rewrite zs_insert_elem. intros [->|Hy]; [lia|]. rewrite Forall_forall in H2. auto.
Qed.

Lemma zs_remove_spec x l : zs_ok l ->
  (zs_remove x l).1 = bool_decide (x ∈ l) /\ zs_ok (zs_remove x l).2 /\
  forall y, (y ∈ (zs_remove x l).2) <-> y <> x /\ y ∈ l.
Proof.
  unfold zs_ok. induction l as [|z l IH]; cbn [zs_remove]; intros H.
  - split_and!; [symmetry; apply bool_decide_eq_false_2, not_elem_of_nil|done|]. intros y. split; [|by intros [_ ?]].
    by intros ?%not_elem_of_nil.
  - apply StronglySorted_inv in H as [H1 H2]. rewrite Forall_forall in H2. destruct (Z.eqb_spec x z) as [->|Hne]; cbn [fst snd].
    + split_and!; [symmetry; apply bool_decide_eq_true_2, list_elem_of_here|done|]. intros y. rewrite elem_of_cons.
      split; [|by intros [? [?|?]]]. intros Hy. split; [|by right]. intros ->. specialize (H2 z Hy). lia.
    + destruct (IH H1) as (E1 & E2 & E3). destruct (zs_remove x l) as [b r]. cbn [fst snd] in *. split_and!.
      * rewrite E1. apply bool_decide_ext. rewrite elem_of_cons. split; [by right|by intros [?|?]].
      * constructor; [done|]. apply Forall_forall. intros y Hy. apply H2. by apply E3.
      * intros y. rewrite !elem_of_cons, E3. split; [|by intros [? [?|?]]; auto].
        intros [->|[? ?]]; [|by auto]. split; [congruence|by left].
Qed.

(** ** Timers *)

Abbreviation Instant := Z.
Definition nan : Instant := 0.

Record Timer : Type := mkTimer { t_when : Instant; t_id : Z; t_job : Z; t_cpu : Z }.

(** [Timer::new]: the identifiers are taken from a counter; [job] names the function and the thread, and the
    identifier is the job's argument. *)
Definition Timer_new (next_id : Z) (job : Z) (when : Instant) (cpu : Z) : Z * Timer :=
  (u64 (next_id + 1), mkTimer when next_id job cpu).

(** [Ord for Timer]. *)
Definition Timer_cmp (a b : Timer) : comparison :=
  match t_when a ?= t_when b with
  | Eq => CompOpp (t_id a ?= t_id b)
  | c => CompOpp c
  end.

Record TimersInner : Type := mkTimers {
  time_queue : list (Instant * list Z);
  timers : gmap Z Timer
}.

Definition TimersInner_new : TimersInner := mkTimers [] ∅.

Definition add_timer (st : TimersInner) (t : Timer) : TimersInner :=
  let q := match zm_get (t_when t) (time_queue st) with
           | Some set => zm_insert (t_when t) (zs_insert (t_id t) set) (time_queue st)
           | None => zm_insert (t_when t) (zs_insert (t_id t) []) (time_queue st)
           end in
  mkTimers q (<[t_id t := t]> (timers st)).

Definition remove_timer (timer_id : Z) : eff TimersInner unit unit :=
  let* st := get_state in
  match timers st !! timer_id with
  | Some t =>
    modify (fun st => mkTimers (time_queue st) (delete timer_id (timers st)));;;
    match zm_get (t_when t) (time_queue st) with
    | None => panic
    | Some set =>
      let '(found, set') := zs_remove (t_id t) set in
      modify (fun st => mkTimers (zm_insert (t_when t) set' (time_queue st)) (timers st));;;
      assert found;;;
      if bool_decide (set' = [])
      then modify (fun st => mkTimers (zm_remove (t_when t) (time_queue st)) (timers st))
      else ret tt
    end
  | None => ret tt
  end.

Definition pop (cutoff : Instant) : eff TimersInner Instant Timer :=
  let* st := get_state in
  match time_queue st with
  | [] => throw nan
  | (key, set) :: rest =>
    if cutoff <? key then throw key
    else
      match set with
      | [] => panic
      | id :: set' =>
        modify (fun st => mkTimers (if bool_decide (set' = []) then rest else (key, set') :: rest) (timers st));;;
        match timers st !! id with
        | None => panic
        | Some t => modify (fun st => mkTimers (time_queue st) (delete id (timers st)));;; ret t
        end
      end
  end.

(** The loop of the scheduler over expired timers: the timers whose job it runs, and the
    instant it programs next; it panics after a million rounds. *)
Fixpoint run_expired (rounds : nat) (now : Instant) (st : TimersInner) : TimersInner * result unit (list Timer * Instant) :=
  match rounds with
  | O => (st, Panic)
  | S rounds' =>
    match pop now st with
    | (st', Ok t) =>
      match run_expired rounds' now st' with
      | (st2, Ok (l, next)) => (st2, Ok (t :: l, next))
      | r => r
      end
    | (st', Err next) => (st', Ok ([], next))
    | (st', Panic) => (st', Panic)
    end
  end.
