(* ===== verification/TimersProps.v ===== *)
(** * Kernel timers: properties

    The two structures of [TimersInner] describe the same set of timers ([timers_ok]); [pop]
    takes the earliest one, in the order of [Ord for Timer], and the scheduler's loop runs
    exactly the expired timers, in that order. *)

From stdpp Require Import base numbers list gmap sorting.
From S2P Require Import RustPrelude Timers.

Open Scope Z_scope.

Record timers_ok (st : TimersInner) : Prop := {
  to_keys : zm_ok (time_queue st);
  to_sets : forall w s, zm_get w (time_queue st) = Some s -> s <> [] /\ zs_ok s;
  to_mem : forall w s i, zm_get w (time_queue st) = Some s -> i ∈ s ->
    exists t, timers st !! i = Some t /\ t_when t = w;
  to_all : forall i t, timers st !! i = Some t ->
    t_id t = i /\ exists s, zm_get (t_when t) (time_queue st) = Some s /\ i ∈ s
}.

Lemma timers_ok_new : timers_ok TimersInner_new.
Proof. split; try done. constructor. Qed.

Lemma set_at st w (s := default [] (zm_get w (time_queue st))) :
  timers_ok st -> zs_ok s /\ forall i, i ∈ s -> exists t, timers st !! i = Some t /\ t_when t = w.
Proof.
  intros HI. subst s. destruct (zm_get w (time_queue st)) as [s|] eqn:E; simpl.
  - split; [by eapply to_sets|]. intros i. by eapply to_mem.
  - split; [constructor|]. by intros i ?%not_elem_of_nil.
Qed.

Lemma add_timer_queue st t :
  time_queue (add_timer st t) =
    zm_insert (t_when t) (zs_insert (t_id t) (default [] (zm_get (t_when t) (time_queue st)))) (time_queue st).
Proof. unfold add_timer. by destruct (zm_get (t_when t) (time_queue st)). Qed.

Lemma add_timer_ok st t : timers_ok st -> timers st !! t_id t = None -> timers_ok (add_timer st t).
Proof.
  intros HI Hnew. destruct (set_at st (t_when t) HI) as [Hs Hm].
  set (s := default [] (zm_get (t_when t) (time_queue st))) in *.
  assert (Hq : forall w, zm_get w (time_queue (add_timer st t)) =
    if decide (w = t_when t) then Some (zs_insert (t_id t) s) else zm_get w (time_queue st)).
  { intros w. rewrite add_timer_queue. apply zm_get_insert. }
  assert (Ht : timers (add_timer st t) = <[t_id t := t]> (timers st)) by done.
  split.
  - rewrite add_timer_queue. apply zm_insert_ok, (to_keys _ HI).
  - intros w s1. rewrite Hq. destruct (decide (w = t_when t)) as [->|]; [|by apply (to_sets _ HI)].
    intros [= <-]. split; [|by apply zs_insert_ok]. intros E.
    assert (Hc : t_id t ∈ zs_insert (t_id t) s) by (apply zs_insert_elem; auto). rewrite E in Hc. by apply not_elem_of_nil in Hc.
  - intros w s1 i. rewrite Hq, Ht. destruct (decide (w = t_when t)) as [->|].
    + intros [= <-] [->|Hi]%zs_insert_elem; [exists t; by rewrite lookup_insert_eq|].
      destruct (Hm i Hi) as (t' & Ht' & Hw). exists t'. rewrite lookup_insert_ne by congruence. done.
    + intros E Hi. destruct (to_mem _ HI _ _ _ E Hi) as (t' & Ht' & Hw). exists t'.
      rewrite lookup_insert_ne by congruence. done.
  - intros i t'. rewrite Ht. destruct (decide (i = t_id t)) as [->|Hne].
    + rewrite lookup_insert_eq. intros [= <-]. split; [done|]. exists (zs_insert (t_id t) s).
      rewrite Hq, decide_True by done. split; [done|]. apply zs_insert_elem. by left.
    + rewrite lookup_insert_ne by done. intros Hi. destruct (to_all _ HI i t' Hi) as (Hid & s1 & Hs1 & Hi1). split; [done|].
      rewrite Hq. destruct (decide (t_when t' = t_when t)) as [E|]; [|by exists s1]. eexists. split; [done|].
      apply zs_insert_elem. right. unfold s. rewrite <- E, Hs1. done.
Qed.

(** Taking one identifier out of both structures. *)
Definition taken (st st' : TimersInner) (t : Timer) : Prop :=
  timers st' = delete (t_id t) (timers st) /\ zm_ok (time_queue st') /\
  exists s s', zm_get (t_when t) (time_queue st) = Some s /\ zs_ok s' /\
    (forall i, (i ∈ s') <-> i <> t_id t /\ i ∈ s) /\
    forall w, zm_get w (time_queue st') =
      if decide (w = t_when t) then (if decide (s' = []) then None else Some s') else zm_get w (time_queue st).

Lemma taken_ok st st' t : timers_ok st -> timers st !! t_id t = Some t -> taken st st' t -> timers_ok st'.
Proof.
  intros HI Ht (Hd & Hk & s & s' & Hs & Hs' & Hmem & Hq). split; [done| | |].
  - intros w s1. rewrite Hq. destruct (decide (w = t_when t)); [|by apply (to_sets _ HI)].
    destruct (decide (s' = [])); [done|]. intros [= <-]. done.
  - intros w s1 i. rewrite Hq, Hd. destruct (decide (w = t_when t)) as [->|Hne].
    + destruct (decide (s' = [])); [done|]. intros [= <-] [Hi1 Hi2]%Hmem. rewrite lookup_delete_ne by done.
      by apply (to_mem _ HI _ s).
    + intros E Hi. destruct (to_mem _ HI _ _ _ E Hi) as (t' & Ht' & Hw). exists t'.
      rewrite lookup_delete_ne; [done|]. intros E'. rewrite <- E' in Ht'. congruence.
  - intros i t'. rewrite Hd. destruct (decide (i = t_id t)) as [->|Hne]; [by rewrite lookup_delete_eq|].
    rewrite lookup_delete_ne by done. intros Hi. destruct (to_all _ HI i t' Hi) as (Hid & s1 & Hs1 & Hi1).
    split; [done|]. rewrite Hq. destruct (decide (t_when t' = t_when t)) as [E|]; [|by exists s1].
    assert (Hin : i ∈ s') by (apply Hmem; split; [done|]; congruence).
    destruct (decide (s' = [])) as [->|]; [by apply not_elem_of_nil in Hin|]. eauto.
Qed.

Lemma remove_timer_run st i t :
  timers_ok st -> timers st !! i = Some t -> exists st', remove_timer i st = (st', Ok tt) /\ taken st st' t.
Proof.
  intros HI Hi. destruct (to_all _ HI i t Hi) as (Hid & s & Hs & Hin). destruct (to_sets _ HI _ _ Hs) as [_ Hok].
  destruct (zs_remove_spec i s Hok) as (E1 & E2 & E3). unfold remove_timer, bind, get_state. rewrite Hi. unfold modify.
  rewrite Hs, Hid. destruct (zs_remove i s) as [b s'] eqn:Er. cbn [fst snd] in *. subst b.
  rewrite bool_decide_eq_true_2 by done. simpl.
  pose proof (zm_insert_ok (t_when t) s' _ (to_keys _ HI)) as Hk.
  destruct (decide (s' = [])) as [En|En].
  - rewrite bool_decide_eq_true_2 by done. eexists. split; [done|]. split_and!; simpl; [by rewrite Hid|by apply zm_remove_ok|].
    exists s, s'. split_and!; [done|done|intros j; rewrite Hid; apply E3|]. intros w. rewrite zm_get_remove by done.
    rewrite zm_get_insert. destruct (decide (w = t_when t)); [by rewrite decide_True|done].
  - rewrite bool_decide_eq_false_2 by done. eexists. split; [done|]. split_and!; simpl; [by rewrite Hid|done|].
    exists s, s'. split_and!; [done|done|intros j; rewrite Hid; apply E3|]. intros w.
    rewrite zm_get_insert. destruct (decide (w = t_when t)); [by rewrite decide_False|done].
Qed.

(** In the order of [Ord for Timer], which is reversed, [a] comes before [b]. *)
Definition before (a b : Timer) : Prop := Timer_cmp a b = Gt.

Lemma before_spec a b : before a b <-> t_when a < t_when b \/ t_when a = t_when b /\ t_id a < t_id b.
Proof.
  unfold before, Timer_cmp. destruct (Z.compare_spec (t_when a) (t_when b)) as [E|E|E]; simpl.
  - destruct (Z.compare_spec (t_id a) (t_id b)); simpl; split; (done || lia).
  - split; [lia|done].
  - split; [done|lia].
Qed.

Lemma head_key st key set rest : timers_ok st -> time_queue st = (key, set) :: rest ->
  (forall i t, timers st !! i = Some t -> key <= t_when t) /\
  zm_get key (time_queue st) = Some set /\ zm_ok rest /\ Forall (Z.lt key) rest.*1.
Proof.
  intros HI Hq. pose proof (to_keys _ HI) as Hk. rewrite Hq in Hk. unfold zm_ok in Hk. simpl in Hk.
  apply StronglySorted_inv in Hk as [Hk1 Hk2]. split_and!; [|rewrite Hq; simpl; by rewrite Z.eqb_refl|done|done].
  intros i t Hi. destruct (to_all _ HI i t Hi) as (_ & s & Hs & _). rewrite Hq in Hs. simpl in Hs.
  destruct (Z.eqb_spec (t_when t) key); [lia|]. apply zm_get_elem in Hs. rewrite Forall_forall in Hk2.
  apply (list_elem_of_fmap_2 fst) in Hs. specialize (Hk2 _ Hs). simpl in Hk2. lia.
Qed.

(** [pop] on a queue whose first set starts with [id]. *)
Lemma pop_taken st key id set' rest :
  timers_ok st -> time_queue st = (key, id :: set') :: rest ->
  exists t, timers st !! id = Some t /\ t_when t = key /\ t_id t = id /\
    taken st (mkTimers (if bool_decide (set' = []) then rest else (key, set') :: rest) (delete id (timers st))) t /\
    forall i t', timers st !! i = Some t' -> i <> id -> before t t'.
Proof.
  intros HI Hq. destruct (head_key _ _ _ _ HI Hq) as (Hmin & Hg & Hr & Hlt).
  destruct (to_sets _ HI _ _ Hg) as [_ Hok]. unfold zs_ok in Hok. pose proof Hok as [Hok1 Hok2]%StronglySorted_inv.
  destruct (to_mem _ HI _ _ id Hg) as (t & Ht & Hw); [apply list_elem_of_here|].
  destruct (to_all _ HI id t Ht) as [Hid _]. rewrite Forall_forall in Hok2.
  exists t. split_and!; [done..| |].
  - split_and!; simpl; [by rewrite Hid| |].
    + case_bool_decide; [done|]. by constructor.
    + exists (id :: set'), set'. rewrite Hw. split_and!; [done|done| |].
      * intros i. rewrite elem_of_cons, Hid. split; [|by intros [? [?|?]]]. intros Hi. split; [|by right].
        intros ->. specialize (Hok2 _ Hi). lia.
      * intros w. rewrite Hq. simpl. destruct (decide (w = key)) as [->|Hne].
        -- case_bool_decide; [rewrite decide_True by done; by apply zm_get_above|]. rewrite decide_False by done.
           simpl. by rewrite Z.eqb_refl.
        -- rewrite (proj2 (Z.eqb_neq w key)) by done. case_bool_decide; [done|]. simpl. by rewrite (proj2 (Z.eqb_neq w key)).
  - intros i t' Hi Hne. apply before_spec. destruct (to_all _ HI i t' Hi) as (Hid' & s & Hs & Hin).
    specialize (Hmin i t' Hi). rewrite Hw, Hid. destruct (decide (t_when t' = key)) as [E|]; [right|lia].
    split; [done|]. rewrite E, Hg in Hs. injection Hs as <-. apply elem_of_cons in Hin as [?|Hin]; [congruence|].
    specialize (Hok2 _ Hin). lia.
Qed.

Lemma pop_earliest_step st cutoff :
  timers_ok st ->
  match pop cutoff st with
  | (st', Ok t) =>
    timers st !! t_id t = Some t /\ t_when t <= cutoff /\
    (forall i t', timers st !! i = Some t' -> i <> t_id t -> before t t') /\
    timers st' = delete (t_id t) (timers st) /\ timers_ok st'
  | (st', Err w) =>
    st' = st /\ (timers st = ∅ /\ w = nan \/
                 cutoff < w /\ (exists i t, timers st !! i = Some t /\ t_when t = w) /\
                 forall i t, timers st !! i = Some t -> w <= t_when t)
  | (_, Panic) => False
  end.
Proof.
  intros HI. unfold pop, bind, get_state. destruct (time_queue st) as [|[key set] rest] eqn:Hq.
  - unfold throw. split; [done|]. left. split; [|done]. apply map_empty. intros i.
    destruct (timers st !! i) as [t|] eqn:Hi; [|done]. destruct (to_all _ HI i t Hi) as (_ & s & Hs & _). by rewrite Hq in Hs.
  - destruct (head_key _ _ _ _ HI Hq) as (Hmin & Hg & _). destruct (to_sets _ HI _ _ Hg) as [Hne _].
    destruct set as [|id set']; [done|]. destruct (Z.ltb_spec cutoff key) as [Hlt|Hge].
    + unfold throw. split; [done|]. right. split_and!; [done| |done].
      destruct (to_mem _ HI _ _ id Hg) as (t & Ht & Hw); [apply list_elem_of_here|]. eauto.
    + destruct (pop_taken st key id set' rest HI Hq) as (t & Ht & Hw & Hid & Htk & Hb).
      unfold modify. rewrite Ht. unfold ret. simpl. subst id key. split_and!; try done.
      by apply (taken_ok st _ t).
Qed.

(** [pop] never panics; it gives the earliest timer (ties broken by age) and removes exactly that one when
    it has expired; otherwise it changes nothing and reports the earliest instant, or no instant at all when
    there is no timer. *)
Theorem pop_earliest st cutoff :
  timers_ok st ->
  match pop cutoff st with
  | (st', Ok t) =>
    timers st !! t_id t = Some t /\ t_when t <= cutoff /\
    (forall i t', timers st !! i = Some t' -> i <> t_id t -> before t t') /\
    timers st' = delete (t_id t) (timers st) /\ timers_ok st'
  | (st', Err w) =>
    st' = st /\ (timers st = ∅ /\ w = nan \/
                 cutoff < w /\ (exists i t, timers st !! i = Some t /\ t_when t = w) /\
                 forall i t, timers st !! i = Some t -> w <= t_when t)
  | (_, Panic) => False
  end.
Proof. apply pop_earliest_step. Qed.

(** cancelling a timer never panics; it removes exactly the timer with this identifier, if there is one. *)
Theorem remove_timer_removes st id :
  timers_ok st ->
  exists st', remove_timer id st = (st', Ok tt) /\ timers st' = delete id (timers st) /\ timers_ok st'.
Proof.
  intros HI. destruct (timers st !! id) as [t|] eqn:Hi.
  - destruct (remove_timer_run st id t HI Hi) as (st' & Hr & Htk). destruct (to_all _ HI id t Hi) as [<- _].
    exists st'. split_and!; [done|by destruct Htk|by apply (taken_ok st _ t)].
  - exists st. unfold remove_timer, bind, get_state. rewrite Hi. split_and!; [done| |done]. by rewrite delete_id.
Qed.

Definition expired (now : Instant) (x : Z * Timer) : Prop := t_when x.2 <= now.
#[export] Instance expired_dec now x : Decision (expired now x).
Proof. unfold expired. apply _. Defined.

Lemma run_expired_spec rounds now st :
  timers_ok st -> (size (timers st) < rounds)%nat ->
  exists st' l next, run_expired rounds now st = (st', Ok (l, next)) /\ timers_ok st' /\
    timers st' = filter (fun x => ~ expired now x) (timers st) /\ StronglySorted before l /\
    (forall t, (t ∈ l) <-> timers st !! t_id t = Some t /\ t_when t <= now) /\
    (next = nan /\ timers st' = ∅ \/ now < next /\ forall i t, timers st' !! i = Some t -> next <= t_when t).
Proof.
  revert st. induction rounds as [|rounds IH]; intros st HI Hr; [lia|]. simpl.
  pose proof (pop_earliest_step st now HI) as Hp. destruct (pop now st) as [st1 [t|w|]]; [| |done].
  - destruct Hp as (Ht & Hw & Hb & Hd & HI1).
    assert (Hsz : (size (timers st1) < rounds)%nat).
    { rewrite Hd. assert (size (timers st) <> 0%nat) by (apply map_size_ne_0_lookup; eauto).
      rewrite map_size_delete, Ht. lia. }
    destruct (IH st1 HI1 Hsz) as (st' & l & next & -> & HI' & Hf & Hs & Hl & Hn).
    exists st', (t :: l), next. split; [done|]. split; [done|]. split_and!; [| | |done].
    + rewrite Hf, Hd. apply map_filter_delete_not. intros t'. rewrite Ht. intros [= <-]. unfold expired. simpl. lia.
    + constructor; [done|]. apply Forall_forall. intros t' Ht'. apply Hl in Ht' as [Ht' _]. rewrite Hd in Ht'.
      apply lookup_delete_Some in Ht' as [Hne Ht']. by apply (Hb (t_id t')).
    + intros t'. rewrite elem_of_cons, Hl, Hd, lookup_delete_Some. split.
      * intros [->|[[_ ?] ?]]; done.
      * intros [Ht' Hw']. destruct (decide (t_id t' = t_id t)) as [E|E]; [left; congruence|by right].
  - destruct Hp as [-> Hw]. exists st, [], w. split; [done|]. split; [done|].
    assert (Hall : forall i t, timers st !! i = Some t -> now < t_when t).
    { intros i t Hi. destruct Hw as [[He _]|(Hlt & _ & Hmin)]; [by rewrite He in Hi|]. specialize (Hmin i t Hi). lia. }
    split_and!.
    + symmetry. apply map_filter_id. intros i t Hi. unfold expired. simpl. specialize (Hall i t Hi). lia.
    + constructor.
    + intros t. split; [by intros ?%not_elem_of_nil|]. intros [Hi Hle]. specialize (Hall _ t Hi). lia.
    + destruct Hw as [[He ->]|(Hlt & _ & Hmin)]; [by left|by right].
Qed.

(** C30: a pass of the scheduler over its timers ends and runs the jobs of exactly the timers that have
    expired, each once, earliest first; the timers that stay are those in the future, and the instant it
    programs next is not after any of them.  (It would panic only with a million timers.)  The
    jobs themselves do not add or cancel timers. *)
Theorem scheduler_runs_expired now st :
  timers_ok st -> (Z.of_nat (size (timers st)) < 1000000) ->
  exists st' l next, run_expired (Z.to_nat 1000000) now st = (st', Ok (l, next)) /\ timers_ok st' /\
    timers st' = filter (fun x => ~ expired now x) (timers st) /\ StronglySorted before l /\
    (forall t, (t ∈ l) <-> timers st !! t_id t = Some t /\ t_when t <= now) /\
    (next = nan /\ timers st' = ∅ \/ now < next /\ forall i t, timers st' !! i = Some t -> next <= t_when t).
Proof. intros HI Hs. apply run_expired_spec; [done|]. lia. Qed.

(** ** Instances *)
Module TimersSample.

Definition sample_timers : list Timer := [mkTimer 30 1 0 0; mkTimer 10 2 0 0; mkTimer 10 3 0 1; mkTimer 90 4 0 0].
Definition sample : TimersInner := fold_left add_timer sample_timers TimersInner_new.

Lemma sample_ok : timers_ok sample.
Proof. repeat (apply add_timer_ok; [|vm_compute; reflexivity]). apply timers_ok_new. Qed.

Lemma pop_earliest_witness :
  exists st', pop 50 sample = (st', Ok (mkTimer 10 2 0 0)) /\ timers_ok st'.
Proof.
  pose proof (pop_earliest sample 50 sample_ok) as H. revert H.
  replace (pop 50 sample) with (mkTimers [(10, [3]); (30, [1]); (90, [4])] (delete 2 (timers sample)),
    @Ok Z Timer (mkTimer 10 2 0 0)) by (vm_compute; reflexivity).
  intros (_ & _ & _ & _ & H). eexists. split; [reflexivity|exact H].
Defined.

Lemma remove_timer_removes_witness :
  exists st', remove_timer 3 sample = (st', Ok tt) /\ timers st' = delete 3 (timers sample) /\ timers_ok st'.
Proof. apply (remove_timer_removes sample 3 sample_ok). Defined.

Lemma scheduler_runs_expired_witness :
  exists st' l next, run_expired (Z.to_nat 1000000) 50 sample = (st', Ok (l, next)) /\
    timers st' = filter (fun x => ~ expired 50 x) (timers sample).
Proof.
  destruct (scheduler_runs_expired 50 sample sample_ok) as (st' & l & next & H1 & _ & H2 & _); [vm_compute; reflexivity|].
  exists st', l, next. split; [exact H1|exact H2].
Defined.
End TimersSample.
