(* ===== verification/PhysMem.v ===== *)
(** * Physical memory

    The page-frame allocator of the kernel: memory segments (src/src/bin/kernel/src/mm/mod.rs)
    and the allocator itself (mm/phys.rs, release build).  The allocator's shared words are
    changed by compare-and-exchange loops that retry until they succeed, so each method is one
    atomic step here and the rounds that only retry are not seen ([allocate_contiguous] does not
    retry: under contention it reports that it found nothing).  The page-table addresses
    that [mark_unused] leaves alone come from the paging hardware and are arguments. *)

From stdpp Require Import base numbers list.
From S2P Require Import RustPrelude.

Open Scope Z_scope.

Inductive MemError : Type := OutOfMemory | AlreadyInUse | InvalidArgument | NotReady.
Inductive PageType : Type := Unknown | SmallPage | MidPage | LargePage.

Definition PAGE_SIZE_SMALL_LOG2 : Z := 12.
Definition PAGE_SIZE_MID_LOG2 : Z := 21.
Definition ONE_MB : Z := Z.shiftl 1 20.

Definition align_up (addr align : Z) : Z := Z.land (u64 (u64 (addr + align) - 1)) (u64_not (align - 1)).
Definition align_down (addr align : Z) : Z := Z.land addr (u64_not (align - 1)).

(** ** Memory segments *)

Record MemorySegment : Type := mkSeg { start : Z; size : Z }.

Definition seg_end (s : MemorySegment) : Z := u64 (start s + size s).
Definition contains (s : MemorySegment) (addr : Z) : bool := (start s <=? addr) && (addr <? seg_end s).
Definition contains_segment (s t : MemorySegment) : bool := (start s <=? start t) && (seg_end t <=? seg_end s).
Definition empty_segment : MemorySegment := mkSeg 0 0.
Definition is_empty (s : MemorySegment) : bool := size s =? 0.

Definition intersect (s t : MemorySegment) : MemorySegment :=
  let st := Z.max (start s) (start t) in
  let en := Z.min (seg_end s) (seg_end t) in
  if en <? st then mkSeg 0 0 else mkSeg st (u64 (en - st)).

Definition minus (s t : MemorySegment) : MemorySegment * MemorySegment :=
  if is_empty (intersect s t) then (s, empty_segment)
  else
    let left_start := start s in
    let left_end := if start s <? start t then start t else start s in
    let right_end := seg_end s in
    let right_start := if seg_end t <? seg_end s then seg_end t else seg_end s in
    (mkSeg left_start (u64 (left_end - left_start)), mkSeg right_start (u64 (right_end - right_start))).

(** ** Designated segments: at most 64 pages, one bit each *)

Record DesignatedSegment : Type := mkDS { segment : MemorySegment; used_bitmap : Z; num_pages : Z }.

Definition set_bitmap (b : Z) (d : DesignatedSegment) : DesignatedSegment := mkDS (segment d) b (num_pages d).

Section Designated.
(** [S::SIZE_LOG2]. *)
Variable lg : Z.
Let SIZE : Z := Z.shiftl 1 lg.

Definition ds_new (s : MemorySegment) : DesignatedSegment :=
  mkDS s (if start s =? 0 then 1 else 0) (u8 (Z.shiftr (size s) lg)).

Definition ds_allocate_frame : eff DesignatedSegment MemError Z :=
  let* d := get_state in
  let prev := used_bitmap d in
  if prev =? U64_MAX then throw OutOfMemory
  else
    let ones := Z.of_nat (trailing_ones 64 prev) in
    if ones =? num_pages d then throw OutOfMemory
    else
      assert (Z.land prev (bit ones) =? 0);;;
      modify (set_bitmap (Z.lor prev (bit ones)));;;
      ret (u64 (u64 (Z.shiftl ones lg) + start (segment d))).

(** The scan for [num] clear bits in a row; the bits are looked at from [idx] on. *)
Fixpoint scan (prev num : Z) (n : nat) (idx from cnt : Z) : Z * Z :=
  match n with
  | O => (from, cnt)
  | S n' =>
    if negb (Z.land prev (bit idx) =? 0) then scan prev num n' (idx + 1) from 0
    else
      let cnt' := cnt + 1 in
      let from' := if cnt' =? 1 then idx else from in
      if cnt' =? num then (from', cnt') else scan prev num n' (idx + 1) from' cnt'
  end.

Fixpoint mask_from (n : nat) (idx : Z) (mask : Z) : Z :=
  match n with
  | O => mask
  | S n' => mask_from n' (idx + 1) (Z.lor mask (bit idx))
  end.

Definition ds_allocate_contiguous (num : Z) : eff DesignatedSegment MemError Z :=
  assert (1 <? num);;;
  let* d := get_state in
  let prev := used_bitmap d in
  let '(from, cnt) := scan prev num (Z.to_nat (u8 (num_pages d - 1))) 0 0 0 in
  if cnt <? num then throw OutOfMemory
  else
    let mask := mask_from (Z.to_nat (u8 num)) from 0 in
    modify (set_bitmap (Z.lor prev mask));;;
    ret (u64 (u64 (Z.shiftl from lg) + start (segment d))).

Definition ds_fixed_addr_reserve (addr : Z) : eff DesignatedSegment MemError unit :=
  let* d := get_state in
  assert (start (segment d) <=? addr);;;
  assert (addr <? seg_end (segment d));;;
  let bit_num := Z.shiftr (addr - start (segment d)) lg in
  assert (bit_num <? 64);;;
  let prev := used_bitmap d in
  if Z.land prev (bit bit_num) =? bit bit_num then throw AlreadyInUse
  else modify (set_bitmap (Z.lor prev (bit bit_num))).

Definition ds_deallocate_frame (addr : Z) : eff DesignatedSegment MemError bool :=
  let* d := get_state in
  assert (start (segment d) <=? addr);;;
  assert (addr <? seg_end (segment d));;;
  if addr =? 0 then ret false
  else
    let bit_num := Z.shiftr (addr - start (segment d)) lg in
    assert (bit_num <? 64);;;
    let prev := used_bitmap d in
    assert (Z.land prev (bit bit_num) =? bit bit_num);;;
    modify (set_bitmap (Z.lxor prev (bit bit_num)));;;
    ret true.

(** The loop of [mark_used]: [st] walks through the pages of the segment.  A segment has at most
    64 pages, so 65 tests of the condition end it. *)
Fixpoint mark_used_loop (rounds : nat) (st en used_frames : Z) : eff DesignatedSegment MemError Z :=
  match rounds with
  | O => panic
  | S rounds' =>
    if st <? en then
      fun d => match ds_fixed_addr_reserve st d with
               | (d', Ok _) => mark_used_loop rounds' (u64 (st + SIZE)) en (used_frames + 1) d'
               | (d', Err _) => mark_used_loop rounds' (u64 (st + SIZE)) en used_frames d'
               | (d', Panic) => (d', Panic)
               end
    else ret used_frames
  end.

Definition ds_mark_used (s : MemorySegment) : eff DesignatedSegment MemError Z :=
  let* d := get_state in
  let st := Z.max (align_down (start s) SIZE) (start (segment d)) in
  let en := Z.min (align_up (seg_end s) SIZE) (seg_end (segment d)) in
  mark_used_loop 65 st en 0.

Fixpoint mark_unused_loop (rounds : nat) (l4_phys_addr l3_phys_addr st en freed_frames : Z)
    : eff DesignatedSegment MemError Z :=
  match rounds with
  | O => panic
  | S rounds' =>
    if st <? en then
      let* freed :=
        (if negb (st =? l4_phys_addr) && negb (st =? l3_phys_addr) then ds_deallocate_frame st else ret false) in
      mark_unused_loop rounds' l4_phys_addr l3_phys_addr (u64 (st + SIZE)) en
        (if freed : bool then freed_frames + 1 else freed_frames)
    else ret freed_frames
  end.

Definition ds_mark_unused (l4_phys_addr l3_phys_addr : Z) (s : MemorySegment) : eff DesignatedSegment MemError Z :=
  let* d := get_state in
  let st := Z.max (align_down (start s) SIZE) (start (segment d)) in
  let en := Z.min (align_up (seg_end s) SIZE) (seg_end (segment d)) in
  mark_unused_loop 65 l4_phys_addr l3_phys_addr st en 0.
End Designated.

(** ** Memory areas *)

Record MemoryArea : Type := mkArea {
  segments : list DesignatedSegment;
  total_pages : Z;
  used_pages : Z;
  free_frame : Z
}.

Definition set_segments (l : list DesignatedSegment) (a : MemoryArea) : MemoryArea :=
  mkArea l (total_pages a) (used_pages a) (free_frame a).
Definition set_free_frame (f : Z) (a : MemoryArea) : MemoryArea :=
  mkArea (segments a) (total_pages a) (used_pages a) f.
Definition add_used (n : Z) (a : MemoryArea) : MemoryArea :=
  mkArea (segments a) (total_pages a) (u64 (used_pages a + n)) (free_frame a).

(** Run a method of the [i]-th segment. *)
Definition on_segment {A} (i : nat) (m : eff DesignatedSegment MemError A) : eff MemoryArea MemError A := fun a =>
  match segments a !! i with
  | Some d => let '(d', r) := m d in (set_segments (<[i := d']> (segments a)) a, r)
  | None => (a, Panic)
  end.

(** [if let Ok(x) = m { .. }]: an [Err] becomes [None]. *)
Definition ok {S E A} (m : eff S E A) : eff S E (option A) := fun s =>
  match m s with
  | (s', Ok x) => (s', Ok (Some x))
  | (s', Err _) => (s', Ok None)
  | (s', Panic) => (s', Panic)
  end.

(** [crate::util::prng]: the next state of the generator, which is also its value; [entropy] is the clock
    when [add_entropy] is set. *)
Definition prng (entropy : option Z) (base : Z) : Z :=
  let val := u64 (base * 48271) in
  let val := match entropy with Some now => u64 (val + now) | None => val end in
  val mod 2147483647.

Section Area.
Variable lg : Z.

Definition area_new : MemoryArea := mkArea [] 0 0 0.

Definition add_segment (s : MemorySegment) (a : MemoryArea) : MemoryArea :=
  mkArea (segments a ++ [ds_new lg s]) (u64 (total_pages a + Z.shiftr (size s) lg)) (used_pages a) (free_frame a).

Fixpoint area_mark_used_from (i : nat) (n : nat) (s : MemorySegment) : eff MemoryArea MemError unit :=
  match n with
  | O => ret tt
  | S n' => let* k := on_segment i (ds_mark_used lg s) in modify (add_used k);;; area_mark_used_from (S i) n' s
  end.
Definition area_mark_used (s : MemorySegment) : eff MemoryArea MemError unit :=
  let* a := get_state in area_mark_used_from 0 (length (segments a)) s.

Fixpoint area_mark_unused_from (i : nat) (n : nat) (l4 l3 : Z) (s : MemorySegment) : eff MemoryArea MemError unit :=
  match n with
  | O => ret tt
  | S n' =>
    let* k := on_segment i (ds_mark_unused lg l4 l3 s) in modify (add_used (- k));;; area_mark_unused_from (S i) n' l4 l3 s
  end.
Definition area_mark_unused (l4 l3 : Z) (s : MemorySegment) : eff MemoryArea MemError unit :=
  let* a := get_state in area_mark_unused_from 0 (length (segments a)) l4 l3 s.

(** The search of [fixed_addr_reserve] among the segments. *)
Fixpoint reserve_in (i n : nat) (phys_addr : Z) : eff MemoryArea MemError unit :=
  match n with
  | O => ret tt
  | S n' =>
    let* a := get_state in
    match segments a !! i with
    | Some d =>
      if negb (contains (segment d) phys_addr) then reserve_in (S i) n' phys_addr
      else on_segment i (ds_fixed_addr_reserve lg phys_addr);;; modify (add_used 1)
    | None => panic
    end
  end.

Definition area_fixed_addr_reserve (phys_addr : Z) : eff MemoryArea MemError unit :=
  let* a := get_state in
  if free_frame a =? phys_addr then modify (set_free_frame 0);;; modify (add_used 1)
  else reserve_in 0 (length (segments a)) phys_addr.

(** Attempts at random segments; [draws] are the values of [prng]. *)
Fixpoint random_tries (draws : list Z) : eff MemoryArea MemError (option Z) :=
  match draws with
  | [] => ret None
  | r :: draws' =>
    let* a := get_state in
    if Z.of_nat (length (segments a)) =? 0 then panic
    else
      let* f := ok (on_segment (Z.to_nat (r mod Z.of_nat (length (segments a)))) (ds_allocate_frame lg)) in
      match f with Some x => ret (Some x) | None => random_tries draws' end
  end.

Fixpoint linear_search (i n : nat) : eff MemoryArea MemError (option Z) :=
  match n with
  | O => ret None
  | S n' =>
    let* f := ok (on_segment i (ds_allocate_frame lg)) in
    match f with Some x => ret (Some x) | None => linear_search (S i) n' end
  end.

Definition do_allocate_frame (draws : list Z) : eff MemoryArea MemError Z :=
  let* a := get_state in
  let first := free_frame a in
  modify (set_free_frame 0);;;
  if negb (first =? 0) then modify (add_used 1);;; ret first
  else if total_pages a =? used_pages a then throw OutOfMemory
  else
    let* f := random_tries draws in
    match f with
    | Some x => modify (add_used 1);;; ret x
    | None =>
      let* f := linear_search 0 (length (segments a)) in
      match f with
      | Some x => modify (add_used 1);;; ret x
      | None => throw OutOfMemory
      end
    end.

Fixpoint contiguous_search (num_frames : Z) (i n : nat) : eff MemoryArea MemError Z :=
  match n with
  | O => throw OutOfMemory
  | S n' =>
    let* f := ok (on_segment i (ds_allocate_contiguous lg num_frames)) in
    match f with
    | Some x => modify (add_used num_frames);;; ret x
    | None => contiguous_search num_frames (S i) n'
    end
  end.

Definition area_allocate_contiguous_frames (draws : list Z) (num_frames : Z) : eff MemoryArea MemError Z :=
  if 256 <? num_frames then throw OutOfMemory
  else if num_frames =? 1 then do_allocate_frame draws
  else if num_frames <=? 64 then let* a := get_state in contiguous_search num_frames 0 (length (segments a))
  else panic.

(** [slice::binary_search_by] for the segment that contains an address, between [lo] and [hi];
    the range halves every round, so 64 rounds are enough for any list. *)
Fixpoint owner_search (rounds : nat) (l : list DesignatedSegment) (to_free : Z) (lo hi : nat) : option nat :=
  match rounds with
  | O => None
  | S rounds' =>
    if (lo <? hi)%nat then
      let mid := (lo + (hi - lo) / 2)%nat in
      match l !! mid with
      | None => None
      | Some d =>
        if to_free <? start (segment d) then owner_search rounds' l to_free lo mid
        else if seg_end (segment d) <=? to_free then owner_search rounds' l to_free (S mid) hi
        else Some mid
      end
    else None
  end.

Definition area_deallocate_frame (addr : Z) : eff MemoryArea MemError unit :=
  let* a := get_state in
  assert (negb (total_pages a =? 0));;;
  modify (add_used (-1));;;
  let prev_cached := free_frame a in
  modify (set_free_frame addr);;;
  if prev_cached =? 0 then ret tt
  else
    match owner_search 64 (segments a) prev_cached 0 (length (segments a)) with
    | None => panic
    | Some i => on_segment i (ds_deallocate_frame lg prev_cached);;; ret tt
    end.
End Area.

(** ** The kernel's physical memory *)

Definition MID_PAGES : Z := 4.
Definition MID_PAGES_SEGMENT : MemorySegment := mkSeg (ONE_MB * 2) (Z.shiftl MID_PAGES PAGE_SIZE_MID_LOG2).

(** The inner loop of [assign_pages_to_area] over one available segment: the chunks it adds.
    [None] when the rounds are used up. *)
Fixpoint split_segment (lg : Z) (rounds : nat) (s : MemorySegment) : option (list MemorySegment) :=
  match rounds with
  | O => None
  | S rounds' =>
    let SIZE := Z.shiftl 1 lg in
    if size s <? SIZE then Some []
    else
      let st := align_up (start s) SIZE in
      if seg_end s <=? st then Some []
      else
        let pages := Z.shiftr (seg_end s - st) lg in
        if pages =? 0 then Some []
        else
          let s := if start s <? st then mkSeg st (u64 (size s - (st - start s))) else s in
          let pages := if 64 <? pages then 64 else pages in
          let chunk := mkSeg st (u64 (Z.shiftl pages lg)) in
          let MID := MID_PAGES_SEGMENT in
          let add chunk :=
            let s' := mkSeg (seg_end chunk) (u64 (size s - size chunk)) in
            match split_segment lg rounds' s' with Some l => Some (chunk :: l) | None => None end in
          if (start chunk <? start MID) && (start MID <? seg_end chunk)
          then add (mkSeg (start chunk) (u64 (start MID - start chunk)))
          else if (start MID <=? start chunk) && (start chunk <? seg_end MID) then
            if seg_end s <=? seg_end MID then Some []
            else split_segment lg rounds' (mkSeg (seg_end MID) (u64 (seg_end s - seg_end MID)))
          else add chunk
  end.

(** Enough rounds for a segment: every round takes at least a page or leaves the MID segment. *)
Definition split_rounds (lg : Z) (s : MemorySegment) : nat := Z.to_nat (Z.shiftr (size s) lg + 3).

Fixpoint assign_pages_to_area (lg : Z) (available : list MemorySegment) (a : MemoryArea) : option MemoryArea :=
  match available with
  | [] => Some a
  | s :: available' =>
    match split_segment lg (split_rounds lg s) s with
    | Some l => assign_pages_to_area lg available' (fold_left (fun a c => add_segment lg c a) l a)
    | None => None
    end
  end.

(** [sort_unstable_by] on the start addresses. *)
Fixpoint sort_insert (d : DesignatedSegment) (l : list DesignatedSegment) : list DesignatedSegment :=
  match l with
  | [] => [d]
  | e :: l' => if start (segment d) <=? start (segment e) then d :: l else e :: sort_insert d l'
  end.
Definition area_sort (a : MemoryArea) : MemoryArea := set_segments (foldr sort_insert [] (segments a)) a.

Record PhysicalMemory : Type := mkPhys {
  total_size : Z;
  small_pages : MemoryArea;
  mid_pages : DesignatedSegment
}.

(** The values [allocate_frame] may take from the generator when its state is [base]. *)
Definition draws (base : Z) : list Z := let next := prng None in [next base; next (next base); next (next (next base))].

Definition on_small {A} (m : eff MemoryArea MemError A) : eff PhysicalMemory MemError A := fun p =>
  let '(a, r) := m (small_pages p) in (mkPhys (total_size p) a (mid_pages p), r).
Definition on_mid {A} (m : eff DesignatedSegment MemError A) : eff PhysicalMemory MemError A := fun p =>
  let '(d, r) := m (mid_pages p) in (mkPhys (total_size p) (small_pages p) d, r).

(** [base] is the state of the kernel's random number generator at the call. *)
Definition allocate_frameless (base : Z) (kind : PageType) : eff PhysicalMemory MemError Z :=
  match kind with
  | SmallPage => on_small (do_allocate_frame PAGE_SIZE_SMALL_LOG2 (draws base))
  | MidPage => on_mid (ds_allocate_frame PAGE_SIZE_MID_LOG2)
  | _ => panic
  end.

Definition deallocate_frameless (phys_addr : Z) (kind : PageType) : eff PhysicalMemory MemError unit :=
  match kind with
  | SmallPage => on_small (area_deallocate_frame PAGE_SIZE_SMALL_LOG2 phys_addr)
  | _ => panic
  end.

Definition LAPIC_BASE : Z := 0xfee00000.
Definition IOAPIC_BASE : Z := 0xfec00000.

Definition fixed_addr_reserve (phys_addr : Z) (kind : PageType) : eff PhysicalMemory MemError unit :=
  if (phys_addr =? LAPIC_BASE) || (phys_addr =? IOAPIC_BASE) then ret tt
  else match kind with
       | SmallPage => on_small (area_fixed_addr_reserve PAGE_SIZE_SMALL_LOG2 phys_addr)
       | _ => panic
       end.

(** The checks of [init] on the available segments: the total size, and whether the MID segment is there. *)
Fixpoint check_available (available : list MemorySegment) (total prev : Z) (mid_ok : bool) : result MemError (Z * bool) :=
  match available with
  | [] => Ok (total, mid_ok)
  | s :: available' =>
    if prev <=? start s then
      check_available available' (u64 (total + size s)) (u64 (start s + size s))
        (mid_ok || contains s (start MID_PAGES_SEGMENT) && (seg_end MID_PAGES_SEGMENT <=? seg_end s))
    else Panic
  end.

Fixpoint mark_used_all (in_use : list MemorySegment) : eff MemoryArea MemError unit :=
  match in_use with
  | [] => ret tt
  | s :: in_use' => area_mark_used PAGE_SIZE_SMALL_LOG2 s;;; mark_used_all in_use'
  end.

Definition init (available in_use : list MemorySegment) : result MemError PhysicalMemory :=
  match check_available available 0 0 false with
  | Ok (total, true) =>
    match assign_pages_to_area PAGE_SIZE_SMALL_LOG2 available area_new with
    | Some a =>
      match mark_used_all in_use (area_sort a) with
      | (a', Ok _) => Ok (mkPhys total a' (ds_new PAGE_SIZE_MID_LOG2 MID_PAGES_SEGMENT))
      | _ => Panic
      end
    | None => Panic
    end
  | _ => Panic
  end.

(** [PhysStats::used] and [PhysStats::available]. *)
Definition stats_used (p : PhysicalMemory) : Z :=
  u64 (Z.shiftl (used_pages (small_pages p)) PAGE_SIZE_SMALL_LOG2 + Z.shiftl (num_pages (mid_pages p)) PAGE_SIZE_MID_LOG2).
Definition stats_available (p : PhysicalMemory) : Z := u64 (total_size p - stats_used p).
