(* ===== verification/PhysFrames.v ===== *)
(** * Physical memory: frames

    The invariant of an area ([area_wf]) and what its operations do to the set of frames in
    use: allocation hands out a frame that was free, and fails only when none is; releasing
    and reserving a frame change exactly that frame. *)

From stdpp Require Import base numbers list sorting.
From S2P Require Import RustPrelude PhysMem.

Open Scope Z_scope.

(** ** Bits and sums *)

Lemma u64_add_u64 x y : u64 (u64 x + y) = u64 (x + y).
Proof. unfold u64. rewrite Zplus_mod_idemp_l. done. Qed.

Lemma bit_lor_u64 b j : is_u64 b -> 0 <= j < 64 -> is_u64 (Z.lor b (bit j)).
Proof.
  unfold is_u64. intros Hb Hj. split; [apply Z.lor_nonneg; unfold bit; rewrite Z.shiftl_1_l; lia|].
  destruct (decide (Z.lor b (bit j) = 0)) as [->|Hne]; [lia|]. apply Z.log2_lt_pow2; [|].
  - assert (0 <= Z.lor b (bit j)); [|lia]. apply Z.lor_nonneg. unfold bit. rewrite Z.shiftl_1_l. lia.
  - rewrite Z.log2_lor by (unfold bit; rewrite ?Z.shiftl_1_l; lia). apply Z.max_lub_lt.
    + destruct (decide (b = 0)) as [->|]; [simpl; lia|]. apply Z.log2_lt_pow2; lia.
    + unfold bit. rewrite Z.shiftl_1_l, Z.log2_pow2; lia.
Qed.

Lemma bit_lxor_u64 b j : is_u64 b -> 0 <= j < 64 -> is_u64 (Z.lxor b (bit j)).
Proof.
  unfold is_u64. intros Hb Hj. assert (H0 : 0 <= Z.lxor b (bit j)).
  { apply Z.lxor_nonneg. unfold bit. rewrite Z.shiftl_1_l. lia. }
  split; [done|]. destruct (decide (Z.lxor b (bit j) = 0)) as [->|Hne]; [lia|]. apply Z.log2_lt_pow2; [lia|].
  eapply Z.le_lt_trans; [apply Z.log2_lxor; [lia|unfold bit; rewrite Z.shiftl_1_l; lia]|]. apply Z.max_lub_lt.
  - destruct (decide (b = 0)) as [->|]; [simpl; lia|]. apply Z.log2_lt_pow2; lia.
  - unfold bit. rewrite Z.shiftl_1_l, Z.log2_pow2; lia.
Qed.

Definition mark (j : Z) (d : DesignatedSegment) : DesignatedSegment := set_bitmap (Z.lor (used_bitmap d) (bit j)) d.
Definition unmark (j : Z) (d : DesignatedSegment) : DesignatedSegment := set_bitmap (Z.lxor (used_bitmap d) (bit j)) d.

Lemma land_eq_bit b j : 0 <= j -> (Z.land b (bit j) =? bit j) = Z.testbit b j.
Proof.
  intros Hj. destruct (Z.testbit b j) eqn:E.
  - apply Z.eqb_eq. apply Z.bits_inj'. intros k Hk. rewrite Z.land_spec, testbit_bit by lia.
    case_bool_decide; [by subst; rewrite E|by rewrite andb_false_r].
  - apply Z.eqb_neq. intros Hc. apply (f_equal (fun z => Z.testbit z j)) in Hc.
    rewrite Z.land_spec, testbit_bit, E, bool_decide_eq_true_2 in Hc by lia. done.
Qed.

(** Sums over the segments. *)
Definition zsum (g : DesignatedSegment -> Z) (l : list DesignatedSegment) : Z := foldr (fun d acc => g d + acc) 0 l.

Lemma zsum_insert g l i d d' : l !! i = Some d -> zsum g (<[i := d']> l) = zsum g l - g d + g d'.
Proof.
  revert i. induction l as [|e l IH]; intros [|i]; simpl; try done; [intros [= ->]; lia|].
  intros H. rewrite (IH i H). lia.
Qed.

Lemma zsum_le g h l : (forall i d, l !! i = Some d -> g d <= h d) -> zsum g l <= zsum h l.
Proof.
  induction l as [|e l IH]; simpl; intros H; [lia|]. pose proof (H 0%nat e eq_refl).
  specialize (IH (fun i d Hi => H (S i) d Hi)). lia.
Qed.

Lemma zsum_squeeze g h l : (forall i d, l !! i = Some d -> g d <= h d) -> zsum h l <= zsum g l ->
  forall i d, l !! i = Some d -> g d = h d.
Proof.
  induction l as [|e l IH]; simpl; intros H Hs i d Hi; [done|]. pose proof (H 0%nat e eq_refl) as H0.
  pose proof (zsum_le g h l (fun i d Hi => H (S i) d Hi)) as Hle.
  destruct i as [|i]; [injection Hi as <-; lia|]. apply (IH (fun i d Hi => H (S i) d Hi)) with i; [lia|done].
Qed.

Definition ones_in (d : DesignatedSegment) : Z := count_ones 64 (used_bitmap d).
Definition zero_in (d : DesignatedSegment) : Z := if start (segment d) =? 0 then 1 else 0.
Definition cached (f : Z) : Z := if f =? 0 then 0 else 1.

Lemma ones_in_mark d j : 0 <= j < 64 -> Z.testbit (used_bitmap d) j = false -> ones_in (mark j d) = ones_in d + 1.
Proof.
  intros Hj Hb. unfold ones_in, mark, set_bitmap. cbn [used_bitmap]. rewrite <- (Z2Nat.id j) in * by lia.
  apply count_ones_set; [lia|done].
Qed.

Lemma ones_in_unmark d j : 0 <= j < 64 -> Z.testbit (used_bitmap d) j = true -> ones_in (unmark j d) = ones_in d - 1.
Proof.
  intros Hj Hb. unfold ones_in, unmark, set_bitmap. cbn [used_bitmap]. rewrite <- (Z2Nat.id j) in * by lia.
  apply count_ones_clear; [lia|done].
Qed.

(** ** One designated segment *)

Section Frames.
Variable lg : Z.
Hypothesis Hlg : 0 < lg <= 30.
Let SZ : Z := 2 ^ lg.

Lemma SZ_pos : 0 < SZ.
Proof. unfold SZ. lia. Qed.

Lemma SZ_small : SZ <= 2 ^ 30.
Proof. unfold SZ. apply Z.pow_le_mono_r; lia. Qed.

Record ds_wf (d : DesignatedSegment) : Prop := {
  dw_pages : 1 <= num_pages d <= 64;
  dw_size : size (segment d) = num_pages d * SZ;
  dw_start : 0 <= start (segment d);
  dw_aligned : start (segment d) mod SZ = 0;
  dw_end : start (segment d) + size (segment d) < 2 ^ 63;
  dw_bitmap : is_u64 (used_bitmap d);
  dw_high : forall k, num_pages d <= k -> Z.testbit (used_bitmap d) k = false;
  dw_zero : start (segment d) = 0 -> Z.testbit (used_bitmap d) 0 = true
}.

Definition page (d : DesignatedSegment) (j : Z) : Z := start (segment d) + j * SZ.

Lemma dw_seg_end d : ds_wf d -> seg_end (segment d) = start (segment d) + num_pages d * SZ.
Proof.
  intros H. unfold seg_end. rewrite <- (dw_size _ H). apply u64_id.
  pose proof (dw_start _ H). pose proof (dw_end _ H). pose proof (dw_size _ H). pose proof (dw_pages _ H). pose proof SZ_pos.
  unfold is_u64. nia.
Qed.

Lemma page_bounds d j : ds_wf d -> 0 <= j < num_pages d ->
  start (segment d) <= page d j /\ page d j + SZ <= start (segment d) + num_pages d * SZ /\ page d j < 2 ^ 63.
Proof.
  intros H Hj. pose proof SZ_pos. pose proof (dw_end _ H) as He. rewrite (dw_size _ H) in He. pose proof (dw_start _ H).
  unfold page. nia.
Qed.

Lemma page_bit d j : Z.shiftr (page d j - start (segment d)) lg = j.
Proof.
  unfold page. replace (start (segment d) + j * SZ - start (segment d)) with (j * SZ) by lia.
  rewrite Z.shiftr_div_pow2 by lia. apply Z.div_mul. pose proof SZ_pos. unfold SZ in *. lia.
Qed.

Lemma page_inj d j k : page d j = page d k -> j = k.
Proof. intros E. rewrite <- (page_bit d j), <- (page_bit d k). by rewrite E. Qed.

Lemma shiftl_page j : 0 <= j -> Z.shiftl j lg = j * SZ.
Proof. intros. apply Z.shiftl_mul_pow2. lia. Qed.

Lemma page_u64 d j : ds_wf d -> 0 <= j < num_pages d ->
  u64 (u64 (Z.shiftl j lg) + start (segment d)) = page d j.
Proof.
  intros H Hj. destruct (page_bounds d j H Hj) as (H1 & H2 & H3). pose proof (dw_start _ H). pose proof SZ_pos.
  unfold page in *. rewrite shiftl_page by lia.
  rewrite (u64_id (j * SZ)) by (unfold is_u64; nia). rewrite u64_id by (unfold is_u64; nia). lia.
Qed.

Lemma mark_wf d j : ds_wf d -> 0 <= j < num_pages d -> ds_wf (mark j d).
Proof.
  intros H Hj. pose proof (dw_pages _ H). destruct H as [H1 H2 H3 H4 H5 H6 H7 H8].
  split; unfold mark, unmark, set_bitmap; cbn [used_bitmap segment num_pages]; try done.
  - apply bit_lor_u64; [done|lia].
  - intros k Hk. rewrite testbit_set by lia. rewrite H7, bool_decide_eq_false_2 by lia. done.
  - intros E. rewrite testbit_set by lia. by rewrite H8.
Qed.

Lemma unmark_wf d j : ds_wf d -> 0 <= j < num_pages d -> page d j <> 0 -> Z.testbit (used_bitmap d) j = true -> ds_wf (unmark j d).
Proof.
  intros H Hj Hp Ht. pose proof (dw_pages _ H). destruct H as [H1 H2 H3 H4 H5 H6 H7 H8].
  split; unfold mark, unmark, set_bitmap; cbn [used_bitmap segment num_pages]; try done.
  - apply bit_lxor_u64; [done|lia].
  - intros k Hk. rewrite testbit_flip by lia. rewrite H7, bool_decide_eq_false_2 by lia. done.
  - intros E. rewrite testbit_flip by lia. rewrite H8 by done. rewrite bool_decide_eq_false_2; [done|].
    intros ->. apply Hp. unfold page. lia.
Qed.

Lemma full_bits_or_ones d : ds_wf d ->
  let ones := Z.of_nat (trailing_ones 64 (used_bitmap d)) in
  if (used_bitmap d =? U64_MAX) || (ones =? num_pages d)
  then forall j, 0 <= j < num_pages d -> Z.testbit (used_bitmap d) j = true
  else 0 <= ones < num_pages d /\ Z.testbit (used_bitmap d) ones = false.
Proof.
  intros H ones. pose proof (dw_pages _ H). pose proof (trailing_ones_le 64 (used_bitmap d)) as Hle.
  assert (Hbelow : forall j, 0 <= j < ones -> Z.testbit (used_bitmap d) j = true).
  { intros j Hj. rewrite <- (Z2Nat.id j) by lia. apply (trailing_ones_below 64). lia. }
  destruct (Z.eqb_spec (used_bitmap d) U64_MAX) as [E|E]; simpl.
  { intros j Hj. rewrite E. unfold U64_MAX. change (2 ^ 64 - 1) with (Z.ones 64).
    rewrite Z.testbit_ones_nonneg by lia. apply Z.ltb_lt. lia. }
  destruct (Z.eqb_spec ones (num_pages d)) as [E'|E']; [by rewrite <- E'|].
  assert (Hnum : ones <= num_pages d).
  { destruct (decide (ones <= num_pages d)) as [|Hgt]; [done|exfalso].
    assert (Hc : Z.testbit (used_bitmap d) (num_pages d) = true) by (apply Hbelow; lia).
    by rewrite (dw_high _ H) in Hc by lia. }
  split; [lia|]. apply trailing_ones_at. lia.
Qed.

Lemma ds_allocate_spec d : ds_wf d ->
  match ds_allocate_frame lg d with
  | (d', Ok f) => exists j, 0 <= j < num_pages d /\ f = page d j /\ Z.testbit (used_bitmap d) j = false /\ d' = mark j d
  | (d', Err _) => d' = d /\ forall j, 0 <= j < num_pages d -> Z.testbit (used_bitmap d) j = true
  | (_, Panic) => False
  end.
Proof.
  intros H. pose proof (full_bits_or_ones d H) as Hb. cbv zeta in Hb. unfold ds_allocate_frame, bind, get_state, throw.
  destruct (used_bitmap d =? U64_MAX); [by simpl in Hb|]. simpl in Hb. destruct (_ =? num_pages d); [done|].
  destruct Hb as [Hr Hf]. rewrite land_bit_test, Hf by lia. simpl. exists (Z.of_nat (trailing_ones 64 (used_bitmap d))).
  split_and!; [lia|lia|by rewrite page_u64|done|done].
Qed.

Lemma addr_checks d j : ds_wf d -> 0 <= j < num_pages d ->
  (start (segment d) <=? page d j) = true /\ (page d j <? seg_end (segment d)) = true /\ (j <? 64) = true.
Proof.
  intros H Hj. destruct (page_bounds d j H Hj) as (H1 & H2 & H3). pose proof SZ_pos. pose proof (dw_pages _ H).
  rewrite (dw_seg_end _ H), Z.leb_le, !Z.ltb_lt. lia.
Qed.

Lemma ds_reserve_spec d j : ds_wf d -> 0 <= j < num_pages d ->
  ds_fixed_addr_reserve lg (page d j) d =
    if Z.testbit (used_bitmap d) j then (d, Err AlreadyInUse) else (mark j d, Ok tt).
Proof.
  intros H Hj. destruct (addr_checks d j H Hj) as (E1 & E2 & E3).
  unfold ds_fixed_addr_reserve, bind, get_state. rewrite E1, E2, page_bit, E3. simpl. rewrite land_eq_bit by lia.
  by destruct (Z.testbit (used_bitmap d) j).
Qed.

Lemma ds_deallocate_spec d j : ds_wf d -> 0 <= j < num_pages d -> page d j <> 0 -> Z.testbit (used_bitmap d) j = true ->
  ds_deallocate_frame lg (page d j) d = (unmark j d, Ok true).
Proof.
  intros H Hj H0 Ht. destruct (addr_checks d j H Hj) as (E1 & E2 & E3).
  unfold ds_deallocate_frame, bind, get_state. rewrite E1, E2, page_bit, E3. simpl.
  rewrite (proj2 (Z.eqb_neq _ _)) by done. simpl. rewrite land_eq_bit, Ht by lia. done.
Qed.

(** ** An area *)

(** Frame [f] is page [j] of the [i]-th segment. *)
Definition located (l : list DesignatedSegment) (i : nat) (d : DesignatedSegment) (j f : Z) : Prop :=
  l !! i = Some d /\ 0 <= j < num_pages d /\ f = page d j.
Definition is_frame (l : list DesignatedSegment) (f : Z) : Prop := exists i d j, located l i d j f.
Definition marked (l : list DesignatedSegment) (f : Z) : Prop :=
  exists i d j, located l i d j f /\ Z.testbit (used_bitmap d) j = true.

Record segs_wf (l : list DesignatedSegment) : Prop := {
  sw_each : forall i d, l !! i = Some d -> ds_wf d;
  sw_order : forall i1 i2 d1 d2, (i1 < i2)%nat -> l !! i1 = Some d1 -> l !! i2 = Some d2 ->
    seg_end (segment d1) <= start (segment d2)
}.

Lemma located_unique l i d j i' d' j' f : segs_wf l ->
  located l i d j f -> located l i' d' j' f -> i = i' /\ d = d' /\ j = j'.
Proof.
  intros [Hw Ho] (Hi & Hj & Hf) (Hi' & Hj' & Hf'). pose proof SZ_pos.
  destruct (page_bounds d j (Hw _ _ Hi) Hj) as (B1 & B2 & _).
  destruct (page_bounds d' j' (Hw _ _ Hi') Hj') as (B1' & B2' & _).
  pose proof (dw_seg_end d (Hw _ _ Hi)) as E. pose proof (dw_seg_end d' (Hw _ _ Hi')) as E'.
  assert (i = i') as <-.
  { destruct (decide (i < i')%nat) as [Hlt|]; [specialize (Ho _ _ _ _ Hlt Hi Hi'); lia|].
    destruct (decide (i' < i)%nat) as [Hlt|]; [specialize (Ho _ _ _ _ Hlt Hi' Hi); lia|]. lia. }
  assert (d = d') as <- by congruence. split_and!; [done..|]. apply (page_inj d). congruence.
Qed.

Lemma segs_wf_update l i d d' : segs_wf l -> l !! i = Some d -> ds_wf d' ->
  segment d' = segment d -> segs_wf (<[i := d']> l).
Proof.
  intros [Hw Ho] Hi Hd Hs.
  assert (Hl : forall k e, <[i := d']> l !! k = Some e -> exists e0, l !! k = Some e0 /\ segment e0 = segment e).
  { intros k e. destruct (decide (k = i)) as [->|Hk].
    - rewrite list_lookup_insert_eq by (by eapply lookup_lt_Some). intros [= <-]. eauto.
    - rewrite list_lookup_insert_ne by done. eauto. }
  split.
  - intros k e. destruct (decide (k = i)) as [->|Hk].
    + rewrite list_lookup_insert_eq by (by eapply lookup_lt_Some). by intros [= <-].
    + rewrite list_lookup_insert_ne by done. apply Hw.
  - intros i1 i2 d1 d2 Hlt H1 H2. apply Hl in H1 as (e1 & H1 & <-). apply Hl in H2 as (e2 & H2 & <-). by apply (Ho i1 i2).
Qed.

(** What a change of one bit does to the frames. *)
Lemma frames_update l i d d' j f (b : bool) :
  segs_wf l -> located l i d j f -> segment d' = segment d -> num_pages d' = num_pages d ->
  (forall k, 0 <= k < num_pages d -> Z.testbit (used_bitmap d') k = if decide (k = j) then b else Z.testbit (used_bitmap d) k) ->
  (forall x, is_frame (<[i := d']> l) x <-> is_frame l x) /\
  (forall x, marked (<[i := d']> l) x <-> if decide (x = f) then b = true else marked l x).
Proof.
  intros Hwf Hloc Hs Hn Hb. pose proof Hloc as (Hi & Hj & Hf). pose proof (lookup_lt_Some _ _ _ Hi) as Hlen.
  assert (Hpage : forall k, page d' k = page d k) by (intros k; unfold page; by rewrite Hs).
  assert (Hto : forall i' e k x, located (<[i := d']> l) i' e k x -> exists e0, located l i' e0 k x /\
    Z.testbit (used_bitmap e) k = if decide (x = f) then b else Z.testbit (used_bitmap e0) k).
  { intros i' e k x (H1 & H2 & H3). destruct (decide (i' = i)) as [->|Hne].
    - rewrite list_lookup_insert_eq in H1 by done. injection H1 as <-. rewrite Hn in H2. rewrite Hpage in H3.
      exists d. split; [done|]. rewrite Hb by done. destruct (decide (k = j)) as [->|Hk].
      + by rewrite decide_True by congruence.
      + rewrite decide_False; [done|]. intros ->. apply Hk. apply (page_inj d). congruence.
    - rewrite list_lookup_insert_ne in H1 by done. exists e. split; [done|]. rewrite decide_False; [done|]. intros ->.
      apply Hne. by destruct (located_unique l i' e k i d j f Hwf) as (-> & _ & _). }
  assert (Hfrom : forall i' e0 k x, located l i' e0 k x -> exists e, located (<[i := d']> l) i' e k x).
  { intros i' e0 k x (H1 & H2 & H3). destruct (decide (i' = i)) as [->|Hne].
    - exists d'. assert (e0 = d) as -> by congruence. split_and!; [by apply list_lookup_insert_eq|lia|rewrite Hn; lia|by rewrite Hpage].
    - exists e0. split_and!; [by rewrite list_lookup_insert_ne|lia|lia|done]. }
  split.
  - intros x. split; intros (i' & e & k & H).
    + apply Hto in H as (e0 & H & _). by exists i', e0, k.
    + apply Hfrom in H as (e0 & H). by exists i', e0, k.
  - intros x. split.
    + intros (i' & e & k & H & Ht). apply Hto in H as (e0 & H & E). rewrite E in Ht.
      destruct (decide (x = f)); [done|]. by exists i', e0, k.
    + destruct (decide (x = f)) as [->|Hne].
      * intros ->. destruct (Hfrom _ _ _ _ Hloc) as (e & He). exists i, e, j. split; [done|].
        apply Hto in He as (e0 & _ & ->). by rewrite decide_True.
      * intros (i' & e0 & k & H & Ht). destruct (Hfrom _ _ _ _ H) as (e & He). exists i', e, k. split; [done|].
        destruct (Hto _ _ _ _ He) as (e1 & He1 & ->). rewrite decide_False by done.
        by destruct (located_unique l i' e0 k i' e1 k x Hwf H He1) as (_ & <- & _).
Qed.

Lemma mark_bits d j k : ds_wf d -> 0 <= j < num_pages d -> 0 <= k < num_pages d ->
  Z.testbit (used_bitmap (mark j d)) k = if decide (k = j) then true else Z.testbit (used_bitmap d) k.
Proof.
  intros _ Hj Hk. unfold mark, set_bitmap. cbn [used_bitmap]. rewrite testbit_set by lia.
  destruct (decide (k = j)) as [->|]; [by rewrite bool_decide_eq_true_2, orb_true_r|].
  by rewrite bool_decide_eq_false_2, orb_false_r by lia.
Qed.

Lemma unmark_bits d j k : ds_wf d -> 0 <= j < num_pages d -> Z.testbit (used_bitmap d) j = true -> 0 <= k < num_pages d ->
  Z.testbit (used_bitmap (unmark j d)) k = if decide (k = j) then false else Z.testbit (used_bitmap d) k.
Proof.
  intros _ Hj Ht Hk. unfold unmark, set_bitmap. cbn [used_bitmap]. rewrite testbit_flip by lia.
  destruct (decide (k = j)) as [->|]; [by rewrite bool_decide_eq_true_2, Ht|].
  by rewrite bool_decide_eq_false_2, xorb_false_r by lia.
Qed.

Record area_wf (a : MemoryArea) : Prop := {
  aw_segs : segs_wf (segments a);
  aw_total : total_pages a = zsum num_pages (segments a);
  aw_small : total_pages a < 2 ^ 63;
  aw_free : free_frame a = 0 \/ marked (segments a) (free_frame a);
  aw_used : used_pages a = u64 (zsum ones_in (segments a) - zsum zero_in (segments a) - cached (free_frame a))
}.

(** The frames that callers hold. *)
Definition in_use (a : MemoryArea) (f : Z) : Prop := marked (segments a) f /\ f <> 0 /\ f <> free_frame a.

Lemma ones_in_pages d : ds_wf d -> ones_in d = count_ones (Z.to_nat (num_pages d)) (used_bitmap d).
Proof.
  intros H. pose proof (dw_pages _ H). apply count_ones_high; [lia|]. intros j Hj. apply (dw_high _ H). lia.
Qed.

Lemma ones_in_le d : ds_wf d -> ones_in d <= num_pages d.
Proof.
  intros H. rewrite ones_in_pages by done. pose proof (dw_pages _ H).
  pose proof (count_ones_range (Z.to_nat (num_pages d)) (used_bitmap d)). lia.
Qed.

Lemma ones_in_full d : ds_wf d -> ones_in d = num_pages d -> forall j, 0 <= j < num_pages d -> Z.testbit (used_bitmap d) j = true.
Proof.
  intros H E j Hj. rewrite ones_in_pages in E by done. apply (count_ones_full (Z.to_nat (num_pages d))); lia.
Qed.

Lemma zero_in_le d : ds_wf d -> 0 <= zero_in d <= ones_in d.
Proof.
  intros H. unfold zero_in, ones_in. pose proof (count_ones_range 64 (used_bitmap d)).
  destruct (Z.eqb_spec (start (segment d)) 0) as [E|]; [|lia]. pose proof (dw_zero _ H E) as Ht.
  pose proof (count_ones_pos 64 (used_bitmap d) ltac:(lia) Ht). lia.
Qed.

Lemma unmarked_not_zero l i d j f : segs_wf l -> located l i d j f -> Z.testbit (used_bitmap d) j = false -> f <> 0 /\ ~ marked l f.
Proof.
  intros Hwf Hloc Hb. pose proof Hloc as (Hi & Hj & Hf). pose proof (sw_each _ Hwf _ _ Hi) as Hd. split.
  - intros ->. pose proof (dw_start _ Hd). pose proof SZ_pos. unfold page in Hf.
    assert (start (segment d) = 0) as Hs by nia. assert (j = 0) as -> by nia. by rewrite (dw_zero _ Hd Hs) in Hb.
  - intros (i' & d' & j' & Hloc' & Ht). destruct (located_unique _ _ _ _ _ _ _ _ Hwf Hloc Hloc') as (<- & <- & <-). congruence.
Qed.

(** A free frame is given out. *)
Lemma area_mark a i d j f :
  area_wf a -> located (segments a) i d j f -> Z.testbit (used_bitmap d) j = false ->
  let a' := add_used 1 (set_segments (<[i := mark j d]> (segments a)) a) in
  area_wf a' /\ f <> 0 /\ ~ in_use a f /\ (forall x, in_use a' x <-> in_use a x \/ x = f) /\
  (forall x, is_frame (segments a') x <-> is_frame (segments a) x).
Proof.
  intros HI Hloc Hb a'. pose proof Hloc as (Hi & Hj & Hf). pose proof (aw_segs _ HI) as Hwf.
  pose proof (sw_each _ Hwf _ _ Hi) as Hd. pose proof (dw_pages _ Hd).
  destruct (unmarked_not_zero _ _ _ _ _ Hwf Hloc Hb) as [H0 Hnm].
  destruct (frames_update _ i d (mark j d) j f true Hwf Hloc) as [Hfr Hmk]; [done|done|by intros; apply mark_bits|].
  assert (Hfree : free_frame a <> f) by (destruct (aw_free _ HI) as [->|Hm]; congruence).
  split_and!; [|done|by intros [? _]| |done].
  - split; simpl.
    + apply segs_wf_update with d; [done|done|by apply mark_wf|done].
    + rewrite (zsum_insert _ _ _ d) by done. simpl. rewrite (aw_total _ HI). lia.
    + apply (aw_small _ HI).
    + destruct (aw_free _ HI) as [->|Hm]; [by left|right]. apply Hmk. by rewrite decide_False.
    + rewrite (aw_used _ HI), u64_add_u64. f_equal. rewrite !(zsum_insert _ _ _ d) by done.
      rewrite ones_in_mark by (done || lia). change (zero_in (mark j d)) with (zero_in d). lia.
  - intros x. unfold in_use. simpl. rewrite Hmk. destruct (decide (x = f)) as [->|]; [|tauto].
    split; [by auto|]. intros _. auto.
Qed.

(** A frame is taken back. *)
Lemma area_unmark a i d j f :
  area_wf a -> located (segments a) i d j f -> Z.testbit (used_bitmap d) j = true -> f <> 0 -> f <> free_frame a ->
  let a' := add_used (-1) (set_segments (<[i := unmark j d]> (segments a)) a) in
  area_wf a' /\ (forall x, in_use a' x <-> in_use a x /\ x <> f) /\
  (forall x, is_frame (segments a') x <-> is_frame (segments a) x).
Proof.
  intros HI Hloc Hb H0 Hfree a'. pose proof Hloc as (Hi & Hj & Hf). pose proof (aw_segs _ HI) as Hwf.
  pose proof (sw_each _ Hwf _ _ Hi) as Hd. pose proof (dw_pages _ Hd).
  destruct (frames_update _ i d (unmark j d) j f false Hwf Hloc) as [Hfr Hmk]; [done|done|by intros; apply unmark_bits|].
  split_and!; [| |done].
  - split; simpl.
    + apply segs_wf_update with d; [done|done|by apply unmark_wf; [| |congruence|]|done].
    + rewrite (zsum_insert _ _ _ d) by done. simpl. rewrite (aw_total _ HI). lia.
    + apply (aw_small _ HI).
    + destruct (aw_free _ HI) as [->|Hm]; [by left|right]. apply Hmk. by rewrite decide_False.
    + rewrite (aw_used _ HI), u64_add_u64. f_equal. rewrite !(zsum_insert _ _ _ d) by done.
      rewrite ones_in_unmark by (done || lia). change (zero_in (unmark j d)) with (zero_in d). lia.
  - intros x. unfold in_use. simpl. rewrite Hmk. destruct (decide (x = f)) as [->|]; [|tauto]. split; [by intros [? _]|tauto].
Qed.

Lemma set_segments_same a i d : segments a !! i = Some d -> set_segments (<[i := d]> (segments a)) a = a.
Proof. intros H. destruct a. unfold set_segments. simpl in *. by rewrite list_insert_id. Qed.

(** An attempt at one segment. *)
Lemma try_segment a i d : segs_wf (segments a) -> segments a !! i = Some d ->
  (exists j, located (segments a) i d j (page d j) /\ Z.testbit (used_bitmap d) j = false /\
     ok (on_segment i (ds_allocate_frame lg)) a = (set_segments (<[i := mark j d]> (segments a)) a, Ok (Some (page d j)))) \/
  ok (on_segment i (ds_allocate_frame lg)) a = (a, Ok None) /\
  (forall j, 0 <= j < num_pages d -> Z.testbit (used_bitmap d) j = true).
Proof.
  intros Hwf Hi. pose proof (ds_allocate_spec d (sw_each _ Hwf _ _ Hi)) as Hs. unfold ok, on_segment. rewrite Hi.
  destruct (ds_allocate_frame lg d) as [d' [f|e|]]; [| |done].
  - destruct Hs as (j & Hj & -> & Hb & ->). left. exists j. done.
  - destruct Hs as [-> Hfull]. right. by rewrite set_segments_same.
Qed.

Definition gives (a : MemoryArea) (m : eff MemoryArea MemError (option Z)) : Prop :=
  exists i d j f, located (segments a) i d j f /\ Z.testbit (used_bitmap d) j = false /\
    m a = (set_segments (<[i := mark j d]> (segments a)) a, Ok (Some f)).

Lemma random_tries_spec a dr : segs_wf (segments a) -> segments a <> [] ->
  gives a (random_tries lg dr) \/ random_tries lg dr a = (a, Ok None).
Proof.
  intros Hwf Hne. assert (0 < Z.of_nat (length (segments a))) as Hlen by (destruct (segments a); simpl; done || lia).
  induction dr as [|r dr IH]; [by right|].
  set (i := Z.to_nat (r mod Z.of_nat (length (segments a)))).
  assert (Hrt : random_tries lg (r :: dr) a =
    (let* f := ok (on_segment i (ds_allocate_frame lg)) in
     match f with Some x => ret (Some x) | None => random_tries lg dr end) a).
  { cbn [random_tries]. unfold bind at 1, get_state. by rewrite (proj2 (Z.eqb_neq _ _)) by lia. }
  destruct (lookup_lt_is_Some_2 (segments a) i) as [d Hd].
  { pose proof (Z.mod_pos_bound r (Z.of_nat (length (segments a))) Hlen). lia. }
  unfold gives. rewrite Hrt. unfold bind.
  destruct (try_segment a i d Hwf Hd) as [(j & Hloc & Hb & E)|[E _]]; rewrite E.
  - left. by exists i, d, j, (page d j).
  - exact IH.
Qed.

Lemma linear_search_spec a n i : segs_wf (segments a) -> (i + n = length (segments a))%nat ->
  gives a (linear_search lg i n) \/
  linear_search lg i n a = (a, Ok None) /\
  forall i' d, (i <= i')%nat -> segments a !! i' = Some d -> forall j, 0 <= j < num_pages d -> Z.testbit (used_bitmap d) j = true.
Proof.
  intros Hwf. revert i. induction n as [|n IH]; intros i Hn.
  { right. split; [done|]. intros i' d Hi' Hd. apply lookup_lt_Some in Hd. lia. }
  destruct (lookup_lt_is_Some_2 (segments a) i) as [d Hd]; [lia|]. unfold gives. simpl. unfold bind.
  destruct (try_segment a _ d Hwf Hd) as [(j & Hloc & Hb & E)|[E Hfull]]; rewrite E.
  - left. by exists i, d, j, (page d j).
  - destruct (IH (S i) ltac:(lia)) as [Hg|[Hg Hall]]; [by left|right]. split; [done|]. intros i' d' Hi' Hd'.
    destruct (decide (i' = i)) as [->|]; [by assert (d' = d) as -> by congruence|]. apply (Hall i'); [lia|done].
Qed.

(** Everything is marked. *)
Lemma all_in_use a : area_wf a -> free_frame a = 0 ->
  (forall i d, segments a !! i = Some d -> forall j, 0 <= j < num_pages d -> Z.testbit (used_bitmap d) j = true) ->
  forall f, is_frame (segments a) f -> f <> 0 -> in_use a f.
Proof.
  intros HI H0 Hall f (i & d & j & Hloc) Hf. split_and!; [|done|congruence]. exists i, d, j. split; [done|].
  destruct Hloc as (Hi & Hj & _). by apply (Hall i).
Qed.

(** The counters agree only when every page is marked. *)
Lemma counters_full a : area_wf a -> free_frame a = 0 -> total_pages a = used_pages a ->
  forall i d, segments a !! i = Some d -> forall j, 0 <= j < num_pages d -> Z.testbit (used_bitmap d) j = true.
Proof.
  intros HI H0 Heq. pose proof (aw_segs _ HI) as Hwf. rewrite (aw_used _ HI), H0, (aw_total _ HI) in Heq.
  unfold cached in Heq. simpl in Heq.
  assert (Hle : zsum ones_in (segments a) <= zsum num_pages (segments a))
    by (apply zsum_le; intros i d Hi; by apply ones_in_le, (sw_each _ Hwf i)).
  assert (Hz : zsum zero_in (segments a) <= zsum ones_in (segments a))
    by (apply zsum_le; intros i d Hi; by apply zero_in_le, (sw_each _ Hwf i)).
  assert (Hz0 : zsum (fun _ => 0) (segments a) <= zsum zero_in (segments a))
    by (apply zsum_le; intros i d Hi; by apply zero_in_le, (sw_each _ Hwf i)).
  assert (Hz1 : zsum (fun _ => 0) (segments a) = 0) by (clear; induction (segments a); simpl; lia).
  pose proof (aw_small _ HI) as Hs. rewrite (aw_total _ HI) in Hs. rewrite u64_id in Heq by (unfold is_u64; lia).
  intros i d Hi j Hj. pose proof (sw_each _ Hwf _ _ Hi) as Hd. apply ones_in_full; [done| |done].
  apply (zsum_squeeze ones_in num_pages (segments a)) with i; [|lia|done].
  intros i' d' Hi'. apply ones_in_le. by apply (sw_each _ Hwf i').
Qed.

Lemma add_used_segments n a : segments (add_used n a) = segments a.
Proof. done. Qed.

Lemma set_free_frame_id a : free_frame a = 0 -> set_free_frame 0 a = a.
Proof. intros H. destruct a. simpl in *. by subst. Qed.

Definition allocated (a a' : MemoryArea) (f : Z) : Prop :=
  is_frame (segments a) f /\ f <> 0 /\ ~ in_use a f /\ (forall x, in_use a' x <-> in_use a x \/ x = f) /\
  (forall x, is_frame (segments a') x <-> is_frame (segments a) x) /\ area_wf a'.

Lemma take_cached a : area_wf a -> free_frame a <> 0 -> allocated a (add_used 1 (set_free_frame 0 a)) (free_frame a).
Proof.
  intros HI Hne. destruct (aw_free _ HI) as [|Hm]; [done|]. split_and!; try done.
  - destruct Hm as (i & d & j & Hl & _). by exists i, d, j.
  - by intros (_ & _ & ?).
  - intros x. unfold in_use. simpl. destruct (decide (x = free_frame a)) as [->|]; tauto.
  - destruct HI as [H1 H2 H3 H4 H5]. split; simpl; try done; [by left|].
    rewrite H5, u64_add_u64. f_equal. unfold cached. rewrite (proj2 (Z.eqb_neq _ _)) by done. simpl. lia.
Qed.

Lemma gives_allocated a i d j f : area_wf a -> located (segments a) i d j f -> Z.testbit (used_bitmap d) j = false ->
  allocated a (add_used 1 (set_segments (<[i := mark j d]> (segments a)) a)) f.
Proof.
  intros HI Hloc Hb. destruct (area_mark a i d j f HI Hloc Hb) as (H1 & H2 & H3 & H4 & H5).
  split_and!; try done. by exists i, d, j.
Qed.

Lemma allocate_spec a dr : area_wf a ->
  match do_allocate_frame lg dr a with
  | (a', Ok f) => allocated a a' f
  | (a', Err e) => e = OutOfMemory /\ a' = a /\ forall f, is_frame (segments a) f -> f <> 0 -> in_use a f
  | (_, Panic) => False
  end.
Proof.
  intros HI. unfold do_allocate_frame, bind, get_state, modify, ret, throw.
  destruct (Z.eqb_spec (free_frame a) 0) as [E|E]; simpl; [|by apply take_cached].
  rewrite set_free_frame_id by done.
  destruct (Z.eqb_spec (total_pages a) (used_pages a)) as [Eq|Ne].
  { split_and!; [done..|]. apply all_in_use; [done..|]. by apply counters_full. }
  assert (Hne : segments a <> []).
  { intros Hnil. apply Ne. rewrite (aw_total _ HI), (aw_used _ HI), Hnil, E. done. }
  destruct (random_tries_spec a dr (aw_segs _ HI) Hne) as [(i & d & j & f & Hloc & Hb & ->)| ->].
  { by apply gives_allocated. }
  destruct (linear_search_spec a (length (segments a)) 0 (aw_segs _ HI)) as [(i & d & j & f & Hloc & Hb & ->)|[-> Hall]]; [lia| |].
  { by apply gives_allocated. }
  split_and!; [done..|]. apply all_in_use; [done..|]. intros i d. apply Hall. lia.
Qed.

Lemma owner_search_finds l f i d j rounds lo hi :
  segs_wf l -> located l i d j f -> (lo <= i < hi)%nat -> (hi <= length l)%nat ->
  Z.of_nat (hi - lo) < 2 ^ Z.of_nat rounds -> owner_search rounds l f lo hi = Some i.
Proof.
  intros Hwf (Hi & Hj & Hf). pose proof (sw_each _ Hwf _ _ Hi) as Hd. pose proof SZ_pos.
  destruct (page_bounds d j Hd Hj) as (B1 & B2 & _). pose proof (dw_seg_end d Hd) as Ed.
  revert lo hi. induction rounds as [|rounds IH]; intros lo hi Hr Hhi Hsz; [simpl in Hsz; lia|].
  cbn [owner_search]. rewrite (proj2 (Nat.ltb_lt lo hi)) by lia. set (mid := (lo + (hi - lo) / 2)%nat).
  assert (Hmid : (lo <= mid < hi)%nat) by (unfold mid; pose proof (Nat.div_lt (hi - lo) 2 ltac:(lia) ltac:(lia)); lia).
  assert (Hpow : 2 ^ Z.of_nat (S rounds) = 2 * 2 ^ Z.of_nat rounds)
    by (replace (Z.of_nat (S rounds)) with (Z.succ (Z.of_nat rounds)) by lia; rewrite Z.pow_succ_r by lia; lia).
  assert (Hhalf : Z.of_nat ((hi - lo) / 2) = Z.of_nat (hi - lo) / 2) by (rewrite Nat2Z.inj_div; done).
  destruct (lookup_lt_is_Some_2 l mid) as [e He]; [lia|]. rewrite He. pose proof (sw_each _ Hwf _ _ He) as Hwe.
  destruct (Z.ltb_spec f (start (segment e))) as [Hlt|Hge].
  - apply IH; [|lia|unfold mid; dlia].
    destruct (decide (mid <= i)%nat) as [Hle|]; [exfalso|lia].
    destruct (decide (mid = i)) as [E|]; [rewrite E, Hi in He; injection He as <-; lia|].
    pose proof (sw_order _ Hwf mid i e d ltac:(lia) He Hi). pose proof (dw_seg_end e Hwe). pose proof (dw_pages _ Hwe). nia.
  - destruct (Z.leb_spec (seg_end (segment e)) f) as [Hle|Hgt].
    + apply IH; [|lia|unfold mid; dlia].
      destruct (decide (i <= mid)%nat) as [Hle'|]; [exfalso|lia].
      destruct (decide (mid = i)) as [E|]; [rewrite E, Hi in He; injection He as <-; lia|].
      pose proof (sw_order _ Hwf i mid d e ltac:(lia) Hi He). pose proof (dw_seg_end e Hwe). pose proof (dw_pages _ Hwe). nia.
    + f_equal. destruct (decide (mid < i)%nat) as [Hlt|].
      * pose proof (sw_order _ Hwf mid i e d Hlt He Hi). lia.
      * destruct (decide (i < mid)%nat) as [Hlt|]; [|lia]. pose proof (sw_order _ Hwf i mid d e Hlt Hi He). lia.
Qed.

Lemma segments_fewer a : area_wf a -> Z.of_nat (length (segments a)) < 2 ^ 64.
Proof.
  intros HI. pose proof (aw_small _ HI) as Hs. rewrite (aw_total _ HI) in Hs. pose proof (aw_segs _ HI) as Hwf.
  assert (Hl : zsum (fun _ => 1) (segments a) <= zsum num_pages (segments a))
    by (apply zsum_le; intros i d Hi; apply (dw_pages _ (sw_each _ Hwf _ _ Hi))).
  assert (Hz : forall l, zsum (fun _ => 1) l = Z.of_nat (length l)) by (induction l; simpl; lia). rewrite Hz in Hl. lia.
Qed.

Lemma deallocate_spec a f : area_wf a -> in_use a f ->
  exists a', area_deallocate_frame lg f a = (a', Ok tt) /\ (forall x, in_use a' x <-> in_use a x /\ x <> f) /\
    (forall x, is_frame (segments a') x <-> is_frame (segments a) x) /\ area_wf a'.
Proof.
  intros HI (Hm & H0 & Hnf). pose proof (aw_segs _ HI) as Hwf.
  assert (Hlen : (0 < length (segments a))%nat).
  { destruct Hm as (i & d & j & (Hi & _) & _). apply lookup_lt_Some in Hi. lia. }
  assert (Ht : total_pages a <> 0).
  { rewrite (aw_total _ HI). assert (Hl : zsum (fun _ => 1) (segments a) <= zsum num_pages (segments a))
      by (apply zsum_le; intros i d Hi; apply (dw_pages _ (sw_each _ Hwf _ _ Hi))).
    assert (Hz : forall l, zsum (fun _ => 1) l = Z.of_nat (length l)) by (induction l; simpl; lia). rewrite Hz in Hl. lia. }
  (* The frame goes into the cache; what was cached is the frame that becomes free. *)
  set (a1 := set_free_frame f (add_used (cached (free_frame a) - 1) a)).
  assert (HI1 : area_wf a1).
  { destruct HI as [H1 H2 H3 H4 H5]. split; simpl; try done; [by right|]. rewrite H5, u64_add_u64. f_equal.
    unfold cached. rewrite (proj2 (Z.eqb_neq f 0)) by done. lia. }
  unfold area_deallocate_frame, bind, get_state, assert, modify. rewrite (proj2 (Z.eqb_neq (total_pages a) 0)) by done.
  cbn [negb]. unfold ret. cbn iota beta.
  destruct (Z.eqb_spec (free_frame a) 0) as [E|E].
  - exists a1. split_and!; [by unfold a1; rewrite E| |done|done].
    intros x. unfold in_use. simpl. destruct (decide (x = 0)) as [->|]; [tauto|]. rewrite E. tauto.
  - destruct (aw_free _ HI) as [|(i & d & j & Hloc & Hb)]; [done|]. pose proof Hloc as (Hi & Hj & Hf).
    rewrite (owner_search_finds _ _ i d j 64 0 (length (segments a)) Hwf Hloc); [| |done|].
    2:{ split; [lia|by eapply lookup_lt_Some]. }
    2:{ rewrite Nat.sub_0_r. by apply segments_fewer. }
    destruct (area_unmark a1 i d j (free_frame a) HI1 Hloc Hb) as (H1 & H2 & H3); [done|simpl; congruence|].
    assert (Hdd : ds_deallocate_frame lg (free_frame a) d = (unmark j d, Ok true)).
    { rewrite Hf. apply ds_deallocate_spec; [by apply (sw_each _ Hwf i)|done|congruence|done]. }
    unfold on_segment at 1. simpl. rewrite Hi, Hdd.
    eexists. split; [reflexivity|].
    replace (set_segments _ _) with (add_used (-1) (set_segments (<[i := unmark j d]> (segments a1)) a1)).
    2:{ unfold add_used, set_segments, a1, set_free_frame, add_used. simpl. f_equal. rewrite u64_add_u64. unfold cached.
        rewrite (proj2 (Z.eqb_neq (free_frame a) 0)) by done. f_equal. lia. }
    split_and!; [|done|done]. intros x. rewrite H2. unfold in_use. simpl. tauto.
Qed.

Lemma reserve_in_spec a i d j f n k : area_wf a -> located (segments a) i d j f -> (k <= i < k + n)%nat ->
  (k + n = length (segments a))%nat ->
  reserve_in lg k n f a =
    if Z.testbit (used_bitmap d) j then (a, Err AlreadyInUse)
    else (add_used 1 (set_segments (<[i := mark j d]> (segments a)) a), Ok tt).
Proof.
  intros HI Hloc. pose proof Hloc as (Hi & Hj & Hf). pose proof (aw_segs _ HI) as Hwf. pose proof (sw_each _ Hwf _ _ Hi) as Hd.
  destruct (page_bounds d j Hd Hj) as (B1 & B2 & _). pose proof (dw_seg_end d Hd) as Ed. pose proof SZ_pos.
  revert k. induction n as [|n IH]; intros k Hk Hn; [lia|]. cbn [reserve_in]. unfold bind at 1, get_state.
  destruct (lookup_lt_is_Some_2 (segments a) k) as [e He]; [lia|]. rewrite He.
  pose proof (sw_each _ Hwf _ _ He) as Hwe. pose proof (dw_seg_end e Hwe) as Ee.
  destruct (decide (k = i)) as [->|Hne].
  - assert (e = d) as -> by congruence. unfold contains.
    rewrite (proj2 (Z.leb_le _ _)), (proj2 (Z.ltb_lt _ _)) by lia. simpl.
    unfold bind, on_segment. rewrite Hi, Hf, (ds_reserve_spec d j Hd Hj).
    destruct (Z.testbit (used_bitmap d) j); [by rewrite set_segments_same|done].
  - assert (Hc : contains (segment e) f = false).
    { pose proof (sw_order _ Hwf k i e d ltac:(lia) He Hi). unfold contains.
      rewrite (proj2 (Z.ltb_ge f _)) by lia. by rewrite andb_false_r. }
    rewrite Hc. simpl. apply IH; lia.
Qed.

Lemma reserve_spec a f : area_wf a -> is_frame (segments a) f -> f <> 0 ->
  (in_use a f /\ area_fixed_addr_reserve lg f a = (a, Err AlreadyInUse)) \/
  exists a', area_fixed_addr_reserve lg f a = (a', Ok tt) /\ allocated a a' f.
Proof.
  intros HI (i & d & j & Hloc) H0.
  assert (Hm : area_fixed_addr_reserve lg f a =
    if free_frame a =? f then (add_used 1 (set_free_frame 0 a), Ok tt) else reserve_in lg 0 (length (segments a)) f a).
  { unfold area_fixed_addr_reserve, bind at 1, get_state. by destruct (free_frame a =? f). }
  rewrite Hm.
  destruct (Z.eqb_spec (free_frame a) f) as [E|E].
  - right. eexists. split; [reflexivity|]. subst f. by apply take_cached.
  - pose proof Hloc as (Hi & _). rewrite (reserve_in_spec a i d j f); [|done|done|apply lookup_lt_Some in Hi; lia|done].
    destruct (Z.testbit (used_bitmap d) j) eqn:Hb.
    + left. split; [|done]. split_and!; [by exists i, d, j|done|done].
    + right. eexists. split; [done|]. by apply gives_allocated.
Qed.

(** ** Runs of frames *)

Fixpoint mark_run (n : nat) (j : Z) (d : DesignatedSegment) : DesignatedSegment :=
  match n with
  | O => d
  | S n' => mark_run n' (j + 1) (mark j d)
  end.

Lemma mask_from_lor n idx m b : Z.lor b (mask_from n idx m) = used_bitmap (mark_run n idx (mkDS (mkSeg 0 0) (Z.lor b m) 0)).
Proof.
  revert idx m. induction n as [|n IH]; intros idx m; [done|]. cbn [mask_from mark_run]. rewrite IH.
  unfold mark, set_bitmap. simpl. by rewrite Z.lor_assoc.
Qed.

Lemma mark_run_eq n j d : mark_run n j d = set_bitmap (Z.lor (used_bitmap d) (mask_from n j 0)) d.
Proof.
  rewrite mask_from_lor, Z.lor_0_r. revert j d. induction n as [|n IH]; intros j d; [by destruct d|]. cbn [mark_run]. by rewrite IH.
Qed.

(** The scan stops at a run of [num] clear bits, if there is one before the last page. *)
Lemma scan_spec prev num n idx from cnt :
  0 <= idx -> 0 <= cnt < num -> cnt <= idx -> (0 < cnt -> from = idx - cnt) ->
  (forall k, idx - cnt <= k < idx -> Z.testbit prev k = false) ->
  let '(f, c) := scan prev num n idx from cnt in
  num <= c -> c = num /\ 0 <= f /\ f + num <= idx + Z.of_nat n /\ forall k, f <= k < f + num -> Z.testbit prev k = false.
Proof.
  revert idx from cnt. induction n as [|n IH]; intros idx from cnt Hi Hc Hci Hfrom Hk; cbn [scan]; [lia|].
  rewrite land_bit_test, negb_involutive by lia. destruct (Z.testbit prev idx) eqn:Hb.
  - specialize (IH (idx + 1) from 0). destruct (scan prev num n (idx + 1) from 0) as [f c]. intros Hle.
    destruct IH as (? & ? & ? & ?); try lia. split_and!; try done; lia.
  - set (from' := if cnt + 1 =? 1 then idx else from). assert (Hf : from' = idx - cnt).
    { unfold from'. destruct (Z.eqb_spec (cnt + 1) 1); lia. }
    assert (Hk' : forall k, idx - cnt <= k < idx + 1 -> Z.testbit prev k = false).
    { intros k Hkk. destruct (decide (k = idx)) as [->|]; [done|]. apply Hk. lia. }
    destruct (Z.eqb_spec (cnt + 1) num) as [E|E].
    + intros _. split_and!; try lia. intros k Hkk. apply Hk'. lia.
    + specialize (IH (idx + 1) from' (cnt + 1)). destruct (scan prev num n (idx + 1) from' (cnt + 1)) as [f c]. intros Hle.
      destruct IH as (? & ? & ? & ?); try lia; [intros k Hkk; apply Hk'; lia|]. split_and!; try done; lia.
Qed.

Lemma ds_contiguous_spec d num : ds_wf d -> 1 < num <= 64 ->
  match ds_allocate_contiguous lg num d with
  | (d', Ok f) => exists j, 0 <= j /\ j + num < num_pages d /\ f = page d j /\ d' = mark_run (Z.to_nat num) j d /\
      forall k, j <= k < j + num -> Z.testbit (used_bitmap d) k = false
  | (d', Err e) => e = OutOfMemory /\ d' = d
  | (_, Panic) => False
  end.
Proof.
  intros H Hn. pose proof (dw_pages _ H) as Hp. unfold ds_allocate_contiguous, bind, get_state, assert.
  rewrite (proj2 (Z.ltb_lt _ _)) by lia. simpl. replace (u8 (num_pages d - 1)) with (num_pages d - 1) by (symmetry; apply u8_id; unfold is_u8; lia).
  pose proof (scan_spec (used_bitmap d) num (Z.to_nat (num_pages d - 1)) 0 0 0) as Hs.
  destruct (scan _ _ _ 0 0 0) as [f c]. destruct (Z.ltb_spec c num) as [Hlt|Hge]; [done|].
  destruct Hs as (-> & Hf & Hfn & Hb); try lia. unfold modify, ret. exists f.
  split_and!; [lia|lia|rewrite page_u64 by (done || lia); done| |done].
  rewrite mark_run_eq. by replace (u8 num) with num by (symmetry; apply u8_id; unfold is_u8; lia).
Qed.

(** Marking a run gives out its frames one by one. *)
Lemma area_mark_run n a i d j :
  area_wf a -> segments a !! i = Some d -> 0 <= j -> j + Z.of_nat n <= num_pages d ->
  (forall k, j <= k < j + Z.of_nat n -> Z.testbit (used_bitmap d) k = false) ->
  let a' := add_used (Z.of_nat n) (set_segments (<[i := mark_run n j d]> (segments a)) a) in
  area_wf a' /\
  (forall x, in_use a' x <-> in_use a x \/ exists k, 0 <= k < Z.of_nat n /\ x = page d j + k * SZ) /\
  (forall k, 0 <= k < Z.of_nat n -> is_frame (segments a) (page d j + k * SZ) /\ ~ in_use a (page d j + k * SZ)).
Proof.
  revert a d j. induction n as [|n IH]; intros a d j HI Hi Hj Hn Hb a'.
  { subst a'. simpl. rewrite set_segments_same by done. replace (add_used (Z.of_nat 0) a) with a.
    2:{ destruct a as [l t u f]. unfold add_used. simpl. f_equal. rewrite ?Z.add_0_r. symmetry.
        pose proof (aw_used _ HI) as Hu. cbn [used_pages] in Hu. rewrite Hu. unfold u64. by rewrite Z.mod_mod. }
    split_and!; [done| |lia]. intros x. split; [by left|]. intros [?|(k & ? & _)]; [done|lia]. }
  assert (Hloc : located (segments a) i d j (page d j)) by (split_and!; done || lia).
  destruct (area_mark a i d j (page d j) HI Hloc) as (HI1 & _ & Hfree & Hin & Hfr); [apply Hb; lia|].
  set (a1 := add_used 1 (set_segments (<[i := mark j d]> (segments a)) a)) in *.
  assert (Hpg : forall k, page (mark j d) k = page d k) by done.
  assert (Hstep : page d (j + 1) = page d j + SZ) by (unfold page; lia).
  assert (Hi1 : segments a1 !! i = Some (mark j d)) by (apply list_lookup_insert_eq; by eapply lookup_lt_Some).
  destruct (IH a1 (mark j d) (j + 1) HI1 Hi1) as (HI2 & Hin2 & Hfree2); [lia|simpl; lia| |].
  { intros k Hk. unfold mark, set_bitmap. cbn [used_bitmap]. rewrite testbit_set by lia.
    rewrite Hb by lia. by rewrite bool_decide_eq_false_2 by lia. }
  assert (Ha : a' = add_used (Z.of_nat n) (set_segments (<[i := mark_run n (j + 1) (mark j d)]> (segments a1)) a1)).
  { unfold a', a1, add_used, set_segments. simpl. f_equal; [by rewrite list_insert_insert_eq|].
    rewrite u64_add_u64. f_equal. lia. }
  rewrite Ha. rewrite Hpg, Hstep in Hin2, Hfree2. split_and!; [done| |].
  - intros x. rewrite Hin2, Hin. split.
    + intros [[?| ->]|(k & Hk & ->)]; [by left|right; exists 0; split; lia|right; exists (k + 1); split; lia].
    + intros [?|(k & Hk & ->)]; [by auto|]. destruct (decide (k = 0)) as [->|]; [left; right; lia|].
      right. exists (k - 1). split; lia.
  - intros k Hk. destruct (decide (k = 0)) as [->|].
    + rewrite Z.mul_0_l, Z.add_0_r. split; [by exists i, d, j|done].
    + destruct (Hfree2 (k - 1)) as [F1 F2]; [lia|]. replace (page d j + SZ + (k - 1) * SZ) with (page d j + k * SZ) in * by lia.
      split; [by apply Hfr|]. intros Hu. apply F2, Hin. by left.
Qed.

Lemma contiguous_spec a num dr : area_wf a -> 1 < num <= 64 ->
  match area_allocate_contiguous_frames lg dr num a with
  | (a', Ok f) => area_wf a' /\
      (forall k, 0 <= k < num -> is_frame (segments a) (f + k * SZ) /\ ~ in_use a (f + k * SZ)) /\
      (forall x, in_use a' x <-> in_use a x \/ exists k, 0 <= k < num /\ x = f + k * SZ)
  | (a', Err e) => e = OutOfMemory /\ a' = a
  | (_, Panic) => False
  end.
Proof.
  intros HI Hn. unfold area_allocate_contiguous_frames, bind at 1, get_state.
  rewrite (proj2 (Z.ltb_ge _ _)), (proj2 (Z.eqb_neq _ _)), (proj2 (Z.leb_le _ _)) by lia.
  assert (Hgen : forall n i, (i + n = length (segments a))%nat ->
    match contiguous_search lg num i n a with
    | (a', Ok f) => area_wf a' /\
        (forall k, 0 <= k < num -> is_frame (segments a) (f + k * SZ) /\ ~ in_use a (f + k * SZ)) /\
        (forall x, in_use a' x <-> in_use a x \/ exists k, 0 <= k < num /\ x = f + k * SZ)
    | (a', Err e) => e = OutOfMemory /\ a' = a
    | (_, Panic) => False
    end); [|by apply Hgen].
  induction n as [|n IH]; intros i Hl; [done|]. cbn [contiguous_search]. unfold bind, ok, on_segment.
  destruct (lookup_lt_is_Some_2 (segments a) i) as [d Hd]; [lia|]. rewrite Hd.
  pose proof (ds_contiguous_spec d num (sw_each _ (aw_segs _ HI) _ _ Hd) Hn) as Hs.
  destruct (ds_allocate_contiguous lg num d) as [d' [f|e|]]; [| |done].
  - destruct Hs as (j & H0 & Hj & -> & -> & Hb). unfold modify, ret.
    destruct (area_mark_run (Z.to_nat num) a i d j HI Hd) as (H1 & H2 & H3); [lia|lia|rewrite Z2Nat.id by lia; done|].
    rewrite Z2Nat.id in H1, H2, H3 by lia. done.
  - destruct Hs as [-> ->]. rewrite set_segments_same by done. apply IH. lia.
Qed.

(** The last page of a segment is never part of a run. *)
Lemma contiguous_last_page d num : ds_wf d -> 1 < num -> num_pages d <= num ->
  ds_allocate_contiguous lg num d = (d, Err OutOfMemory).
Proof.
  intros H Hn Hp. pose proof (dw_pages _ H). unfold ds_allocate_contiguous, bind, get_state, assert.
  rewrite (proj2 (Z.ltb_lt _ _)) by lia. simpl. replace (u8 (num_pages d - 1)) with (num_pages d - 1) by (symmetry; apply u8_id; unfold is_u8; lia).
  pose proof (scan_spec (used_bitmap d) num (Z.to_nat (num_pages d - 1)) 0 0 0) as Hs.
  destruct (scan _ _ _ 0 0 0) as [f c]. destruct (Z.ltb_spec c num) as [Hlt|Hge]; [done|].
  destruct Hs as (-> & Hf & Hfn & Hb); lia.
Qed.
End Frames.
