(* ===== verification/PhysInit.v ===== *)
(** * Physical memory: initialization

    [init] cuts the available memory into segments of at most 64 pages outside the region for
    2 MB pages, and marks what is in use; the result satisfies the invariant of PhysFrames. *)

From stdpp Require Import base numbers list.
From S2P Require Import RustPrelude PhysMem PhysFrames.

Open Scope Z_scope.

Section Init.
Let lg : Z := PAGE_SIZE_SMALL_LOG2.

Lemma lg_ok : 0 < lg <= 30.
Proof. unfold lg, PAGE_SIZE_SMALL_LOG2. lia. Qed.

(** A segment of physical memory: far below the end of the address space. *)
Definition seg_ok (s : MemorySegment) : Prop := 0 <= start s /\ 0 <= size s /\ start s + size s < 2 ^ 63.

Lemma seg_ok_end s : seg_ok s -> seg_end s = start s + size s.
Proof. intros (H1 & H2 & H3). apply u64_id. unfold is_u64. lia. Qed.

Lemma align_down_4096 x : 0 <= x < 2 ^ 63 -> align_down x 4096 = 4096 * (x / 4096).
Proof. intros Hx. unfold align_down. apply (land_not_mask x 12); unfold is_u64; lia. Qed.

Lemma align_up_4096 x : 0 <= x < 2 ^ 63 -> align_up x 4096 = 4096 * ((x + 4095) / 4096).
Proof.
  intros Hx. unfold align_up.
  rewrite (u64_id (x + 4096)) by (unfold is_u64; lia). rewrite u64_id by (unfold is_u64; lia).
  replace (x + 4096 - 1) with (x + 4095) by lia. apply (land_not_mask (x + 4095) 12); unfold is_u64; lia.
Qed.

(** ** Cutting *)

Definition MID_LO : Z := 2097152.
Definition MID_HI : Z := 10485760.

(** A chunk that is added to the area. *)
Record chunk_ok (c : MemorySegment) : Prop := {
  co_start : 0 <= start c;
  co_aligned : start c mod 4096 = 0;
  co_pages : exists n, 1 <= n <= 64 /\ size c = n * 4096;
  co_mid : start c + size c <= MID_LO \/ MID_HI <= start c
}.

Fixpoint chunks (lo hi : Z) (l : list MemorySegment) : Prop :=
  match l with
  | [] => True
  | c :: l' => chunk_ok c /\ lo <= start c /\ start c + size c <= hi /\ chunks (start c + size c) hi l'
  end.

Lemma chunks_weaken lo lo' hi l : lo' <= lo -> chunks lo hi l -> chunks lo' hi l.
Proof. destruct l as [|c l]; [done|]. simpl. intros H (H1 & H2 & H3 & H4). split_and!; [done|lia|done|done]. Qed.

Lemma split_rounds_pages s : seg_ok s -> Z.of_nat (split_rounds lg s) = size s / 4096 + 3.
Proof.
  intros (H1 & H2 & H3). unfold split_rounds. rewrite Z.shiftr_div_pow2 by (unfold lg, PAGE_SIZE_SMALL_LOG2; lia).
  change (2 ^ lg) with 4096. pose proof (Z.div_pos (size s) 4096). lia.
Qed.

Lemma split_step rounds s st (E := start s + size s) :
  seg_ok s -> 4096 <= size s -> st = 4096 * ((start s + 4095) / 4096) -> st + 4096 <= E ->
  let pages := Z.min 64 ((E - st) / 4096) in
  let add en := match split_segment lg rounds (mkSeg en (E - en)) with
                | Some l => Some (mkSeg st (en - st) :: l)
                | None => None
                end in
  split_segment lg (S rounds) s =
    if (st <? MID_LO) && (MID_LO <? st + pages * 4096) then add MID_LO
    else if (MID_LO <=? st) && (st <? MID_HI) then
      if E <=? MID_HI then Some [] else split_segment lg rounds (mkSeg MID_HI (E - MID_HI))
    else add (st + pages * 4096).
Proof.
  intros Hs Hsz Hst Hle pages add. pose proof Hs as (H0 & H1 & H2). cbn [split_segment].
  change (Z.shiftl 1 lg) with 4096. rewrite (proj2 (Z.ltb_ge (size s) 4096)) by lia.
  rewrite (seg_ok_end s Hs). fold E.
  assert (Hal : align_up (start s) 4096 = st) by (rewrite Hst; apply align_up_4096; lia). rewrite Hal.
  rewrite (proj2 (Z.leb_gt E st)) by lia.
  rewrite Z.shiftr_div_pow2 by (unfold lg, PAGE_SIZE_SMALL_LOG2; lia). change (2 ^ lg) with 4096.
  assert (Hpg : 1 <= (E - st) / 4096) by dlia. rewrite (proj2 (Z.eqb_neq ((E - st) / 4096) 0)) by lia.
  assert (Hs' : (if start s <? st then mkSeg st (u64 (size s - (st - start s))) else s) = mkSeg st (E - st)).
  { destruct (Z.ltb_spec (start s) st).
    - f_equal. rewrite u64_id; [unfold E; lia|unfold is_u64; dlia].
    - destruct s as [a b]. simpl in *. unfold E. f_equal; dlia. }
  rewrite Hs'. cbn [start size].
  assert (Hp : (if 64 <? (E - st) / 4096 then 64 else (E - st) / 4096) = pages) by (unfold pages; destruct (Z.ltb_spec 64 ((E - st) / 4096)); lia).
  rewrite Hp. assert (Hb : 1 <= pages <= 64 /\ st + pages * 4096 <= E) by (unfold pages; dlia).
  rewrite Z.shiftl_mul_pow2 by (unfold lg, PAGE_SIZE_SMALL_LOG2; lia). change (2 ^ lg) with 4096.
  assert (Hst0 : 0 <= st) by dlia. rewrite (u64_id (pages * 4096)) by (unfold is_u64; lia).
  change (start MID_PAGES_SEGMENT) with MID_LO. change (seg_end MID_PAGES_SEGMENT) with MID_HI.
  assert (Hend : forall x, st <= x <= E -> seg_end (mkSeg st (x - st)) = x).
  { intros x Hx. unfold seg_end. simpl. rewrite u64_id; [lia|unfold is_u64; lia]. }
  assert (Hch : seg_end (mkSeg st (pages * 4096)) = st + pages * 4096).
  { unfold seg_end. simpl. apply u64_id. unfold is_u64. lia. }
  assert (HsE : seg_end (mkSeg st (E - st)) = E) by (apply Hend; lia). rewrite Hch, HsE.
  assert (Hsub : u64 (E - st - pages * 4096) = E - (st + pages * 4096)) by (rewrite u64_id; [lia|unfold is_u64; lia]).
  assert (Hadd : add (st + pages * 4096) =
    match split_segment lg rounds (mkSeg (st + pages * 4096) (E - (st + pages * 4096))) with
    | Some l => Some (mkSeg st (pages * 4096) :: l)
    | None => None
    end) by (unfold add; by replace (st + pages * 4096 - st) with (pages * 4096) by lia).
  rewrite Hsub, Hadd.
  destruct (Z.ltb_spec st MID_LO) as [A1|A1]; simpl andb.
  - destruct (Z.ltb_spec MID_LO (st + pages * 4096)) as [A2|A2]; [|by rewrite (proj2 (Z.leb_gt MID_LO st)) by lia].
    rewrite (u64_id (MID_LO - st)) by (unfold is_u64, MID_LO in *; lia). rewrite Hend by lia.
    rewrite u64_id by (unfold is_u64, MID_LO in *; lia). unfold add. by replace (E - st - (MID_LO - st)) with (E - MID_LO) by lia.
  - destruct (Z.leb_spec E MID_HI); [done|]. by rewrite u64_id by (unfold is_u64, MID_HI in *; lia).
Qed.

Lemma split_stop rounds s :
  seg_ok s -> start s + size s < 4096 * ((start s + 4095) / 4096) + 4096 -> split_segment lg (S rounds) s = Some [].
Proof.
  intros Hs Hlt. pose proof Hs as (H0 & H1 & H2). cbn [split_segment]. change (Z.shiftl 1 lg) with 4096.
  destruct (size s <? 4096); [done|].
  assert (Hal : align_up (start s) 4096 = 4096 * ((start s + 4095) / 4096)) by (apply align_up_4096; lia). rewrite Hal.
  rewrite (seg_ok_end s Hs). destruct (Z.leb_spec (start s + size s) (4096 * ((start s + 4095) / 4096))); [done|].
  rewrite Z.shiftr_div_pow2 by (unfold lg, PAGE_SIZE_SMALL_LOG2; lia). change (2 ^ lg) with 4096.
  rewrite (proj2 (Z.eqb_eq _ 0)); [done|]. apply Z.div_small. lia.
Qed.

(** Every round takes at least a page away, so a segment of [n] pages is cut in [n + 1] rounds; the chunks
    lie in the segment, in order, and outside the MID region. *)
Lemma split_ok rounds s :
  seg_ok s -> size s / 4096 < Z.of_nat rounds ->
  exists l, split_segment lg rounds s = Some l /\ chunks (start s) (start s + size s) l.
Proof.
  revert s. induction rounds as [|rounds IH]; intros s Hs Hr.
  { destruct Hs as (_ & H1 & _). pose proof (Z.div_pos (size s) 4096). lia. }
  pose proof Hs as (H0 & H1 & H2). set (st := 4096 * ((start s + 4095) / 4096)). set (E := start s + size s).
  assert (Hst : start s <= st < start s + 4096 /\ st mod 4096 = 0) by (unfold st; dlia).
  destruct (decide (E < st + 4096)) as [Hlt|Hge]; [exists []; split; [by apply split_stop|done]|].
  rewrite (split_step rounds s st Hs) by (fold E; done || lia). fold E.
  set (pages := Z.min 64 ((E - st) / 4096)). assert (Hp : 1 <= pages <= 64 /\ st + pages * 4096 <= E) by (unfold pages; dlia).
  assert (Hadd : forall en, st + 4096 <= en <= E -> en <= st + 64 * 4096 -> en mod 4096 = 0 ->
    en <= MID_LO \/ MID_HI <= st ->
    exists l, match split_segment lg rounds (mkSeg en (E - en)) with
              | Some l => Some (mkSeg st (en - st) :: l)
              | None => None
              end = Some l /\ chunks (start s) E l).
  { intros en Hen Hmax Hmod Hmid. destruct (IH (mkSeg en (E - en))) as (l & -> & Hl).
    - split_and!; simpl; lia.
    - simpl. unfold E in *. dlia.
    - eexists. split; [done|]. simpl in Hl |- *. replace (en + (E - en)) with E in Hl by lia.
      replace (st + (en - st)) with en by lia. split_and!; [|lia|lia|done]. split; simpl; [lia|tauto| |lia].
      exists ((en - st) / 4096). dlia. }
  destruct ((st <? MID_LO) && (MID_LO <? st + pages * 4096)) eqn:A.
  { apply andb_true_iff in A as [A1%Z.ltb_lt A2%Z.ltb_lt]. apply Hadd; unfold MID_LO in *; (done || lia). }
  destruct ((MID_LO <=? st) && (st <? MID_HI)) eqn:B.
  { apply andb_true_iff in B as [B1%Z.leb_le B2%Z.ltb_lt]. destruct (Z.leb_spec E MID_HI); [by exists []|].
    destruct (IH (mkSeg MID_HI (E - MID_HI))) as (l & -> & Hl).
    - split_and!; simpl; unfold MID_HI, MID_LO in *; lia.
    - simpl. unfold MID_HI, MID_LO, E in *. dlia.
    - exists l. split; [done|]. simpl in Hl. replace (MID_HI + (E - MID_HI)) with E in Hl by lia.
      apply (chunks_weaken MID_HI); [lia|done]. }
  apply Hadd; [lia|lia|dlia|].
  apply andb_false_iff in A as [A%Z.ltb_ge|A%Z.ltb_ge]; apply andb_false_iff in B as [B%Z.leb_gt|B%Z.ltb_ge]; lia.
Qed.

Lemma split_available s : seg_ok s ->
  exists l, split_segment lg (split_rounds lg s) s = Some l /\ chunks (start s) (start s + size s) l.
Proof. intros Hs. apply split_ok; [done|]. rewrite split_rounds_pages by done. lia. Qed.

Lemma chunks_each lo hi l : chunks lo hi l ->
  Forall (fun c => chunk_ok c /\ lo <= start c /\ start c + size c <= hi) l.
Proof.
  revert lo. induction l as [|c l IH]; intros lo; [by constructor|]. intros (H1 & H2 & H3 & H4). constructor; [done|].
  eapply Forall_impl; [by apply IH|]. intros c' (Hc & Hlo & Hhi). split_and!; [done| |done].
  destruct (co_pages _ H1) as (n & Hn & Hs). lia.
Qed.

(** ** Building the area *)

Abbreviation wf_area := (area_wf lg).
Abbreviation ds_ok := (ds_wf lg).

Lemma ds_new_ok c : chunk_ok c -> start c + size c < 2 ^ 63 ->
  ds_ok (ds_new lg c) /\ num_pages (ds_new lg c) * 4096 = size c /\ ones_in (ds_new lg c) = zero_in (ds_new lg c).
Proof.
  intros [H1 H2 (n & Hn & Hsz) H4] Hlt.
  assert (Hp : num_pages (ds_new lg c) = n).
  { unfold ds_new. simpl. rewrite Hsz, Z.shiftr_div_pow2 by (unfold lg, PAGE_SIZE_SMALL_LOG2; lia).
    change (2 ^ lg) with 4096. rewrite Z.div_mul by lia. apply u8_id. unfold is_u8. lia. }
  split_and!; [|lia|].
  - split; rewrite ?Hp; unfold ds_new; cbn [segment used_bitmap num_pages]; change (2 ^ lg) with 4096; try done.
    + destruct (start c =? 0); unfold is_u64; lia.
    + intros k Hk. destruct (start c =? 0); [|apply Z.bits_0]. apply Z.bits_above_log2; simpl; lia.
    + intros ->. done.
  - unfold ones_in, zero_in, ds_new. cbn [segment used_bitmap]. destruct (start c =? 0); vm_compute; done.
Qed.

(** What every segment of the area is to satisfy. *)
Section Build.
Variable P : MemorySegment -> Prop.

Record built (hi : Z) (a : MemoryArea) : Prop := {
  bl_each : forall i d, segments a !! i = Some d -> P (segment d);
  bl_segs : segs_wf lg (segments a);
  bl_below : forall i d, segments a !! i = Some d -> seg_end (segment d) <= hi;
  bl_fresh : zsum ones_in (segments a) = zsum zero_in (segments a);
  bl_total : total_pages a = zsum num_pages (segments a);
  bl_size : 0 <= total_pages a /\ total_pages a * 4096 <= hi;
  bl_zero : used_pages a = 0 /\ free_frame a = 0
}.

Lemma zsum_app g l l' : zsum g (l ++ l') = zsum g l + zsum g l'.
Proof. unfold zsum. induction l as [|d l IH]; simpl; [done|]. rewrite IH. lia. Qed.

Lemma add_segment_built lo c a : built lo a -> P c -> chunk_ok c -> lo <= start c -> start c + size c < 2 ^ 63 ->
  built (start c + size c) (add_segment lg c a).
Proof.
  intros [He0 [Hw Ho] Hb Hf Ht [Hs0 Hs] [Hu Hff]] HP Hc Hlo Hlt. destruct (ds_new_ok c Hc Hlt) as (Hd & Hn & He).
  pose proof (co_start _ Hc) as Hc0. pose proof (dw_pages _ _ Hd).
  assert (Hend : seg_end c = start c + size c) by (apply seg_ok_end; split_and!; lia).
  assert (Hcase : forall i d, (segments a ++ [ds_new lg c]) !! i = Some d ->
    segments a !! i = Some d \/ i = length (segments a) /\ d = ds_new lg c).
  { intros i d [Hi|[Hle Hi]]%lookup_app_Some; [by left|right]. apply list_lookup_singleton_Some in Hi as [? <-]. split; [lia|done]. }
  split; unfold add_segment; cbn [segments total_pages used_pages free_frame].
  - intros i d [Hi|[_ ->]]%Hcase; [by apply (He0 i)|done].
  - split.
    + intros i d [Hi|[_ ->]]%Hcase; [by apply (Hw i)|done].
    + intros i1 i2 d1 d2 Hi [H1|[-> ->]]%Hcase [H2|[-> ->]]%Hcase; [by apply (Ho i1 i2)| | |lia].
      * specialize (Hb _ _ H1). simpl. lia.
      * apply lookup_lt_Some in H2. lia.
  - intros i d [Hi|[_ ->]]%Hcase; [specialize (Hb _ _ Hi)|simpl]; lia.
  - rewrite !zsum_app. simpl. lia.
  - rewrite zsum_app, Ht. change (zsum num_pages [ds_new lg c]) with (num_pages (ds_new lg c) + 0). rewrite Z.shiftr_div_pow2 by (unfold lg, PAGE_SIZE_SMALL_LOG2; lia).
    change (2 ^ lg) with 4096. rewrite <- Hn, Z.div_mul by lia. rewrite u64_id; [lia|unfold is_u64; lia].
  - rewrite Z.shiftr_div_pow2 by (unfold lg, PAGE_SIZE_SMALL_LOG2; lia).
    change (2 ^ lg) with 4096. rewrite <- Hn at 1 2. rewrite Z.div_mul by lia. rewrite u64_id; [lia|unfold is_u64; lia].
  - done.
Qed.

Lemma built_mono lo hi a : built lo a -> lo <= hi -> built hi a.
Proof.
  intros [H0 H1 H2 H3 H4 H5 H6] Hle. split; try done; [|lia]. intros i d Hi. specialize (H2 _ _ Hi). lia.
Qed.

Lemma add_chunks_built lo hi l a : built lo a -> Forall P l -> chunks lo hi l -> lo <= hi -> hi < 2 ^ 63 ->
  built hi (fold_left (fun a c => add_segment lg c a) l a).
Proof.
  revert lo a. induction l as [|c l IH]; intros lo a Hb HP Hc Hle Hlt; [by apply (built_mono lo)|].
  destruct Hc as (H1 & H2 & H3 & H4). apply Forall_cons in HP as [HP1 HP2]. simpl.
  apply (IH (start c + size c)); [|done..]. apply (add_segment_built lo); [done..|lia].
Qed.

(** Available memory in increasing order, from [prev] on. *)
Fixpoint in_order (prev : Z) (available : list MemorySegment) : Prop :=
  match available with
  | [] => True
  | s :: available' => seg_ok s /\ prev <= start s /\ in_order (start s + size s) available'
  end.

Lemma assign_built prev available a :
  built prev a -> prev < 2 ^ 63 -> in_order prev available ->
  (forall s c, s ∈ available -> chunk_ok c -> start s <= start c -> start c + size c <= start s + size s -> P c) ->
  exists a' hi, assign_pages_to_area lg available a = Some a' /\ built hi a' /\ hi < 2 ^ 63.
Proof.
  revert prev a. induction available as [|s available IH]; intros prev a Hb Hp Ho HP; [by exists a, prev|].
  destruct Ho as (Hs & Hle & Ho). destruct (split_available s Hs) as (l & Hl & Hc). pose proof Hs as (H0 & H1 & H2).
  cbn [assign_pages_to_area]. rewrite Hl. apply (IH (start s + size s)); [|lia|done|].
  - apply (add_chunks_built (start s)); [by apply (built_mono prev)| |done|lia|lia].
    eapply Forall_impl; [by apply chunks_each|]. intros c (Hc1 & Hc2 & Hc3). by apply (HP s c (list_elem_of_here _ _)).
  - intros s' c Hs'. apply HP. by apply list_elem_of_further.
Qed.

Lemma sort_sorted l : segs_wf lg l -> foldr sort_insert [] l = l.
Proof.
  induction l as [|d l IH]; intros [Hw Ho]; [done|]. simpl. rewrite IH.
  2:{ split; [intros i e Hi; by apply (Hw (S i))|]. intros i1 i2 d1 d2 Hi H1 H2. by apply (Ho (S i1) (S i2)); [lia| |]. }
  destruct l as [|e l]; [done|]. simpl. rewrite (proj2 (Z.leb_le _ _)); [done|].
  pose proof (Ho 0%nat 1%nat d e ltac:(lia) eq_refl eq_refl). pose proof (Hw 0%nat d eq_refl) as Hd.
  rewrite (dw_seg_end lg lg_ok d Hd) in *. pose proof (dw_pages _ _ Hd). pose proof (SZ_pos lg lg_ok). nia.
Qed.

Lemma built_area hi a : built hi a -> hi < 2 ^ 63 -> wf_area (area_sort a) /\ free_frame (area_sort a) = 0 /\
  segments (area_sort a) = segments a /\ forall x, ~ in_use lg (area_sort a) x.
Proof.
  intros [_ H1 H2 H3 H4 H5 [H6 H7]] Hlt. unfold area_sort. rewrite sort_sorted by done.
  replace (set_segments (segments a) a) with a by (by destruct a).
  assert (HI : wf_area a).
  { split; [done|done|lia|by left|]. rewrite H6, H3, H7. unfold cached. simpl. by rewrite Z.sub_diag. }
  split_and!; [done..|]. intros x ((i & d & j & Hloc & Hb) & Hx & _).
  pose proof (sw_each _ _ H1) as Hw. pose proof Hloc as (Hi & Hj & Hf).
  assert (E : ones_in d = zero_in d).
  { symmetry. apply (zsum_squeeze zero_in ones_in (segments a)) with i; [|lia|done]. intros i' d' Hi'.
    apply (zero_in_le lg). by apply (Hw i'). }
  pose proof (Hw _ _ Hi) as Hd.
  pose proof (ones_in_unmark d j) as Hu. pose proof (dw_pages _ _ Hd).
  pose proof (unmark_wf lg lg_ok d j Hd Hj) as Hwu. rewrite <- Hf in Hwu. specialize (Hwu Hx Hb).
  pose proof (zero_in_le lg _ Hwu) as Hz. specialize (Hu ltac:(lia) Hb).
  change (zero_in (unmark j d)) with (zero_in d) in Hz. lia.
Qed.

End Build.

(** ** Marking what is in use *)

Lemma mark_used_loop_run rounds a i d j en u :
  wf_area a -> free_frame a = 0 -> segments a !! i = Some d -> 0 <= j <= num_pages d -> en <= page lg d (num_pages d) ->
  num_pages d - j < Z.of_nat rounds ->
  exists d' k, mark_used_loop lg rounds (page lg d j) en u d = (d', Ok (u + k)) /\
    let a' := add_used k (set_segments (<[i := d']> (segments a)) a) in
    wf_area a' /\ (forall x, is_frame lg (segments a') x <-> is_frame lg (segments a) x) /\
    (forall x, in_use lg a' x <-> in_use lg a x \/
       x <> 0 /\ exists j', j <= j' < num_pages d /\ x = page lg d j' /\ x < en).
Proof.
  revert a d j u. induction rounds as [|rounds IH]; intros a d j u HI Hff Hi Hj Hen Hr; [lia|].
  pose proof (sw_each _ _ (aw_segs _ _ HI) _ _ Hi) as Hd. cbn [mark_used_loop].
  assert (Hstep : forall k, page lg d (k + 1) = page lg d k + 4096) by (intros k; unfold page; change (2 ^ lg) with 4096; lia).
  assert (Hmono : forall k k', k <= k' -> page lg d k <= page lg d k') by (intros k k' Hk; unfold page; change (2 ^ lg) with 4096; lia).
  destruct (Z.ltb_spec (page lg d j) en) as [Hlt|Hge].
  2:{ exists d, 0. rewrite Z.add_0_r. split; [done|]. rewrite set_segments_same by done.
      assert (E : add_used 0 a = a).
      { destruct a as [l t us f]. unfold add_used. simpl. f_equal. rewrite Z.add_0_r.
        pose proof (aw_used _ _ HI) as Hu. cbn [used_pages] in Hu. rewrite Hu. unfold u64. by rewrite Z.mod_mod. }
      rewrite E. split_and!; [done|done|]. intros x. split; [by left|]. intros [?|(_ & j' & Hj' & -> & Hx)]; [done|].
      specialize (Hmono j j' ltac:(lia)). lia. }
  assert (Hjn : j < num_pages d).
  { destruct (decide (j = num_pages d)) as [->|]; lia. }
  destruct (page_bounds lg lg_ok d j Hd ltac:(lia)) as (B1 & B2 & B3). change (2 ^ lg) with 4096 in B2.
  rewrite (ds_reserve_spec lg lg_ok d j Hd) by lia. change (Z.shiftl 1 lg) with 4096.
  pose proof (dw_start _ _ Hd). pose proof (dw_end _ _ Hd) as Hde. rewrite (dw_size _ _ Hd) in Hde. change (2 ^ lg) with 4096 in Hde.
  rewrite (u64_id (page lg d j + 4096)) by (unfold is_u64; lia). rewrite <- Hstep.
  assert (Hloc : located lg (segments a) i d j (page lg d j)) by (split_and!; done || lia).
  destruct (Z.testbit (used_bitmap d) j) eqn:Hb.
  - destruct (IH a d (j + 1) u HI Hff Hi) as (d' & k & Hl & HI' & Hfr & Hin); [lia|done|lia|].
    exists d', k. split; [done|]. split_and!; [done|done|]. intros x. rewrite Hin. split.
    + intros [?|(Hx & j' & Hj' & ? & ?)]; [by left|right]. split; [done|]. exists j'. split; [lia|done].
    + intros [?|(Hx & j' & Hj' & E & ?)]; [by left|]. destruct (decide (j' = j)) as [->|].
      * left. split_and!; [exists i, d, j; by subst x|done|congruence].
      * right. split; [done|]. exists j'. split; [lia|done].
  - destruct (area_mark lg lg_ok a i d j (page lg d j) HI Hloc Hb) as (HI1 & H0 & _ & Hin1 & Hfr1).
    set (a1 := add_used 1 (set_segments (<[i := mark j d]> (segments a)) a)) in *.
    assert (Hi1 : segments a1 !! i = Some (mark j d)) by (apply list_lookup_insert_eq; by eapply lookup_lt_Some).
    destruct (IH a1 (mark j d) (j + 1) (u + 1) HI1 Hff Hi1) as (d' & k & Hl & HI' & Hfr & Hin); [simpl; lia|done|simpl; lia|].
    exists d', (k + 1). replace (u + (k + 1)) with (u + 1 + k) by lia. split; [done|].
    assert (Ha : add_used (k + 1) (set_segments (<[i := d']> (segments a)) a) =
                 add_used k (set_segments (<[i := d']> (segments a1)) a1)).
    { unfold a1, add_used, set_segments. simpl. f_equal; [by rewrite list_insert_insert_eq|]. rewrite u64_add_u64. f_equal. lia. }
    rewrite Ha. split_and!; [done|intros x; by rewrite Hfr, Hfr1|]. intros x. rewrite Hin, Hin1. split.
    + intros [[?| ->]|(Hx & j' & Hj' & ? & ?)]; [by left|right; split; [done|]; exists j; split_and!; done || lia|right].
      split; [done|]. exists j'. simpl in Hj'. split; [lia|done].
    + intros [?|(Hx & j' & Hj' & E & ?)]; [by auto|]. destruct (decide (j' = j)) as [->|]; [by auto|].
      right. split; [done|]. exists j'. split; [simpl; lia|done].
Qed.

Lemma mark_used_loop_end rounds st en u d : en <= st -> mark_used_loop lg (S rounds) st en u d = (d, Ok u).
Proof. intros H. cbn [mark_used_loop]. by rewrite (proj2 (Z.ltb_ge st en)) by lia. Qed.

(** The pages that a segment touches. *)
Definition touches (s : MemorySegment) (x : Z) : Prop :=
  4096 * (start s / 4096) <= x < 4096 * ((start s + size s + 4095) / 4096).

Lemma ds_mark_used_run a i d s :
  wf_area a -> free_frame a = 0 -> segments a !! i = Some d -> seg_ok s ->
  exists d' k, ds_mark_used lg s d = (d', Ok k) /\
    let a' := add_used k (set_segments (<[i := d']> (segments a)) a) in
    wf_area a' /\ (forall x, is_frame lg (segments a') x <-> is_frame lg (segments a) x) /\
    (forall x, in_use lg a' x <-> in_use lg a x \/
       x <> 0 /\ touches s x /\ exists j, 0 <= j < num_pages d /\ x = page lg d j).
Proof.
  intros HI Hff Hi Hs. pose proof Hs as (H0 & H1 & H2). pose proof (sw_each _ _ (aw_segs _ _ HI) _ _ Hi) as Hd.
  unfold ds_mark_used, bind, get_state. change (Z.shiftl 1 lg) with 4096.
  rewrite (align_down_4096 (start s)), (seg_ok_end s Hs), (align_up_4096 (start s + size s)) by lia.
  rewrite (dw_seg_end lg lg_ok d Hd). change (2 ^ lg) with 4096.
  set (lo := 4096 * (start s / 4096)). set (hi := 4096 * ((start s + size s + 4095) / 4096)).
  pose proof (dw_aligned _ _ Hd) as Hal. change (2 ^ lg) with 4096 in Hal. pose proof (dw_pages _ _ Hd) as Hp.
  pose proof (dw_start _ _ Hd) as Hst0.
  set (st := Z.max lo (start (segment d))). set (en := Z.min hi (start (segment d) + num_pages d * 4096)).
  destruct (decide (st < en)) as [Hlt|Hge].
  - set (j := (st - start (segment d)) / 4096).
    assert (Hj : st = page lg d j /\ 0 <= j < num_pages d).
    { unfold page. change (2 ^ lg) with 4096. unfold j, st, en, lo in *. dlia. }
    destruct Hj as [Hj1 Hj2]. rewrite Hj1.
    destruct (mark_used_loop_run 65 a i d j en 0 HI Hff Hi) as (d' & k & Hl & HI' & Hfr & Hin); [lia| |lia|].
    { unfold page, en. change (2 ^ lg) with 4096. lia. }
    exists d', k. rewrite Hl. split; [done|]. split_and!; [done|done|]. intros x. rewrite Hin. unfold touches. fold lo hi.
    unfold page in *. change (2 ^ lg) with 4096 in *. split.
    + intros [?|(Hx & j' & Hj' & E & ?)]; [by left|right]. split_and!; [done| | |].
      * unfold st in *. lia.
      * unfold en in *. lia.
      * exists j'. split; [lia|done].
    + intros [?|(Hx & Ht & j' & Hj' & E)]; [by left|right]. split; [done|]. exists j'. unfold st, en in *.
      split_and!; [|lia|done|lia]. unfold j, lo in *. dlia.
  - exists d, 0. rewrite mark_used_loop_end by lia. split; [done|].
    destruct (mark_used_loop_run 1 a i d (num_pages d) (page lg d (num_pages d)) 0 HI Hff Hi) as (d' & k & Hl & HI' & Hfr & Hin);
      [lia|lia|lia|].
    rewrite mark_used_loop_end in Hl by lia. injection Hl as <- Hk. assert (k = 0) as -> by lia.
    split_and!; [done|done|]. intros x. rewrite Hin. split.
    + intros [?|(_ & j' & Hj' & _)]; [by left|lia].
    + intros [?|(Hx & Ht & j' & Hj' & E)]; [by left|]. exfalso. unfold touches in Ht. fold lo hi in Ht.
      unfold page in E. change (2 ^ lg) with 4096 in E. unfold st, en in *. lia.
Qed.

Lemma area_mark_used_from_run n i a s :
  wf_area a -> free_frame a = 0 -> seg_ok s -> (i + n = length (segments a))%nat ->
  exists a', area_mark_used_from lg i n s a = (a', Ok tt) /\ wf_area a' /\ free_frame a' = 0 /\
    (forall x, is_frame lg (segments a') x <-> is_frame lg (segments a) x) /\
    (forall x, in_use lg a' x <-> in_use lg a x \/
       x <> 0 /\ touches s x /\ exists i' d j, (i <= i')%nat /\ located lg (segments a) i' d j x).
Proof.
  revert i a. induction n as [|n IH]; intros i a HI Hff Hs Hn.
  { exists a. split_and!; try done. intros x. split; [by left|]. intros [?|(_ & _ & i' & d & j & Hi' & Hl & _)]; [done|].
    apply lookup_lt_Some in Hl. lia. }
  destruct (lookup_lt_is_Some_2 (segments a) i) as [d Hd]; [lia|].
  destruct (ds_mark_used_run a i d s HI Hff Hd Hs) as (d' & k & Hrun & HI1 & Hfr1 & Hin1).
  set (a1 := add_used k (set_segments (<[i := d']> (segments a)) a)) in *.
  destruct (IH (S i) a1 HI1 Hff Hs) as (a' & Hrun' & HI' & Hff' & Hfr & Hin).
  { simpl. rewrite length_insert. lia. }
  exists a'. cbn [area_mark_used_from]. unfold bind, on_segment. rewrite Hd, Hrun. unfold modify. fold a1.
  split_and!; [done..|intros x; by rewrite Hfr, Hfr1|].
  assert (Hloc : forall i' e j x, (S i <= i')%nat -> located lg (segments a1) i' e j x <-> located lg (segments a) i' e j x).
  { intros i' e j x Hi'. unfold located. simpl. rewrite list_lookup_insert_ne by lia. done. }
  intros x. rewrite Hin, Hin1. split.
  - intros [[?|(H1 & H2 & j & Hj & ->)]|(H1 & H2 & i' & e & j & Hi' & Hl)]; [by left| |]; right; split_and!; try done.
    + exists i, d, j. done.
    + exists i', e, j. split; [lia|]. by apply Hloc.
  - intros [?|(H1 & H2 & i' & e & j & Hi' & Hl)]; [by auto|]. destruct (decide (i' = i)) as [->|].
    + left. right. split_and!; [done|done|]. destruct Hl as (Hl & Hj & ->). assert (e = d) as -> by congruence. by exists j.
    + right. split_and!; [done|done|]. exists i', e, j. split; [lia|]. apply Hloc; [lia|done].
Qed.

Lemma mark_used_all_run in_use_segs a :
  wf_area a -> free_frame a = 0 -> Forall seg_ok in_use_segs ->
  exists a', mark_used_all in_use_segs a = (a', Ok tt) /\ wf_area a' /\ free_frame a' = 0 /\
    (forall x, is_frame lg (segments a') x <-> is_frame lg (segments a) x) /\
    (forall x, in_use lg a' x <-> in_use lg a x \/
       x <> 0 /\ is_frame lg (segments a) x /\ Exists (fun s => touches s x) in_use_segs).
Proof.
  intros HI Hff Hs. revert a HI Hff. induction Hs as [|s l Hs Hl IH]; intros a HI Hff.
  { exists a. split_and!; try done. intros x. split; [by left|]. intros [?|(_ & _ & H)]; [done|]. by apply Exists_nil in H. }
  destruct (area_mark_used_from_run (length (segments a)) 0 a s HI Hff Hs) as (a1 & H1 & HI1 & Hff1 & Hfr1 & Hin1); [done|].
  destruct (IH a1 HI1 Hff1) as (a' & H2 & HI' & Hff' & Hfr & Hin). exists a'. cbn [mark_used_all].
  unfold bind at 1, area_mark_used, bind, get_state. fold lg. rewrite H1. split_and!; [done..|intros x; by rewrite Hfr, Hfr1|].
  intros x. rewrite Hin, Hin1, Hfr1, Exists_cons. split.
  - intros [[?|(? & ? & i & d & j & _ & Hx)]|(? & ? & ?)]; [by left| |by auto]. right. split_and!; [done| |by left].
    by exists i, d, j.
  - intros [?|(? & (i & d & j & Hx) & [?|?])]; [by auto| |].
    + left. right. split_and!; [done..|]. exists i, d, j. split; [lia|done].
    + right. split_and!; [done| |done]. by exists i, d, j.
Qed.

Lemma check_in_order available total prev mid total' :
  Forall seg_ok available -> 0 <= prev -> check_available available total prev mid = Ok (total', true) -> in_order prev available.
Proof.
  intros Hs. revert total prev mid. induction Hs as [|s l Hs Hl IH]; intros total prev mid Hp; [done|].
  cbn [check_available]. destruct (Z.leb_spec prev (start s)) as [Hle|]; [|done]. intros H.
  pose proof Hs as (H0 & H1 & H2). rewrite (u64_id (start s + size s)) in H by (unfold is_u64; lia).
  split_and!; [done|done|]. apply IH in H; [done|lia].
Qed.

(** Frames of the area after [init]: in available memory, and not in the region for 2 MB pages. *)
Definition well_placed (available : list MemorySegment) (c : MemorySegment) : Prop :=
  (start c + size c <= MID_LO \/ MID_HI <= start c) /\
  exists s, s ∈ available /\ start s <= start c /\ start c + size c <= start s + size s.

Definition frame_placed (available : list MemorySegment) (x : Z) : Prop :=
  (x + 4096 <= MID_LO \/ MID_HI <= x) /\ exists s, s ∈ available /\ start s <= x /\ x + 4096 <= start s + size s.

Lemma init_spec available in_use_segs total :
  Forall seg_ok available -> Forall seg_ok in_use_segs -> check_available available 0 0 false = Ok (total, true) ->
  exists p, init available in_use_segs = Ok p /\ wf_area (small_pages p) /\
    (forall x, is_frame lg (segments (small_pages p)) x -> frame_placed available x) /\
    (forall x, in_use lg (small_pages p) x <->
      is_frame lg (segments (small_pages p)) x /\ x <> 0 /\ Exists (fun s => touches s x) in_use_segs) /\
    mid_pages p = ds_new PAGE_SIZE_MID_LOG2 MID_PAGES_SEGMENT.
Proof.
  intros Hav Hus Hc. pose proof (check_in_order available 0 0 false total Hav ltac:(lia) Hc) as Ho.
  destruct (assign_built (well_placed available) 0 available area_new) as (a & hi & Ha & Hb & Hhi); [|lia|done| |].
  { split; simpl; done || lia. }
  { intros s c Hs Hch H1 H2. split; [apply (co_mid _ Hch)|]. by exists s. }
  destruct (built_area _ hi a Hb Hhi) as (HI & Hff & Hsegs & Hno).
  destruct (mark_used_all_run in_use_segs _ HI Hff Hus) as (a' & Hm & HI' & Hff' & Hfr & Hin).
  unfold init. rewrite Hc. fold lg. rewrite Ha, Hm. eexists. split; [done|]. simpl. split_and!; [done| | |done].
  - intros x Hx. apply Hfr in Hx as (i & d & j & Hi & Hj & ->). rewrite Hsegs in Hi.
    pose proof (sw_each _ _ (bl_segs _ _ _ Hb) _ _ Hi) as Hd.
    destruct (bl_each _ _ _ Hb _ _ Hi) as [Hmid (s & Hs & H1 & H2)].
    destruct (page_bounds lg lg_ok d j Hd Hj) as (B1 & B2 & _). rewrite (dw_size _ _ Hd) in *. change (2 ^ lg) with 4096 in *.
    split; [lia|]. exists s. split; [done|]. lia.
  - intros x. rewrite Hin, Hfr. split; [|tauto]. intros [H|?]; [by destruct (Hno x)|tauto].
Qed.
End Init.
