(* ===== verification/PhysProps.v ===== *)
(** * Physical memory: the properties

    What the kernel relies on: the state after start-up, the set of small frames in use as the
    specification of the allocator's operations, frames that are never shared, runs of frames,
    the counter of used pages, and the arithmetic of memory segments. *)

From stdpp Require Import base numbers list.
From S2P Require Import RustPrelude PhysMem PhysFrames PhysInit.

Open Scope Z_scope.

(** ** Specification: the small frames and those in use *)

Abbreviation SM := PAGE_SIZE_SMALL_LOG2.

Definition frame (p : PhysicalMemory) (x : Z) : Prop := is_frame SM (segments (small_pages p)) x.
Definition used (p : PhysicalMemory) (x : Z) : Prop := in_use SM (small_pages p) x.
Definition phys_wf (p : PhysicalMemory) : Prop := area_wf SM (small_pages p) /\ ds_wf PAGE_SIZE_MID_LOG2 (mid_pages p).

(** [p'] has the frames of [p]; what is in use changed as [f] says. *)
Definition becomes (p p' : PhysicalMemory) (f : Z -> Prop) : Prop :=
  phys_wf p' /\ mid_pages p' = mid_pages p /\ (forall x, frame p' x <-> frame p x) /\ (forall x, used p' x <-> f x).

Lemma allocate_small p base : phys_wf p ->
  match allocate_frameless base SmallPage p with
  | (p', Ok f) => frame p f /\ f <> 0 /\ ~ used p f /\ becomes p p' (fun x => used p x \/ x = f)
  | (p', Err e) => e = OutOfMemory /\ p' = p /\ forall f, frame p f -> f <> 0 -> used p f
  | (_, Panic) => False
  end.
Proof.
  intros [HI Hm]. pose proof (allocate_spec SM lg_ok (small_pages p) (draws base) HI) as H.
  unfold allocate_frameless, on_small. destruct (do_allocate_frame _ _ _) as [a [f|e|]]; [| |done].
  - by destruct H as (H1 & H2 & H3 & H4 & H5 & H6).
  - destruct H as (H1 & -> & H2). split_and!; [done|by destruct p|done].
Qed.

Lemma deallocate_small p f : phys_wf p -> used p f ->
  exists p', deallocate_frameless f SmallPage p = (p', Ok tt) /\ becomes p p' (fun x => used p x /\ x <> f).
Proof.
  intros [HI Hm] Hu. destruct (deallocate_spec SM lg_ok _ _ HI Hu) as (a & E & H1 & H2 & H3).
  unfold deallocate_frameless, on_small. rewrite E. by eexists.
Qed.

Lemma reserve_small p f : phys_wf p -> frame p f -> f <> 0 -> f <> LAPIC_BASE -> f <> IOAPIC_BASE ->
  (used p f /\ fixed_addr_reserve f SmallPage p = (p, Err AlreadyInUse)) \/
  (~ used p f /\ exists p', fixed_addr_reserve f SmallPage p = (p', Ok tt) /\ becomes p p' (fun x => used p x \/ x = f)).
Proof.
  intros [HI Hm] Hf H0 Hl Hi. unfold fixed_addr_reserve, on_small.
  rewrite (proj2 (Z.eqb_neq f LAPIC_BASE)), (proj2 (Z.eqb_neq f IOAPIC_BASE)) by done. simpl.
  destruct (reserve_spec SM lg_ok _ _ HI Hf H0) as [[Hu E]|(a & E & H1 & H2 & H3 & H4 & H5 & H6)]; rewrite E.
  - left. by destruct p.
  - right. split; [done|]. by eexists.
Qed.

Lemma mid_lg_ok : 0 < PAGE_SIZE_MID_LOG2 <= 30.
Proof. unfold PAGE_SIZE_MID_LOG2. lia. Qed.

(** Allocation of a 2 MB page: a page of the MID segment whose bit was clear. *)
Lemma allocate_mid p base : phys_wf p ->
  match allocate_frameless base MidPage p with
  | (p', Ok f) => exists j, 0 <= j < num_pages (mid_pages p) /\ f = page PAGE_SIZE_MID_LOG2 (mid_pages p) j /\
      Z.testbit (used_bitmap (mid_pages p)) j = false /\
      phys_wf p' /\ small_pages p' = small_pages p /\ mid_pages p' = mark j (mid_pages p)
  | (p', Err e) => p' = p /\ forall j, 0 <= j < num_pages (mid_pages p) -> Z.testbit (used_bitmap (mid_pages p)) j = true
  | (_, Panic) => False
  end.
Proof.
  intros [HI Hm]. pose proof (ds_allocate_spec _ mid_lg_ok _ Hm) as H.
  unfold allocate_frameless, on_mid. destruct (ds_allocate_frame _ _) as [d [f|e|]]; [| |done].
  - destruct H as (j & Hj & -> & Hb & ->). exists j. split_and!; try done; try lia. split; [done|]. by apply mark_wf.
  - destruct H as [-> H]. by destruct p.
Qed.

Lemma mid_new_wf : ds_wf PAGE_SIZE_MID_LOG2 (ds_new PAGE_SIZE_MID_LOG2 MID_PAGES_SEGMENT).
Proof.
  split; try (vm_compute; split; congruence); try (vm_compute; congruence); try done.
  intros k _. apply Z.testbit_0_l.
Qed.

(** ** Executions *)

(** A caller holds a frame with the kind it asked for.  The operations, as the kernel uses them: a caller
    releases only what it holds, and reserves frames of the memory map. *)
Inductive phys_step : PhysicalMemory * list (PageType * Z) -> PhysicalMemory * list (PageType * Z) -> Prop :=
| step_allocate base kind p p' f held : kind = SmallPage \/ kind = MidPage ->
    allocate_frameless base kind p = (p', Ok f) -> phys_step (p, held) (p', (kind, f) :: held)
| step_allocate_fails base kind p p' e held : kind = SmallPage \/ kind = MidPage ->
    allocate_frameless base kind p = (p', Err e) -> phys_step (p, held) (p', held)
| step_deallocate p p' f r before after :
    deallocate_frameless f SmallPage p = (p', r) ->
    phys_step (p, before ++ (SmallPage, f) :: after) (p', before ++ after)
| step_reserve p p' f held : frame p f -> f <> 0 -> f <> LAPIC_BASE -> f <> IOAPIC_BASE ->
    fixed_addr_reserve f SmallPage p = (p', Ok tt) -> phys_step (p, held) (p', (SmallPage, f) :: held)
| step_reserve_fails p p' f e held : frame p f -> f <> 0 -> f <> LAPIC_BASE -> f <> IOAPIC_BASE ->
    fixed_addr_reserve f SmallPage p = (p', Err e) -> phys_step (p, held) (p', held).

Inductive phys_reachable (p0 : PhysicalMemory) : PhysicalMemory * list (PageType * Z) -> Prop :=
| phys_start : phys_reachable p0 (p0, [])
| phys_next s s' : phys_reachable p0 s -> phys_step s s' -> phys_reachable p0 s'.

(** The memory of a frame. *)
Definition kind_size (k : PageType) : Z := match k with MidPage => 2097152 | _ => 4096 end.
Definition disjoint_frames (a b : PageType * Z) : Prop :=
  a.2 + kind_size a.1 <= b.2 \/ b.2 + kind_size b.1 <= a.2.

(** What the allocator knows of a held frame. *)
Definition holds (p : PhysicalMemory) (h : PageType * Z) : Prop :=
  (h.1 = SmallPage /\ frame p h.2 /\ used p h.2) \/
  (h.1 = MidPage /\ exists j, 0 <= j < num_pages (mid_pages p) /\ h.2 = page PAGE_SIZE_MID_LOG2 (mid_pages p) j /\
     Z.testbit (used_bitmap (mid_pages p)) j = true).

Record held_inv (p0 p : PhysicalMemory) (held : list (PageType * Z)) : Prop := {
  hi_wf : phys_wf p;
  hi_frames : forall x, frame p x <-> frame p0 x;
  hi_mid : segment (mid_pages p) = segment (mid_pages p0) /\ num_pages (mid_pages p) = num_pages (mid_pages p0);
  hi_nodup : NoDup held;
  hi_holds : forall h, h ∈ held -> holds p h;
  hi_boot : forall x, used p0 x -> used p x /\ (SmallPage, x) ∉ held
}.

Lemma page_same d d' j : segment d' = segment d -> page PAGE_SIZE_MID_LOG2 d' j = page PAGE_SIZE_MID_LOG2 d j.
Proof. intros E. unfold page. by rewrite E. Qed.

(** A small frame that was free is handed out. *)
Lemma held_inv_take p0 p p' f held : held_inv p0 p held -> frame p f -> ~ used p f ->
  becomes p p' (fun x => used p x \/ x = f) -> held_inv p0 p' ((SmallPage, f) :: held).
Proof.
  intros [H1 H2 H3 H4 H5 H6] Hf Hu (B1 & B2 & B3 & B4).
  assert (Hn : (SmallPage, f) ∉ held) by (intros Hin; destruct (H5 _ Hin) as [(_ & _ & ?)|[? _]]; done).
  assert (Hp : holds p' (SmallPage, f)) by (left; split_and!; [done|by apply B3|apply B4; by right]).
  split; [done|intros x; by rewrite B3|by rewrite B2|by constructor| |].
  - intros h [->|Hin]%elem_of_cons; [done|]. destruct (H5 _ Hin) as [(E1 & E2 & E3)|E]; [left|right; by rewrite B2].
    split_and!; [done|by apply B3|apply B4; by left].
  - intros x Hx. destruct (H6 x Hx) as [Hx1 Hx2]. split; [apply B4; by left|].
    intros [[= ->]|?]%elem_of_cons; done.
Qed.

Lemma held_inv_release p0 p p' f before after : held_inv p0 p (before ++ (SmallPage, f) :: after) ->
  becomes p p' (fun x => used p x /\ x <> f) -> held_inv p0 p' (before ++ after).
Proof.
  intros [H1 H2 H3 H4 H5 H6] (B1 & B2 & B3 & B4).
  assert (Hsub : forall h, h ∈ before ++ after -> h ∈ before ++ (SmallPage, f) :: after).
  { intros h. rewrite !elem_of_app, elem_of_cons. tauto. }
  assert (Hne : (SmallPage, f) ∉ before ++ after).
  { apply NoDup_app in H4 as (_ & Hd & [Hn _]%NoDup_cons). intros [Hb|Ha]%elem_of_app; [|done].
    apply (Hd _ Hb). apply elem_of_cons. by left. }
  split; [done|intros x; by rewrite B3|by rewrite B2| | |].
  - apply NoDup_app in H4 as (N1 & Hd & [_ N2]%NoDup_cons). apply NoDup_app. split_and!; [done| |done].
    intros h Hb Ha. apply (Hd _ Hb). apply elem_of_cons. by right.
  - intros h Hin. destruct (H5 _ (Hsub _ Hin)) as [(E1 & E2 & E3)|E]; [left|right; by rewrite B2].
    split_and!; [done|by apply B3|]. apply B4. split; [done|]. intros E. apply Hne. destruct h. simpl in *. by subst.
  - intros x Hx. destruct (H6 x Hx) as [Hx1 Hx2]. split; [|intros Hin; by apply Hx2, Hsub].
    apply B4. split; [done|]. intros ->. apply Hx2. rewrite elem_of_app, elem_of_cons. by auto.
Qed.

Lemma held_inv_take_mid p0 p p' j held : held_inv p0 p held -> 0 <= j < num_pages (mid_pages p) ->
  Z.testbit (used_bitmap (mid_pages p)) j = false -> phys_wf p' -> small_pages p' = small_pages p ->
  mid_pages p' = mark j (mid_pages p) -> held_inv p0 p' ((MidPage, page PAGE_SIZE_MID_LOG2 (mid_pages p) j) :: held).
Proof.
  intros [H1 H2 H3 H4 H5 H6] Hj Hb Hw Hs Hm.
  assert (Hbits : forall k, 0 <= k < num_pages (mid_pages p) ->
    Z.testbit (used_bitmap (mid_pages p')) k = if decide (k = j) then true else Z.testbit (used_bitmap (mid_pages p)) k).
  { intros k Hk. rewrite Hm. by apply (mark_bits _ mid_lg_ok _ _ _ (proj2 H1)). }
  assert (Hn : (MidPage, page PAGE_SIZE_MID_LOG2 (mid_pages p) j) ∉ held).
  { intros Hin. destruct (H5 _ Hin) as [[? _]|(_ & k & Hk & Hp & Ht)]; [done|].
    apply (page_inj _ mid_lg_ok) in Hp as ->. congruence. }
  split; [done|intros x; rewrite <- H2; unfold frame; by rewrite Hs|by rewrite Hm|by constructor| |].
  - intros h [->|Hin]%elem_of_cons; [right|].
    + split; [done|]. exists j. rewrite Hbits, decide_True by done. by rewrite Hm.
    + destruct (H5 _ Hin) as [(E1 & E2 & E3)|(E & k & Hk & Hp & Ht)]; [left|right].
      * unfold frame, used. by rewrite Hs.
      * split; [done|]. exists k. rewrite Hbits by done. rewrite Hm. split_and!; [lia|simpl; lia|done|].
        by destruct (decide (k = j)).
  - intros x Hx. unfold used. rewrite Hs. destruct (H6 x Hx) as [Hx1 Hx2]. split; [done|].
    intros [?|?]%elem_of_cons; done.
Qed.

Lemma held_inv_step p0 s s' : held_inv p0 s.1 s.2 -> phys_step s s' -> held_inv p0 s'.1 s'.2.
Proof.
  intros HI Hs. pose proof (hi_wf _ _ _ HI) as Hw.
  destruct Hs as [base kind p p' f held [->| ->] E|base kind p p' e held [->| ->] E|p p' f r before after E
    |p p' f held Hf H0 H1 H2 E|p p' f e held Hf H0 H1 H2 E]; cbn [fst snd] in *.
  - pose proof (allocate_small p base Hw) as H. rewrite E in H. destruct H as (H1 & H2 & H3 & H4). by apply (held_inv_take p0 p).
  - pose proof (allocate_mid p base Hw) as H. rewrite E in H. destruct H as (j & Hj & -> & Hb & H1 & H2 & H3).
    by apply held_inv_take_mid.
  - pose proof (allocate_small p base Hw) as H. rewrite E in H. by destruct H as (_ & -> & _).
  - pose proof (allocate_mid p base Hw) as H. rewrite E in H. by destruct H as (-> & _).
  - destruct (hi_holds _ _ _ HI (SmallPage, f)) as [(_ & _ & Hu)|[? _]]; [rewrite elem_of_app, elem_of_cons; by auto| |done].
    destruct (deallocate_small p f Hw Hu) as (q & E' & Hb). rewrite E in E'. injection E' as -> ->.
    by apply (held_inv_release p0 p q f).
  - destruct (reserve_small p f Hw Hf H0 H1 H2) as [[_ E']|(Hu & q & E' & Hb)]; rewrite E in E'; [done|].
    injection E' as ->. by apply (held_inv_take p0 p).
  - destruct (reserve_small p f Hw Hf H0 H1 H2) as [[_ E']|(Hu & q & E' & Hb)]; rewrite E in E'; [|done].
    injection E' as -> _. done.
Qed.

Lemma held_inv_reachable p0 s : phys_wf p0 -> phys_reachable p0 s -> held_inv p0 s.1 s.2.
Proof.
  intros Hw. induction 1 as [|s s' _ IH Hs].
  - split; cbn [fst snd]; [done|done|done|by apply NoDup_nil|by intros h ?%elem_of_nil|]. intros x Hx. split; [done|apply not_elem_of_nil].
  - by apply (held_inv_step p0 s).
Qed.

(** Small frames are pages of the area's segments, which do not overlap. *)
Lemma frames_apart p x y : phys_wf p -> frame p x -> frame p y -> x <> y -> x + 4096 <= y \/ y + 4096 <= x.
Proof.
  intros [HI _] (i & d & j & Hi & Hj & ->) (i' & d' & j' & Hi' & Hj' & ->) Hne.
  pose proof (sw_each _ _ (aw_segs _ _ HI) _ _ Hi) as Hd. pose proof (sw_each _ _ (aw_segs _ _ HI) _ _ Hi') as Hd'.
  pose proof (sw_order _ _ (aw_segs _ _ HI)) as Ho.
  destruct (page_bounds SM lg_ok d j Hd Hj) as (B1 & B2 & _). destruct (page_bounds SM lg_ok d' j' Hd' Hj') as (B1' & B2' & _).
  pose proof (dw_seg_end SM lg_ok d Hd) as E. pose proof (dw_seg_end SM lg_ok d' Hd') as E'. change (2 ^ SM) with 4096 in *.
  destruct (decide (i < i')%nat) as [Hlt|]; [specialize (Ho _ _ _ _ Hlt Hi Hi'); lia|].
  destruct (decide (i' < i)%nat) as [Hlt|]; [specialize (Ho _ _ _ _ Hlt Hi' Hi); lia|].
  assert (i = i') as <- by lia. assert (d = d') as <- by congruence. unfold page in *. change (2 ^ SM) with 4096 in *.
  assert (j <> j') by congruence. nia.
Qed.

(** ** Start-up *)

Lemma init_checked available in_use_segs p : init available in_use_segs = Ok p ->
  exists total, check_available available 0 0 false = Ok (total, true).
Proof. unfold init. destruct (check_available _ _ _ _) as [[total []]| |]; [by eexists|done..]. Qed.

(** What is known of the memory after start-up. *)
Record started (available in_use_segs : list MemorySegment) (p : PhysicalMemory) : Prop := {
  st_wf : phys_wf p;
  st_mid : segment (mid_pages p) = MID_PAGES_SEGMENT /\ num_pages (mid_pages p) = MID_PAGES;
  st_placed : forall x, frame p x -> frame_placed available x;
  st_used : forall x, used p x <-> frame p x /\ x <> 0 /\ Exists (fun s => touches s x) in_use_segs
}.

Lemma init_started available in_use_segs p : Forall seg_ok available -> Forall seg_ok in_use_segs ->
  init available in_use_segs = Ok p -> started available in_use_segs p.
Proof.
  intros Ha Hu Hi. destruct (init_checked _ _ _ Hi) as [total Hc].
  destruct (init_spec available in_use_segs total Ha Hu Hc) as (q & E & H1 & H2 & H3 & H4).
  rewrite Hi in E. injection E as <-. split; [split; [done|rewrite H4; apply mid_new_wf]|by rewrite H4|done|done].
Qed.

(** A frame outside what a segment touches is outside the segment. *)
Lemma frame_aligned p x : phys_wf p -> frame p x -> x mod 4096 = 0.
Proof.
  intros [HI _] (i & d & j & Hi & Hj & ->). pose proof (dw_aligned _ _ (sw_each _ _ (aw_segs _ _ HI) _ _ Hi)) as H.
  unfold page. change (2 ^ SM) with 4096 in *. by rewrite Z_mod_plus_full.
Qed.

Lemma untouched_disjoint s x : seg_ok s -> x mod 4096 = 0 -> ~ touches s x -> x + 4096 <= start s \/ start s + size s <= x.
Proof. intros (H1 & H2 & H3) Hx Hn. unfold touches in Hn. dlia. Qed.

Lemma mid_bounds available in_use_segs p0 p held h : started available in_use_segs p0 -> held_inv p0 p held -> h ∈ held -> h.1 = MidPage ->
  exists j, 0 <= j < 4 /\ h.2 = 2097152 + j * 2097152.
Proof.
  intros Hs HI Hin Hk. destruct (hi_holds _ _ _ HI _ Hin) as [[E _]|(_ & j & Hj & Hp & _)]; [congruence|].
  destruct (st_mid _ _ _ Hs) as [S1 S2]. destruct (hi_mid _ _ _ HI) as [M1 M2]. rewrite M2, S2 in Hj.
  exists j. split; [done|]. rewrite Hp. unfold page. by rewrite M1, S1.
Qed.

Lemma held_apart available in_use_segs p0 p held a b : started available in_use_segs p0 -> held_inv p0 p held ->
  a ∈ held -> b ∈ held -> a <> b -> disjoint_frames a b.
Proof.
  intros Hs HI Ha Hb Hne.
  assert (Hsm : forall h, h ∈ held -> h.1 = SmallPage -> frame p h.2 /\ (h.2 + 4096 <= MID_LO \/ MID_HI <= h.2)).
  { intros h Hin Hk. destruct (hi_holds _ _ _ HI _ Hin) as [(_ & Hf & _)|[E _]]; [|congruence].
    split; [done|]. by apply (st_placed _ _ _ Hs), (hi_frames _ _ _ HI). }
  assert (Hk : forall h, h ∈ held -> h.1 = SmallPage \/ h.1 = MidPage).
  { intros h Hin. destruct (hi_holds _ _ _ HI _ Hin) as [[? _]|[? _]]; auto. }
  pose proof (mid_bounds _ _ _ _ _ a Hs HI Ha) as Ma. pose proof (mid_bounds _ _ _ _ _ b Hs HI Hb) as Mb.
  unfold disjoint_frames, MID_LO, MID_HI in *. destruct a as [ka xa], b as [kb xb]. cbn [fst snd] in *.
  destruct (Hk _ Ha) as [Ea|Ea], (Hk _ Hb) as [Eb|Eb]; simpl in Ea, Eb; subst ka kb; cbn [kind_size].
  - destruct (Hsm _ Ha eq_refl) as [Fa _], (Hsm _ Hb eq_refl) as [Fb _].
    apply (frames_apart p); [apply (hi_wf _ _ _ HI)|done|done|congruence].
  - destruct (Hsm _ Ha eq_refl) as [_ Fa], (Mb eq_refl) as (j & Hj & ->). simpl in Fa. lia.
  - destruct (Hsm _ Hb eq_refl) as [_ Fb], (Ma eq_refl) as (j & Hj & ->). simpl in Fb. lia.
  - destruct (Ma eq_refl) as (j & Hj & ->), (Mb eq_refl) as (k & Hk' & ->). assert (j <> k) by congruence. lia.
Qed.

(** ** The counter of used pages *)

Section Count.
Context (lg : Z) (Hlg : 0 < lg <= 30).

Definition marked_pages (d : DesignatedSegment) : list Z :=
  page lg d <$> filter (fun k => Z.testbit (used_bitmap d) k = true) (Z.of_nat <$> seq 0 64).

(** The frames in use, one by one: what [used_pages] is a counter of. *)
Definition frames_in_use (a : MemoryArea) : list Z :=
  filter (fun f => f <> free_frame a) (filter (fun f => f <> 0) (mjoin (marked_pages <$> segments a))).

Lemma elem_of_marked_pages d x : ds_wf lg d ->
  x ∈ marked_pages d <-> exists j, 0 <= j < num_pages d /\ x = page lg d j /\ Z.testbit (used_bitmap d) j = true.
Proof.
  intros Hd. pose proof (dw_pages _ _ Hd). unfold marked_pages. rewrite list_elem_of_fmap. split.
  - intros (k & -> & [Ht (n & -> & Hn%elem_of_seq)%list_elem_of_fmap]%list_elem_of_filter). exists (Z.of_nat n). split; [|done].
    split; [lia|]. destruct (decide (Z.of_nat n < num_pages d)) as [|Hge]; [done|].
    by rewrite (dw_high _ _ Hd) in Ht by lia.
  - intros (j & Hj & -> & Ht). exists j. split; [done|]. apply list_elem_of_filter. split; [done|].
    apply list_elem_of_fmap. exists (Z.to_nat j). split; [lia|]. apply elem_of_seq. lia.
Qed.

Lemma marked_pages_nodup d : NoDup (marked_pages d).
Proof.
  apply NoDup_fmap_2.
  - intros j k E. by apply (page_inj lg Hlg d).
  - apply NoDup_filter, NoDup_fmap_2; [apply _|apply NoDup_seq].
Qed.

Lemma marked_pages_length d : Z.of_nat (length (marked_pages d)) = ones_in d.
Proof. unfold marked_pages, ones_in. by rewrite length_fmap, count_ones_filter. Qed.

(** Taking one value out of a list without duplicates. *)
Lemma filter_ne_length (l : list Z) c : NoDup l ->
  Z.of_nat (length (filter (fun x => x <> c) l)) = Z.of_nat (length l) - if decide (c ∈ l) then 1 else 0.
Proof.
  induction 1 as [|x l Hx Hl IH]; [rewrite decide_False by apply not_elem_of_nil; done|].
  rewrite filter_cons. destruct (decide (x <> c)) as [Hne|Heq]; cbn [length].
  - destruct (decide (c ∈ l)); [rewrite decide_True by (apply elem_of_cons; auto); lia|].
    rewrite decide_False; [lia|]. intros [->|?]%elem_of_cons; done.
  - apply dec_stable in Heq as ->. rewrite decide_False in IH by done. rewrite decide_True by (apply elem_of_cons; auto). lia.
Qed.

Lemma marked_nonzero_length l : (forall i d, l !! i = Some d -> ds_wf lg d) ->
  Z.of_nat (length (filter (fun f => f <> 0) (mjoin (marked_pages <$> l)))) = zsum ones_in l - zsum zero_in l.
Proof.
  induction l as [|d l IH]; intros Hw; [done|]. change (mjoin (marked_pages <$> d :: l)) with (marked_pages d ++ mjoin (marked_pages <$> l)). rewrite filter_app, length_app, Nat2Z.inj_add.
 rewrite IH by (intros i e Hi; by apply (Hw (S i))).
  pose proof (Hw 0%nat d eq_refl) as Hd. pose proof (dw_pages _ _ Hd). pose proof (dw_start _ _ Hd).
  rewrite filter_ne_length, marked_pages_length by apply marked_pages_nodup. cbn [zsum foldr]. fold (zsum ones_in l) (zsum zero_in l).
  unfold zero_in at 2. destruct (Z.eqb_spec (start (segment d)) 0) as [E|E].
  - rewrite decide_True; [lia|]. apply elem_of_marked_pages; [done|]. exists 0. unfold page. rewrite E.
    split_and!; [lia|lia|done|by apply (dw_zero _ _ Hd)].
  - rewrite decide_False; [lia|]. intros (j & Hj & Hp & _)%elem_of_marked_pages; [|done].
    unfold page in Hp. pose proof (Z.pow_pos_nonneg 2 lg). nia.
Qed.

Lemma elem_of_marked l x : segs_wf lg l -> x ∈ mjoin (marked_pages <$> l) <-> marked lg l x.
Proof.
  intros Hw. rewrite list_elem_of_join. split.
  - intros (ls & Hx & (d & -> & [i Hi]%list_elem_of_lookup)%list_elem_of_fmap).
    apply elem_of_marked_pages in Hx as (j & Hj & -> & Ht); [|by apply (sw_each _ _ Hw i)]. by exists i, d, j.
  - intros (i & d & j & (Hi & Hj & ->) & Ht). exists (marked_pages d). split.
    + apply elem_of_marked_pages; [by apply (sw_each _ _ Hw i)|]. by exists j.
    + apply list_elem_of_fmap. exists d. split; [done|]. by apply list_elem_of_lookup_2 with i.
Qed.

Lemma marked_nodup l : segs_wf lg l -> NoDup (mjoin (marked_pages <$> l)).
Proof.
  induction l as [|d l IH]; intros Hw; [by apply NoDup_nil|]. change (mjoin (marked_pages <$> d :: l)) with (marked_pages d ++ mjoin (marked_pages <$> l)).
  assert (Hw' : segs_wf lg l).
  { split; [intros i e Hi; by apply (sw_each _ _ Hw (S i))|]. intros i1 i2 d1 d2 Hlt H1 H2.
    apply (sw_order _ _ Hw (S i1) (S i2)); [lia|done..]. }
  apply NoDup_app. split_and!; [apply marked_pages_nodup| |by apply IH].
  intros x Hx Hy. apply elem_of_marked_pages in Hx as (j & Hj & Hp & _); [|by apply (sw_each _ _ Hw 0%nat)].
  apply elem_of_marked in Hy as (i & e & k & (Hi & Hk & Hp') & _); [|done].
  destruct (located_unique lg Hlg (d :: l) 0 d j (S i) e k x Hw) as [? _]; [by split_and!; try lia|by split_and!; try lia|done].
Qed.

Lemma frames_in_use_spec a x : area_wf lg a -> x ∈ frames_in_use a <-> in_use lg a x.
Proof.
  intros HI. unfold frames_in_use. rewrite !list_elem_of_filter, elem_of_marked by apply (aw_segs _ _ HI). unfold in_use. tauto.
Qed.

Lemma frames_in_use_length a : area_wf lg a ->
  Z.of_nat (length (frames_in_use a)) = zsum ones_in (segments a) - zsum zero_in (segments a) - cached (free_frame a).
Proof.
  intros HI. unfold frames_in_use. rewrite filter_ne_length by (apply NoDup_filter, marked_nodup, (aw_segs _ _ HI)).
  rewrite marked_nonzero_length by apply (sw_each _ _ (aw_segs _ _ HI)). f_equal. unfold cached.
  destruct (Z.eqb_spec (free_frame a) 0) as [E|E].
  - rewrite decide_False; [done|]. intros [? _]%list_elem_of_filter. done.
  - rewrite decide_True; [done|]. apply list_elem_of_filter. split; [done|].
    apply elem_of_marked; [apply (aw_segs _ _ HI)|]. by destruct (aw_free _ _ HI).
Qed.

Lemma zsum_ones_in_le l : (forall i d, l !! i = Some d -> ds_wf lg d) -> zsum ones_in l <= zsum num_pages l.
Proof. intros Hw. apply zsum_le. intros i d Hi. apply (ones_in_le lg Hlg), (Hw i d Hi). Qed.

Lemma zsum_zero_in_pos l : 0 <= zsum zero_in l.
Proof. induction l as [|d l IH]; simpl; [lia|]. unfold zero_in at 1. destruct (_ =? 0); lia. Qed.

Lemma used_pages_length a : area_wf lg a -> used_pages a = Z.of_nat (length (frames_in_use a)) /\ used_pages a <= total_pages a.
Proof.
  intros HI. pose proof (zsum_ones_in_le _ (sw_each _ _ (aw_segs _ _ HI))) as Hle. pose proof (frames_in_use_length a HI) as Hlen.
  pose proof (aw_total _ _ HI). pose proof (aw_small _ _ HI). pose proof (zsum_zero_in_pos (segments a)).
  assert (0 <= cached (free_frame a)) by (unfold cached; by destruct (_ =? 0)).
  rewrite (aw_used _ _ HI), <- Hlen, u64_id by (unfold is_u64; lia). split; [done|lia].
Qed.
End Count.

(** ** Segments *)

Lemma intersect_spec s t addr : seg_ok s -> seg_ok t ->
  contains (intersect s t) addr = contains s addr && contains t addr.
Proof.
  intros Hs Ht. unfold intersect. rewrite (seg_ok_end s Hs), (seg_ok_end t Ht).
  destruct Hs as (S1 & S2 & S3), Ht as (T1 & T2 & T3).
  destruct (Z.ltb_spec (Z.min (start s + size s) (start t + size t)) (Z.max (start s) (start t))) as [Hlt|Hge];
    unfold contains, seg_end; cbn [start size]; rewrite ?(u64_id (start s + size s)), ?(u64_id (start t + size t)) by (unfold is_u64; lia).
  - change (u64 (0 + 0)) with 0. apply eq_true_iff_eq. rewrite !andb_true_iff, !Z.leb_le, !Z.ltb_lt. lia.
  - rewrite (u64_id (_ - _)) by (unfold is_u64; lia). rewrite u64_id by (unfold is_u64; lia).
    apply eq_true_iff_eq. rewrite !andb_true_iff, !Z.leb_le, !Z.ltb_lt. lia.
Qed.

Lemma contains_spec s addr : seg_ok s -> contains s addr = true <-> start s <= addr < start s + size s.
Proof. intros Hs. unfold contains. rewrite (seg_ok_end s Hs), andb_true_iff, Z.leb_le, Z.ltb_lt. lia. Qed.

Lemma is_empty_intersect s t : seg_ok s -> seg_ok t ->
  is_empty (intersect s t) = true <-> forall addr, contains s addr && contains t addr = false.
Proof.
  intros Hs Ht. pose proof Hs as (S1 & S2 & S3). pose proof Ht as (T1 & T2 & T3).
  assert (Hi : seg_ok (intersect s t)).
  { unfold intersect, seg_ok. rewrite (seg_ok_end s Hs), (seg_ok_end t Ht).
    destruct (Z.ltb_spec (Z.min (start s + size s) (start t + size t)) (Z.max (start s) (start t))); simpl; [lia|].
    rewrite u64_id by (unfold is_u64; lia). lia. }
  unfold is_empty. rewrite Z.eqb_eq. split.
  - intros E addr. rewrite <- intersect_spec by done. apply not_true_is_false. rewrite contains_spec by done. lia.
  - intros H. specialize (H (start (intersect s t))). rewrite <- intersect_spec in H by done.
    apply not_true_iff_false in H. rewrite contains_spec in H by done. destruct Hi as (_ & ? & _). lia.
Qed.

(** ** The properties *)

(** C28: Start-up: with memory maps below 2^63 and a map of available memory that passes the checks
    (in order, without overlaps, and with [2M; 10M) present), [init] does not panic.  In the state it leaves
    the allocator's invariant holds, every small frame lies in available memory and outside the region for
    2 MB pages, and the frames in use are exactly those that a segment in use touches. *)
Theorem init_started_ok available in_use_segs total :
  Forall seg_ok available -> Forall seg_ok in_use_segs -> check_available available 0 0 false = Ok (total, true) ->
  exists p, init available in_use_segs = Ok p /\ started available in_use_segs p.
Proof.
  intros Ha Hu Hc. destruct (init_spec available in_use_segs total Ha Hu Hc) as (p & E & _).
  exists p. split; [done|]. by apply init_started.
Qed.

(** C13: The frame allocator implements a set of frames.  Allocation of a small page returns a frame that was
    not in use and adds it, and fails only when every frame is in use; releasing a frame in use always
    succeeds and takes it out; reserving a frame adds it, or is refused because it is in use.  Nothing else
    of the set changes and no call panics, with the one-frame cache and whatever the random numbers are.
    (Reservations are of frames other than the one at address zero and those of the interrupt controllers.) *)
Theorem frames_refine p : phys_wf p ->
  (forall base, match allocate_frameless base SmallPage p with
     | (p', Ok f) => frame p f /\ f <> 0 /\ ~ used p f /\ becomes p p' (fun x => used p x \/ x = f)
     | (p', Err e) => e = OutOfMemory /\ p' = p /\ forall f, frame p f -> f <> 0 -> used p f
     | (_, Panic) => False
     end) /\
  (forall f, used p f ->
     exists p', deallocate_frameless f SmallPage p = (p', Ok tt) /\ becomes p p' (fun x => used p x /\ x <> f)) /\
  (forall f, frame p f -> f <> 0 -> f <> LAPIC_BASE -> f <> IOAPIC_BASE ->
     (used p f /\ fixed_addr_reserve f SmallPage p = (p, Err AlreadyInUse)) \/
     (~ used p f /\ exists p', fixed_addr_reserve f SmallPage p = (p', Ok tt) /\ becomes p p' (fun x => used p x \/ x = f))).
Proof.
  intros Hw. split_and!; intros; [by apply allocate_small|by apply deallocate_small|by apply reserve_small].
Qed.

(** C6: Frames are never shared.  After any sequence of allocations of small and 2 MB pages, reservations and
    releases from start-up on, the pieces of memory that callers hold do not overlap and none is at address
    zero.  A small page does not overlap memory that was in use at start-up; a 2 MB page lies in the region
    [2M; 10M), which start-up does not check against the memory in use. *)
Theorem frames_exclusive available in_use_segs p0 p held :
  Forall seg_ok available -> Forall seg_ok in_use_segs -> init available in_use_segs = Ok p0 ->
  phys_reachable p0 (p, held) ->
  (forall i j a b, held !! i = Some a -> held !! j = Some b -> i <> j -> disjoint_frames a b) /\
  (forall kind x, (kind, x) ∈ held -> x <> 0 /\ (kind = MidPage -> MID_LO <= x /\ x + 2097152 <= MID_HI)) /\
  (forall x s, (SmallPage, x) ∈ held -> s ∈ in_use_segs -> x + 4096 <= start s \/ start s + size s <= x).
Proof.
  intros Ha Hu Hi Hr. pose proof (init_started _ _ _ Ha Hu Hi) as Hs.
  pose proof (held_inv_reachable p0 (p, held) (st_wf _ _ _ Hs) Hr) as HI. cbn [fst snd] in HI. split; [|split].
  - intros i j a b Hia Hjb Hij. apply (held_apart available in_use_segs p0 p held); try done.
    + by apply list_elem_of_lookup_2 with i.
    + by apply list_elem_of_lookup_2 with j.
    + intros ->. apply Hij. by apply (NoDup_lookup held i j b (hi_nodup _ _ _ HI)).
  - intros kind x Hx. pose proof (mid_bounds _ _ _ _ _ _ Hs HI Hx) as Hm. cbn [fst snd] in Hm. unfold MID_LO, MID_HI.
    destruct (hi_holds _ _ _ HI _ Hx) as [(Ek & _ & Hux)|[Ek _]]; cbn [fst snd] in *; [split; [apply Hux|congruence]|].
    destruct (Hm Ek) as (j & Hj & ->). split; lia.
  - intros x s Hx Hin. destruct (hi_holds _ _ _ HI _ Hx) as [(_ & Hf & Hux)|[? _]]; [|done]. cbn [snd] in Hf, Hux.
    assert (Hx0 : x <> 0) by apply Hux.
    apply untouched_disjoint; [by apply (proj1 (Forall_forall _ _) Hu)|by apply (frame_aligned p); [apply (hi_wf _ _ _ HI)|]|].
    intros Ht. destruct (hi_boot _ _ _ HI x) as [_ Hn]; [|done]. apply (st_used _ _ _ Hs).
    split_and!; [by apply (hi_frames _ _ _ HI)|done|]. apply Exists_exists. by exists s.
Qed.

(** The counter [used_pages] equals the number of frames in use, counted one by one, and never exceeds
    [total_pages]: the frame parked in the one-frame cache is not counted. *)
Theorem used_pages_counts p : phys_wf p ->
  used_pages (small_pages p) = Z.of_nat (length (frames_in_use SM (small_pages p))) /\
  used_pages (small_pages p) <= total_pages (small_pages p) /\
  (forall x, x ∈ frames_in_use SM (small_pages p) <-> used p x).
Proof.
  intros [HI _]. destruct (used_pages_length SM lg_ok _ HI) as [H1 H2]. split_and!; [done|done|].
  intros x. by apply frames_in_use_spec.
Qed.

(** An allocation of 2 to 64 contiguous small frames gives a run of frames none of which was in use, and
    adds exactly these to the frames in use; when it fails nothing has changed. *)
Theorem contiguous_run p base num : phys_wf p -> 1 < num <= 64 ->
  match on_small (area_allocate_contiguous_frames SM (draws base) num) p with
  | (p', Ok f) => phys_wf p' /\
      (forall k, 0 <= k < num -> frame p (f + k * 4096) /\ ~ used p (f + k * 4096)) /\
      (forall x, used p' x <-> used p x \/ exists k, 0 <= k < num /\ x = f + k * 4096)
  | (p', Err e) => e = OutOfMemory /\ p' = p
  | (_, Panic) => False
  end.
Proof.
  intros [HI Hm] Hn. pose proof (contiguous_spec SM lg_ok (small_pages p) num (draws base) HI Hn) as H. unfold on_small.
  destruct (area_allocate_contiguous_frames _ _ _ _) as [a [f|e|]]; [| |done].
  - by destruct H as (H1 & H2 & H3).
  - destruct H as [-> ->]. by destruct p.
Qed.

(** The loop that cuts an available segment into chunks ends, in as many rounds as the segment has whole
    pages and at most three more; the chunks are aligned, of 1 to 64 pages, in order, inside the segment, and
    outside the region for 2 MB pages. *)
Theorem split_terminates s : seg_ok s ->
  exists l, split_segment SM (split_rounds SM s) s = Some l /\ chunks (start s) (start s + size s) l.
Proof. apply split_available. Qed.

(** [minus] removes a segment from another: an address is in one of the two results exactly when it is in
    the first segment and not in the second, and never in both results. *)
Theorem minus_exact s t addr : seg_ok s -> seg_ok t ->
  let '(l, r) := minus s t in
  contains l addr || contains r addr = contains s addr && negb (contains t addr) /\ contains l addr && contains r addr = false.
Proof.
  intros Hs Ht. unfold minus. destruct (is_empty (intersect s t)) eqn:E.
  - pose proof (proj1 (is_empty_intersect s t Hs Ht) E addr) as H.
    assert (E0 : contains empty_segment addr = false) by (unfold contains, seg_end; simpl; destruct (Z.leb_spec 0 addr); simpl; [apply Z.ltb_ge; by apply Z.le_trans with 0|done]).
    rewrite E0, orb_false_r, andb_false_r. destruct (contains s addr), (contains t addr); done.
  - assert (Hx : exists x, contains s x = true /\ contains t x = true).
    { apply not_true_iff_false in E. rewrite is_empty_intersect in E by done. exists (Z.max (start s) (start t)).
      rewrite !contains_spec by done. destruct (decide (start s < start t + size t /\ start t < start s + size s /\ 0 < size s /\ 0 < size t)); [lia|].
      exfalso. apply E. intros x. apply not_true_iff_false. rewrite andb_true_iff, !contains_spec by done. lia. }
    destruct Hx as (x & Hx1 & Hx2). rewrite contains_spec in Hx1, Hx2 by done.
    rewrite (seg_ok_end s Hs), (seg_ok_end t Ht). destruct Hs as (S1 & S2 & S3), Ht as (T1 & T2 & T3).
    unfold contains, seg_end. cbn [start size].
    destruct (Z.ltb_spec (start s) (start t)), (Z.ltb_spec (start t + size t) (start s + size s));
      rewrite !(u64_id (_ - _)) by (unfold is_u64; lia); rewrite !u64_id by (unfold is_u64; lia);
      (split; [apply eq_true_iff_eq|apply not_true_iff_false]);
      rewrite ?orb_true_iff, ?andb_true_iff, ?negb_true_iff, ?andb_false_iff, ?Z.leb_le, ?Z.ltb_lt, ?Z.leb_gt, ?Z.ltb_ge; lia.
Qed.

(** The page at address 0 is marked at start-up and never given out, but while the cache is empty
    [fixed_addr_reserve(0)] succeeds: the exchange of 0 with 0 does, and a page more is counted as used. *)
Lemma reserve_zero_counts a : free_frame a = 0 -> area_fixed_addr_reserve SM 0 a = (add_used 1 a, Ok tt).
Proof. intros E. destruct a as [l t u f]. simpl in E. subst. done. Qed.

(** ** A machine with 16 MB *)

Module PhysSample.
Definition sample_available : list MemorySegment := [mkSeg 0 0x9fc00; mkSeg 0x100000 0xf00000].
Definition sample_in_use : list MemorySegment := [mkSeg 0 0x1000; mkSeg 0x100000 0x10123].
Definition sample_phys : PhysicalMemory :=
  match init sample_available sample_in_use with Ok p => p | _ => mkPhys 0 area_new (ds_new 21 MID_PAGES_SEGMENT) end.

Lemma available_ok : Forall seg_ok sample_available.
Proof. repeat constructor; vm_compute; congruence. Qed.

Lemma in_use_ok : Forall seg_ok sample_in_use.
Proof. repeat constructor; vm_compute; congruence. Qed.

Lemma sample_init : init sample_available sample_in_use = Ok sample_phys.
Proof. vm_compute. reflexivity. Qed.

Lemma sample_started : started sample_available sample_in_use sample_phys.
Proof. apply init_started; [apply available_ok|apply in_use_ok|apply sample_init]. Qed.

Lemma init_started_ok_witness :
  exists p, init sample_available sample_in_use = Ok p /\ started sample_available sample_in_use p.
Proof. apply (init_started_ok _ _ 16382976); [apply available_ok|apply in_use_ok|vm_compute; reflexivity]. Defined.

Lemma frames_refine_witness : exists p' f, allocate_frameless 7 SmallPage sample_phys = (p', Ok f) /\
  frame sample_phys f /\ becomes sample_phys p' (fun x => used sample_phys x \/ x = f).
Proof.
  destruct (frames_refine sample_phys (st_wf _ _ _ sample_started)) as [H _]. specialize (H 7).
  assert (E : match (allocate_frameless 7 SmallPage sample_phys).2 with Ok _ => true | _ => false end = true) by (vm_compute; reflexivity).
  destruct (allocate_frameless 7 SmallPage sample_phys) as [p' [f|e|]]; [|discriminate E..].
  destruct H as (H1 & _ & _ & H2). exists p', f. split; [reflexivity|]. split; [exact H1|exact H2].
Defined.

(** Two small pages and a 2 MB page are allocated and the first is released. *)
Definition run (n : nat) : PhysicalMemory :=
  let p1 := (allocate_frameless 7 SmallPage sample_phys).1 in
  let p2 := (allocate_frameless 8 SmallPage p1).1 in
  let p3 := (allocate_frameless 9 MidPage p2).1 in
  match n with
  | 0 => sample_phys | 1 => p1 | 2 => p2 | 3 => p3
  | _ => (deallocate_frameless 15990784 SmallPage p3).1
  end%nat.

Lemma run_1 : allocate_frameless 7 SmallPage sample_phys = (run 1, Ok 15990784).
Proof. vm_compute. reflexivity. Qed.

Lemma run_2 : allocate_frameless 8 SmallPage (run 1) = (run 2, Ok 262144).
Proof. vm_compute. reflexivity. Qed.

Lemma run_3 : allocate_frameless 9 MidPage (run 2) = (run 3, Ok 2097152).
Proof. vm_compute. reflexivity. Qed.

Lemma run_4 : deallocate_frameless 15990784 SmallPage (run 3) = (run 4, Ok tt).
Proof. vm_compute. reflexivity. Qed.

Opaque run.

Lemma sample_reachable : phys_reachable sample_phys (run 4, [(MidPage, 2097152); (SmallPage, 262144)]).
Proof.
  pose proof (phys_next _ _ _ (phys_start _) (step_allocate 7 SmallPage sample_phys (run 1) 15990784 [] (or_introl eq_refl) run_1)) as R1.
  pose proof (phys_next _ _ _ R1 (step_allocate 8 SmallPage _ _ _ _ (or_introl eq_refl) run_2)) as R2.
  pose proof (phys_next _ _ _ R2 (step_allocate 9 MidPage _ _ _ _ (or_intror eq_refl) run_3)) as R3.
  exact (phys_next _ _ _ R3 (step_deallocate _ _ _ _ [(MidPage, 2097152); (SmallPage, 262144)] [] run_4)).
Qed.

Lemma frames_exclusive_witness : disjoint_frames (MidPage, 2097152) (SmallPage, 262144).
Proof.
  destruct (frames_exclusive sample_available sample_in_use sample_phys (run 4) [(MidPage, 2097152); (SmallPage, 262144)]) as [H _];
    [apply available_ok|apply in_use_ok|apply sample_init|apply sample_reachable|].
  apply (H 0%nat 1%nat); [reflexivity|reflexivity|discriminate].
Defined.

Lemma used_pages_counts_witness : used_pages (small_pages sample_phys) = 17 /\
  used_pages (small_pages sample_phys) = Z.of_nat (length (frames_in_use SM (small_pages sample_phys))).
Proof.
  split; [vm_compute; reflexivity|]. apply (used_pages_counts sample_phys (st_wf _ _ _ sample_started)).
Defined.

Lemma contiguous_run_witness :
  exists p' f, on_small (area_allocate_contiguous_frames SM (draws 7) 20) sample_phys = (p', Ok f) /\ phys_wf p'.
Proof.
  assert (Hn : 1 < 20 <= 64) by lia.
  pose proof (contiguous_run sample_phys 7 20 (st_wf _ _ _ sample_started) Hn) as H.
  assert (E : match (on_small (area_allocate_contiguous_frames SM (draws 7) 20) sample_phys).2 with Ok _ => true | _ => false end = true)
    by (vm_compute; reflexivity).
  destruct (on_small _ sample_phys) as [p' [f|e|]]; [|discriminate E..]. destruct H as [H _]. exists p', f. split; [reflexivity|exact H].
Defined.

Lemma split_terminates_witness : exists l, split_segment SM (split_rounds SM (mkSeg 0x100000 0xf00000)) (mkSeg 0x100000 0xf00000) = Some l /\
  length l = 28%nat /\ chunks 0x100000 0x1000000 l.
Proof.
  destruct (split_terminates (mkSeg 0x100000 0xf00000)) as (l & E & H); [vm_compute; split; [congruence|split; [congruence|reflexivity]]|].
  exists l. split; [exact E|]. split; [|exact H].
  assert (En : option_map (@length _) (Some l) = Some 28%nat) by (rewrite <- E; vm_compute; reflexivity). by injection En.
Defined.

Lemma minus_exact_witness :
  minus (mkSeg 0 0x9000) (mkSeg 0x2000 0x1000) = (mkSeg 0 0x2000, mkSeg 0x3000 0x6000) /\
  contains (mkSeg 0 0x2000) 0x3001 || contains (mkSeg 0x3000 0x6000) 0x3001 = true.
Proof.
  split; [vm_compute; reflexivity|]. pose proof (minus_exact (mkSeg 0 0x9000) (mkSeg 0x2000 0x1000) 0x3001) as H.
  destruct H as [H _]; [vm_compute; split; [congruence|split; [congruence|reflexivity]]..|].
  transitivity (contains (mkSeg 0 0x9000) 0x3001 && negb (contains (mkSeg 0x2000 0x1000) 0x3001)); [exact H|vm_compute; reflexivity].
Defined.
End PhysSample.
