(* ===== verification/PageTable.v ===== *)
(** * Page tables

    The four-level page tables of x86-64 as the kernel builds and takes them apart
    (src/src/bin/kernel/src/arch/x64/paging.rs).  All physical memory is mapped at
    [PAGING_DIRECT_MAP_OFFSET], and the kernel reaches a table through that mapping: a reference to a
    table is the direct-map address of its first entry, and memory is a map from such addresses to
    64-bit words.  A [SpinLock] is held for the whole of every method, so a method is one step.
    Invalidations of the TLB are recorded in the state; what they do on the processors is not modelled. *)

From stdpp Require Import base numbers list gmap.
From S2P Require Import RustPrelude PhysMem.

Open Scope Z_scope.

Definition PAGING_DIRECT_MAP_OFFSET : Z := Z.shiftl 1 46.
Definition PAGE_SIZE_LARGE_LOG2 : Z := 30.
Definition PAGE_SIZE_SMALL : Z := Z.shiftl 1 PAGE_SIZE_SMALL_LOG2.
Definition PAGE_SIZE_MID : Z := Z.shiftl 1 PAGE_SIZE_MID_LOG2.
Definition PAGE_SIZE_LARGE : Z := Z.shiftl 1 PAGE_SIZE_LARGE_LOG2.

#[export] Instance PageType_eq_dec : EqDecision PageType.
Proof. solve_decision. Defined.

(** [PageType::page_size], which panics on [Unknown]. *)
Definition page_size {S} (kind : PageType) : eff S MemError Z :=
  match kind with
  | SmallPage => ret PAGE_SIZE_SMALL
  | MidPage => ret PAGE_SIZE_MID
  | LargePage => ret PAGE_SIZE_LARGE
  | Unknown => panic
  end.

(** ** Mapping options: the bits of [MappingOptions] *)

Definition READABLE : Z := 1.
Definition WRITABLE : Z := 2.
Definition USER_ACCESSIBLE : Z := 4.
Definition MMIO : Z := 8.
Definition DONT_ZERO : Z := 16.
Definition LAZY : Z := 32.
Definition GUARD : Z := 64.
Definition PRIVATE : Z := 128.

(** [bitflags]: [contains], [remove] and [difference]. *)
Definition has (options flag : Z) : bool := Z.land options flag =? flag.
Definition without (options flag : Z) : Z := Z.ldiff options flag.

(** ** Memory *)

Record Kmem : Type := mkKmem {
  phys : PhysicalMemory;
  words : gmap Z Z;
  (** the states the random number generator of the kernel has at the coming allocations *)
  bases : list Z;
  (** the pages whose invalidation was requested, with the page table they belong to; latest first *)
  flushes : list (Z * Z)
}.

Definition word (k : Kmem) (addr : Z) : Z := default 0 (words k !! addr).

Definition set_phys (p : PhysicalMemory) (k : Kmem) : Kmem := mkKmem p (words k) (bases k) (flushes k).
Definition set_words (w : gmap Z Z) (k : Kmem) : Kmem := mkKmem (phys k) w (bases k) (flushes k).
Definition next_base (k : Kmem) : Kmem := mkKmem (phys k) (words k) (tail (bases k)) (flushes k).
Definition add_flush (f : Z * Z) (k : Kmem) : Kmem := mkKmem (phys k) (words k) (bases k) (f :: flushes k).

Definition read_word (addr : Z) : eff Kmem MemError Z := let* k := get_state in ret (word k addr).
Definition write_word (addr val : Z) : eff Kmem MemError unit :=
  modify (fun k => set_words (<[addr := val]> (words k)) k).

(** Run a method of the frame allocator. *)
Definition on_phys {A} (m : eff PhysicalMemory MemError A) : eff Kmem MemError A := fun k =>
  let '(p, r) := m (phys k) in (set_phys p k, r).

Definition phys_allocate_frameless (kind : PageType) : eff Kmem MemError Z :=
  let* k := get_state in
  let base := default 0 (head (bases k)) in
  modify next_base;;;
  on_phys (allocate_frameless base kind).

Definition phys_deallocate_frameless (phys_addr : Z) (kind : PageType) : eff Kmem MemError unit :=
  on_phys (deallocate_frameless phys_addr kind).

(** [r.unwrap()]. *)
Definition unwrap {S E A} (m : eff S E A) : eff S E A := fun s =>
  match m s with
  | (s', Err _) => (s', Panic)
  | r => r
  end.

(** The loop of [zero_page]: [n] words from [pos] on. *)
Fixpoint zero_words (n : nat) (pos : Z) (w : gmap Z Z) : gmap Z Z :=
  match n with
  | O => w
  | S n' => zero_words n' (pos + 8) (<[pos := 0]> w)
  end.

Definition zero_page (virt_addr : Z) (kind : PageType) : eff Kmem MemError unit :=
  let* size := page_size kind in
  assert (Z.land virt_addr (size - 1) =? 0);;;
  modify (fun k => set_words (zero_words (Z.to_nat (size / 8)) virt_addr (words k)) k).

(** ** Entries *)

Definition PTE_PRESENT : Z := 1.
Definition PTE_WRITABLE : Z := 2.
Definition PTE_USER : Z := 4.
Definition PTE_ACCESSED : Z := 32.
Definition PTE_HUGE : Z := 128.
Definition PTE_MMIO_RW : Z := 59.

Definition pte_is_empty (entry : Z) : bool := entry =? 0.
Definition is_huge_page (entry : Z) : bool := negb (Z.land entry PTE_HUGE =? 0).
Definition is_present (entry : Z) : bool := negb (Z.land entry PTE_PRESENT =? 0).
Definition to_addr (entry : Z) : Z := Z.land entry 0x000ffffffffff000.

(** ** One table of 512 entries *)

Definition PTE_COUNT : Z := 512.

Definition self_phys_addr (table : Z) : eff Kmem MemError Z :=
  assert (negb (Z.land table PAGING_DIRECT_MAP_OFFSET =? 0));;;
  ret (Z.lxor table PAGING_DIRECT_MAP_OFFSET).

Definition hw_set (table idx pte : Z) : eff Kmem MemError unit :=
  assert (idx <? PTE_COUNT);;;
  write_word (table + 8 * idx) pte.

Definition hw_get (table idx : Z) : eff Kmem MemError Z :=
  assert (idx <? PTE_COUNT);;;
  read_word (table + 8 * idx).

Definition from_pte (pte : Z) : eff Kmem MemError Z :=
  let phys_addr := Z.land pte 0x000ffffffffff000 in
  assert (Z.land phys_addr PAGING_DIRECT_MAP_OFFSET =? 0);;;
  let virt_addr := Z.lor phys_addr PAGING_DIRECT_MAP_OFFSET in
  assert (negb (virt_addr =? 0));;;
  ret virt_addr.

Definition hw_is_empty (table : Z) : eff Kmem MemError bool :=
  let* k := get_state in
  ret (forallb (fun i => pte_is_empty (word k (table + 8 * i))) (seqZ 0 PTE_COUNT)).

Definition get_or_create (table idx pde_flags : Z) : eff Kmem MemError Z :=
  let* pte := hw_get table idx in
  if negb (pte_is_empty pte) then
    assert (negb (is_huge_page pte));;;
    from_pte pte
  else
    let* frame := unwrap (phys_allocate_frameless SmallPage) in
    zero_page (u64 (frame + PAGING_DIRECT_MAP_OFFSET)) SmallPage;;;
    let pte := Z.lor frame pde_flags in
    write_word (table + 8 * idx) pte;;;
    from_pte pte.

Definition hw_alloc : eff Kmem MemError Z :=
  let* frame := phys_allocate_frameless SmallPage in
  zero_page (u64 (frame + PAGING_DIRECT_MAP_OFFSET)) SmallPage;;;
  from_pte frame.

Definition hw_dealloc (table : Z) : eff Kmem MemError unit :=
  let* empty := hw_is_empty table in
  assert empty;;;
  let* addr := self_phys_addr table in
  phys_deallocate_frameless addr SmallPage.

(** ** A page table *)

Record PageTableImpl : Type := mkPT { table_l4 : Z; userspace : bool; dead : bool }.

Definition idx_l4 (virt_addr : Z) : Z := Z.land (Z.shiftr virt_addr 39) 511.
Definition idx_l3 (virt_addr : Z) : Z := Z.land (Z.shiftr virt_addr 30) 511.
Definition idx_l2 (virt_addr : Z) : Z := Z.land (Z.shiftr virt_addr 21) 511.
Definition idx_l1 (virt_addr : Z) : Z := Z.land (Z.shiftr virt_addr 12) 511.

Section Methods.
Variable self : PageTableImpl.

Definition impl_virt_to_phys (virt_addr : Z) : eff Kmem MemError (option Z) :=
  let* pte_l4 := hw_get (table_l4 self) (idx_l4 virt_addr) in
  if pte_is_empty pte_l4 || negb (is_present pte_l4) then ret None
  else
  let* table_l3 := from_pte pte_l4 in
  let* pte_l3 := hw_get table_l3 (idx_l3 virt_addr) in
  if pte_is_empty pte_l3 || negb (is_present pte_l4) then ret None
  else if is_huge_page pte_l3 then
    if is_present pte_l3 then ret (Some (u64 (to_addr pte_l3 + Z.land virt_addr (PAGE_SIZE_LARGE - 1))))
    else ret None
  else
  let* table_l2 := from_pte pte_l3 in
  let* pte_l2 := hw_get table_l2 (idx_l2 virt_addr) in
  if pte_is_empty pte_l2 || negb (is_present pte_l4) then ret None
  else if is_huge_page pte_l2 then
    if is_present pte_l2 then ret (Some (u64 (to_addr pte_l2 + Z.land virt_addr (PAGE_SIZE_MID - 1))))
    else ret None
  else
  let* table_l1 := from_pte pte_l2 in
  let* pte_l1 := hw_get table_l1 (idx_l1 virt_addr) in
  if is_present pte_l1 then ret (Some (u64 (to_addr pte_l1 + Z.land virt_addr (PAGE_SIZE_SMALL - 1))))
  else ret None.

Definition impl_is_readable (virt_addr : Z) : eff Kmem MemError bool :=
  let* pte_l4 := hw_get (table_l4 self) (idx_l4 virt_addr) in
  if pte_is_empty pte_l4 || negb (is_present pte_l4) then ret false
  else
  let* table_l3 := from_pte pte_l4 in
  let* pte_l3 := hw_get table_l3 (idx_l3 virt_addr) in
  if pte_is_empty pte_l3 || negb (is_present pte_l4) then ret false
  else if is_huge_page pte_l3 then ret (is_present pte_l3)
  else
  let* table_l2 := from_pte pte_l3 in
  let* pte_l2 := hw_get table_l2 (idx_l2 virt_addr) in
  if pte_is_empty pte_l2 || negb (is_present pte_l4) then ret false
  else if is_huge_page pte_l2 then ret (is_present pte_l2)
  else
  let* table_l1 := from_pte pte_l2 in
  let* pte_l1 := hw_get table_l1 (idx_l1 virt_addr) in
  ret (is_present pte_l1).

Definition get_kernel_pte (vmem_addr : Z) : eff Kmem MemError Z := hw_get (table_l4 self) (idx_l4 vmem_addr).

Definition insert_kernel_pte (pte vmem_addr : Z) : eff Kmem MemError unit :=
  let* prev := hw_get (table_l4 self) (idx_l4 vmem_addr) in
  assert (pte_is_empty prev);;;
  hw_set (table_l4 self) (idx_l4 vmem_addr) pte.

Definition remove_kernel_pte (vmem_addr : Z) : eff Kmem MemError unit :=
  let* prev := hw_get (table_l4 self) (idx_l4 vmem_addr) in
  assert (negb (pte_is_empty prev));;;
  hw_set (table_l4 self) (idx_l4 vmem_addr) 0.

Definition impl_map_page (phys_addr virt_addr : Z) (kind : PageType) (pte_flags : Z) : eff Kmem MemError unit :=
  let* size := page_size kind in
  assert (Z.land phys_addr (size - 1) =? 0);;;
  assert (Z.land virt_addr (size - 1) =? 0);;;
  let page_directory_flags :=
    if negb (Z.land pte_flags PTE_USER =? 0)
    then Z.lor (Z.lor (Z.lor PTE_PRESENT PTE_WRITABLE) PTE_USER) PTE_ACCESSED
    else Z.lor (Z.lor PTE_PRESENT PTE_WRITABLE) PTE_ACCESSED in
  let set_leaf table idx :=
    let* prev := hw_get table idx in
    assert (pte_is_empty prev);;;
    hw_set table idx (Z.lor phys_addr pte_flags) in
  let* table_l3 := get_or_create (table_l4 self) (idx_l4 virt_addr) page_directory_flags in
  match kind with
  | LargePage => set_leaf table_l3 (idx_l3 virt_addr)
  | _ =>
    let* table_l2 := get_or_create table_l3 (idx_l3 virt_addr) page_directory_flags in
    match kind with
    | MidPage => set_leaf table_l2 (idx_l2 virt_addr)
    | _ =>
      assert (bool_decide (kind = SmallPage));;;
      let* table_l1 := get_or_create table_l2 (idx_l2 virt_addr) page_directory_flags in
      set_leaf table_l1 (idx_l1 virt_addr)
    end
  end.

Definition impl_flush_virt_addr (virt_addr : Z) : eff Kmem MemError unit :=
  if dead self then ret tt
  else
    let* addr := self_phys_addr (table_l4 self) in
    modify (add_flush (addr, virt_addr)).

(** The innermost part of [unmap_page]: when [table] has become empty, its entry in the table above is
    cleared, its frame is returned and [above] goes on with the table above. *)
Definition if_emptied (table parent idx : Z) (above : eff Kmem MemError unit) : eff Kmem MemError unit :=
  let* empty := hw_is_empty table in
  if empty : bool then
    hw_set parent idx 0;;;
    (let* addr := self_phys_addr table in phys_deallocate_frameless addr SmallPage);;;
    above
  else ret tt.

Definition impl_unmap_page (phys_addr virt_addr : Z) (kind : PageType) : eff Kmem MemError unit :=
  let* size := page_size kind in
  assert (Z.land phys_addr (size - 1) =? 0);;;
  assert (Z.land virt_addr (size - 1) =? 0);;;
  let* pte_l4 := hw_get (table_l4 self) (idx_l4 virt_addr) in
  assert (negb (pte_is_empty pte_l4));;;
  let* table_l3 := from_pte pte_l4 in
  let* pte_l3 := hw_get table_l3 (idx_l3 virt_addr) in
  assert (negb (pte_is_empty pte_l3));;;
  match kind with
  | LargePage =>
    assert (is_huge_page pte_l3);;;
    hw_set table_l3 (idx_l3 virt_addr) 0;;;
    if_emptied table_l3 (table_l4 self) (idx_l4 virt_addr) (ret tt);;;
    impl_flush_virt_addr virt_addr
  | _ =>
    assert (negb (is_huge_page pte_l3));;;
    let* table_l2 := from_pte pte_l3 in
    let* pte_l2 := hw_get table_l2 (idx_l2 virt_addr) in
    assert (negb (pte_is_empty pte_l2));;;
    match kind with
    | MidPage =>
      assert (is_huge_page pte_l2);;;
      hw_set table_l2 (idx_l2 virt_addr) 0;;;
      if_emptied table_l2 table_l3 (idx_l3 virt_addr)
        (if_emptied table_l3 (table_l4 self) (idx_l4 virt_addr) (ret tt));;;
      impl_flush_virt_addr virt_addr
    | _ =>
      assert (negb (is_huge_page pte_l2));;;
      assert (bool_decide (kind = SmallPage));;;
      let* table_l1 := from_pte pte_l2 in
      let* pte_l1 := hw_get table_l1 (idx_l1 virt_addr) in
      assert (negb (pte_is_empty pte_l1));;;
      hw_set table_l1 (idx_l1 virt_addr) 0;;;
      if_emptied table_l1 table_l2 (idx_l2 virt_addr)
        (if_emptied table_l2 table_l3 (idx_l3 virt_addr)
          (if_emptied table_l3 (table_l4 self) (idx_l4 virt_addr) (ret tt)));;;
      impl_flush_virt_addr virt_addr
    end
  end.
End Methods.

(** [kernel_vmem_offset]. *)
Definition ONE_GB : Z := Z.shiftl 1 30.
Definition VMEM_KERNEL_DATA_START : Z := PAGING_DIRECT_MAP_OFFSET - 512 * ONE_GB.

Definition new_user_page_table : eff Kmem MemError PageTableImpl :=
  let* hw_page := hw_alloc in
  ret (mkPT hw_page true false).

Definition drop_page_table (self : PageTableImpl) : eff Kmem MemError unit :=
  assert (userspace self);;;
  hw_dealloc (table_l4 self).

Definition mark_dead (self : PageTableImpl) : PageTableImpl := mkPT (table_l4 self) (userspace self) true.

(** The entry flags for the options of a mapping; [None] for options that are [todo!]. *)
Definition pte_flags_of (options : Z) : option Z :=
  if options =? Z.lor READABLE WRITABLE then Some (Z.lor (Z.lor PTE_PRESENT PTE_WRITABLE) PTE_ACCESSED)
  else if options =? Z.lor (Z.lor READABLE WRITABLE) MMIO then Some PTE_MMIO_RW
  else if options =? READABLE then Some (Z.lor PTE_PRESENT PTE_ACCESSED)
  else None.

Definition map_page (self : PageTableImpl) (phys_addr virt_addr : Z) (kind : PageType) (options : Z) : eff Kmem MemError unit :=
  let dont_zero := has options DONT_ZERO || has options MMIO in
  let options := if dont_zero then without options DONT_ZERO else options in
  let user := has options USER_ACCESSIBLE in
  let options := if user then without options USER_ACCESSIBLE else options in
  match pte_flags_of options with
  | None => panic
  | Some pte_flags =>
    let pte_flags := if user then Z.lor pte_flags PTE_USER else pte_flags in
    let pte_flags := if bool_decide (kind = SmallPage) then pte_flags else Z.lor pte_flags PTE_HUGE in
    impl_map_page self phys_addr virt_addr kind pte_flags;;;
    if dont_zero then ret tt else zero_page (u64 (phys_addr + PAGING_DIRECT_MAP_OFFSET)) kind
  end.

Definition map_kernel_to_user (self kpt : PageTableImpl) : eff Kmem MemError unit :=
  let* pte := get_kernel_pte kpt VMEM_KERNEL_DATA_START in
  insert_kernel_pte self pte VMEM_KERNEL_DATA_START;;;
  let* pte := get_kernel_pte kpt PAGING_DIRECT_MAP_OFFSET in
  insert_kernel_pte self pte PAGING_DIRECT_MAP_OFFSET.

Definition unmap_kernel_from_user (self : PageTableImpl) : eff Kmem MemError unit :=
  remove_kernel_pte self VMEM_KERNEL_DATA_START;;;
  remove_kernel_pte self PAGING_DIRECT_MAP_OFFSET.
