(* ===== verification/PageWalk.v ===== *)
(** * Translation of addresses by page tables

    What the processor does with the tables of PageTable.v, as the specification of the kernel's code,
    and the shape the tables have: a tree of four levels per address space, in which the kernel's part
    is shared.  Everything here is about the function from a table's frame and an index to the entry,
    so that the lemmas do not depend on where the entries are stored. *)

From stdpp Require Import base numbers list gmap.
From S2P Require Import RustPrelude PhysMem PageTable.

Open Scope Z_scope.

(** ** Page numbers: a table of level [l] is indexed with 9 bits from bit [shift l] on *)

Definition shift (l : nat) : Z := 9 * Z.of_nat l + 3.
Definition vpn (l : nat) (v : Z) : Z := v / 2 ^ shift l.
Definition index (l : nat) (v : Z) : Z := vpn l v mod 512.

Lemma vpn_S l v : vpn (S l) v = vpn l v / 512.
Proof.
  unfold vpn, shift. rewrite Z.div_div by lia. f_equal.
  replace (9 * Z.of_nat (S l) + 3) with (9 * Z.of_nat l + 3 + 9) by lia. by rewrite Z.pow_add_r by lia.
Qed.

Lemma vpn_index l v : vpn l v = 512 * vpn (S l) v + index l v.
Proof. unfold index. rewrite vpn_S. apply Z.div_mod. lia. Qed.

Lemma index_range l v : 0 <= index l v < 512.
Proof. unfold index. apply Z.mod_pos_bound. lia. Qed.

Lemma vpn_top v : 0 <= v < 2 ^ 48 -> vpn 5 v = 0.
Proof. intros. by apply Z.div_small. Qed.

(** Two addresses are in the same page of level [l]. *)
Lemma vpn_page l base v : base mod 2 ^ shift l = 0 -> (vpn l v = vpn l base <-> base <= v < base + 2 ^ shift l).
Proof.
  intros H. unfold vpn. assert (0 < 2 ^ shift l) by (apply Z.pow_pos_nonneg; unfold shift; lia).
  pose proof (Z.div_mod base (2 ^ shift l)) as Hb. pose proof (Z.div_mod v (2 ^ shift l)) as Hv.
  pose proof (Z.mod_pos_bound v (2 ^ shift l)). split.
  - intros E. rewrite E in Hv. lia.
  - intros E. symmetry. apply (Z.div_unique_pos _ _ _ (v - base)); [lia|].
    rewrite H in Hb. lia.
Qed.

(** ** The page walk of the processor

    The physical address, whether user code may access it and whether it may be written (a right needs
    the bit in the entries of every level), and the level of the table that maps it, which gives the
    size of the page. *)

Record translation : Type := mkTr { tr_addr : Z; tr_user : bool; tr_writable : bool; tr_level : nat }.

Section Walk.
Variable P : Z -> Z -> Z.

Fixpoint mmu_walk (l : nat) (table : Z) (user writable : bool) (v : Z) : option translation :=
  match l with
  | O => None
  | S l' =>
    let e := P table (index l v) in
    if Z.testbit e 0 then
      let user := user && Z.testbit e 2 in
      let writable := writable && Z.testbit e 1 in
      if (l' =? 0)%nat || (l' <? 3)%nat && Z.testbit e 7
      then Some (mkTr (to_addr e + v mod 2 ^ shift l) user writable l)
      else mmu_walk l' (to_addr e) user writable v
    else None
  end.

Definition mmu (root v : Z) : option translation := mmu_walk 4 root true true v.
End Walk.

Lemma walk_ext P P' : (forall t i, P' t i = P t i) -> forall l t u w v, mmu_walk P' l t u w v = mmu_walk P l t u w v.
Proof.
  intros E. induction l as [|l IH]; intros t u w v; [done|]. cbn [mmu_walk]. rewrite E.
  destruct (Z.testbit _ 0); [|done]. destruct (_ || _); [done|apply IH].
Qed.

(** ** The shape of the tables

    [D] assigns to the frame of every table the address space it belongs to (the frame of its top table),
    its level, and the number of the page of the level above that it describes.  [U] tells whether an
    address space is that of a program, [kroot] is the kernel's.  The entries at [foreign] indices of a
    program's top table are copies of the kernel's. *)

Abbreviation node := (Z * nat * Z)%type.

Definition foreign (i : Z) : bool := (i =? idx_l4 VMEM_KERNEL_DATA_START) || (i =? idx_l4 PAGING_DIRECT_MAP_OFFSET).

(** An entry that refers to the table in frame [f]. *)
Definition points (user : bool) (e f : Z) : Prop :=
  to_addr e = f /\ Z.testbit e 0 = true /\ Z.testbit e 1 = true /\ Z.testbit e 7 = false /\
  Z.testbit e 2 = user.

(** An entry of a table of level [l] that maps a page. *)
Definition leaf (l : nat) (e : Z) : Prop :=
  Z.testbit e 0 = true /\ (l = 1%nat \/ (l <= 3)%nat /\ Z.testbit e 7 = true) /\ to_addr e mod 2 ^ shift l = 0.

Section Shape.
Context (U : Z -> bool) (kroot : Z).

(** The entries of a top table that an address space does not share. *)
Definition own (r : Z) (l : nat) (i : Z) : Prop := l = 4%nat -> r = kroot \/ foreign i = false.

Definition entry_ok (D : gmap Z node) (r : Z) (l : nat) (p i e : Z) : Prop :=
  e = 0 \/ leaf l e \/
  (1 < l)%nat /\ exists f, (points (U r) e f /\ D !! f = Some (r, pred l, 512 * p + i) /\ own r l i) \/
                           (l = 4%nat /\ r <> kroot /\ foreign i = true /\ points false e f /\ D !! f = Some (kroot, pred l, 512 * p + i)).

(** [X] is the table that may be empty in the middle of an operation. *)
Record shape (P : Z -> Z -> Z) (D : gmap Z node) (X : option Z) : Prop := {
  sh_node f r l p : D !! f = Some (r, l, p) ->
    (1 <= l <= 4)%nat /\ D !! r = Some (r, 4%nat, 0) /\ (l = 4%nat -> f = r /\ p = 0);
  sh_frame f n : D !! f = Some n -> 0 < f < 2 ^ 46 /\ f mod 4096 = 0;
  sh_entry f r l p i : D !! f = Some (r, l, p) -> 0 <= i < 512 -> entry_ok D r l p i (P f i);
  sh_unique f g n : D !! f = Some n -> D !! g = Some n -> f = g;
  sh_parent f r l p : D !! f = Some (r, l, p) -> (l < 4)%nat ->
    exists g, D !! g = Some (r, S l, p / 512) /\ points (U r) (P g (p mod 512)) f;
  sh_nonempty f r l p : D !! f = Some (r, l, p) -> (l < 4)%nat -> X <> Some f -> exists i, 0 <= i < 512 /\ P f i <> 0
}.

Definition root (D : gmap Z node) (r : Z) : Prop := D !! r = Some (r, 4%nat, 0).

Lemma points_nonzero u e f : points u e f -> e <> 0.
Proof. intros (_ & H & _) ->. by rewrite Z.bits_0 in H. Qed.

Lemma leaf_nonzero l e : leaf l e -> e <> 0.
Proof. intros (H & _) ->. by rewrite Z.bits_0 in H. Qed.

(** The walk of one level. *)
Lemma walk_zero P l t u w v : P t (index l v) = 0 -> mmu_walk P l t u w v = None.
Proof. intros H. destruct l as [|l]; [done|]. cbn [mmu_walk]. by rewrite H, Z.bits_0. Qed.

Lemma walk_leaf P l t u w v : (1 <= l)%nat -> leaf l (P t (index l v)) ->
  mmu_walk P l t u w v = Some (mkTr (to_addr (P t (index l v)) + v mod 2 ^ shift l)
                                    (u && Z.testbit (P t (index l v)) 2) (w && Z.testbit (P t (index l v)) 1) l).
Proof.
  intros Hl (H0 & H7 & _). destruct l as [|l]; [lia|]. cbn [mmu_walk]. rewrite H0.
  destruct H7 as [[= ->]|[Hl3 H7]]; [done|]. rewrite H7, (proj2 (Nat.ltb_lt l 3)) by lia. by rewrite orb_true_r.
Qed.

Lemma walk_points P l t u w v up f : (1 < l <= 4)%nat -> points up (P t (index l v)) f ->
  mmu_walk P l t u w v = mmu_walk P (pred l) f (u && Z.testbit (P t (index l v)) 2) w v.
Proof.
  intros Hl (<- & H0 & H1 & H7 & _). destruct l as [|l]; [lia|]. cbn [mmu_walk pred].
  rewrite H0, H1, H7, andb_false_r, andb_true_r. by destruct l; [lia|].
Qed.

(** Every table is reached from the top for the addresses it describes. *)
Lemma reach P D X f r l p v : shape P D X -> D !! f = Some (r, l, p) -> vpn (S l) v = p ->
  exists u, mmu P r v = mmu_walk P l f u true v /\ (U r = true -> u = true).
Proof.
  intros Hs. remember (4 - l)%nat as d eqn:Ed. revert f l p Ed. induction d as [|d IH]; intros f l p Ed HD Hv.
  - destruct (sh_node _ _ _ Hs _ _ _ _ HD) as (Hl & _ & H4). assert (l = 4%nat) as -> by lia.
    destruct (H4 eq_refl) as [-> _]. by exists true.
  - destruct (sh_node _ _ _ Hs _ _ _ _ HD) as (Hl & _).
    destruct (sh_parent _ _ _ Hs _ _ _ _ HD) as (g & Hg & Hp); [lia|].
    assert (Hv' : vpn (S (S l)) v = p / 512) by (by rewrite vpn_S, Hv).
    destruct (IH g (S l) (p / 512)) as (u & Hu & HU); [lia|done|done|].
    assert (Hi : p mod 512 = index (S l) v) by (unfold index; by rewrite Hv).
    rewrite Hi in Hp. rewrite Hu. erewrite walk_points; [|lia|done]. eexists. split; [done|].
    intros HUr. rewrite HU by done. destruct Hp as (_ & _ & _ & _ & H2). by rewrite H2, HUr.
Qed.

(** A change of the entry at index [i] of [f] matters only to addresses that use it, and to those only if
    the walk from [f] on changes. *)
Lemma walk_same P P' D X f r l p i : shape P D X -> D !! f = Some (r, l, p) ->
  (forall g j, is_Some (D !! g) -> 0 <= j < 512 -> (g, j) <> (f, i) -> P' g j = P g j) ->
  forall l0 t r0 p0 u w v, D !! t = Some (r0, l0, p0) -> vpn (S l0) v = p0 ->
    vpn l v <> 512 * p + i \/ (r0 <> r /\ (r <> kroot \/ own r0 l0 (index l0 v))) \/
      (forall u w, mmu_walk P' l f u w v = mmu_walk P l f u w v) ->
    mmu_walk P' l0 t u w v = mmu_walk P l0 t u w v.
Proof.
  intros Hs Hf HP. induction l0 as [|l0 IH]; intros t r0 p0 u w v Ht Hv Hne; [done|].
  destruct (sh_node _ _ _ Hs _ _ _ _ Ht) as (Hl0 & _ & _). pose proof (vpn_index (S l0) v) as Hidx. rewrite Hv in Hidx.
  destruct (decide ((t, index (S l0) v) = (f, i))) as [[= -> <-]|Hti].
  { rewrite Ht in Hf. injection Hf as -> <- <-. by destruct Hne as [Hne|[[Hne _]|Hne]]. }
  assert (He : P' t (index (S l0) v) = P t (index (S l0) v)) by (apply HP; [eauto|apply index_range|done]).
  destruct (sh_entry _ _ _ Hs _ _ _ _ (index (S l0) v) Ht (index_range _ _)) as [H0|[Hl|(Hl & f' & [(Hp & HD & _)|(E4 & Hr & Hfo & Hp & HD)])]].
  - rewrite !walk_zero; congruence.
  - rewrite !walk_leaf by (rewrite ?He; done || lia). by rewrite He.
  - rewrite !(walk_points _ (S l0) t _ _ _ (U r0) f') by (rewrite ?He; done || lia). rewrite He.
    eapply IH; [exact HD|exact Hidx|]. destruct Hne as [?|[[? _]|?]]; [by left| |by right; right].
    right. left. split; [done|]. right. intros ->. lia.
  - rewrite !(walk_points _ (S l0) t _ _ _ false f') by (rewrite ?He; done || lia). rewrite He.
    eapply IH; [exact HD|exact Hidx|]. destruct Hne as [?|[[? Ho]|?]]; [by left| |by right; right].
    right. left. destruct Ho as [?|Ho]; [by auto|]. destruct (Ho E4); congruence.
Qed.

Lemma mmu_same P P' D X f r l p i r0 v : shape P D X -> D !! f = Some (r, l, p) ->
  (forall g j, is_Some (D !! g) -> 0 <= j < 512 -> (g, j) <> (f, i) -> P' g j = P g j) ->
  root D r0 -> 0 <= v < 2 ^ 48 ->
  vpn l v <> 512 * p + i \/ (r0 <> r /\ (r <> kroot \/ own r0 4 (index 4 v))) \/
    (forall u w, mmu_walk P' l f u w v = mmu_walk P l f u w v) ->
  mmu P' r0 v = mmu P r0 v.
Proof. intros Hs Hf HP Hr Hv Hne. unfold mmu. by apply (walk_same P P' D X f r l p i Hs Hf HP 4 r0 r0 0); [|apply vpn_top|]. Qed.

Lemma mmu_unchanged P P' D X r v : shape P D X -> (forall f i, is_Some (D !! f) -> 0 <= i < 512 -> P' f i = P f i) ->
  root D r -> 0 <= v < 2 ^ 48 -> mmu P' r v = mmu P r v.
Proof.
  intros Hs HP Hr Hv. apply (mmu_same P P' D X r r 4 0 512); [done|done|by intros; apply HP|done|done|].
  left. rewrite (vpn_index 4), vpn_top by done. pose proof (index_range 4 v). lia.
Qed.

(** [P'] has the entries of [P] in all tables, apart from [e] at index [i] of [f]. *)
Definition updated (D : gmap Z node) (P P' : Z -> Z -> Z) (f i e : Z) : Prop :=
  P' f i = e /\ forall g j, is_Some (D !! g) -> 0 <= j < 512 -> (g, j) <> (f, i) -> P' g j = P g j.

Lemma updated_entry D P P' f i e g n j : updated D P P' f i e -> D !! g = Some n -> 0 <= j < 512 ->
  P' g j = if decide ((g, j) = (f, i)) then e else P g j.
Proof. intros [H1 H2] Hg Hj. case_decide as E; [by injection E as -> ->|]. by apply H2; [eauto| |]. Qed.

(** The entry above a table refers to it. *)
Lemma parent_entry P D X f r l p i g : shape P D X -> D !! f = Some (r, l, p) -> 0 <= i < 512 ->
  D !! g = Some (r, pred l, 512 * p + i) -> (1 < l)%nat -> points (U r) (P f i) g.
Proof.
  intros Hs Hf Hi Hg Hl. destruct (sh_node _ _ _ Hs _ _ _ _ Hf) as (Hl4 & _).
  destruct (sh_parent _ _ _ Hs _ _ _ _ Hg) as (h & Hh & Hp'); [lia|].
  replace ((512 * p + i) / 512) with p in Hh by dlia. replace ((512 * p + i) mod 512) with i in Hp' by dlia.
  replace (S (pred l)) with l in Hh by lia. by rewrite (sh_unique _ _ _ Hs _ _ _ Hf Hh).
Qed.

Section Update.
Context (P P' : Z -> Z -> Z) (D : gmap Z node) (f r : Z) (l : nat) (p i : Z).
Hypothesis Hf : D !! f = Some (r, l, p).
Hypothesis Hi : 0 <= i < 512.

(** A new, empty table [g] below index [i] of [f]. *)
Lemma create_table X g e : shape P D X -> X = None \/ X = Some f -> (1 < l)%nat -> own r l i -> P f i = 0 ->
  D !! g = None -> 0 < g < 2 ^ 46 -> g mod 4096 = 0 ->
  updated D P P' f i e -> points (U r) e g -> (forall j, 0 <= j < 512 -> P' g j = 0) ->
  let D' := <[g := (r, pred l, 512 * p + i)]> D in
  shape P' D' (Some g) /\ forall r0 v, root D r0 -> 0 <= v < 2 ^ 48 -> mmu P' r0 v = mmu P r0 v.
Proof.
  intros Hs HX Hl Hown H0 Hg Hgr Hga Hu Hp Hz D'. destruct (sh_node _ _ _ Hs _ _ _ _ Hf) as (Hl4 & Hr & _).
  assert (Hfg : f <> g) by (intros ->; congruence).
  assert (Hnew : forall h, D !! h <> Some (r, pred l, 512 * p + i)).
  { intros h Hh. apply (points_nonzero (U r) (P f i) h); [by eapply parent_entry|done]. }
  assert (HD : forall h n, D !! h = Some n -> D' !! h = Some n).
  { intros h n Hh. unfold D'. rewrite lookup_insert_ne; [done|]. by intros ->; congruence. }
  assert (HD' : forall h n, D' !! h = Some n -> (h = g /\ n = (r, pred l, 512 * p + i)) \/ (h <> g /\ D !! h = Some n)).
  { intros h n. unfold D'. destruct (decide (h = g)) as [->|Hne].
    - rewrite lookup_insert_eq. intros [= <-]. by left.
    - rewrite lookup_insert_ne by done. by right. }
  assert (Hs' : shape P' D' (Some g)).
  { split.
    - intros h r' l' p' [[-> [= -> -> ->]]|[_ Hh]]%HD'.
      + split; [lia|]. split; [by apply HD|]. lia.
      + destruct (sh_node _ _ _ Hs _ _ _ _ Hh) as (A & B & C). by auto.
    - intros h n [[-> _]|[_ Hh]]%HD'; [done|]. by eapply sh_frame.
    - intros h r' l' p' j [[-> [= -> -> ->]]|[_ Hh]]%HD' Hj; [left; by apply Hz|].
      rewrite (updated_entry _ _ _ _ _ _ _ _ _ Hu Hh Hj). case_decide as E.
      + injection E as -> ->. rewrite Hf in Hh. injection Hh as <- <- <-. right. right. split; [lia|]. exists g. left.
        split; [done|]. split; [apply lookup_insert_eq|done].
      + destruct (sh_entry _ _ _ Hs _ _ _ _ _ Hh Hj) as [?|[?|(Hl' & h' & Hh')]]; [by left|by right; left|].
        right. right. split; [done|]. exists h'. destruct Hh' as [(A & B & C)|(A & B & C & E' & F)]; [left|right]; auto 10.
    - intros h h' n [[-> ->]|[Hne Hh]]%HD' [[-> Hn]|[Hne' Hh']]%HD'; [done| | |].
      + by destruct (Hnew h').
      + subst. by destruct (Hnew h).
      + by eapply sh_unique.
    - intros h r' l' p' [[-> [= -> -> ->]]|[_ Hh]]%HD' Hl'.
      + exists f. replace (S (pred l)) with l by lia. replace ((512 * p + i) / 512) with p by dlia.
        replace ((512 * p + i) mod 512) with i by dlia. split; [by apply HD|]. destruct Hu as [-> _]. done.
      + destruct (sh_parent _ _ _ Hs _ _ _ _ Hh Hl') as (f' & Hf' & Hp'). exists f'. split; [by apply HD|].
        rewrite (updated_entry _ _ _ _ _ _ _ _ _ Hu Hf') by (apply Z.mod_pos_bound; lia). case_decide as E; [|done].
        injection E as -> E. rewrite E, H0 in Hp'. by destruct (points_nonzero _ _ _ Hp').
    - intros h r' l' p' [[-> _]|[Hne Hh]]%HD' Hl' HX'; [done|].
      destruct (decide (h = f)) as [->|Hhf].
      + exists i. destruct Hu as [-> _]. split; [done|]. by eapply points_nonzero.
      + destruct (sh_nonempty _ _ _ Hs _ _ _ _ Hh Hl') as (j & Hj & Hjn).
        { destruct HX as [->| ->]; congruence. }
        exists j. rewrite (updated_entry _ _ _ _ _ _ _ _ _ Hu Hh Hj). rewrite decide_False by congruence. done. }
  split; [done|]. intros r0 v Hr0 Hv. destruct Hu as [He Hu].
  apply (mmu_same P P' D X f r l p i r0 v Hs Hf Hu Hr0 Hv). destruct (decide (vpn l v = 512 * p + i)) as [Ev|]; [|by left].
  right. right. intros u w. assert (Hvi : index l v = i) by (unfold index; dlia).
  rewrite (walk_zero P) by (by rewrite Hvi). rewrite (walk_points P' l f _ _ _ (U r) g) by (rewrite ?Hvi, ?He; done || lia).
  apply walk_zero. apply Hz, index_range.
Qed.

(** The entry at index [i] of [f], which refers to no table, becomes empty or maps a page. *)
Lemma set_entry X X' e : shape P D X -> P f i = 0 \/ leaf l (P f i) -> e = 0 \/ leaf l e -> updated D P P' f i e ->
  (forall h, h <> f -> X' <> Some h -> X <> Some h) ->
  ((l < 4)%nat -> X' <> Some f -> exists j, 0 <= j < 512 /\ P' f j <> 0) -> shape P' D X'.
Proof.
  intros Hs H0 He Hu HX HXf. split.
  - apply (sh_node _ _ _ Hs).
  - apply (sh_frame _ _ _ Hs).
  - intros h r' l' p' j Hh Hj. rewrite (updated_entry _ _ _ _ _ _ _ _ _ Hu Hh Hj). case_decide as E.
    + injection E as -> ->. rewrite Hf in Hh. injection Hh as <- <- <-. destruct He as [?|?]; [by left|by right; left].
    + by eapply sh_entry.
  - apply (sh_unique _ _ _ Hs).
  - intros h r' l' p' Hh Hl. destruct (sh_parent _ _ _ Hs _ _ _ _ Hh Hl) as (g & Hg & Hp). exists g. split; [done|].
    rewrite (updated_entry _ _ _ _ _ _ _ _ _ Hu Hg) by (apply Z.mod_pos_bound; lia). case_decide as E; [|done].
    injection E as -> E. rewrite E in Hp. rewrite Hf in Hg. injection Hg as -> -> ->.
    destruct H0 as [H0|(_ & H0 & _)]; [rewrite H0 in Hp; by destruct (points_nonzero _ _ _ Hp)|].
    destruct (sh_node _ _ _ Hs _ _ _ _ Hh) as [? _]. destruct H0 as [?|[_ H7]]; [lia|].
    destruct Hp as (_ & _ & _ & Hp & _). congruence.
  - intros h r' l' p' Hh Hl HX'. destruct (decide (h = f)) as [->|Hne].
    + rewrite Hf in Hh. injection Hh as <- <- <-. by apply HXf.
    + destruct (sh_nonempty _ _ _ Hs _ _ _ _ Hh Hl) as (j & Hj & Hjn); [by apply HX|]. exists j.
      rewrite (updated_entry _ _ _ _ _ _ _ _ _ Hu Hh Hj). by rewrite decide_False by congruence.
Qed.

(** The page at index [i] of [f]. *)
Definition in_page (v : Z) : bool := bool_decide (vpn l v = 512 * p + i).

Lemma mmu_others X e r0 v : shape P D X -> updated D P P' f i e -> root D r0 -> 0 <= v < 2 ^ 48 ->
  in_page v = false \/ (r0 <> r /\ (r <> kroot \/ own r0 4 (index 4 v))) -> mmu P' r0 v = mmu P r0 v.
Proof.
  intros Hs Hu Hr0 Hv Hne. apply (mmu_same P P' D X f r l p i r0 v Hs Hf (proj2 Hu) Hr0 Hv).
  destruct Hne as [Hne|?]; [|by right; left]. left. unfold in_page in Hne. by apply bool_decide_eq_false in Hne.
Qed.

Lemma map_leaf X e : shape P D X -> X = None \/ X = Some f -> P f i = 0 -> leaf l e -> updated D P P' f i e ->
  shape P' D None /\
  forall v, 0 <= v < 2 ^ 48 -> U r = Z.testbit e 2 ->
    mmu P' r v = if in_page v then Some (mkTr (to_addr e + v mod 2 ^ shift l) (Z.testbit e 2) (Z.testbit e 1) l) else mmu P r v.
Proof.
  intros Hs HX H0 He Hu. destruct (sh_node _ _ _ Hs _ _ _ _ Hf) as (Hl4 & Hr & _).
  assert (Hs' : shape P' D None).
  { eapply set_entry; [exact Hs|by left|by right|exact Hu| |].
    - intros h Hh _. destruct HX as [->| ->]; congruence.
    - intros _ _. exists i. destruct Hu as [-> _]. split; [done|]. by eapply leaf_nonzero. }
  split; [done|]. intros v Hv HU. destruct (in_page v) eqn:E; [|by eapply mmu_others; [..|left]].
  unfold in_page in E. apply bool_decide_eq_true in E. assert (Hvp : vpn (S l) v = p) by (rewrite vpn_S; dlia).
  assert (Hvi : index l v = i) by (unfold index; dlia). destruct (reach _ _ _ _ _ _ _ v Hs' Hf Hvp) as (u & -> & Hur).
  destruct Hu as [He' _]. rewrite walk_leaf by (rewrite ?Hvi, ?He'; done || lia). rewrite Hvi, He'.
  do 2 f_equal. rewrite HU in Hur. destruct (Z.testbit e 2); [by rewrite Hur|by rewrite andb_false_r].
Qed.

Lemma unmap_leaf : shape P D None -> leaf l (P f i) -> updated D P P' f i 0 ->
  shape P' D (Some f) /\
  forall v, 0 <= v < 2 ^ 48 -> mmu P' r v = if in_page v then None else mmu P r v.
Proof.
  intros Hs H0 Hu. assert (Hs' : shape P' D (Some f)).
  { eapply set_entry; [exact Hs|by right|by left|exact Hu| |]; [by intros|congruence]. }
  split; [done|]. intros v Hv. destruct (sh_node _ _ _ Hs _ _ _ _ Hf) as (Hl4 & Hr & _).
  destruct (in_page v) eqn:E; [|by eapply mmu_others; [..|left]].
  unfold in_page in E. apply bool_decide_eq_true in E. assert (Hvp : vpn (S l) v = p) by (rewrite vpn_S; dlia).
  assert (Hvi : index l v = i) by (unfold index; dlia). destruct (reach _ _ _ _ _ _ _ v Hs' Hf Hvp) as (u & -> & _).
  apply walk_zero. rewrite Hvi. apply Hu.
Qed.
End Update.

(** An empty table may be left out of the set of tables that must not be empty, or forgotten. *)
Lemma shape_nonempty P D f : shape P D (Some f) -> (exists i, 0 <= i < 512 /\ P f i <> 0) -> shape P D None.
Proof.
  intros Hs He. split; try apply Hs. intros h r l p Hh Hl _. destruct (decide (h = f)) as [->|Hne]; [done|].
  by apply (sh_nonempty _ _ _ Hs _ _ _ _ Hh Hl); congruence.
Qed.

Lemma shape_root P D r : shape P D (Some r) -> root D r -> shape P D None.
Proof.
  intros Hs Hr. split; try apply Hs. intros h r' l p Hh Hl _. apply (sh_nonempty _ _ _ Hs _ _ _ _ Hh Hl).
  intros [= ->]. rewrite Hr in Hh. injection Hh as _ <- _. lia.
Qed.

(** The empty table [g] at index [i] of [f] goes. *)
Lemma prune_table P P' D f r l p i g : D !! f = Some (r, l, p) -> 0 <= i < 512 -> shape P D (Some g) ->
  D !! g = Some (r, pred l, 512 * p + i) -> (1 < l)%nat -> l <> 4%nat \/ r <> kroot -> (forall j, 0 <= j < 512 -> P g j = 0) ->
  updated D P P' f i 0 ->
  shape P' (delete g D) (Some f) /\ forall r0 v, root D r0 -> 0 <= v < 2 ^ 48 -> mmu P' r0 v = mmu P r0 v.
Proof.
  intros Hf Hi Hs Hg Hl Hk Hz Hu. destruct (sh_node _ _ _ Hs _ _ _ _ Hf) as (Hl4 & Hr & _).
  assert (Hgf : g <> f) by (intros ->; rewrite Hf in Hg; injection Hg as Hg _; lia).
  assert (Hpt : points (U r) (P f i) g) by (by eapply parent_entry).
  assert (HD : forall h n, h <> g -> D !! h = Some n -> delete g D !! h = Some n) by (intros; by rewrite lookup_delete_ne).
  split.
  - split.
    + intros h r' l' p' [Hne Hh]%lookup_delete_Some. destruct (sh_node _ _ _ Hs _ _ _ _ Hh) as (A & B & C).
      split; [done|]. split; [|done]. apply HD; [|done]. intros ->. rewrite Hg in B. injection B as _ B _. lia.
    + intros h n [_ Hh]%lookup_delete_Some. by eapply sh_frame.
    + intros h r' l' p' j [Hne Hh]%lookup_delete_Some Hj. rewrite (updated_entry _ _ _ _ _ _ _ _ _ Hu Hh Hj).
      case_decide as E; [by left|]. destruct (sh_entry _ _ _ Hs _ _ _ _ _ Hh Hj) as [?|[?|(Hl' & h' & Hh')]]; [by left|by right; left|].
      right. right. split; [done|]. exists h'. destruct (decide (h' = g)) as [->|Hn'].
      2:{ destruct Hh' as [(A & B & C)|(A & B & C & E' & F)]; [left|right]; auto 10. }
      exfalso. destruct Hh' as [(_ & B & _)|(El & _ & _ & _ & B)]; rewrite Hg in B; injection B as ? ? ?; [|destruct Hk as [?|?]; [lia|done]]. subst r'.
      assert (l' = l) as -> by lia. assert (p' = p /\ j = i) as [-> ->] by lia. apply E. f_equal. by apply (sh_unique _ _ _ Hs _ _ _ Hh Hf).
    + intros h h' n [_ Hh]%lookup_delete_Some [_ Hh']%lookup_delete_Some. by eapply sh_unique.
    + intros h r' l' p' [Hne Hh]%lookup_delete_Some Hl'. destruct (sh_parent _ _ _ Hs _ _ _ _ Hh Hl') as (f' & Hf' & Hp').
      assert (Hfg : f' <> g).
      { intros ->. rewrite Hz in Hp' by (apply Z.mod_pos_bound; lia). by destruct (points_nonzero _ _ _ Hp'). }
      exists f'. split; [by apply HD|]. rewrite (updated_entry _ _ _ _ _ _ _ _ _ Hu Hf') by (apply Z.mod_pos_bound; lia).
      case_decide as E; [|done]. injection E as -> E. rewrite E in Hp'. destruct Hp' as (Hp' & _), Hpt as (Hpt & _). congruence.
    + intros h r' l' p' [Hne Hh]%lookup_delete_Some Hl' HX. destruct (sh_nonempty _ _ _ Hs _ _ _ _ Hh Hl') as (j & Hj & Hjn); [congruence|].
      exists j. rewrite (updated_entry _ _ _ _ _ _ _ _ _ Hu Hh Hj). by rewrite decide_False by congruence.
  - intros r0 v Hr0 Hv. destruct Hu as [He Hu]. apply (mmu_same P P' D _ f r l p i r0 v Hs Hf Hu Hr0 Hv).
    destruct (decide (vpn l v = 512 * p + i)) as [Ev|]; [|by left]. right. right. intros u w.
    assert (Hvi : index l v = i) by (unfold index; dlia). rewrite (walk_zero P') by (by rewrite Hvi).
    rewrite (walk_points P l f _ _ _ (U r) g) by (rewrite ?Hvi; done || lia). symmetry. apply walk_zero, Hz, index_range.
Qed.

(** A walk that ends in a page comes to it through the tables of the address space. *)
Lemma walk_down P D X : shape P D X -> forall l f r u w v tr, D !! f = Some (r, l, vpn (S l) v) -> own r l (index l v) ->
  mmu_walk P l f u w v = Some tr -> (tr_level tr <= l)%nat /\
  exists g, D !! g = Some (r, tr_level tr, vpn (S (tr_level tr)) v) /\ leaf (tr_level tr) (P g (index (tr_level tr) v)) /\
    tr_addr tr = to_addr (P g (index (tr_level tr) v)) + v mod 2 ^ shift (tr_level tr).
Proof.
  intros Hs. induction l as [|l IH]; intros f r u w v tr Hf Ho H; [done|].
  destruct (sh_node _ _ _ Hs _ _ _ _ Hf) as (Hl & _).
  destruct (sh_entry _ _ _ Hs _ _ _ _ (index (S l) v) Hf (index_range _ _)) as [H0|[Hlf|(Hl1 & g & [(Hp & HD & _)|(E & Hr & Hfo & _)])]].
  - by rewrite walk_zero in H.
  - rewrite walk_leaf in H by (done || lia). injection H as <-. simpl. eauto.
  - rewrite (walk_points _ _ _ _ _ _ _ g) in H by (done || lia).
    destruct (IH g r (u && Z.testbit (P f (index (S l) v)) 2) w v tr) as (? & ?); [|intros ->; lia|done|split; [simpl; lia|done]].
    by rewrite <- vpn_index in HD.
  - destruct (Ho E) as [?|?]; congruence.
Qed.

Lemma table_above P D X f r l v : shape P D X -> D !! f = Some (r, l, vpn (S l) v) -> forall d, (l + d <= 4)%nat ->
  exists g, D !! g = Some (r, (l + d)%nat, vpn (S (l + d)) v).
Proof.
  intros Hs Hf. induction d as [|d IH]; intros Hd; [rewrite Nat.add_0_r; eauto|].
  destruct IH as (g & Hg); [lia|]. destruct (sh_parent _ _ _ Hs _ _ _ _ Hg) as (h & Hh & _); [lia|]. exists h.
  replace (l + S d)%nat with (S (l + d)) by lia. by rewrite <- vpn_S in Hh.
Qed.

(** Below every table but the top one there is a page. *)
Lemma mapped_below P D : shape P D None -> forall l f r p, D !! f = Some (r, l, p) -> (l < 4)%nat ->
  exists v, vpn (S l) v = p /\ 0 <= v < 2 ^ 48 /\ mmu P r v <> None.
Proof.
  intros Hs. assert (Hbelow : forall l f r p, D !! f = Some (r, l, p) -> (l < 4)%nat -> exists v, vpn (S l) v = p /\ mmu P r v <> None).
  { induction l as [|l IH]; intros f r p Hf Hl; destruct (sh_node _ _ _ Hs _ _ _ _ Hf) as (Hl4 & _); [lia|].
    destruct (sh_nonempty _ _ _ Hs _ _ _ _ Hf Hl) as (i & Hi & Hn); [done|].
    destruct (sh_entry _ _ _ Hs _ _ _ _ _ Hf Hi) as [?|[Hlf|(Hl1 & g & [(_ & HD & _)|(? & _)])]]; [done| | |lia].
    - set (v := (512 * p + i) * 2 ^ shift (S l)). exists v.
      assert (Hv : vpn (S l) v = 512 * p + i) by (apply Z.div_mul; apply Z.pow_nonzero; unfold shift; lia).
      assert (Hvp : vpn (S (S l)) v = p) by (rewrite vpn_S, Hv; dlia). split; [done|].
      destruct (reach _ _ _ _ _ _ _ v Hs Hf Hvp) as (u & -> & _).
      assert (Hvi : index (S l) v = i) by (unfold index; rewrite Hv; dlia). by rewrite walk_leaf by (rewrite ?Hvi; done || lia).
    - destruct (IH g r (512 * p + i) HD ltac:(simpl; lia)) as (v & Hv & Hm). exists v. split; [|done].
      rewrite vpn_S. simpl in Hv. rewrite Hv. dlia. }
  intros l f r p Hf Hl. destruct (Hbelow l f r p Hf Hl) as (v & Hv & Hm). exists v. split; [done|]. split; [|done].
  rewrite <- Hv in Hf. destruct (table_above _ _ _ _ _ _ _ Hs Hf (4 - l)) as (g & Hg); [lia|].
  replace (l + (4 - l))%nat with 4%nat in Hg by lia. destruct (sh_node _ _ _ Hs _ _ _ _ Hg) as (_ & _ & H4).
  destruct (H4 eq_refl) as [_ H5]. unfold vpn in H5. change (2 ^ shift 5) with (2 ^ 48) in H5.
  pose proof (Z.div_mod v (2 ^ 48)). pose proof (Z.mod_pos_bound v (2 ^ 48)). lia.
Qed.

(** The addresses an address space does not share with the kernel. *)
Definition own_addr (r v : Z) : Prop := 0 <= v < 2 ^ 48 /\ own r 4 (index 4 v).

Lemma table_own P D X f r l v : shape P D X -> D !! f = Some (r, l, vpn (S l) v) -> (l < 4)%nat -> own r 4 (index 4 v).
Proof.
  intros Hs Hf Hl. destruct (sh_node _ _ _ Hs _ _ _ _ Hf) as (Hl4 & Hr & _).
  destruct (table_above _ _ _ _ _ _ _ Hs Hf (3 - l)) as (g & Hg); [lia|]. replace (l + (3 - l))%nat with 3%nat in Hg by lia.
  destruct (sh_parent _ _ _ Hs _ _ _ _ Hg) as (h & Hh & Hp); [lia|]. destruct (sh_node _ _ _ Hs _ _ _ _ Hh) as (_ & _ & H4).
  destruct (H4 eq_refl) as [-> H0]. change (vpn 4 v mod 512) with (index 4 v) in Hp. rewrite H0 in Hh.
  destruct (sh_entry _ _ _ Hs _ _ _ _ (index 4 v) Hh (index_range _ _)) as [E|[(_ & [?|[? _]] & _)|(_ & g' & [(_ & _ & Ho)|(_ & Hk & _ & Hp' & HD)])]];
    [|lia|lia|done|].
  - rewrite E in Hp. by destruct (points_nonzero _ _ _ Hp).
  - destruct Hp as (Hp & _), Hp' as (Hp' & _). rewrite Hp in Hp'. subst g'. rewrite Hg in HD. injection HD as ? _. by subst.
Qed.

(** The tables of an address space are determined by what is mapped. *)
Lemma same_tables P P' D D' r : shape P D None -> shape P' D' None -> root D r -> root D' r ->
  (forall v, own_addr r v -> mmu P r v <> None -> mmu P' r v = mmu P r v) ->
  forall f l p, D !! f = Some (r, l, p) -> exists g, D' !! g = Some (r, l, p).
Proof.
  intros Hs Hs' Hr Hr' Hview f l p Hf. destruct (sh_node _ _ _ Hs _ _ _ _ Hf) as (Hl & _ & H4).
  destruct (decide (l = 4)%nat) as [->|Hne]; [destruct (H4 eq_refl) as [-> ->]; eauto|].
  destruct (mapped_below _ _ Hs _ _ _ _ Hf) as (v & Hv & Hv48 & Hm); [lia|]. rewrite <- Hv in Hf.
  assert (Ho : own r 4 (index 4 v)) by (eapply table_own; [exact Hs|exact Hf|lia]).
  pose proof (Hview v (conj Hv48 Ho) Hm) as Hm'. destruct (reach _ _ _ _ _ _ _ v Hs Hf eq_refl) as (u & E & _).
  destruct (mmu P r v) as [tr|]; [|done]. destruct (walk_down _ _ _ Hs _ _ _ _ _ _ _ Hf ltac:(intros ->; lia) (eq_sym E)) as (Hle & _).
  unfold root in Hr'. rewrite <- (vpn_top v) in Hr' by done.
  destruct (walk_down _ _ _ Hs' _ _ _ _ _ _ _ Hr' Ho Hm') as (_ & g & Hg & _).
  destruct (table_above _ _ _ _ _ _ _ Hs' Hg (l - tr_level tr)) as (h & Hh); [lia|].
  replace (tr_level tr + (l - tr_level tr))%nat with l in Hh by lia. exists h. by rewrite <- Hv.
Qed.

(** A program cannot access the memory it shares with the kernel. *)
Lemma foreign_private P D r v tr : shape P D None -> root D r -> r <> kroot -> 0 <= v < 2 ^ 48 -> foreign (index 4 v) = true ->
  mmu P r v = Some tr -> tr_user tr = false.
Proof.
  intros Hs Hr Hk Hv Hfo Hm. unfold root in Hr. unfold mmu in Hm.
  destruct (sh_entry _ _ _ Hs _ _ _ _ (index 4 v) Hr (index_range _ _)) as [H0|[(_ & [?|[? _]] & _)|(_ & g & [(_ & _ & Ho)|(_ & _ & _ & Hp & HD)])]];
    [by rewrite walk_zero in Hm|lia|lia|destruct (Ho eq_refl); congruence|].
  rewrite (walk_points _ _ _ _ _ _ false g) in Hm by (done || lia). destruct Hp as (_ & _ & _ & _ & H2). rewrite H2, andb_false_r in Hm. clear -Hm.
  assert (Hu : forall l t w, mmu_walk P l t false w v = Some tr -> tr_user tr = false).
  { induction l as [|l IH]; intros t w; [done|]. cbn [mmu_walk]. destruct (Z.testbit _ 0); [|done]. destruct (_ || _); [by intros [= <-]|apply IH]. }
  by eapply Hu.
Qed.

(** A new address space without tables below the top. *)
Lemma new_root P P' D g : shape P D None -> D !! g = None -> 0 < g < 2 ^ 46 -> g mod 4096 = 0 ->
  (forall f i, is_Some (D !! f) -> 0 <= i < 512 -> P' f i = P f i) -> (forall i, 0 <= i < 512 -> P' g i = 0) ->
  shape P' (<[g := (g, 4%nat, 0)]> D) None /\ (forall r v, root D r -> 0 <= v < 2 ^ 48 -> mmu P' r v = mmu P r v) /\
  (forall v, mmu P' g v = None).
Proof.
  intros Hs Hg Hg1 Hg2 HP Hz.
  assert (HD : forall h n, D !! h = Some n -> <[g := (g, 4%nat, 0)]> D !! h = Some n).
  { intros h n Hh. rewrite lookup_insert_ne; [done|]. intros <-. congruence. }
  assert (HD' : forall h n, <[g := (g, 4%nat, 0)]> D !! h = Some n -> (h = g /\ n = (g, 4%nat, 0)) \/ D !! h = Some n).
  { intros h n. destruct (decide (h = g)) as [->|]; [rewrite lookup_insert_eq; intros [= <-]; by left|rewrite lookup_insert_ne by done; by right]. }
  assert (Hroot : forall h r l p, D !! h = Some (r, l, p) -> r <> g).
  { intros h r l p Hh ->. destruct (sh_node _ _ _ Hs _ _ _ _ Hh) as (_ & Hr & _). congruence. }
  split; [split|split].
  - intros h r l p [[-> [= -> -> ->]]|Hh]%HD'; [split; [lia|]; by rewrite lookup_insert_eq|].
    destruct (sh_node _ _ _ Hs _ _ _ _ Hh) as (A & B & C). auto.
  - intros h n [[-> _]|Hh]%HD'; [done|]. by eapply sh_frame.
  - intros h r l p i [[-> [= -> -> ->]]|Hh]%HD' Hi; [left; by apply Hz|]. rewrite HP by eauto.
    destruct (sh_entry _ _ _ Hs _ _ _ _ _ Hh Hi) as [?|[?|(Hl & f & Hf)]]; [by left|by right; left|]. right. right. split; [done|]. exists f.
    destruct Hf as [(A & B & C)|(A & B & C & E & F)]; [left|right]; auto 10.
  - intros h h' n [[-> ->]|Hh]%HD' [[-> Hn]|Hh']%HD'; [done| | |by eapply sh_unique].
    + by destruct (Hroot _ _ _ _ Hh').
    + subst. by destruct (Hroot _ _ _ _ Hh).
  - intros h r l p [[-> [= -> -> ->]]|Hh]%HD' Hl; [lia|]. destruct (sh_parent _ _ _ Hs _ _ _ _ Hh Hl) as (f & Hf & Hp).
    exists f. split; [by apply HD|]. rewrite HP; [done|eauto|apply Z.mod_pos_bound; lia].
  - intros h r l p [[-> [= -> -> ->]]|Hh]%HD' Hl HX; [lia|]. destruct (sh_nonempty _ _ _ Hs _ _ _ _ Hh Hl HX) as (i & Hi & Hn).
    exists i. split; [done|]. by rewrite HP by eauto.
  - intros r v Hr Hv. by apply (mmu_unchanged P P' D None).
  - intros v. apply walk_zero, Hz, index_range.
Qed.

(** An address space whose top table is empty has no other table and can go. *)
Lemma only_root P D r f l p : shape P D None -> root D r -> (forall i, 0 <= i < 512 -> P r i = 0) -> D !! f = Some (r, l, p) -> f = r.
Proof.
  intros Hs Hr Hz Hf. destruct (sh_node _ _ _ Hs _ _ _ _ Hf) as (Hl & _ & H4).
  destruct (decide (l = 4)%nat) as [->|]; [by destruct (H4 eq_refl)|]. exfalso.
  destruct (mapped_below _ _ Hs _ _ _ _ Hf) as (v & _ & Hv & Hm); [lia|]. apply Hm. apply walk_zero, Hz, index_range.
Qed.

Lemma drop_root P D r : shape P D None -> root D r -> r <> kroot -> (forall i, 0 <= i < 512 -> P r i = 0) ->
  shape P (delete r D) None.
Proof.
  intros Hs Hr Hk Hz.
  assert (HD : forall h r' l p, D !! h = Some (r', l, p) -> h <> r -> r' <> r).
  { intros h r' l p Hh Hne ->. apply Hne. by eapply only_root. }
  split.
  - intros h r' l p [Hne Hh]%lookup_delete_Some. destruct (sh_node _ _ _ Hs _ _ _ _ Hh) as (A & B & C).
    rewrite lookup_delete_ne; [done|]. intros <-. by apply (HD h r l p Hh).
  - intros h n [_ Hh]%lookup_delete_Some. by eapply sh_frame.
  - intros h r' l p i [Hne Hh]%lookup_delete_Some Hi.
    destruct (sh_entry _ _ _ Hs _ _ _ _ _ Hh Hi) as [?|[?|(Hl & f & Hf)]]; [by left|by right; left|]. right. right. split; [done|]. exists f.
    destruct (decide (f = r)) as [->|]; [exfalso|rewrite lookup_delete_ne by done; done].
    unfold root in Hr. rewrite Hr in Hf. destruct (sh_node _ _ _ Hs _ _ _ _ Hh) as (Hl4 & _).
    destruct Hf as [(_ & [= _ E _] & _)|(_ & _ & _ & _ & [= E _])]; [lia|by subst].
  - intros h h' n [_ Hh]%lookup_delete_Some [_ Hh']%lookup_delete_Some. by eapply sh_unique.
  - intros h r' l p [Hne Hh]%lookup_delete_Some Hl. destruct (sh_parent _ _ _ Hs _ _ _ _ Hh Hl) as (f & Hf & Hp). exists f.
    split; [|done]. rewrite lookup_delete_ne; [done|]. intros <-. rewrite Hz in Hp by (apply Z.mod_pos_bound; lia). by destruct (points_nonzero _ _ _ Hp).
  - intros h r' l p [Hne Hh]%lookup_delete_Some. by eapply sh_nonempty.
Qed.

(** The entry of a program's top table that is shared with the kernel is set or cleared. *)
Lemma set_foreign P P' D r i e : shape P D None -> root D r -> r <> kroot -> 0 <= i < 512 -> foreign i = true -> updated D P P' r i e ->
  (e = 0 \/ exists f, points false e f /\ D !! f = Some (kroot, 3%nat, i)) -> shape P' D None.
Proof.
  intros Hs Hr Hk Hi Hfo Hu He. unfold root in Hr. split; [apply Hs|apply Hs| |apply Hs| |].
  - intros h r' l p j Hh Hj. rewrite (updated_entry _ _ _ _ _ _ _ _ _ Hu Hh Hj). case_decide as E; [|by eapply sh_entry].
    injection E as -> ->. rewrite Hr in Hh. injection Hh as <- <- <-. destruct He as [->|(f & A & B)]; [by left|].
    right. right. split; [lia|]. exists f. right. by rewrite Z.mul_0_r, Z.add_0_l.
  - intros h r' l p Hh Hl. destruct (sh_parent _ _ _ Hs _ _ _ _ Hh Hl) as (g & Hg & Hp). exists g. split; [done|].
    rewrite (updated_entry _ _ _ _ _ _ _ _ _ Hu Hg) by (apply Z.mod_pos_bound; lia). case_decide as E; [|done]. exfalso.
    injection E as -> E. rewrite Hr in Hg. injection Hg as <- <- Hp0. assert (Hp' : 512 * 0 + i = p) by dlia.
    destruct (sh_entry _ _ _ Hs _ _ _ _ i Hr Hi) as [E0|[(_ & [?|[? _]] & _)|(_ & f & [(_ & _ & Ho)|(_ & _ & _ & Hpf & HD)])]];
      [|lia|lia|destruct (Ho eq_refl); congruence|].
    + rewrite E, E0 in Hp. by destruct (points_nonzero _ _ _ Hp).
    + rewrite E in Hp. destruct Hp as (Hp & _), Hpf as (Hpf & _). rewrite Hp in Hpf. subst f. rewrite Hh in HD. injection HD as ? _. by subst.
  - intros h r' l p Hh Hl HX. destruct (sh_nonempty _ _ _ Hs _ _ _ _ Hh Hl HX) as (j & Hj & Hn). exists j. split; [done|].
    rewrite (updated_entry _ _ _ _ _ _ _ _ _ Hu Hh Hj). rewrite decide_False; [done|]. intros [= -> _]. rewrite Hr in Hh. injection Hh as _ <- _. lia.
Qed.

Lemma walk_rights P v : forall l t u w u' w', mmu_walk P l t u w v = None -> mmu_walk P l t u' w' v = None.
Proof.
  induction l as [|l IH]; intros t u w u' w'; [done|]. cbn [mmu_walk]. destruct (Z.testbit _ 0); [|done]. destruct (_ || _); [done|apply IH].
Qed.

(** An address space in which nothing is mapped has an empty top table. *)
Lemma unmapped_root P D r i : shape P D None -> root D r -> 0 <= i < 512 -> (forall v, 0 <= v < 2 ^ 48 -> mmu P r v = None) -> P r i = 0.
Proof.
  intros Hs Hr Hi Hv. destruct (decide (P r i = 0)) as [|Hn]; [done|exfalso].
  assert (Hno : forall r' g up, points up (P r i) g -> D !! g = Some (r', 3%nat, 512 * 0 + i) -> False).
  { intros r' g up Hp HD. destruct (mapped_below _ _ Hs _ _ _ _ HD) as (v & Hvi & Hv48 & Hm); [lia|]. apply Hm.
    destruct (reach _ _ _ _ _ _ _ v Hs HD Hvi) as (u & -> & _). eapply (walk_rights _ _ _ _ (true && Z.testbit (P r (index 4 v)) 2) true).
    assert (index 4 v = i) as Ei by (unfold index; rewrite Hvi; dlia).
    rewrite <- (Hv v Hv48). symmetry. apply (walk_points P 4 r true true v up g); [lia|by rewrite Ei]. }
  destruct (sh_entry _ _ _ Hs _ _ _ _ i Hr Hi) as [?|[(_ & [?|[? _]] & _)|(_ & g & [(Hp & HD & _)|(_ & _ & _ & Hp & HD)])]];
    [done|lia|lia|by eapply Hno|by eapply Hno].
Qed.
End Shape.
