(* ===== verification/PageMem.v ===== *)
(** * Page tables in memory

    The operations of PageTable.v on tables that have the shape of PageWalk.v: what each does to the tables, to
    the frames in use and to the translation of addresses. *)

From stdpp Require Import base numbers list gmap.
From S2P Require Import RustPrelude PhysMem PhysFrames PhysInit PhysProps PageTable PageWalk.

Open Scope Z_scope.

(** ** Bits of addresses and entries *)

Abbreviation OFF := (2 ^ 46).

Lemma small_size : PAGE_SIZE_SMALL = 4096.
Proof. done. Qed.

Lemma land_low x n : 0 <= n -> Z.land x (2 ^ n - 1) = x mod 2 ^ n.
Proof. intros. rewrite <- Z.land_ones by done. by rewrite Z.ones_equiv, Z.sub_1_r. Qed.

Lemma idx_index l v : (1 <= l <= 4)%nat -> Z.land (Z.shiftr v (shift l)) 511 = index l v.
Proof.
  intros Hl. change 511 with (2 ^ 9 - 1). rewrite land_low by lia. unfold index, vpn.
  by rewrite Z.shiftr_div_pow2 by (unfold shift; lia).
Qed.

(** An aligned address below the direct map: no bits below 12 and none from 46 on. *)
Definition addr_ok (f : Z) : Prop := 0 <= f < OFF /\ f mod 4096 = 0.

Lemma addr_low f j : addr_ok f -> 0 <= j < 12 -> Z.testbit f j = false.
Proof.
  intros [_ Hf] Hj. rewrite (Z.div_mod f 4096), Hf, Z.add_0_r by lia. change 4096 with (2 ^ 12).
  rewrite Z.mul_comm, <- Z.shiftl_mul_pow2, Z.shiftl_spec_low by lia. done.
Qed.

Lemma addr_high f j : addr_ok f -> 46 <= j -> Z.testbit f j = false.
Proof.
  intros [Hf _] Hj. destruct (decide (f = 0)) as [->|]; [by rewrite Z.bits_0|].
  apply Z.bits_above_log2; [lia|]. apply Z.log2_lt_pow2; [lia|]. eapply Z.lt_le_trans; [apply Hf|]. apply Z.pow_le_mono_r; lia.
Qed.

Lemma mask_bits j : 0 <= j -> Z.testbit 0x000ffffffffff000 j = (12 <=? j) && (j <? 52).
Proof.
  intros Hj. change 0x000ffffffffff000 with (Z.shiftl (Z.ones 40) 12). rewrite Z.shiftl_spec by lia.
  destruct (Z.leb_spec 12 j); [|by rewrite Z.testbit_neg_r by lia].
  rewrite Z.testbit_ones_nonneg by lia. simpl. destruct (Z.ltb_spec (j - 12) 40), (Z.ltb_spec j 52); done || lia.
Qed.

(** An entry is an address with flags in the low bits. *)
Lemma entry_addr f flags : addr_ok f -> 0 <= flags < 4096 -> to_addr (Z.lor f flags) = f.
Proof.
  intros Hf Hfl. unfold to_addr. apply Z.bits_inj'. intros j Hj. rewrite Z.land_spec, Z.lor_spec, mask_bits by done.
  destruct (Z.leb_spec 12 j).
  - assert (Z.testbit flags j = false) as ->.
    { destruct (decide (flags = 0)) as [->|]; [by rewrite Z.bits_0|]. apply Z.bits_above_log2; [lia|].
      apply Z.log2_lt_pow2; [lia|]. eapply Z.lt_le_trans; [apply Hfl|]. apply (Z.pow_le_mono_r 2 12); lia. }
    rewrite orb_false_r. destruct (Z.ltb_spec j 52); simpl; [by rewrite andb_true_r|].
    by rewrite andb_false_r, addr_high by (done || lia).
  - by rewrite andb_false_r, addr_low by (done || lia).
Qed.

Lemma entry_bit f flags j : addr_ok f -> 0 <= j < 12 -> Z.testbit (Z.lor f flags) j = Z.testbit flags j.
Proof. intros Hf Hj. by rewrite Z.lor_spec, addr_low. Qed.

Lemma addr_mask f : addr_ok f -> Z.land f 0x000ffffffffff000 = f.
Proof. intros Hf. pose proof (entry_addr f 0 Hf ltac:(lia)) as H. by rewrite Z.lor_0_r in H. Qed.

Lemma off_bit : PAGING_DIRECT_MAP_OFFSET = bit 46.
Proof. done. Qed.

Lemma addr_no_off f : addr_ok f -> Z.land f PAGING_DIRECT_MAP_OFFSET = 0.
Proof. intros Hf. apply Z.eqb_eq. rewrite off_bit, land_bit_test by lia. by rewrite addr_high by (done || lia). Qed.

Lemma addr_off f : addr_ok f -> Z.lor f PAGING_DIRECT_MAP_OFFSET = OFF + f.
Proof.
  intros Hf. rewrite Z.add_comm. change OFF with PAGING_DIRECT_MAP_OFFSET.
  rewrite <- Z.lxor_lor, <- Z.add_nocarry_lxor by (by apply addr_no_off). done.
Qed.

Lemma off_addr f : addr_ok f -> Z.lxor (OFF + f) PAGING_DIRECT_MAP_OFFSET = f.
Proof.
  intros Hf. rewrite <- addr_off, <- Z.lxor_lor by (done || by apply addr_no_off).
  by rewrite Z.lxor_assoc, Z.lxor_nilpotent, Z.lxor_0_r.
Qed.

Lemma off_direct f : addr_ok f -> negb (Z.land (OFF + f) PAGING_DIRECT_MAP_OFFSET =? 0) = true.
Proof.
  intros Hf. rewrite off_bit, land_bit_test, negb_involutive by lia. rewrite <- addr_off by done.
  rewrite off_bit, testbit_set by lia. rewrite bool_decide_eq_true_2 by done. apply orb_true_r.
Qed.

Lemma present_bit e : is_present e = Z.testbit e 0.
Proof. unfold is_present. change PTE_PRESENT with (bit 0). rewrite land_bit_test by lia. apply negb_involutive. Qed.

Lemma huge_bit e : is_huge_page e = Z.testbit e 7.
Proof. unfold is_huge_page. change PTE_HUGE with (bit 7). rewrite land_bit_test by lia. apply negb_involutive. Qed.

(** ** Memory *)

Lemma word_insert k a x b : word (set_words (<[a := x]> (words k)) k) b = if decide (a = b) then x else word k b.
Proof. unfold word. simpl. case_decide as E; [subst; by rewrite lookup_insert_eq|by rewrite lookup_insert_ne]. Qed.

Lemma lookup_zero_words n pos w b : zero_words n pos w !! b =
  if decide (pos <= b < pos + 8 * Z.of_nat n /\ (b - pos) mod 8 = 0) then Some 0 else w !! b.
Proof.
  revert pos w. induction n as [|n IH]; intros pos w; cbn [zero_words].
  - rewrite decide_False by lia. done.
  - rewrite IH. destruct (decide (b = pos)) as [->|Hne].
    + rewrite decide_False by lia. rewrite lookup_insert_eq. rewrite decide_True; [done|]. split; [lia|]. by rewrite Z.sub_diag.
    + rewrite lookup_insert_ne by done. apply decide_ext. replace (b - pos) with (b - (pos + 8) + 1 * 8) by lia.
      rewrite Z_mod_plus_full. split; intros [H1 H2]; (split; [|done]); [lia|]. rewrite Z.mod_eq in H2 by lia. lia.
Qed.

(** The entry at index [i] of the table in frame [f]. *)
Definition entry (k : Kmem) (f i : Z) : Z := word k (OFF + f + 8 * i).

(** [a] is not in the page at [f] as seen through the direct map. *)
Definition off_page (f size a : Z) : Prop := ~ (OFF + f <= a < OFF + f + size).

(** At least [n] frames are free. *)
Definition free_frames (k : Kmem) (n : nat) : Prop :=
  exists l, NoDup l /\ length l = n /\ Forall (fun x => frame (phys k) x /\ x <> 0 /\ ~ used (phys k) x) l.

Lemma free_frames_one k n : free_frames k (S n) -> exists x, frame (phys k) x /\ x <> 0 /\ ~ used (phys k) x.
Proof. intros ([|x l] & _ & Hl & H); [done|]. exists x. by inversion H. Qed.

Lemma free_frames_less k m n : free_frames k n -> (m <= n)%nat -> free_frames k m.
Proof.
  intros (l & H1 & H2 & H3) Hm. exists (take m l). split_and!; [|rewrite length_take; lia|by apply Forall_take].
  rewrite <- (take_drop m l) in H1. by apply NoDup_app in H1 as [? _].
Qed.

Lemma free_frames_take k k' n f : free_frames k (S n) -> (forall x, frame (phys k') x <-> frame (phys k) x) ->
  (forall x, used (phys k') x <-> used (phys k) x \/ x = f) -> free_frames k' n.
Proof.
  intros (l & Hnd & Hlen & Hall) Hfr Hu.
  assert (Hall' : forall x, x ∈ l -> x <> f -> frame (phys k') x /\ x <> 0 /\ ~ used (phys k') x).
  { intros x Hx Hne. destruct (proj1 (Forall_forall _ _) Hall x Hx) as (A & B & C). rewrite Hfr, Hu. split_and!; [done..|by intros [?|?]]. }
  destruct (decide (f ∈ l)) as [Hin|Hnin].
  - apply list_elem_of_split in Hin as (l1 & l2 & ->). apply NoDup_app in Hnd as (N1 & N2 & N3).
    apply NoDup_cons in N3 as [N3 N4]. exists (l1 ++ l2). split_and!.
    + apply NoDup_app. split_and!; [done| |done]. intros x Hx Hx2. apply (N2 x Hx). by constructor.
    + rewrite length_app in *. simpl in Hlen. lia.
    + apply Forall_forall. intros x Hx. apply elem_of_app in Hx as [Hx|Hx]; apply Hall'.
      * apply elem_of_app. by left.
      * intros ->. apply (N2 f Hx). constructor.
      * apply elem_of_app. right. by constructor.
      * by intros ->.
  - destruct l as [|y l]; [done|]. apply NoDup_cons in Hnd as [? ?]. exists l. split_and!; [done|by injection Hlen|].
    apply Forall_forall. intros x Hx. apply Hall'; [by constructor|]. intros ->. apply Hnin. by constructor.
Qed.

(** ** The frame allocator *)

Lemma wp_alloc_any k (Q : Z -> Kmem -> Prop) (X : MemError -> Kmem -> Prop) : phys_wf (phys k) ->
  (forall f k', frame (phys k) f -> f <> 0 -> ~ used (phys k) f ->
     becomes (phys k) (phys k') (fun x => used (phys k) x \/ x = f) -> words k' = words k -> flushes k' = flushes k -> Q f k') ->
  (forall k', phys k' = phys k -> words k' = words k -> flushes k' = flushes k ->
     (forall f, frame (phys k) f -> f <> 0 -> used (phys k) f) -> X OutOfMemory k') ->
  wp (phys_allocate_frameless SmallPage) k Q X.
Proof.
  intros Hwf HQ HX. unfold wp, phys_allocate_frameless, bind, get_state, modify, on_phys, next_base. cbn [phys].
  pose proof (allocate_small (phys k) (default 0 (head (bases k))) Hwf) as Ha.
  destruct (allocate_frameless _ _ _) as [p' [f|e|]]; [|by destruct Ha as (-> & -> & Ha); apply HX|done].
  destruct Ha as (A & B & C & E). by apply HQ.
Qed.

Lemma wp_unwrap_ok {S E A} (m : eff S E A) s Q X : wp m s Q (fun _ _ => False) -> wp (unwrap m) s Q X.
Proof. unfold wp, unwrap. by destruct (m s) as [s' [a|e|]]. Qed.

Lemma wp_alloc_frame k n (Q : Z -> Kmem -> Prop) X : phys_wf (phys k) -> free_frames k (S n) ->
  (forall f k', frame (phys k) f -> f <> 0 -> ~ used (phys k) f ->
     becomes (phys k) (phys k') (fun x => used (phys k) x \/ x = f) -> words k' = words k -> flushes k' = flushes k -> Q f k') ->
  wp (unwrap (phys_allocate_frameless SmallPage)) k Q X.
Proof.
  intros Hwf Hfree HQ. apply wp_unwrap_ok, wp_alloc_any; [done|done|]. intros k' _ _ _ Hall.
  destruct (free_frames_one _ _ Hfree) as (x & H1 & H2 & H3). by apply H3, Hall.
Qed.

Lemma wp_free_frame k f (Q : unit -> Kmem -> Prop) X : phys_wf (phys k) -> used (phys k) f ->
  (forall k', becomes (phys k) (phys k') (fun x => used (phys k) x /\ x <> f) -> words k' = words k -> flushes k' = flushes k -> Q tt k') ->
  wp (phys_deallocate_frameless f SmallPage) k Q X.
Proof.
  intros Hwf Hu HQ. destruct (deallocate_small (phys k) f Hwf Hu) as (p' & E & Hb).
  unfold wp, phys_deallocate_frameless, on_phys. rewrite E. by apply HQ.
Qed.

Lemma used_addr k f : phys_wf (phys k) -> (forall x, frame (phys k) x -> x < OFF) -> used (phys k) f -> addr_ok f /\ 0 < f /\ frame (phys k) f.
Proof.
  intros Hwf Hlim Hu. assert (Hfr : frame (phys k) f) by (destruct Hu as ((i & d & j & Hl & _) & _); by exists i, d, j).
  assert (0 <= f).
  { destruct Hfr as (i & d & j & Hl & Hj & ->). destruct Hwf as [HI _].
    destruct (page_bounds SM lg_ok d j (sw_each _ _ (aw_segs _ _ HI) _ _ Hl) Hj) as (? & _).
    pose proof (dw_start _ _ (sw_each _ _ (aw_segs _ _ HI) _ _ Hl)). lia. }
  assert (f <> 0) by apply Hu. split_and!; [split; [split; [done|by apply Hlim]|by eapply frame_aligned]|lia|done].
Qed.

(** ** Words of memory *)

Lemma wp_zero_small k f (Q : unit -> Kmem -> Prop) X : addr_ok f ->
  (forall k', (forall i, 0 <= i < 512 -> entry k' f i = 0) -> (forall a, off_page f 4096 a -> word k' a = word k a) ->
     phys k' = phys k -> flushes k' = flushes k -> Q tt k') ->
  wp (zero_page (u64 (f + PAGING_DIRECT_MAP_OFFSET)) SmallPage) k Q X.
Proof.
  intros Hf HQ. assert (E : u64 (f + PAGING_DIRECT_MAP_OFFSET) = OFF + f).
  { change PAGING_DIRECT_MAP_OFFSET with OFF. destruct Hf as [Hf _]. rewrite u64_id by (unfold is_u64; lia). lia. }
  rewrite E. unfold zero_page. cbn [page_size]. rewrite small_size. wp_steps. apply wp_assert.
  { change (4096 - 1) with (2 ^ 12 - 1). rewrite land_low by lia. apply Z.eqb_eq. change (2 ^ 12) with 4096. destruct Hf as [_ Hf]. dlia. }
  wp_steps. apply HQ; [| |done|done].
  - intros i Hi. unfold entry, word. cbn [words set_words]. rewrite lookup_zero_words, decide_True; [done|].
    split; [change (8 * Z.of_nat (Z.to_nat (4096 / 8))) with 4096; lia|]. replace (OFF + f + 8 * i - (OFF + f)) with (i * 8) by lia.
    by rewrite Z.mod_mul by lia.
  - intros a Ha. unfold word. cbn [words set_words]. rewrite lookup_zero_words, decide_False; [done|].
    intros [Ha' _]. apply Ha. change (8 * Z.of_nat (Z.to_nat (4096 / 8))) with 4096 in Ha'. lia.
Qed.

Lemma wp_hw_get k f i (Q : Z -> Kmem -> Prop) X : 0 <= i < 512 -> Q (entry k f i) k -> wp (hw_get (OFF + f) i) k Q X.
Proof. intros Hi HQ. unfold hw_get. wp_steps. apply wp_assert; [apply Z.ltb_lt; apply Hi|]. done. Qed.

Definition put (k : Kmem) (f i e : Z) : Kmem := set_words (<[OFF + f + 8 * i := e]> (words k)) k.

Lemma wp_hw_set k f i e (Q : unit -> Kmem -> Prop) X : 0 <= i < 512 -> Q tt (put k f i e) -> wp (hw_set (OFF + f) i e) k Q X.
Proof. intros Hi HQ. unfold hw_set. wp_steps. apply wp_assert; [apply Z.ltb_lt; apply Hi|]. done. Qed.

Lemma wp_from_pte k e f (Q : Z -> Kmem -> Prop) X : to_addr e = f -> addr_ok f -> Q (OFF + f) k -> wp (from_pte e) k Q X.
Proof.
  intros He Hf HQ. unfold from_pte. fold (to_addr e). rewrite He, addr_no_off, addr_off by done. wp_steps. apply wp_assert; [done|].
  wp_steps. apply wp_assert; [apply negb_true_iff, Z.eqb_neq; destruct Hf; lia|]. by wp_steps.
Qed.

Lemma wp_self_addr k f (Q : Z -> Kmem -> Prop) X : addr_ok f -> Q f k -> wp (self_phys_addr (OFF + f)) k Q X.
Proof. intros Hf HQ. unfold self_phys_addr. wp_steps. apply wp_assert; [by apply off_direct|]. wp_steps. by rewrite off_addr. Qed.

Lemma wp_hw_is_empty k f (Q : bool -> Kmem -> Prop) X :
  ((forall i, 0 <= i < 512 -> entry k f i = 0) -> Q true k) -> ((exists i, 0 <= i < 512 /\ entry k f i <> 0) -> Q false k) ->
  wp (hw_is_empty (OFF + f)) k Q X.
Proof.
  intros Ht Hf. unfold hw_is_empty. wp_steps. destruct (forallb _ _) eqn:E.
  - apply Ht. intros i Hi. rewrite forallb_forall in E. apply Z.eqb_eq. apply (E i), list_elem_of_In, elem_of_seqZ. unfold PTE_COUNT. lia.
  - apply Hf. apply not_true_iff_false in E. rewrite forallb_forall in E.
    destruct (decide (Forall (fun i => entry k f i = 0) (seqZ 0 512))) as [Ha|Hn].
    + exfalso. apply E. intros i Hi. apply list_elem_of_In in Hi. apply Z.eqb_eq. by apply (proj1 (Forall_forall _ _) Ha i).
    + apply not_Forall_Exists in Hn; [|apply _]. apply Exists_exists in Hn as (i & Hi & Hn). apply elem_of_seqZ in Hi. exists i. split; [lia|done].
Qed.

Lemma entry_put k f i e g j : addr_ok f -> addr_ok g -> 0 <= i < 512 -> 0 <= j < 512 ->
  entry (put k f i e) g j = if decide ((g, j) = (f, i)) then e else entry k g j.
Proof.
  intros [_ Hf] [_ Hg] Hi Hj. unfold entry, put. rewrite word_insert. destruct (decide ((g, j) = (f, i))) as [[= -> ->]|Hne].
  - by rewrite decide_True.
  - rewrite decide_False; [done|]. intros E. apply Hne. assert (f = g) as -> by dlia. assert (i = j) by lia. congruence.
Qed.

Lemma word_put k f i e a : 0 <= i < 512 -> off_page f 4096 a -> word (put k f i e) a = word k a.
Proof. intros Hi Ha. unfold put. rewrite word_insert. rewrite decide_False; [done|]. intros <-. apply Ha. lia. Qed.

(** ** Tables in memory *)

Section Tables.
Context (U : Z -> bool) (kroot : Z).

Record pt_inv (k : Kmem) (D : gmap Z node) (X : option Z) : Prop := {
  pi_phys : phys_wf (phys k);
  pi_limit f : frame (phys k) f -> f < OFF;
  pi_used f n : D !! f = Some n -> used (phys k) f;
  pi_shape : shape U kroot (entry k) D X
}.

(** The address space of the page table [r] as the processor sees it. *)
Definition view (k : Kmem) (r v : Z) : option translation := mmu (entry k) r v.

Lemma pi_addr k D X f n : pt_inv k D X -> D !! f = Some n -> addr_ok f.
Proof. intros HI Hf. by eapply used_addr; [apply HI|apply HI|eapply pi_used]. Qed.

Lemma updated_put k D X f n i e : pt_inv k D X -> D !! f = Some n -> 0 <= i < 512 -> updated D (entry k) (entry (put k f i e)) f i e.
Proof.
  intros HI Hf Hi. pose proof (pi_addr _ _ _ _ _ HI Hf). split.
  - by rewrite entry_put, decide_True.
  - intros g j [n' Hg] Hj Hne. pose proof (pi_addr _ _ _ _ _ HI Hg). by rewrite entry_put, decide_False.
Qed.

(** From [k] with the tables [D] to [k'] with the tables [D'], of which some may be new; nothing else changes. *)
Record grown (k k' : Kmem) (D D' : gmap Z node) : Prop := {
  gr_sub f n : D !! f = Some n -> D' !! f = Some n;
  gr_frames x : frame (phys k') x <-> frame (phys k) x;
  gr_used x : used (phys k') x <-> used (phys k) x \/ (D !! x = None /\ is_Some (D' !! x));
  gr_new x : D !! x = None -> is_Some (D' !! x) -> ~ used (phys k) x;
  gr_roots r : root D' r -> root D r;
  gr_words a : (forall f, is_Some (D' !! f) -> off_page f 4096 a) -> word k' a = word k a;
  gr_flushes : flushes k' = flushes k;
  gr_kept f i : is_Some (D !! f) -> 0 <= i < 512 -> entry k f i <> 0 -> entry k' f i <> 0
}.

Definition same_view (k k' : Kmem) (D : gmap Z node) : Prop :=
  forall r v, root D r -> 0 <= v < 2 ^ 48 -> view k' r v = view k r v.

Lemma grown_refl k D : grown k k D D.
Proof.
  split; try done.
  - intros x. split; [by left|]. intros [?|[E [n Hn]]]; [done|congruence].
  - intros x E [n Hn]. congruence.
Qed.

Lemma grown_trans k1 k2 k3 D1 D2 D3 : grown k1 k2 D1 D2 -> grown k2 k3 D2 D3 -> grown k1 k3 D1 D3.
Proof.
  intros [S1 F1 U1 N1 R1 W1 L1 K1] [S2 F2 U2 N2 R2 W2 L2 K2].
  assert (Hs : forall x, is_Some (D1 !! x) -> is_Some (D2 !! x)) by (intros x [n ?]; eauto).
  assert (Hs2 : forall x, is_Some (D2 !! x) -> is_Some (D3 !! x)) by (intros x [n ?]; eauto).
  split; auto.
  - intros x. by rewrite F2.
  - intros x. rewrite U2, U1. destruct (D2 !! x) eqn:E2.
    + split; [|intros [?|[? _]]; [by left; left|left; right; split; [done|eauto]]].
      intros [[?|[? _]]|[? _]]; [by left|right; split; [done|apply Hs2; rewrite E2; eauto]|done].
    + split; [|intros [?|[_ ?]]; [by left; left|by right]].
      intros [[?|[? [? ?]]]|[_ ?]]; [by left|done|]. right. split; [|done].
      destruct (D1 !! x) as [n|] eqn:E1; [|done]. apply S1 in E1. congruence.
  - intros x E1 E3 Hu. destruct (D2 !! x) eqn:E2; [by apply (N1 x); [| rewrite E2; eauto|]|].
    apply (N2 x E2 E3). apply U1. by left.
  - intros a Ha. rewrite W2, W1; [done| |done]. auto.
  - congruence.
Qed.

Lemma same_view_trans k1 k2 k3 D1 D2 : (forall r, root D1 r -> root D2 r) -> same_view k1 k2 D1 -> same_view k2 k3 D2 -> same_view k1 k3 D1.
Proof. intros Hr H1 H2 r v Hr1 Hv. rewrite H2; auto. Qed.

Lemma grown_root k k' D D' r : grown k k' D D' -> root D r -> root D' r.
Proof. intros H. apply (gr_sub _ _ _ _ H). Qed.

(** The slot at index [i] of [f] is empty or refers to a table of the same address space. *)
Definition passable (k : Kmem) (D : gmap Z node) (f r : Z) (l : nat) (p i : Z) : Prop :=
  entry k f i = 0 \/ exists g, points (U r) (entry k f i) g /\ D !! g = Some (r, pred l, 512 * p + i).

(** Flags of an entry that refers to a table. *)
Definition dir_flags (r flags : Z) : Prop :=
  0 <= flags < 4096 /\ Z.testbit flags 0 = true /\ Z.testbit flags 1 = true /\ Z.testbit flags 7 = false /\
  Z.testbit flags 2 = U r.

Lemma dir_points r flags f : addr_ok f -> dir_flags r flags -> points (U r) (Z.lor f flags) f.
Proof.
  intros Hf (H & H0 & H1 & H7 & H2). unfold points. rewrite entry_addr by done. rewrite !entry_bit by (done || lia). done.
Qed.

(** The new table [g] in the slot at index [i] of [f]: [k1] is the state after the allocation of its frame,
    [k2] after it was zeroed. *)
Section Create.
Context (k k1 k2 : Kmem) (D : gmap Z node) (X : option Z) (f r : Z) (l : nat) (p i flags g : Z).
Hypothesis HI : pt_inv k D X.
Hypothesis Hf : D !! f = Some (r, l, p).
Hypothesis Hl : (1 < l)%nat.
Hypothesis Hi : 0 <= i < 512.
Hypothesis Hfl : dir_flags r flags.
Hypothesis Hfree : ~ used (phys k) g.
Hypothesis Hb : becomes (phys k) (phys k1) (fun x => used (phys k) x \/ x = g).
Hypothesis Hw1 : words k1 = words k.
Hypothesis Hz : forall j, 0 <= j < 512 -> entry k2 g j = 0.
Hypothesis Hout : forall a, off_page g 4096 a -> word k2 a = word k1 a.
Hypothesis Hp2 : phys k2 = phys k1.
Hypothesis Hfs : flushes k2 = flushes k.

Let k3 := put k2 f i (Z.lor g flags).
Let D' := <[g := (r, pred l, 512 * p + i)]> D.

Lemma created_addr : addr_ok g /\ 0 < g.
Proof.
  destruct Hb as (B1 & _ & B3 & B4). destruct (used_addr k1 g B1) as (A & B & _); [|by apply B4; right|done].
  intros x Hx. apply (pi_limit _ _ _ HI). by apply B3.
Qed.

Lemma created_fresh : D !! g = None.
Proof. destruct (D !! g) eqn:E; [|done]. by destruct Hfree; eapply pi_used. Qed.

Lemma created_other h m : D !! h = Some m -> h <> g.
Proof. pose proof created_fresh. intros Hh ->. congruence. Qed.

Lemma created_updated : updated D (entry k) (entry k3) f i (Z.lor g flags).
Proof.
  pose proof (pi_addr _ _ _ _ _ HI Hf) as Hfa. destruct created_addr as [Hga _].
  split; [unfold k3; by rewrite entry_put, decide_True|]. intros h j [m Hh] Hj Hn. pose proof (pi_addr _ _ _ _ _ HI Hh) as Hha.
  unfold k3. rewrite entry_put, decide_False by done. unfold entry. rewrite Hout; [unfold word; by rewrite Hw1|].
  unfold off_page. pose proof (created_other _ _ Hh). destruct Hha as [? ?], Hga as [? ?]. dlia.
Qed.

Lemma created_grown : grown k k3 D D'.
Proof.
  destruct Hb as (B1 & B2 & B3 & B4). assert (P3 : phys k3 = phys k1) by exact Hp2.
  assert (HD' : forall x, is_Some (D' !! x) -> x = g \/ is_Some (D !! x)).
  { intros x [m Hm]. destruct (decide (x = g)) as [->|]; [by left|]. unfold D' in Hm. rewrite lookup_insert_ne in Hm by done. eauto. }
  assert (Hg' : is_Some (D' !! g)) by (unfold D'; rewrite lookup_insert_eq; eauto). split; rewrite ?P3.
  - intros h m Hh. unfold D'. rewrite lookup_insert_ne; [done|]. intros <-. by destruct (created_other _ _ Hh).
  - done.
  - intros x. rewrite B4. split; [intros [?| ->]; [by left|right; split; [apply created_fresh|done]]|].
    intros [?|[E [->|[m Hm]]%HD']]; [by left|by right|congruence].
  - intros x E Hx. destruct (HD' x Hx) as [->|[m Hm]]; [done|congruence].
  - intros r0 Hr0. unfold root, D' in *. destruct (decide (r0 = g)) as [->|]; [|by rewrite lookup_insert_ne in Hr0].
    rewrite lookup_insert_eq in Hr0. injection Hr0 as -> E _. destruct (sh_node _ _ _ _ _ (pi_shape _ _ _ HI) _ _ _ _ Hf). lia.
  - intros a Ha. unfold k3. rewrite word_put; [|done|].
    + rewrite Hout; [unfold word; by rewrite Hw1|]. by apply Ha.
    + apply Ha. unfold D'. rewrite lookup_insert_ne by (by intros <-; destruct (created_other _ _ Hf)). eauto.
  - exact Hfs.
  - intros h j [m Hh] Hj Hn. rewrite (updated_entry _ _ _ _ _ _ _ _ _ created_updated Hh Hj). case_decide; [|done].
    eapply points_nonzero, dir_points; [apply created_addr|done].
Qed.

Lemma created_inv : X = None \/ X = Some f -> own kroot r l i -> entry k f i = 0 -> pt_inv k3 D' (Some g) /\ same_view k k3 D.
Proof.
  intros HX Ho H0. destruct Hb as (B1 & B2 & B3 & B4). assert (P3 : phys k3 = phys k1) by exact Hp2. destruct created_addr as [Hga Hg0].
  pose proof (pi_addr _ _ _ _ _ HI Hf) as Hfa.
  assert (Hz3 : forall j, 0 <= j < 512 -> entry k3 g j = 0).
  { intros j Hj. unfold k3. rewrite entry_put by done. rewrite decide_False; [by apply Hz|]. intros [= E _]. by destruct (created_other f _ Hf). }
  destruct (create_table U kroot (entry k) (entry k3) D f r l p i Hf Hi X g (Z.lor g flags) (pi_shape _ _ _ HI) HX Hl Ho H0 created_fresh)
    as (Hs & Hv); [destruct Hga; lia|by destruct Hga|apply created_updated|by apply dir_points|done|].
  split; [|done]. split; rewrite ?P3; [done| | |done].
  - intros h Hh. apply (pi_limit _ _ _ HI). by apply B3.
  - intros h m Hh. apply B4. unfold D' in Hh. destruct (decide (h = g)) as [->|]; [by right|]. rewrite lookup_insert_ne in Hh by done.
    left. by eapply pi_used.
Qed.
End Create.

Lemma get_or_create_spec k D X f r l p i n flags : pt_inv k D X -> X = None \/ X = Some f -> D !! f = Some (r, l, p) -> (1 < l)%nat ->
  0 <= i < 512 -> own kroot r l i -> passable k D f r l p i -> dir_flags r flags -> free_frames k (S n) ->
  wp (get_or_create (OFF + f) i flags) k (fun t k' => exists g D' X',
    t = OFF + g /\ grown k k' D D' /\ same_view k k' D /\ D' !! g = Some (r, pred l, 512 * p + i) /\
    pt_inv k' D' X' /\ (X' = None \/ X' = Some g) /\ free_frames k' n) (fun _ _ => False).
Proof.
  intros HI HX Hf Hl Hi Ho Hpass Hfl Hfree. unfold get_or_create. wp_steps. apply wp_hw_get; [done|]. destruct Hpass as [H0|(g & Hp & Hg)].
  - rewrite H0. change (pte_is_empty 0) with true. cbn [negb]. wp_steps. eapply wp_alloc_frame; [apply HI|exact Hfree|].
    intros g k1 G1 G2 G3 Hb W F. destruct (created_addr k k1 D X g HI Hb) as [Hga _].
    wp_steps. apply wp_zero_small; [done|]. intros k2 Hz Hout P2 F2. wp_step. unfold write_word. apply wp_modify.
    fold (put k2 f i (Z.lor g flags)). apply (wp_from_pte _ _ g); [by apply entry_addr; [|apply Hfl]|done|].
    destruct (created_inv k k1 k2 D X f r l p i flags g) as (HI' & Hv); [done..|congruence|done|done|done|].
    exists g, (<[g := (r, pred l, 512 * p + i)]> D), (Some g).
    split_and!; [done| |done|apply lookup_insert_eq|done|by right|].
    + by eapply created_grown; [..|congruence].
    + destruct Hb as (_ & _ & B3 & B4). eapply free_frames_take; [exact Hfree| |]; unfold put, set_words; cbn [phys]; rewrite P2; done.
  - assert (Hn : entry k f i <> 0) by (by eapply points_nonzero). destruct Hp as (Ha & H0 & H1 & H7 & H2).
    rewrite (proj2 (Z.eqb_neq (entry k f i) 0) Hn : pte_is_empty _ = false). cbn [negb]. wp_steps.
    apply wp_assert; [by rewrite huge_bit, H7|]. apply (wp_from_pte _ _ g); [done|by eapply pi_addr|]. exists g, D, None.
    split_and!; [done|apply grown_refl|done|done| |by left|apply (free_frames_less k n (S n)); [done|lia]].
    destruct HX as [->| ->]; [done|]. split; try apply HI. eapply shape_nonempty; [apply HI|]. by exists i.
Qed.

(** ** Mapping a page *)

Definition level_of (kind : PageType) : nat := match kind with LargePage => 3 | MidPage => 2 | _ => 1 end.

(** [v] is in the page of level [l] at [base]. *)
Definition inside (l : nat) (base v : Z) : bool := (base <=? v) && (v <? base + 2 ^ shift l).

Lemma inside_vpn l base v : base mod 2 ^ shift l = 0 -> inside l base v = bool_decide (vpn l v = vpn l base).
Proof.
  intros H. pose proof (vpn_page l base v H) as Hp. unfold inside. apply eq_true_iff_eq.
  rewrite bool_decide_eq_true, Hp, andb_true_iff, Z.leb_le, Z.ltb_lt. done.
Qed.

(** Above an address that is not mapped the tables can be extended down to any level. *)
Lemma unmapped_passable k D X f r l v : pt_inv k D X -> D !! f = Some (r, l, vpn (S l) v) -> (1 < l)%nat ->
  own kroot r l (index l v) -> view k r v = None -> passable k D f r l (vpn (S l) v) (index l v).
Proof.
  intros HI Hf Hl Ho Hv. pose proof (pi_shape _ _ _ HI) as Hs. destruct (sh_node _ _ _ _ _ Hs _ _ _ _ Hf) as (Hl4 & _).
  destruct (sh_entry _ _ _ _ _ Hs _ _ _ _ (index l v) Hf (index_range _ _)) as [?|[Hlf|(_ & g & [(Hp & HD & _)|(E & Hr & Hfo & _)])]].
  - by left.
  - exfalso. unfold view in Hv. destruct (reach _ _ _ _ _ _ _ _ _ v Hs Hf eq_refl) as (u & E & _).
    rewrite E, walk_leaf in Hv by (done || lia). done.
  - right. by exists g.
  - destruct (Ho E); congruence.
Qed.

(** A slot of level [l] none of whose addresses is mapped is empty. *)
Lemma unmapped_slot k D X f r l v : pt_inv k D X -> X = None \/ X = Some f -> D !! f = Some (r, l, vpn (S l) v) ->
  own kroot r l (index l v) -> (forall v', 0 <= v' < 2 ^ 48 -> vpn l v' = vpn l v -> view k r v' = None) -> 0 <= v < 2 ^ 48 ->
  entry k f (index l v) = 0.
Proof.
  intros HI HX Hf Ho Hv Hv48. pose proof (pi_shape _ _ _ HI) as Hs. destruct (sh_node _ _ _ _ _ Hs _ _ _ _ Hf) as (Hl4 & _).
  destruct (decide (entry k f (index l v) = 0)) as [|Hn]; [done|exfalso].
  assert (Hs' : shape U kroot (entry k) D None).
  { destruct HX as [->| ->]; [done|]. eapply shape_nonempty; [done|]. eexists. split; [apply index_range|done]. }
  destruct (sh_entry _ _ _ _ _ Hs _ _ _ _ (index l v) Hf (index_range _ _)) as [?|[Hlf|(Hl & g & [(Hp & HD & _)|(E & Hr & Hfo & _)])]].
  - done.
  - specialize (Hv v Hv48 eq_refl). unfold view in Hv. destruct (reach _ _ _ _ _ _ _ _ _ v Hs Hf eq_refl) as (u & E & _).
    rewrite E, walk_leaf in Hv by (done || lia). done.
  - rewrite <- vpn_index in HD. destruct (mapped_below _ _ _ _ Hs' _ _ _ _ HD) as (v' & Hv' & Hr' & Hm); [lia|].
    replace (S (pred l)) with l in Hv' by lia. by apply Hm, Hv.
  - destruct (Ho E); congruence.
Qed.

(** Flags of an entry that maps a page of level [l]. *)
Definition page_flags (l : nat) (flags : Z) : Prop :=
  0 <= flags < 4096 /\ Z.testbit flags 0 = true /\ Z.testbit flags 7 = negb (l =? 1)%nat.

Lemma page_leaf l f flags : (1 <= l <= 3)%nat -> addr_ok f -> f mod 2 ^ shift l = 0 -> page_flags l flags -> leaf l (Z.lor f flags).
Proof.
  intros Hl Hf Ha (H & H0 & H7). unfold leaf. rewrite entry_addr by done. rewrite !entry_bit by (done || lia). split; [done|]. split; [|done].
  destruct (decide (l = 1)%nat) as [->|]; [by left|]. right. rewrite H7. split; [lia|]. by rewrite (proj2 (Nat.eqb_neq l 1)).
Qed.

Lemma pt_inv_put k D X X' f n i e : pt_inv k D X -> D !! f = Some n -> shape U kroot (entry (put k f i e)) D X' ->
  pt_inv (put k f i e) D X'.
Proof. intros HI Hf Hs. split; [apply HI|apply HI|apply HI|done]. Qed.

(** What a mapping adds to the address space [r]. *)
Definition mapped_view (k k' : Kmem) (D : gmap Z node) (r : Z) (l : nat) (phys_addr virt_addr flags : Z) : Prop :=
  (forall v, 0 <= v < 2 ^ 48 -> view k' r v =
     if inside l virt_addr v then Some (mkTr (phys_addr + (v - virt_addr)) (Z.testbit flags 2) (Z.testbit flags 1) l) else view k r v) /\
  (forall r0 v, root D r0 -> r0 <> r -> 0 <= v < 2 ^ 48 -> r <> kroot \/ own kroot r0 4 (index 4 v) -> view k' r0 v = view k r0 v).

Section SetLeaf.
Context (k k1 : Kmem) (D D1 : gmap Z node) (X : option Z) (f r : Z) (l : nat) (phys_addr virt_addr flags : Z).
Hypothesis Hl : (1 <= l <= 3)%nat.
Hypothesis Hpa : addr_ok phys_addr /\ phys_addr mod 2 ^ shift l = 0.
Hypothesis Hva : 0 <= virt_addr < 2 ^ 48 /\ virt_addr mod 2 ^ shift l = 0.
Hypothesis Hfl : page_flags l flags /\ U r = Z.testbit flags 2.
Hypothesis Hun : forall v, 0 <= v < 2 ^ 48 -> inside l virt_addr v = true -> view k r v = None.

Lemma set_leaf_spec n : pt_inv k1 D1 X -> X = None \/ X = Some f -> D1 !! f = Some (r, l, vpn (S l) virt_addr) ->
  grown k k1 D D1 -> same_view k k1 D -> root D r -> free_frames k1 n ->
  wp (let* prev := hw_get (OFF + f) (index l virt_addr) in
      assert (pte_is_empty prev);;; hw_set (OFF + f) (index l virt_addr) (Z.lor phys_addr flags)) k1
    (fun _ k' => grown k k' D D1 /\ pt_inv k' D1 None /\ free_frames k' n /\ mapped_view k k' D r l phys_addr virt_addr flags) (fun _ _ => False).
Proof.
  intros HI HX Hf Hg Hsv Hr Hn. destruct Hpa as [Hpa1 Hpa2], Hva as [Hv1 Hv2], Hfl as [Hfl1 HU].
  assert (E0 : entry k1 f (index l virt_addr) = 0).
  { eapply unmapped_slot; [exact HI|done|done|intros ->; lia| |done]. intros v' Hv' E. rewrite Hsv by done. apply Hun; [done|].
    rewrite inside_vpn by done. by apply bool_decide_eq_true. }
  wp_steps. apply wp_hw_get; [apply index_range|]. rewrite E0. wp_step. apply wp_assert; [done|]. apply wp_hw_set; [apply index_range|].
  pose proof (updated_put _ _ _ _ _ _ (Z.lor phys_addr flags) HI Hf (index_range l virt_addr)) as Hu.
  destruct (map_leaf U kroot _ _ D1 f r l _ _ Hf (index_range _ _) X _ (pi_shape _ _ _ HI) HX E0 (page_leaf _ _ _ Hl Hpa1 Hpa2 Hfl1) Hu) as (Hs & Hm).
  assert (Hmw : forall a, (forall g, is_Some (D1 !! g) -> off_page g 4096 a) -> word (put k1 f (index l virt_addr) (Z.lor phys_addr flags)) a = word k1 a).
  { intros a Ha. apply word_put; [apply index_range|]. apply Ha. rewrite Hf. eauto. }
  split_and!; [|by eapply pt_inv_put|done|].
  - destruct Hg as [A B C E F G H K]. split; [done|done|done|done|done| |done|].
    + intros a Ha. rewrite Hmw by done. by apply G.
    + intros h j [m Hh] Hj Hnz. rewrite (updated_entry _ _ _ _ _ _ _ _ _ Hu (A _ _ Hh) Hj). case_decide; [by eapply leaf_nonzero, page_leaf|].
      apply K; [eauto|done|done].
  - split.
    + intros v Hv. unfold view at 1. rewrite Hm; [|done|by rewrite entry_bit by (done || lia)].
      unfold in_page. rewrite <- vpn_index, <- inside_vpn by done. rewrite entry_addr by (done || apply Hfl1).
      rewrite !entry_bit by (done || lia). destruct (inside l virt_addr v) eqn:Ei; [|by apply Hsv].
      do 2 f_equal. unfold inside in Ei. apply andb_true_iff in Ei as [E1 E2]. apply Z.leb_le in E1. apply Z.ltb_lt in E2.
      f_equal. symmetry. apply (Z.mod_unique_pos _ _ (virt_addr / 2 ^ shift l)); [lia|].
      pose proof (Z.div_mod virt_addr (2 ^ shift l)) as Hd. rewrite Hv2 in Hd.
      assert (2 ^ shift l <> 0) by (apply Z.pow_nonzero; unfold shift; lia). lia.
    + intros r0 v Hr0 Hne Hv Hk. rewrite <- (Hsv r0 v) by done. unfold view. eapply (mmu_others _ _ _ _ _ _ _ _ _ _ Hf); [apply HI|exact Hu| |done|].
      * by eapply grown_root.
      * by right.
Qed.
End SetLeaf.

(** One step down to the table of the next level, which is created if it does not exist. *)
Lemma wp_descend k k1 D D1 X f r l v n flags (Q : Z -> Kmem -> Prop) : (1 < l)%nat -> pt_inv k1 D1 X -> X = None \/ X = Some f ->
  D1 !! f = Some (r, l, vpn (S l) v) -> grown k k1 D D1 -> same_view k k1 D -> root D r -> own_addr kroot r v -> view k r v = None ->
  dir_flags r flags -> free_frames k1 (S n) ->
  (forall g k2 D2 X2, pt_inv k2 D2 X2 -> X2 = None \/ X2 = Some g -> D2 !! g = Some (r, pred l, vpn (S (pred l)) v) ->
     grown k k2 D D2 -> same_view k k2 D -> free_frames k2 n -> Q (OFF + g) k2) ->
  wp (get_or_create (OFF + f) (index l v) flags) k1 Q (fun _ _ => False).
Proof.
  intros Hl HI HX Hf Hg Hsv Hr [Hv Ho] Hview Hfl Hn HQ.
  assert (Ho' : own kroot r l (index l v)) by (by intros ->; apply Ho).
  eapply wp_mono; [eapply get_or_create_spec; [exact HI|done|exact Hf|done|apply index_range|done| |done|exact Hn]| |done].
  - eapply unmapped_passable; [exact HI|done|done|done|]. by rewrite Hsv.
  - intros t k2 (g & D2 & X2 & -> & Hg2 & Hsv2 & HD2 & HI2 & HX2 & Hn2). rewrite <- vpn_index in HD2.
    eapply HQ; [exact HI2|done| | | |done].
    + by replace (S (pred l)) with l by lia.
    + by eapply grown_trans.
    + eapply same_view_trans; [|exact Hsv|exact Hsv2]. intros r0. by eapply grown_root.
Qed.

Lemma dir_flags_of r flags : U r = Z.testbit flags 2 ->
  dir_flags r (if negb (Z.land flags PTE_USER =? 0)
               then Z.lor (Z.lor (Z.lor PTE_PRESENT PTE_WRITABLE) PTE_USER) PTE_ACCESSED
               else Z.lor (Z.lor PTE_PRESENT PTE_WRITABLE) PTE_ACCESSED).
Proof.
  intros HU. change PTE_USER with (bit 2). rewrite land_bit_test, negb_involutive by lia. unfold dir_flags. rewrite HU.
  destruct (Z.testbit flags 2); repeat split; try done; vm_compute; congruence.
Qed.

(** The arguments of [map_page] and [unmap_page]. *)
Record page_args (r : Z) (kind : PageType) (phys_addr virt_addr : Z) : Prop := {
  pa_kind : kind <> Unknown;
  pa_phys : addr_ok phys_addr /\ phys_addr mod 2 ^ shift (level_of kind) = 0;
  pa_virt : own_addr kroot r virt_addr /\ virt_addr mod 2 ^ shift (level_of kind) = 0
}.

Lemma wp_page_checks {A} r kind phys_addr virt_addr (m : eff Kmem MemError A) k Q X : page_args r kind phys_addr virt_addr ->
  wp m k Q X ->
  wp (let* size := page_size kind in
      assert (Z.land phys_addr (size - 1) =? 0);;; assert (Z.land virt_addr (size - 1) =? 0);;; m) k Q X.
Proof.
  intros [Hk [_ Hp] [_ Hv]] Hm. destruct kind; [done|..]; cbn [page_size level_of] in *; wp_steps.
  - change (PAGE_SIZE_SMALL - 1) with (2 ^ 12 - 1). rewrite !land_low by lia. apply wp_assert; [by apply Z.eqb_eq|]. wp_step. apply wp_assert; [by apply Z.eqb_eq|done].
  - change (PAGE_SIZE_MID - 1) with (2 ^ 21 - 1). rewrite !land_low by lia. apply wp_assert; [by apply Z.eqb_eq|]. wp_step. apply wp_assert; [by apply Z.eqb_eq|done].
  - change (PAGE_SIZE_LARGE - 1) with (2 ^ 30 - 1). rewrite !land_low by lia. apply wp_assert; [by apply Z.eqb_eq|]. wp_step. apply wp_assert; [by apply Z.eqb_eq|done].
Qed.

Lemma idx_l4_index v : idx_l4 v = index 4 v.
Proof. unfold idx_l4. change 39 with (shift 4). rewrite idx_index; [done|lia]. Qed.
Lemma idx_l3_index v : idx_l3 v = index 3 v.
Proof. unfold idx_l3. change 30 with (shift 3). rewrite idx_index; [done|lia]. Qed.
Lemma idx_l2_index v : idx_l2 v = index 2 v.
Proof. unfold idx_l2. change 21 with (shift 2). rewrite idx_index; [done|lia]. Qed.
Lemma idx_l1_index v : idx_l1 v = index 1 v.
Proof. unfold idx_l1. change 12 with (shift 1). rewrite idx_index; [done|lia]. Qed.

Lemma impl_map_page_spec pt k D r kind phys_addr virt_addr flags n : table_l4 pt = OFF + r -> pt_inv k D None -> root D r ->
  page_args r kind phys_addr virt_addr -> page_flags (level_of kind) flags -> U r = Z.testbit flags 2 ->
  (forall v, 0 <= v < 2 ^ 48 -> inside (level_of kind) virt_addr v = true -> view k r v = None) -> free_frames k (n + 3) ->
  wp (impl_map_page pt phys_addr virt_addr kind flags) k (fun _ k' => exists D',
    grown k k' D D' /\ pt_inv k' D' None /\ free_frames k' n /\
    mapped_view k k' D r (level_of kind) phys_addr virt_addr flags) (fun _ _ => False).
Proof.
  intros Ht HI Hr Ha Hfl HU Hun Hn. unfold impl_map_page. rewrite Ht, idx_l4_index, idx_l3_index, idx_l2_index, idx_l1_index.
  apply (wp_page_checks r); [done|]. destruct Ha as [Hk Hpa [[Hv48 Ho] Hva]]. pose proof (dir_flags_of r flags HU) as Hd.
  assert (Hview : view k r virt_addr = None).
  { apply Hun; [done|]. rewrite inside_vpn by done. by apply bool_decide_eq_true. }
  assert (Hr4 : D !! r = Some (r, 4%nat, vpn 5 virt_addr)) by (by rewrite vpn_top).
  replace (n + 3)%nat with (S (S (S n))) in Hn by lia.
  wp_step. eapply (wp_descend k k D D None r r 4); [lia|done|by left|done|apply grown_refl|done|done|done|done|exact Hd|exact Hn|].
  intros t3 k3 D3 X3 HI3 HX3 H3 Hg3 Hsv3 Hn3. cbn [pred] in H3.
  assert (Hlast : forall kk DD XX t l m, pt_inv kk DD XX -> XX = None \/ XX = Some t -> DD !! t = Some (r, l, vpn (S l) virt_addr) ->
    l = level_of kind -> (1 <= l <= 3)%nat -> grown k kk D DD -> same_view k kk D -> free_frames kk m -> (n <= m)%nat ->
    wp (let* prev := hw_get (OFF + t) (index l virt_addr) in
      assert (pte_is_empty prev);;; hw_set (OFF + t) (index l virt_addr) (Z.lor phys_addr flags)) kk
     (fun _ k' => exists D', grown k k' D D' /\ pt_inv k' D' None /\ free_frames k' n /\
      mapped_view k k' D r (level_of kind) phys_addr virt_addr flags) (fun _ _ => False)).
  { intros kk DD XX t l m A B C -> E F G H I.
    eapply wp_mono; [eapply (set_leaf_spec k kk D DD XX t r (level_of kind)) with (n := n); try done; by eapply free_frames_less| |done].
    intros _ k' (? & ? & ? & ?). by exists DD. }
  destruct kind; [done|..]; cbn [level_of] in *.
  - wp_step. eapply (wp_descend k k3 D D3 X3 t3 r 3); [lia|done|done|done|done|done|done|done|done|exact Hd|exact Hn3|].
    intros t2 k2 D2 X2 HI2 HX2 H2 Hg2 Hsv2 Hn2. cbn [pred] in H2. wp_step. apply wp_assert; [done|]. wp_step.
    eapply (wp_descend k k2 D D2 X2 t2 r 2); [lia|done|done|done|done|done|done|done|done|exact Hd|exact Hn2|].
    intros t1 k1 D1 X1 HI1 HX1 H1 Hg1 Hsv1 Hn1. eapply (Hlast k1 D1 X1 t1 1%nat n); done || lia.
  - wp_step. eapply (wp_descend k k3 D D3 X3 t3 r 3); [lia|done|done|done|done|done|done|done|done|exact Hd|exact Hn3|].
    intros t2 k2 D2 X2 HI2 HX2 H2 Hg2 Hsv2 Hn2. eapply (Hlast k2 D2 X2 t2 2%nat (S n)); done || lia.
  - eapply (Hlast k3 D3 X3 t3 3%nat (S (S n))); done || lia.
Qed.

(** ** Unmapping a page *)

(** From [k] with the tables [D] to [k'] with the tables [D'], of which some may have gone. *)
Record shrunk (k k' : Kmem) (D D' : gmap Z node) : Prop := {
  sk_sub f n : D' !! f = Some n -> D !! f = Some n;
  sk_frames x : frame (phys k') x <-> frame (phys k) x;
  sk_used x : used (phys k') x <-> used (phys k) x /\ (is_Some (D !! x) -> is_Some (D' !! x));
  sk_roots r : root D r -> root D' r;
  sk_words a : (forall f, is_Some (D !! f) -> off_page f 4096 a) -> word k' a = word k a
}.

Lemma shrunk_refl k D : shrunk k k D D.
Proof. split; try done. intros x. split; [done|]. by intros [? _]. Qed.

Lemma shrunk_put k k1 D D1 f i e : shrunk k k1 D D1 -> is_Some (D1 !! f) -> 0 <= i < 512 -> shrunk k (put k1 f i e) D D1.
Proof.
  intros [A B C E F] [n Hf] Hi. split; [done|done|done|done|]. intros a Ha. rewrite word_put; [by apply F|done|]. apply Ha. eauto.
Qed.

(** The address space [r] loses a page. *)
Definition unmapped_view (k k' : Kmem) (D : gmap Z node) (r : Z) (l : nat) (virt_addr : Z) : Prop :=
  (forall v, 0 <= v < 2 ^ 48 -> view k' r v = if inside l virt_addr v then None else view k r v) /\
  (forall r0 v, root D r0 -> r0 <> r -> 0 <= v < 2 ^ 48 -> r <> kroot \/ own kroot r0 4 (index 4 v) -> view k' r0 v = view k r0 v).

Lemma unmapped_view_same k k1 k2 D D1 r l a : unmapped_view k k1 D r l a -> same_view k1 k2 D1 -> (forall r0, root D r0 -> root D1 r0) -> root D r ->
  unmapped_view k k2 D r l a.
Proof. intros [H1 H2] Hs Hr Hrr. split; intros; rewrite Hs; auto. Qed.

Section Prune.
Context (k1 k2 : Kmem) (D1 : gmap Z node) (f g r : Z) (l : nat) (p i : Z).
Hypothesis HI : pt_inv k1 D1 (Some g).
Hypothesis Hf : D1 !! f = Some (r, l, p).
Hypothesis Hg : D1 !! g = Some (r, pred l, 512 * p + i).
Hypothesis Hl : (1 < l)%nat.
Hypothesis Hi : 0 <= i < 512.
Hypothesis Hk : l <> 4%nat \/ r <> kroot.
Hypothesis Hz : forall j, 0 <= j < 512 -> entry k1 g j = 0.
Hypothesis Hb : becomes (phys k1) (phys k2) (fun x => used (phys k1) x /\ x <> g).
Hypothesis Hw : words k2 = words (put k1 f i 0).

Lemma pruned_inv : pt_inv k2 (delete g D1) (Some f) /\ same_view k1 k2 D1.
Proof.
  destruct Hb as (B1 & _ & B3 & B4).
  assert (Hu : updated D1 (entry k1) (entry k2) f i 0).
  { pose proof (updated_put _ _ _ _ _ _ 0 HI Hf Hi) as Hu. unfold updated, entry, word in *. by rewrite Hw. }
  destruct (prune_table U kroot _ _ D1 f r l p i g Hf Hi (pi_shape _ _ _ HI) Hg Hl Hk Hz Hu) as (Hs & Hv).
  split; [|done]. split; [done| | |done].
  - intros x Hx. apply (pi_limit _ _ _ HI). by apply B3.
  - intros x n [Hne Hx]%lookup_delete_Some. apply B4. split; [by eapply pi_used|done].
Qed.

Lemma pruned_shrunk k D : shrunk k k1 D D1 -> shrunk k k2 D (delete g D1).
Proof.
  intros [A B C E F]. destruct Hb as (B1 & _ & B3 & B4). split.
  - intros h n [_ Hh]%lookup_delete_Some. auto.
  - intros x. by rewrite B3.
  - intros x. rewrite B4, C. destruct (decide (x = g)) as [->|Hne].
    + rewrite lookup_delete_eq. split; [by intros [_ ?]|]. intros [_ Hx]. destruct Hx as [? ?]; [|done]. eauto.
    + rewrite lookup_delete_ne by done. split; [by intros [? _]|done].
  - intros r0 Hr0. apply E in Hr0. unfold root in *. rewrite lookup_delete_ne; [done|]. intros <-. rewrite Hg in Hr0. injection Hr0 as _ ? _.
    destruct (sh_node _ _ _ _ _ (pi_shape _ _ _ HI) _ _ _ _ Hf). lia.
  - intros a Ha. rewrite <- (F a Ha). transitivity (word (put k1 f i 0) a); [unfold word; by rewrite Hw|].
    apply word_put; [done|]. apply Ha. eauto.
Qed.
End Prune.

(** One step up in [unmap_page]; [Hlive]: the tables the kernel shares do not become empty. *)
Lemma wp_if_emptied k k1 D D1 f g r l v above (Q : unit -> Kmem -> Prop) : (1 < l)%nat -> pt_inv k1 D1 (Some g) ->
  D1 !! f = Some (r, l, vpn (S l) v) -> D1 !! g = Some (r, pred l, vpn (S (pred l)) v) -> shrunk k k1 D D1 ->
  (l = 4%nat -> r = kroot -> exists v', 0 <= v' < 2 ^ 48 /\ vpn l v' = vpn l v /\ view k1 r v' <> None) ->
  (pt_inv k1 D1 None -> Q tt k1) ->
  (forall k2 D2, pt_inv k2 D2 (Some f) -> D2 = delete g D1 -> shrunk k k2 D D2 -> same_view k1 k2 D1 -> flushes k2 = flushes k1 ->
     wp above k2 Q (fun _ _ => False)) ->
  wp (if_emptied (OFF + g) (OFF + f) (index l v) above) k1 Q (fun _ _ => False).
Proof.
  intros Hl HI Hf Hg Hsh Hlive HQ Habove. pose proof (pi_addr _ _ _ _ _ HI Hg) as Hga. pose proof (pi_shape _ _ _ HI) as Hs.
  unfold if_emptied. wp_step. apply wp_hw_is_empty.
  2:{ intros Hne. wp_steps. apply HQ. split; try apply HI. by eapply shape_nonempty. }
  intros Hz. wp_step. apply wp_hw_set; [apply index_range|]. wp_steps. apply wp_self_addr; [done|].
  assert (Hk : l <> 4%nat \/ r <> kroot).
  { destruct (decide (l = 4)%nat) as [E4|]; [|by left]. destruct (decide (r = kroot)) as [Ek|]; [|by right].
    destruct (Hlive E4 Ek) as (v' & _ & Hv' & Hm). destruct Hm. unfold view.
    replace (S (pred l)) with l in Hg by lia. rewrite <- Hv' in Hg.
    destruct (reach _ _ _ _ _ _ _ _ _ v' Hs Hg) as (u & -> & _); [by replace (S (pred l)) with l by lia|]. apply walk_zero, Hz, index_range. }
  replace (S (pred l)) with l in Hg by lia. rewrite vpn_index in Hg.
  apply wp_free_frame; [apply HI|exact (pi_used _ _ _ HI _ _ Hg)|]. intros k2 Hb W F.
  destruct (pruned_inv k1 k2 D1 f g r l (vpn (S l) v) (index l v)) as (HI2 & Hv2); try done; [apply index_range|].
  eapply (Habove k2 (delete g D1)); [done|done| |done|done].
  eapply pruned_shrunk; [exact HI|exact Hf|exact Hg|done|apply index_range|exact Hk|exact Hb|exact W|done].
Qed.

Section Unmap.
Context (k : Kmem) (D : gmap Z node) (r : Z) (lv : nat) (virt : Z) (T : nat -> Z).
Hypothesis Hr : root D r.
Hypothesis Hv48 : 0 <= virt < 2 ^ 48.
Hypothesis Hlive : r = kroot ->
  exists v, 0 <= v < 2 ^ 48 /\ vpn 4 v = vpn 4 virt /\ inside lv virt v = false /\ view k r v <> None.

(** On the way up: the tables from level [l] on are there, the one of level [l] may be empty. *)
Record climbing (k1 : Kmem) (D1 : gmap Z node) (l : nat) : Prop := {
  cl_inv : pt_inv k1 D1 (Some (T l));
  cl_shrunk : shrunk k k1 D D1;
  cl_view : unmapped_view k k1 D r lv virt;
  cl_flushes : flushes k1 = flushes k;
  cl_tables m : (l <= m <= 4)%nat -> D1 !! T m = Some (r, m, vpn (S m) virt)
}.

Definition unmapped (k' : Kmem) : Prop :=
  exists D', shrunk k k' D D' /\ pt_inv k' D' None /\ unmapped_view k k' D r lv virt /\ flushes k' = flushes k.

Lemma climb_step k1 D1 l above : climbing k1 D1 l -> (1 <= l < 4)%nat ->
  (forall k2 D2, climbing k2 D2 (S l) -> wp above k2 (fun _ => unmapped) (fun _ _ => False)) ->
  wp (if_emptied (OFF + T l) (OFF + T (S l)) (index (S l) virt) above) k1 (fun _ => unmapped) (fun _ _ => False).
Proof.
  intros [HI Hsh Hvw Hfs Ht] Hl Habove. eapply (wp_if_emptied k k1 D D1 (T (S l)) (T l) r (S l) virt); try done.
  - lia.
  - apply Ht. lia.
  - simpl. apply Ht. lia.
  - intros [= ->] Ek. destruct (Hlive Ek) as (v & Hv & H4 & Hi & Hm). exists v. split; [done|]. split; [done|].
    destruct Hvw as [Hvw _]. by rewrite Hvw, Hi.
  - intros HI'. exists D1. by split_and!.
  - intros k2 D2 HI2 -> Hsh2 Hv2 Hf2. apply (Habove k2 (delete (T l) D1)). split; [done|done| |congruence|].
    + eapply unmapped_view_same; [exact Hvw|exact Hv2|apply Hsh|done].
    + intros m Hm. rewrite lookup_delete_ne; [apply Ht; lia|]. intros E.
      pose proof (Ht l ltac:(lia)) as E1. pose proof (Ht m ltac:(lia)) as E2. rewrite <- E, E1 in E2. injection E2. lia.
Qed.

Lemma climb_top k1 D1 : climbing k1 D1 4 -> unmapped k1.
Proof.
  intros [HI Hsh Hvw Hfs Ht]. exists D1. split_and!; [done| |done|done]. split; try apply HI.
  eapply shape_root; [apply HI|]. pose proof (Ht 4%nat ltac:(lia)) as E.
  destruct (sh_node _ _ _ _ _ (pi_shape _ _ _ HI) _ _ _ _ E) as (_ & E4 & E5). destruct (E5 eq_refl) as [<- _]. done.
Qed.

Lemma climb_start f : (1 <= lv <= 3)%nat -> virt mod 2 ^ shift lv = 0 -> pt_inv k D None -> T lv = f ->
  (forall m, (lv <= m <= 4)%nat -> D !! T m = Some (r, m, vpn (S m) virt)) -> leaf lv (entry k f (index lv virt)) ->
  climbing (put k f (index lv virt) 0) D lv.
Proof.
  intros Hl Ha HI <- Ht Hlf. pose proof (Ht lv ltac:(lia)) as Hf. pose proof (updated_put _ _ _ _ _ _ 0 HI Hf (index_range lv virt)) as Hu.
  destruct (unmap_leaf U kroot _ _ D (T lv) r lv _ _ Hf (index_range _ _) (pi_shape _ _ _ HI) Hlf Hu) as (Hs & Hm).
  split; [by eapply pt_inv_put| | |done|done].
  - apply shrunk_put; [apply shrunk_refl|rewrite Hf; eauto|apply index_range].
  - split.
    + intros v Hv. unfold view at 1. rewrite Hm by done. unfold in_page. by rewrite <- vpn_index, <- inside_vpn.
    + intros r0 v Hr0 Hne Hv Hk. unfold view. eapply (mmu_others _ _ _ _ _ _ _ _ _ _ Hf); [apply HI|exact Hu|done|done|by right].
Qed.
End Unmap.

(** The tables on the way to a mapped page. *)
Lemma mapped_path k D r virt tr : pt_inv k D None -> root D r -> own_addr kroot r virt -> view k r virt = Some tr ->
  exists T : nat -> Z, T 4%nat = r /\ (1 <= tr_level tr <= 3)%nat /\
    (forall m, (tr_level tr <= m <= 4)%nat -> D !! T m = Some (r, m, vpn (S m) virt)) /\
    leaf (tr_level tr) (entry k (T (tr_level tr)) (index (tr_level tr) virt)).
Proof.
  intros HI Hr [Hv Ho] Hm. pose proof (pi_shape _ _ _ HI) as Hs. unfold root in Hr. rewrite <- (vpn_top virt) in Hr by done.
  destruct (walk_down _ _ _ _ _ Hs _ _ _ _ _ _ _ Hr Ho Hm) as (_ & g & Hg & Hlf & _).
  destruct (sh_node _ _ _ _ _ Hs _ _ _ _ Hg) as (Hl & _).
  assert (Hl3 : (tr_level tr <= 3)%nat) by (destruct Hlf as (_ & [?|[? _]] & _); lia).
  pose proof (fun d Hd => table_above _ _ _ _ _ _ _ _ _ Hs Hg d Hd) as Habove.
  set (l := tr_level tr) in *.
  destruct (decide (l = 3)%nat) as [E3|]; [|destruct (decide (l = 2)%nat) as [E2|]].
  - exists (fun m => if decide (m = 4)%nat then r else g). split_and!; [done|lia|lia| |by rewrite decide_False by lia].
    intros m Hm'. case_decide; [by subst|]. by replace m with l by lia.
  - destruct (Habove 1%nat ltac:(lia)) as (t3 & H3). replace (l + 1)%nat with 3%nat in H3 by lia.
    exists (fun m => if decide (m = 4)%nat then r else if decide (m = 3)%nat then t3 else g).
    split_and!; [done|lia|lia| |by rewrite !decide_False by lia]. intros m Hm'. repeat case_decide; subst; [done|done|]. by replace m with l by lia.
  - destruct (Habove 1%nat ltac:(lia)) as (t2 & H2). destruct (Habove 2%nat ltac:(lia)) as (t3 & H3).
    replace (l + 1)%nat with 2%nat in H2 by lia. replace (l + 2)%nat with 3%nat in H3 by lia.
    exists (fun m => if decide (m = 4)%nat then r else if decide (m = 3)%nat then t3 else if decide (m = 2)%nat then t2 else g).
    split_and!; [done|lia|lia| |by rewrite !decide_False by lia]. intros m Hm'. repeat case_decide; subst; [done..|]. by replace m with l by lia.
Qed.

Lemma wp_read_dir {A} k D (T : nat -> Z) r l v (m : Z -> eff Kmem MemError A) Q X : pt_inv k D None -> (1 < l <= 4)%nat ->
  D !! T l = Some (r, l, vpn (S l) v) -> D !! T (pred l) = Some (r, pred l, vpn (S (pred l)) v) ->
  (forall e, pte_is_empty e = false -> is_huge_page e = false -> wp (from_pte e) k (fun t k' => t = OFF + T (pred l) /\ k' = k) X -> wp (m e) k Q X) ->
  wp (let* e := hw_get (OFF + T l) (index l v) in assert (negb (pte_is_empty e));;; m e) k Q X.
Proof.
  intros HI Hl Hf Hg Hm. wp_steps. apply wp_hw_get; [apply index_range|]. replace (S (pred l)) with l in Hg by lia. rewrite vpn_index in Hg.
  pose proof (parent_entry _ _ _ _ _ _ _ _ _ _ _ (pi_shape _ _ _ HI) Hf (index_range _ _) Hg ltac:(lia)) as Hp.
  assert (He : pte_is_empty (entry k (T l) (index l v)) = false) by (apply Z.eqb_neq; by eapply points_nonzero).
  wp_step. apply wp_assert; [by rewrite He|]. apply Hm; [done|rewrite huge_bit; apply Hp|].
  apply (wp_from_pte _ _ (T (pred l))); [apply Hp|by eapply pi_addr|done].
Qed.

(** [flush_virt_addr]: the processors are told unless the process is gone. *)
Definition flushed (pt : PageTableImpl) (r virt : Z) (k : Kmem) : list (Z * Z) := if dead pt then flushes k else (r, virt) :: flushes k.

Lemma wp_flush pt k k1 D r lv virt : table_l4 pt = OFF + r -> addr_ok r -> unmapped k D r lv virt k1 ->
  wp (impl_flush_virt_addr pt virt) k1 (fun _ k' => exists D',
    shrunk k k' D D' /\ pt_inv k' D' None /\ unmapped_view k k' D r lv virt /\ flushes k' = flushed pt r virt k) (fun _ _ => False).
Proof.
  intros Ht Hr (D1 & Hsh & HI & Hvw & Hf). unfold impl_flush_virt_addr, flushed. destruct (dead pt).
  - apply wp_ret. by exists D1.
  - wp_step. rewrite Ht. apply wp_self_addr; [done|]. apply wp_modify. exists D1. split_and!; [|by destruct HI|done|by simpl; rewrite Hf].
    by destruct Hsh.
Qed.

Lemma impl_unmap_page_spec pt k D r kind phys_addr virt tr : table_l4 pt = OFF + r -> pt_inv k D None -> root D r ->
  page_args r kind phys_addr virt -> view k r virt = Some tr -> tr_level tr = level_of kind ->
  (r = kroot -> exists v, 0 <= v < 2 ^ 48 /\ vpn 4 v = vpn 4 virt /\ inside (level_of kind) virt v = false /\ view k r v <> None) ->
  wp (impl_unmap_page pt phys_addr virt kind) k (fun _ k' => exists D',
    shrunk k k' D D' /\ pt_inv k' D' None /\ unmapped_view k k' D r (level_of kind) virt /\ flushes k' = flushed pt r virt k) (fun _ _ => False).
Proof.
  intros Ht HI Hr Ha Hm Hlv Hlive. unfold impl_unmap_page. rewrite Ht, idx_l4_index, idx_l3_index, idx_l2_index, idx_l1_index.
  apply (wp_page_checks r); [done|]. destruct Ha as [Hk _ [Ho Hva]]. destruct (mapped_path _ _ _ _ _ HI Hr Ho Hm) as (T & HT4 & Hl & HD & Hlf).
  rewrite Hlv in Hl, HD, Hlf. destruct Ho as [Hv48 _]. rewrite <- HT4 at 1.
  assert (Hra : addr_ok r) by (by eapply pi_addr).
  pose proof (climb_start k D r (level_of kind) virt T (T (level_of kind)) Hl Hva HI eq_refl HD Hlf) as Hstart.
  assert (Hne : pte_is_empty (entry k (T (level_of kind)) (index (level_of kind) virt)) = false) by (apply Z.eqb_neq; by eapply leaf_nonzero).
  assert (Hhg : level_of kind <> 1%nat -> is_huge_page (entry k (T (level_of kind)) (index (level_of kind) virt)) = true).
  { intros H1. rewrite huge_bit. destruct Hlf as (_ & [?|[_ ?]] & _); done. }
  apply (wp_read_dir k D T r 4); [done|lia|apply HD; lia|apply HD; cbn [pred]; lia|]. intros e4 He4 Hh4 Hp4. wp_step.
  eapply wp_mono; [exact Hp4| |done]. intros ? ? [-> ->]. cbn [pred].
  assert (Hflush : forall k1, unmapped k D r (level_of kind) virt k1 -> wp (impl_flush_virt_addr pt virt) k1 (fun _ k' => exists D',
    shrunk k k' D D' /\ pt_inv k' D' None /\ unmapped_view k k' D r (level_of kind) virt /\ flushes k' = flushed pt r virt k) (fun _ _ => False))
    by (intros; by apply wp_flush).
  destruct kind; [done|..]; cbn [level_of] in *.
  - apply (wp_read_dir k D T r 3); [done|lia|apply HD; lia|apply HD; cbn [pred]; lia|]. intros e3 He3 Hh3 Hp3. wp_step. apply wp_assert; [by rewrite Hh3|].
    wp_step. eapply wp_mono; [exact Hp3| |done]. intros ? ? [-> ->]. cbn [pred].
    apply (wp_read_dir k D T r 2); [done|lia|apply HD; lia|apply HD; cbn [pred]; lia|]. intros e2 He2 Hh2 Hp2. wp_step. apply wp_assert; [by rewrite Hh2|].
    wp_step. apply wp_assert; [done|]. wp_step. eapply wp_mono; [exact Hp2| |done]. intros ? ? [-> ->]. cbn [pred].
    wp_step. apply wp_hw_get; [apply index_range|]. wp_step. apply wp_assert; [by rewrite Hne|]. wp_step. apply wp_hw_set; [apply index_range|].
    wp_step. replace (OFF + r) with (OFF + T 4%nat) by (by rewrite HT4). eapply (wp_mono _ _ (fun _ => unmapped k D r _ virt) _ (fun _ _ => False)); [|intros a; apply Hflush|done].
    apply (climb_step k D r 1 virt T Hr Hlive _ _ 1 _ Hstart); [lia|]. intros k2 D2 H2.
    apply (climb_step k D r 1 virt T Hr Hlive _ _ 2 _ H2); [lia|]. intros k3 D3 H3.
    apply (climb_step k D r 1 virt T Hr Hlive _ _ 3 _ H3); [lia|]. intros k4 D4 H4. by eapply wp_ret, climb_top.
  - apply (wp_read_dir k D T r 3); [done|lia|apply HD; lia|apply HD; cbn [pred]; lia|]. intros e3 He3 Hh3 Hp3. wp_step. apply wp_assert; [by rewrite Hh3|].
    wp_step. eapply wp_mono; [exact Hp3| |done]. intros ? ? [-> ->]. cbn [pred].
    wp_step. apply wp_hw_get; [apply index_range|]. wp_step. apply wp_assert; [by rewrite Hne|]. wp_step. apply wp_assert; [by apply Hhg|].
    wp_step. apply wp_hw_set; [apply index_range|].
    wp_step. replace (OFF + r) with (OFF + T 4%nat) by (by rewrite HT4). eapply (wp_mono _ _ (fun _ => unmapped k D r _ virt) _ (fun _ _ => False)); [|intros a; apply Hflush|done].
    apply (climb_step k D r 2 virt T Hr Hlive _ _ 2 _ Hstart); [lia|]. intros k3 D3 H3.
    apply (climb_step k D r 2 virt T Hr Hlive _ _ 3 _ H3); [lia|]. intros k4 D4 H4. by eapply wp_ret, climb_top.
  - wp_step. apply wp_hw_get; [apply index_range|]. wp_step. apply wp_assert; [by rewrite Hne|]. wp_step. apply wp_assert; [by apply Hhg|].
    wp_step. apply wp_hw_set; [apply index_range|].
    wp_step. replace (OFF + r) with (OFF + T 4%nat) by (by rewrite HT4). eapply (wp_mono _ _ (fun _ => unmapped k D r _ virt) _ (fun _ _ => False)); [|intros a; apply Hflush|done].
    apply (climb_step k D r 3 virt T Hr Hlive _ _ 3 _ Hstart); [lia|]. intros k4 D4 H4. by eapply wp_ret, climb_top.
Qed.
End Tables.
