(* ===== verification/PageTableProps.v ===== *)
(** * Page tables: the properties

    The kernel's operations on page tables against the translation the processor makes. *)

From stdpp Require Import base numbers list gmap.
From S2P Require Import RustPrelude PhysMem PhysFrames PhysInit PhysProps PageTable PageWalk PageMem.

Open Scope Z_scope.

(** ** Options and flags *)

(** The flags of the entry that [map_page] writes. *)
Definition final_flags (kind : PageType) (options : Z) : option Z :=
  let dont_zero := has options DONT_ZERO || has options MMIO in
  let options := if dont_zero then without options DONT_ZERO else options in
  let user := has options USER_ACCESSIBLE in
  let options := if user then without options USER_ACCESSIBLE else options in
  flags ← pte_flags_of options;
  let flags := if user then Z.lor flags PTE_USER else flags in
  Some (if bool_decide (kind = SmallPage) then flags else Z.lor flags PTE_HUGE).

Definition zeroes (options : Z) : bool := negb (has options DONT_ZERO || has options MMIO).

(** The flags are those of a page of its size, and give the rights that the options ask for. *)
Definition flags_fit (kind : PageType) (options : Z) : bool :=
  match final_flags kind options with
  | None => true
  | Some flags =>
    (0 <=? flags) && (flags <? 4096) && Z.testbit flags 0 &&
    bool_decide (Z.testbit flags 7 = negb (level_of kind =? 1)%nat) &&
    bool_decide (Z.testbit flags 2 = has options USER_ACCESSIBLE) && bool_decide (Z.testbit flags 1 = has options WRITABLE)
  end.

Lemma final_flags_fit kind options flags : kind <> Unknown -> is_u8 options -> final_flags kind options = Some flags ->
  page_flags (level_of kind) flags /\ Z.testbit flags 2 = has options USER_ACCESSIBLE /\ Z.testbit flags 1 = has options WRITABLE.
Proof.
  intros Hk Ho Hf. assert (H : flags_fit kind options = true).
  { assert (Hall : forallb (flags_fit kind) (seqZ 0 256) = true) by (destruct kind; [done|vm_compute; reflexivity..]).
    rewrite forallb_forall in Hall. apply Hall, list_elem_of_In, elem_of_seqZ. unfold is_u8 in Ho. lia. }
  unfold flags_fit in H. rewrite Hf in H. rewrite !andb_true_iff, !bool_decide_eq_true, Z.leb_le, Z.ltb_lt in H.
  destruct H as (((((H1 & H2) & H3) & H4) & H5) & H6). done.
Qed.

Lemma level_size kind : kind <> Unknown -> page_size (S := Kmem) kind = ret (2 ^ shift (level_of kind)).
Proof. by destruct kind. Qed.

Lemma foreign_cases i : foreign i = true <-> i = idx_l4 VMEM_KERNEL_DATA_START \/ i = idx_l4 PAGING_DIRECT_MAP_OFFSET.
Proof. unfold foreign. by rewrite orb_true_iff, !Z.eqb_eq. Qed.

(** All address spaces but the kernel's are those of programs. *)
Definition user_space (kroot r : Z) : bool := negb (r =? kroot).

Section Props.
Context (U : Z -> bool) (kroot : Z).

(** The page at [phys_addr] is made of frames that are in use for something else than tables. *)
Definition data_page (k : Kmem) (D : gmap Z node) (phys_addr size : Z) : Prop :=
  forall f, frame (phys k) f -> f + 4096 <= phys_addr \/ phys_addr + size <= f \/ (used (phys k) f /\ D !! f = None).

Lemma wp_zero k f kind (Q : unit -> Kmem -> Prop) X : kind <> Unknown -> addr_ok f -> f mod 2 ^ shift (level_of kind) = 0 ->
  (forall k', (forall a, OFF + f <= a < OFF + f + 2 ^ shift (level_of kind) -> a mod 8 = 0 -> word k' a = 0) ->
     (forall a, off_page f (2 ^ shift (level_of kind)) a -> word k' a = word k a) ->
     phys k' = phys k -> flushes k' = flushes k -> Q tt k') ->
  wp (zero_page (u64 (f + PAGING_DIRECT_MAP_OFFSET)) kind) k Q X.
Proof.
  intros Hk Hf Ha HQ. assert (E : u64 (f + PAGING_DIRECT_MAP_OFFSET) = OFF + f).
  { change PAGING_DIRECT_MAP_OFFSET with OFF. destruct Hf as [Hf _]. rewrite u64_id by (unfold is_u64; lia). lia. }
  rewrite E. unfold zero_page. rewrite level_size by done. set (s := 2 ^ shift (level_of kind)) in *.
  assert (Hs : 0 <= shift (level_of kind) /\ s mod 8 = 0 /\ OFF mod s = 0 /\ 0 < s) by (unfold s; by destruct kind). destruct Hs as (Hs0 & Hs8 & HOs & Hpos).
  wp_steps. apply wp_assert. { unfold s. rewrite land_low by done. apply Z.eqb_eq. fold s. rewrite Z.add_mod, HOs, Ha by lia. by rewrite Z.mod_0_l by lia. }
  assert (Hn : 8 * Z.of_nat (Z.to_nat (s / 8)) = s) by (rewrite Z2Nat.id by dlia; dlia).
  wp_steps. apply HQ; [| |done|done].
  - intros a Hin H8. unfold word. cbn [words set_words]. rewrite lookup_zero_words, Hn, decide_True; [done|]. split; [done|].
    destruct Hf as [_ Hf]. dlia.
  - intros a Hout. unfold word. cbn [words set_words]. rewrite lookup_zero_words, Hn, decide_False; [done|]. by intros [? _].
Qed.

(** Memory that holds no table may be written: the tables stay as they are. *)
Lemma pt_inv_words k k' D : pt_inv U kroot k D None -> phys k' = phys k ->
  (forall f i, is_Some (D !! f) -> 0 <= i < 512 -> entry k' f i = entry k f i) ->
  pt_inv U kroot k' D None /\ same_view k k' D.
Proof.
  intros HI Hp He. assert (Hv : same_view k k' D) by (intros r v Hr Hv; eapply mmu_unchanged; [apply HI|done|done|done]).
  split; [|done]. split; rewrite ?Hp; [apply HI|apply HI|apply HI|]. pose proof (pi_shape _ _ _ _ _ HI) as Hs.
  split; [apply Hs|apply Hs| |apply Hs| |].
  - intros f r l p i Hf Hi. rewrite He by eauto. by eapply sh_entry.
  - intros f r l p Hf Hl. destruct (sh_parent _ _ _ _ _ Hs _ _ _ _ Hf Hl) as (g & Hg & Hpt). exists g. split; [done|].
    rewrite He; [done|eauto|apply Z.mod_pos_bound; lia].
  - intros f r l p Hf Hl HX. destruct (sh_nonempty _ _ _ _ _ Hs _ _ _ _ Hf Hl HX) as (i & Hi & Hn). exists i. split; [done|]. by rewrite He by eauto.
Qed.

(** The frame allocator does not touch the tables while their frames stay in use. *)
Lemma pt_inv_phys k k' D : pt_inv U kroot k D None -> words k' = words k -> phys_wf (phys k') ->
  (forall x, frame (phys k') x <-> frame (phys k) x) -> (forall f n, D !! f = Some n -> used (phys k') f) ->
  pt_inv U kroot k' D None /\ (forall f i, entry k' f i = entry k f i) /\ forall r v, view k' r v = view k r v.
Proof.
  intros HI W Hwf Hfr Hu. assert (E : forall f i, entry k' f i = entry k f i) by (intros; unfold entry, word; by rewrite W).
  split; [|split; [done|intros; by apply walk_ext]]. split; [done| |done|].
  - intros f Hf. apply (pi_limit _ _ _ _ _ HI). by apply Hfr.
  - pose proof (pi_shape _ _ _ _ _ HI) as [A B C F G I]. split; [done|done| |done| |]; intros; rewrite ?E; try setoid_rewrite E; eauto.
Qed.

(** What [map_page] does beside the mapping: tables may be new, the page is zeroed if the options say so. *)
Record map_effects (k k' : Kmem) (D D' : gmap Z node) (phys_addr size options : Z) : Prop := {
  me_sub f n : D !! f = Some n -> D' !! f = Some n;
  me_frames x : frame (phys k') x <-> frame (phys k) x;
  me_used x : used (phys k') x <-> used (phys k) x \/ (D !! x = None /\ is_Some (D' !! x));
  me_new x : D !! x = None -> is_Some (D' !! x) -> ~ used (phys k) x;
  me_roots r : root D' r -> root D r;
  me_words a : (forall f, is_Some (D' !! f) -> off_page f 4096 a) -> zeroes options = false \/ off_page phys_addr size a ->
    word k' a = word k a;
  me_zero a : zeroes options = true -> OFF + phys_addr <= a < OFF + phys_addr + size -> a mod 8 = 0 -> word k' a = 0;
  me_flushes : flushes k' = flushes k;
  me_kept f i : is_Some (D !! f) -> 0 <= i < 512 -> entry k f i <> 0 -> entry k' f i <> 0
}.

Lemma map_page_spec pt k D r kind phys_addr virt_addr options flags n : table_l4 pt = OFF + r -> pt_inv U kroot k D None -> root D r ->
  page_args kroot r kind phys_addr virt_addr -> is_u8 options -> final_flags kind options = Some flags -> U r = has options USER_ACCESSIBLE ->
  (forall v, 0 <= v < 2 ^ 48 -> inside (level_of kind) virt_addr v = true -> view k r v = None) -> free_frames k (n + 3) ->
  zeroes options = false \/ data_page k D phys_addr (2 ^ shift (level_of kind)) ->
  wp (map_page pt phys_addr virt_addr kind options) k (fun _ k' => exists D',
    pt_inv U kroot k' D' None /\ free_frames k' n /\ map_effects k k' D D' phys_addr (2 ^ shift (level_of kind)) options /\
    mapped_view kroot k k' D r (level_of kind) phys_addr virt_addr flags) (fun _ _ => False).
Proof.
  intros Ht HI Hr Ha Ho Hfl HU Hun Hn Hdata. destruct (final_flags_fit _ _ _ (pa_kind _ _ _ _ _ Ha) Ho Hfl) as (Hpf & Hf2 & _).
  assert (E : map_page pt phys_addr virt_addr kind options =
    (impl_map_page pt phys_addr virt_addr kind flags;;;
     if zeroes options then zero_page (u64 (phys_addr + PAGING_DIRECT_MAP_OFFSET)) kind else ret tt)).
  { unfold map_page, zeroes, final_flags in *. destruct (pte_flags_of _) as [fl|]; [|done]. simpl in Hfl. injection Hfl as <-.
    by destruct (has options DONT_ZERO || has options MMIO). }
  rewrite E. wp_step. eapply wp_mono; [eapply (impl_map_page_spec U kroot pt k D r kind); try done; congruence| |done].
  intros _ k1 (D1 & Hg & HI1 & Hn1 & Hm1). destruct (zeroes options) eqn:Ez.
  2:{ apply wp_ret. exists D1. split_and!; [done|done| |done]. destruct Hg. by split; auto; congruence. }
  destruct Hdata as [?|Hdata]; [done|]. destruct Ha as [Hk [Hpa Hpm] _]. apply wp_zero; [done|done|done|]. intros k' Hz Hout Hp Hfs.
  assert (Hoff : forall f, is_Some (D1 !! f) -> f + 4096 <= phys_addr \/ phys_addr + 2 ^ shift (level_of kind) <= f).
  { intros f [m Hf]. destruct (Hdata f) as [?|[?|[Hu HD]]]; [| | |].
    - destruct (used_addr k1 f (pi_phys _ _ _ _ _ HI1) (pi_limit _ _ _ _ _ HI1) (pi_used _ _ _ _ _ HI1 _ _ Hf)) as (_ & _ & ?). by apply (gr_frames _ _ _ _ Hg).
    - by left.
    - by right.
    - destruct (gr_new _ _ _ _ Hg f HD); [by exists m|done]. }
  assert (He : forall f i, is_Some (D1 !! f) -> 0 <= i < 512 -> entry k' f i = entry k1 f i).
  { intros f i Hf Hi. unfold entry. apply Hout. unfold off_page. destruct (Hoff f Hf); lia. }
  destruct (pt_inv_words k1 k' D1 HI1 Hp He) as (HI' & Hv').
  exists D1. split_and!; [done| | |].
  - destruct Hn1 as (l & ? & ? & ?). exists l. by rewrite Hp.
  - destruct Hg as [A B C F G H I K]. split; rewrite ?Hp; [done|done|done|done|done| |by intros a _; apply Hz|congruence|].
    + intros a Ha [?|Hoa]; [congruence|]. rewrite Hout by done. by apply H.
    + intros f i [n' Hf] Hi Hnz. rewrite He by (rewrite ?(A _ _ Hf); done). apply K; [eauto|done|done].
  - destruct Hm1 as [M1 M2]. split.
    + intros v Hv. rewrite Hv'; [by apply M1| |done]. by eapply grown_root.
    + intros r0 v Hr0 Hne Hv Hk'. rewrite Hv'; [by apply M2| |done]. by eapply grown_root.
Qed.

(** ** Reading the tables *)

(** What the entry for [v] in a table says. *)
Lemma table_cases k D f r l v : pt_inv U kroot k D None -> D !! f = Some (r, l, vpn (S l) v) ->
  let e := entry k f (index l v) in
  (e = 0 /\ forall u w, mmu_walk (entry k) l f u w v = None) \/
  (leaf l e /\ forall u w, option_map tr_addr (mmu_walk (entry k) l f u w v) = Some (to_addr e + v mod 2 ^ shift l)) \/
  (1 < l)%nat /\ exists g r', to_addr e = g /\ Z.testbit e 0 = true /\ Z.testbit e 7 = false /\ e <> 0 /\ addr_ok g /\
    D !! g = Some (r', pred l, vpn (S (pred l)) v) /\
    forall u w, exists u', mmu_walk (entry k) l f u w v = mmu_walk (entry k) (pred l) g u' w v.
Proof.
  intros HI Hf e. pose proof (pi_shape _ _ _ _ _ HI) as Hs. destruct (sh_node _ _ _ _ _ Hs _ _ _ _ Hf) as (Hl & _).
  assert (Hdir : forall up g r', (1 < l)%nat -> points up e g -> D !! g = Some (r', pred l, 512 * vpn (S l) v + index l v) ->
    exists g r', to_addr e = g /\ Z.testbit e 0 = true /\ Z.testbit e 7 = false /\ e <> 0 /\ addr_ok g /\
      D !! g = Some (r', pred l, vpn (S (pred l)) v) /\ forall u w, exists u', mmu_walk (entry k) l f u w v = mmu_walk (entry k) (pred l) g u' w v).
  { intros up g r' Hl1 Hp HD. exists g, r'. pose proof (points_nonzero _ _ _ Hp). pose proof Hp as (P1 & P2 & P3 & P4 & P5).
    split_and!; [done|done|done|done|by eapply pi_addr|by rewrite <- vpn_index in HD; replace (S (pred l)) with l by lia|].
    intros u w. eexists. eapply walk_points; [lia|exact Hp]. }
  destruct (sh_entry _ _ _ _ _ Hs _ _ _ _ (index l v) Hf (index_range _ _)) as [H0|[Hlf|(Hl1 & g & [(Hp & HD & _)|(_ & _ & _ & Hp & HD)])]].
  - left. split; [done|]. intros. by apply walk_zero.
  - right. left. split; [done|]. intros. by rewrite walk_leaf by (done || lia).
  - right. right. split; [done|]. by eapply Hdir.
  - right. right. split; [done|]. by eapply Hdir.
Qed.

Lemma to_addr_range e : is_u64 e -> 0 <= to_addr e < 2 ^ 52.
Proof.
  intros He. unfold to_addr. split; [apply Z.land_nonneg; right; lia|].
  assert (H : Z.land e 0x000ffffffffff000 = Z.land (Z.land e 0x000ffffffffff000) (Z.ones 52)).
  { apply Z.bits_inj'. intros j Hj. rewrite !Z.land_spec, mask_bits, Z.testbit_ones_nonneg by lia.
    destruct (Z.testbit e j), (12 <=? j), (Z.ltb_spec j 52); done. }
  rewrite H, Z.land_ones by lia. by apply Z.mod_pos_bound.
Qed.

Lemma to_addr_bound e : 0 <= to_addr e < 2 ^ 52.
Proof.
  assert (H : to_addr e = to_addr (u64 e)).
  { unfold to_addr, u64. rewrite <- Z.land_ones by lia. apply Z.bits_inj'. intros j Hj.
    rewrite !Z.land_spec, mask_bits, Z.testbit_ones_nonneg by lia. destruct (Z.testbit e j), (12 <=? j), (Z.ltb_spec j 52), (Z.ltb_spec j 64); done || lia. }
  rewrite H. apply to_addr_range, u64_range.
Qed.

(** The last step of the walk in software. *)
Lemma page_addr e l v mask : (1 <= l <= 3)%nat -> mask = 2 ^ shift l - 1 -> u64 (to_addr e + Z.land v mask) = to_addr e + v mod 2 ^ shift l.
Proof.
  intros Hl ->. rewrite land_low by (unfold shift; lia). apply u64_id. pose proof (to_addr_bound e).
  assert (0 <= v mod 2 ^ shift l < 2 ^ 30).
  { pose proof (Z.mod_pos_bound v (2 ^ shift l) ltac:(apply Z.pow_pos_nonneg; unfold shift; lia)).
    assert (2 ^ shift l <= 2 ^ 30) by (apply Z.pow_le_mono_r; unfold shift; lia). lia. }
  unfold is_u64. lia.
Qed.

Lemma empty_entry e : e <> 0 -> pte_is_empty e = false.
Proof. intros. by apply Z.eqb_neq. Qed.

Lemma virt_to_phys_spec pt k D r v : table_l4 pt = OFF + r -> pt_inv U kroot k D None -> root D r -> 0 <= v < 2 ^ 48 ->
  wp (impl_virt_to_phys pt v) k (fun res k' => k' = k /\ res = option_map tr_addr (view k r v)) (fun _ _ => False).
Proof.
  intros Ht HI Hr Hv. unfold impl_virt_to_phys. rewrite Ht, idx_l4_index, idx_l3_index, idx_l2_index, idx_l1_index. unfold root in Hr. rewrite <- (vpn_top v Hv) in Hr.
  wp_step. apply wp_hw_get; [apply index_range|]. unfold view, mmu.
  destruct (table_cases _ _ _ _ _ _ HI Hr) as [(E & W)|[((_ & [?|[? _]] & _) & _)|(_ & t3 & r3 & A3 & P3 & H3 & N3 & O3 & D3 & W3)]]; [|lia|lia|].
  { rewrite E. change (pte_is_empty 0) with true. by rewrite W. }
  rewrite empty_entry, present_bit, P3 by done. cbn [orb negb]. destruct (W3 true true) as (u3 & ->). cbn [pred] in *.
  wp_step. apply (wp_from_pte _ _ t3); [done|done|]. wp_step. apply wp_hw_get; [apply index_range|].
  destruct (table_cases _ _ _ _ _ _ HI D3) as [(E & W)|[((Q0 & [?|[_ Q7]] & _) & W)|(_ & t2 & r2 & A2 & P2 & H2 & N2 & O2 & D2 & W2)]]; [|lia| |].
  { rewrite E. change (pte_is_empty 0) with true. by rewrite W. }
  { rewrite empty_entry by (intros E; by rewrite E, Z.bits_0 in Q0). rewrite huge_bit, Q7, present_bit, Q0. cbn [orb].
    apply wp_ret. split; [done|]. rewrite W. by rewrite (page_addr _ 3) by (done || lia). }
  rewrite empty_entry, huge_bit, H2 by done. cbn [orb]. destruct (W2 u3 true) as (u2 & ->). cbn [pred] in *.
  wp_step. apply (wp_from_pte _ _ t2); [done|done|]. wp_step. apply wp_hw_get; [apply index_range|].
  destruct (table_cases _ _ _ _ _ _ HI D2) as [(E & W)|[((Q0 & [?|[_ Q7]] & _) & W)|(_ & t1 & r1 & A1 & P1 & H1 & N1 & O1 & D1 & W1)]]; [|lia| |].
  { rewrite E. change (pte_is_empty 0) with true. by rewrite W. }
  { rewrite empty_entry by (intros E; by rewrite E, Z.bits_0 in Q0). rewrite huge_bit, Q7, present_bit, Q0. cbn [orb].
    apply wp_ret. split; [done|]. rewrite W. by rewrite (page_addr _ 2) by (done || lia). }
  rewrite empty_entry, huge_bit, H1 by done. cbn [orb]. destruct (W1 u2 true) as (u1 & ->). cbn [pred] in *.
  wp_step. apply (wp_from_pte _ _ t1); [done|done|]. wp_step. apply wp_hw_get; [apply index_range|].
  destruct (table_cases _ _ _ _ _ _ HI D1) as [(E & W)|[((Q0 & _) & W)|(? & _)]]; [| |lia].
  { rewrite E. change (is_present 0) with false. by rewrite W. }
  rewrite present_bit, Q0. apply wp_ret. split; [done|]. rewrite W. by rewrite (page_addr _ 1) by (done || lia).
Qed.

(** [is_readable] is whether there is a translation. *)
Lemma is_readable_spec pt k D r v : table_l4 pt = OFF + r -> pt_inv U kroot k D None -> root D r -> 0 <= v < 2 ^ 48 ->
  wp (impl_is_readable pt v) k (fun res k' => k' = k /\ res = bool_decide (is_Some (view k r v))) (fun _ _ => False).
Proof.
  intros Ht HI Hr Hv. unfold impl_is_readable. rewrite Ht, idx_l4_index, idx_l3_index, idx_l2_index, idx_l1_index. unfold root in Hr. rewrite <- (vpn_top v Hv) in Hr.
  assert (Hnone : forall l t u w, mmu_walk (entry k) l t u w v = None -> false = bool_decide (is_Some (mmu_walk (entry k) l t u w v))) by (intros l t u w ->; done).
  assert (Hsome : forall l t u w a, option_map tr_addr (mmu_walk (entry k) l t u w v) = Some a -> true = bool_decide (is_Some (mmu_walk (entry k) l t u w v))).
  { intros l t u w a. destruct (mmu_walk _ _ _ _ _ _); [|done]. intros _. symmetry. apply bool_decide_eq_true. eauto. }
  wp_step. apply wp_hw_get; [apply index_range|]. unfold view, mmu.
  destruct (table_cases _ _ _ _ _ _ HI Hr) as [(E & W)|[((_ & [?|[? _]] & _) & _)|(_ & t3 & r3 & A3 & P3 & H3 & N3 & O3 & D3 & W3)]]; [|lia|lia|].
  { rewrite E. change (pte_is_empty 0) with true. apply wp_ret. auto. }
  rewrite empty_entry, present_bit, P3 by done. cbn [orb negb]. destruct (W3 true true) as (u3 & ->). cbn [pred] in *.
  wp_step. apply (wp_from_pte _ _ t3); [done|done|]. wp_step. apply wp_hw_get; [apply index_range|].
  destruct (table_cases _ _ _ _ _ _ HI D3) as [(E & W)|[((Q0 & [?|[_ Q7]] & _) & W)|(_ & t2 & r2 & A2 & P2 & H2 & N2 & O2 & D2 & W2)]]; [|lia| |].
  { rewrite E. change (pte_is_empty 0) with true. apply wp_ret. auto. }
  { rewrite empty_entry by (intros E; by rewrite E, Z.bits_0 in Q0). rewrite huge_bit, Q7, present_bit, Q0. cbn [orb]. apply wp_ret. eauto. }
  rewrite empty_entry, huge_bit, H2 by done. cbn [orb]. destruct (W2 u3 true) as (u2 & ->). cbn [pred] in *.
  wp_step. apply (wp_from_pte _ _ t2); [done|done|]. wp_step. apply wp_hw_get; [apply index_range|].
  destruct (table_cases _ _ _ _ _ _ HI D2) as [(E & W)|[((Q0 & [?|[_ Q7]] & _) & W)|(_ & t1 & r1 & A1 & P1 & H1 & N1 & O1 & D1 & W1)]]; [|lia| |].
  { rewrite E. change (pte_is_empty 0) with true. apply wp_ret. auto. }
  { rewrite empty_entry by (intros E; by rewrite E, Z.bits_0 in Q0). rewrite huge_bit, Q7, present_bit, Q0. cbn [orb]. apply wp_ret. eauto. }
  rewrite empty_entry, huge_bit, H1 by done. cbn [orb]. destruct (W1 u2 true) as (u1 & ->). cbn [pred] in *.
  wp_step. apply (wp_from_pte _ _ t1); [done|done|]. wp_step. apply wp_hw_get; [apply index_range|]. apply wp_ret. split; [done|].
  destruct (table_cases _ _ _ _ _ _ HI D1) as [(E & W)|[((Q0 & _) & W)|(? & _)]]; [| |lia].
  - rewrite E. auto.
  - rewrite present_bit, Q0. eauto.
Qed.

(** ** A mapping that is taken back *)

Lemma mapped_unmapped k k1 k2 D D1 D2 r l phys_addr virt flags size options : pt_inv U kroot k D None -> pt_inv U kroot k1 D1 None -> pt_inv U kroot k2 D2 None ->
  root D r -> r <> kroot -> map_effects k k1 D D1 phys_addr size options -> shrunk k1 k2 D1 D2 ->
  (forall v, 0 <= v < 2 ^ 48 -> inside l virt v = true -> view k r v = None) ->
  mapped_view kroot k k1 D r l phys_addr virt flags -> unmapped_view kroot k1 k2 D1 r l virt ->
  same_view k k2 D /\ forall x, used (phys k2) x <-> used (phys k) x.
Proof.
  intros HI HI1 HI2 Hr Hk Hme Hsk Hun [M1 M2] [U1 U2].
  assert (Hroot1 : forall r0, root D r0 -> root D1 r0) by (intros r0; apply (me_sub _ _ _ _ _ _ _ Hme)).
  assert (Hv : same_view k k2 D).
  { intros r0 v Hr0 Hv. destruct (decide (r0 = r)) as [->|Hne].
    - rewrite U1, M1 by done. destruct (inside l virt v) eqn:E; [by rewrite Hun|done].
    - rewrite U2, M2; auto. }
  split; [done|].
  assert (Hsub : forall f n, D2 !! f = Some n -> is_Some (D !! f)).
  { intros f [[r0 l0] p0] Hf. pose proof (sh_node _ _ _ _ _ (pi_shape _ _ _ _ _ HI2) _ _ _ _ Hf) as (_ & Hr2 & _).
    assert (Hr0 : root D r0) by (apply (me_roots _ _ _ _ _ _ _ Hme), (sk_sub _ _ _ _ Hsk), Hr2).
    destruct (same_tables U kroot (entry k2) (entry k) D2 D r0 (pi_shape _ _ _ _ _ HI2) (pi_shape _ _ _ _ _ HI) Hr2 Hr0) with (f := f) (l := l0) (p := p0) as (g & Hg); [|done|].
    { intros v [Hv48 _] _. symmetry. by apply Hv. }
    pose proof (me_sub _ _ _ _ _ _ _ Hme _ _ Hg) as Hg1. pose proof (sk_sub _ _ _ _ Hsk _ _ Hf) as Hf1.
    rewrite (sh_unique _ _ _ _ _ (pi_shape _ _ _ _ _ HI1) _ _ _ Hf1 Hg1), Hg. eauto. }
  assert (Hsup : forall f n, D !! f = Some n -> is_Some (D2 !! f)).
  { intros f [[r0 l0] p0] Hf. pose proof (sh_node _ _ _ _ _ (pi_shape _ _ _ _ _ HI) _ _ _ _ Hf) as (_ & Hr0 & _).
    assert (Hr2 : root D2 r0) by (apply (sk_roots _ _ _ _ Hsk), Hroot1, Hr0).
    destruct (same_tables U kroot (entry k) (entry k2) D D2 r0 (pi_shape _ _ _ _ _ HI) (pi_shape _ _ _ _ _ HI2) Hr0 Hr2) with (f := f) (l := l0) (p := p0) as (g & Hg); [|done|].
    { intros v [Hv48 _] _. by apply Hv. }
    pose proof (me_sub _ _ _ _ _ _ _ Hme _ _ Hf) as Hf1. pose proof (sk_sub _ _ _ _ Hsk _ _ Hg) as Hg1.
    rewrite (sh_unique _ _ _ _ _ (pi_shape _ _ _ _ _ HI1) _ _ _ Hf1 Hg1), Hg. eauto. }
  intros x. rewrite (sk_used _ _ _ _ Hsk), (me_used _ _ _ _ _ _ _ Hme). split.
  - intros [[Hu|[E Hx]] Hd]; [done|]. destruct (Hd Hx) as [n Hn]. destruct (Hsub _ _ Hn). congruence.
  - intros Hu. split; [by left|]. intros [n Hn]. destruct (D !! x) as [m|] eqn:E; [by eapply Hsup|].
    exfalso. apply (me_new _ _ _ _ _ _ _ Hme x E); [rewrite Hn; eauto|done].
Qed.

(** ** Address spaces come and go *)

Lemma new_table_spec k D : pt_inv U kroot k D None ->
  wp new_user_page_table k
    (fun pt k' => exists r, pt = mkPT (OFF + r) true false /\ D !! r = None /\ ~ used (phys k) r /\
       pt_inv U kroot k' (<[r := (r, 4%nat, 0)]> D) None /\ same_view k k' D /\ (forall v, view k' r v = None) /\
       becomes (phys k) (phys k') (fun x => used (phys k) x \/ x = r) /\ (forall a, off_page r 4096 a -> word k' a = word k a))
    (fun e k' => e = OutOfMemory /\ phys k' = phys k /\ words k' = words k /\ forall f, frame (phys k) f -> f <> 0 -> used (phys k) f).
Proof.
  intros HI. unfold new_user_page_table, hw_alloc. wp_steps. apply wp_alloc_any; [apply HI| |done]. intros g k1 G1 G2 G3 Hb W F.
  pose proof Hb as (B1 & _ & B3 & B4). destruct (used_addr k1 g B1) as (Hga & Hg0 & _);
    [intros x Hx; apply (pi_limit _ _ _ _ _ HI); by apply B3|by apply B4; right|].
  assert (HDg : D !! g = None) by (destruct (D !! g) eqn:E; [by destruct G3; eapply pi_used|done]).
  wp_steps. apply wp_zero_small; [done|]. intros k2 Hz Hout P2 F2. apply (wp_from_pte _ _ g); [by apply addr_mask|done|]. wp_steps.
  assert (Hw : forall a, off_page g 4096 a -> word k2 a = word k a) by (intros a Ha; rewrite Hout by done; unfold word; by rewrite W).
  destruct (new_root U kroot (entry k) (entry k2) D g (pi_shape _ _ _ _ _ HI) HDg) as (Hs & Hv & Hn).
  - destruct Hga. lia.
  - apply Hga.
  - intros f i [n Hf] Hi. unfold entry. apply Hw. unfold off_page. assert (f <> g) by (by intros ->; congruence).
    destruct (pi_addr _ _ _ _ _ _ _ HI Hf) as [? ?], Hga as [? ?]. dlia.
  - done.
  - exists g. split_and!; [done|done|done| |done|done|by rewrite P2|done]. split; rewrite ?P2; [done| | |done].
    + intros f Hf. apply (pi_limit _ _ _ _ _ HI). by apply B3.
    + intros f n Hf. apply B4. destruct (decide (f = g)) as [->|]; [by right|]. rewrite lookup_insert_ne in Hf by done. left. by eapply pi_used.
Qed.

Lemma drop_table_spec pt k D r : table_l4 pt = OFF + r -> userspace pt = true -> pt_inv U kroot k D None -> root D r -> r <> kroot ->
  (forall v, 0 <= v < 2 ^ 48 -> view k r v = None) ->
  wp (drop_page_table pt) k (fun _ k' => pt_inv U kroot k' (delete r D) None /\ words k' = words k /\
    becomes (phys k) (phys k') (fun x => used (phys k) x /\ x <> r)) (fun _ _ => False).
Proof.
  intros Ht Hus HI Hr Hk Hv. unfold drop_page_table, hw_dealloc. rewrite Hus, Ht. wp_steps. apply wp_assert; [done|]. wp_steps.
  pose proof (pi_shape _ _ _ _ _ HI) as Hs. assert (Hra : addr_ok r) by (by eapply pi_addr).
  assert (Hz : forall i, 0 <= i < 512 -> entry k r i = 0).
  { intros i Hi. eapply unmapped_root; [exact Hs|done|done|done]. }
  apply wp_hw_is_empty; [|by intros (i & Hi & Hn); destruct Hn; apply Hz]. intros _. wp_step. apply wp_assert; [done|]. wp_steps.
  apply wp_self_addr; [done|]. apply wp_free_frame; [apply HI|by eapply pi_used|]. intros k' (B1 & B2 & B3 & B4) W F.
  split_and!; [|done|done]. split; [done| | |].
  - intros f Hf. apply (pi_limit _ _ _ _ _ HI). by apply B3.
  - intros f n [Hne Hf]%lookup_delete_Some. apply B4. split; [by eapply pi_used|done].
  - pose proof (drop_root U kroot (entry k) D r Hs Hr Hk Hz) as Hd. unfold entry, word in *. by rewrite W.
Qed.

(** The copy of the kernel's entry for [a] in the top table of a program is made or removed. *)
Lemma set_kernel_pte_spec pt k D r i e : table_l4 pt = OFF + r -> pt_inv U kroot k D None -> root D r -> r <> kroot -> U r = true ->
  0 <= i < 512 -> foreign i = true -> (e = 0 \/ exists f, points false e f /\ D !! f = Some (kroot, 3%nat, i)) ->
  pt_inv U kroot (put k r i e) D None /\
  forall r0 v, root D r0 -> 0 <= v < 2 ^ 48 -> r0 <> r \/ index 4 v <> i -> view (put k r i e) r0 v = view k r0 v.
Proof.
  intros Ht HI Hr Hk HU Hi Hfo He. pose proof (updated_put _ _ _ _ _ _ _ _ e HI Hr Hi) as Hu.
  pose proof (set_foreign U kroot _ _ D r i e (pi_shape _ _ _ _ _ HI) Hr Hk Hi Hfo Hu He) as Hs.
  split; [split; [apply HI|apply HI|apply HI|done]|]. intros r0 v Hr0 Hv Hne.
  eapply (mmu_others _ _ _ _ _ _ _ _ _ _ Hr); [apply HI|exact Hu|done|done|].
  destruct Hne as [?|Hne]; [by right; auto|]. left. unfold in_page. apply bool_decide_eq_false. unfold index in Hne. intros E. apply Hne. rewrite E. dlia.
Qed.
End Props.

(** ** The operations against the processor's view *)

Section Theorems.
Context (U : Z -> bool) (kroot : Z) (pt : PageTableImpl) (k : Kmem) (D : gmap Z node) (r : Z).
Hypothesis Htable : table_l4 pt = OFF + r.
Hypothesis Hinv : pt_inv U kroot k D None.
Hypothesis Hroot : root D r.

(** C22: [map_page] on a well-formed page table, for a page of an address range that has no mapping, succeeds when
    three frames are left: afterwards the processor translates exactly the addresses of the page to the physical page,
    with the rights that the options ask for, and every other address as before; so do all other address spaces,
    except those that share the kernel's part when the kernel maps there.  The page is zeroed if the options ask for
    it, only page tables take frames that were free, and the tables stay well-formed. *)
Theorem map_page_refines kind phys_addr virt_addr options flags : page_args kroot r kind phys_addr virt_addr -> is_u8 options ->
  final_flags kind options = Some flags -> U r = has options USER_ACCESSIBLE ->
  (forall v, 0 <= v < 2 ^ 48 -> inside (level_of kind) virt_addr v = true -> view k r v = None) -> free_frames k 3 ->
  zeroes options = false \/ data_page k D phys_addr (2 ^ shift (level_of kind)) ->
  exists k' D', map_page pt phys_addr virt_addr kind options k = (k', Ok tt) /\ pt_inv U kroot k' D' None /\
    (forall v, 0 <= v < 2 ^ 48 -> view k' r v = if inside (level_of kind) virt_addr v
       then Some (mkTr (phys_addr + (v - virt_addr)) (has options USER_ACCESSIBLE) (has options WRITABLE) (level_of kind)) else view k r v) /\
    (forall r0 v, root D r0 -> r0 <> r -> 0 <= v < 2 ^ 48 -> r <> kroot \/ own kroot r0 4 (index 4 v) -> view k' r0 v = view k r0 v) /\
    (zeroes options = true -> forall a, OFF + phys_addr <= a < OFF + phys_addr + 2 ^ shift (level_of kind) -> a mod 8 = 0 -> word k' a = 0) /\
    (forall x, used (phys k') x <-> used (phys k) x \/ (D !! x = None /\ is_Some (D' !! x))).
Proof.
  intros Ha Ho Hfl HU Hun Hfr Hd. destruct (final_flags_fit _ _ _ (pa_kind _ _ _ _ _ Ha) Ho Hfl) as (_ & H2 & H1).
  destruct (wp_run _ _ _ (map_page_spec U kroot pt k D r kind phys_addr virt_addr options flags 0 Htable Hinv Hroot Ha Ho Hfl HU Hun Hfr Hd))
    as ([] & k' & E & D' & HI' & _ & Hme & M1 & M2).
  exists k', D'. split_and!; [done|done| |done| |apply Hme].
  - intros v Hv. rewrite M1, H2, H1 by done. done.
  - intros Hz a. by apply (me_zero _ _ _ _ _ _ _ Hme).
Qed.

(** C23: [unmap_page] on a page that is mapped with this size succeeds: afterwards the processor translates no address
    of the page, and every other address, and the other address spaces, as before; the invalidation of the page is
    requested from the processors unless the program is dead, and the frames of page tables that became empty are
    free again.  The top of the kernel's tables must stay in use, since all address spaces share what is below it. *)
Theorem unmap_page_refines kind phys_addr virt_addr tr : page_args kroot r kind phys_addr virt_addr ->
  view k r virt_addr = Some tr -> tr_level tr = level_of kind ->
  (r = kroot -> exists v, 0 <= v < 2 ^ 48 /\ vpn 4 v = vpn 4 virt_addr /\ inside (level_of kind) virt_addr v = false /\ view k r v <> None) ->
  exists k' D', impl_unmap_page pt phys_addr virt_addr kind k = (k', Ok tt) /\ pt_inv U kroot k' D' None /\
    (forall v, 0 <= v < 2 ^ 48 -> view k' r v = if inside (level_of kind) virt_addr v then None else view k r v) /\
    (forall r0 v, root D r0 -> r0 <> r -> 0 <= v < 2 ^ 48 -> r <> kroot \/ own kroot r0 4 (index 4 v) -> view k' r0 v = view k r0 v) /\
    flushes k' = (if dead pt then flushes k else (r, virt_addr) :: flushes k) /\
    (forall x, used (phys k') x <-> used (phys k) x /\ (is_Some (D !! x) -> is_Some (D' !! x))).
Proof.
  intros Ha Hv Hl Hlive.
  destruct (wp_run _ _ _ (impl_unmap_page_spec U kroot pt k D r kind phys_addr virt_addr tr Htable Hinv Hroot Ha Hv Hl Hlive))
    as ([] & k' & E & D' & Hsk & HI' & [U1 U2] & Hf).
  exists k', D'. split_and!; [done|done|done|done|done|apply Hsk].
Qed.

(** C35: [virt_to_phys] gives the address that the processor translates to, if there is one, and [is_readable] whether
    there is one; neither changes anything. *)
Theorem software_walk_is_mmu v : 0 <= v < 2 ^ 48 ->
  impl_virt_to_phys pt v k = (k, Ok (option_map tr_addr (view k r v))) /\
  impl_is_readable pt v k = (k, Ok (bool_decide (is_Some (view k r v)))).
Proof.
  intros Hv. split.
  - destruct (wp_run _ _ _ (virt_to_phys_spec U kroot pt k D r v Htable Hinv Hroot Hv)) as (res & k' & -> & -> & ->). done.
  - destruct (wp_run _ _ _ (is_readable_spec U kroot pt k D r v Htable Hinv Hroot Hv)) as (res & k' & -> & -> & ->). done.
Qed.

(** A page that is mapped in a program and unmapped again leaves no trace: every address space is as before, and
    the frames in use are the same, so that no frame of a page table is lost. *)
Theorem map_unmap_restores kind phys_addr virt_addr options flags : r <> kroot -> page_args kroot r kind phys_addr virt_addr -> is_u8 options ->
  final_flags kind options = Some flags -> U r = has options USER_ACCESSIBLE ->
  (forall v, 0 <= v < 2 ^ 48 -> inside (level_of kind) virt_addr v = true -> view k r v = None) -> free_frames k 3 ->
  zeroes options = false \/ data_page k D phys_addr (2 ^ shift (level_of kind)) ->
  exists k1 k2, map_page pt phys_addr virt_addr kind options k = (k1, Ok tt) /\ impl_unmap_page pt phys_addr virt_addr kind k1 = (k2, Ok tt) /\
    (forall r0 v, root D r0 -> 0 <= v < 2 ^ 48 -> view k2 r0 v = view k r0 v) /\ forall x, used (phys k2) x <-> used (phys k) x.
Proof.
  intros Hk Ha Ho Hfl HU Hun Hfr Hd.
  destruct (wp_run _ _ _ (map_page_spec U kroot pt k D r kind phys_addr virt_addr options flags 0 Htable Hinv Hroot Ha Ho Hfl HU Hun Hfr Hd))
    as ([] & k1 & E1 & D1 & HI1 & _ & Hme & Hm).
  pose proof (proj2 (pa_virt _ _ _ _ _ Ha)) as Hva. pose proof (proj1 (proj1 (pa_virt _ _ _ _ _ Ha))) as Hv48.
  assert (Hin : inside (level_of kind) virt_addr virt_addr = true) by (rewrite inside_vpn by done; by apply bool_decide_eq_true).
  destruct (wp_run _ _ _ (impl_unmap_page_spec U kroot pt k1 D1 r kind phys_addr virt_addr
    (mkTr (phys_addr + (virt_addr - virt_addr)) (Z.testbit flags 2) (Z.testbit flags 1) (level_of kind))
    Htable HI1 (me_sub _ _ _ _ _ _ _ Hme _ _ Hroot) Ha ltac:(by rewrite (proj1 Hm), Hin) eq_refl ltac:(done)))
    as ([] & k2 & E2 & D2 & Hsk & HI2 & Hu & _).
  exists k1, k2. split; [done|]. split; [done|]. by eapply (mapped_unmapped U kroot k k1 k2 D D1 D2).
Qed.
End Theorems.

(** ** A machine with 16 MB: the kernel's tables and one program *)

Module PageSample.
Opaque PhysSample.sample_phys.
Definition k0 : Kmem := mkKmem PhysSample.sample_phys ∅ [7; 8; 9; 10; 11; 12; 13; 14; 15; 16] [].
Definition kroot : Z := 15990784.
Definition kpt : PageTableImpl := mkPT (OFF + kroot) false false.
Abbreviation UK := (user_space kroot).

(** The kernel's top table, with a 2 MB page of data and the direct map. *)
Definition k1 : Kmem := (new_user_page_table k0).1.
Definition k2 : Kmem := (map_page kpt 0x200000 VMEM_KERNEL_DATA_START MidPage 19 k1).1.
Definition k3 : Kmem := (map_page kpt 0 PAGING_DIRECT_MAP_OFFSET LargePage 19 k2).1.

(** A program without pages. *)
Definition uroot : Z := 12058624.
Definition upt : PageTableImpl := mkPT (OFF + uroot) true false.
Definition k4 : Kmem := (new_user_page_table k3).1.
(** The program has a page. *)
Definition k5 : Kmem := (map_page upt 0x300000 0x400000 SmallPage 23 k4).1.

Lemma sample_limit f : frame PhysSample.sample_phys f -> f < OFF.
Proof.
  intros Hf. destruct (st_placed _ _ _ PhysSample.sample_started f Hf) as (_ & s & Hs & _ & H).
  change OFF with 70368744177664. repeat (apply elem_of_cons in Hs as [->|Hs]); [..|by apply elem_of_nil in Hs]; cbn in H; lia.
Qed.

Lemma sample_frame j : 0 <= j < 64 -> frame PhysSample.sample_phys (262144 + 4096 * j).
Proof.
  intros Hj. exists 1%nat, (mkDS (mkSeg 262144 262144) 0 64), j. split_and!; [by vm_compute|lia|cbn; lia|].
  unfold page. cbn [start segment]. change (2 ^ SM) with 4096. lia.
Qed.

Lemma sample_unused j : 0 <= j < 64 -> ~ used PhysSample.sample_phys (262144 + 4096 * j).
Proof.
  intros Hj Hu. apply (st_used _ _ _ PhysSample.sample_started) in Hu as (_ & _ & Hu).
  apply Exists_exists in Hu as (s & Hs & Ht). repeat (apply elem_of_cons in Hs as [->|Hs]); [..|by apply elem_of_nil in Hs];
    unfold touches in Ht; cbn [start size] in Ht; dlia.
Qed.

Lemma sample_free : free_frames k0 60.
Proof.
  exists ((fun j => 262144 + 4096 * j) <$> seqZ 0 60). split_and!; [|done|].
  { apply NoDup_fmap_2, NoDup_seqZ. intros x y. lia. }
  apply Forall_forall. intros x (j & -> & [Hj1 Hj2]%elem_of_seqZ)%list_elem_of_fmap.
  split_and!; [apply sample_frame; lia|lia|apply sample_unused; lia].
Qed.

Lemma ran {A} (m : eff Kmem MemError A) k k' a : (m k).2 = Ok a -> k' = (m k).1 -> m k = (k', Ok a).
Proof. destruct (m k) as [k'' x]. cbn. by intros -> ->. Qed.

Lemma run_k1 : new_user_page_table k0 = (k1, Ok (mkPT (OFF + kroot) true false)).
Proof. apply ran; [vm_compute; reflexivity|reflexivity]. Qed.
Lemma run_k2 : map_page kpt 0x200000 VMEM_KERNEL_DATA_START MidPage 19 k1 = (k2, Ok tt).
Proof. apply ran; [vm_compute; reflexivity|reflexivity]. Qed.
Lemma run_k3 : map_page kpt 0 PAGING_DIRECT_MAP_OFFSET LargePage 19 k2 = (k3, Ok tt).
Proof. apply ran; [vm_compute; reflexivity|reflexivity]. Qed.
Lemma run_k4 : new_user_page_table k3 = (k4, Ok upt).
Proof. apply ran; [vm_compute; reflexivity|reflexivity]. Qed.

Lemma run_k5 : map_page upt 0x300000 0x400000 SmallPage 23 k4 = (k5, Ok tt).
Proof. apply ran; [vm_compute; reflexivity|reflexivity]. Qed.

Lemma inv_0 : pt_inv UK kroot k0 ∅ None.
Proof.
  split; [apply (st_wf _ _ _ PhysSample.sample_started)|apply sample_limit|intros f n; by rewrite lookup_empty|].
  split; intros *; rewrite lookup_empty; done.
Qed.

(** A new table takes one frame. *)
Lemma new_table_run k k' D pt n : pt_inv UK kroot k D None -> free_frames k (S n) -> new_user_page_table k = (k', Ok pt) ->
  exists r, pt = mkPT (OFF + r) true false /\ D !! r = None /\ pt_inv UK kroot k' (<[r := (r, 4%nat, 0)]> D) None /\ free_frames k' n /\
    same_view k k' D /\ (forall v, view k' r v = None) /\ (forall x, used (phys k') x <-> used (phys k) x \/ x = r).
Proof.
  intros HI Hn E. pose proof (new_table_spec UK kroot k D HI) as Hw. unfold wp in Hw. rewrite E in Hw.
  destruct Hw as (r & Hpt & HD & _ & HI' & Hsv & Hv & (_ & _ & B3 & B4) & _). exists r. split_and!; try done. by eapply free_frames_take.
Qed.

Lemma inv_1 : pt_inv UK kroot k1 {[kroot := (kroot, 4%nat, 0)]} None /\ free_frames k1 59 /\ forall v, view k1 kroot v = None.
Proof.
  destruct (new_table_run _ _ _ _ 59 inv_0 sample_free run_k1) as (r & [= Hr] & _ & HI & Hn & _ & Hv & _).
  assert (r = kroot) as -> by lia. done.
Qed.
Opaque k1 k2 k3 k4 k5.

(** The kernel maps a page without zeroing it. *)
Lemma kernel_run k k' D kind phys_addr virt_addr n : pt_inv UK kroot k D None -> root D kroot -> kind <> Unknown ->
  addr_ok phys_addr -> phys_addr mod 2 ^ shift (level_of kind) = 0 -> 0 <= virt_addr < 2 ^ 48 -> virt_addr mod 2 ^ shift (level_of kind) = 0 ->
  (forall v, 0 <= v < 2 ^ 48 -> inside (level_of kind) virt_addr v = true -> view k kroot v = None) -> free_frames k (n + 3) ->
  map_page kpt phys_addr virt_addr kind 19 k = (k', Ok tt) -> exists D' flags, pt_inv UK kroot k' D' None /\ free_frames k' n /\
    (forall f m, D !! f = Some m -> D' !! f = Some m) /\ (forall r, root D' r -> root D r) /\
    mapped_view kroot k k' D kroot (level_of kind) phys_addr virt_addr flags.
Proof.
  intros HI Hr Hk Hp Hpm Hv Hvm Hun Hn E. assert (exists flags, final_flags kind 19 = Some flags) as [flags Hfl] by (by destruct kind; [|eexists..]).
  pose proof (map_page_spec UK kroot kpt k D kroot kind phys_addr virt_addr 19 flags n eq_refl HI Hr) as Hw. unfold wp in Hw. rewrite E in Hw.
  destruct Hw as (D' & HI' & Hn' & Hme & Hm); try done.
  - split; [done|by split|]. split; [|done]. split; [done|]. intros _. by left.
  - by left.
  - exists D', flags. split_and!; [done|done|apply Hme|apply Hme|done].
Qed.

(** What the kernel has mapped is in its tables. *)
Lemma shared_mapped k D v : pt_inv UK kroot k D None -> root D kroot -> 0 <= v < 2 ^ 48 -> view k kroot v <> None ->
  exists f, D !! f = Some (kroot, 3%nat, index 4 v).
Proof.
  intros HI Hr Hv Hm. destruct (view k kroot v) as [tr|] eqn:E; [|done]. pose proof (pi_shape _ _ _ _ _ HI) as Hs.
  unfold root in Hr. rewrite <- (vpn_top v Hv) in Hr.
  destruct (walk_down _ _ _ _ _ Hs _ _ _ _ _ _ _ Hr (fun _ => or_introl eq_refl) E) as (_ & g & Hg & (_ & Hl & _) & _).
  destruct (table_above _ _ _ _ _ _ _ _ _ Hs Hg (3 - tr_level tr)) as (h & Hh); [lia|]. exists h.
  replace (tr_level tr + (3 - tr_level tr))%nat with 3%nat in Hh by lia. unfold index.
  by rewrite vpn_index, vpn_top, Z.mul_0_r, Z.add_0_l in Hh.
Qed.

Lemma boot_tables : exists D, pt_inv UK kroot k3 D None /\ root D kroot /\ (forall r, root D r -> r = kroot) /\ free_frames k3 53 /\
  forall i, 0 <= i < 512 -> foreign i = true -> exists f, D !! f = Some (kroot, 3%nat, i).
Proof.
  destruct inv_1 as (HI1 & Hn1 & Hv1).
  destruct (kernel_run k1 k2 _ MidPage 0x200000 VMEM_KERNEL_DATA_START 56 HI1 (lookup_singleton_eq _ _)) as (D2 & fl2 & HI2 & Hn2 & Hs2 & Hr2 & M2 & _);
    [done|by split|done|done|done|by intros; apply Hv1|done|exact run_k2|].
  assert (Hk2 : root D2 kroot) by (apply Hs2, lookup_singleton_eq).
  destruct (kernel_run k2 k3 _ LargePage 0 PAGING_DIRECT_MAP_OFFSET 53 HI2 Hk2) as (D3 & fl3 & HI3 & Hn3 & Hs3 & Hr3 & M3 & _);
    [done|by split|done|done|done| |done|exact run_k3|].
  { intros v Hv Hin. rewrite M2, Hv1 by done. destruct (inside (level_of MidPage) _ v) eqn:E; [|done]. unfold inside in *.
    apply andb_true_iff in Hin as [H1%Z.leb_le _], E as [_ H2%Z.ltb_lt].
    change PAGING_DIRECT_MAP_OFFSET with 70368744177664 in H1.
    change (VMEM_KERNEL_DATA_START + 2 ^ shift (level_of MidPage)) with 69818990460928 in H2. lia. }
  exists D3. split_and!; [done|by apply Hs3| |done|].
  - intros r [? ?]%Hr3%Hr2%lookup_singleton_Some. done.
  - assert (Hd : view k3 kroot VMEM_KERNEL_DATA_START <> None).
    { rewrite M3 by done. replace (inside _ _ _) with false by done. rewrite M2 by done. by replace (inside _ _ _) with true by done. }
    assert (Hm : view k3 kroot PAGING_DIRECT_MAP_OFFSET <> None) by (rewrite M3 by done; by replace (inside _ _ _) with true by done).
    intros i Hi [E|E]%foreign_cases; subst i; rewrite idx_l4_index; (apply (shared_mapped k3); [done|by apply Hs3|done|done]).
Qed.

Lemma inv_4 : exists D, pt_inv UK kroot k4 D None /\ root D uroot /\ free_frames k4 52 /\ forall v, view k4 uroot v = None.
Proof.
  destruct boot_tables as (D & HI & _ & _ & Hn & _). destruct (new_table_run _ _ _ _ 52 HI Hn run_k4) as (r & [= Hr] & _ & HI' & Hn' & _ & Hv & _).
  assert (r = uroot) as -> by lia. eexists. split_and!; [exact HI'|apply lookup_insert_eq|done|done].
Qed.

Lemma page_5 : page_args kroot uroot SmallPage 0x300000 0x400000.
Proof. split; [done|by split|]. split; [|done]. split; [done|]. intros _. by right. Qed.

Lemma inv_5 : exists D, pt_inv UK kroot k5 D None /\ root D uroot /\ view k5 uroot 0x400000 = Some (mkTr 0x300000 true true 1).
Proof.
  destruct inv_4 as (D & HI & Hr & Hn & Hv).
  pose proof (map_page_spec UK kroot upt k4 D uroot SmallPage 0x300000 0x400000 23 39 49 eq_refl HI Hr page_5) as Hw.
  unfold wp in Hw. rewrite run_k5 in Hw. destruct Hw as (D' & HI' & _ & Hme & M1 & _); try done; [by left|].
  exists D'. split_and!; [done|by apply Hme|]. rewrite M1 by done. by replace (inside _ _ _) with true by done.
Qed.

Lemma map_page_refines_witness : exists k', map_page upt 0x300000 0x400000 SmallPage 23 k4 = (k', Ok tt) /\
  view k' uroot 0x400008 = Some (mkTr 0x300008 true true 1).
Proof.
  destruct inv_4 as (D & HI & Hr & Hn & Hv).
  destruct (map_page_refines UK kroot upt k4 D uroot eq_refl HI Hr SmallPage 0x300000 0x400000 23 39 page_5) as (k' & D' & E & _ & M & _);
    [done|done|done|by intros; apply Hv|by apply (free_frames_less _ 3 52); [|lia]|by left|].
  exists k'. split; [exact E|]. clear E Hv. rewrite M by done. reflexivity.
Defined.

Lemma unmap_page_refines_witness : exists k', impl_unmap_page upt 0x300000 0x400000 SmallPage k5 = (k', Ok tt) /\
  view k' uroot 0x400008 = None.
Proof.
  destruct inv_5 as (D & HI & Hr & Hv).
  destruct (unmap_page_refines UK kroot upt k5 D uroot eq_refl HI Hr SmallPage 0x300000 0x400000 _ page_5 Hv eq_refl) as (k' & D' & E & _ & M & _);
    [discriminate|]. exists k'. split; [exact E|]. clear E Hv. rewrite M by done. reflexivity.
Defined.

Lemma software_walk_is_mmu_witness : impl_virt_to_phys upt 0x400000 k5 = (k5, Ok (Some 0x300000)) /\ impl_is_readable upt 0x400000 k5 = (k5, Ok true).
Proof.
  destruct inv_5 as (D & HI & Hr & Hv). pose proof (software_walk_is_mmu UK kroot upt k5 D uroot eq_refl HI Hr 0x400000 ltac:(lia)) as H.
  rewrite Hv in H. exact H.
Defined.

Lemma map_unmap_restores_witness : exists k' k'', map_page upt 0x300000 0x400000 SmallPage 23 k4 = (k', Ok tt) /\
  impl_unmap_page upt 0x300000 0x400000 SmallPage k' = (k'', Ok tt) /\ forall x, used (phys k'') x <-> used (phys k4) x.
Proof.
  destruct inv_4 as (D & HI & Hr & Hn & Hv).
  destruct (map_unmap_restores UK kroot upt k4 D uroot eq_refl HI Hr SmallPage 0x300000 0x400000 23 39 ltac:(done) page_5) as (k' & k'' & E1 & E2 & _ & H);
    [done|done|done|by intros; apply Hv|by apply (free_frames_less _ 3 52); [|lia]|by left|].
  exists k', k''. split; [exact E1|]. split; [exact E2|exact H].
Defined.
End PageSample.
