(* ===== verification/PageSpaces.v ===== *)
(** * Address spaces

    The page tables of all programs and of the kernel together, as a state machine: programs come and go, pages are
    mapped and unmapped, and programs write to the memory they can reach.  The invariant gives isolation. *)

From stdpp Require Import base numbers list gmap.
From S2P Require Import RustPrelude PhysMem PhysFrames PhysInit PhysProps PageTable PageWalk PageMem PageTableProps.

Open Scope Z_scope.

(** ** State and steps *)

(** Memory, the page tables of the running programs, and the frames that hold data: those that were allocated for
    anything but page tables and not returned yet. *)
Record Spaces : Type := mkSpaces { mem : Kmem; live : list PageTableImpl; held : gset Z }.

Definition root_of (pt : PageTableImpl) : Z := table_l4 pt - OFF.

(** The frames that a page touches hold data. *)
Definition data_frames (k : Kmem) (H : gset Z) (phys_addr size : Z) : Prop :=
  forall f, frame (phys k) f -> phys_addr < f + 4096 -> f < phys_addr + size -> f ∈ H.

Lemma inside_index l base v : (1 <= l <= 3)%nat -> base mod 2 ^ shift l = 0 -> inside l base v = true -> index 4 v = index 4 base.
Proof.
  intros Hl Hb Hin. rewrite inside_vpn in Hin by done. apply bool_decide_eq_true in Hin. unfold index. f_equal.
  assert (Hd : forall d, vpn (l + d) v = vpn (l + d) base).
  { intros d. induction d as [|d IH]; [by rewrite Nat.add_0_r|]. rewrite Nat.add_succ_r, !vpn_S. by rewrite IH. }
  specialize (Hd (4 - l)%nat). by replace (l + (4 - l))%nat with 4%nat in Hd by lia.
Qed.

Section Machine.
Variable kpt : PageTableImpl.
(** The frames that are in use when the machine starts. *)
Variable boot_used : Z -> Prop.
Let kroot : Z := root_of kpt.

(** A page table maps no page outside the kernel's part. *)
Definition vacant (k : Kmem) (r : Z) : Prop := forall v, own_addr kroot r v -> view k r v = None.

Inductive spaces_step : Spaces -> Spaces -> Prop :=
| step_hold k k' L H f : phys_allocate_frameless SmallPage k = (k', Ok f) ->
    spaces_step (mkSpaces k L H) (mkSpaces k' L ({[f]} ∪ H))
| step_release k k' L H f : f ∈ H ->
    (forall pt v tr, pt ∈ L -> own_addr kroot (root_of pt) v -> view k (root_of pt) v = Some tr -> ~ (f <= tr_addr tr < f + 4096)) ->
    phys_deallocate_frameless f SmallPage k = (k', Ok tt) ->
    spaces_step (mkSpaces k L H) (mkSpaces k' L (H ∖ {[f]}))
| step_start k k1 k2 L H pt : new_user_page_table k = (k1, Ok pt) -> map_kernel_to_user pt kpt k1 = (k2, Ok tt) ->
    spaces_step (mkSpaces k L H) (mkSpaces k2 (pt :: L) H)
| step_map k k' L H pt phys_addr virt_addr kind options flags : pt ∈ L ->
    page_args kroot (root_of pt) kind phys_addr virt_addr -> is_u8 options -> has options USER_ACCESSIBLE = true ->
    final_flags kind options = Some flags -> data_frames k H phys_addr (2 ^ shift (level_of kind)) -> free_frames k 3 ->
    (forall v, 0 <= v < 2 ^ 48 -> inside (level_of kind) virt_addr v = true -> view k (root_of pt) v = None) ->
    map_page pt phys_addr virt_addr kind options k = (k', Ok tt) ->
    spaces_step (mkSpaces k L H) (mkSpaces k' L H)
| step_unmap k k' L H pt phys_addr virt_addr kind tr : pt ∈ L -> page_args kroot (root_of pt) kind phys_addr virt_addr ->
    view k (root_of pt) virt_addr = Some tr -> tr_level tr = level_of kind ->
    impl_unmap_page pt phys_addr virt_addr kind k = (k', Ok tt) ->
    spaces_step (mkSpaces k L H) (mkSpaces k' L H)
| step_dead k L1 pt L2 H : spaces_step (mkSpaces k (L1 ++ pt :: L2) H) (mkSpaces k (L1 ++ mark_dead pt :: L2) H)
| step_end k k1 k2 L1 pt L2 H : vacant k (root_of pt) -> unmap_kernel_from_user pt k = (k1, Ok tt) -> drop_page_table pt k1 = (k2, Ok tt) ->
    spaces_step (mkSpaces k (L1 ++ pt :: L2) H) (mkSpaces k2 (L1 ++ L2) H)
| step_store k k' L H pt v tr x : pt ∈ L -> 0 <= v < 2 ^ 48 -> view k (root_of pt) v = Some tr -> tr_user tr = true -> tr_writable tr = true ->
    tr_addr tr mod 8 = 0 -> write_word (OFF + tr_addr tr) x k = (k', Ok tt) ->
    spaces_step (mkSpaces k L H) (mkSpaces k' L H)
| step_kernel_map k k' L H phys_addr virt_addr kind options flags :
    page_args kroot kroot kind phys_addr virt_addr -> is_u8 options -> has options USER_ACCESSIBLE = false ->
    final_flags kind options = Some flags -> data_frames k H phys_addr (2 ^ shift (level_of kind)) -> free_frames k 3 ->
    (forall v, 0 <= v < 2 ^ 48 -> inside (level_of kind) virt_addr v = true -> view k kroot v = None) ->
    map_page kpt phys_addr virt_addr kind options k = (k', Ok tt) ->
    spaces_step (mkSpaces k L H) (mkSpaces k' L H).

Inductive spaces_reach (s : Spaces) : Spaces -> Prop :=
| reach_refl : spaces_reach s s
| reach_step s1 s2 : spaces_reach s s1 -> spaces_step s1 s2 -> spaces_reach s s2.

(** ** The invariant *)

Record tables_ok (k : Kmem) (D : gmap Z node) : Prop := {
  to_inv : pt_inv (user_space kroot) kroot k D None;
  to_kroot : root D kroot;
  to_shared i : 0 <= i < 512 -> foreign i = true -> exists f, D !! f = Some (kroot, 3%nat, i)
}.

Record spaces_inv (s : Spaces) (D : gmap Z node) : Prop := {
  si_tables : tables_ok (mem s) D;
  si_live pt : pt ∈ live s -> table_l4 pt = OFF + root_of pt /\ userspace pt = true /\ root D (root_of pt) /\ root_of pt <> kroot;
  si_distinct : NoDup (root_of <$> live s);
  si_all r : root D r -> r <> kroot -> r ∈ root_of <$> live s;
  si_held f : f ∈ held s -> used (phys (mem s)) f /\ D !! f = None;
  si_data r v tr f : root D r -> r <> kroot -> own_addr kroot r v -> view (mem s) r v = Some tr ->
    frame (phys (mem s)) f -> f <= tr_addr tr < f + 4096 -> f ∈ held s;
  si_kernel r i : root D r -> r <> kroot -> 0 <= i < 512 -> foreign i = true -> entry (mem s) r i <> 0;
  si_accounted f : used (phys (mem s)) f -> f ∈ held s \/ is_Some (D !! f) \/ boot_used f
}.

(** The frame allocator does not touch the tables while their frames stay in use. *)
Lemma tables_phys k k' D : tables_ok k D -> words k' = words k -> phys_wf (phys k') ->
  (forall x, frame (phys k') x <-> frame (phys k) x) -> (forall f n, D !! f = Some n -> used (phys k') f) ->
  tables_ok k' D /\ (forall f i, entry k' f i = entry k f i) /\ forall r v, view k' r v = view k r v.
Proof.
  intros [HI Hr Hsh] W Hwf Hfr Hu. destruct (pt_inv_phys _ _ k k' D HI W Hwf Hfr Hu) as (HI' & He & Hv). by split.
Qed.

(** A program's entries for the kernel lead to the kernel's tables. *)
Lemma kernel_entry k D r i : tables_ok k D -> root D r -> r <> kroot -> 0 <= i < 512 -> foreign i = true -> entry k r i <> 0 ->
  exists f, points false (entry k r i) f /\ points false (entry k kroot i) f.
Proof.
  intros [HI Hkr _] Hr Hk Hi Hf Hn. pose proof (pi_shape _ _ _ _ _ HI) as Hs.
  destruct (sh_entry _ _ _ _ _ Hs _ _ _ _ i Hr Hi) as [?|[(_ & [?|[? _]] & _)|(_ & f & [(_ & _ & Ho)|(_ & _ & _ & Hp & HD)])]];
    [done|lia|lia|destruct (Ho eq_refl); congruence|].
  exists f. split; [done|]. pose proof (parent_entry _ _ _ _ _ _ _ _ _ _ _ Hs Hkr Hi HD) as Hpt. unfold user_space in Hpt.
  rewrite Z.eqb_refl in Hpt. apply Hpt. lia.
Qed.

Lemma kernel_view k D r v : tables_ok k D -> root D r -> r <> kroot -> 0 <= v < 2 ^ 48 -> foreign (index 4 v) = true ->
  entry k r (index 4 v) <> 0 -> view k r v = view k kroot v.
Proof.
  intros HT Hr Hk Hv Hf Hn. destruct (kernel_entry k D r (index 4 v)) as (f & P1 & P2); [done|done|done|apply index_range|done|done|].
  unfold view, mmu. rewrite (walk_points _ 4 r _ _ _ false f), (walk_points _ 4 kroot _ _ _ false f) by (done || lia).
  destruct P1 as (_ & _ & _ & _ & ->), P2 as (_ & _ & _ & _ & ->). done.
Qed.

Lemma inv_hold k k' L H D f : spaces_inv (mkSpaces k L H) D -> phys_allocate_frameless SmallPage k = (k', Ok f) ->
  spaces_inv (mkSpaces k' L ({[f]} ∪ H)) D.
Proof.
  intros [HT HL Hnd Hall HH Hd Hke Hac] E. cbn [mem live held] in *.
  assert (Hw : wp (phys_allocate_frameless SmallPage) k (fun f k' => frame (phys k) f /\ f <> 0 /\ ~ used (phys k) f /\
    becomes (phys k) (phys k') (fun x => used (phys k) x \/ x = f) /\ words k' = words k) (fun _ _ => True)).
  { apply wp_alloc_any; [apply HT|by auto|done]. }
  unfold wp in Hw. rewrite E in Hw. destruct Hw as (_ & _ & Hnu & (B1 & B2 & B3 & B4) & W).
  assert (HD : forall g n, D !! g = Some n -> used (phys k) g) by (intros; eapply pi_used; [apply HT|done]).
  destruct (tables_phys k k' D HT W B1 B3) as (HT' & He & Hv); [intros; apply B4; eauto|].
  split; cbn [mem live held]; [done|done|done|done| | |intros; rewrite He; eauto|].
  - intros g [->%elem_of_singleton|Hg]%elem_of_union.
    + split; [by apply B4; right|]. destruct (D !! f) eqn:Ef; [|done]. by destruct Hnu; eapply HD.
    + destruct (HH g Hg). split; [by apply B4; left|done].
  - intros r v tr g Hr Hk Ho Hvw Hg Hin. apply elem_of_union. right. rewrite Hv in Hvw. apply B3 in Hg. by eapply Hd.
  - intros g [Hg| ->]%B4; [destruct (Hac g Hg); [left|by right]|left]; apply elem_of_union; [by right|left; by apply elem_of_singleton].
Qed.

Lemma inv_release k k' L H D f : spaces_inv (mkSpaces k L H) D -> f ∈ H ->
  (forall pt v tr, pt ∈ L -> own_addr kroot (root_of pt) v -> view k (root_of pt) v = Some tr -> ~ (f <= tr_addr tr < f + 4096)) ->
  phys_deallocate_frameless f SmallPage k = (k', Ok tt) -> spaces_inv (mkSpaces k' L (H ∖ {[f]})) D.
Proof.
  intros [HT HL Hnd Hall HH Hd Hke Hac] Hf Hun E. cbn [mem live held] in *. destruct (HH f Hf) as [Hfu HfD].
  assert (Hw : wp (phys_deallocate_frameless f SmallPage) k (fun _ k' =>
    becomes (phys k) (phys k') (fun x => used (phys k) x /\ x <> f) /\ words k' = words k) (fun _ _ => True)).
  { apply wp_free_frame; [apply HT|done|by auto]. }
  unfold wp in Hw. rewrite E in Hw. destruct Hw as ((B1 & B2 & B3 & B4) & W).
  destruct (tables_phys k k' D HT W B1 B3) as (HT' & He & Hv).
  { intros g n Hg. apply B4. split; [eapply pi_used; [apply HT|done]|]. intros ->. congruence. }
  split; cbn [mem live held]; [done|done|done|done| | |intros; rewrite He; eauto|].
  - intros g [Hg Hne]%elem_of_difference. destruct (HH g Hg). split; [|done]. apply B4. split; [done|]. intros ->. apply Hne. by apply elem_of_singleton.
  - intros r v tr g Hr Hk Ho Hvw Hg Hin. rewrite Hv in Hvw. apply B3 in Hg. apply elem_of_difference. split; [by eapply Hd|].
    intros ->%elem_of_singleton. pose proof (Hall r Hr Hk) as Hin'. apply list_elem_of_fmap in Hin' as (pt & -> & Hpt). by eapply Hun.
  - intros g [Hg Hne]%B4. destruct (Hac g Hg) as [?|?]; [left|by right]. apply elem_of_difference. split; [done|].
    intros ->%elem_of_singleton. done.
Qed.

Lemma root_table pt : table_l4 pt = OFF + root_of pt.
Proof. unfold root_of. lia. Qed.

(** A page of data is mapped in the address space of a program or of the kernel. *)
Lemma inv_map k k' L H D pt phys_addr virt_addr kind options flags : spaces_inv (mkSpaces k L H) D -> root D (root_of pt) ->
  user_space kroot (root_of pt) = has options USER_ACCESSIBLE ->
  page_args kroot (root_of pt) kind phys_addr virt_addr -> is_u8 options ->
  final_flags kind options = Some flags -> data_frames k H phys_addr (2 ^ shift (level_of kind)) -> free_frames k 3 ->
  (forall v, 0 <= v < 2 ^ 48 -> inside (level_of kind) virt_addr v = true -> view k (root_of pt) v = None) ->
  map_page pt phys_addr virt_addr kind options k = (k', Ok tt) -> exists D', spaces_inv (mkSpaces k' L H) D'.
Proof.
  intros [[HI Hkr Hsh] HL Hnd Hall HH Hd Hke Hac] Hr HU Ha Ho Hfl Hdf Hfr Hun E. cbn [mem live held] in *.
  pose proof (map_page_spec (user_space kroot) kroot pt k D (root_of pt) kind phys_addr virt_addr options flags 0
    (root_table pt) HI Hr Ha Ho Hfl HU Hun Hfr) as Hw. unfold wp in Hw. rewrite E in Hw. destruct Hw as (D' & HI' & _ & Hme & M1 & M2).
  { right. intros f Hf. destruct (decide (f + 4096 <= phys_addr)); [by left|]. right.
    destruct (decide (phys_addr + 2 ^ shift (level_of kind) <= f)); [by left|]. right. apply HH, Hdf; [done|lia|lia]. }
  exists D'. destruct Hme as [Hsub Hframes Hused Hnew Hroots _ _ _ Hkept].
  split; cbn [mem live held]; [|intros pt' Hpt'|done| | | | |].
  - split; [done|by apply Hsub|]. intros i Hi Hf. destruct (Hsh i Hi Hf) as (f & Hf'). exists f. by apply Hsub.
  - destruct (HL pt' Hpt') as (? & ? & ? & ?). split_and!; [done|done|by apply Hsub|done].
  - intros r Hr' Hk. apply Hall; [by apply Hroots|done].
  - intros f Hf. destruct (HH f Hf) as [Hu HD]. split; [by apply Hused; left|]. destruct (D' !! f) eqn:E'; [|done].
    destruct (Hnew f HD); [by eexists|done].
  - intros r v tr f Hr' Hk Hov Hvw Hf Hin. apply Hroots in Hr'. apply Hframes in Hf. destruct (decide (r = root_of pt)) as [->|Hne].
    + rewrite M1 in Hvw by apply Hov. destruct (inside _ _ _) eqn:Ein; [|by eapply Hd]. injection Hvw as <-. cbn [tr_addr] in Hin.
      unfold inside in Ein. apply andb_true_iff in Ein as [?%Z.leb_le ?%Z.ltb_lt]. apply Hdf; [done|lia|lia].
    + rewrite M2 in Hvw; [by eapply Hd|done|done|apply Hov|]. right. apply Hov.
  - intros r i Hr' Hk Hi Hf. apply Hroots in Hr'. apply Hkept; [by eexists|done|by apply Hke].
  - intros f [Hu|[_ Hf]]%Hused; [|by right; left]. destruct (Hac f Hu) as [?|[[n Hf]|?]]; [by left| |by right; right].
    right. left. rewrite (Hsub _ _ Hf). by eexists.
Qed.

Lemma inv_unmap k k' L H D pt phys_addr virt_addr kind tr : spaces_inv (mkSpaces k L H) D -> pt ∈ L ->
  page_args kroot (root_of pt) kind phys_addr virt_addr -> view k (root_of pt) virt_addr = Some tr -> tr_level tr = level_of kind ->
  impl_unmap_page pt phys_addr virt_addr kind k = (k', Ok tt) -> exists D', spaces_inv (mkSpaces k' L H) D'.
Proof.
  intros [[HI Hkr Hsh] HL Hnd Hall HH Hd Hke Hac] Hpt Ha Hvw Hlv E. cbn [mem live held] in *. destruct (HL pt Hpt) as (Ht & _ & Hr & Hne).
  pose proof (impl_unmap_page_spec (user_space kroot) kroot pt k D (root_of pt) kind phys_addr virt_addr tr Ht HI Hr Ha Hvw Hlv) as Hw.
  unfold wp in Hw. rewrite E in Hw. destruct Hw as (D' & Hsk & HI' & [U1 U2] & _); [done|]. exists D'.
  pose proof Hsk as [Hsub Hframes Hused Hroots _]. split; cbn [mem live held]; [|intros pt' Hpt'|done| | | | |].
  - split; [done|by apply Hroots|]. intros i Hi Hf. destruct (Hsh i Hi Hf) as (f & Hf'). exists f.
    destruct (same_tables (user_space kroot) kroot (entry k) (entry k') D D' kroot (pi_shape _ _ _ _ _ HI) (pi_shape _ _ _ _ _ HI') Hkr) with (f := f) (l := 3%nat) (p := i) as (g & Hg);
      [by apply Hroots| |done|].
    { intros v Hv _. apply U2; [done|by auto|apply Hv|by left]. }
    by rewrite (sh_unique _ _ _ _ _ (pi_shape _ _ _ _ _ HI) _ _ _ Hf' (Hsub _ _ Hg)).
  - destruct (HL pt' Hpt') as (? & ? & ? & ?). split_and!; [done|done|by apply Hroots|done].
  - intros r Hr' Hk. apply Hall; [by apply Hsub|done].
  - intros f Hf. destruct (HH f Hf) as [Hu HD]. split.
    + apply Hused. split; [done|]. rewrite HD. by intros [? ?].
    + destruct (D' !! f) eqn:E'; [|done]. apply Hsub in E'. congruence.
  - intros r v tr' f Hr' Hk Hov Hv' Hf Hin. apply Hsub in Hr'. apply Hframes in Hf. destruct (decide (r = root_of pt)) as [->|Hne'].
    + rewrite U1 in Hv' by apply Hov. destruct (inside _ _ _); [done|]. by eapply Hd.
    + rewrite U2 in Hv'; [by eapply Hd|done|done|apply Hov|by left].
  - intros r i Hr' Hk Hi Hf. apply Hsub in Hr'. destruct (Hsh i Hi Hf) as (f & Hf').
    destruct (mapped_below _ _ _ _ (pi_shape _ _ _ _ _ HI) _ _ _ _ Hf') as (v & Hvi & Hv48 & Hm); [lia|].
    assert (Ei : index 4 v = i) by (unfold index; rewrite Hvi; dlia). clear Hvi. subst i.
    fold (view k kroot v) in Hm. rewrite <- (kernel_view k D r v (Build_tables_ok _ _ HI Hkr Hsh) Hr' Hk Hv48 Hf (Hke r (index 4 v) Hr' Hk Hi Hf)) in Hm. intros H0. apply Hm.
    assert (Hv' : view k' r v = None) by (by apply walk_zero). destruct (decide (r = root_of pt)) as [->|Hne'].
    + rewrite U1 in Hv' by done. destruct (inside _ _ v) eqn:Ein; [|done]. destruct Ha as [? _ [[_ Hov] Hal]].
      apply inside_index in Ein; [|destruct kind; [done|cbn; lia..]|done]. destruct (Hov eq_refl); congruence.
    + rewrite <- U2; [done|done|done|done|by left].
  - intros f [Hu Hf]%Hused. destruct (Hac f Hu) as [?|[?|?]]; [by left|right; left; by apply Hf|by right; right].
Qed.

Lemma inv_dead k L1 pt L2 H D : spaces_inv (mkSpaces k (L1 ++ pt :: L2) H) D -> spaces_inv (mkSpaces k (L1 ++ mark_dead pt :: L2) H) D.
Proof.
  intros [HT HL Hnd Hall HH Hd Hke Hac]. cbn [mem live held] in *.
  assert (E : root_of <$> L1 ++ mark_dead pt :: L2 = root_of <$> L1 ++ pt :: L2) by (by rewrite !fmap_app).
  split; cbn [mem live held]; rewrite ?E; [done| |done|done|done|done|done|done].
  assert (Hpt : forall pt', pt' ∈ L1 \/ pt' = pt \/ pt' ∈ L2 -> pt' ∈ L1 ++ pt :: L2) by (intros pt'; by rewrite elem_of_app, elem_of_cons).
  intros pt' [?|[->|?]%elem_of_cons]%elem_of_app; [apply HL, Hpt; by left|apply (HL pt), Hpt; by right; left|apply HL, Hpt; by right; right].
Qed.

(** A program writes to memory that it can reach: no page table is changed. *)
Lemma inv_store k k' L H D pt v tr x : spaces_inv (mkSpaces k L H) D -> pt ∈ L -> 0 <= v < 2 ^ 48 -> view k (root_of pt) v = Some tr ->
  tr_user tr = true -> tr_addr tr mod 8 = 0 -> write_word (OFF + tr_addr tr) x k = (k', Ok tt) -> spaces_inv (mkSpaces k' L H) D.
Proof.
  intros [HT HL Hnd Hall HH Hd Hke Hac] Hpt Hv Hvw Hus H8 E. cbn [mem live held] in *. destruct (HL pt Hpt) as (_ & _ & Hr & Hne).
  destruct HT as [HI Hkr Hsh]. injection E as <-. set (k' := set_words _ k).
  assert (Hown : own_addr kroot (root_of pt) v).
  { split; [done|]. intros _. right. destruct (foreign (index 4 v)) eqn:Ef; [|done].
    pose proof (foreign_private _ _ _ _ _ _ _ (pi_shape _ _ _ _ _ HI) Hr Hne Hv Ef Hvw). congruence. }
  assert (He : forall f i, is_Some (D !! f) -> 0 <= i < 512 -> entry k' f i = entry k f i).
  { intros f i [n Hf] Hi. unfold entry, word, k'. cbn [words set_words]. rewrite lookup_insert_ne; [done|]. intros Eq.
    assert (Hdf : f ∈ H).
    { eapply (Hd _ _ _ f Hr Hne Hown Hvw); [|lia].
      apply (used_addr k f (pi_phys _ _ _ _ _ HI) (pi_limit _ _ _ _ _ HI) (pi_used _ _ _ _ _ HI _ _ Hf)). }
    destruct (HH f Hdf). congruence. }
  destruct (pt_inv_words (user_space kroot) kroot k k' D HI eq_refl He) as (HI' & Hvs).
  split; cbn [mem live held]; [by split|done|done|done|done| | |done].
  2:{ intros r i Hr' Hk Hi Hf. rewrite He; [by apply Hke|by eexists|done]. }
  intros r v' tr' f Hr' Hk Hov Hv' Hf Hin. rewrite Hvs in Hv' by (done || apply Hov). by eapply Hd.
Qed.

(** ** Programs start and end *)

(** What stays when the kernel's entry at index [i] of a program's top table is written. *)
Record kernel_set (k k' : Kmem) (D : gmap Z node) (r i e : Z) : Prop := {
  ks_tables : tables_ok k' D;
  ks_phys : phys k' = phys k;
  ks_words a : off_page r 4096 a -> word k' a = word k a;
  ks_entry f j : is_Some (D !! f) -> 0 <= j < 512 -> entry k' f j = if decide ((f, j) = (r, i)) then e else entry k f j;
  ks_view r0 v : root D r0 -> 0 <= v < 2 ^ 48 -> r0 <> r \/ own_addr kroot r0 v -> view k' r0 v = view k r0 v
}.

Lemma kernel_put k D pt i e : tables_ok k D -> root D (root_of pt) -> root_of pt <> kroot -> 0 <= i < 512 -> foreign i = true ->
  (e = 0 \/ e = entry k kroot i) -> kernel_set k (put k (root_of pt) i e) D (root_of pt) i e.
Proof.
  intros [HI Hkr Hsh] Hr Hk Hi Hf He. pose proof (pi_addr _ _ _ _ _ _ _ HI Hr) as Hra.
  destruct (set_kernel_pte_spec (user_space kroot) kroot pt k D (root_of pt) i e (root_table pt) HI Hr Hk) as (HI' & Hv);
    [apply negb_true_iff; by apply Z.eqb_neq|done|done| |].
  { destruct He as [->|He]; [by left|]. right. destruct (Hsh i Hi Hf) as (f & HD). exists f. split; [|done]. rewrite He.
    pose proof (parent_entry _ _ _ _ _ _ _ _ _ _ f (pi_shape _ _ _ _ _ HI) Hkr Hi) as Hp. unfold user_space in Hp.
    rewrite Z.eqb_refl in Hp. apply Hp; [done|lia]. }
  split; [by split|done| | |].
  - intros a Ha. by apply word_put.
  - intros f j [n Hfn] Hj. apply entry_put; [done|by eapply pi_addr|done|done].
  - intros r0 v Hr0 Hv48 Ho. apply Hv; [done|done|]. destruct (decide (r0 = root_of pt)) as [->|]; [|by left]. destruct Ho as [?|[_ Ho]]; [done|].
    right. intros <-. destruct (Ho eq_refl); congruence.
Qed.

Lemma kernel_set_trans k1 k2 k3 D r i1 e1 i2 e2 : kernel_set k1 k2 D r i1 e1 -> kernel_set k2 k3 D r i2 e2 ->
  tables_ok k3 D /\ phys k3 = phys k1 /\ (forall a, off_page r 4096 a -> word k3 a = word k1 a) /\
  (forall f j, is_Some (D !! f) -> 0 <= j < 512 -> entry k3 f j = if decide ((f, j) = (r, i2)) then e2 else if decide ((f, j) = (r, i1)) then e1 else entry k1 f j) /\
  (forall r0 v, root D r0 -> 0 <= v < 2 ^ 48 -> r0 <> r \/ own_addr kroot r0 v -> view k3 r0 v = view k1 r0 v).
Proof.
  intros [T1 P1 W1 E1 V1] [T2 P2 W2 E2 V2]. split_and!; [done|congruence| | |].
  - intros a Ha. by rewrite W2, W1.
  - intros f j Hf Hj. rewrite E2, E1 by done. done.
  - intros r0 v Hr0 Hv Ho. rewrite V2, V1; auto.
Qed.


Lemma map_kernel_spec pt k D : tables_ok k D -> root D (root_of pt) -> root_of pt <> kroot ->
  (forall i, 0 <= i < 512 -> entry k (root_of pt) i = 0) ->
  wp (map_kernel_to_user pt kpt) k (fun _ k' => tables_ok k' D /\ phys k' = phys k /\
    (forall a, off_page (root_of pt) 4096 a -> word k' a = word k a) /\
    (forall r i, root D r -> 0 <= i < 512 -> foreign i = true -> r = root_of pt \/ entry k r i <> 0 -> entry k' r i <> 0) /\
    (forall r0 v, root D r0 -> 0 <= v < 2 ^ 48 -> r0 <> root_of pt \/ own_addr kroot r0 v -> view k' r0 v = view k r0 v)) (fun _ _ => False).
Proof.
  intros HT Hr Hk Hz. unfold map_kernel_to_user, get_kernel_pte, insert_kernel_pte. rewrite (root_table pt), (root_table kpt). fold kroot.
  set (i1 := idx_l4 VMEM_KERNEL_DATA_START). set (i2 := idx_l4 PAGING_DIRECT_MAP_OFFSET).
  assert (Hi1 : 0 <= i1 < 512) by (split; vm_compute; congruence). assert (Hi2 : 0 <= i2 < 512) by (split; vm_compute; congruence).
  assert (H12 : i1 <> i2) by (vm_compute; congruence).
  wp_steps. apply wp_hw_get; [done|]. wp_steps. apply wp_hw_get; [done|]. rewrite Hz by done. wp_steps. apply wp_assert; [done|]. wp_steps.
  apply wp_hw_set; [done|]. pose proof (kernel_put k D pt i1 (entry k kroot i1) HT Hr Hk Hi1 eq_refl (or_intror eq_refl)) as H1.
  set (k1 := put _ _ _ _) in *. wp_steps. apply wp_hw_get; [done|]. wp_steps. apply wp_hw_get; [done|].
  rewrite (ks_entry _ _ _ _ _ _ H1) by (done || by eexists). rewrite decide_False by congruence. rewrite Hz by done.
  wp_steps. apply wp_assert; [done|]. apply wp_hw_set; [done|].
  pose proof (kernel_put k1 D pt i2 (entry k1 kroot i2) (ks_tables _ _ _ _ _ _ H1) Hr Hk Hi2 eq_refl (or_intror eq_refl)) as H2.
  destruct (kernel_set_trans _ _ _ _ _ _ _ _ _ H1 H2) as (T & P & W & E & V). split_and!; [done|done|done| |done].
  assert (Hkn : forall i, 0 <= i < 512 -> foreign i = true -> entry k kroot i <> 0).
  { intros i Hi Hf. destruct (to_shared _ _ HT i Hi Hf) as (f & HD). eapply points_nonzero.
    apply (parent_entry _ _ _ _ _ _ _ _ _ _ f (pi_shape _ _ _ _ _ (to_inv _ _ HT)) (to_kroot _ _ HT) Hi); [done|lia]. }
  assert (E2 : entry k1 kroot i2 = entry k kroot i2).
  { rewrite (ks_entry _ _ _ _ _ _ H1); [|by eexists; apply HT|done]. by rewrite decide_False by congruence. }
  intros r i Hr0 Hi Hf Hor. rewrite E by (done || by eexists). case_decide as D2; [rewrite E2; by apply Hkn|].
  case_decide as D1; [by apply Hkn|]. destruct Hor as [->|?]; [|done]. apply foreign_cases in Hf as [->| ->]; [by destruct D1|by destruct D2].
Qed.

Lemma inv_start k k1 k2 L H D pt : spaces_inv (mkSpaces k L H) D -> new_user_page_table k = (k1, Ok pt) ->
  map_kernel_to_user pt kpt k1 = (k2, Ok tt) -> exists D', spaces_inv (mkSpaces k2 (pt :: L) H) D'.
Proof.
  intros [[HI Hkr Hsh] HL Hnd Hall HH Hd Hke Hac] E1 E2. cbn [mem live held] in *.
  pose proof (new_table_spec (user_space kroot) kroot k D HI) as Hw. unfold wp in Hw. rewrite E1 in Hw.
  destruct Hw as (r & Hpt & HDr & Hru & HI1 & Hsv & Hvn & (B1 & B2 & B3 & B4) & Hw1). set (D1 := <[r := (r, 4%nat, 0)]> D) in *.
  assert (Hrr : root_of pt = r) by (rewrite Hpt; unfold root_of; cbn [table_l4]; lia).
  assert (Hsub : forall f n, D !! f = Some n -> D1 !! f = Some n) by (intros f n Hf; unfold D1; rewrite lookup_insert_ne; [done|]; intros <-; congruence).
  assert (Hroots : forall r0, root D1 r0 -> r0 = r \/ root D r0).
  { intros r0 Hr0. destruct (decide (r0 = r)) as [->|]; [by left|]. right. unfold root, D1 in *. by rewrite lookup_insert_ne in Hr0. }
  assert (Hr1 : root D1 r) by (unfold root, D1; apply lookup_insert_eq).
  assert (Hrk : r <> kroot) by (intros ->; unfold root in Hkr; congruence).
  assert (HT1 : tables_ok k1 D1).
  { split; [done|by apply Hsub|]. intros i Hi Hf. destruct (Hsh i Hi Hf) as (f & Hf'). exists f. by apply Hsub. }
  pose proof (map_kernel_spec pt k1 D1 HT1) as Hw. rewrite Hrr in Hw. specialize (Hw Hr1 Hrk). unfold wp in Hw. rewrite E2 in Hw.
  destruct Hw as (HT2 & P2 & W2 & K2 & V2). { intros i Hi. eapply unmapped_root; [apply HI1|done|done|]. intros v _. apply Hvn. }
  exists D1. split; cbn [mem live held]; rewrite ?P2.
  - done.
  - intros pt' [->|Hin]%elem_of_cons; [rewrite root_table, Hrr, Hpt; by split_and!|].
    destruct (HL pt' Hin) as (? & ? & ? & ?). split_and!; [done|done|by apply Hsub|done].
  - rewrite fmap_cons. apply NoDup_cons. split; [|done]. rewrite Hrr. intros (pt' & E & Hin)%list_elem_of_fmap.
    destruct (HL pt' Hin) as (_ & _ & Hr' & _). rewrite <- E in Hr'. unfold root in Hr'. congruence.
  - intros r0 Hr0 Hk0. rewrite fmap_cons, elem_of_cons. destruct (Hroots r0 Hr0) as [->|?]; [by left|right; by apply Hall].
  - intros f Hf. destruct (HH f Hf) as [Hu HD]. split; [by apply B4; left|]. unfold D1. rewrite lookup_insert_ne; [done|]. by intros ->.
  - intros r0 v tr f Hr0 Hk0 Ho Hv Hf Hin. rewrite V2 in Hv by (done || apply Ho || by right). apply B3 in Hf. destruct (Hroots r0 Hr0) as [->|Hr0'].
    + by rewrite Hvn in Hv.
    + rewrite Hsv in Hv by (done || apply Ho). by eapply Hd.
  - intros r0 i Hr0 Hk0 Hi Hf. apply K2; [done|done|done|]. destruct (Hroots r0 Hr0) as [->|Hr0']; [by left|right].
    assert (E : entry k1 r0 i = entry k r0 i); [|rewrite E; by apply Hke]. unfold entry. apply Hw1. unfold off_page.
    assert (r0 <> r) by (intros ->; unfold root in Hr0'; congruence).
    destruct (pi_addr _ _ _ _ _ _ _ HI Hr0') as [_ ?]. destruct (pi_addr _ _ _ _ _ _ _ HI1 Hr1) as [_ ?]. dlia.
  - intros f [Hu| ->]%B4; [|right; left; by eexists]. destruct (Hac f Hu) as [?|[[n Hf]|?]]; [by left| |by right; right].
    right. left. rewrite (Hsub _ _ Hf). by eexists.
Qed.

Lemma unmap_kernel_spec pt k D : tables_ok k D -> root D (root_of pt) -> root_of pt <> kroot ->
  (forall i, 0 <= i < 512 -> foreign i = true -> entry k (root_of pt) i <> 0) ->
  wp (unmap_kernel_from_user pt) k (fun _ k' => tables_ok k' D /\ phys k' = phys k /\
    (forall f i, is_Some (D !! f) -> 0 <= i < 512 -> entry k' f i = if decide (f = root_of pt) then if foreign i then 0 else entry k f i else entry k f i) /\
    (forall r0 v, root D r0 -> 0 <= v < 2 ^ 48 -> r0 <> root_of pt \/ own_addr kroot r0 v -> view k' r0 v = view k r0 v) /\
    (forall a, off_page (root_of pt) 4096 a -> word k' a = word k a)) (fun _ _ => False).
Proof.
  intros HT Hr Hk Hz. unfold unmap_kernel_from_user, remove_kernel_pte. rewrite (root_table pt).
  set (i1 := idx_l4 VMEM_KERNEL_DATA_START). set (i2 := idx_l4 PAGING_DIRECT_MAP_OFFSET).
  assert (Hi1 : 0 <= i1 < 512) by (split; vm_compute; congruence). assert (Hi2 : 0 <= i2 < 512) by (split; vm_compute; congruence).
  assert (H12 : i1 <> i2) by (vm_compute; congruence).
  wp_steps. apply wp_hw_get; [done|]. wp_steps. apply wp_assert; [rewrite empty_entry; [done|by apply Hz]|]. wp_steps.
  apply wp_hw_set; [done|]. pose proof (kernel_put k D pt i1 0 HT Hr Hk Hi1 eq_refl (or_introl eq_refl)) as H1.
  set (k1 := put _ _ _ _) in *. wp_steps. apply wp_hw_get; [done|].
  rewrite (ks_entry _ _ _ _ _ _ H1) by (done || by eexists). rewrite decide_False by congruence.
  wp_steps. apply wp_assert; [rewrite empty_entry; [done|by apply Hz]|]. apply wp_hw_set; [done|].
  pose proof (kernel_put k1 D pt i2 0 (ks_tables _ _ _ _ _ _ H1) Hr Hk Hi2 eq_refl (or_introl eq_refl)) as H2.
  destruct (kernel_set_trans _ _ _ _ _ _ _ _ _ H1 H2) as (T & P & W & E & V). split_and!; [done|done| |done|done].
  intros f i Hf Hi. rewrite E by done. destruct (decide (f = root_of pt)) as [->|Hne].
  - destruct (foreign i) eqn:Ef.
    + case_decide as D2; [done|]. case_decide as D1; [done|]. apply foreign_cases in Ef as [->| ->]; [by destruct D1|by destruct D2].
    + rewrite !decide_False; [done|intros [= ->]; done..].
  - by rewrite !decide_False by congruence.
Qed.

Lemma inv_end k k1 k2 L1 pt L2 H D : spaces_inv (mkSpaces k (L1 ++ pt :: L2) H) D -> vacant k (root_of pt) ->
  unmap_kernel_from_user pt k = (k1, Ok tt) -> drop_page_table pt k1 = (k2, Ok tt) -> exists D', spaces_inv (mkSpaces k2 (L1 ++ L2) H) D'.
Proof.
  intros [HT HL Hnd Hall HH Hd Hke Hac] Hvac E1 E2. cbn [mem live held] in *.
  assert (Hin : forall pt', pt' ∈ L1 ++ L2 -> pt' ∈ L1 ++ pt :: L2).
  { intros pt'. rewrite !elem_of_app, elem_of_cons. by intros [?|?]; [left|right; right]. }
  destruct (HL pt) as (Ht & Hus & Hr & Hne); [apply elem_of_app; right; apply elem_of_cons; by left|].
  pose proof (unmap_kernel_spec pt k D HT Hr Hne (fun i Hi Hf => Hke _ i Hr Hne Hi Hf)) as Hw. unfold wp in Hw. rewrite E1 in Hw.
  destruct Hw as (HT1 & P1 & En1 & V1 & _). set (r := root_of pt) in *.
  assert (Hnone : forall v, 0 <= v < 2 ^ 48 -> view k1 r v = None).
  { intros v Hv. destruct (foreign (index 4 v)) eqn:Ef.
    - apply walk_zero. rewrite En1; [|by eexists|apply index_range]. by rewrite decide_True, Ef by done.
    - assert (Ho : own_addr kroot r v) by (split; [done|by right]). rewrite V1 by (done || by right). by apply Hvac. }
  pose proof (drop_table_spec (user_space kroot) kroot pt k1 D r Ht Hus (to_inv _ _ HT1) Hr Hne Hnone) as Hw. unfold wp in Hw.
  rewrite E2 in Hw. destruct Hw as (HI2 & W2 & (B1 & B2 & B3 & B4)). rewrite P1 in *. exists (delete r D).
  assert (He : forall f i, entry k2 f i = entry k1 f i) by (intros; unfold entry, word; by rewrite W2).
  assert (Hv2 : forall r0 v, view k2 r0 v = view k1 r0 v) by (intros; by apply walk_ext).
  assert (Hkeep : forall f n, D !! f = Some n -> f <> r -> delete r D !! f = Some n) by (intros f n Hf Hfr; by rewrite lookup_delete_ne).
  assert (Hroots : forall r0, root (delete r D) r0 -> r0 <> r /\ root D r0) by (intros r0 [? ?]%lookup_delete_Some; by split).
  assert (Hndr : (r ∉ (root_of <$> L1 ++ L2)) /\ NoDup (root_of <$> L1 ++ L2)).
  { rewrite !fmap_app, fmap_cons in *. apply NoDup_app in Hnd as (N1 & N2 & [N3 N4]%NoDup_cons). split.
    - intros [Hx|Hx]%elem_of_app; [|done]. apply (N2 _ Hx), elem_of_cons. by left.
    - apply NoDup_app. split_and!; [done| |done]. intros x Hx Hx2. apply (N2 x Hx), elem_of_cons. by right. }
  destruct Hndr as [Hnr Hnd2]. split; cbn [mem live held].
  - split; [done|apply Hkeep; [apply HT|by auto]|]. intros i Hi Hf. destruct (to_shared _ _ HT i Hi Hf) as (f & Hf'). exists f.
    apply Hkeep; [done|]. intros ->. unfold root in Hr. congruence.
  - intros pt' Hpt'. destruct (HL pt' (Hin _ Hpt')) as (? & ? & ? & ?). split_and!; [done|done| |done]. apply Hkeep; [done|].
    intros E. apply Hnr, list_elem_of_fmap. by exists pt'.
  - done.
  - intros r0 [Hr0 HD0]%Hroots Hk0. pose proof (Hall r0 HD0 Hk0) as Hx. rewrite fmap_app, fmap_cons in Hx. rewrite fmap_app.
    rewrite elem_of_app, elem_of_cons in Hx. apply elem_of_app. destruct Hx as [?|[?|?]]; [by left|done|by right].
  - intros f Hf. destruct (HH f Hf) as [Hu HD]. split; [apply B4; split; [done|]|by rewrite lookup_delete_None; right].
    intros ->. unfold root in Hr. congruence.
  - intros r0 v tr f [Hr0 HD0]%Hroots Hk0 Ho Hv Hf Hin'. apply B3 in Hf. rewrite Hv2, V1 in Hv by (done || apply Ho || by right). by eapply Hd.
  - intros r0 i [Hr0 HD0]%Hroots Hk0 Hi Hf. rewrite He, En1; [|by eexists|done]. rewrite decide_False by done. by apply Hke.
  - intros f [Hu Hne']%B4. destruct (Hac f Hu) as [?|[[n Hf]|?]]; [by left| |by right; right]. right. left. rewrite (Hkeep _ _ Hf Hne'). by eexists.
Qed.

(** ** Reachable states *)

Lemma inv_step s s' D : spaces_inv s D -> spaces_step s s' -> exists D', spaces_inv s' D'.
Proof.
  intros HI Hs. destruct Hs as [k k' L H f E|k k' L H f Hf Hun E|k k1 k2 L H pt E1 E2|k k' L H pt pa va kind o fl Hpt Ha Ho Hu Hfl Hdf Hfr Hun E
    |k k' L H pt pa va kind tr Hpt Ha Hv Hl E|k L1 pt L2 H|k k1 k2 L1 pt L2 H Hv E1 E2|k k' L H pt v tr x Hpt Hv Hvw Hu Hw H8 E|k k' L H pa va kind o fl Ha Ho Hu Hfl Hdf Hfr Hun E].
  - eexists. by eapply inv_hold.
  - eexists. by eapply inv_release.
  - by eapply inv_start.
  - destruct (si_live _ _ HI pt Hpt) as (_ & _ & Hr & Hne). eapply inv_map; try done. rewrite Hu. apply negb_true_iff. by apply Z.eqb_neq.
  - by eapply inv_unmap.
  - eexists. by eapply inv_dead.
  - by eapply inv_end.
  - eexists. by eapply inv_store.
  - eapply (inv_map _ _ _ _ _ kpt); try done; [apply HI|]. rewrite Hu. unfold user_space. by rewrite Z.eqb_refl.
Qed.

Lemma inv_reach s s' D : spaces_inv s D -> spaces_reach s s' -> exists D', spaces_inv s' D'.
Proof. intros HI. induction 1 as [|s1 s2 _ [D1 IH] Hs]; [by eexists|]. by eapply inv_step. Qed.

(** The state in which the first program can start: the kernel's tables are well-formed, have the two tables that all
    programs share, and there is no other address space. *)
Definition booted (k : Kmem) : Prop := exists D, tables_ok k D /\ forall r, root D r -> r = kroot.

Lemma booted_inv k : booted k -> (forall f, used (phys k) f -> boot_used f) -> exists D, spaces_inv (mkSpaces k [] ∅) D.
Proof.
  intros (D & HT & Hr) Hu. exists D. split; cbn [mem live held]; [done|by intros ? ?%elem_of_nil|apply NoDup_nil_2| | | | |by auto].
  - intros r Hr' Hk. destruct (Hk (Hr r Hr')).
  - by intros ? ?%elem_of_empty.
  - intros r v tr f Hr' Hk. destruct (Hk (Hr r Hr')).
  - intros r i Hr' Hk. destruct (Hk (Hr r Hr')).
Qed.
End Machine.

(** ** Isolation *)

Section Isolation.
Context (kpt : PageTableImpl) (k : Kmem) (s : Spaces).
Hypothesis Hboot : booted kpt k.
Hypothesis Hreach : spaces_reach kpt (mkSpaces k [] ∅) s.

Lemma reached_inv : exists D, spaces_inv kpt (used (phys k)) s D.
Proof. destruct (booted_inv kpt (used (phys k)) k Hboot) as (D & HI); [done|]. by eapply inv_reach. Qed.

(** C20: Whatever programs were started, mapped, unmapped, ended or wrote since the machine started, memory that a
    program can reach in user mode is not the kernel's part of its address space and lies in frames that hold data,
    none of them a frame of a page table; so that no write by a program changes the translation of any address in any
    address space.  The kernel maps for programs only frames that it holds for data, and gives such a frame back when
    it is no longer mapped. *)
Theorem user_memory_isolated pt v tr : pt ∈ live s -> 0 <= v < 2 ^ 48 -> view (mem s) (root_of pt) v = Some tr -> tr_user tr = true ->
  foreign (index 4 v) = false /\
  (forall f, frame (phys (mem s)) f -> f <= tr_addr tr < f + 4096 -> f ∈ held s /\ used (phys (mem s)) f) /\
  (forall x k', tr_addr tr mod 8 = 0 -> write_word (OFF + tr_addr tr) x (mem s) = (k', Ok tt) ->
     forall pt' v', pt' ∈ live s \/ pt' = kpt -> 0 <= v' < 2 ^ 48 -> view k' (root_of pt') v' = view (mem s) (root_of pt') v').
Proof.
  intros Hpt Hv Hvw Hus. destruct reached_inv as (D & HI). destruct (si_live _ _ _ _ HI pt Hpt) as (_ & _ & Hr & Hne).
  pose proof (to_inv _ _ _ (si_tables _ _ _ _ HI)) as HT.
  assert (Hfo : foreign (index 4 v) = false).
  { destruct (foreign (index 4 v)) eqn:Ef; [|done]. pose proof (foreign_private _ _ _ _ _ _ _ (pi_shape _ _ _ _ _ HT) Hr Hne Hv Ef Hvw). congruence. }
  assert (Hd : forall f, frame (phys (mem s)) f -> f <= tr_addr tr < f + 4096 -> f ∈ held s).
  { intros f Hf Hin. eapply (si_data _ _ _ _ HI); [exact Hr|done|split; [done|by right]|done|done|done]. }
  split_and!; [done|intros f Hf Hin; split; [by apply Hd|by apply (si_held _ _ _ _ HI), Hd]|].
  intros x k' H8 [= <-] pt' v' Hpt' Hv'. set (k' := set_words _ _).
  apply (pt_inv_words (user_space (root_of kpt)) (root_of kpt) (mem s) k' D HT eq_refl).
  - intros f i [n Hf] Hi. unfold entry, word, k'. cbn [words set_words]. rewrite lookup_insert_ne; [done|]. intros Eq.
    destruct (si_held _ _ _ _ HI f) as [_ HD]; [|congruence]. apply Hd; [|lia].
    apply (used_addr (mem s) f (pi_phys _ _ _ _ _ HT) (pi_limit _ _ _ _ _ HT) (pi_used _ _ _ _ _ HT _ _ Hf)).
  - destruct Hpt' as [Hpt'| ->]; [by apply (si_live _ _ _ _ HI)|apply (si_tables _ _ _ _ HI)].
  - done.
Qed.

(** C33: In every program's address space the kernel's addresses translate exactly as in the kernel's own, also when
    the kernel maps pages after the program was started, and no program may use them. *)
Theorem kernel_mapped_alike pt v : pt ∈ live s -> 0 <= v < 2 ^ 48 -> foreign (index 4 v) = true ->
  view (mem s) (root_of pt) v = view (mem s) (root_of kpt) v /\
  forall tr, view (mem s) (root_of kpt) v = Some tr -> tr_user tr = false.
Proof.
  intros Hpt Hv Hf. destruct reached_inv as (D & HI). destruct (si_live _ _ _ _ HI pt Hpt) as (_ & _ & Hr & Hne).
  assert (E : view (mem s) (root_of pt) v = view (mem s) (root_of kpt) v).
  { eapply (kernel_view kpt); [apply HI|done|done|done|done|]. apply (si_kernel _ _ _ _ HI); [done|done|apply index_range|done]. }
  split; [done|]. rewrite <- E. intros tr Htr. eapply foreign_private; [apply HI|exact Hr|done|exact Hv|done|exact Htr].
Qed.

(** C34: When no program runs, every frame in use was so when the machine started, holds data, or is a page table of the
    kernel: no page table of a program that ended is left. *)
Theorem no_table_leaked : live s = [] -> exists D, tables_ok kpt (mem s) D /\ (forall f r l p, D !! f = Some (r, l, p) -> r = root_of kpt) /\
  forall f, used (phys (mem s)) f -> f ∈ held s \/ used (phys k) f \/ is_Some (D !! f).
Proof.
  intros Hl. destruct reached_inv as (D & HI). exists D. split_and!; [apply HI| |].
  - intros f r l p Hf. destruct (sh_node _ _ _ _ _ (pi_shape _ _ _ _ _ (to_inv _ _ _ (si_tables _ _ _ _ HI))) _ _ _ _ Hf) as (_ & Hr & _).
    destruct (decide (r = root_of kpt)) as [|Hne]; [done|]. pose proof (si_all _ _ _ _ HI r Hr Hne) as Hin. rewrite Hl in Hin. by apply elem_of_nil in Hin.
  - intros f Hf. destruct (si_accounted _ _ _ _ HI f Hf) as [?|[?|?]]; auto.
Qed.
End Isolation.

(** ** A program on the machine with 16 MB *)

Module SpacesSample.
Import PageSample.

(** A frame is taken for data, a program starts, and the frame is mapped in it. *)
Definition page : Z := 12058624.
Definition proot : Z := 13107200.
Definition prog : PageTableImpl := mkPT (OFF + proot) true false.
Definition j4 : Kmem := (phys_allocate_frameless SmallPage k3).1.
Definition j5 : Kmem := (new_user_page_table j4).1.
Definition j6 : Kmem := (map_kernel_to_user prog kpt j5).1.
Definition j7 : Kmem := (map_page prog page 0x400000 SmallPage 7 j6).1.

Lemma run_j4 : phys_allocate_frameless SmallPage k3 = (j4, Ok page).
Proof. apply ran; [vm_compute; reflexivity|reflexivity]. Qed.
Lemma run_j5 : new_user_page_table j4 = (j5, Ok prog).
Proof. apply ran; [vm_compute; reflexivity|reflexivity]. Qed.
Lemma run_j6 : map_kernel_to_user prog kpt j5 = (j6, Ok tt).
Proof. apply ran; [vm_compute; reflexivity|reflexivity]. Qed.
Lemma run_j7 : map_page prog page 0x400000 SmallPage 7 j6 = (j7, Ok tt).
Proof. apply ran; [vm_compute; reflexivity|reflexivity]. Qed.
Lemma view_j7 : view j7 proot 0x400008 = Some (mkTr (page + 8) true true 1).
Proof. vm_compute. reflexivity. Qed.

(** The program ends without having mapped anything. *)
Definition j8 : Kmem := (unmap_kernel_from_user prog j6).1.
Definition j9 : Kmem := (drop_page_table prog j8).1.

Lemma run_j8 : unmap_kernel_from_user prog j6 = (j8, Ok tt).
Proof. apply ran; [vm_compute; reflexivity|reflexivity]. Qed.
Lemma run_j9 : drop_page_table prog j8 = (j9, Ok tt).
Proof. apply ran; [vm_compute; reflexivity|reflexivity]. Qed.
Opaque j4 j5 j6 j7 j8 j9.

Lemma sample_booted : booted kpt k3.
Proof. destruct boot_tables as (D & HI & Hr & Ho & _ & Hs). exists D. by split. Qed.

Definition s6 : Spaces := mkSpaces j6 [prog] ({[page]} ∪ ∅).

Lemma reach_6 : spaces_reach kpt (mkSpaces k3 [] ∅) s6.
Proof.
  eapply reach_step; [eapply reach_step; [apply reach_refl|]|].
  - exact (step_hold kpt _ _ [] ∅ _ run_j4).
  - exact (step_start kpt _ _ _ [] _ _ run_j5 run_j6).
Qed.

Lemma facts_6 : vacant kpt j6 proot /\ free_frames j6 3.
Proof.
  destruct boot_tables as (_ & _ & _ & _ & Hn & _).
  destruct (booted_inv kpt (used (phys k3)) k3 sample_booted) as (D & HI0); [done|]. pose proof (to_inv _ _ _ (si_tables _ _ _ _ HI0)) as HI.
  pose proof (inv_hold _ _ _ _ _ _ _ _ HI0 run_j4) as [[HI4 Hk4 Hs4] _ _ _ _ _ _ _]. cbn [mem] in *.
  assert (Hn4 : free_frames j4 52).
  { pose proof (wp_alloc_any k3 (fun f k' => free_frames k' 52) (fun _ _ => True) (pi_phys _ _ _ _ _ HI)) as Hw. unfold wp in Hw. rewrite run_j4 in Hw.
    apply Hw; [|done]. intros f k' _ _ _ (_ & _ & B3 & B4) _ _. by eapply free_frames_take. }
  destruct (new_table_run _ _ _ _ 51 HI4 Hn4 run_j5) as (r & [= Er] & HDr & HI5 & Hn5 & _ & Hv5 & _). assert (r = proot) as -> by lia.
  pose proof (map_kernel_spec kpt prog j5 (<[proot := (proot, 4%nat, 0)]> D)) as Hw. unfold wp in Hw. rewrite run_j6 in Hw. change (root_of prog) with proot in Hw.
  assert (Hsub : forall f n, D !! f = Some n -> <[proot := (proot, 4%nat, 0)]> D !! f = Some n).
  { intros f n Hf. rewrite lookup_insert_ne; [done|]. intros <-. congruence. }
  assert (Hrp : root (<[proot := (proot, 4%nat, 0)]> D) proot) by apply lookup_insert_eq.
  destruct Hw as (_ & P6 & _ & _ & V6).
  - split; [done|by apply Hsub|]. intros i Hi Hf. destruct (Hs4 i Hi Hf) as (f & ?). exists f. by apply Hsub.
  - done.
  - discriminate.
  - intros i Hi. exact (unmapped_root _ _ _ _ proot i (pi_shape _ _ _ _ _ HI5) Hrp Hi (fun v _ => Hv5 v)).
  - split; [intros v Hv; rewrite V6; [apply Hv5|exact Hrp|apply Hv|right; exact Hv]|].
    destruct (free_frames_less _ 3 _ Hn5) as (l & L1 & L2 & L3); [lia|]. exists l. rewrite P6. exact (conj L1 (conj L2 L3)).
Qed.

Lemma page_6 : page_args kroot proot SmallPage page 0x400000.
Proof. split; [done|by split|]. split; [|done]. split; [done|]. intros _. by right. Qed.

Definition s7 : Spaces := mkSpaces j7 [prog] ({[page]} ∪ ∅).

Lemma reach_7 : spaces_reach kpt (mkSpaces k3 [] ∅) s7.
Proof.
  destruct facts_6 as (Hv & Hn). eapply reach_step; [exact reach_6|].
  apply (step_map kpt j6 j7 [prog] ({[page]} ∪ ∅) prog page 0x400000 SmallPage 7 39);
    [by left|exact page_6|done|done|done| |done| |exact run_j7].
  - intros f Hf H1 H2. destruct (reached_inv kpt k3 s6 sample_booted reach_6) as (D & HI).
    pose proof (frame_aligned _ f (pi_phys _ _ _ _ _ (to_inv _ _ _ (si_tables _ _ _ _ HI))) Hf).
    change (2 ^ shift (level_of SmallPage)) with 4096 in H2. apply elem_of_union. left. apply elem_of_singleton. unfold page in *. dlia.
  - intros v Hv48 Hin. apply Hv. split; [done|]. intros _. right.
    rewrite (inside_index 1 0x400000 v); [reflexivity|lia|reflexivity|exact Hin].
Qed.

Lemma user_memory_isolated_witness : view (mem s7) (root_of prog) 0x400008 = Some (mkTr (page + 8) true true 1) /\
  foreign (index 4 0x400008) = false.
Proof.
  split; [exact view_j7|]. apply (user_memory_isolated kpt k3 s7 sample_booted reach_7 prog 0x400008 (mkTr (page + 8) true true 1));
    [by left|lia|exact view_j7|reflexivity].
Defined.

Lemma kernel_mapped_alike_witness : view (mem s7) (root_of prog) VMEM_KERNEL_DATA_START = view (mem s7) (root_of kpt) VMEM_KERNEL_DATA_START.
Proof.
  apply (kernel_mapped_alike kpt k3 s7 sample_booted reach_7 prog VMEM_KERNEL_DATA_START); [by left|split; vm_compute; congruence|reflexivity].
Defined.

Definition s9 : Spaces := mkSpaces j9 [] ({[page]} ∪ ∅).

Lemma reach_9 : spaces_reach kpt (mkSpaces k3 [] ∅) s9.
Proof.
  eapply reach_step; [exact reach_6|]. exact (step_end kpt j6 j8 j9 [] prog [] _ (proj1 facts_6) run_j8 run_j9).
Qed.

Lemma no_table_leaked_witness : exists D, tables_ok kpt j9 D /\ forall f, used (phys j9) f -> f = page \/ used (phys k3) f \/ is_Some (D !! f).
Proof.
  destruct (no_table_leaked kpt k3 s9 sample_booted reach_9 eq_refl) as (D & HT & _ & H). exists D. split; [exact HT|].
  intros f Hf. destruct (H f Hf) as [E|?]; [left|by right]. cbn [held s9] in E. apply elem_of_union in E as [E|E]; [by apply elem_of_singleton in E|by apply elem_of_empty in E].
Defined.
End SpacesSample.
