(* ===== verification/Slab.v ===== *)
(** * Frame objects and their slabs

    Translation of src/src/bin/kernel/src/mm/slab.rs, of the functions of mm/phys.rs that hand out frames as
    reference-counted objects ([SlabArc<Frame>]), and of [raw_alloc_for_slab] in mm/mod.rs, which adds a slab when
    all are full.  A pointer to an object is the number of its slab and its index there; the arrays of 4096
    elements are maps in which an absent element has its initial value. *)

From stdpp Require Import base numbers list gmap.
From S2P Require Import RustPrelude PhysMem PageTable.

Open Scope Z_scope.

(** ** Objects *)

Record Frame : Type := mkFrame { f_start : Z; f_kind : PageType }.

(** [Frame::inplace_init]. *)
Definition frame_init : Frame := mkFrame 0 Unknown.

(** [SlabArc], when it is not null. *)
Record SlabArc : Type := mkArc { a_slab : nat; a_idx : Z }.

#[export] Instance SlabArc_eq_dec : EqDecision SlabArc.
Proof. solve_decision. Defined.

(** ** A slab of 4096 objects *)

Definition NUM_ELEMENTS : Z := 4096.
Definition NUM_BITMAPS : nat := 64.

Record Slab4096 : Type := mkSlab {
  slab_bitmap : list Z;
  slab_data : gmap Z Frame;
  slab_used : Z;
  slab_refs : gmap Z Z
}.

Definition from_uninit : Slab4096 := mkSlab (replicate NUM_BITMAPS 0) ∅ 0 ∅.

Definition set_slab_bit (i : nat) (x used : Z) (s : Slab4096) : Slab4096 :=
  mkSlab (<[i := x]> (slab_bitmap s)) (slab_data s) used (slab_refs s).
Definition set_slab_used (used : Z) (s : Slab4096) : Slab4096 :=
  mkSlab (slab_bitmap s) (slab_data s) used (slab_refs s).
Definition set_slab_data (idx : Z) (f : Frame) (s : Slab4096) : Slab4096 :=
  mkSlab (slab_bitmap s) (<[idx := f]> (slab_data s)) (slab_used s) (slab_refs s).
Definition set_slab_refs (idx n : Z) (s : Slab4096) : Slab4096 :=
  mkSlab (slab_bitmap s) (slab_data s) (slab_used s) (<[idx := n]> (slab_refs s)).

Definition data_at (s : Slab4096) (idx : Z) : Frame := default frame_init (slab_data s !! idx).
Definition refs_at (s : Slab4096) (idx : Z) : Z := default 0 (slab_refs s !! idx).

(** The first of the bitmaps from [i] on that has a clear bit. *)
Fixpoint free_bitmap (i : nat) (l : list Z) : option (nat * Z) :=
  match l with
  | [] => None
  | prev :: l' => if (trailing_ones 64 prev =? 64)%nat then free_bitmap (S i) l' else Some (i, prev)
  end.

(** [Slab4096::alloc].  When no bit is clear although the counter is below 4096, the code repeats the search until
    it panics. *)
Definition slab_alloc : eff Slab4096 MemError Z :=
  let* s := get_state in
  if slab_used s =? NUM_ELEMENTS then throw OutOfMemory
  else
    match free_bitmap 0 (slab_bitmap s) with
    | None => panic
    | Some (bitmap_idx, prev) =>
      let ones := Z.of_nat (trailing_ones 64 prev) in
      assert (Z.land prev (bit ones) =? 0);;;
      modify (set_slab_bit bitmap_idx (Z.lor prev (bit ones)) (u16 (slab_used s + 1)));;;
      let idx := Z.of_nat bitmap_idx * 64 + ones in
      assert (idx <? NUM_ELEMENTS);;;
      modify (set_slab_data idx frame_init);;;
      ret idx
    end.

(** [Slab4096::free]. *)
Definition slab_free (idx : Z) : eff Slab4096 MemError unit :=
  assert (0 <=? idx);;;
  assert (idx <=? NUM_ELEMENTS);;;
  let* s := get_state in
  let bitmap_idx := Z.to_nat (Z.shiftr idx 6) in
  match slab_bitmap s !! bitmap_idx with
  | None => panic
  | Some prev =>
    let b := bit (Z.land idx 63) in
    modify (set_slab_bit bitmap_idx (Z.lxor prev b) (slab_used s));;;
    assert (negb (Z.land prev b =? 0));;;
    modify (set_slab_used (u16 (slab_used s - 1)))
  end.

(** ** The memory of the kernel with its slabs *)

Record Mm : Type := mkMm {
  kmem : Kmem;
  slabs : list Slab4096;
  next_slabs_addr : Z;
  (** the kernel's page table *)
  mm_kpt : PageTableImpl
}.

Definition set_kmem (k : Kmem) (m : Mm) : Mm := mkMm k (slabs m) (next_slabs_addr m) (mm_kpt m).
Definition set_slabs (l : list Slab4096) (m : Mm) : Mm := mkMm (kmem m) l (next_slabs_addr m) (mm_kpt m).
Definition set_next_slabs_addr (a : Z) (m : Mm) : Mm := mkMm (kmem m) (slabs m) a (mm_kpt m).

Definition on_kmem {A} (c : eff Kmem MemError A) : eff Mm MemError A := fun m =>
  let '(k, r) := c (kmem m) in (set_kmem k m, r).

(** A method of the slab at the [i]-th place of the list. *)
Definition on_slab {A} (i : nat) (c : eff Slab4096 MemError A) : eff Mm MemError A := fun m =>
  match slabs m !! i with
  | Some s => let '(s', r) := c s in (set_slabs (<[i := s']> (slabs m)) m, r)
  | None => (m, Panic)
  end.

(** ** More slabs *)

Definition VMEM_K_SLABS_START : Z := VMEM_KERNEL_DATA_START + 25 * ONE_GB.
Definition VMEM_K_SLABS_END : Z := VMEM_K_SLABS_START + 7 * ONE_GB.

Definition reserve_pages_for_slabs (num_pages : Z) : eff Mm MemError Z :=
  let sz := u64 (Z.shiftl num_pages 12) in
  let* m := get_state in
  let result := next_slabs_addr m in
  modify (set_next_slabs_addr (u64 (result + sz)));;;
  assert (u64 (result + sz) <=? VMEM_K_SLABS_END);;;
  ret result.

(** [n] pages are mapped from [page_vaddr] on. *)
Fixpoint map_slab_pages (n : nat) (page_vaddr : Z) : eff Mm MemError unit :=
  match n with
  | O => ret tt
  | S n' =>
    let* page_phys_addr := on_kmem (unwrap (phys_allocate_frameless SmallPage)) in
    let* m := get_state in
    on_kmem (map_page (mm_kpt m) page_phys_addr page_vaddr SmallPage (Z.lor READABLE WRITABLE));;;
    map_slab_pages n' (u64 (page_vaddr + PAGE_SIZE_SMALL))
  end.

(** [raw_alloc_for_slab] after start-up. *)
Definition raw_alloc_for_slab (size : Z) : eff Mm MemError unit :=
  let num_pages := Z.shiftr (align_up size PAGE_SIZE_SMALL) 12 in
  let* vaddr := reserve_pages_for_slabs num_pages in
  map_slab_pages (Z.to_nat num_pages) vaddr.

(** The sizes of [Slab4096<Frame>] and of the array of reference counts. *)
Definition SIZE_OF_SLAB : Z := 8 * 64 + 16 * 4096 + 8 + 8 + 8 + 4 + 4.
Definition SIZE_OF_REFS : Z := 4 * 4096.

(** [MMSlab::new_pslab] for shared objects; the new slab comes to the end of the list. *)
Definition new_pslab : eff Mm MemError unit :=
  raw_alloc_for_slab SIZE_OF_SLAB;;;
  raw_alloc_for_slab SIZE_OF_REFS;;;
  let* m := get_state in
  modify (set_slabs (slabs m ++ [from_uninit])).

(** [MMSlab::alloc] from the [i]-th slab on, in at most [n] rounds. *)
Fixpoint mmslab_alloc (n i : nat) : eff Mm MemError SlabArc :=
  match n with
  | O => panic
  | S n' =>
    let* r := ok (on_slab i slab_alloc) in
    match r with
    | Some idx => ret (mkArc i idx)
    | None =>
      let* m := get_state in
      (if (S i <? length (slabs m))%nat then ret tt else new_pslab);;;
      mmslab_alloc n' (S i)
    end
  end.

Definition ALLOC_ROUNDS : nat := 100.

Definition alloc_arc : eff Mm MemError SlabArc :=
  let* h := mmslab_alloc ALLOC_ROUNDS 0 in
  let* prev := on_slab (a_slab h) (let* s := get_state in
    let prev := refs_at s (a_idx h) in
    modify (set_slab_refs (a_idx h) (u32 (prev + 1)));;; ret prev) in
  assert (prev =? 0);;;
  ret h.

(** ** Reference-counted objects *)

Definition arc_get (h : SlabArc) : eff Mm MemError Frame :=
  on_slab (a_slab h) (let* s := get_state in ret (data_at s (a_idx h))).

Definition arc_set (h : SlabArc) (f : Frame) : eff Mm MemError unit :=
  on_slab (a_slab h) (modify (set_slab_data (a_idx h) f)).

Definition arc_refs (h : SlabArc) : eff Mm MemError Z :=
  on_slab (a_slab h) (let* s := get_state in ret (refs_at s (a_idx h))).

Definition arc_clone (h : SlabArc) : eff Mm MemError SlabArc :=
  on_slab (a_slab h) (let* s := get_state in
    modify (set_slab_refs (a_idx h) (u32 (refs_at s (a_idx h) + 1))));;;
  ret h.

(** [PhysicalMemory::deallocate_frame], for [drop_slabbable]. *)
Definition deallocate_frame (f : Frame) : eff Mm MemError unit :=
  match f_kind f with
  | SmallPage => on_kmem (phys_deallocate_frameless (f_start f) SmallPage)
  | _ => panic
  end.

(** [Drop for SlabArc]. *)
Definition arc_drop (h : SlabArc) : eff Mm MemError unit :=
  let* prev := on_slab (a_slab h) (let* s := get_state in
    let prev := refs_at s (a_idx h) in
    modify (set_slab_refs (a_idx h) (u32 (prev - 1)));;; ret prev) in
  if prev =? 1 then
    let* f := arc_get h in
    deallocate_frame f;;;
    on_slab (a_slab h) (slab_free (a_idx h))
  else ret tt.

(** [PhysicalMemory::allocate_frame]. *)
Definition phys_allocate_frame (kind : PageType) : eff Mm MemError SlabArc :=
  let* frame_start := on_kmem (phys_allocate_frameless kind) in
  let* frame_result := ok alloc_arc in
  match frame_result with
  | Some frame => arc_set frame (mkFrame frame_start kind);;; ret frame
  | None => on_kmem (phys_deallocate_frameless frame_start kind);;; throw OutOfMemory
  end.

(** [phys::allocate_frame]: there is no error, running out of memory is a panic. *)
Definition allocate_frame (kind : PageType) : eff Mm MemError SlabArc := unwrap (phys_allocate_frame kind).
