(* ===== verification/SlabProps.v ===== *)
(** * Frame objects: what the slabs promise

    Objects are handed out once, counted right and given back, whatever slab they are in; an allocation needs a new
    slab only when every slab is full. *)

From stdpp Require Import base numbers list gmap.
From S2P Require Import RustPrelude PhysMem PhysFrames PhysInit PhysProps PageTable PageWalk PageMem PageTableProps Slab.

Open Scope Z_scope.

(** ** One slab *)

Definition bit_at (s : Slab4096) (idx : Z) : bool :=
  Z.testbit (default 0 (slab_bitmap s !! Z.to_nat (idx / 64))) (idx mod 64).

Definition ones_of (l : list Z) : Z := foldr (fun x acc => count_ones 64 x + acc) 0 l.

Record slab_wf (s : Slab4096) : Prop := {
  sl_len : length (slab_bitmap s) = NUM_BITMAPS;
  sl_used : slab_used s = ones_of (slab_bitmap s)
}.

Lemma ones_of_range l : 0 <= ones_of l <= 64 * Z.of_nat (length l).
Proof. induction l as [|x l IH]; cbn [ones_of foldr length]; [lia|]. pose proof (count_ones_range 64 x). unfold ones_of in IH. lia. Qed.

Lemma ones_of_cons x l : ones_of (x :: l) = count_ones 64 x + ones_of l.
Proof. done. Qed.

Lemma ones_of_insert l i x y : l !! i = Some x -> ones_of (<[i := y]> l) = ones_of l - count_ones 64 x + count_ones 64 y.
Proof.
  revert i. induction l as [|z l IH]; intros [|i] Hi; [done..| |].
  - injection Hi as ->. change (<[0%nat := y]> (x :: l)) with (y :: l). rewrite !ones_of_cons. lia.
  - change (<[S i := y]> (z :: l)) with (z :: <[i := y]> l). rewrite !ones_of_cons, (IH i) by done. lia.
Qed.

Lemma free_bitmap_some l i j prev : free_bitmap i l = Some (j, prev) ->
  exists d, j = (i + d)%nat /\ l !! d = Some prev /\ (trailing_ones 64 prev < 64)%nat.
Proof.
  revert i. induction l as [|x l IH]; intros i Hf; [done|]. cbn [free_bitmap] in Hf. destruct (Nat.eqb_spec (trailing_ones 64 x) 64) as [E|E].
  - destruct (IH _ Hf) as (d & -> & Hd & Ht). exists (S d). split; [lia|done].
  - injection Hf as <- <-. exists 0%nat. split_and!; [lia|done|]. pose proof (trailing_ones_le 64 x). lia.
Qed.

Lemma free_bitmap_none l i : free_bitmap i l = None -> ones_of l = 64 * Z.of_nat (length l).
Proof.
  revert i. induction l as [|x l IH]; intros i Hf; [done|]. cbn [free_bitmap] in Hf. destruct (Nat.eqb_spec (trailing_ones 64 x) 64) as [E|E]; [|done].
  rewrite ones_of_cons, (IH _ Hf), count_ones_all; [cbn [length]; lia|].
  intros j Hj. rewrite <- (Z2Nat.id j) by lia. apply (trailing_ones_below 64). rewrite E. lia.
Qed.

(** One bit of one bitmap changes. *)
Lemma bit_at_insert s s' idx prev x : length (slab_bitmap s) = NUM_BITMAPS -> 0 <= idx < NUM_ELEMENTS -> slab_bitmap s !! Z.to_nat (idx / 64) = Some prev ->
  slab_bitmap s' = <[Z.to_nat (idx / 64) := x]> (slab_bitmap s) ->
  (forall j, 0 <= j < 64 -> j <> idx mod 64 -> Z.testbit x j = Z.testbit prev j) ->
  forall j, 0 <= j < NUM_ELEMENTS -> bit_at s' j = if decide (j = idx) then Z.testbit x (idx mod 64) else bit_at s j.
Proof.
  unfold NUM_ELEMENTS. intros Hlen Hidx Hp Hs Hx j Hj. unfold bit_at. rewrite Hs. destruct (decide (j = idx)) as [->|Hne].
  - rewrite list_lookup_insert_eq; [done|]. by eapply lookup_lt_Some.
  - destruct (decide (j / 64 = idx / 64)) as [E|E].
    + rewrite E, list_lookup_insert_eq by (by eapply lookup_lt_Some). rewrite Hp. cbn [default]. apply Hx; dlia.
    + rewrite list_lookup_insert_ne; [done|]. dlia.
Qed.

(** The effect of a method on the objects of one slab: the object [idx] becomes [b]. *)
Record slab_becomes (s s' : Slab4096) (idx : Z) (b : bool) : Prop := {
  sb_bit j : 0 <= j < NUM_ELEMENTS -> bit_at s' j = if decide (j = idx) then b else bit_at s j;
  sb_refs : slab_refs s' = slab_refs s
}.

Lemma slab_alloc_spec s : slab_wf s -> wp slab_alloc s
  (fun idx s' => 0 <= idx < NUM_ELEMENTS /\ bit_at s idx = false /\ slab_wf s' /\ slab_becomes s s' idx true /\
     slab_used s' = slab_used s + 1 /\ slab_data s' = <[idx := frame_init]> (slab_data s))
  (fun e s' => s' = s /\ slab_used s = NUM_ELEMENTS).
Proof.
  intros [Hlen Hu]. unfold slab_alloc. wp_steps. destruct (Z.eqb_spec (slab_used s) NUM_ELEMENTS) as [E|E]; [by wp_step|].
  pose proof (ones_of_range (slab_bitmap s)) as Hr. rewrite Hlen in Hr. unfold NUM_ELEMENTS, NUM_BITMAPS in *.
  destruct (free_bitmap 0 (slab_bitmap s)) as [[i prev]|] eqn:Ef.
  2:{ apply free_bitmap_none in Ef. rewrite Hlen in Ef. lia. }
  apply free_bitmap_some in Ef as (d & -> & Hd & Ht). cbn [Nat.add]. set (ones := Z.of_nat (trailing_ones 64 prev)).
  pose proof (trailing_ones_at 64 prev Ht) as Hz. fold ones in Hz. assert (Hon : 0 <= ones < 64) by (unfold ones; lia).
  assert (Hdl : (d < 64)%nat) by (rewrite <- Hlen; by eapply lookup_lt_Some).
  wp_step. apply wp_assert; [by rewrite land_bit_test, Hz by lia|]. wp_steps. set (idx := Z.of_nat d * 64 + ones).
  assert (Hi1 : idx / 64 = Z.of_nat d) by (unfold idx; dlia). assert (Hi2 : idx mod 64 = ones) by (unfold idx; dlia).
  apply wp_assert; [apply Z.ltb_lt; lia|]. wp_steps.
  assert (Hbit : forall j, 0 <= j < 4096 -> bit_at (set_slab_data idx frame_init (set_slab_bit d (Z.lor prev (bit ones)) (u16 (slab_used s + 1)) s)) j =
    if decide (j = idx) then true else bit_at s j).
  { intros j Hj. rewrite (bit_at_insert s _ idx prev (Z.lor prev (bit ones))); try done.
    - rewrite Hi2, testbit_set by lia. by rewrite bool_decide_eq_true_2, orb_true_r by done.
    - unfold NUM_ELEMENTS. unfold idx. lia.
    - by rewrite Hi1, Nat2Z.id.
    - by rewrite Hi1, Nat2Z.id.
    - intros j' Hj' Hne. rewrite testbit_set by lia. by rewrite bool_decide_eq_false_2, orb_false_r by lia. }
  assert (Hcount : ones_of (<[d := Z.lor prev (bit ones)]> (slab_bitmap s)) = slab_used s + 1).
  { rewrite (ones_of_insert _ _ prev), Hu by done. unfold ones. rewrite count_ones_set by done. lia. }
  assert (Hused : u16 (slab_used s + 1) = slab_used s + 1) by (apply u16_id; unfold is_u16; lia).
  split_and!; [unfold idx; lia|unfold idx; lia| | | | |done].
  - unfold bit_at. by rewrite Hi1, Nat2Z.id, Hd, Hi2.
  - split; cbn [slab_bitmap set_slab_bit set_slab_data slab_used]; [by rewrite length_insert|congruence].
  - by split.
  - done.
Qed.

Lemma slab_free_spec s idx : slab_wf s -> 0 <= idx < NUM_ELEMENTS -> bit_at s idx = true -> wp (slab_free idx) s
  (fun _ s' => slab_wf s' /\ slab_becomes s s' idx false /\ slab_used s' = slab_used s - 1 /\ slab_data s' = slab_data s) (fun _ _ => False).
Proof.
  unfold NUM_ELEMENTS. intros [Hlen Hu] Hidx Hb. unfold slab_free. wp_step. apply wp_assert; [apply Z.leb_le; lia|]. wp_step.
  apply wp_assert; [apply Z.leb_le; unfold NUM_ELEMENTS; lia|]. wp_steps.
  assert (Esh : Z.shiftr idx 6 = idx / 64) by (by rewrite Z.shiftr_div_pow2 by lia).
  assert (Ela : Z.land idx 63 = idx mod 64) by (change 63 with (Z.ones 6); by rewrite Z.land_ones by lia).
  rewrite Esh, Ela. destruct (lookup_lt_is_Some_2 (slab_bitmap s) (Z.to_nat (idx / 64))) as [prev Hp]; [rewrite Hlen; unfold NUM_BITMAPS; dlia|].
  rewrite Hp. assert (Hpb : Z.testbit prev (idx mod 64) = true) by (unfold bit_at in Hb; by rewrite Hp in Hb).
  assert (Hm : 0 <= idx mod 64 < 64) by dlia. wp_steps. apply wp_assert; [by rewrite land_bit_test, Hpb by lia|]. wp_steps.
  assert (Hc : ones_of (<[Z.to_nat (idx / 64) := Z.lxor prev (bit (idx mod 64))]> (slab_bitmap s)) = slab_used s - 1).
  { rewrite (ones_of_insert _ _ prev), Hu by done. rewrite <- (Z2Nat.id (idx mod 64)) at 1 by lia.
    rewrite count_ones_clear by (rewrite ?Z2Nat.id by lia; done || lia). lia. }
  assert (Hused : u16 (slab_used s - 1) = slab_used s - 1).
  { apply u16_id. pose proof (ones_of_range (<[Z.to_nat (idx / 64) := Z.lxor prev (bit (idx mod 64))]> (slab_bitmap s))) as Hr.
    rewrite length_insert, Hlen in Hr. unfold NUM_BITMAPS in Hr. unfold is_u16. lia. }
  split_and!; [|split| |done].
  - split; cbn [slab_bitmap set_slab_used set_slab_bit slab_used]; [by rewrite length_insert|congruence].
  - intros j Hj. rewrite (bit_at_insert s _ idx prev (Z.lxor prev (bit (idx mod 64)))); try done.
    + rewrite testbit_flip, Hpb by lia. by rewrite bool_decide_eq_true_2 by done.
    + intros j' Hj' Hne. rewrite testbit_flip by lia. by rewrite bool_decide_eq_false_2, xorb_false_r by lia.
  - done.
  - done.
Qed.

(** ** All slabs *)

(** The object that [h] refers to, with its reference count. *)
Definition obj (m : Mm) (h : SlabArc) : option (Frame * Z) :=
  s ← slabs m !! a_slab h;
  if (0 <=? a_idx h) && (a_idx h <? NUM_ELEMENTS) && bit_at s (a_idx h) then Some (data_at s (a_idx h), refs_at s (a_idx h)) else None.

(** Objects that are not in use have no references. *)
Definition slab_refs_ok (s : Slab4096) : Prop := forall j, 0 <= j < NUM_ELEMENTS -> bit_at s j = false -> refs_at s j = 0.

Record slabs_wf (m : Mm) : Prop := {
  sm_each i s : slabs m !! i = Some s -> slab_wf s /\ slab_refs_ok s;
  sm_count : (0 < length (slabs m) <= ALLOC_ROUNDS)%nat
}.

(** How many objects can be allocated without a new slab. *)
Definition room (l : list Slab4096) : Z := foldr (fun s acc => NUM_ELEMENTS - slab_used s + acc) 0 l.
Definition capacity (m : Mm) : Z := room (slabs m).

Lemma room_cons s l : room (s :: l) = NUM_ELEMENTS - slab_used s + room l.
Proof. done. Qed.

Lemma room_insert l i s s' : l !! i = Some s -> room (<[i := s']> l) = room l + slab_used s - slab_used s'.
Proof.
  revert i. induction l as [|z l IH]; intros [|i] Hi; [done..| |].
  - injection Hi as ->. change (<[0%nat := s']> (s :: l)) with (s' :: l). rewrite !room_cons. lia.
  - change (<[S i := s']> (z :: l)) with (z :: <[i := s']> l). rewrite !room_cons, (IH i) by done. lia.
Qed.

Lemma room_full l : (forall i s, l !! i = Some s -> slab_used s = NUM_ELEMENTS) -> room l = 0.
Proof.
  induction l as [|s l IH]; intros H; [done|]. rewrite room_cons, IH, (H 0%nat s) by (done || intros i; apply (H (S i))). lia.
Qed.

Lemma wp_on_slab {A} i s (c : eff Slab4096 MemError A) m (Q : A -> Mm -> Prop) X : slabs m !! i = Some s ->
  wp c s (fun a s' => Q a (set_slabs (<[i := s']> (slabs m)) m)) (fun e s' => X e (set_slabs (<[i := s']> (slabs m)) m)) -> wp (on_slab i c) m Q X.
Proof. intros Hi Hw. unfold wp, on_slab in *. rewrite Hi. by destruct (c s) as [s' [a|e|]]. Qed.

Lemma wp_on_kmem {A} (c : eff Kmem MemError A) m (Q : A -> Mm -> Prop) X :
  wp c (kmem m) (fun a k => Q a (set_kmem k m)) (fun e k => X e (set_kmem k m)) -> wp (on_kmem c) m Q X.
Proof. intros Hw. unfold wp, on_kmem in *. by destruct (c (kmem m)) as [k [a|e|]]. Qed.

Lemma wp_try {S E A} (c : eff S E A) s (Q : option A -> S -> Prop) X :
  wp c s (fun a s' => Q (Some a) s') (fun _ s' => Q None s') -> wp (ok c) s Q X.
Proof. unfold wp, ok. by destruct (c s) as [s' [a|e|]]. Qed.

Lemma set_slabs_same m : set_slabs (slabs m) m = m.
Proof. by destruct m. Qed.

(** The slab [i] becomes [s']. *)
Lemma obj_insert m i s s' h : slabs m !! i = Some s ->
  obj (set_slabs (<[i := s']> (slabs m)) m) h =
    if decide (a_slab h = i) then (if (0 <=? a_idx h) && (a_idx h <? NUM_ELEMENTS) && bit_at s' (a_idx h) then Some (data_at s' (a_idx h), refs_at s' (a_idx h)) else None)
    else obj m h.
Proof.
  intros Hi. unfold obj. cbn [slabs set_slabs]. destruct (decide (a_slab h = i)) as [->|Hne].
  - by rewrite list_lookup_insert_eq by (by eapply lookup_lt_Some).
  - by rewrite list_lookup_insert_ne by done.
Qed.

(** What changes when the object [h] becomes [o]. *)
Record objs_become (m m' : Mm) (h : SlabArc) (o : option (Frame * Z)) (d : Z) : Prop := {
  ob_wf : slabs_wf m';
  ob_obj h' : obj m' h' = if decide (h' = h) then o else obj m h';
  ob_capacity : capacity m' = capacity m + d;
  ob_kmem : kmem m' = kmem m;
  ob_next : next_slabs_addr m' = next_slabs_addr m;
  ob_kpt : mm_kpt m' = mm_kpt m
}.

Lemma in_slab idx : 0 <= idx < NUM_ELEMENTS <-> (0 <=? idx) && (idx <? NUM_ELEMENTS) = true.
Proof. rewrite andb_true_iff, Z.leb_le, Z.ltb_lt. done. Qed.

(** One slab changes at one object. *)
Lemma objs_become_slab m i s s' idx b o : slabs_wf m -> slabs m !! i = Some s -> 0 <= idx < NUM_ELEMENTS -> slab_wf s' ->
  (forall j, 0 <= j < NUM_ELEMENTS -> bit_at s' j = if decide (j = idx) then b else bit_at s j) ->
  (forall j, j <> idx -> refs_at s' j = refs_at s j /\ data_at s' j = data_at s j) ->
  o = (if b then Some (data_at s' idx, refs_at s' idx) else None) -> (b = false -> refs_at s' idx = 0) ->
  objs_become m (set_slabs (<[i := s']> (slabs m)) m) (mkArc i idx) o (slab_used s - slab_used s').
Proof.
  intros [Hwf Hc] Hi Hidx Hs' Hbit Hrd -> Hz. destruct (Hwf i s Hi) as [Hs Hro]. split; try done.
  - split; [|by cbn [slabs set_slabs]; rewrite length_insert]. cbn [slabs set_slabs]. intros j t. destruct (decide (j = i)) as [->|Hne].
    + rewrite list_lookup_insert_eq by (by eapply lookup_lt_Some). intros [= <-]. split; [done|]. intros j Hj Hb. rewrite Hbit in Hb by done.
      destruct (decide (j = idx)) as [->|Hne]; [by apply Hz|]. rewrite (proj1 (Hrd j Hne)). by apply Hro.
    + rewrite list_lookup_insert_ne by done. apply Hwf.
  - intros [i' j]. rewrite (obj_insert m i s) by done. cbn [a_slab a_idx]. destruct (decide (i' = i)) as [->|Hne].
    2:{ rewrite decide_False by congruence. done. }
    unfold obj. cbn [a_slab a_idx]. rewrite Hi. cbn [mbind option_bind].
    destruct ((0 <=? j) && (j <? NUM_ELEMENTS)) eqn:Ej.
    2:{ rewrite decide_False; [done|]. intros [= ->]. apply in_slab in Hidx. congruence. }
    cbn [andb]. apply in_slab in Ej. rewrite Hbit by done. destruct (decide (j = idx)) as [->|Hne].
    + rewrite decide_True by done. done.
    + rewrite decide_False by congruence. destruct (Hrd j Hne) as [-> ->]. done.
  - unfold capacity. cbn [slabs set_slabs]. rewrite (room_insert _ _ s) by done. lia.
Qed.

Lemma refs_at_set s j n j' : refs_at (set_slab_refs j n s) j' = if decide (j' = j) then n else refs_at s j'.
Proof.
  unfold refs_at. cbn [slab_refs set_slab_refs]. destruct (decide (j' = j)) as [->|]; [by rewrite lookup_insert_eq|by rewrite lookup_insert_ne].
Qed.

Lemma data_at_set s j f j' : data_at (set_slab_data j f s) j' = if decide (j' = j) then f else data_at s j'.
Proof.
  unfold data_at. cbn [slab_data set_slab_data]. destruct (decide (j' = j)) as [->|]; [by rewrite lookup_insert_eq|by rewrite lookup_insert_ne].
Qed.

Lemma objs_become_trans m1 m2 m3 h o1 o2 d1 d2 : objs_become m1 m2 h o1 d1 -> objs_become m2 m3 h o2 d2 -> objs_become m1 m3 h o2 (d1 + d2).
Proof.
  intros [A1 B1 C1 D1 E1 F1] [A2 B2 C2 D2 E2 F2]. split; [done| |lia|congruence|congruence|congruence].
  intros h'. rewrite B2. destruct (decide (h' = h)) as [|Hne]; [done|]. rewrite B1. by rewrite decide_False.
Qed.

(** The object of a handle, in its slab. *)
Lemma obj_slab m h f r : obj m h = Some (f, r) -> exists s, slabs m !! a_slab h = Some s /\ 0 <= a_idx h < NUM_ELEMENTS /\ bit_at s (a_idx h) = true /\
  data_at s (a_idx h) = f /\ refs_at s (a_idx h) = r.
Proof.
  unfold obj. destruct (slabs m !! a_slab h) as [s|]; [|done]. cbn [mbind option_bind]. destruct (_ && _) eqn:E; [|done]. intros [= <- <-].
  exists s. apply andb_true_iff in E as [E ?]. apply in_slab in E. done.
Qed.

(** ** Operations on objects *)

(** Until the count of references is set, the object in use has none. *)
Lemma mmslab_alloc_spec m : slabs_wf m -> 0 < capacity m -> forall n i, (length (slabs m) <= n + i)%nat ->
  (forall j s, (j < i)%nat -> slabs m !! j = Some s -> slab_used s = NUM_ELEMENTS) ->
  wp (mmslab_alloc n i) m (fun h m' => obj m h = None /\ objs_become m m' h (Some (frame_init, 0)) (-1)) (fun _ _ => False).
Proof.
  intros Hwf Hcap. induction n as [|n IH]; intros i Hlen Hfull.
  { exfalso. assert (room (slabs m) = 0); [|unfold capacity in Hcap; lia]. apply room_full. intros j s Hj. eapply Hfull; [|exact Hj].
    apply lookup_lt_Some in Hj. lia. }
  assert (Hi : (i < length (slabs m))%nat).
  { destruct (decide (i < length (slabs m))%nat) as [|Hge]; [done|]. exfalso. assert (room (slabs m) = 0); [|unfold capacity in Hcap; lia].
    apply room_full. intros j s Hj. eapply Hfull; [|exact Hj]. apply lookup_lt_Some in Hj. lia. }
  destruct (lookup_lt_is_Some_2 (slabs m) i Hi) as [s Hs]. destruct (sm_each _ Hwf i s Hs) as [Hsw Hsr].
  cbn [mmslab_alloc]. wp_step. apply wp_try. eapply wp_on_slab; [exact Hs|]. eapply wp_mono; [apply (slab_alloc_spec s Hsw)|..].
  - intros idx s' (Hidx & Hfree & Hs' & [Hbit Hrefs] & Hu & Hdata). wp_steps.
    assert (Hrefs' : forall j, refs_at s' j = refs_at s j) by (intros j; unfold refs_at; by rewrite Hrefs).
    assert (Hdata' : data_at s' idx = frame_init) by (unfold data_at; by rewrite Hdata, lookup_insert_eq). split.
    + unfold obj. cbn [a_slab a_idx]. rewrite Hs. cbn [mbind option_bind]. by rewrite Hfree, andb_false_r.
    + replace (-1) with (slab_used s - slab_used s') by lia. eapply (objs_become_slab m i s s' idx true); try done.
      * intros j Hne. split; [done|]. unfold data_at. by rewrite Hdata, lookup_insert_ne.
      * rewrite Hdata', Hrefs', Hsr; done.
  - intros e s' [-> Hu]. rewrite list_insert_id, set_slabs_same by done.
    assert (Hnext : (S i < length (slabs m))%nat).
    { destruct (decide (S i < length (slabs m))%nat) as [|Hge]; [done|]. exfalso. assert (room (slabs m) = 0); [|unfold capacity in Hcap; lia].
      apply room_full. intros j t Hj. pose proof (lookup_lt_Some _ _ _ Hj). destruct (decide (j = i)) as [->|]; [congruence|]. eapply Hfull; [|exact Hj]. lia. }
    wp_steps. rewrite (proj2 (Nat.ltb_lt _ _) Hnext). wp_steps. apply IH; [lia|]. intros j t Hj Ht.
    destruct (decide (j = i)) as [->|]; [congruence|]. eapply Hfull; [|exact Ht]. lia.
Qed.

(** The count of references is changed. *)
Lemma refs_become m h f r n : slabs_wf m -> obj m h = Some (f, r) -> exists s, slabs m !! a_slab h = Some s /\ refs_at s (a_idx h) = r /\
  objs_become m (set_slabs (<[a_slab h := set_slab_refs (a_idx h) n s]> (slabs m)) m) h (Some (f, n)) 0.
Proof.
  intros Hwf Ho. destruct (obj_slab _ _ _ _ Ho) as (s & Hs & Hidx & Hb & Hd & Hr). exists s. split_and!; [done|done|].
  destruct (sm_each _ Hwf _ s Hs) as [Hsw _]. destruct h as [i idx]. cbn [a_slab a_idx] in *.
  replace 0 with (slab_used s - slab_used (set_slab_refs idx n s)) by (cbn [slab_used set_slab_refs]; lia).
  eapply (objs_become_slab m i s _ idx true); try done.
  - destruct Hsw. by split.
  - intros j Hj. by case_decide as E; [subst; rewrite <- Hb|].
  - intros j Hne. rewrite refs_at_set, decide_False by done. done.
  - rewrite refs_at_set, decide_True by done. by rewrite <- Hd.
Qed.

Lemma alloc_arc_spec m : slabs_wf m -> 0 < capacity m ->
  wp alloc_arc m (fun h m' => obj m h = None /\ objs_become m m' h (Some (frame_init, 1)) (-1)) (fun _ _ => False).
Proof.
  intros Hwf Hcap. unfold alloc_arc. wp_step. eapply wp_mono; [apply (mmslab_alloc_spec m Hwf Hcap ALLOC_ROUNDS 0)| |done].
  - pose proof (sm_count _ Hwf). lia.
  - intros j s Hj. lia.
  - intros h m1 [Hn H1]. assert (Ho : obj m1 h = Some (frame_init, 0)) by (by rewrite (ob_obj _ _ _ _ _ H1), decide_True).
    destruct (refs_become m1 h _ _ 1 (ob_wf _ _ _ _ _ H1) Ho) as (s & Hs & Hr & H2).
    wp_steps. eapply wp_on_slab; [exact Hs|]. wp_steps. rewrite Hr. apply wp_assert; [done|]. wp_steps.
    split; [done|]. replace (-1) with (-1 + 0) by lia. by eapply objs_become_trans.
Qed.

Lemma arc_get_spec m h f r (Q : Frame -> Mm -> Prop) X : obj m h = Some (f, r) -> Q f m -> wp (arc_get h) m Q X.
Proof.
  intros Ho HQ. destruct (obj_slab _ _ _ _ Ho) as (s & Hs & _ & _ & Hd & _). unfold arc_get. eapply wp_on_slab; [exact Hs|]. wp_steps.
  by rewrite list_insert_id, set_slabs_same, Hd by done.
Qed.

Lemma arc_refs_spec m h f r (Q : Z -> Mm -> Prop) X : obj m h = Some (f, r) -> Q r m -> wp (arc_refs h) m Q X.
Proof.
  intros Ho HQ. destruct (obj_slab _ _ _ _ Ho) as (s & Hs & _ & _ & _ & Hr). unfold arc_refs. eapply wp_on_slab; [exact Hs|]. wp_steps.
  by rewrite list_insert_id, set_slabs_same, Hr by done.
Qed.

Lemma arc_set_spec m h f r g : slabs_wf m -> obj m h = Some (f, r) ->
  wp (arc_set h g) m (fun _ m' => objs_become m m' h (Some (g, r)) 0) (fun _ _ => False).
Proof.
  intros Hwf Ho. destruct (obj_slab _ _ _ _ Ho) as (s & Hs & Hidx & Hb & Hd & Hr). unfold arc_set. eapply wp_on_slab; [exact Hs|]. wp_steps.
  destruct (sm_each _ Hwf _ s Hs) as [Hsw Hsr]. destruct h as [i idx]. cbn [a_slab a_idx] in *.
  replace 0 with (slab_used s - slab_used (set_slab_data idx g s)) by (cbn [slab_used set_slab_data]; lia).
  eapply (objs_become_slab m i s _ idx true); try done.
  - destruct Hsw. by split.
  - intros j Hj. by case_decide as E; [subst; rewrite <- Hb|].
  - intros j Hne. rewrite data_at_set, decide_False by done. done.
  - rewrite data_at_set, decide_True by done. by rewrite <- Hr.
Qed.

Lemma arc_clone_spec m h f r : slabs_wf m -> obj m h = Some (f, r) -> 0 <= r < 2 ^ 32 - 1 ->
  wp (arc_clone h) m (fun h' m' => h' = h /\ objs_become m m' h (Some (f, r + 1)) 0) (fun _ _ => False).
Proof.
  intros Hwf Ho Hr. destruct (refs_become m h _ _ (r + 1) Hwf Ho) as (s & Hs & Hrs & H).
  unfold arc_clone. wp_step. eapply wp_on_slab; [exact Hs|]. wp_steps. rewrite Hrs, u32_id by (unfold is_u32; lia). done.
Qed.

(** ** Frames as objects *)

(** How often [h] is in a list of references. *)
Definition occ (h : SlabArc) (l : list SlabArc) : Z := Z.of_nat (length (filter (fun x => x = h) l)).

Lemma occ_cons h x l : occ h (x :: l) = (if decide (x = h) then 1 else 0) + occ h l.
Proof. unfold occ. rewrite filter_cons. destruct (decide (x = h)); cbn [length]; lia. Qed.

Lemma occ_perm h l l' : l ≡ₚ l' -> occ h l = occ h l'.
Proof. intros Hp. unfold occ. by rewrite Hp. Qed.

Lemma occ_zero h l : h ∉ l -> occ h l = 0.
Proof.
  induction l as [|x l IH]; intros Hn; [done|]. rewrite occ_cons, not_elem_of_cons in *. destruct Hn. rewrite decide_False by congruence. rewrite IH; [lia|done].
Qed.

Lemma occ_pos h l : h ∈ l -> 0 < occ h l.
Proof. induction 1 as [h l|h x l Hin IH]; rewrite occ_cons; [rewrite decide_True by done|destruct (decide (x = h))]; unfold occ in *; lia. Qed.

Section Frames.
Context (U : Z -> bool) (kroot : Z) (other : Z -> Prop).

(** The memory with the references to frames that are held somewhere, [H]: the counts are right, an object stands
    for a frame in use that is not a page table, and every frame in use is a page table, has an object or is one of
    the [other] frames that the rest of the kernel took. *)
Record mm_inv (m : Mm) (D : gmap Z node) (H : list SlabArc) : Prop := {
  mi_tables : pt_inv U kroot (kmem m) D None;
  mi_slabs : slabs_wf m;
  mi_refs h : match obj m h with Some (_, n) => n = occ h H /\ 0 < n < 2 ^ 32 | None => h ∉ H end;
  mi_frame h f n : obj m h = Some (f, n) -> f_kind f = SmallPage /\ used (phys (kmem m)) (f_start f) /\ D !! f_start f = None;
  mi_inj h1 h2 f1 n1 f2 n2 : obj m h1 = Some (f1, n1) -> obj m h2 = Some (f2, n2) -> f_start f1 = f_start f2 -> h1 = h2;
  mi_used x : used (phys (kmem m)) x -> is_Some (D !! x) \/ (exists h f n, obj m h = Some (f, n) /\ f_start f = x) \/ other x;
  mi_other x : other x -> used (phys (kmem m)) x /\ D !! x = None /\ forall h f n, obj m h = Some (f, n) -> f_start f <> x
}.

Lemma mi_obj m D H h : mm_inv m D H -> h ∈ H -> exists f n, obj m h = Some (mkFrame f SmallPage, n) /\ used (phys (kmem m)) f /\ D !! f = None.
Proof.
  intros HM Hin. pose proof (mi_refs _ _ _ HM h) as Hr. destruct (obj m h) as [[[f kd] n]|] eqn:E; [|done].
  destruct (mi_frame _ _ _ HM _ _ _ E) as (Hk & Hu & HD). cbn [f_kind f_start] in *. subst kd. by exists f, n.
Qed.

Lemma mm_inv_perm m D H H' : H ≡ₚ H' -> mm_inv m D H -> mm_inv m D H'.
Proof.
  intros Hp [A B C E F G J]. split; [done|done| |done..]. intros h. specialize (C h). destruct (obj m h) as [[f n]|].
  - by rewrite <- (occ_perm h _ _ Hp).
  - by rewrite <- Hp.
Qed.

(** What the allocation of a frame object gives. *)
Record new_frame (m m' : Mm) (D : gmap Z node) (H : list SlabArc) (h : SlabArc) (f : Z) : Prop := {
  nf_new : (h ∉ H) /\ obj m h = None;
  nf_obj : obj m' h = Some (mkFrame f SmallPage, 1);
  nf_others h' : h' <> h -> obj m' h' = obj m h';
  nf_inv : mm_inv m' D (h :: H);
  nf_frame : frame (phys (kmem m)) f /\ f <> 0 /\ ~ used (phys (kmem m)) f;
  nf_phys : becomes (phys (kmem m)) (phys (kmem m')) (fun x => used (phys (kmem m)) x \/ x = f);
  nf_words : words (kmem m') = words (kmem m);
  nf_flushes : flushes (kmem m') = flushes (kmem m);
  nf_capacity : capacity m' = capacity m - 1;
  nf_kpt : mm_kpt m' = mm_kpt m
}.

Lemma allocate_frame_spec m D H n : mm_inv m D H -> free_frames (kmem m) (S n) -> 0 < capacity m ->
  wp (allocate_frame SmallPage) m (fun h m' => exists f, new_frame m m' D H h f /\ free_frames (kmem m') n) (fun _ _ => False).
Proof.
  intros HM Hn Hcap. unfold allocate_frame. apply wp_unwrap_ok. unfold phys_allocate_frame. wp_step. apply wp_on_kmem.
  apply wp_alloc_any; [apply HM| |].
  2:{ intros k' _ _ _ Hall. destruct (free_frames_one _ _ Hn) as (x & H1 & H2 & H3). by apply H3, Hall. }
  intros f k' Hf Hf0 Hfu Hb W F. wp_step. apply wp_try. set (m1 := set_kmem k' m).
  assert (Hcap1 : 0 < capacity m1) by exact Hcap. assert (Hwf1 : slabs_wf m1) by (destruct (mi_slabs _ _ _ HM); by split).
  eapply wp_mono; [apply (alloc_arc_spec m1 Hwf1 Hcap1)| |done]. intros h m2 [Hno H2]. wp_steps.
  assert (Ho2 : obj m2 h = Some (frame_init, 1)) by (by rewrite (ob_obj _ _ _ _ _ H2), decide_True).
  eapply wp_mono; [apply (arc_set_spec m2 h _ _ (mkFrame f SmallPage) (ob_wf _ _ _ _ _ H2) Ho2)| |done]. intros [] m3 H3. wp_steps.
  pose proof (objs_become_trans _ _ _ _ _ _ _ _ H2 H3) as [A B C E G J]. exists f.
  assert (Hnh : h ∉ H) by (pose proof (mi_refs _ _ _ HM h) as Hr; change (obj m1 h) with (obj m h) in Hno; by rewrite Hno in Hr).
  assert (Hoth : forall h', h' <> h -> obj m3 h' = obj m h') by (intros h' Hne; rewrite B, decide_False by done; done).
  assert (Hok : obj m3 h = Some (mkFrame f SmallPage, 1)) by (by rewrite B, decide_True).
  pose proof Hb as (B1 & B2 & B3 & B4). change (kmem m1) with k' in E.
  assert (Hf2 : free_frames k' n) by (by eapply free_frames_take).
  split; [|by rewrite E]. split; rewrite ?E; try done.
  destruct (pt_inv_phys _ _ _ k' D (mi_tables _ _ _ HM) W B1 B3) as (HI' & _).
  { intros g m' Hg. apply B4. left. by eapply pi_used; [apply HM|]. }
  split; rewrite ?E; [done|done| | | | |].
  - intros h'. destruct (decide (h' = h)) as [->|Hne].
    + rewrite Hok, occ_cons, decide_True, occ_zero by done. lia.
    + rewrite Hoth by done. pose proof (mi_refs _ _ _ HM h') as Hr. destruct (obj m h') as [[f' n']|].
      * by rewrite occ_cons, decide_False by congruence.
      * apply not_elem_of_cons. done.
  - intros h' f' n' Ho'. destruct (decide (h' = h)) as [->|Hne].
    + rewrite Hok in Ho'. injection Ho' as <- <-. cbn [f_kind f_start]. split_and!; [done|by apply B4; right|].
      destruct (D !! f) eqn:ED; [|done]. destruct Hfu. by eapply pi_used; [apply HM|].
    + rewrite Hoth in Ho' by done. destruct (mi_frame _ _ _ HM _ _ _ Ho') as (? & ? & ?). split_and!; [done|by apply B4; left|done].
  - assert (Hd : forall h' f' n', h' <> h -> obj m3 h' = Some (f', n') -> f_start f' <> f).
    { intros h' f' n' Hne Ho' <-. rewrite Hoth in Ho' by done. by destruct (mi_frame _ _ _ HM _ _ _ Ho') as (_ & ? & _). }
    intros h1 h2 f1 n1 f2 n2 Ho1 Ho2' Es. destruct (decide (h1 = h)) as [->|Hn1], (decide (h2 = h)) as [->|Hn2]; [done| | |].
    + rewrite Hok in Ho1. injection Ho1 as <- <-. by destruct (Hd _ _ _ Hn2 Ho2').
    + rewrite Hok in Ho2'. injection Ho2' as <- <-. by destruct (Hd _ _ _ Hn1 Ho1).
    + rewrite Hoth in Ho1, Ho2' by done. by eapply (mi_inj _ _ _ HM).
  - intros x Hx. apply B4 in Hx as [Hx| ->]; [|right; left; by eauto].
    destruct (mi_used _ _ _ HM x Hx) as [?|[(h' & f' & n' & Ho' & Es)|?]]; [by left|right; left|by right; right].
    exists h', f', n'. split; [|done]. rewrite Hoth; [done|]. intros ->. change (obj m1 h) with (obj m h) in Hno. congruence.
  - intros x Hx. destruct (mi_other _ _ _ HM x Hx) as (X1 & X2 & X3). split_and!; [by apply B4; left|done|]. intros h' f' n' Ho'.
    destruct (decide (h' = h)) as [->|Hne]; [|rewrite Hoth in Ho' by done; by eapply X3].
    rewrite Hok in Ho'. injection Ho' as <- <-. cbn [f_start]. by intros ->.
Qed.

(** The last reference to a frame gives it back. *)
Record dropped (m m' : Mm) (D : gmap Z node) (H : list SlabArc) (h : SlabArc) (f : Z) : Prop := {
  dr_inv : mm_inv m' D H;
  dr_others h' : h' <> h -> obj m' h' = obj m h';
  dr_self : h ∈ H -> exists n, obj m' h = Some (mkFrame f SmallPage, n);
  dr_frames x : frame (phys (kmem m')) x <-> frame (phys (kmem m)) x;
  dr_used x : used (phys (kmem m')) x <-> used (phys (kmem m)) x /\ (x = f -> h ∈ H);
  dr_words : words (kmem m') = words (kmem m);
  dr_flushes : flushes (kmem m') = flushes (kmem m);
  dr_capacity : capacity m <= capacity m';
  dr_kpt : mm_kpt m' = mm_kpt m
}.

Lemma slab_become_free m h f : slabs_wf m -> obj m h = Some (f, 0) ->
  wp (on_slab (a_slab h) (slab_free (a_idx h))) m (fun _ m' => objs_become m m' h None 1) (fun _ _ => False).
Proof.
  intros Hwf Ho. destruct (obj_slab _ _ _ _ Ho) as (s & Hs & Hidx & Hb & Hd & Hr). destruct (sm_each _ Hwf _ s Hs) as [Hsw Hsr].
  eapply wp_on_slab; [exact Hs|]. eapply wp_mono; [apply (slab_free_spec s _ Hsw Hidx Hb)| |done]. intros _ s' (Hs' & [Hbit Hrefs] & Hu & Hdata).
  destruct h as [i idx]. cbn [a_slab a_idx] in *. replace 1 with (slab_used s - slab_used s') by lia.
  assert (Hrefs' : forall j, refs_at s' j = refs_at s j) by (intros j; unfold refs_at; by rewrite Hrefs).
  eapply (objs_become_slab m i s s' idx false); try done.
  - intros j _. split; [done|]. unfold data_at. by rewrite Hdata.
  - intros _. by rewrite Hrefs'.
Qed.

(** The number of references to an object changes. *)
Lemma mm_inv_refs m m' D H H' h f n n' : mm_inv m D H -> obj m h = Some (f, n) -> objs_become m m' h (Some (f, n')) 0 -> n' = occ h H' /\ 0 < n' < 2 ^ 32 ->
  (forall h', h' <> h -> occ h' H' = occ h' H /\ (h' ∈ H' -> h' ∈ H)) -> mm_inv m' D H'.
Proof.
  intros HM Ho [A B C E G J] Hn' Hocc.
  assert (Hst : forall h' f' n', obj m' h' = Some (f', n') -> exists n'', obj m h' = Some (f', n'')).
  { intros h' f' n1 Ho'. rewrite B in Ho'. destruct (decide (h' = h)) as [->|Hne]; [injection Ho' as <- _|]; eauto. }
  split; rewrite ?E; [apply HM|done| | | | |].
  - intros h'. rewrite B. destruct (decide (h' = h)) as [->|Hne]; [done|]. pose proof (mi_refs _ _ _ HM h') as Hr. destruct (Hocc h' Hne) as [O1 O2].
    destruct (obj m h') as [[f' n1]|]; [by rewrite O1|]. by intros ?%O2.
  - intros h' f' n1 Ho'. destruct (Hst _ _ _ Ho') as [n'' ?]. by eapply (mi_frame _ _ _ HM).
  - intros h1 h2 f1 n1 f2 n2 Ho1 Ho2 Ef. destruct (Hst _ _ _ Ho1) as [? ?], (Hst _ _ _ Ho2) as [? ?]. by eapply (mi_inj _ _ _ HM).
  - intros x Hx. destruct (mi_used _ _ _ HM x Hx) as [?|[(h1 & f1 & n1 & Ho1 & Es)|?]]; [by left|right; left|by right; right].
    destruct (decide (h1 = h)) as [->|Hne]; [exists h, f, n'|exists h1, f1, n1]; rewrite B; [rewrite decide_True by done|by rewrite decide_False].
    split; [done|]. congruence.
  - intros x Hx. destruct (mi_other _ _ _ HM x Hx) as (X1 & X2 & X3). split_and!; [done..|]. intros h1 f1 n1 Ho1. destruct (Hst _ _ _ Ho1) as [? ?].
    by eapply X3.
Qed.

(** One of several references goes. *)
Lemma mm_inv_less m m' D H h f n : mm_inv m D (h :: H) -> h ∈ H -> obj m h = Some (f, n) -> objs_become m m' h (Some (f, n - 1)) 0 -> mm_inv m' D H.
Proof.
  intros HM Hin Ho Hb. pose proof (occ_pos _ _ Hin) as Hpos. pose proof (mi_refs _ _ _ HM h) as Hr0. rewrite Ho, occ_cons, decide_True in Hr0 by done.
  eapply mm_inv_refs; [exact HM|exact Ho|exact Hb|lia|]. intros h' Hne. rewrite occ_cons, decide_False by congruence. split; [lia|by right].
Qed.

(** The last reference goes and with it the frame. *)
Lemma mm_inv_gone m m' D H h f : mm_inv m D (h :: H) -> (h ∉ H) -> obj m h = Some (f, 1) -> slabs_wf m' -> words (kmem m') = words (kmem m) ->
  (forall h', obj m' h' = if decide (h' = h) then None else obj m h') ->
  becomes (phys (kmem m)) (phys (kmem m')) (fun x => used (phys (kmem m)) x /\ x <> f_start f) -> mm_inv m' D H.
Proof.
  intros HM Hnh Ho Hwf W B (B1 & B2 & B3 & B4). destruct (mi_frame _ _ _ HM _ _ _ Ho) as (_ & _ & HD).
  assert (Hd : forall h' f' n', h' <> h -> obj m h' = Some (f', n') -> f_start f' <> f_start f).
  { intros h' f' n' Hne Ho' Ef. apply Hne. by eapply (mi_inj _ _ _ HM). }
  destruct (pt_inv_phys _ _ _ (kmem m') D (mi_tables _ _ _ HM) W B1 B3) as (HI' & _).
  { intros g m1 Hg. apply B4. split; [by eapply pi_used; [apply HM|]|]. intros ->. congruence. }
  split; [done|done| | | | |].
  - intros h'. rewrite B. destruct (decide (h' = h)) as [->|Hne]; [done|]. pose proof (mi_refs _ _ _ HM h') as Hr.
    destruct (obj m h') as [[f' n']|]; [by rewrite occ_cons, decide_False in Hr by congruence|]. by apply not_elem_of_cons in Hr as [_ ?].
  - intros h' f' n' Ho'. rewrite B in Ho'. destruct (decide (h' = h)) as [->|Hne]; [done|].
    destruct (mi_frame _ _ _ HM _ _ _ Ho') as (? & ? & ?). split_and!; [done| |done]. apply B4. split; [done|by eapply Hd].
  - intros h1 h2 f1 n1 f2 n2 Ho1 Ho2. rewrite B in Ho1, Ho2. destruct (decide (h1 = h)), (decide (h2 = h)); try done. by eapply (mi_inj _ _ _ HM).
  - intros x [Hx Hxf]%B4. destruct (mi_used _ _ _ HM x Hx) as [?|[(h1 & f1 & n1 & Ho1 & Es)|?]]; [by left|right; left|by right; right].
    exists h1, f1, n1. split; [|done]. rewrite B, decide_False; [done|]. intros ->. apply Hxf. congruence.
  - intros x Hx. destruct (mi_other _ _ _ HM x Hx) as (X1 & X2 & X3). split_and!; [|done|].
    + apply B4. split; [done|]. intros ->. by eapply X3.
    + intros h1 f1 n1 Ho1. rewrite B in Ho1. destruct (decide (h1 = h)); [done|]. by eapply X3.
Qed.

Lemma arc_drop_spec m D H h : mm_inv m D (h :: H) ->
  wp (arc_drop h) m (fun _ m' => exists f n, obj m h = Some (mkFrame f SmallPage, n) /\ dropped m m' D H h f) (fun _ _ => False).
Proof.
  intros HM. destruct (mi_obj _ _ _ h HM) as (f & n & Ho & Hu & HD); [by left|]. pose proof (mi_refs _ _ _ HM h) as Hr. rewrite Ho in Hr.
  rewrite occ_cons, decide_True in Hr by done. destruct Hr as [Hn Hb].
  destruct (refs_become m h _ _ (n - 1) (mi_slabs _ _ _ HM) Ho) as (s & Hs & Hrs & H1). unfold arc_drop. wp_step. eapply wp_on_slab; [exact Hs|].
  wp_steps. rewrite Hrs, u32_id by (unfold is_u32; lia). set (m1 := set_slabs _ m) in *. pose proof (ob_capacity _ _ _ _ _ H1) as C1.
  destruct (Z.eqb_spec n 1) as [->|Hn1].
  - assert (Hnh : h ∉ H). { intros Hin. apply occ_pos in Hin. lia. }
    assert (Ho1 : obj m1 h = Some (mkFrame f SmallPage, 0)) by (by rewrite (ob_obj _ _ _ _ _ H1), decide_True).
    wp_step. eapply arc_get_spec; [exact Ho1|]. unfold deallocate_frame. cbn [f_kind f_start]. wp_step. apply wp_on_kmem.
    apply wp_free_frame; [apply HM|done|]. intros k' (B1 & B2 & B3 & B4) W F.
    eapply wp_mono; [apply (slab_become_free (set_kmem k' m1) h (mkFrame f SmallPage)); [by destruct (ob_wf _ _ _ _ _ H1); split|exact Ho1]| |done].
    intros _ m2 [A B C E G J]. cbn [kmem set_kmem] in E. exists f, 1. split; [done|].
    assert (Hob : forall h', obj m2 h' = if decide (h' = h) then None else obj m h').
    { intros h'. rewrite B. destruct (decide (h' = h)) as [|Hne]; [done|]. change (obj (set_kmem k' m1) h') with (obj m1 h').
      by rewrite (ob_obj _ _ _ _ _ H1), decide_False. }
    split; rewrite ?E; try done.
    + eapply (mm_inv_gone m m2 D H h (mkFrame f SmallPage)); rewrite ?E; done.
    + intros h' Hne. by rewrite Hob, decide_False.
    + intros x. rewrite B4. split; [intros [? ?]; split; [done|by intros ->]|]. intros [? Hx]. split; [done|]. by intros ->; apply Hnh, Hx.
    + unfold capacity in *. cbn [slabs set_kmem] in C. lia.
  - assert (Hin : h ∈ H). { destruct (decide (h ∈ H)) as [|Hni]; [done|]. rewrite (occ_zero h H Hni) in Hn. lia. }
    wp_steps. exists f, n. split; [done|]. split; try done; [by eapply mm_inv_less| | | |lia].
    + intros h' Hne. rewrite (ob_obj _ _ _ _ _ H1), decide_False by done. done.
    + intros _. exists (n - 1). by rewrite (ob_obj _ _ _ _ _ H1), decide_True.
    + intros x. split; [|by intros [? _]]. by split.
Qed.

(** A reference is copied. *)
Lemma arc_clone_inv m D H h : mm_inv m D H -> h ∈ H -> occ h H < 2 ^ 32 - 1 ->
  wp (arc_clone h) m (fun h' m' => h' = h /\ mm_inv m' D (h :: H) /\ kmem m' = kmem m /\ capacity m' = capacity m /\ mm_kpt m' = mm_kpt m /\
    (forall h', h' <> h -> obj m' h' = obj m h') /\ (forall f n, obj m h = Some (f, n) -> obj m' h = Some (f, n + 1))) (fun _ _ => False).
Proof.
  intros HM Hin Hlt. pose proof (mi_refs _ _ _ HM h) as Hr. destruct (obj m h) as [[f n]|] eqn:Ho; [|done]. destruct Hr as [-> Hb].
  eapply wp_mono; [apply (arc_clone_spec m h f (occ h H) (mi_slabs _ _ _ HM) Ho); lia| |done]. intros h' m' [-> [A B C E G J]].
  split_and!; [done| |done|lia|done| |].
  - eapply mm_inv_refs; [exact HM|exact Ho|by split| |].
    + rewrite occ_cons, decide_True by done. lia.
    + intros h' Hne. rewrite occ_cons, decide_False by congruence. split; [lia|]. by intros [?|?]%elem_of_cons.
  - intros h' Hne. by rewrite B, decide_False.
  - intros f' n' [= <- <-]. by rewrite B, decide_True.
Qed.
End Frames.
