(* ===== verification/Vmem.v ===== *)
(** * Virtual memory: pages, segments and regions

    Translation of src/src/bin/kernel/src/mm/virt_intrusive.rs and of [VmemRegion] and [AddressSpaceBase] in
    mm/virt.rs.  An [RBTree] is the list of its elements in the order of their keys, an intrusive list the list of
    the addresses of its elements; the structures that live in frames of their own (pages and segment nodes) are
    values and carry their addresses.  Each method is one step: the locks are held throughout. *)

From stdpp Require Import base numbers list gmap.
From S2P Require Import RustPrelude PhysMem PageTable Slab.

Open Scope Z_scope.

(** ** Trees *)

(** [RBTree::insert]: a new element comes after those with an equal key. *)
Fixpoint tree_insert {A} (key : A -> Z) (x : A) (l : list A) : list A :=
  match l with
  | [] => [x]
  | y :: l' => if key y <=? key x then y :: tree_insert key x l' else x :: l
  end.

(** [RBTree::find]. *)
Fixpoint tree_find {A} (key : A -> Z) (k : Z) (l : list A) : option A :=
  match l with
  | [] => None
  | y :: l' => if key y =? k then Some y else tree_find key k l'
  end.

(** [RBTree::find_mut(k).remove()]. *)
Fixpoint tree_remove {A} (key : A -> Z) (k : Z) (l : list A) : option (A * list A) :=
  match l with
  | [] => None
  | y :: l' =>
    if key y =? k then Some (y, l')
    else match tree_remove key k l' with Some (x, l'') => Some (x, y :: l'') | None => None end
  end.

(** The element with the key [k] is changed in place. *)
Definition tree_update {A} (key : A -> Z) (k : Z) (f : A -> A) (l : list A) : list A :=
  (fun y => if key y =? k then f y else y) <$> l.

(** [RBTree::upper_bound(Bound::Included(k))]: the last element with a key of at most [k]. *)
Definition upper_bound {A} (key : A -> Z) (k : Z) (l : list A) : option A :=
  last (filter (fun y => key y <= k) l).

(** ** Pages *)

Record Page : Type := mkPage { pg_at : Z; pg_start : Z; pg_frame : option SlabArc; pg_options : Z }.

Definition STRUCT_PAGE_SZ : Z := 72.
Definition STRUCT_PAGES_IN_SMALL_PAGE : Z := PAGE_SIZE_SMALL / STRUCT_PAGE_SZ.

(** [Page::contains]. *)
Definition page_contains (p : Page) (vmem_addr : Z) : bool :=
  (pg_start p <=? vmem_addr) && (vmem_addr <? u64 (pg_start p + PAGE_SIZE_SMALL)).

Definition set_frame_of (h : option SlabArc) (p : Page) : Page := mkPage (pg_at p) (pg_start p) h (pg_options p).

(** ** Address spaces *)

Record PageAllocator : Type := mkPA {
  pa_free_list : list Z;
  pa_slab_list : list Page;
  free_page_count : Z;
  used_page_count : Z;
  pa_slab_count : Z
}.

Definition pa_default : PageAllocator := mkPA [] [] 0 0 0.

Record AddressSpaceBase : Type := mkBase {
  page_table : PageTableImpl;
  page_allocator : PageAllocator;
  mem_stats : Z
}.

(** The memory of the kernel and one address space. *)
Record Vb : Type := mkVb { vb_mm : Mm; vb_base : AddressSpaceBase }.

Definition on_mm {A} (c : eff Mm MemError A) : eff Vb MemError A := fun s =>
  let '(m, r) := c (vb_mm s) in (mkVb m (vb_base s), r).

Definition get_pa : eff Vb MemError PageAllocator := let* s := get_state in ret (page_allocator (vb_base s)).
Definition set_pa (pa : PageAllocator) : eff Vb MemError unit :=
  modify (fun s => mkVb (vb_mm s) (mkBase (page_table (vb_base s)) pa (mem_stats (vb_base s)))).

Definition stats_add (num_pages : Z) : eff Vb MemError unit :=
  modify (fun s => mkVb (vb_mm s) (mkBase (page_table (vb_base s)) (page_allocator (vb_base s)) (u64 (mem_stats (vb_base s) + num_pages)))).
Definition stats_sub (num_pages : Z) : eff Vb MemError unit :=
  modify (fun s => mkVb (vb_mm s) (mkBase (page_table (vb_base s)) (page_allocator (vb_base s)) (u64 (mem_stats (vb_base s) - num_pages)))).

(** [address_space().page_table.map_page(..)] and [unmap_page]. *)
Definition space_map_page (phys_addr virt_addr options : Z) : eff Vb MemError unit :=
  let* s := get_state in
  on_mm (on_kmem (map_page (page_table (vb_base s)) phys_addr virt_addr SmallPage options)).
Definition space_unmap_page (phys_addr virt_addr : Z) : eff Vb MemError unit :=
  let* s := get_state in
  on_mm (on_kmem (impl_unmap_page (page_table (vb_base s)) phys_addr virt_addr SmallPage)).

(** ** The allocator of pages *)

(** Pages [idx], [idx + 1], .. of the slab at [virt_addr] come to the front of the free list. *)
Fixpoint push_pages (n : nat) (idx virt_addr size : Z) (free_list : list Z) : list Z :=
  match n with
  | O => free_list
  | S n' => push_pages n' (idx + 1) virt_addr size (virt_addr + idx * size :: free_list)
  end.

(** [PageAllocatorInner::alloc_slab]. *)
Definition pa_alloc_slab : eff Vb MemError unit :=
  let* frame := on_mm (allocate_frame SmallPage) in
  let* f := on_mm (arc_get frame) in
  let virt_addr := u64 (f_start f + PAGING_DIRECT_MAP_OFFSET) in
  let* pa := get_pa in
  let n := STRUCT_PAGES_IN_SMALL_PAGE - 1 in
  set_pa (mkPA (push_pages (Z.to_nat n) 1 virt_addr STRUCT_PAGE_SZ (pa_free_list pa))
    (mkPage virt_addr virt_addr (Some frame) PRIVATE :: pa_slab_list pa)
    (u64 (free_page_count pa + n)) (used_page_count pa) (u64 (pa_slab_count pa + 1))).

(** [PageAllocator::alloc_page]: the address of the page. *)
Definition alloc_page : eff Vb MemError Z :=
  let* pa := get_pa in
  (if bool_decide (pa_free_list pa = []) then pa_alloc_slab else ret tt);;;
  let* pa := get_pa in
  match pa_free_list pa with
  | [] => panic
  | page :: l =>
    set_pa (mkPA l (pa_slab_list pa) (u64 (free_page_count pa - 1)) (u64 (used_page_count pa + 1)) (pa_slab_count pa));;;
    ret page
  end.

(** [PageAllocator::free_page]. *)
Definition free_page (page : Z) : eff Vb MemError unit :=
  let* pa := get_pa in
  set_pa (mkPA (page :: pa_free_list pa) (pa_slab_list pa) (u64 (free_page_count pa + 1)) (u64 (used_page_count pa - 1)) (pa_slab_count pa)).

(** The frames of the slabs are dropped. *)
Fixpoint drop_slab_frames (l : list Page) : eff Vb MemError unit :=
  match l with
  | [] => ret tt
  | page :: l' =>
    match pg_frame page with Some h => on_mm (arc_drop h) | None => ret tt end;;;
    drop_slab_frames l'
  end.

(** [PageAllocatorInner::clear]. *)
Definition pa_clear : eff Vb MemError unit :=
  let* pa := get_pa in
  assert (used_page_count pa =? 0);;;
  drop_slab_frames (pa_slab_list pa);;;
  set_pa (mkPA [] [] 0 (used_page_count pa) (u64 (pa_slab_count pa - Z.of_nat (length (pa_slab_list pa)))));;;
  let* pa := get_pa in
  assert ((used_page_count pa =? 0) && (pa_slab_count pa =? 0)).

(** ** Segments *)

Record VmemSegment : Type := mkVS { vs_segment : MemorySegment; vs_pages : list Page; vs_options : Z }.

Inductive VaddrMapStatus : Type := Unallocated | Unmapped | ZeroPageMapped | Private (phys_addr : Z) | Shared (phys_addr : Z).

Definition page_addr_of (vmem_addr : Z) : Z := Z.land vmem_addr (u64_not (PAGE_SIZE_SMALL - 1)).
Definition find_page (seg : VmemSegment) (vmem_addr : Z) : option Page :=
  tree_find pg_start (page_addr_of vmem_addr) (vs_pages seg).

Definition set_pages (l : list Page) (seg : VmemSegment) : VmemSegment := mkVS (vs_segment seg) l (vs_options seg).

(** [find_page_mut(addr).unwrap().frame = h]. *)
Definition update_frame (vmem_addr : Z) (h : option SlabArc) (seg : VmemSegment) : VmemSegment :=
  set_pages (tree_update pg_start (page_addr_of vmem_addr) (set_frame_of h) (vs_pages seg)) seg.

(** [VmemSegment::vaddr_map_status]. *)
Definition seg_map_status (seg : VmemSegment) (vmem_addr : Z) : eff Vb MemError VaddrMapStatus :=
  assert (contains (vs_segment seg) vmem_addr);;;
  match find_page seg vmem_addr with
  | None => panic
  | Some page =>
    match pg_frame page with
    | None => ret Unmapped
    | Some h =>
      let* f := on_mm (arc_get h) in
      let phys_addr := u64 (f_start f + u64 (vmem_addr - pg_start page)) in
      let* refs := on_mm (arc_refs h) in
      ret (if refs =? 1 then Private phys_addr else Shared phys_addr)
    end
  end.

(** [VmemSegment::clear_page]: the page is unmapped and freed; its frame, if no other page uses it, goes last. *)
Definition clear_page (page : Page) : eff Vb MemError unit :=
  match pg_frame page with
  | Some h =>
    let* f := on_mm (arc_get h) in
    space_unmap_page (f_start f) (pg_start page);;;
    free_page (pg_at page);;;
    on_mm (arc_drop h)
  | None => free_page (pg_at page)
  end.

(** [VmemSegment::clear]: the size of the pages. *)
Fixpoint clear_pages (l : list Page) (sz : Z) : eff Vb MemError Z :=
  match l with
  | [] => ret sz
  | page :: l' => clear_page page;;; clear_pages l' (u64 (sz + PAGE_SIZE_SMALL))
  end.
Definition seg_clear (seg : VmemSegment) : eff Vb MemError Z := clear_pages (vs_pages seg) 0.

(** The options of the page [idx] of a segment. *)
Definition page_options (options idx num_pages : Z) : Z :=
  if has options GUARD then
    if (idx =? 0) || (idx =? u64 (num_pages - 1)) then 0 else without options (Z.lor GUARD LAZY)
  else options.

(** The loop of [VmemSegment::allocate_pages] from page [idx] at [start] on. *)
Fixpoint alloc_pages_from (n : nat) (idx num_pages start : Z) (seg : VmemSegment) : eff Vb MemError VmemSegment :=
  match n with
  | O => ret seg
  | S n' =>
    let* page := on_err alloc_page (seg_clear seg;;; ret tt) in
    let options := page_options (vs_options seg) idx num_pages in
    let* frame :=
      (if negb (options =? 0) && negb (has (vs_options seg) LAZY) then
         let* frame := on_err (on_mm (allocate_frame SmallPage)) (free_page page;;; seg_clear seg;;; ret tt) in
         let* f := on_mm (arc_get frame) in
         space_map_page (f_start f) start options;;;
         ret (Some frame)
       else ret None) in
    let seg := set_pages (tree_insert pg_start (mkPage page start frame options) (vs_pages seg)) seg in
    alloc_pages_from n' (idx + 1) num_pages (u64 (start + PAGE_SIZE_SMALL)) seg
  end.

(** [VmemSegment::allocate_pages]. *)
Definition seg_allocate_pages (seg : VmemSegment) : eff Vb MemError VmemSegment :=
  assert (0 <? size (vs_segment seg));;;
  assert (bool_decide (vs_pages seg = []));;;
  let num_pages := Z.shiftr (size (vs_segment seg)) PAGE_SIZE_SMALL_LOG2 in
  alloc_pages_from (Z.to_nat num_pages) 0 num_pages (start (vs_segment seg)) seg.

(** [VmemSegment::fix_pagefault]: the segment with the page that was mapped. *)
Definition seg_fix_pagefault (seg : VmemSegment) (pf_addr error_code : Z) : eff Vb MemError VmemSegment :=
  let guard := (page_addr_of pf_addr =? start (vs_segment seg)) || (u64 (seg_end (vs_segment seg) - PAGE_SIZE_SMALL) <=? pf_addr) in
  if guard && has (vs_options seg) GUARD then throw InvalidArgument
  else
    let error_code := Z.lxor error_code 4 in
    match find_page seg pf_addr with
    | None => panic
    | Some page =>
      assert (page_contains page pf_addr);;;
      if bool_decide (is_Some (pg_frame page)) then throw InvalidArgument
      else
        (if error_code =? 0 then
           if has (pg_options page) USER_ACCESSIBLE then ret tt else throw InvalidArgument
         else if error_code =? 2 then
           if has (pg_options page) USER_ACCESSIBLE && has (pg_options page) WRITABLE then ret tt else throw InvalidArgument
         else throw InvalidArgument);;;
        let* frame := on_mm (allocate_frame SmallPage) in
        let seg := update_frame pf_addr (Some frame) seg in
        let options := without (without (pg_options page) LAZY) GUARD in
        let* f := on_mm (arc_get frame) in
        space_map_page (f_start f) (pg_start page) options;;;
        ret seg
    end.

(** ** Maps of segments *)

Record SegmentNode : Type := mkNode { sn_at : Z; sn_seg : VmemSegment }.
Definition node_start (n : SegmentNode) : Z := start (vs_segment (sn_seg n)).

Definition SEGMENT_NODE_SZ : Z := 72.
Definition SEGMENT_NODES_IN_SMALL_PAGE : Z := (PAGE_SIZE_SMALL - STRUCT_PAGE_SZ) / SEGMENT_NODE_SZ.

Record SegmentMap : Type := mkSM {
  sm_segments : list SegmentNode;
  sm_free_list : list Z;
  sm_slab_list : list Page;
  free_segment_count : Z;
  used_segment_count : Z;
  sm_slab_count : Z
}.

Definition sm_default : SegmentMap := mkSM [] [] [] 0 0 0.

Definition sm_is_empty (s : SegmentMap) : bool :=
  (sm_slab_count s =? 0) && bool_decide (sm_segments s = []) && bool_decide (sm_free_list s = []) && bool_decide (sm_slab_list s = []).

(** [SegmentMap::find] (and [find_mut]). *)
Definition sm_find (s : SegmentMap) (addr : Z) : option VmemSegment :=
  match tree_find node_start addr (sm_segments s) with
  | Some n => Some (sn_seg n)
  | None =>
    match upper_bound node_start addr (sm_segments s) with
    | Some n => if contains (vs_segment (sn_seg n)) addr then Some (sn_seg n) else None
    | None => None
    end
  end.

(** [SegmentMap::get] (and [get_mut]). *)
Definition sm_get (s : SegmentMap) (addr : Z) : option VmemSegment :=
  match tree_find node_start addr (sm_segments s) with Some n => Some (sn_seg n) | None => None end.

(** [SegmentMap::intersects]. *)
Definition intersects (s : SegmentMap) (seg : MemorySegment) : bool :=
  match upper_bound node_start (seg_end seg) (sm_segments s) with
  | Some n => contains (vs_segment (sn_seg n)) (start seg)
  | None => false
  end.

Definition last_segment (s : SegmentMap) : option VmemSegment :=
  match last (sm_segments s) with Some n => Some (sn_seg n) | None => None end.

Definition set_segs (l : list SegmentNode) (s : SegmentMap) : SegmentMap :=
  mkSM l (sm_free_list s) (sm_slab_list s) (free_segment_count s) (used_segment_count s) (sm_slab_count s).

(** The segment that starts at [addr] is changed in place. *)
Definition sm_update (addr : Z) (seg : VmemSegment) (s : SegmentMap) : SegmentMap :=
  set_segs (tree_update node_start addr (fun n => mkNode (sn_at n) seg) (sm_segments s)) s.

(** The node comes back to the free list. *)
Definition give_node (n : SegmentNode) (l : list SegmentNode) (s : SegmentMap) : SegmentMap :=
  mkSM l (sn_at n :: sm_free_list s) (sm_slab_list s) (u64 (free_segment_count s + 1)) (u64 (used_segment_count s - 1)) (sm_slab_count s).

(** [SegmentMap::remove]. *)
Definition sm_remove (addr : Z) (s : SegmentMap) : option (VmemSegment * SegmentMap) :=
  match tree_remove node_start addr (sm_segments s) with
  | Some (n, l) => Some (sn_seg n, give_node n l s)
  | None => None
  end.

(** [SegmentMap::pop_first]. *)
Definition sm_pop_first (s : SegmentMap) : option (VmemSegment * SegmentMap) :=
  match sm_segments s with
  | n :: l => Some (sn_seg n, give_node n l s)
  | [] => None
  end.

(** [SegmentMap::alloc_slab]. *)
Definition sm_alloc_slab (s : SegmentMap) : eff Vb MemError SegmentMap :=
  let* frame := on_mm (allocate_frame SmallPage) in
  let* f := on_mm (arc_get frame) in
  let virt_addr := u64 (f_start f + PAGING_DIRECT_MAP_OFFSET) in
  let n := SEGMENT_NODES_IN_SMALL_PAGE in
  ret (mkSM (sm_segments s) (push_pages (Z.to_nat n) 0 (virt_addr + STRUCT_PAGE_SZ) SEGMENT_NODE_SZ (sm_free_list s))
    (mkPage virt_addr virt_addr (Some frame) PRIVATE :: sm_slab_list s)
    (u64 (free_segment_count s + n)) (used_segment_count s) (u64 (sm_slab_count s + 1))).

(** [SegmentMap::insert], with [get_free_segment]. *)
Definition sm_insert (seg : VmemSegment) (s : SegmentMap) : eff Vb MemError SegmentMap :=
  let* s := (if bool_decide (sm_free_list s = []) then unwrap (sm_alloc_slab s) else ret s) in
  match sm_free_list s with
  | [] => panic
  | node :: l =>
    ret (mkSM (tree_insert node_start (mkNode node seg) (sm_segments s)) l (sm_slab_list s)
      (u64 (free_segment_count s - 1)) (u64 (used_segment_count s + 1)) (sm_slab_count s))
  end.

(** [SegmentMap::clear]. *)
Definition sm_clear (s : SegmentMap) : eff Vb MemError SegmentMap :=
  assert (used_segment_count s =? 0);;;
  drop_slab_frames (sm_slab_list s);;;
  ret (mkSM (sm_segments s) [] [] 0 (used_segment_count s) (u64 (sm_slab_count s - Z.of_nat (length (sm_slab_list s))))).

(** ** Regions *)

Record VmemRegion : Type := mkRegion { vr_segment : MemorySegment; bytes_used : Z; used_segments : SegmentMap }.

Definition VmemRegion_new (segment : MemorySegment) : VmemRegion := mkRegion segment 0 sm_default.

(** An address space with one of its regions. *)
Record Rs : Type := mkRs { rs_vb : Vb; rs_region : VmemRegion }.

Definition on_vb {A} (c : eff Vb MemError A) : eff Rs MemError A := fun s =>
  let '(v, r) := c (rs_vb s) in (mkRs v (rs_region s), r).
Definition get_region : eff Rs MemError VmemRegion := let* s := get_state in ret (rs_region s).
Definition set_used_segments (m : SegmentMap) : eff Rs MemError unit :=
  modify (fun s => mkRs (rs_vb s) (mkRegion (vr_segment (rs_region s)) (bytes_used (rs_region s)) m)).
Definition add_bytes_used (n : Z) : eff Rs MemError unit :=
  modify (fun s => mkRs (rs_vb s) (mkRegion (vr_segment (rs_region s)) (u64 (bytes_used (rs_region s) + n)) (used_segments (rs_region s)))).

Definition region_map_status (vmem_addr : Z) : eff Rs MemError VaddrMapStatus :=
  let* r := get_region in
  if negb (contains (vr_segment r) vmem_addr) then ret Unallocated
  else
    match sm_find (used_segments r) vmem_addr with
    | Some seg => on_vb (seg_map_status seg vmem_addr)
    | None => ret Unallocated
    end.

(** The pages of [deleted] are unmapped and the statistics updated. *)
Definition region_unmap (deleted : VmemSegment) : eff Rs MemError Z :=
  let* sz := on_vb (seg_clear deleted) in
  add_bytes_used (- sz);;;
  on_vb (stats_sub (Z.shiftr sz PAGE_SIZE_SMALL_LOG2));;;
  ret sz.

(** [VmemRegion::free]. *)
Definition region_free (addr : Z) : eff Rs MemError Z :=
  let* r := get_region in
  if negb (contains (vr_segment r) addr) then throw InvalidArgument
  else
    match sm_remove addr (used_segments r) with
    | Some (deleted, segments) => set_used_segments segments;;; region_unmap deleted
    | None => panic
    end.

(** The loop of [VmemRegion::clear]: each round takes a segment, [n] of them. *)
Fixpoint region_clear_loop (n : nat) : eff Rs MemError unit :=
  let* r := get_region in
  match n, sm_pop_first (used_segments r) with
  | S n', Some (deleted, segments) => set_used_segments segments;;; region_unmap deleted;;; region_clear_loop n'
  | _, _ => ret tt
  end.
Definition region_clear : eff Rs MemError unit :=
  let* r := get_region in
  region_clear_loop (length (sm_segments (used_segments r)));;;
  let* r := get_region in
  let* segments := on_vb (sm_clear (used_segments r)) in
  set_used_segments segments.

(** The search for a gap before one of the segments. *)
Fixpoint find_gap (l : list SegmentNode) (start size : Z) : option Z :=
  match l with
  | [] => None
  | n :: l' => if u64 (start + size) <=? node_start n then Some start else find_gap l' (seg_end (vs_segment (sn_seg n))) size
  end.

(** The choice of [VmemRegion::allocate_pages]. *)
Definition choose_start (r : VmemRegion) (size : Z) : option Z :=
  let segments := used_segments r in
  let first := if start (vr_segment r) =? 0 then PAGE_SIZE_SMALL else start (vr_segment r) in
  if sm_is_empty segments then if PhysMem.size (vr_segment r) <? size then None else Some first
  else
    match last_segment segments with
    | Some last_seg =>
      let en := seg_end (vs_segment last_seg) in
      if u64 (en + size) <=? seg_end (vr_segment r) then Some en else find_gap (sm_segments segments) first size
    | None => find_gap (sm_segments segments) first size
    end.

(** A new segment with its pages comes into the map. *)
Definition add_segment_at (st sz options : Z) : eff Rs MemError unit :=
  let* seg := on_vb (seg_allocate_pages (mkVS (mkSeg st sz) [] options)) in
  add_bytes_used sz;;;
  let* r := get_region in
  let* segments := on_vb (sm_insert seg (used_segments r)) in
  set_used_segments segments.

(** [VmemRegion::allocate_pages]. *)
Definition region_allocate_pages (num_pages options : Z) : eff Rs MemError MemorySegment :=
  let sz := u64 (Z.shiftl num_pages PAGE_SIZE_SMALL_LOG2) in
  let* r := get_region in
  match choose_start r sz with
  | None => throw OutOfMemory
  | Some st =>
    add_segment_at st sz options;;;
    on_vb (stats_add num_pages);;;
    ret (mkSeg st sz)
  end.

(** [VmemRegion::allocate_user_fixed]: here the bytes are counted before the pages are allocated. *)
Definition allocate_user_fixed (vaddr_start num_pages options : Z) : eff Rs MemError MemorySegment :=
  let sz := u64 (Z.shiftl num_pages PAGE_SIZE_SMALL_LOG2) in
  let memory_segment := mkSeg vaddr_start sz in
  let* r := get_region in
  if (vaddr_start <? start (vr_segment r)) || (seg_end (vr_segment r) <=? u64 (vaddr_start + sz)) then throw InvalidArgument
  else if intersects (used_segments r) memory_segment then throw InvalidArgument
  else
    add_bytes_used sz;;;
    let* seg := on_vb (seg_allocate_pages (mkVS memory_segment [] options)) in
    let* r := get_region in
    let* segments := on_vb (sm_insert seg (used_segments r)) in
    set_used_segments segments;;;
    on_vb (stats_add num_pages);;;
    ret memory_segment.

(** [VmemRegion::fix_pagefault]. *)
Definition region_fix_pagefault (pf_addr error_code : Z) : eff Rs MemError unit :=
  let* r := get_region in
  if negb (contains (vr_segment r) pf_addr) then throw InvalidArgument
  else
    match sm_find (used_segments r) pf_addr with
    | Some seg =>
      let* seg' := on_vb (seg_fix_pagefault seg pf_addr error_code) in
      set_used_segments (sm_update (start (vs_segment seg)) seg' (used_segments r))
    | None => throw InvalidArgument
    end.
