(* ===== verification/VmemSpace.v ===== *)
(** * Virtual memory: pages in an address space

    What the operations on pages and segments do to the memory, to the references to frames and to the
    translation of the processor. *)

From stdpp Require Import base numbers list gmap.
From S2P Require Import RustPrelude PhysMem PhysFrames PhysInit PhysProps PageTable PageWalk PageMem PageTableProps Slab SlabProps Vmem.

Open Scope Z_scope.

Section Space.
Context (U : Z -> bool) (kroot r : Z) (other : Z -> Prop).

Abbreviation mm_inv := (mm_inv U kroot other).
Abbreviation pt_inv := (pt_inv U kroot).

(** Frames and objects for [n] more allocations. *)
Definition enough (m : Mm) (n : nat) : Prop := free_frames (kmem m) n /\ Z.of_nat n <= capacity m.

Lemma enough_less m n n' : enough m n -> (n' <= n)%nat -> enough m n'.
Proof. intros [H1 H2] Hle. split; [by eapply free_frames_less|lia]. Qed.

(** ** The page tables change *)

Lemma mm_inv_grown m k' D D' H : mm_inv m D H -> pt_inv k' D' None ->
  (forall f, D !! f = None -> is_Some (D' !! f) -> ~ used (phys (kmem m)) f) ->
  (forall x, used (phys k') x <-> used (phys (kmem m)) x \/ (D !! x = None /\ is_Some (D' !! x))) ->
  (forall f n, D !! f = Some n -> D' !! f = Some n) -> mm_inv (set_kmem k' m) D' H.
Proof.
  intros [A [B1 B2] C E F G J] HI Hnew Hu Hsub. split; [done|by split|done| |done| |].
  - intros h f n Ho. destruct (E h f n Ho) as (E1 & E2 & E3). split_and!; [done|by apply Hu; left|]. destruct (D' !! f_start f) eqn:ED; [|done].
    by destruct (Hnew _ E3).
  - intros x [Hx|[_ ?]]%Hu; [|by left]. destruct (G x Hx) as [[nd ?]|?]; [left; eauto|by right].
  - intros x Hx. destruct (J x Hx) as (X1 & X2 & X3). split_and!; [by apply Hu; left| |done]. destruct (D' !! x) eqn:ED; [|done]. by destruct (Hnew _ X2).
Qed.

Lemma mm_inv_shrunk m k' D D' H : mm_inv m D H -> pt_inv k' D' None -> shrunk (kmem m) k' D D' -> mm_inv (set_kmem k' m) D' H.
Proof.
  intros [A [B1 B2] C E F G J] HI Hsk. split; [done|by split|done| |done| |].
  - intros h f n Ho. destruct (E h f n Ho) as (E1 & E2 & E3). split_and!; [done| |].
    + apply (sk_used _ _ _ _ Hsk). split; [done|]. rewrite E3. by intros [? ?].
    + destruct (D' !! f_start f) eqn:ED; [|done]. apply (sk_sub _ _ _ _ Hsk) in ED. congruence.
  - intros x [Hx HD]%(sk_used _ _ _ _ Hsk). destruct (G x Hx) as [?|?]; [left; by apply HD|by right].
  - intros x Hx. destruct (J x Hx) as (X1 & X2 & X3). split_and!; [|destruct (D' !! x) eqn:ED|done].
    + apply (sk_used _ _ _ _ Hsk). split; [done|]. rewrite X2. by intros [? ?].
    + apply (sk_sub _ _ _ _ Hsk) in ED. congruence.
    + done.
Qed.

(** A frame object stands for a page of data. *)
Lemma frame_is_data m D H h f n : mm_inv m D H -> obj m h = Some (mkFrame f SmallPage, n) -> data_page (kmem m) D f 4096 /\ addr_ok f.
Proof.
  intros HM Ho. destruct (mi_frame _ _ _ _ _ _ HM _ _ _ Ho) as (_ & Hu & HD). cbn [f_start] in *.
  pose proof (mi_tables _ _ _ _ _ _ HM) as HI. destruct (used_addr (kmem m) f (pi_phys _ _ _ _ _ HI) (pi_limit _ _ _ _ _ HI) Hu) as (Ha & _ & Hf).
  split; [|done]. intros g Hg. pose proof (frame_aligned _ g (pi_phys _ _ _ _ _ HI) Hg). destruct Ha as [_ Ha].
  destruct (decide (g = f)) as [->|]; [by right; right|]. destruct (decide (g < f)); [left|right; left]; dlia.
Qed.

(** ** Steps of an address space *)

(** [s'] is [s] with other memory and another allocator of pages. *)
Definition same_space (s s' : Vb) : Prop := page_table (vb_base s') = page_table (vb_base s) /\ mem_stats (vb_base s') = mem_stats (vb_base s).

Lemma wp_on_mm {A} (c : eff Mm MemError A) s (Q : A -> Vb -> Prop) X :
  wp c (vb_mm s) (fun a m => Q a (mkVb m (vb_base s))) (fun e m => X e (mkVb m (vb_base s))) -> wp (on_mm c) s Q X.
Proof. intros Hw. unfold wp, on_mm in *. by destruct (c (vb_mm s)) as [m [a|e|]]. Qed.

Lemma get_frame s h f n (Q : Frame -> Vb -> Prop) X : obj (vb_mm s) h = Some (f, n) -> Q f s -> wp (on_mm (arc_get h)) s Q X.
Proof. intros Ho HQ. apply wp_on_mm. eapply arc_get_spec; [exact Ho|]. by destruct s. Qed.

Lemma get_refs s h f n (Q : Z -> Vb -> Prop) X : obj (vb_mm s) h = Some (f, n) -> Q n s -> wp (on_mm (arc_refs h)) s Q X.
Proof. intros Ho HQ. apply wp_on_mm. eapply arc_refs_spec; [exact Ho|]. by destruct s. Qed.

Definition slab_arcs (l : list Page) : list SlabArc := omap pg_frame l.
Definition pa_arcs (s : Vb) : list SlabArc := slab_arcs (pa_slab_list (page_allocator (vb_base s))).

(** Objects that are referred to stay, and no page table changes. *)
Record mem_step (m m' : Mm) (H : list SlabArc) : Prop := {
  ms_objs h : h ∈ H -> obj m' h = obj m h;
  ms_words : words (kmem m') = words (kmem m);
  ms_frames x : frame (phys (kmem m')) x <-> frame (phys (kmem m)) x;
  ms_flushes : flushes (kmem m') = flushes (kmem m)
}.

Lemma mem_step_refl m H : mem_step m m H.
Proof. by split. Qed.

Lemma mem_step_view m m' H v : mem_step m m' H -> view (kmem m') r v = view (kmem m) r v.
Proof. intros Hs. apply walk_ext. intros. unfold entry, word. by rewrite (ms_words _ _ _ Hs). Qed.

(** The allocator of pages took the frames [hs], and [d] more pages are in use. *)
Definition pa_ok (s : Vb) : Prop := pa_slab_count (page_allocator (vb_base s)) = u64 (Z.of_nat (length (pa_slab_list (page_allocator (vb_base s))))).
Definition pages_used (s : Vb) : Z := used_page_count (page_allocator (vb_base s)).
Definition pa_step (s s' : Vb) (hs : list SlabArc) (d : Z) : Prop :=
  pa_arcs s' = hs ++ pa_arcs s /\ pages_used s' = u64 (pages_used s + d) /\ (pa_ok s -> pa_ok s').

Lemma pa_step_trans s1 s2 s3 hs1 hs2 d1 d2 : pa_step s1 s2 hs1 d1 -> pa_step s2 s3 hs2 d2 -> pa_step s1 s3 (hs2 ++ hs1) (d1 + d2).
Proof.
  intros (A1 & B1 & C1) (A2 & B2 & C2). split_and!; [by rewrite A2, A1, app_assoc| |intros Hp; apply C2, C1, Hp]. rewrite B2, B1.
  unfold u64. rewrite Zplus_mod_idemp_l. f_equal. lia.
Qed.

Lemma pa_step_same s s' : vb_base s' = vb_base s -> is_u64 (pages_used s) -> pa_step s s' [] 0.
Proof. intros E Hu. unfold pa_step, pa_arcs, pages_used, pa_ok in *. rewrite E, Z.add_0_r, u64_id by done. done. Qed.

(** A page from the allocator, which may take a frame for more pages. *)
Lemma alloc_page_spec s D H n : mm_inv (vb_mm s) D H -> enough (vb_mm s) (S n) ->
  wp alloc_page s (fun page s' => exists hs, mm_inv (vb_mm s') D (hs ++ H) /\ enough (vb_mm s') n /\ mem_step (vb_mm s) (vb_mm s') H /\ same_space s s' /\
    pa_step s s' hs 1) (fun _ _ => False).
Proof.
  intros HM [Hfr Hcap]. unfold alloc_page, get_pa, set_pa. wp_steps. destruct (pa_free_list (page_allocator (vb_base s))) as [|page l] eqn:El.
  - rewrite bool_decide_eq_true_2 by done. unfold pa_alloc_slab, get_pa, set_pa. wp_steps. apply wp_on_mm.
    eapply wp_mono; [apply (allocate_frame_spec U kroot other (vb_mm s) D H n HM Hfr); lia| |done]. intros h m1 (f & Hnf & Hfr1). wp_steps.
    apply wp_on_mm. eapply arc_get_spec; [apply Hnf|]. wp_steps. cbn [f_start].
    change (Z.to_nat (STRUCT_PAGES_IN_SMALL_PAGE - 1)) with 55%nat.
    destruct (push_pages 55 1 _ _ _) as [|page l'] eqn:Ep.
    { exfalso. clear -Ep. revert Ep. generalize (pa_free_list (page_allocator (vb_base s))). intros l0. by cbn [push_pages]. }
    wp_steps. exists [h]. cbn [vb_mm vb_base pa_slab_list page_allocator used_page_count]. split; [apply Hnf|]. split; [|split; [|split; [done|]]].
    + pose proof (nf_capacity _ _ _ _ _ _ _ _ _ Hnf). split; [done|lia].
    + split; [|apply Hnf|apply (nf_phys _ _ _ _ _ _ _ _ _ Hnf)|apply Hnf]. intros h' Hin. apply (nf_others _ _ _ _ _ _ _ _ _ Hnf). intros ->.
      by destruct (nf_new _ _ _ _ _ _ _ _ _ Hnf).
    + split_and!; [done|done|]. unfold pa_ok. cbn [vb_base page_allocator pa_slab_count pa_slab_list length]. intros ->.
      unfold u64. rewrite Zplus_mod_idemp_l. f_equal. lia.
  - rewrite bool_decide_eq_false_2 by done. wp_steps. rewrite El. wp_steps. exists []. split; [done|]. split; [|done].
    apply (enough_less _ (S n)); [by split|lia].
Qed.

(** ** What a step keeps *)

(** The frame object [h] stands for the frame at [f]. *)
Definition frame_at (m : Mm) (h : SlabArc) (f : Z) : Prop := exists n, obj m h = Some (mkFrame f SmallPage, n).

(** The objects in [H] stand for the same frames, and the frames hold the same data. *)
Definition kept (m m' : Mm) (H : list SlabArc) : Prop :=
  forall h f, h ∈ H -> frame_at m h f -> frame_at m' h f /\ forall a, OFF + f <= a < OFF + f + 4096 -> word (kmem m') a = word (kmem m) a.

Lemma kept_trans m1 m2 m3 H1 H2 H : kept m1 m2 H1 -> kept m2 m3 H2 -> H ⊆ H1 -> H ⊆ H2 -> kept m1 m3 H.
Proof.
  intros K1 K2 S1 S2 h f Hin Hf. destruct (K1 h f (S1 _ Hin) Hf) as [Hf2 W1]. destruct (K2 h f (S2 _ Hin) Hf2) as [Hf3 W2].
  split; [done|]. intros a Ha. by rewrite W2, W1.
Qed.

Lemma kept_refl m H : kept m m H.
Proof. by intros h f _ ?. Qed.

Lemma kept_less m m' H H' : kept m m' H -> H' ⊆ H -> kept m m' H'.
Proof. intros K HS h f Hin. apply K, HS, Hin. Qed.

Lemma kept_mem m m' H : mem_step m m' H -> kept m m' H.
Proof.
  intros Hs h f Hin [n Ho]. split; [exists n; by rewrite (ms_objs _ _ _ Hs)|]. intros a _. unfold word. by rewrite (ms_words _ _ _ Hs).
Qed.

(** Only addresses in a range of this address space are translated differently. *)
Record views_step (k k' : Kmem) (D D' : gmap Z node) (lo hi : Z) : Prop := {
  vw_roots r0 : root D' r0 <-> root D r0;
  vw_frames x : frame (phys k') x <-> frame (phys k) x;
  vw_here v : 0 <= v < 2 ^ 48 -> ~ (lo <= v < hi) -> view k' r v = view k r v;
  vw_others r0 v : root D r0 -> r0 <> r -> 0 <= v < 2 ^ 48 -> r <> kroot \/ own kroot r0 4 (index 4 v) -> view k' r0 v = view k r0 v
}.

Lemma views_refl k D lo hi : views_step k k D D lo hi.
Proof. by split. Qed.

Lemma views_trans k1 k2 k3 D1 D2 D3 lo hi lo1 hi1 lo2 hi2 : views_step k1 k2 D1 D2 lo1 hi1 -> views_step k2 k3 D2 D3 lo2 hi2 ->
  lo <= lo1 -> hi1 <= hi -> lo <= lo2 -> hi2 <= hi -> views_step k1 k3 D1 D3 lo hi.
Proof.
  intros [A1 B1 C1 E1] [A2 B2 C2 E2] H1 H2 H3 H4. split.
  - intros r0. by rewrite A2.
  - intros x. by rewrite B2.
  - intros v Hv Hn. rewrite C2, C1; [done|done|lia|done|lia].
  - intros r0 v Hr Hne Hv Ho. rewrite E2, E1; try done. by apply A1.
Qed.

Lemma views_mem m m' D lo hi : words (kmem m') = words (kmem m) -> (forall x, frame (phys (kmem m')) x <-> frame (phys (kmem m)) x) ->
  views_step (kmem m) (kmem m') D D lo hi.
Proof.
  intros W Hf. assert (Hv : forall r0 v, view (kmem m') r0 v = view (kmem m) r0 v).
  { intros. apply walk_ext. intros. unfold entry, word. by rewrite W. }
  split; [done|done|intros; apply Hv|intros; apply Hv].
Qed.

(** A step of an address space that keeps the objects in [H]. *)
Record space_step (s s' : Vb) (D D' : gmap Z node) (H : list SlabArc) (lo hi : Z) : Prop := {
  ss_views : views_step (kmem (vb_mm s)) (kmem (vb_mm s')) D D' lo hi;
  ss_kept : kept (vb_mm s) (vb_mm s') H;
  ss_space : same_space s s'
}.

Lemma step_refl s D H lo hi : space_step s s D D H lo hi.
Proof. by split. Qed.

Lemma step_trans s1 s2 s3 D1 D2 D3 H1 H2 H lo hi lo1 hi1 lo2 hi2 : space_step s1 s2 D1 D2 H1 lo1 hi1 -> space_step s2 s3 D2 D3 H2 lo2 hi2 ->
  H ⊆ H1 -> H ⊆ H2 -> lo <= lo1 -> hi1 <= hi -> lo <= lo2 -> hi2 <= hi -> space_step s1 s3 D1 D3 H lo hi.
Proof.
  intros [A1 B1 [C1 E1]] [A2 B2 [C2 E2]] ? ? ? ? ? ?. split; [by eapply views_trans|by eapply kept_trans|]. split; congruence.
Qed.

Lemma step_less s s' D D' H H' lo hi : space_step s s' D D' H lo hi -> H' ⊆ H -> space_step s s' D D' H' lo hi.
Proof. intros [A B C] HS. split; [done|by eapply kept_less|done]. Qed.

Lemma step_mem s s' D H lo hi : mem_step (vb_mm s) (vb_mm s') H -> same_space s s' -> space_step s s' D D H lo hi.
Proof. intros Hs Hsp. split; [apply views_mem; apply Hs|by apply kept_mem|done]. Qed.

Lemma step_same_mm s s' D H lo hi : vb_mm s' = vb_mm s -> same_space s s' -> space_step s s' D D H lo hi.
Proof. intros E Hsp. split; rewrite ?E; [apply views_refl|apply kept_refl|done]. Qed.

(** ** Mapping and unmapping a page *)

Definition page_mapped (k : Kmem) (virt_addr f : Z) (writable : bool) : Prop :=
  forall v, virt_addr <= v < virt_addr + 4096 -> view k r v = Some (mkTr (f + (v - virt_addr)) (U r) writable 1).
Definition page_unmapped (k : Kmem) (virt_addr : Z) : Prop := forall v, virt_addr <= v < virt_addr + 4096 -> view k r v = None.

(** A page at an address that this address space may use. *)
Definition page_place (virt_addr : Z) : Prop :=
  virt_addr mod 4096 = 0 /\ forall v, virt_addr <= v < virt_addr + 4096 -> own_addr kroot r v.

Lemma place_args virt_addr f : page_place virt_addr -> addr_ok f -> page_args kroot r SmallPage f virt_addr.
Proof. intros [Ha Ho] Hf. split; [done|by split; [|apply Hf]|]. split; [apply Ho; lia|done]. Qed.

Lemma inside_small virt_addr v : inside 1 virt_addr v = true <-> virt_addr <= v < virt_addr + 4096.
Proof. unfold inside. rewrite andb_true_iff, Z.leb_le, Z.ltb_lt. change (2 ^ shift 1) with 4096. done. Qed.

(** Options that [map_page] implements for this address space. *)
Definition options_ok (options : Z) : Prop :=
  is_u8 options /\ U r = has options USER_ACCESSIBLE /\ exists flags, final_flags SmallPage options = Some flags.

(** Pages of data are off the tables and off each other. *)
Lemma data_off m D H h f g a : mm_inv m D H -> frame_at m h f -> frame (phys (kmem m)) g -> g <> f -> OFF + f <= a < OFF + f + 4096 -> off_page g 4096 a.
Proof.
  intros HM [n Ho] Hg Hne Ha Hin. destruct (frame_is_data _ _ _ _ _ _ HM Ho) as [_ [_ Hfa]].
  pose proof (frame_aligned _ g (pi_phys _ _ _ _ _ (mi_tables _ _ _ _ _ _ HM)) Hg) as Hga. apply Hne. dlia.
Qed.

Lemma kept_tables m k' D D' H H' : mm_inv m D H -> mm_inv (set_kmem k' m) D' H -> (forall x, frame (phys k') x <-> frame (phys (kmem m)) x) ->
  (forall h f a, h ∈ H' -> frame_at m h f -> OFF + f <= a < OFF + f + 4096 ->
    (forall g, is_Some (D !! g) -> off_page g 4096 a) -> (forall g, is_Some (D' !! g) -> off_page g 4096 a) -> word k' a = word (kmem m) a) ->
  kept m (set_kmem k' m) H'.
Proof.
  intros HM HM' Hfr Hw h f Hin Hf. split; [done|]. intros a Ha.
  assert (Hoff : forall m1 D1, mm_inv m1 D1 H -> frame_at m1 h f -> (forall x, frame (phys (kmem m1)) x -> frame (phys (kmem m)) x) ->
    forall g, is_Some (D1 !! g) -> off_page g 4096 a).
  { intros m1 D1 HM1 [n Ho] Hfr1 g [nd Hg]. pose proof (mi_tables _ _ _ _ _ _ HM1) as HI. eapply (data_off m); [exact HM|exact Hf| | |done].
    - apply Hfr1. eapply used_addr; [apply HI|apply HI|]. by eapply (pi_used _ _ _ _ _ HI).
    - intros ->. destruct (mi_frame _ _ _ _ _ _ HM1 h (mkFrame f SmallPage) n Ho) as (_ & _ & Hn). cbn [f_start] in Hn. congruence. }
  apply (Hw h f); [done..|by apply (Hoff m)|]. apply (Hoff _ _ HM' Hf). intros x. apply Hfr.
Qed.

Lemma space_map_spec s D H H' n h f virt_addr options : mm_inv (vb_mm s) D H -> root D r -> table_l4 (page_table (vb_base s)) = OFF + r ->
  frame_at (vb_mm s) h f -> page_place virt_addr -> options_ok options -> page_unmapped (kmem (vb_mm s)) virt_addr ->
  enough (vb_mm s) (n + 3) -> zeroes options = false \/ (h ∉ H') ->
  wp (space_map_page f virt_addr options) s (fun _ s' => exists D', mm_inv (vb_mm s') D' H /\ enough (vb_mm s') n /\ vb_base s' = vb_base s /\
    space_step s s' D D' H' virt_addr (virt_addr + 4096) /\ (forall h, obj (vb_mm s') h = obj (vb_mm s) h) /\
    page_mapped (kmem (vb_mm s')) virt_addr f (has options WRITABLE) /\
    (zeroes options = true -> forall a, OFF + f <= a < OFF + f + 4096 -> a mod 8 = 0 -> word (kmem (vb_mm s')) a = 0)) (fun _ _ => False).
Proof.
  intros HM Hr Ht Hfh Hpl (Hu8 & HU & flags & Hfl) Hun [Hfr Hcap] Hz. pose proof Hfh as [cnt Ho]. destruct (frame_is_data _ _ _ _ _ _ HM Ho) as [Hdata Hfa].
  destruct (final_flags_fit SmallPage options flags ltac:(done) Hu8 Hfl) as (_ & F2 & F1).
  unfold space_map_page. wp_steps. apply wp_on_mm, wp_on_kmem.
  eapply wp_mono; [eapply (map_page_spec U kroot (page_table (vb_base s)) (kmem (vb_mm s)) D r SmallPage f virt_addr options flags n); try done| |done].
  - apply HM.
  - by apply place_args.
  - intros v Hv Hin. apply Hun. by apply inside_small.
  - by right.
  - intros _ k' (D' & HI' & Hfr' & Hme & M1 & M2). exists D'. cbn [vb_mm vb_base].
    assert (HM' : mm_inv (set_kmem k' (vb_mm s)) D' H).
    { eapply mm_inv_grown; [exact HM|done|intros g; apply (me_new _ _ _ _ _ _ _ Hme)|apply Hme|apply Hme]. }
    split; [done|]. split; [split; [done|]; change (capacity (set_kmem k' (vb_mm s))) with (capacity (vb_mm s)); lia|]. split_and!; [done| |done| |].
    + split; [|apply (kept_tables _ _ D D' H H' HM HM'); [apply Hme|]|done].
      * split; [intros r0; split; [apply Hme|apply Hme]|apply Hme| |done].
        intros v Hv Hn. rewrite M1 by done. destruct (inside _ _ v) eqn:E; [|done]. by apply inside_small in E.
      * intros h' f' a Hin Hf' Ha _ Ho'. apply (me_words _ _ _ _ _ _ _ Hme); [done|]. destruct Hz as [Hz|Hz]; [by left|right].
        eapply (data_off (vb_mm s)); [exact HM|exact Hf'| | |done].
        { eapply used_addr; [apply HM|apply HM|]. by eapply (mi_frame _ _ _ _ _ _ HM _ _ _ Ho). }
        destruct Hf' as [n' Ho2]. intros ->. apply Hz. by rewrite (mi_inj _ _ _ _ _ _ HM _ _ _ _ _ _ Ho Ho2 eq_refl).
    + intros v Hv. rewrite M1 by apply Hpl, Hv. change (level_of SmallPage) with 1%nat. rewrite (proj2 (inside_small _ _) Hv), F2, F1, <- HU. done.
    + intros Hz' a Ha Ha8. by eapply (me_zero _ _ _ _ _ _ _ Hme).
Qed.

Lemma space_unmap_spec s D H f w virt_addr : mm_inv (vb_mm s) D H -> root D r -> r <> kroot -> table_l4 (page_table (vb_base s)) = OFF + r ->
  addr_ok f -> page_place virt_addr -> page_mapped (kmem (vb_mm s)) virt_addr f w ->
  wp (space_unmap_page f virt_addr) s (fun _ s' => exists D', mm_inv (vb_mm s') D' H /\ vb_base s' = vb_base s /\
    space_step s s' D D' H virt_addr (virt_addr + 4096) /\ (forall h, obj (vb_mm s') h = obj (vb_mm s) h) /\
    page_unmapped (kmem (vb_mm s')) virt_addr) (fun _ _ => False).
Proof.
  intros HM Hr Hk Ht Hf Hpl Hmap. unfold space_unmap_page. wp_steps. apply wp_on_mm, wp_on_kmem.
  eapply wp_mono; [eapply (impl_unmap_page_spec U kroot (page_table (vb_base s)) (kmem (vb_mm s)) D r SmallPage f virt_addr); try done| |done].
  - apply HM.
  - by apply place_args.
  - apply Hmap. lia.
  - done.
  - intros _ k' (D' & Hsk & HI' & [U1 U2] & _). exists D'. cbn [vb_mm vb_base].
    assert (HM' : mm_inv (set_kmem k' (vb_mm s)) D' H) by (by eapply mm_inv_shrunk). split_and!; [done|done| |done|].
    + split; [|apply (kept_tables _ _ D D' H H HM HM'); [apply Hsk|]|done].
      * split; [intros r0; split; [apply Hsk|apply Hsk]|apply Hsk| |done].
        intros v Hv Hn. rewrite U1 by done. destruct (inside _ _ v) eqn:E; [|done]. by apply inside_small in E.
      * intros h' f' a Hin Hf' Ha Ho' _. by apply (sk_words _ _ _ _ Hsk).
    + intros v Hv. rewrite U1 by apply Hpl, Hv. change (level_of SmallPage) with 1%nat. by rewrite (proj2 (inside_small _ _) Hv).
Qed.
End Space.
