(* ===== verification/VmemSegs.v ===== *)
(** * Virtual memory: pages and segments

    A segment is a run of pages of an address space; what its pages record is what the processor sees. *)

From stdpp Require Import base numbers list gmap.
From S2P Require Import RustPrelude PhysMem PhysFrames PhysInit PhysProps PageTable PageWalk PageMem PageTableProps Slab SlabProps Vmem VmemSpace.

Open Scope Z_scope.

(** ** Runs of pages *)

Fixpoint run_of (st : Z) (l : list Page) : Prop :=
  match l with
  | [] => True
  | p :: l' => pg_start p = st /\ run_of (st + 4096) l'
  end.

Lemma run_app st l l' : run_of st (l ++ l') <-> run_of st l /\ run_of (st + 4096 * Z.of_nat (length l)) l'.
Proof.
  revert st. induction l as [|p l IH]; intros st; cbn [run_of app length]; [by rewrite Z.mul_0_r, Z.add_0_r; split; [|intros [_ ?]]|].
  rewrite IH. replace (st + 4096 * Z.of_nat (S (length l))) with (st + 4096 + 4096 * Z.of_nat (length l)) by lia. tauto.
Qed.

Lemma run_lookup st l i p : run_of st l -> l !! i = Some p -> pg_start p = st + 4096 * Z.of_nat i.
Proof.
  revert st i. induction l as [|q l IH]; intros st [|i] Hr Hi; cbn in Hr, Hi; try done.
  - injection Hi as <-. lia.
  - rewrite (IH _ _ (proj2 Hr) Hi). lia.
Qed.

(** The last page of a run is inserted at its end. *)
Lemma insert_last st l p : run_of st l -> pg_start p = st + 4096 * Z.of_nat (length l) -> tree_insert pg_start p l = l ++ [p].
Proof.
  intros Hr Hp. revert st Hr Hp. induction l as [|q l IH]; intros st Hr Hp; [done|]. cbn [length] in Hp. cbn [tree_insert app]. destruct Hr as [Hq Hr].
  rewrite (proj2 (Z.leb_le _ _)) by lia. by rewrite (IH (st + 4096)) by (done || lia).
Qed.

(** The page of an address is found where it is. *)
Lemma find_in_run st l i p : run_of st l -> l !! i = Some p -> tree_find pg_start (st + 4096 * Z.of_nat i) l = Some p.
Proof.
  revert st i. induction l as [|q l IH]; intros st i Hr Hi; [done|]. destruct Hr as [Hq Hr]. destruct i as [|i]; cbn [tree_find].
  - rewrite Hq, (proj2 (Z.eqb_eq _ _)) by lia. by injection Hi as ->.
  - rewrite (proj2 (Z.eqb_neq _ _)) by lia. rewrite <- (IH _ i Hr Hi). f_equal. lia.
Qed.

Lemma page_addr_eq v : 0 <= v < 2 ^ 64 -> page_addr_of v = v - v mod 4096.
Proof.
  intros Hv. unfold page_addr_of. change PAGE_SIZE_SMALL with (2 ^ 12). rewrite land_not_mask by (unfold is_u64; lia). change (2 ^ 12) with 4096. dlia.
Qed.

(** The page of an address is changed where it is. *)
Lemma update_in_run st l i p f : run_of st l -> l !! i = Some p -> tree_update pg_start (pg_start p) f l = <[i := f p]> l.
Proof.
  revert st i. induction l as [|q l IH]; intros st i Hr Hi; [done|]. pose proof (run_lookup _ _ _ _ Hr Hi) as Hp. destruct Hr as [Hq Hr].
  unfold tree_update. cbn [fmap list_fmap]. destruct i as [|i]; cbn in Hi |- *.
  - injection Hi as ->. rewrite Z.eqb_refl. f_equal. rewrite <- (list_fmap_id l) at 2. apply list_fmap_ext. intros j y Hy.
    rewrite (run_lookup _ _ _ _ Hr Hy). rewrite (proj2 (Z.eqb_neq _ _)) by lia. done.
  - rewrite (proj2 (Z.eqb_neq _ _)) by lia. f_equal. by eapply IH.
Qed.

Lemma run_insert st l i p p' : run_of st l -> l !! i = Some p -> pg_start p' = pg_start p -> run_of st (<[i := p']> l).
Proof.
  revert st i. induction l as [|q l IH]; intros st i Hr Hi Hp; [done|]. destruct Hr as [Hq Hr], i as [|i]; cbn in Hi |- *; (split; [|by eauto || done]); [|done].
  injection Hi as ->. congruence.
Qed.

(** Options that do not matter to a right may be removed. *)
Lemma has_without options flag bit_ : Z.land flag bit_ = 0 -> has (without options flag) bit_ = has options bit_.
Proof.
  intros Hz. unfold has, without. f_equal. apply Z.bits_inj'. intros i Hi. rewrite !Z.land_spec, Z.ldiff_spec.
  assert (Hb : Z.testbit (Z.land flag bit_) i = false) by (rewrite Hz; apply Z.bits_0). rewrite Z.land_spec in Hb.
  destruct (Z.testbit options i), (Z.testbit flag i), (Z.testbit bit_ i); done.
Qed.

Definition page_arcs (p : Page) : list SlabArc := match pg_frame p with Some h => [h] | None => [] end.

Lemma arcs_cons p l : slab_arcs (p :: l) = page_arcs p ++ slab_arcs l.
Proof. unfold slab_arcs, page_arcs. cbn. by destruct (pg_frame p). Qed.

Lemma arcs_app l l' : slab_arcs (l ++ l') = slab_arcs l ++ slab_arcs l'.
Proof. apply omap_app. Qed.

Lemma arcs_insert l i p h : l !! i = Some p -> pg_frame p = None -> slab_arcs (<[i := set_frame_of (Some h) p]> l) ≡ₚ h :: slab_arcs l.
Proof.
  intros Hi Hp. rewrite insert_take_drop by (by eapply lookup_lt_Some). rewrite <- (take_drop_middle l i p Hi) at 3. rewrite !arcs_app, !arcs_cons.
  unfold page_arcs. cbn [set_frame_of pg_frame]. rewrite Hp. cbn [app]. by rewrite Permutation_middle.
Qed.

Section Segs.
Context (U : Z -> bool) (kroot r : Z) (other : Z -> Prop).

Abbreviation mm_inv := (mm_inv U kroot other).
Abbreviation page_mapped := (page_mapped U r).
Abbreviation page_unmapped := (page_unmapped r).
Abbreviation page_place := (page_place kroot r).
Abbreviation space_step := (space_step kroot r).

(** ** Pages *)

(** The options with which [fix_pagefault] maps a page. *)
Definition strip_lazy (options : Z) : Z := without (without options LAZY) GUARD.

(** The page [p] is what the processor sees at its addresses; one without a frame can be mapped later if programs may use it. *)
Definition page_ok (m : Mm) (p : Page) : Prop :=
  page_place (pg_start p) /\
  match pg_frame p with
  | Some h => exists f, frame_at m h f /\ page_mapped (kmem m) (pg_start p) f (has (pg_options p) WRITABLE)
  | None => page_unmapped (kmem m) (pg_start p) /\ (has (pg_options p) USER_ACCESSIBLE = true -> options_ok U r (strip_lazy (pg_options p)))
  end.

Lemma page_ok_step s s' D D' H lo hi p : space_step s s' D D' H lo hi -> page_arcs p ⊆ H -> pg_start p + 4096 <= lo \/ hi <= pg_start p ->
  page_ok (vb_mm s) p -> page_ok (vb_mm s') p.
Proof.
  intros [Hv Hk _] Hin Hoff [Hpl Hp]. split; [done|]. pose proof (vw_here _ _ _ _ _ _ _ _ Hv) as He.
  unfold page_arcs in Hin. destruct (pg_frame p) as [h|].
  - destruct Hp as (f & Hf & Hm). exists f. split; [apply (Hk h f); [apply Hin; by left|done]|]. intros v Hvr. rewrite He; [by apply Hm|apply Hpl, Hvr|lia].
  - destruct Hp as [Hp Hl]. split; [|done]. intros v Hvr. rewrite He; [by apply Hp|apply Hpl, Hvr|lia].
Qed.

(** The pages of a run lie in its range. *)
Lemma run_range st l p : run_of st l -> p ∈ l -> st <= pg_start p /\ pg_start p + 4096 <= st + 4096 * Z.of_nat (length l).
Proof.
  intros Hr Hin. apply list_elem_of_lookup in Hin as [i Hi]. rewrite (run_lookup _ _ _ _ Hr Hi). apply lookup_lt_Some in Hi. lia.
Qed.

Lemma arcs_in p l : p ∈ l -> page_arcs p ⊆ slab_arcs l.
Proof.
  intros Hin h Hh. unfold page_arcs in Hh. apply list_elem_of_omap. exists p. split; [done|]. destruct (pg_frame p); [|by apply elem_of_nil in Hh].
  by apply list_elem_of_singleton in Hh as ->.
Qed.

Lemma pages_ok_step s s' D D' H lo hi st l : space_step s s' D D' H lo hi -> slab_arcs l ⊆ H -> run_of st l ->
  st + 4096 * Z.of_nat (length l) <= lo \/ hi <= st -> Forall (page_ok (vb_mm s)) l -> Forall (page_ok (vb_mm s')) l.
Proof.
  intros Hs Hin Hr Hoff Hall. apply Forall_forall. intros p Hp. pose proof (run_range _ _ _ Hr Hp). rewrite Forall_forall in Hall.
  eapply page_ok_step; [exact Hs| |lia|by apply Hall]. etrans; [by apply arcs_in|done].
Qed.

(** ** Pages are cleared *)

(** A reference that is dropped leaves the others. *)
Lemma drop_spec s D H h lo hi : mm_inv (vb_mm s) D (h :: H) ->
  wp (on_mm (arc_drop h)) s (fun _ s' => mm_inv (vb_mm s') D H /\ space_step s s' D D H lo hi /\ vb_base s' = vb_base s /\
    words (kmem (vb_mm s')) = words (kmem (vb_mm s))) (fun _ _ => False).
Proof.
  intros HM. apply wp_on_mm. eapply wp_mono; [by apply (arc_drop_spec U kroot other (vb_mm s) D H h)| |done].
  intros _ m' (f & n & Ho & Hd). split; [apply Hd|]. split; [|split; [done|apply Hd]]. split; [apply views_mem; apply Hd| |done].
  intros h' f' Hin [n' Ho']. cbn [vb_mm]. split; [|intros a _; unfold word; by rewrite (dr_words _ _ _ _ _ _ _ _ _ Hd)].
  destruct (decide (h' = h)) as [->|Hne].
  - destruct (dr_self _ _ _ _ _ _ _ _ _ Hd Hin) as [n1 ?]. rewrite Ho in Ho'. injection Ho' as <- _. by exists n1.
  - exists n'. by rewrite (dr_others _ _ _ _ _ _ _ _ _ Hd).
Qed.

(** The space of [s] with the pages [l] of a run. *)
Record run_ok (s : Vb) (D : gmap Z node) (st : Z) (l : list Page) (H : list SlabArc) : Prop := {
  ro_inv : mm_inv (vb_mm s) D (slab_arcs l ++ H);
  ro_root : root D r;
  ro_table : table_l4 (page_table (vb_base s)) = OFF + r;
  ro_run : run_of st l;
  ro_pages : Forall (page_ok (vb_mm s)) l
}.

Hypothesis Hprog : r <> kroot.

Lemma free_page_spec s page (Q : unit -> Vb -> Prop) X : (forall s', vb_mm s' = vb_mm s -> same_space s s' -> pa_step s s' [] (-1) -> Q tt s') ->
  wp (free_page page) s Q X.
Proof. intros HQ. unfold free_page, get_pa, set_pa. wp_steps. by apply HQ. Qed.

Lemma clear_page_spec s D H p : mm_inv (vb_mm s) D (page_arcs p ++ H) -> root D r -> table_l4 (page_table (vb_base s)) = OFF + r -> page_ok (vb_mm s) p ->
  wp (clear_page p) s (fun _ s' => exists D', mm_inv (vb_mm s') D' H /\ space_step s s' D D' H (pg_start p) (pg_start p + 4096) /\
    page_unmapped (kmem (vb_mm s')) (pg_start p) /\ pa_step s s' [] (-1)) (fun _ _ => False).
Proof.
  intros HM Hr Ht [Hpl Hp]. unfold clear_page, page_arcs in *. destruct (pg_frame p) as [h|].
  - destruct Hp as (f & [n Ho] & Hm). wp_step. eapply get_frame; [exact Ho|]. cbn [f_start]. wp_step.
    eapply wp_mono; [eapply (space_unmap_spec U kroot r other s D (h :: H) f); try done| |done].
    { by eapply frame_is_data. }
    intros _ s1 (D' & HM1 & Hb1 & Hst1 & Hobj & Hun). wp_step. apply free_page_spec. intros s2 Em Hsp2 Hpa2.
    eapply wp_mono; [apply (drop_spec s2 D' H h (pg_start p) (pg_start p + 4096)); by rewrite Em| |done].
    intros _ s3 (HM3 & Hst3 & Hb3 & Hw3). exists D'. split_and!; [done| | |].
    + pose proof (step_same_mm kroot r s1 s2 D' H (pg_start p) (pg_start p + 4096) Em Hsp2) as Hst2.
      eapply step_trans; [exact Hst1| |intros ?; by right|done|apply Z.le_refl..].
      eapply step_trans; [exact Hst2|exact Hst3|done|done|apply Z.le_refl..].
    + intros v Hv. rewrite <- (Hun v Hv). apply walk_ext. intros. unfold entry, word. by rewrite Hw3, Em.
    + unfold pa_step, pa_arcs, pages_used, pa_ok in *. rewrite Hb3. by rewrite Hb1 in Hpa2.
  - apply free_page_spec. intros s' Em Hsp Hpa. exists D. rewrite Em. split_and!; [done| |apply Hp|done..].
    by apply step_same_mm.
Qed.

Lemma clear_pages_spec l : forall s D H st sz, run_ok s D st l H -> is_u64 sz -> is_u64 (pages_used s) ->
  wp (clear_pages l sz) s (fun sz' s' => exists D', sz' = u64 (sz + 4096 * Z.of_nat (length l)) /\ mm_inv (vb_mm s') D' H /\
    space_step s s' D D' H st (st + 4096 * Z.of_nat (length l)) /\ Forall (fun p => page_unmapped (kmem (vb_mm s')) (pg_start p)) l /\
    pa_step s s' [] (- Z.of_nat (length l))) (fun _ _ => False).
Proof.
  induction l as [|p l IH]; intros s D H st sz [HM Hr Ht Hrun Hpg] Hsz Hpu; cbn [clear_pages].
  - wp_steps. exists D. rewrite Z.mul_0_r, !Z.add_0_r, u64_id by done. split_and!; [done|done|apply step_refl|by constructor|by apply pa_step_same].
  - rewrite arcs_cons, <- app_assoc in HM. destruct Hrun as [Hp Hrun]. apply Forall_cons in Hpg as [Hpok Hpg]. wp_step.
    eapply wp_mono; [by apply (clear_page_spec s D (slab_arcs l ++ H) p HM)| |done]. intros _ s1 (D1 & HM1 & Hst1 & Hun1 & Hpa1). rewrite Hp in *.
    assert (Hro : run_ok s1 D1 (st + 4096) l H).
    { split; [done| |by rewrite (proj1 (ss_space _ _ _ _ _ _ _ _ _ Hst1))|done|].
      - by apply (vw_roots _ _ _ _ _ _ _ _ (ss_views _ _ _ _ _ _ _ _ _ Hst1)).
      - eapply (pages_ok_step s); [exact Hst1|by apply list_subseteq_app_l|done|lia|done]. }
    eapply wp_mono; [apply (IH s1 D1 H (st + 4096) _ Hro); [apply u64_range|destruct Hpa1 as (_ & -> & _); apply u64_range]| |done].
    intros sz' s2 (D2 & -> & HM2 & Hst2 & Hun2 & Hpa2). exists D2. cbn [length]. split_and!; [|done| | |].
    + unfold u64. change PAGE_SIZE_SMALL with 4096. rewrite Zplus_mod_idemp_l. f_equal. lia.
    + eapply step_trans; [exact Hst1|exact Hst2|by apply list_subseteq_app_r|done|lia..].
    + constructor; [|done]. rewrite Hp. intros v Hv. rewrite (vw_here _ _ _ _ _ _ _ _ (ss_views _ _ _ _ _ _ _ _ _ Hst2)); [by apply Hun1| |lia].
      destruct Hpok as [[_ Hpl] _]. rewrite Hp in Hpl. apply Hpl, Hv.
    + pose proof (pa_step_trans _ _ _ _ _ _ _ Hpa1 Hpa2) as Hpa. by replace (- Z.of_nat (S (length l))) with (-1 + - Z.of_nat (length l)) by lia.
Qed.

(** ** Pages are allocated *)

(** The page [p], number [i] of [num_pages] that are allocated with [options]: it has a frame unless it is a guard
    or the options are lazy, and the frame is zeroed unless the options say otherwise. *)
Definition page_new (m : Mm) (options num_pages i : Z) (p : Page) : Prop :=
  pg_options p = page_options options i num_pages /\
  match pg_frame p with
  | Some h => pg_options p <> 0 /\ has options LAZY = false /\
    (zeroes (pg_options p) = true -> exists f, frame_at m h f /\ forall a, OFF + f <= a < OFF + f + 4096 -> a mod 8 = 0 -> word (kmem m) a = 0)
  | None => pg_options p = 0 \/ has options LAZY = true
  end.

Lemma page_new_kept m m' H options num_pages i p : kept m m' H -> page_arcs p ⊆ H -> page_new m options num_pages i p -> page_new m' options num_pages i p.
Proof.
  intros Hk Hin [Ho Hp]. split; [done|]. unfold page_arcs in Hin. destruct (pg_frame p) as [h|]; [|done]. destruct Hp as (H1 & H2 & H3). split_and!; [done..|].
  intros Hz. destruct (H3 Hz) as (f & Hf & Hw). destruct (Hk h f) as [Hf' Hw']; [apply Hin; by left|done|]. exists f. split; [done|]. intros a Ha Ha8.
  rewrite Hw' by done. by apply Hw.
Qed.

(** Pages whose frames nobody held. *)
Definition fresh_pages (H : list SlabArc) (l : list Page) : Prop := NoDup (slab_arcs l) /\ forall h, h ∈ slab_arcs l -> h ∉ H.

Lemma fresh_cons H H' p l : fresh_pages H' l -> fresh_pages H [p] -> page_arcs p ⊆ H' -> H ⊆ H' -> fresh_pages H (p :: l).
Proof.
  unfold fresh_pages. rewrite !(arcs_cons p). change (slab_arcs []) with (@nil SlabArc). rewrite app_nil_r. intros [N1 F1] [N2 F2] Hp HH. split.
  - apply NoDup_app. split; [done|]. split; [|done]. intros h Hh Hl. apply (F1 h Hl), Hp, Hh.
  - intros h [Hh|Hh]%elem_of_app; [by apply F2|]. intros Hin. apply (F1 h Hh), HH, Hin.
Qed.

Lemma frame_part_spec s D H n st options lazy at_ : mm_inv (vb_mm s) D H -> root D r -> table_l4 (page_table (vb_base s)) = OFF + r ->
  page_place st -> page_unmapped (kmem (vb_mm s)) st -> 
  (options <> 0 -> lazy = false -> options_ok U r options) -> (has options USER_ACCESSIBLE = true -> options_ok U r (strip_lazy options)) -> enough (vb_mm s) (n + 4) ->
  forall h, wp (if negb (options =? 0) && negb lazy then
      let* frame := on_err (on_mm (allocate_frame SmallPage)) h in
      let* f := on_mm (arc_get frame) in
      space_map_page (f_start f) st options;;;
      ret (Some frame)
    else ret None) s (fun fo s' => exists D', let p := mkPage at_ st fo options in
      mm_inv (vb_mm s') D' (page_arcs p ++ H) /\ enough (vb_mm s') n /\ space_step s s' D D' H st (st + 4096) /\ vb_base s' = vb_base s /\ page_ok (vb_mm s') p /\ fresh_pages H [p] /\
      match fo with
      | Some h => options <> 0 /\ lazy = false /\
        (zeroes options = true -> exists f, frame_at (vb_mm s') h f /\ forall a, OFF + f <= a < OFF + f + 4096 -> a mod 8 = 0 -> word (kmem (vb_mm s')) a = 0)
      | None => options = 0 \/ lazy = true
      end) (fun _ _ => False).
Proof.
  intros HM Hr Ht Hpl Hun Hopt Hlazy He h0. destruct (Z.eqb_spec options 0) as [->|Hne]; [|destruct lazy]; cbn [negb andb].
  1,2: wp_steps; exists D; split; [done|]; split; [by apply (enough_less _ (n + 4)); [|lia]|]; split; [apply step_refl|]; split; [done|]; split; [by auto|]; split; [split; [apply NoDup_nil_2|by intros h ?%elem_of_nil]|by auto].
  replace (n + 4)%nat with (S (n + 3)) in He by lia. pose proof He as [Hfr Hcap].
  wp_step. apply wp_on_err, wp_on_mm. eapply wp_mono; [apply (allocate_frame_spec U kroot other (vb_mm s) D H (n + 3) HM Hfr); lia| |done].
  intros h m1 (f & Hnf & Hfr1). set (s1 := mkVb m1 (vb_base s)). wp_step. eapply (get_frame s1); [apply Hnf|]. cbn [f_start]. wp_step.
  assert (Hun1 : page_unmapped (kmem m1) st).
  { intros v Hv. rewrite <- (Hun v Hv). apply walk_ext. intros. unfold entry, word. by rewrite (nf_words _ _ _ _ _ _ _ _ _ Hnf). }
  assert (Hstep : space_step s s1 D D H st (st + 4096)).
  { apply step_mem; [|done]. split; [|apply Hnf|apply (nf_phys _ _ _ _ _ _ _ _ _ Hnf)|apply Hnf]. intros h' Hin.
    apply (nf_others _ _ _ _ _ _ _ _ _ Hnf). intros ->. by destruct (nf_new _ _ _ _ _ _ _ _ _ Hnf). }
  eapply wp_mono; [apply (space_map_spec U kroot r other s1 D (h :: H) H n h f st options); try done| |done].
  - apply Hnf.
  - exists 1. apply Hnf.
  - by apply Hopt.
  - pose proof (nf_capacity _ _ _ _ _ _ _ _ _ Hnf). split; [done|]. cbn. lia.
  - right. apply Hnf.
  - intros _ s2 (D2 & HM2 & He2 & Hb2 & Hst2 & Hobj & Hmap & Hzero). wp_steps. exists D2.
    assert (Hfa : frame_at (vb_mm s2) h f) by (exists 1; rewrite Hobj; apply Hnf).
    split; [done|]. split; [done|]. split; [|split; [done|split; [split; [done|by exists f]|split; [|split_and!; [done|done|]]]]].
    + eapply step_trans; [exact Hstep|exact Hst2|done|done|apply Z.le_refl..].
    + split; [apply NoDup_singleton|]. intros h' ->%list_elem_of_singleton. apply Hnf.
    + intros Hz. exists f. split; [done|by apply Hzero].
Qed.

(** Room for [k] pages from [st] on. *)
Definition free_run (m : Mm) (st : Z) (k : nat) : Prop :=
  (forall j, (j < k)%nat -> page_place (st + 4096 * Z.of_nat j) /\ page_unmapped (kmem m) (st + 4096 * Z.of_nat j)) /\ 0 <= st /\ st + 4096 * Z.of_nat k <= 2 ^ 48.

Lemma free_run_step s s' D D' H st k : space_step s s' D D' H st (st + 4096) -> free_run (vb_mm s) st (S k) -> free_run (vb_mm s') (st + 4096) k.
Proof.
  intros Hs (Hp & H0 & Hb). split_and!; [|lia|lia]. intros j Hj. replace (st + 4096 + 4096 * Z.of_nat j) with (st + 4096 * Z.of_nat (S j)) by lia.
  destruct (Hp (S j)) as [Hpl Hun]; [lia|]. split; [done|]. intros v Hv.
  rewrite (vw_here _ _ _ _ _ _ _ _ (ss_views _ _ _ _ _ _ _ _ _ Hs)); [by apply Hun|apply Hpl, Hv|lia].
Qed.

Lemma free_run_mem m m' H st k : mem_step m m' H -> free_run m st k -> free_run m' st k.
Proof.
  intros Hs (Hp & H0 & Hb). split_and!; [|lia|lia]. intros j Hj. destruct (Hp j Hj) as [Hpl Hun]. split; [done|]. intros v Hv. rewrite <- (Hun v Hv).
  by eapply mem_step_view.
Qed.

(** Options of a segment that [allocate_pages] implements. *)
Definition seg_options_ok (options num_pages : Z) : Prop :=
  forall i, 0 <= i < num_pages ->
    (page_options options i num_pages <> 0 -> has options LAZY = false -> options_ok U r (page_options options i num_pages)) /\
    (has (page_options options i num_pages) USER_ACCESSIBLE = true -> options_ok U r (strip_lazy (page_options options i num_pages))).

(** One more page for a run. *)
Lemma run_ok_add s s' D D' st l p hs H : run_of st l -> root D r -> table_l4 (page_table (vb_base s)) = OFF + r ->
  Forall (page_ok (vb_mm s)) l -> space_step s s' D D' (slab_arcs l ++ H) (pg_start p) (pg_start p + 4096) ->
  mm_inv (vb_mm s') D' (page_arcs p ++ hs ++ slab_arcs l ++ H) -> pg_start p = st + 4096 * Z.of_nat (length l) -> page_ok (vb_mm s') p ->
  run_ok s' D' st (l ++ [p]) (hs ++ H).
Proof.
  intros Hrun Hr Ht Hpg Hst HM Hp Hpok. split; [| | | |].
  - rewrite arcs_app, arcs_cons. eapply mm_inv_perm; [|exact HM]. change (slab_arcs []) with (@nil SlabArc). rewrite app_nil_r. solve_Permutation.
  - by apply (vw_roots _ _ _ _ _ _ _ _ (ss_views _ _ _ _ _ _ _ _ _ Hst)).
  - by rewrite (proj1 (ss_space _ _ _ _ _ _ _ _ _ Hst)).
  - apply run_app. cbn. by rewrite Hp.
  - apply Forall_app. split; [|by constructor]. eapply pages_ok_step; [exact Hst|by apply list_subseteq_app_l|done|lia|done].
Qed.

Lemma alloc_pages_spec k : forall s D H st seg idx num start n, run_ok s D st (vs_pages seg) H -> start = st + 4096 * Z.of_nat (length (vs_pages seg)) ->
  free_run (vb_mm s) start k -> 0 <= idx -> idx + Z.of_nat k <= num -> seg_options_ok (vs_options seg) num -> enough (vb_mm s) (n + 5 * k) -> is_u64 (pages_used s) ->
  wp (alloc_pages_from k idx num start seg) s (fun seg' s' => exists D' hs new, seg' = set_pages (vs_pages seg ++ new) seg /\ length new = k /\
    run_ok s' D' st (vs_pages seg') (hs ++ H) /\ space_step s s' D D' (slab_arcs (vs_pages seg) ++ H) start (start + 4096 * Z.of_nat k) /\
    pa_step s s' hs (Z.of_nat k) /\ enough (vb_mm s') n /\ fresh_pages (slab_arcs (vs_pages seg) ++ H) new /\
    (forall i p, new !! i = Some p -> page_new (vb_mm s') (vs_options seg) num (idx + Z.of_nat i) p)) (fun _ _ => False).
Proof.
  induction k as [|k IH]; intros s D H st seg idx num start n Hro Hst Hfree Hidx Hnum Hopt He Hpu; cbn [alloc_pages_from].
  - wp_steps. exists D, [], []. rewrite app_nil_r. split; [by destruct seg|]. split; [done|]. split; [done|]. split; [apply step_refl|].
    split; [by apply pa_step_same|]. split; [eapply enough_less; [exact He|lia]|]. split; [|done]. split; [apply NoDup_nil_2|by intros h ?%elem_of_nil].
  - pose proof Hro as [HM Hr Ht Hrun Hpg]. replace (n + 5 * S k)%nat with (S (n + 5 * k + 4)) in He by lia. wp_step. apply wp_on_err.
    eapply wp_mono; [apply (alloc_page_spec U kroot other s D _ (n + 5 * k + 4) HM He)| |done].
    intros page s1 (hs1 & HM1 & He1 & Hms & Hsp1 & Hpa1). pose proof (free_run_mem _ _ _ _ _ Hms Hfree) as Hfree1.
    pose proof (step_mem kroot r s s1 D _ start (start + 4096) Hms Hsp1) as Hst1. set (options := page_options (vs_options seg) idx num).
    destruct (proj1 Hfree1 0%nat ltac:(lia)) as [Hpl Hun]. rewrite Z.add_0_r in Hpl, Hun. wp_step.
    eapply wp_mono; [eapply (frame_part_spec s1 D _ (n + 5 * k) start options (has (vs_options seg) LAZY) page HM1 Hr); try done| |done].
    { by rewrite (proj1 Hsp1). }
    { apply Hopt. lia. }
    { apply Hopt. lia. }
    intros fo s2 (D2 & HM2 & He2 & Hst2 & Hb2 & Hpok & Hfr2 & Hnew). set (p := mkPage page start fo options) in *.
    assert (Hst12 : space_step s s2 D D2 (slab_arcs (vs_pages seg) ++ H) start (start + 4096)).
    { eapply step_trans; [exact Hst1|exact Hst2|done|by apply list_subseteq_app_r|apply Z.le_refl..]. }
    assert (Hro2 : run_ok s2 D2 st (vs_pages seg ++ [p]) (hs1 ++ H)) by (by eapply (run_ok_add s)).
    rewrite (insert_last st) by done. set (seg2 := set_pages (vs_pages seg ++ [p]) seg) in *. rewrite u64_id by (unfold is_u64; destruct Hfree as (_ & ? & ?); change PAGE_SIZE_SMALL with 4096; lia).
    assert (Hpa2 : pa_step s s2 hs1 1) by (unfold pa_step, pa_arcs, pages_used, pa_ok in *; by rewrite Hb2).
    eapply wp_mono; [apply (IH s2 D2 (hs1 ++ H) st seg2 (idx + 1) num (start + PAGE_SIZE_SMALL) n)| |done]; try done; try lia.
    + rewrite Hst. cbn [seg2 set_pages vs_pages]. rewrite length_app. cbn [length]. change PAGE_SIZE_SMALL with 4096. lia.
    + eapply free_run_step; [exact Hst2|done].
    + destruct Hpa2 as (_ & -> & _). apply u64_range.
    + intros seg' s3 (D3 & hs3 & new & -> & Hlen & Hro3 & Hst3 & Hpa3 & He3 & Hfr3 & Hnews). exists D3, (hs3 ++ hs1), (p :: new).
      cbn [seg2 set_pages vs_pages vs_segment vs_options] in *. rewrite <- app_assoc in *. cbn [app] in *. split; [done|]. split; [cbn; lia|].
      split; [by rewrite <- app_assoc|]. split.
      { eapply step_trans; [exact Hst12|exact Hst3|done| |change PAGE_SIZE_SMALL with 4096; lia..]. rewrite arcs_app. intros h. rewrite !elem_of_app. tauto. }
      split; [pose proof (pa_step_trans _ _ _ _ _ _ _ Hpa2 Hpa3) as Hpa; by replace (Z.of_nat (S k)) with (1 + Z.of_nat k) by lia|]. split; [done|]. split.
      { eapply fresh_cons; [exact Hfr3| | |].
        - destruct Hfr2 as [N2 F2]. split; [exact N2|]. intros h Hh Hin. apply (F2 h Hh), elem_of_app. by right.
        - intros h Hh. rewrite arcs_app, arcs_cons, !elem_of_app. tauto.
        - intros h. rewrite arcs_app, !elem_of_app. tauto. }
      intros [|i] q Hq; cbn in Hq.
      * injection Hq as <-. rewrite Z.add_0_r. eapply page_new_kept; [apply Hst3| |by split]. intros h Hh.
        rewrite arcs_app, arcs_cons, !elem_of_app. tauto.
      * replace (idx + Z.of_nat (S i)) with (idx + 1 + Z.of_nat i) by lia. by apply Hnews.
Qed.

(** ** Segments *)

Record seg_ok (m : Mm) (seg : VmemSegment) : Prop := {
  sg_size : size (vs_segment seg) = 4096 * Z.of_nat (length (vs_pages seg));
  sg_some : vs_pages seg <> [];
  sg_run : run_of (start (vs_segment seg)) (vs_pages seg);
  sg_pages : Forall (page_ok m) (vs_pages seg);
  sg_range : 0 <= start (vs_segment seg) /\ start (vs_segment seg) + size (vs_segment seg) <= 2 ^ 48
}.

Lemma seg_end_eq m seg : seg_ok m seg -> seg_end (vs_segment seg) = start (vs_segment seg) + size (vs_segment seg).
Proof. intros [A B C E [F G]]. unfold seg_end. apply u64_id. unfold is_u64. lia. Qed.

Lemma seg_contains m seg v : seg_ok m seg -> contains (vs_segment seg) v = true <-> start (vs_segment seg) <= v < start (vs_segment seg) + size (vs_segment seg).
Proof. intros Hs. unfold contains. rewrite (seg_end_eq _ _ Hs), andb_true_iff, Z.leb_le, Z.ltb_lt. done. Qed.

(** The page of an address of the segment. *)
Lemma seg_page m seg v : seg_ok m seg -> start (vs_segment seg) <= v < start (vs_segment seg) + size (vs_segment seg) ->
  exists i p, vs_pages seg !! i = Some p /\ find_page seg v = Some p /\ page_ok m p /\ pg_start p <= v < pg_start p + 4096 /\ pg_start p = page_addr_of v.
Proof.
  intros [A B C E [F G]] Hv. set (st := start (vs_segment seg)) in *. set (i := Z.to_nat ((v - st) / 4096)).
  assert (Hi : (i < length (vs_pages seg))%nat) by (unfold i; dlia). destruct (lookup_lt_is_Some_2 _ _ Hi) as [p Hp]. pose proof (run_lookup _ _ _ _ C Hp) as Hs.
  assert (Hal : st mod 4096 = 0).
  { destruct (vs_pages seg) as [|q l]; [done|]. apply Forall_cons in E as [[[Hq _] _] _]. destruct C as [<- _]. done. }
  assert (Hv64 : page_addr_of v = pg_start p) by (rewrite page_addr_eq, Hs by lia; unfold i; dlia).
  exists i, p. split; [done|]. split; [unfold find_page; rewrite Hv64, Hs; by apply find_in_run|]. split; [by eapply Forall_lookup_1|].
  split; [rewrite Hs; unfold i; dlia|done].
Qed.

Lemma seg_own m seg v : seg_ok m seg -> start (vs_segment seg) <= v < start (vs_segment seg) + size (vs_segment seg) -> own_addr kroot r v.
Proof. intros Hs Hv. destruct (seg_page _ _ _ Hs Hv) as (i & p & _ & _ & [[_ Hpl] _] & Hin & _). by apply Hpl. Qed.

Lemma seg_ok_step s s' D D' H lo hi seg : space_step s s' D D' H lo hi -> slab_arcs (vs_pages seg) ⊆ H ->
  start (vs_segment seg) + size (vs_segment seg) <= lo \/ hi <= start (vs_segment seg) -> seg_ok (vb_mm s) seg -> seg_ok (vb_mm s') seg.
Proof. intros Hst Hin Hoff [A B C E F]. split; [done..| |done]. eapply pages_ok_step; [exact Hst|done|exact C|lia|done]. Qed.

(** What [vaddr_map_status] says of an address that the processor translates to [tr]. *)
Definition status_of (tr : option translation) (st : VaddrMapStatus) : Prop :=
  match st with
  | Unallocated | Unmapped => tr = None
  | ZeroPageMapped => False
  | Private a | Shared a => exists w, tr = Some (mkTr a (U r) w 1)
  end.

Lemma seg_map_status_spec s D H seg v : mm_inv (vb_mm s) D H -> seg_ok (vb_mm s) seg ->
  start (vs_segment seg) <= v < start (vs_segment seg) + size (vs_segment seg) ->
  wp (seg_map_status seg v) s (fun st s' => s' = s /\ status_of (view (kmem (vb_mm s)) r v) st /\ st <> Unallocated /\
    (forall a, st = Private a -> exists h f, frame_at (vb_mm s) h f /\ f <= a < f + 4096 /\ occ h H = 1)) (fun _ _ => False).
Proof.
  intros HM Hs Hv. destruct (seg_page _ _ _ Hs Hv) as (i & p & _ & Hf & [Hpl Hp] & Hin & _). unfold seg_map_status. wp_step.
  apply wp_assert; [by eapply seg_contains|]. rewrite Hf. destruct (pg_frame p) as [h|].
  - destruct Hp as (f & [n Ho] & Hm). wp_step. eapply get_frame; [exact Ho|]. wp_step. eapply get_refs; [exact Ho|]. cbn [f_start].
    destruct (frame_is_data _ _ _ _ _ _ _ _ _ HM Ho) as [_ [Hfa _]].
    destruct Hpl as [_ Hpl]. assert (Hva : 0 <= v < 2 ^ 48) by apply Hpl, Hin. assert (Hps : 0 <= pg_start p < 2 ^ 48) by (apply Hpl; lia).
    assert (Eo : u64 (f + u64 (v - pg_start p)) = f + (v - pg_start p)).
    { rewrite (u64_id (v - pg_start p)) by (unfold is_u64; lia). apply u64_id. unfold is_u64. change OFF with (2 ^ 46) in Hfa. lia. }
    rewrite Eo. wp_steps. split; [done|]. destruct (Z.eqb_spec n 1) as [->|Hn]; (split; [eexists; by apply Hm|split; [done|]]).
    + intros a [= <-]. exists h, f. split; [by exists 1|]. split; [lia|]. pose proof (mi_refs _ _ _ _ _ _ HM h) as Hr. rewrite Ho in Hr. lia.
    + done.
  - wp_steps. split; [done|]. split; [by apply (proj1 Hp)|by split].
Qed.

(** [VmemSegment::allocate_pages] for [k] pages. *)
Lemma seg_allocate_spec s D H st options n k : mm_inv (vb_mm s) D H -> root D r -> table_l4 (page_table (vb_base s)) = OFF + r ->
  free_run (vb_mm s) st k -> (0 < k)%nat -> seg_options_ok options (Z.of_nat k) -> enough (vb_mm s) (n + 5 * k) -> is_u64 (pages_used s) ->
  wp (seg_allocate_pages (mkVS (mkSeg st (4096 * Z.of_nat k)) [] options)) s (fun seg s' => exists D' hs,
    vs_segment seg = mkSeg st (4096 * Z.of_nat k) /\ vs_options seg = options /\ seg_ok (vb_mm s') seg /\ mm_inv (vb_mm s') D' (slab_arcs (vs_pages seg) ++ hs ++ H) /\
    space_step s s' D D' H st (st + 4096 * Z.of_nat k) /\ pa_step s s' hs (Z.of_nat k) /\ enough (vb_mm s') n /\ fresh_pages H (vs_pages seg) /\
    (forall i p, vs_pages seg !! i = Some p -> page_new (vb_mm s') options (Z.of_nat k) (Z.of_nat i) p)) (fun _ _ => False).
Proof.
  intros HM Hr Ht Hfree Hk Hopt He Hpu. unfold seg_allocate_pages. cbn [vs_segment size start vs_pages]. wp_step. apply wp_assert; [apply Z.ltb_lt; lia|].
  wp_step. apply wp_assert; [done|]. rewrite Z.shiftr_div_pow2 by done. change (2 ^ PAGE_SIZE_SMALL_LOG2) with 4096.
  rewrite (Z.mul_comm 4096), Z.div_mul, Nat2Z.id, (Z.mul_comm _ 4096) by done.
  eapply wp_mono; [eapply (alloc_pages_spec k s D H st (mkVS (mkSeg st (4096 * Z.of_nat k)) [] options) 0 (Z.of_nat k) st n); try done; try lia| |done].
  - cbn. lia.
  - intros seg s' (D' & hs & new & -> & Hlen & Hro & Hst & Hpa & He' & Hfr & Hnew). exists D', hs. cbn [set_pages vs_pages vs_segment vs_options app] in *.
    split; [done|]. split; [done|]. split; [|split; [apply Hro|by split; [|split; [|split; [|split]]]]].
    split; cbn [set_pages vs_pages vs_segment size start]; [lia| |apply Hro|apply Hro|destruct Hfree as (_ & ? & ?); lia].
    intros ->. cbn in Hlen. lia.
Qed.

Lemma seg_clear_spec s D H seg : mm_inv (vb_mm s) D (slab_arcs (vs_pages seg) ++ H) -> root D r -> table_l4 (page_table (vb_base s)) = OFF + r ->
  seg_ok (vb_mm s) seg -> is_u64 (pages_used s) ->
  wp (seg_clear seg) s (fun sz s' => exists D', sz = size (vs_segment seg) /\ mm_inv (vb_mm s') D' H /\
    space_step s s' D D' H (start (vs_segment seg)) (start (vs_segment seg) + size (vs_segment seg)) /\
    (forall v, start (vs_segment seg) <= v < start (vs_segment seg) + size (vs_segment seg) -> view (kmem (vb_mm s')) r v = None) /\
    pa_step s s' [] (- Z.of_nat (length (vs_pages seg)))) (fun _ _ => False).
Proof.
  intros HM Hr Ht Hok Hpu. pose proof Hok as [A B C E [F G]]. unfold seg_clear.
  eapply wp_mono; [eapply (clear_pages_spec (vs_pages seg) s D H (start (vs_segment seg)) 0); [by split|done|done]| |done].
  intros sz s' (D' & -> & HM' & Hst & Hun & Hpa). exists D'. rewrite A.
  split; [apply u64_id; unfold is_u64; lia|]. split; [done|]. split; [done|]. split; [|done].
  intros v Hv. rewrite <- A in Hv. destruct (seg_page _ _ _ Hok Hv) as (i & p & Hi & _ & _ & Hin & _). pose proof (Forall_lookup_1 _ _ _ _ Hun Hi) as Hu. by apply Hu.
Qed.

(** A page without a frame gets one at its first access. *)
Definition faulting (page : Page) (error_code : Z) : Prop :=
  pg_frame page = None /\ has (pg_options page) USER_ACCESSIBLE = true /\ (error_code = 4 \/ (error_code = 6 /\ has (pg_options page) WRITABLE = true)).

Definition in_guard (seg : VmemSegment) (pf_addr : Z) : bool :=
  has (vs_options seg) GUARD && ((page_addr_of pf_addr =? start (vs_segment seg)) || (u64 (seg_end (vs_segment seg) - PAGE_SIZE_SMALL) <=? pf_addr)).

Lemma fault_check s p error_code (Q : unit -> Vb -> Prop) X : pg_frame p = None -> (faulting p error_code -> Q tt s) -> (~ faulting p error_code -> X InvalidArgument s) ->
  wp (let error_code := Z.lxor error_code 4 in
      if error_code =? 0 then
        if has (pg_options p) USER_ACCESSIBLE then ret tt else throw InvalidArgument
      else if error_code =? 2 then
        if has (pg_options p) USER_ACCESSIBLE && has (pg_options p) WRITABLE then ret tt else throw InvalidArgument
      else throw InvalidArgument) s Q X.
Proof.
  intros Hf HQ HX. unfold faulting in *. cbv zeta. destruct (Z.eqb_spec (Z.lxor error_code 4) 0) as [E0|E0]; [|destruct (Z.eqb_spec (Z.lxor error_code 4) 2) as [E2|E2]].
  - apply Z.lxor_eq in E0 as ->. destruct (has _ USER_ACCESSIBLE); wp_steps; [by apply HQ; auto|]. by apply HX; intros (_ & ? & _).
  - assert (Ee : error_code = 6) by (rewrite <- (Z.lxor_0_r error_code), <- (Z.lxor_nilpotent 4), <- Z.lxor_assoc, E2; done). subst error_code.
    destruct (has _ USER_ACCESSIBLE), (has _ WRITABLE); cbn [andb]; wp_steps; [by apply HQ; auto|apply HX..]; [|by intros (_ & ? & _)..]. by intros (_ & _ & [?|[_ ?]]).
  - wp_steps. apply HX. intros (_ & _ & [->|[-> _]]); done.
Qed.

Lemma seg_ok_fixed s s' D D' H seg i p h : space_step s s' D D' H (pg_start p) (pg_start p + 4096) -> slab_arcs (vs_pages seg) ⊆ H -> seg_ok (vb_mm s) seg ->
  vs_pages seg !! i = Some p -> page_ok (vb_mm s') (set_frame_of (Some h) p) -> seg_ok (vb_mm s') (set_pages (<[i := set_frame_of (Some h) p]> (vs_pages seg)) seg).
Proof.
  intros Hst Hin [A B C E F] Hi Hp. split; cbn [set_pages vs_pages vs_segment]; [by rewrite length_insert| |by eapply run_insert| |done].
  - intros En. apply (f_equal length) in En. rewrite length_insert in En. by destruct (vs_pages seg).
  - apply Forall_lookup. intros j q Hj. apply list_lookup_insert_Some in Hj as [(-> & <- & _)|[Hne Hj]]; [done|].
    eapply page_ok_step; [exact Hst| | |by eapply Forall_lookup_1].
    + etrans; [|exact Hin]. apply arcs_in. by eapply list_elem_of_lookup_2.
    + rewrite (run_lookup _ _ _ _ C Hi), (run_lookup _ _ _ _ C Hj). lia.
Qed.

Lemma seg_fix_spec s D H seg n pf_addr error_code : mm_inv (vb_mm s) D (slab_arcs (vs_pages seg) ++ H) -> root D r -> table_l4 (page_table (vb_base s)) = OFF + r ->
  seg_ok (vb_mm s) seg -> start (vs_segment seg) <= pf_addr < start (vs_segment seg) + size (vs_segment seg) -> is_u64 error_code -> enough (vb_mm s) (n + 4) ->
  wp (seg_fix_pagefault seg pf_addr error_code) s (fun seg' s' => exists D' p h f, find_page seg pf_addr = Some p /\ faulting p error_code /\
      in_guard seg pf_addr = false /\ vs_segment seg' = vs_segment seg /\ vs_options seg' = vs_options seg /\ seg_ok (vb_mm s') seg' /\
      mm_inv (vb_mm s') D' (slab_arcs (vs_pages seg') ++ H) /\ space_step s s' D D' (slab_arcs (vs_pages seg) ++ H) (pg_start p) (pg_start p + 4096) /\
      vb_base s' = vb_base s /\ enough (vb_mm s') n /\ slab_arcs (vs_pages seg') ≡ₚ h :: slab_arcs (vs_pages seg) /\ frame_at (vb_mm s') h f /\
      length (vs_pages seg') = length (vs_pages seg) /\ (exists i, vs_pages seg' = <[i := set_frame_of (Some h) p]> (vs_pages seg)) /\
      view (kmem (vb_mm s')) r pf_addr = Some (mkTr (f + (pf_addr - pg_start p)) true (has (pg_options p) WRITABLE) 1))
    (fun e s' => s' = s /\ e = InvalidArgument /\ (in_guard seg pf_addr = true \/ exists p, find_page seg pf_addr = Some p /\ ~ faulting p error_code)).
Proof.
  intros HM Hr Ht Hok Hpf Hec He. destruct (seg_page _ _ _ Hok Hpf) as (i & p & Hi & Hf & Hpok & Hin & Hpa). unfold seg_fix_pagefault. rewrite Hf.
  rewrite andb_comm. fold (in_guard seg pf_addr). destruct (in_guard seg pf_addr) eqn:Eg; [by wp_steps; auto|].
  pose proof Hpok as [Hpl Hp]. assert (Hsp : 0 <= pg_start p < 2 ^ 48) by (apply Hpl; lia).
  wp_step. apply wp_assert; [unfold page_contains; rewrite andb_true_iff, Z.leb_le, Z.ltb_lt, u64_id by (unfold is_u64; change PAGE_SIZE_SMALL with 4096; lia); done|].
  destruct (pg_frame p) as [h0|] eqn:Ef; cbn [bool_decide].
  { rewrite bool_decide_eq_true_2 by done. wp_steps. split_and!; [done..|]. right. exists p. split; [done|]. intros (Hn & _). congruence. }
  rewrite bool_decide_eq_false_2 by (by intros [? ?]). destruct Hp as [Hun Hlazy].
  wp_step. apply fault_check; [done| |intros Hnf; split_and!; [done..|]; right; by eauto]. intros Hflt. pose proof Hflt as (_ & Hus & _).
  pose proof (Hlazy Hus) as Hopt. destruct He as [Hfr Hcap]. replace (n + 4)%nat with (S (n + 3)) in * by lia. wp_step. apply wp_on_mm.
  eapply wp_mono; [apply (allocate_frame_spec U kroot other (vb_mm s) D _ (n + 3) HM Hfr); lia| |done].
  intros h m1 (f & Hnf & Hfr1). set (s1 := mkVb m1 (vb_base s)). wp_steps. eapply (get_frame s1); [apply Hnf|]. cbn [f_start]. fold (strip_lazy (pg_options p)). wp_step.
  assert (Hw : words (kmem m1) = words (kmem (vb_mm s))) by apply Hnf.
  assert (Hst1 : space_step s s1 D D (slab_arcs (vs_pages seg) ++ H) (pg_start p) (pg_start p + 4096)).
  { apply step_mem; [|done]. split; [|done|apply (nf_phys _ _ _ _ _ _ _ _ _ Hnf)|apply Hnf]. intros h' Hh'.
    apply (nf_others _ _ _ _ _ _ _ _ _ Hnf). intros ->. by destruct (nf_new _ _ _ _ _ _ _ _ _ Hnf). }
  eapply wp_mono; [apply (space_map_spec U kroot r other s1 D (h :: slab_arcs (vs_pages seg) ++ H) (slab_arcs (vs_pages seg) ++ H) n h f (pg_start p) (strip_lazy (pg_options p))); try done| |done].
  - apply Hnf.
  - exists 1. apply Hnf.
  - intros v Hv. rewrite <- (Hun v Hv). apply walk_ext. intros. unfold entry, word. change (vb_mm s1) with m1. by rewrite Hw.
  - pose proof (nf_capacity _ _ _ _ _ _ _ _ _ Hnf). split; [done|]. cbn. lia.
  - right. apply Hnf.
  - intros _ s2 (D2 & HM2 & He2 & Hb2 & Hst2 & Hobj & Hmap & _). wp_steps. exists D2, p, h, f.
    assert (Hw2 : has (strip_lazy (pg_options p)) WRITABLE = has (pg_options p) WRITABLE) by (unfold strip_lazy; by rewrite !has_without). rewrite Hw2 in Hmap.
    assert (Hst : space_step s s2 D D2 (slab_arcs (vs_pages seg) ++ H) (pg_start p) (pg_start p + 4096)).
    { eapply step_trans; [exact Hst1|exact Hst2|done|done|apply Z.le_refl..]. }
    assert (Hu : update_frame pf_addr (Some h) seg = set_pages (<[i := set_frame_of (Some h) p]> (vs_pages seg)) seg).
    { unfold update_frame. rewrite <- Hpa. by rewrite (update_in_run _ _ _ _ _ (sg_run _ _ Hok) Hi). }
    assert (Hfa : frame_at (vb_mm s2) h f) by (exists 1; rewrite Hobj; apply Hnf).
    rewrite Hu. pose proof (arcs_insert _ _ _ h Hi Ef) as Hperm. do 5 (split; [done|]). split; [|split; [|do 3 (split; [done|])]]; [| |split; [done|split; [done|split; [|split]]]].
    + eapply seg_ok_fixed; [exact Hst|by apply list_subseteq_app_l|done|done|]. split; [done|]. exists f. by split.
    + eapply mm_inv_perm; [|exact HM2]. symmetry. exact (Permutation_app_tail H Hperm).
    + cbn [set_pages vs_pages]. apply length_insert.
    + by exists i.
    + rewrite Hmap by done. destruct Hopt as (_ & HU & _). f_equal. f_equal. rewrite HU. unfold strip_lazy. by rewrite !has_without.
Qed.
End Segs.
