(* ===== verification/VmemRegions.v ===== *)
(** * Virtual memory: regions

    The segments of a region are in the order of their addresses and do not overlap; an allocation finds a place that
    is free, and the operations keep what the segments record and what the processor sees in agreement. *)

From stdpp Require Import base numbers list gmap.
From S2P Require Import RustPrelude PhysMem PhysFrames PhysInit PhysProps PageTable PageWalk PageMem PageTableProps Slab SlabProps Vmem VmemSpace VmemSegs.

Open Scope Z_scope.

(** ** Segments in order *)

Definition node_end (n : SegmentNode) : Z := node_start n + size (vs_segment (sn_seg n)).
Definition in_node (n : SegmentNode) (v : Z) : Prop := node_start n <= v < node_end n.
Definition off_node (n : SegmentNode) (lo hi : Z) : Prop := hi <= node_start n \/ node_end n <= lo.

(** A node of a region below [2 ^ 48]. *)
Definition node_fits (n : SegmentNode) : Prop := 0 < size (vs_segment (sn_seg n)) /\ 0 <= node_start n /\ node_end n <= 2 ^ 48.

Fixpoint segs_in (lo hi : Z) (l : list SegmentNode) : Prop :=
  match l with
  | [] => lo <= hi
  | n :: l' => node_fits n /\ lo <= node_start n /\ segs_in (node_end n) hi l'
  end.

Lemma segs_le lo hi l : segs_in lo hi l -> lo <= hi.
Proof.
  revert lo. induction l as [|n l IH]; intros lo; cbn [segs_in]; [done|]. intros ((? & _) & ? & Hl). apply IH in Hl. unfold node_end in *. lia.
Qed.

Lemma segs_app lo hi l1 l2 : segs_in lo hi (l1 ++ l2) <-> exists mid, segs_in lo mid l1 /\ segs_in mid hi l2.
Proof.
  revert lo. induction l1 as [|n l1 IH]; intros lo; cbn [segs_in app].
  - split; [intros Hl; exists lo; split; [lia|done]|]. intros (mid & Hlo & Hl). destruct l2 as [|m l2]; cbn [segs_in] in *; [lia|]. destruct Hl as (? & ? & ?).
    split_and!; [done|lia|done].
  - rewrite IH. split; [intros (? & ? & mid & ? & ?); by exists mid|]. intros (mid & (? & ? & ?) & ?). split_and!; [done..|]. by exists mid.
Qed.

Lemma segs_mem lo hi l n : segs_in lo hi l -> n ∈ l -> node_fits n /\ lo <= node_start n /\ node_end n <= hi.
Proof.
  intros Hl Hin. apply list_elem_of_split in Hin as (l1 & l2 & ->). apply segs_app in Hl as (mid & H1 & (Hn & Hm & H2)).
  apply segs_le in H1, H2. split_and!; [done|lia|lia].
Qed.

Lemma segs_wider lo lo' hi hi' l : segs_in lo hi l -> lo' <= lo -> hi <= hi' -> segs_in lo' hi' l.
Proof.
  revert lo lo'. induction l as [|n l IH]; intros lo lo'; cbn [segs_in]; [lia|]. intros (? & ? & Hl) ? ?. split_and!; [done|lia|]. eapply IH; [done|lia|done].
Qed.

(** Removing a segment leaves the others in order. *)
Lemma segs_remove lo hi l1 n l2 : segs_in lo hi (l1 ++ n :: l2) -> segs_in lo hi (l1 ++ l2).
Proof.
  intros Hl. apply segs_app in Hl as (mid & H1 & ((Hn & _) & Hm & H2)). apply segs_app. exists mid. split; [done|].
  eapply segs_wider; [exact H2|unfold node_end; lia|lia].
Qed.

Lemma segs_update lo hi l1 n n' l2 : node_start n' = node_start n -> node_end n' = node_end n -> segs_in lo hi (l1 ++ n :: l2) -> segs_in lo hi (l1 ++ n' :: l2).
Proof.
  intros Es Ee Hl. apply segs_app in Hl as (mid & H1 & ((Ha & Hb & Hc) & Hm & H2)). apply segs_app. exists mid. split; [done|]. cbn [segs_in]. rewrite Ee, Es.
  split; [|by split; [lia|]]. unfold node_fits. rewrite Ee, Es. unfold node_end in *. lia.
Qed.

(** A segment in a gap comes into its place. *)
Lemma insert_gap lo hi l x : segs_in lo hi l -> node_fits x -> lo <= node_start x -> node_end x <= hi -> (forall n, n ∈ l -> off_node n (node_start x) (node_end x)) ->
  exists l1 l2, l = l1 ++ l2 /\ tree_insert node_start x l = l1 ++ x :: l2 /\ segs_in lo hi (l1 ++ x :: l2).
Proof.
  revert lo. induction l as [|n l IH]; intros lo Hl Hx Hlo Hhi Hoff; cbn [tree_insert segs_in] in *.
  - by exists [], [].
  - destruct Hl as (Hn & Hlo' & Hl). destruct (Hoff n) as [Hb|Ha]; [by left| |].
    + destruct Hx as (Hx & ? & ?). rewrite (proj2 (Z.leb_gt _ _)) by (unfold node_end in *; lia). exists [], (n :: l). cbn [app segs_in]. by split_and!.
    + destruct Hn as (Hs & ? & ?). rewrite (proj2 (Z.leb_le _ _)) by (unfold node_end in *; lia).
      destruct (IH (node_end n) Hl Hx) as (l1 & l2 & -> & -> & Hin); [lia|lia|intros; apply Hoff; by right|]. exists (n :: l1), l2. cbn [app segs_in]. by split_and!.
Qed.

(** ** Lookups *)

Lemma tree_find_none {A} (key : A -> Z) k l : tree_find key k l = None <-> forall x, x ∈ l -> key x <> k.
Proof.
  induction l as [|y l IH]; cbn [tree_find]; [by split; [intros _ x ?%elem_of_nil|]|]. destruct (Z.eqb_spec (key y) k) as [E|E].
  - split; [done|]. intros Hall. destruct (Hall y); [by left|done].
  - rewrite IH. split; [intros Hall x [->|Hx]%elem_of_cons; [done|by apply Hall]|]. intros Hall x Hx. apply Hall. by right.
Qed.

Lemma tree_find_some {A} (key : A -> Z) k l x : tree_find key k l = Some x -> x ∈ l /\ key x = k.
Proof.
  induction l as [|y l IH]; cbn [tree_find]; [done|]. destruct (Z.eqb_spec (key y) k) as [E|E].
  - intros [= ->]. split; [by left|done].
  - intros [? ?]%IH. split; [by right|done].
Qed.

Lemma node_unique lo hi l n n' v : segs_in lo hi l -> n ∈ l -> n' ∈ l -> in_node n v -> in_node n' v -> n = n'.
Proof.
  intros Hl Hn Hn' H1 H2. apply list_elem_of_split in Hn as (l1 & l2 & ->). apply segs_app in Hl as (mid & Hs1 & (_ & Hm & Hs2)).
  apply elem_of_app in Hn' as [Hx|[->|Hx]%elem_of_cons]; [|done|].
  - destruct (segs_mem _ _ _ _ Hs1 Hx) as (_ & _ & ?). unfold in_node in *. lia.
  - destruct (segs_mem _ _ _ _ Hs2 Hx) as (_ & ? & _). unfold in_node in *. lia.
Qed.

Lemma upper_bound_node lo hi l n v : segs_in lo hi l -> n ∈ l -> in_node n v -> upper_bound node_start v l = Some n.
Proof.
  intros Hl Hn Hv. apply list_elem_of_split in Hn as (l1 & l2 & ->). apply segs_app in Hl as (mid & Hs1 & (_ & Hm & Hs2)). unfold upper_bound.
  rewrite filter_app, filter_cons, decide_True by apply Hv. assert (E : filter (fun y => node_start y <= v) l2 = []).
  { destruct (filter _ l2) as [|y l] eqn:Ef; [done|]. assert (Hy : y ∈ filter (fun y => node_start y <= v) l2) by (rewrite Ef; by left).
    apply list_elem_of_filter in Hy as [Hle Hy]. destruct (segs_mem _ _ _ _ Hs2 Hy) as (_ & ? & _). unfold in_node in *. lia. }
  by rewrite E, last_snoc.
Qed.

Lemma upper_bound_mem {A} (key : A -> Z) k l x : upper_bound key k l = Some x -> x ∈ l /\ key x <= k.
Proof.
  unfold upper_bound. intros Hl. assert (Hx : x ∈ filter (fun y => key y <= k) l) by (by apply last_Some_elem_of). apply list_elem_of_filter in Hx as [? ?]. done.
Qed.

Lemma node_contains n v : node_fits n -> contains (vs_segment (sn_seg n)) v = true <-> in_node n v.
Proof.
  intros (? & ? & ?). unfold contains, seg_end, in_node, node_end, node_start in *. rewrite u64_id by (unfold is_u64; lia). by rewrite andb_true_iff, Z.leb_le, Z.ltb_lt.
Qed.

(** [find] gives the segment that an address lies in. *)
Lemma sm_find_spec lo hi sm v : segs_in lo hi (sm_segments sm) ->
  match sm_find sm v with
  | Some seg => exists n, n ∈ sm_segments sm /\ sn_seg n = seg /\ in_node n v
  | None => forall n, n ∈ sm_segments sm -> ~ in_node n v
  end.
Proof.
  intros Hl. unfold sm_find. destruct (tree_find _ _ _) as [n|] eqn:Ef.
  - apply tree_find_some in Ef as [Hn <-]. exists n. split_and!; [done..|]. destruct (segs_mem _ _ _ _ Hl Hn) as ((? & _) & _). unfold in_node, node_end. lia.
  - destruct (upper_bound _ _ _) as [n|] eqn:Eu.
    + apply upper_bound_mem in Eu as Hn. destruct Hn as [Hn _]. pose proof (proj1 (segs_mem _ _ _ _ Hl Hn)) as Hf.
      destruct (contains _ v) eqn:Ec; [exists n; split_and!; [done..|by apply node_contains]|]. intros n' Hn' Hv.
      rewrite (upper_bound_node _ _ _ _ _ Hl Hn' Hv) in Eu. injection Eu as ->. apply node_contains in Hv; [congruence|done].
    + intros n Hn Hv. by rewrite (upper_bound_node _ _ _ _ _ Hl Hn Hv) in Eu.
Qed.

Lemma tree_remove_spec l k : match tree_remove node_start k l with
  | Some (n, l') => exists l1 l2, l = l1 ++ n :: l2 /\ l' = l1 ++ l2 /\ node_start n = k
  | None => forall n, n ∈ l -> node_start n <> k
  end.
Proof.
  induction l as [|y l IH]; cbn [tree_remove]; [by intros n ?%elem_of_nil|]. destruct (Z.eqb_spec (node_start y) k) as [E|E]; [by exists [], l|].
  destruct (tree_remove _ _ l) as [[n l']|].
  - destruct IH as (l1 & l2 & -> & -> & ?). by exists (y :: l1), l2.
  - intros n [->|Hn]%elem_of_cons; [done|by apply IH].
Qed.

Lemma tree_update_spec lo hi l1 n l2 f : segs_in lo hi (l1 ++ n :: l2) -> tree_update node_start (node_start n) f (l1 ++ n :: l2) = l1 ++ f n :: l2.
Proof.
  intros Hl. apply segs_app in Hl as (mid & Hs1 & ((? & _) & Hm & Hs2)).
  assert (Hid : forall l, (forall x, x ∈ l -> node_start x <> node_start n) -> tree_update node_start (node_start n) f l = l).
  { intros l Hne. unfold tree_update. rewrite <- (list_fmap_id l) at 2. apply list_fmap_ext. intros i x Hx. rewrite (proj2 (Z.eqb_neq _ _)); [done|].
    apply Hne. by eapply list_elem_of_lookup_2. }
  unfold tree_update in *. rewrite fmap_app, fmap_cons, Z.eqb_refl, !Hid; [done|intros x Hx..].
  - destruct (segs_mem _ _ _ _ Hs2 Hx) as (_ & ? & _). unfold node_end in *. lia.
  - destruct (segs_mem _ _ _ _ Hs1 Hx) as ((? & _) & _ & ?). unfold node_end in *. lia.
Qed.

(** ** The place of a new segment *)

Lemma find_gap_spec l : forall lo hi st sz, segs_in lo hi l -> lo <= st <= 2 ^ 48 -> 0 <= st -> 0 < sz <= 2 ^ 48 ->
  match find_gap l st sz with
  | Some x => lo <= x /\ x + sz <= hi /\ (x = st \/ exists n, n ∈ l /\ x = node_end n) /\ forall n, n ∈ l -> off_node n x (x + sz)
  | None => forall x, st <= x -> (exists n, n ∈ l /\ x < node_start n) -> exists n, n ∈ l /\ ~ off_node n x (x + sz)
  end.
Proof.
  induction l as [|n l IH]; intros lo hi st sz Hl Hlo H0 Hsz; cbn [find_gap]; [by intros x _ (n & ?%elem_of_nil & _)|].
  destruct Hl as ((Hn & ? & ?) & Hln & Hl). rewrite u64_id by (unfold is_u64; lia). destruct (Z.leb_spec (st + sz) (node_start n)) as [Hfit|Hno].
  - pose proof (segs_le _ _ _ Hl). unfold node_end in *. split_and!; [lia|lia|by left|]. intros n' [->|Hn']%elem_of_cons; [by left|left].
    destruct (segs_mem _ _ _ _ Hl Hn') as (_ & ? & _). lia.
  - assert (Ee : seg_end (vs_segment (sn_seg n)) = node_end n) by (apply u64_id; unfold is_u64, node_end, node_start in *; lia). rewrite Ee.
    specialize (IH (node_end n) hi (node_end n) sz Hl ltac:(unfold node_end in *; lia) ltac:(unfold node_end in *; lia) Hsz). destruct (find_gap l _ sz) as [x|].
    + destruct IH as (G1 & G2 & G3 & G4). split_and!; [unfold node_end in *; lia|done| |].
      * right. destruct G3 as [->|(n' & ? & ->)]; [exists n|exists n']; (split; [|done]); by constructor.
      * intros n' [->|Hn']%elem_of_cons; [right; lia|by apply G4].
    + intros x Hx (n' & Hin & Hlt). destruct (decide (node_end n <= x)) as [Hge|Hle].
      * apply elem_of_cons in Hin as [->|Hin]; [unfold node_end in *; lia|]. destruct (IH x Hge) as (n1 & ? & ?); [by exists n'|]. exists n1. split; [by right|done].
      * exists n. split; [by left|]. unfold off_node. lia.
Qed.

(** A region of addresses below [2 ^ 48], in whole pages. *)
Record region_wf (rg : VmemRegion) : Prop := {
  rw_start : 0 <= start (vr_segment rg) /\ start (vr_segment rg) mod 4096 = 0;
  rw_size : size (vr_segment rg) mod 4096 = 0;
  rw_segs : segs_in (start (vr_segment rg)) (start (vr_segment rg) + size (vr_segment rg)) (sm_segments (used_segments rg));
  rw_end : start (vr_segment rg) + size (vr_segment rg) <= 2 ^ 48
}.

Definition region_end (rg : VmemRegion) : Z := start (vr_segment rg) + size (vr_segment rg).

(** The first address that [allocate_pages] gives out. *)
Definition first_addr (rg : VmemRegion) : Z := if start (vr_segment rg) =? 0 then 4096 else start (vr_segment rg).

Lemma region_end_eq rg : region_wf rg -> seg_end (vr_segment rg) = region_end rg.
Proof. intros [[? _] ? Hl ?]. apply segs_le in Hl. apply u64_id. unfold is_u64, region_end in *. lia. Qed.

Lemma last_segs lo hi l n : segs_in lo hi l -> last l = Some n -> node_end n <= hi /\ lo <= node_end n /\ node_fits n /\ forall n', n' ∈ l -> node_end n' <= node_end n.
Proof.
  intros Hl Hn. apply last_Some in Hn as [l' ->]. apply segs_app in Hl as (mid & H1 & (Hf & ? & ?)). cbn [segs_in] in *. pose proof (segs_le _ _ _ H1).
  split_and!; [done|unfold node_fits, node_end in *; lia|apply Hf..|]. intros n' [Hn'|[->|Hn'%elem_of_nil]%elem_of_cons]%elem_of_app; [|done|done].
  destruct (segs_mem _ _ _ _ H1 Hn') as (_ & _ & ?). unfold node_fits, node_end in *. lia.
Qed.

(** [allocate_pages] chooses addresses of the region that no segment uses; in a region at 0 a page must be left for the first. *)
Lemma choose_start_free rg sz st : region_wf rg -> 0 < sz <= 2 ^ 48 -> sm_segments (used_segments rg) <> [] \/ first_addr rg + sz <= region_end rg ->
  choose_start rg sz = Some st ->
  start (vr_segment rg) <= st /\ st + sz <= region_end rg /\ (st = first_addr rg \/ exists n, n ∈ sm_segments (used_segments rg) /\ st = node_end n) /\
  forall n, n ∈ sm_segments (used_segments rg) -> off_node n st (st + sz).
Proof.
  intros Hw Hsz Hroom. pose proof Hw as [[H0 Ha] _ Hl He]. pose proof (segs_le _ _ _ Hl) as Hle. unfold choose_start. rewrite (region_end_eq _ Hw).
  fold (first_addr rg). change (if start (vr_segment rg) =? 0 then PAGE_SIZE_SMALL else start (vr_segment rg)) with (first_addr rg).
  assert (Hfa : start (vr_segment rg) <= first_addr rg <= 2 ^ 48) by (unfold first_addr; destruct (Z.eqb_spec (start (vr_segment rg)) 0); lia).
  assert (Hgap : forall x, find_gap (sm_segments (used_segments rg)) (first_addr rg) sz = Some x -> start (vr_segment rg) <= x /\ x + sz <= region_end rg /\
    (x = first_addr rg \/ exists n, n ∈ sm_segments (used_segments rg) /\ x = node_end n) /\ forall n, n ∈ sm_segments (used_segments rg) -> off_node n x (x + sz)).
  { intros x Hx. pose proof (find_gap_spec _ _ _ (first_addr rg) sz Hl Hfa ltac:(lia) Hsz) as Hg. by rewrite Hx in Hg. }
  destruct (sm_is_empty (used_segments rg)) eqn:Ee.
  - destruct (Z.ltb_spec (size (vr_segment rg)) sz); [done|]. intros [= <-]. unfold sm_is_empty in Ee. rewrite !andb_true_iff in Ee. destruct Ee as (((_ & Es%bool_decide_eq_true) & _) & _).
    rewrite Es in *. destruct Hroom as [?|?]; [done|]. split_and!; [lia|done|by left|]. by intros n ?%elem_of_nil.
  - unfold last_segment. destruct (last _) as [n|] eqn:El; [|apply Hgap]. destruct (last_segs _ _ _ _ Hl El) as (H1 & H2 & (? & ? & ?) & H3).
    assert (En : seg_end (vs_segment (sn_seg n)) = node_end n) by (apply u64_id; unfold is_u64, node_end, node_start in *; lia). rewrite En.
    rewrite u64_id by (unfold is_u64, region_end in *; lia). destruct (Z.leb_spec (node_end n + sz) (region_end rg)); [|apply Hgap]. intros [= <-].
    split_and!; [lia|lia|right; exists n; split; [apply last_Some_elem_of, El|done]|]. intros n' Hn'. right. by apply H3.
Qed.

(** When it finds none there is none, as long as the region has a segment. *)
Lemma choose_start_full rg sz x : region_wf rg -> 0 < sz <= 2 ^ 48 -> sm_segments (used_segments rg) <> [] -> choose_start rg sz = None ->
  first_addr rg <= x -> x + sz <= region_end rg -> exists n, n ∈ sm_segments (used_segments rg) /\ ~ off_node n x (x + sz).
Proof.
  intros Hw Hsz Hne. pose proof Hw as [[H0 Ha] _ Hl He]. pose proof (segs_le _ _ _ Hl) as Hle. unfold choose_start. rewrite (region_end_eq _ Hw).
  change (if start (vr_segment rg) =? 0 then PAGE_SIZE_SMALL else start (vr_segment rg)) with (first_addr rg).
  assert (Ee : sm_is_empty (used_segments rg) = false) by (unfold sm_is_empty; rewrite (bool_decide_eq_false_2 (sm_segments _ = [])) by done; by rewrite andb_false_r).
  rewrite Ee. unfold last_segment. destruct (last (sm_segments (used_segments rg))) as [n|] eqn:El; [|by apply last_None in El].
  destruct (last_segs _ _ _ _ Hl El) as (H1 & H2 & (? & ? & ?) & H3).
  assert (En : seg_end (vs_segment (sn_seg n)) = node_end n) by (apply u64_id; unfold is_u64, node_end, node_start in *; lia). rewrite En.
  rewrite u64_id by (unfold is_u64, region_end in *; lia). destruct (Z.leb_spec (node_end n + sz) (region_end rg)); [done|]. intros Hg Hx Hxe.
  assert (Hfa : start (vr_segment rg) <= first_addr rg <= 2 ^ 48) by (unfold first_addr in *; destruct (Z.eqb_spec (start (vr_segment rg)) 0); unfold region_end in *; lia).
  pose proof (find_gap_spec _ _ _ (first_addr rg) sz Hl Hfa ltac:(lia) Hsz) as Hspec. rewrite Hg in Hspec.
  apply last_Some_elem_of in El. destruct (decide (x < node_start n)) as [Hlt|Hge]; [apply Hspec; [done|by exists n]|].
  exists n. split; [done|]. unfold off_node. lia.
Qed.

(** ** Regions and the memory *)

Definition node_arcs (n : SegmentNode) : list SlabArc := slab_arcs (vs_pages (sn_seg n)).
Definition segs_arcs (l : list SegmentNode) : list SlabArc := l ≫= node_arcs.
Definition region_arcs (rg : VmemRegion) : list SlabArc := segs_arcs (sm_segments (used_segments rg)) ++ slab_arcs (sm_slab_list (used_segments rg)).
Definition pages_of (l : list SegmentNode) : Z := foldr (fun n => Z.add (Z.of_nat (length (vs_pages (sn_seg n))))) 0 l.

Lemma segs_arcs_app l l' : segs_arcs (l ++ l') = segs_arcs l ++ segs_arcs l'.
Proof. apply bind_app. Qed.

Lemma segs_arcs_cons n l : segs_arcs (n :: l) = node_arcs n ++ segs_arcs l.
Proof. done. Qed.

Lemma pages_of_app l l' : pages_of (l ++ l') = pages_of l + pages_of l'.
Proof. unfold pages_of. induction l as [|n l IH]; cbn [foldr app]; [done|]. rewrite IH. lia. Qed.

Lemma pages_of_cons n l : pages_of (n :: l) = Z.of_nat (length (vs_pages (sn_seg n))) + pages_of l.
Proof. done. Qed.

Lemma pages_of_nonneg l : 0 <= pages_of l.
Proof. induction l as [|n l IH]; [done|]. rewrite pages_of_cons. lia. Qed.

Lemma segs_length lo hi l : segs_in lo hi l -> Z.of_nat (length l) <= hi - lo.
Proof.
  revert lo. induction l as [|n l IH]; intros lo; cbn [segs_in length]; [lia|]. intros ((? & _) & ? & Hl). apply IH in Hl. unfold node_end in *. lia.
Qed.

(** The counters of a map of segments. *)
Definition sm_ok (sm : SegmentMap) : Prop :=
  used_segment_count sm = Z.of_nat (length (sm_segments sm)) /\ sm_slab_count sm = u64 (Z.of_nat (length (sm_slab_list sm))).

Lemma wp_on_vb {A} (c : eff Vb MemError A) s (Q : A -> Rs -> Prop) X :
  wp c (rs_vb s) (fun a v => Q a (mkRs v (rs_region s))) (fun e v => X e (mkRs v (rs_region s))) -> wp (on_vb c) s Q X.
Proof. intros Hw. unfold wp, on_vb in *. by destruct (c (rs_vb s)) as [v [a|e|]]. Qed.

Abbreviation mm_of s := (vb_mm (rs_vb s)).
Abbreviation segs_of s := (sm_segments (used_segments (rs_region s))).

Section Regions.
Context (U : Z -> bool) (kroot r : Z) (other : Z -> Prop).
Hypothesis Hprog : r <> kroot.

Abbreviation mm_inv := (mm_inv U kroot other).
Abbreviation seg_ok := (seg_ok U kroot r).
Abbreviation space_step := (space_step kroot r).

(** The region of [s], with the references [H] and the pages [P] of the rest of the address space. *)
Record region_ok (s : Rs) (D : gmap Z node) (H : list SlabArc) (P : Z) : Prop := {
  rg_inv : mm_inv (mm_of s) D (region_arcs (rs_region s) ++ pa_arcs (rs_vb s) ++ H);
  rg_root : root D r;
  rg_table : table_l4 (page_table (vb_base (rs_vb s))) = OFF + r;
  rg_wf : region_wf (rs_region s);
  rg_own v : start (vr_segment (rs_region s)) <= v < region_end (rs_region s) -> own_addr kroot r v;
  rg_segs : Forall (fun n => seg_ok (mm_of s) (sn_seg n)) (segs_of s);
  rg_gaps v : start (vr_segment (rs_region s)) <= v < region_end (rs_region s) -> (forall n, n ∈ segs_of s -> ~ in_node n v) -> view (kmem (mm_of s)) r v = None;
  rg_map : sm_ok (used_segments (rs_region s));
  rg_pa : pa_ok (rs_vb s);
  rg_pages : pages_used (rs_vb s) = u64 (P + pages_of (segs_of s));
  rg_bytes : bytes_used (rs_region s) = 4096 * pages_of (segs_of s)
}.

(** A step of a region that keeps the objects in [H] and the translation outside of [lo] to [hi]. *)
Record region_step (s s' : Rs) (D D' : gmap Z node) (H : list SlabArc) (lo hi : Z) : Prop := {
  rt_views : views_step kroot r (kmem (mm_of s)) (kmem (mm_of s')) D D' lo hi;
  rt_kept : kept (mm_of s) (mm_of s') H;
  rt_table : page_table (vb_base (rs_vb s')) = page_table (vb_base (rs_vb s));
  rt_segment : vr_segment (rs_region s') = vr_segment (rs_region s)
}.

(** The address of a place that is free. *)
Lemma free_place s D H P st k : region_ok s D H P -> st mod 4096 = 0 -> start (vr_segment (rs_region s)) <= st -> st + 4096 * Z.of_nat k <= region_end (rs_region s) ->
  (forall n, n ∈ segs_of s -> off_node n st (st + 4096 * Z.of_nat k)) -> free_run kroot r (mm_of s) st k.
Proof.
  intros Hr Ha Hlo Hhi Hoff. pose proof (rg_wf _ _ _ _ Hr) as [[H0 _] _ _ He]. unfold region_end in *. split; [|lia]. intros j Hj.
  assert (Hin : forall v, st + 4096 * Z.of_nat j <= v < st + 4096 * Z.of_nat j + 4096 -> start (vr_segment (rs_region s)) <= v < region_end (rs_region s)) by (unfold region_end; lia).
  split; [split; [dlia|intros v Hv; by apply (rg_own _ _ _ _ Hr), Hin]|]. intros v Hv. apply (rg_gaps _ _ _ _ Hr); [by apply Hin|]. intros n Hn Hv'.
  destruct (Hoff n Hn); unfold in_node in *; lia.
Qed.

Lemma node_aligned s D H P n : region_ok s D H P -> n ∈ segs_of s -> node_start n mod 4096 = 0 /\ node_end n mod 4096 = 0 /\ seg_ok (mm_of s) (sn_seg n).
Proof.
  intros Hr Hn. pose proof (rg_segs _ _ _ _ Hr) as Hs. rewrite Forall_forall in Hs. specialize (Hs n Hn). split_and!; [| |done].
  all: destruct Hs as [A B C E F]; assert (Hst : node_start n mod 4096 = 0) by
    (unfold node_start; destruct (vs_pages (sn_seg n)) as [|p l]; [done|]; apply Forall_cons in E as [[[Hq _] _] _]; destruct C as [<- _]; done).
  - done.
  - unfold node_end. rewrite A. dlia.
Qed.

Lemma first_aligned rg : region_wf rg -> first_addr rg mod 4096 = 0.
Proof. intros [[_ Ha] _ _ _]. unfold first_addr. by destruct (start (vr_segment rg) =? 0). Qed.

Lemma region_used s D H P : region_ok s D H P -> is_u64 (pages_used (rs_vb s)).
Proof. intros Hr. rewrite (rg_pages _ _ _ _ Hr). apply u64_range. Qed.

(** A segment node, for which a frame may be taken. *)
Lemma sm_insert_spec s D H n seg sm : mm_inv (vb_mm s) D H -> enough (vb_mm s) (S n) -> used_segment_count sm < 2 ^ 60 -> sm_ok sm ->
  wp (sm_insert seg sm) s (fun sm' s' => exists hs a, mm_inv (vb_mm s') D (hs ++ H) /\ enough (vb_mm s') n /\ mem_step (vb_mm s) (vb_mm s') H /\ vb_base s' = vb_base s /\
    sm_segments sm' = tree_insert node_start (mkNode a seg) (sm_segments sm) /\ slab_arcs (sm_slab_list sm') = hs ++ slab_arcs (sm_slab_list sm) /\
    used_segment_count sm' = used_segment_count sm + 1 /\ sm_slab_count sm' = u64 (Z.of_nat (length (sm_slab_list sm')))) (fun _ _ => False).
Proof.
  intros HM [Hfr Hcap] Hlt [Hc1 Hc2]. unfold sm_insert. assert (Hu : u64 (used_segment_count sm + 1) = used_segment_count sm + 1) by (apply u64_id; unfold is_u64; lia).
  wp_step. destruct (sm_free_list sm) as [|node l] eqn:El.
  - rewrite bool_decide_eq_true_2 by done. apply wp_unwrap_ok. unfold sm_alloc_slab. wp_step. apply wp_on_mm.
    eapply wp_mono; [apply (allocate_frame_spec U kroot other (vb_mm s) D H n HM Hfr); lia| |done]. intros h m1 (f & Hnf & Hfr1). wp_step.
    eapply (get_frame (mkVb m1 (vb_base s))); [apply Hnf|]. wp_steps. cbn [sm_free_list]. change (Z.to_nat SEGMENT_NODES_IN_SMALL_PAGE) with 55%nat.
    destruct (push_pages 55 0 _ _ _) as [|node l'] eqn:Ep.
    { exfalso. clear -Ep. revert Ep. generalize (sm_free_list sm). intros l0. by cbn [push_pages]. }
    wp_steps. exists [h], node. cbn [vb_mm vb_base sm_segments sm_slab_list used_segment_count sm_slab_count]. split; [apply Hnf|]. split; [|split; [|split_and!; [done..|]]].
    + pose proof (nf_capacity _ _ _ _ _ _ _ _ _ Hnf). split; [done|lia].
    + split; [|apply Hnf|apply (nf_phys _ _ _ _ _ _ _ _ _ Hnf)|apply Hnf]. intros h' Hin. apply (nf_others _ _ _ _ _ _ _ _ _ Hnf). intros ->.
      by destruct (nf_new _ _ _ _ _ _ _ _ _ Hnf).
    + rewrite Hc2. cbn [length]. unfold u64. rewrite Zplus_mod_idemp_l. f_equal. lia.
  - rewrite bool_decide_eq_false_2 by done. wp_steps. rewrite El. wp_steps. exists [], node. split; [done|]. split; [|by split_and!].
    apply (enough_less _ (S n)); [by split|lia].
Qed.

Lemma node_in_range rg n v : region_wf rg -> n ∈ sm_segments (used_segments rg) -> in_node n v -> start (vr_segment rg) <= v < region_end rg.
Proof. intros [_ _ Hl _] Hn Hv. destruct (segs_mem _ _ _ _ Hl Hn) as (_ & ? & ?). unfold in_node, region_end in *. lia. Qed.

Lemma node_arcs_in n l : n ∈ l -> node_arcs n ⊆ segs_arcs l.
Proof. intros Hn h Hh. apply list_elem_of_bind. by exists n. Qed.

(** Segments that a step does not touch. *)
Lemma segs_step s s' D D' H lo hi l : region_step s s' D D' H lo hi -> segs_arcs l ⊆ H -> (forall n, n ∈ l -> off_node n lo hi) ->
  Forall (fun n => seg_ok (mm_of s) (sn_seg n)) l -> Forall (fun n => seg_ok (mm_of s') (sn_seg n)) l.
Proof.
  intros [A B C E] Hin Hoff Hall. rewrite Forall_forall in *. intros n Hn.
  eapply (seg_ok_step U kroot r (mkVb (mm_of s) (vb_base (rs_vb s))) (mkVb (mm_of s') (vb_base (rs_vb s))) D D' H lo hi); [by split| | |by apply Hall].
  - etrans; [by apply node_arcs_in|done].
  - destruct (Hoff n Hn); unfold node_end, node_start in *; lia.
Qed.

Lemma region_same_wf s s' D D' H lo hi : region_step s s' D D' H lo hi -> region_end (rs_region s') = region_end (rs_region s).
Proof. intros Hst. unfold region_end. by rewrite (rt_segment _ _ _ _ _ _ _ Hst). Qed.

(** The segment [seg] of [k] pages at [st] comes into the region, with a frame for each of the lists [hs] and [hs2] of new slabs. *)
Record segment_added (s s' : Rs) (D' : gmap Z node) (H hs hs2 : list SlabArc) (a : Z) (seg : VmemSegment) (st : Z) (k : nat) : Prop := {
  sa_seg : vs_segment seg = mkSeg st (4096 * Z.of_nat k) /\ seg_ok (mm_of s') seg;
  sa_inv : mm_inv (mm_of s') D' (hs2 ++ slab_arcs (vs_pages seg) ++ hs ++ region_arcs (rs_region s) ++ pa_arcs (rs_vb s) ++ H);
  sa_pa : pa_step (rs_vb s) (rs_vb s') hs (Z.of_nat k);
  sa_segs : segs_of s' = tree_insert node_start (mkNode a seg) (segs_of s);
  sa_slabs : slab_arcs (sm_slab_list (used_segments (rs_region s'))) = hs2 ++ slab_arcs (sm_slab_list (used_segments (rs_region s)));
  sa_count : used_segment_count (used_segments (rs_region s')) = used_segment_count (used_segments (rs_region s)) + 1;
  sa_slab_count : sm_slab_count (used_segments (rs_region s')) = u64 (Z.of_nat (length (sm_slab_list (used_segments (rs_region s')))));
  sa_bytes : bytes_used (rs_region s') = u64 (bytes_used (rs_region s) + 4096 * Z.of_nat k)
}.

(** The pages of a region are no more than its size. *)
Lemma pages_bound m lo hi l : segs_in lo hi l -> Forall (fun n => seg_ok m (sn_seg n)) l -> 0 <= 4096 * pages_of l <= hi - lo.
Proof.
  revert lo. induction l as [|n l IH]; intros lo; cbn [segs_in]; [cbn; lia|]. intros (Hf & ? & Hl) [Hn Hall]%Forall_cons. specialize (IH _ Hl Hall).
  rewrite pages_of_cons. destruct Hn as [Hsz _ _ _ _]. unfold node_end in *. lia.
Qed.

Lemma region_added s s' D D' H P hs hs2 a seg st k : region_ok s D H P -> start (vr_segment (rs_region s)) <= st -> st + 4096 * Z.of_nat k <= region_end (rs_region s) ->
  (forall n, n ∈ segs_of s -> off_node n st (st + 4096 * Z.of_nat k)) -> (0 < k)%nat ->
  region_step s s' D D' (region_arcs (rs_region s) ++ pa_arcs (rs_vb s) ++ H) st (st + 4096 * Z.of_nat k) -> segment_added s s' D' H hs hs2 a seg st k ->
  region_ok s' D' H P.
Proof.
  intros Hr Hlo Hhi Hoff Hk Hst Ha. pose proof Hr as [HM Hroot Ht Hwf Hown Hsegs Hgaps [Hc1 Hc2] Hpa Hpages Hbytes].
  destruct Hwf as [W1 W2 W3 W4]. destruct Ha as [[Es Hsok] Hinv (Pa1 & Pa2 & Pa3) Hse Hsl Hco Hsc Hby]. pose proof (rt_segment _ _ _ _ _ _ _ Hst) as Esg.
  set (x := mkNode a seg) in *. assert (Hx : node_start x = st /\ node_end x = st + 4096 * Z.of_nat k) by (unfold node_end, node_start; cbn; by rewrite Es).
  destruct Hx as [Hxs Hxe]. unfold region_end in Hhi.
  destruct (insert_gap (start (vr_segment (rs_region s))) (start (vr_segment (rs_region s)) + size (vr_segment (rs_region s))) (segs_of s) x) as (l1 & l2 & El & Ei & Hin); rewrite ?Hxs, ?Hxe; try done; try lia.
  { unfold node_fits. rewrite Hxs, Hxe. cbn. rewrite Es. cbn [size]. lia. }
  rewrite Ei in Hse. assert (Hall : Forall (fun n => seg_ok (mm_of s') (sn_seg n)) (l1 ++ x :: l2)).
  { assert (Ho : Forall (fun n => seg_ok (mm_of s') (sn_seg n)) (segs_of s)).
    { eapply segs_step; [exact Hst|unfold region_arcs; intros h Hh; rewrite !elem_of_app; by auto|done|done]. }
    rewrite El in Ho. apply Forall_app in Ho as [? ?]. apply Forall_app. split; [done|]. by constructor. }
  assert (Hpg : pages_of (l1 ++ x :: l2) = pages_of (segs_of s) + Z.of_nat k).
  { rewrite El, !pages_of_app, pages_of_cons. cbn [sn_seg x]. pose proof (sg_size _ _ _ _ _ Hsok) as Hsz. rewrite Es in Hsz. cbn [size] in Hsz. lia. }
  split; rewrite ?Hse, ?Esg, ?(rt_table _ _ _ _ _ _ _ Hst); try done.
  - unfold region_arcs in *. rewrite Hse, Hsl, Pa1. eapply mm_inv_perm; [|exact Hinv]. rewrite El, !segs_arcs_app, segs_arcs_cons. unfold node_arcs at 1. cbn [x sn_seg]. solve_Permutation.
  - by apply (vw_roots _ _ _ _ _ _ _ _ (rt_views _ _ _ _ _ _ _ Hst)).
  - split; rewrite ?Hse, ?Esg; done.
  - intros v. rewrite (region_same_wf _ _ _ _ _ _ _ Hst). apply Hown.
  - intros v Hv Hn. rewrite (region_same_wf _ _ _ _ _ _ _ Hst) in Hv. rewrite (vw_here _ _ _ _ _ _ _ _ (rt_views _ _ _ _ _ _ _ Hst)).
    + apply Hgaps; [done|]. intros n Hn'. apply Hn. rewrite El in Hn'. apply elem_of_app in Hn' as [?|?]; apply elem_of_app; [by left|right; by right].
    + apply (Hown v Hv).
    + intros Hv'. apply (Hn x); [apply elem_of_app; right; by left|]. unfold in_node. by rewrite Hxs, Hxe.
  - split; [rewrite Hco, Hc1, Hse, El, !length_app; cbn [length]; lia|done].
  - by apply Pa3.
  - rewrite Pa2, Hpages, Hpg. unfold u64. rewrite Zplus_mod_idemp_l. f_equal. lia.
  - rewrite Hby, Hbytes, Hpg. pose proof (pages_bound _ _ _ _ Hin Hall) as Hpb. rewrite Hpg in Hpb. rewrite u64_id; [lia|]. unfold is_u64.
    pose proof (pages_bound _ _ _ _ W3 Hsegs). lia.
Qed.

(** The pages of a segment are allocated and the segment gets a node. *)
Record placed (v v' : Vb) (sm sm' : SegmentMap) (D D' : gmap Z node) (H hs hs2 : list SlabArc) (a : Z) (seg : VmemSegment) (options st : Z) (k n : nat) : Prop := {
  pl_seg : vs_segment seg = mkSeg st (4096 * Z.of_nat k) /\ seg_ok (vb_mm v') seg;
  pl_options : vs_options seg = options;
  pl_new i p : vs_pages seg !! i = Some p -> page_new (vb_mm v') options (Z.of_nat k) (Z.of_nat i) p;
  pl_fresh : fresh_pages H (vs_pages seg);
  pl_inv : mm_inv (vb_mm v') D' (hs2 ++ slab_arcs (vs_pages seg) ++ hs ++ H);
  pl_step : space_step v v' D D' H st (st + 4096 * Z.of_nat k);
  pl_pa : pa_step v v' hs (Z.of_nat k);
  pl_enough : enough (vb_mm v') n;
  pl_segs : sm_segments sm' = tree_insert node_start (mkNode a seg) (sm_segments sm);
  pl_slabs : slab_arcs (sm_slab_list sm') = hs2 ++ slab_arcs (sm_slab_list sm);
  pl_count : used_segment_count sm' = used_segment_count sm + 1 /\ sm_slab_count sm' = u64 (Z.of_nat (length (sm_slab_list sm')))
}.

Lemma place_spec v D H sm st options n k : mm_inv (vb_mm v) D H -> root D r -> table_l4 (page_table (vb_base v)) = OFF + r -> free_run kroot r (vb_mm v) st k -> (0 < k)%nat ->
  seg_options_ok U r options (Z.of_nat k) -> enough (vb_mm v) (S n + 5 * k) -> is_u64 (pages_used v) -> used_segment_count sm < 2 ^ 60 -> sm_ok sm ->
  wp (seg_allocate_pages (mkVS (mkSeg st (4096 * Z.of_nat k)) [] options)) v (fun seg v1 =>
    wp (sm_insert seg sm) v1 (fun sm' v2 => exists D' hs hs2 a, placed v v2 sm sm' D D' H hs hs2 a seg options st k n) (fun _ _ => False)) (fun _ _ => False).
Proof.
  intros HM Hr Ht Hfree Hk Hopt He Hpu Hcnt Hsm. eapply wp_mono; [by apply (seg_allocate_spec U kroot r other v D H st options (S n) k)| |done].
  intros seg v1 (D1 & hs & Es & Eo & Hok & HM1 & Hst1 & Hpa1 & He1 & Hfrs & Hnew). eapply wp_mono; [by apply (sm_insert_spec v1 D1 _ n seg sm HM1 He1 Hcnt Hsm)| |done].
  intros sm' v2 (hs2 & a & HM2 & He2 & Hms & Hb2 & Hse & Hsl & Hc). exists D1, hs, hs2, a.
  pose proof (step_mem kroot r v1 v2 D1 _ st (st + 4096 * Z.of_nat k) Hms ltac:(split; by rewrite Hb2)) as Hst2. split; try done.
  - split; [done|]. destruct Hok as [A B C E F]. split; [done..| |done]. apply Forall_forall. intros p Hp. rewrite Forall_forall in E.
    pose proof (step_mem kroot r v1 v2 D1 _ (pg_start p) (pg_start p) Hms ltac:(split; by rewrite Hb2)) as Hst3.
    eapply page_ok_step; [exact Hst3| |lia|by apply E]. intros h Hh. apply elem_of_app. left. by eapply arcs_in.
  - intros i p Hi. eapply page_new_kept; [apply Hst2| |by apply Hnew]. intros h Hh. apply elem_of_app. left. eapply arcs_in; [|done]. by eapply list_elem_of_lookup_2.
  - eapply step_trans; [exact Hst1|exact Hst2|done| |apply Z.le_refl..]. intros h Hh. rewrite !elem_of_app. by auto.
  - unfold pa_step, pa_arcs, pages_used, pa_ok in *. by rewrite Hb2.
Qed.

Lemma placed_region s v' sm' D D' H P hs hs2 a seg options st k n b stats : region_ok s D H P ->
  placed (rs_vb s) v' (used_segments (rs_region s)) sm' D D' (region_arcs (rs_region s) ++ pa_arcs (rs_vb s) ++ H) hs hs2 a seg options st k n ->
  start (vr_segment (rs_region s)) <= st -> st + 4096 * Z.of_nat k <= region_end (rs_region s) ->
  (forall n, n ∈ segs_of s -> off_node n st (st + 4096 * Z.of_nat k)) -> (0 < k)%nat -> b = u64 (bytes_used (rs_region s) + 4096 * Z.of_nat k) ->
  let s' := mkRs (mkVb (vb_mm v') (mkBase (page_table (vb_base v')) (page_allocator (vb_base v')) stats)) (mkRegion (vr_segment (rs_region s)) b sm') in
  region_ok s' D' H P /\ region_step s s' D D' (region_arcs (rs_region s) ++ pa_arcs (rs_vb s) ++ H) st (st + 4096 * Z.of_nat k).
Proof.
  intros Hr [A B C _ E F G J K L [M N]] Hlo Hhi Hoff Hk Hb s'. destruct F as [F1 F2 [F3 F4]].
  assert (Hst : region_step s s' D D' (region_arcs (rs_region s) ++ pa_arcs (rs_vb s) ++ H) st (st + 4096 * Z.of_nat k)) by done.
  split; [|done]. eapply (region_added s s' D D' H P hs hs2 a seg st k); done.
Qed.

Definition stats_of (s : Rs) : Z := mem_stats (vb_base (rs_vb s)).

(** The segment that an allocation of [k] pages adds; its frames are none of those that the objects in [A] stand for. *)
Definition new_segment (s s' : Rs) (A : list SlabArc) (options st : Z) (k : nat) : Prop := exists n, segs_of s' = tree_insert node_start n (segs_of s) /\
  vs_segment (sn_seg n) = mkSeg st (4096 * Z.of_nat k) /\ vs_options (sn_seg n) = options /\
  (forall i p, vs_pages (sn_seg n) !! i = Some p -> page_new (mm_of s') options (Z.of_nat k) (Z.of_nat i) p) /\ stats_of s' = u64 (stats_of s + Z.of_nat k) /\
  bytes_used (rs_region s') = u64 (bytes_used (rs_region s) + 4096 * Z.of_nat k) /\ fresh_pages A (vs_pages (sn_seg n)).

Lemma bytes_bound s D H P : region_ok s D H P -> 0 <= bytes_used (rs_region s) <= 2 ^ 48.
Proof.
  intros Hr. rewrite (rg_bytes _ _ _ _ Hr). destruct (rg_wf _ _ _ _ Hr) as [[? _] _ Hl ?]. pose proof (pages_bound _ _ _ _ Hl (rg_segs _ _ _ _ Hr)). lia.
Qed.

Lemma count_small s D H P : region_ok s D H P -> used_segment_count (used_segments (rs_region s)) < 2 ^ 60.
Proof.
  intros Hr. destruct (rg_map _ _ _ _ Hr) as [-> _]. destruct (rg_wf _ _ _ _ Hr) as [[? _] _ Hl ?]. apply segs_length in Hl. lia.
Qed.

Lemma pages_size k : 0 < k < 2 ^ 36 -> u64 (Z.shiftl k PAGE_SIZE_SMALL_LOG2) = 4096 * k.
Proof. intros Hk. rewrite Z.shiftl_mul_pow2 by done. change (2 ^ PAGE_SIZE_SMALL_LOG2) with 4096. rewrite u64_id; [lia|unfold is_u64; lia]. Qed.

Lemma region_allocate_spec s D H P options n k : region_ok s D H P -> (0 < k)%nat -> Z.of_nat k < 2 ^ 36 -> seg_options_ok U r options (Z.of_nat k) ->
  segs_of s <> [] \/ first_addr (rs_region s) + 4096 * Z.of_nat k <= region_end (rs_region s) -> enough (mm_of s) (S n + 5 * k) ->
  wp (region_allocate_pages (Z.of_nat k) options) s (fun ms s' => exists D' st, ms = mkSeg st (4096 * Z.of_nat k) /\
      choose_start (rs_region s) (4096 * Z.of_nat k) = Some st /\ region_ok s' D' H P /\ enough (mm_of s') n /\ new_segment s s' (region_arcs (rs_region s) ++ pa_arcs (rs_vb s) ++ H) options st k /\
      region_step s s' D D' (region_arcs (rs_region s) ++ pa_arcs (rs_vb s) ++ H) st (st + 4096 * Z.of_nat k))
    (fun e s' => s' = s /\ e = OutOfMemory /\ choose_start (rs_region s) (4096 * Z.of_nat k) = None).
Proof.
  intros Hr Hk Hk2 Hopt Hroom He. unfold region_allocate_pages, get_region. rewrite pages_size by lia. wp_steps.
  destruct (choose_start (rs_region s) (4096 * Z.of_nat k)) as [st|] eqn:Ec; [|wp_steps; done].
  destruct (choose_start_free (rs_region s) (4096 * Z.of_nat k) st (rg_wf _ _ _ _ Hr) ltac:(lia) Hroom Ec) as (Hlo & Hhi & Hst & Hoff).
  assert (Hal : st mod 4096 = 0).
  { destruct Hst as [->|(m & Hm & ->)]; [apply first_aligned, Hr|by eapply node_aligned]. }
  pose proof (free_place _ _ _ _ _ _ Hr Hal Hlo Hhi Hoff) as Hfree. unfold add_segment_at. do 2 wp_step. apply wp_on_vb.
  eapply wp_mono; [apply (place_spec (rs_vb s) D _ (used_segments (rs_region s)) st options n k (rg_inv _ _ _ _ Hr)); try done; try apply Hr; [by eapply region_used|by eapply count_small]| |done].
  intros seg v1 Hw. unfold add_bytes_used, get_region, set_used_segments, stats_add. wp_steps. apply wp_on_vb. cbn [rs_vb].
  eapply wp_mono; [exact Hw| |done]. intros sm' v2 (D' & hs & hs2 & a & Hpl). wp_steps. apply wp_on_vb. wp_steps. cbn [rs_region rs_vb].
  exists D', st. split; [done|]. split; [done|].
  destruct (placed_region s v2 sm' D D' H P hs hs2 a seg options st k n _ (u64 (mem_stats (vb_base v2) + Z.of_nat k)) Hr Hpl Hlo Hhi Hoff Hk eq_refl) as [Hr' Hst'].
  destruct Hpl as [[Es Hok] Eo Hnew Hfrs Hinv Hstep Hpa He' Hse Hsl Hc]. split; [done|]. split; [done|]. split; [|done].
  exists (mkNode a seg). do 4 (split; [done|]). split; [|by split]. unfold stats_of. cbn [rs_vb vb_base mem_stats]. by rewrite (proj2 (ss_space _ _ _ _ _ _ _ _ _ Hstep)).
Qed.

(** ** Segments are freed *)

(** The other nodes are off a node. *)
Lemma off_others lo hi l1 n l2 m : segs_in lo hi (l1 ++ n :: l2) -> m ∈ l1 ++ l2 -> off_node m (node_start n) (node_end n).
Proof.
  intros Hl Hm. apply segs_app in Hl as (mid & H1 & (_ & ? & H2)). unfold off_node. apply elem_of_app in Hm as [Hm|Hm].
  - destruct (segs_mem _ _ _ _ H1 Hm) as (_ & _ & ?). lia.
  - destruct (segs_mem _ _ _ _ H2 Hm) as (_ & ? & _). lia.
Qed.

Definition rest_arcs (s : Rs) (l : list SegmentNode) (H : list SlabArc) : list SlabArc :=
  segs_arcs l ++ slab_arcs (sm_slab_list (used_segments (rs_region s))) ++ pa_arcs (rs_vb s) ++ H.

(** The segment of [n] goes, and with it its pages. *)
Record segment_gone (s s' : Rs) (D D' : gmap Z node) (H : list SlabArc) (l1 : list SegmentNode) (n : SegmentNode) (l2 : list SegmentNode) : Prop := {
  gn_segs : segs_of s' = l1 ++ l2;
  gn_step : region_step s s' D D' (rest_arcs s (l1 ++ l2) H) (node_start n) (node_end n);
  gn_unmapped v : in_node n v -> view (kmem (mm_of s')) r v = None;
  gn_stats : stats_of s' = u64 (stats_of s - Z.of_nat (length (vs_pages (sn_seg n))));
  gn_slabs : sm_slab_list (used_segments (rs_region s')) = sm_slab_list (used_segments (rs_region s));
  gn_pa : pa_arcs (rs_vb s') = pa_arcs (rs_vb s);
  gn_emptied : sm_is_empty (used_segments (rs_region s')) = false
}.

Lemma region_removed s s' D D' H P l1 n l2 : region_ok s D H P -> segs_of s = l1 ++ n :: l2 -> segment_gone s s' D D' H l1 n l2 ->
  mm_inv (mm_of s') D' (rest_arcs s (l1 ++ l2) H) -> pa_step (rs_vb s) (rs_vb s') [] (- Z.of_nat (length (vs_pages (sn_seg n)))) ->
  sm_ok (used_segments (rs_region s')) -> bytes_used (rs_region s') = u64 (bytes_used (rs_region s) - size (vs_segment (sn_seg n))) -> region_ok s' D' H P.
Proof.
  intros Hr El [Es Hst Hun _ Esl _ _] HM' (Pa1 & Pa2 & Pa3) Hsm Hby. pose proof Hr as [HM Hroot Ht Hwf Hown Hsegs Hgaps _ Hpa Hpages Hbytes].
  destruct Hwf as [W1 W2 W3 W4]. rewrite El in *. pose proof (rt_segment _ _ _ _ _ _ _ Hst) as Esg. pose proof (segs_remove _ _ _ _ _ W3) as W3'.
  assert (Hsz : size (vs_segment (sn_seg n)) = 4096 * Z.of_nat (length (vs_pages (sn_seg n)))) by (apply Forall_app in Hsegs as [_ Hs]; apply Forall_cons in Hs as [Hs _]; apply Hs).
  assert (Hpg : pages_of (l1 ++ n :: l2) = pages_of (l1 ++ l2) + Z.of_nat (length (vs_pages (sn_seg n)))) by (rewrite !pages_of_app, pages_of_cons; lia).
  split; rewrite ?Es, ?Esg, ?(rt_table _ _ _ _ _ _ _ Hst); try done.
  - unfold region_arcs. rewrite Es, Esl, Pa1. unfold rest_arcs in HM'. by rewrite <- app_assoc.
  - by apply (vw_roots _ _ _ _ _ _ _ _ (rt_views _ _ _ _ _ _ _ Hst)).
  - split; rewrite ?Es, ?Esg; done.
  - intros v. rewrite (region_same_wf _ _ _ _ _ _ _ Hst). apply Hown.
  - eapply segs_step; [exact Hst| | |].
    + unfold rest_arcs. intros h Hh. apply elem_of_app. by left.
    + intros m Hm. by eapply off_others.
    + apply Forall_app in Hsegs as [? Hs]. apply Forall_cons in Hs as [_ ?]. by apply Forall_app.
  - intros v Hv Hn. rewrite (region_same_wf _ _ _ _ _ _ _ Hst) in Hv. destruct (decide (node_start n <= v < node_end n)) as [Hin|Hni]; [by apply Hun|].
    rewrite (vw_here _ _ _ _ _ _ _ _ (rt_views _ _ _ _ _ _ _ Hst)); [|apply (Hown v Hv)|done]. apply Hgaps; [done|].
    intros m [Hm|[->|Hm]%elem_of_cons]%elem_of_app; [apply Hn, elem_of_app; by left|done|apply Hn, elem_of_app; by right].
  - by apply Pa3.
  - rewrite Pa2, Hpages, Hpg. unfold u64. rewrite Zplus_mod_idemp_l. f_equal. lia.
  - rewrite Hby, Hbytes, Hpg, Hsz. pose proof (pages_bound _ _ _ _ W3 Hsegs) as Hpb. rewrite Hpg in Hpb.
    rewrite u64_id; [lia|]. unfold is_u64. pose proof (pages_of_nonneg (l1 ++ l2)). lia.
Qed.

(** A map that got a node back does not pass for empty. *)
Lemma give_not_empty n l sm : sm_is_empty (give_node n l sm) = false.
Proof. unfold sm_is_empty, give_node. cbn [sm_free_list]. by rewrite (bool_decide_eq_false_2 (_ :: _ = [])), andb_false_r. Qed.

Lemma unmap_spec s D H P l1 n l2 : region_ok s D H P -> segs_of s = l1 ++ n :: l2 ->
  wp (set_used_segments (give_node n (l1 ++ l2) (used_segments (rs_region s)));;; region_unmap (sn_seg n)) s (fun sz s' => exists D',
    sz = size (vs_segment (sn_seg n)) /\ region_ok s' D' H P /\ segment_gone s s' D D' H l1 n l2) (fun _ _ => False).
Proof.
  intros Hr El. pose proof Hr as [HM Hroot Ht Hwf Hown Hsegs Hgaps [Hc1 Hc2] Hpa Hpages Hbytes].
  assert (Hs : seg_ok (mm_of s) (sn_seg n)) by (rewrite El in Hsegs; apply Forall_app in Hsegs as [_ Hs]; by apply Forall_cons in Hs as [Hs _]).
  unfold set_used_segments, region_unmap, add_bytes_used, stats_sub. wp_steps. apply wp_on_vb. cbn [rs_vb].
  eapply wp_mono; [apply (seg_clear_spec U kroot r other Hprog (rs_vb s) D (rest_arcs s (l1 ++ l2) H) (sn_seg n)); try done; [|by eapply region_used]| |done].
  { eapply mm_inv_perm; [|exact HM]. unfold region_arcs, rest_arcs. rewrite El, !segs_arcs_app, segs_arcs_cons. unfold node_arcs. solve_Permutation. }
  intros sz v1 (D' & -> & HM1 & Hst & Hun & Hpa1). wp_steps. apply wp_on_vb. wp_steps. exists D'. split; [done|]. cbn [rs_vb rs_region vr_segment bytes_used used_segments].
  set (s' := mkRs _ _). destruct Hst as [Hst1 Hst2 [Hst3 Hst4]].
  assert (Hg : segment_gone s s' D D' H l1 n l2).
  { split; [done|by split|done| |done|apply Hpa1|apply give_not_empty]. unfold stats_of. cbn [s' rs_vb vb_base mem_stats]. rewrite Hst4. f_equal. rewrite (sg_size _ _ _ _ _ Hs).
    rewrite Z.shiftr_div_pow2 by done. change (2 ^ PAGE_SIZE_SMALL_LOG2) with 4096. rewrite (Z.mul_comm 4096), Z.div_mul by done. done. }
  split; [|done]. eapply region_removed; try done.
  split; [|done]. cbn [s' rs_region used_segments give_node used_segment_count sm_segments]. rewrite Hc1, El, !length_app. cbn [length].
  rewrite u64_id; [lia|]. pose proof (count_small _ _ _ _ Hr) as Hcs. rewrite Hc1, El, length_app in Hcs. cbn [length] in Hcs. unfold is_u64. lia.
Qed.

(** [free] of a segment. *)
Lemma region_free_spec s D H P n : region_ok s D H P -> n ∈ segs_of s ->
  wp (region_free (node_start n)) s (fun sz s' => exists D' l1 l2, sz = size (vs_segment (sn_seg n)) /\ segs_of s = l1 ++ n :: l2 /\ region_ok s' D' H P /\
    segment_gone s s' D D' H l1 n l2) (fun _ _ => False).
Proof.
  intros Hr Hn. pose proof (rg_wf _ _ _ _ Hr) as Hwf. pose proof Hwf as [[H0 _] _ Hl He]. destruct (segs_mem _ _ _ _ Hl Hn) as ((? & ? & ?) & ? & ?).
  unfold region_free, get_region. wp_steps. assert (Hc : contains (vr_segment (rs_region s)) (node_start n) = true).
  { unfold contains. rewrite (region_end_eq _ Hwf), andb_true_iff, Z.leb_le, Z.ltb_lt. unfold region_end, node_end in *. lia. }
  rewrite Hc. cbn [negb]. unfold sm_remove. pose proof (tree_remove_spec (segs_of s) (node_start n)) as Hrm. destruct (tree_remove _ _ _) as [[m l']|].
  - destruct Hrm as (l1 & l2 & El & -> & Em). assert (m = n) as ->.
    { apply (node_unique _ _ _ _ _ (node_start n) Hl); [rewrite El; apply elem_of_app; right; by left|done| |].
      - unfold in_node, node_end. rewrite Em. assert (m ∈ segs_of s) as Hm by (rewrite El; apply elem_of_app; right; by left).
        destruct (segs_mem _ _ _ _ Hl Hm) as ((? & _) & _). lia.
      - unfold in_node, node_end. lia. }
    eapply wp_mono; [apply (unmap_spec s D H P l1 n l2 Hr El)| |done]. intros sz s' (D' & -> & Hr' & Hg). by exists D', l1, l2.
  - by destruct (Hrm n Hn).
Qed.

(** [free] of an address where no segment starts: the region refuses one outside it and panics inside. *)
Lemma region_free_other s addr : region_wf (rs_region s) -> (forall n, n ∈ segs_of s -> node_start n <> addr) ->
  region_free addr s = (s, if decide (start (vr_segment (rs_region s)) <= addr < region_end (rs_region s)) then Panic else Err InvalidArgument).
Proof.
  intros Hwf Hno. unfold region_free, get_region, bind, get_state, ret, throw, panic.
  assert (Hc : contains (vr_segment (rs_region s)) addr = bool_decide (start (vr_segment (rs_region s)) <= addr < region_end (rs_region s))).
  { unfold contains. rewrite (region_end_eq _ Hwf). apply eq_true_iff_eq. by rewrite andb_true_iff, Z.leb_le, Z.ltb_lt, bool_decide_eq_true. }
  rewrite Hc. destruct (decide _) as [Hin|Hout]; [rewrite bool_decide_eq_true_2 by done|by rewrite bool_decide_eq_false_2 by done]. cbn [negb].
  unfold sm_remove. pose proof (tree_remove_spec (segs_of s) addr) as Hrm. destruct (tree_remove _ _ _) as [[m l']|]; [|done].
  destruct Hrm as (l1 & l2 & El & _ & Em). destruct (Hno m); [rewrite El; apply elem_of_app; right; by left|done].
Qed.

(** ** Regions are cleared *)

Lemma rstep_refl s D H lo hi : region_step s s D D H lo hi.
Proof. by split; [apply views_refl|apply kept_refl|..]. Qed.

Lemma rstep_trans s1 s2 s3 D1 D2 D3 H1 H2 H lo hi lo1 hi1 lo2 hi2 : region_step s1 s2 D1 D2 H1 lo1 hi1 -> region_step s2 s3 D2 D3 H2 lo2 hi2 ->
  H ⊆ H1 -> H ⊆ H2 -> lo <= lo1 -> hi1 <= hi -> lo <= lo2 -> hi2 <= hi -> region_step s1 s3 D1 D3 H lo hi.
Proof.
  intros [A1 B1 C1 E1] [A2 B2 C2 E2] ? ? ? ? ? ?. split; [by eapply views_trans|by eapply kept_trans|congruence|congruence].
Qed.

Lemma drop_slabs_spec l : forall s D H lo hi, mm_inv (vb_mm s) D (slab_arcs l ++ H) ->
  wp (drop_slab_frames l) s (fun _ s' => mm_inv (vb_mm s') D H /\ space_step s s' D D H lo hi /\ vb_base s' = vb_base s) (fun _ _ => False).
Proof.
  induction l as [|p l IH]; intros s D H lo hi HM; cbn [drop_slab_frames]; [wp_steps; split_and!; [done|apply step_refl|done]|].
  rewrite arcs_cons, <- app_assoc in HM. unfold page_arcs in HM. wp_step. destruct (pg_frame p) as [h|].
  - eapply wp_mono; [by apply (drop_spec U kroot r other s D (slab_arcs l ++ H) h lo hi)| |done]. intros _ s1 (HM1 & Hst1 & Hb1 & _).
    eapply wp_mono; [by apply (IH s1 D H lo hi)| |done]. intros _ s2 (HM2 & Hst2 & Hb2). split; [done|]. split; [|congruence].
    eapply step_trans; [exact Hst1|exact Hst2|by apply list_subseteq_app_r|done|apply Z.le_refl..].
  - wp_steps. by apply IH.
Qed.

(** The loop of [clear]: the segments go one after the other. *)
Lemma clear_loop_spec l : forall s D H P, region_ok s D H P -> segs_of s = l ->
  wp (region_clear_loop (length l)) s (fun _ s' => exists D', region_ok s' D' H P /\ segs_of s' = [] /\
    sm_slab_list (used_segments (rs_region s')) = sm_slab_list (used_segments (rs_region s)) /\ pages_used (rs_vb s') = u64 P /\ pa_arcs (rs_vb s') = pa_arcs (rs_vb s) /\
    region_step s s' D D' (slab_arcs (sm_slab_list (used_segments (rs_region s))) ++ pa_arcs (rs_vb s) ++ H) (start (vr_segment (rs_region s))) (region_end (rs_region s)))
    (fun _ _ => False).
Proof.
  induction l as [|n l IH]; intros s D H P Hr El; cbn [length region_clear_loop]; unfold get_region; wp_steps.
  - exists D. rewrite (rg_pages _ _ _ _ Hr), El, Z.add_0_r. split_and!; [done..|apply rstep_refl].
  - unfold sm_pop_first. rewrite El. pose proof (unmap_spec s D H P [] n l Hr El) as Hu. apply wp_bind_inv in Hu. wp_step.
    eapply wp_mono; [exact Hu| |done]. intros [] s0 Hu0. wp_step. eapply wp_mono; [exact Hu0| |done]. cbv beta. intros sz s1 (D1 & _ & Hr1 & [Es Hst Hun _ Esl Epa _]).
    eapply wp_mono; [by apply (IH s1 D1 H P)| |done]. intros _ s2 (D2 & Hr2 & Es2 & Esl2 & Hp2 & Epa2 & Hst2). exists D2. rewrite Esl in *. split_and!; [done..|congruence|].
    rewrite (rt_segment _ _ _ _ _ _ _ Hst), (region_same_wf _ _ _ _ _ _ _ Hst) in Hst2. pose proof (rg_wf _ _ _ _ Hr) as [_ _ Hl _]. rewrite El in Hl.
    destruct (segs_mem _ _ _ n Hl) as (_ & ? & ?); [by left|].
    eapply rstep_trans; [exact Hst|exact Hst2| |by rewrite Epa|unfold region_end; lia..]. unfold rest_arcs. intros h Hh. apply elem_of_app. by right.
Qed.

Lemma region_clear_spec s D H P : region_ok s D H P ->
  wp region_clear s (fun _ s' => exists D', region_ok s' D' H P /\ segs_of s' = [] /\ region_arcs (rs_region s') = [] /\ bytes_used (rs_region s') = 0 /\
    sm_is_empty (used_segments (rs_region s')) = true /\ pages_used (rs_vb s') = u64 P /\ pa_arcs (rs_vb s') = pa_arcs (rs_vb s) /\
    region_step s s' D D' (pa_arcs (rs_vb s) ++ H) (start (vr_segment (rs_region s))) (region_end (rs_region s)))
    (fun _ _ => False).
Proof.
  intros Hr. unfold region_clear, get_region, set_used_segments. wp_steps.
  eapply wp_mono; [by apply (clear_loop_spec _ s D H P Hr)| |done]. intros _ s1 (D1 & Hr1 & Es & Esl & Hp1 & Epa & Hst1). wp_steps. apply wp_on_vb.
  pose proof (rg_map _ _ _ _ Hr1) as [Hc1 Hc2]. rewrite Es in Hc1. unfold sm_clear. wp_step. apply wp_assert; [by rewrite Hc1|]. wp_step.
  pose proof (rg_inv _ _ _ _ Hr1) as HM1. unfold region_arcs in HM1. rewrite Es in HM1. cbn [segs_arcs mbind list_bind app] in HM1.
  eapply wp_mono; [by apply (drop_slabs_spec _ (rs_vb s1) D1 _ (start (vr_segment (rs_region s))) (start (vr_segment (rs_region s))) HM1)| |done].
  intros _ v2 (HM2 & [Hst2 Hk2 [_ _]] & Hb2). wp_steps. exists D1. cbn [rs_region used_segments]. set (s2 := mkRs _ _).
  assert (Hs12 : region_step s1 s2 D1 D1 (pa_arcs (rs_vb s1) ++ H) (start (vr_segment (rs_region s))) (start (vr_segment (rs_region s)))).
  { split; [done|done|cbn; by rewrite Hb2|done]. }
  assert (Ecnt : u64 (sm_slab_count (used_segments (rs_region s1)) - Z.of_nat (length (sm_slab_list (used_segments (rs_region s1))))) = 0).
  { rewrite Hc2. unfold u64. rewrite Zminus_mod_idemp_l, Z.sub_diag. done. }
  assert (Ebase : pa_arcs v2 = pa_arcs (rs_vb s1) /\ pages_used v2 = pages_used (rs_vb s1) /\ (pa_ok (rs_vb s1) -> pa_ok v2)) by (unfold pa_arcs, pages_used, pa_ok; by rewrite Hb2).
  destruct Ebase as (B1 & B2 & B3). pose proof Hr1 as [_ Q2 Q3 [W1 W2 W3 W4] Q5 Q6 Q7 Q8 Q9 Q10 Q11].
  split; [|split; [done|split; [unfold region_arcs; cbn; by rewrite Es|split; [by rewrite Q11, Es|split; [|split; [cbn; congruence|split; [cbn; congruence|]]]]]]].
  - split; cbn [s2 rs_vb rs_region vr_segment used_segments sm_segments bytes_used]; try done.
    + unfold region_arcs. cbn. rewrite Es, B1. done.
    + by rewrite Hb2.
    + rewrite Es. constructor.
    + intros v Hv Hn. rewrite (vw_here _ _ _ _ _ _ _ _ Hst2); [by apply Q7|apply (Q5 v Hv)|lia].
    + split; cbn; [by rewrite Hc1, Es|exact Ecnt].
    + by apply B3.
    + by rewrite B2.
  - unfold sm_is_empty. cbn [s2 rs_region used_segments sm_slab_count sm_segments sm_free_list sm_slab_list]. by rewrite Ecnt, Es.
  - pose proof (rt_segment _ _ _ _ _ _ _ Hst1) as Esg. pose proof (rg_wf _ _ _ _ Hr) as [_ _ Hl _]. apply segs_le in Hl.
    eapply rstep_trans; [exact Hst1|exact Hs12|by apply list_subseteq_app_r|by rewrite Epa|unfold region_end; lia..].
Qed.

(** ** The allocator of pages is cleared *)

Lemma pa_clear_spec s D H lo hi : mm_inv (vb_mm s) D (pa_arcs s ++ H) -> pa_ok s -> pages_used s = 0 ->
  wp pa_clear s (fun _ s' => mm_inv (vb_mm s') D H /\ space_step s s' D D H lo hi /\ page_allocator (vb_base s') = pa_default) (fun _ _ => False).
Proof.
  intros HM Hok Hp. unfold pa_clear, get_pa, set_pa, pages_used in *. wp_steps. apply wp_assert; [by rewrite Hp|]. wp_step.
  eapply wp_mono; [by apply (drop_slabs_spec _ s D H lo hi)| |done]. intros _ s1 (HM1 & Hst1 & Hb1). wp_steps. cbn [used_page_count pa_slab_count page_allocator vb_base].
  assert (Ec : u64 (pa_slab_count (page_allocator (vb_base s)) - Z.of_nat (length (pa_slab_list (page_allocator (vb_base s))))) = 0).
  { rewrite Hok. unfold u64. rewrite Zminus_mod_idemp_l, Z.sub_diag. done. }
  rewrite Hp, Ec. apply wp_assert; [done|]. split; [done|]. split; [|done]. destruct Hst1 as [A B [C E]]. by split.
Qed.

(** ** What a region says of an address *)

Lemma region_contains rg v : region_wf rg -> contains (vr_segment rg) v = true <-> start (vr_segment rg) <= v < region_end rg.
Proof. intros Hw. unfold contains. rewrite (region_end_eq _ Hw), andb_true_iff, Z.leb_le, Z.ltb_lt. done. Qed.

Lemma region_status_spec s D H P v : region_ok s D H P ->
  wp (region_map_status v) s (fun st s' => s' = s /\
    (start (vr_segment (rs_region s)) <= v < region_end (rs_region s) -> status_of U r (view (kmem (mm_of s)) r v) st) /\
    (st = Unallocated <-> forall n, n ∈ segs_of s -> ~ in_node n v)) (fun _ _ => False).
Proof.
  intros Hr. pose proof (rg_wf _ _ _ _ Hr) as Hwf. pose proof Hwf as [_ _ Hl _]. unfold region_map_status, get_region. wp_steps.
  destruct (contains _ v) eqn:Ec; cbn [negb].
  - apply region_contains in Ec; [|done]. pose proof (sm_find_spec _ _ (used_segments (rs_region s)) v Hl) as Hf. destruct (sm_find _ v) as [seg|].
    + destruct Hf as (n & Hn & <- & Hv). pose proof (rg_segs _ _ _ _ Hr) as Hs. rewrite Forall_forall in Hs. apply wp_on_vb.
      eapply wp_mono; [by apply (seg_map_status_spec U kroot r other (rs_vb s) D _ (sn_seg n) v (rg_inv _ _ _ _ Hr) (Hs n Hn))| |done].
      intros st s' (-> & Hst & Hne & _). split; [by destruct s|]. split; [done|]. split; [done|]. by intros Hno; destruct (Hno n Hn).
    + wp_steps. split; [done|]. split; [|done]. intros _. by apply (rg_gaps _ _ _ _ Hr).
  - wp_steps. assert (Hno : ~ (start (vr_segment (rs_region s)) <= v < region_end (rs_region s))) by (intros Hv; apply region_contains in Hv; [congruence|done]).
    split; [done|]. split; [done|]. split; [|done]. intros _ n Hn Hv. apply Hno. by eapply node_in_range.
Qed.

(** ** A fixed place *)

(** [allocate_user_fixed] in a place that is free. *)
Lemma allocate_fixed_spec s D H P options n st k : region_ok s D H P -> (0 < k)%nat -> Z.of_nat k < 2 ^ 36 -> seg_options_ok U r options (Z.of_nat k) -> st mod 4096 = 0 ->
  start (vr_segment (rs_region s)) <= st -> st + 4096 * Z.of_nat k < region_end (rs_region s) -> (forall n, n ∈ segs_of s -> off_node n st (st + 4096 * Z.of_nat k)) ->
  enough (mm_of s) (S n + 5 * k) ->
  wp (allocate_user_fixed st (Z.of_nat k) options) s (fun ms s' => exists D', ms = mkSeg st (4096 * Z.of_nat k) /\ region_ok s' D' H P /\ enough (mm_of s') n /\
      new_segment s s' (region_arcs (rs_region s) ++ pa_arcs (rs_vb s) ++ H) options st k /\ region_step s s' D D' (region_arcs (rs_region s) ++ pa_arcs (rs_vb s) ++ H) st (st + 4096 * Z.of_nat k))
    (fun _ _ => False).
Proof.
  intros Hr Hk Hk2 Hopt Hal Hlo Hhi Hoff He. pose proof (rg_wf _ _ _ _ Hr) as Hwf. pose proof Hwf as [[H0 _] _ Hl Hend]. unfold allocate_user_fixed, get_region.
  rewrite pages_size by lia. wp_steps. rewrite (region_end_eq _ Hwf), u64_id by (unfold is_u64, region_end in *; lia).
  rewrite (proj2 (Z.ltb_ge _ _)) by lia. rewrite (proj2 (Z.leb_gt _ _)) by lia. cbn [orb].
  assert (Hin : intersects (used_segments (rs_region s)) (mkSeg st (4096 * Z.of_nat k)) = false).
  { unfold intersects. destruct (upper_bound _ _ _) as [x|] eqn:Eu; [|done]. apply upper_bound_mem in Eu as [Hx _]. apply not_true_iff_false. intros Hc.
    apply node_contains in Hc; [|by eapply segs_mem]. cbn [start] in Hc. destruct (Hoff x Hx); unfold in_node in Hc; lia. }
  rewrite Hin. pose proof (free_place _ _ _ _ st k Hr Hal Hlo ltac:(lia) Hoff) as Hfree. unfold add_bytes_used, get_region, set_used_segments, stats_add.
  wp_steps. apply wp_on_vb. cbn [rs_vb].
  eapply wp_mono; [apply (place_spec (rs_vb s) D _ (used_segments (rs_region s)) st options n k (rg_inv _ _ _ _ Hr)); try done; try apply Hr; [by eapply region_used|by eapply count_small]| |done].
  intros seg v1 Hw. wp_steps. apply wp_on_vb. cbn [rs_vb].
  eapply wp_mono; [exact Hw| |done]. intros sm' v2 (D' & hs & hs2 & a & Hpl). wp_steps. apply wp_on_vb. wp_steps. cbn [rs_region rs_vb].
  exists D'. split; [done|].
  destruct (placed_region s v2 sm' D D' H P hs hs2 a seg options st k n _ (u64 (mem_stats (vb_base v2) + Z.of_nat k)) Hr Hpl Hlo ltac:(lia) Hoff Hk eq_refl) as [Hr' Hst'].
  destruct Hpl as [[Es Hok] Eo Hnew Hfrs Hinv Hstep Hpa He' Hse Hsl Hc]. split; [done|]. split; [done|]. split; [|done].
  exists (mkNode a seg). do 4 (split; [done|]). split; [|by split]. unfold stats_of. cbn [rs_vb vb_base mem_stats]. by rewrite (proj2 (ss_space _ _ _ _ _ _ _ _ _ Hstep)).
Qed.

(** ** Page faults *)

Lemma region_faulted s s' D D' H P n nd seg' p h l1 l2 : region_ok s D H P -> segs_of s = l1 ++ nd :: l2 -> segs_of s' = l1 ++ mkNode (sn_at nd) seg' :: l2 ->
  vs_segment seg' = vs_segment (sn_seg nd) -> seg_ok (mm_of s') seg' -> length (vs_pages seg') = length (vs_pages (sn_seg nd)) -> slab_arcs (vs_pages seg') ≡ₚ h :: node_arcs nd ->
  mm_inv (mm_of s') D' (h :: region_arcs (rs_region s) ++ pa_arcs (rs_vb s) ++ H) ->
  space_step (rs_vb s) (rs_vb s') D D' (region_arcs (rs_region s) ++ pa_arcs (rs_vb s) ++ H) (pg_start p) (pg_start p + 4096) -> vb_base (rs_vb s') = vb_base (rs_vb s) ->
  node_start nd <= pg_start p -> pg_start p + 4096 <= node_end nd -> enough (mm_of s') n ->
  (exists sm, sm_slab_list sm = sm_slab_list (used_segments (rs_region s)) /\ used_segment_count sm = used_segment_count (used_segments (rs_region s)) /\
    sm_slab_count sm = sm_slab_count (used_segments (rs_region s)) /\ rs_region s' = mkRegion (vr_segment (rs_region s)) (bytes_used (rs_region s)) sm) ->
  region_ok s' D' H P /\ region_step s s' D D' (region_arcs (rs_region s) ++ pa_arcs (rs_vb s) ++ H) (pg_start p) (pg_start p + 4096).
Proof.
  intros Hr El El' Es Hok Hlen Hperm HM' Hst Hb Hlo Hhi He (sm & Esl & Euc & Esc & Er). pose proof Hr as [HM Hroot Ht Hwf Hown Hsegs Hgaps [Hc1 Hc2] Hpa Hpages Hbytes].
  destruct Hwf as [W1 W2 W3 W4]. set (nd' := mkNode (sn_at nd) seg') in *.
  assert (Hn : node_start nd' = node_start nd /\ node_end nd' = node_end nd) by (unfold node_end, node_start; cbn; by rewrite Es). destruct Hn as [Hn1 Hn2].
  assert (Hstep : region_step s s' D D' (region_arcs (rs_region s) ++ pa_arcs (rs_vb s) ++ H) (pg_start p) (pg_start p + 4096)).
  { destruct Hst as [A B _]. split; [done|done|by rewrite Hb|by rewrite Er]. }
  split; [|done]. rewrite Er in El'. cbn [used_segments] in El'. rewrite El in *.
  split; rewrite ?Er; cbn [vr_segment bytes_used used_segments]; rewrite ?El', ?Hb; try done.
  - unfold region_arcs, pa_arcs in *. cbn [used_segments]. rewrite El', Esl, Hb. rewrite El in HM'. eapply mm_inv_perm; [|exact HM'].
    rewrite !segs_arcs_app, !segs_arcs_cons.
    transitivity ((h :: node_arcs nd) ++ segs_arcs l1 ++ segs_arcs l2 ++ slab_arcs (sm_slab_list (used_segments (rs_region s))) ++ slab_arcs (pa_slab_list (page_allocator (vb_base (rs_vb s)))) ++ H); [solve_Permutation|].
    etransitivity; [eapply Permutation_app_tail; symmetry; exact Hperm|]. unfold node_arcs. cbn [nd' sn_seg]. solve_Permutation.
  - by apply (vw_roots _ _ _ _ _ _ _ _ (rt_views _ _ _ _ _ _ _ Hstep)).
  - split; cbn [vr_segment used_segments]; rewrite ?El'; [done..| |done]. by eapply (segs_update _ _ _ nd).
  - assert (Ho : Forall (fun n => seg_ok (mm_of s') (sn_seg n)) (l1 ++ l2)).
    { eapply segs_step; [exact Hstep| | |].
      - unfold region_arcs. rewrite El, segs_arcs_app. intros x Hx. rewrite segs_arcs_app, segs_arcs_cons. rewrite !elem_of_app in *. tauto.
      - intros m Hm. pose proof (off_others _ _ _ _ _ _ W3 Hm). unfold off_node in *. lia.
      - apply Forall_app in Hsegs as [? Hs]. apply Forall_cons in Hs as [_ ?]. by apply Forall_app. }
    apply Forall_app in Ho as [? ?]. apply Forall_app. split; [done|]. by constructor.
  - intros v Hv Hno. pose proof (region_same_wf _ _ _ _ _ _ _ Hstep) as Hre. rewrite Er in Hre. rewrite Hre in Hv.
    assert (Hnin : ~ in_node nd v). { intros Hin. apply (Hno nd'); [apply elem_of_app; right; by left|]. unfold in_node. by rewrite Hn1, Hn2. }
    rewrite (vw_here _ _ _ _ _ _ _ _ (rt_views _ _ _ _ _ _ _ Hstep)); [|apply (Hown v Hv)|unfold in_node in Hnin; lia]. apply Hgaps; [done|].
    intros m [Hm|[->|Hm]%elem_of_cons]%elem_of_app; [apply Hno, elem_of_app; by left|done|apply Hno, elem_of_app; right; by right].
  - split; [rewrite Euc, Hc1, El', !length_app; done|by rewrite Esc, Esl].
  - unfold pa_ok in *. by rewrite Hb.
  - unfold pages_used in *. rewrite Hb, Hpages, !pages_of_app, !pages_of_cons. cbn [nd' sn_seg]. by rewrite Hlen.
  - rewrite Hbytes, !pages_of_app, !pages_of_cons. cbn [nd' sn_seg]. by rewrite Hlen.
Qed.

(** A page that an access to [pf_addr] may map. *)
Definition fixable (s : Rs) (pf_addr error_code : Z) (p : Page) : Prop :=
  exists nd, nd ∈ segs_of s /\ in_node nd pf_addr /\ in_guard (sn_seg nd) pf_addr = false /\ find_page (sn_seg nd) pf_addr = Some p /\ faulting p error_code.

Lemma region_fix_spec s D H P n pf_addr error_code : region_ok s D H P -> is_u64 error_code -> enough (mm_of s) (n + 4) ->
  wp (region_fix_pagefault pf_addr error_code) s (fun _ s' => exists D' p f, fixable s pf_addr error_code p /\ region_ok s' D' H P /\ enough (mm_of s') n /\
      region_step s s' D D' (region_arcs (rs_region s) ++ pa_arcs (rs_vb s) ++ H) (pg_start p) (pg_start p + 4096) /\ bytes_used (rs_region s') = bytes_used (rs_region s) /\
      view (kmem (mm_of s')) r pf_addr = Some (mkTr f true (has (pg_options p) WRITABLE) 1))
    (fun e s' => s' = s /\ e = InvalidArgument /\ forall p, ~ fixable s pf_addr error_code p).
Proof.
  intros Hr Hec He. pose proof (rg_wf _ _ _ _ Hr) as Hwf. pose proof Hwf as [_ _ Hl _]. unfold region_fix_pagefault, get_region, set_used_segments. wp_steps.
  destruct (contains _ pf_addr) eqn:Ec; cbn [negb].
  2:{ wp_steps. split_and!; [done..|]. intros p (nd & Hn & Hv & _). pose proof (node_in_range _ _ _ Hwf Hn Hv) as Hin. apply region_contains in Hin; [congruence|done]. }
  pose proof (sm_find_spec _ _ (used_segments (rs_region s)) pf_addr Hl) as Hf. destruct (sm_find _ pf_addr) as [seg|].
  2:{ wp_steps. split_and!; [done..|]. by intros p (nd & Hn & Hv & _); destruct (Hf nd Hn). }
  destruct Hf as (nd & Hn & <- & Hv). destruct (node_aligned _ _ _ _ _ Hr Hn) as (_ & _ & Hs).
  destruct (list_elem_of_split _ _ Hn) as (l1 & l2 & El).
  assert (HM : mm_inv (mm_of s) D (slab_arcs (vs_pages (sn_seg nd)) ++ rest_arcs s (l1 ++ l2) H)).
  { eapply mm_inv_perm; [|apply (rg_inv _ _ _ _ Hr)]. unfold region_arcs, rest_arcs. rewrite El, !segs_arcs_app, segs_arcs_cons. unfold node_arcs. solve_Permutation. }
  wp_step. apply wp_on_vb.
  eapply wp_mono; [apply (seg_fix_spec U kroot r other (rs_vb s) D _ (sn_seg nd) n pf_addr error_code HM); try done; apply Hr| |].
  2:{ intros e v' (-> & -> & Hwhy). split; [by destruct s|]. split; [done|]. intros p (nd' & Hn' & Hv' & Hg & Hfp & Hflt).
      rewrite (node_unique _ _ _ _ _ _ Hl Hn' Hn Hv' Hv) in *. destruct Hwhy as [?|(p' & ? & Hnf)]; congruence. }
  intros seg' v' (D' & p & h & f & Hfp & Hflt & Hg & Es & Eo & Hok & HM' & Hst & Hb & He' & Hperm & Hfa & Hlen & _ & Hview). wp_steps. cbn [rs_region rs_vb].
  destruct (seg_page U kroot r other (mm_of s) (sn_seg nd) pf_addr Hs Hv) as (i & p' & Hi & Hfp' & _ & _). rewrite Hfp in Hfp'. injection Hfp' as <-.
  exists D', p, (f + (pf_addr - pg_start p)). split; [by exists nd|]. set (s' := mkRs _ _).
  assert (Hp : node_start nd <= pg_start p /\ pg_start p + 4096 <= node_end nd).
  { pose proof (run_lookup _ _ _ _ (sg_run _ _ _ _ _ Hs) Hi) as E. apply lookup_lt_Some in Hi. unfold node_end, node_start. rewrite (sg_size _ _ _ _ _ Hs). lia. }
  destruct (region_faulted s s' D D' H P n nd seg' p h l1 l2) as [Hr' Hst']; try done; try lia.
  - cbn [s' rs_region used_segments sm_update set_segs sm_segments]. fold (node_start nd). rewrite El in Hl |- *. by rewrite (tree_update_spec _ _ _ _ _ _ Hl).
  - eapply mm_inv_perm; [|exact HM']. unfold region_arcs, rest_arcs. rewrite El, !segs_arcs_app, segs_arcs_cons.
    etransitivity; [eapply Permutation_app_tail; exact Hperm|]. unfold node_arcs. solve_Permutation.
  - cbn [s' rs_vb]. destruct Hst as [A B C]. split; [done| |done]. eapply kept_less; [exact B|]. unfold region_arcs, rest_arcs. rewrite El, !segs_arcs_app, segs_arcs_cons.
    unfold node_arcs. intros x. rewrite !elem_of_app. tauto.
  - by exists (sm_update (node_start nd) seg' (used_segments (rs_region s))).
Qed.
End Regions.
