(* ===== verification/UserSpace.v ===== *)
(** * The address space of a program

    Translation of [UserAddressSpaceBase] in src/src/bin/kernel/src/mm/virt.rs, of [UserAddressSpace] in mm/user.rs
    and of [share_with] in mm/virt_intrusive.rs.  The physical address of the page that the kernel shares with all
    programs is a parameter, as is the page table of the kernel. *)

From stdpp Require Import base numbers list gmap.
From S2P Require Import RustPrelude PhysMem PageTable Slab Vmem.

Open Scope Z_scope.

Definition VMEM_USER_END : Z := Z.shiftr PAGING_DIRECT_MAP_OFFSET 1.
Definition CUSTOM_USERSPACE_REGION_START : Z := Z.shiftl 1 45 + Z.shiftl 1 40.
Definition CUSTOM_USERSPACE_REGION_END : Z := CUSTOM_USERSPACE_REGION_START + Z.shiftl 1 40.
Definition KERNEL_STATIC_SHARED_PAGE_USER_VADDR : Z := VMEM_KERNEL_DATA_START - PAGE_SIZE_MID.
Definition PROCESS_STATIC_SHARED_PAGE_USER_VADDR : Z := KERNEL_STATIC_SHARED_PAGE_USER_VADDR - PAGE_SIZE_MID.

(** ** State *)

Record Us : Type := mkUs {
  us_vb : Vb;
  normal_memory : VmemRegion;
  custom_memory : VmemRegion;
  process_static_page_phys_addr : Z;
  max_memory : Z;
  total_usage : Z
}.

Definition on_space {A} (c : eff Vb MemError A) : eff Us MemError A := fun s =>
  let '(v, r) := c (us_vb s) in
  (mkUs v (normal_memory s) (custom_memory s) (process_static_page_phys_addr s) (max_memory s) (total_usage s), r).
Definition on_normal {A} (c : eff Rs MemError A) : eff Us MemError A := fun s =>
  let '(t, r) := c (mkRs (us_vb s) (normal_memory s)) in
  (mkUs (rs_vb t) (rs_region t) (custom_memory s) (process_static_page_phys_addr s) (max_memory s) (total_usage s), r).
Definition on_custom {A} (c : eff Rs MemError A) : eff Us MemError A := fun s =>
  let '(t, r) := c (mkRs (us_vb s) (custom_memory s)) in
  (mkUs (rs_vb t) (normal_memory s) (rs_region t) (process_static_page_phys_addr s) (max_memory s) (total_usage s), r).
Definition set_usage (n : Z) : eff Us MemError unit :=
  modify (fun s => mkUs (us_vb s) (normal_memory s) (custom_memory s) (process_static_page_phys_addr s) (max_memory s) n).
Definition set_static_page (phys_addr : Z) : eff Us MemError unit :=
  modify (fun s => mkUs (us_vb s) (normal_memory s) (custom_memory s) phys_addr (max_memory s) (total_usage s)).

Definition space_pt : eff Us MemError PageTableImpl := let* s := get_state in ret (page_table (vb_base (us_vb s))).
Definition on_memory {A} (c : eff Kmem MemError A) : eff Us MemError A := on_space (on_mm (on_kmem c)).

(** ** [UserAddressSpaceBase] *)

Section Base.
(** [KERNEL_ADDRESS_SPACE.static_shared_phys_addr()]. *)
Variable static_shared_phys_addr : Z.

(** [AddressSpaceBase::new(false)] and [UserAddressSpaceBase::new]. *)
Definition base_new (max : Z) : eff Mm MemError Us :=
  let* pt := on_kmem new_user_page_table in
  let* m := get_state in
  ret (mkUs (mkVb m (mkBase pt pa_default 0)) (VmemRegion_new (mkSeg 0 VMEM_USER_END))
    (VmemRegion_new (mkSeg CUSTOM_USERSPACE_REGION_START (CUSTOM_USERSPACE_REGION_END - CUSTOM_USERSPACE_REGION_START))) 0 max 0).

(** [UserAddressSpaceBase::init]. *)
Definition base_init (kpt : PageTableImpl) : eff Us MemError unit :=
  let* pt := space_pt in
  on_memory (map_kernel_to_user pt kpt);;;
  on_memory (map_page pt static_shared_phys_addr KERNEL_STATIC_SHARED_PAGE_USER_VADDR SmallPage
    (Z.lor (Z.lor READABLE USER_ACCESSIBLE) DONT_ZERO));;;
  let* phys_addr := on_memory (unwrap (phys_allocate_frameless SmallPage)) in
  on_memory (map_page pt phys_addr PROCESS_STATIC_SHARED_PAGE_USER_VADDR SmallPage (Z.lor READABLE USER_ACCESSIBLE));;;
  set_static_page phys_addr.

(** [UserAddressSpace::new]. *)
Definition space_new (kpt : PageTableImpl) (max : Z) : eff Mm MemError Us :=
  let* s := base_new max in
  fun _ => let '(s', r) := base_init kpt s in
           (vb_mm (us_vb s'), match r with Ok _ => Ok s' | Err e => Err e | Panic => Panic end).

(** [UserAddressSpaceBase::drop], and the drop of the page table after it. *)
Definition base_drop : eff Us MemError unit :=
  on_normal region_clear;;;
  on_custom region_clear;;;
  on_space pa_clear;;;
  let* pt := space_pt in
  on_memory (impl_unmap_page pt static_shared_phys_addr KERNEL_STATIC_SHARED_PAGE_USER_VADDR SmallPage);;;
  let* s := get_state in
  let phys_addr := process_static_page_phys_addr s in
  set_static_page 0;;;
  on_memory (impl_unmap_page pt phys_addr PROCESS_STATIC_SHARED_PAGE_USER_VADDR SmallPage);;;
  on_memory (phys_deallocate_frameless phys_addr SmallPage);;;
  on_memory (unmap_kernel_from_user pt);;;
  on_memory (drop_page_table pt).
End Base.

Inductive VmemKind : Type :=
  Unassigned | KernelBoot | KernelMM | KernelMMIO | KernelHeap | KernelStack | KernelStatic | User | UserMMIO | UserStack | UnmappedKind.

Definition RW_USER : Z := Z.lor (Z.lor READABLE WRITABLE) USER_ACCESSIBLE.

(** [UserAddressSpaceBase::vmem_allocate_pages]. *)
Definition vmem_allocate_pages (kind : VmemKind) (num_pages : Z) (mapping_options : option Z) : eff Us MemError MemorySegment :=
  match mapping_options with
  | Some m_o => on_normal (region_allocate_pages num_pages m_o)
  | None =>
    match kind with
    | User => on_normal (region_allocate_pages num_pages RW_USER)
    | UserStack => on_normal (region_allocate_pages num_pages (Z.lor (Z.lor RW_USER LAZY) GUARD))
    | UserMMIO | UnmappedKind => on_normal (region_allocate_pages num_pages 0)
    | _ => panic
    end
  end.

(** [UserAddressSpaceBase::vmem_allocate_user_fixed]. *)
Definition vmem_allocate_user_fixed (vaddr_start num_pages mapping_options : Z) : eff Us MemError MemorySegment :=
  if vaddr_start <=? VMEM_USER_END then on_normal (Vmem.allocate_user_fixed vaddr_start num_pages mapping_options)
  else if (CUSTOM_USERSPACE_REGION_START <=? vaddr_start) && (vaddr_start <=? CUSTOM_USERSPACE_REGION_END) then
    on_custom (Vmem.allocate_user_fixed vaddr_start num_pages mapping_options)
  else throw InvalidArgument.

(** [UserAddressSpaceBase::vaddr_map_status]. *)
Definition vaddr_map_status (vmem_addr : Z) : eff Us MemError VaddrMapStatus :=
  if vmem_addr <=? VMEM_USER_END then on_normal (region_map_status vmem_addr)
  else if (CUSTOM_USERSPACE_REGION_START <=? vmem_addr) && (vmem_addr <=? CUSTOM_USERSPACE_REGION_END) then on_custom (region_map_status vmem_addr)
  else ret Unallocated.

(** [UserAddressSpaceBase::fix_pagefault]. *)
Definition us_fix_pagefault (pf_addr error_code : Z) : eff Us MemError unit := on_normal (region_fix_pagefault pf_addr error_code).

(** ** [UserAddressSpace] *)

(** [stats_user_add] and [stats_user_sub]. *)
Definition stats_user_add (bytes : Z) : eff Us MemError unit :=
  let* s := get_state in
  let new_total := u64 (bytes + total_usage s) in
  set_usage (u64 (total_usage s + bytes));;;
  if max_memory s <? new_total then
    let* s := get_state in
    set_usage (u64 (total_usage s - bytes));;;
    throw OutOfMemory
  else ret tt.
Definition stats_user_sub (bytes : Z) : eff Us MemError unit :=
  let* s := get_state in
  set_usage (u64 (total_usage s - bytes)).

Definition pages_bytes (num_pages : Z) : Z := u64 (Z.shiftl num_pages PAGE_SIZE_SMALL_LOG2).

(** Memory is counted before it is allocated, and no longer counted when that fails. *)
Definition counted {A} (num_pages : Z) (c : eff Us MemError A) : eff Us MemError A :=
  stats_user_add (pages_bytes num_pages);;;
  on_err c (stats_user_sub (pages_bytes num_pages)).

Definition alloc_user_heap (num_pages : Z) : eff Us MemError MemorySegment := counted num_pages (vmem_allocate_pages User num_pages None).
Definition alloc_user_lazy (num_pages : Z) : eff Us MemError MemorySegment :=
  counted num_pages (vmem_allocate_pages User num_pages (Some (Z.lor RW_USER LAZY))).
Definition alloc_user_unmapped (num_pages : Z) : eff Us MemError MemorySegment :=
  counted num_pages (vmem_allocate_pages UnmappedKind num_pages None).

(** [UserAddressSpace::unmap]: when the normal memory refuses the address, the custom memory is tried. *)
Definition unmap (addr : Z) : eff Us MemError unit := fun s =>
  match on_normal (region_free addr) s with
  | (s', Ok sz) => stats_user_sub sz s'
  | (s', Err _) => (let* sz := on_custom (region_free addr) in stats_user_sub sz) s'
  | (s', Panic) => (s', Panic)
  end.

Definition virt_to_phys (virt_addr : Z) : eff Us MemError (option Z) :=
  let* pt := space_pt in
  on_memory (impl_virt_to_phys pt virt_addr).

(** ** Bytes of memory *)

Definition word_of (addr : Z) : Z := addr - addr mod 8.
Definition byte_of (x i : Z) : Z := Z.land (Z.shiftr x (8 * i)) 255.
Definition with_byte (x i b : Z) : Z := Z.lor (Z.ldiff x (Z.shiftl 255 (8 * i))) (Z.shiftl b (8 * i)).

Definition byte_at (k : Kmem) (addr : Z) : Z := byte_of (word k (word_of addr)) (addr mod 8).
Definition put_byte (k : Kmem) (addr b : Z) : Kmem :=
  set_words (<[word_of addr := with_byte (word k (word_of addr)) (addr mod 8) b]> (words k)) k.

(** [copy_nonoverlapping] to and from memory. *)
Fixpoint put_bytes (k : Kmem) (addr : Z) (bytes : list Z) : Kmem :=
  match bytes with
  | [] => k
  | b :: l => put_bytes (put_byte k addr b) (addr + 1) l
  end.
Definition get_bytes (k : Kmem) (addr : Z) (n : nat) : list Z := (fun i => byte_at k (addr + Z.of_nat i)) <$> seq 0 n.

(** The bytes up to the end of the page of [addr], and no more than [left]. *)
Definition chunk (addr left : Z) : Z :=
  let page_end := align_up (u64 (addr + 1)) PAGE_SIZE_SMALL in
  if left <=? u64 (page_end - addr) then left else u64 (page_end - addr).

(** [copy_to_user]; each round copies at least a byte. *)
Fixpoint copy_loop (rounds : nat) (bytes : list Z) (dst_start : Z) : eff Us MemError unit :=
  match rounds with
  | O => ret tt
  | S rounds' =>
    if bool_decide (bytes = []) then ret tt
    else
      let bytes_to_copy := chunk dst_start (Z.of_nat (length bytes)) in
      let* mapping := vaddr_map_status dst_start in
      match mapping with
      | Private phys_start | Shared phys_start =>
        let* phys_start_2 := virt_to_phys dst_start in
        match phys_start_2 with
        | None => panic
        | Some phys_start_2 =>
          assert (phys_start =? phys_start_2);;;
          on_memory (modify (fun k => put_bytes k (u64 (phys_start + PAGING_DIRECT_MAP_OFFSET)) (take (Z.to_nat bytes_to_copy) bytes)));;;
          copy_loop rounds' (drop (Z.to_nat bytes_to_copy) bytes) (u64 (dst_start + bytes_to_copy))
        end
      | _ => throw InvalidArgument
      end
  end.
Definition copy_to_user (bytes : list Z) (user_vaddr_start : Z) : eff Us MemError unit := copy_loop (length bytes) bytes user_vaddr_start.

(** [get_user_page_as_kernel]. *)
Definition get_user_page_as_kernel (user_page_addr : Z) : eff Us MemError Z :=
  if negb (Z.land user_page_addr (PAGE_SIZE_SMALL - 1) =? 0) then throw InvalidArgument
  else
    let* mapping := vaddr_map_status user_page_addr in
    match mapping with
    | Private phys_start | Shared phys_start =>
      let* phys_start_2 := virt_to_phys user_page_addr in
      match phys_start_2 with
      | None => panic
      | Some phys_start_2 =>
        assert (phys_start =? phys_start_2);;;
        ret (u64 (phys_start + PAGING_DIRECT_MAP_OFFSET))
      end
    | _ => throw InvalidArgument
    end.

(** [read_from_user_into] and [read_from_user]: the bytes that are read. *)
Fixpoint read_loop (rounds : nat) (source_start remaining_bytes : Z) (buf : list Z) : eff Us MemError (list Z) :=
  match rounds with
  | O => ret buf
  | S rounds' =>
    if remaining_bytes <=? 0 then ret buf
    else
      let* phys_start := virt_to_phys source_start in
      match phys_start with
      | None => throw InvalidArgument
      | Some phys_start =>
        let size_to_copy := chunk source_start remaining_bytes in
        let* bytes := on_memory (let* k := get_state in ret (get_bytes k (u64 (phys_start + PAGING_DIRECT_MAP_OFFSET)) (Z.to_nat size_to_copy))) in
        read_loop rounds' (u64 (source_start + size_to_copy)) (remaining_bytes - size_to_copy) (buf ++ bytes)
      end
  end.
Definition read_from_user (vaddr_start : Z) (count : nat) : eff Us MemError (list Z) := read_loop count vaddr_start (Z.of_nat count) [].

(** [map_bytes], which maps a part of a binary. *)
Definition map_bytes (addr : Z) (bytes : list Z) (mapping_options : Z) : eff Us MemError unit :=
  let vaddr_start := Z.land addr (u64_not (PAGE_SIZE_SMALL - 1)) in
  let vaddr_end := align_up (u64 (addr + Z.of_nat (length bytes))) PAGE_SIZE_SMALL in
  let num_pages := Z.shiftr (u64 (vaddr_end - vaddr_start)) PAGE_SIZE_SMALL_LOG2 in
  stats_user_add (pages_bytes num_pages);;;
  vmem_allocate_user_fixed vaddr_start num_pages mapping_options;;;
  copy_to_user bytes addr.

(** ** Sharing *)

(** The pages of [other] are mapped to the frames of the pages in [this]. *)
Fixpoint share_pages (this that : list Page) (mapping_options : Z) : eff Vb MemError (list Page) :=
  match this with
  | [] => ret that
  | this_page :: this' =>
    match that with
    | [] => panic
    | that_page :: that' =>
      match pg_frame this_page with
      | None => panic
      | Some h =>
        match pg_frame that_page with
        | Some old => let* f := on_mm (arc_get old) in space_unmap_page (f_start f) (pg_start that_page)
        | None => ret tt
        end;;;
        let* frame := on_mm (arc_clone h) in
        match pg_frame that_page with Some old => on_mm (arc_drop old) | None => ret tt end;;;
        let* f := on_mm (arc_get h) in
        space_map_page (f_start f) (pg_start that_page) mapping_options;;;
        let* rest := share_pages this' that' mapping_options in
        ret (set_frame_of (Some frame) that_page :: rest)
      end
    end
  end.

(** [VmemSegment::share_with], in the address space of [other]. *)
Definition seg_share_with (this other : VmemSegment) (mapping_options : Z) : eff Vb MemError VmemSegment :=
  let* pages := share_pages (vs_pages this) (vs_pages other) mapping_options in
  ret (set_pages pages other).

(** ** Memory for programs *)

(** [oom_for_user] in mm/mod.rs. *)
Definition RESERVED_MEMORY : Z := Z.shiftl 1 20.
Definition oom_for_user (p : PhysicalMemory) (would_allocate : Z) : bool := u64 (stats_available p + would_allocate) <? RESERVED_MEMORY.
