(* ===== verification/UserInv.v ===== *)
(** * The address space of a program: the invariant

    An address space has two regions that share an allocator of pages, two pages that the kernel maps, and the
    kernel's own mappings.  Every operation on one of the regions keeps all of it. *)

From stdpp Require Import base numbers list gmap.
From S2P Require Import RustPrelude PhysMem PhysFrames PhysInit PhysProps PageTable PageWalk PageMem PageTableProps Slab SlabProps Vmem VmemSpace VmemSegs VmemRegions UserSpace.

Open Scope Z_scope.

Abbreviation normal_of s := (mkRs (us_vb s) (normal_memory s)).
Abbreviation custom_of s := (mkRs (us_vb s) (custom_memory s)).
Abbreviation us_mm s := (vb_mm (us_vb s)).
Abbreviation us_k s := (kmem (vb_mm (us_vb s))).

(** The pages that the kernel maps for a program. *)
Definition in_static (v : Z) : Prop :=
  KERNEL_STATIC_SHARED_PAGE_USER_VADDR <= v < KERNEL_STATIC_SHARED_PAGE_USER_VADDR + 4096 \/
  PROCESS_STATIC_SHARED_PAGE_USER_VADDR <= v < PROCESS_STATIC_SHARED_PAGE_USER_VADDR + 4096.

Lemma index_top v : 0 <= v < 2 ^ 48 -> index 4 v = v / 2 ^ 39.
Proof. intros Hv. unfold index, vpn. change (shift 4) with 39. apply Z.mod_small. dlia. Qed.

Lemma kernel_high v : 0 <= v < 2 ^ 48 -> foreign (index 4 v) = true -> 2 ^ 46 - 2 ^ 39 <= v.
Proof.
  intros Hv Hf. rewrite index_top in Hf by done. apply foreign_cases in Hf. change (idx_l4 VMEM_KERNEL_DATA_START) with 127 in Hf.
  change (idx_l4 PAGING_DIRECT_MAP_OFFSET) with 128 in Hf. dlia.
Qed.

Lemma static_range v : in_static v -> 2 ^ 46 - 2 ^ 39 - 2 ^ 23 <= v < 2 ^ 46 - 2 ^ 39.
Proof.
  unfold in_static. change PROCESS_STATIC_SHARED_PAGE_USER_VADDR with (2 ^ 46 - 2 ^ 39 - 2 ^ 22). change KERNEL_STATIC_SHARED_PAGE_USER_VADDR with (2 ^ 46 - 2 ^ 39 - 2 ^ 21). lia.
Qed.

Section Inv.
Context (U : Z -> bool) (kroot r : Z) (other : Z -> Prop) (kstatic : Z).
Hypothesis Hprog : r <> kroot.

Abbreviation mm_inv := (mm_inv U kroot other).
Abbreviation region_ok := (region_ok U kroot r other).
Abbreviation region_step := (region_step kroot r).

(** One region after a step of the other. *)
Lemma region_kept vb vb' a b b' D D' A H lo hi : region_ok (mkRs vb a) D (region_arcs b ++ H) (pages_of (sm_segments (used_segments b))) ->
  region_step (mkRs vb b) (mkRs vb' b') D D' A lo hi -> region_arcs a ⊆ A -> region_end a <= lo \/ hi <= start (vr_segment a) ->
  region_ok (mkRs vb' b') D' (region_arcs a ++ H) (pages_of (sm_segments (used_segments a))) ->
  region_ok (mkRs vb' a) D' (region_arcs b' ++ H) (pages_of (sm_segments (used_segments b'))).
Proof.
  intros Ha Hst HA Hoff Hb'. pose proof Ha as [HM Hroot Ht Hwf Hown Hsegs Hgaps Hmap Hpa Hpages Hbytes].
  assert (Hst' : region_step (mkRs vb a) (mkRs vb' a) D D' A lo hi) by (destruct Hst; by split).
  split; cbn [rs_vb rs_region] in *; try done.
  - eapply mm_inv_perm; [|apply (rg_inv _ _ _ _ _ _ _ _ Hb')]. cbn [rs_vb rs_region]. solve_Permutation.
  - apply (rg_root _ _ _ _ _ _ _ _ Hb').
  - apply (rg_table _ _ _ _ _ _ _ _ Hb').
  - eapply (segs_step U kroot r (mkRs vb a) (mkRs vb' a)); [exact Hst'| | |done].
    + etrans; [|exact HA]. unfold region_arcs. intros h Hh. apply elem_of_app. by left.
    + intros n Hn. destruct Hwf as [_ _ Hl _]. destruct (segs_mem _ _ _ _ Hl Hn) as (_ & ? & ?). unfold off_node, region_end in *. lia.
  - intros v Hv Hn. rewrite (vw_here _ _ _ _ _ _ _ _ (rt_views _ _ _ _ _ _ _ _ _ Hst)); [by apply Hgaps|apply (Hown v Hv)|lia].
  - apply (rg_pa _ _ _ _ _ _ _ _ Hb').
  - pose proof (rg_pages _ _ _ _ _ _ _ _ Hb') as E. cbn [rs_vb rs_region] in E. rewrite E. f_equal. lia.
Qed.

Definition in_regions (s : Us) (v : Z) : Prop :=
  start (vr_segment (normal_memory s)) <= v < region_end (normal_memory s) \/ start (vr_segment (custom_memory s)) <= v < region_end (custom_memory s).
Record us_ok (s : Us) (D : gmap Z node) (H : list SlabArc) : Prop := {
  uo_normal : region_ok (normal_of s) D (region_arcs (custom_memory s) ++ H) (pages_of (sm_segments (used_segments (custom_memory s))));
  uo_custom : region_ok (custom_of s) D (region_arcs (normal_memory s) ++ H) (pages_of (sm_segments (used_segments (normal_memory s))));
  uo_ranges : vr_segment (normal_memory s) = mkSeg 0 VMEM_USER_END /\
    vr_segment (custom_memory s) = mkSeg CUSTOM_USERSPACE_REGION_START (CUSTOM_USERSPACE_REGION_END - CUSTOM_USERSPACE_REGION_START);
  uo_static : page_mapped U r (us_k s) KERNEL_STATIC_SHARED_PAGE_USER_VADDR kstatic false /\
    page_mapped U r (us_k s) PROCESS_STATIC_SHARED_PAGE_USER_VADDR (process_static_page_phys_addr s) false;
  uo_frames : addr_ok kstatic /\ other (process_static_page_phys_addr s);
  uo_rest v : own_addr kroot r v -> ~ in_regions s v -> ~ in_static v -> view (us_k s) r v = None;
  uo_kernel i : foreign i = true -> exists v, 0 <= v < 2 ^ 48 /\ index 4 v = i /\ view (us_k s) r v <> None;
  uo_pt : userspace (page_table (vb_base (us_vb s))) = true;
  uo_kroot : root D kroot
}.

(** The whole space after a step of one of its regions: only addresses [lo] to [hi] of the space are affected. *)
Record us_step (s s' : Us) (D D' : gmap Z node) (H : list SlabArc) (lo hi : Z) : Prop := {
  ut_views : views_step kroot r (us_k s) (us_k s') D D' lo hi;
  ut_kept : kept (us_mm s) (us_mm s') H;
  ut_static : process_static_page_phys_addr s' = process_static_page_phys_addr s
}.

Lemma us_root s D H : us_ok s D H -> root D r /\ table_l4 (page_table (vb_base (us_vb s))) = OFF + r.
Proof. intros Hs. pose proof (uo_normal _ _ _ Hs) as Hn. split; [apply Hn|apply (rg_table _ _ _ _ _ _ _ _ Hn)]. Qed.

(** Addresses of the regions are neither the kernel's nor those of the pages that the kernel maps. *)
Lemma regions_apart s D H v : us_ok s D H -> in_regions s v -> 0 <= v < 2 ^ 46 - 2 ^ 39 - 2 ^ 23.
Proof.
  intros Hs Hv. destruct (uo_ranges _ _ _ Hs) as [E1 E2]. unfold in_regions, region_end in Hv. rewrite E1, E2 in Hv. cbn [start size] in Hv.
  change VMEM_USER_END with (2 ^ 45) in Hv. change CUSTOM_USERSPACE_REGION_END with (2 ^ 45 + 2 ^ 41) in Hv. change CUSTOM_USERSPACE_REGION_START with (2 ^ 45 + 2 ^ 40) in Hv. lia.
Qed.

(** What lies outside of the regions is as before. *)
Lemma us_rest_kept s s' D H D' lo hi : us_ok s D H -> views_step kroot r (us_k s) (us_k s') D D' lo hi -> hi <= 2 ^ 46 - 2 ^ 39 - 2 ^ 23 ->
  process_static_page_phys_addr s' = process_static_page_phys_addr s -> (forall v, lo <= v < hi -> in_regions s v) ->
  (forall v, in_regions s' v <-> in_regions s v) ->
  (page_mapped U r (us_k s') KERNEL_STATIC_SHARED_PAGE_USER_VADDR kstatic false /\
   page_mapped U r (us_k s') PROCESS_STATIC_SHARED_PAGE_USER_VADDR (process_static_page_phys_addr s') false) /\
  (forall v, own_addr kroot r v -> ~ in_regions s' v -> ~ in_static v -> view (us_k s') r v = None) /\
  (forall i, foreign i = true -> exists v, 0 <= v < 2 ^ 48 /\ index 4 v = i /\ view (us_k s') r v <> None).
Proof.
  intros Hs Hv Hhi Est Hin Hreg. pose proof (vw_here _ _ _ _ _ _ _ _ Hv) as He. destruct (uo_static _ _ _ Hs) as [S1 S2]. rewrite Est. split_and!.
  - intros v Hvr. pose proof (static_range v (or_introl Hvr)). rewrite He by lia. by apply S1.
  - intros v Hvr. pose proof (static_range v (or_intror Hvr)). rewrite He by lia. by apply S2.
  - intros v Ho Hn Hst. rewrite Hreg in Hn. rewrite He; [by apply (uo_rest _ _ _ Hs)|apply Ho|]. by intros ?%Hin.
  - intros i Hf. destruct (uo_kernel _ _ _ Hs i Hf) as (v & Hv48 & <- & Hvn). exists v. split_and!; [lia|lia|done|]. pose proof (kernel_high v Hv48 Hf). rewrite He; [done|done|lia].
Qed.

Lemma normal_step s D H t D' A lo hi : us_ok s D H -> region_ok t D' (region_arcs (custom_memory s) ++ H) (pages_of (sm_segments (used_segments (custom_memory s)))) ->
  region_step (normal_of s) t D D' A lo hi -> region_arcs (custom_memory s) ++ H ⊆ A -> start (vr_segment (normal_memory s)) <= lo -> hi <= region_end (normal_memory s) ->
  forall max usage, let s' := mkUs (rs_vb t) (rs_region t) (custom_memory s) (process_static_page_phys_addr s) max usage in us_ok s' D' H /\ us_step s s' D D' H lo hi.
Proof.
  intros Hs Ht Hst HA Hlo Hhi max usage s'. destruct t as [vb' b']. cbn [rs_vb rs_region] in *.
  destruct (uo_ranges _ _ _ Hs) as [E1 E2]. pose proof (rt_segment _ _ _ _ _ _ _ _ _ Hst) as Eseg. cbn [rs_region] in Eseg.
  assert (Hin : forall v, lo <= v < hi -> in_regions s v) by (intros v Hv; left; lia).
  assert (Hreg : forall v, in_regions s' v <-> in_regions s v) by (intros v; unfold in_regions, region_end; cbn; by rewrite Eseg).
  assert (Hhi2 : hi <= 2 ^ 45) by (unfold region_end in Hhi; rewrite E1 in Hhi; exact Hhi).
  destruct (us_rest_kept s s' D H D' lo hi Hs (rt_views _ _ _ _ _ _ _ _ _ Hst) ltac:(lia) eq_refl Hin Hreg) as (Q1 & Q2 & Q3).
  split; [|split; [apply Hst|eapply kept_less; [apply Hst|]; etrans; [|exact HA]; by apply list_subseteq_app_r|done]].
  split; cbn [s' us_vb normal_memory custom_memory process_static_page_phys_addr]; [done| |by rewrite Eseg|done|apply Hs|done|done| |].
  - eapply (region_kept (us_vb s) vb' (custom_memory s) (normal_memory s) b'); [apply Hs|exact Hst| | |done].
    + etrans; [|exact HA]. by apply list_subseteq_app_l.
    + right. rewrite E2. change (hi <= 2 ^ 45 + 2 ^ 40). lia.
  - pose proof (rt_table _ _ _ _ _ _ _ _ _ Hst) as Etb. cbn [rs_vb] in Etb. rewrite Etb. apply Hs.
  - apply (vw_roots _ _ _ _ _ _ _ _ (rt_views _ _ _ _ _ _ _ _ _ Hst)), Hs.
Qed.

Lemma custom_step s D H t D' A lo hi : us_ok s D H -> region_ok t D' (region_arcs (normal_memory s) ++ H) (pages_of (sm_segments (used_segments (normal_memory s)))) ->
  region_step (custom_of s) t D D' A lo hi -> region_arcs (normal_memory s) ++ H ⊆ A -> start (vr_segment (custom_memory s)) <= lo -> hi <= region_end (custom_memory s) ->
  forall max usage, let s' := mkUs (rs_vb t) (normal_memory s) (rs_region t) (process_static_page_phys_addr s) max usage in us_ok s' D' H /\ us_step s s' D D' H lo hi.
Proof.
  intros Hs Ht Hst HA Hlo Hhi max usage s'. destruct t as [vb' b']. cbn [rs_vb rs_region] in *.
  destruct (uo_ranges _ _ _ Hs) as [E1 E2]. pose proof (rt_segment _ _ _ _ _ _ _ _ _ Hst) as Eseg. cbn [rs_region] in Eseg.
  assert (Hin : forall v, lo <= v < hi -> in_regions s v) by (intros v Hv; right; lia).
  assert (Hreg : forall v, in_regions s' v <-> in_regions s v) by (intros v; unfold in_regions, region_end; cbn; by rewrite Eseg).
  assert (Hhi2 : hi <= 2 ^ 45 + 2 ^ 41) by (unfold region_end in Hhi; rewrite E2 in Hhi; exact Hhi).
  assert (Hlo2 : 2 ^ 45 + 2 ^ 40 <= lo) by (rewrite E2 in Hlo; exact Hlo).
  destruct (us_rest_kept s s' D H D' lo hi Hs (rt_views _ _ _ _ _ _ _ _ _ Hst) ltac:(lia) eq_refl Hin Hreg) as (Q1 & Q2 & Q3).
  split; [|split; [apply Hst|eapply kept_less; [apply Hst|]; etrans; [|exact HA]; by apply list_subseteq_app_r|done]].
  split; cbn [s' us_vb normal_memory custom_memory process_static_page_phys_addr]; [|done|by rewrite Eseg|done|apply Hs|done|done| |].
  - eapply (region_kept (us_vb s) vb' (normal_memory s) (custom_memory s) b'); [apply Hs|exact Hst| | |done].
    + etrans; [|exact HA]. by apply list_subseteq_app_l.
    + left. unfold region_end. rewrite E1. change (2 ^ 45 <= lo). lia.
  - pose proof (rt_table _ _ _ _ _ _ _ _ _ Hst) as Etb. cbn [rs_vb] in Etb. rewrite Etb. apply Hs.
  - apply (vw_roots _ _ _ _ _ _ _ _ (rt_views _ _ _ _ _ _ _ _ _ Hst)), Hs.
Qed.
End Inv.
