(* ===== verification/UserOps.v ===== *)
(** * The address space of a program: its operations *)

From stdpp Require Import base numbers list gmap.
From S2P Require Import RustPrelude PhysMem PhysFrames PhysInit PhysProps PageTable PageWalk PageMem PageTableProps Slab SlabProps Vmem VmemSpace VmemSegs VmemRegions UserSpace UserInv.

Open Scope Z_scope.

Lemma wp_on_normal {A} (c : eff Rs MemError A) s (Q : A -> Us -> Prop) X :
  wp c (normal_of s) (fun a t => Q a (mkUs (rs_vb t) (rs_region t) (custom_memory s) (process_static_page_phys_addr s) (max_memory s) (total_usage s)))
    (fun e t => X e (mkUs (rs_vb t) (rs_region t) (custom_memory s) (process_static_page_phys_addr s) (max_memory s) (total_usage s))) -> wp (on_normal c) s Q X.
Proof. intros Hw. unfold wp, on_normal in *. by destruct (c (normal_of s)) as [t [a|e|]]. Qed.

Lemma wp_on_custom {A} (c : eff Rs MemError A) s (Q : A -> Us -> Prop) X :
  wp c (custom_of s) (fun a t => Q a (mkUs (rs_vb t) (normal_memory s) (rs_region t) (process_static_page_phys_addr s) (max_memory s) (total_usage s)))
    (fun e t => X e (mkUs (rs_vb t) (normal_memory s) (rs_region t) (process_static_page_phys_addr s) (max_memory s) (total_usage s))) -> wp (on_custom c) s Q X.
Proof. intros Hw. unfold wp, on_custom in *. by destruct (c (custom_of s)) as [t [a|e|]]. Qed.

Lemma wp_on_space {A} (c : eff Vb MemError A) s (Q : A -> Us -> Prop) X :
  wp c (us_vb s) (fun a v => Q a (mkUs v (normal_memory s) (custom_memory s) (process_static_page_phys_addr s) (max_memory s) (total_usage s)))
    (fun e v => X e (mkUs v (normal_memory s) (custom_memory s) (process_static_page_phys_addr s) (max_memory s) (total_usage s))) -> wp (on_space c) s Q X.
Proof. intros Hw. unfold wp, on_space in *. by destruct (c (us_vb s)) as [v [a|e|]]. Qed.

Definition us_bytes (s : Us) : Z := bytes_used (normal_memory s) + bytes_used (custom_memory s).

(** The memory of the program is counted, up to its limit. *)
Definition within (s : Us) : Prop := us_bytes s <= total_usage s <= max_memory s /\ max_memory s < 2 ^ 63.

Section Ops.
Context (U : Z -> bool) (kroot r : Z) (other : Z -> Prop) (kstatic : Z).
Hypothesis Hprog : r <> kroot.

Abbreviation mm_inv := (mm_inv U kroot other).
Abbreviation us_ok := (us_ok U kroot r other kstatic).
Abbreviation us_step := (us_step kroot r).
Abbreviation seg_options_ok := (seg_options_ok U r).

Lemma bytes_nonneg s D H : us_ok s D H -> 0 <= bytes_used (normal_memory s) /\ 0 <= bytes_used (custom_memory s).
Proof.
  intros Hs. pose proof (rg_bytes _ _ _ _ _ _ _ _ (uo_normal _ _ _ _ _ _ _ _ Hs)) as E1. pose proof (rg_bytes _ _ _ _ _ _ _ _ (uo_custom _ _ _ _ _ _ _ _ Hs)) as E2.
  cbn [rs_region] in *. pose proof (pages_of_nonneg (sm_segments (used_segments (normal_memory s)))). pose proof (pages_of_nonneg (sm_segments (used_segments (custom_memory s)))). lia.
Qed.

(** Only the counters of usage differ. *)
Lemma us_ok_usage s D H max usage : us_ok s D H -> us_ok (mkUs (us_vb s) (normal_memory s) (custom_memory s) (process_static_page_phys_addr s) max usage) D H.
Proof. by intros [A B C E F G J K L]; split. Qed.

(** A counted step either happens or is not counted. *)
Lemma counted_spec {A} s (c : eff Us MemError A) k (Q : A -> Us -> Prop) (X : MemError -> Us -> Prop) D H : us_ok s D H -> within s -> 0 < k < 2 ^ 36 ->
  (max_memory s < total_usage s + 4096 * k -> X OutOfMemory s) ->
  (total_usage s + 4096 * k <= max_memory s -> let s1 := mkUs (us_vb s) (normal_memory s) (custom_memory s) (process_static_page_phys_addr s) (max_memory s) (total_usage s + 4096 * k) in
    wp c s1 Q (fun e s' => s' = s1 /\ X e s)) ->
  wp (counted k c) s Q X.
Proof.
  intros Hs [Hw Hmax] Hk HX Hc. unfold counted, stats_user_add, set_usage, pages_bytes. rewrite pages_size by done. wp_steps.
  destruct (bytes_nonneg _ _ _ Hs). unfold us_bytes in Hw. rewrite !u64_id by (unfold is_u64; lia). rewrite (Z.add_comm (4096 * k)).
  destruct (Z.ltb_spec (max_memory s) (total_usage s + 4096 * k)) as [Hlt|Hle].
  - wp_steps. cbn [total_usage]. replace (total_usage s + 4096 * k - 4096 * k) with (total_usage s) by lia. rewrite u64_id by (unfold is_u64; lia). destruct s. by apply HX.
  - wp_steps. eapply wp_mono; [by apply Hc|done|]. intros e s' [-> HX']. unfold stats_user_sub, set_usage. wp_steps. cbn [total_usage].
    replace (total_usage s + 4096 * k - 4096 * k) with (total_usage s) by lia. rewrite u64_id by (unfold is_u64; lia). by destruct s.
Qed.

(** [k] pages with the options [o], anywhere in the normal memory. *)
Definition us_arcs (s : Us) (H : list SlabArc) : list SlabArc := region_arcs (normal_memory s) ++ pa_arcs (us_vb s) ++ region_arcs (custom_memory s) ++ H.
Definition allocated (s s' : Us) (H : list SlabArc) (o st : Z) (k : nat) : Prop :=
  new_segment (normal_of s) (normal_of s') (us_arcs s H) o st k /\ custom_memory s' = custom_memory s /\ total_usage s' = total_usage s + 4096 * Z.of_nat k /\ max_memory s' = max_memory s.

Lemma alloc_spec s D H n k o : us_ok s D H -> within s -> (0 < k)%nat -> 4096 * Z.of_nat k <= 2 ^ 44 -> seg_options_ok o (Z.of_nat k) -> enough (us_mm s) (S n + 5 * k) ->
  wp (counted (Z.of_nat k) (on_normal (region_allocate_pages (Z.of_nat k) o))) s
    (fun ms s' => exists D' st, ms = mkSeg st (4096 * Z.of_nat k) /\ us_ok s' D' H /\ within s' /\ enough (us_mm s') n /\ us_step s s' D D' H st (st + 4096 * Z.of_nat k) /\
      kept (us_mm s) (us_mm s') (us_arcs s H) /\ allocated s s' H o st k /\ 0 < st /\ st mod 4096 = 0 /\ st + 4096 * Z.of_nat k <= VMEM_USER_END /\
      forall v, st <= v < st + 4096 * Z.of_nat k -> view (us_k s) r v = None)
    (fun e s' => e = OutOfMemory /\ s' = s /\ (max_memory s < total_usage s + 4096 * Z.of_nat k \/ choose_start (normal_memory s) (4096 * Z.of_nat k) = None)).
Proof.
  intros Hs Hw Hk Hb Hopt He. apply (counted_spec s _ _ _ _ D H); [done|done|lia|by auto|]. intros Hle s1.
  pose proof (us_ok_usage s D H (max_memory s) (total_usage s + 4096 * Z.of_nat k) Hs) as Hs1. fold s1 in Hs1. pose proof (uo_normal _ _ _ _ _ _ _ _ Hs1) as Hn.
  destruct (uo_ranges _ _ _ _ _ _ _ _ Hs1) as [E1 E2]. cbn [s1 normal_memory custom_memory] in E1, E2. apply wp_on_normal.
  eapply wp_mono; [apply (region_allocate_spec U kroot r other (normal_of s1) D _ _ o n k Hn Hk); try done; [lia|]| |].
  - right. unfold first_addr, region_end. cbn [rs_region s1 normal_memory]. rewrite E1. cbn [start size]. change VMEM_USER_END with (2 ^ 45). cbn [Z.eqb]. lia.
  - cbn [rs_vb rs_region]. intros ms t (D' & st & -> & Hch & Hr' & He' & Hnew & Hst).
    destruct (choose_start_free (rs_region (normal_of s1)) (4096 * Z.of_nat k) st (rg_wf _ _ _ _ _ _ _ _ Hn)) as (Hlo & Hhi & Hwhere & Hoff); [lia| |done|].
    { right. unfold first_addr, region_end. cbn [rs_region s1 normal_memory]. rewrite E1. cbn [start size]. change VMEM_USER_END with (2 ^ 45). cbn [Z.eqb]. lia. }
    destruct (normal_step U kroot r other kstatic s1 D H t D' _ st (st + 4096 * Z.of_nat k) Hs1 Hr' Hst) with (max := max_memory s1) (usage := total_usage s1) as [Hs' Hst']; [|done|done|].
    { cbn [rs_region rs_vb s1 normal_memory custom_memory us_vb]. intros h. rewrite !elem_of_app. tauto. }
    assert (Hbytes : bytes_used (rs_region t) = bytes_used (normal_memory s) + 4096 * Z.of_nat k).
    { destruct Hnew as (nd & _ & _ & _ & _ & _ & -> & _). pose proof (bytes_bound _ _ _ _ _ _ _ _ Hn) as Hbb. cbn [rs_region s1 normal_memory] in Hbb |- *.
      rewrite u64_id; [done|unfold is_u64; lia]. }
    exists D', st. split; [done|]. split; [done|]. split; [destruct Hw; unfold within, us_bytes in *; cbn [normal_memory custom_memory total_usage max_memory s1]; lia|].
    split; [done|]. split; [by destruct Hst'|]. split; [apply (rt_kept _ _ _ _ _ _ _ _ _ Hst)|]. split; [by split_and!|]. cbn [rs_region s1 normal_memory] in Hlo, Hhi. unfold region_end in Hhi. rewrite E1 in Hlo, Hhi. cbn [start size] in *.
    assert (Hal : st mod 4096 = 0 /\ 0 < st).
    { destruct Hwhere as [->|(nd & Hnd & ->)].
      - unfold first_addr. cbn [rs_region s1 normal_memory]. rewrite E1. done.
      - destruct (node_aligned _ _ _ _ _ _ _ _ _ Hn Hnd) as (_ & He2 & Hok). split; [done|]. pose proof (sg_some _ _ _ _ _ Hok) as Hne. pose proof (sg_size _ _ _ _ _ Hok) as Esz.
        pose proof (sg_range _ _ _ _ _ Hok) as Hrg. unfold node_end, node_start. destruct (vs_pages (sn_seg nd)); [done|]. cbn [length] in Esz. lia. }
    split; [lia|]. split; [lia|]. split; [lia|]. intros v Hv. apply (rg_gaps _ _ _ _ _ _ _ _ Hn); cbn [rs_region s1 normal_memory]; [unfold region_end; rewrite E1; cbn [start size]; lia|].
    intros nd Hnd Hin. destruct (Hoff nd Hnd); unfold in_node in Hin; lia.
  - cbn [rs_vb rs_region]. intros e t (-> & -> & Hch). by auto.
Qed.

(** The bytes of a region that loses a segment. *)
Lemma gone_bytes t t' D D' H P l1 n l2 : region_ok U kroot r other t D H P -> region_ok U kroot r other t' D' H P -> segs_of t = l1 ++ n :: l2 -> segs_of t' = l1 ++ l2 ->
  bytes_used (rs_region t') = bytes_used (rs_region t) - size (vs_segment (sn_seg n)) /\ 0 <= size (vs_segment (sn_seg n)) <= 2 ^ 48.
Proof.
  intros Hr Hr' E E'. rewrite (rg_bytes _ _ _ _ _ _ _ _ Hr), (rg_bytes _ _ _ _ _ _ _ _ Hr'), E, E', !pages_of_app, pages_of_cons.
  assert (Hn : n ∈ segs_of t) by (rewrite E; apply elem_of_app; right; by left). destruct (node_aligned _ _ _ _ _ _ _ _ _ Hr Hn) as (_ & _ & Hok).
  pose proof (sg_size _ _ _ _ _ Hok). pose proof (sg_range _ _ _ _ _ Hok). lia.
Qed.

Definition node_of (s : Us) (n : SegmentNode) : Prop := n ∈ sm_segments (used_segments (normal_memory s)) \/ n ∈ sm_segments (used_segments (custom_memory s)).

(** What [unmap] of the segment of [n] leaves. *)
Record unmapped (s s' : Us) (D' : gmap Z node) (H : list SlabArc) (n : SegmentNode) : Prop := {
  um_ok : us_ok s' D' H;
  um_within : within s';
  um_view v : in_node n v -> view (us_k s') r v = None;
  um_usage : total_usage s' = total_usage s - size (vs_segment (sn_seg n));
  um_bytes : us_bytes s' = us_bytes s - size (vs_segment (sn_seg n));
  um_max : max_memory s' = max_memory s;
  um_nodes m : node_of s' m -> node_of s m;
  um_normal : n ∈ sm_segments (used_segments (custom_memory s)) /\ normal_memory s' = normal_memory s \/
    (exists l1 l2, sm_segments (used_segments (normal_memory s)) = l1 ++ n :: l2 /\ sm_segments (used_segments (normal_memory s')) = l1 ++ l2) /\
    sm_is_empty (used_segments (normal_memory s')) = false
}.

Lemma within_sub s s' sz : within s -> us_bytes s' = us_bytes s - sz -> total_usage s' = total_usage s - sz -> max_memory s' = max_memory s -> 0 <= sz -> within s'.
Proof. unfold within. lia. Qed.

Lemma free_custom_spec s D H n : us_ok s D H -> within s -> n ∈ sm_segments (used_segments (custom_memory s)) ->
  wp (let* sz := on_custom (region_free (node_start n)) in stats_user_sub sz) s
    (fun _ s' => exists D', unmapped s s' D' H n /\ us_step s s' D D' H (node_start n) (node_end n)) (fun _ _ => False).
Proof.
  intros Hs Hw Hn. pose proof (uo_custom _ _ _ _ _ _ _ _ Hs) as Hr. wp_step. apply wp_on_custom.
  eapply wp_mono; [apply (region_free_spec U kroot r other Hprog (custom_of s) D _ _ n Hr Hn)| |done].
  intros sz t (D' & l1 & l2 & -> & El & Hr' & Hg). pose proof (gn_step _ _ _ _ _ _ _ _ _ _ Hg) as Hst. unfold stats_user_sub, set_usage. wp_steps.
  destruct (gone_bytes _ _ _ _ _ _ _ _ _ Hr Hr' El (gn_segs _ _ _ _ _ _ _ _ _ _ Hg)) as [Hb Hsz]. cbn [rs_region] in Hb.
  destruct (bytes_nonneg _ _ _ Hs). destruct (segs_mem _ _ _ _ (rw_segs _ (rg_wf _ _ _ _ _ _ _ _ Hr)) Hn) as (_ & Hlo & Hhi).
  pose proof (bytes_bound _ _ _ _ _ _ _ _ Hr') as Hbb.
  assert (Eu : u64 (total_usage s - size (vs_segment (sn_seg n))) = total_usage s - size (vs_segment (sn_seg n))).
  { apply u64_id. unfold within, us_bytes, is_u64 in *. lia. }
  cbn [us_vb normal_memory custom_memory process_static_page_phys_addr max_memory total_usage]. rewrite Eu.
  destruct (custom_step U kroot r other kstatic s D H t D' _ (node_start n) (node_end n) Hs Hr' Hst) with (max := max_memory s) (usage := total_usage s - size (vs_segment (sn_seg n))) as [Hs' Hst']; [|done|done|].
  { unfold rest_arcs. cbn [rs_region rs_vb]. intros h. rewrite !elem_of_app. tauto. }
  exists D'. split; [|done]. assert (Hbs : us_bytes (mkUs (rs_vb t) (normal_memory s) (rs_region t) (process_static_page_phys_addr s) (max_memory s) (total_usage s - size (vs_segment (sn_seg n)))) = us_bytes s - size (vs_segment (sn_seg n))).
  { unfold us_bytes. cbn [normal_memory custom_memory]. lia. }
  split; [done|by apply (within_sub s _ (size (vs_segment (sn_seg n)))); [..|lia]|apply Hg|done|done|done| |by left]. intros m [Hm|Hm]; [by left|right]. cbn [custom_memory] in Hm.
  rewrite (gn_segs _ _ _ _ _ _ _ _ _ _ Hg) in Hm. cbn [rs_region] in El. rewrite El. apply elem_of_app in Hm as [?|?]; apply elem_of_app; [by left|right; by right].
Qed.

Lemma unmap_us_spec s D H n : us_ok s D H -> within s -> node_of s n ->
  wp (unmap (node_start n)) s (fun _ s' => exists D', unmapped s s' D' H n /\ us_step s s' D D' H (node_start n) (node_end n)) (fun _ _ => False).
Proof.
  intros Hs Hw [Hn|Hn]; destruct (uo_ranges _ _ _ _ _ _ _ _ Hs) as [E1 E2].
  - pose proof (uo_normal _ _ _ _ _ _ _ _ Hs) as Hr.
    assert (Hf : wp (on_normal (region_free (node_start n))) s (fun sz s' => wp (stats_user_sub sz) s' (fun _ s' => exists D', unmapped s s' D' H n /\ us_step s s' D D' H (node_start n) (node_end n)) (fun _ _ => False)) (fun _ _ => False)).
    { apply wp_on_normal. eapply wp_mono; [apply (region_free_spec U kroot r other Hprog (normal_of s) D _ _ n Hr Hn)| |done].
      intros sz t (D' & l1 & l2 & -> & El & Hr' & Hg). pose proof (gn_step _ _ _ _ _ _ _ _ _ _ Hg) as Hst. unfold stats_user_sub, set_usage. wp_steps.
      destruct (gone_bytes _ _ _ _ _ _ _ _ _ Hr Hr' El (gn_segs _ _ _ _ _ _ _ _ _ _ Hg)) as [Hb Hsz]. cbn [rs_region] in Hb.
      destruct (bytes_nonneg _ _ _ Hs). destruct (segs_mem _ _ _ _ (rw_segs _ (rg_wf _ _ _ _ _ _ _ _ Hr)) Hn) as (_ & Hlo & Hhi).
      pose proof (bytes_bound _ _ _ _ _ _ _ _ Hr') as Hbb.
      assert (Eu : u64 (total_usage s - size (vs_segment (sn_seg n))) = total_usage s - size (vs_segment (sn_seg n))).
      { apply u64_id. unfold within, us_bytes, is_u64 in *. lia. }
      cbn [us_vb normal_memory custom_memory process_static_page_phys_addr max_memory total_usage]. rewrite Eu.
      destruct (normal_step U kroot r other kstatic s D H t D' _ (node_start n) (node_end n) Hs Hr' Hst) with (max := max_memory s) (usage := total_usage s - size (vs_segment (sn_seg n))) as [Hs' Hst']; [|done|done|].
      { unfold rest_arcs. cbn [rs_region rs_vb]. intros h. rewrite !elem_of_app. tauto. }
      exists D'. split; [|done].
      assert (Hbs : us_bytes (mkUs (rs_vb t) (rs_region t) (custom_memory s) (process_static_page_phys_addr s) (max_memory s) (total_usage s - size (vs_segment (sn_seg n)))) = us_bytes s - size (vs_segment (sn_seg n))).
      { unfold us_bytes. cbn [normal_memory custom_memory]. lia. }
      split; [done|by apply (within_sub s _ (size (vs_segment (sn_seg n)))); [..|lia]|apply Hg|done|done|done| |].
      2:{ right. split; [|apply Hg]. exists l1, l2. split; [exact El|apply Hg]. }
      intros m [Hm|Hm]; [left|by right]. cbn [normal_memory] in Hm.
      rewrite (gn_segs _ _ _ _ _ _ _ _ _ _ Hg) in Hm. cbn [rs_region] in El. rewrite El. apply elem_of_app in Hm as [?|?]; apply elem_of_app; [by left|right; by right]. }
    unfold wp in Hf |- *. unfold unmap. by destruct (on_normal _ s) as [s' [sz|e|]].
  - pose proof (free_custom_spec s D H n Hs Hw Hn) as Hc.
    assert (Hf : on_normal (region_free (node_start n)) s = (s, Err InvalidArgument)).
    { destruct (segs_mem _ _ _ _ (rw_segs _ (rg_wf _ _ _ _ _ _ _ _ (uo_custom _ _ _ _ _ _ _ _ Hs))) Hn) as (_ & Hlo & _). cbn [rs_region] in Hlo. rewrite E2 in Hlo.
      unfold on_normal, region_free, get_region, bind, get_state, ret, throw. cbn [rs_region]. rewrite E1.
      assert (Hc0 : contains (mkSeg 0 VMEM_USER_END) (node_start n) = false).
      { unfold contains, seg_end. cbn [start size]. change (u64 (0 + VMEM_USER_END)) with (2 ^ 45). change (start _) with (2 ^ 45 + 2 ^ 40) in Hlo. apply andb_false_iff. right. apply Z.ltb_ge. lia. }
      rewrite Hc0. by destruct s. }
    unfold wp, unmap. rewrite Hf. exact Hc.
Qed.

(** ** Page faults *)
Lemma us_fix_spec s D H n pf_addr error_code : us_ok s D H -> within s -> is_u64 error_code -> enough (us_mm s) (n + 4) ->
  wp (us_fix_pagefault pf_addr error_code) s (fun _ s' => exists D' p f, fixable (normal_of s) pf_addr error_code p /\ us_ok s' D' H /\ within s' /\ enough (us_mm s') n /\
      us_step s s' D D' H (pg_start p) (pg_start p + 4096) /\ total_usage s' = total_usage s /\ max_memory s' = max_memory s /\
      view (us_k s') r pf_addr = Some (mkTr f true (has (pg_options p) WRITABLE) 1))
    (fun e s' => s' = s /\ e = InvalidArgument /\ forall p, ~ fixable (normal_of s) pf_addr error_code p).
Proof.
  intros Hs Hw Hec He. pose proof (uo_normal _ _ _ _ _ _ _ _ Hs) as Hn. unfold us_fix_pagefault. apply wp_on_normal.
  eapply wp_mono; [apply (region_fix_spec U kroot r other (normal_of s) D _ _ n pf_addr error_code Hn Hec He)| |].
  - intros _ t (D' & p & f & Hfx & Hr' & He' & Hst & Hb & Hv). pose proof Hfx as (nd & Hnd & Hin & _ & Hfp & _). exists D', p, f.
    destruct (node_aligned _ _ _ _ _ _ _ _ _ Hn Hnd) as (_ & _ & Hok). destruct (segs_mem _ _ _ _ (rw_segs _ (rg_wf _ _ _ _ _ _ _ _ Hn)) Hnd) as (_ & Hlo & Hhi).
    destruct (seg_page U kroot r other _ _ _ Hok Hin) as (i & p' & Hi & Hfp' & _). rewrite Hfp in Hfp'. injection Hfp' as <-.
    pose proof (run_lookup _ _ _ _ (sg_run _ _ _ _ _ Hok) Hi) as Ep. apply lookup_lt_Some in Hi. pose proof (sg_size _ _ _ _ _ Hok) as Esz. unfold node_start, node_end in Hlo, Hhi.
    destruct (normal_step U kroot r other kstatic s D H t D' _ _ _ Hs Hr' Hst) with (max := max_memory s) (usage := total_usage s) as [Hs' Hst'].
    { cbn [rs_region rs_vb]. intros h. rewrite !elem_of_app. tauto. }
    { cbn [rs_region] in Hlo. unfold node_start in *. lia. }
    { unfold region_end. cbn [rs_region] in Hhi. unfold node_start in *. lia. }
    split; [done|]. split; [done|]. split; [unfold within, us_bytes in *; cbn [normal_memory custom_memory total_usage max_memory]; cbn [rs_region] in Hb; lia|].
    split; [done|]. split; [done|]. done.
  - intros e t (-> & -> & Hno). by destruct s.
Qed.
End Ops.
