(* ===== verification/UserCopy.v ===== *)
(** * The address space of a program: what the kernel reads and writes there *)

From stdpp Require Import base numbers list gmap.
From S2P Require Import RustPrelude PhysMem PhysFrames PhysInit PhysProps PageTable PageWalk PageMem PageTableProps Slab SlabProps Vmem VmemSpace VmemSegs VmemRegions UserSpace UserInv UserOps.

Open Scope Z_scope.

(** ** Bytes in words *)

Lemma byte_of_same x i b : 0 <= i -> 0 <= b < 256 -> byte_of (with_byte x i b) i = b.
Proof.
  intros Hi Hb. unfold byte_of, with_byte. apply Z.bits_inj'. intros j Hj. rewrite Z.land_spec, Z.shiftr_spec, Z.lor_spec, Z.ldiff_spec, !Z.shiftl_spec by lia.
  replace (j + 8 * i - 8 * i) with j by lia. change 255 with (Z.ones 8). destruct (decide (j < 8)) as [Hlt|Hge].
  - rewrite Z.ones_spec_low by lia. by rewrite andb_false_r, andb_true_r.
  - rewrite Z.ones_spec_high by lia. rewrite andb_false_r. rewrite <- (Z.mod_small b (2 ^ 8)) by lia. by rewrite Z.mod_pow2_bits_high by lia.
Qed.

Lemma byte_of_other x i j b : 0 <= i -> 0 <= j -> i <> j -> 0 <= b < 256 -> byte_of (with_byte x i b) j = byte_of x j.
Proof.
  intros Hi Hj Hne Hb. unfold byte_of, with_byte. apply Z.bits_inj'. intros k Hk. rewrite !Z.land_spec, !Z.shiftr_spec, Z.lor_spec, Z.ldiff_spec by lia.
  change 255 with (Z.ones 8). destruct (decide (k < 8)) as [Hlt|Hge]; [|by rewrite Z.ones_spec_high, !andb_false_r by lia].
  rewrite Z.ones_spec_low, !andb_true_r by lia. destruct (decide (k + 8 * j < 8 * i)).
  - rewrite !(Z.shiftl_spec_low _ _ (k + 8 * j)) by lia. by rewrite andb_true_r, orb_false_r.
  - rewrite !Z.shiftl_spec by lia. rewrite Z.ones_spec_high by lia.
    assert (Ez : Z.testbit b (k + 8 * j - 8 * i) = false) by (rewrite <- (Z.mod_small b (2 ^ 8)) by lia; apply Z.mod_pow2_bits_high; lia). by rewrite Ez, andb_true_r, orb_false_r.
Qed.

Lemma put_byte_at k addr b x : 0 <= b < 256 -> byte_at (put_byte k addr b) x = if decide (x = addr) then b else byte_at k x.
Proof.
  intros Hb. unfold byte_at, put_byte, word. cbn [words set_words]. case_decide as E.
  - subst x. rewrite lookup_insert_eq. cbn [default]. apply byte_of_same; [dlia|done].
  - destruct (decide (word_of x = word_of addr)) as [Ew|Ew].
    + rewrite Ew, lookup_insert_eq. cbn [from_option id]. rewrite byte_of_other; [done|dlia|dlia| |done]. unfold word_of in Ew. dlia.
    + by rewrite lookup_insert_ne by congruence.
Qed.

Lemma put_byte_word k addr b a : a <> word_of addr -> word (put_byte k addr b) a = word k a.
Proof. intros Hne. unfold put_byte, word. cbn [words set_words]. by rewrite lookup_insert_ne by congruence. Qed.

Lemma put_bytes_phys bytes : forall k addr, phys (put_bytes k addr bytes) = phys k /\ flushes (put_bytes k addr bytes) = flushes k.
Proof. induction bytes as [|b l IH]; intros k addr; cbn [put_bytes]; [done|]. destruct (IH (put_byte k addr b) (addr + 1)) as [-> ->]. done. Qed.

Lemma put_bytes_word bytes : forall k addr a, (forall i, 0 <= i < Z.of_nat (length bytes) -> a <> word_of (addr + i)) -> word (put_bytes k addr bytes) a = word k a.
Proof.
  induction bytes as [|b l IH]; intros k addr a Hoff; cbn [put_bytes length] in *; [done|]. rewrite IH.
  - apply put_byte_word. rewrite <- (Z.add_0_r addr). apply Hoff. lia.
  - intros i Hi. replace (addr + 1 + i) with (addr + (1 + i)) by lia. apply Hoff. lia.
Qed.

Definition is_byte (b : Z) : Prop := 0 <= b < 256.

Lemma put_bytes_at bytes : forall k addr x, Forall is_byte bytes ->
  byte_at (put_bytes k addr bytes) x = if decide (addr <= x < addr + Z.of_nat (length bytes)) then default 0 (bytes !! Z.to_nat (x - addr)) else byte_at k x.
Proof.
  induction bytes as [|b l IH]; intros k addr x Hall; cbn [put_bytes length]; [by rewrite decide_False by lia|].
  apply Forall_cons in Hall as [Hb Hall]. rewrite IH by done. destruct (decide (addr + 1 <= x < addr + 1 + Z.of_nat (length l))) as [Hin|Hout].
  - rewrite decide_True by lia. replace (Z.to_nat (x - addr)) with (S (Z.to_nat (x - (addr + 1)))) by lia. done.
  - rewrite put_byte_at by done. case_decide as E.
    + rewrite decide_True by lia. by rewrite E, Z.sub_diag.
    + by rewrite decide_False by lia.
Qed.

Section Copy.
Context (U : Z -> bool) (kroot r : Z) (other : Z -> Prop) (kstatic : Z).
Hypothesis Hprog : r <> kroot.

Abbreviation mm_inv := (mm_inv U kroot other).
Abbreviation us_ok := (us_ok U kroot r other kstatic).
Abbreviation us_step := (us_step kroot r).

(** Data is written to the frame [f] of an object: no page table changes. *)
Definition data_written (k k' : Kmem) (f : Z) : Prop := phys k' = phys k /\ forall a, a mod 8 = 0 -> off_page f 4096 a -> word k' a = word k a.

Lemma mm_inv_data m D H k' h f : mm_inv m D H -> frame_at m h f -> data_written (kmem m) k' f ->
  mm_inv (set_kmem k' m) D H /\ forall r0 v, root D r0 -> 0 <= v < 2 ^ 48 -> view k' r0 v = view (kmem m) r0 v.
Proof.
  intros HM Hf [Hp Hw]. pose proof (mi_tables _ _ _ _ _ _ HM) as HI.
  assert (He : forall g i, is_Some (D !! g) -> 0 <= i < 512 -> entry k' g i = entry (kmem m) g i).
  { intros g i [nd Hg] Hi. unfold entry. destruct (pi_addr _ _ _ _ _ _ _ HI Hg) as [_ Hga]. apply Hw; [change OFF with (2 ^ 46); dlia|]. intros Hin.
    assert (g <> f) as Hne. { intros ->. destruct Hf as [n Ho]. destruct (mi_frame _ _ _ _ _ _ HM _ _ _ Ho) as (_ & _ & Hn). cbn in Hn. congruence. }
    eapply (data_off U kroot other m D H h f g); [exact HM|exact Hf| |done|exact Hin|unfold entry; lia].
    eapply used_addr; [apply HI|apply HI|]. by eapply (pi_used _ _ _ _ _ HI). }
  destruct (pt_inv_words U kroot (kmem m) k' D HI Hp He) as (HI' & Hv). split; [|intros; by apply Hv].
  destruct HM as [A [B1 B2] C E F G J]. split; cbn [kmem set_kmem]; rewrite ?Hp; [done|by split|done..].
Qed.

(** The space after such a write. *)
Definition with_kmem (k' : Kmem) (s : Us) : Us :=
  mkUs (mkVb (set_kmem k' (us_mm s)) (vb_base (us_vb s))) (normal_memory s) (custom_memory s) (process_static_page_phys_addr s) (max_memory s) (total_usage s).

Lemma region_ok_views vb k' rg D H P : region_ok U kroot r other (mkRs vb rg) D H P -> mm_inv (set_kmem k' (vb_mm vb)) D (region_arcs rg ++ pa_arcs vb ++ H) ->
  (forall v, 0 <= v < 2 ^ 48 -> view k' r v = view (kmem (vb_mm vb)) r v) -> region_ok U kroot r other (mkRs (mkVb (set_kmem k' (vb_mm vb)) (vb_base vb)) rg) D H P.
Proof.
  intros [A B C E F G J K L M N] HM Hv. cbn [rs_vb rs_region] in *. split; cbn [rs_vb rs_region vb_mm vb_base kmem set_kmem]; try done.
  - eapply Forall_impl; [exact G|]. intros n [S1 S2 S3 S4 S5]. split; [done..| |done]. eapply Forall_impl; [exact S4|]. intros p [Hpl Hp]. split; [done|].
    destruct (pg_frame p) as [h|].
    + destruct Hp as (f & Hf & Hm). exists f. split; [done|]. intros v Hvr. cbn [kmem set_kmem]. rewrite Hv; [by apply Hm|apply Hpl, Hvr].
    + destruct Hp as [Hu Hl]. split; [|done]. intros v Hvr. cbn [kmem set_kmem]. rewrite Hv; [by apply Hu|apply Hpl, Hvr].
  - intros v Hvr Hn. rewrite Hv; [by apply J|apply (F v Hvr)].
Qed.

Lemma us_ok_data s D H k' h f : us_ok s D H -> frame_at (us_mm s) h f -> data_written (us_k s) k' f -> us_ok (with_kmem k' s) D H.
Proof.
  intros Hs Hf Hd. pose proof Hs as [A B C E F G J K L].
  destruct (mm_inv_data _ _ _ _ _ _ (rg_inv _ _ _ _ _ _ _ _ A) Hf Hd) as [HM1 Hv]. destruct (mm_inv_data _ _ _ _ _ _ (rg_inv _ _ _ _ _ _ _ _ B) Hf Hd) as [HM2 _].
  pose proof (rg_root _ _ _ _ _ _ _ _ A) as Hr. cbn [rs_vb rs_region] in *.
  assert (Hst : forall v, in_static v -> 0 <= v < 2 ^ 48) by (intros v ?%static_range; lia).
  split; cbn [with_kmem us_vb normal_memory custom_memory process_static_page_phys_addr vb_mm vb_base kmem set_kmem]; try done.
  - apply region_ok_views; [done|done|]. intros. by apply Hv.
  - apply region_ok_views; [done|done|]. intros. by apply Hv.
  - destruct E as [E1 E2]. split; intros v Hvr; rewrite Hv; [by apply E1|done|apply Hst; by left|by apply E2|done|apply Hst; by right].
  - intros v Ho Hn1 Hn2. rewrite Hv; [by apply G|done|apply Ho].
  - intros i Hi. destruct (J i Hi) as (v & Hv48 & Ei & Hvn). exists v. split; [done|]. split; [done|]. by rewrite Hv.
Qed.

(** ** What the kernel knows of an address *)

Lemma us_status_spec s D H v : us_ok s D H -> 0 <= v ->
  wp (vaddr_map_status v) s (fun st s' => s' = s /\ (in_regions s v -> status_of U r (view (us_k s) r v) st) /\ (st <> Unallocated -> in_regions s v)) (fun _ _ => False).
Proof.
  intros Hs Hv. destruct (uo_ranges _ _ _ _ _ _ _ _ Hs) as [E1 E2]. unfold vaddr_map_status, in_regions, region_end. rewrite E1, E2. cbn [start size].
  change VMEM_USER_END with (2 ^ 45). change CUSTOM_USERSPACE_REGION_END with (2 ^ 45 + 2 ^ 41). change CUSTOM_USERSPACE_REGION_START with (2 ^ 45 + 2 ^ 40).
  pose proof (uo_normal _ _ _ _ _ _ _ _ Hs) as Hn. pose proof (uo_custom _ _ _ _ _ _ _ _ Hs) as Hc.
  assert (Hin : forall t D0 H0 P0, region_ok U kroot r other t D0 H0 P0 -> forall st, (st = Unallocated <-> forall n, n ∈ segs_of t -> ~ in_node n v) -> st <> Unallocated ->
    start (vr_segment (rs_region t)) <= v < region_end (rs_region t)).
  { intros t D0 H0 P0 Ht st Hst Hne. destruct (decide (start (vr_segment (rs_region t)) <= v < region_end (rs_region t))) as [|Hno]; [done|]. destruct Hne. apply Hst.
    intros n Hnn Hnv. apply Hno. eapply node_in_range; [apply Ht|done|done]. }
  destruct (Z.leb_spec v (2 ^ 45)) as [Hle|Hgt].
  - apply wp_on_normal. eapply wp_mono; [apply (region_status_spec U kroot r other (normal_of s) D _ _ v Hn)| |done]. cbn [rs_vb rs_region].
    intros st t (-> & Hst & Hun). split; [by destruct s|]. unfold region_end in Hst. rewrite E1 in Hst. cbn [start size] in Hst. change VMEM_USER_END with (2 ^ 45) in Hst. split.
    + intros Hr. apply Hst. lia.
    + intros Hne. left. pose proof (Hin _ _ _ _ Hn st Hun Hne) as Hr. cbn [rs_region] in Hr. unfold region_end in Hr. rewrite E1 in Hr. exact Hr.
  - destruct (Z.leb_spec (2 ^ 45 + 2 ^ 40) v) as [Hlo|Hlo]; cbn [andb]; [destruct (Z.leb_spec v (2 ^ 45 + 2 ^ 41)) as [Hhi|Hhi]|].
    + apply wp_on_custom. eapply wp_mono; [apply (region_status_spec U kroot r other (custom_of s) D _ _ v Hc)| |done]. cbn [rs_vb rs_region].
      intros st t (-> & Hst & Hun). split; [by destruct s|]. unfold region_end in Hst. rewrite E2 in Hst. cbn [start size] in Hst.
      change CUSTOM_USERSPACE_REGION_END with (2 ^ 45 + 2 ^ 41) in Hst. change CUSTOM_USERSPACE_REGION_START with (2 ^ 45 + 2 ^ 40) in Hst. split.
      * intros Hr. apply Hst. lia.
      * intros Hne. right. pose proof (Hin _ _ _ _ Hc st Hun Hne) as Hr. cbn [rs_region] in Hr. unfold region_end in Hr. rewrite E2 in Hr. exact Hr.
    + wp_steps. split; [done|]. split; [lia|done].
    + wp_steps. split; [done|]. split; [lia|done].
Qed.

Lemma us_phys_spec s D H v (Q : option Z -> Us -> Prop) X : us_ok s D H -> 0 <= v < 2 ^ 48 -> Q (option_map tr_addr (view (us_k s) r v)) s -> wp (virt_to_phys v) s Q X.
Proof.
  intros Hs Hv HQ. destruct (us_root _ _ _ _ _ _ _ _ Hs) as [Hr Ht]. unfold virt_to_phys, space_pt, on_memory. wp_steps. apply wp_on_space, wp_on_mm, wp_on_kmem.
  eapply wp_mono; [apply (virt_to_phys_spec U kroot _ _ D r v Ht (mi_tables _ _ _ _ _ _ (rg_inv _ _ _ _ _ _ _ _ (uo_normal _ _ _ _ _ _ _ _ Hs))) Hr Hv)| |done].
  intros res k' [-> ->]. destruct s as [[[] ?] ? ? ? ? ?]. exact HQ.
Qed.

(** A page of a region that is mapped. *)
Lemma mapped_page s D H v tr : us_ok s D H -> in_regions s v -> view (us_k s) r v = Some tr ->
  exists h f w, frame_at (us_mm s) h f /\ addr_ok f /\ page_mapped U r (us_k s) (v - v mod 4096) f w /\ tr = mkTr (f + v mod 4096) (U r) w 1.
Proof.
  intros Hs Hin Hv. assert (Hrg : exists rg D0 H0 P0, region_ok U kroot r other (mkRs (us_vb s) rg) D0 H0 P0 /\ start (vr_segment rg) <= v < region_end rg).
  { destruct Hin as [?|?]; [exists (normal_memory s)|exists (custom_memory s)]; do 3 eexists; (split; [apply Hs|done]). }
  destruct Hrg as (rg & D0 & H0 & P0 & Hr & Hrange). pose proof (rg_wf _ _ _ _ _ _ _ _ Hr) as Hwf. pose proof (sm_find_spec _ _ (used_segments rg) v (rw_segs _ Hwf)) as Hf.
  destruct (sm_find _ v) as [seg|].
  - destruct Hf as (n & Hn & <- & Hnv). destruct (node_aligned _ _ _ _ _ _ _ _ _ Hr Hn) as (_ & _ & Hok).
    destruct (seg_page U kroot r other _ _ _ Hok Hnv) as (i & p & _ & _ & [Hpl Hp] & Hpv & Hpa). cbn [rs_vb] in *.
    assert (Hst : pg_start p = v - v mod 4096) by (destruct Hpl as [Hal _]; dlia). destruct (pg_frame p) as [h|].
    + destruct Hp as (f & Hfa & Hm). exists h, f, (has (pg_options p) WRITABLE). rewrite <- Hst. pose proof Hfa as [cnt Ho].
      destruct (frame_is_data _ _ _ _ _ _ _ _ _ (rg_inv _ _ _ _ _ _ _ _ Hr) Ho) as [_ Hfok]. split; [done|]. split; [done|]. split; [done|].
      rewrite Hm in Hv by done. injection Hv as <-. f_equal. lia.
    + destruct Hp as [Hu _]. by rewrite Hu in Hv.
  - pose proof (rg_gaps _ _ _ _ _ _ _ _ Hr v Hrange Hf) as Hno. cbn [rs_vb] in Hno. congruence.
Qed.

Lemma chunk_eq addr left : 0 <= addr < 2 ^ 47 -> 0 <= left -> chunk addr left = Z.min left (4096 - addr mod 4096).
Proof.
  intros Ha Hl. unfold chunk, align_up. change PAGE_SIZE_SMALL with (2 ^ 12). rewrite (u64_id (addr + 1)), (u64_id (addr + 1 + 2 ^ 12)), (u64_id (addr + 1 + 2 ^ 12 - 1)) by (unfold is_u64; lia).
  rewrite land_not_mask by (unfold is_u64; lia).
  replace (addr + 1 + 2 ^ 12 - 1) with (addr + 1 * 2 ^ 12) by lia. rewrite Z.div_add by lia. rewrite u64_id by (unfold is_u64; dlia).
  change (2 ^ 12) with 4096. destruct (Z.leb_spec left (4096 * (addr / 4096 + 1) - addr)); dlia.
Qed.

(** ** Copies *)

(** Two addresses of the range are never the same memory. *)
Definition apart (k : Kmem) (lo hi : Z) : Prop :=
  forall v1 v2 t1 t2, lo <= v1 < hi -> lo <= v2 < hi -> view k r v1 = Some t1 -> view k r v2 = Some t2 -> tr_addr t1 = tr_addr t2 -> v1 = v2.

(** The bytes are where the program reads them, and nothing else changed. *)
Record copied (s s' : Us) (D : gmap Z node) (H : list SlabArc) (dst : Z) (bytes : list Z) : Prop := {
  cp_ok : us_ok s' D H;
  cp_same : s' = with_kmem (us_k s') s;
  cp_view v : 0 <= v < 2 ^ 48 -> view (us_k s') r v = view (us_k s) r v;
  cp_others : same_view (us_k s) (us_k s') D;
  cp_off x : (forall v tr, dst <= v < dst + Z.of_nat (length bytes) -> view (us_k s) r v = Some tr -> x <> OFF + tr_addr tr) -> byte_at (us_k s') x = byte_at (us_k s) x;
  cp_bytes i b tr : apart (us_k s) dst (dst + Z.of_nat (length bytes)) -> bytes !! i = Some b -> view (us_k s) r (dst + Z.of_nat i) = Some tr ->
    byte_at (us_k s') (OFF + tr_addr tr) = b
}.

Definition usable (s : Us) (v : Z) : Prop := in_regions s v /\ view (us_k s) r v <> None.

(** The part of a copy that lies in one page. *)
Lemma copy_page s D H dst l tr : us_ok s D H -> in_regions s dst -> view (us_k s) r dst = Some tr -> Forall is_byte l -> dst mod 4096 + Z.of_nat (length l) <= 4096 -> l <> [] ->
  let k' := put_bytes (us_k s) (OFF + tr_addr tr) l in
  copied s (with_kmem k' s) D H dst l /\ (forall v, dst <= v < dst + Z.of_nat (length l) -> view (us_k s) r v = Some (mkTr (tr_addr tr + (v - dst)) (tr_user tr) (tr_writable tr) 1)) /\
  0 <= tr_addr tr < OFF.
Proof.
  intros Hs Hin Hv Hb Hlen Hne k'. destruct (mapped_page _ _ _ _ _ Hs Hin Hv) as (h & f & w & Hf & [Hfr Hfa] & Hm & ->). cbn [tr_addr tr_user tr_writable] in *.
  assert (Htr : forall v, dst <= v < dst + Z.of_nat (length l) -> view (us_k s) r v = Some (mkTr (f + dst mod 4096 + (v - dst)) (U r) w 1)).
  { intros v Hvr. rewrite Hm by dlia. do 2 f_equal. lia. }
  assert (Hlen0 : 0 < Z.of_nat (length l)) by (destruct l; [done|cbn; lia]).
  assert (Hd : data_written (us_k s) k' f).
  { split; [apply put_bytes_phys|]. intros a Ha8 Hoff. apply put_bytes_word. intros i Hi ->. apply Hoff. unfold word_of. change OFF with (2 ^ 46) in *. dlia. }
  split; [|split; [done|change OFF with (2 ^ 46) in *; dlia]]. split.
  - eapply us_ok_data; [done|exact Hf|done].
  - done.
  - cbn [with_kmem us_vb vb_mm kmem set_kmem]. intros v Hvr. destruct (us_root _ _ _ _ _ _ _ _ Hs) as [Hr _].
    apply (proj2 (mm_inv_data _ _ _ _ _ _ (rg_inv _ _ _ _ _ _ _ _ (uo_normal _ _ _ _ _ _ _ _ Hs)) Hf Hd) r v Hr Hvr).
  - intros r0 v Hr0 Hvr. apply (proj2 (mm_inv_data _ _ _ _ _ _ (rg_inv _ _ _ _ _ _ _ _ (uo_normal _ _ _ _ _ _ _ _ Hs)) Hf Hd) r0 v Hr0 Hvr).
  - intros x Hx. cbn [with_kmem us_vb vb_mm kmem set_kmem]. unfold k'. rewrite put_bytes_at by done. rewrite decide_False; [done|]. intros Hxr.
    set (v := dst + (x - (OFF + (f + dst mod 4096)))). assert (Hvr : dst <= v < dst + Z.of_nat (length l)) by (unfold v; lia).
    apply (Hx v _ Hvr (Htr v Hvr)). cbn [tr_addr]. unfold v. lia.
  - intros i b t _ Hi Ht. cbn [with_kmem us_vb vb_mm kmem set_kmem]. unfold k'. pose proof (lookup_lt_Some _ _ _ Hi).
    rewrite Htr in Ht by lia. injection Ht as <-. cbn [tr_addr]. rewrite put_bytes_at by done. rewrite decide_True by lia.
    replace (Z.to_nat _) with i by lia. by rewrite Hi.
Qed.

Lemma copied_trans s1 s2 s3 D H dst l1 l2 : copied s1 s2 D H dst l1 -> copied s2 s3 D H (dst + Z.of_nat (length l1)) l2 -> 0 <= dst -> dst + Z.of_nat (length (l1 ++ l2)) <= 2 ^ 48 ->
  copied s1 s3 D H dst (l1 ++ l2).
Proof.
  intros [A1 B1 C1 O1 E1 F1] [A2 B2 C2 O2 E2 F2] H0 Hlen. rewrite length_app in *. split.
  - done.
  - rewrite B2, B1. done.
  - intros v Hv. by rewrite C2, C1.
  - intros r0 v Hr0 Hv. by rewrite O2, O1.
  - intros x Hx. rewrite length_app in Hx. rewrite E2; [apply E1; intros v tr Hv; apply Hx; lia|]. intros v tr Hv Ht. rewrite C1 in Ht by lia. apply (Hx v); [lia|done].
  - intros i b tr Hap Hi Ht. rewrite length_app in Hap. apply lookup_app_Some in Hi as [Hi|[Hge Hi]].
    + pose proof (lookup_lt_Some _ _ _ Hi). rewrite E2.
      * apply (F1 i b tr); [|done|done]. intros v1 v2 t1 t2 ? ? ? ? ?. eapply (Hap v1 v2); [lia|lia|done..].
      * intros v t Hv Ht' Eq. rewrite C1 in Ht' by lia. assert (dst + Z.of_nat i = v); [|lia]. eapply (Hap _ _ tr t); [lia|lia|done|done|lia].
    + replace (dst + Z.of_nat i) with (dst + Z.of_nat (length l1) + Z.of_nat (i - length l1)) in Ht by lia. pose proof (lookup_lt_Some _ _ _ Hi).
      apply (F2 (i - length l1)%nat b tr); [|done|rewrite C1; [done|lia]].
      intros v1 v2 t1 t2 ? ? Ha1 Ha2 ?. rewrite C1 in Ha1, Ha2 by lia. eapply (Hap v1 v2); [lia|lia|done..].
Qed.

Lemma copied_nil s D H dst : us_ok s D H -> copied s s D H dst [].
Proof. intros Hs. split; [done|by destruct s as [[[] ?] ? ? ? ? ?]|done|done|done|by intros]. Qed.

Lemma copied_regions s s' D H dst l v : copied s s' D H dst l -> in_regions s' v <-> in_regions s v.
Proof. intros Hc. rewrite (cp_same _ _ _ _ _ _ Hc). done. Qed.

Lemma same_page_regions s D H v v' : us_ok s D H -> in_regions s v -> v' / 4096 = v / 4096 -> in_regions s v'.
Proof.
  intros Hs Hv Hp. destruct (uo_ranges _ _ _ _ _ _ _ _ Hs) as [E1 E2]. unfold in_regions, region_end in *. rewrite E1, E2 in *. cbn [start size] in *.
  change VMEM_USER_END with (2 ^ 45) in *. change CUSTOM_USERSPACE_REGION_END with (2 ^ 45 + 2 ^ 41) in *. change CUSTOM_USERSPACE_REGION_START with (2 ^ 45 + 2 ^ 40) in *.
  destruct Hv; [left|right]; dlia.
Qed.

(** One round of [copy_to_user] at an address that is mapped to [a]: the two translations agree. *)
Lemma copy_round s D H dst l a w (c : eff Us MemError unit) Q X : us_ok s D H -> in_regions s dst -> view (us_k s) r dst = Some (mkTr a (U r) w 1) -> Forall is_byte l ->
  dst mod 4096 + Z.of_nat (length l) <= 4096 -> l <> [] ->
  (forall s1, copied s s1 D H dst l -> (forall v, dst <= v < dst + Z.of_nat (length l) -> usable s v) -> wp c s1 Q X) ->
  wp (let* phys_start_2 := virt_to_phys dst in
      match phys_start_2 with
      | None => panic
      | Some phys_start_2 =>
        assert (a =? phys_start_2);;;
        on_memory (modify (fun k => put_bytes k (u64 (a + PAGING_DIRECT_MAP_OFFSET)) l));;;
        c
      end) s Q X.
Proof.
  intros Hs Hin Hv Hb Hlen Hne Hc. pose proof (regions_apart _ _ _ _ _ _ _ _ _ Hs Hin) as Hr. wp_step. eapply us_phys_spec; [done|lia|]. rewrite Hv. cbn [option_map tr_addr]. wp_step.
  apply wp_assert; [apply Z.eqb_refl|]. destruct (copy_page s D H dst l (mkTr a (U r) w 1) Hs Hin Hv Hb Hlen Hne) as (Hcp & Htr & Har).
  cbn [tr_addr] in *. rewrite u64_id by (change OFF with (2 ^ 46) in Har; change PAGING_DIRECT_MAP_OFFSET with (2 ^ 46); unfold is_u64; lia).
  change PAGING_DIRECT_MAP_OFFSET with OFF. rewrite (Z.add_comm a OFF). wp_step. unfold on_memory. apply wp_on_space, wp_on_mm, wp_on_kmem. wp_steps.
  apply (Hc _ Hcp). intros v Hvr. split; [|by rewrite (Htr v Hvr)]. eapply same_page_regions; [done|exact Hin|dlia].
Qed.

(** [copy_to_user] writes all the bytes unless an address is not mapped; it never finds its two translations in disagreement. *)
Definition copy_done (s s' : Us) (D : gmap Z node) (H : list SlabArc) (dst : Z) (bytes : list Z) : Prop :=
  copied s s' D H dst bytes /\ forall v, dst <= v < dst + Z.of_nat (length bytes) -> usable s v.
Definition copy_failed (s s' : Us) (D : gmap Z node) (H : list SlabArc) (dst len : Z) : Prop :=
  us_ok s' D H /\ s' = with_kmem (us_k s') s /\ same_view (us_k s) (us_k s') D /\ exists v, dst <= v < dst + len /\ ~ usable s v.

Lemma copy_loop_spec rounds : forall s D H bytes dst, us_ok s D H -> (length bytes <= rounds)%nat -> Forall is_byte bytes -> 0 <= dst -> dst + Z.of_nat (length bytes) <= 2 ^ 47 ->
  wp (copy_loop rounds bytes dst) s (fun _ s' => copy_done s s' D H dst bytes) (fun e s' => e = InvalidArgument /\ copy_failed s s' D H dst (Z.of_nat (length bytes))).
Proof.
  induction rounds as [|rounds IH]; intros s D H bytes dst Hs Hlen Hb H0 Hmax; cbn [copy_loop].
  - wp_steps. destruct bytes; [|cbn in Hlen; lia]. split; [by apply copied_nil|]. cbn. lia.
  - destruct (decide (bytes = [])) as [->|Hne]; [rewrite bool_decide_eq_true_2 by done; wp_steps; split; [by apply copied_nil|cbn; lia]|].
    rewrite bool_decide_eq_false_2 by done. assert (Hpos : 0 < Z.of_nat (length bytes)) by (destruct bytes; [done|cbn; lia]).
    rewrite chunk_eq by lia. set (n := Z.min _ _). assert (Hn : 0 < n <= Z.of_nat (length bytes)) by (unfold n; dlia).
    wp_step. eapply wp_mono; [by apply (us_status_spec s D H dst)| |done]. intros st s0 (-> & Hst & Hun).
    assert (Hbad : ~ usable s dst -> copy_failed s s D H dst (Z.of_nat (length bytes))).
    { intros Hu. split; [done|]. split; [by destruct s as [[[] ?] ? ? ? ? ?]|]. split; [done|]. exists dst. split; [lia|done]. }
    set (l := take (Z.to_nat n) bytes). assert (Hll : Z.of_nat (length l) = n) by (unfold l; rewrite length_take; lia).
    assert (Happ : l ++ drop (Z.to_nat n) bytes = bytes) by apply take_drop. rewrite (u64_id (dst + n)) by (unfold is_u64; lia).
    assert (Hgo : forall s1, copied s s1 D H dst l -> (forall v, dst <= v < dst + Z.of_nat (length l) -> usable s v) ->
      wp (copy_loop rounds (drop (Z.to_nat n) bytes) (dst + n)) s1 (fun _ s' => copy_done s s' D H dst bytes) (fun e s' => e = InvalidArgument /\ copy_failed s s' D H dst (Z.of_nat (length bytes)))).
    { intros s1 Hcp Huse. assert (Hld : Z.of_nat (length (drop (Z.to_nat n) bytes)) = Z.of_nat (length bytes) - n) by (rewrite length_drop; lia).
      eapply wp_mono; [apply (IH s1 D H (drop (Z.to_nat n) bytes) (dst + n)); [apply Hcp|lia|by apply Forall_drop|lia|lia]| |].
      - intros [] s2 [Hc2 Hu2]. split; [rewrite <- Happ; eapply copied_trans; [exact Hcp|rewrite Hll; exact Hc2|done|rewrite Happ; lia]|].
        intros v Hvr. destruct (decide (v < dst + n)); [apply Huse; lia|]. destruct (Hu2 v) as [Hi2 Hv2]; [lia|].
        split; [by apply (copied_regions _ _ _ _ _ _ _ Hcp)|]. by rewrite (cp_view _ _ _ _ _ _ Hcp) in Hv2 by lia.
      - intros e s2 (-> & Hs2 & E2 & O2 & v & Hvr & Hnv). split; [done|]. split; [done|]. split; [rewrite E2, (cp_same _ _ _ _ _ _ Hcp); done|].
        split; [intros r0 x Hr0 Hx; rewrite O2 by done; by apply (cp_others _ _ _ _ _ _ Hcp)|]. exists v. split; [lia|].
        intros [Hi Hvn]. apply Hnv. split; [by apply (copied_regions _ _ _ _ _ _ _ Hcp)|]. by rewrite (cp_view _ _ _ _ _ _ Hcp) by lia. }
    assert (Hl : Forall is_byte l /\ dst mod 4096 + Z.of_nat (length l) <= 4096 /\ l <> []).
    { split; [by apply Forall_take|]. split; [rewrite Hll; unfold n; lia|]. intros E. rewrite E in Hll. cbn in Hll. lia. }
    destruct Hl as (Hl1 & Hl2 & Hl3). destruct st as [| | |a|a].
    + wp_steps. split; [done|]. apply Hbad. intros [Hin Hv]. by rewrite (Hst Hin) in Hv.
    + wp_steps. split; [done|]. apply Hbad. intros [Hin Hv]. by rewrite (Hst Hin) in Hv.
    + exfalso. by apply Hst, Hun.
    + destruct (Hst (Hun ltac:(done))) as [w Hv]. eapply copy_round; [done|by apply Hun|exact Hv|done..].
    + destruct (Hst (Hun ltac:(done))) as [w Hv]. eapply copy_round; [done|by apply Hun|exact Hv|done..].
Qed.

(** ** Reads *)

(** The bytes that the program reads from [src] on. *)
Definition user_byte (k : Kmem) (v : Z) : Z := match view k r v with Some tr => byte_at k (OFF + tr_addr tr) | None => 0 end.
Definition user_bytes (k : Kmem) (src : Z) (n : nat) : list Z := (fun i => user_byte k (src + Z.of_nat i)) <$> seq 0 n.

Lemma user_bytes_add k src a b : user_bytes k src (a + b) = user_bytes k src a ++ user_bytes k (src + Z.of_nat a) b.
Proof.
  unfold user_bytes. rewrite seq_app, fmap_app. f_equal. apply list_eq. intros i. rewrite !list_lookup_fmap.
  destruct (decide (i < b)%nat); [rewrite !lookup_seq_lt by done; cbn; do 2 f_equal; lia|by rewrite !lookup_seq_ge by lia].
Qed.

Lemma read_chunk s D H src n tr : us_ok s D H -> in_regions s src -> view (us_k s) r src = Some tr -> src mod 4096 + Z.of_nat n <= 4096 ->
  get_bytes (us_k s) (OFF + tr_addr tr) n = user_bytes (us_k s) src n /\ (forall v, src <= v < src + Z.of_nat n -> usable s v) /\ 0 <= tr_addr tr < OFF.
Proof.
  intros Hs Hin Hv Hn. destruct (mapped_page _ _ _ _ _ Hs Hin Hv) as (h & f & w & Hf & [Hfr Hfa] & Hm & ->). cbn [tr_addr]. split_and!.
  - apply list_fmap_ext. intros i x Hx. apply lookup_seq in Hx as [-> Hlt]. unfold user_byte. rewrite Hm by dlia. cbn [tr_addr]. f_equal. lia.
  - intros v Hvr. split; [eapply same_page_regions; [done|exact Hin|dlia]|]. by rewrite Hm by dlia.
  - dlia.
  - change OFF with (2 ^ 46) in *. dlia.
Qed.

Lemma read_loop_spec rounds : forall s D H src m buf, us_ok s D H -> (m <= rounds)%nat -> 0 <= src -> src + Z.of_nat m <= 2 ^ 47 ->
  (forall v, src <= v < src + Z.of_nat m -> in_regions s v) ->
  wp (read_loop rounds src (Z.of_nat m) buf) s
    (fun res s' => s' = s /\ res = buf ++ user_bytes (us_k s) src m /\ forall v, src <= v < src + Z.of_nat m -> usable s v)
    (fun e s' => s' = s /\ e = InvalidArgument /\ exists v, src <= v < src + Z.of_nat m /\ ~ usable s v).
Proof.
  induction rounds as [|rounds IH]; intros s D H src m buf Hs Hm H0 Hmax Hin; cbn [read_loop].
  - wp_steps. replace m with 0%nat by lia. cbn. rewrite app_nil_r. split; [done|]. split; [done|lia].
  - destruct (Z.leb_spec (Z.of_nat m) 0) as [Hz|Hpos]; [wp_steps; replace m with 0%nat by lia; cbn; rewrite app_nil_r; split; [done|]; split; [done|lia]|].
    assert (Hsrc : in_regions s src) by (apply Hin; lia). pose proof (regions_apart _ _ _ _ _ _ _ _ _ Hs Hsrc) as Hr.
    wp_step. eapply us_phys_spec; [done|lia|]. destruct (view (us_k s) r src) as [tr|] eqn:Hv; cbn [option_map].
    2:{ wp_steps. split; [done|]. split; [done|]. exists src. split; [lia|]. intros [_ ?]. by apply H1. }
    rewrite chunk_eq by lia. set (n := Z.min _ _). assert (Hn : 0 < n <= Z.of_nat m) by (unfold n; dlia).
    destruct (read_chunk s D H src (Z.to_nat n) tr Hs Hsrc Hv) as (Hb & Hu & Ha); [unfold n; lia|].
    rewrite u64_id by (change OFF with (2 ^ 46) in Ha; change PAGING_DIRECT_MAP_OFFSET with (2 ^ 46); unfold is_u64; lia).
    change PAGING_DIRECT_MAP_OFFSET with OFF. rewrite (Z.add_comm _ OFF). wp_step. unfold on_memory. apply wp_on_space, wp_on_mm, wp_on_kmem. wp_steps. rewrite Hb.
    assert (Es : mkUs (mkVb (set_kmem (us_k s) (us_mm s)) (vb_base (us_vb s))) (normal_memory s) (custom_memory s) (process_static_page_phys_addr s) (max_memory s) (total_usage s) = s)
      by (by destruct s as [[[] ?] ? ? ? ? ?]).
    rewrite Es, (u64_id (src + n)) by (unfold is_u64; lia). replace (Z.of_nat m - n) with (Z.of_nat (m - Z.to_nat n)) by lia.
    eapply wp_mono; [apply (IH s D H (src + n) (m - Z.to_nat n)%nat); [done|lia|lia|lia|intros v Hvr; apply Hin; lia]| |].
    + intros res s' (-> & -> & Hu2). split; [done|]. split.
      * rewrite <- app_assoc. f_equal. replace m with (Z.to_nat n + (m - Z.to_nat n))%nat at 2 by lia. rewrite user_bytes_add. do 2 f_equal. lia.
      * intros v Hvr. destruct (decide (v < src + n)); [apply Hu; lia|apply Hu2; lia].
    + intros e s' (-> & -> & v & Hvr & Hnv). split; [done|]. split; [done|]. exists v. split; [lia|done].
Qed.

(** What was copied is read back. *)
Lemma copied_bytes s s' D H dst bytes : copy_done s s' D H dst bytes -> apart (us_k s) dst (dst + Z.of_nat (length bytes)) -> 0 <= dst -> dst + Z.of_nat (length bytes) <= 2 ^ 47 ->
  user_bytes (us_k s') dst (length bytes) = bytes.
Proof.
  intros [Hc Hu] Hap H0 Hmax. apply list_eq. intros i. unfold user_bytes. rewrite list_lookup_fmap. destruct (bytes !! i) as [b|] eqn:Eb.
  - pose proof (lookup_lt_Some _ _ _ Eb) as Hlt. rewrite lookup_seq_lt by done. cbn [option_map fmap option_fmap]. f_equal. unfold user_byte.
    rewrite (cp_view _ _ _ _ _ _ Hc) by lia. destruct (Hu (dst + Z.of_nat i)) as [_ Hv]; [lia|].
    destruct (view (us_k s) r (dst + Z.of_nat (0 + i))) as [tr|] eqn:Et; [|done]. by eapply (cp_bytes _ _ _ _ _ _ Hc i).
  - apply lookup_ge_None in Eb. by rewrite lookup_seq_ge.
Qed.

(** [get_user_page_as_kernel]: the address in the direct map of the page that the program has there. *)
(** Whatever the addresses, a read changes nothing and does not panic. *)
Lemma read_safe rounds : forall s D H src m buf, us_ok s D H -> 0 <= src -> src + Z.of_nat m <= 2 ^ 47 ->
  wp (read_loop rounds src (Z.of_nat m) buf) s (fun _ s' => s' = s) (fun e s' => s' = s /\ e = InvalidArgument).
Proof.
  induction rounds as [|rounds IH]; intros s D H src m buf Hs H0 Hmax; cbn [read_loop]; [by wp_steps|].
  destruct (Z.leb_spec (Z.of_nat m) 0) as [Hz|Hpos]; [by wp_steps|]. wp_step. eapply us_phys_spec; [done|lia|].
  destruct (view (us_k s) r src) as [tr|]; cbn [option_map]; [|by wp_steps]. rewrite chunk_eq by lia. set (n := Z.min _ _).
  assert (Hn : 0 < n <= Z.of_nat m) by (unfold n; dlia). rewrite (u64_id (src + n)) by (unfold is_u64; lia).
  replace (Z.of_nat m - n) with (Z.of_nat (m - Z.to_nat n)) by lia. wp_step. unfold on_memory. apply wp_on_space, wp_on_mm, wp_on_kmem. wp_steps.
  destruct s as [[[] ?] ? ? ? ? ?]. apply (IH _ D H); [exact Hs|lia|lia].
Qed.

Lemma user_page_spec s D H v : us_ok s D H -> 0 <= v < 2 ^ 47 ->
  wp (get_user_page_as_kernel v) s
    (fun a s' => s' = s /\ v mod 4096 = 0 /\ usable s v /\ exists tr, view (us_k s) r v = Some tr /\ a = OFF + tr_addr tr)
    (fun e s' => s' = s /\ e = InvalidArgument /\ (v mod 4096 <> 0 \/ ~ usable s v)).
Proof.
  intros Hs Hv. unfold get_user_page_as_kernel. change (PAGE_SIZE_SMALL - 1) with (Z.ones 12). rewrite Z.land_ones by lia. change (2 ^ 12) with 4096.
  destruct (Z.eqb_spec (v mod 4096) 0) as [Hal|Hal]; cbn [negb]; [|wp_steps; by auto].
  wp_step. eapply wp_mono; [apply (us_status_spec s D H v Hs); lia| |done]. intros st s0 (-> & Hst & Hun).
  assert (Hgo : forall a w, view (us_k s) r v = Some (mkTr a (U r) w 1) -> in_regions s v ->
    wp (let* phys_start_2 := virt_to_phys v in
      match phys_start_2 with None => panic | Some phys_start_2 => assert (a =? phys_start_2);;; ret (u64 (a + PAGING_DIRECT_MAP_OFFSET)) end) s
    (fun a s' => s' = s /\ v mod 4096 = 0 /\ usable s v /\ exists tr, view (us_k s) r v = Some tr /\ a = OFF + tr_addr tr)
    (fun e s' => s' = s /\ e = InvalidArgument /\ (v mod 4096 <> 0 \/ ~ usable s v))).
  { intros a w Hvw Hin. wp_step. eapply us_phys_spec; [done|lia|]. rewrite Hvw. cbn [option_map tr_addr]. wp_step. apply wp_assert; [apply Z.eqb_refl|]. wp_steps.
    destruct (read_chunk s D H v 0 _ Hs Hin Hvw) as (_ & _ & Ha); [lia|]. cbn [tr_addr] in Ha. split; [done|]. split; [done|]. split; [split; [done|congruence]|].
    exists (mkTr a (U r) w 1). split; [done|]. cbn [tr_addr]. rewrite u64_id; [change PAGING_DIRECT_MAP_OFFSET with OFF; lia|].
    change OFF with (2 ^ 46) in Ha; change PAGING_DIRECT_MAP_OFFSET with (2 ^ 46); unfold is_u64; lia. }
  destruct st as [| | |a|a].
  - wp_steps. split; [done|]. split; [done|]. right. intros [Hin Hn]. exact (Hn (Hst Hin)).
  - wp_steps. split; [done|]. split; [done|]. right. intros [Hin Hn]. exact (Hn (Hst Hin)).
  - exfalso. apply Hst, Hun. discriminate.
  - destruct (Hst (Hun ltac:(discriminate))) as [w Hvw]. apply (Hgo a w); [exact Hvw|apply Hun; discriminate].
  - destruct (Hst (Hun ltac:(discriminate))) as [w Hvw]. apply (Hgo a w); [exact Hvw|apply Hun; discriminate].
Qed.
End Copy.
