(* ===== verification/UserLife.v ===== *)
(** * The address space of a program: its start and its end *)

From stdpp Require Import base numbers list gmap.
From S2P Require Import RustPrelude PhysMem PhysFrames PhysInit PhysProps PageTable PageWalk PageMem PageTableProps PageSpaces Slab SlabProps Vmem VmemSpace VmemSegs VmemRegions UserSpace UserInv UserOps.

Open Scope Z_scope.

Section Life.
Context (kpt : PageTableImpl) (other : Z -> Prop) (kstatic : Z).

Abbreviation kroot := (root_of kpt).
Abbreviation U := (user_space (root_of kpt)).
Abbreviation mm_inv := (mm_inv (user_space (root_of kpt)) (root_of kpt)).

(** ** Frames and tables come and go *)

(** The tables change within their frames. *)
Lemma mm_inv_entries P m D H k' : mm_inv P m D H -> pt_inv U kroot k' D None -> phys k' = phys (kmem m) -> mm_inv P (set_kmem k' m) D H.
Proof. intros [A [B1 B2] C E F G J] HI Hp. split; cbn [kmem set_kmem]; rewrite ?Hp; [done|by split|done..]. Qed.

(** A frame is taken by the kernel. *)
Lemma mm_inv_take P m D H k' p : mm_inv P m D H -> words k' = words (kmem m) -> ~ used (phys (kmem m)) p ->
  becomes (phys (kmem m)) (phys k') (fun x => used (phys (kmem m)) x \/ x = p) -> mm_inv (fun x => P x \/ x = p) (set_kmem k' m) D H.
Proof.
  intros [A [B1 B2] C E F G J] W Hnu (X1 & X2 & X3 & X4).
  destruct (pt_inv_phys U kroot (kmem m) k' D A W X1 X3) as (HI' & _); [intros g n Hg; apply X4; left; by eapply pi_used|].
  split; cbn [kmem set_kmem]; [done|by split|done| |done| |].
  - intros h f n Ho. destruct (E h f n Ho) as (? & ? & ?). split_and!; [done|by apply X4; left|done].
  - intros x [Hx| ->]%X4; [destruct (G x Hx) as [?|[?|?]]; by auto|by auto].
  - intros x [Hx| ->].
    + destruct (J x Hx) as (? & ? & ?). split_and!; [by apply X4; left|done|done].
    + split_and!; [by apply X4; right| |].
      * destruct (D !! p) eqn:Ep; [|done]. destruct Hnu. by eapply pi_used.
      * intros h f n Ho Ef. destruct (E h f n Ho) as (_ & Hu & _). by rewrite Ef in Hu.
Qed.

(** A frame of the kernel is given back. *)
Lemma mm_inv_give P m D H k' p : mm_inv P m D H -> P p -> words k' = words (kmem m) -> becomes (phys (kmem m)) (phys k') (fun x => used (phys (kmem m)) x /\ x <> p) ->
  mm_inv (fun x => P x /\ x <> p) (set_kmem k' m) D H.
Proof.
  intros [A [B1 B2] C E F G J] HP W (X1 & X2 & X3 & X4). destruct (J p HP) as (_ & Y2 & Y3).
  destruct (pt_inv_phys U kroot (kmem m) k' D A W X1 X3) as (HI' & _); [intros g n Hg; apply X4; split; [by eapply pi_used|intros ->; congruence]|].
  split; cbn [kmem set_kmem]; [done|by split|done| |done| |].
  - intros h f n Ho. destruct (E h f n Ho) as (? & ? & ?). split_and!; [done| |done]. apply X4. split; [done|]. by eapply Y3.
  - intros x [Hx Hne]%X4. destruct (G x Hx) as [?|[?|?]]; by auto.
  - intros x [Hx Hne]. destruct (J x Hx) as (? & ? & ?). split_and!; [by apply X4|done|done].
Qed.

(** A new table of level 4. *)
Lemma mm_inv_root P m D H k' r : mm_inv P m D H -> pt_inv U kroot k' (<[r := (r, 4%nat, 0)]> D) None -> ~ used (phys (kmem m)) r ->
  becomes (phys (kmem m)) (phys k') (fun x => used (phys (kmem m)) x \/ x = r) -> mm_inv P (set_kmem k' m) (<[r := (r, 4%nat, 0)]> D) H.
Proof.
  intros [A [B1 B2] C E F G J] HI Hnu (X1 & X2 & X3 & X4).
  assert (Hne : forall x, used (phys (kmem m)) x -> <[r := (r, 4%nat, 0)]> D !! x = D !! x) by (intros x Hx; rewrite lookup_insert_ne; [done|by intros ->]).
  split; cbn [kmem set_kmem]; [done|by split|done| |done| |].
  - intros h f n Ho. destruct (E h f n Ho) as (? & Hu & ?). split_and!; [done|by apply X4; left|]. by rewrite Hne.
  - intros x [Hx| ->]%X4; [|left; rewrite lookup_insert_eq; by eauto]. rewrite Hne by done. by apply G.
  - intros x Hx. destruct (J x Hx) as (Hu & ? & ?). split_and!; [by apply X4; left|by rewrite Hne|done].
Qed.

Lemma mm_inv_unroot P m D H k' r : mm_inv P m D H -> pt_inv U kroot k' (delete r D) None -> is_Some (D !! r) ->
  becomes (phys (kmem m)) (phys k') (fun x => used (phys (kmem m)) x /\ x <> r) -> mm_inv P (set_kmem k' m) (delete r D) H.
Proof.
  intros [A [B1 B2] C E F G J] HI [nd Hr] (X1 & X2 & X3 & X4). split; cbn [kmem set_kmem]; [done|by split|done| |done| |].
  - intros h f n Ho. destruct (E h f n Ho) as (? & Hu & HD). split_and!; [done| |by rewrite lookup_delete_None; right]. apply X4. split; [done|]. intros Ef. rewrite Ef in HD. congruence.
  - intros x [Hx Hne]%X4. rewrite lookup_delete_ne by done. by apply G.
  - intros x Hx. destruct (J x Hx) as (Hu & HD & ?). split_and!; [|by rewrite lookup_delete_None; right|done]. apply X4. split; [done|]. intros ->. congruence.
Qed.

(** ** The end *)

Section End_.
Context (r : Z).
Hypothesis Hprog : r <> kroot.

Abbreviation us_ok := (us_ok (user_space (root_of kpt)) (root_of kpt) r other kstatic).

Lemma kernel_entries k D : pt_inv U kroot k D None -> root D r -> root D kroot ->
  (forall i, foreign i = true -> exists v, 0 <= v < 2 ^ 48 /\ index 4 v = i /\ view k r v <> None) ->
  tables_ok kpt k D /\ forall i, 0 <= i < 512 -> foreign i = true -> entry k r i <> 0.
Proof.
  intros HI Hr Hk Hv. assert (He : forall i, 0 <= i < 512 -> foreign i = true -> entry k r i <> 0).
  { intros i Hi Hf E. destruct (Hv i Hf) as (v & Hv48 & <- & Hn). apply Hn. by apply walk_zero. }
  split; [|done]. split; [done|done|]. intros i Hi Hf. pose proof (pi_shape _ _ _ _ _ HI) as Hs.
  destruct (sh_entry _ _ _ _ _ Hs _ _ _ _ i Hr Hi) as [?|[(_ & [?|[? _]] & _)|(_ & f & [(_ & _ & Ho)|(_ & _ & _ & Hp & HD)])]].
  - by destruct (He i Hi Hf).
  - lia.
  - lia.
  - destruct (Ho eq_refl); congruence.
  - by exists f.
Qed.

(** The space without memory of the program: only the pages of the kernel are left. *)
Record emptied (s : Us) (D : gmap Z node) (H : list SlabArc) (P : Z -> Prop) (Q : Z -> Prop) : Prop := {
  em_inv : mm_inv P (us_mm s) D H;
  em_root : root D r /\ root D kroot;
  em_table : table_l4 (page_table (vb_base (us_vb s))) = OFF + r /\ userspace (page_table (vb_base (us_vb s))) = true;
  em_rest v : own_addr kroot r v -> ~ Q v -> view (us_k s) r v = None;
  em_kernel i : foreign i = true -> exists v, 0 <= v < 2 ^ 48 /\ index 4 v = i /\ view (us_k s) r v <> None
}.

(** The rest of the machine: the other programs and the kernel translate as before, and the objects in [H] hold the same data. *)
Record elsewhere (m m' : Mm) (D D' : gmap Z node) (H : list SlabArc) : Prop := {
  el_views r0 v : root D r0 -> r0 <> r -> 0 <= v < 2 ^ 48 -> view (kmem m') r0 v = view (kmem m) r0 v;
  el_roots r0 : root D r0 -> r0 <> r -> root D' r0;
  el_kept : kept m m' H
}.

Lemma elsewhere_trans m1 m2 m3 D1 D2 D3 H : elsewhere m1 m2 D1 D2 H -> elsewhere m2 m3 D2 D3 H -> elsewhere m1 m3 D1 D3 H.
Proof.
  intros [A1 B1 C1] [A2 B2 C2]. split; [|by auto|by eapply kept_trans]. intros r0 v Hr Hne Hv. rewrite A2; [by apply A1|by apply B1|done..].
Qed.

Lemma elsewhere_views m m' D D' H lo hi : views_step kroot r (kmem m) (kmem m') D D' lo hi -> kept m m' H -> elsewhere m m' D D' H.
Proof.
  intros [A _ _ B] K. split; [|intros r0 Hr _; by apply A|done]. intros r0 v Hr Hne Hv. apply B; [done|done|done|by left].
Qed.

Lemma clear_spec s D H : us_ok s D H ->
  wp (on_normal region_clear;;; on_custom region_clear;;; on_space pa_clear) s (fun _ s' => exists D', emptied s' D' H other in_static /\
    process_static_page_phys_addr s' = process_static_page_phys_addr s /\
    page_mapped U r (us_k s') KERNEL_STATIC_SHARED_PAGE_USER_VADDR kstatic false /\
    page_mapped U r (us_k s') PROCESS_STATIC_SHARED_PAGE_USER_VADDR (process_static_page_phys_addr s') false /\ elsewhere (us_mm s) (us_mm s') D D' H) (fun _ _ => False).
Proof.
  intros Hs. wp_step. apply wp_on_normal. eapply wp_mono; [apply (region_clear_spec U kroot r other Hprog (normal_of s) D _ _ (uo_normal _ _ _ _ _ _ _ _ Hs))| |done].
  intros _ t1 (D1 & Hr1 & Es1 & Ea1 & Eb1 & _ & Hp1 & _ & Hst1). cbn [rs_region rs_vb] in Hst1.
  destruct (normal_step _ _ _ _ _ s D H t1 D1 _ _ _ Hs Hr1 Hst1) with (max := max_memory s) (usage := total_usage s) as [Hs1 Hus1]; [by apply list_subseteq_app_r|apply Z.le_refl|apply Z.le_refl|].
  set (s1 := mkUs _ _ _ _ _ _) in *. wp_step. apply wp_on_custom.
  eapply wp_mono; [apply (region_clear_spec U kroot r other Hprog (custom_of s1) D1 _ _ (uo_custom _ _ _ _ _ _ _ _ Hs1))| |done].
  intros _ t2 (D2 & Hr2 & Es2 & Ea2 & Eb2 & _ & Hp2 & _ & Hst2). cbn [rs_region rs_vb] in Hst2.
  destruct (custom_step _ _ _ _ _ s1 D1 H t2 D2 _ _ _ Hs1 Hr2 Hst2) with (max := max_memory s1) (usage := total_usage s1) as [Hs2 Hus2]; [by apply list_subseteq_app_r|apply Z.le_refl|apply Z.le_refl|].
  set (s2 := mkUs (rs_vb t2) (normal_memory s1) (rs_region t2) (process_static_page_phys_addr s1) (max_memory s1) (total_usage s1)) in *. apply wp_on_space.
  assert (Hsegs : sm_segments (used_segments (normal_memory s2)) = [] /\ sm_segments (used_segments (custom_memory s2)) = [] /\ region_arcs (normal_memory s2) = [] /\ region_arcs (custom_memory s2) = []) by exact (conj Es1 (conj Es2 (conj Ea1 Ea2))).
  destruct Hsegs as (Z1 & Z2 & Z3 & Z4). pose proof (rg_inv _ _ _ _ _ _ _ _ (uo_normal _ _ _ _ _ _ _ _ Hs2)) as HM. cbn [rs_region rs_vb] in HM. rewrite Z3, Z4 in HM. cbn [app] in HM.
  assert (Hpu : pages_used (us_vb s2) = 0) by (change (us_vb s2) with (rs_vb t2); rewrite Hp2; cbn [s1 normal_memory]; rewrite Es1; done).
  eapply wp_mono; [apply (pa_clear_spec U kroot r other (us_vb s2) D2 H 0 0 HM (rg_pa _ _ _ _ _ _ _ _ (uo_normal _ _ _ _ _ _ _ _ Hs2)) Hpu)| |done].
  intros _ v3 (HM3 & [Hv3 Hk3 [Et3 _]] & Epa). pose proof (vw_here _ _ _ _ _ _ _ _ Hv3) as He. cbn [us_vb]. exists D2.
  destruct (us_root _ _ _ _ _ _ _ _ Hs2) as [Hroot Ht]. destruct (uo_static _ _ _ _ _ _ _ _ Hs2) as [S1 S2].
  assert (Hst : forall v, in_static v -> 0 <= v < 2 ^ 48) by (intros v ?%static_range; lia).
  split; [|split; [done|split; [|split]]].
  - split; cbn [us_vb]; [done|split; [done|apply Hs2]|rewrite Et3; split; [done|apply Hs2]| |].
    + intros v Ho Hns. rewrite He; [|apply Ho|lia].
      destruct (decide (start (vr_segment (normal_memory s2)) <= v < region_end (normal_memory s2))) as [Hn|Hn].
      { apply (rg_gaps _ _ _ _ _ _ _ _ (uo_normal _ _ _ _ _ _ _ _ Hs2)); [done|]. cbn [rs_region]. rewrite Z1. by intros n ?%elem_of_nil. }
      destruct (decide (start (vr_segment (custom_memory s2)) <= v < region_end (custom_memory s2))) as [Hc|Hc].
      { apply (rg_gaps _ _ _ _ _ _ _ _ (uo_custom _ _ _ _ _ _ _ _ Hs2)); [done|]. cbn [rs_region]. rewrite Z2. by intros n ?%elem_of_nil. }
      apply (uo_rest _ _ _ _ _ _ _ _ Hs2); [done|by intros [?|?]|done].
    + intros i Hi. destruct (uo_kernel _ _ _ _ _ _ _ _ Hs2 i Hi) as (v & Hv48 & Ei & Hvn). exists v. split; [done|]. split; [done|]. rewrite He; [done|done|lia].
  - intros v Hv. cbn [us_vb]. rewrite He; [by apply S1|apply Hst; by left|lia].
  - intros v Hv. cbn [us_vb]. rewrite He; [by apply S2|apply Hst; by right|lia].
  - destruct Hus1 as [V1 K1 _], Hus2 as [V2 K2 _]. eapply elsewhere_trans; [eapply elsewhere_views; [exact V1|exact K1]|].
    eapply elsewhere_trans; [eapply elsewhere_views; [exact V2|exact K2]|]. eapply elsewhere_views; [exact Hv3|exact Hk3].
Qed.

(** A page of the kernel is unmapped. *)
Lemma unmap_static_spec s D H P Q pt f virt_addr w : emptied s D H P Q -> pt = page_table (vb_base (us_vb s)) -> addr_ok f -> page_place kroot r virt_addr ->
  page_mapped U r (us_k s) virt_addr f w -> (forall v, virt_addr <= v < virt_addr + 4096 -> v < 2 ^ 46 - 2 ^ 39) ->
  wp (on_memory (impl_unmap_page pt f virt_addr SmallPage)) s (fun _ s' => exists D', emptied s' D' H P (fun v => Q v /\ ~ (virt_addr <= v < virt_addr + 4096)) /\
    page_table (vb_base (us_vb s')) = pt /\ process_static_page_phys_addr s' = process_static_page_phys_addr s /\
    (forall v, 0 <= v < 2 ^ 48 -> ~ (virt_addr <= v < virt_addr + 4096) -> view (us_k s') r v = view (us_k s) r v) /\
    elsewhere (us_mm s) (us_mm s') D D' H) (fun _ _ => False).
Proof.
  intros [HM [Hr Hk] [Ht Hus] Hrest Hker] -> Hf Hpl Hm Hlow. unfold on_memory. apply wp_on_space.
  eapply wp_mono; [exact (space_unmap_spec U kroot r P (us_vb s) D H f w virt_addr HM Hr Hprog Ht Hf Hpl Hm)| |done].
  intros _ v' (D' & HM' & Hb & Hst & _ & Hun). exists D'. cbn [us_vb process_static_page_phys_addr]. pose proof (vw_here _ _ _ _ _ _ _ _ (ss_views _ _ _ _ _ _ _ _ _ Hst)) as He.
  pose proof (vw_roots _ _ _ _ _ _ _ _ (ss_views _ _ _ _ _ _ _ _ _ Hst)) as Hroots.
  assert (Hel : elsewhere (us_mm s) (vb_mm v') D D' H) by (eapply elsewhere_views; [apply Hst|apply Hst]). split; [|by rewrite Hb].
  split; cbn [us_vb]; [done|by rewrite !Hroots|by rewrite Hb| |].
  - intros v Ho Hn. destruct (decide (virt_addr <= v < virt_addr + 4096)) as [Hin|Hno]; [by apply Hun|]. rewrite He; [|apply Ho|done]. apply Hrest; [done|]. intros HQ. by apply Hn.
  - intros i Hi. destruct (Hker i Hi) as (v & Hv48 & Ei & Hvn). exists v. split; [done|]. split; [done|]. rewrite He; [done|done|]. intros Hin. pose proof (Hlow v Hin).
    rewrite <- Ei in Hi. pose proof (kernel_high v Hv48 Hi). lia.
Qed.

Lemma static_place v : in_static v -> own_addr kroot r v.
Proof.
  intros Hv%static_range. split; [lia|]. intros _. right. apply not_true_iff_false. intros Hf. assert (H48 : 0 <= v < 2 ^ 48) by lia. pose proof (kernel_high v H48 Hf). lia.
Qed.

(** The last steps: no page is left. *)
Lemma drop_tables_spec s D H P Q pt p : emptied s D H P Q -> pt = page_table (vb_base (us_vb s)) -> P p -> (forall v, ~ Q v) ->
  wp (on_memory (phys_deallocate_frameless p SmallPage);;; on_memory (unmap_kernel_from_user pt);;; on_memory (drop_page_table pt)) s
    (fun _ s' => exists D', mm_inv (fun x => P x /\ x <> p) (us_mm s') D' H /\ D' !! r = None /\ elsewhere (us_mm s) (us_mm s') D D' H) (fun _ _ => False).
Proof.
  intros [HM [Hr Hk] [Ht Hus] Hrest Hker] -> HP HQ. destruct (mi_other _ _ _ _ _ _ HM _ HP) as (Hu & _).
  pose proof (mi_tables _ _ _ _ _ _ HM) as HI. unfold on_memory. wp_step. apply wp_on_space, wp_on_mm, wp_on_kmem. apply wp_free_frame; [apply HI|done|]. intros k1 Hb1 W1 _.
  pose proof (mm_inv_give _ _ _ _ k1 p HM HP W1 Hb1) as HM1. pose proof (mi_tables _ _ _ _ _ _ HM1) as HI1. cbn [kmem set_kmem] in HI1.
  assert (Hv1 : forall v, view k1 r v = view (us_k s) r v) by (intros; apply walk_ext; intros; unfold entry, word; by rewrite W1).
  destruct (kernel_entries k1 D HI1 Hr Hk) as [HT1 He1]. { intros i Hi. destruct (Hker i Hi) as (v & ? & ? & ?). exists v. by rewrite Hv1. }
  assert (Ert : root_of (page_table (vb_base (us_vb s))) = r) by (unfold root_of; rewrite Ht; lia).
  wp_step. apply wp_on_space, wp_on_mm, wp_on_kmem. cbn [us_vb vb_mm kmem set_kmem].
  eapply wp_mono; [apply (unmap_kernel_spec kpt (page_table (vb_base (us_vb s))) k1 D HT1); rewrite Ert; done| |done]. rewrite Ert.
  intros _ k2 (HT2 & P2 & En2 & V2 & W2). pose proof (mm_inv_entries _ _ _ _ k2 HM1 (to_inv _ _ _ HT2) P2) as HM2.
  assert (Hnone : forall v, 0 <= v < 2 ^ 48 -> view k2 r v = None).
  { intros v Hv. destruct (foreign (index 4 v)) eqn:Ef.
    - apply walk_zero. rewrite En2; [|by eexists|apply index_range]. by rewrite decide_True, Ef by done.
    - assert (Ho : own_addr kroot r v) by (split; [done|by right]). rewrite V2, Hv1 by (done || by right). by apply Hrest. }
  apply wp_on_space, wp_on_mm, wp_on_kmem. cbn [us_vb vb_mm kmem set_kmem].
  eapply wp_mono; [apply (drop_table_spec U kroot _ k2 D r Ht Hus (to_inv _ _ _ HT2) Hr Hprog Hnone)| |done].
  intros _ k3 (HI3 & W3 & Hb3). exists (delete r D). cbn [us_vb vb_mm].
  split; [apply (mm_inv_unroot _ (set_kmem k2 (set_kmem k1 (us_mm s))) D H k3 r HM2 HI3); [by eexists|done]|]. split; [apply lookup_delete_eq|].
  assert (Hw : forall k k', words k' = words k -> forall r0 v, view k' r0 v = view k r0 v) by (intros k k' W; intros; apply walk_ext; intros; unfold entry, word; by rewrite W).
  split.
  - intros r0 v Hr0 Hne Hv. cbn [kmem set_kmem]. rewrite (Hw k2 k3) by done. rewrite V2; [by apply Hw|done|done|by left].
  - intros r0 Hr0 Hne. unfold root. by rewrite lookup_delete_ne.
  - assert (K2 : kept (set_kmem k1 (us_mm s)) (set_kmem k2 (set_kmem k1 (us_mm s))) H).
    { apply (kept_tables U kroot _ _ _ D D H H HM1 HM2); [intros x; by rewrite P2|]. intros h f a _ _ _ Ho _. apply W2, Ho. by eexists. }
    intros h f Hin Hf. destruct (K2 h f Hin Hf) as [Hf2 E]. split; [exact Hf2|]. intros a Ha. cbn [kmem set_kmem] in *. unfold word in *. rewrite W3, E by done. by rewrite W1.
Qed.

(** What is left of the space at the end: its tables are gone, and so is the page of the process. *)
Lemma base_drop_spec s D H : us_ok s D H ->
  wp (base_drop kstatic) s (fun _ s' => exists D', mm_inv (fun x => other x /\ x <> process_static_page_phys_addr s) (us_mm s') D' H /\ D' !! r = None /\
    elsewhere (us_mm s) (us_mm s') D D' H) (fun _ _ => False).
Proof.
  intros Hs. unfold base_drop. destruct (uo_frames _ _ _ _ _ _ _ _ Hs) as [Hks Hoth].
  pose proof (clear_spec s D H Hs) as Hclear. wp_step. apply wp_bind_inv in Hclear. eapply wp_mono; [exact Hclear| |done]. intros [] s0 Hc0.
  wp_step. apply wp_bind_inv in Hc0. eapply wp_mono; [exact Hc0| |done]. intros [] s00 Hc00. wp_step. eapply wp_mono; [exact Hc00| |done].
  intros _ s1 (D1 & He1 & Esp & M1 & M2 & L1). unfold space_pt. wp_steps.
  eapply wp_mono; [apply (unmap_static_spec s1 D1 H other in_static _ kstatic KERNEL_STATIC_SHARED_PAGE_USER_VADDR false He1 eq_refl Hks); [|done|]| |done].
  { split; [done|]. intros v Hv. apply static_place. by left. }
  { intros v Hv. apply (static_range v (or_introl Hv)). }
  intros _ s2 (D2 & He2 & Ept2 & Esp2 & Hv2 & L2). unfold set_static_page. wp_steps. set (s3 := mkUs _ _ _ 0 _ _).
  assert (He3 : emptied s3 D2 H other (fun v => in_static v /\ ~ (KERNEL_STATIC_SHARED_PAGE_USER_VADDR <= v < KERNEL_STATIC_SHARED_PAGE_USER_VADDR + 4096))) by (destruct He2; by split).
  rewrite Esp2. assert (Hpa : addr_ok (process_static_page_phys_addr s1)).
  { rewrite Esp. destruct (mi_other _ _ _ _ _ _ (em_inv _ _ _ _ _ He1) _ Hoth) as (Hu & _). pose proof (mi_tables _ _ _ _ _ _ (em_inv _ _ _ _ _ He1)) as HI.
    eapply used_addr; [apply HI|apply HI|done]. }
  eapply wp_mono; [apply (unmap_static_spec s3 D2 H other _ _ (process_static_page_phys_addr s1) PROCESS_STATIC_SHARED_PAGE_USER_VADDR false He3); [by rewrite <- Ept2|done| | |]| |done].
  { split; [done|]. intros v Hv. apply static_place. by right. }
  { intros v Hv. pose proof (static_range v (or_intror Hv)). change (us_k s3) with (us_k s2). rewrite Hv2; [by apply M2|lia|].
    clear - Hv. change PROCESS_STATIC_SHARED_PAGE_USER_VADDR with (2 ^ 46 - 2 ^ 39 - 2 ^ 22) in Hv. change KERNEL_STATIC_SHARED_PAGE_USER_VADDR with (2 ^ 46 - 2 ^ 39 - 2 ^ 21). lia. }
  { intros v Hv. apply (static_range v (or_intror Hv)). }
  intros _ s4 (D4 & He4 & Ept4 & _ & _ & L4). rewrite Esp. clear Hclear Hc0 Hc00.
  eapply wp_mono; [apply (drop_tables_spec s4 D4 H _ _ _ _ He4); [by rewrite Ept4|exact Hoth|]| |done].
  { unfold in_static. intros v [[[?|?] ?] ?]; done. }
  intros _ s5 (D5 & HM5 & HD5 & L5). exists D5. split; [exact HM5|]. split; [exact HD5|].
  eapply elsewhere_trans; [exact L1|]. eapply elsewhere_trans; [exact L2|]. eapply elsewhere_trans; [exact L4|exact L5].
Qed.

(** ** The start *)

(** A page of the kernel is mapped. *)
Lemma map_static_spec s D H P Q pt f virt_addr options n : emptied s D H P Q -> pt = page_table (vb_base (us_vb s)) -> addr_ok f -> page_place kroot r virt_addr ->
  options_ok U r options -> page_unmapped r (us_k s) virt_addr -> free_frames (us_k s) (n + 3) -> (forall v, virt_addr <= v < virt_addr + 4096 -> v < 2 ^ 46 - 2 ^ 39) ->
  zeroes options = false \/ P f ->
  wp (on_memory (map_page pt f virt_addr SmallPage options)) s (fun _ s' => exists D' vb, s' = mkUs vb (normal_memory s) (custom_memory s) (process_static_page_phys_addr s) (max_memory s) (total_usage s) /\
    vb_base vb = vb_base (us_vb s) /\ emptied s' D' H P (fun v => Q v \/ virt_addr <= v < virt_addr + 4096) /\ free_frames (us_k s') n /\
    page_mapped U r (us_k s') virt_addr f (has options WRITABLE) /\
    (forall v, 0 <= v < 2 ^ 48 -> ~ (virt_addr <= v < virt_addr + 4096) -> view (us_k s') r v = view (us_k s) r v) /\
    elsewhere (us_mm s) (us_mm s') D D' H) (fun _ _ => False).
Proof.
  intros [HM [Hr Hk] [Ht Hus] Hrest Hker] -> Hf Hpl (Hu8 & HU & flags & Hfl) Hun Hfr Hlow Hz. pose proof (mi_tables _ _ _ _ _ _ HM) as HI.
  destruct (final_flags_fit SmallPage options flags ltac:(done) Hu8 Hfl) as (_ & F2 & F1).
  unfold on_memory. apply wp_on_space, wp_on_mm, wp_on_kmem.
  eapply wp_mono; [eapply (map_page_spec U kroot (page_table (vb_base (us_vb s))) (us_k s) D r SmallPage f virt_addr options flags n); try done| |done].
  - by apply place_args.
  - intros v Hv Hin. apply Hun. by apply inside_small.
  - destruct Hz as [Hz|Hz]; [by left|right]. destruct (mi_other _ _ _ _ _ _ HM _ Hz) as (Hu & HD & _). intros g Hg. destruct (decide (g = f)) as [->|Hne]; [by right; right|].
    change (2 ^ shift (level_of SmallPage)) with 4096. destruct Hf as [_ Hfa]. pose proof (frame_aligned _ g (pi_phys _ _ _ _ _ HI) Hg). dlia.
  - intros _ k' (D' & HI' & Hfr' & Hme & M1 & M2). eexists D', _. split; [reflexivity|]. cbn [us_vb vb_mm vb_base kmem set_kmem].
    assert (HM' : mm_inv P (set_kmem k' (us_mm s)) D' H).
    { eapply mm_inv_grown; [exact HM|done|intros g; apply (me_new _ _ _ _ _ _ _ Hme)|apply Hme|apply Hme]. }
    assert (Hv : views_step kroot r (us_k s) k' D D' virt_addr (virt_addr + 4096)).
    { split; [intros r0; split; [apply Hme|apply Hme]|apply Hme| |done]. intros v Hv Hn. rewrite M1 by done. destruct (inside _ _ v) eqn:E; [|done]. by apply inside_small in E. }
    pose proof (vw_here _ _ _ _ _ _ _ _ Hv) as He. pose proof (vw_roots _ _ _ _ _ _ _ _ Hv) as Hroots.
    assert (Hmap : page_mapped U r k' virt_addr f (has options WRITABLE)).
    { intros v Hin. rewrite M1 by apply Hpl, Hin. change (level_of SmallPage) with 1%nat. rewrite (proj2 (inside_small _ _) Hin), F2, F1, <- HU. done. }
    split; [done|]. split; [|split; [done|split; [done|split; [done|]]]].
    + split; cbn [us_vb vb_mm]; [done|by rewrite !Hroots|done| |].
      * intros v Ho Hn. cbn [kmem set_kmem]. rewrite He; [apply Hrest; [done|]|apply Ho|]; intros ?; apply Hn; by auto.
      * intros i Hi. destruct (Hker i Hi) as (v & Hv48 & Ei & Hvn). exists v. split; [done|]. split; [done|]. cbn [kmem set_kmem]. rewrite He; [done|done|]. intros Hin. pose proof (Hlow v Hin).
        rewrite <- Ei in Hi. pose proof (kernel_high v Hv48 Hi). lia.
    + eapply elsewhere_views; [exact Hv|]. apply (kept_tables U kroot _ _ _ D D' H H HM HM'); [apply Hme|]. intros h f' a Hin Hf' Ha _ Ho'. apply (me_words _ _ _ _ _ _ _ Hme); [done|].
      destruct Hz as [Hz|Hz]; [by left|right]. destruct (mi_other _ _ _ _ _ _ HM _ Hz) as (Hu & _ & Hno). change (2 ^ shift (level_of SmallPage)) with 4096.
      eapply (data_off U kroot P (us_mm s)); [exact HM|exact Hf'|by eapply used_addr; [apply HI|apply HI|]| |done]. destruct Hf' as [n' Ho2]. intros ->. by eapply Hno.
Qed.
End End_.

(** The kernel maps memory under the entries of level 4 that programs share. *)
Definition kernel_maps (k : Kmem) : Prop := forall i, foreign i = true -> exists v, 0 <= v < 2 ^ 48 /\ index 4 v = i /\ view k kroot v <> None.

(** A new table with nothing but the kernel in it. *)
Lemma base_new_spec m D H max n : mm_inv other m D H -> tables_ok kpt (kmem m) D -> kernel_maps (kmem m) -> free_frames (kmem m) (S n) ->
  wp (base_new max) m (fun s m' => exists r, us_mm s = m' /\ r <> kroot /\ D !! r = None /\ process_static_page_phys_addr s = 0 /\ max_memory s = max /\ total_usage s = 0 /\
    normal_memory s = VmemRegion_new (mkSeg 0 VMEM_USER_END) /\
    custom_memory s = VmemRegion_new (mkSeg CUSTOM_USERSPACE_REGION_START (CUSTOM_USERSPACE_REGION_END - CUSTOM_USERSPACE_REGION_START)) /\
    vb_base (us_vb s) = mkBase (mkPT (OFF + r) true false) pa_default 0 /\ tables_ok kpt (us_k s) (<[r := (r, 4%nat, 0)]> D) /\
    mm_inv other (us_mm s) (<[r := (r, 4%nat, 0)]> D) H /\ kernel_maps (us_k s) /\ free_frames (us_k s) n /\ (forall v, view (us_k s) r v = None) /\
    elsewhere r m (us_mm s) D (<[r := (r, 4%nat, 0)]> D) H) (fun _ _ => False).
Proof.
  intros HM HT Hker Hfr. pose proof (mi_tables _ _ _ _ _ _ HM) as HI. unfold base_new. wp_step. apply wp_on_kmem.
  eapply wp_mono; [apply (new_table_spec U kroot (kmem m) D HI)| |].
  2:{ intros e k' (_ & _ & _ & Hall). destruct (free_frames_one _ _ Hfr) as (x & H1 & H2 & H3). by apply H3, Hall. }
  intros pt k1 (r & -> & HDr & Hru & HI1 & Hsv & Hvn & Hb & Hw1). wp_steps. exists r. cbn [us_vb vb_mm vb_base kmem set_kmem].
  pose proof (mm_inv_root other m D H k1 r HM HI1 Hru Hb) as HM1. set (D1 := <[r := (r, 4%nat, 0)]> D) in *.
  assert (Hsub : forall f n, D !! f = Some n -> D1 !! f = Some n) by (intros f nd Hf; unfold D1; rewrite lookup_insert_ne; [done|]; intros <-; congruence).
  assert (Hkr : r <> kroot) by (intros ->; pose proof (to_kroot _ _ _ HT); unfold root in *; congruence).
  split; [done|]. split; [done|]. split; [done|]. do 6 (split; [done|]).
  split; [|split; [done|split; [|split; [by destruct Hb as (_ & _ & B3 & B4); eapply free_frames_take|split; [done|]]]]].
  - split; [done|apply Hsub, HT|]. intros i Hi Hf. destruct (to_shared _ _ _ HT i Hi Hf) as (f & Hf'). exists f. by apply Hsub.
  - intros i Hi. destruct (Hker i Hi) as (v & ? & ? & ?). exists v. rewrite Hsv; [done|apply HT|done].
  - split; [intros r0 v Hr0 _ Hv; by apply Hsv|intros r0 Hr0 _; by apply Hsub|].
    apply (kept_tables U kroot other m k1 D D1 H H HM HM1); [apply Hb|]. intros h f a _ _ _ _ Ho. apply Hw1, Ho. unfold D1. rewrite lookup_insert_eq. by eexists.
Qed.

(** The kernel is mapped into the new space. *)
Lemma kernel_in s D H r : mm_inv other (us_mm s) D H -> tables_ok kpt (us_k s) D -> kernel_maps (us_k s) -> root D r -> r <> kroot ->
  table_l4 (page_table (vb_base (us_vb s))) = OFF + r -> userspace (page_table (vb_base (us_vb s))) = true -> (forall v, view (us_k s) r v = None) ->
  wp (on_memory (map_kernel_to_user (page_table (vb_base (us_vb s))) kpt)) s (fun _ s' => exists vb,
    s' = mkUs vb (normal_memory s) (custom_memory s) (process_static_page_phys_addr s) (max_memory s) (total_usage s) /\
    vb_base vb = vb_base (us_vb s) /\ phys (us_k s') = phys (us_k s) /\ emptied r s' D H other (fun _ => False) /\ elsewhere r (us_mm s) (us_mm s') D D H) (fun _ _ => False).
Proof.
  intros HM HT Hker Hr Hkr Ht Hus Hvn. assert (Ert : root_of (page_table (vb_base (us_vb s))) = r) by (unfold root_of; rewrite Ht; lia).
  assert (Hz : forall i, 0 <= i < 512 -> entry (us_k s) r i = 0) by (intros i Hi; eapply unmapped_root; [apply HT|done|done|]; intros v _; apply Hvn).
  unfold on_memory. apply wp_on_space, wp_on_mm, wp_on_kmem.
  eapply wp_mono; [apply (map_kernel_spec kpt (page_table (vb_base (us_vb s))) (us_k s) D HT); rewrite Ert; done| |done]. rewrite Ert.
  intros _ k2 (HT2 & P2 & W2 & K2 & V2). eexists. split; [reflexivity|]. cbn [us_vb vb_mm vb_base kmem set_kmem].
  pose proof (mm_inv_entries other _ _ _ k2 HM (to_inv _ _ _ HT2) P2) as HM2. split; [done|]. split; [done|].
  assert (Hkv : forall v, 0 <= v < 2 ^ 48 -> view k2 kroot v = view (us_k s) kroot v) by (intros v Hv; apply V2; [apply HT|done|by left]).
  split.
  - split; cbn [us_vb vb_mm kmem set_kmem]; [done|by split; [|apply HT]|done| |].
    + intros v Ho _. rewrite V2; [apply Hvn|done|apply Ho|by right].
    + intros i Hi. destruct (Hker i Hi) as (v & Hv & Ei & Hn). exists v. split; [done|]. split; [done|].
      rewrite (kernel_view kpt k2 D r v HT2 Hr Hkr Hv); [by rewrite Hkv|by rewrite Ei|]. apply K2; [done|apply index_range|by rewrite Ei|by left].
  - split; [intros r0 v Hr0 Hne Hv; apply V2; [done|done|by left]|done|].
    apply (kept_tables U kroot other _ _ D D H H HM HM2); [intros x; by rewrite P2|]. intros h f a _ _ _ Ho _. apply W2, Ho. by eexists.
Qed.

Lemma emptied_same s s' D H r P Q : us_vb s' = us_vb s -> emptied r s D H P Q -> emptied r s' D H P Q.
Proof. intros E [A B C F G]. split; rewrite ?E; done. Qed.

(** A region without segments. *)
Lemma new_region_ok P vb D H r seg : mm_inv P (vb_mm vb) D H -> root D r -> table_l4 (page_table (vb_base vb)) = OFF + r -> page_allocator (vb_base vb) = pa_default ->
  0 <= start seg -> start seg mod 4096 = 0 -> size seg mod 4096 = 0 -> 0 <= size seg ->
  (forall v, own_addr kroot r v -> ~ in_static v -> view (kmem (vb_mm vb)) r v = None) -> start seg + size seg <= 2 ^ 46 - 2 ^ 39 - 2 ^ 23 ->
  region_ok U kroot r P (mkRs vb (VmemRegion_new seg)) D H 0.
Proof.
  intros HM Hr Ht Hpa H0 H1 H2 H4 Hv H5. assert (Hown : forall v, start seg <= v < start seg + size seg -> own_addr kroot r v).
  { intros v Hvr. split; [lia|]. intros _. right. apply not_true_iff_false. intros Hf. assert (H48 : 0 <= v < 2 ^ 48) by lia. pose proof (kernel_high v H48 Hf). lia. }
  split; cbn [rs_vb rs_region].
  - unfold pa_arcs. rewrite Hpa. exact HM.
  - done.
  - done.
  - split; [done|done| |cbn; lia]. cbn. lia.
  - intros v Hvr. by apply Hown.
  - apply Forall_nil_2.
  - intros v Hvr _. apply Hv; [by apply Hown|]. intros ?%static_range. unfold region_end in Hvr. cbn in Hvr. lia.
  - done.
  - unfold pa_ok. by rewrite Hpa.
  - unfold pages_used. by rewrite Hpa.
  - done.
Qed.

Abbreviation new_normal := (VmemRegion_new (mkSeg 0 VMEM_USER_END)).
Abbreviation new_custom := (VmemRegion_new (mkSeg CUSTOM_USERSPACE_REGION_START (CUSTOM_USERSPACE_REGION_END - CUSTOM_USERSPACE_REGION_START))).

(** A space in which only the pages of the kernel are mapped is in order. *)
Lemma started_ok s D H r P Q : emptied r s D H P Q -> (forall v, Q v -> in_static v) -> page_allocator (vb_base (us_vb s)) = pa_default ->
  normal_memory s = new_normal -> custom_memory s = new_custom -> addr_ok kstatic -> P (process_static_page_phys_addr s) ->
  page_mapped U r (us_k s) KERNEL_STATIC_SHARED_PAGE_USER_VADDR kstatic false ->
  page_mapped U r (us_k s) PROCESS_STATIC_SHARED_PAGE_USER_VADDR (process_static_page_phys_addr s) false -> us_ok U kroot r P kstatic s D H.
Proof.
  intros [HM [Hr Hk] [Ht Hus] Hrest Hker] HQ Hpa En Ec Hks HP M1 M2.
  assert (Hv : forall v, own_addr kroot r v -> ~ in_static v -> view (us_k s) r v = None) by (intros v Ho Hns; apply Hrest; [done|by intros ?%HQ]).
  split; rewrite ?En, ?Ec; [| | |done|done|by intros v Ho _ Hns; apply Hv|done|done|done].
  - apply (new_region_ok P (us_vb s) D H r); done.
  - apply (new_region_ok P (us_vb s) D H r); done.
  - done.
Qed.

(** The page of the process is allocated. *)
Lemma static_page_spec s D H r P Q n : emptied r s D H P Q -> free_frames (us_k s) (S n) ->
  wp (on_memory (unwrap (phys_allocate_frameless SmallPage))) s (fun p s' => exists vb,
    s' = mkUs vb (normal_memory s) (custom_memory s) (process_static_page_phys_addr s) (max_memory s) (total_usage s) /\ vb_base vb = vb_base (us_vb s) /\
    addr_ok p /\ emptied r s' D H (fun x => P x \/ x = p) Q /\ free_frames (us_k s') n /\ words (us_k s') = words (us_k s) /\
    elsewhere r (us_mm s) (us_mm s') D D H) (fun _ _ => False).
Proof.
  intros [HM Hr Ht Hrest Hker] Hfr. pose proof (mi_tables _ _ _ _ _ _ HM) as HI. unfold on_memory. apply wp_on_space, wp_on_mm, wp_on_kmem.
  apply (wp_alloc_frame (us_k s) n); [apply HI|done|]. intros p k' Hp Hp0 Hnu Hb W F. eexists. split; [reflexivity|]. cbn [us_vb vb_mm vb_base kmem set_kmem].
  pose proof (mm_inv_take P _ _ _ k' p HM W Hnu Hb) as HM'. destruct Hb as (B1 & _ & B3 & B4).
  assert (Hv : forall r0 v, view k' r0 v = view (us_k s) r0 v) by (intros; apply walk_ext; intros; unfold entry, word; by rewrite W).
  split; [done|]. split; [eapply used_addr; [exact B1|intros x Hx; apply (pi_limit _ _ _ _ _ HI); by apply B3|apply B4; by right]|].
  split; [|split; [by eapply free_frames_take|split; [done|]]].
  - split; cbn [us_vb vb_mm kmem set_kmem]; [done|done|done|intros v Ho Hn; rewrite Hv; by apply Hrest|].
    intros i Hi. destruct (Hker i Hi) as (v & ? & ? & ?). exists v. by rewrite Hv.
  - split; [intros; apply Hv|done|]. intros h f _ Hf. split; [done|]. intros a _. unfold word. cbn [kmem set_kmem]. by rewrite W.
Qed.

Lemma static_page_place r va : va = KERNEL_STATIC_SHARED_PAGE_USER_VADDR \/ va = PROCESS_STATIC_SHARED_PAGE_USER_VADDR ->
  page_place kroot r va /\ (forall v, va <= v < va + 4096 -> in_static v /\ v < 2 ^ 46 - 2 ^ 39).
Proof.
  intros Hva. assert (Hin : forall v, va <= v < va + 4096 -> in_static v) by (intros v Hv; destruct Hva as [->| ->]; [by left|by right]).
  split; [split; [by destruct Hva as [->| ->]|]|]; intros v Hv; [by apply static_place, Hin|]. pose proof (static_range v (Hin v Hv)). split; [by apply Hin|lia].
Qed.

(** The kernel, its page and the page of the process are mapped into a new space. *)
Lemma base_init_spec s D H r n : mm_inv other (us_mm s) D H -> tables_ok kpt (us_k s) D -> kernel_maps (us_k s) -> root D r -> r <> kroot ->
  vb_base (us_vb s) = mkBase (mkPT (OFF + r) true false) pa_default 0 -> (forall v, view (us_k s) r v = None) ->
  normal_memory s = new_normal -> custom_memory s = new_custom -> addr_ok kstatic -> free_frames (us_k s) (n + 7) ->
  wp (base_init kstatic kpt) s (fun _ s' => exists D', us_ok U kroot r (fun x => other x \/ x = process_static_page_phys_addr s') kstatic s' D' H /\
    free_frames (us_k s') n /\ elsewhere r (us_mm s) (us_mm s') D D' H /\ normal_memory s' = new_normal /\ custom_memory s' = new_custom /\
    max_memory s' = max_memory s /\ total_usage s' = total_usage s) (fun _ _ => False).
Proof.
  intros HM HT Hker Hr Hkr Eb Hvn En Ec Hks Hfr. unfold base_init, space_pt. wp_steps.
  eapply wp_mono; [apply (kernel_in s D H r HM HT Hker Hr Hkr); [by rewrite Eb|by rewrite Eb|done]| |done].
  intros _ s1 (vb1 & -> & Eb1 & P1 & He1 & L1). set (s1 := mkUs vb1 _ _ _ _ _) in *. set (pt := page_table (vb_base (us_vb s))).
  assert (HU : U r = true) by (apply negb_true_iff; by apply Z.eqb_neq).
  assert (Hop : forall v, in_static v -> view (us_k s1) r v = None) by (intros v Hv; apply (em_rest _ _ _ _ _ _ He1); [by apply static_place|by intros []]).
  destruct (static_page_place r KERNEL_STATIC_SHARED_PAGE_USER_VADDR) as [Hp1 Hi1]; [by left|].
  destruct (static_page_place r PROCESS_STATIC_SHARED_PAGE_USER_VADDR) as [Hp2 Hi2]; [by right|].
  wp_step. eapply wp_mono; [apply (map_static_spec r Hkr s1 D H other (fun _ => False) pt kstatic KERNEL_STATIC_SHARED_PAGE_USER_VADDR _ (n + 4) He1); [cbn [s1 us_vb]; by rewrite Eb1|done|done| |intros v Hv; by apply Hop, Hi1| |intros v Hv; by apply Hi1|by left]| |done].
  { split; [done|]. split; [by rewrite HU|by eexists]. }
  { unfold free_frames in *. change (us_k s1) with (kmem (vb_mm vb1)) in *. cbn [us_vb] in P1. rewrite P1. by replace (n + 4 + 3)%nat with (n + 7)%nat by lia. }
  intros _ s2 (D2 & vb2 & -> & Eb2 & He2 & Hf2 & M2 & V2 & L2). set (s2 := mkUs vb2 _ _ _ _ _) in *.
  wp_step. eapply wp_mono; [apply (static_page_spec s2 D2 H r other _ (n + 3) He2); by replace (S (n + 3)) with (n + 4)%nat by lia| |done].
  intros p s3 (vb3 & -> & Eb3 & Hpa & He3 & Hf3 & W3 & L3). set (s3 := mkUs vb3 _ _ _ _ _) in *.
  assert (V3 : forall v, view (us_k s3) r v = view (us_k s2) r v) by (intros; apply walk_ext; intros; unfold entry, word; by rewrite W3).
  wp_step. eapply wp_mono; [apply (map_static_spec r Hkr s3 D2 H _ _ pt p PROCESS_STATIC_SHARED_PAGE_USER_VADDR _ n He3); [cbn [s3 us_vb]; rewrite Eb3; cbn [s2 us_vb]; rewrite Eb2; cbn [s1 us_vb]; by rewrite Eb1|done|done| | |done|intros v Hv; by apply Hi2|by right; right]| |done].
  { split; [done|]. split; [by rewrite HU|by eexists]. }
  { intros v Hv. rewrite V3, V2; [by apply Hop, Hi2|apply Hp2, Hv|]. clear - Hv. change PROCESS_STATIC_SHARED_PAGE_USER_VADDR with (2 ^ 46 - 2 ^ 39 - 2 ^ 22) in Hv. change KERNEL_STATIC_SHARED_PAGE_USER_VADDR with (2 ^ 46 - 2 ^ 39 - 2 ^ 21). lia. }
  intros _ s4 (D4 & vb4 & -> & Eb4 & He4 & Hf4 & M4 & V4 & L4). unfold set_static_page. wp_steps. exists D4. cbn [us_vb normal_memory custom_memory process_static_page_phys_addr max_memory total_usage].
  split; [|split; [done|split; [|by split_and!]]].
  - eapply (started_ok _ D4 H r); cbn [us_vb normal_memory custom_memory process_static_page_phys_addr].
    + eapply emptied_same; [|exact He4]. reflexivity.
    + intros v [[[]|Hv]|Hv]; [by apply Hi1|by apply Hi2].
    + rewrite Eb4. cbn [s3 us_vb]. rewrite Eb3. cbn [s2 us_vb]. rewrite Eb2. cbn [s1 us_vb]. by rewrite Eb1, Eb.
    + done.
    + done.
    + done.
    + by right.
    + intros v Hv. cbn [us_vb] in V4. rewrite V4, V3; [by apply M2|apply Hp1, Hv|].
      clear - Hv. change PROCESS_STATIC_SHARED_PAGE_USER_VADDR with (2 ^ 46 - 2 ^ 39 - 2 ^ 22). change KERNEL_STATIC_SHARED_PAGE_USER_VADDR with (2 ^ 46 - 2 ^ 39 - 2 ^ 21) in Hv. lia.
    + exact M4.
  - eapply elsewhere_trans; [exact L1|]. eapply elsewhere_trans; [exact L2|]. eapply elsewhere_trans; [exact L3|exact L4].
Qed.

(** A program's space after its start. *)
Lemma space_new_spec m D H max n : mm_inv other m D H -> tables_ok kpt (kmem m) D -> kernel_maps (kmem m) -> addr_ok kstatic -> free_frames (kmem m) (n + 8) ->
  wp (space_new kstatic kpt max) m (fun s m' => us_mm s = m' /\ exists D' r, r <> kroot /\ D !! r = None /\
    us_ok U kroot r (fun x => other x \/ x = process_static_page_phys_addr s) kstatic s D' H /\ free_frames (us_k s) n /\
    elsewhere r m (us_mm s) D D' H /\ max_memory s = max /\ total_usage s = 0 /\ us_bytes s = 0) (fun _ _ => False).
Proof.
  intros HM HT Hker Hks Hfr. unfold space_new. wp_step. eapply wp_mono; [apply (base_new_spec m D H max (n + 7)); [done|done|done|by replace (S (n + 7)) with (n + 8)%nat by lia]| |done].
  intros s m' (r & <- & Hkr & HDr & Esp & Emax & Eus & En & Ec & Eb & HT1 & HM1 & Hker1 & Hfr1 & Hvn & L1).
  pose proof (base_init_spec s _ H r n HM1 HT1 Hker1 (lookup_insert_eq _ _ _) Hkr Eb Hvn En Ec Hks Hfr1) as Hw. unfold wp in *. destruct (base_init kstatic kpt s) as [s' [a|e|]]; [|done|done].
  destruct Hw as (D' & Hok & Hfr' & L2 & En' & Ec' & Em' & Eu'). split; [done|]. exists D', r. rewrite Em', Eu'.
  split; [done|]. split; [done|]. split; [done|]. split; [done|]. split; [|split; [done|split; [done|]]].
  - by eapply elsewhere_trans.
  - unfold us_bytes. by rewrite En', Ec'.
Qed.
End Life.
