(* ===== verification/UserProps.v ===== *)
(** * The life of a program's memory

    A program's address space is created, used and dropped.  While it lives the kernel allocates memory for it, takes
    memory back, serves its page faults and copies to and from it; whatever the order, the space stays well-formed, no
    operation that is [allowed] panics, and nothing changes for other programs.  At the end every frame comes back. *)

From stdpp Require Import base numbers list gmap.
From S2P Require Import RustPrelude PhysMem PhysFrames PhysInit PhysProps PageTable PageWalk PageMem PageTableProps PageSpaces Slab SlabProps Vmem VmemSpace VmemSegs VmemRegions UserSpace UserInv UserOps UserCopy UserLife.

Open Scope Z_scope.

(** The options of the segments that programs ask for are implemented. *)
Lemma heap_options U r n : U r = true -> seg_options_ok U r RW_USER n /\ seg_options_ok U r (Z.lor RW_USER LAZY) n /\ seg_options_ok U r 0 n.
Proof.
  intros HU. assert (Hok : forall o, is_u8 o -> has o USER_ACCESSIBLE = true -> is_Some (final_flags SmallPage o) -> options_ok U r o).
  { intros o H1 H2 [fl H3]. split; [done|]. split; [by rewrite HU|by exists fl]. }
  assert (Hpg : forall o i, has o GUARD = false -> page_options o i n = o) by (intros o i Hg; unfold page_options; by rewrite Hg).
  split_and!; intros i Hi; rewrite Hpg by done; split; intros; try done; apply Hok; try done; by eexists.
Qed.

(** ** Operations *)

Inductive Op : Type :=
| AllocHeap (num_pages : nat)
| AllocLazy (num_pages : nat)
| AllocUnmapped (num_pages : nat)
| Unmap (addr : Z)
| PageFault (pf_addr error_code : Z)
| CopyToUser (bytes : list Z) (addr : Z)
| ReadFromUser (addr : Z) (count : nat).

Definition run_op (o : Op) : eff Us MemError unit :=
  match o with
  | AllocHeap k => alloc_user_heap (Z.of_nat k);;; ret tt
  | AllocLazy k => alloc_user_lazy (Z.of_nat k);;; ret tt
  | AllocUnmapped k => alloc_user_unmapped (Z.of_nat k);;; ret tt
  | Unmap addr => unmap addr
  | PageFault a e => us_fix_pagefault a e
  | CopyToUser bytes a => copy_to_user bytes a
  | ReadFromUser a count => read_from_user a count;;; ret tt
  end.

(** What an operation needs: there is physical memory left, an address to unmap inside a region is the start of a
    segment, and the addresses of copies are below 2^47. *)
Definition allowed (s : Us) (o : Op) : Prop :=
  match o with
  | AllocHeap k | AllocLazy k | AllocUnmapped k => (0 < k)%nat /\ Z.of_nat k <= 2 ^ 32 /\ enough (us_mm s) (1 + 5 * k)
  | Unmap addr => in_regions s addr -> exists n, node_of s n /\ node_start n = addr
  | PageFault _ e => is_u64 e /\ enough (us_mm s) 4
  | CopyToUser bytes a => Forall is_byte bytes /\ 0 <= a /\ a + Z.of_nat (length bytes) <= 2 ^ 47
  | ReadFromUser a count => 0 <= a /\ a + Z.of_nat count <= 2 ^ 47
  end.

Definition prog_root (s : Us) : Z := root_of (page_table (vb_base (us_vb s))).

Section Program.
Context (kpt : PageTableImpl) (kstatic : Z).

Abbreviation kroot := (root_of kpt).
Abbreviation U := (user_space (root_of kpt)).

(** The machine before the program starts: the frames in use are the tables in [D], those of the objects in [H], and
    those in [other]. *)
Record machine_ok (other : Z -> Prop) (m : Mm) (D : gmap Z node) (H : list SlabArc) : Prop := {
  mo_inv : mm_inv U kroot other m D H;
  mo_tables : tables_ok kpt (kmem m) D;
  mo_kernel : kernel_maps kpt (kmem m);
  mo_static : addr_ok kstatic
}.

(** The states of a program's space that starts in [m]. *)
Inductive lives (m : Mm) (max : Z) : Us -> Prop :=
| lives_new s m' : space_new kstatic kpt max m = (m', Ok s) -> lives m max s
| lives_op s o s' res : lives m max s -> allowed s o -> run_op o s = (s', res) -> lives m max s'.

(** One operation on the space of the program [r]. *)
Definition stepped (P : Z -> Prop) (r : Z) (s : Us) (D : gmap Z node) (H : list SlabArc) (s' : Us) : Prop := exists D', us_ok U kroot r P kstatic s' D' H /\ within s' /\
  max_memory s' = max_memory s /\ process_static_page_phys_addr s' = process_static_page_phys_addr s /\ (forall r0, root D r0 -> root D' r0) /\
  (forall r0 v, root D r0 -> r0 <> r -> 0 <= v < 2 ^ 48 -> view (us_k s') r0 v = view (us_k s) r0 v).

Lemma stepped_refl P r s D H : us_ok U kroot r P kstatic s D H -> within s -> stepped P r s D H s.
Proof. intros Hs Hw. by exists D. Qed.

Lemma stepped_us P r s D H s' D' lo hi : r <> kroot -> us_ok U kroot r P kstatic s' D' H -> within s' -> max_memory s' = max_memory s -> us_step kroot r s s' D D' H lo hi -> stepped P r s D H s'.
Proof.
  intros Hk Hs Hw Hm [[A _ _ B] _ Hst]. exists D'. split; [done|]. split; [done|]. split; [done|]. split; [done|].
  split; [intros r0; apply A|]. intros r0 v Hr0 Hne Hv. apply B; [done|done|done|by left].
Qed.

Lemma stepped_copy P r s D H s' : us_ok U kroot r P kstatic s' D H -> within s -> s' = with_kmem (us_k s') s -> same_view (us_k s) (us_k s') D -> stepped P r s D H s'.
Proof.
  intros Hs Hw E Hv. exists D. split; [done|]. split; [by rewrite E|]. split; [by rewrite E|]. split; [by rewrite E|]. split; [done|]. intros r0 v Hr0 _ Hv48. by apply Hv.
Qed.

Lemma alloc_stepped P r s D H k o n : r <> kroot -> us_ok U kroot r P kstatic s D H -> within s -> (0 < k)%nat -> Z.of_nat k <= 2 ^ 32 -> enough (us_mm s) (S n + 5 * k) ->
  seg_options_ok U r o (Z.of_nat k) -> wp (counted (Z.of_nat k) (on_normal (region_allocate_pages (Z.of_nat k) o));;; ret tt) s (fun _ => stepped P r s D H) (fun _ => stepped P r s D H).
Proof.
  intros Hk Hs Hw Hk0 Hk1 He Ho. wp_step. eapply wp_mono; [apply (alloc_spec U kroot r P kstatic s D H n k o Hs Hw Hk0); [lia|done|done]| |].
  - intros ms s' (D' & st & _ & Hs' & Hw' & _ & Hst & _ & (_ & _ & _ & Hm) & _). wp_steps. by eapply stepped_us.
  - intros e s' (_ & -> & _). by apply stepped_refl.
Qed.

(** [unmap] of an address where no segment starts. *)
Lemma unmap_other P r s D H addr : us_ok U kroot r P kstatic s D H -> (forall n, node_of s n -> node_start n <> addr) ->
  unmap addr s = (s, if decide (in_regions s addr) then Panic else Err InvalidArgument).
Proof.
  intros Hs Hno. pose proof (region_free_other (normal_of s) addr (rg_wf _ _ _ _ _ _ _ _ (uo_normal _ _ _ _ _ _ _ _ Hs)) (fun n Hn => Hno n (or_introl Hn))) as E1.
  pose proof (region_free_other (custom_of s) addr (rg_wf _ _ _ _ _ _ _ _ (uo_custom _ _ _ _ _ _ _ _ Hs)) (fun n Hn => Hno n (or_intror Hn))) as E2.
  unfold unmap, on_normal, on_custom, bind. rewrite E1. unfold in_regions. cbn [rs_region] in *.
  destruct (decide (start (vr_segment (normal_memory s)) <= addr < region_end (normal_memory s))) as [Hn|Hn]; [rewrite decide_True by (by left); by destruct s|].
  cbn [fst snd rs_vb rs_region us_vb normal_memory custom_memory]. replace (mkUs _ _ _ _ _ _) with s by (by destruct s). rewrite E2.
  destruct (decide (start (vr_segment (custom_memory s)) <= addr < region_end (custom_memory s))) as [Hc|Hc];
    [rewrite decide_True by (by right); by destruct s|rewrite decide_False by (intros [?|?]; done); by destruct s].
Qed.

Lemma node_in_regions P r s D H n : us_ok U kroot r P kstatic s D H -> node_of s n -> in_regions s (node_start n).
Proof.
  intros Hs [Hn|Hn]; [left|right].
  - destruct (segs_mem _ _ _ _ (rw_segs _ (rg_wf _ _ _ _ _ _ _ _ (uo_normal _ _ _ _ _ _ _ _ Hs))) Hn) as ((? & ? & ?) & ? & ?). cbn [rs_region] in *. unfold region_end, node_end in *. lia.
  - destruct (segs_mem _ _ _ _ (rw_segs _ (rg_wf _ _ _ _ _ _ _ _ (uo_custom _ _ _ _ _ _ _ _ Hs))) Hn) as ((? & ? & ?) & ? & ?). cbn [rs_region] in *. unfold region_end, node_end in *. lia.
Qed.


Lemma in_regions_dec s v : in_regions s v \/ ~ in_regions s v.
Proof. destruct (decide (in_regions s v)); auto. Qed.

Lemma op_spec P r s D H o : r <> kroot -> us_ok U kroot r P kstatic s D H -> within s -> allowed s o ->
  wp (run_op o) s (fun _ => stepped P r s D H) (fun _ => stepped P r s D H).
Proof.
  intros Hk Hs Hw Ha. assert (HU : U r = true) by (apply negb_true_iff; by apply Z.eqb_neq).
  destruct o as [k|k|k|addr|a e|bytes a|a count]; cbn [run_op allowed] in *.
  - destruct Ha as (? & ? & ?). apply (alloc_stepped P r s D H k RW_USER 0); (done || by apply heap_options).
  - destruct Ha as (? & ? & ?). apply (alloc_stepped P r s D H k (Z.lor RW_USER LAZY) 0); (done || by apply heap_options).
  - destruct Ha as (? & ? & ?). apply (alloc_stepped P r s D H k 0 0); (done || by apply heap_options).
  - destruct (in_regions_dec s addr) as [Hin|Hout].
    + destruct (Ha Hin) as (nd & Hn & <-). eapply wp_mono; [apply (unmap_us_spec U kroot r P kstatic Hk s D H nd Hs Hw Hn)| |done].
      intros _ s' (D' & [A B _ _ _ C _ _] & Hst). by eapply stepped_us.
    + unfold wp. rewrite (unmap_other P r s D H addr Hs), decide_False by (done || (intros n Hn <-; by eapply Hout, node_in_regions)). by apply stepped_refl.
  - destruct Ha as (? & ?). eapply wp_mono; [apply (us_fix_spec U kroot r P kstatic s D H 0 a e Hs Hw); done| |].
    + intros _ s' (D' & p & f & _ & Hs' & Hw' & _ & Hst & _ & Hm & _). by eapply stepped_us.
    + intros e' s' (-> & _). by apply stepped_refl.
  - destruct Ha as (Hb & H0 & H1). eapply wp_mono; [apply (copy_loop_spec U kroot r P kstatic (length bytes) s D H bytes a Hs); done| |].
    + intros _ s' [[A B _ C _ _] _]. by apply stepped_copy.
    + intros e s' (_ & A & B & C & _). by apply stepped_copy.
  - destruct Ha as (H0 & H1). wp_step. eapply wp_mono; [apply (read_safe U kroot r P kstatic count s D H a count [] Hs H0 H1)| |].
    + intros l s' ->. wp_steps. by apply stepped_refl.
    + intros e s' (-> & _). by apply stepped_refl.
Qed.

(** ** The life of a program *)

Section Life.
Context (other : Z -> Prop) (m : Mm) (D : gmap Z node) (H : list SlabArc) (max : Z).
Hypothesis Hmachine : machine_ok other m D H.
Hypothesis Hfree : free_frames (kmem m) 8.
Hypothesis Hmax : 0 <= max < 2 ^ 63.

Abbreviation frames_of s := (fun x => other x \/ x = process_static_page_phys_addr s).

(** The invariant of a living program. *)
Record alive (s : Us) (D' : gmap Z node) : Prop := {
  al_root : prog_root s <> kroot /\ D !! prog_root s = None;
  al_ok : us_ok U kroot (prog_root s) (frames_of s) kstatic s D' H;
  al_within : within s;
  al_max : max_memory s = max;
  al_roots r0 : root D r0 -> root D' r0;
  al_views r0 v : root D r0 -> 0 <= v < 2 ^ 48 -> view (us_k s) r0 v = view (kmem m) r0 v
}.

Lemma alive_new s m' : space_new kstatic kpt max m = (m', Ok s) -> exists D', alive s D'.
Proof.
  intros E. destruct Hmachine as [HM HT Hker Hks]. pose proof (space_new_spec kpt other kstatic m D H max 0 HM HT Hker Hks Hfree) as Hw. unfold wp in Hw. rewrite E in Hw.
  destruct Hw as (_ & D' & r & Hk & HDr & Hok & _ & [V R _] & Em & Eu & Eb). exists D'. destruct (us_root _ _ _ _ _ _ _ _ Hok) as [_ Ht].
  assert (Er : prog_root s = r) by (unfold prog_root, root_of; rewrite Ht; lia).
  assert (Hne : forall r0, root D r0 -> r0 <> r) by (intros r0 Hr0 ->; unfold root in Hr0; congruence).
  split; rewrite ?Er; [done|done| |done|by auto|by auto]. unfold within. rewrite Eb, Eu, Em. lia.
Qed.

Lemma alive_op s o s' res D1 : alive s D1 -> allowed s o -> run_op o s = (s', res) -> exists D2, alive s' D2.
Proof.
  intros [[Hk HD] Hok Hw Em R V] Ha E. pose proof (op_spec _ _ _ _ _ _ Hk Hok Hw Ha) as Hop. unfold wp in Hop. rewrite E in Hop.
  assert (Hst : stepped (frames_of s) (prog_root s) s D1 H s') by (destruct res; done). destruct Hst as (D2 & Hok' & Hw' & Em' & Esp & R' & V'). exists D2.
  destruct (us_root _ _ _ _ _ _ _ _ Hok') as [_ Ht]. assert (Er : prog_root s' = prog_root s) by (unfold prog_root at 1, root_of; rewrite Ht; lia).
  split; rewrite ?Er, ?Esp; [done|done|done|congruence|by auto|]. intros r0 v Hr0 Hv. rewrite V'; [by apply V|by apply R|intros ->; unfold root in Hr0; congruence|done].
Qed.

Lemma lives_alive s : lives m max s -> exists D', alive s D'.
Proof. induction 1 as [s m' E|s o s' res _ [D1 IH] Ha E]; [by eapply alive_new|by eapply alive_op]. Qed.


(** ** Pages *)

(** The page that the kernel has for [v]. *)
Definition page_for (s : Us) (v : Z) : option Page :=
  match sm_find (used_segments (if v <? VMEM_USER_END then normal_memory s else custom_memory s)) v with
  | Some seg => find_page seg v
  | None => None
  end.

(** The physical address that a status gives. *)
Definition status_addr (st : VaddrMapStatus) : option Z := match st with Private a | Shared a => Some a | _ => None end.

Lemma region_page P r t D0 H0 P0 v : region_ok U kroot r P t D0 H0 P0 -> U r = true -> start (vr_segment (rs_region t)) <= v < region_end (rs_region t) ->
  match match sm_find (used_segments (rs_region t)) v with Some seg => find_page seg v | None => None end with
  | Some p =>
    match pg_frame p with
    | Some h => exists f, frame_at (mm_of t) h f /\ view (kmem (mm_of t)) r v = Some (mkTr (f + v mod 4096) true (has (pg_options p) WRITABLE) 1)
    | None => view (kmem (mm_of t)) r v = None
    end
  | None => view (kmem (mm_of t)) r v = None
  end.
Proof.
  intros Hr HU Hv. pose proof (sm_find_spec _ _ (used_segments (rs_region t)) v (rw_segs _ (rg_wf _ _ _ _ _ _ _ _ Hr))) as Hf.
  destruct (sm_find _ v) as [seg|]; [|by apply (rg_gaps _ _ _ _ _ _ _ _ Hr)]. destruct Hf as (n & Hn & <- & Hnv). destruct (node_aligned _ _ _ _ _ _ _ _ _ Hr Hn) as (_ & _ & Hok).
  destruct (seg_page U kroot r P _ _ _ Hok Hnv) as (i & p & _ & Hfp & [Hpl Hp] & Hin & _). rewrite Hfp. destruct (pg_frame p) as [h|]; [|by apply (proj1 Hp)].
  destruct Hp as (f & Hf & Hm). exists f. split; [done|]. rewrite Hm, HU by done. do 2 f_equal. destruct Hpl as [Hal _]. dlia.
Qed.

(** ** Fresh memory *)

Lemma frame_at_fun m0 h f f' : frame_at m0 h f -> frame_at m0 h f' -> f = f'.
Proof. intros [n Hn] [n' Hn']. congruence. Qed.

Lemma arcs_unique l i j p q h : NoDup (slab_arcs l) -> l !! i = Some p -> l !! j = Some q -> pg_frame p = Some h -> pg_frame q = Some h -> i = j.
Proof.
  revert i j. induction l as [|x l IH]; intros [|i] [|j] Hnd Hi Hj Hp Hq; try done; rewrite arcs_cons in Hnd; apply NoDup_app in Hnd as (_ & Hx & Hl).
  - injection Hi as ->. exfalso. apply (Hx h); [unfold page_arcs; rewrite Hp; by left|]. apply list_elem_of_omap. exists q. split; [by eapply list_elem_of_lookup_2|done].
  - injection Hj as ->. exfalso. apply (Hx h); [unfold page_arcs; rewrite Hq; by left|]. apply list_elem_of_omap. exists p. split; [by eapply list_elem_of_lookup_2|done].
  - f_equal. by eapply IH.
Qed.

Lemma insert_mem {A} (key : A -> Z) x l : x ∈ tree_insert key x l.
Proof. induction l as [|y l IH]; cbn [tree_insert]; [by left|]. destruct (_ <=? _); [by right|by left]. Qed.

(** What new memory is mapped to. *)
Definition zeroed (k : Kmem) (f : Z) : Prop := forall a, OFF + f <= a < OFF + f + 4096 -> a mod 8 = 0 -> word k a = 0.

Lemma new_pages P r s s' D' st k : U r = true -> us_ok U kroot r P kstatic s' D' H -> allocated s s' H RW_USER st k ->
  exists l, fresh_pages (us_arcs s H) l /\ forall v, st <= v < st + 4096 * Z.of_nat k ->
  exists i p h f, l !! i = Some p /\ pg_frame p = Some h /\ frame_at (us_mm s') h f /\ st + 4096 * Z.of_nat i <= v < st + 4096 * Z.of_nat i + 4096 /\
    view (us_k s') r v = Some (mkTr (f + (v - (st + 4096 * Z.of_nat i))) true true 1) /\ zeroed (us_k s') f.
Proof.
  intros HU Hs ((nd & Eins & Es & Eo & Hnew & _ & _ & Hfr) & _). exists (vs_pages (sn_seg nd)). split; [done|]. intros v Hv.
  pose proof (uo_normal _ _ _ _ _ _ _ _ Hs) as Hr. assert (Hn : nd ∈ segs_of (normal_of s')) by (rewrite Eins; apply insert_mem).
  destruct (node_aligned _ _ _ _ _ _ _ _ _ Hr Hn) as (_ & _ & Hok). destruct (seg_page U kroot r P _ _ v Hok) as (i & p & Hi & _ & [Hpl Hp] & Hin & _); [by rewrite Es|].
  pose proof (run_lookup _ _ _ _ (sg_run _ _ _ _ _ Hok) Hi) as Ep. rewrite Es in Ep. cbn [start] in Ep. destruct (Hnew i p Hi) as [Hpo Hpn].
  change (page_options RW_USER (Z.of_nat i) (Z.of_nat k)) with RW_USER in Hpo. rewrite Hpo in *. destruct (pg_frame p) as [h|] eqn:Eh; [|by destruct Hpn].
  destruct Hp as (f & Hf & Hm). destruct Hpn as (_ & _ & Hz). destruct (Hz eq_refl) as (f' & Hf' & Hw). rewrite (frame_at_fun _ _ _ _ Hf' Hf) in *.
  exists i, p, h, f. split; [done|]. split; [done|]. split; [done|]. rewrite Ep in *. split; [done|]. split; [|done]. cbn [rs_vb] in Hm. rewrite Hm by done. by rewrite HU.
Qed.

Lemma zero_byte k f a : zeroed k f -> f mod 4096 = 0 -> OFF + f <= a < OFF + f + 4096 -> byte_at k a = 0.
Proof.
  intros Hz Hf Ha. unfold byte_at. rewrite Hz; [by unfold byte_of; rewrite Z.shiftr_0_l| |]; unfold word_of; change OFF with (2 ^ 46) in *; dlia.
Qed.

(** A region has no gap for [sz] bytes: wherever they would be, they meet a segment. *)
Definition no_room (rg : VmemRegion) (sz : Z) : Prop := forall x, first_addr rg <= x -> x + sz <= region_end rg ->
  exists n, n ∈ sm_segments (used_segments rg) /\ ~ off_node n x (x + sz).

(** A region from which the last segment was freed: it has none, but keeps the memory of their nodes. *)
Definition used_up (rg : VmemRegion) : Prop := sm_segments (used_segments rg) = [] /\ sm_is_empty (used_segments rg) = false.

Lemma choose_none s D0 r P sz : us_ok U kroot r P kstatic s D0 H -> 0 < sz <= 2 ^ 44 -> choose_start (normal_memory s) sz = None ->
  no_room (normal_memory s) sz \/ used_up (normal_memory s).
Proof.
  intros Hok Hsz Hno. pose proof (rg_wf _ _ _ _ _ _ _ _ (uo_normal _ _ _ _ _ _ _ _ Hok)) as Hwf. cbn [rs_region] in Hwf.
  destruct (decide (sm_segments (used_segments (normal_memory s)) = [])) as [E|Hne]; [right|left; intros x Hx Hx2; apply choose_start_full; (done || lia)].
  split; [done|]. unfold choose_start in Hno. destruct (sm_is_empty _); [|done]. destruct (uo_ranges _ _ _ _ _ _ _ _ Hok) as [Er _]. rewrite Er in Hno. cbn [size] in Hno.
  destruct (Z.ltb_spec VMEM_USER_END sz) as [Hlt|_]; [|done]. change VMEM_USER_END with (2 ^ 45) in Hlt. lia.
Qed.

(** No two addresses of new memory share a byte. *)
Lemma apart_new P r s s' D' st k : U r = true -> us_ok U kroot r P kstatic s' D' H -> allocated s s' H RW_USER st k -> apart r (us_k s') st (st + 4096 * Z.of_nat k).
Proof.
  intros HU Hs Hal v1 v2 t1 t2 H1 H2 Ht1 Ht2 E. destruct (new_pages _ _ _ _ _ _ _ HU Hs Hal) as (l & [Hnd _] & Hl).
  destruct (Hl v1 H1) as (i & p & h & f & Hi & Hp & Hf & Hvi & Hv1 & _). destruct (Hl v2 H2) as (j & q & g & e & Hj & Hq & He & Hvj & Hv2 & _).
  rewrite Ht1 in Hv1. rewrite Ht2 in Hv2. injection Hv1 as ->. injection Hv2 as ->. cbn [tr_addr] in E.
  pose proof (rg_inv _ _ _ _ _ _ _ _ (uo_normal _ _ _ _ _ _ _ _ Hs)) as HM. destruct Hf as [n Hf], He as [n' He].
  destruct (frame_is_data _ _ _ _ _ _ _ _ _ HM Hf) as [_ [_ Hfa]]. destruct (frame_is_data _ _ _ _ _ _ _ _ _ HM He) as [_ [_ Hea]].
  assert (Efe : f = e) by dlia. assert (Ehg : h = g) by (eapply (mi_inj _ _ _ _ _ _ HM); [exact Hf|exact He|done]). subst g e.
  rewrite (arcs_unique l i j p q h Hnd Hi Hj Hp Hq) in *. lia.
Qed.

Section Theorems.
Context (s : Us).
Hypothesis Hs : lives m max s.

Abbreviation r := (prog_root s).

Lemma user_root D' : alive s D' -> U r = true.
Proof. intros Ha. apply negb_true_iff, Z.eqb_neq. apply (al_root _ _ Ha). Qed.

Lemma heap_spec D1 k : alive s D1 -> (0 < k)%nat -> Z.of_nat k <= 2 ^ 32 -> enough (us_mm s) (1 + 5 * k) ->
  wp (alloc_user_heap (Z.of_nat k)) s
    (fun ms s' => exists D' st, ms = mkSeg st (4096 * Z.of_nat k) /\ us_ok U kroot r (frames_of s) kstatic s' D' H /\ within s' /\ us_step kroot r s s' D1 D' H st (st + 4096 * Z.of_nat k) /\
      kept (us_mm s) (us_mm s') (us_arcs s H) /\ allocated s s' H RW_USER st k /\ 0 < st /\ st mod 4096 = 0 /\ st + 4096 * Z.of_nat k <= VMEM_USER_END /\
      forall v, st <= v < st + 4096 * Z.of_nat k -> view (us_k s) r v = None)
    (fun e s' => e = OutOfMemory /\ s' = s /\ (max_memory s < total_usage s + 4096 * Z.of_nat k \/ choose_start (normal_memory s) (4096 * Z.of_nat k) = None)).
Proof.
  intros Ha Hk Hk2 He. eapply wp_mono; [apply (alloc_spec U kroot r _ kstatic s D1 H 0 k RW_USER (al_ok _ _ Ha) (al_within _ _ Ha) Hk); [lia|by apply heap_options, (user_root _ Ha)|done]| |done].
  intros ms s' (D' & st & ? & ? & ? & _ & Hrest). by exists D', st.
Qed.

Lemma heap_apart k s' seg : (0 < k)%nat -> Z.of_nat k <= 2 ^ 32 -> enough (us_mm s) (1 + 5 * k) -> alloc_user_heap (Z.of_nat k) s = (s', Ok seg) ->
  apart r (us_k s') (start seg) (start seg + 4096 * Z.of_nat k).
Proof.
  intros Hk Hk2 He E. destruct (lives_alive s Hs) as (D1 & Ha). pose proof (heap_spec _ k Ha Hk Hk2 He) as Hw. unfold wp in Hw. rewrite E in Hw.
  destruct Hw as (D' & st & -> & Hok' & _ & _ & _ & Hal & _). exact (apart_new _ _ _ _ _ _ _ (user_root _ Ha) Hok' Hal).
Qed.

(** C8: Memory for the heap of a program is new.  The kernel finds free addresses below the end of user memory and maps
    all of them, readable and writable for the program, to bytes that are zero, that no two addresses share, and that
    are no memory of this or another program; all else in the address space and all data stay as they are.  When it
    refuses, nothing has changed, and the limit of the program would be exceeded, or there is no gap of this size
    between the segments, or the region was used up by freeing its last segment. *)
Theorem heap_is_fresh k : (0 < k)%nat -> Z.of_nat k <= 2 ^ 32 -> enough (us_mm s) (1 + 5 * k) ->
  (exists s' st, alloc_user_heap (Z.of_nat k) s = (s', Ok (mkSeg st (4096 * Z.of_nat k))) /\ 0 < st /\ st mod 4096 = 0 /\ st + 4096 * Z.of_nat k <= VMEM_USER_END /\
    total_usage s' = total_usage s + 4096 * Z.of_nat k /\
    (forall v, st <= v < st + 4096 * Z.of_nat k -> view (us_k s) r v = None /\ exists a, view (us_k s') r v = Some (mkTr a true true 1) /\ byte_at (us_k s') (OFF + a) = 0 /\
      forall h f, h ∈ us_arcs s H -> frame_at (us_mm s) h f -> ~ (f <= a < f + 4096)) /\
    apart r (us_k s') st (st + 4096 * Z.of_nat k) /\
    (forall v, 0 <= v < 2 ^ 48 -> ~ (st <= v < st + 4096 * Z.of_nat k) -> view (us_k s') r v = view (us_k s) r v) /\
    kept (us_mm s) (us_mm s') (us_arcs s H)) \/
  alloc_user_heap (Z.of_nat k) s = (s, Err OutOfMemory) /\ 
    (max < total_usage s + 4096 * Z.of_nat k \/ no_room (normal_memory s) (4096 * Z.of_nat k) \/ used_up (normal_memory s)).
Proof.
  intros Hk Hk2 He. destruct (lives_alive s Hs) as (D1 & Ha). pose proof (user_root _ Ha) as HU. pose proof (al_ok _ _ Ha) as Hok.
  pose proof (heap_spec _ k Ha Hk Hk2 He) as Hw. unfold wp in Hw.
  destruct (alloc_user_heap (Z.of_nat k) s) as [s' [ms|e|]]; [left|right|done].
  - destruct Hw as (D' & st & -> & Hok' & _ & Hst & Hkept & Hal & H1 & H2 & H3 & Hun). exists s', st. split; [done|]. split; [done|]. split; [done|]. split; [done|].
    split; [apply Hal|]. split; [|split; [by eapply apart_new|split; [apply (vw_here _ _ _ _ _ _ _ _ (ut_views _ _ _ _ _ _ _ _ _ Hst))|done]]].
    intros v Hv. split; [by apply Hun|]. destruct (new_pages _ _ _ _ _ _ _ HU Hok' Hal) as (l & [_ Hfr] & Hl). destruct (Hl v Hv) as (i & p & h & f & Hi & Hp & Hf & Hvi & Hvv & Hz).
    pose proof (rg_inv _ _ _ _ _ _ _ _ (uo_normal _ _ _ _ _ _ _ _ Hok')) as HM. destruct Hf as [n Hf]. destruct (frame_is_data _ _ _ _ _ _ _ _ _ HM Hf) as [_ [_ Hfa]].
    eexists. split; [exact Hvv|]. split; [apply (zero_byte _ f); [done|done|lia]|]. intros h' f' Hin Hf' Hov. destruct (Hkept h' f' Hin Hf') as [[n' Hf2] _].
    destruct (frame_is_data _ _ _ _ _ _ _ _ _ HM Hf2) as [_ [_ Hfa2]]. assert (Ef : f = f') by dlia.
    assert (Eh : h = h') by (eapply (mi_inj _ _ _ _ _ _ HM); [exact Hf|exact Hf2|done]). subst h'. apply (Hfr h); [|done].
    apply list_elem_of_omap. exists p. split; [by eapply list_elem_of_lookup_2|done].
  - destruct Hw as (-> & -> & Hwhy). split; [done|]. rewrite <- (al_max _ _ Ha). destruct Hwhy as [?|Hno]; [by left|right].
    eapply choose_none; [exact Hok|lia|done].
Qed.

(** C25: Memory that is allocated and unmapped again leaves no trace in the address space: every address translates as
    before, the usage is what it was, and the data of other programs is untouched. *)
Theorem heap_unmap_restores k s1 seg : (0 < k)%nat -> Z.of_nat k <= 2 ^ 32 -> enough (us_mm s) (1 + 5 * k) -> alloc_user_heap (Z.of_nat k) s = (s1, Ok seg) ->
  exists s2, unmap (start seg) s1 = (s2, Ok tt) /\ (forall v, 0 <= v < 2 ^ 48 -> view (us_k s2) r v = view (us_k s) r v) /\
    total_usage s2 = total_usage s /\ us_bytes s2 = us_bytes s /\ kept (us_mm s) (us_mm s2) H.
Proof.
  intros Hk Hk2 He E. destruct (lives_alive s Hs) as (D1 & Ha). pose proof (heap_spec _ k Ha Hk Hk2 He) as Hw. unfold wp in Hw. rewrite E in Hw.
  destruct Hw as (D' & st & -> & Hok1 & Hw1 & Hst1 & _ & Hal & _ & _ & _ & Hun). cbn [start]. pose proof Hal as ((nd & Eins & Es & _ & _ & _ & Eb & _) & Ec & Eu & _).
  assert (Hn : node_of s1 nd) by (left; change (sm_segments (used_segments (normal_memory s1))) with (segs_of (normal_of s1)); rewrite Eins; apply insert_mem).
  assert (Est : node_start nd = st /\ node_end nd = st + 4096 * Z.of_nat k) by (unfold node_end, node_start; by rewrite Es). destruct Est as [E1 E2].
  destruct (wp_run _ _ _ (unmap_us_spec U kroot r _ kstatic (proj1 (al_root _ _ Ha)) s1 D' H nd Hok1 Hw1 Hn)) as ([] & s2 & Er & D2 & [_ _ Hv Hu Hb _ _] & Hst2).
  rewrite E1, E2, Es in *. cbn [size] in *. exists s2. split; [done|]. split; [|split; [lia|split; [|eapply kept_trans; [apply Hst1|apply Hst2|done|done]]]].
  - intros v Hv48. destruct (decide (st <= v < st + 4096 * Z.of_nat k)) as [Hin|Hout]; [rewrite Hun by done; apply Hv; unfold in_node; by rewrite E1, E2|].
    rewrite (vw_here _ _ _ _ _ _ _ _ (ut_views _ _ _ _ _ _ _ _ _ Hst2)) by done. by apply (vw_here _ _ _ _ _ _ _ _ (ut_views _ _ _ _ _ _ _ _ _ Hst1)).
  - rewrite Hb. unfold us_bytes. rewrite Ec. cbn [rs_region] in Eb. rewrite Eb. pose proof (bytes_bound _ _ _ _ _ _ _ _ (uo_normal _ _ _ _ _ _ _ _ (al_ok _ _ Ha))) as Hbb.
    cbn [rs_region] in Hbb. rewrite u64_id; [lia|unfold is_u64; lia].
Qed.


(** C12: The address space is well-formed in every state: the segments of each region lie in it, in order and without
    overlap, its counter is the sum of their sizes, and the page that the kernel has for an address says exactly what
    the processor does there: the frame and the rights of the page, or nothing. *)
Theorem space_well_formed :
  (segs_in 0 VMEM_USER_END (sm_segments (used_segments (normal_memory s))) /\
   segs_in CUSTOM_USERSPACE_REGION_START CUSTOM_USERSPACE_REGION_END (sm_segments (used_segments (custom_memory s)))) /\
  (bytes_used (normal_memory s) = 4096 * pages_of (sm_segments (used_segments (normal_memory s))) /\
   bytes_used (custom_memory s) = 4096 * pages_of (sm_segments (used_segments (custom_memory s)))) /\
  forall v, in_regions s v ->
    match page_for s v with
    | Some p =>
      match pg_frame p with
      | Some h => exists f, frame_at (us_mm s) h f /\ view (us_k s) r v = Some (mkTr (f + v mod 4096) true (has (pg_options p) WRITABLE) 1)
      | None => view (us_k s) r v = None
      end
    | None => view (us_k s) r v = None
    end.
Proof.
  destruct (lives_alive s Hs) as (D1 & Ha). pose proof (user_root _ Ha) as HU. pose proof (al_ok _ _ Ha) as Hok. destruct (uo_ranges _ _ _ _ _ _ _ _ Hok) as [E1 E2].
  pose proof (uo_normal _ _ _ _ _ _ _ _ Hok) as Hn. pose proof (uo_custom _ _ _ _ _ _ _ _ Hok) as Hc.
  pose proof (rw_segs _ (rg_wf _ _ _ _ _ _ _ _ Hn)) as Ln. pose proof (rw_segs _ (rg_wf _ _ _ _ _ _ _ _ Hc)) as Lc. cbn [rs_region] in Ln, Lc. rewrite E1 in Ln. rewrite E2 in Lc.
  split; [split; [exact Ln|exact Lc]|]. split; [split; [apply (rg_bytes _ _ _ _ _ _ _ _ Hn)|apply (rg_bytes _ _ _ _ _ _ _ _ Hc)]|].
  intros v Hv. unfold page_for, in_regions, region_end in *. rewrite E1, E2 in Hv. cbn [start size] in Hv. change VMEM_USER_END with (2 ^ 45) in *.
  change CUSTOM_USERSPACE_REGION_START with (2 ^ 45 + 2 ^ 40) in *. change CUSTOM_USERSPACE_REGION_END with (2 ^ 45 + 2 ^ 41) in *.
  destruct (Z.ltb_spec v (2 ^ 45)) as [Hlt|Hge].
  - apply (region_page _ r (normal_of s) D1 _ _ v Hn HU). unfold region_end. cbn [rs_region]. rewrite E1. cbn [start size]. lia.
  - apply (region_page _ r (custom_of s) D1 _ _ v Hc HU). unfold region_end. cbn [rs_region]. rewrite E2. cbn [start size]. lia.
Qed.

(** C14: What the kernel copies into a program's memory the program finds there, and the kernel reads it back; every other
    byte of memory stays as it is.  Reading back needs that no two addresses of the target are the same memory.  The copy
    succeeds exactly when every address of the target is in a region of the program and has memory; otherwise it is
    refused. *)
Theorem copy_read_roundtrip bytes dst : Forall is_byte bytes -> 0 <= dst -> dst + Z.of_nat (length bytes) <= 2 ^ 47 ->
  (exists s', copy_to_user bytes dst s = (s', Ok tt) /\ (forall v, dst <= v < dst + Z.of_nat (length bytes) -> usable r s v) /\
    (apart r (us_k s) dst (dst + Z.of_nat (length bytes)) -> read_from_user dst (length bytes) s' = (s', Ok bytes)) /\
    (forall v, 0 <= v < 2 ^ 48 -> view (us_k s') r v = view (us_k s) r v) /\
    (forall x, (forall v tr, dst <= v < dst + Z.of_nat (length bytes) -> view (us_k s) r v = Some tr -> x <> OFF + tr_addr tr) -> byte_at (us_k s') x = byte_at (us_k s) x)) \/
  (exists s', copy_to_user bytes dst s = (s', Err InvalidArgument) /\ exists v, dst <= v < dst + Z.of_nat (length bytes) /\ ~ usable r s v).
Proof.
  intros Hb H0 H1. destruct (lives_alive s Hs) as (D1 & Ha). pose proof (copy_loop_spec U kroot r _ kstatic (length bytes) s D1 H bytes dst (al_ok _ _ Ha)) as Hw.
  specialize (Hw ltac:(done) Hb H0 H1). unfold wp in Hw. fold (copy_to_user bytes dst) in Hw. destruct (copy_to_user bytes dst s) as [s' [[]|e|]]; [left|right|done].
  - exists s'. pose proof Hw as [Hc Hu]. split; [done|]. split; [done|]. split; [|split; [apply Hc|apply Hc]]. intros Hap. pose proof (copied_bytes _ _ _ _ _ _ _ _ _ _ _ Hw Hap H0 H1) as Eb.
    assert (Hin : forall v, dst <= v < dst + Z.of_nat (length bytes) -> usable r s' v).
    { intros v Hv. destruct (Hu v Hv) as [Hi Hn]. split; [by apply (copied_regions _ _ _ _ _ _ _ _ _ _ _ _ Hc)|]. by rewrite (cp_view _ _ _ _ _ _ _ _ _ _ _ Hc) by lia. }
    pose proof (read_loop_spec U kroot r _ kstatic (length bytes) s' D1 H dst (length bytes) [] (cp_ok _ _ _ _ _ _ _ _ _ _ _ Hc)) as Hr.
    specialize (Hr ltac:(done) H0 H1 (fun v Hv => proj1 (Hin v Hv))). unfold wp in Hr. fold (read_from_user dst (length bytes)) in Hr.
    destruct (read_from_user dst (length bytes) s') as [s2 [res|e|]]; [|exfalso|done].
    + destruct Hr as (-> & -> & _). by rewrite Eb.
    + destruct Hr as (_ & _ & v & Hv & Hno). by apply Hno, Hin.
  - destruct Hw as (-> & _ & _ & _ & Hv). by exists s'.
Qed.

(** C36: The two ways in which the kernel finds the memory behind an address of a program agree with the processor:
    [virt_to_phys], which walks the page table, gives the physical address exactly when the processor does, at every
    address; [vaddr_map_status], which looks it up in its own lists, gives the same in the two regions of the program,
    and elsewhere (the pages of the kernel, the static pages) nothing. *)
Theorem status_is_mmu v : 0 <= v < 2 ^ 48 -> exists st, vaddr_map_status v s = (s, Ok st) /\
  virt_to_phys v s = (s, Ok (option_map tr_addr (view (us_k s) r v))) /\
  (in_regions s v -> status_addr st = option_map tr_addr (view (us_k s) r v)) /\ (~ in_regions s v -> st = Unallocated).
Proof.
  intros Hv. destruct (lives_alive s Hs) as (D1 & Ha). pose proof (al_ok _ _ Ha) as Hok.
  destruct (wp_run _ _ _ (us_status_spec U kroot r _ kstatic s D1 H v Hok (proj1 Hv))) as (st & s' & E & -> & Hst & Hun). exists st. split; [done|].
  split; [|split; [intros Hin; specialize (Hst Hin); destruct st; cbn [status_of status_addr] in *; [by rewrite Hst..|done|destruct Hst as [w ->]; done|destruct Hst as [w ->]; done]|]].
  - destruct (wp_run (virt_to_phys v) s (fun a s' => a = option_map tr_addr (view (us_k s) r v) /\ s' = s)) as (a & s' & -> & -> & ->); [|done].
    eapply us_phys_spec; [exact Hok|done|done].
  - intros Hout. destruct st; [done|exfalso; by apply Hout, Hun..].
Qed.

(** C15: A page fault maps a page exactly when the program may access it: the address is in a segment and not in a guard
    page, its page has no frame yet, and the access is one that the options of the page allow.  Then the program can
    access the address with the rights of the page, and no other page changes; otherwise nothing changes at all. *)
Theorem fault_maps_allowed pf_addr error_code : is_u64 error_code -> enough (us_mm s) 4 ->
  (exists s' p a, us_fix_pagefault pf_addr error_code s = (s', Ok tt) /\ fixable (normal_of s) pf_addr error_code p /\
    view (us_k s') r pf_addr = Some (mkTr a true (has (pg_options p) WRITABLE) 1) /\ total_usage s' = total_usage s /\ kept (us_mm s) (us_mm s') H /\
    forall v, 0 <= v < 2 ^ 48 -> ~ (pg_start p <= v < pg_start p + 4096) -> view (us_k s') r v = view (us_k s) r v) \/
  us_fix_pagefault pf_addr error_code s = (s, Err InvalidArgument) /\ forall p, ~ fixable (normal_of s) pf_addr error_code p.
Proof.
  intros Hec He. destruct (lives_alive s Hs) as (D1 & Ha). pose proof (us_fix_spec U kroot r _ kstatic s D1 H 0 pf_addr error_code (al_ok _ _ Ha) (al_within _ _ Ha) Hec He) as Hw.
  unfold wp in Hw. destruct (us_fix_pagefault pf_addr error_code s) as [s' [[]|e|]]; [left|right|done].
  - destruct Hw as (D' & p & f & Hfx & _ & _ & _ & [V K _] & Hu & _ & Hv). exists s', p, f. split; [done|]. split; [done|]. split; [done|]. split; [done|]. split; [done|]. apply V.
  - by destruct Hw as (-> & -> & Hno).
Qed.

(** C9: Dropping the address space does not panic and gives back all its memory: no frame is left that is neither a
    page table of another address space, nor memory that others hold, nor the kernel's.  Other programs and the kernel
    translate all addresses as before the program started, and their memory keeps its data. *)
Theorem drop_returns_all : exists s' D', base_drop kstatic s = (s', Ok tt) /\ pt_inv U kroot (us_k s') D' None /\ (forall f l p, D' !! f <> Some (r, l, p)) /\
  (forall x, used (phys (us_k s')) x -> is_Some (D' !! x) \/ (exists h, h ∈ H /\ frame_at (us_mm s') h x) \/ other x) /\
  (forall r0 v, root D r0 -> 0 <= v < 2 ^ 48 -> view (us_k s') r0 v = view (kmem m) r0 v) /\ kept (us_mm s) (us_mm s') H.
Proof.
  destruct (lives_alive s Hs) as (D1 & Ha). pose proof (al_root _ _ Ha) as [Hk HD].
  destruct (wp_run _ _ _ (base_drop_spec kpt _ kstatic r Hk s D1 H (al_ok _ _ Ha))) as ([] & s' & E & D' & HM & HDr & [V _ K]). exists s', D'. split; [done|].
  pose proof (mi_tables _ _ _ _ _ _ HM) as HI. split; [done|]. split; [|split; [|split; [|done]]].
  - intros f l p Hf. destruct (sh_node _ _ _ _ _ (pi_shape _ _ _ _ _ HI) _ _ _ _ Hf) as (_ & Hr & _). congruence.
  - intros x Hx. destruct (mi_used _ _ _ _ _ _ HM x Hx) as [?|[(h & f & n & Ho & Ef)|[[?|?] ?]]]; [by left| |by right; right|done]. right. left. exists h.
    pose proof (mi_refs _ _ _ _ _ _ HM h) as Hr. rewrite Ho in Hr. destruct (mi_frame _ _ _ _ _ _ HM _ _ _ Ho) as (Hkd & _). split; [destruct (decide (h ∈ H)) as [|Hno]; [done|]; rewrite (occ_zero _ _ Hno) in Hr; lia|]. exists n.
    destruct f as [fs fk]. cbn [f_kind f_start] in *. by subst.
  - intros r0 v Hr0 Hv. rewrite V; [by apply (al_views _ _ Ha)|by apply (al_roots _ _ Ha)|intros ->; unfold root in Hr0; congruence|done].
Qed.




(** C40: What [unmap] does for each address.  Where a segment starts, exactly its addresses lose their memory and its size
    is no longer counted; an address outside the two regions is refused and nothing changes; any other address makes
    the kernel panic. *)
Theorem unmap_outcome addr :
  (forall n, node_of s n -> node_start n = addr -> exists s', unmap addr s = (s', Ok tt) /\
    (forall v, 0 <= v < 2 ^ 48 -> view (us_k s') r v = if decide (in_node n v) then None else view (us_k s) r v) /\
    total_usage s' = total_usage s - size (vs_segment (sn_seg n)) /\ kept (us_mm s) (us_mm s') H) /\
  ((forall n, node_of s n -> node_start n <> addr) -> unmap addr s = (s, if decide (in_regions s addr) then Panic else Err InvalidArgument)).
Proof.
  destruct (lives_alive s Hs) as (D1 & Ha). pose proof (al_ok _ _ Ha) as Hok. split; [|intros Hno; by eapply unmap_other].
  intros n Hn <-. destruct (wp_run _ _ _ (unmap_us_spec U kroot r _ kstatic (proj1 (al_root _ _ Ha)) s D1 H n Hok (al_within _ _ Ha) Hn)) as ([] & s1 & Er & D2 & Hum & Hst).
  exists s1. split; [done|]. split; [|split; [apply Hum|apply Hst]]. intros v Hv. destruct (decide (in_node n v)) as [Hin|Hout]; [by apply (um_view _ _ _ _ _ _ _ _ _ _ Hum)|].
  by apply (vw_here _ _ _ _ _ _ _ _ (ut_views _ _ _ _ _ _ _ _ _ Hst)).
Qed.
End Theorems.
End Life.

(** ** References *)

(** C21: A frame goes back to the allocator with its last reference and not before: dropping a reference to [h] never
    panics, frees the frame exactly when no other reference is left, and otherwise leaves the object to the others; all
    other objects and frames and all of memory stay as they are. *)
Theorem frame_freed_last other m D H h : mm_inv U kroot other m D (h :: H) -> exists f m', frame_at m h f /\ arc_drop h m = (m', Ok tt) /\ mm_inv U kroot other m' D H /\
  (used (phys (kmem m')) f <-> h ∈ H) /\ (h ∈ H -> frame_at m' h f) /\ (forall x, x <> f -> used (phys (kmem m')) x <-> used (phys (kmem m)) x) /\
  (forall h', h' <> h -> obj m' h' = obj m h') /\ words (kmem m') = words (kmem m).
Proof.
  intros HM. destruct (wp_run _ _ _ (arc_drop_spec U kroot other m D H h HM)) as ([] & m' & E & f & n & Ho & [A B C F G W _ _ _]). exists f, m'.
  assert (Hu : used (phys (kmem m)) f) by (destruct (mi_frame _ _ _ _ _ _ HM _ _ _ Ho) as (_ & Hu & _); exact Hu).
  split; [by exists n|]. split; [done|]. split; [done|]. split; [rewrite G; split; [intros [_ Hh]; by apply Hh|by split]|]. split; [exact C|]. split; [|by split].
  intros x Hx. rewrite G. split; [by intros [? _]|]. intros Hx2. split; [done|]. by intros ->.
Qed.
End Program.

(** ** A program on a machine with 16 MB *)

Module UserSample.
Import PageSample.
Definition kstatic : Z := 0x1000.
Definition limit : Z := 1048576.
Definition m0 : Mm := mkMm k3 [from_uninit] VMEM_K_SLABS_START kpt.

Definition none : Us := mkUs (mkVb m0 (mkBase kpt pa_default 0)) (VmemRegion_new (mkSeg 0 0)) (VmemRegion_new (mkSeg 0 0)) 0 0 0.
Definition started : Mm * result MemError Us := space_new kstatic kpt limit m0.
Definition u1 : Us := match started.2 with Ok s => s | _ => none end.
(** It allocates two pages of heap; the kernel copies to them across the page boundary. *)
Definition u2 : Us := (alloc_user_heap 2 u1).1.
Definition u3 : Us := (copy_to_user [1; 2; 3] 8191 u2).1.
(** It frees the heap. *)
Definition u4 : Us := (unmap 4096 u2).1.
(** Or it asks for lazy memory. *)
Definition u5 : Us := (alloc_user_lazy 1 u1).1.

Lemma ran_us {S A} (m : eff S MemError A) k k' a : (m k).2 = Ok a -> k' = (m k).1 -> m k = (k', Ok a).
Proof. destruct (m k) as [k'' x]. cbn. by intros -> ->. Qed.

Lemma same_ok {S A} (s s' : S) (a a' : A) : (s, Ok (E := MemError) a) = (s', Ok a') -> s' = s /\ a' = a.
Proof. by intros [= -> ->]. Qed.
Lemma not_err {S A} (s s' : S) (a : A) (e : MemError) : (s, Ok a) <> (s', Err e).
Proof. discriminate. Qed.

Lemma run_u1 : exists m', space_new kstatic kpt limit m0 = (m', Ok u1).
Proof.
  assert (E : match started.2 with Ok _ => true | _ => false end = true) by (vm_compute; reflexivity). unfold u1, started in *.
  destruct (space_new kstatic kpt limit m0) as [m' [s|e|]]; [by exists m'|discriminate|discriminate].
Qed.
Lemma run_u2 : alloc_user_heap 2 u1 = (u2, Ok (mkSeg 4096 8192)).
Proof. apply ran_us; [vm_compute; reflexivity|reflexivity]. Qed.
Lemma run_u3 : copy_to_user [1; 2; 3] 8191 u2 = (u3, Ok tt).
Proof. apply ran_us; [vm_compute; reflexivity|reflexivity]. Qed.
Lemma run_u4 : unmap 4096 u2 = (u4, Ok tt).
Proof. apply ran_us; [vm_compute; reflexivity|reflexivity]. Qed.
Lemma run_u5 : alloc_user_lazy 1 u1 = (u5, Ok (mkSeg 4096 4096)).
Proof. apply ran_us; [vm_compute; reflexivity|reflexivity]. Qed.
Lemma arcs_u2 : region_arcs (normal_memory u2) ++ pa_arcs (us_vb u2) ++ region_arcs (custom_memory u2) ++ [] = [mkArc 0 1; mkArc 0 2; mkArc 0 3; mkArc 0 0].
Proof. vm_compute. reflexivity. Qed.
Lemma segs_u2 : match sm_segments (used_segments (normal_memory u2)), sm_segments (used_segments (custom_memory u2)) with
  | [n], [] => node_start n = 4096 /\ size (vs_segment (sn_seg n)) = 8192 | _, _ => False end.
Proof. vm_compute. done. Qed.
Lemma page_u2 : match page_for u2 4100 with Some p => match pg_frame p with Some h => h = mkArc 0 1 /\ has (pg_options p) WRITABLE = true | None => False end | None => False end.
Proof. vm_compute. done. Qed.
Lemma in_u2 : in_regions u2 4100.
Proof. left. split; [vm_compute; congruence|vm_compute; reflexivity]. Qed.
Lemma views_u : view (us_k u2) 12058624 8191 <> None /\ view (us_k u5) 12058624 4100 = None.
Proof. split; vm_compute; [discriminate|reflexivity]. Qed.
Lemma fault_u5 : (us_fix_pagefault 4100 6 u5).2 = Ok tt.
Proof. vm_compute. reflexivity. Qed.
Lemma capacity_u : capacity (us_mm u1) = 4096 /\ capacity (us_mm u5) = 4094.
Proof. vm_compute. done. Qed.
Lemma root_u1 : prog_root u1 = 12058624 /\ prog_root u2 = 12058624.
Proof. vm_compute. done. Qed.
Lemma mapped_kernel : view k3 kroot VMEM_KERNEL_DATA_START <> None /\ view k3 kroot PAGING_DIRECT_MAP_OFFSET <> None.
Proof. split; vm_compute; discriminate. Qed.
Lemma regions_u2 : bool_decide (in_regions u2 4097) = true /\ bool_decide (in_regions u2 (2 ^ 46)) = false.
Proof. vm_compute. done. Qed.
Opaque u1 u2 u3 u4 u5.

Lemma only_u2 : exists n, sm_segments (used_segments (normal_memory u2)) = [n] /\ node_start n = 4096 /\ size (vs_segment (sn_seg n)) = 8192 /\ forall n', node_of u2 n' -> n' = n.
Proof.
  pose proof segs_u2 as Hn. unfold node_of. destruct (sm_segments (used_segments (normal_memory u2))) as [|n [|? ?]]; [destruct Hn| |destruct Hn].
  destruct (sm_segments (used_segments (custom_memory u2))) as [|? ?]; [|destruct Hn]. exists n. split; [reflexivity|]. split; [apply Hn|]. split; [apply Hn|].
  intros n' [Hi|Hi]; [apply elem_of_cons in Hi as [Hi|Hi]; [exact Hi|]|]; apply elem_of_nil in Hi; destruct Hi.
Qed.

(** No frame has an object, and the frames in use without a table are the kernel's. *)
Lemma bit_uninit j : bit_at from_uninit j = false.
Proof. unfold bit_at, from_uninit. cbn [slab_bitmap]. destruct (replicate _ _ !! _) as [x|] eqn:E; [apply lookup_replicate in E as [-> _]|]; apply Z.testbit_0_l. Qed.

Lemma obj_m0 h : obj m0 h = None.
Proof. unfold obj, m0. cbn [slabs]. destruct (a_slab h) as [|[|i]]; [|done|done]. cbn [list_lookup lookup mbind option_bind]. by rewrite bit_uninit, andb_false_r. Qed.

Lemma slabs_m0 : slabs_wf m0.
Proof.
  split; [|cbn; unfold ALLOC_ROUNDS; lia]. intros [|[|i]] s; [|done|done]. intros [= <-]. split; [split; [apply length_replicate|vm_compute; reflexivity]|].
  intros j _ _. unfold refs_at, from_uninit. cbn [slab_refs]. by rewrite lookup_empty.
Qed.

Lemma sample_machine : exists D other, machine_ok kpt kstatic other m0 D [].
Proof.
  destruct boot_tables as (D & HI & Hr & Ho & _ & Hsh). exists D, (fun x => used (phys k3) x /\ D !! x = None). split.
  - split; cbn [kmem m0].
    + exact HI.
    + exact slabs_m0.
    + intros h. rewrite obj_m0. by intros ?%elem_of_nil.
    + intros h f n Hh. by rewrite obj_m0 in Hh.
    + intros h1 h2 f1 n1 f2 n2 Hh. by rewrite obj_m0 in Hh.
    + intros x Hx. destruct (D !! x) eqn:E; [by left|right; right; by split].
    + intros x [Hx E]. split; [exact Hx|]. split; [exact E|]. intros h f n Hh. by rewrite obj_m0 in Hh.
  - by split.
  - destruct mapped_kernel as [H1 H2]. intros i [E|E]%foreign_cases; subst i; rewrite idx_l4_index; (eexists; split; [|split; [reflexivity|exact H1 || exact H2]]); split; vm_compute; congruence.
  - split; [split; vm_compute; congruence|reflexivity].
Qed.

Lemma free_m0 : free_frames (kmem m0) 53.
Proof. destruct boot_tables as (D & _ & _ & _ & Hn & _). exact Hn. Qed.
Lemma free_new : free_frames (kmem m0) 8.
Proof. apply (free_frames_less _ 8 53); [exact free_m0|lia]. Qed.

Lemma lives_1 : lives kpt kstatic m0 limit u1.
Proof. destruct run_u1 as (m' & E). exact (lives_new kpt kstatic m0 limit u1 m' E). Qed.
Lemma enough_1 : enough (us_mm u1) 11.
Proof.
  destruct sample_machine as (D & other & [HM HT Hker Hks]). destruct run_u1 as (m' & E).
  pose proof (space_new_spec kpt other kstatic m0 D [] limit 45 HM HT Hker Hks free_m0) as Hw. unfold wp in Hw. rewrite E in Hw.
  destruct Hw as (_ & D' & r & _ & _ & _ & Hn & _). split; [apply (free_frames_less _ 11 45); [exact Hn|lia]|]. rewrite (proj1 capacity_u). lia.
Qed.
Lemma allowed_2 : allowed u1 (AllocHeap 2).
Proof. split; [lia|]. split; [lia|]. exact enough_1. Qed.
Lemma lives_2 : lives kpt kstatic m0 limit u2.
Proof.
  apply (lives_op kpt kstatic m0 limit u1 (AllocHeap 2) u2 (Ok tt) lives_1 allowed_2). unfold run_op, bind. change (Z.of_nat 2) with 2. rewrite run_u2. reflexivity.
Qed.
Lemma lives_5 : lives kpt kstatic m0 limit u5.
Proof.
  apply (lives_op kpt kstatic m0 limit u1 (AllocLazy 1) u5 (Ok tt) lives_1).
  - split; [lia|]. split; [lia|]. destruct enough_1 as [Hf Hc]. split; [by apply (free_frames_less _ 6 11); [|lia]|]. lia.
  - unfold run_op, bind. change (Z.of_nat 1) with 1. rewrite run_u5. reflexivity.
Qed.
Lemma limit_ok : 0 <= limit < 2 ^ 63.
Proof. unfold limit. lia. Qed.
Lemma enough_5 : enough (us_mm u5) 4.
Proof.
  destruct sample_machine as (D & other & HM). destruct (lives_alive kpt kstatic other m0 D [] limit HM free_new limit_ok u1 lives_1) as (D' & Ha).
  assert (HU : user_space (root_of kpt) (prog_root u1) = true) by (apply negb_true_iff, Z.eqb_neq; apply (al_root _ _ _ _ _ _ _ _ _ Ha)).
  pose proof (alloc_spec _ _ _ _ kstatic u1 D' [] 5 1 (Z.lor RW_USER LAZY) (al_ok _ _ _ _ _ _ _ _ _ Ha) (al_within _ _ _ _ _ _ _ _ _ Ha)) as Hw. unfold wp in Hw.
  change (counted (Z.of_nat 1) (on_normal (region_allocate_pages (Z.of_nat 1) (Z.lor RW_USER LAZY))) u1) with (alloc_user_lazy 1 u1) in Hw. rewrite run_u5 in Hw.
  destruct Hw as (D2 & st & _ & _ & _ & He & _); [lia|lia|apply (heap_options _ _ _ HU)|exact enough_1|]. apply (enough_less _ 5 4); [exact He|lia].
Qed.

Lemma heap_is_fresh_witness : exists s' a, alloc_user_heap 2 u1 = (s', Ok (mkSeg 4096 8192)) /\
  view (us_k s') (prog_root u1) 8191 = Some (mkTr a true true 1) /\ byte_at (us_k s') (OFF + a) = 0.
Proof.
  destruct sample_machine as (D & other & HM).
  destruct (heap_is_fresh kpt kstatic other m0 D [] limit HM free_new limit_ok u1 lives_1 2 ltac:(lia) ltac:(lia) enough_1) as [(s' & st & E & _ & _ & _ & _ & Hv & _)|[E _]];
    change (Z.of_nat 2) with 2 in E; rewrite run_u2 in E; [|destruct (not_err _ _ _ _ E)].
  apply same_ok in E as [-> [= ->]]. destruct (Hv 8191 ltac:(lia)) as (_ & a & Ha & Hz & _). exists u2, a. split; [exact run_u2|]. split; [exact Ha|exact Hz].
Defined.

Lemma heap_unmap_restores_witness : exists s2, unmap 4096 u2 = (s2, Ok tt) /\ total_usage s2 = total_usage u1.
Proof.
  destruct sample_machine as (D & other & HM).
  destruct (heap_unmap_restores kpt kstatic other m0 D [] limit HM free_new limit_ok u1 lives_1 2 u2 (mkSeg 4096 8192) ltac:(lia) ltac:(lia) enough_1 run_u2) as (s2 & E & _ & Hu & _).
  exists s2. split; [exact E|exact Hu].
Defined.


Lemma space_well_formed_witness : exists f, frame_at (us_mm u2) (mkArc 0 1) f /\ view (us_k u2) (prog_root u2) 4100 = Some (mkTr (f + 4) true true 1).
Proof.
  destruct sample_machine as (D & other & HM).
  destruct (space_well_formed kpt kstatic other m0 D [] limit HM free_new limit_ok u2 lives_2) as (_ & _ & Hv). pose proof page_u2 as Hp. specialize (Hv 4100 in_u2).
  destruct (page_for u2 4100) as [p|]; [|destruct Hp]. destruct (pg_frame p) as [h|]; [|destruct Hp]. destruct Hp as [-> Hw]. rewrite Hw in Hv. exact Hv.
Defined.

Lemma bytes_ok : Forall is_byte [1; 2; 3] /\ 8191 + Z.of_nat (length [1; 2; 3]) <= 2 ^ 47.
Proof. split; [repeat apply Forall_cons_2; try apply Forall_nil_2; unfold is_byte; lia|cbn; lia]. Qed.

Lemma copy_read_roundtrip_witness : copy_to_user [1; 2; 3] 8191 u2 = (u3, Ok tt) /\ read_from_user 8191 3 u3 = (u3, Ok [1; 2; 3]).
Proof.
  split; [exact run_u3|]. destruct sample_machine as (D & other & HM).
  destruct (copy_read_roundtrip kpt kstatic other m0 D [] limit HM free_new limit_ok u2 lives_2 [1; 2; 3] 8191 (proj1 bytes_ok) ltac:(lia) (proj2 bytes_ok)) as [(s' & E & _ & Hr & _)|(s' & E & _)];
    [|rewrite run_u3 in E; destruct (not_err _ _ _ _ E)].
  rewrite run_u3 in E. apply same_ok in E as [-> _]. apply Hr.
  pose proof (heap_apart kpt kstatic other m0 D [] limit HM free_new limit_ok u1 lives_1 2 u2 (mkSeg 4096 8192) ltac:(lia) ltac:(lia) enough_1 run_u2) as Hap.
  cbn [start] in Hap. rewrite (proj1 root_u1) in Hap. rewrite (proj2 root_u1).
  intros v1 v2 t1 t2 H1 H2. cbn [length] in H1, H2. apply Hap; lia.
Defined.

Lemma status_is_mmu_witness : exists st, vaddr_map_status 4100 u2 = (u2, Ok st) /\ virt_to_phys 4100 u2 = (u2, Ok (status_addr st)).
Proof.
  destruct sample_machine as (D & other & HM).
  destruct (status_is_mmu kpt kstatic other m0 D [] limit HM free_new limit_ok u2 lives_2 4100 ltac:(lia)) as (st & E1 & E2 & Ein & _). exists st. split; [exact E1|].
  rewrite (Ein in_u2). exact E2.
Defined.

Lemma fault_maps_allowed_witness : exists s' a w, us_fix_pagefault 4100 6 u5 = (s', Ok tt) /\ view (us_k s') (prog_root u5) 4100 = Some (mkTr a true w 1).
Proof.
  destruct sample_machine as (D & other & HM).
  destruct (fault_maps_allowed kpt kstatic other m0 D [] limit HM free_new limit_ok u5 lives_5 4100 6) as [(s' & p & a & E & _ & Hv & _)|[E _]]; [unfold is_u64; lia|exact enough_5| |].
  - exists s', a, (has (pg_options p) WRITABLE). split; [exact E|exact Hv].
  - pose proof fault_u5 as F. rewrite E in F. discriminate F.
Defined.

Lemma drop_returns_all_witness : exists s', base_drop kstatic u2 = (s', Ok tt) /\ view (us_k s') kroot VMEM_KERNEL_DATA_START = view k3 kroot VMEM_KERNEL_DATA_START.
Proof.
  destruct sample_machine as (D & other & HM).
  destruct (drop_returns_all kpt kstatic other m0 D [] limit HM free_new limit_ok u2 lives_2) as (s' & D' & E & _ & _ & _ & Hv & _). exists s'. split; [exact E|].
  apply (Hv kroot VMEM_KERNEL_DATA_START); [apply (mo_tables _ _ _ _ _ _ HM)|split; vm_compute; congruence].
Defined.


(** There is a segment at 4096, none at 4097, and none outside the regions. *)
Lemma unmap_outcome_witness : unmap 4096 u2 = (u4, Ok tt) /\ total_usage u4 = total_usage u2 - 8192 /\ unmap 4097 u2 = (u2, Panic) /\
  unmap (2 ^ 46) u2 = (u2, Err InvalidArgument).
Proof.
  split; [exact run_u4|]. destruct sample_machine as (D & other & HM). destruct only_u2 as (n & En & Est & Esz & Hall).
  pose proof (unmap_outcome kpt kstatic other m0 D [] limit HM free_new limit_ok u2 lives_2) as Hun. split; [|split].
  - destruct (proj1 (Hun 4096) n) as (s' & E & _ & Hu & _); [left; rewrite En; apply elem_of_cons; left; reflexivity|exact Est|].
    rewrite run_u4 in E. apply same_ok in E as [-> _]. rewrite Hu, Esz. reflexivity.
  - rewrite (proj2 (Hun 4097)); [|intros n' Hn'; rewrite (Hall n' Hn'), Est; lia]. rewrite decide_True; [reflexivity|]. apply (bool_decide_eq_true_1 _ (proj1 regions_u2)).
  - rewrite (proj2 (Hun (2 ^ 46))); [|intros n' Hn'; rewrite (Hall n' Hn'), Est; lia]. rewrite decide_False; [reflexivity|]. apply (bool_decide_eq_false_1 _ (proj2 regions_u2)).
Defined.

Lemma frame_freed_last_witness : exists f m', frame_at (us_mm u2) (mkArc 0 1) f /\ arc_drop (mkArc 0 1) (us_mm u2) = (m', Ok tt) /\ ~ used (phys (kmem m')) f.
Proof.
  destruct sample_machine as (D & other & HM). destruct (lives_alive kpt kstatic other m0 D [] limit HM free_new limit_ok u2 lives_2) as (D' & Ha).
  pose proof (rg_inv _ _ _ _ _ _ _ _ (uo_normal _ _ _ _ _ _ _ _ (al_ok _ _ _ _ _ _ _ _ _ Ha))) as HI. cbn [rs_vb rs_region] in HI. rewrite arcs_u2 in HI.
  destruct (frame_freed_last kpt _ (us_mm u2) D' [mkArc 0 2; mkArc 0 3; mkArc 0 0] (mkArc 0 1) HI) as (f & m' & Hf & E & _ & Hu & _). exists f, m'.
  split; [exact Hf|]. split; [exact E|]. rewrite Hu. intros Hin. repeat (apply elem_of_cons in Hin as [Hin|Hin]; [discriminate Hin|]). by apply elem_of_nil in Hin.
Defined.
End UserSample.
