(* ===== verification/Pipe.v ===== *)
(** * Byte pipes

    The one-way pipe of src/src/lib/moto-ipc/src/sync_pipe.rs: a page shared by a reader and a writer with two
    counters and a ring of bytes.  [PipeBuffer_write], [PipeBuffer_read] and [PipeBuffer_unwrite] are the
    methods of [PipeBuffer] on an undisturbed page; [w_step] and [r_step] are [Writer::write_timeout] and
    [Reader::read_timeout] one access to shared memory (or one system call) at a time.  The counter a side owns
    is changed by nobody else, so loading it is not a step of its own.  The outcome of the system calls
    [SysCpu::wait] and [SysCpu::wake] is an argument of the steps. *)

From stdpp Require Import base numbers list.
From S2P Require Import RustPrelude.

Open Scope Z_scope.

(** The error codes the pipe knows and those it only passes on; [ErrorCode::Ok] in [error_code] is [None]. *)
Inductive PipeError : Type := InvalidArgument | TimedOut | OtherError (code : Z).

#[export] Instance PipeError_eq_dec : EqDecision PipeError.
Proof. solve_decision. Defined.

(** The shared page. *)
Record shared : Type := mkShared { reader_counter : Z; writer_counter : Z; work_buf : bytes }.

Definition set_reader (z : Z) (s : shared) : shared := mkShared z (writer_counter s) (work_buf s).
Definition set_writer (z : Z) (s : shared) : shared := mkShared (reader_counter s) z (work_buf s).
Definition set_work_buf (b : bytes) (s : shared) : shared := mkShared (reader_counter s) (writer_counter s) b.

(** ** [PipeBuffer] *)

Definition CACHELINE_SIZE : Z := 64.
Definition DATA_OFFSET : Z := CACHELINE_SIZE * 2.

Definition is_power_of_two (val : Z) : bool := Z.land val (u64 (val - 1)) =? 0.

(** [PipeBuffer::new]: its checks and [work_buf_len]; [version] is the word of the page that is tested. *)
Definition PipeBuffer_new (buf_addr buf_size version : Z) : result PipeError Z :=
  if negb (Z.land buf_addr (CACHELINE_SIZE - 1) =? 0) then Panic
  else if negb (Z.land buf_size (CACHELINE_SIZE - 1) =? 0) then Panic
  else if negb (u64 (Z.shiftr buf_size 1 + DATA_OFFSET) <? buf_size) then Panic
  else if negb (is_power_of_two buf_size) then Panic
  else if negb (version =? 0) then Panic
  else Ok (Z.shiftr buf_size 1).

Definition blen (l : bytes) : Z := Z.of_nat (length l).

(** [work_buf[off..off + data.len()].copy_from_slice(data)]. *)
Definition copy_to (off : Z) (data buf : bytes) : result PipeError bytes :=
  if off + blen data <=? blen buf then Ok (blit (Z.to_nat off) data buf) else Panic.

(** [buf[off..off + n]]. *)
Definition copy_from (off n : Z) (buf : bytes) : result PipeError bytes :=
  if off + n <=? blen buf then Ok (slice (Z.to_nat off) (Z.to_nat n) buf) else Panic.

Section PipeBuffer.
Variable work_buf_len : Z.

Definition invariants_hold (s : shared) : bool := reader_counter s <=? writer_counter s.
Definition can_read (s : shared) : bool := reader_counter s <? writer_counter s.
Definition can_write (s : shared) : bool := writer_counter s <? u64 (reader_counter s + work_buf_len).

(** How many bytes [write] takes. *)
Definition write_count (rc wc src_len : Z) : Z :=
  let to_write := u64 (u64 (rc + work_buf_len) - wc) in
  if src_len <? to_write then src_len else to_write.

(** Where [write] puts them. *)
Definition write_copy (wc to_write : Z) (src buf : bytes) : result PipeError bytes :=
  let writer_offset := Z.land wc (work_buf_len - 1) in
  if writer_offset + to_write <=? work_buf_len then copy_to writer_offset (take (Z.to_nat to_write) src) buf
  else
    let first_write := work_buf_len - writer_offset in
    match copy_to writer_offset (take (Z.to_nat first_write) src) buf with
    | Ok buf =>
      let second_write := to_write - first_write in
      copy_to 0 (slice (Z.to_nat first_write) (Z.to_nat second_write) src) buf
    | r => r
    end.

Definition PipeBuffer_write (src : bytes) : eff shared PipeError Z :=
  let* s := get_state in
  let to_write := write_count (reader_counter s) (writer_counter s) (blen src) in
  if to_write =? 0 then ret 0
  else
    let* buf := lift (write_copy (writer_counter s) to_write src (work_buf s)) in
    modify (set_work_buf buf);;;
    modify (set_writer (u64 (writer_counter s + to_write)));;;
    ret to_write.

Definition read_count (rc wc dst_len : Z) : Z :=
  let to_read := u64 (wc - rc) in
  if dst_len <? to_read then dst_len else to_read.

Definition read_copy (rc to_read : Z) (buf : bytes) : result PipeError bytes :=
  let reader_offset := Z.land rc (work_buf_len - 1) in
  if reader_offset + to_read <=? work_buf_len then copy_from reader_offset to_read buf
  else
    let first_read := work_buf_len - reader_offset in
    match copy_from reader_offset first_read buf with
    | Ok first =>
      match copy_from 0 (to_read - first_read) buf with
      | Ok second => Ok (first ++ second)
      | r => r
      end
    | r => r
    end.

(** [read] into a buffer of [dst_len] bytes: the bytes copied to its front. *)
Definition PipeBuffer_read (dst_len : Z) : eff shared PipeError bytes :=
  let* s := get_state in
  let to_read := read_count (reader_counter s) (writer_counter s) dst_len in
  if to_read =? 0 then ret []
  else
    let* data := lift (read_copy (reader_counter s) to_read (work_buf s)) in
    modify (set_reader (u64 (reader_counter s + to_read)));;;
    ret data.

Definition PipeBuffer_unwrite : eff shared PipeError Z :=
  let* s := get_state in
  if writer_counter s =? reader_counter s then ret 0
  else modify (set_writer (reader_counter s));;; ret (u64 (writer_counter s - reader_counter s)).

(** ** [Writer::write_timeout] *)

Inductive wpc : Type :=
| WStart (buf : bytes)
| WCheck (buf : bytes) (written : Z)
| WWait (buf : bytes) (written : Z)
| WLoad (buf : bytes) (written : Z)
| WCopy (buf : bytes) (written to_write wc : Z)
| WPublish (buf : bytes) (written to_write : Z)
| WWake (buf : bytes) (written : Z)
| WUnload (written : Z) (err : PipeError)
| WUnstore (written : Z) (err : PipeError) (rc : Z)
| WDone (r : result PipeError Z).

(** After a call of [write] in the loop. *)
Definition after_write (buf : bytes) (written : Z) : wpc :=
  if written =? blen buf then WWake buf written else WCheck buf written.

(** [written.checked_sub(unwritten).unwrap_or(0)] and what is returned for it. *)
Definition after_unwrite (written unwritten : Z) (err : PipeError) : wpc :=
  let left := if unwritten <=? written then written - unwritten else 0 in
  WDone (if 0 <? left then Ok left else Err err).

(** A step of the writer; [sys] is the outcome of a system call, [error_code] the field of its [PipeBuffer]. *)
Definition w_step (sys : option PipeError) (s : shared) (error_code : option PipeError) (p : wpc)
    : shared * option PipeError * wpc :=
  match p with
  | WStart buf =>
    match error_code with
    | Some e => (s, error_code, WDone (Err e))
    | None =>
      if negb (invariants_hold s) then (s, error_code, WDone Panic)
      else if blen buf =? 0 then (s, error_code, WDone (Err InvalidArgument))
      else (s, error_code, WCheck buf 0)
    end
  | WCheck buf written => if can_write s then (s, error_code, WLoad buf written) else (s, error_code, WWait buf written)
  | WWait buf written =>
    match sys with
    | None => (s, error_code, WCheck buf written)
    | Some e => (s, Some e, WUnload written e)
    end
  | WLoad buf written =>
    let to_write := write_count (reader_counter s) (writer_counter s) (blen buf - written) in
    if to_write =? 0 then (s, error_code, after_write buf written)
    else (s, error_code, WCopy buf written to_write (writer_counter s))
  | WCopy buf written to_write wc =>
    match write_copy wc to_write (drop (Z.to_nat written) buf) (work_buf s) with
    | Ok b => (set_work_buf b s, error_code, WPublish buf written to_write)
    | _ => (s, error_code, WDone Panic)
    end
  | WPublish buf written to_write =>
    (set_writer (u64 (writer_counter s + to_write)) s, error_code, after_write buf (written + to_write))
  | WWake buf written =>
    match sys with
    | None => (s, error_code, WDone (Ok written))
    | Some e => (s, Some e, WUnload written e)
    end
  | WUnload written err =>
    if writer_counter s =? reader_counter s then (s, error_code, after_unwrite written 0 err)
    else (s, error_code, WUnstore written err (reader_counter s))
  | WUnstore written err rc =>
    (set_writer rc s, error_code, after_unwrite written (u64 (writer_counter s - rc)) err)
  | WDone _ => (s, error_code, p)
  end.

(** ** [Reader::read_timeout] *)

(** [last]: the read after the loop. *)
Inductive rpc : Type :=
| RStart (len : Z)
| RCheck (len : Z)
| RWait (len : Z)
| RLoad (len : Z) (last : bool)
| RCopy (len : Z) (last : bool) (to_read rc : Z)
| RPublish (last : bool) (data : bytes)
| RWake (data : bytes)
| RDone (r : result PipeError bytes).

(** What is returned when the last read finds nothing. *)
Definition read_fails (error_code : option PipeError) : option PipeError * rpc :=
  match error_code with
  | Some TimedOut => (None, RDone (Err TimedOut))
  | Some e => (error_code, RDone (Err e))
  | None => (error_code, RDone (Err (OtherError 0)))
  end.

Definition r_step (sys : option PipeError) (s : shared) (error_code : option PipeError) (p : rpc)
    : shared * option PipeError * rpc :=
  match p with
  | RStart len =>
    if negb (invariants_hold s) then (s, error_code, RDone Panic)
    else if len =? 0 then (s, error_code, RDone (Err InvalidArgument))
    else (s, error_code, RCheck len)
  | RCheck len =>
    if can_read s then (s, error_code, RLoad len false)
    else match error_code with
         | Some _ => (s, error_code, RLoad len true)
         | None => (s, error_code, RWait len)
         end
  | RWait len =>
    match sys with
    | None => (s, error_code, RCheck len)
    | Some e => (s, Some e, RLoad len true)
    end
  | RLoad len last =>
    let to_read := read_count (reader_counter s) (writer_counter s) len in
    if to_read =? 0 then
      if last then let '(e, p) := read_fails error_code in (s, e, p) else (s, error_code, RCheck len)
    else (s, error_code, RCopy len last to_read (reader_counter s))
  | RCopy len last to_read rc =>
    match read_copy rc to_read (work_buf s) with
    | Ok data => (s, error_code, RPublish last data)
    | _ => (s, error_code, RDone Panic)
    end
  | RPublish last data =>
    let s := set_reader (u64 (reader_counter s + blen data)) s in
    if last then (s, if bool_decide (error_code = Some TimedOut) then None else error_code, RDone (Ok data))
    else match error_code with
         | Some _ => (s, error_code, RDone (Ok data))
         | None => (s, error_code, RWake data)
         end
  | RWake data =>
    match sys with
    | None => (s, error_code, RDone (Ok data))
    | Some e => (s, Some e, RDone (Ok data))
    end
  | RDone _ => (s, error_code, p)
  end.
End PipeBuffer.
