(* ===== verification/PipeProps.v ===== *)
(** * Byte pipes: properties

    A pipe between calls holds a sequence of unread bytes ([ring_rep]); the methods of [PipeBuffer] are its
    operations.  [pipe_step] interleaves the steps of one reader and one writer; [pub] is the stream of the
    bytes the writer has made visible, [got] the stream of the bytes the reader has taken.  The counters are
    64-bit: the theorems are about pipes that carried fewer than [LIMIT] bytes. *)

From stdpp Require Import base numbers list.
From S2P Require Import RustPrelude Pipe.

Open Scope Z_scope.

Section Ring.
(** The ring has a power of two of bytes, at most half of the address space. *)
Context (k : Z) (Hk : 0 <= k <= 60).
Let n : Z := 2 ^ k.

Lemma n_bounds : 1 <= n <= 2 ^ 60.
Proof. unfold n. split; [pose proof (Z.pow_pos_nonneg 2 k); lia|apply Z.pow_le_mono_r; lia]. Qed.

Lemma offset_mod c : Z.land c (n - 1) = c mod n.
Proof. unfold n. rewrite <- Z.land_ones by lia. by rewrite Z.ones_equiv, Z.sub_1_r. Qed.

(** Walking around the ring from [c]. *)
Lemma ring_pos c i : 0 <= c -> 0 <= i < n ->
  (c + i) mod n = if c mod n + i <? n then c mod n + i else c mod n + i - n.
Proof.
  intros Hc Hi. pose proof n_bounds. pose proof (Z.mod_pos_bound c n ltac:(lia)).
  rewrite <- Zplus_mod_idemp_l. destruct (Z.ltb_spec (c mod n + i) n).
  - apply Z.mod_small. lia.
  - symmetry. apply Z.mod_unique with 1; lia.
Qed.

Lemma copy_to_lookup off data buf buf' i : 0 <= off -> copy_to off data buf = Ok buf' ->
  length buf' = length buf /\
  buf' !! i = if decide (off <= Z.of_nat i < off + blen data) then data !! (i - Z.to_nat off)%nat else buf !! i.
Proof.
  intros Ho. unfold copy_to, blen. destruct (Z.leb_spec (off + Z.of_nat (length data)) (Z.of_nat (length buf))); [|done].
  intros [= <-]. split; [apply length_blit|]. destruct (decide _).
  - apply lookup_blit_in; lia.
  - apply lookup_blit_out. lia.
Qed.

(** [write_copy] changes the [to_write] positions after [wc] and no others. *)
Lemma write_copy_spec wc tw src buf : 0 <= wc -> 0 < tw <= n -> tw <= blen src -> blen buf = n ->
  exists buf', write_copy n wc tw src buf = Ok buf' /\ blen buf' = n /\
    forall i, 0 <= i < n -> buf' !! Z.to_nat ((wc + i) mod n) =
      if decide (i < tw) then src !! Z.to_nat i else buf !! Z.to_nat ((wc + i) mod n).
Proof.
  intros Hwc Htw Hsrc Hbuf. pose proof n_bounds as Hn. pose proof (Z.mod_pos_bound wc n ltac:(lia)) as Ho.
  unfold write_copy. rewrite offset_mod. set (o := wc mod n) in *.
  assert (Hlen : forall m, 0 <= m <= blen src -> blen (take (Z.to_nat m) src) = m).
  { intros m Hm. unfold blen in *. rewrite length_take. lia. }
  destruct (Z.leb_spec (o + tw) n) as [Hle|Hgt].
  - destruct (copy_to o (take (Z.to_nat tw) src) buf) as [buf'| |] eqn:E.
    2,3: unfold copy_to in E; rewrite Hlen in E by lia; destruct (Z.leb_spec (o + tw) (blen buf)); [done|lia].
    exists buf'. split; [done|]. split; [unfold blen in *; by destruct (copy_to_lookup _ _ _ _ 0 (proj1 Ho) E) as [-> _]|].
    intros i Hi. rewrite ring_pos by lia. fold o. pose proof (copy_to_lookup _ _ _ _ (Z.to_nat (if o + i <? n then o + i else o + i - n)) (proj1 Ho) E) as [_ ->].
    rewrite Hlen by lia. destruct (Z.ltb_spec (o + i) n).
    + destruct (decide (i < tw)); [rewrite decide_True by lia|by rewrite decide_False by lia].
      rewrite lookup_take_lt by lia. f_equal. lia.
    + by rewrite decide_False, decide_False by lia.
  - set (f := n - o) in *.
    destruct (copy_to o (take (Z.to_nat f) src) buf) as [buf1| |] eqn:E1.
    2,3: unfold copy_to in E1; rewrite Hlen in E1 by lia; destruct (Z.leb_spec (o + f) (blen buf)); [done|lia].
    assert (Hl1 : blen buf1 = n) by (unfold blen in *; by destruct (copy_to_lookup _ _ _ _ 0 (proj1 Ho) E1) as [-> _]).
    assert (Hl2 : blen (slice (Z.to_nat f) (Z.to_nat (tw - f)) src) = tw - f).
    { unfold blen in *. rewrite length_slice by lia. lia. }
    destruct (copy_to 0 (slice (Z.to_nat f) (Z.to_nat (tw - f)) src) buf1) as [buf2| |] eqn:E2.
    2,3: unfold copy_to in E2; rewrite Hl2 in E2; destruct (Z.leb_spec (0 + (tw - f)) (blen buf1)); [done|lia].
    exists buf2. split; [done|]. split; [unfold blen in *; by destruct (copy_to_lookup _ _ _ _ 0 (Z.le_refl 0) E2) as [-> _]|].
    intros i Hi. rewrite ring_pos by lia. fold o. set (j := if o + i <? n then o + i else o + i - n).
    assert (Hj : 0 <= j < n) by (unfold j; destruct (Z.ltb_spec (o + i) n); lia).
    pose proof (copy_to_lookup _ _ _ _ (Z.to_nat j) (Z.le_refl 0) E2) as [_ ->].
    pose proof (copy_to_lookup _ _ _ _ (Z.to_nat j) (proj1 Ho) E1) as [_ ->]. rewrite Hl2, Hlen by lia.
    unfold j in *. destruct (Z.ltb_spec (o + i) n).
    + rewrite decide_False by lia. rewrite decide_True by lia. rewrite decide_True by lia.
      rewrite lookup_take_lt by lia. f_equal. lia.
    + destruct (decide (i < tw)).
      * rewrite decide_True by lia. rewrite lookup_slice by lia. f_equal. lia.
      * by rewrite decide_False, decide_False by lia.
Qed.

(** [read_copy] returns the [to_read] positions after [rc]. *)
Lemma read_copy_spec rc tr buf : 0 <= rc -> 0 < tr <= n -> blen buf = n ->
  exists data, read_copy n rc tr buf = Ok data /\ blen data = tr /\
    forall i, 0 <= i < tr -> data !! Z.to_nat i = buf !! Z.to_nat ((rc + i) mod n).
Proof.
  intros Hrc Htr Hbuf. pose proof n_bounds as Hn. pose proof (Z.mod_pos_bound rc n ltac:(lia)) as Ho.
  unfold read_copy. rewrite offset_mod. set (o := rc mod n) in *.
  assert (Hcf : forall off m, 0 <= off -> 0 <= m -> off + m <= n ->
    copy_from off m buf = Ok (slice (Z.to_nat off) (Z.to_nat m) buf) /\ blen (slice (Z.to_nat off) (Z.to_nat m) buf) = m).
  { intros off m H1 H2 H3. unfold copy_from. rewrite (proj2 (Z.leb_le _ _)) by lia. split; [done|].
    unfold blen in *. rewrite length_slice; lia. }
  destruct (Z.leb_spec (o + tr) n) as [Hle|Hgt].
  - destruct (Hcf o tr) as [-> Hl]; [lia..|]. eexists. split; [done|]. split; [done|]. intros i Hi.
    rewrite lookup_slice by lia. rewrite ring_pos by lia. fold o. rewrite (proj2 (Z.ltb_lt _ _)) by lia. f_equal. lia.
  - destruct (Hcf o (n - o)) as [-> Hl1]; [lia..|]. destruct (Hcf 0 (tr - (n - o))) as [-> Hl2]; [lia..|].
    eexists. split; [done|]. split; [unfold blen in *; rewrite length_app; lia|]. intros i Hi. rewrite ring_pos by lia. fold o.
    unfold blen in *. destruct (Z.ltb_spec (o + i) n).
    + rewrite lookup_app_l by lia. rewrite lookup_slice by lia. f_equal. lia.
    + rewrite lookup_app_r by lia. rewrite lookup_slice by lia. f_equal. lia.
Qed.

(** ** Undisturbed calls *)

Definition LIMIT : Z := 2 ^ 63.

(** The ring holds the bytes of [l], from the reader's position on. *)
Record ring_rep (s : shared) (l : bytes) : Prop := {
  rr_len : blen (work_buf s) = n;
  rr_reader : 0 <= reader_counter s;
  rr_writer : writer_counter s = reader_counter s + blen l;
  rr_limit : writer_counter s < LIMIT;
  rr_room : blen l <= n;
  rr_bytes : forall i, 0 <= i < blen l -> work_buf s !! Z.to_nat ((reader_counter s + i) mod n) = l !! Z.to_nat i
}.

Lemma blen_pos l : 0 <= blen l.
Proof. unfold blen. lia. Qed.

Lemma write_count_spec rc wc len : 0 <= rc -> rc <= wc <= rc + n -> wc < LIMIT -> 0 <= len ->
  write_count n rc wc len = Z.min len (rc + n - wc).
Proof.
  intros H1 H2 H3 H4. pose proof n_bounds. unfold write_count, LIMIT in *.
  rewrite (u64_id (rc + n)) by (unfold is_u64; lia). rewrite u64_id by (unfold is_u64; lia).
  destruct (Z.ltb_spec len (rc + n - wc)); lia.
Qed.

Lemma read_count_spec rc wc len : 0 <= rc <= wc -> wc < LIMIT -> 0 <= len -> read_count rc wc len = Z.min len (wc - rc).
Proof.
  intros H1 H2 H3. unfold read_count, LIMIT in *. rewrite u64_id by (unfold is_u64; lia).
  destruct (Z.ltb_spec len (wc - rc)); lia.
Qed.

Lemma ring_write s l src : ring_rep s l -> writer_counter s + blen src < LIMIT ->
  let m := Z.min (blen src) (n - blen l) in
  exists s', PipeBuffer_write n src s = (s', Ok m) /\ ring_rep s' (l ++ take (Z.to_nat m) src).
Proof.
  intros [H1 H2 H3 H4 H5 H6] Hlim m. pose proof n_bounds. pose proof (blen_pos l). pose proof (blen_pos src).
  assert (Hm : write_count n (reader_counter s) (writer_counter s) (blen src) = m).
  { rewrite write_count_spec by lia. unfold m. lia. }
  assert (Hmb : 0 <= m <= blen src /\ m <= n - blen l) by (unfold m; lia).
  unfold PipeBuffer_write, bind at 1, get_state. rewrite Hm. destruct (Z.eqb_spec m 0) as [E|E].
  { exists s. rewrite E. split; [done|]. by rewrite app_nil_r. }
  destruct (write_copy_spec (writer_counter s) m src (work_buf s)) as (buf & Ew & Hb & Hbytes); [lia..|].
  unfold bind, lift, modify, ret. rewrite Ew. eexists. split; [done|].
  assert (Hl : blen (l ++ take (Z.to_nat m) src) = blen l + m) by (unfold blen in *; rewrite length_app, length_take; lia).
  split; unfold LIMIT in *; cbn [reader_counter writer_counter work_buf set_writer set_work_buf]; rewrite ?Hl;
    rewrite ?u64_id by (unfold is_u64; lia); try lia.
  intros i Hi. rewrite H3 in Hbytes. destruct (decide (i < blen l)) as [Hlt|Hge].
  - specialize (Hbytes (n - blen l + i)). replace (reader_counter s + blen l + (n - blen l + i)) with (reader_counter s + i + 1 * n) in Hbytes by lia.
    rewrite Z_mod_plus_full, decide_False in Hbytes by lia. rewrite Hbytes by lia. rewrite H6 by lia.
    unfold blen in *. by rewrite lookup_app_l by lia.
  - specialize (Hbytes (i - blen l)). replace (reader_counter s + blen l + (i - blen l)) with (reader_counter s + i) in Hbytes by lia.
    rewrite decide_True in Hbytes by lia. rewrite Hbytes by lia. unfold blen in *.
    rewrite lookup_app_r by lia. rewrite lookup_take_lt by lia. f_equal. lia.
Qed.

Lemma ring_read s l len : ring_rep s l -> 0 <= len ->
  let m := Z.min len (blen l) in
  exists s', PipeBuffer_read n len s = (s', Ok (take (Z.to_nat m) l)) /\ ring_rep s' (drop (Z.to_nat m) l).
Proof.
  intros [H1 H2 H3 H4 H5 H6] Hlen m. pose proof n_bounds. pose proof (blen_pos l).
  assert (Hm : read_count (reader_counter s) (writer_counter s) len = m) by (rewrite read_count_spec by lia; unfold m; lia).
  assert (Hmb : 0 <= m <= len /\ m <= blen l) by (unfold m; lia).
  unfold PipeBuffer_read, bind at 1, get_state. rewrite Hm. destruct (Z.eqb_spec m 0) as [E|E].
  { exists s. rewrite E. by split. }
  destruct (read_copy_spec (reader_counter s) m (work_buf s)) as (data & Er & Hb & Hbytes); [lia..|].
  assert (data = take (Z.to_nat m) l) as ->.
  { unfold blen in *. apply list_eq_same_length with (Z.to_nat m); [rewrite length_take; lia|lia|].
    intros i x y Hi Hx Hy. specialize (Hbytes (Z.of_nat i)). rewrite Nat2Z.id in Hbytes. rewrite Hbytes, H6 in Hx by lia.
    rewrite lookup_take_lt in Hy by lia. rewrite Nat2Z.id in Hx. congruence. }
  unfold bind, lift, modify, ret. rewrite Er. eexists. split; [done|].
  assert (Hl : blen (drop (Z.to_nat m) l) = blen l - m) by (unfold blen in *; rewrite length_drop; lia).
  split; unfold LIMIT in *; cbn [reader_counter writer_counter work_buf set_reader]; rewrite ?Hl;
    rewrite ?u64_id by (unfold is_u64; lia); try lia.
  intros i Hi. replace (reader_counter s + m + i) with (reader_counter s + (m + i)) by lia. rewrite H6 by lia.
  rewrite lookup_drop. f_equal. lia.
Qed.

Lemma ring_unwrite s l : ring_rep s l ->
  exists s', PipeBuffer_unwrite s = (s', Ok (blen l)) /\ ring_rep s' [].
Proof.
  intros [H1 H2 H3 H4 H5 H6]. pose proof n_bounds. pose proof (blen_pos l). unfold PipeBuffer_unwrite, bind, get_state, modify, ret.
  destruct (Z.eqb_spec (writer_counter s) (reader_counter s)) as [E|E].
  - assert (blen l = 0) as Hl by lia. rewrite Hl. exists s. split; [done|]. destruct l; [by split|done].
  - eexists. unfold LIMIT in *. rewrite u64_id by (unfold is_u64; lia).
    replace (writer_counter s - reader_counter s) with (blen l) by lia. split; [done|].
    split; unfold LIMIT; cbn [reader_counter writer_counter work_buf set_writer]; change (blen []) with 0; lia || done.
Qed.

(** ** One reader and one writer *)

Record psys : Type := mkPsys {
  ps : shared; w_err : option PipeError; w_pc : wpc; r_err : option PipeError; r_pc : rpc;
  r_gone : bool;    (* the reader has gone *)
  pub : bytes;      (* the bytes made visible *)
  got : bytes;      (* the bytes taken *)
  base : Z;         (* the writer's counter when its last call started *)
  cur : bytes;      (* the buffer of that call *)
  total : Z         (* how many bytes were ever made visible *)
}.

(** What a step of the writer does to the stream. *)
Definition w_pub (p : wpc) (l : bytes) : bytes :=
  match p with
  | WPublish buf written to_write => l ++ take (Z.to_nat to_write) (drop (Z.to_nat written) buf)
  | WUnstore _ _ rc => take (Z.to_nat rc) l
  | _ => l
  end.
Definition w_count (p : wpc) : Z := match p with WPublish _ _ to_write => to_write | _ => 0 end.
Definition r_got (p : rpc) (l : bytes) : bytes := match p with RPublish _ data => l ++ data | _ => l end.

(** System calls of the writer fail when the reader has gone; with a time-out, a wait may also end by itself. *)
Definition may_fail (timeouts : bool) (s : psys) (sys : option PipeError) : Prop :=
  sys = None \/ r_gone s = true \/
  (timeouts = true /\ sys = Some TimedOut /\ exists buf written, w_pc s = WWait buf written).

Inductive pipe_step (timeouts : bool) (s : psys) : psys -> Prop :=
| step_write buf r : w_pc s = WDone r ->
    pipe_step timeouts s (mkPsys (ps s) (w_err s) (WStart buf) (r_err s) (r_pc s) (r_gone s) (pub s) (got s)
      (writer_counter (ps s)) buf (total s))
| step_read len r : 0 <= len -> r_gone s = false -> r_pc s = RDone r ->
    pipe_step timeouts s (mkPsys (ps s) (w_err s) (w_pc s) (r_err s) (RStart len) (r_gone s) (pub s) (got s)
      (base s) (cur s) (total s))
| step_quit r : r_pc s = RDone r ->
    pipe_step timeouts s (mkPsys (ps s) (w_err s) (w_pc s) (r_err s) (r_pc s) true (pub s) (got s)
      (base s) (cur s) (total s))
| step_w sys sh e p : may_fail timeouts s sys -> w_step n sys (ps s) (w_err s) (w_pc s) = (sh, e, p) ->
    pipe_step timeouts s (mkPsys sh e p (r_err s) (r_pc s) (r_gone s) (w_pub (w_pc s) (pub s)) (got s)
      (base s) (cur s) (total s + w_count (w_pc s)))
| step_r sys sh e p : r_step n sys (ps s) (r_err s) (r_pc s) = (sh, e, p) ->
    pipe_step timeouts s (mkPsys sh (w_err s) (w_pc s) e p (r_gone s) (pub s) (r_got (r_pc s) (got s))
      (base s) (cur s) (total s)).

(** A new pipe; no call has been made. *)
Definition pipe_start (buf : bytes) : psys :=
  mkPsys (mkShared 0 0 buf) None (WDone (Err InvalidArgument)) None (RDone (Ok [])) false [] [] 0 [] 0.

(** The states that are reached while fewer than [LIMIT] bytes have been made visible. *)
Inductive pipe_reachable (timeouts : bool) : psys -> Prop :=
| pipe_new buf : blen buf = n -> pipe_reachable timeouts (pipe_start buf)
| pipe_next s s' : pipe_reachable timeouts s -> pipe_step timeouts s s' -> total s' < LIMIT -> pipe_reachable timeouts s'.

(** ** The invariant *)

Abbreviation rc s := (reader_counter (ps s)).
Abbreviation wc s := (writer_counter (ps s)).

(** The call of the writer has made [w] bytes of its buffer visible. *)
Definition sent (s : psys) (w : Z) : Prop :=
  0 <= base s /\ wc s = base s + w /\ pub s = take (Z.to_nat (base s)) (pub s) ++ take (Z.to_nat w) (cur s).

Definition w_ok (s : psys) : Prop :=
  match w_pc s with
  | WStart buf => cur s = buf /\ sent s 0
  | WCheck buf w | WWait buf w | WLoad buf w => cur s = buf /\ 0 <= w < blen buf /\ sent s w
  | WCopy buf w tw c =>
    cur s = buf /\ 0 <= w < blen buf /\ sent s w /\ c = wc s /\ 0 < tw <= blen buf - w /\ wc s + tw <= rc s + n
  | WPublish buf w tw =>
    cur s = buf /\ 0 <= w < blen buf /\ sent s w /\ 0 < tw <= blen buf - w /\ wc s + tw <= rc s + n /\
    (forall i, 0 <= i < tw -> work_buf (ps s) !! Z.to_nat ((wc s + i) mod n) = buf !! Z.to_nat (w + i))
  | WWake buf w => cur s = buf /\ 0 < w /\ w = blen buf /\ sent s w
  | WUnload w e => 0 <= w <= blen (cur s) /\ sent s w /\ r_gone s = true
  | WUnstore w e c => 0 <= w <= blen (cur s) /\ sent s w /\ r_gone s = true /\ c = rc s
  | WDone (Ok m) => 0 < m <= blen (cur s) /\ sent s m /\ (m = blen (cur s) \/ r_gone s = true)
  | WDone (Err _) => wc s <= base s
  | WDone Panic => False
  end.

Definition r_ok (s : psys) : Prop :=
  match r_pc s with
  | RStart len => 0 <= len
  | RCheck len | RWait len => 0 < len
  | RLoad len last => 0 < len
  | RCopy len last tr c => c = rc s /\ 0 < tr <= len /\ rc s + tr <= wc s
  | RPublish last data => 0 < blen data /\ rc s + blen data <= wc s /\ data = slice (Z.to_nat (rc s)) (length data) (pub s)
  | RWake data | RDone (Ok data) => data `suffix_of` got s
  | RDone (Err _) => True
  | RDone Panic => False
  end.

Record pinv (s : psys) : Prop := {
  pi_len : blen (work_buf (ps s)) = n;
  pi_reader : rc s = blen (got s);
  pi_writer : wc s = blen (pub s);
  pi_total : blen (pub s) <= total s;
  pi_order : rc s <= wc s <= rc s + n;
  pi_stream : got s = take (length (got s)) (pub s);
  pi_bytes : forall i, rc s <= i < wc s -> work_buf (ps s) !! Z.to_nat (i mod n) = pub s !! Z.to_nat i;
  pi_gone : r_gone s = true -> exists r, r_pc s = RDone r;
  pi_w : w_ok s;
  pi_r : r_ok s
}.

(** *** Steps of the writer *)

Definition put_w (s : psys) (sh : shared) (e : option PipeError) (p : wpc) (l : bytes) (t : Z) : psys :=
  mkPsys sh e p (r_err s) (r_pc s) (r_gone s) l (got s) (base s) (cur s) t.

Lemma w_move s e p t : pinv s -> total s <= t -> w_ok (put_w s (ps s) e p (pub s) t) -> pinv (put_w s (ps s) e p (pub s) t).
Proof. intros [H1 H2 H3 H4 H5 H6 H7 H8 H9 H10] Ht Hw. split; try done. simpl. lia. Qed.

Lemma sent_end s w : pinv s -> sent s w -> 0 <= w -> Z.to_nat (base s) = length (take (Z.to_nat (base s)) (pub s)).
Proof.
  intros HI (H1 & H2 & _) Hw. pose proof (pi_writer _ HI) as Hp. unfold blen in Hp. rewrite length_take. lia.
Qed.

Lemma w_copy s e buf w tw c t b : pinv s -> w_pc s = WCopy buf w tw c -> total s <= t ->
  write_copy n c tw (drop (Z.to_nat w) buf) (work_buf (ps s)) = Ok b ->
  pinv (put_w s (set_work_buf b (ps s)) e (WPublish buf w tw) (pub s) t).
Proof.
  intros [H1 H2 H3 H4 H5 H6 H7 H8 H9 H10] Hp Ht Hc. unfold w_ok in H9. rewrite Hp in H9.
  destruct H9 as (A1 & A2 & A3 & -> & A5 & A6). pose proof n_bounds. pose proof (blen_pos (got s)).
  destruct (write_copy_spec (wc s) tw (drop (Z.to_nat w) buf) (work_buf (ps s))) as (b' & E & Hb & Hbytes);
    [lia|lia|unfold blen in *; rewrite length_drop; lia|done|]. rewrite Hc in E. injection E as <-.
  split; try done; cbn [put_w ps set_work_buf reader_counter writer_counter work_buf pub got total w_pc r_pc r_gone].
  - lia.
  - intros i Hi. specialize (Hbytes (i + n - wc s)). replace (wc s + (i + n - wc s)) with (i + 1 * n) in Hbytes by lia.
    rewrite Z_mod_plus_full, decide_False in Hbytes by lia. rewrite Hbytes by lia. by apply H7.
  - split_and!; try done; try lia. intros i Hi. simpl. rewrite Hbytes by lia. rewrite decide_True by lia.
    rewrite lookup_drop. f_equal. lia.
Qed.

Lemma after_write_ok s w t l sh e buf : cur s = buf -> 0 < w <= blen buf ->
  sent (put_w s sh e (WWake buf w) l t) w -> w_ok (put_w s sh e (after_write buf w) l t).
Proof.
  intros Hc Hw Hs. unfold after_write. destruct (Z.eqb_spec w (blen buf)); unfold w_ok; simpl.
  - split_and!; [done|lia|done|done].
  - split_and!; [done|lia|lia|done].
Qed.

Lemma w_publish s e buf w tw t : pinv s -> w_pc s = WPublish buf w tw -> t = total s + tw -> t < LIMIT ->
  pinv (put_w s (set_writer (u64 (wc s + tw)) (ps s)) e (after_write buf (w + tw)) (w_pub (w_pc s) (pub s)) t).
Proof.
  intros [H1 H2 H3 H4 H5 H6 H7 H8 H9 H10] Hp -> Ht. unfold w_ok in H9. rewrite Hp in *.
  destruct H9 as (A1 & A2 & (S1 & S2 & S3) & A4 & A5 & A6). pose proof n_bounds. pose proof (blen_pos (got s)).
  unfold LIMIT in Ht. rewrite u64_id by (unfold is_u64; lia). set (new := take (Z.to_nat tw) (drop (Z.to_nat w) buf)).
  assert (Hnew : blen new = tw) by (unfold new, blen in *; rewrite length_take, length_drop; lia).
  assert (Hl : blen (pub s ++ new) = wc s + tw) by (unfold blen in *; rewrite length_app; lia).
  split; cbn [put_w ps set_writer reader_counter writer_counter work_buf pub got total w_pc r_pc r_gone w_pub]; fold new; try done; try lia.
  - rewrite take_app_le; [done|]. unfold blen in *. lia.
  - intros i Hi. destruct (decide (i < wc s)) as [Hlt|Hge].
    + rewrite H7 by lia. unfold blen in *. by rewrite lookup_app_l by lia.
    + specialize (A6 (i - wc s)). replace (wc s + (i - wc s)) with i in A6 by lia. rewrite A6 by lia.
      unfold blen in *. rewrite lookup_app_r by lia. unfold new. rewrite lookup_take_lt by lia. rewrite lookup_drop. f_equal. lia.
  - apply after_write_ok; [done|lia|]. split_and!; [done|simpl; lia|]. simpl. rewrite A1.
    rewrite take_app_le by (unfold blen in *; lia). rewrite S3 at 1. rewrite <- app_assoc. f_equal. rewrite A1.
    unfold new. rewrite Z2Nat.inj_add by lia. apply take_take_drop.
  - revert H10. unfold r_ok. cbn [put_w r_pc ps reader_counter writer_counter pub got set_writer]. destruct (r_pc s) as [| | | |len last tr c|last data| |]; try done.
    + intros (? & ? & ?). split_and!; done || lia.
    + intros (B1 & B2 & B3). split_and!; [done|lia|]. unfold blen in *. by rewrite slice_app_l by lia.
Qed.

Lemma w_unload s e w err t : pinv s -> w_pc s = WUnload w err -> total s <= t -> wc s = rc s ->
  pinv (put_w s (ps s) e (after_unwrite w 0 err) (pub s) t).
Proof.
  intros HI Hp Ht E. pose proof (pi_w _ HI) as Hw. unfold w_ok in Hw. rewrite Hp in Hw. destruct Hw as (A1 & (S1 & S2 & S3) & A3).
  apply w_move; [done|done|]. unfold after_unwrite. rewrite (proj2 (Z.leb_le 0 w)) by lia. rewrite Z.sub_0_r.
  destruct (Z.ltb_spec 0 w); unfold w_ok; simpl; [|lia]. split_and!; [lia|lia|by split_and!|by right].
Qed.

Lemma w_unstore s e w err c t : pinv s -> w_pc s = WUnstore w err c -> total s <= t -> total s < LIMIT ->
  pinv (put_w s (set_writer c (ps s)) e (after_unwrite w (u64 (wc s - c)) err) (w_pub (w_pc s) (pub s)) t).
Proof.
  intros HI Hp Ht Hlim. pose proof (sent_end s w HI) as Hse. destruct HI as [H1 H2 H3 H4 H5 H6 H7 H8 H9 H10].
  unfold w_ok in H9. rewrite Hp in *. destruct H9 as (A1 & Hsent & A3 & ->). pose proof Hsent as (S1 & S2 & S3).
  specialize (Hse Hsent (proj1 A1)). pose proof (blen_pos (got s)). pose proof n_bounds. unfold LIMIT in Hlim.
  rewrite u64_id by (unfold is_u64; lia).
  assert (Hl : blen (take (Z.to_nat (rc s)) (pub s)) = rc s) by (unfold blen in *; rewrite length_take; lia).
  split; cbn [put_w ps set_writer reader_counter writer_counter work_buf pub got total w_pc r_pc r_gone w_pub]; try done; try lia.
  - rewrite take_take. rewrite H6 at 1. f_equal. unfold blen in *. lia.
  - unfold after_unwrite. destruct (Z.leb_spec (wc s - rc s) w) as [Hle|Hgt]; simpl; [|unfold w_ok; simpl; lia].
    destruct (Z.ltb_spec 0 (w - (wc s - rc s))) as [Hpos|Hneg]; unfold w_ok; simpl; [|lia].
    split; [lia|]. split; [|by right]. split_and!; simpl; [done|lia|]. rewrite take_take. rewrite Nat.min_l by lia.
    rewrite S3 at 1. rewrite take_app, take_take, <- Hse. f_equal; [f_equal; lia|]. rewrite take_take. f_equal. lia.
  - destruct (H8 A3) as [r Hr]. unfold r_ok in *. simpl in *. by rewrite Hr in *.
Qed.

Lemma w_preserve s sys sh e p : pinv s -> total s + w_count (w_pc s) < LIMIT -> may_fail false s sys ->
  w_step n sys (ps s) (w_err s) (w_pc s) = (sh, e, p) ->
  pinv (put_w s sh e p (w_pub (w_pc s) (pub s)) (total s + w_count (w_pc s))).
Proof.
  intros HI Hlim Hf Hs. pose proof (pi_w _ HI) as Hw. pose proof n_bounds. pose proof (pi_order _ HI). pose proof (pi_writer _ HI).
  pose proof (pi_total _ HI). pose proof (pi_reader _ HI). pose proof (blen_pos (got s)). unfold w_ok in Hw.
  assert (Hgone : forall e, sys = Some e -> r_gone s = true) by (intros e' ->; destruct Hf as [?|[?|[? _]]]; done).
  destruct (w_pc s) as [buf|buf w|buf w|buf w|buf w tw c|buf w tw|buf w|w err|w err c|r] eqn:Hp;
    cbn [w_step w_count] in *; rewrite ?Z.add_0_r in *.
  - destruct Hw as (A1 & A2). assert (Hi : invariants_hold (ps s) = true) by (unfold invariants_hold; apply Z.leb_le; lia).
    rewrite Hi in Hs. simpl in Hs. destruct A2 as (S1 & S2 & S3).
    destruct (w_err s); [|destruct (Z.eqb_spec (blen buf) 0)]; injection Hs as <- <- <-;
      (apply w_move; [done|done|]; unfold w_ok; simpl; [lia || (split_and!; done || lia || (pose proof (blen_pos buf); lia))]).
  - destruct (can_write n (ps s)); injection Hs as <- <- <-; by apply w_move.
  - destruct sys as [err|]; injection Hs as <- <- <-; apply w_move; try done. unfold w_ok. simpl.
    destruct Hw as (<- & A2 & A3). split_and!; [lia|lia|done|by eapply Hgone].
  - destruct Hw as (<- & A2 & A3). rewrite write_count_spec in Hs by lia.
    destruct (Z.eqb_spec (Z.min (blen (cur s) - w) (rc s + n - wc s)) 0); injection Hs as <- <- <-; apply w_move; try done.
    + unfold after_write. rewrite (proj2 (Z.eqb_neq _ _)) by lia. unfold w_ok. by simpl.
    + unfold w_ok. simpl. split_and!; try done; lia.
  - destruct Hw as (A1 & A2 & A3 & -> & A5 & A6).
    destruct (write_copy_spec (wc s) tw (drop (Z.to_nat w) buf) (work_buf (ps s))) as (b' & E & _);
      [lia|lia|unfold blen in *; rewrite length_drop; lia|apply (pi_len _ HI)|].
    rewrite E in Hs. injection Hs as <- <- <-. by apply (w_copy s _ buf w tw (wc s)).
  - injection Hs as <- <- <-. pose proof (w_publish s (w_err s) buf w tw _ HI Hp eq_refl Hlim) as Hx. by rewrite Hp in Hx.
  - destruct sys as [err|]; injection Hs as <- <- <-; apply w_move; try done; unfold w_ok; simpl;
      destruct Hw as (<- & A2 & A3 & A4); [|split_and!; [lia|lia|done|by left]]. split_and!; [lia|lia|done|by eapply Hgone].
  - destruct (Z.eqb_spec (wc s) (rc s)); injection Hs as <- <- <-; [by apply w_unload|].
    apply w_move; [done|done|]. unfold w_ok. simpl. by destruct Hw as (A1 & A2 & A3).
  - injection Hs as <- <- <-. pose proof (w_unstore s (w_err s) w err c _ HI Hp (Z.le_refl _) Hlim) as Hx. by rewrite Hp in Hx.
  - injection Hs as <- <- <-. by apply w_move.
Qed.

(** *** Steps of the reader *)

Definition put_r (s : psys) (sh : shared) (e : option PipeError) (p : rpc) (g : bytes) : psys :=
  mkPsys sh (w_err s) (w_pc s) e p (r_gone s) (pub s) g (base s) (cur s) (total s).

Lemma r_move s e p : pinv s -> (r_gone s = true -> exists r, p = RDone r) -> r_ok (put_r s (ps s) e p (got s)) ->
  pinv (put_r s (ps s) e p (got s)).
Proof. intros [H1 H2 H3 H4 H5 H6 H7 H8 H9 H10] Hg Hr. by split. Qed.

Lemma r_publish s e last data p : pinv s -> r_pc s = RPublish last data -> total s < LIMIT ->
  p = RWake data \/ p = RDone (Ok data) ->
  pinv (put_r s (set_reader (u64 (rc s + blen data)) (ps s)) e p (got s ++ data)).
Proof.
  intros [H1 H2 H3 H4 H5 H6 H7 H8 H9 H10] Hp Hlim Hq. unfold r_ok in H10. rewrite Hp in *. destruct H10 as (A1 & A2 & A3).
  pose proof n_bounds. pose proof (blen_pos (got s)). unfold LIMIT in Hlim. rewrite u64_id by (unfold is_u64; lia).
  assert (Hng : r_gone s <> true) by (intros Hg; by destruct (H8 Hg) as [r ?]).
  split; cbn [put_r ps set_reader reader_counter writer_counter work_buf pub got total w_pc r_pc r_gone]; try done; try lia.
  - unfold blen in *. rewrite length_app. lia.
  - rewrite length_app. rewrite A3 at 1. rewrite H6 at 1. unfold slice.
    replace (Z.to_nat (rc s)) with (length (got s)) by (unfold blen in *; lia). apply take_take_drop.
  - intros i Hi. apply H7. lia.
  - revert H9. unfold w_ok. cbn [put_r w_pc ps set_reader reader_counter writer_counter work_buf cur r_gone].
    destruct (w_pc s) as [| | | |buf w tw c|buf w tw| |w err|w err c|[]]; try done.
    + intros (B1 & B2 & B3 & B4 & B5 & B6). split_and!; try done; lia.
    + intros (B1 & B2 & B3 & B4 & B5 & B6). split_and!; try done; lia.
    + by intros (_ & _ & ? & _).
  - unfold r_ok. destruct Hq as [->| ->]; simpl; by exists (got s).
Qed.

Lemma r_copy s e len last tr c data : pinv s -> r_pc s = RCopy len last tr c -> total s < LIMIT ->
  read_copy n c tr (work_buf (ps s)) = Ok data -> pinv (put_r s (ps s) e (RPublish last data) (got s)).
Proof.
  intros HI Hp Hlim Hc. pose proof (pi_r _ HI) as Hr. unfold r_ok in Hr. rewrite Hp in Hr. destruct Hr as (-> & A2 & A3).
  pose proof (pi_order _ HI). pose proof (pi_reader _ HI) as Hrc. pose proof (blen_pos (got s)). pose proof (pi_writer _ HI) as Hwc.
  destruct (read_copy_spec (rc s) tr (work_buf (ps s))) as (data' & E & Hl & Hb); [lia|lia|apply (pi_len _ HI)|].
  rewrite Hc in E. injection E as <-. apply r_move; [done| |].
  - intros Hg. destruct (pi_gone _ HI Hg) as [r ?]. congruence.
  - unfold r_ok. simpl. split_and!; [lia|lia|]. unfold blen in *.
    apply list_eq_same_length with (length data); [rewrite length_slice; lia|done|].
    intros i x y Hi Hx Hy. rewrite lookup_slice in Hy by lia. specialize (Hb (Z.of_nat i)). rewrite Nat2Z.id in Hb.
    rewrite Hb, (pi_bytes _ HI) in Hx by lia. replace (Z.to_nat (rc s + Z.of_nat i)) with (Z.to_nat (rc s) + i)%nat in Hx by lia.
    congruence.
Qed.

Lemma r_preserve s sys sh e p : pinv s -> total s < LIMIT -> r_step n sys (ps s) (r_err s) (r_pc s) = (sh, e, p) ->
  pinv (put_r s sh e p (r_got (r_pc s) (got s))).
Proof.
  intros HI Hlim Hs. pose proof (pi_r _ HI) as Hr. pose proof n_bounds. pose proof (pi_order _ HI). pose proof (pi_writer _ HI).
  pose proof (pi_total _ HI). pose proof (pi_reader _ HI). pose proof (blen_pos (got s)). pose proof (pi_gone _ HI) as Hgone.
  unfold r_ok in Hr. destruct (r_pc s) as [len|len|len|len last|len last tr c|last data|data|r] eqn:Hp; cbn [r_step r_got] in *;
    try (assert (Hg : forall q, r_gone s = true -> exists r, q = RDone r) by (intros q Hg; by destruct (Hgone Hg))).
  - assert (Hi : invariants_hold (ps s) = true) by (unfold invariants_hold; apply Z.leb_le; lia). rewrite Hi in Hs. simpl in Hs.
    destruct (Z.eqb_spec len 0); injection Hs as <- <- <-; (apply r_move; [done|by apply Hg|]); [done|]. unfold r_ok. simpl. lia.
  - destruct (can_read (ps s)); [|destruct (r_err s)]; injection Hs as <- <- <-; (apply r_move; [done|by apply Hg|done]).
  - destruct sys; injection Hs as <- <- <-; (apply r_move; [done|by apply Hg|done]).
  - rewrite read_count_spec in Hs by lia. destruct (Z.eqb_spec (Z.min len (wc s - rc s)) 0).
    + destruct last; [|injection Hs as <- <- <-; apply r_move; [done|by apply Hg|done]].
      destruct (r_err s) as [[]|]; simpl in Hs; injection Hs as <- <- <-; (apply r_move; [done|by apply Hg|done]).
    + injection Hs as <- <- <-. apply r_move; [done|by apply Hg|]. unfold r_ok. simpl. split_and!; lia.
  - destruct Hr as (-> & A2 & A3).
    destruct (read_copy_spec (rc s) tr (work_buf (ps s))) as (data & E & _); [lia|lia|apply (pi_len _ HI)|].
    rewrite E in Hs. injection Hs as <- <- <-. by apply (r_copy s _ len last tr (rc s)).
  - destruct last; [|destruct (r_err s)]; injection Hs as <- <- <-; eapply (r_publish s); eauto.
  - destruct sys; injection Hs as <- <- <-; (apply r_move; [done|by apply Hg|done]).
  - injection Hs as <- <- <-. apply r_move; [done|by intros _; exists r|done].
Qed.

Lemma pinv_start buf : blen buf = n -> pinv (pipe_start buf).
Proof. intros Hb. pose proof n_bounds. split; simpl; try done; try (change (blen []) with 0; lia). by exists []. Qed.

Lemma pinv_reachable s : pipe_reachable false s -> pinv s /\ total s < LIMIT.
Proof.
  induction 1 as [buf Hb|s s' Hr [HI Hlim] Hs Hlim']; [split; [by apply pinv_start|done]|]. split; [|done].
  destruct Hs as [buf r Hp|len r Hl Hg Hp|r Hp|sys sh e p Hf Hs|sys sh e p Hs].
  - pose proof (blen_pos (pub s)). destruct HI as [H1 H2 H3 H4 H5 H6 H7 H8 H9 H10]. split; try done.
    split; [done|]. split_and!; simpl; [lia|lia|]. rewrite app_nil_r. symmetry. apply take_ge. unfold blen in *. lia.
  - apply (r_move s (r_err s) (RStart len) HI); [by rewrite Hg|done].
  - destruct HI as [H1 H2 H3 H4 H5 H6 H7 H8 H9 H10]. split; try done; [by exists r|].
    revert H9. unfold w_ok. simpl. destruct (w_pc s) as [| | | | | | |w err|w err c|[]]; try done; intros; by intuition.
  - by apply (w_preserve s sys).
  - by apply (r_preserve s sys).
Qed.

(** ** Calls that are not disturbed *)

Fixpoint w_solo (m : nat) (s : shared) (e : option PipeError) (p : wpc) : shared * option PipeError * wpc :=
  match m with
  | O => (s, e, p)
  | S m' => let '(s', e', p') := w_step n None s e p in w_solo m' s' e' p'
  end.

Fixpoint r_solo (m : nat) (s : shared) (e : option PipeError) (p : rpc) : shared * option PipeError * rpc :=
  match m with
  | O => (s, e, p)
  | S m' => let '(s', e', p') := r_step n None s e p in r_solo m' s' e' p'
  end.

Lemma w_solo_S m s e p s' e' p' : w_step n None s e p = (s', e', p') -> w_solo (S m) s e p = w_solo m s' e' p'.
Proof. intros H. cbn [w_solo]. by rewrite H. Qed.

Lemma r_solo_S m s e p s' e' p' : r_step n None s e p = (s', e', p') -> r_solo (S m) s e p = r_solo m s' e' p'.
Proof. intros H. cbn [r_solo]. by rewrite H. Qed.

Lemma read_ends s len : pinv s -> total s < LIMIT -> 0 < len -> rc s < wc s ->
  exists sh e, r_solo 6 (ps s) (r_err s) (RStart len) =
    (sh, e, RDone (Ok (slice (Z.to_nat (rc s)) (Z.to_nat (Z.min len (wc s - rc s))) (pub s)))).
Proof.
  intros HI Hlim Hlen Hrw. pose proof (pi_order _ HI). pose proof (pi_reader _ HI). pose proof (pi_writer _ HI) as Hwc.
  pose proof (pi_total _ HI). pose proof (blen_pos (got s)). set (m := Z.min len (wc s - rc s)).
  destruct (read_copy_spec (rc s) m (work_buf (ps s))) as (data & E & Hl & Hb); [lia|lia|apply (pi_len _ HI)|].
  assert (Hd : data = slice (Z.to_nat (rc s)) (Z.to_nat m) (pub s)).
  { unfold blen in *. apply list_eq_same_length with (Z.to_nat m); [rewrite length_slice; lia|lia|].
    intros i x y Hi Hx Hy. rewrite lookup_slice in Hy by lia. specialize (Hb (Z.of_nat i)). rewrite Nat2Z.id in Hb.
    rewrite Hb, (pi_bytes _ HI) in Hx by lia. replace (Z.to_nat (rc s + Z.of_nat i)) with (Z.to_nat (rc s) + i)%nat in Hx by lia.
    congruence. }
  rewrite <- Hd. erewrite r_solo_S.
  2:{ cbn [r_step]. unfold invariants_hold. rewrite (proj2 (Z.leb_le _ _)), (proj2 (Z.eqb_neq _ _)) by lia. reflexivity. }
  erewrite r_solo_S. 2:{ cbn [r_step]. unfold can_read. rewrite (proj2 (Z.ltb_lt _ _)) by lia. reflexivity. }
  erewrite r_solo_S.
  2:{ cbn [r_step]. rewrite read_count_spec by lia. fold m. rewrite (proj2 (Z.eqb_neq _ _)) by lia. reflexivity. }
  erewrite r_solo_S. 2:{ cbn [r_step]. rewrite E. reflexivity. }
  cbn [r_solo r_step]. destruct (r_err s); simpl; eauto.
Qed.

Lemma write_ends s buf : pinv s -> total s < LIMIT -> w_err s = None -> buf <> [] -> wc s + blen buf <= rc s + n ->
  exists sh, w_solo 7 (ps s) None (WStart buf) = (sh, None, WDone (Ok (blen buf))).
Proof.
  intros HI Hlim He Hbuf Hroom. pose proof (pi_order _ HI). pose proof (pi_reader _ HI). pose proof (pi_writer _ HI) as Hwc.
  pose proof (pi_total _ HI). pose proof (blen_pos (got s)). pose proof n_bounds.
  assert (Hl : 0 < blen buf) by (unfold blen; destruct buf; simpl in *; [done|lia]).
  destruct (write_copy_spec (wc s) (blen buf) buf (work_buf (ps s))) as (b & E & _); [lia|lia|lia|apply (pi_len _ HI)|].
  erewrite w_solo_S.
  2:{ cbn [w_step]. unfold invariants_hold. rewrite (proj2 (Z.leb_le _ _)), (proj2 (Z.eqb_neq _ _)) by lia. reflexivity. }
  unfold LIMIT in Hlim. erewrite w_solo_S.
  2:{ cbn [w_step]. unfold can_write. rewrite u64_id by (unfold is_u64; lia). rewrite (proj2 (Z.ltb_lt _ _)) by lia. reflexivity. }
  erewrite w_solo_S.
  2:{ cbn [w_step]. rewrite write_count_spec by (unfold LIMIT; lia). rewrite Z.sub_0_r, Z.min_l by lia.
      rewrite (proj2 (Z.eqb_neq _ _)) by lia. reflexivity. }
  erewrite w_solo_S. 2:{ cbn [w_step]. change (drop (Z.to_nat 0) buf) with buf. rewrite E. reflexivity. }
  cbn [w_solo w_step after_write]. unfold after_write. rewrite Z.add_0_l, Z.eqb_refl. cbn [w_step]. by eexists.
Qed.

(** ** Properties *)

(** C37: A pipe that no call is working on is a bounded queue of bytes: [write] takes as many bytes of its
    argument as there is room for and appends them, [read] returns the oldest bytes, as many as fit, and
    removes them, [unwrite] drops what was not read; each returns the number of bytes. *)
Theorem pipe_buffer_refines s l : ring_rep s l ->
  (forall src, writer_counter s + blen src < LIMIT ->
     let m := Z.min (blen src) (n - blen l) in
     exists s', PipeBuffer_write n src s = (s', Ok m) /\ ring_rep s' (l ++ take (Z.to_nat m) src)) /\
  (forall len, 0 <= len ->
     let m := Z.min len (blen l) in
     exists s', PipeBuffer_read n len s = (s', Ok (take (Z.to_nat m) l)) /\ ring_rep s' (drop (Z.to_nat m) l)) /\
  (exists s', PipeBuffer_unwrite s = (s', Ok (blen l)) /\ ring_rep s' []).
Proof. intros HR. split_and!; intros; [by apply ring_write|by apply ring_read|by apply ring_unwrite]. Qed.

(** C18: As long as no wait of a write has timed out, and whatever the interleaving of the accesses of a reader and
    a writer, what the reader has taken is a prefix of what the writer has made visible, a successful read returns
    the last part of it, at most a ring of bytes is under way, and no call panics; also when reads time out and when
    the reader goes away at any time. *)
Theorem pipe_stream s : pipe_reachable false s ->
  got s `prefix_of` pub s /\ rc s = blen (got s) /\ wc s = blen (pub s) /\ 0 <= wc s - rc s <= n /\
  (forall data, r_pc s = RDone (Ok data) -> data `suffix_of` got s) /\
  w_pc s <> WDone Panic /\ r_pc s <> RDone Panic.
Proof.
  intros [HI _]%pinv_reachable. pose proof (pi_order _ HI). split_and!.
  - rewrite (pi_stream _ HI). apply prefix_take.
  - apply (pi_reader _ HI).
  - apply (pi_writer _ HI).
  - lia.
  - lia.
  - intros data Hp. pose proof (pi_r _ HI) as Hr. unfold r_ok in Hr. by rewrite Hp in Hr.
  - intros Hp. pose proof (pi_w _ HI) as Hw. unfold w_ok in Hw. by rewrite Hp in Hw.
  - intros Hp. pose proof (pi_r _ HI) as Hr. unfold r_ok in Hr. by rewrite Hp in Hr.
Qed.

(** C19: As long as no wait of a write has timed out, the result of a write is what is in the stream: [Ok(m)] means that the first [m] bytes of the buffer,
    and no others, follow what was there before the call, with [m] the whole buffer unless the reader has
    gone; an error means that nothing of the buffer is left in it. *)
Theorem pipe_write_result s : pipe_reachable false s ->
  (forall m, w_pc s = WDone (Ok m) ->
     0 < m <= blen (cur s) /\ (m = blen (cur s) \/ r_gone s = true) /\
     pub s = take (Z.to_nat (base s)) (pub s) ++ take (Z.to_nat m) (cur s)) /\
  (forall e, w_pc s = WDone (Err e) -> blen (pub s) <= base s).
Proof.
  intros [HI _]%pinv_reachable. pose proof (pi_w _ HI) as Hw. unfold w_ok in Hw. split.
  - intros m Hp. rewrite Hp in Hw. by destruct Hw as (A1 & (_ & _ & A2) & A3).
  - intros e Hp. rewrite Hp in Hw. by rewrite <- (pi_writer _ HI).
Qed.

(** C27: The bytes that a writer is copying into the ring and those that a reader is copying out of it at the
    same time are different, as long as no wait of a write has timed out. *)
Theorem pipe_exclusive s buf w tw c len last tr c' i j : pipe_reachable false s ->
  w_pc s = WCopy buf w tw c -> r_pc s = RCopy len last tr c' -> 0 <= i < tw -> 0 <= j < tr ->
  (c + i) mod n <> (c' + j) mod n.
Proof.
  intros [HI _]%pinv_reachable Hw Hr Hi Hj E. pose proof (pi_w _ HI) as W. pose proof (pi_r _ HI) as R.
  unfold w_ok in W. unfold r_ok in R. rewrite Hw in W. rewrite Hr in R. destruct W as (_ & _ & _ & -> & _ & W).
  destruct R as (-> & _ & R). pose proof n_bounds. pose proof (pi_order _ HI).
  assert (Hd : (wc s + i - (rc s + j)) mod n = 0) by (by rewrite Zminus_mod, E, Z.sub_diag, Z.mod_0_l by lia).
  rewrite Z.mod_small in Hd by lia. lia.
Qed.

(** C32: Calls end: with bytes in the pipe a read that nobody disturbs returns after at most 6 accesses, with as
    many of the oldest bytes as fit; with room for its buffer a write returns after at most 7, with all of
    it. *)
Theorem pipe_calls_end s : pipe_reachable false s ->
  (forall len, 0 < len -> rc s < wc s ->
     exists sh e, r_solo 6 (ps s) (r_err s) (RStart len) =
       (sh, e, RDone (Ok (slice (Z.to_nat (rc s)) (Z.to_nat (Z.min len (wc s - rc s))) (pub s))))) /\
  (forall buf, w_err s = None -> buf <> [] -> wc s + blen buf <= rc s + n ->
     exists sh, w_solo 7 (ps s) None (WStart buf) = (sh, None, WDone (Ok (blen buf)))).
Proof. intros [HI Hlim]%pinv_reachable. split; intros; [by apply read_ends|by apply write_ends]. Qed.
End Ring.

(** ** Executions of a pipe of one page *)

Module PipeSample.
Inductive move : Type :=
| MWrite (buf : bytes)
| MRead (len : Z)
| MQuit
| MW (sys : option PipeError)
| MR (sys : option PipeError).

Section Moves.
Context (k : Z) (timeouts : bool).
Let n : Z := 2 ^ k.

Definition w_idle (s : psys) : bool := match w_pc s with WDone _ => true | _ => false end.
Definition r_idle (s : psys) : bool := match r_pc s with RDone _ => true | _ => false end.
Definition sys_ok (s : psys) (sys : option PipeError) : bool :=
  match sys with
  | None => true
  | Some e => r_gone s || timeouts && bool_decide (e = TimedOut) && match w_pc s with WWait _ _ => true | _ => false end
  end.

Definition do_move (m : move) (s : psys) : option psys :=
  match m with
  | MWrite buf =>
    if w_idle s then Some (mkPsys (ps s) (w_err s) (WStart buf) (r_err s) (r_pc s) (r_gone s) (pub s) (got s)
      (writer_counter (ps s)) buf (total s)) else None
  | MRead len =>
    if (0 <=? len) && negb (r_gone s) && r_idle s
    then Some (mkPsys (ps s) (w_err s) (w_pc s) (r_err s) (RStart len) (r_gone s) (pub s) (got s) (base s) (cur s) (total s)) else None
  | MQuit =>
    if r_idle s then Some (mkPsys (ps s) (w_err s) (w_pc s) (r_err s) (r_pc s) true (pub s) (got s) (base s) (cur s) (total s)) else None
  | MW sys =>
    if sys_ok s sys then
      let '(sh, e, p) := w_step n sys (ps s) (w_err s) (w_pc s) in
      Some (mkPsys sh e p (r_err s) (r_pc s) (r_gone s) (w_pub (w_pc s) (pub s)) (got s) (base s) (cur s) (total s + w_count (w_pc s)))
    else None
  | MR sys =>
    let '(sh, e, p) := r_step n sys (ps s) (r_err s) (r_pc s) in
    Some (mkPsys sh (w_err s) (w_pc s) e p (r_gone s) (pub s) (r_got (r_pc s) (got s)) (base s) (cur s) (total s))
  end.

Lemma do_move_step m s s' : do_move m s = Some s' -> pipe_step k timeouts s s'.
Proof.
  destruct m as [buf|len| |sys|sys]; simpl.
  - unfold w_idle. destruct (w_pc s) eqn:E; try done. intros [= <-]. by apply step_write with r.
  - unfold r_idle. destruct (Z.leb_spec 0 len); [|done]. destruct (r_gone s) eqn:Eg; [done|].
    destruct (r_pc s) eqn:E; try done. intros [= <-]. rewrite <- Eg. by apply step_read with r.
  - unfold r_idle. destruct (r_pc s) eqn:E; try done. intros [= <-]. rewrite <- E. by apply step_quit with r.
  - destruct (sys_ok s sys) eqn:Ef; [|done]. destruct (w_step _ _ _ _ _) as [[sh e] p] eqn:E. intros [= <-].
    apply step_w with sys; [|done]. unfold sys_ok in Ef. destruct sys as [err|]; [right|by left].
    destruct (r_gone s); [by left|right]. simpl in Ef. destruct timeouts; [|done]. simpl in Ef.
    destruct (bool_decide_reflect (err = TimedOut)) as [->|]; [|done]. simpl in Ef. destruct (w_pc s); try done. eauto.
  - destruct (r_step _ _ _ _ _) as [[sh e] p] eqn:E. intros [= <-]. by apply step_r with sys.
Qed.

Fixpoint run_moves (l : list move) (s : psys) : option psys :=
  match l with
  | [] => Some s
  | m :: l' =>
    match do_move m s with
    | Some s' => if total s' <? LIMIT then run_moves l' s' else None
    | None => None
    end
  end.

Lemma pipe_run_reachable l s s' : pipe_reachable k timeouts s -> run_moves l s = Some s' -> pipe_reachable k timeouts s'.
Proof.
  revert s. induction l as [|m l IH]; simpl; intros s Hr; [by intros [= <-]|].
  destruct (do_move m s) as [s1|] eqn:E; [|done]. destruct (Z.ltb_spec (total s1) LIMIT); [|done].
  apply IH. apply (pipe_next k timeouts s); [done|by apply (do_move_step m)|done].
Qed.
End Moves.

(** [make_pair] shares a page, half of which is the ring. *)
Lemma page_ring : PipeBuffer_new 4096 4096 0 = Ok (2 ^ 11).
Proof. vm_compute. reflexivity. Qed.

Definition empty_ring : bytes := repeat Byte.x00 2048.
Definition full : bytes := repeat Byte.x61 2048.
Definition steps (m : nat) : list move := repeat (MW None) m.

(** A write fills the ring; the next one has to wait while a read is copying, and its wait times out: it
    takes back the whole ring.  Then the read advances its counter and the next read starts. *)
Definition timeout_run : list move :=
  MWrite full :: steps 6 ++ [MWrite [Byte.x62]; MW None; MW None] ++
  [MRead 1; MR None; MR None; MR None; MR None] ++ [MW (Some TimedOut); MW None; MW None] ++
  [MR None; MR None; MRead 1; MR None].

(** With a time-out the pipe breaks: a write whose wait times out takes back the bytes that were not read
    although the reader is still there.  The reader's counter then overtakes the writer's, and the next
    read panics; the bytes taken back belong to a write that had returned success. *)
Theorem pipe_timeout_breaks : exists s, pipe_reachable 11 true s /\
  r_pc s = RDone Panic /\ w_pc s = WDone (Err TimedOut) /\ writer_counter (ps s) < reader_counter (ps s).
Proof.
  assert (E : match run_moves 11 true timeout_run (pipe_start empty_ring) with
              | Some s => (r_pc s, w_pc s, writer_counter (ps s), reader_counter (ps s))
              | None => (RDone (Ok []), WDone (Ok 0), 0, 0)
              end = (RDone Panic, WDone (Err TimedOut), 0, 1)) by (vm_compute; reflexivity).
  destruct (run_moves 11 true timeout_run (pipe_start empty_ring)) as [s|] eqn:Er; [|discriminate E].
  injection E as E1 E2 E3 E4. exists s. split_and!; [|done|done|lia].
  apply (pipe_run_reachable 11 true timeout_run (pipe_start empty_ring)); [|done]. by apply pipe_new.
Qed.

Lemma k_ok : 0 <= 11 <= 60.
Proof. lia. Qed.

Lemma pipe_buffer_refines_witness : exists s',
  PipeBuffer_write (2 ^ 11) [Byte.x61; Byte.x62] (mkShared 2047 2047 empty_ring) = (s', Ok 2) /\
  ring_rep 11 s' [Byte.x61; Byte.x62].
Proof.
  destruct (pipe_buffer_refines 11 k_ok (mkShared 2047 2047 empty_ring) []) as [H _].
  - split; try done; cbn [reader_counter writer_counter work_buf]; unfold LIMIT; try done; try lia. intros i Hi. change (blen []) with 0 in Hi. lia.
  - apply (H [Byte.x61; Byte.x62]). done.
Defined.

(** A write of two bytes and a read of one. *)
Definition short_run : list move := MWrite [Byte.x61; Byte.x62] :: steps 6 ++ [MRead 1] ++ repeat (MR None) 6.

Lemma short_reachable : exists s, pipe_reachable 11 false s /\
  (w_pc s, r_pc s, got s, cur s, reader_counter (ps s), writer_counter (ps s), r_gone s) =
  (WDone (Ok 2), RDone (Ok [Byte.x61]), [Byte.x61], [Byte.x61; Byte.x62], 1, 2, false) /\ w_err s = None.
Proof.
  assert (E : match run_moves 11 false short_run (pipe_start empty_ring) with
              | Some s => (w_pc s, r_pc s, got s, cur s, reader_counter (ps s), writer_counter (ps s), r_gone s, w_err s)
              | None => (WDone Panic, RDone Panic, [], [], 0, 0, true, None)
              end = (WDone (Ok 2), RDone (Ok [Byte.x61]), [Byte.x61], [Byte.x61; Byte.x62], 1, 2, false, None)) by (vm_compute; reflexivity).
  destruct (run_moves 11 false short_run (pipe_start empty_ring)) as [s|] eqn:Er; [|discriminate E].
  injection E as E1 E2 E3 E4 E5 E6 E7 E8. exists s. split; [|split; [congruence|done]].
  apply (pipe_run_reachable 11 false short_run (pipe_start empty_ring)); [|done]. by apply pipe_new.
Qed.

Lemma pipe_stream_witness : exists s, pipe_reachable 11 false s /\ got s = [Byte.x61] /\ got s `prefix_of` pub s.
Proof.
  destruct short_reachable as (s & Hr & E & _). exists s. split; [exact Hr|]. split; [by injection E|].
  apply (pipe_stream 11 k_ok s Hr).
Defined.

Lemma pipe_write_result_witness : exists s, pipe_reachable 11 false s /\ w_pc s = WDone (Ok 2) /\
  pub s = take (Z.to_nat (base s)) (pub s) ++ take 2 (cur s).
Proof.
  destruct short_reachable as (s & Hr & E & _). exists s. split; [exact Hr|].
  assert (Hw : w_pc s = WDone (Ok 2)) by (by injection E). split; [exact Hw|].
  destruct (pipe_write_result 11 k_ok s Hr) as [H _]. apply (H 2 Hw).
Defined.

Lemma pipe_calls_end_witness : exists s sh e data, pipe_reachable 11 false s /\
  r_solo 11 6 (ps s) (r_err s) (RStart 16) = (sh, e, RDone (Ok data)).
Proof.
  destruct short_reachable as (s & Hr & E & _). destruct (pipe_calls_end 11 k_ok s Hr) as [H _].
  destruct (H 16) as (sh & e & Hs); [lia|injection E as _ _ _ _ -> -> _; lia|].
  eexists s, sh, e, _. split; [exact Hr|exact Hs].
Defined.

(** A writer and a reader that copy at the same time. *)
Definition busy_run : list move :=
  short_run ++ [MWrite [Byte.x63]; MW None; MW None; MW None; MRead 4; MR None; MR None; MR None].

Lemma busy_pipe_reachable : exists s, pipe_reachable 11 false s /\
  w_pc s = WCopy [Byte.x63] 0 1 2 /\ r_pc s = RCopy 4 false 1 1.
Proof.
  assert (E : match run_moves 11 false busy_run (pipe_start empty_ring) with
              | Some s => (w_pc s, r_pc s)
              | None => (WDone Panic, RDone Panic)
              end = (WCopy [Byte.x63] 0 1 2, RCopy 4 false 1 1)) by (vm_compute; reflexivity).
  destruct (run_moves 11 false busy_run (pipe_start empty_ring)) as [s|] eqn:Er; [|discriminate E].
  injection E as E1 E2. exists s. split; [|split; [exact E1|exact E2]].
  apply (pipe_run_reachable 11 false busy_run (pipe_start empty_ring)); [|done]. by apply pipe_new.
Qed.

Lemma pipe_exclusive_witness : (2 + 0) mod 2 ^ 11 <> (1 + 0) mod 2 ^ 11.
Proof.
  destruct busy_pipe_reachable as (s & Hr & Hw & Hp).
  apply (pipe_exclusive 11 k_ok s _ _ _ _ _ _ _ _ 0 0 Hr Hw Hp); lia.
Defined.
End PipeSample.
